(* ===== verification/_CoqProject ===== *)
-Q . S2P
Prelude.v
Wp.v
Digits.v
Json.v
CoreTypes.v
Sha256.v
Canonical.v
CanonicalInj.v
Serde.v
EventWire.v
ProgramWire.v
ProgramRead.v
CanonicalText.v
JsonDemo.v
DslError.v
DslExpr.v
DslPredicates.v
DslValidate.v
FrameView.v
Perception.v
PerceptionSpec.v
Input.v
CgSink.v
CgSpec.v
Runtime.v
RuntimeSpec.v
Capture.v
MacCapture.v
MacCaptureSpec.v
Clock.v
Scheduler.v
SchedulerSpec.v
SchedulerLive.v
SchedulerTrace.v
SchedulerOnce.v
SchedulerDemo.v
Host.v
Store.v
StoreSpec.v
StoreGc.v
StoreMap.v
StoreOpen.v
StoreLog.v
StoreAssets.v
Demo.v
StoreDemo.v
IpcWire.v
Ipc.v
IpcSpec.v
IpcDemo.v
Materialize.v
Daemon.v
Boot.v
Live.v
PumpSpec.v
SystemSpec.v
SubmitSpec.v
LiveSpec.v
LiveStop.v
LiveBoot.v
RestartSpec.v
ReloadSpec.v
DaemonDemo.v
Timestamp.v
TimestampSpec.v
Cli.v
CliCommands.v
CliSpec.v
CliDaemon.v
CliDemo.v
Backends.v
Platform.v
Listener.v
Conform.v
ConformCore.v
ConformPerception.v
ConformWire.v
ConformMachine.v
ConformDaemon.v
ConformCli.v
