(* ===== verification/Prelude.v ===== *)
(** * vcli: a verification library for the vision command-line runtime

    vcli watches a screen and acts on it.  A client submits a JSON program to a
    daemon; the daemon validates it, stores it and hands it to a scheduler; at
    every tick the scheduler captures a frame, evaluates the program's
    predicates on it and posts input.  The crates under [src/crates] are
    modelled here as executable functions, with the theorems that make them
    correct.  A reader may start with the specification files (names in [Spec],
    [Map], [Once], [Trace], [Live...]); the others hold the definitions, and the
    files named [Conform...] run the repository's own tests on them.  Every
    definition that renders code is preceded by a comment [src: file lines
    symbol].

    ** Parts

    - Shared: [Prelude] (results, [Panic] and [OutOfFuel] outcomes, the state
      monad, machine integers), [Wp] (weakest preconditions and their tactic),
      [Digits] (decimal numbers), [Demo] (concrete instances for the witnesses).
    - vcli-core: [Json], [CoreTypes], [Serde] (writers), [EventWire] and
      [ProgramWire] (derived readers) with [ProgramRead], [Sha256],
      [Canonical] with [CanonicalInj] and [CanonicalText], and the clocks in
      [Clock]; [JsonDemo] is a JSON parser and writer for the witnesses.
    - vcli-dsl: [DslError] (paths, errors, hints), [DslExpr], [DslPredicates]
      (the predicate graph), [DslValidate] (programs).
    - vcli-perception: [FrameView], [Perception]; laws in [PerceptionSpec].
    - vcli-capture: [Capture] (interface, mock, conversion), [MacCapture] with
      [MacCaptureSpec].  vcli-input: [Input] (interface, mock, keys), [CgSink]
      with [CgSpec] (the macOS back end), [Listener] (the thread that listens
      for the kill-switch chord, and the wait for the switch).  [Platform]: the
      Windows back ends, which refuse, and the build scripts.
    - vcli-runtime: [Runtime] (triggers, watches, body, arbiter) with
      [RuntimeSpec]; [Scheduler] with [SchedulerSpec], [SchedulerLive],
      [SchedulerTrace], [SchedulerOnce] and the examples of [SchedulerDemo].
    - vcli-store: [Host] (paths, files, faults), [Store] with [StoreSpec],
      [StoreGc], [StoreMap], [StoreOpen], [StoreLog], [StoreAssets], [StoreDemo].
    - vcli-ipc: [IpcWire] (messages), [Ipc] (framing, connection, client) with
      [IpcSpec], [IpcDemo].
    - vcli-daemon: [Materialize], [Daemon] (bridge, pump, requests), [Boot]
      (start, pidfile, shutdown) with [PumpSpec], [SystemSpec], [SubmitSpec],
      [RestartSpec], [ReloadSpec], [DaemonDemo]; [Live] (the service: accept
      loop, connections, pump, scheduler and signals as turns of one daemon)
      with [LiveSpec], [LiveStop], [LiveBoot]; [Backends] (what a daemon is
      built from); the module [Entry] of [Boot] is its [main].
    - vcli-cli: [Timestamp] with [TimestampSpec], [Cli], [CliCommands] with
      [CliSpec], [CliDaemon], [CliDemo].
    - Conformance: [Conform] (assertions, and stand-ins for the third-party
      crates: a JSON reader and writer, decimal floats, UUIDs), and
      [ConformCore], [ConformPerception], [ConformWire] (vcli-dsl, vcli-ipc),
      [ConformMachine] (input, capture, runtime), [ConformDaemon] (store,
      daemon), [ConformCli]: every unit test of a crate under its name, evaluated on the
      model.

    The parts meet as the crates do.  The scheduler runs over the interfaces
    [Capture], [InputSink] and [RuntimeClock] (classes, with the promises its
    liveness needs in classes beside them), reads commands from a queue and
    emits events into another; the pump of the daemon moves those events into
    the store and to subscribers; the transport serves any [Handler], and the
    daemon is one; the command line talks to a handler through the transport.

    ** Conventions

    A Rust function that can fail returns [result]; one that can panic returns
    an [outcome], where [Panic] stands for indexing, [unwrap], [assert] and the
    like; code with state is [ST S A], and what it did before an error stays
    done ([sbind]).  Integers are [Z]; wherever an operation can leave its type
    the wrap-around or saturation of the release build is written out.
    Whatever reaches the operating system or another crate is an argument: the
    classes [Host] (any call may fail), [NfcOps], [RyuOps], [Sha2], [ImageOps],
    [UuidOps], [JsonText], [SerdeOps], [Terminal], [MacOs], [ScreenKit],
    [HashOrder] and a few more.  What the code relies on is in classes of laws ([JsonTextLaws],
    [JsonReads], [FloatLaws], [UuidLaws], [RyuLaws], [Sha2Laws], [WireLaws], [CaptureOk] ...); theorems
    without them hold whatever the library does.  Each theorem with hypotheses
    has a witness on concrete data, with these parameters instantiated by the
    functions of [Demo] and the other [Demo] files.

    ** What the theorems show

    - Scheduling: a tick refines an abstract life cycle of programs, and the
      log of events replays to the states the programs are in
      ([tick_refines_lifecycle], [run_event_log_replays]); whatever commands
      arrive the loop never panics or diverges on validated programs that name
      no predicate as the runtime names inline ones ([scheduler_never_panics];
      [inline_name_shadowing_diverges] is about the others); one-shot watches
      fire once; of the programs that want to act in a tick exactly one does,
      and the others are announced as deferred ([one_program_acts_per_tick]);
      with an engaged kill switch a run posts no input through the mock sink or
      the macOS one ([kill_switch_stops_input]).
    - The daemon: however the turns of its tasks interleave (resume and gc
      aside), the rows of the store follow the scheduler, and agree with it when
      the pump has caught up ([rows_follow_scheduler]); from any moment of the
      service a signal opens the way out of it, and there is no other way out
      than past the end of the scheduler and the pump ([signal_ends_service]).
    - Persistence: submission is
      all or nothing for the table and the queue, and a program accepted is
      handed to the scheduler unchanged, with its images, by a later start
      ([accepted_program_survives_restart]); the store refines a finite
      map, listing included ([store_refines_map]); whatever the host does, any
      sequence of calls whose lookups are by hashes that have a shard directory
      returns and leaves the invariant, and one with another lookup panics
      ([store_never_breaks]); opening recovers running programs, and garbage
      collection spares every linked asset.
    - Transport: a frame does not depend on how its bytes are cut, and the
      answer of a handler comes back to the client as its text reads
      ([request_end_to_end]), unless it is over the frame limit.
    - Validation and perception: [validate_value] accepts exactly the documents
      the derived readers read as well-formed programs, and names the error
      otherwise; readers undo writers ([Program_reads_back]) and what they
      return is within the widths of its fields ([Program_read_wf]); canonical
      bytes are a JSON text of the document they were written from
      ([canonical_is_json]); evaluation terminates on them and has the logical meaning of
      the predicates; canonical texts are equal exactly for equal documents.
    - The back ends of macOS: a grabbed frame shows the pixels the system
      captured; windows are told apart by name and index; a drag follows its
      segments; over them the scheduler never panics ([mac_daemon_schedules]);
      the kill-switch listener hears exactly its chord, and its handle can be
      dropped once its loop runs ([listener_drop]).
    - The command line: exit codes, standard output and standard error as
      functions of the daemon's answers and of the file submitted; its calendar
      is the Gregorian one; its waits end.
    - Defects the model exhibits are theorems too: [recovery_defeats_resume],
      [reload_fills_queue], [short_digest_poisons_store],
      [inline_name_shadowing_diverges], the stuck button of [drag_contract],
      and the handle of [listener_drop] that is dropped too early.
    - The tests of the repository hold of the model ([handler_tests],
      [scenario_tests] and the like), so a definition that departs from the
      code where a test looks does not compile.

    ** Fuel

    Recursion that is not structural takes fuel, and a theorem says what is
    enough: the size of the predicate map for evaluation ([evaluable]), one
    step per node and per edge for the depth-first search of the graph, the
    length of the remaining input for reading frames, the turns of a
    waiting loop ([socket_wait_ends] needs 101), the depth of the directory for
    a walk of the asset tree.  No theorem concludes only about runs that happen
    to return, except where it says so.

    ** Not modelled

    The Apple frameworks themselves, which are foreign calls (their answers are
    [MacOs] and [ScreenKit]); image decoding, resampling and correlation
    ([ImageOps]); argument parsing ([clap]), logging, and the creation of
    processes and threads, whose outcomes are arguments.  The tasks of the
    daemon take turns at the points where the code awaits or blocks, in any
    order; what happens within a turn is sequential, as the mutex of the store
    makes it.  Tests whose subject is a third-party crate, a thread or a real
    clock are not restated. *)

From stdpp Require Export base gmap strings list fin_maps pretty sorting.
From Stdlib Require Export Ascii ZArith Lia.

#[export] Set Default Proof Using "Type*".
Declare Scope vcli_scope.
Delimit Scope vcli_scope with vcli.

(** ** Fallible code: Rust's [Result] *)

Inductive result (E A : Type) : Type :=
  | Ok (a : A)
  | Err (e : E).
Arguments Ok {E A} _.
Arguments Err {E A} _.

#[export] Instance result_eq_dec E A `{EqDecision E, EqDecision A} :
  EqDecision (result E A).
Proof. solve_decision. Defined.

#[export] Instance result_ret E : MRet (result E) := λ A a, Ok a.
#[export] Instance result_bind E : MBind (result E) :=
  λ A B f m, match m with Ok a => f a | Err e => Err e end.
#[export] Instance result_fmap E : FMap (result E) :=
  λ A B f m, match m with Ok a => Ok (f a) | Err e => Err e end.

(** [Result::map_err], [Option::ok_or] and [Result::ok]. *)
Definition map_err {E F A} (f : E → F) (m : result E A) : result F A :=
  match m with Ok a => Ok a | Err e => Err (f e) end.
Definition ok_or {E A} (o : option A) (e : E) : result E A :=
  match o with Some a => Ok a | None => Err e end.
Definition result_ok {E A} (m : result E A) : option A :=
  match m with Ok a => Some a | Err _ => None end.
Definition is_ok {E A} (m : result E A) : bool :=
  match m with Ok _ => true | Err _ => false end.

Lemma bind_Ok {E A B} (m : result E A) (f : A → result E B) b :
  m ≫= f = Ok b ↔ ∃ a, m = Ok a ∧ f a = Ok b.
Proof. destruct m; naive_solver. Qed.

Lemma bind_Err {E A B} (m : result E A) (f : A → result E B) e :
  m ≫= f = Err e ↔ m = Err e ∨ ∃ a, m = Ok a ∧ f a = Err e.
Proof. destruct m; naive_solver. Qed.

Lemma fmap_Ok {E A B} (m : result E A) (f : A → B) b :
  f <$> m = Ok b ↔ ∃ a, m = Ok a ∧ b = f a.
Proof. destruct m; naive_solver. Qed.

Lemma map_err_Ok {E F A} (f : E → F) (m : result E A) a :
  map_err f m = Ok a ↔ m = Ok a.
Proof. destruct m; naive_solver. Qed.

Lemma ok_or_Ok {E A} (o : option A) (e : E) a : ok_or o e = Ok a ↔ o = Some a.
Proof. destruct o; naive_solver. Qed.

Lemma is_ok_true {E A} (m : result E A) : is_ok m = true ↔ ∃ a, m = Ok a.
Proof. destruct m; naive_solver. Qed.

(** [for x in l { f(x)?; }] and its variant over [l.iter().enumerate()]. *)
Fixpoint for_each {E A} (f : A → result E ()) (l : list A) : result E () :=
  match l with
  | [] => Ok ()
  | x :: l => _ ← f x; for_each f l
  end.

Fixpoint for_each_i {E A} (f : nat → A → result E ()) (i : nat) (l : list A)
    : result E () :=
  match l with
  | [] => Ok ()
  | x :: l => _ ← f i x; for_each_i f (S i) l
  end.

Lemma for_each_Ok {E A} (f : A → result E ()) l :
  for_each f l = Ok () ↔ Forall (λ x, f x = Ok ()) l.
Proof.
  induction l as [|x l IH]; simpl; [by rewrite Forall_nil|].
  rewrite Forall_cons, <-IH. destruct (f x) as [[]|]; naive_solver.
Qed.

Lemma for_each_i_Ok {E A} (f : nat → A → result E ()) i l :
  for_each_i f i l = Ok () ↔ ∀ j x, l !! j = Some x → f (i + j) x = Ok ().
Proof.
  revert i. induction l as [|x l IH]; intros i; simpl.
  { split; [|done]. intros _ j y. by rewrite lookup_nil. }
  rewrite bind_Ok. setoid_rewrite IH. split.
  - intros ([] & Hx & Hl) [|j] y; simpl; intros Hy; simplify_eq.
    + by rewrite Nat.add_0_r.
    + rewrite <-Nat.add_succ_comm. by apply Hl.
  - intros Hl. exists (). split.
    + specialize (Hl 0 x eq_refl). by rewrite Nat.add_0_r in Hl.
    + intros j y Hy. rewrite Nat.add_succ_comm. by apply (Hl (S j)).
Qed.

(** When the body does not look at the index the two loops agree. *)
Lemma for_each_i_Forall {E A} (f : nat → A → result E ()) (P : A → Prop) i l :
  (∀ j x, f j x = Ok () ↔ P x) → for_each_i f i l = Ok () ↔ Forall P l.
Proof.
  intros Hf. rewrite for_each_i_Ok, Forall_lookup. by setoid_rewrite Hf.
Qed.

(** [simplify_result] turns hypotheses about the [Ok] result of a composed
    computation into hypotheses about its parts. *)
Ltac simplify_result :=
  repeat match goal with
  | H : _ ≫= _ = Ok _ |- _ => apply bind_Ok in H as (? & ? & ?)
  | H : _ <$> _ = Ok _ |- _ => apply fmap_Ok in H as (? & ? & ?)
  | H : map_err _ _ = Ok _ |- _ => apply map_err_Ok in H
  | H : ok_or _ _ = Ok _ |- _ => apply ok_or_Ok in H
  | H : Ok _ = Ok _ |- _ => injection H as H
  | H : Err _ = Ok _ |- _ => discriminate H
  | H : Ok _ = Err _ |- _ => discriminate H
  | x : () |- _ => destruct x
  end; simplify_eq.

(** ** Code that may panic or fail to terminate *)

(** A run of a stateful function either returns, panics (an out-of-bounds
    slice, a failed [unwrap]) or exhausts the fuel the model gave it. *)
Inductive outcome (A : Type) : Type :=
  | Ret (a : A)
  | Panic
  | OutOfFuel.
Arguments Ret {A} _.
Arguments Panic {A}.
Arguments OutOfFuel {A}.

#[export] Instance outcome_ret : MRet outcome := λ A a, Ret a.
#[export] Instance outcome_bind : MBind outcome :=
  λ A B f m, match m with Ret a => f a | Panic => Panic | OutOfFuel => OutOfFuel end.

Lemma outcome_bind_Ret {A B} (m : outcome A) (f : A → outcome B) b :
  m ≫= f = Ret b ↔ ∃ a, m = Ret a ∧ f a = Ret b.
Proof. destruct m; naive_solver. Qed.

(** Fallible code that may also panic or diverge; [x ←? m; k] is [let x = m?; k]. *)
Definition obind {E A B} (m : outcome (result E A)) (f : A → outcome (result E B))
    : outcome (result E B) :=
  r ← m; match r with Ok a => f a | Err e => Ret (Err e) end.

Notation "x ←? m ; k" := (obind m (λ x, k))
  (at level 20, m at level 100, k at level 200, only parsing) : vcli_scope.

Lemma obind_Ok {E A B} (m : outcome (result E A)) (f : A → outcome (result E B)) b :
  obind m f = Ret (Ok b) ↔ ∃ a, m = Ret (Ok a) ∧ f a = Ret (Ok b).
Proof. unfold obind. destruct m as [[]| |]; naive_solver. Qed.

Lemma obind_total {E A B} (m : outcome (result E A)) (f : A → outcome (result E B)) :
  (∃ r, m = Ret r) → (∀ a, m = Ret (Ok a) → ∃ r, f a = Ret r) → ∃ r, obind m f = Ret r.
Proof. intros [[] ->] Hf; unfold obind; simpl; eauto. Qed.

(** ** Machine integers

    Integers are carried as [Z] with the range of their Rust type; the
    operators that can leave the range are written with the wrap-around or
    saturation the source asks for.  Plain [+]/[-]/[*] on a sized type is the
    release-profile operator, which wraps. *)

Definition u8_max : Z := 255.
Definition u16_max : Z := 65535.
Definition u32_max : Z := 4294967295.
Definition i32_min : Z := -2147483648.
Definition i32_max : Z := 2147483647.
Definition i64_min : Z := -9223372036854775808.
Definition i64_max : Z := 9223372036854775807.
Definition u64_max : Z := 18446744073709551615.

Definition in_u8 (z : Z) : Prop := (0 ≤ z ≤ u8_max)%Z.
Definition in_u16 (z : Z) : Prop := (0 ≤ z ≤ u16_max)%Z.
Definition in_u32 (z : Z) : Prop := (0 ≤ z ≤ u32_max)%Z.
Definition in_i32 (z : Z) : Prop := (i32_min ≤ z ≤ i32_max)%Z.
Definition in_i64 (z : Z) : Prop := (i64_min ≤ z ≤ i64_max)%Z.
Definition in_u64 (z : Z) : Prop := (0 ≤ z ≤ u64_max)%Z.

Definition wrap_i32 (z : Z) : Z := ((z + 2147483648) mod 4294967296 - 2147483648)%Z.
Definition wrap_u32 (z : Z) : Z := (z mod 4294967296)%Z.
Definition wrap_i64 (z : Z) : Z :=
  ((z + 9223372036854775808) mod 18446744073709551616 - 9223372036854775808)%Z.
Definition wrap_u64 (z : Z) : Z := (z mod 18446744073709551616)%Z.
Definition sat_i64 (z : Z) : Z := Z.max i64_min (Z.min i64_max z).

(** [i64::saturating_add] and [i64::saturating_sub]. *)
Definition saturating_add_i64 (a b : Z) : Z := sat_i64 (a + b).
Definition saturating_sub_i64 (a b : Z) : Z := sat_i64 (a - b).

Ltac unfold_ints :=
  unfold in_u8, in_u16, in_u32, in_i32, in_i64, in_u64, saturating_add_i64,
    saturating_sub_i64, sat_i64, u8_max, u16_max, u32_max, i32_min, i32_max,
    i64_min, i64_max, u64_max in *.

(** [ints] closes a goal about machine integers whose wrap-arounds have been
    removed. *)
Ltac ints := unfold_ints; lia.

Lemma wrap_i32_id z : in_i32 z → wrap_i32 z = z.
Proof. unfold wrap_i32. unfold_ints. intros. rewrite Z.mod_small; lia. Qed.
Lemma wrap_i32_range z : in_i32 (wrap_i32 z).
Proof.
  unfold wrap_i32. unfold_ints.
  pose proof (Z.mod_pos_bound (z + 2147483648) 4294967296). lia.
Qed.
Lemma wrap_u32_id z : in_u32 z → wrap_u32 z = z.
Proof. unfold wrap_u32. unfold_ints. intros. rewrite Z.mod_small; lia. Qed.
Lemma wrap_u32_range z : in_u32 (wrap_u32 z).
Proof.
  unfold wrap_u32. unfold_ints. pose proof (Z.mod_pos_bound z 4294967296). lia.
Qed.
Lemma wrap_i64_id z : in_i64 z → wrap_i64 z = z.
Proof. unfold wrap_i64. unfold_ints. intros. rewrite Z.mod_small; lia. Qed.
Lemma wrap_u64_id z : in_u64 z → wrap_u64 z = z.
Proof. unfold wrap_u64. unfold_ints. intros. rewrite Z.mod_small; lia. Qed.
Lemma saturating_sub_i64_small a b :
  in_i64 (a - b) → saturating_sub_i64 a b = (a - b)%Z.
Proof. ints. Qed.
Lemma saturating_add_i64_small a b :
  in_i64 (a + b) → saturating_add_i64 a b = (a + b)%Z.
Proof. ints. Qed.

#[export] Hint Resolve wrap_i32_range wrap_u32_range : core.

(** ** Strings

    A Rust [str] is a sequence of bytes; a Rocq [string] is one too, so a
    [str] is modelled by the [string] of its UTF-8 bytes.  [strip_prefix],
    [split_once] and [split] by an ASCII separator act on bytes. *)

Fixpoint strip_prefix (p s : string) : option string :=
  match p, s with
  | EmptyString, _ => Some s
  | String a p', String b s' => if decide (a = b) then strip_prefix p' s' else None
  | String _ _, EmptyString => None
  end.

Fixpoint split_once (c : ascii) (s : string) : option (string * string) :=
  match s with
  | EmptyString => None
  | String a s' =>
      if decide (a = c) then Some (EmptyString, s')
      else match split_once c s' with
           | Some (l, r) => Some (String a l, r)
           | None => None
           end
  end.

(** [s.split(c)]: never empty. *)
Fixpoint split_on (c : ascii) (s : string) : list string :=
  match s with
  | EmptyString => [EmptyString]
  | String a s' =>
      if decide (a = c) then EmptyString :: split_on c s'
      else match split_on c s' with
           | [] => [String a EmptyString]
           | w :: ws => String a w :: ws
           end
  end.

Definition string_is_empty (s : string) : bool :=
  match s with EmptyString => true | _ => false end.

Fixpoint string_forallb (f : ascii → bool) (s : string) : bool :=
  match s with
  | EmptyString => true
  | String a s' => f a && string_forallb f s'
  end.

Lemma strip_prefix_Some p s r : strip_prefix p s = Some r ↔ s = p +:+ r.
Proof.
  revert s. induction p as [|a p IH]; intros s; [simpl; split; naive_solver|].
  destruct s as [|b s]; simpl; [split; [done|intros [=]]|].
  case_decide as Hab.
  - subst. rewrite IH. unfold String.app; simpl. naive_solver.
  - split; [done|]. unfold String.app; simpl. naive_solver.
Qed.

Definition not_in_string (c : ascii) (s : string) : Prop :=
  string_forallb (λ a, bool_decide (a ≠ c)) s = true.

Lemma not_in_string_cons c a s :
  not_in_string c (String a s) ↔ a ≠ c ∧ not_in_string c s.
Proof.
  unfold not_in_string; simpl. by rewrite andb_true_iff, bool_decide_eq_true.
Qed.

Lemma string_append_nil_l s : EmptyString +:+ s = s.
Proof. done. Qed.

Lemma string_append_cons a s t : String a s +:+ t = String a (s +:+ t).
Proof. done. Qed.

Lemma string_append_nil_r s : s +:+ EmptyString = s.
Proof. induction s as [|a s IH]; [done|]. by rewrite string_append_cons, IH. Qed.

Lemma string_append_assoc s t u : s +:+ (t +:+ u) = (s +:+ t) +:+ u.
Proof.
  induction s as [|a s IH]; [done|]. rewrite !string_append_cons. by f_equal.
Qed.

Lemma split_once_app c l r :
  not_in_string c l → split_once c (l +:+ String c r) = Some (l, r).
Proof.
  induction l as [|a l IH].
  - intros _. simpl. by rewrite decide_True.
  - rewrite not_in_string_cons, string_append_cons. intros [Ha Hl]. simpl.
    rewrite decide_False by done. by rewrite IH.
Qed.

Lemma split_once_Some c s l r :
  split_once c s = Some (l, r) ↔ s = l +:+ String c r ∧ not_in_string c l.
Proof.
  split; [|intros [-> ?]; by apply split_once_app].
  revert l r. induction s as [|a s IH]; intros l r; simpl; [done|].
  case_decide as Ha; [intros; by simplify_eq|].
  destruct (split_once c s) as [[l' r']|] eqn:Hs; intros [= <- <-].
  destruct (IH l' r' eq_refl) as [-> Hl']. by rewrite not_in_string_cons.
Qed.

Lemma split_on_not_in c s : not_in_string c s → split_on c s = [s].
Proof.
  induction s as [|a s IH]; [done|]. rewrite not_in_string_cons.
  intros [Ha Hs]. simpl. rewrite decide_False by done. by rewrite IH.
Qed.

Lemma split_on_app c l r :
  not_in_string c l → split_on c (l +:+ String c r) = l :: split_on c r.
Proof.
  induction l as [|a l IH].
  - intros _. simpl. by rewrite decide_True.
  - rewrite not_in_string_cons, string_append_cons. intros [Ha Hl]. simpl.
    rewrite decide_False by done. by rewrite IH.
Qed.


(** ** Ordered maps

    [BTreeMap<String, V>] is a [gmap string V] whose keys are visited in
    increasing byte order, Rust's [Ord for str]. *)

Definition btree_keys {V} (m : gmap string V) : list string :=
  merge_sort String.le (elements (dom m)).

Definition btree_entries {V} (m : gmap string V) : list (string * V) :=
  omap (λ k, (λ v, (k, v)) <$> m !! k) (btree_keys m).

Lemma btree_keys_perm {V} (m : gmap string V) : btree_keys m ≡ₚ elements (dom m).
Proof. apply merge_sort_Permutation. Qed.

Lemma elem_of_btree_keys {V} (m : gmap string V) k :
  k ∈ btree_keys m ↔ is_Some (m !! k).
Proof. by rewrite btree_keys_perm, elem_of_elements, elem_of_dom. Qed.

Lemma NoDup_btree_keys {V} (m : gmap string V) : NoDup (btree_keys m).
Proof. rewrite btree_keys_perm. apply NoDup_elements. Qed.

Lemma btree_entries_singleton {V} k (v : V) : btree_entries {[ k := v ]} = [(k, v)].
Proof.
  unfold btree_entries, btree_keys. rewrite dom_singleton_L, elements_singleton. simpl.
  by rewrite lookup_singleton_eq.
Qed.

Lemma elem_of_btree_entries {V} (m : gmap string V) k v :
  (k, v) ∈ btree_entries m ↔ m !! k = Some v.
Proof.
  unfold btree_entries. rewrite list_elem_of_omap. split.
  - intros (k' & _ & Hk'). destruct (m !! k') eqn:?; naive_solver.
  - intros Hk. exists k. rewrite elem_of_btree_keys, Hk. naive_solver.
Qed.

Lemma NoDup_btree_entries {V} (m : gmap string V) : NoDup (btree_entries m).*1.
Proof.
  unfold btree_entries. pose proof (NoDup_btree_keys m) as Hnd.
  induction Hnd as [|k l Hk Hnd IH]; simpl; [constructor|].
  destruct (m !! k) as [v|]; simpl; [|done]. apply NoDup_cons. split; [|done].
  rewrite list_elem_of_fmap. intros ([k' v'] & -> & Hin). apply Hk.
  apply list_elem_of_omap in Hin as (k'' & ? & Hv). destruct (m !! k''); naive_solver.
Qed.

Lemma length_btree_keys {V} (m : gmap string V) : length (btree_keys m) = size m.
Proof. by rewrite btree_keys_perm, <-size_dom. Qed.

(** ** State passing

    [ST S A] threads a state [S] through code that may also panic. *)

Definition ST (S A : Type) : Type := S → outcome (A * S).

#[export] Instance ST_ret S : MRet (ST S) := λ A a s, Ret (a, s).
#[export] Instance ST_bind S : MBind (ST S) :=
  λ A B f m s, m s ≫= λ '(a, s'), f a s'.

Definition get {S} : ST S S := λ s, Ret (s, s).
Definition modify {S} (f : S → S) : ST S () := λ s, Ret ((), f s).
Definition panic {S A} : ST S A := λ _, Panic.
Definition out_of_fuel {S A} : ST S A := λ _, OutOfFuel.
(** [Option::unwrap] and map indexing: panic on [None]. *)
Definition unwrap {S A} (o : option A) : ST S A :=
  match o with Some a => mret a | None => panic end.

Fixpoint mfor {S A} (f : A → ST S ()) (l : list A) : ST S () :=
  match l with
  | [] => mret ()
  | x :: l => _ ← f x; mfor f l
  end.

Fixpoint mfold {S A B} (f : A → B → ST S A) (acc : A) (l : list B) : ST S A :=
  match l with
  | [] => mret acc
  | x :: l => acc ← f acc x; mfold f acc l
  end.

Lemma ST_bind_Ret {S A B} (m : ST S A) (f : A → ST S B) s b s' :
  (m ≫= f) s = Ret (b, s') ↔ ∃ a s1, m s = Ret (a, s1) ∧ f a s1 = Ret (b, s').
Proof.
  unfold mbind, ST_bind. rewrite outcome_bind_Ret. split.
  - intros ([a s1] & ? & ?). eauto.
  - intros (a & s1 & ? & ?). by exists (a, s1).
Qed.

(** A relation between the states before and after that holds for every body
    of a loop, and is reflexive and transitive, holds for the loop. *)
Lemma mfor_rel {S A} (R : relation S) `{!PreOrder R} (f : A → ST S ()) l s s' :
  (∀ x s s', x ∈ l → f x s = Ret ((), s') → R s s') →
  mfor f l s = Ret ((), s') → R s s'.
Proof.
  revert s. induction l as [|x l IH]; intros s Hf; simpl.
  { intros [= ->]. done. }
  rewrite ST_bind_Ret. intros ([] & s1 & Hx & Hl).
  trans s1; [apply (Hf x); [by left|done]|].
  apply IH; [|done]. intros y t t' Hy. apply Hf. by right.
Qed.

(** [simplify_ST] inverts a hypothesis [m s = Ret (a, s')] about composed
    stateful code. *)
Ltac simplify_ST :=
  repeat match goal with
  | H : (_ ≫= _) _ = Ret (_, _) |- _ => apply ST_bind_Ret in H as (? & ? & ? & ?)
  | H : mret _ _ = Ret _ |- _ => unfold mret, ST_ret in H
  | H : get _ = Ret _ |- _ => unfold get in H
  | H : modify _ _ = Ret _ |- _ => unfold modify in H
  | H : panic _ = Ret _ |- _ => discriminate H
  | H : out_of_fuel _ = Ret _ |- _ => discriminate H
  | H : Ret _ = Ret _ |- _ => injection H as H
  | x : () |- _ => destruct x
  end; simplify_eq.

(** Fallible stateful code: the state changes made before an error stay. *)
Definition sbind {S E A B} (m : ST S (result E A)) (f : A → ST S (result E B))
    : ST S (result E B) :=
  r ← m; match r with Ok a => f a | Err e => mret (Err e) end.
Definition sok {S E A} (a : A) : ST S (result E A) := mret (Ok a).
Definition serr {S E A} (e : E) : ST S (result E A) := mret (Err e).
(** Code that does not touch the state. *)
Definition slift {S A} (m : outcome A) : ST S A := λ s, a ← m; Ret (a, s).

Notation "x ←! m ; k" := (sbind m (λ x, k))
  (at level 20, m at level 100, k at level 200, only parsing) : vcli_scope.

Lemma sbind_Ok {S E A B} (m : ST S (result E A)) (f : A → ST S (result E B)) s b s' :
  sbind m f s = Ret (Ok b, s') ↔
  ∃ a s1, m s = Ret (Ok a, s1) ∧ f a s1 = Ret (Ok b, s').
Proof.
  unfold sbind. rewrite ST_bind_Ret. split.
  - intros ([a|e] & s1 & ? & Hf); [eauto|]. unfold mret, ST_ret in Hf. by simplify_eq.
  - intros (a & s1 & ? & ?). exists (Ok a), s1. auto.
Qed.

Lemma sbind_Ret {S E A B} (m : ST S (result E A)) (f : A → ST S (result E B)) s r s' :
  sbind m f s = Ret (r, s') ↔
  (∃ a s1, m s = Ret (Ok a, s1) ∧ f a s1 = Ret (r, s')) ∨
  (∃ e, m s = Ret (Err e, s') ∧ r = Err e).
Proof.
  unfold sbind. rewrite ST_bind_Ret. split.
  - intros ([a|e] & s1 & ? & Hf); [eauto|]. unfold mret, ST_ret in Hf. simplify_eq. eauto.
  - intros [(a & s1 & ? & ?)|(e & ? & ->)]; [by exists (Ok a), s1|by exists (Err e), s'].
Qed.
