(* ===== verification/Wp.v ===== *)
(** * Weakest preconditions for stateful code

    [wp m Q s]: run from [s], [m] returns (it neither panics nor runs out of
    fuel), and [Q] holds of its answer and the state it leaves.  One rule per
    construct of the state monad; [wp_step] applies the rule the program at
    the head calls for. *)

From S2P Require Import Prelude.

Local Open Scope vcli_scope.

Definition wp {S A} (m : ST S A) (Q : A → S → Prop) (s : S) : Prop :=
  ∃ a s', m s = Ret (a, s') ∧ Q a s'.

(** The postcondition of fallible code, from one for success and one for error. *)
Definition on_result {S E A} (Q : A → S → Prop) (R : E → S → Prop) (r : result E A) (s : S)
    : Prop :=
  match r with Ok a => Q a s | Err e => R e s end.

(** A loop whose body may fail: [for x in l { .. ? .. }]. *)
Fixpoint try_fold {S E A B} (f : A → B → ST S (result E A)) (acc : A) (l : list B)
    : ST S (result E A) :=
  match l with
  | [] => sok acc
  | x :: l => acc' ←! f acc x; try_fold f acc' l
  end.

Section rules.
Context {S : Type}.
Implicit Types s : S.

Lemma wp_ret {A} (a : A) (Q : A → S → Prop) s : Q a s → wp (mret a) Q s.
Proof. intros HQ. by exists a, s. Qed.

Lemma wp_bind {A B} (m : ST S A) (f : A → ST S B) Q s :
  wp m (λ a, wp (f a) Q) s → wp (m ≫= f) Q s.
Proof.
  intros (a & s1 & Hm & b & s2 & Hf & HQ). exists b, s2. split; [|done].
  unfold mbind, ST_bind. by rewrite Hm.
Qed.

Lemma wp_sbind {E A B} (m : ST S (result E A)) (f : A → ST S (result E B)) Q s :
  wp m (on_result (λ a, wp (f a) Q) (λ e, Q (Err e))) s → wp (sbind m f) Q s.
Proof.
  intros (r & s1 & Hm & Hr). unfold sbind. apply wp_bind. exists r, s1.
  split; [done|]. destruct r as [a|e]; [done|by apply wp_ret].
Qed.

Lemma wp_sok {E A} (a : A) (Q : result E A → S → Prop) s : Q (Ok a) s → wp (sok a) Q s.
Proof. apply wp_ret. Qed.
Lemma wp_serr {E A} (e : E) (Q : result E A → S → Prop) s : Q (Err e) s → wp (serr e) Q s.
Proof. apply wp_ret. Qed.

Lemma wp_get (Q : S → S → Prop) s : Q s s → wp get Q s.
Proof. intros HQ. by exists s, s. Qed.
Lemma wp_modify (f : S → S) (Q : () → S → Prop) s : Q () (f s) → wp (modify f) Q s.
Proof. intros HQ. by exists (), (f s). Qed.
Lemma wp_unwrap {A} (o : option A) (Q : A → S → Prop) s a :
  o = Some a → Q a s → wp (unwrap o) Q s.
Proof. intros -> HQ. by apply wp_ret. Qed.
Lemma wp_slift {A} (m : outcome A) (Q : A → S → Prop) s a :
  m = Ret a → Q a s → wp (slift m) Q s.
Proof. intros -> HQ. by exists a, s. Qed.

Lemma wp_mono {A} (m : ST S A) (Q Q' : A → S → Prop) s :
  wp m Q s → (∀ a s', Q a s' → Q' a s') → wp m Q' s.
Proof. intros (a & s' & Hm & HQ) Himp. exists a, s'. auto. Qed.

Lemma wp_mono_result {E A} (m : ST S (result E A)) (Q Q' : A → S → Prop)
    (R R' : E → S → Prop) s :
  wp m (on_result Q R) s → (∀ a s', Q a s' → Q' a s') → (∀ e s', R e s' → R' e s') →
  wp m (on_result Q' R') s.
Proof. intros Hm HQ HR. apply (wp_mono _ _ _ _ Hm). intros [a|e] s'; simpl; auto. Qed.

(** The run that is at hand is the one the precondition speaks of. *)
Lemma wp_Ret {A} (m : ST S A) (Q : A → S → Prop) s a s' :
  wp m Q s → m s = Ret (a, s') → Q a s'.
Proof. intros (b & t & Hm & HQ) Hm'. rewrite Hm in Hm'. by simplify_eq. Qed.

Lemma wp_and {A} (m : ST S A) (Q Q' : A → S → Prop) s :
  wp m Q s → wp m Q' s → wp m (λ a s', Q a s' ∧ Q' a s') s.
Proof.
  intros (a & s' & Hm & HQ) HQ'. exists a, s'. split; [done|].
  split; [done|]. by apply (wp_Ret m _ s).
Qed.

(** The invariant of a loop may mention what is left to do. *)
Lemma wp_mfor {A} (f : A → ST S ()) (I : list A → S → Prop) l s :
  I l s →
  (∀ x l s, I (x :: l) s → wp (f x) (λ _, I l) s) →
  wp (mfor f l) (λ _, I []) s.
Proof.
  intros HI Hf. revert s HI. induction l as [|x l IH]; intros s HI; simpl.
  { by apply wp_ret. }
  apply wp_bind. eapply wp_mono; [by apply Hf|]. intros [] s' ?. by apply IH.
Qed.

Lemma wp_try_fold {E A B} (f : A → B → ST S (result E A)) (I : A → list B → S → Prop)
    (R : E → S → Prop) acc l s :
  I acc l s →
  (∀ acc x l s, I acc (x :: l) s → wp (f acc x) (on_result (λ acc', I acc' l) R) s) →
  wp (try_fold f acc l) (on_result (λ acc', I acc' []) R) s.
Proof.
  intros HI Hf. revert acc s HI. induction l as [|x l IH]; intros acc s HI; simpl.
  { by apply wp_sok. }
  apply wp_sbind. eapply wp_mono; [by apply Hf|]. intros [acc'|e] s' Hr; simpl in *; auto.
Qed.
End rules.

(** Running a program whose first part is known to return. *)
Lemma ST_bind_step {S A B} (m : ST S A) (f : A → ST S B) s a s1 :
  m s = Ret (a, s1) → (m ≫= f) s = f a s1.
Proof. intros Hm. unfold mbind, ST_bind. by rewrite Hm. Qed.
Lemma sbind_step {S E A B} (m : ST S (result E A)) (f : A → ST S (result E B)) s a s1 :
  m s = Ret (Ok a, s1) → sbind m f s = f a s1.
Proof. intros Hm. unfold sbind. by rewrite (ST_bind_step _ _ _ _ _ Hm). Qed.
Lemma sbind_stop {S E A B} (m : ST S (result E A)) (f : A → ST S (result E B)) s e s1 :
  m s = Ret (Err e, s1) → sbind m f s = Ret (Err e, s1).
Proof. intros Hm. unfold sbind. by rewrite (ST_bind_step _ _ _ _ _ Hm). Qed.

Create HintDb vcli_wp.
#[export] Hint Resolve wp_ret wp_sok wp_serr : vcli_wp.

(** [wp_step] takes one step into the program. *)
Ltac wp_step :=
  lazymatch goal with
  | |- wp (mret _) _ _ => apply wp_ret
  | |- wp (sok _) _ _ => apply wp_sok
  | |- wp (serr _) _ _ => apply wp_serr
  | |- wp get _ _ => apply wp_get
  | |- wp (modify _) _ _ => apply wp_modify
  | |- wp (sbind _ _) _ _ => apply wp_sbind
  | |- wp (_ ≫= _) _ _ => apply wp_bind
  | |- wp (unwrap (Some _)) _ _ => eapply wp_unwrap; [reflexivity|]
  | |- wp (slift (Ret _)) _ _ => eapply wp_slift; [reflexivity|]
  | |- on_result _ _ (Ok _) _ => cbn [on_result]
  | |- on_result _ _ (Err _) _ => cbn [on_result]
  end; cbv beta.
Ltac wp_steps := repeat wp_step.
