(* ===== verification/Digits.v ===== *)
(** * Decimal numbers

    How the standard library reads integers ([str::parse]) and writes them
    ([Display] and its zero padding), and that reading undoes writing. *)

From S2P Require Import Prelude.

Local Open Scope vcli_scope.
Local Open Scope Z_scope.

(** ** Reading *)

Fixpoint digits_value (acc : Z) (s : string) : option Z :=
  match s with
  | EmptyString => Some acc
  | String a s =>
      let n := Ascii.nat_of_ascii a in
      if decide (48 ≤ n ∧ n ≤ 57)%nat then digits_value (10 * acc + Z.of_nat (n - 48)) s else None
  end.

(** At least one digit, the value in range. *)
Definition digits_within (lo hi : Z) (s : string) : option Z :=
  match s with
  | EmptyString => None
  | _ => v ← digits_value 0 s; if bool_decide (lo ≤ v ≤ hi) then Some v else None
  end.

(** [str::parse] for the unsigned types takes an optional plus sign, for the
    signed ones either sign. *)
Definition parse_unsigned (hi : Z) (s : string) : option Z :=
  digits_within 0 hi (match s with String "+" s' => s' | _ => s end).
Definition parse_u8 : string → option Z := parse_unsigned 255.
Definition parse_u32 : string → option Z := parse_unsigned u32_max.
Definition parse_i32 (s : string) : option Z :=
  match s with
  | String "-" s' => v ← digits_within 0 (- i32_min) s'; Some (- v)
  | _ => parse_unsigned i32_max s
  end.

(** ** Writing *)

(** [{z:0w}]: the sign, then zeros, [w] characters at least. *)
Definition zeros (n : nat) : string := String.string_of_list_ascii (repeat "0"%char n).
Definition zero_padded (w : nat) (z : Z) : string :=
  let sign := if z <? 0 then "-" else "" in
  let digits := pretty (Z.abs z) in
  sign +:+ zeros (w - String.length sign - String.length digits) +:+ digits.

(** ** Reading what was written *)

Definition digit_char (a : ascii) : bool :=
  let n := Ascii.nat_of_ascii a in bool_decide (48 ≤ n ∧ n ≤ 57)%nat.
(** The digits of a number. *)
Definition decimal (z : Z) (s : string) : Prop :=
  s ≠ "" ∧ string_forallb digit_char s = true ∧ digits_value 0 s = Some z.

Lemma pretty_N_char_digit x : (x < 10)%N →
  digit_char (pretty_N_char x) = true ∧
  ∀ acc s, digits_value acc (String (pretty_N_char x) s) = digits_value (10 * acc + Z.of_N x) s.
Proof.
  intros Hx. assert (x = 0 ∨ x = 1 ∨ x = 2 ∨ x = 3 ∨ x = 4 ∨ x = 5 ∨ x = 6 ∨ x = 7
    ∨ x = 8 ∨ x = 9)%N as Hd by lia.
  by destruct_or! Hd; subst x.
Qed.
Lemma pretty_N_go_decimal x s :
  string_forallb digit_char s = true →
  string_forallb digit_char (pretty_N_go x s) = true ∧
  digits_value 0 (pretty_N_go x s) = digits_value (Z.of_N x) s ∧
  ((0 < x)%N ∨ s ≠ "" → pretty_N_go x s ≠ "").
Proof.
  revert s. induction (N.lt_wf_0 x) as [x _ IH]; intros s Hs.
  destruct (decide (0 < x)%N) as [Hx|Hx].
  - rewrite pretty_N_go_step by done.
    destruct (pretty_N_char_digit (x mod 10)) as [Hd Hv]; [by apply N.mod_lt|].
    destruct (IH (x / 10)%N (N.div_lt x 10 Hx eq_refl) (String (pretty_N_char (x mod 10)) s))
      as (IH1 & IH2 & IH3).
    { simpl. by rewrite Hd. }
    split; [done|]. split; [|intros _; apply IH3; by right]. rewrite IH2, Hv. f_equal.
    rewrite N2Z.inj_div, N2Z.inj_mod.
    change (Z.of_N 10) with 10. pose proof (Z.div_mod (Z.of_N x) 10 ltac:(lia)). lia.
  - assert (x = 0)%N as -> by lia. rewrite pretty_N_go_0.
    split; [done|]. split; [done|]. intros [|]; [lia|done].
Qed.
Lemma pretty_decimal z : 0 ≤ z → decimal z (pretty z).
Proof.
  intros Hz. destruct z as [|p|p]; [done| |lia].
  change (pretty (Z.pos p)) with (pretty_N_go (N.pos p) "").
  destruct (pretty_N_go_decimal (N.pos p) "" eq_refl) as (H1 & H2 & H3). 
  split; [apply H3; left; lia|]. by split.
Qed.
Lemma zeros_decimal n z s : decimal z s → decimal z (zeros n +:+ s).
Proof.
  intros (Hne & Hd & Hv). induction n as [|n (IH1 & IH2 & IH3)]; [done|]. 
  split; [done|]. by split.
Qed.
Lemma zero_padded_decimal w z : 0 ≤ z → decimal z (zero_padded w z).
Proof.
  intros Hz. unfold zero_padded. rewrite (proj2 (Z.ltb_ge _ _)) by done. rewrite Z.abs_eq by done.
  by apply zeros_decimal, pretty_decimal.
Qed.
Lemma decimal_avoids c z s : digit_char c = false → decimal z s → not_in_string c s.
Proof.
  intros Hc (_ & Hd & _). induction s as [|a s IH]; [done|]. simpl in Hd.
  apply andb_true_iff in Hd as [Ha Hs].
  apply not_in_string_cons. split; [|by apply IH]. intros ->. by rewrite Ha in Hc.
Qed.
Lemma digits_within_decimal lo hi z s : decimal z s → lo ≤ z ≤ hi → digits_within lo hi s = Some z.
Proof.
  intros (Hne & _ & Hv) Hz. unfold digits_within. destruct s; [done|]. rewrite Hv. simpl.
  by rewrite bool_decide_true.
Qed.
Lemma decimal_head z s : decimal z s →
  match s with String "+" _ | String "-" _ => False | _ => True end.
Proof.
  intros (_ & Hd & _). destruct s as [|a s]; [done|].
  destruct a as [[] [] [] [] [] [] [] []]; try exact I; discriminate Hd.
Qed.
Lemma parse_unsigned_decimal hi z s : decimal z s → 0 ≤ z ≤ hi → parse_unsigned hi s = Some z.
Proof.
  intros Hs Hz. rewrite <-(digits_within_decimal 0 hi z s) by done.
  pose proof (decimal_head z s Hs). unfold parse_unsigned.
  destruct s as [|a s]; [done|]. by destruct a as [[] [] [] [] [] [] [] []].
Qed.
Lemma parse_u32_decimal z s : decimal z s → in_u32 z → parse_u32 s = Some z.
Proof. intros Hs Hz. apply parse_unsigned_decimal; [done|ints]. Qed.
Lemma parse_i32_decimal z s : decimal z s → 0 ≤ z → in_i32 z → parse_i32 s = Some z.
Proof.
  intros Hs H0 Hz. rewrite <-(parse_unsigned_decimal i32_max z s) by (done || ints).
  pose proof (decimal_head z s Hs). unfold parse_i32.
  destruct s as [|a s]; [done|]. by destruct a as [[] [] [] [] [] [] [] []].
Qed.
Lemma parse_u32_padded w z : in_u32 z → parse_u32 (zero_padded w z) = Some z.
Proof. intros Hz. apply parse_u32_decimal; [apply zero_padded_decimal; ints|done]. Qed.
Lemma parse_i32_padded w z : 0 ≤ z → in_i32 z → parse_i32 (zero_padded w z) = Some z.
Proof. intros H0 Hz. apply parse_i32_decimal; [by apply zero_padded_decimal|done..]. Qed.
