(* ===== verification/Json.v ===== *)
(** * JSON documents

    [serde_json::Value] as the crates of vcli use it.  The workspace turns on
    the [preserve_order] feature, so an object is the list of its entries in
    insertion order.  [serde_json::Number] is opaque to the sources: they only
    look at it through [as_i64], [as_u64] and [as_f64], so a number is the
    record of those three answers. *)

From S2P Require Import Prelude.
From Stdlib Require Export SpecFloat.

(** IEEE binary64: [f64]. *)
Abbreviation f64 := spec_float.
Definition f64_prec : Z := 53.
Definition f64_emax : Z := 1024.

#[export] Instance f64_eq_dec : EqDecision f64.
Proof. solve_decision. Defined.

(** [f64::from(u32)], exact because [u32] fits in the 53-bit significand. *)
Definition f64_of_Z (z : Z) : f64 := binary_normalize f64_prec f64_emax z 0 false.
Definition f64_div (a b : f64) : f64 := SFdiv f64_prec f64_emax a b.
Definition f64_lt (a b : f64) : bool := SFltb a b.
Definition f64_ge (a b : f64) : bool := SFleb b a.
Definition f64_is_finite (f : f64) : bool :=
  match f with S754_zero _ | S754_finite _ _ _ => true | _ => false end.
(** [f == 0.0] *)
Definition f64_is_zero (f : f64) : bool :=
  match f with S754_zero _ => true | _ => false end.

Record Number := mkNumber {
  as_i64 : option Z;
  as_u64 : option Z;
  as_f64 : option f64;
}.

#[export] Instance Number_eq_dec : EqDecision Number.
Proof. solve_decision. Defined.

(** What the three observers answer for a number built from an integer. *)
Definition number_of_int (z : Z) : Number := {|
  as_i64 := if bool_decide (in_i64 z) then Some z else None;
  as_u64 := if bool_decide (in_u64 z) then Some z else None;
  as_f64 := Some (f64_of_Z z);
|}.
Definition number_of_f64 (f : f64) : Number :=
  {| as_i64 := None; as_u64 := None; as_f64 := Some f |}.

Inductive Value :=
  | Null
  | Bool (b : bool)
  | Num (n : Number)
  | Str (s : string)
  | Arr (a : list Value)
  | Obj (m : list (string * Value)).

(** Induction that reaches the elements of arrays and objects. *)
Section Value_ind.
  Variable P : Value → Prop.
  Hypothesis HNull : P Null.
  Hypothesis HBool : ∀ b, P (Bool b).
  Hypothesis HNum : ∀ n, P (Num n).
  Hypothesis HStr : ∀ s, P (Str s).
  Hypothesis HArr : ∀ a, Forall P a → P (Arr a).
  Hypothesis HObj : ∀ m, Forall (λ kv, P kv.2) m → P (Obj m).

Fixpoint Value_nested_ind (v : Value) : P v :=
  match v with
  | Null => HNull
  | Bool b => HBool b
  | Num n => HNum n
  | Str s => HStr s
  | Arr a =>
      HArr a ((fix go l : Forall P l :=
        match l with
        | [] => @List.Forall_nil _ _
        | x :: l => @List.Forall_cons _ _ _ _ (Value_nested_ind x) (go l)
        end) a)
  | Obj m =>
      HObj m ((fix go l : Forall (λ kv, P kv.2) l :=
        match l with
        | [] => @List.Forall_nil _ _
        | kv :: l => @List.Forall_cons _ _ _ _ (Value_nested_ind kv.2) (go l)
        end) m)
  end.
End Value_ind.

(** [Map::get]: the entry under a key. *)
Fixpoint obj_get {A} (k : string) (m : list (string * A)) : option A :=
  match m with
  | [] => None
  | (k', v) :: m => if decide (k = k') then Some v else obj_get k m
  end.

(** [Value::get], [Value::as_str], [Value::is_object]. *)
Definition value_get (k : string) (v : Value) : option Value :=
  match v with Obj m => obj_get k m | _ => None end.
Definition value_as_str (v : Value) : option string :=
  match v with Str s => Some s | _ => None end.
Definition value_as_u64 (v : Value) : option Z :=
  match v with Num n => as_u64 n | _ => None end.
Definition value_is_object (v : Value) : bool :=
  match v with Obj _ => true | _ => false end.

Lemma obj_get_Some {A} k (m : list (string * A)) v :
  NoDup m.*1 → obj_get k m = Some v ↔ (k, v) ∈ m.
Proof.
  induction m as [|[k' v'] m IH]; simpl; [set_solver|].
  rewrite NoDup_cons. intros [Hk' Hnd]. case_decide as Hk; rewrite elem_of_cons.
  - subst. split; [naive_solver|]. intros [?|Hin]; [naive_solver|].
    destruct Hk'. apply list_elem_of_fmap. by exists (k', v).
  - rewrite IH by done. naive_solver.
Qed.

Lemma obj_get_perm {A} k (m m' : list (string * A)) :
  NoDup m.*1 → m ≡ₚ m' → obj_get k m = obj_get k m'.
Proof.
  intros Hnd Hp. assert (NoDup m'.*1) by (by rewrite <-Hp).
  destruct (obj_get k m) as [v|] eqn:Hm, (obj_get k m') as [v'|] eqn:Hm'; try done.
  - apply obj_get_Some in Hm; [|done]. rewrite Hp in Hm.
    by apply obj_get_Some in Hm; [congruence|].
  - apply obj_get_Some in Hm; [|done]. rewrite Hp in Hm.
    apply obj_get_Some in Hm; [congruence|done].
  - apply obj_get_Some in Hm'; [|done]. rewrite <-Hp in Hm'.
    apply obj_get_Some in Hm'; [congruence|done].
Qed.

Lemma obj_get_is_Some {A} k (m : list (string * A)) :
  is_Some (obj_get k m) ↔ k ∈ m.*1.
Proof.
  induction m as [|[k' v'] m IH]; simpl.
  { split; [by intros [? ?]|intros Hk; by apply not_elem_of_nil in Hk]. }
  rewrite elem_of_cons. case_decide; [subst; split; [by left|by eexists]|].
  rewrite IH. naive_solver.
Qed.
