(* ===== verification/CoreTypes.v ===== *)
(** * The data model of vcli-core

    Geometry, regions, predicates, actions, steps, triggers, watches,
    programs, lifecycle states, error codes and events: the types every other
    crate shares, with the methods they carry. *)

From S2P Require Import Prelude Json.

(** Wall-clock milliseconds. *)
Abbreviation UnixMs := Z.

(** ** Identifiers

    A UUID is its 128-bit value; its textual form belongs to the [uuid] crate
    and is a parameter wherever it is used. *)

(* src: crates/vcli-core/src/ids.rs 11-29 ProgramId *)
Record ProgramId := mkProgramId { as_uuid : N }.

#[export] Instance ProgramId_eq_dec : EqDecision ProgramId.
Proof. solve_decision. Defined.
#[export] Instance ProgramId_countable : Countable ProgramId.
Proof. by apply (inj_countable' as_uuid mkProgramId); intros []. Defined.

(** The [uuid] crate: display (lower-case hyphenated) and parsing. *)
Class UuidOps := {
  uuid_display : N → string;
  uuid_parse : string → option N;
}.

(* src: crates/vcli-core/src/ids.rs 37-41 ProgramId::fmt *)
Definition ProgramId_to_string `{UuidOps} (i : ProgramId) : string :=
  uuid_display (as_uuid i).
(* src: crates/vcli-core/src/ids.rs 48-54 ProgramId::from_str *)
Definition ProgramId_from_str `{UuidOps} (s : string) : option ProgramId :=
  mkProgramId <$> uuid_parse s.

(** ** Geometry *)

(* src: crates/vcli-core/src/geom.rs 9-16 Point *)
Record Point := mkPoint { px : Z; py : Z }.
(* src: crates/vcli-core/src/geom.rs 18-29 Rect *)
Record Rect := mkRect { rx : Z; ry : Z; rw : Z; rh : Z }.

#[export] Instance Point_eq_dec : EqDecision Point.
Proof. solve_decision. Defined.
#[export] Instance Rect_eq_dec : EqDecision Rect.
Proof. solve_decision. Defined.

(* src: crates/vcli-core/src/geom.rs 32-39 Rect::center *)
Definition Rect_center (r : Rect) : Point := {|
  px := wrap_i32 (rx r + Z.quot (rw r) 2);
  py := wrap_i32 (ry r + Z.quot (rh r) 2);
|}.
(* src: crates/vcli-core/src/geom.rs 41-48 Rect::top_left *)
Definition Rect_top_left (r : Rect) : Point := {| px := rx r; py := ry r |}.
(* src: crates/vcli-core/src/geom.rs 50-54 Rect::contains *)
Definition Rect_contains (r : Rect) (p : Point) : bool :=
  (rx r <=? px p)%Z && (px p <? wrap_i32 (rx r + rw r))%Z &&
  (ry r <=? py p)%Z && (py p <? wrap_i32 (ry r + rh r))%Z.

(** ** Regions *)

(* src: crates/vcli-core/src/region.rs 7-14 Anchor *)
Inductive Anchor := AnchorMatch.
Abbreviation WindowIndex := Z.
(* src: crates/vcli-core/src/region.rs 69-76 Size *)
Record Size := mkSize { size_w : Z; size_h : Z }.

(* src: crates/vcli-core/src/region.rs 22-59 Region *)
Inductive Region :=
  | Absolute (rect : Rect)
  | Window (app : string) (title_contains : option string)
      (window_index : option WindowIndex)
  | RelativeTo (predicate : string) (anchor : Anchor) (offset : Point)
      (size : option Size).

(* src: crates/vcli-core/src/region.rs 61-63 default_anchor *)
Definition default_anchor : Anchor := AnchorMatch.
(* src: crates/vcli-core/src/region.rs 65-67 default_offset *)
Definition default_offset : Point := {| px := 0; py := 0 |}.

(** ** Predicates *)

Abbreviation Confidence := f64.
(* src: crates/vcli-core/src/predicate.rs 20-23 Rgb *)
Record Rgb := mkRgb { red : Z; green : Z; blue : Z }.

(* src: crates/vcli-core/src/predicate.rs 25-88 PredicateKind *)
Inductive PredicateKind :=
  | Template (image : string) (confidence : Confidence) (region : Region)
      (throttle_ms : Z)
  | ColorAt (point : Point) (rgb : Rgb) (tolerance : Z)
  | PixelDiff (region : Region) (baseline : string) (threshold : f64)
  | AllOf (operands : list string)
  | AnyOf (operands : list string)
  | NotP (operand : string)
  | ElapsedMsSinceTrue (predicate : string) (ms : Z).

(* src: crates/vcli-core/src/predicate.rs 90-92 default_template_throttle_ms *)
Definition default_template_throttle_ms : Z := 200.

(* src: crates/vcli-core/src/predicate.rs 110-118 MatchData *)
Record MatchData := mkMatchData { bbox : Rect; md_confidence : Confidence }.
(* src: crates/vcli-core/src/predicate.rs 98-108 PredicateResult *)
Record PredicateResult := mkPredicateResult {
  truthy : bool;
  match_data : option MatchData;
  at_ms : UnixMs;
}.
(* src: crates/vcli-core/src/predicate.rs 120-126 MatchData::center *)
Definition MatchData_center (m : MatchData) : Point := Rect_center (bbox m).
(* src: crates/vcli-core/src/predicate.rs 128-132 MatchData::top_left *)
Definition MatchData_top_left (m : MatchData) : Point := Rect_top_left (bbox m).

#[export] Instance Anchor_eq_dec : EqDecision Anchor.
Proof. solve_decision. Defined.
#[export] Instance Size_eq_dec : EqDecision Size.
Proof. solve_decision. Defined.
#[export] Instance Rgb_eq_dec : EqDecision Rgb.
Proof. solve_decision. Defined.
#[export] Instance Region_eq_dec : EqDecision Region.
Proof. solve_decision. Defined.
#[export] Instance PredicateKind_eq_dec : EqDecision PredicateKind.
Proof. solve_decision. Defined.
#[export] Instance MatchData_eq_dec : EqDecision MatchData.
Proof. solve_decision. Defined.
#[export] Instance PredicateResult_eq_dec : EqDecision PredicateResult.
Proof. solve_decision. Defined.

(** [BTreeMap<String, Predicate>]: the named predicates of a program. *)
Abbreviation Predicates := (gmap string PredicateKind).

(** ** Actions and steps *)

(* src: crates/vcli-core/src/action.rs 9-19 Button *)
Inductive Button := LeftButton | RightButton | MiddleButton.
(* src: crates/vcli-core/src/action.rs 21-34 Modifier *)
Inductive Modifier := Cmd | Shift | Alt | Ctrl.

(* src: crates/vcli-core/src/action.rs 36-77 InputAction *)
Inductive InputAction :=
  | ActMove (to : Point)
  | ActClick (to : Point) (button : Button)
  | ActType (text : string)
  | ActKey (key : string) (modifiers : list Modifier)
  | ActScroll (to : Point) (dx dy : Z).

(* src: crates/vcli-core/src/step.rs 10-20 Target *)
Inductive Target :=
  | TargetAbsolute (p : Point)
  | TargetExpression (s : string).
(* src: crates/vcli-core/src/step.rs 22-33 OnTimeout *)
Inductive OnTimeout := TimeoutFail | TimeoutContinue | TimeoutRetry.
(* src: crates/vcli-core/src/step.rs 35-43 OnFail *)
Inductive StepOnFail := FailFail | FailContinue.

(* src: crates/vcli-core/src/step.rs 45-112 Step *)
Inductive Step :=
  | Move (to : Target)
  | Click (to : Target) (button : Button)
  | Type_ (text : string)
  | Key (key : string) (modifiers : list Modifier)
  | Scroll (to : Target) (dx dy : Z)
  | WaitFor (predicate : string) (timeout_ms : Z) (on_timeout : OnTimeout)
  | Assert (predicate : string) (on_fail : StepOnFail)
  | SleepMs (ms : Z).

(* src: crates/vcli-core/src/step.rs 114-116 default_button *)
Definition default_button : Button := LeftButton.
(* src: crates/vcli-core/src/step.rs 117-120 is_default_button *)
Definition is_default_button (b : Button) : bool :=
  match b with LeftButton => true | _ => false end.
(* src: crates/vcli-core/src/step.rs 121-123 default_on_timeout *)
Definition default_on_timeout : OnTimeout := TimeoutFail.
(* src: crates/vcli-core/src/step.rs 124-126 default_on_fail *)
Definition default_on_fail : StepOnFail := FailFail.

#[export] Instance Button_eq_dec : EqDecision Button.
Proof. solve_decision. Defined.
#[export] Instance Modifier_eq_dec : EqDecision Modifier.
Proof. solve_decision. Defined.
#[export] Instance Target_eq_dec : EqDecision Target.
Proof. solve_decision. Defined.
#[export] Instance OnTimeout_eq_dec : EqDecision OnTimeout.
Proof. solve_decision. Defined.
#[export] Instance StepOnFail_eq_dec : EqDecision StepOnFail.
Proof. solve_decision. Defined.
#[export] Instance Step_eq_dec : EqDecision Step.
Proof. solve_decision. Defined.

(** ** Triggers, watches, programs *)

(* src: crates/vcli-core/src/trigger.rs 6-19 Trigger *)
Inductive Trigger :=
  | OnSubmit
  | OnPredicate (name : string)
  | Manual.

(* src: crates/vcli-core/src/watch.rs 13-22 WatchWhen *)
Inductive WatchWhen :=
  | ByName (name : string)
  | Inline (p : PredicateKind).

(* src: crates/vcli-core/src/watch.rs 24-42 Lifetime *)
Inductive Lifetime :=
  | OneShot
  | Persistent
  | UntilPredicate (name : string)
  | TimeoutMs (ms : Z).

(* src: crates/vcli-core/src/watch.rs 44-59 Watch *)
Record Watch := mkWatch {
  w_when : WatchWhen;
  w_steps : list Step;
  w_throttle_ms : Z;
  w_lifetime : Lifetime;
}.

(* src: crates/vcli-core/src/watch.rs 61-63 default_lifetime *)
Definition default_lifetime : Lifetime := Persistent.

Abbreviation DslVersion := string.

(** [self.0.split('.').next().unwrap_or("")] *)
(* src: crates/vcli-core/src/program.rs 22-26 DslVersion::major *)
Definition DslVersion_major (v : DslVersion) : string :=
  match split_on "." v with [] => "" | w :: _ => w end.

Abbreviation Priority := Z.

(* src: crates/vcli-core/src/program.rs 48-88 Program *)
Record Program := mkProgram {
  p_version : DslVersion;
  p_name : string;
  p_id : option ProgramId;
  p_trigger : Trigger;
  p_predicates : Predicates;
  p_watches : list Watch;
  p_body : list Step;
  p_on_complete : option string;
  p_on_fail : option string;
  p_timeout_ms : option Z;
  p_labels : gmap string string;
  p_priority : Priority;
}.

(* src: crates/vcli-core/src/program.rs 90-93 is_default_priority *)
Definition is_default_priority (p : Priority) : bool := (p =? 0)%Z.

(** ** Lifecycle states *)

(* src: crates/vcli-core/src/state.rs 9-27 ProgramState *)
Inductive ProgramState :=
  | Pending | Waiting | Running | Blocked | Completed | Failed | Cancelled.

#[export] Instance ProgramState_eq_dec : EqDecision ProgramState.
Proof. solve_decision. Defined.

(* src: crates/vcli-core/src/state.rs 30-34 ProgramState::is_terminal *)
Definition is_terminal (s : ProgramState) : bool :=
  match s with Completed | Failed | Cancelled => true | _ => false end.
(* src: crates/vcli-core/src/state.rs 36-40 ProgramState::is_active *)
Definition is_active (s : ProgramState) : bool :=
  match s with Waiting | Running | Blocked => true | _ => false end.

(* src: crates/vcli-core/src/state.rs 42-54 ProgramState::as_str *)
Definition ProgramState_as_str (s : ProgramState) : string :=
  match s with
  | Pending => "pending" | Waiting => "waiting" | Running => "running"
  | Blocked => "blocked" | Completed => "completed" | Failed => "failed"
  | Cancelled => "cancelled"
  end.

(* src: crates/vcli-core/src/state.rs 68-83 ProgramState::from_str *)
Definition ProgramState_from_str (s : string) : option ProgramState :=
  if decide (s = "pending") then Some Pending
  else if decide (s = "waiting") then Some Waiting
  else if decide (s = "running") then Some Running
  else if decide (s = "blocked") then Some Blocked
  else if decide (s = "completed") then Some Completed
  else if decide (s = "failed") then Some Failed
  else if decide (s = "cancelled") then Some Cancelled
  else None.

Lemma ProgramState_as_from_str s st :
  ProgramState_from_str s = Some st ↔ s = ProgramState_as_str st.
Proof.
  unfold ProgramState_from_str.
  repeat case_decide; subst; destruct st; simpl; naive_solver.
Qed.

(** ** Error codes and payloads *)

(* src: crates/vcli-core/src/error.rs 10-32 ErrorCode *)
Inductive ErrorCode :=
  | InvalidProgram | UnknownProgramCode | BadStateTransitionCode | PermissionDeniedCode
  | CaptureFailedCode | DaemonBusy | NotResumableCode | ResumePreconditionFailed
  | InternalCode.

#[export] Instance ErrorCode_eq_dec : EqDecision ErrorCode.
Proof. solve_decision. Defined.

(* src: crates/vcli-core/src/error.rs 34-50 ErrorCode::as_str *)
Definition ErrorCode_as_str (c : ErrorCode) : string :=
  match c with
  | InvalidProgram => "invalid_program"
  | UnknownProgramCode => "unknown_program"
  | BadStateTransitionCode => "bad_state_transition"
  | PermissionDeniedCode => "permission_denied"
  | CaptureFailedCode => "capture_failed"
  | DaemonBusy => "daemon_busy"
  | NotResumableCode => "not_resumable"
  | ResumePreconditionFailed => "resume_precondition_failed"
  | InternalCode => "internal"
  end.

(* src: crates/vcli-core/src/error.rs 58-81 ErrorPayload *)
Record ErrorPayload := mkErrorPayload {
  ep_code : ErrorCode;
  ep_message : string;
  ep_path : option string;
  ep_line : option Z;
  ep_column : option Z;
  ep_span_len : option Z;
  ep_hint : option string;
}.

(* src: crates/vcli-core/src/error.rs 83-97 ErrorPayload::simple *)
Definition ErrorPayload_simple (code : ErrorCode) (message : string) : ErrorPayload := {|
  ep_code := code; ep_message := message; ep_path := None; ep_line := None;
  ep_column := None; ep_span_len := None; ep_hint := None;
|}.

(** ** Events *)

(* src: crates/vcli-core/src/events.rs 23-144 EventData *)
Inductive EventData :=
  | ProgramSubmitted (program_id : ProgramId) (name : string)
  | ProgramStateChanged (program_id : ProgramId) (from to : ProgramState) (reason : string)
  | ProgramCompleted (program_id : ProgramId) (emit : option string)
  | ProgramFailed (program_id : ProgramId) (reason : string) (step : option string)
      (emit : option string)
  | ProgramResumed (program_id : ProgramId) (from_step : Z)
  | WatchFired (program_id : ProgramId) (watch_index : Z) (predicate : string)
  | ActionDispatched (program_id : ProgramId) (step : Value) (target : option Point)
  | ActionDeferred (program_id : ProgramId) (step : Value) (reason : Value)
  | TickFrameSkipped (reason : string)
  | DaemonPressure (tick_budget_ms : Z)
  | StreamDropped (count : Z) (since : UnixMs)
  | CapturePermissionMissing (backend : string)
  | DaemonStarted (version : string)
  | DaemonStopped.

(* src: crates/vcli-core/src/events.rs 13-21 Event *)
Record Event := mkEvent { ev_at : UnixMs; ev_data : EventData }.
