(* ===== verification/Sha256.v ===== *)
(** * SHA-256 of vcli-core

    The hand-written SHA-256 of [vcli-core/src/canonical.rs]: padding, message
    schedule, compression and hexadecimal output, on 32-bit words kept as
    integers modulo 2^32.  The theorems check the tables against their FIPS
    180-4 definition, the padding against its specification and the shape of
    the output. *)

From S2P Require Import Prelude.

Local Open Scope Z_scope.

(** ** Word operations: [u32::wrapping_add], [u32::rotate_right], [!x]. *)

Definition w32 (z : Z) : Z := z mod 4294967296.
Definition wadd (a b : Z) : Z := w32 (a + b).
Definition rotr (n x : Z) : Z := Z.lor (Z.shiftr x n) (w32 (Z.shiftl x (32 - n))).
Definition wnot (x : Z) : Z := 4294967295 - x.

(* src: crates/vcli-core/src/canonical.rs 181-190 sha256_hex *)
Definition sha256_init : list Z :=
  [0x6a09_e667; 0xbb67_ae85; 0x3c6e_f372; 0xa54f_f53a;
   0x510e_527f; 0x9b05_688c; 0x1f83_d9ab; 0x5be0_cd19].

(* src: crates/vcli-core/src/canonical.rs 191-256 sha256_hex *)
Definition sha256_k : list Z :=
  [0x428a_2f98; 0x7137_4491; 0xb5c0_fbcf; 0xe9b5_dba5; 0x3956_c25b; 0x59f1_11f1;
   0x923f_82a4; 0xab1c_5ed5; 0xd807_aa98; 0x1283_5b01; 0x2431_85be; 0x550c_7dc3;
   0x72be_5d74; 0x80de_b1fe; 0x9bdc_06a7; 0xc19b_f174; 0xe49b_69c1; 0xefbe_4786;
   0x0fc1_9dc6; 0x240c_a1cc; 0x2de9_2c6f; 0x4a74_84aa; 0x5cb0_a9dc; 0x76f9_88da;
   0x983e_5152; 0xa831_c66d; 0xb003_27c8; 0xbf59_7fc7; 0xc6e0_0bf3; 0xd5a7_9147;
   0x06ca_6351; 0x1429_2967; 0x27b7_0a85; 0x2e1b_2138; 0x4d2c_6dfc; 0x5338_0d13;
   0x650a_7354; 0x766a_0abb; 0x81c2_c92e; 0x9272_2c85; 0xa2bf_e8a1; 0xa81a_664b;
   0xc24b_8b70; 0xc76c_51a3; 0xd192_e819; 0xd699_0624; 0xf40e_3585; 0x106a_a070;
   0x19a4_c116; 0x1e37_6c08; 0x2748_774c; 0x34b0_bcb5; 0x391c_0cb3; 0x4ed8_aa4a;
   0x5b9c_ca4f; 0x682e_6ff3; 0x748f_82ee; 0x78a5_636f; 0x84c8_7814; 0x8cc7_0208;
   0x90be_fffa; 0xa450_6ceb; 0xbef9_a3f7; 0xc671_78f2].

(** ** Padding *)

(** [while msg.len() % 64 != 56 { msg.push(0); }]: at most 63 rounds. *)
(* src: crates/vcli-core/src/canonical.rs 260-262 sha256_hex *)
Fixpoint pad_zeros (fuel : nat) (msg : list Z) : list Z :=
  match fuel with
  | O => msg
  | S f =>
      if decide (Z.of_nat (length msg) mod 64 = 56) then msg
      else pad_zeros f (msg ++ [0])
  end.

(** [u64::to_be_bytes] *)
Definition be_bytes64 (z : Z) : list Z :=
  map (λ i, Z.shiftr z (8 * i) mod 256) [7; 6; 5; 4; 3; 2; 1; 0].

(* src: crates/vcli-core/src/canonical.rs 257-263 sha256_hex *)
Definition sha256_pad (data : list Z) : list Z :=
  let bit_len := wrap_u64 (Z.of_nat (length data) * 8) in
  pad_zeros 64 (data ++ [0x80]) ++ be_bytes64 bit_len.

(** ** Message schedule and compression *)

(** [chunks_exact(n)]: the whole chunks, the remainder dropped. *)
Fixpoint chunks_exact_go (fuel : nat) {A} (n : nat) (l : list A) : list (list A) :=
  match fuel with
  | O => []
  | S f =>
      if decide (n ≤ length l)%nat
      then take n l :: chunks_exact_go f n (drop n l) else []
  end.
Definition chunks_exact {A} (n : nat) (l : list A) : list (list A) :=
  chunks_exact_go (length l) n l.

(** [u32::from_be_bytes] *)
Definition be_word (bs : list Z) : Z := foldl (λ acc b, acc * 256 + b) 0 bs.

(* src: crates/vcli-core/src/canonical.rs 269-276 sha256_hex *)
Definition schedule_step (w : list Z) (i : nat) : list Z :=
  let w15 := w !!! (i - 15)%nat in
  let w2 := w !!! (i - 2)%nat in
  let s0 := Z.lxor (Z.lxor (rotr 7 w15) (rotr 18 w15)) (Z.shiftr w15 3) in
  let s1 := Z.lxor (Z.lxor (rotr 17 w2) (rotr 19 w2)) (Z.shiftr w2 10) in
  <[i := wadd (wadd (wadd (w !!! (i - 16)%nat) s0) (w !!! (i - 7)%nat)) s1]> w.

(* src: crates/vcli-core/src/canonical.rs 265-276 sha256_hex *)
Definition schedule (chunk : list Z) : list Z :=
  let words := map be_word (chunks_exact 4 chunk) in
  foldl schedule_step (words ++ replicate (64 - length words) 0) (seq 16 48).

(** One round: the eight assignments shift the working variables. *)
(* src: crates/vcli-core/src/canonical.rs 278-297 sha256_hex *)
Definition round (w : list Z) (h : list Z) (i : nat) : list Z :=
  let a := h !!! 0%nat in let b := h !!! 1%nat in let c := h !!! 2%nat in
  let e := h !!! 4%nat in let f := h !!! 5%nat in let g := h !!! 6%nat in
  let s1 := Z.lxor (Z.lxor (rotr 6 e) (rotr 11 e)) (rotr 25 e) in
  let ch := Z.lxor (Z.land e f) (Z.land (wnot e) g) in
  let temp1 :=
    wadd (wadd (wadd (wadd (h !!! 7%nat) s1) ch) (sha256_k !!! i)) (w !!! i) in
  let s0 := Z.lxor (Z.lxor (rotr 2 a) (rotr 13 a)) (rotr 22 a) in
  let maj := Z.lxor (Z.lxor (Z.land a b) (Z.land a c)) (Z.land b c) in
  let temp2 := wadd s0 maj in
  [wadd temp1 temp2; a; b; c; wadd (h !!! 3%nat) temp1; e; f; g].

(* src: crates/vcli-core/src/canonical.rs 264-301 sha256_hex *)
Definition compress (state : list Z) (chunk : list Z) : list Z :=
  let w := schedule chunk in
  let h := foldl (round w) state (seq 0 64) in
  zip_with wadd state h.

(** ** Output: [format!("{word:08x}")] for each word. *)

Definition hex_digit (z : Z) : ascii :=
  Ascii.ascii_of_nat (Z.to_nat (if z <? 10 then 48 + z else 87 + z)).
Definition hex8 (w : Z) : string :=
  foldr (λ i s, String (hex_digit (Z.shiftr w (4 * i) mod 16)) s) ""
    [7; 6; 5; 4; 3; 2; 1; 0].

(* src: crates/vcli-core/src/canonical.rs 177-307 sha256_hex *)
Definition sha256_hex (data : list Z) : string :=
  let state := foldl compress sha256_init (chunks_exact 64 (sha256_pad data)) in
  foldr (λ w s, hex8 w +:+ s) "" state.

(** The bytes of a string. *)
Fixpoint bytes_of_string (s : string) : list Z :=
  match s with
  | EmptyString => []
  | String a s' => Z.of_nat (Ascii.nat_of_ascii a) :: bytes_of_string s'
  end.

(** ** The published test vectors *)

Example sha256_vector_empty :
  sha256_hex [] = "e3b0c44298fc1c149afbf4c8996fb92427ae41e4649b934ca495991b7852b855".
Proof. vm_compute. reflexivity. Qed.

Example sha256_vector_abc :
  sha256_hex (bytes_of_string "abc")
  = "ba7816bf8f01cfea414140de5dae2223b00361a396177a9cb410ff61f20015ad".
Proof. vm_compute. reflexivity. Qed.

Example sha256_vector_two_blocks :
  sha256_hex (bytes_of_string
    "abcdbcdecdefdefgefghfghighijhijkijkljklmklmnlmnomnopnopq")
  = "248d6a61d20638b8e5c026930c3e6039a33ce45964ff2167f6ecedd419db06c1".
Proof. vm_compute. reflexivity. Qed.

(** ** The tables *)

(** [is_prime_upto p]: [p] has no divisor between 2 and [p - 1]. *)
Definition is_prime_upto (p : Z) : bool :=
  (1 <? p) && forallb (λ d, negb (p mod d =? 0)) (map Z.of_nat (seq 2 (Z.to_nat p - 2))).

Definition primes_below (n : nat) : list Z :=
  List.filter is_prime_upto (map Z.of_nat (seq 0 n)).

(** [is_frac_root k p x]: [x] is the first 32 bits of the fractional part of
    the [k]-th root of [p], i.e. [i * 2^32 + x] is the integer part of
    [2^32 * p^(1/k)] for the integer part [i] of the root. *)
Definition is_frac_root (k p x : Z) : Prop :=
  0 ≤ x < 2 ^ 32 ∧
  ∃ i, (i * 2 ^ 32 + x) ^ k ≤ p * 2 ^ (32 * k) < (i * 2 ^ 32 + x + 1) ^ k.

Lemma frac_root_intro k p x i :
  (0 <=? x) && (x <? 2 ^ 32) && ((i * 2 ^ 32 + x) ^ k <=? p * 2 ^ (32 * k)) &&
  (p * 2 ^ (32 * k) <? (i * 2 ^ 32 + x + 1) ^ k) = true → is_frac_root k p x.
Proof.
  rewrite !andb_true_iff, !Z.leb_le, !Z.ltb_lt. intros [[[??]?]?].
  split; [done|]. by exists i.
Qed.

(** Find the integer part by trying the candidates below 32. *)
Definition frac_root_b (k p x : Z) : bool :=
  existsb (λ i, (0 <=? x) && (x <? 2 ^ 32) &&
    ((i * 2 ^ 32 + x) ^ k <=? p * 2 ^ (32 * k)) &&
    (p * 2 ^ (32 * k) <? (i * 2 ^ 32 + x + 1) ^ k)) (map Z.of_nat (seq 0 32)).

Lemma frac_root_b_sound k p x : frac_root_b k p x = true → is_frac_root k p x.
Proof.
  unfold frac_root_b. rewrite existsb_exists. intros (i & _ & Hi).
  by apply (frac_root_intro k p x i).
Qed.

Lemma Forall2_forallb {A B} (P : A → B → Prop) (f : A → B → bool) l k :
  (∀ a b, f a b = true → P a b) →
  length l = length k → forallb (λ ab, f ab.1 ab.2) (zip l k) = true → Forall2 P l k.
Proof.
  intros Hf. revert k. induction l as [|a l IH]; intros [|b k]; simpl; try done.
  rewrite andb_true_iff. intros [= ?] [??]. constructor; auto.
Qed.

(** The constant tables of [sha256_hex] are those of FIPS 180-4: the
    initial state holds the first 32 bits of the fractional parts of the square
    roots of the first 8 primes, and the round constants those of the cube
    roots of the first 64 primes. *)
Theorem sha256_tables_fips :
  Forall2 (is_frac_root 2) (take 8 (primes_below 312)) sha256_init ∧
  Forall2 (is_frac_root 3) (primes_below 312) sha256_k.
Proof.
  split; apply (Forall2_forallb _ _ _ _ (frac_root_b_sound _)); vm_compute; reflexivity.
Qed.

(** ** Padding *)

Lemma pad_zeros_spec fuel msg :
  (Z.of_nat (length msg) + Z.of_nat fuel) mod 64 = 56 →
  ∃ k, (k ≤ fuel)%nat ∧ pad_zeros fuel msg = msg ++ replicate k 0 ∧
    Z.of_nat (length (pad_zeros fuel msg)) mod 64 = 56.
Proof.
  revert msg. induction fuel as [|f IH]; intros msg Hm; simpl.
  { exists 0%nat. rewrite app_nil_r. rewrite Z.add_0_r in Hm. done. }
  case_decide as Hd.
  { exists 0%nat. rewrite app_nil_r. split_and!; [lia|done|done]. }
  destruct (IH (msg ++ [0])) as (k & Hk & Heq & Hlen).
  { rewrite length_app. simpl. rewrite <-Hm. f_equal. lia. }
  exists (S k). rewrite Heq in Hlen |- *. split_and!; [lia| |done].
  by rewrite <-app_assoc.
Qed.

Lemma pad_zeros_stable fuel fuel' msg :
  (fuel ≤ fuel')%nat → Z.of_nat (length (pad_zeros fuel msg)) mod 64 = 56 →
  pad_zeros fuel' msg = pad_zeros fuel msg.
Proof.
  revert fuel' msg. induction fuel as [|f IH]; intros [|f'] msg Hle; simpl; try done; try lia.
  { intros Hm. by rewrite decide_True. }
  case_decide; [done|]. intros Hm. apply IH; [lia|done].
Qed.

(** The padded message is the data, one 0x80 byte, fewer than 64 zero
    bytes and the 8-byte length, and is cut into whole 64-byte blocks; the
    padding loop stops by its own test. *)
Theorem sha256_pad_spec data :
  ∃ k, (k < 64)%nat ∧
    sha256_pad data =
      data ++ [0x80] ++ replicate k 0
      ++ be_bytes64 (wrap_u64 (Z.of_nat (length data) * 8)) ∧
    (Z.of_nat (length (sha256_pad data)) mod 64 = 0).
Proof.
  set (msg := data ++ [0x80]).
  set (f := Z.to_nat ((56 - Z.of_nat (length msg)) mod 64)).
  assert (f < 64)%nat as Hf.
  { pose proof (Z.mod_pos_bound (56 - Z.of_nat (length msg)) 64). lia. }
  destruct (pad_zeros_spec f msg) as (k & Hk & Heq & Hlen).
  { unfold f. rewrite Z2Nat.id by (apply Z.mod_pos_bound; lia).
    rewrite Zplus_mod_idemp_r. by replace (_ + (_ - _)) with 56 by lia. }
  exists k. split; [lia|]. unfold sha256_pad. fold msg.
  rewrite (pad_zeros_stable f 64) by (lia || done). rewrite Heq. split.
  - unfold msg. by rewrite <-!app_assoc.
  - rewrite Heq in Hlen. rewrite length_app. simpl length at 2.
    rewrite Nat2Z.inj_add, <-Zplus_mod_idemp_l, Hlen. done.
Qed.

(** ** The output *)

Lemma length_hex8 w : String.length (hex8 w) = 8%nat.
Proof. done. Qed.

Lemma string_length_app s t : String.length (s +:+ t) = (String.length s + String.length t)%nat.
Proof. induction s as [|a s IH]; [done|]. rewrite string_append_cons. simpl. by rewrite IH. Qed.

Lemma length_compress state chunk : length state = 8%nat → length (compress state chunk) = 8%nat.
Proof.
  intros Hs. unfold compress. rewrite length_zip_with, Hs.
  assert (length (foldl (round (schedule chunk)) state (seq 0 64)) = 8%nat) as ->; [|done].
  generalize (schedule chunk) (seq 0 64) state Hs. clear. intros w l.
  induction l as [|i l IH]; intros st Hst; simpl; [done|]. by apply IH.
Qed.

Definition is_hex (a : ascii) : bool :=
  let n := Z.of_nat (Ascii.nat_of_ascii a) in
  ((48 <=? n) && (n <=? 57)) || ((97 <=? n) && (n <=? 102)).

Lemma is_hex_digit z : 0 ≤ z < 16 → is_hex (hex_digit z) = true.
Proof.
  intros Hz.
  assert (z ∈ map Z.of_nat (seq 0 16)) as Hin.
  { apply list_elem_of_fmap. exists (Z.to_nat z). rewrite elem_of_seq. lia. }
  clear Hz. revert z Hin. apply Forall_forall. vm_compute. by repeat constructor.
Qed.

Lemma string_forallb_app f s t :
  string_forallb f (s +:+ t) = string_forallb f s && string_forallb f t.
Proof.
  induction s as [|a s IH]; [done|]. rewrite string_append_cons. simpl.
  by rewrite IH, andb_assoc.
Qed.

Lemma hex8_is_hex w : string_forallb is_hex (hex8 w) = true.
Proof.
  unfold hex8. cbn [foldr string_forallb].
  rewrite !is_hex_digit by (apply Z.mod_pos_bound; lia). done.
Qed.

Lemma sha256_hex_hex data :
  String.length (sha256_hex data) = 64%nat ∧
  string_forallb is_hex (sha256_hex data) = true.
Proof.
  unfold sha256_hex. set (chunks := chunks_exact 64 _).
  assert (length (foldl compress sha256_init chunks) = 8%nat) as Hlen.
  { assert (length sha256_init = 8%nat) as H0 by done. revert H0.
    generalize sha256_init. induction chunks as [|c cs IH]; intros st Hst; simpl; [done|].
    apply IH. by apply length_compress. }
  split.
  - transitivity (8 * length (foldl compress sha256_init chunks))%nat; [|by rewrite Hlen].
    generalize (foldl compress sha256_init chunks). clear. intros l.
    induction l as [|w l IH]; cbn [foldr]; [done|].
    rewrite string_length_app, IH, length_hex8. cbn [length]. lia.
  - generalize (foldl compress sha256_init chunks). clear. intros l.
    induction l as [|w l IH]; cbn [foldr]; [done|].
    by rewrite string_forallb_app, IH, hex8_is_hex.
Qed.

(** [sha256_hex] returns 64 lower-case hexadecimal digits for every
    input. *)
Theorem sha256_hex_shape data :
  String.length (sha256_hex data) = 64%nat ∧
  string_forallb is_hex (sha256_hex data) = true.
Proof. apply sha256_hex_hex. Qed.
