(* ===== verification/Canonical.v ===== *)
(** * Canonical JSON and predicate hashes

    [vcli-core/src/canonical.rs]: the byte serialisation that perception and
    the DSL hash.  Unicode normalisation ([unicode-normalization]) and the
    shortest decimal form of a float ([ryu]) are parameters. *)

From S2P Require Import Prelude Json CoreTypes Sha256.

Class NfcOps := { nfc : string → string }.
Class RyuOps := { ryu_format : f64 → string }.

(* src: crates/vcli-core/src/canonical.rs 16-22 CanonicalError *)
Inductive CanonicalError := CanonIo (message : string).

(** The hex digest that names a predicate. *)
Abbreviation PredicateHash := string.

Section canonical.
  Context `{NfcOps, RyuOps}.

  Abbreviation wresult := (result CanonicalError string).

(* src: crates/vcli-core/src/canonical.rs 56-83 write_number *)
Definition write_number (n : Number) : wresult :=
  match as_i64 n with
  | Some i => Ok (if decide (i = 0%Z) then "0" else pretty i)
  | None =>
      match as_u64 n with
      | Some u => Ok (pretty u)
      | None =>
          match as_f64 n with
          | Some f =>
              if f64_is_finite f then
                let f_norm := if f64_is_zero f then S754_zero false else f in
                Ok (ryu_format f_norm)
              else Err (CanonIo "canonical JSON: non-finite number")
          | None => Err (CanonIo "unrepresentable number")
          end
      end
  end.

(** One character of a string literal.  The escapes concern ASCII characters
    only and every other character is copied, so the loop over [chars()] is a
    loop over bytes. *)
(* src: crates/vcli-core/src/canonical.rs 88-106 write_string *)
Definition escape_char (a : ascii) : string :=
  let n := Ascii.nat_of_ascii a in
  if decide (n = 34) then "\" +:+ String (Ascii.ascii_of_nat 34) ""
  else if decide (n = 92) then "\\"
  else if decide (n = 10) then "\n"
  else if decide (n = 13) then "\r"
  else if decide (n = 9) then "\t"
  else if decide (n = 8) then "\b"
  else if decide (n = 12) then "\f"
  else if decide (n < 32) then
    "\u00" +:+ String (hex_digit (Z.of_nat (n / 16)))
      (String (hex_digit (Z.of_nat (n mod 16))) "")
  else String a "".

(* src: crates/vcli-core/src/canonical.rs 85-106 write_string *)
Fixpoint escape (s : string) : string :=
  match s with
  | EmptyString => EmptyString
  | String a s' => escape_char a +:+ escape s'
  end.

Definition quote : string := String (Ascii.ascii_of_nat 34) "".

(* src: crates/vcli-core/src/canonical.rs 85-108 write_string *)
Definition write_string (s : string) : wresult :=
  Ok (quote +:+ escape (nfc s) +:+ quote).

(** The elements separated by commas, in order. *)
(* src: crates/vcli-core/src/canonical.rs 112-117 write_array *)
Fixpoint write_seq (first : bool) (l : list wresult) : wresult :=
  match l with
  | [] => Ok ""
  | x :: l =>
      s ← x; rest ← write_seq false l;
      Ok ((if first then "" else ",") +:+ s +:+ rest)
  end.

(** [write_array] and [write_object], given the written form of the parts.
    [obj.get(k).unwrap()] looks the key up in the map; with the keys coming
    from the map itself the [unwrap] cannot fail. *)
(* src: crates/vcli-core/src/canonical.rs 110-119 write_array *)
Definition write_array (parts : list wresult) : wresult :=
  s ← write_seq true parts; Ok ("[" +:+ s +:+ "]").

(* src: crates/vcli-core/src/canonical.rs 121-134 write_object *)
Definition write_object (parts : list (string * wresult)) : wresult :=
  let keys := merge_sort String.le parts.*1 in
  s ← write_seq true
        (map (λ k,
           ks ← write_string k;
           vs ← match obj_get k parts with Some v => v | None => Ok "" end;
           Ok (ks +:+ ":" +:+ vs)) keys);
  Ok ("{" +:+ s +:+ "}").

(* src: crates/vcli-core/src/canonical.rs 44-54 write_value *)
Fixpoint write_value (v : Value) : wresult :=
  match v with
  | Null => Ok "null"
  | Bool true => Ok "true"
  | Bool false => Ok "false"
  | Num n => write_number n
  | Str s => write_string s
  | Arr a => write_array (map write_value a)
  | Obj m => write_object (map (λ kv, (kv.1, write_value kv.2)) m)
  end.

(* src: crates/vcli-core/src/canonical.rs 24-42 canonicalize *)
Definition canonicalize (v : Value) : wresult :=
  s ← write_value v; Ok s.


(* src: crates/vcli-core/src/canonical.rs 167-175 predicate_hash *)
Definition predicate_hash (v : Value) : result CanonicalError PredicateHash :=
  bytes ← canonicalize v; Ok (sha256_hex (bytes_of_string bytes)).

End canonical.

(** ** Equality of documents up to what canonicalisation forgets

    The order of the entries of an object, the Unicode form of strings, and
    the sign of a float zero. *)

Section equiv.
  Context `{NfcOps, RyuOps}.

Definition num_equiv (n n' : Number) : Prop :=
  n = n' ∨ ∃ f f', n = number_of_f64 f ∧ n' = number_of_f64 f' ∧
    f64_is_zero f = true ∧ f64_is_zero f' = true.

Inductive json_equiv : Value → Value → Prop :=
  | equiv_null : json_equiv Null Null
  | equiv_bool b : json_equiv (Bool b) (Bool b)
  | equiv_num n n' : num_equiv n n' → json_equiv (Num n) (Num n')
  | equiv_str s s' : nfc s = nfc s' → json_equiv (Str s) (Str s')
  | equiv_arr a a' : Forall2 json_equiv a a' → json_equiv (Arr a) (Arr a')
  | equiv_obj m m1 m1' m' :
      m ≡ₚ m1 → m' ≡ₚ m1' →
      Forall2 (λ kv kv', kv.1 = kv'.1 ∧ json_equiv kv.2 kv'.2) m1 m1' →
      json_equiv (Obj m) (Obj m').

(** A value the crates can build: numbers are integers of a machine type or
    finite floats, the keys of an object are distinct (it is a map) and in
    normal form C. *)
Definition num_ok (n : Number) : Prop :=
  (∃ z, (in_i64 z ∨ in_u64 z) ∧ n = number_of_int z) ∨
  (∃ f, f64_is_finite f = true ∧ valid_binary f64_prec f64_emax f = true ∧
    n = number_of_f64 f).

Inductive json_ok : Value → Prop :=
  | ok_null : json_ok Null
  | ok_bool b : json_ok (Bool b)
  | ok_num n : num_ok n → json_ok (Num n)
  | ok_str s : json_ok (Str s)
  | ok_arr a : Forall json_ok a → json_ok (Arr a)
  | ok_obj m :
      NoDup m.*1 → Forall (λ kv, nfc kv.1 = kv.1) m →
      Forall (λ kv, json_ok kv.2) m → json_ok (Obj m).

Lemma write_number_equiv n n' : num_equiv n n' → write_number n = write_number n'.
Proof.
  intros [->|(f & f' & -> & -> & Hf & Hf')]; [done|].
  unfold write_number; simpl. by destruct f, f'.
Qed.

Lemma merge_sort_perm_eq l k : l ≡ₚ k → merge_sort String.le l = merge_sort String.le k.
Proof.
  intros Hlk. apply (StronglySorted_unique String.le).
  - apply (StronglySorted_merge_sort _).
  - apply (StronglySorted_merge_sort _).
  - by rewrite !merge_sort_Permutation.
Qed.

Lemma write_object_perm (parts parts' : list (string * result CanonicalError string)) :
  NoDup parts.*1 → parts ≡ₚ parts' → write_object parts = write_object parts'.
Proof.
  intros Hnd Hp. unfold write_object.
  rewrite (merge_sort_perm_eq parts.*1 parts'.*1) by (by rewrite Hp).
  do 2 f_equal. apply map_ext. intros k. by rewrite (obj_get_perm k parts parts').
Qed.

Lemma fmap_fst_map {A B} (f : A → B) (m : list (string * A)) :
  (map (λ kv, (kv.1, f kv.2)) m).*1 = m.*1.
Proof. induction m as [|[k v] m IH]; simpl; [done|]. by f_equal. Qed.

(** Canonicalisation forgets at least that much. *)
Lemma write_value_equiv v v' : json_ok v → json_equiv v v' → write_value v = write_value v'.
Proof.
  intros Hok Hv. revert v' Hok Hv.
  induction v as [|b|n|s|a IH|m IH] using Value_nested_ind; intros v' Hok Hv;
    inversion Hv as [| |? n' Hn|? s' Hs|? a' Ha|? m1 m1' m' Hp Hp' Hm]; subst; simpl.
  - done.
  - done.
  - by apply write_number_equiv.
  - unfold write_string. by rewrite Hs.
  - f_equal. inversion Hok as [| | | |? Haok|]; subst. clear Hok Hv.
    induction Ha as [|x x' a a' Hx Ha IHa]; simpl; [done|].
    apply Forall_cons in IH as [IHx IHr]. apply Forall_cons in Haok as [Hxok Haok].
    f_equal; [by apply IHx|by apply IHa].
  - inversion Hok as [| | | | |? Hnd _ Hmok]; subst. clear Hok Hv.
    assert (NoDup m1.*1) as Hnd1 by (by rewrite <-Hp).
    assert (m1.*1 = m1'.*1) as Hk1.
    { clear -Hm. induction Hm as [|?? m1 m1' [Hk _]]; simpl; [done|]. by f_equal. }
    transitivity (write_object (map (λ kv, (kv.1, write_value kv.2)) m1)).
    { apply write_object_perm; [by rewrite fmap_fst_map|by rewrite Hp]. }
    transitivity (write_object (map (λ kv, (kv.1, write_value kv.2)) m1')).
    { f_equal. rewrite Hp in IH, Hmok. clear Hp Hp' Hnd Hnd1 Hk1.
      induction Hm as [|[k x] [k' x'] m1 m1' [Hk Hx] Hm IHm]; simpl in *; [done|].
      apply Forall_cons in IH as [IHx IHr]. apply Forall_cons in Hmok as [Hxok Haok].
      subst k'. f_equal; [by f_equal; apply IHx|by apply IHm]. }
    apply write_object_perm; [by rewrite fmap_fst_map, <-Hk1|by rewrite Hp'].
Qed.

End equiv.
