(* ===== verification/CanonicalInj.v ===== *)
(** * Canonical bytes determine the document

    The converse of [write_value_equiv]: two documents with the same canonical
    bytes are equal up to the order of object entries, Unicode normalisation
    and the sign of zero.  So a predicate cache keyed by these bytes confuses
    nothing beyond that, short of a SHA-256 collision. *)

From S2P Require Import Prelude Json CoreTypes Sha256 Canonical.

(** What the sources rely on of [ryu]: the output is a number literal that
    identifies the float and is never the decimal form of an integer (it has a
    point or an exponent). *)
Definition num_char (a : ascii) : bool :=
  let n := Ascii.nat_of_ascii a in
  ((48 <=? n) && (n <=? 57))%nat || bool_decide (a ∈ ["+"; "-"; "."; "e"; "E"]%char).

Class RyuLaws `{RyuOps} := {
  ryu_inj f g :
    valid_binary f64_prec f64_emax f = true → valid_binary f64_prec f64_emax g = true →
    f64_is_finite f = true → f64_is_finite g = true →
    ryu_format f = ryu_format g → f = g;
  ryu_chars f : f64_is_finite f = true →
    ryu_format f ≠ "" ∧ string_forallb num_char (ryu_format f) = true;
  ryu_not_int f z : f64_is_finite f = true → ryu_format f ≠ pretty (z : Z);
}.

(** ** Decimal integers *)

Definition int_char (a : ascii) : bool :=
  let n := Ascii.nat_of_ascii a in ((48 <=? n) && (n <=? 57))%nat || bool_decide (a = "-"%char).

Lemma int_char_num a : int_char a = true → num_char a = true.
Proof.
  unfold int_char, num_char. rewrite !orb_true_iff, !bool_decide_eq_true. set_solver.
Qed.

Lemma pretty_N_char_int x : int_char (pretty_N_char x) = true.
Proof. destruct x as [|[[[[]|[]|]|[[]|[]|]|]|[[[]|[]|]|[[]|[]|]|]|]]; reflexivity. Qed.

Lemma pretty_N_go_int x s :
  string_forallb int_char s = true → string_forallb int_char (pretty_N_go x s) = true.
Proof.
  revert s. induction (N.lt_wf_0 x) as [x _ IH]; intros s Hs.
  destruct (decide (0 < x)%N) as [Hx|Hx].
  - rewrite pretty_N_go_step by done. apply IH; [by apply N.div_lt|].
    simpl. by rewrite pretty_N_char_int.
  - by assert (x = 0)%N as -> by lia.
Qed.

Lemma pretty_N_go_nonempty x s : (0 < x)%N ∨ s ≠ "" → pretty_N_go x s ≠ "".
Proof.
  revert s. induction (N.lt_wf_0 x) as [x _ IH]; intros s Hs.
  destruct (decide (0 < x)%N) as [Hx|Hx].
  - rewrite pretty_N_go_step by done. apply IH; [by apply N.div_lt|]. by right.
  - assert (x = 0)%N as -> by lia. rewrite pretty_N_go_0. naive_solver lia.
Qed.

Lemma pretty_Z_int (z : Z) : pretty z ≠ "" ∧ string_forallb int_char (pretty z) = true.
Proof.
  assert (∀ p : positive, pretty p ≠ "" ∧ string_forallb int_char (pretty p) = true) as Hp.
  { intros p. unfold pretty, pretty_positive, pretty, pretty_N.
    rewrite decide_False by done.
    split; [by apply pretty_N_go_nonempty; left|by apply pretty_N_go_int]. }
  destruct z as [|p|p]; [done|apply (Hp p)|]. split; [done|].
  change (string_forallb int_char (String "-" (pretty p)) = true). simpl. by apply Hp.
Qed.

Lemma string_forallb_impl f g s :
  (∀ a, f a = true → g a = true) → string_forallb f s = true → string_forallb g s = true.
Proof.
  intros Hfg. induction s as [|a s IH]; simpl; [done|].
  rewrite !andb_true_iff. naive_solver.
Qed.

Lemma pretty_Z_num (z : Z) :
  pretty z ≠ "" ∧ string_forallb num_char (pretty z) = true.
Proof.
  destruct (pretty_Z_int z) as [? Hz]. split; [done|].
  by apply (string_forallb_impl _ _ _ int_char_num).
Qed.

(** ** Tokens *)

Definition delim (r : string) : Prop :=
  match r with EmptyString => True | String a _ => a ∈ [","; "]"; "}"]%char end.

Lemma num_char_not_delim a : a ∈ [","; "]"; "}"]%char → num_char a = false.
Proof. rewrite !elem_of_cons. intros [->|[->|[->|[]%elem_of_nil]]]; reflexivity. Qed.

(** Two number literals followed by delimiters are equal if the texts are. *)
Lemma num_token_inj s s' r r' :
  string_forallb num_char s = true → string_forallb num_char s' = true →
  delim r → delim r' → s +:+ r = s' +:+ r' → s = s' ∧ r = r'.
Proof.
  intros Hs Hs' Hr Hr'. revert s' Hs Hs'.
  induction s as [|a s IH]; intros [|a' s']; simpl;
    rewrite ?andb_true_iff, ?string_append_nil_l, ?string_append_cons.
  - done.
  - intros _ [Ha' _]. intros ->. simpl in Hr. apply num_char_not_delim in Hr. congruence.
  - intros [Ha _] _. intros <-. simpl in Hr'. apply num_char_not_delim in Hr'. congruence.
  - intros [??] [??] [= -> Heq]. by destruct (IH s') as [-> ->].
Qed.

Section numbers.
  Context `{RyuOps, !RyuLaws}.

Lemma write_number_int z : in_i64 z ∨ in_u64 z → write_number (number_of_int z) = Ok (pretty z).
Proof.
  intros Hz. unfold write_number; simpl. case_bool_decide.
  - case_decide; [by subst|done].
  - case_bool_decide; [done|]. tauto.
Qed.

Lemma write_number_ok n s :
  num_ok n → write_number n = Ok s → s ≠ "" ∧ string_forallb num_char s = true.
Proof.
  intros [(z & Hz & ->)|(f & Hf & _ & ->)].
  - rewrite write_number_int by done. intros [= <-]. apply pretty_Z_num.
  - unfold write_number; simpl. rewrite Hf. intros [= <-]. apply ryu_chars. by destruct f.
Qed.

Lemma f64_norm_inj f g :
  f64_is_finite f = true → f64_is_finite g = true →
  (if f64_is_zero f then S754_zero false else f)
  = (if f64_is_zero g then S754_zero false else g) →
  f = g ∨ f64_is_zero f = true ∧ f64_is_zero g = true.
Proof. destruct f, g; simpl; intros; simplify_eq; auto. Qed.

Lemma write_number_inj n n' s :
  num_ok n → num_ok n' → write_number n = Ok s → write_number n' = Ok s →
  num_equiv n n'.
Proof.
  assert (∀ f, f64_is_finite f = true →
    f64_is_finite (if f64_is_zero f then S754_zero false else f) = true) as Hfin.
  { by intros []. }
  assert (∀ f, valid_binary f64_prec f64_emax f = true →
    valid_binary f64_prec f64_emax (if f64_is_zero f then S754_zero false else f) = true) as Hval.
  { by intros []. }
  intros [(z & Hz & ->)|(f & Hf & Hfv & ->)] [(z' & Hz' & ->)|(f' & Hf' & Hfv' & ->)].
  - rewrite !write_number_int by done. intros [= <-] [= Heq%(inj pretty)]. subst. by left.
  - rewrite write_number_int by done. unfold write_number; simpl. rewrite Hf'.
    intros [= <-] [= Heq]. by apply ryu_not_int in Heq; [|apply Hfin].
  - rewrite write_number_int by done. unfold write_number; simpl. rewrite Hf.
    intros [= <-] [= Heq]. symmetry in Heq. by apply ryu_not_int in Heq; [|apply Hfin].
  - unfold write_number; simpl. rewrite Hf, Hf'. intros [= <-] [= Heq].
    apply ryu_inj in Heq; [|auto..].
    destruct (f64_norm_inj f f') as [->|[??]]; [done..|by symmetry|by left|].
    right. eauto 6.
Qed.
End numbers.

(** ** String literals *)

(** Reads back one escaped character. *)
Definition unhex (a : ascii) : nat :=
  let n := Ascii.nat_of_ascii a in if decide (n < 58) then n - 48 else n - 87.
Definition unescape_char (s : string) : option (ascii * string) :=
  match s with
  | EmptyString => None
  | String a t =>
      if decide (Ascii.nat_of_ascii a = 34) then None
      else if decide (Ascii.nat_of_ascii a = 92) then
        match t with
        | String "u" (String _ (String _ (String c (String d t)))) =>
            Some (Ascii.ascii_of_nat (unhex c * 16 + unhex d), t)
        | String "n" t => Some (Ascii.ascii_of_nat 10, t)
        | String "r" t => Some (Ascii.ascii_of_nat 13, t)
        | String "t" t => Some (Ascii.ascii_of_nat 9, t)
        | String "b" t => Some (Ascii.ascii_of_nat 8, t)
        | String "f" t => Some (Ascii.ascii_of_nat 12, t)
        | String c t => Some (c, t)
        | EmptyString => None
        end
      else Some (a, t)
  end.

Lemma unescape_escape_char a t : unescape_char (escape_char a +:+ t) = Some (a, t).
Proof. destruct a as [[] [] [] [] [] [] [] []]; reflexivity. Qed.

Lemma unescape_quote r : unescape_char (quote +:+ r) = None.
Proof. reflexivity. Qed.

Lemma escape_inj s s' r r' :
  escape s +:+ quote +:+ r = escape s' +:+ quote +:+ r' → s = s' ∧ r = r'.
Proof.
  revert s'. induction s as [|a s IH]; intros [|a' s']; cbn [escape].
  - rewrite !string_append_nil_l. intros Heq. split; [done|]. by apply (inj _) in Heq.
  - rewrite string_append_nil_l, <-string_append_assoc. intros Heq.
    apply (f_equal unescape_char) in Heq.
    by rewrite unescape_quote, unescape_escape_char in Heq.
  - rewrite string_append_nil_l, <-string_append_assoc. intros Heq.
    apply (f_equal unescape_char) in Heq.
    by rewrite unescape_quote, unescape_escape_char in Heq.
  - rewrite <-!string_append_assoc. intros Heq.
    apply (f_equal unescape_char) in Heq. rewrite !unescape_escape_char in Heq.
    injection Heq as -> Heq. by destruct (IH s') as [-> ->].
Qed.

(** ** Sequences of items *)

(** The first character of a written value tells its constructor. *)
Definition head_of (v : Value) (a : ascii) : Prop :=
  match v with
  | Null => a = "n"%char
  | Bool true => a = "t"%char
  | Bool false => a = "f"%char
  | Num _ => num_char a = true
  | Str _ => a = Ascii.ascii_of_nat 34
  | Arr _ => a = "["%char
  | Obj _ => a = "{"%char
  end.

Lemma head_of_not_delim v a : head_of v a → a ∉ [","; "]"; "}"]%char.
Proof.
  intros Hh Hd. pose proof (num_char_not_delim a Hd) as Hn.
  destruct v as [|[]| | | |]; simpl in Hh; try congruence;
    subst; repeat (apply elem_of_cons in Hd as [?|Hd]; [done|]); by apply elem_of_nil in Hd.
Qed.

Definition starts (s : string) : Prop :=
  match s with EmptyString => False | String a _ => a ∉ [","; "]"; "}"]%char end.

Section seq.
  Context {A : Type} (w : A → result CanonicalError string) (ok : A → Prop) (R : A → A → Prop).
  Context (Hstarts : ∀ x s, ok x → w x = Ok s → starts s).

(** Item [x] can be told from every other item, whatever follows. *)
Definition decodable (x : A) : Prop :=
  ∀ x' s s' r r', ok x' → w x = Ok s → w x' = Ok s' → delim r → delim r' →
    s +:+ r = s' +:+ r' → R x x' ∧ r = r'.

Lemma write_seq_delim l s r c :
  c ∈ ["]"; "}"]%char → write_seq false (map w l) = Ok s → delim (s +:+ String c r).
Proof.
  intros Hc. destruct l as [|x l]; simpl.
  - intros [= <-]. rewrite string_append_nil_l. simpl. set_solver.
  - intros (sx & _ & (rest & _ & [= <-])%bind_Ok)%bind_Ok.
    rewrite string_append_cons. simpl. set_solver.
Qed.

Lemma write_seq_inj first l l' s s' r r' c :
  c ∈ ["]"; "}"]%char → Forall ok l → Forall ok l' → Forall decodable l →
  write_seq first (map w l) = Ok s → write_seq first (map w l') = Ok s' →
  s +:+ String c r = s' +:+ String c r' → Forall2 R l l' ∧ r = r'.
Proof.
  intros Hc Hl Hl' Hd.
  assert (∀ (x : A) b sx t u, ok x → w x = Ok sx →
    String c t ≠ ((if b : bool then "" else ",") +:+ sx +:+ u)) as Hneq.
  { intros x b sx t u Hx Hw Heq. pose proof (Hstarts x sx Hx Hw) as Hs.
    destruct b.
    - rewrite string_append_nil_l in Heq. destruct sx as [|a sx]; [done|].
      rewrite string_append_cons in Heq. injection Heq as -> _. simpl in Hs. set_solver.
    - rewrite string_append_cons in Heq. injection Heq as -> _. set_solver. }
  revert first l' s s' Hl' Hl Hd.
  induction l as [|x l IH]; intros first [|x' l'] s s' Hl' Hl Hd; cbn [map write_seq].
  - intros [= <-] [= <-]. rewrite !string_append_nil_l. intros [= ->]. done.
  - apply Forall_cons in Hl' as [Hx' _].
    intros [= <-] (sx & Hw & (rest & _ & [= <-])%bind_Ok)%bind_Ok Heq.
    rewrite string_append_nil_l, <-!string_append_assoc in Heq.
    by apply Hneq with (x := x') in Heq.
  - apply Forall_cons in Hl as [Hx _].
    intros (sx & Hw & (rest & _ & [= <-])%bind_Ok)%bind_Ok [= <-] Heq.
    symmetry in Heq.
    rewrite string_append_nil_l, <-!string_append_assoc in Heq.
    by apply Hneq with (x := x) in Heq.
  - apply Forall_cons in Hl as [Hx Hl], Hl' as [Hx' Hl'], Hd as [Hdx Hd].
    intros (sx & Hw & (rest & Hr & [= <-])%bind_Ok)%bind_Ok
      (sx' & Hw' & (rest' & Hr' & [= <-])%bind_Ok)%bind_Ok Heq.
    rewrite <-!string_append_assoc in Heq. apply (inj _) in Heq.
    destruct (Hdx x' sx sx' (rest +:+ String c r) (rest' +:+ String c r')) as [HR Heq'];
      [done..|by eapply write_seq_delim|by eapply write_seq_delim|done|].
    destruct (IH false l' rest rest') as [Hf ->]; [done..|]. by split; [constructor|].
Qed.
End seq.

(** ** Objects: the written sequence is that of the entries sorted by key *)

Definition sorted_entries (m : list (string * Value)) : list (string * Value) :=
  map (λ k, (k, default Null (obj_get k m))) (merge_sort String.le m.*1).

Lemma entries_by_key m :
  NoDup m.*1 → map (λ k, (k, default Null (obj_get k m))) m.*1 = m.
Proof.
  induction m as [|[k v] m IH]; simpl; [done|].
  rewrite NoDup_cons. intros [Hk Hm]. rewrite decide_True by done. f_equal.
  rewrite <-IH at 2 by done. apply map_ext_in. intros k' Hk'%list_elem_of_In.
  by rewrite decide_False by (intros ->; done).
Qed.

Lemma sorted_entries_perm m : NoDup m.*1 → sorted_entries m ≡ₚ m.
Proof.
  intros Hm. unfold sorted_entries. 
  transitivity (map (λ k, (k, default Null (obj_get k m))) m.*1);
    [|by rewrite (entries_by_key m Hm)].
  apply Permutation_map, merge_sort_Permutation.
Qed.

Section inj.
  Context `{NfcOps, RyuOps, !RyuLaws}.

Definition write_entry (kv : string * Value) : result CanonicalError string :=
  ks ← write_string kv.1; vs ← write_value kv.2; Ok (ks +:+ ":" +:+ vs).

Lemma obj_get_map {A B} (f : A → B) k (m : list (string * A)) :
  obj_get k (map (λ kv, (kv.1, f kv.2)) m) = f <$> obj_get k m.
Proof. induction m as [|[k' v] m IH]; simpl; [done|]. by case_decide. Qed.

Lemma write_object_sorted m :
  write_object (map (λ kv, (kv.1, write_value kv.2)) m)
  = (s ← write_seq true (map write_entry (sorted_entries m)); Ok ("{" +:+ s +:+ "}")).
Proof.
  unfold write_object, sorted_entries. do 2 f_equal.
  rewrite fmap_fst_map, map_map. apply map_ext_in. intros k Hk%list_elem_of_In.
  rewrite merge_sort_Permutation in Hk. unfold write_entry; simpl.
  apply obj_get_is_Some in Hk as [v Hv]. by rewrite obj_get_map, Hv.
Qed.

Lemma write_value_head v s :
  json_ok v → write_value v = Ok s → ∃ a t, s = String a t ∧ head_of v a.
Proof.
  destruct v as [|[]|n|x|a|m]; cbn [write_value head_of]; intros Hok Hw.
  - simplify_eq. by eauto.
  - simplify_eq. by eauto.
  - simplify_eq. by eauto.
  - inversion Hok as [| |? Hn| | |]; subst.
    destruct (write_number_ok n s Hn Hw) as [Hs Hc]. destruct s as [|c s]; [done|].
    apply andb_true_iff in Hc as [??]. eauto.
  - unfold write_string in Hw. simplify_eq. unfold quote.
    rewrite string_append_cons. eauto.
  - unfold write_array in Hw. apply bind_Ok in Hw as (u & _ & [= <-]).
    rewrite string_append_cons. eauto.
  - rewrite write_object_sorted in Hw. apply bind_Ok in Hw as (u & _ & [= <-]).
    rewrite string_append_cons. eauto.
Qed.

Lemma write_value_starts v s : json_ok v → write_value v = Ok s → starts s.
Proof.
  intros Hok Hw. destruct (write_value_head v s Hok Hw) as (a & t & -> & Ha).
  by eapply head_of_not_delim.
Qed.

Lemma write_entry_starts kv s : write_entry kv = Ok s → starts s.
Proof.
  unfold write_entry, write_string. intros (ks & [= <-] & (vs & _ & [= <-])%bind_Ok)%bind_Ok.
  unfold quote. rewrite !string_append_cons. simpl. by vm_compute; set_solver.
Qed.

Definition entry_ok (kv : string * Value) : Prop := nfc kv.1 = kv.1 ∧ json_ok kv.2.
Definition entry_equiv (kv kv' : string * Value) : Prop :=
  kv.1 = kv'.1 ∧ json_equiv kv.2 kv'.2.

Lemma write_entry_decodable kv :
  entry_ok kv → decodable write_value json_ok json_equiv kv.2 →
  decodable write_entry entry_ok entry_equiv kv.
Proof.
  intros [Hk Hv] Hd kv' s s' r r' [Hk' Hv']. unfold write_entry, write_string.
  intros (ks & [= <-] & (vs & Hw & [= <-])%bind_Ok)%bind_Ok
    (ks' & [= <-] & (vs' & Hw' & [= <-])%bind_Ok)%bind_Ok Hr Hr'.
  rewrite Hk, Hk', <-!string_append_assoc. intros Heq. apply (inj _) in Heq.
  apply escape_inj in Heq as [Heqk Heq]. apply (inj _) in Heq.
  destruct (Hd kv'.2 vs vs' r r') as [??]; [done..|]. by repeat split.
Qed.

Lemma entries_ok m :
  Forall (λ kv, nfc kv.1 = kv.1) m → Forall (λ kv, json_ok kv.2) m → NoDup m.*1 →
  Forall entry_ok (sorted_entries m).
Proof.
  intros Hn Hm Hnd. rewrite sorted_entries_perm by done.
  by apply Forall_and.
Qed.

Lemma write_value_same_head v v' s s' r r' :
  json_ok v → json_ok v' → write_value v = Ok s → write_value v' = Ok s' →
  s +:+ r = s' +:+ r' → ∃ a, head_of v a ∧ head_of v' a.
Proof.
  intros Hok Hok' Hw Hw' Heq.
  destruct (write_value_head v s Hok Hw) as (a & t & -> & Ha).
  destruct (write_value_head v' s' Hok' Hw') as (a' & t' & -> & Ha').
  rewrite !string_append_cons in Heq. injection Heq as -> _. eauto.
Qed.

(** Every well-formed value can be read back, whatever follows. *)
Lemma write_value_decodable v :
  json_ok v → decodable write_value json_ok json_equiv v.
Proof.
  induction v as [|b|n|x|a IH|m IH] using Value_nested_ind;
    intros Hok v' s s' r r' Hok' Hw Hw' Hr Hr' Heq;
    destruct (write_value_same_head _ _ _ _ _ _ Hok Hok' Hw Hw' Heq) as (c & Hc & Hc').
  - destruct v' as [|[]| | | |]; simpl in Hc, Hc'; subst; try done.
    simpl in *; simplify_eq. by split; [constructor|].
  - destruct b, v' as [|[]| | | |]; simpl in Hc, Hc'; subst; try done;
      simpl in *; simplify_eq; by split; [constructor|].
  - destruct v' as [|[]|n'| | |]; simpl in Hc, Hc'; subst; try done.
    inversion Hok as [| |? Hn| | |]; inversion Hok' as [| |? Hn'| | |]; subst.
    apply num_token_inj in Heq as [-> ->]; 
      [|apply (write_number_ok _ _ Hn Hw)|apply (write_number_ok _ _ Hn' Hw')|done|done].
    split; [|done]. constructor. by eapply write_number_inj.
  - destruct v' as [|[]| |x'| |]; simpl in Hc, Hc'; subst; try done.
    cbn [write_value] in Hw, Hw'. unfold write_string in Hw, Hw'.
    injection Hw as <-. injection Hw' as <-. rewrite <-!string_append_assoc in Heq. apply (inj _) in Heq.
    apply escape_inj in Heq as [Hx ->]. split; [by constructor|done].
  - destruct v' as [|[]| | |a'|]; simpl in Hc, Hc'; subst; try done.
    inversion Hok as [| | | |? Ha|]; inversion Hok' as [| | | |? Ha'|]; subst.
    cbn [write_value] in Hw, Hw'. unfold write_array in Hw, Hw'. 
    apply bind_Ok in Hw as (t & Hw & [= <-]), Hw' as (t' & Hw' & [= <-]).
    rewrite <-!string_append_assoc in Heq. apply (inj _) in Heq.
    eapply (write_seq_inj _ json_ok json_equiv) in Heq as [? ->]; [..|done|done].
    + by split; [constructor|].
    + apply write_value_starts.
    + set_solver.
    + done.
    + done.
    + rewrite !Forall_forall in *. eauto.
  - destruct v' as [|[]| | | |m']; simpl in Hc, Hc'; subst; try done.
    inversion Hok as [| | | | |? Hnd Hk Hv]; inversion Hok' as [| | | | |? Hnd' Hk' Hv']; subst.
    cbn [write_value] in Hw, Hw'. rewrite write_object_sorted in Hw, Hw'.
    apply bind_Ok in Hw as (t & Hw & [= <-]), Hw' as (t' & Hw' & [= <-]).
    rewrite <-!string_append_assoc in Heq. apply (inj _) in Heq.
    eapply (write_seq_inj _ entry_ok entry_equiv) in Heq as [Hf ->]; [..|done|done].
    + split; [|done]. apply (equiv_obj m (sorted_entries m) (sorted_entries m')); [..|done];
        by rewrite sorted_entries_perm.
    + intros ?? _. apply write_entry_starts.
    + set_solver.
    + by apply entries_ok.
    + by apply entries_ok.
    + rewrite sorted_entries_perm by done. apply Forall_forall. intros kv Hkv.
      rewrite !Forall_forall in *. apply write_entry_decodable; [split|]; eauto.
Qed.

(** C23: on well-formed documents whose keys are in normal form C, two documents
    have the same canonical bytes exactly when they are equal up to the order
    of object entries, the Unicode form of strings and the sign of zero. *)
Theorem canonicalize_eq_iff v v' s s' :
  json_ok v → json_ok v' → canonicalize v = Ok s → canonicalize v' = Ok s' →
  s = s' ↔ json_equiv v v'.
Proof.
  unfold canonicalize. intros Hok Hok' (t & Hw & [= <-])%bind_Ok (t' & Hw' & [= <-])%bind_Ok.
  split; [|intros He; apply (write_value_equiv _ _ Hok) in He; congruence].
  intros ->. destruct (write_value_decodable v Hok v' t' t' "" "") as [? _]; done.
Qed.
End inj.

(** ** The hypotheses hold of a concrete formatter

    Sign, significand, [e], exponent: all the laws ask for, and what the
    witnesses compute with. *)
Definition sci_format (f : f64) : string :=
  match f with
  | S754_zero b => (if b then "-" else "+") +:+ "0" +:+ "e" +:+ "0"
  | S754_finite b m e => (if b then "-" else "+") +:+ pretty (Z.pos m) +:+ "e" +:+ pretty e
  | _ => ""
  end.

Definition sci_ops : RyuOps := {| ryu_format := sci_format |}.
Definition nfc_id : NfcOps := {| nfc s := s |}.

Lemma pretty_no_e (z : Z) : not_in_string "e" (pretty z).
Proof.
  destruct (pretty_Z_int z) as [_ Hz]. revert Hz. apply string_forallb_impl.
  intros a Ha. apply bool_decide_eq_true. by intros ->.
Qed.

(** The sign, the significand and the exponent can be read off. *)
Lemma sci_format_split f :
  f64_is_finite f = true → ∃ b (m e : Z),
    sci_format f = String (if b : bool then "-" else "+")%char
      (pretty m +:+ String "e" (pretty e)) ∧
    (f = S754_zero b ∧ m = 0%Z ∨ ∃ p, f = S754_finite b p e ∧ m = Z.pos p).
Proof.
  destruct f as [b| | |b p e]; try done; intros _; [exists b, 0%Z, 0%Z|exists b, (Z.pos p), e];
    by destruct b; eauto 6.
Qed.

Lemma sci_laws : @RyuLaws sci_ops.
Proof.
  split; simpl.
  - intros f g _ _ Hf Hg Heq.
    destruct (sci_format_split f Hf) as (b & m & e & Hsf & Hf').
    destruct (sci_format_split g Hg) as (b' & m' & e' & Hsg & Hg').
    rewrite Hsf, Hsg in Heq. injection Heq as Hb Heq.
    apply (f_equal (split_once "e")) in Heq.
    rewrite !split_once_app in Heq by apply pretty_no_e.
    injection Heq as Hm%(inj pretty) He%(inj pretty). subst m' e'.
    destruct b, b', Hf' as [[-> ->]|(p & -> & ->)], Hg' as [[-> ?]|(p' & -> & ?)];
      by simplify_eq.
  - intros f Hf. destruct (sci_format_split f Hf) as (b & m & e & -> & _). split; [done|].
    simpl. rewrite string_forallb_app. simpl.
    rewrite (proj2 (pretty_Z_num m)), (proj2 (pretty_Z_num e)). by destruct b.
  - intros f z Hf Heq. destruct (sci_format_split f Hf) as (b & m & e & Hs & _).
    rewrite Hs, <-string_append_cons in Heq.
    apply (f_equal (split_once "e")) in Heq. rewrite split_once_app in Heq.
    + symmetry in Heq. apply split_once_Some in Heq as [Hz _].
      pose proof (proj2 (pretty_Z_int z)) as Hc. rewrite Hz, string_forallb_app in Hc.
      simpl in Hc. by rewrite andb_false_r in Hc.
    + apply not_in_string_cons. split; [by destruct b|apply pretty_no_e].
Qed.

Definition canon_demo : Value := Obj [("b", Num (number_of_int 2)); ("a", Arr [Null; Str "x"])].
Definition canon_demo' : Value := Obj [("a", Arr [Null; Str "x"]); ("b", Num (number_of_int 2))].

Lemma canon_demo_ok : @json_ok nfc_id canon_demo ∧ @json_ok nfc_id canon_demo'.
Proof.
  assert (num_ok (number_of_int 2)).
  { left. exists 2%Z. split; [left; ints|done]. }
  assert (@json_ok nfc_id (Arr [Null; Str "x"])) by (repeat constructor).
  split; (constructor; [apply (bool_decide_unpack _); vm_compute; exact I|..]);
    repeat apply Forall_cons_2; done || by constructor.
Qed.

Lemma canonicalize_eq_iff_witness :
  @json_equiv nfc_id canon_demo canon_demo' ∧
  @canonicalize nfc_id sci_ops canon_demo = Ok ("{" +:+ quote +:+ "a" +:+ quote +:+ ":[null," +:+ quote +:+ "x" +:+ quote
        +:+ "]," +:+ quote +:+ "b" +:+ quote +:+ ":2}").
Proof.
  split; [|reflexivity].
  eapply (@canonicalize_eq_iff nfc_id sci_ops sci_laws).
  - apply canon_demo_ok.
  - apply canon_demo_ok.
  - reflexivity.
  - reflexivity.
  - reflexivity.
Defined.
