(* ===== verification/Serde.v ===== *)
(** * JSON form of predicates and steps

    What [serde_json::to_value] produces for the types whose [Serialize] is
    derived: internally tagged enums ([tag = "kind"], snake-case names) whose
    fields come in declaration order, [skip_serializing_if] fields left out
    when their predicate holds, a non-finite [f64] written as [null]. *)

From S2P Require Import Prelude Json CoreTypes Sha256 Canonical.

Create HintDb vcli_serde.

(** ** Scalars *)

Definition int_value (z : Z) : Value := Num (number_of_int z).
(** [Value::from(f64)]: [Number::from_f64] refuses NaN and infinities. *)
Definition f64_value (f : f64) : Value :=
  if f64_is_finite f then Num (number_of_f64 f) else Null.
(** A field under [skip_serializing_if = "Option::is_none"]. *)
Definition opt_field {A} (k : string) (f : A → Value) (o : option A)
    : list (string * Value) :=
  match o with Some a => [(k, f a)] | None => [] end.

(** ** Geometry and regions *)

(* src: crates/vcli-core/src/geom.rs 9-16 Point::serialize *)
Definition Point_to_value (p : Point) : Value :=
  Obj [("x", int_value (px p)); ("y", int_value (py p))].
(* src: crates/vcli-core/src/geom.rs 18-29 Rect::serialize *)
Definition Rect_to_value (r : Rect) : Value :=
  Obj [("x", int_value (rx r)); ("y", int_value (ry r));
       ("w", int_value (rw r)); ("h", int_value (rh r))].
(* src: crates/vcli-core/src/region.rs 69-76 Size::serialize *)
Definition Size_to_value (s : Size) : Value :=
  Obj [("w", int_value (size_w s)); ("h", int_value (size_h s))].
(* src: crates/vcli-core/src/region.rs 7-14 Anchor::serialize *)
Definition Anchor_to_value (a : Anchor) : Value :=
  match a with AnchorMatch => Str "match" end.

(* src: crates/vcli-core/src/region.rs 22-59 Region::serialize *)
Definition Region_to_value (r : Region) : Value :=
  match r with
  | Absolute rect => Obj [("kind", Str "absolute"); ("box", Rect_to_value rect)]
  | Window app title_contains window_index =>
      Obj ([("kind", Str "window"); ("app", Str app)]
           ++ opt_field "title_contains" Str title_contains
           ++ opt_field "window_index" int_value window_index)
  | RelativeTo predicate anchor offset size =>
      Obj ([("kind", Str "relative_to"); ("predicate", Str predicate);
            ("anchor", Anchor_to_value anchor); ("offset", Point_to_value offset)]
           ++ opt_field "size" Size_to_value size)
  end.

(** ** Predicates *)

(* src: crates/vcli-core/src/predicate.rs 20-23 Rgb::serialize *)
Definition Rgb_to_value (c : Rgb) : Value :=
  Arr [int_value (red c); int_value (green c); int_value (blue c)].

(* src: crates/vcli-core/src/predicate.rs 25-88 PredicateKind::serialize *)
Definition PredicateKind_to_value (p : PredicateKind) : Value :=
  match p with
  | Template image confidence region throttle_ms =>
      Obj [("kind", Str "template"); ("image", Str image);
           ("confidence", f64_value confidence); ("region", Region_to_value region);
           ("throttle_ms", int_value throttle_ms)]
  | ColorAt point rgb tolerance =>
      Obj [("kind", Str "color_at"); ("point", Point_to_value point);
           ("rgb", Rgb_to_value rgb); ("tolerance", int_value tolerance)]
  | PixelDiff region baseline threshold =>
      Obj [("kind", Str "pixel_diff"); ("region", Region_to_value region);
           ("baseline", Str baseline); ("threshold", f64_value threshold)]
  | AllOf operands => Obj [("kind", Str "all_of"); ("of", Arr (map Str operands))]
  | AnyOf operands => Obj [("kind", Str "any_of"); ("of", Arr (map Str operands))]
  | NotP operand => Obj [("kind", Str "not"); ("of", Str operand)]
  | ElapsedMsSinceTrue predicate ms =>
      Obj [("kind", Str "elapsed_ms_since_true"); ("predicate", Str predicate);
           ("ms", int_value ms)]
  end.

(** ** Steps *)

(* src: crates/vcli-core/src/action.rs 9-19 Button::serialize *)
Definition Button_to_value (b : Button) : Value :=
  Str match b with LeftButton => "left" | RightButton => "right" | MiddleButton => "middle" end.
(* src: crates/vcli-core/src/action.rs 21-34 Modifier::serialize *)
Definition Modifier_to_value (m : Modifier) : Value :=
  Str match m with Cmd => "cmd" | Shift => "shift" | Alt => "alt" | Ctrl => "ctrl" end.
(* src: crates/vcli-core/src/step.rs 10-20 Target::serialize *)
Definition Target_to_value (t : Target) : Value :=
  match t with TargetAbsolute p => Point_to_value p | TargetExpression s => Str s end.
(* src: crates/vcli-core/src/step.rs 22-33 OnTimeout::serialize *)
Definition OnTimeout_to_value (o : OnTimeout) : Value :=
  Str match o with
      | TimeoutFail => "fail" | TimeoutContinue => "continue" | TimeoutRetry => "retry"
      end.
(* src: crates/vcli-core/src/step.rs 35-43 OnFail::serialize *)
Definition StepOnFail_to_value (o : StepOnFail) : Value :=
  Str match o with FailFail => "fail" | FailContinue => "continue" end.

(* src: crates/vcli-core/src/step.rs 45-112 Step::serialize *)
Definition Step_to_value (s : Step) : Value :=
  match s with
  | Move to => Obj [("kind", Str "move"); ("at", Target_to_value to)]
  | Click to button =>
      Obj ([("kind", Str "click"); ("at", Target_to_value to)]
           ++ if is_default_button button then [] else [("button", Button_to_value button)])
  | Type_ text => Obj [("kind", Str "type"); ("text", Str text)]
  | Key key modifiers =>
      Obj ([("kind", Str "key"); ("key", Str key)]
           ++ match modifiers with
              | [] => []
              | _ => [("modifiers", Arr (map Modifier_to_value modifiers))]
              end)
  | Scroll to dx dy =>
      Obj [("kind", Str "scroll"); ("at", Target_to_value to);
           ("dx", int_value dx); ("dy", int_value dy)]
  | WaitFor predicate timeout_ms on_timeout =>
      Obj [("kind", Str "wait_for"); ("predicate", Str predicate);
           ("timeout_ms", int_value timeout_ms);
           ("on_timeout", OnTimeout_to_value on_timeout)]
  | Assert predicate on_fail =>
      Obj [("kind", Str "assert"); ("predicate", Str predicate);
           ("on_fail", StepOnFail_to_value on_fail)]
  | SleepMs ms => Obj [("kind", Str "sleep_ms"); ("ms", int_value ms)]
  end.

(** ** Programs *)

(* src: crates/vcli-core/src/trigger.rs 6-19 Trigger::serialize *)
Definition Trigger_to_value (t : Trigger) : Value :=
  match t with
  | OnSubmit => Obj [("kind", Str "on_submit")]
  | OnPredicate name => Obj [("kind", Str "on_predicate"); ("name", Str name)]
  | Manual => Obj [("kind", Str "manual")]
  end.
(** Untagged: the name itself, or the predicate's document. *)
(* src: crates/vcli-core/src/watch.rs 13-22 WatchWhen::serialize *)
Definition WatchWhen_to_value (w : WatchWhen) : Value :=
  match w with ByName name => Str name | Inline p => PredicateKind_to_value p end.
(* src: crates/vcli-core/src/watch.rs 24-42 Lifetime::serialize *)
Definition Lifetime_to_value (l : Lifetime) : Value :=
  match l with
  | OneShot => Obj [("kind", Str "one_shot")]
  | Persistent => Obj [("kind", Str "persistent")]
  | UntilPredicate name => Obj [("kind", Str "until_predicate"); ("name", Str name)]
  | TimeoutMs ms => Obj [("kind", Str "timeout_ms"); ("ms", int_value ms)]
  end.
(* src: crates/vcli-core/src/watch.rs 44-59 Watch::serialize *)
Definition Watch_to_value (w : Watch) : Value :=
  Obj [("when", WatchWhen_to_value (w_when w)); ("do", Arr (map Step_to_value (w_steps w)));
       ("throttle_ms", int_value (w_throttle_ms w));
       ("lifetime", Lifetime_to_value (w_lifetime w))].

(** [OnComplete] and [OnFail] are their one field [emit]. *)
(* src: crates/vcli-core/src/program.rs 34-46 OnComplete::serialize *)
Definition emit_to_value (e : string) : Value := Obj [("emit", Str e)].

(* src: crates/vcli-core/src/program.rs 48-88 Program::serialize *)
Definition Program_to_value `{UuidOps} (p : Program) : Value :=
  Obj ([("version", Str (p_version p)); ("name", Str (p_name p))]
       ++ opt_field "id" (λ i, Str (ProgramId_to_string i)) (p_id p)
       ++ [("trigger", Trigger_to_value (p_trigger p));
           ("predicates", Obj (map (λ kv, (kv.1, PredicateKind_to_value kv.2))
                                 (btree_entries (p_predicates p))))]
       ++ match p_watches p with
          | [] => []
          | ws => [("watches", Arr (map Watch_to_value ws))]
          end
       ++ [("body", Arr (map Step_to_value (p_body p)))]
       ++ opt_field "on_complete" emit_to_value (p_on_complete p)
       ++ opt_field "on_fail" emit_to_value (p_on_fail p)
       ++ opt_field "timeout_ms" int_value (p_timeout_ms p)
       ++ match btree_entries (p_labels p) with
          | [] => []
          | ls => [("labels", Obj (map (λ kv, (kv.1, Str kv.2)) ls))]
          end
       ++ if is_default_priority (p_priority p) then []
          else [("priority", int_value (p_priority p))]).

(** ** The ranges the Rust types carry *)

Definition Point_wf (p : Point) : Prop := in_i32 (px p) ∧ in_i32 (py p).
Definition Rect_wf (r : Rect) : Prop :=
  in_i32 (rx r) ∧ in_i32 (ry r) ∧ in_i32 (rw r) ∧ in_i32 (rh r).
Definition Region_wf (r : Region) : Prop :=
  match r with
  | Absolute rect => Rect_wf rect
  | Window _ _ idx => from_option in_u32 True idx
  | RelativeTo _ _ o s =>
      Point_wf o ∧ from_option (λ s, in_i32 (size_w s) ∧ in_i32 (size_h s)) True s
  end.
Definition PredicateKind_wf (p : PredicateKind) : Prop :=
  match p with
  | Template _ _ region t => Region_wf region ∧ in_u32 t
  | ColorAt point rgb tol =>
      Point_wf point ∧ (in_u8 (red rgb) ∧ in_u8 (green rgb) ∧ in_u8 (blue rgb)) ∧ in_u16 tol
  | PixelDiff region _ _ => Region_wf region
  | ElapsedMsSinceTrue _ ms => in_u32 ms
  | AllOf _ | AnyOf _ | NotP _ => True
  end.

(** ** Serialised documents canonicalise *)

(** Documents whose numbers the canonical writer accepts. *)
Inductive writable : Value → Prop :=
  | writable_null : writable Null
  | writable_bool b : writable (Bool b)
  | writable_int z : in_i64 z → writable (int_value z)
  | writable_f64 f : f64_is_finite f = true → writable (Num (number_of_f64 f))
  | writable_str s : writable (Str s)
  | writable_arr a : Forall writable a → writable (Arr a)
  | writable_obj m : Forall (λ kv, writable kv.2) m → writable (Obj m).

Lemma writable_f64_value f : writable (f64_value f).
Proof. unfold f64_value. destruct (f64_is_finite f) eqn:?; by constructor. Qed.

Lemma Forall_opt_field {A} k (f : A → Value) o :
  from_option (λ a, writable (f a)) True o → Forall (λ kv, writable kv.2) (opt_field k f o).
Proof. destruct o; simpl; intros; [by repeat constructor|constructor]. Qed.

Lemma writable_Strs l : writable (Arr (map Str l)).
Proof. constructor. induction l; simpl; by repeat constructor. Qed.

#[export] Hint Constructors writable : vcli_serde.
#[export] Hint Resolve writable_f64_value writable_Strs Forall_opt_field : vcli_serde.
#[export] Hint Resolve Forall_cons_2 Forall_nil_2 Forall_app_2 : vcli_serde.
#[export] Hint Extern 5 (in_i64 _) => unfold_ints; lia : vcli_serde.

Ltac serde :=
  simpl in *; repeat match goal with H : _ ∧ _ |- _ => destruct H end;
  simpl in *; eauto 12 with vcli_serde.

Lemma writable_Point p : Point_wf p → writable (Point_to_value p).
Proof. intros []. constructor. serde. Qed.
Lemma writable_Rect r : Rect_wf r → writable (Rect_to_value r).
Proof. intros (?&?&?&?). constructor. serde. Qed.
#[export] Hint Resolve writable_Point writable_Rect : vcli_serde.

Lemma writable_Region r : Region_wf r → writable (Region_to_value r).
Proof.
  destruct r as [rect|app t w|p [] o s]; intros Hr; constructor.
  - serde.
  - repeat apply Forall_app_2; [serde| |]; apply Forall_opt_field;
      [destruct t|destruct w]; serde.
  - destruct Hr as [? Hs]. apply Forall_app_2; [serde|]. apply Forall_opt_field.
    destruct s as [s|]; [|done]. destruct Hs. simpl. constructor. serde.
Qed.
#[export] Hint Resolve writable_Region : vcli_serde.

Lemma writable_PredicateKind p : PredicateKind_wf p → writable (PredicateKind_to_value p).
Proof.
  destruct p as [im c r t|pt rgb tol|r b th|l|l|o|e ms]; intros Hp; constructor; try by serde.
  unfold Rgb_to_value. repeat apply Forall_cons_2; serde.
Qed.

Section total.
  Context `{NfcOps, RyuOps}.

Lemma write_seq_total first l :
  Forall (λ x, ∃ s, x = Ok s) l → ∃ s, write_seq first l = Ok s.
Proof.
  intros Hl. revert first. induction Hl as [|x l [s ->] Hl IH]; intros first; simpl; [eauto|].
  destruct (IH false) as [rest ->]. simpl. eauto.
Qed.

(** Every document whose numbers fit machine types or are finite floats has a
    canonical form. *)
Lemma write_value_total v : writable v → ∃ s, write_value v = Ok s.
Proof.
  induction v as [|b|n|x|a IH|m IH] using Value_nested_ind; intros Hw;
    inversion Hw as [| | | | |? Ha|? Hm]; subst; clear Hw; cbn [write_value].
  - eauto.
  - destruct b; eauto.
  - unfold write_number; simpl. rewrite bool_decide_eq_true_2 by done. eauto.
  - unfold write_number; simpl. match goal with H : f64_is_finite _ = true |- _ => rewrite H end.
    eauto.
  - unfold write_string. eauto.
  - unfold write_array. destruct (write_seq_total true (map write_value a)) as [s ->]; [|simpl; eauto].
    rewrite Forall_map. rewrite Forall_forall in *. eauto.
  - unfold write_object.
    set (parts := map (λ kv, (kv.1, write_value kv.2)) m).
    edestruct write_seq_total as [s ->]; [|simpl; eauto].
    rewrite Forall_map. apply Forall_forall. intros k _. unfold write_string. simpl.
    destruct (obj_get k parts) as [r|] eqn:Hk; [|eauto].
    assert (∃ s, r = Ok s) as [s ->]; [|eauto].
    clear -Hk IH Hm. subst parts. induction m as [|[k' v] m IHm]; simpl in *; [done|].
    apply Forall_cons in IH as [Hv IH]. apply Forall_cons in Hm as [Hv' Hm].
    case_decide; [simplify_eq; eauto|by apply IHm].
Qed.

(** No predicate a program can carry makes hashing fail. *)
Lemma predicate_hash_total p :
  PredicateKind_wf p → ∃ h, predicate_hash (PredicateKind_to_value p) = Ok h.
Proof.
  intros Hp. unfold predicate_hash, canonicalize.
  destruct (write_value_total (PredicateKind_to_value p)) as [s ->]; [|simpl; eauto].
  by apply writable_PredicateKind.
Qed.
End total.
