(* ===== verification/EventWire.v ===== *)
(** * Events on the wire and in the log

    The derived [Serialize] and [Deserialize] of [vcli-core/src/events.rs] and
    of the types an event carries: an event is one JSON object, its [at], the
    [type] tag and the fields of the variant side by side.  Reading looks a
    field up by name, ignores what it does not know, and lets an optional
    field be missing or [null].

    The text of a JSON document belongs to [serde_json]; what the crates rely
    on is that a document made of strings, booleans, 64-bit integers, arrays
    and objects is read back as it was written ([JsonTextLaws]). *)

From S2P Require Import Prelude Json CoreTypes Sha256 Canonical Serde.

Create Rewrite HintDb vcli_wire.

(** ** Textual forms owned by other crates *)

(** [serde_json::to_string] and [serde_json::from_str::<Value>]; an error is
    its message. *)
Class JsonText := {
  json_to_string : Value → string;
  json_from_str : string → result string Value;
}.

(** Documents whose text determines them: no floating-point number. *)
Inductive exact : Value → Prop :=
  | exact_null : exact Null
  | exact_bool b : exact (Bool b)
  | exact_int z : (i64_min ≤ z ≤ u64_max)%Z → exact (int_value z)
  | exact_str s : exact (Str s)
  | exact_arr a : Forall exact a → exact (Arr a)
  | exact_obj m : NoDup m.*1 → Forall (λ kv, exact kv.2) m → exact (Obj m).

Class JsonTextLaws `{JsonText} : Prop :=
  json_round_trip v : exact v → json_from_str (json_to_string v) = Ok v.

(** The [uuid] crate parses what it displays. *)
Class UuidLaws `{UuidOps} : Prop :=
  uuid_round_trip n : uuid_parse (uuid_display n) = Some n.

Lemma ProgramId_round_trip `{UuidOps, !UuidLaws} i :
  ProgramId_from_str (ProgramId_to_string i) = Some i.
Proof.
  unfold ProgramId_from_str, ProgramId_to_string. rewrite uuid_round_trip.
  by destruct i.
Qed.

#[export] Instance ProgramId_to_string_inj `{UuidOps, !UuidLaws} :
  Inj (=) (=) ProgramId_to_string.
Proof.
  intros i j Hij. apply (f_equal ProgramId_from_str) in Hij.
  rewrite !ProgramId_round_trip in Hij. by simplify_eq.
Qed.

(** ** Reading scalars and fields *)

Definition read_str (v : Value) : option string := value_as_str v.
Definition read_bool (v : Value) : option bool :=
  match v with Bool b => Some b | _ => None end.
Definition read_u32 (v : Value) : option Z :=
  match v with
  | Num n => z ← as_u64 n; if bool_decide (z ≤ u32_max)%Z then Some z else None
  | _ => None
  end.
Definition read_i64 (v : Value) : option Z :=
  match v with Num n => as_i64 n | _ => None end.
Definition read_i32 (v : Value) : option Z :=
  z ← read_i64 v; if bool_decide (in_i32 z) then Some z else None.
Definition read_any (v : Value) : option Value := Some v.

(** A field that must be there, and one under [#[serde(default)]]. *)
Definition req {A} (k : string) (f : Value → option A) (v : Value) : option A :=
  x ← value_get k v; f x.
Definition dflt {A} (k : string) (d : A) (f : Value → option A) (v : Value) : option A :=
  match value_get k v with Some x => f x | None => Some d end.
(** An [Option<T>] field. *)
Definition opt {A} (k : string) (f : Value → option A) (v : Value) : option (option A) :=
  match value_get k v with
  | None | Some Null => Some None
  | Some x => Some <$> f x
  end.

(** A derived struct is read from an object, or from an array that lists its
    fields in order and may end early where the rest have defaults. *)
Definition struct_of (names : list string) (v : Value) : option Value :=
  match v with
  | Obj _ => Some v
  | Arr l => if decide (length l ≤ length names) then Some (Obj (zip names l)) else None
  | _ => None
  end.

#[export] Instance in_u32_dec z : Decision (in_u32 z).
Proof. unfold in_u32. apply _. Defined.

Lemma read_u32_int z : in_u32 z → read_u32 (int_value z) = Some z.
Proof.
  intros Hz. unfold read_u32, int_value, number_of_int; simpl.
  rewrite bool_decide_true by ints. simpl. by rewrite bool_decide_true by ints.
Qed.
Lemma read_i64_int z : in_i64 z → read_i64 (int_value z) = Some z.
Proof. intros Hz. simpl. by rewrite bool_decide_true. Qed.
Lemma read_i32_int z : in_i32 z → read_i32 (int_value z) = Some z.
Proof.
  intros Hz. unfold read_i32. rewrite read_i64_int by ints. simpl.
  by rewrite bool_decide_true.
Qed.

Lemma req_hd {A} k (f : Value → option A) v m : req k f (Obj ((k, v) :: m)) = f v.
Proof. unfold req; simpl. by rewrite decide_True. Qed.
Lemma req_tl {A} k k' (f : Value → option A) v m :
  k ≠ k' → req k f (Obj ((k', v) :: m)) = req k f (Obj m).
Proof. intros. unfold req; simpl. by rewrite decide_False. Qed.
Lemma opt_hd {A} k (f : Value → option A) v m :
  v ≠ Null → opt k f (Obj ((k, v) :: m)) = Some <$> f v.
Proof. intros. unfold opt; simpl. rewrite decide_True by done. by destruct v. Qed.
Lemma opt_tl {A} k k' (f : Value → option A) v m :
  k ≠ k' → opt k f (Obj ((k', v) :: m)) = opt k f (Obj m).
Proof. intros. unfold opt; simpl. by rewrite decide_False. Qed.
Lemma opt_nil {A} k (f : Value → option A) : opt k f (Obj []) = Some None.
Proof. done. Qed.
Lemma dflt_hd {A} k d (f : Value → option A) v m : dflt k d f (Obj ((k, v) :: m)) = f v.
Proof. unfold dflt; simpl. by rewrite decide_True. Qed.
Lemma dflt_tl {A} k k' d (f : Value → option A) v m :
  k ≠ k' → dflt k d f (Obj ((k', v) :: m)) = dflt k d f (Obj m).
Proof. intros. unfold dflt; simpl. by rewrite decide_False. Qed.
Lemma dflt_nil {A} k d (f : Value → option A) : dflt k d f (Obj []) = Some d.
Proof. done. Qed.

(** [wire_tag k] reads the tag of a tagged enum and picks its branch. *)
Ltac wire_tag k :=
  cbv zeta; repeat rewrite (req_tl k) by discriminate; rewrite (req_hd k);
  cbn [read_str value_as_str mbind option_bind];
  repeat rewrite decide_False by discriminate; try rewrite decide_True by reflexivity.

(** [wire] reads the fields of a concrete document one after the other,
    rewriting what is read with the hypotheses in scope. *)
Ltac wire :=
  repeat first
    [ rewrite req_hd | rewrite req_tl by discriminate | rewrite opt_hd by discriminate
    | rewrite opt_tl by discriminate | rewrite opt_nil | rewrite dflt_hd
    | rewrite dflt_tl by discriminate | rewrite dflt_nil
    | rewrite decide_True by reflexivity | rewrite decide_False by discriminate
    | rewrite read_u32_int by assumption | rewrite read_i64_int by done
    | rewrite read_i32_int by assumption
    | progress autorewrite with vcli_wire | progress cbn [mbind option_bind fmap option_fmap option_map app
        opt_field read_str read_bool read_any value_as_str] ].

(** ** The parts of an event *)

Section wire.
  Context `{UuidOps}.

(* src: crates/vcli-core/src/ids.rs 11-15 ProgramId::serialize *)
Definition ProgramId_to_value (i : ProgramId) : Value := Str (ProgramId_to_string i).
(* src: crates/vcli-core/src/ids.rs 11-15 ProgramId::deserialize *)
Definition ProgramId_from_value (v : Value) : option ProgramId :=
  s ← read_str v; ProgramId_from_str s.

(* src: crates/vcli-core/src/state.rs 9-27 ProgramState::serialize *)
Definition ProgramState_to_value (s : ProgramState) : Value := Str (ProgramState_as_str s).
(* src: crates/vcli-core/src/state.rs 9-27 ProgramState::deserialize *)
Definition ProgramState_from_value (v : Value) : option ProgramState :=
  s ← read_str v; ProgramState_from_str s.

(* src: crates/vcli-core/src/geom.rs 9-16 Point::deserialize *)
Definition Point_from_value (v : Value) : option Point :=
  v ← struct_of ["x"; "y"] v;
  x ← req "x" read_i32 v; y ← req "y" read_i32 v; Some {| px := x; py := y |}.

(** The [type] tag. *)
(* src: crates/vcli-store/src/events.rs 75-92 event_type_tag *)
Definition event_type_tag (d : EventData) : string :=
  match d with
  | ProgramSubmitted _ _ => "program.submitted"
  | ProgramStateChanged _ _ _ _ => "program.state_changed"
  | ProgramCompleted _ _ => "program.completed"
  | ProgramFailed _ _ _ _ => "program.failed"
  | ProgramResumed _ _ => "program.resumed"
  | WatchFired _ _ _ => "watch.fired"
  | ActionDispatched _ _ _ => "action.dispatched"
  | ActionDeferred _ _ _ => "action.deferred"
  | TickFrameSkipped _ => "tick.frame_skipped"
  | DaemonPressure _ => "daemon.pressure"
  | StreamDropped _ _ => "stream.dropped"
  | CapturePermissionMissing _ => "capture.permission_missing"
  | DaemonStarted _ => "daemon.started"
  | DaemonStopped => "daemon.stopped"
  end.

(* src: crates/vcli-core/src/events.rs 23-144 EventData::serialize *)
Definition EventData_fields (d : EventData) : list (string * Value) :=
  match d with
  | ProgramSubmitted p name =>
      [("type", Str "program.submitted"); ("program_id", ProgramId_to_value p);
       ("name", Str name)]
  | ProgramStateChanged p from to reason =>
      [("type", Str "program.state_changed"); ("program_id", ProgramId_to_value p);
       ("from", ProgramState_to_value from); ("to", ProgramState_to_value to);
       ("reason", Str reason)]
  | ProgramCompleted p emit =>
      [("type", Str "program.completed"); ("program_id", ProgramId_to_value p)]
      ++ opt_field "emit" Str emit
  | ProgramFailed p reason step emit =>
      [("type", Str "program.failed"); ("program_id", ProgramId_to_value p);
       ("reason", Str reason)]
      ++ opt_field "step" Str step ++ opt_field "emit" Str emit
  | ProgramResumed p from_step =>
      [("type", Str "program.resumed"); ("program_id", ProgramId_to_value p);
       ("from_step", int_value from_step)]
  | WatchFired p watch_index predicate =>
      [("type", Str "watch.fired"); ("program_id", ProgramId_to_value p);
       ("watch_index", int_value watch_index); ("predicate", Str predicate)]
  | ActionDispatched p step target =>
      [("type", Str "action.dispatched"); ("program_id", ProgramId_to_value p);
       ("step", step)] ++ opt_field "target" Point_to_value target
  | ActionDeferred p step reason =>
      [("type", Str "action.deferred"); ("program_id", ProgramId_to_value p);
       ("step", step); ("reason", reason)]
  | TickFrameSkipped reason => [("type", Str "tick.frame_skipped"); ("reason", Str reason)]
  | DaemonPressure budget =>
      [("type", Str "daemon.pressure"); ("tick_budget_ms", int_value budget)]
  | StreamDropped count since =>
      [("type", Str "stream.dropped"); ("count", int_value count); ("since", int_value since)]
  | CapturePermissionMissing backend =>
      [("type", Str "capture.permission_missing"); ("backend", Str backend)]
  | DaemonStarted version => [("type", Str "daemon.started"); ("version", Str version)]
  | DaemonStopped => [("type", Str "daemon.stopped")]
  end.

(* src: crates/vcli-core/src/events.rs 13-21 Event::serialize *)
Definition Event_to_value (e : Event) : Value :=
  Obj (("at", int_value (ev_at e)) :: EventData_fields (ev_data e)).

(* src: crates/vcli-core/src/events.rs 23-144 EventData::deserialize *)
Definition EventData_from_value (v : Value) : option EventData :=
  tag ← req "type" read_str v;
  let pid := req "program_id" ProgramId_from_value v in
  if decide (tag = "program.submitted") then
    p ← pid; name ← req "name" read_str v; Some (ProgramSubmitted p name)
  else if decide (tag = "program.state_changed") then
    p ← pid; from ← req "from" ProgramState_from_value v;
    to ← req "to" ProgramState_from_value v; reason ← req "reason" read_str v;
    Some (ProgramStateChanged p from to reason)
  else if decide (tag = "program.completed") then
    p ← pid; emit ← opt "emit" read_str v; Some (ProgramCompleted p emit)
  else if decide (tag = "program.failed") then
    p ← pid; reason ← req "reason" read_str v; step ← opt "step" read_str v;
    emit ← opt "emit" read_str v; Some (ProgramFailed p reason step emit)
  else if decide (tag = "program.resumed") then
    p ← pid; from_step ← req "from_step" read_u32 v; Some (ProgramResumed p from_step)
  else if decide (tag = "watch.fired") then
    p ← pid; i ← req "watch_index" read_u32 v; pred ← req "predicate" read_str v;
    Some (WatchFired p i pred)
  else if decide (tag = "action.dispatched") then
    p ← pid; step ← req "step" read_any v; target ← opt "target" Point_from_value v;
    Some (ActionDispatched p step target)
  else if decide (tag = "action.deferred") then
    p ← pid; step ← req "step" read_any v; reason ← req "reason" read_any v;
    Some (ActionDeferred p step reason)
  else if decide (tag = "tick.frame_skipped") then
    reason ← req "reason" read_str v; Some (TickFrameSkipped reason)
  else if decide (tag = "daemon.pressure") then
    b ← req "tick_budget_ms" read_u32 v; Some (DaemonPressure b)
  else if decide (tag = "stream.dropped") then
    c ← req "count" read_u32 v; since ← req "since" read_i64 v; Some (StreamDropped c since)
  else if decide (tag = "capture.permission_missing") then
    b ← req "backend" read_str v; Some (CapturePermissionMissing b)
  else if decide (tag = "daemon.started") then
    ver ← req "version" read_str v; Some (DaemonStarted ver)
  else if decide (tag = "daemon.stopped") then Some DaemonStopped
  else None.

(* src: crates/vcli-core/src/events.rs 13-21 Event::deserialize *)
Definition Event_from_value (v : Value) : option Event :=
  at_ ← req "at" read_i64 v; d ← EventData_from_value v;
  Some {| ev_at := at_; ev_data := d |}.

End wire.

(** ** Ranges, and the round trip *)

(** The values the Rust types can hold, with documents whose text is exact. *)
Definition EventData_wf (d : EventData) : Prop :=
  match d with
  | ProgramResumed _ n | WatchFired _ n _ | DaemonPressure n => in_u32 n
  | ActionDispatched _ step target => exact step ∧ from_option Point_wf True target
  | ActionDeferred _ step reason => exact step ∧ exact reason
  | StreamDropped n since => in_u32 n ∧ in_i64 since
  | _ => True
  end.
Definition Event_wf (e : Event) : Prop := in_i64 (ev_at e) ∧ EventData_wf (ev_data e).

Section round_trip.
Context `{UuidOps, !UuidLaws}.

Lemma ProgramId_value i : ProgramId_from_value (ProgramId_to_value i) = Some i.
Proof. apply ProgramId_round_trip. Qed.
Lemma ProgramState_value s : ProgramState_from_value (ProgramState_to_value s) = Some s.
Proof. by apply ProgramState_as_from_str. Qed.
Lemma Point_value p : Point_wf p → Point_from_value (Point_to_value p) = Some p.
Proof.
  intros [Hx Hy]. unfold Point_from_value, Point_to_value, struct_of. wire. by destruct p.
Qed.
Hint Rewrite ProgramId_value ProgramState_value : vcli_wire.

Lemma EventData_value at_ d :
  EventData_wf d →
  EventData_from_value (Obj (("at", at_) :: EventData_fields d)) = Some d.
Proof.
  intros Hd. unfold EventData_from_value.
  destruct d; repeat match goal with o : option _ |- _ => destruct o end;
    cbn in Hd; destruct_and?; unfold EventData_fields; cbn [app opt_field]; wire_tag "type"; wire; try done.
  by rewrite Point_value.
Qed.

Lemma Event_value e : Event_wf e → Event_from_value (Event_to_value e) = Some e.
Proof.
  destruct e as [at_ d]. intros [Hat Hd]; simpl in Hat, Hd.
  unfold Event_from_value, Event_to_value; simpl ev_at; simpl ev_data. wire.
  by rewrite EventData_value.
Qed.
End round_trip.

(** ** Events have an exact text *)

Section exactness.
Context `{UuidOps}.

Lemma exact_opt_field {A} k (f : A → Value) o :
  from_option (λ a, exact (f a)) True o →
  Forall (λ kv, exact kv.2) (opt_field k f o).
Proof. destruct o; simpl; intros; [by repeat constructor|constructor]. Qed.

Lemma exact_in_u32 z : in_u32 z → exact (int_value z).
Proof. intros. constructor. ints. Qed.
Lemma exact_in_i64 z : in_i64 z → exact (int_value z).
Proof. intros. constructor. ints. Qed.
Lemma exact_Point p : Point_wf p → exact (Point_to_value p).
Proof.
  intros [Hx Hy]. constructor; [by vm_compute; repeat constructor; set_solver|].
  repeat constructor; simpl; ints.
Qed.

Lemma exact_Event e : Event_wf e → exact (Event_to_value e).
Proof.
  destruct e as [at_ d]. intros [Hat Hd]; simpl in *. constructor.
  - destruct d; repeat match goal with o : option _ |- _ => destruct o end;
      apply (bool_decide_unpack _); vm_compute; done.
  - apply Forall_cons. split; [by apply exact_in_i64|].
    destruct d; simpl in *; destruct_and?;
      repeat match goal with o : option _ |- _ => destruct o end; simpl in *;
      repeat (apply Forall_cons; split; simpl);
      try apply Forall_nil_2; try (by constructor);
      auto using exact_in_u32, exact_in_i64, exact_Point.
Qed.
End exactness.
