(* ===== verification/ProgramWire.v ===== *)
(** * Programs read back from their documents

    The derived [Deserialize] of programs and of what they are made of
    ([region.rs], [predicate.rs], [action.rs], [step.rs], [trigger.rs],
    [watch.rs], [program.rs] of vcli-core), as serde derives it for a document
    that was already parsed.  A struct is an object, or an array of its fields
    in order; an enum under [tag = "kind"] is an object with that entry, or an
    array that starts with the tag; what stands inside such an enum, or inside
    an untagged one, was buffered first, and a buffered tag may also be the
    index of the variant.

    Three facts: a well-formed program is what its document is read as; what is
    read from a document is well formed; reading does not see the order of the
    entries of an object. *)

From S2P Require Import Prelude Json CoreTypes Sha256 Canonical Serde EventWire.

(** ** Readers *)

(** An unsigned integer of at most [max]. *)
Definition read_uint (max : Z) (v : Value) : option Z :=
  match v with
  | Num n => z ← as_u64 n; if bool_decide (z ≤ max)%Z then Some z else None
  | _ => None
  end.
(** [f64]: an integer is converted. *)
Definition read_f64 (v : Value) : option f64 :=
  match v with Num n => as_f64 n | _ => None end.
(** [Vec<T>] and [BTreeMap<String, T>]. *)
Definition read_vec {A} (f : Value → option A) (v : Value) : option (list A) :=
  match v with Arr l => mapM f l | _ => None end.
Definition read_entry {A} (f : Value → option A) (kv : string * Value) : option (string * A) :=
  x ← f kv.2; Some (kv.1, x).
Definition read_map {A} (f : Value → option A) (v : Value) : option (gmap string A) :=
  match v with Obj m => list_to_map <$> mapM (read_entry f) m | _ => None end.

(** A buffered enum without fields: its name, or an object from the name to
    nothing. *)
Definition unit_enum {A} (names : list (string * A)) (v : Value) : option A :=
  match v with
  | Str s => obj_get s names
  | Obj [(s, (Null | Obj []))] => obj_get s names
  | _ => None
  end.

(** A struct, given the reader of its fields. *)
Definition fields {A} (names : list string) (f : Value → option A) (v : Value) : option A :=
  v ← struct_of names v; f v.
(** The variants of a tagged enum: fields after the tag, or nothing. *)
Definition unit_variant {A} (a : A) (v : Value) : option A :=
  match v with Obj _ | Arr [] => Some a | _ => None end.
Definition variant_of {A} (buffered : bool) (variants : list (string * (Value → option A)))
    (tag : Value) : option (Value → option A) :=
  match tag with
  | Str s => obj_get s variants
  | Num n => if buffered then i ← as_u64 n; (variants !! Z.to_nat i) ≫= (λ kv, Some kv.2)
             else None
  | _ => None
  end.
Definition tagged {A} (buffered : bool) (variants : list (string * (Value → option A)))
    (v : Value) : option A :=
  match v with
  | Obj m => tag ← obj_get "kind" m; read ← variant_of buffered variants tag; read v
  | Arr (tag :: rest) => read ← variant_of buffered variants tag; read (Arr rest)
  | _ => None
  end.

(** ** Regions and predicates *)

(* src: crates/vcli-core/src/geom.rs 18-29 Rect::deserialize *)
Definition Rect_from_value : Value → option Rect :=
  fields ["x"; "y"; "w"; "h"] (λ v,
    x ← req "x" read_i32 v; y ← req "y" read_i32 v;
    w ← req "w" read_i32 v; h ← req "h" read_i32 v; Some (mkRect x y w h)).
(* src: crates/vcli-core/src/region.rs 69-76 Size::deserialize *)
Definition Size_from_value : Value → option Size :=
  fields ["w"; "h"] (λ v,
    w ← req "w" read_i32 v; h ← req "h" read_i32 v; Some (mkSize w h)).
(* src: crates/vcli-core/src/region.rs 7-14 Anchor::deserialize *)
Definition Anchor_from_value : Value → option Anchor := unit_enum [("match", AnchorMatch)].

(* src: crates/vcli-core/src/region.rs 22-59 Region::deserialize *)
Definition Region_from_value : Value → option Region :=
  tagged true [
    ("absolute", fields ["box"] (λ v,
       rect ← req "box" Rect_from_value v; Some (Absolute rect)));
    ("window", fields ["app"; "title_contains"; "window_index"] (λ v,
       app ← req "app" read_str v; title ← opt "title_contains" read_str v;
       index ← opt "window_index" (read_uint u32_max) v; Some (Window app title index)));
    ("relative_to", fields ["predicate"; "anchor"; "offset"; "size"] (λ v,
       p ← req "predicate" read_str v; anchor ← dflt "anchor" default_anchor Anchor_from_value v;
       offset ← dflt "offset" default_offset Point_from_value v;
       size ← opt "size" Size_from_value v; Some (RelativeTo p anchor offset size)))].

(* src: crates/vcli-core/src/predicate.rs 20-23 Rgb::deserialize *)
Definition Rgb_from_value (v : Value) : option Rgb :=
  match v with
  | Arr [r; g; b] =>
      r ← read_uint u8_max r; g ← read_uint u8_max g; b ← read_uint u8_max b;
      Some (mkRgb r g b)
  | _ => None
  end.

(* src: crates/vcli-core/src/predicate.rs 25-88 PredicateKind::deserialize *)
Definition PredicateKind_from_value (buffered : bool) : Value → option PredicateKind :=
  tagged buffered [
    ("template", fields ["image"; "confidence"; "region"; "throttle_ms"] (λ v,
       image ← req "image" read_str v; confidence ← req "confidence" read_f64 v;
       region ← req "region" Region_from_value v;
       t ← dflt "throttle_ms" default_template_throttle_ms (read_uint u32_max) v;
       Some (Template image confidence region t)));
    ("color_at", fields ["point"; "rgb"; "tolerance"] (λ v,
       point ← req "point" Point_from_value v; rgb ← req "rgb" Rgb_from_value v;
       tolerance ← req "tolerance" (read_uint u16_max) v; Some (ColorAt point rgb tolerance)));
    ("pixel_diff", fields ["region"; "baseline"; "threshold"] (λ v,
       region ← req "region" Region_from_value v; baseline ← req "baseline" read_str v;
       threshold ← req "threshold" read_f64 v; Some (PixelDiff region baseline threshold)));
    ("all_of", fields ["of"] (λ v, l ← req "of" (read_vec read_str) v; Some (AllOf l)));
    ("any_of", fields ["of"] (λ v, l ← req "of" (read_vec read_str) v; Some (AnyOf l)));
    ("not", fields ["of"] (λ v, e ← req "of" read_str v; Some (NotP e)));
    ("elapsed_ms_since_true", fields ["predicate"; "ms"] (λ v,
       e ← req "predicate" read_str v; ms ← req "ms" (read_uint u32_max) v;
       Some (ElapsedMsSinceTrue e ms)))].

(** ** Steps *)

(* src: crates/vcli-core/src/action.rs 9-19 Button::deserialize *)
Definition Button_from_value : Value → option Button :=
  unit_enum [("left", LeftButton); ("right", RightButton); ("middle", MiddleButton)].
(* src: crates/vcli-core/src/action.rs 21-34 Modifier::deserialize *)
Definition Modifier_from_value : Value → option Modifier :=
  unit_enum [("cmd", Cmd); ("shift", Shift); ("alt", Alt); ("ctrl", Ctrl)].
(** Untagged: a point if it reads as one, else a string. *)
(* src: crates/vcli-core/src/step.rs 10-20 Target::deserialize *)
Definition Target_from_value (v : Value) : option Target :=
  match Point_from_value v with
  | Some p => Some (TargetAbsolute p)
  | None => TargetExpression <$> read_str v
  end.
(* src: crates/vcli-core/src/step.rs 22-33 OnTimeout::deserialize *)
Definition OnTimeout_from_value : Value → option OnTimeout :=
  unit_enum [("fail", TimeoutFail); ("continue", TimeoutContinue); ("retry", TimeoutRetry)].
(* src: crates/vcli-core/src/step.rs 35-43 OnFail::deserialize *)
Definition StepOnFail_from_value : Value → option StepOnFail :=
  unit_enum [("fail", FailFail); ("continue", FailContinue)].

(* src: crates/vcli-core/src/step.rs 45-112 Step::deserialize *)
Definition Step_from_value : Value → option Step :=
  tagged false [
    ("move", fields ["at"] (λ v, to ← req "at" Target_from_value v; Some (Move to)));
    ("click", fields ["at"; "button"] (λ v,
       to ← req "at" Target_from_value v; b ← dflt "button" default_button Button_from_value v;
       Some (Click to b)));
    ("type", fields ["text"] (λ v, text ← req "text" read_str v; Some (Type_ text)));
    ("key", fields ["key"; "modifiers"] (λ v,
       k ← req "key" read_str v; m ← dflt "modifiers" [] (read_vec Modifier_from_value) v;
       Some (Key k m)));
    ("scroll", fields ["at"; "dx"; "dy"] (λ v,
       to ← req "at" Target_from_value v; dx ← dflt "dx" 0%Z read_i32 v;
       dy ← dflt "dy" 0%Z read_i32 v; Some (Scroll to dx dy)));
    ("wait_for", fields ["predicate"; "timeout_ms"; "on_timeout"] (λ v,
       p ← req "predicate" read_str v; t ← req "timeout_ms" (read_uint u32_max) v;
       o ← dflt "on_timeout" default_on_timeout OnTimeout_from_value v; Some (WaitFor p t o)));
    ("assert", fields ["predicate"; "on_fail"] (λ v,
       p ← req "predicate" read_str v;
       o ← dflt "on_fail" default_on_fail StepOnFail_from_value v; Some (Assert p o)));
    ("sleep_ms", fields ["ms"] (λ v, ms ← req "ms" (read_uint u32_max) v; Some (SleepMs ms)))].

(** ** Programs *)

(* src: crates/vcli-core/src/trigger.rs 6-19 Trigger::deserialize *)
Definition Trigger_from_value : Value → option Trigger :=
  tagged false [
    ("on_submit", unit_variant OnSubmit);
    ("on_predicate", fields ["name"] (λ v, n ← req "name" read_str v; Some (OnPredicate n)));
    ("manual", unit_variant Manual)].
(* src: crates/vcli-core/src/watch.rs 13-22 WatchWhen::deserialize *)
Definition WatchWhen_from_value (v : Value) : option WatchWhen :=
  match read_str v with
  | Some name => Some (ByName name)
  | None => Inline <$> PredicateKind_from_value true v
  end.
(* src: crates/vcli-core/src/watch.rs 24-42 Lifetime::deserialize *)
Definition Lifetime_from_value : Value → option Lifetime :=
  tagged false [
    ("one_shot", unit_variant OneShot);
    ("persistent", unit_variant Persistent);
    ("until_predicate", fields ["name"] (λ v, n ← req "name" read_str v; Some (UntilPredicate n)));
    ("timeout_ms", fields ["ms"] (λ v, ms ← req "ms" (read_uint u32_max) v; Some (TimeoutMs ms)))].
(* src: crates/vcli-core/src/watch.rs 44-59 Watch::deserialize *)
Definition Watch_from_value : Value → option Watch :=
  fields ["when"; "do"; "throttle_ms"; "lifetime"] (λ v,
    when ← req "when" WatchWhen_from_value v; steps ← req "do" (read_vec Step_from_value) v;
    t ← dflt "throttle_ms" 0%Z (read_uint u32_max) v;
    l ← dflt "lifetime" default_lifetime Lifetime_from_value v; Some (mkWatch when steps t l)).
(* src: crates/vcli-core/src/program.rs 34-46 OnComplete::deserialize *)
Definition emit_from_value : Value → option string :=
  fields ["emit"] (req "emit" read_str).

(* src: crates/vcli-core/src/program.rs 48-88 Program::deserialize *)
Definition Program_from_value `{UuidOps} : Value → option Program :=
  fields ["version"; "name"; "id"; "trigger"; "predicates"; "watches"; "body"; "on_complete";
          "on_fail"; "timeout_ms"; "labels"; "priority"] (λ v,
    version ← req "version" read_str v; name ← req "name" read_str v;
    id ← opt "id" ProgramId_from_value v; trigger ← req "trigger" Trigger_from_value v;
    predicates ← dflt "predicates" ∅ (read_map (PredicateKind_from_value false)) v;
    watches ← dflt "watches" [] (read_vec Watch_from_value) v;
    body ← dflt "body" [] (read_vec Step_from_value) v;
    on_complete ← opt "on_complete" emit_from_value v; on_fail ← opt "on_fail" emit_from_value v;
    timeout_ms ← opt "timeout_ms" (read_uint u32_max) v;
    labels ← dflt "labels" ∅ (read_map read_str) v;
    priority ← dflt "priority" 0%Z read_i32 v;
    Some (mkProgram version name id trigger predicates watches body on_complete on_fail
            timeout_ms labels priority)).

(** ** What the Rust types can hold *)

(** JSON has no text for an infinite float or a NaN. *)
Definition finite_floats (p : PredicateKind) : Prop :=
  match p with
  | Template _ c _ _ => f64_is_finite c = true
  | PixelDiff _ _ t => f64_is_finite t = true
  | _ => True
  end.
Definition predicate_wf (p : PredicateKind) : Prop := PredicateKind_wf p ∧ finite_floats p.
Definition Target_wf (t : Target) : Prop :=
  match t with TargetAbsolute p => Point_wf p | TargetExpression _ => True end.
Definition Step_wf (s : Step) : Prop :=
  match s with
  | Move to | Click to _ => Target_wf to
  | Scroll to dx dy => Target_wf to ∧ in_i32 dx ∧ in_i32 dy
  | WaitFor _ ms _ | SleepMs ms => in_u32 ms
  | Type_ _ | Key _ _ | Assert _ _ => True
  end.
Definition Watch_wf (w : Watch) : Prop :=
  match w_when w with ByName _ => True | Inline p => predicate_wf p end ∧
  Forall Step_wf (w_steps w) ∧ in_u32 (w_throttle_ms w) ∧
  match w_lifetime w with TimeoutMs ms => in_u32 ms | _ => True end.
Record Program_wf (p : Program) : Prop := {
  wf_predicates : map_Forall (λ _, predicate_wf) (p_predicates p);
  wf_watches : Forall Watch_wf (p_watches p);
  wf_body : Forall Step_wf (p_body p);
  wf_timeout : from_option in_u32 True (p_timeout_ms p);
  wf_priority : in_i32 (p_priority p);
}.

(** ** What is written is read back *)

Lemma read_uint_int max z : (0 ≤ z ≤ max)%Z → (max ≤ u64_max)%Z → read_uint max (int_value z) = Some z.
Proof.
  intros Hz Hmax. unfold read_uint, int_value, number_of_int; simpl.
  rewrite bool_decide_true by ints. simpl. by rewrite bool_decide_true by lia.
Qed.
Lemma read_u8_int z : in_u8 z → read_uint u8_max (int_value z) = Some z.
Proof. intros. apply read_uint_int; ints. Qed.
Lemma read_u16_int z : in_u16 z → read_uint u16_max (int_value z) = Some z.
Proof. intros. apply read_uint_int; ints. Qed.
Lemma read_uint_u32 z : in_u32 z → read_uint u32_max (int_value z) = Some z.
Proof. intros. apply read_uint_int; ints. Qed.
Lemma read_f64_value f : f64_is_finite f = true → read_f64 (f64_value f) = Some f.
Proof. intros Hf. unfold f64_value. by rewrite Hf. Qed.

Lemma read_vec_map {A} (f : Value → option A) (g : A → Value) l :
  Forall (λ a, f (g a) = Some a) l → read_vec f (Arr (map g l)) = Some l.
Proof.
  intros Hl. simpl. apply mapM_Some. apply Forall2_fmap_l.
  induction Hl; by constructor.
Qed.
Lemma read_vec_all {A} (f : Value → option A) (g : A → Value) l :
  (∀ a, f (g a) = Some a) → read_vec f (Arr (map g l)) = Some l.
Proof. intros Hfg. apply read_vec_map. by apply Forall_forall. Qed.
Lemma read_map_entries {A} (f : Value → option A) (g : A → Value) (m : gmap string A) :
  map_Forall (λ _ a, f (g a) = Some a) m →
  read_map f (Obj (map (λ kv, (kv.1, g kv.2)) (btree_entries m))) = Some m.
Proof.
  intros Hm. unfold read_map.
  assert (mapM (read_entry f) (map (λ kv, (kv.1, g kv.2)) (btree_entries m))
          = Some (btree_entries m)) as ->.
  { apply mapM_Some. apply Forall2_fmap_l.
    apply Forall_Forall2_diag. apply Forall_forall. intros [k a] Hka.
    apply elem_of_btree_entries in Hka. unfold read_entry; simpl. by rewrite (Hm k a Hka). }
  simpl. f_equal. apply map_eq. intros k. apply option_eq. intros a.
  rewrite <-elem_of_list_to_map by apply NoDup_btree_entries. apply elem_of_btree_entries.
Qed.

#[export] Hint Rewrite read_u8_int read_u16_int read_uint_u32 read_f64_value using done : vcli_wire.

(** [reads] opens the reader of a concrete document, picks the branch of its
    tag and reads the fields. *)
Ltac reads :=
  unfold tagged, fields, unit_variant; cbn [obj_get app opt_field];
  repeat first [rewrite decide_True by reflexivity | rewrite decide_False by discriminate];
  cbn [mbind option_bind variant_of obj_get struct_of];
  repeat first [rewrite decide_True by reflexivity | rewrite decide_False by discriminate];
  cbn [mbind option_bind struct_of]; wire.

Lemma Rect_value r : Rect_wf r → Rect_from_value (Rect_to_value r) = Some r.
Proof.
  intros (?&?&?&?). unfold Rect_from_value, Rect_to_value. reads. by destruct r.
Qed.
Lemma Size_value s : in_i32 (size_w s) ∧ in_i32 (size_h s) → Size_from_value (Size_to_value s) = Some s.
Proof. intros [??]. unfold Size_from_value, Size_to_value. reads. by destruct s. Qed.
Lemma Anchor_value a : Anchor_from_value (Anchor_to_value a) = Some a.
Proof. by destruct a. Qed.
#[export] Hint Rewrite Rect_value Size_value Point_value using done : vcli_wire.
#[export] Hint Rewrite Anchor_value : vcli_wire.

Lemma Region_value r : Region_wf r → Region_from_value (Region_to_value r) = Some r.
Proof.
  intros Hr. unfold Region_from_value.
  destruct r as [rect|app [t|] [i|]|p a o [s|]]; cbn in Hr; destruct_and?;
    unfold Region_to_value; by reads.
Qed.
Lemma Rgb_value c : in_u8 (red c) ∧ in_u8 (green c) ∧ in_u8 (blue c) →
  Rgb_from_value (Rgb_to_value c) = Some c.
Proof. intros (?&?&?). unfold Rgb_from_value, Rgb_to_value. wire. by destruct c. Qed.
#[export] Hint Rewrite Region_value Rgb_value using done : vcli_wire.

Lemma Strs_value l : read_vec read_str (Arr (map Str l)) = Some l.
Proof. by apply read_vec_all. Qed.
#[export] Hint Rewrite Strs_value : vcli_wire.

Lemma PredicateKind_value b p :
  predicate_wf p → PredicateKind_from_value b (PredicateKind_to_value p) = Some p.
Proof.
  intros [Hp Hf]. unfold PredicateKind_from_value.
  destruct p; cbn in Hp, Hf; destruct_and?; unfold PredicateKind_to_value; by reads.
Qed.

Lemma Button_value b : Button_from_value (Button_to_value b) = Some b.
Proof. by destruct b. Qed.
Lemma Modifiers_value l : read_vec Modifier_from_value (Arr (map Modifier_to_value l)) = Some l.
Proof. apply read_vec_all. by intros []. Qed.
Lemma OnTimeout_value o : OnTimeout_from_value (OnTimeout_to_value o) = Some o.
Proof. by destruct o. Qed.
Lemma StepOnFail_value o : StepOnFail_from_value (StepOnFail_to_value o) = Some o.
Proof. by destruct o. Qed.
Lemma Target_value t : Target_wf t → Target_from_value (Target_to_value t) = Some t.
Proof. destruct t; simpl; [intros; unfold Target_from_value; by rewrite Point_value|done]. Qed.
#[export] Hint Rewrite PredicateKind_value Target_value using done : vcli_wire.
#[export] Hint Rewrite Button_value Modifiers_value OnTimeout_value StepOnFail_value : vcli_wire.

Lemma Step_value s : Step_wf s → Step_from_value (Step_to_value s) = Some s.
Proof.
  intros Hs. unfold Step_from_value.
  destruct s as [to|to []|text|k [|m l]|to dx dy|p t o|p o|ms]; cbn in Hs; destruct_and?;
    unfold Step_to_value; cbn [is_default_button]; by reads.
Qed.
Lemma Steps_value l : Forall Step_wf l → read_vec Step_from_value (Arr (map Step_to_value l)) = Some l.
Proof. intros Hl. apply read_vec_map. eapply Forall_impl; [done|]. apply Step_value. Qed.

Lemma Trigger_value t : Trigger_from_value (Trigger_to_value t) = Some t.
Proof. by destruct t. Qed.
Lemma WatchWhen_value w :
  match w with ByName _ => True | Inline p => predicate_wf p end →
  WatchWhen_from_value (WatchWhen_to_value w) = Some w.
Proof.
  destruct w as [n|p]; [done|]. intros Hp. unfold WatchWhen_from_value, WatchWhen_to_value.
  rewrite PredicateKind_value by done. by destruct p.
Qed.
Lemma Lifetime_value l :
  match l with TimeoutMs ms => in_u32 ms | _ => True end →
  Lifetime_from_value (Lifetime_to_value l) = Some l.
Proof. unfold Lifetime_from_value. destruct l; intros Hl; unfold Lifetime_to_value; by reads. Qed.
#[export] Hint Rewrite Steps_value WatchWhen_value Lifetime_value using done : vcli_wire.
#[export] Hint Rewrite Trigger_value : vcli_wire.

Lemma Watch_value w : Watch_wf w → Watch_from_value (Watch_to_value w) = Some w.
Proof.
  destruct w as [when steps t l]. intros (?&?&?&?); simpl in *.
  unfold Watch_from_value, Watch_to_value; cbn [w_when w_steps w_throttle_ms w_lifetime]. by reads.
Qed.
Lemma emit_value e : emit_from_value (emit_to_value e) = Some e.
Proof. done. Qed.
#[export] Hint Rewrite emit_value : vcli_wire.

Lemma predicates_value (m : Predicates) b :
  map_Forall (λ _, predicate_wf) m →
  read_map (PredicateKind_from_value b)
    (Obj (map (λ kv, (kv.1, PredicateKind_to_value kv.2)) (btree_entries m))) = Some m.
Proof.
  intros Hm. apply read_map_entries. eapply map_Forall_impl; [done|]. intros k p Hp.
  by apply PredicateKind_value.
Qed.
Lemma watches_value l : Forall Watch_wf l → read_vec Watch_from_value (Arr (map Watch_to_value l)) = Some l.
Proof. intros Hl. apply read_vec_map. eapply Forall_impl; [done|]. apply Watch_value. Qed.
Lemma labels_value (m : gmap string string) :
  read_map read_str (Obj (map (λ kv, (kv.1, Str kv.2)) (btree_entries m))) = Some m.
Proof. by apply read_map_entries. Qed.

(** The entry under a key, part by part. *)
Lemma get_app {A} k (a b : list (string * A)) :
  obj_get k (a ++ b) = match obj_get k a with Some v => Some v | None => obj_get k b end.
Proof. induction a as [|[k' v] a IH]; simpl; [done|]. by case_decide. Qed.
Lemma get_opt_field {A} k k' (f : A → Value) o :
  obj_get k (opt_field k' f o) = if decide (k = k') then f <$> o else None.
Proof. by destruct o; simpl; case_decide. Qed.
Lemma get_unless {A} k k' (c : bool) (v : A) :
  obj_get k (if c then [] else [(k', v)]) = if decide (k = k') then if c then None else Some v else None.
Proof. by destruct c; simpl; case_decide. Qed.
Lemma get_unless_nil {A B} k k' (l : list A) (g : list A → B) :
  obj_get k match l with [] => [] | x :: l => [(k', g (x :: l))] end
  = if decide (k = k') then match l with [] => None | _ => Some (g l) end else None.
Proof. by destruct l; simpl; case_decide. Qed.

(** An optional field that is read as it was written. *)
Lemma opt_written {A} (f : A → Value) (g : Value → option A) o :
  from_option (λ a, g (f a) = Some a ∧ f a ≠ Null) True o →
  match f <$> o with None | Some Null => Some None | Some x => Some <$> g x end = Some o.
Proof. destruct o as [a|]; simpl; [intros [Hg Hn]|done]. rewrite Hg. by destruct (f a). Qed.

Lemma or_none {A} (o : option A) : match o with Some v => Some v | None => None end = o.
Proof. by destruct o. Qed.

Section program.
Context `{UuidOps, !UuidLaws}.

(** A well-formed program is what its document is read as. *)
Lemma Program_value p : Program_wf p → Program_from_value (Program_to_value p) = Some p.
Proof.
  intros [Hps Hws Hbody Ht Hpr].
  pose proof (predicates_value _ false Hps) as Hps'. pose proof (watches_value _ Hws) as Hws'.
  pose proof (labels_value (p_labels p)) as Hls. pose proof (Steps_value _ Hbody) as Hbody'.
  unfold Program_from_value, fields, Program_to_value; cbn [struct_of mbind option_bind].
  unfold req, dflt, opt, value_get.
  rewrite !get_app, !get_opt_field, !get_unless.
  rewrite !(get_unless_nil _ "watches" _ (λ l, Arr (map Watch_to_value l))).
  rewrite !(get_unless_nil _ "labels" _ (λ l, Obj (map (λ kv, (kv.1, Str kv.2)) l))).
  cbn [obj_get].
  repeat first [rewrite decide_True by reflexivity | rewrite decide_False by discriminate].
  cbn [read_str value_as_str mbind option_bind]. rewrite !or_none.
  rewrite Trigger_value, Hps', Hbody'. cbn [mbind option_bind].
  destruct p as [ver name id t ps ws body done_ failed tm ls pr]; cbn in *.
  rewrite (opt_written _ ProgramId_from_value id) by (destruct id; [by split; [apply ProgramId_value|]|done]).
  cbn [mbind option_bind].
  assert (match match ws with [] => None | _ :: _ => Some (Arr (map Watch_to_value ws)) end with
          | Some x => read_vec Watch_from_value x | None => Some [] end = Some ws) as ->
    by by destruct ws.
  cbn [mbind option_bind].
  rewrite !(opt_written _ emit_from_value) by (by destruct done_, failed). cbn [mbind option_bind].
  rewrite (opt_written _ (read_uint u32_max)) by (destruct tm; [by split; [apply read_uint_u32|]|done]).
  cbn [mbind option_bind].
  assert (match match btree_entries ls with [] => None | _ :: _ => Some (Obj (map (λ kv, (kv.1, Str kv.2)) (btree_entries ls))) end with
          | Some x => read_map read_str x | None => Some ∅ end = Some ls) as ->.
  { destruct (btree_entries ls) eqn:E; [|done]. injection Hls as <-. done. }
  cbn [mbind option_bind]. unfold is_default_priority.
  destruct (Z.eqb_spec pr 0); [by subst|]. by rewrite read_i32_int.
Qed.
End program.

(** ** Actions and results

    [InputAction] ([vcli-core/src/action.rs]) and [PredicateResult]
    ([predicate.rs]): no part of the system sends them, but the types promise a
    JSON form, and reading undoes writing. *)

(* src: crates/vcli-core/src/action.rs 36-77 InputAction::serialize *)
Definition InputAction_to_value (a : InputAction) : Value :=
  match a with
  | ActMove to => Obj [("kind", Str "move"); ("at", Point_to_value to)]
  | ActClick to button =>
      Obj [("kind", Str "click"); ("at", Point_to_value to); ("button", Button_to_value button)]
  | ActType text => Obj [("kind", Str "type"); ("text", Str text)]
  | ActKey key modifiers =>
      Obj ([("kind", Str "key"); ("key", Str key)]
           ++ match modifiers with
              | [] => []
              | _ => [("modifiers", Arr (map Modifier_to_value modifiers))]
              end)
  | ActScroll to dx dy =>
      Obj [("kind", Str "scroll"); ("at", Point_to_value to);
           ("dx", int_value dx); ("dy", int_value dy)]
  end.
(* src: crates/vcli-core/src/action.rs 36-77 InputAction::deserialize *)
Definition InputAction_from_value : Value → option InputAction :=
  tagged false [
    ("move", fields ["at"] (λ v, to ← req "at" Point_from_value v; Some (ActMove to)));
    ("click", fields ["at"; "button"] (λ v,
       to ← req "at" Point_from_value v; b ← req "button" Button_from_value v;
       Some (ActClick to b)));
    ("type", fields ["text"] (λ v, text ← req "text" read_str v; Some (ActType text)));
    ("key", fields ["key"; "modifiers"] (λ v,
       k ← req "key" read_str v; m ← dflt "modifiers" [] (read_vec Modifier_from_value) v;
       Some (ActKey k m)));
    ("scroll", fields ["at"; "dx"; "dy"] (λ v,
       to ← req "at" Point_from_value v; dx ← dflt "dx" 0%Z read_i32 v;
       dy ← dflt "dy" 0%Z read_i32 v; Some (ActScroll to dx dy)))].

(* src: crates/vcli-core/src/predicate.rs 107-116 MatchData::serialize *)
Definition MatchData_to_value (m : MatchData) : Value :=
  Obj [("box", Rect_to_value (bbox m)); ("confidence", f64_value (md_confidence m))].
(* src: crates/vcli-core/src/predicate.rs 107-116 MatchData::deserialize *)
Definition MatchData_from_value : Value → option MatchData :=
  fields ["box"; "confidence"] (λ v,
    b ← req "box" Rect_from_value v; c ← req "confidence" read_f64 v; Some (mkMatchData b c)).
(* src: crates/vcli-core/src/predicate.rs 94-105 PredicateResult::serialize *)
Definition PredicateResult_to_value (r : PredicateResult) : Value :=
  Obj ([("truthy", Bool (truthy r))] ++ opt_field "match_data" MatchData_to_value (match_data r)
       ++ [("at", int_value (at_ms r))]).
(* src: crates/vcli-core/src/predicate.rs 94-105 PredicateResult::deserialize *)
Definition PredicateResult_from_value : Value → option PredicateResult :=
  fields ["truthy"; "match_data"; "at"] (λ v,
    t ← req "truthy" read_bool v; m ← opt "match_data" MatchData_from_value v;
    a ← req "at" read_i64 v; Some (mkPredicateResult t m a)).

Definition InputAction_wf (a : InputAction) : Prop :=
  match a with
  | ActMove to | ActClick to _ => Point_wf to
  | ActScroll to dx dy => Point_wf to ∧ in_i32 dx ∧ in_i32 dy
  | _ => True
  end.
Definition PredicateResult_wf (r : PredicateResult) : Prop :=
  in_i64 (at_ms r) ∧
  match match_data r with
  | Some m => Rect_wf (bbox m) ∧ f64_is_finite (md_confidence m) = true
  | None => True
  end.

Lemma InputAction_value a :
  InputAction_wf a → InputAction_from_value (InputAction_to_value a) = Some a.
Proof.
  intros Ha. unfold InputAction_from_value.
  destruct a as [to|to b|text|k [|m l]|to dx dy]; cbn in Ha; destruct_and?;
    unfold InputAction_to_value; by reads.
Qed.
Lemma MatchData_value m :
  Rect_wf (bbox m) → f64_is_finite (md_confidence m) = true →
  MatchData_from_value (MatchData_to_value m) = Some m.
Proof. intros. unfold MatchData_from_value, MatchData_to_value. destruct m; simpl in *. by reads. Qed.
#[export] Hint Rewrite MatchData_value using done : vcli_wire.
Lemma PredicateResult_value r :
  PredicateResult_wf r → PredicateResult_from_value (PredicateResult_to_value r) = Some r.
Proof.
  intros [Ha Hm]. unfold PredicateResult_from_value, PredicateResult_to_value.
  destruct r as [t [m|] a]; simpl in *; destruct_and?; by reads.
Qed.
