(* ===== verification/ProgramRead.v ===== *)
(** * What reading a program promises

    The readers of [ProgramWire] do not see the order of the entries of an
    object, so a document may be stored in another order than it was sent in
    ([order_blind] instances, down to [Program_from_value]); and whatever they
    accept is in range of the Rust types ([typed] facts, down to
    [Program_read_wf]). *)

From S2P Require Import Prelude Json CoreTypes Sha256 Canonical Serde EventWire ProgramWire.

(** ** The order of the entries does not matter *)

(** Equal up to the order of the entries of objects, whose keys are distinct. *)
Inductive same_doc : Value → Value → Prop :=
  | same_null : same_doc Null Null
  | same_bool b : same_doc (Bool b) (Bool b)
  | same_num n : same_doc (Num n) (Num n)
  | same_str s : same_doc (Str s) (Str s)
  | same_arr a a' : Forall2 same_doc a a' → same_doc (Arr a) (Arr a')
  | same_obj m m1 m' :
      NoDup m.*1 → m ≡ₚ m1 →
      Forall2 (λ kv kv', kv.1 = kv'.1 ∧ same_doc kv.2 kv'.2) m1 m' →
      same_doc (Obj m) (Obj m').

(** A reader that does not see it. *)
Abbreviation order_blind f := (Proper (same_doc ==> eq) f).

Lemma entries_get k (m m' : list (string * Value)) :
  Forall2 (λ kv kv', kv.1 = kv'.1 ∧ same_doc kv.2 kv'.2) m m' →
  option_Forall2 same_doc (obj_get k m) (obj_get k m').
Proof.
  induction 1 as [|[k1 v] [k2 v'] m m' [Hk Hv] Hm IH]; simpl in *; [constructor|].
  subst. case_decide; [by constructor|done].
Qed.
Lemma entries_keys (m m' : list (string * Value)) :
  Forall2 (λ kv kv', kv.1 = kv'.1 ∧ same_doc kv.2 kv'.2) m m' → m.*1 = m'.*1.
Proof. induction 1 as [|kv kv' m m' [Hk _] _ IH]; simpl; [done|]. by f_equal. Qed.

#[export] Instance value_get_proper k :
  Proper (same_doc ==> option_Forall2 same_doc) (value_get k).
Proof.
  intros v v' [| | | | |m m1 m' Hnd Hp Hm]; try constructor. simpl.
  rewrite (obj_get_perm k m m1) by done. by apply entries_get.
Qed.

Section blind.
  Context {A : Type}.
  Implicit Types f : Value → option A.

#[export] Instance req_proper k f : order_blind f → order_blind (req k f).
Proof. intros Hf v v' Hv. unfold req. by destruct (value_get_proper k v v' Hv); [apply Hf|]. Qed.
#[export] Instance dflt_proper k d f : order_blind f → order_blind (dflt k d f).
Proof. intros Hf v v' Hv. unfold dflt. by destruct (value_get_proper k v v' Hv); [apply Hf|]. Qed.
#[export] Instance opt_proper k f : order_blind f → order_blind (opt k f).
Proof.
  intros Hf v v' Hv. unfold opt. destruct (value_get_proper k v v' Hv) as [x x' Hx|]; [|done].
  pose proof (Hf x x' Hx) as Heq. by destruct Hx; rewrite ?Heq.
Qed.

Lemma mapM_blind f : order_blind f → Proper (Forall2 same_doc ==> eq) (mapM f).
Proof.
  intros Hf l l'. induction 1 as [|v v' l l' Hv Hl IH]; [done|].
  simpl. by rewrite (Hf v v' Hv), IH.
Qed.
#[export] Instance read_vec_proper f : order_blind f → order_blind (read_vec f).
Proof. intros Hf v v' [| | | |a a' Ha|]; try done. by apply mapM_blind. Qed.

(** A map is read from its entries in any order. *)
Lemma mapM_keys f (m : list (string * Value)) l : mapM (read_entry f) m = Some l → l.*1 = m.*1.
Proof.
  intros Hl%mapM_Some. induction Hl as [|[k v] [k' a] m l Hk _ IH]; simpl; [done|].
  unfold read_entry in Hk. simpl in Hk. destruct (f v); simplify_eq/=. by f_equal.
Qed.
#[export] Instance read_map_proper f : order_blind f → order_blind (read_map f).
Proof.
  intros Hf v v' [| | | | |m m1 m' Hnd Hp Hm]; try done. simpl.
  assert (mapM (read_entry f) m1 = mapM (read_entry f) m') as <-.
  { clear -Hf Hm. induction Hm as [|[k v] [k' v'] l l' [Hk Hv] Hl IH]; [done|].
    simpl in *. subst k'. assert (read_entry f (k, v) = read_entry f (k, v')) as ->.
    { unfold read_entry; simpl. by rewrite (Hf v v' Hv). }
    by rewrite IH. }
  destruct (mapM (read_entry f) m) as [l|] eqn:Hl.
  - pose proof (mapM_keys f m l Hl) as Hkeys. apply mapM_Some in Hl.
    destruct (Permutation_Forall2 Hp Hl) as (l1 & Hl1 & Hf1). apply mapM_Some in Hf1 as ->.
    simpl. f_equal. apply list_to_map_proper; [|done]. by rewrite Hkeys.
  - apply mapM_None in Hl. rewrite Hp in Hl. by apply mapM_None in Hl as ->.
Qed.

#[export] Instance unit_enum_proper (names : list (string * A)) : order_blind (unit_enum names).
Proof.
  intros v v' [| | | | |m m1 m' Hnd Hp Hm]; try done.
  assert (length m = length m') as Hlen by (rewrite Hp; by eapply Forall2_length).
  destruct m as [|[k x] [|? ?]], m' as [|[k' x'] [|? ?]]; try discriminate Hlen; [done| |].
  2: { by destruct x as [| | | | |[]], x' as [| | | | |[]]. }
  apply Permutation_singleton_l in Hp as <-. inversion Hm as [|? ? ? ? [Hk Hx] _]; subst.
  simpl in *. subst k'. destruct Hx as [| | | | |n n1 n' _ Hp Hn]; try done.
  assert (length n = length n') as Hl by (rewrite Hp; by eapply Forall2_length).
  by destruct n, n'.
Qed.

Lemma zip_keys {B} (names : list string) (l : list B) : NoDup names → NoDup (zip names l).*1.
Proof.
  intros Hn. revert l. induction Hn as [|k names Hk Hn IH]; intros [|x l]; simpl; try constructor.
  - intros (y & -> & Hy)%list_elem_of_fmap. destruct y as [k' x']. by apply elem_of_zip_l in Hy.
  - apply IH.
Qed.
Lemma struct_of_blind names v v' :
  NoDup names → same_doc v v' → option_Forall2 same_doc (struct_of names v) (struct_of names v').
Proof.
  intros Hn Hv. destruct Hv as [| | | |a a' Ha|m m1 m' Hnd Hp Hm]; try constructor.
  - simpl. rewrite (Forall2_length _ _ _ Ha). case_decide; constructor.
    apply (same_obj _ (zip names a)); [by apply zip_keys|done|]. clear -Ha. revert names.
    induction Ha as [|x x' a a' Hx _ IH]; intros [|k names]; simpl; try constructor; eauto.
  - by apply (same_obj _ m1).
Qed.
Lemma fields_blind names f : NoDup names → order_blind f → order_blind (fields names f).
Proof.
  intros Hn Hf v v' Hv. unfold fields. by destruct (struct_of_blind names v v' Hn Hv); [apply Hf|].
Qed.
#[export] Instance unit_variant_proper (a : A) : order_blind (unit_variant a).
Proof. intros v v' [| | | |l l' Hl|]; try done. by destruct Hl. Qed.

Lemma variant_of_blind b (variants : list (string * (Value → option A))) :
  Forall (λ kv, order_blind kv.2) variants →
  ∀ t t', same_doc t t' →
  variant_of b variants t = variant_of b variants t' ∧
  ∀ read, variant_of b variants t = Some read → order_blind read.
Proof.
  intros Hall t t' Ht. split; [by destruct Ht|]. rewrite Forall_forall in Hall.
  intros read. destruct t as [| |n|s| |]; try done; simpl.
  - destruct b; [|done]. destruct (as_u64 n) as [i|]; [|done]. simpl.
    destruct (variants !! Z.to_nat i) as [[k r]|] eqn:Hi; [|done]. intros [= <-].
    by apply list_elem_of_lookup_2, Hall in Hi.
  - clear -Hall. induction variants as [|[k r] l IH]; simpl; [done|]. case_decide.
    + intros [= <-]. apply (Hall (k, r)). by left.
    + apply IH. intros kv Hkv. apply Hall. by right.
Qed.
Lemma tagged_blind b (variants : list (string * (Value → option A))) :
  Forall (λ kv, order_blind kv.2) variants → order_blind (tagged b variants).
Proof.
  intros Hall v v' Hv. pose proof (variant_of_blind b variants Hall) as Htag.
  destruct Hv as [| | | |a a' [|t t' rest rest' Ht Hrest]|m m1 m' Hnd Hp Hm]; try done; simpl.
  - destruct (Htag t t' Ht) as [<- Hread]. destruct (variant_of b variants t) as [read|]; [|done].
    simpl. apply (Hread read eq_refl). by constructor.
  - assert (same_doc (Obj m) (Obj m')) as Hobj by by apply (same_obj m m1).
    pose proof (value_get_proper "kind" _ _ Hobj) as Hget. simpl in Hget.
    destruct Hget as [t t' Ht|]; [|done]. simpl.
    destruct (Htag t t' Ht) as [<- Hread]. destruct (variant_of b variants t) as [read|]; [|done].
    simpl. by apply (Hread read eq_refl).
Qed.
End blind.

Lemma bind_blind {A B} (m m' : option A) (f g : A → option B) :
  m = m' → (∀ x, f x = g x) → m ≫= f = m' ≫= g.
Proof. intros -> Hfg. destruct m'; simpl; [apply Hfg|done]. Qed.

#[export] Instance read_str_proper : order_blind read_str.
Proof. by intros v v' []. Qed.
#[export] Instance read_i32_proper : order_blind read_i32.
Proof. by intros v v' []. Qed.
#[export] Instance read_uint_proper max : order_blind (read_uint max).
Proof. by intros v v' []. Qed.
#[export] Instance read_f64_proper : order_blind read_f64.
Proof. by intros v v' []. Qed.

(** A reader made of the readers of its fields, and the variants of an enum. *)
Ltac blind_fields :=
  intros ? ? Hv; repeat (apply bind_blind; [by apply (_ : order_blind _), Hv|intros]); reflexivity.
Ltac blind :=
  first [ apply unit_variant_proper
        | apply fields_blind; [by apply (bool_decide_unpack _)|blind_fields]
        | apply tagged_blind; repeat (apply Forall_cons; split; [blind|]); apply Forall_nil_2 ].

#[export] Instance Point_blind : order_blind Point_from_value.
Proof. change Point_from_value with (fields ["x"; "y"] (λ v,
    x ← req "x" read_i32 v; y ← req "y" read_i32 v; Some (mkPoint x y))). blind. Qed.
#[export] Instance Rect_blind : order_blind Rect_from_value.
Proof. blind. Qed.
#[export] Instance Size_blind : order_blind Size_from_value.
Proof. blind. Qed.
#[export] Instance Anchor_blind : order_blind Anchor_from_value.
Proof. apply unit_enum_proper. Qed.
#[export] Instance Region_blind : order_blind Region_from_value.
Proof. blind. Qed.
#[export] Instance Rgb_blind : order_blind Rgb_from_value.
Proof.
  intros v v' [| | | |a a' Ha|]; try done.
  destruct Ha as [|r r' ? ? Hr [|g g' ? ? Hg [|b b' ? ? Hb []]]]; try done. simpl.
  by rewrite (read_uint_proper _ _ _ Hr), (read_uint_proper _ _ _ Hg), (read_uint_proper _ _ _ Hb).
Qed.
#[export] Instance PredicateKind_blind b : order_blind (PredicateKind_from_value b).
Proof. blind. Qed.
#[export] Instance Button_blind : order_blind Button_from_value.
Proof. apply unit_enum_proper. Qed.
#[export] Instance Modifier_blind : order_blind Modifier_from_value.
Proof. apply unit_enum_proper. Qed.
#[export] Instance OnTimeout_blind : order_blind OnTimeout_from_value.
Proof. apply unit_enum_proper. Qed.
#[export] Instance StepOnFail_blind : order_blind StepOnFail_from_value.
Proof. apply unit_enum_proper. Qed.
#[export] Instance Target_blind : order_blind Target_from_value.
Proof.
  intros v v' Hv. unfold Target_from_value. by rewrite (Point_blind v v' Hv), (read_str_proper v v' Hv).
Qed.
#[export] Instance Step_blind : order_blind Step_from_value.
Proof. blind. Qed.
#[export] Instance Trigger_blind : order_blind Trigger_from_value.
Proof. blind. Qed.
#[export] Instance WatchWhen_blind : order_blind WatchWhen_from_value.
Proof.
  intros v v' Hv. unfold WatchWhen_from_value.
  by rewrite (read_str_proper v v' Hv), (PredicateKind_blind true v v' Hv).
Qed.
#[export] Instance Lifetime_blind : order_blind Lifetime_from_value.
Proof. blind. Qed.
#[export] Instance Watch_blind : order_blind Watch_from_value.
Proof. blind. Qed.
#[export] Instance emit_blind : order_blind emit_from_value.
Proof. apply fields_blind; [by apply (bool_decide_unpack _)|apply _]. Qed.
#[export] Instance ProgramId_blind `{UuidOps} : order_blind ProgramId_from_value.
Proof. by intros v v' []. Qed.

#[export] Instance Program_blind `{UuidOps} : order_blind Program_from_value.
Proof. blind. Qed.

(** C19: A well-formed program is what its document is read as, whatever the
    order in which the document lists the entries of its objects. *)
Theorem Program_reads_back `{UuidOps, !UuidLaws} p v :
  Program_wf p → same_doc (Program_to_value p) v → Program_from_value v = Some p.
Proof. intros Hp Hv. rewrite <-(Program_blind _ _ Hv). by apply Program_value. Qed.

(** ** What is read is in range *)

(** A [Number] as [serde_json] builds it answers in range, and never with an
    infinite float. *)
Definition number_ok (n : Number) : Prop :=
  (∀ z, as_u64 n = Some z → in_u64 z) ∧ (∀ z, as_i64 n = Some z → in_i64 z) ∧
  ∀ f, as_f64 n = Some f → f64_is_finite f = true.
Inductive doc_ok : Value → Prop :=
  | doc_null : doc_ok Null
  | doc_bool b : doc_ok (Bool b)
  | doc_num n : number_ok n → doc_ok (Num n)
  | doc_str s : doc_ok (Str s)
  | doc_arr a : Forall doc_ok a → doc_ok (Arr a)
  | doc_obj m : Forall (λ kv, doc_ok kv.2) m → doc_ok (Obj m).

(** The test on a concrete document. *)
Definition is_number_ok (n : Number) : bool :=
  match as_u64 n with Some z => bool_decide (in_u64 z) | None => true end &&
  match as_i64 n with Some z => bool_decide (in_i64 z) | None => true end &&
  match as_f64 n with Some f => f64_is_finite f | None => true end.
Fixpoint is_doc_ok (v : Value) : bool :=
  match v with
  | Num n => is_number_ok n
  | Arr a => forallb is_doc_ok a
  | Obj m => forallb (λ kv, is_doc_ok kv.2) m
  | _ => true
  end.
Lemma forallb_Forall {A} (f : A → bool) (P : A → Prop) l :
  Forall (λ x, f x = true → P x) l → forallb f l = true → Forall P l.
Proof.
  induction 1 as [|x l Hx _ IH]; simpl; [constructor|]. intros [? ?]%andb_prop. constructor; auto.
Qed.
Lemma is_doc_ok_sound v : is_doc_ok v = true → doc_ok v.
Proof.
  induction v as [|b|n|s|a IH|m IH] using Value_nested_ind; cbn [is_doc_ok]; try (by constructor).
  - unfold is_number_ok. intros [[Hu Hi]%andb_prop Hf]%andb_prop. constructor.
    destruct n as [[i|] [u|] [f|]]; simpl in *; split_and!; simpl; intros x [= <-];
      first [done | by eapply bool_decide_eq_true].
  - intros Ha. constructor. by apply (forallb_Forall is_doc_ok).
  - intros Hm. constructor. by apply (forallb_Forall (λ kv, is_doc_ok kv.2)).
Qed.

(** Everything [f] reads from such a document satisfies [P]. *)
Definition typed {A} (f : Value → option A) (P : A → Prop) : Prop :=
  ∀ v a, doc_ok v → f v = Some a → P a.

Create HintDb vcli_typed.

Lemma doc_ok_get k v x : doc_ok v → value_get k v = Some x → doc_ok x.
Proof.
  intros [| | | | |m Hm]; try done. simpl. induction Hm as [|[k' y] m Hy _ IH]; simpl; [done|].
  case_decide; [by intros [= <-]|done].
Qed.

Section typed.
  Context {A : Type}.
  Implicit Types (f : Value → option A) (P : A → Prop).

Lemma typed_any f : typed f (λ _, True).
Proof. done. Qed.
Lemma typed_req k f P : typed f P → typed (req k f) P.
Proof.
  intros Hf v a Hv. unfold req. destruct (value_get k v) as [x|] eqn:Hk; [|done]. simpl.
  apply Hf. by eapply doc_ok_get.
Qed.
Lemma typed_dflt k d f P : P d → typed f P → typed (dflt k d f) P.
Proof.
  intros Hd Hf v a Hv. unfold dflt. destruct (value_get k v) as [x|] eqn:Hk.
  - apply Hf. by eapply doc_ok_get.
  - by intros [= <-].
Qed.
Lemma typed_opt k f P : typed f P → typed (opt k f) (from_option P True).
Proof.
  intros Hf v a Hv. unfold opt. destruct (value_get k v) as [x|] eqn:Hk; [|by intros [= <-]].
  assert (Some <$> f x = Some a → from_option P True a) as Hx.
  { destruct (f x) as [y|] eqn:Hy; [|done]. intros [= <-]. simpl.
    apply (Hf x); [by eapply doc_ok_get|done]. }
  destruct x; try exact Hx. by intros [= <-].
Qed.
Lemma typed_vec f P : typed f P → typed (read_vec f) (Forall P).
Proof.
  intros Hf v l Hv. destruct Hv as [| | | |a Ha|]; try done. simpl. intros Hl%mapM_Some.
  induction Hl as [|x y a l Hx _ IH]; [constructor|]. apply Forall_cons in Ha as [Hok Ha].
  constructor; [by apply (Hf x)|by apply IH].
Qed.
Lemma typed_map f P : typed f P → typed (read_map f) (map_Forall (λ _, P)).
Proof.
  intros Hf v m Hv. destruct Hv as [| | | | |es Hes]; try done. simpl.
  destruct (mapM (read_entry f) es) as [l|] eqn:Hl; [|done]. intros [= <-] k a Hk.
  apply elem_of_list_to_map_2 in Hk. apply mapM_Some in Hl.
  induction Hl as [|[k1 x] [k2 y] es l Hx _ IH]; [by apply not_elem_of_nil in Hk|].
  apply Forall_cons in Hes as [Hok Hes]. apply elem_of_cons in Hk as [Hk|Hk]; [|by apply IH].
  injection Hk as -> ->. unfold read_entry in Hx; simpl in Hx.
  destruct (f x) as [z|] eqn:Hz; [|done]. simpl in Hx. injection Hx as _ ->. by apply (Hf x).
Qed.
Lemma typed_fields names f P : typed f P → typed (fields names f) P.
Proof.
  intros Hf v a Hv. unfold fields. destruct (struct_of names v) as [w|] eqn:Hw; [|done]. simpl.
  apply Hf. destruct v as [| | | |l|m]; try done; simpl in Hw; [|by injection Hw as <-].
  case_decide; [|done]. injection Hw as <-. inversion Hv as [| | | |? Hl|]; subst. constructor.
  clear -Hl. revert names. induction Hl as [|x l Hx _ IH]; intros [|k names]; simpl; try constructor; auto.
Qed.
Lemma typed_unit (a : A) P : P a → typed (unit_variant a) P.
Proof. intros Ha v b _. destruct v as [| | | |[]|]; simpl; try done; by intros [= <-]. Qed.
Lemma typed_tagged b (variants : list (string * (Value → option A))) P :
  Forall (λ kv, typed kv.2 P) variants → typed (tagged b variants) P.
Proof.
  intros Hall v a Hv.
  assert (∀ t read, variant_of b variants t = Some read → typed read P) as Hread.
  { rewrite Forall_forall in Hall. intros [| |n|s| |] read; try done; simpl.
    - destruct b; [|done]. destruct (as_u64 n) as [i|]; [|done]. simpl.
      destruct (variants !! Z.to_nat i) as [[k r]|] eqn:Hi; [|done]. intros [= <-].
      by apply list_elem_of_lookup_2, Hall in Hi.
    - clear -Hall. induction variants as [|[k r] l IH]; simpl; [done|]. case_decide.
      + intros [= <-]. apply (Hall (k, r)). by left.
      + apply IH. intros kv Hkv. apply Hall. by right. }
  destruct v as [| | | |[|t rest]|m]; try done; simpl.
  - inversion Hv as [| | | |? Hl|]; subst. apply Forall_cons in Hl as [_ Hl].
    destruct (variant_of b variants t) as [read|] eqn:Ht; [|done]. simpl.
    apply (Hread t read Ht). by constructor.
  - destruct (obj_get "kind" m) as [t|]; [|done]. simpl.
    destruct (variant_of b variants t) as [read|] eqn:Ht; [|done]. simpl. by apply (Hread t read Ht).
Qed.
Lemma typed_bind {B} (f : Value → option A) (g : A → Value → option B) P (Q : B → Prop) :
  typed f P → (∀ a, P a → typed (g a) Q) → typed (λ v, x ← f v; g x v) Q.
Proof.
  intros Hf Hg v b Hv. destruct (f v) as [x|] eqn:Hx; [|done]. simpl.
  apply (Hg x); [by apply (Hf v)|done].
Qed.
Lemma typed_ret (a : A) P : P a → typed (λ _, Some a) P.
Proof. intros Ha v b _. by intros [= <-]. Qed.
End typed.

Lemma typed_uint max : typed (read_uint max) (λ z, (0 ≤ z ≤ max)%Z).
Proof.
  intros v z Hv. destruct v as [| |n| | |]; try done. inversion Hv as [| |? (Hu & _ & _)| | |]; subst.
  simpl. destruct (as_u64 n) as [u|] eqn:Hn; [|done]. simpl. case_bool_decide; [|done].
  intros [= <-]. pose proof (Hu u eq_refl). ints.
Qed.
Lemma typed_i32 : typed read_i32 in_i32.
Proof.
  intros v z Hv. unfold read_i32. destruct (read_i64 v) as [i|]; [|done]. simpl.
  case_bool_decide; [|done]. by intros [= <-].
Qed.
Lemma typed_f64 : typed read_f64 (λ f, f64_is_finite f = true).
Proof.
  intros v f Hv. destruct v as [| |n| | |]; try done.
  inversion Hv as [| |? (_ & _ & Hf)| | |]; subst. apply Hf.
Qed.
#[export] Hint Resolve typed_req typed_opt typed_vec typed_map typed_uint typed_i32 typed_f64
  : vcli_typed.
#[export] Hint Constants Opaque : vcli_typed.
#[export] Hint Resolve typed_any | 10 : vcli_typed.

(** [ty] follows the fields of a reader, or the variants of an enum, and leaves
    what the result needs. *)
Ltac ty_field :=
  lazymatch goal with
  | |- typed (dflt _ _ _) _ => eapply typed_dflt; [|solve [typeclasses eauto with vcli_typed nocore]]
  | |- _ => solve [typeclasses eauto with vcli_typed nocore]
  end.
Ltac ty_fields :=
  lazymatch goal with
  | |- typed (λ v, mbind _ _) _ => eapply typed_bind; [ty_field|intros; ty_fields]
  | |- typed (λ v, Some _) _ => apply typed_ret
  | |- _ => idtac
  end.
Ltac ty :=
  lazymatch goal with
  | |- typed (unit_variant _) _ => apply typed_unit
  | |- typed (fields _ _) _ => apply typed_fields; ty_fields
  | |- typed (tagged _ _) _ =>
      apply typed_tagged; repeat (apply Forall_cons; split; [simpl; ty|]); try apply Forall_nil_2
  end.

Lemma typed_Point : typed Point_from_value Point_wf.
Proof.
  change Point_from_value with (fields ["x"; "y"] (λ v,
    x ← req "x" read_i32 v; y ← req "y" read_i32 v; Some (mkPoint x y))).
  ty. by split.
Qed.
Lemma typed_Rect : typed Rect_from_value Rect_wf.
Proof. unfold Rect_from_value. ty. by split_and!. Qed.
Lemma typed_Size : typed Size_from_value (λ s, in_i32 (size_w s) ∧ in_i32 (size_h s)).
Proof. unfold Size_from_value. ty. by split. Qed.
#[export] Hint Resolve typed_Point typed_Rect typed_Size : vcli_typed.
(** What is left when the fields are in range. *)
Ltac ranges := unfold Region_wf, predicate_wf; simpl in *; split_and?; solve [done | ints].
Lemma typed_Region : typed Region_from_value Region_wf.
Proof.
  unfold Region_from_value. ty; intros; by ranges.
Qed.
Lemma typed_Rgb : typed Rgb_from_value (λ c, in_u8 (red c) ∧ in_u8 (green c) ∧ in_u8 (blue c)).
Proof.
  intros v c Hv. destruct v as [| | | |[|r [|g [|b []]]]|]; try done.
  inversion Hv as [| | | |? Hl|]; subst. rewrite !Forall_cons in Hl. destruct Hl as (Hr & Hg & Hb & _).
  unfold Rgb_from_value.
  destruct (read_uint u8_max r) eqn:Er; [|done]. destruct (read_uint u8_max g) eqn:Eg; [|done].
  destruct (read_uint u8_max b) eqn:Eb; [|done]. intros [= <-].
  apply typed_uint in Er, Eg, Eb; done.
Qed.
#[export] Hint Resolve typed_Region typed_Rgb : vcli_typed.
Lemma typed_PredicateKind b : typed (PredicateKind_from_value b) predicate_wf.
Proof. unfold PredicateKind_from_value. ty; intros; by ranges. Qed.
Lemma typed_Target : typed Target_from_value Target_wf.
Proof.
  intros v t Hv. unfold Target_from_value. destruct (Point_from_value v) as [p|] eqn:Hp.
  - intros [= <-]. by apply (typed_Point v).
  - destruct (read_str v); [|done]. by intros [= <-].
Qed.
#[export] Hint Resolve typed_PredicateKind typed_Target : vcli_typed.
Lemma typed_Step : typed Step_from_value Step_wf.
Proof. unfold Step_from_value. ty; intros; by ranges. Qed.
Lemma typed_WatchWhen :
  typed WatchWhen_from_value (λ w, match w with ByName _ => True | Inline p => predicate_wf p end).
Proof.
  intros v w Hv. unfold WatchWhen_from_value. destruct (read_str v); [by intros [= <-]|].
  destruct (PredicateKind_from_value true v) as [p|] eqn:Hp; [|done]. intros [= <-].
  by apply typed_PredicateKind in Hp.
Qed.
Lemma typed_Lifetime :
  typed Lifetime_from_value (λ l, match l with TimeoutMs ms => in_u32 ms | _ => True end).
Proof. unfold Lifetime_from_value. ty; intros; by ranges. Qed.
#[export] Hint Resolve typed_Step typed_WatchWhen typed_Lifetime : vcli_typed.
Lemma typed_Watch : typed Watch_from_value Watch_wf.
Proof. unfold Watch_from_value. ty; intros; by ranges. Qed.
#[export] Hint Resolve typed_Watch : vcli_typed.

Lemma typed_Program `{UuidOps} : typed Program_from_value Program_wf.
Proof. unfold Program_from_value. ty; intros; by ranges. Qed.

(** C21: Whatever document is accepted, the program read from it is within the
    ranges of the types it is made of. *)
Theorem Program_read_wf `{UuidOps} v p :
  doc_ok v → Program_from_value v = Some p → Program_wf p.
Proof. apply typed_Program. Qed.
