(* ===== verification/CanonicalText.v ===== *)
(** * Canonical texts are JSON

    What [canonical.rs] writes is a JSON text, and of which document: the one
    it was given, with the entries of every object sorted by key, strings in
    normal form C, and floats as their literals read back.  The store keeps
    programs in this form, so this says what survives a restart of the
    daemon. *)

From S2P Require Import Prelude Json CoreTypes Sha256 Canonical CanonicalInj Serde EventWire.
From S2P Require Import ProgramWire ProgramRead.

(** ** JSON texts without white space *)

(** How [serde_json] reads a number that is no integer.  The crate is built
    without [float_roundtrip], so it need not be the float that was written. *)
Class FloatText := { read_float : string → option f64 }.

(** The items, separated by commas. *)
Fixpoint comma_text (first : bool) (l : list string) : string :=
  match l with
  | [] => ""
  | x :: l => (if first then "" else ",") +:+ x +:+ comma_text false l
  end.
Definition string_text (s : string) : string := quote +:+ escape s +:+ quote.
Definition entry_text (k t : string) : string := string_text k +:+ ":" +:+ t.

Inductive json_text `{FloatText} : string → Value → Prop :=
  | text_null : json_text "null" Null
  | text_bool b : json_text (if b : bool then "true" else "false") (Bool b)
  | text_int z : in_i64 z ∨ in_u64 z → json_text (pretty z) (Num (number_of_int z))
  | text_float s f :
      s ≠ "" → string_forallb num_char s = true → (∀ z : Z, s ≠ pretty z) →
      read_float s = Some f → json_text s (Num (number_of_f64 f))
  | text_str s : json_text (string_text s) (Str s)
  | text_arr ts a :
      Forall2 json_text ts a → json_text ("[" +:+ comma_text true ts +:+ "]") (Arr a)
  | text_obj ts m :
      NoDup m.*1 → Forall2 (λ t kv, ∃ x, t = entry_text kv.1 x ∧ json_text x kv.2) ts m →
      json_text ("{" +:+ comma_text true ts +:+ "}") (Obj m).

(** [serde_json] reads JSON. *)
Class JsonReads `{FloatText, JsonText} : Prop :=
  json_reads s v : json_text s v → json_from_str s = Ok v.
(** Every literal [ryu] prints is a number. *)
Class FloatLaws `{FloatText, RyuOps} : Prop :=
  float_readable f : f64_is_finite f = true → is_Some (read_float (ryu_format f)).

(** ** What is kept of a document *)

Definition plus_zero (f : f64) : f64 := if f64_is_zero f then S754_zero false else f.

Section stored.
Context `{FloatText, NfcOps, RyuOps}.

Inductive stored_as : Value → Value → Prop :=
  | stored_null : stored_as Null Null
  | stored_bool b : stored_as (Bool b) (Bool b)
  | stored_int z :
      in_i64 z ∨ in_u64 z → stored_as (Num (number_of_int z)) (Num (number_of_int z))
  | stored_float f f' :
      f64_is_finite f = true → read_float (ryu_format (plus_zero f)) = Some f' →
      stored_as (Num (number_of_f64 f)) (Num (number_of_f64 f'))
  | stored_str s : stored_as (Str s) (Str (nfc s))
  | stored_arr a a' : Forall2 stored_as a a' → stored_as (Arr a) (Arr a')
  | stored_obj m m1 m' :
      NoDup m.*1 → m ≡ₚ m1 → StronglySorted String.le m1.*1 →
      Forall2 (λ kv kv', kv.1 = kv'.1 ∧ stored_as kv.2 kv'.2) m1 m' →
      stored_as (Obj m) (Obj m').

Context `{!RyuLaws, !FloatLaws}.

Lemma write_seq_comma {A} (P : string → A → Prop) (w : A → result CanonicalError string) l :
  Forall (λ x, ∃ s, w x = Ok s ∧ P s x) l →
  ∀ first, ∃ ts, write_seq first (map w l) = Ok (comma_text first ts) ∧ Forall2 P ts l.
Proof using.
  induction 1 as [|x l (s & Hs & Hx) _ IH]; intros first; [by exists []|].
  destruct (IH false) as (ts & Hts & Hall). exists (s :: ts). split; [|by constructor].
  simpl. rewrite Hs. simpl. by rewrite Hts.
Qed.

Lemma write_number_text n :
  num_ok n → ∃ s v, write_number n = Ok s ∧ json_text s v ∧ stored_as (Num n) v.
Proof.
  intros [(z & Hz & ->)|(f & Hf & _ & ->)].
  - exists (pretty z), (Num (number_of_int z)). rewrite write_number_int by done.
    split_and!; by constructor.
  - assert (f64_is_finite (plus_zero f) = true) as Hp by by destruct f.
    destruct (float_readable (plus_zero f) Hp) as [f' Hf'].
    destruct (ryu_chars (plus_zero f) Hp) as [Hne Hchars].
    exists (ryu_format (plus_zero f)), (Num (number_of_f64 f')). split_and!.
    + unfold write_number; simpl. by rewrite Hf.
    + constructor; [done|done| |done]. intros z. by apply ryu_not_int.
    + by constructor.
Qed.

Lemma write_value_text v :
  json_ok v → ∃ s v', write_value v = Ok s ∧ json_text s v' ∧ stored_as v v'.
Proof.
  induction v as [|b|n|x|a IH|m IH] using Value_nested_ind; intros Hok; cbn [write_value].
  - exists "null", Null. split_and!; by constructor.
  - exists (if b then "true" else "false"), (Bool b). split_and!; [by destruct b|constructor..].
  - inversion Hok; subst. by apply write_number_text.
  - exists (string_text (nfc x)), (Str (nfc x)). split_and!; by constructor.
  - inversion Hok as [| | | |? Ha|]; subst.
    destruct (write_seq_comma (λ s x, ∃ v', json_text s v' ∧ stored_as x v') write_value a)
      with (first := true) as (ts & Hw & Hts).
    { rewrite Forall_forall in *. intros x Hx. destruct (IH x Hx (Ha x Hx)) as (s & v' & ?&?&?). eauto. }
    assert (∃ a', Forall2 json_text ts a' ∧ Forall2 stored_as a a') as (a' & Ht & Hs).
    { clear -Hts. induction Hts as [|s x ts a (v' & ? & ?) _ (a' & ? & ?)]; [by exists []|].
      exists (v' :: a'). by repeat constructor. }
    exists ("[" +:+ comma_text true ts +:+ "]"), (Arr a'). unfold write_array. rewrite Hw.
    split_and!; [done|by constructor..].
  - inversion Hok as [| | | | |? Hnd Hk Hm]; subst. rewrite write_object_sorted.
    pose proof (sorted_entries_perm m Hnd) as Hp.
    set (P := λ t kv, ∃ x v', t = entry_text kv.1 x ∧ json_text x v' ∧ stored_as kv.2 v').
    destruct (write_seq_comma P write_entry (sorted_entries m)) with (first := true)
      as (ts & Hw & Hts).
    { rewrite Hp. rewrite Forall_forall in *. intros kv Hkv.
      destruct (IH kv Hkv (Hm kv Hkv)) as (s & v' & Hs & ? & ?).
      exists (entry_text kv.1 s). unfold write_entry, write_string. rewrite Hs, (Hk kv Hkv).
      split; [done|]. by exists s, v'. }
    assert (∃ m', Forall2 (λ t kv, ∃ x, t = entry_text kv.1 x ∧ json_text x kv.2) ts m' ∧
                  Forall2 (λ kv kv', kv.1 = kv'.1 ∧ stored_as kv.2 kv'.2) (sorted_entries m) m')
      as (m' & Ht & Hs).
    { clear -Hts. induction Hts as [|t kv ts l (x & v' & ? & ? & ?) _ (m' & ? & ?)]; [by exists []|].
      exists ((kv.1, v') :: m'). split; constructor; eauto. }
    assert (m'.*1 = (sorted_entries m).*1) as Hkeys.
    { clear -Hs. induction Hs as [|kv kv' l l' [Hk _] _ IH]; simpl; [done|]. by f_equal. }
    exists ("{" +:+ comma_text true ts +:+ "}"), (Obj m'). rewrite Hw.
    split_and!; [done| |].
    + constructor; [by rewrite Hkeys, Hp|done].
    + apply (stored_obj m (sorted_entries m)); [done|by symmetry| |done].
      unfold sorted_entries. rewrite map_map. simpl. rewrite map_id.
      apply (StronglySorted_merge_sort _).
Qed.

(** C20: The canonical bytes of a document whose numbers are integers of a
    machine type or finite floats, and whose objects have distinct keys that
    are in normal form C already ([json_ok]), are a JSON text: of that document
    with the entries of every object sorted by key, strings in normal form C,
    zeros positive and floats as their literals read back.  (Keys are sorted
    before they are normalized; an object with two keys of one normal form
    would be written with the same key twice, and is not covered.  That every
    literal [ryu] prints is a number is a law of [ryu].) *)
Theorem canonical_is_json v :
  json_ok v → ∃ s v', canonicalize v = Ok s ∧ json_text s v' ∧ stored_as v v'.
Proof.
  intros Hv. destruct (write_value_text v Hv) as (s & v' & Hs & ? & ?).
  exists s, v'. unfold canonicalize. by rewrite Hs.
Qed.
End stored.

(** ** Documents that are kept as they are *)

Section plain_docs.
Context `{FloatText, NfcOps, RyuOps}.

(** Strings in normal form C, no negative zero, floats whose literal is read
    back exactly. *)
Definition plain_float (f : f64) : Prop :=
  f64_is_finite f = true ∧ valid_binary f64_prec f64_emax f = true ∧
  f ≠ S754_zero true ∧ read_float (ryu_format f) = Some f.
Inductive plain_doc : Value → Prop :=
  | plain_null : plain_doc Null
  | plain_bool b : plain_doc (Bool b)
  | plain_int z : in_i64 z ∨ in_u64 z → plain_doc (Num (number_of_int z))
  | plain_num f : plain_float f → plain_doc (Num (number_of_f64 f))
  | plain_str s : nfc s = s → plain_doc (Str s)
  | plain_arr a : Forall plain_doc a → plain_doc (Arr a)
  | plain_obj m :
      NoDup m.*1 → Forall (λ kv, nfc kv.1 = kv.1) m → Forall (λ kv, plain_doc kv.2) m →
      plain_doc (Obj m).

Lemma plain_json_ok v : plain_doc v → json_ok v.
Proof.
  induction v as [|b|n|x|a IH|m IH] using Value_nested_ind; intros Hv;
    inversion Hv as [| |z Hz|f (Hf & Hb & _)| |? Ha|? Hnd Hk Hm]; subst; constructor; try done.
  - left. eauto.
  - right. eauto.
  - rewrite Forall_forall in *. eauto.
  - rewrite Forall_forall in *. eauto.
Qed.

Lemma number_of_int_float z f : in_i64 z ∨ in_u64 z → number_of_int z ≠ number_of_f64 f.
Proof. intros Hz [= Hi Hu _]. case_bool_decide; [done|]. case_bool_decide; [done|]. tauto. Qed.

Lemma plain_num_float f : plain_doc (Num (number_of_f64 f)) → plain_float f.
Proof.
  intros Hv. remember (Num (number_of_f64 f)) as v eqn:Hf.
  destruct Hv as [| |z Hz|g Hg| | |]; try done.
  - assert (number_of_int z = number_of_f64 f) as Hn by congruence.
    by apply number_of_int_float in Hn.
  - assert (number_of_f64 g = number_of_f64 f) as Hn by congruence. by injection Hn as ->.
Qed.

Lemma stored_plain v v' : plain_doc v → stored_as v v' → same_doc v v'.
Proof.
  revert v'. induction v as [|b|n|x|a IH|m IH] using Value_nested_ind; intros v' Hv Hs.
  - inversion Hs; constructor.
  - inversion Hs; constructor.
  - inversion Hs as [| |z Hz Hn|f f' Hf Hr Hn| | |]; subst; [constructor|].
    destruct (plain_num_float f Hv) as (_ & _ & Hnz & Hread).
    assert (plus_zero f = f) as Hp by by destruct f as [[]| | |].
    rewrite Hp, Hread in Hr. injection Hr as <-. constructor.
  - inversion Hs; subst. inversion Hv as [| | | |? Hx| |]; subst. rewrite Hx. constructor.
  - inversion Hs as [| | | | |? a' Ha|]; subst. inversion Hv as [| | | | |? Hp|]; subst.
    constructor. clear Hs Hv. induction Ha as [|x x' l l' Hx Hl IHl]; [constructor|].
    apply Forall_cons in IH as [IHx IH]. apply Forall_cons in Hp as [Hpx Hp].
    constructor; [by apply IHx|by apply IHl].
  - inversion Hs as [| | | | | |? m1 m' Hnd Hperm _ Hm]; subst.
    inversion Hv as [| | | | | |? _ _ Hp]; subst.
    apply (same_obj m m1); [done..|]. rewrite Hperm in IH, Hp. clear -IH Hp Hm.
    induction Hm as [|kv kv' l l' [Hk Hx] Hl IHl]; [constructor|].
    apply Forall_cons in IH as [IHx IH]. apply Forall_cons in Hp as [Hpx Hp].
    constructor; [split; [done|by apply IHx]|by apply IHl].
Qed.

Lemma plain_same v : plain_doc v → same_doc v v.
Proof.
  induction v as [|b|n|x|a IH|m IH] using Value_nested_ind; intros Hv; try constructor.
  - inversion Hv as [| | | | |? Ha|]; subst.
    rewrite Forall_forall in *. apply Forall_Forall2_diag, Forall_forall. auto.
  - inversion Hv as [| | | | | |? Hnd _ Hm]; subst. apply (same_obj m m); [done..|].
    apply Forall_Forall2_diag. rewrite Forall_forall in *. auto.
Qed.

(** The test on a concrete document. *)
Definition plain_number (n : Number) : bool :=
  match as_i64 n, as_u64 n with
  | Some z, _ => bool_decide (in_i64 z ∧ n = number_of_int z)
  | None, Some z => bool_decide (in_u64 z ∧ n = number_of_int z)
  | None, None =>
      match as_f64 n with
      | Some f =>
          bool_decide (n = number_of_f64 f) && f64_is_finite f && valid_binary f64_prec f64_emax f
          && bool_decide (f ≠ S754_zero true) && bool_decide (read_float (ryu_format f) = Some f)
      | None => false
      end
  end.
Fixpoint is_plain (v : Value) : bool :=
  match v with
  | Null | Bool _ => true
  | Num n => plain_number n
  | Str s => bool_decide (nfc s = s)
  | Arr a => forallb is_plain a
  | Obj m =>
      bool_decide (NoDup m.*1) && forallb (λ kv, bool_decide (nfc kv.1 = kv.1)) m &&
      forallb (λ kv, is_plain kv.2) m
  end.

Lemma plain_number_doc n : plain_number n = true → plain_doc (Num n).
Proof.
  unfold plain_number. destruct (as_i64 n) as [z|].
  { intros [Hz ->]%bool_decide_eq_true. apply plain_int. by left. }
  destruct (as_u64 n) as [z|]; [intros [Hz ->]%bool_decide_eq_true; apply plain_int; by right|].
  destruct (as_f64 n) as [f|]; [|done]. rewrite !andb_true_iff, !bool_decide_eq_true.
  intros ((((-> & ?) & ?) & ?) & ?). by apply plain_num.
Qed.
Lemma is_plain_doc v : is_plain v = true → plain_doc v.
Proof.
  induction v as [|b|n|s|a IH|m IH] using Value_nested_ind; cbn [is_plain].
  - constructor.
  - constructor.
  - apply plain_number_doc.
  - intros Hs%bool_decide_eq_true. by constructor.
  - intros Ha. constructor. by apply (forallb_Forall is_plain).
  - intros [[Hn Hk]%andb_prop Hm]%andb_prop. apply bool_decide_eq_true in Hn. constructor; [done| |].
    + apply (forallb_Forall _ (λ kv, nfc kv.1 = kv.1) m) in Hk; [exact Hk|]. apply Forall_forall. intros kv _.
      by rewrite bool_decide_eq_true.
    + by apply (forallb_Forall (λ kv, is_plain kv.2)).
Qed.

(** A plain program is read back from its canonical text. *)
Lemma canonical_program_read `{JsonText, UuidOps, !RyuLaws, !FloatLaws, !JsonReads, !UuidLaws} p text :
  Program_wf p → plain_doc (Program_to_value p) → canonicalize (Program_to_value p) = Ok text →
  ∃ doc, json_from_str text = Ok doc ∧ same_doc (Program_to_value p) doc ∧
         Program_from_value doc = Some p.
Proof.
  intros Hp Hplain Htext.
  destruct (write_value_text _ (plain_json_ok _ Hplain)) as (s & doc & Hs & Hjson & Hst).
  unfold canonicalize in Htext. rewrite Hs in Htext. injection Htext as <-.
  pose proof (stored_plain _ _ Hplain Hst) as Hsame. exists doc.
  split; [by apply json_reads|]. split; [done|]. rewrite <-(Program_blind _ _ Hsame).
  by apply Program_value.
Qed.
End plain_docs.
