(* ===== verification/JsonDemo.v ===== *)
(** * A JSON reader and writer

    Functions on concrete texts that have the laws asked of [serde_json]: the
    writer is compact, the reader inverts the grammar of [CanonicalText].  A
    float is written as sign, significand and exponent. *)

From S2P Require Import Prelude Digits Json CoreTypes Sha256 Canonical CanonicalInj Serde EventWire.
From S2P Require Import CanonicalText.

(** ** Numbers *)

Definition read_int (s : string) : option Z :=
  match s with
  | String "-" s => Z.opp <$> digits_value 0 s
  | _ => digits_value 0 s
  end.
Lemma read_int_pretty z : read_int (pretty z) = Some z.
Proof.
  destruct (decide (0 ≤ z)%Z) as [Hz|Hz].
  - pose proof (decimal_head z _ (pretty_decimal z Hz)) as Hh.
    pose proof (proj2 (proj2 (pretty_decimal z Hz))) as Hv.
    destruct (pretty z) as [|a s]; [done|]. unfold read_int.
    by destruct a as [[] [] [] [] [] [] [] []].
  - destruct z as [|p|p]; try lia. change (pretty (Z.neg p)) with (String "-" (pretty (Z.pos p))).
    simpl. by rewrite (proj2 (proj2 (pretty_decimal (Z.pos p) ltac:(lia)))).
Qed.

Definition sci_read (s : string) : option f64 :=
  match s with
  | String c t =>
      '(m, e) ← split_once "e" t; m ← read_int m; e ← read_int e;
      let b := bool_decide (c = "-"%char) in
      match m with
      | Z0 => Some (S754_zero b)
      | Zpos p => Some (S754_finite b p e)
      | Zneg _ => None
      end
  | EmptyString => None
  end.
Definition sci_text : FloatText := {| read_float := sci_read |}.

Lemma sci_read_format f : f64_is_finite f = true → sci_read (sci_format f) = Some f.
Proof.
  intros Hf. destruct (sci_format_split f Hf) as (b & m & e & Hs & Hfm). rewrite Hs.
  unfold sci_read. rewrite split_once_app by apply pretty_no_e. simpl. rewrite !read_int_pretty. simpl.
  destruct Hfm as [[-> ->]|(p & -> & ->)]; by destruct b.
Qed.
Lemma sci_text_laws : @FloatLaws sci_text sci_ops.
Proof. intros f Hf. exists f. by apply sci_read_format. Qed.

(** ** Reading *)

(** The longest prefix of characters that satisfy [p]. *)
Fixpoint span (p : ascii → bool) (s : string) : string * string :=
  match s with
  | String a t => if p a then let '(x, r) := span p t in (String a x, r) else ("", s)
  | EmptyString => ("", "")
  end.
Definition number_of_token (s : string) : option Number :=
  match read_int s with
  | Some z =>
      if decide (pretty z = s ∧ (in_i64 z ∨ in_u64 z)) then Some (number_of_int z)
      else number_of_f64 <$> sci_read s
  | None => number_of_f64 <$> sci_read s
  end.

(** A string up to its closing quote. *)
Fixpoint read_string (n : nat) (s : string) : option (string * string) :=
  match n with
  | O => None
  | S n =>
      match unescape_char s with
      | Some (a, t) => '(x, r) ← read_string n t; Some (String a x, r)
      | None => match s with String _ r => Some ("", r) | EmptyString => None end
      end
  end.

(** Items up to the closing character, at least one. *)
Fixpoint read_items {A} (item : string → option (A * string)) (close : ascii) (n : nat)
    (s : string) : option (list A * string) :=
  match n with
  | O => None
  | S n =>
      '(x, r) ← item s;
      match r with
      | String c r' =>
          if decide (c = close) then Some ([x], r')
          else if decide (c = ","%char) then '(l, r) ← read_items item close n r'; Some (x :: l, r)
          else None
      | EmptyString => None
      end
  end.
Definition read_list {A} (item : string → option (A * string)) (close : ascii) (s : string)
    : option (list A * string) :=
  match s with
  | String c r => if decide (c = close) then Some ([], r)
                  else read_items item close (String.length s) s
  | EmptyString => None
  end.
Definition quote_char : ascii := Ascii.ascii_of_nat 34.
Definition read_key (item : string → option (Value * string)) (s : string)
    : option ((string * Value) * string) :=
  match s with
  | String _ t =>
      '(k, r) ← read_string (S (String.length t)) t;
      match r with String _ r => '(v, r) ← item r; Some ((k, v), r) | EmptyString => None end
  | EmptyString => None
  end.

Fixpoint read_json (n : nat) (s : string) : option (Value * string) :=
  match n, s with
  | S n, String c t =>
      if decide (c = quote_char) then
        '(x, r) ← read_string (S (String.length t)) t; Some (Str x, r)
      else if decide (c = "["%char) then '(l, r) ← read_list (read_json n) "]" t; Some (Arr l, r)
      else if decide (c = "{"%char) then
        '(m, r) ← read_list (read_key (read_json n)) "}" t; Some (Obj m, r)
      else if decide (c = "n"%char) then r ← strip_prefix "null" s; Some (Null, r)
      else if decide (c = "t"%char) then r ← strip_prefix "true" s; Some (Bool true, r)
      else if decide (c = "f"%char) then r ← strip_prefix "false" s; Some (Bool false, r)
      else let '(x, r) := span num_char s in v ← number_of_token x; Some (Num v, r)
  | _, _ => None
  end.

(** ** Writing *)

Definition number_text (n : Number) : string :=
  match as_i64 n, as_u64 n, as_f64 n with
  | Some z, _, _ | None, Some z, _ => pretty z
  | None, None, Some f => sci_format f
  | None, None, None => ""
  end.
Fixpoint value_text (v : Value) : string :=
  match v with
  | Null => "null"
  | Bool b => if b then "true" else "false"
  | Num n => number_text n
  | Str s => string_text s
  | Arr a => "[" +:+ comma_text true (map value_text a) +:+ "]"
  | Obj m => "{" +:+ comma_text true (map (λ kv, entry_text kv.1 (value_text kv.2)) m) +:+ "}"
  end.

Definition text_json : JsonText := {|
  json_to_string := value_text;
  json_from_str s :=
    match read_json (S (String.length s)) s with
    | Some (v, "") => Ok v
    | _ => Err "expected value"
    end;
|}.

(** ** The reader inverts the grammar *)

Lemma length_append s t : String.length (s +:+ t) = String.length s + String.length t.
Proof. induction s as [|a s IH]; simpl; [done|]. by rewrite IH. Qed.
Lemma length_escape s : String.length s ≤ String.length (escape s).
Proof.
  induction s as [|a s IH]; simpl; [done|]. rewrite length_append.
  assert (1 ≤ String.length (escape_char a)); [|lia].
  destruct a as [[] [] [] [] [] [] [] []]; vm_compute; lia.
Qed.

Lemma read_string_escape s r n :
  String.length s < n → read_string n (escape s +:+ quote +:+ r) = Some (s, r).
Proof.
  revert n. induction s as [|a s IH]; intros [|n] Hn; simpl in Hn; try lia; [done|].
  cbn [escape read_string]. rewrite <-string_append_assoc, unescape_escape_char.
  rewrite IH by lia. done.
Qed.
Lemma read_string_literal s r :
  read_string (S (String.length (escape s +:+ quote +:+ r))) (escape s +:+ quote +:+ r) = Some (s, r).
Proof.
  apply read_string_escape. rewrite length_append. pose proof (length_escape s). lia.
Qed.

Lemma span_token t r : string_forallb num_char t = true → delim r → span num_char (t +:+ r) = (t, r).
Proof.
  intros Ht Hr. induction t as [|a t IH]; simpl in Ht.
  - rewrite string_append_nil_l. destruct r as [|c r]; [done|]. simpl in Hr. simpl.
    by rewrite num_char_not_delim.
  - apply andb_true_iff in Ht as [Ha Ht]. rewrite string_append_cons. simpl. by rewrite Ha, IH.
Qed.

Lemma number_of_int_token z :
  in_i64 z ∨ in_u64 z → number_of_token (pretty z) = Some (number_of_int z).
Proof.
  intros Hz. unfold number_of_token. by rewrite read_int_pretty, decide_True.
Qed.
Lemma number_of_float_token s f :
  (∀ z : Z, s ≠ pretty z) → sci_read s = Some f → number_of_token s = Some (number_of_f64 f).
Proof.
  intros Hs Hf. unfold number_of_token. rewrite Hf. destruct (read_int s) as [z|]; [|done].
  rewrite decide_False; [done|]. intros [Hz _]. by apply (Hs z).
Qed.

(** *** Sequences *)

Lemma comma_text_delim ts r c : c ∈ ["]"; "}"]%char → delim (comma_text false ts +:+ String c r).
Proof.
  intros Hc. destruct ts as [|t ts]; simpl; set_solver.
Qed.
Lemma comma_text_length b ts :
  length ts ≤ String.length (comma_text b ts) + (if b then 1 else 0) ∧
  ∀ t, t ∈ ts → String.length t ≤ String.length (comma_text b ts).
Proof.
  revert b. induction ts as [|t ts IH]; intros b; simpl.
  { split; [lia|]. by intros t ?%not_elem_of_nil. }
  destruct (IH false) as [IH1 IH2]. rewrite !length_append. split.
  - destruct b; simpl; lia.
  - intros u [->|Hu]%elem_of_cons; [lia|]. specialize (IH2 u Hu). lia.
Qed.

Section items.
  Context {A : Type} (item : string → option (A * string)).

Definition reads_as (t : string) (x : A) : Prop :=
  ∀ r, delim r → item (t +:+ r) = Some (x, r).

Lemma read_items_comma ts xs close r n :
  Forall2 reads_as ts xs → ts ≠ [] → length ts ≤ n → close ∈ ["]"; "}"]%char →
  read_items item close n (comma_text true ts +:+ String close r) = Some (xs, r).
Proof.
  intros Hts Hne Hn Hc. revert n Hn. induction Hts as [|t x ts xs Hx Hts IH]; intros [|n] Hn;
    try done; simpl in Hn; [lia|].
  cbn [comma_text read_items]. rewrite string_append_nil_l, <-string_append_assoc.
  rewrite (Hx _ (comma_text_delim ts r close Hc)). cbn [mbind option_bind].
  destruct Hts as [|t2 x2 ts xs Hx2 Hts].
  - cbn [comma_text]. rewrite string_append_nil_l. cbv beta iota. by rewrite decide_True.
  - cbn [comma_text]. rewrite !string_append_cons, string_append_nil_l. cbv beta iota.
    assert (","%char ≠ close) as Hcomma by (intros <-; revert Hc; vm_compute; set_solver).
    rewrite decide_False by done. rewrite decide_True by done.
    specialize (IH ltac:(done) n ltac:(simpl in *; lia)). cbn [comma_text] in IH.
    rewrite string_append_nil_l in IH. by rewrite IH.
Qed.

Lemma read_list_comma ts xs close r :
  Forall2 reads_as ts xs → Forall starts ts → close ∈ ["]"; "}"]%char →
  read_list item close (comma_text true ts +:+ String close r) = Some (xs, r).
Proof.
  intros Hts Hstart Hc. destruct Hts as [|t x ts xs Hx Hts].
  - simpl. rewrite string_append_nil_l. simpl. by rewrite decide_True.
  - pose proof (read_items_comma (t :: ts) (x :: xs) close r
      (String.length (comma_text true (t :: ts) +:+ String close r))) as Hread.
    destruct (comma_text true (t :: ts) +:+ String close r) as [|c rest] eqn:Htext.
    + exfalso. apply (f_equal String.length) in Htext. rewrite length_append in Htext. simpl in Htext. lia.
    + unfold read_list. rewrite decide_False.
      * apply Hread; [by constructor|done| |done]. rewrite <-Htext, length_append.
        pose proof (comma_text_length true (t :: ts)) as [Hl _]. simpl in Hl |- *. lia.
      * intros ->. apply Forall_cons in Hstart as [Hs _]. destruct t as [|a t]; [done|].
        simpl in Htext. rewrite !string_append_nil_l, !string_append_cons in Htext.
        injection Htext as -> _. simpl in Hs. set_solver.
Qed.
End items.

#[local] Existing Instance sci_text.

Lemma num_text_starts s : s ≠ "" → string_forallb num_char s = true → starts s.
Proof.
  destruct s as [|a s]; [done|]. simpl. intros _ [Ha _]%andb_true_iff Hin.
  rewrite num_char_not_delim in Ha; [done|done].
Qed.
Lemma json_text_starts s v : json_text s v → starts s.
Proof.
  intros [| |z Hz|t f Hne Hc _ _|x| |]; try (vm_compute; set_solver).
  - destruct b; vm_compute; set_solver.
  - apply num_text_starts; apply pretty_Z_num.
  - by apply num_text_starts.
Qed.

(** The head of a number is none of the characters the reader branches on. *)
Lemma number_read t v r n :
  t ≠ "" → string_forallb num_char t = true → delim r → number_of_token t = Some v →
  read_json (S n) (t +:+ r) = Some (Num v, r).
Proof.
  intros Hne Ht Hr Hv. destruct t as [|a t]; [done|].
  pose proof (span_token (String a t) r Ht Hr) as Hspan. rewrite string_append_cons in *.
  simpl in Ht. apply andb_true_iff in Ht as [Ha _]. cbn [read_json].
  rewrite !decide_False by (intros ->; vm_compute in Ha; discriminate Ha).
  rewrite Hspan, Hv. done.
Qed.

Lemma read_json_text v : ∀ s n, json_text s v → String.length s < n → reads_as (read_json n) s v.
Proof.
  induction v as [|b|m|x|a IH|m IH] using Value_nested_ind; intros s [|n] Hs Hn r Hr; try lia.
  - inversion Hs; subst. done.
  - inversion Hs; subst. by destruct b.
  - inversion Hs as [| |z Hz|t f Hne Hc Hz Hf| | |]; subst.
    + apply number_read; [apply pretty_Z_num..|done|by apply number_of_int_token].
    + apply number_read; [done..|by apply number_of_float_token].
  - inversion Hs; subst. unfold string_text. rewrite <-!string_append_assoc.
    change (quote +:+ ?t) with (String quote_char t). cbn [read_json]. rewrite decide_True by done.
    change (String quote_char r) with (quote +:+ r). by rewrite read_string_literal.
  - inversion Hs as [| | | | |ts ? Hts|]; subst. rewrite <-!string_append_assoc.
    change ("[" +:+ ?t) with (String "[" t). cbn [read_json].
    rewrite decide_False by done. rewrite decide_True by done.
    change ("]" +:+ r) with (String "]" r).
    rewrite (read_list_comma _ ts a); [done| | |set_solver].
    + pose proof (proj2 (comma_text_length true ts)) as Hlen. rewrite !length_append in Hn. simpl in Hn.
      assert (∀ t, t ∈ ts → String.length t < n) as Hlt.
      { intros t Ht. specialize (Hlen t Ht). lia. }
      clear -IH Hts Hlt. induction Hts as [|t x ts a Ht Hts IHts]; [constructor|].
      apply Forall_cons in IH as [IHx IH]. constructor.
      * apply IHx; [done|]. apply Hlt. by left.
      * apply IHts; [done|]. intros u Hu. apply Hlt. by right.
    + clear -Hts. induction Hts; constructor; [by eapply json_text_starts|done].
  - inversion Hs as [| | | | | |ts ? Hnd Hts]; subst. rewrite <-!string_append_assoc.
    change ("{" +:+ ?t) with (String "{" t). cbn [read_json].
    rewrite !decide_False by done. rewrite decide_True by done.
    change ("}" +:+ r) with (String "}" r).
    rewrite (read_list_comma _ ts m); [done| | |set_solver].
    + pose proof (proj2 (comma_text_length true ts)) as Hlen. rewrite !length_append in Hn. simpl in Hn.
      assert (∀ t, t ∈ ts → String.length t < n) as Hlt.
      { intros t Ht. specialize (Hlen t Ht). lia. }
      clear -IH Hts Hlt. induction Hts as [|t kv ts m (x & -> & Hx) Hts IHts]; [constructor|].
      apply Forall_cons in IH as [IHx IH]. constructor.
      * intros r Hr. unfold entry_text, string_text. rewrite <-!string_append_assoc.
        change (quote +:+ ?t) with (String quote_char t). cbn [read_key].
        change (String quote_char (":" +:+ ?t)) with (quote +:+ ":" +:+ t).
        rewrite read_string_literal. cbn [mbind option_bind].
        change (":" +:+ ?t) with (String ":" t). cbv iota beta.
        rewrite (IHx x n Hx); [by destruct kv| |done].
        assert (String.length (entry_text kv.1 x) < n) as Hl by (apply Hlt; by left).
        unfold entry_text in Hl. rewrite !length_append in Hl. lia.
      * apply IHts; [done|]. intros u Hu. apply Hlt. by right.
    + clear -Hts. induction Hts as [|t kv ts m (x & -> & Hx) Hts IHts]; constructor; [|done].
      vm_compute. set_solver.
Qed.

Lemma text_json_reads : @JsonReads sci_text text_json.
Proof.
  intros s v Hs. unfold json_from_str, text_json. pose proof (read_json_text v s (S (String.length s)) Hs ltac:(lia) "" I) as Hr.
  rewrite string_append_nil_r in Hr. by rewrite Hr.
Qed.

Lemma value_text_json v : exact v → json_text (value_text v) v.
Proof.
  induction v as [|b|m|x|a IH|m IH] using Value_nested_ind; intros Hv;
    inversion Hv as [| |z Hz| |? Ha|? Hnd Hm]; subst; cbn [value_text]; try constructor.
  - assert (number_text (number_of_int z) = pretty z) as ->.
    { unfold number_text; simpl. case_bool_decide; [done|]. case_bool_decide; [done|].
      exfalso. revert Hz. ints. }
    apply text_int. unfold_ints. lia.
  - clear Hv. induction Ha as [|x l Hx Hl IHl]; simpl; [constructor|].
    apply Forall_cons in IH as [IHx IH]. constructor; auto.
  - done.
  - clear Hv Hnd. induction Hm as [|kv l Hx Hl IHl]; simpl; [constructor|].
    apply Forall_cons in IH as [IHx IH]. constructor; eauto.
Qed.
Lemma text_json_laws : @JsonTextLaws text_json.
Proof. intros v Hv. apply text_json_reads. by apply value_text_json. Qed.
