(* ===== verification/DslError.v ===== *)
(** * Paths, validation errors and hints of vcli-dsl

    [path.rs], [error.rs], [hint.rs] of the DSL crate: JSON-pointer paths, the
    error kinds with their messages, and the did-you-mean helper with the
    proof that it compares names up to one edit. *)

From S2P Require Import Prelude Json CoreTypes Canonical.

(** ** Characters of a [str]

    [chars()] yields the scalar values; on valid UTF-8 they correspond to the
    groups made of a leading byte and its continuation bytes. *)
Definition is_continuation (a : ascii) : bool :=
  let n := Ascii.nat_of_ascii a in (128 <=? n)%nat && (n <? 192)%nat.

Fixpoint chars (s : string) : list (list ascii) :=
  match s with
  | EmptyString => []
  | String a s' =>
      match s' with
      | String b _ =>
          if is_continuation b then
            match chars s' with
            | c :: cs => (a :: c) :: cs
            | [] => [[a]]
            end
          else [a] :: chars s'
      | EmptyString => [[a]]
      end
  end.

(** [{:?}] of a [str]; characters outside ASCII are taken to be printable. *)
Fixpoint debug_escape (s : string) : string :=
  match s with
  | EmptyString => ""
  | String a s' =>
      let n := Ascii.nat_of_ascii a in
      (if decide (n = 0) then "\0"
       else if decide (n = 9) then "\t"
       else if decide (n = 10) then "\n"
       else if decide (n = 13) then "\r"
       else if decide (n = 34) then "\" +:+ quote
       else if decide (n = 92) then "\\"
       else if decide (n < 16) then
         "\u{" +:+ String (Sha256.hex_digit (Z.of_nat n)) "}"
       else if decide (n < 32 ∨ n = 127) then
         "\u{" +:+ String (Sha256.hex_digit (Z.of_nat (n / 16)))
           (String (Sha256.hex_digit (Z.of_nat (n mod 16))) "}")
       else String a "") +:+ debug_escape s'
  end.
Definition debug_str (s : string) : string := quote +:+ debug_escape s +:+ quote.
Fixpoint debug_list_tail (l : list string) : string :=
  match l with [] => "" | s :: l => ", " +:+ debug_str s +:+ debug_list_tail l end.
Definition debug_list (l : list string) : string :=
  match l with
  | [] => "[]"
  | s :: l => "[" +:+ debug_str s +:+ debug_list_tail l +:+ "]"
  end.

(** ** Paths *)

(* src: crates/vcli-dsl/src/path.rs 13-17 Segment *)
Inductive Segment := SegKey (k : string) | SegIndex (i : nat).
(* src: crates/vcli-dsl/src/path.rs 7-11 JsonPath *)
Record JsonPath := mkJsonPath { segments : list Segment }.

#[export] Instance Segment_eq_dec : EqDecision Segment.
Proof. solve_decision. Defined.
#[export] Instance JsonPath_eq_dec : EqDecision JsonPath.
Proof. solve_decision. Defined.

(* src: crates/vcli-dsl/src/path.rs 20-24 JsonPath::root *)
Definition root : JsonPath := {| segments := [] |}.
(* src: crates/vcli-dsl/src/path.rs 26-32 JsonPath::key *)
Definition key (p : JsonPath) (k : string) : JsonPath :=
  {| segments := segments p ++ [SegKey k] |}.
(* src: crates/vcli-dsl/src/path.rs 34-40 JsonPath::index *)
Definition index (p : JsonPath) (i : nat) : JsonPath :=
  {| segments := segments p ++ [SegIndex i] |}.
(* src: crates/vcli-dsl/src/path.rs 42-46 JsonPath::is_root *)
Definition is_root (p : JsonPath) : bool :=
  match segments p with [] => true | _ => false end.

(* src: crates/vcli-dsl/src/path.rs 58-64 JsonPath::fmt *)
Fixpoint escape_pointer (k : string) : string :=
  match k with
  | EmptyString => ""
  | String ch k =>
      (if decide (ch = "~"%char) then "~0"
       else if decide (ch = "/"%char) then "~1"
       else String ch "") +:+ escape_pointer k
  end.

(* src: crates/vcli-dsl/src/path.rs 49-71 JsonPath::fmt *)
Fixpoint segments_to_string (l : list Segment) : string :=
  match l with
  | [] => ""
  | SegKey k :: l => "/" +:+ escape_pointer k +:+ segments_to_string l
  | SegIndex i :: l => "/" +:+ pretty i +:+ segments_to_string l
  end.
Definition path_to_string (p : JsonPath) : string := segments_to_string (segments p).

(** ** Errors *)

(* src: crates/vcli-dsl/src/error.rs 64-185 DslErrorKind *)
Inductive DslErrorKind :=
  | JsonParse (message : string)
  | UnsupportedDslVersion (found expected_major : string)
  | MissingField (field : string)
  | WrongType (field expected got : string)
  | UnknownPredicateName (name : string) (hint : option string)
  | UnknownWatchName (name : string) (hint : option string)
  | UnknownTriggerName (name : string) (hint : option string)
  | PredicateCycle (cycle : list string)
  | ElapsedReferenceMissing (name : string)
  | NegativeAbsoluteTarget (x y : Z)
  | BodyOnlyStepInWatch (kind : string)
  | MalformedExpression (reason raw : string)
  | ExpressionOnLogicalPredicate (name : string)
  | EmptyLogicalOp (op : string)
  | FullDisplayTemplateWithoutOptIn
  | CanonicalizationFailed (message : string).

(* src: crates/vcli-dsl/src/error.rs 12-20 DslError *)
Record DslError := mkDslError { kind : DslErrorKind; path : JsonPath }.

(** The [#[error("...")]] attributes. *)
(* src: crates/vcli-dsl/src/error.rs 66-185 DslErrorKind::fmt *)
Definition DslErrorKind_to_string (k : DslErrorKind) : string :=
  match k with
  | JsonParse m => "json parse failed: " +:+ m
  | UnsupportedDslVersion found major =>
      "unsupported dsl version: " +:+ debug_str found +:+ " (expected major "
      +:+ debug_str major +:+ ")"
  | MissingField f => "missing required field: " +:+ f
  | WrongType f expected got =>
      "wrong type for field " +:+ f +:+ ": expected " +:+ expected +:+ ", got " +:+ got
  | UnknownPredicateName name _ => "unknown predicate " +:+ debug_str name
  | UnknownWatchName name _ =>
      "unknown predicate referenced in watch.when: " +:+ debug_str name
  | UnknownTriggerName name _ =>
      "trigger references unknown predicate: " +:+ debug_str name
  | PredicateCycle cycle => "predicate cycle: " +:+ debug_list cycle
  | ElapsedReferenceMissing name =>
      "elapsed_ms_since_true: referenced predicate " +:+ debug_str name +:+ " does not exist"
  | NegativeAbsoluteTarget x y =>
      "absolute target coordinates must be non-negative, got (" +:+ pretty x +:+ ", "
      +:+ pretty y +:+ ")"
  | BodyOnlyStepInWatch kind =>
      "step kind " +:+ debug_str kind +:+ " is not allowed inside watch.do (body-only)"
  | MalformedExpression reason raw =>
      "malformed expression: " +:+ reason +:+ ": " +:+ debug_str raw
  | ExpressionOnLogicalPredicate name =>
      "expression references non-match predicate " +:+ debug_str name
      +:+ " (logical predicates produce no match)"
  | EmptyLogicalOp op => op +:+ " requires at least one operand"
  | FullDisplayTemplateWithoutOptIn =>
      "template predicate uses full-display region without slow_budget=true (Decision 4.1)"
  | CanonicalizationFailed m => "canonicalization failed: " +:+ m
  end.

(* src: crates/vcli-dsl/src/error.rs 29-38 DslError::hint *)
Definition DslError_hint (e : DslError) : option string :=
  match kind e with
  | UnknownPredicateName _ hint | UnknownWatchName _ hint | UnknownTriggerName _ hint => hint
  | _ => None
  end.

(* src: crates/vcli-dsl/src/error.rs 40-52 DslError::to_payload *)
Definition to_payload (e : DslError) : ErrorPayload := {|
  ep_code := InvalidProgram;
  ep_message := DslErrorKind_to_string (kind e);
  ep_path := Some (path_to_string (path e));
  ep_line := None; ep_column := None; ep_span_len := None;
  ep_hint := DslError_hint e;
|}.

(* src: crates/vcli-core/src/canonical.rs 16-22 CanonicalError::fmt *)
Definition CanonicalError_to_string (e : CanonicalError) : string :=
  match e with CanonIo m => "io error: " +:+ m end.

(* src: crates/vcli-dsl/src/error.rs 55-62 DslError::from *)
Definition DslError_from_canonical (e : CanonicalError) : DslError :=
  {| kind := CanonicalizationFailed (CanonicalError_to_string e); path := root |}.

(** ** Did-you-mean *)

(* src: crates/vcli-dsl/src/hint.rs 28-39 distance_at_most_1 *)
Fixpoint hamming_at_most_1 {A} `{EqDecision A} (diff : nat) (l k : list A) : bool :=
  match l, k with
  | ca :: l, cb :: k =>
      if decide (ca = cb) then hamming_at_most_1 diff l k
      else if decide (1 < S diff) then false else hamming_at_most_1 (S diff) l k
  | _, _ => (diff <=? 1)%nat
  end.

(** The loop over [longer.chars()]; [si] is what is left of the peekable
    iterator over the shorter word. *)
(* src: crates/vcli-dsl/src/hint.rs 49-64 is_insertion *)
Fixpoint insertion_loop {A} `{EqDecision A} (si longer : list A) (found_gap : bool) : bool :=
  match longer with
  | [] => true
  | lc :: longer =>
      let gap := if found_gap then false else insertion_loop si longer true in
      match si with
      | sc :: si' => if decide (sc = lc) then insertion_loop si' longer found_gap else gap
      | [] => gap
      end
  end.

(* src: crates/vcli-dsl/src/hint.rs 45-65 is_insertion *)
Definition is_insertion {A} `{EqDecision A} (shorter longer : list A) : bool :=
  if decide (length longer ≠ length shorter + 1) then false
  else insertion_loop shorter longer false.

(* src: crates/vcli-dsl/src/hint.rs 24-43 distance_at_most_1 *)
Definition distance_at_most_1 (a b : string) : bool :=
  let ca := chars a in let cb := chars b in
  match Nat.compare (length ca) (length cb) with
  | Datatypes.Eq => hamming_at_most_1 0 ca cb
  | Datatypes.Lt => is_insertion ca cb
  | Datatypes.Gt => is_insertion cb ca
  end.

(* src: crates/vcli-dsl/src/hint.rs 4-22 did_you_mean *)
Fixpoint did_you_mean (needle : string) (candidates : list string) : option string :=
  match candidates with
  | [] => None
  | c :: cs =>
      if decide (c = needle) then None
      else if distance_at_most_1 needle c then Some c
      else did_you_mean needle cs
  end.

(** *** The reference: at most one edit

    The one-character edits of the Levenshtein distance. *)
Inductive one_edit {A} : list A → list A → Prop :=
  | edit_none l : one_edit l l
  | edit_subst p x y s : one_edit (p ++ x :: s) (p ++ y :: s)
  | edit_insert p x s : one_edit (p ++ s) (p ++ x :: s)
  | edit_delete p x s : one_edit (p ++ x :: s) (p ++ s).

Section edits.
  Context {A} `{EqDecision A}.
  Implicit Types l k s : list A.

Lemma hamming_refl d l : d ≤ 1 → hamming_at_most_1 d l l = true.
Proof.
  intros Hd. induction l as [|x l IH]; simpl; [by apply Nat.leb_le|].
  by rewrite decide_True.
Qed.

Lemma hamming_1_eq l k : length l = length k → hamming_at_most_1 1 l k = true → l = k.
Proof.
  revert k. induction l as [|x l IH]; intros [|y k]; simpl; try done.
  intros [= Hl]. case_decide; [subst; intros; f_equal; auto|done].
Qed.

Lemma hamming_spec l k :
  length l = length k →
  hamming_at_most_1 0 l k = true ↔
  l = k ∨ ∃ p x y s, l = p ++ x :: s ∧ k = p ++ y :: s.
Proof.
  intros Hl. split.
  - revert k Hl. induction l as [|x l IH]; intros [|y k]; simpl; try done; [by left|].
    intros [= Hl]. case_decide as Hxy.
    + subst. intros Hh. destruct (IH k Hl Hh) as [->|(p & x & z & s & -> & ->)]; [by left|].
      right. by exists (y :: p), x, z, s.
    + intros Hh. apply hamming_1_eq in Hh as ->; [|done]. right. by exists [], x, y, k.
  - intros [->|(p & x & y & s & -> & ->)]; [by apply hamming_refl; lia|].
    clear Hl. induction p as [|z p IH]; simpl; [|by rewrite decide_True].
    case_decide; [by apply hamming_refl; lia|by apply hamming_refl; lia].
Qed.

Lemma insertion_loop_true l k :
  length l = length k → insertion_loop l k true = true ↔ l = k.
Proof.
  revert k. induction l as [|x l IH]; intros [|y k]; simpl; try done.
  intros [= Hl]. case_decide; [subst; rewrite IH by done; naive_solver|naive_solver].
Qed.

Lemma insertion_loop_spec l k :
  length k = S (length l) →
  insertion_loop l k false = true ↔ ∃ p x s, l = p ++ s ∧ k = p ++ x :: s.
Proof.
  revert l. induction k as [|y k IH]; intros l; simpl; [done|]. intros [= Hl]. split.
  - destruct l as [|x l]; simpl in Hl.
    { intros _. exists [], y, []. by destruct k. }
    case_decide as Hxy.
    + subst. intros Hi. apply IH in Hi as (p & x & s & -> & ->); [|done].
      by exists (y :: p), x, s.
    + intros Hi. apply insertion_loop_true in Hi as <-; [|simpl; lia].
      by exists [], y, (x :: l).
  - intros (p & x & s & -> & Hk). destruct p as [|z p]; simpl in *; simplify_eq.
    + assert (insertion_loop s s true = true) as Hs by by apply insertion_loop_true.
      destruct s as [|z s]; [done|]. case_decide; [|done]. subst.
      apply IH; [done|]. by exists [], x, s.
    + rewrite decide_True by done. apply IH; [done|]. by exists p, x, s.
Qed.

Lemma is_insertion_spec l k :
  is_insertion l k = true ↔ ∃ p x s, l = p ++ s ∧ k = p ++ x :: s.
Proof.
  unfold is_insertion. case_decide as Hl.
  - split; [done|]. intros (p & x & s & -> & ->). destruct Hl. rewrite !length_app. simpl. lia.
  - apply insertion_loop_spec. lia.
Qed.
End edits.

Lemma distance_at_most_1_spec a b :
  distance_at_most_1 a b = true ↔ one_edit (chars a) (chars b).
Proof.
  unfold distance_at_most_1. split.
  - destruct (Nat.compare_spec (length (chars a)) (length (chars b))) as [Hl|Hl|Hl].
    + rewrite hamming_spec by done. intros [->|(p & x & y & s & -> & ->)]; constructor.
    + rewrite is_insertion_spec. intros (p & x & s & -> & ->). constructor.
    + rewrite is_insertion_spec. intros (p & x & s & -> & ->). constructor.
  - remember (chars a) as l. remember (chars b) as k. clear. intros He.
    destruct (Nat.compare_spec (length l) (length k)) as [Hl|Hl|Hl];
      destruct He as [l|p x y s|p x s|p x s]; rewrite ?length_app in Hl; simpl in Hl; try lia.
    + by apply hamming_spec; [|left].
    + apply hamming_spec; [rewrite !length_app; simpl; lia|right]. by repeat eexists.
    + apply is_insertion_spec. by repeat eexists.
    + apply is_insertion_spec. by repeat eexists.
Qed.

(** [did_you_mean] suggests [c] exactly when [c] is the first candidate at
    edit distance one from the misspelt name (one character substituted,
    inserted or deleted) and the name itself does not occur before it. *)
Theorem did_you_mean_spec needle cands c :
  did_you_mean needle cands = Some c ↔
  ∃ before after, cands = before ++ c :: after ∧ c ≠ needle ∧
    one_edit (chars needle) (chars c) ∧
    Forall (λ d, d ≠ needle ∧ ¬ one_edit (chars needle) (chars d)) before.
Proof.
  induction cands as [|d cands IH]; simpl.
  { split; [done|]. by intros ([] & ? & ? & _). }
  assert (∀ (Q : Prop), (Q ↔ ∃ before after, d :: cands = before ++ c :: after ∧ c ≠ needle ∧
    one_edit (chars needle) (chars c) ∧
    Forall (λ d, d ≠ needle ∧ ¬ one_edit (chars needle) (chars d)) before) ↔
    (Q ↔ (d = c ∧ c ≠ needle ∧ one_edit (chars needle) (chars c)) ∨
      (d ≠ needle ∧ ¬ one_edit (chars needle) (chars d) ∧
       did_you_mean needle cands = Some c))) as ->.
  { intros Q. rewrite IH. f_equiv. split.
    - intros ([|d' before] & after & Heq & Hc & He & Hb); simplify_eq/=; [by left|].
      apply Forall_cons in Hb as [[??] ?]. right. naive_solver.
    - intros [(-> & ? & ?)|(? & ? & before & after & -> & ? & ? & ?)].
      + exists [], cands. naive_solver.
      + exists (d :: before), after. split_and!; try done. by constructor. }
  pose proof (distance_at_most_1_spec needle d) as Hd.
  case_decide as Hdn; [subst; split; [done|naive_solver]|].
  destruct (distance_at_most_1 needle d).
  - assert (one_edit (chars needle) (chars d)) by by apply Hd. naive_solver.
  - assert (¬ one_edit (chars needle) (chars d)) by (rewrite <-Hd; done). naive_solver.
Qed.

Example did_you_mean_example :
  did_you_mean "skp_visible" ["other"; "skip_visible"] = Some "skip_visible".
Proof. reflexivity. Qed.
