(* ===== verification/DslExpr.v ===== *)
(** * Target expressions of vcli-dsl

    [expression.rs]: [$name.match.accessor], parsed segment by segment, and
    the proof that the parser accepts exactly the grammar of its header. *)

From S2P Require Import Prelude CoreTypes DslError.

(* src: crates/vcli-dsl/src/expression.rs 14-25 Accessor *)
Inductive Accessor := Center | TopLeft | Box | ConfidenceAcc.
(* src: crates/vcli-dsl/src/expression.rs 27-34 Expression *)
Record Expression := mkExpression { expr_name : string; accessor : Accessor }.

#[export] Instance Accessor_eq_dec : EqDecision Accessor.
Proof. solve_decision. Defined.
#[export] Instance Expression_eq_dec : EqDecision Expression.
Proof. solve_decision. Defined.

(** [char::is_ascii_alphabetic] and [is_ascii_alphanumeric]; a byte outside
    ASCII belongs to a non-ASCII character, which is neither. *)
Definition is_ascii_digit (a : ascii) : bool :=
  let n := Ascii.nat_of_ascii a in (48 <=? n)%nat && (n <=? 57)%nat.
Definition is_ascii_alphabetic (a : ascii) : bool :=
  let n := Ascii.nat_of_ascii a in
  ((65 <=? n)%nat && (n <=? 90)%nat) || ((97 <=? n)%nat && (n <=? 122)%nat).
Definition is_ascii_alphanumeric (a : ascii) : bool :=
  is_ascii_alphabetic a || is_ascii_digit a.

(* src: crates/vcli-dsl/src/expression.rs 94-101 is_valid_name *)
Definition is_valid_name (s : string) : bool :=
  match s with
  | String c rest =>
      (bool_decide (c = "_"%char) || is_ascii_alphabetic c) &&
      string_forallb (λ c, bool_decide (c = "_"%char) || is_ascii_alphanumeric c) rest
  | EmptyString => false
  end.

(* src: crates/vcli-dsl/src/expression.rs 84-92 err *)
Definition expr_err (reason raw : string) (at_ : JsonPath) : DslError :=
  {| kind := MalformedExpression reason raw; path := at_ |}.

(* src: crates/vcli-dsl/src/expression.rs 70-76 Expression::parse *)
Definition parse_accessor (acc : string) : option Accessor :=
  if decide (acc = "center") then Some Center
  else if decide (acc = "top_left") then Some TopLeft
  else if decide (acc = "box") then Some Box
  else if decide (acc = "confidence") then Some ConfidenceAcc
  else None.

(** [parts.next()] on the remaining segments. *)
Definition next (parts : list string) : option string * list string :=
  match parts with [] => (None, []) | p :: ps => (Some p, ps) end.

(* src: crates/vcli-dsl/src/expression.rs 36-81 Expression::parse *)
Definition Expression_parse (src : string) (at_ : JsonPath) : result DslError Expression :=
  rest ← ok_or (strip_prefix "$" src) (expr_err "expression must begin with '$'" src at_);
  let '(name, parts) := next (split_on "." rest) in
  name ← ok_or (n ← name; if string_is_empty n then None else Some n)
           (expr_err "missing predicate name after '$'" src at_);
  if negb (is_valid_name name) then
    Err (expr_err "predicate name must match [A-Za-z_][A-Za-z0-9_]*" src at_)
  else
  let '(match_kw, parts) := next parts in
  match_kw ← ok_or match_kw (expr_err "missing '.match'" src at_);
  if decide (match_kw ≠ "match") then
    Err (expr_err "expected '.match' after predicate name" src at_)
  else
  let '(acc, parts) := next parts in
  acc ← ok_or acc (expr_err "missing accessor" src at_);
  match parts with
  | _ :: _ => Err (expr_err "trailing segments after accessor" src at_)
  | [] =>
      accessor ← ok_or (parse_accessor acc) (expr_err "unknown accessor" src at_);
      Ok {| expr_name := name; accessor := accessor |}
  end.

(** ** Printing, the grammar read the other way *)

Definition accessor_to_string (a : Accessor) : string :=
  match a with
  | Center => "center" | TopLeft => "top_left" | Box => "box" | ConfidenceAcc => "confidence"
  end.

Definition expression_to_string (e : Expression) : string :=
  "$" +:+ expr_name e +:+ ".match." +:+ accessor_to_string (accessor e).

Lemma parse_accessor_Some s a : parse_accessor s = Some a ↔ s = accessor_to_string a.
Proof.
  unfold parse_accessor. repeat case_decide; subst; destruct a; simpl; naive_solver.
Qed.

Lemma valid_name_no_dot s : is_valid_name s = true → not_in_string "." s.
Proof.
  destruct s as [|c s]; simpl; [done|]. rewrite andb_true_iff. intros [Hc Hs].
  apply not_in_string_cons. split; [by intros ->|].
  induction s as [|d s IH]; [done|]. simpl in Hs. apply andb_true_iff in Hs as [Hd Hs].
  apply not_in_string_cons. split; [by intros ->|by apply IH].
Qed.

Lemma split_on_ne c s : split_on c s ≠ [].
Proof.
  destruct s as [|a s]; simpl; [done|]. case_decide; [done|].
  by destruct (split_on c s).
Qed.

(** [split] loses nothing: the pieces joined by the separator give the string
    back, and no piece has the separator. *)
Lemma split_on_cons c s p ps :
  split_on c s = p :: ps →
  not_in_string c p ∧
  ((ps = [] ∧ s = p) ∨ ∃ r, ps = split_on c r ∧ s = p +:+ String c r).
Proof.
  revert p ps. induction s as [|a s IH]; intros p ps; simpl.
  { intros [= <- <-]. split; [done|]. by left. }
  case_decide as Ha.
  { subst. intros [= <- <-]. split; [done|]. right. by exists s. }
  destruct (split_on c s) as [|w ws] eqn:Hs; [by apply split_on_ne in Hs|].
  intros [= <- <-]. destruct (IH w ws eq_refl) as [Hw [[-> ->]|(r & -> & ->)]];
    (split; [by apply not_in_string_cons|]).
  - by left.
  - right. by exists r.
Qed.

Lemma Expression_parse_Ok src at_ e :
  Expression_parse src at_ = Ok e ↔
  src = expression_to_string e ∧ is_valid_name (expr_name e) = true.
Proof.
  split.
  - unfold Expression_parse. rewrite bind_Ok. intros (rest & Hs & Hp).
    apply ok_or_Ok, strip_prefix_Some in Hs as ->.
    destruct (split_on "." rest) as [|name ps] eqn:H1; [by apply split_on_ne in H1|].
    apply split_on_cons in H1 as [_ H1]. simpl in Hp.
    apply bind_Ok in Hp as (name' & Hn & Hp). apply ok_or_Ok in Hn.
    simpl in Hn. destruct (string_is_empty name); simplify_eq.
    destruct (is_valid_name name') eqn:Hv; simpl in Hp; [|done].
    destruct H1 as [[-> ->]|(r1 & -> & ->)]; simpl in Hp; [done|].
    destruct (split_on "." r1) as [|m ps] eqn:H2; [by apply split_on_ne in H2|].
    apply split_on_cons in H2 as [_ H2]. simpl in Hp.
    case_decide as Hm; [done|subst m].
    destruct H2 as [[-> ->]|(r2 & -> & ->)]; simpl in Hp; [done|].
    destruct (split_on "." r2) as [|acc ps] eqn:H3; [by apply split_on_ne in H3|].
    apply split_on_cons in H3 as [_ H3]. simpl in Hp.
    destruct H3 as [[-> ->]|(r3 & -> & ->)];
      [|by destruct (split_on "." r3) eqn:Hr; [apply split_on_ne in Hr|]].
    apply bind_Ok in Hp as (a & Ha & [= <-]). apply ok_or_Ok, parse_accessor_Some in Ha as ->.
    by split.
  - destruct e as [name a]. simpl. intros [-> Hv].
    assert (split_on "." (name +:+ ".match." +:+ accessor_to_string a)
      = [name; "match"; accessor_to_string a]) as Hsplit.
    { change (".match." +:+ accessor_to_string a)
        with (String "." ("match" +:+ String "." (accessor_to_string a))).
      rewrite split_on_app by by apply valid_name_no_dot.
      rewrite split_on_app by done. by destruct a. }
    unfold Expression_parse.
    rewrite (proj2 (strip_prefix_Some "$" (expression_to_string (mkExpression name a)) (name +:+ ".match." +:+ accessor_to_string a)) eq_refl).
    simpl. rewrite Hsplit. simpl.
    assert (string_is_empty name = false) as -> by by destruct name.
    simpl. rewrite Hv. simpl.
    by rewrite (proj2 (parse_accessor_Some _ a) eq_refl).
Qed.

(** C39: [Expression::parse] accepts exactly the strings
    [$Name.match.Accessor] whose name is [[A-Za-z_][A-Za-z0-9_]*] and whose
    accessor is one of the four of the grammar, and returns their parts. *)
Theorem Expression_parse_iff src at_ e :
  Expression_parse src at_ = Ok e ↔
  src = expression_to_string e ∧ is_valid_name (expr_name e) = true.
Proof. apply Expression_parse_Ok. Qed.

Example parse_center :
  Expression_parse "$skip.match.center" root = Ok (mkExpression "skip" Center).
Proof. reflexivity. Qed.
Example parse_trailing :
  is_ok (Expression_parse "$skip.match.center.x" root) = false.
Proof. reflexivity. Qed.
