(* ===== verification/DslPredicates.v ===== *)
(** * Validation of the predicate map

    [predicates.rs] of vcli-dsl: the reference and shape checks, and the
    iterative depth-first search that rejects cyclic dependencies. *)

From S2P Require Import Prelude CoreTypes DslError.

(** ** References and shape *)

(* src: crates/vcli-dsl/src/predicates.rs 87-99 resolve_name *)
Definition resolve_name (name : string) (names : list string) (at_ : JsonPath)
    : result DslError () :=
  if decide (name ∈ names) then Ok ()
  else
    let hint := did_you_mean name names in
    Err {| kind := UnknownPredicateName name hint; path := at_ |}.

(* src: crates/vcli-dsl/src/predicates.rs 101-111 resolve_elapsed *)
Definition resolve_elapsed (name : string) (names : list string) (at_ : JsonPath)
    : result DslError () :=
  if decide (name ∈ names) then Ok ()
  else Err {| kind := ElapsedReferenceMissing name; path := at_ |}.

(* src: crates/vcli-dsl/src/predicates.rs 75-85 check_region_references *)
Definition check_region_references (region : Region) (names : list string) (at_ : JsonPath)
    : result DslError () :=
  match region with
  | RelativeTo predicate _ _ _ => resolve_name predicate names (key at_ "predicate")
  | _ => Ok ()
  end.

(* src: crates/vcli-dsl/src/predicates.rs 39-60 check_predicate_references *)
Definition check_operands (op : string) (operands names : list string) (at_ : JsonPath)
    : result DslError () :=
  match operands with
  | [] => Err {| kind := EmptyLogicalOp op; path := key at_ "of" |}
  | _ => for_each_i (λ i n, resolve_name n names (index (key at_ "of") i)) 0 operands
  end.

(* src: crates/vcli-dsl/src/predicates.rs 33-73 check_predicate_references *)
Definition check_predicate_references (pred : PredicateKind) (names : list string)
    (at_ : JsonPath) : result DslError () :=
  match pred with
  | AllOf operands => check_operands "all_of" operands names at_
  | AnyOf operands => check_operands "any_of" operands names at_
  | NotP operand => resolve_name operand names (key at_ "of")
  | ElapsedMsSinceTrue predicate _ => resolve_elapsed predicate names (key at_ "predicate")
  | Template _ _ region _ | PixelDiff region _ _ =>
      check_region_references region names (key at_ "region")
  | ColorAt _ _ _ => Ok ()
  end.

(* src: crates/vcli-dsl/src/predicates.rs 13-31 validate_predicate_shape *)
Definition validate_predicate_shape (predicates : Predicates) : result DslError () :=
  let names := btree_keys predicates in
  for_each (λ '(name, pred),
    check_predicate_references pred names (key (key root "predicates") name))
    (btree_entries predicates).

(** ** Cycle detection *)

(* src: crates/vcli-dsl/src/predicates.rs 113-119 Color *)
Inductive Color := White | Gray | Black.
#[export] Instance Color_eq_dec : EqDecision Color.
Proof. solve_decision. Defined.

(* src: crates/vcli-dsl/src/predicates.rs 197-213 edges_of *)
Definition edges_of (p : PredicateKind) : list string :=
  match p with
  | AllOf operands | AnyOf operands => operands
  | NotP operand => [operand]
  | ElapsedMsSinceTrue predicate _ => [predicate]
  | Template _ _ region _ | PixelDiff region _ _ =>
      match region with RelativeTo predicate _ _ _ => [predicate] | _ => [] end
  | ColorAt _ _ _ => []
  end.

(** The locals of the search: the colours, the stack of nodes with the rest of
    their edge iterators (top first), and the path that mirrors it. *)
(* src: crates/vcli-dsl/src/predicates.rs 149-155 validate_predicate_graph *)
Record Dfs := mkDfs {
  color : gmap string Color;
  stack : list (string * list string);
  dfs_path : list string;
}.

(* src: crates/vcli-dsl/src/predicates.rs 173-183 validate_predicate_graph *)
Definition cycle_error (path : list string) (next : string) : DslError :=
  let start_idx := from_option fst 0 (list_find (λ s, s = next) path) in
  {| kind := PredicateCycle (drop start_idx path ++ [next]);
     path := key root "predicates" |}.

Section dfs.
  Variable predicates : Predicates.

(** The [while] loop; indexing a map panics on a missing key. *)
(* src: crates/vcli-dsl/src/predicates.rs 157-192 validate_predicate_graph *)
Fixpoint dfs_loop (fuel : nat) (d : Dfs) : outcome (result DslError (gmap string Color)) :=
  match fuel with
  | 0 => OutOfFuel
  | S fuel =>
      match stack d with
      | [] => Ret (Ok (color d))
      | (cur, next :: iter) :: rest =>
          let stack := (cur, iter) :: rest in
          if decide (next ∈ btree_keys predicates) then
            match color d !! next, predicates !! next with
            | Some White, Some p =>
                dfs_loop fuel {|
                  color := <[next := Gray]> (color d);
                  stack := (next, edges_of p) :: stack;
                  dfs_path := dfs_path d ++ [next] |}
            | Some Gray, _ => Ret (Err (cycle_error (dfs_path d) next))
            | Some Black, _ =>
                dfs_loop fuel {| color := color d; stack := stack; dfs_path := dfs_path d |}
            | _, _ => Panic
            end
          else dfs_loop fuel {| color := color d; stack := stack; dfs_path := dfs_path d |}
      | (cur, []) :: rest =>
          dfs_loop fuel {|
            color := <[cur := Black]> (color d);
            stack := rest;
            dfs_path := removelast (dfs_path d) |}
      end
  end.

(** The [for] loop over the start nodes. *)
(* src: crates/vcli-dsl/src/predicates.rs 145-194 validate_predicate_graph *)
Fixpoint dfs_starts (fuel : nat) (starts : list string) (color : gmap string Color)
    : outcome (result DslError ()) :=
  match starts with
  | [] => Ret (Ok ())
  | start :: starts =>
      match color !! start, predicates !! start with
      | Some White, Some p =>
          r ← dfs_loop fuel {|
            color := <[start := Gray]> color;
            stack := [(start, edges_of p)];
            dfs_path := [start] |};
          match r with
          | Ok color => dfs_starts fuel starts color
          | Err e => Ret (Err e)
          end
      | Some _, Some _ => dfs_starts fuel starts color
      | _, _ => Panic
      end
  end.

(** One step per edge and one per node. *)
Definition node_weight (k : string) : nat :=
  from_option (λ p, S (length (edges_of p))) 0 (predicates !! k).
Definition dfs_fuel : nat := S (sum_list_with node_weight (btree_keys predicates)).

(* src: crates/vcli-dsl/src/predicates.rs 121-195 validate_predicate_graph *)
Definition validate_predicate_graph : outcome (result DslError ()) :=
  match validate_predicate_shape predicates with
  | Err e => Ret (Err e)
  | Ok _ =>
      let color := (λ _, White) <$> predicates in
      dfs_starts dfs_fuel (btree_keys predicates) color
  end.

(** ** Specification *)

(** The merged dependency graph over the defined names. *)
Definition edge (x y : string) : Prop :=
  ∃ p, predicates !! x = Some p ∧ y ∈ edges_of p ∧ is_Some (predicates !! y).

Definition acyclic : Prop := ∀ x, ¬ tc edge x x.

(** A path along edges. *)
Fixpoint walk (l : list string) : Prop :=
  match l with
  | x :: ((y :: _) as l') => edge x y ∧ walk l'
  | _ => True
  end.

Lemma walk_snoc l x y : walk (l ++ [x]) → edge x y → walk (l ++ [x; y]).
Proof.
  induction l as [|a l IH]; simpl; [tauto|]. destruct l as [|b l]; simpl in *; tauto.
Qed.

Lemma walk_drop i l : walk l → walk (drop i l).
Proof.
  revert l. induction i as [|i IH]; intros l Hl; [done|].
  destruct l as [|x l]; [done|]. simpl. apply IH. destruct l; [done|]. by destruct Hl.
Qed.

Lemma walk_tc x l y : walk (x :: l ++ [y]) → tc edge x y.
Proof.
  revert x. induction l as [|z l IH]; intros x; simpl.
  - intros [? _]. by apply tc_once.
  - intros [??]. apply (tc_l _ _ z); [done|]. by apply IH.
Qed.

(** What a reported cycle is: a walk that returns to its first node. *)
Definition genuine_cycle (c : list string) : Prop :=
  ∃ x l, c = x :: l ++ [x] ∧ walk c.

Lemma genuine_cycle_tc c : genuine_cycle c → ¬ acyclic.
Proof. intros (x & l & -> & Hw) Ha. apply (Ha x). by eapply walk_tc. Qed.

(** ** The invariant of the search *)

Implicit Types col : gmap string Color.
Implicit Types st : list (string * list string).

(** Each stacked node has seen a prefix of its edges, and all the defined
    targets seen are black, but for the one being explored above it. *)
Fixpoint stack_ok col (above : option string) st : Prop :=
  match st with
  | [] => True
  | (x, iter) :: st =>
      (∃ p seen, predicates !! x = Some p ∧ edges_of p = seen ++ iter ∧
        ∀ y, y ∈ seen → is_Some (predicates !! y) →
          col !! y = Some Black ∨ above = Some y) ∧
      (∀ y, above = Some y → edge x y) ∧
      stack_ok col (Some x) st
  end.

Record dfs_inv (d : Dfs) : Prop := {
  inv_dom : ∀ x, is_Some (color d !! x) ↔ is_Some (predicates !! x);
  inv_path : dfs_path d = rev (stack d).*1;
  inv_nodup : NoDup (stack d).*1;
  inv_gray : ∀ x, color d !! x = Some Gray ↔ x ∈ (stack d).*1;
  inv_stack : stack_ok (color d) None (stack d);
  inv_closed : ∀ x y, color d !! x = Some Black → edge x y → color d !! y = Some Black;
  inv_black : ∀ x, color d !! x = Some Black → ¬ tc edge x x;
}.

Lemma stack_ok_mono col col' above st :
  (∀ y, col !! y = Some Black → col' !! y = Some Black) →
  stack_ok col above st → stack_ok col' above st.
Proof.
  intros Hc. revert above. induction st as [|[x it] st IH]; intros above; simpl; [done|].
  intros ((p & seen & ? & ? & Hseen) & ? & ?). split_and!; [|done|by apply IH].
  exists p, seen. split_and!; [done..|]. intros y ??. destruct (Hseen y); auto.
Qed.

(** Once the node above is finished, no edge below needs an excuse. *)
Lemma stack_ok_finish col x st :
  col !! x = Some Black → stack_ok col (Some x) st → stack_ok col None st.
Proof.
  destruct st as [|[z it] st]; [done|]. simpl.
  intros Hx ((p & seen & ? & ? & Hseen) & He & ?). split_and!; [|done|done].
  exists p, seen. split_and!; [done..|]. intros y ??. left.
  by destruct (Hseen y) as [?|[= ->]].
Qed.

Lemma stack_ok_walk col above st :
  stack_ok col above st → walk (rev st.*1 ++ option_list above).
Proof.
  revert above. induction st as [|[x it] st IH]; intros above; simpl; [by destruct above|].
  intros (_ & Ha & Hs). rewrite <-app_assoc. apply IH in Hs. destruct above as [y|]; [|done].
  simpl in *. by apply walk_snoc; [|apply Ha].
Qed.

Lemma black_cycle_free col x :
  (∀ x y, col !! x = Some Black → edge x y → col !! y = Some Black) →
  (∀ x, col !! x = Some Black → ¬ tc edge x x) →
  col !! x = Some Gray → (∀ y, edge x y → col !! y = Some Black) →
  ∀ y, <[x := Black]> col !! y = Some Black → ¬ tc edge y y.
Proof.
  intros Hcl Hb Hx Hsucc.
  assert (∀ a b, tc edge a b → col !! a = Some Black → col !! b = Some Black) as Hcl'.
  { induction 1; naive_solver. }
  intros y Hy. destruct (decide (y = x)) as [->|Hyx].
  - intros Hc. assert (col !! x = Some Black); [|congruence].
    inversion Hc as [? ? He|? z ? He Ht]; subst; [by apply Hsucc|].
    apply (Hcl' z); [done|]. by apply Hsucc.
  - rewrite lookup_insert_ne in Hy by done. by apply Hb.
Qed.

(** *** The steps of the loop preserve the invariant *)

Lemma dfs_inv_skip d cur next iter rest :
  dfs_inv d → stack d = (cur, next :: iter) :: rest →
  (is_Some (predicates !! next) → color d !! next = Some Black) →
  dfs_inv {| color := color d; stack := (cur, iter) :: rest; dfs_path := dfs_path d |}.
Proof.
  intros [Hd Hp Hn Hg Hs Hc Hb] Hst Hnext. split; simpl; rewrite Hst in *; simpl in *; try done.
  destruct Hs as ((p & seen & Hpr & He & Hseen) & ? & ?). split_and!; [|done|done].
  exists p, (seen ++ [next]). split_and!; [done|by rewrite He, <-app_assoc|].
  intros y [Hy| ->%list_elem_of_singleton]%elem_of_app Hsome; [|by left; apply Hnext].
  by apply Hseen.
Qed.

Lemma dfs_inv_push d cur next iter rest p :
  dfs_inv d → stack d = (cur, next :: iter) :: rest →
  color d !! next = Some White → predicates !! next = Some p →
  dfs_inv {| color := <[next := Gray]> (color d);
             stack := (next, edges_of p) :: (cur, iter) :: rest;
             dfs_path := dfs_path d ++ [next] |}.
Proof.
  intros [Hd Hp Hn Hg Hs Hc Hb] Hst Hw Hpn. rewrite Hst in *; simpl in *.
  assert (∀ y, color d !! y = Some Black → <[next:=Gray]> (color d) !! y = Some Black) as Hmono.
  { intros y Hy. rewrite lookup_insert_ne; [done|congruence]. }
  assert (∀ y, <[next:=Gray]> (color d) !! y = Some Black → color d !! y = Some Black) as Hmono'.
  { intros y. destruct (decide (y = next)) as [->|];
      [by rewrite lookup_insert_eq|by rewrite lookup_insert_ne]. }
  destruct Hs as ((q & seen & Hpr & He & Hseen) & Hab & Hs).
  split; simpl.
  - intros x. rewrite lookup_insert_is_Some, <-Hd. split; [|by destruct (decide (next = x)); auto].
    intros [<-|[_ ?]]; [by rewrite Hd|done].
  - by rewrite Hp.
  - apply NoDup_cons. split; [|done]. rewrite <-Hg. congruence.
  - intros x. rewrite elem_of_cons, <-Hg. destruct (decide (x = next)) as [->|].
    + rewrite lookup_insert_eq. naive_solver.
    + rewrite lookup_insert_ne by done. naive_solver.
  - split_and!.
    + exists p, []. split_and!; [done..|]. intros y Hy. by apply not_elem_of_nil in Hy.
    + done.
    + exists q, (seen ++ [next]). split_and!; [done|by rewrite He, <-app_assoc|].
      intros y [Hy| ->%list_elem_of_singleton]%elem_of_app Hsome; [|by right].
      destruct (Hseen y Hy Hsome); [left; auto|done].
    + intros y [= <-]. exists q. rewrite He. split_and!; [done| |by eexists].
      apply elem_of_app. right. by left.
    + by eapply stack_ok_mono.
  - intros x y Hx Hxy. eauto.
  - eauto.
Qed.

Lemma dfs_inv_pop d cur rest :
  dfs_inv d → stack d = (cur, []) :: rest →
  dfs_inv {| color := <[cur := Black]> (color d); stack := rest;
             dfs_path := removelast (dfs_path d) |}.
Proof.
  intros [Hd Hp Hn Hg Hs Hc Hb] Hst. rewrite Hst in *; simpl in *.
  apply NoDup_cons in Hn as [Hcur Hn].
  assert (color d !! cur = Some Gray) as Hgray by (apply Hg; by left).
  assert (∀ y, color d !! y = Some Black → <[cur:=Black]> (color d) !! y = Some Black) as Hmono.
  { intros y Hy. destruct (decide (y = cur)) as [->|];
      [by rewrite lookup_insert_eq|by rewrite lookup_insert_ne]. }
  destruct Hs as ((p & seen & Hpr & He & Hseen) & _ & Hs).
  assert (∀ y, edge cur y → color d !! y = Some Black) as Hsucc.
  { intros y (p' & ? & Hy & ?). simplify_eq. rewrite He, app_nil_r in Hy.
    by destruct (Hseen y). }
  split; simpl.
  - intros x. rewrite lookup_insert_is_Some, <-Hd. split; [|by destruct (decide (cur = x)); auto].
    intros [<-|[_ ?]]; [by rewrite Hgray|done].
  - rewrite Hp. apply removelast_last.
  - done.
  - intros x. destruct (decide (x = cur)) as [->|].
    + rewrite lookup_insert_eq. split; [done|]. intros ?. done.
    + rewrite lookup_insert_ne by done. rewrite Hg, elem_of_cons. naive_solver.
  - apply (stack_ok_finish _ cur); [by rewrite lookup_insert_eq|]. by eapply stack_ok_mono.
  - intros x y. destruct (decide (x = cur)) as [->|].
    + intros _ ?. auto.
    + rewrite lookup_insert_ne by done. eauto.
  - by apply (black_cycle_free (color d) cur).
Qed.

Lemma dfs_gray_cycle d cur next iter rest :
  dfs_inv d → stack d = (cur, next :: iter) :: rest → color d !! next = Some Gray →
  ∃ c, kind (cycle_error (dfs_path d) next) = PredicateCycle c ∧ genuine_cycle c.
Proof.
  intros [Hd Hp Hn Hg Hs Hc Hb] Hst Hgr. unfold cycle_error; simpl.
  eexists. split; [done|]. rewrite Hp.
  assert (next ∈ rev (stack d).*1) as Hin.
  { apply list_elem_of_In. apply (proj1 (in_rev _ _)). by apply list_elem_of_In, Hg. }
  destruct (list_find (λ s, s = next) (rev (stack d).*1)) as [[i x]|] eqn:Hf.
  2: { apply list_find_None in Hf. rewrite Forall_forall in Hf. by destruct (Hf next Hin). }
  apply list_find_Some in Hf as (Hi & -> & _). simpl.
  assert (edge cur next) as Hedge.
  { rewrite Hst in Hs. destruct Hs as ((q & seen & Hpr & He & _) & _).
    exists q. rewrite He. split_and!; [done|apply elem_of_app; right; by left|].
    rewrite <-Hd, Hgr. by eexists. }
  assert (walk (rev (stack d).*1 ++ [next])) as Hw.
  { pose proof (stack_ok_walk _ _ _ Hs) as Hw. rewrite Hst in *. simpl in *.
    rewrite <-app_assoc in *. simpl. rewrite app_nil_r in Hw. by apply walk_snoc. }
  apply (walk_drop i) in Hw. pose proof (lookup_lt_Some _ _ _ Hi).
  rewrite drop_app_le in Hw by lia. pose proof (drop_S _ _ _ Hi) as Hdr. rewrite Hdr in Hw |- *.
  eexists next, _. split; [done|]. done.
Qed.

(** *** Fuel *)

Definition white_weight col (l : list string) : nat :=
  sum_list_with (λ k, if decide (col !! k = Some White) then node_weight k else 0) l.
Definition stack_weight st : nat := sum_list_with (λ e, S (length e.2)) st.
Definition dfs_measure (d : Dfs) : nat :=
  white_weight (color d) (btree_keys predicates) + stack_weight (stack d).

Lemma white_weight_ne col x c l :
  x ∉ l → white_weight (<[x := c]> col) l = white_weight col l.
Proof.
  induction l as [|k l IH]; simpl; [done|]. rewrite not_elem_of_cons. intros [? ?].
  unfold white_weight in *. simpl. by rewrite lookup_insert_ne, IH.
Qed.

Lemma white_weight_insert col x c l :
  NoDup l → x ∈ l → c ≠ White →
  white_weight (<[x := c]> col) l
  + (if decide (col !! x = Some White) then node_weight x else 0) = white_weight col l.
Proof.
  intros Hnd Hx Hc. induction Hnd as [|k l Hk Hnd IH]; [by apply not_elem_of_nil in Hx|].
  assert (∀ col, white_weight col (k :: l)
    = (if decide (col !! k = Some White) then node_weight k else 0) + white_weight col l)
    as Hcons by done.
  rewrite !Hcons. apply elem_of_cons in Hx as [->|Hx].
  - rewrite lookup_insert_eq, white_weight_ne by done.
    rewrite (decide_False (P := Some c = Some White)) by congruence. lia.
  - rewrite lookup_insert_ne by (intros ->; done). specialize (IH Hx). lia.
Qed.

Lemma node_weight_Some x p : predicates !! x = Some p → node_weight x = S (length (edges_of p)).
Proof. unfold node_weight. by intros ->. Qed.

(** The loop ends with every edge explored, or at a genuine cycle. *)
Lemma dfs_loop_spec fuel d :
  dfs_inv d → dfs_measure d < fuel →
  (∃ col, dfs_loop fuel d = Ret (Ok col) ∧
     dfs_inv {| color := col; stack := []; dfs_path := [] |} ∧
     ∀ x, color d !! x ≠ Some White → col !! x ≠ Some White) ∨
  (∃ e c, dfs_loop fuel d = Ret (Err e) ∧ kind e = PredicateCycle c ∧ genuine_cycle c).
Proof.
  revert d. induction fuel as [|fuel IH]; intros d Hinv Hm; [lia|]. simpl.
  destruct (stack d) as [|[cur [|next iter]] rest] eqn:Hst.
  - left. eexists. split; [done|]. split; [|done]. pose proof (inv_path _ Hinv) as Hp.
    rewrite Hst in Hp. destruct d; simpl in *. by subst.
  - assert (color d !! cur = Some Gray) as Hgr.
    { apply (inv_gray _ Hinv). rewrite Hst. by left. }
    assert (cur ∈ btree_keys predicates) as Hk.
    { apply elem_of_btree_keys, (inv_dom _ Hinv). by rewrite Hgr. }
    destruct (IH _ (dfs_inv_pop _ _ _ Hinv Hst)) as [(col & He & Hi & Hw)|?]; [|left|by right].
    + unfold dfs_measure in *. rewrite Hst in Hm. simpl in *.
      pose proof (white_weight_insert (color d) cur Black _
        (NoDup_btree_keys predicates) Hk ltac:(done)). lia.
    + exists col. split_and!; [done..|]. intros x Hx. apply Hw. simpl.
      destruct (decide (x = cur)) as [->|];
        [by rewrite lookup_insert_eq|by rewrite lookup_insert_ne].
  - case_decide as Hk; rewrite elem_of_btree_keys in Hk.
    + destruct Hk as [p Hp]. destruct (color d !! next) as [c|] eqn:Hc.
      2: { exfalso. assert (is_Some (color d !! next)) as [? ?]; [|congruence].
           apply (inv_dom _ Hinv). by rewrite Hp. }
      rewrite Hp. destruct c.
      * destruct (IH _ (dfs_inv_push _ _ _ _ _ _ Hinv Hst Hc Hp)) as [(col & He & Hi & Hw)|?];
          [|left|by right].
        { unfold dfs_measure in *. rewrite Hst in Hm. simpl in *.
          assert (next ∈ btree_keys predicates) as Hin.
          { apply elem_of_btree_keys. by rewrite Hp. }
          pose proof (white_weight_insert (color d) next Gray _
            (NoDup_btree_keys predicates) Hin ltac:(done)) as Hww.
          rewrite decide_True in Hww by done. rewrite (node_weight_Some _ _ Hp) in Hww. lia. }
        exists col. split_and!; [done..|]. intros x Hx. apply Hw. simpl.
        destruct (decide (x = next)) as [->|];
          [by rewrite lookup_insert_eq|by rewrite lookup_insert_ne].
      * right. destruct (dfs_gray_cycle _ _ _ _ _ Hinv Hst Hc) as (c & ? & ?). eauto 6.
      * apply (IH _ (dfs_inv_skip _ _ _ _ _ Hinv Hst (λ _, Hc))).
        unfold dfs_measure in *. rewrite Hst in Hm. simpl in *. lia.
    + apply (IH _ (dfs_inv_skip _ _ _ _ _ Hinv Hst (λ H, False_ind _ (Hk H)))).
      unfold dfs_measure in *. rewrite Hst in Hm. simpl in *. lia.
Qed.

(** *** The outer loop *)

Lemma white_weight_all l : white_weight ((λ _, White) <$> predicates) l
  ≤ sum_list_with node_weight l.
Proof. unfold white_weight. induction l as [|k l IH]; simpl; [done|]. case_decide; lia. Qed.

Lemma white_weight_le col l : white_weight col l ≤ sum_list_with node_weight l.
Proof. unfold white_weight. induction l as [|k l IH]; simpl; [done|]. case_decide; lia. Qed.

Definition empty_dfs col : Dfs := {| color := col; stack := []; dfs_path := [] |}.

Lemma dfs_inv_start col x p :
  dfs_inv (empty_dfs col) → col !! x = Some White → predicates !! x = Some p →
  dfs_inv {| color := <[x := Gray]> col; stack := [(x, edges_of p)]; dfs_path := [x] |} ∧
  dfs_measure {| color := <[x := Gray]> col; stack := [(x, edges_of p)]; dfs_path := [x] |}
    < dfs_fuel.
Proof.
  intros [Hd _ _ Hg _ Hc Hb] Hw Hp. simpl in *. split.
  - split; simpl.
    + intros y. rewrite lookup_insert_is_Some, <-Hd.
      split; [|by destruct (decide (x = y)); auto]. intros [<-|[_ ?]]; [by rewrite Hw|done].
    + done.
    + apply NoDup_singleton.
    + intros y. rewrite list_elem_of_singleton. destruct (decide (y = x)) as [->|].
      * by rewrite lookup_insert_eq.
      * rewrite lookup_insert_ne by done. rewrite Hg, elem_of_nil. naive_solver.
    + split_and!; [|done|done]. exists p, []. split_and!; [done..|].
      intros y Hy. by apply not_elem_of_nil in Hy.
    + intros y z. destruct (decide (y = x)) as [->|]; [by rewrite lookup_insert_eq|].
      rewrite lookup_insert_ne by done. intros Hy Hyz.
      destruct (decide (z = x)) as [->|]; [|rewrite lookup_insert_ne by done; by eapply Hc].
      pose proof (Hc _ _ Hy Hyz). congruence.
    + intros y. destruct (decide (y = x)) as [->|]; [by rewrite lookup_insert_eq|].
      rewrite lookup_insert_ne by done. auto.
  - assert (x ∈ btree_keys predicates) as Hin.
    { apply elem_of_btree_keys. by rewrite Hp. }
    pose proof (white_weight_insert col x Gray _ (NoDup_btree_keys predicates) Hin ltac:(done)) as Hww.
    rewrite decide_True in Hww by done. rewrite (node_weight_Some _ _ Hp) in Hww.
    pose proof (white_weight_le col (btree_keys predicates)).
    unfold dfs_measure, dfs_fuel; simpl. lia.
Qed.

Lemma dfs_starts_spec starts col :
  dfs_inv (empty_dfs col) → (∀ x, x ∈ starts → is_Some (predicates !! x)) →
  (dfs_starts dfs_fuel starts col = Ret (Ok ()) ∧
     (∀ x, x ∈ starts → ¬ tc edge x x)) ∨
  (∃ e c, dfs_starts dfs_fuel starts col = Ret (Err e) ∧
     kind e = PredicateCycle c ∧ genuine_cycle c).
Proof.
  revert col. induction starts as [|x starts IH]; intros col Hinv Hs; cbn [dfs_starts].
  { left. split; [done|]. intros x Hx. by apply not_elem_of_nil in Hx. }
  assert (is_Some (predicates !! x)) as [p Hp] by (apply Hs; by left).
  assert (is_Some (col !! x)) as [c Hc] by (apply (inv_dom _ Hinv); by rewrite Hp).
  assert (∀ col', dfs_inv (empty_dfs col') → col' !! x ≠ Some White → ¬ tc edge x x) as Hdone.
  { intros col' Hi Hw. apply (inv_black _ Hi). simpl.
    destruct (proj2 (inv_dom _ Hi x) (ltac:(by rewrite Hp))) as [c' Hc']. simpl in *.
    pose proof (proj1 (inv_gray _ Hi x)) as Hg. simpl in Hg.
    destruct c'; [done| |done]. apply Hg, elem_of_nil in Hc'. done. }
  assert (∀ y, y ∈ starts → is_Some (predicates !! y)) as Hs' by (intros; apply Hs; by right).
  rewrite Hc, Hp. destruct (decide (c = White)) as [->|Hcw]; cbv iota.
  - destruct (dfs_inv_start _ _ _ Hinv Hc Hp) as [Hi Hm].
    destruct (dfs_loop_spec _ _ Hi Hm) as [(col' & -> & Hi' & Hw)|(e & cy & -> & ? & ?)];
      [|right; by exists e, cy].
    simpl. destruct (IH col' Hi' Hs') as [[-> Hall]|?]; [left|by right].
    split; [done|]. intros y [->|Hy]%elem_of_cons; [|by apply Hall].
    apply (Hdone col' Hi'), Hw. simpl. by rewrite lookup_insert_eq.
  - destruct (IH col Hinv Hs') as [[Hok Hall]|(e & cy & He & ?)].
    + left. split; [by destruct c|]. intros y [->|Hy]%elem_of_cons; [|by apply Hall].
      apply (Hdone col Hinv). congruence.
    + right. exists e, cy. by destruct c.
Qed.

Lemma dfs_inv_init : dfs_inv (empty_dfs ((λ _, White) <$> predicates)).
Proof.
  assert (∀ x c, ((λ _, White) <$> predicates) !! x = Some c → c = White) as Hwh.
  { intros x c. rewrite lookup_fmap. intros Hx. by destruct (predicates !! x); simplify_eq/=. }
  split; simpl.
  - intros x. by rewrite lookup_fmap, fmap_is_Some.
  - done.
  - constructor.
  - intros x. rewrite elem_of_nil. split; [|done]. intros Hx. by apply Hwh in Hx.
  - done.
  - intros x y Hx. by apply Hwh in Hx.
  - intros x Hx. by apply Hwh in Hx.
Qed.

(** A node on a cycle is defined. *)
Lemma tc_edge_defined x y : tc edge x y → is_Some (predicates !! x).
Proof. by destruct 1 as [? ? (p & -> & _)|? ? ? (p & -> & _)]. Qed.

(** The whole validation: shape first, then the search, which always ends. *)
Lemma validate_predicate_graph_spec :
  match validate_predicate_shape predicates with
  | Err e => validate_predicate_graph = Ret (Err e)
  | Ok _ =>
      validate_predicate_graph = Ret (Ok ()) ∧ acyclic ∨
      ∃ e c, validate_predicate_graph = Ret (Err e) ∧ kind e = PredicateCycle c ∧
        genuine_cycle c
  end.
Proof.
  unfold validate_predicate_graph. destruct (validate_predicate_shape predicates); [|done].
  destruct (dfs_starts_spec (btree_keys predicates) _ dfs_inv_init) as [[-> Hall]|?];
    [by intros x; apply elem_of_btree_keys| |by right].
  left. split; [done|]. intros x Hx. apply (Hall x); [|done].
  apply elem_of_btree_keys. by eapply tc_edge_defined.
Qed.

(** *** Shape *)

Lemma resolve_name_Ok n names at_ : resolve_name n names at_ = Ok () ↔ n ∈ names.
Proof. unfold resolve_name. case_decide; naive_solver. Qed.
Lemma resolve_elapsed_Ok n names at_ : resolve_elapsed n names at_ = Ok () ↔ n ∈ names.
Proof. unfold resolve_elapsed. case_decide; naive_solver. Qed.

(** The shape conditions of a predicate: every name it mentions is defined and
    a logical operator has an operand. *)
Definition shape_ok (p : PredicateKind) : Prop :=
  (∀ n, n ∈ edges_of p → is_Some (predicates !! n)) ∧
  match p with AllOf operands | AnyOf operands => operands ≠ [] | _ => True end.

Lemma check_operands_Ok op l names at_ :
  check_operands op l names at_ = Ok () ↔ l ≠ [] ∧ Forall (λ n, n ∈ names) l.
Proof.
  unfold check_operands. destruct l as [|x l]; [naive_solver|].
  rewrite (for_each_i_Forall _ (λ n, n ∈ names)); [naive_solver|].
  intros. apply resolve_name_Ok.
Qed.

Lemma check_predicate_references_Ok p at_ :
  check_predicate_references p (btree_keys predicates) at_ = Ok () ↔ shape_ok p.
Proof.
  assert (∀ n, n ∈ btree_keys predicates ↔ is_Some (predicates !! n)) as Hk.
  { intros. apply elem_of_btree_keys. }
  unfold shape_ok, check_predicate_references, check_region_references.
  destruct p as [? ? [] ?| |[] ? ?|l|l|n|n ?]; simpl;
    rewrite ?check_operands_Ok, ?resolve_name_Ok, ?resolve_elapsed_Ok, ?Hk, ?Forall_forall;
    try setoid_rewrite Hk; try setoid_rewrite list_elem_of_singleton;
    try setoid_rewrite elem_of_nil; naive_solver.
Qed.

Lemma validate_predicate_shape_Ok :
  validate_predicate_shape predicates = Ok () ↔ map_Forall (λ _ p, shape_ok p) predicates.
Proof.
  unfold validate_predicate_shape. rewrite for_each_Ok, Forall_forall. split.
  - intros Hf k p Hk. apply elem_of_btree_entries, Hf in Hk.
    by apply check_predicate_references_Ok in Hk.
  - intros Hm [k p] Hk. apply check_predicate_references_Ok.
    by apply (Hm k), elem_of_btree_entries.
Qed.

(** The shape pass reports no cycles. *)
Lemma for_each_Err {E A} (f : A → result E ()) l e :
  for_each f l = Err e → ∃ x, x ∈ l ∧ f x = Err e.
Proof.
  induction l as [|x l IH]; simpl; [done|]. intros [Hx|([] & _ & Hl)]%bind_Err.
  - exists x. split; [by left|done].
  - destruct (IH Hl) as (y & ? & ?). exists y. split; [by right|done].
Qed.

Lemma for_each_i_Err {E A} (f : nat → A → result E ()) i l e :
  for_each_i f i l = Err e → ∃ j x, f j x = Err e.
Proof.
  revert i. induction l as [|x l IH]; intros i; simpl; [done|].
  intros [Hx|([] & _ & Hl)]%bind_Err; eauto.
Qed.

Lemma validate_predicate_shape_no_cycle e c :
  validate_predicate_shape predicates = Err e → kind e ≠ PredicateCycle c.
Proof.
  intros ([name p] & _ & Hp)%for_each_Err.
  assert (∀ n ns at_, resolve_name n ns at_ = Err e → kind e ≠ PredicateCycle c) as Hr.
  { intros n ns at_. unfold resolve_name. case_decide; [done|]. by intros [= <-]. }
  assert (∀ op l ns at_, check_operands op l ns at_ = Err e → kind e ≠ PredicateCycle c) as Ho.
  { intros op l ns at_. unfold check_operands. destruct l as [|x l]; [by intros [= <-]|].
    intros (j & n & Hn)%for_each_i_Err. by eapply Hr. }
  unfold check_predicate_references, check_region_references in Hp.
  destruct p as [? ? [] ?| |[] ? ?| | | |]; try done; eauto.
  unfold resolve_elapsed in Hp. case_decide; [done|]. by simplify_eq.
Qed.

(** The predicate map is accepted exactly when every name is defined, no
    logical operator is empty and the dependency graph is acyclic. *)
Definition graph_ok : Prop := map_Forall (λ _ p, shape_ok p) predicates ∧ acyclic.

Lemma validate_predicate_graph_ok_iff :
  validate_predicate_graph = Ret (Ok ()) ↔ graph_ok.
Proof.
  pose proof validate_predicate_graph_spec as Hs. unfold graph_ok.
  rewrite <-validate_predicate_shape_Ok.
  destruct (validate_predicate_shape predicates) as [[]|e].
  - destruct Hs as [[-> ?]|(e & c & -> & _ & Hc)]; [naive_solver|].
    apply genuine_cycle_tc in Hc. naive_solver.
  - rewrite Hs. naive_solver.
Qed.

Lemma validate_predicate_graph_total : ∃ r, validate_predicate_graph = Ret r.
Proof.
  pose proof validate_predicate_graph_spec as Hs.
  destruct (validate_predicate_shape predicates); naive_solver.
Qed.

End dfs.

(** [validate_predicate_graph] always returns (the search needs one step
    per node and per edge and never indexes a missing key); it accepts exactly
    the maps whose references are defined, whose logical operators have
    operands and whose dependency graph is acyclic; and a reported cycle is a
    genuine closed walk along dependencies. *)
Theorem validate_predicate_graph_correct predicates :
  (∃ r, validate_predicate_graph predicates = Ret r) ∧
  (validate_predicate_graph predicates = Ret (Ok ()) ↔ graph_ok predicates) ∧
  ∀ e c, validate_predicate_graph predicates = Ret (Err e) → kind e = PredicateCycle c →
    genuine_cycle predicates c.
Proof.
  split_and!; [apply validate_predicate_graph_total|apply validate_predicate_graph_ok_iff|].
  intros e c He Hk. pose proof (validate_predicate_graph_spec predicates) as Hs.
  destruct (validate_predicate_shape predicates) as [u|e'] eqn:Hsh.
  - destruct Hs as [[? _]|(e' & c' & ? & ? & ?)]; congruence.
  - rewrite Hs in He. simplify_eq. by destruct (validate_predicate_shape_no_cycle _ _ c Hsh).
Qed.

Example cycle_is_found :
  validate_predicate_graph {[ "a" := NotP "b"; "b" := AllOf ["c"; "a"]; "c" := ColorAt
    (mkPoint 0 0) (mkRgb 0 0 0) 0 ]}
  = Ret (Err (mkDslError (PredicateCycle ["a"; "b"; "a"]) (key root "predicates"))).
Proof. vm_compute. reflexivity. Qed.
