(* ===== verification/DslValidate.v ===== *)
(** * Validation of whole programs

    [steps.rs], [triggers.rs], [watches.rs], [hash.rs], [parse.rs] and [lib.rs]
    of vcli-dsl: what surrounds the predicate graph, and the proof that
    [finish] accepts exactly the well-formed programs. *)

From S2P Require Import Prelude Json CoreTypes Sha256 Canonical CanonicalInj Serde EventWire ProgramWire ProgramRead DslError.
From S2P Require Import DslExpr DslPredicates.
Local Open Scope vcli_scope.

(** ** Steps *)

(* src: crates/vcli-dsl/src/steps.rs 134-151 resolve_step_name *)
Definition resolve_step_name (name : string) (predicates : Predicates) (at_ : JsonPath)
    : result DslError () :=
  match predicates !! name with
  | Some _ => Ok ()
  | None =>
      let names := btree_keys predicates in
      let hint := did_you_mean name names in
      Err {| kind := UnknownPredicateName name hint; path := at_ |}
  end.

(* src: crates/vcli-dsl/src/steps.rs 90-132 validate_target *)
Definition validate_target (t : Target) (predicates : Predicates) (at_ : JsonPath)
    : result DslError () :=
  match t with
  | TargetAbsolute p =>
      if decide (px p < 0 ∨ py p < 0)%Z then
        Err {| kind := NegativeAbsoluteTarget (px p) (py p); path := at_ |}
      else Ok ()
  | TargetExpression raw =>
      expr ← Expression_parse raw at_;
      match predicates !! expr_name expr with
      | None =>
          let names := btree_keys predicates in
          let hint := did_you_mean (expr_name expr) names in
          Err {| kind := UnknownPredicateName (expr_name expr) hint; path := at_ |}
      | Some (AllOf _ | AnyOf _ | NotP _ | ElapsedMsSinceTrue _ _) =>
          Err {| kind := ExpressionOnLogicalPredicate (expr_name expr); path := at_ |}
      | Some _ => Ok ()
      end
  end.

(* src: crates/vcli-dsl/src/steps.rs 49-88 validate_step *)
Definition validate_step (s : Step) (predicates : Predicates) (in_watch : bool)
    (at_ : JsonPath) : result DslError () :=
  match s with
  | Move tgt | Click tgt _ | Scroll tgt _ _ => validate_target tgt predicates (key at_ "at")
  | Type_ _ | Key _ _ => Ok ()
  | WaitFor predicate _ _ =>
      if in_watch then Err {| kind := BodyOnlyStepInWatch "wait_for"; path := at_ |}
      else resolve_step_name predicate predicates (key at_ "predicate")
  | Assert predicate _ =>
      if in_watch then Err {| kind := BodyOnlyStepInWatch "assert"; path := at_ |}
      else resolve_step_name predicate predicates (key at_ "predicate")
  | SleepMs _ =>
      if in_watch then Err {| kind := BodyOnlyStepInWatch "sleep_ms"; path := at_ |} else Ok ()
  end.

(* src: crates/vcli-dsl/src/steps.rs 15-30 validate_body_steps *)
Definition validate_body_steps (steps : list Step) (predicates : Predicates)
    (base : JsonPath) : result DslError () :=
  for_each_i (λ i s, validate_step s predicates false (index base i)) 0 steps.

(* src: crates/vcli-dsl/src/steps.rs 32-47 validate_watch_steps *)
Definition validate_watch_steps (steps : list Step) (predicates : Predicates)
    (base : JsonPath) : result DslError () :=
  for_each_i (λ i s, validate_step s predicates true (index base i)) 0 steps.

(** ** Triggers *)

(* src: crates/vcli-dsl/src/triggers.rs 12-36 validate_trigger *)
Definition validate_trigger (trigger : Trigger) (predicates : Predicates)
    : result DslError () :=
  match trigger with
  | OnPredicate name =>
      match predicates !! name with
      | Some _ => Ok ()
      | None =>
          let hint := did_you_mean name (btree_keys predicates) in
          Err {| kind := UnknownTriggerName name hint;
                 path := key (key root "trigger") "name" |}
      end
  | OnSubmit | Manual => Ok ()
  end.

(** ** Watches *)

Definition synthetic : string := "__vcli_inline__".

(** The error of an inline predicate is moved under the watch. *)
(* src: crates/vcli-dsl/src/watches.rs 71-84 validate_watch_when *)
Definition rewrite_inline_path (at_ : JsonPath) (e : DslError) : DslError :=
  match strip_prefix "/predicates/__vcli_inline__" (path_to_string (path e)) with
  | Some remainder =>
      {| kind := kind e;
         path := foldl key at_
                   (filter (λ s, string_is_empty s = false) (split_on "/" remainder)) |}
  | None => e
  end.

(* src: crates/vcli-dsl/src/watches.rs 36-87 validate_watch_when *)
Definition validate_watch_when (when : WatchWhen) (predicates : Predicates)
    (at_ : JsonPath) : outcome (result DslError ()) :=
  match when with
  | ByName name =>
      match predicates !! name with
      | None =>
          let hint := did_you_mean name (btree_keys predicates) in
          Ret (Err {| kind := UnknownWatchName name hint; path := at_ |})
      | Some _ => Ret (Ok ())
      end
  | Inline p =>
      match predicates !! synthetic with
      | Some _ =>
          Ret (Err {|
            kind := CanonicalizationFailed
              "reserved name __vcli_inline__ collides with a user predicate";
            path := at_ |})
      | None =>
          let merged := <[synthetic := p]> predicates in
          r ← validate_predicate_graph merged;
          mret (map_err (rewrite_inline_path at_) r)
      end
  end.

(* src: crates/vcli-dsl/src/watches.rs 89-108 validate_lifetime *)
Definition validate_lifetime (l : Lifetime) (predicates : Predicates) (at_ : JsonPath)
    : result DslError () :=
  match l with
  | UntilPredicate name =>
      match predicates !! name with
      | Some _ => Ok ()
      | None =>
          let hint := did_you_mean name (btree_keys predicates) in
          Err {| kind := UnknownPredicateName name hint; path := key at_ "name" |}
      end
  | _ => Ok ()
  end.

(* src: crates/vcli-dsl/src/watches.rs 28-32 validate_watches *)
Definition validate_watch (w : Watch) (predicates : Predicates) (at_ : JsonPath)
    : outcome (result DslError ()) :=
  _ ←? validate_watch_when (w_when w) predicates (key at_ "when");
  _ ←? mret (validate_watch_steps (w_steps w) predicates (key at_ "do"));
  mret (validate_lifetime (w_lifetime w) predicates (key at_ "lifetime")).

(* src: crates/vcli-dsl/src/watches.rs 18-34 validate_watches *)
Fixpoint validate_watches_from (i : nat) (watches : list Watch) (predicates : Predicates)
    : outcome (result DslError ()) :=
  match watches with
  | [] => Ret (Ok ())
  | w :: ws =>
      _ ←? validate_watch w predicates (index (key root "watches") i);
      validate_watches_from (S i) ws predicates
  end.
Definition validate_watches := validate_watches_from 0.

(** ** Hashes *)

(** Name-keyed hashes: [BTreeMap<String, PredicateHash>]. *)
Abbreviation PredicateHashes := (gmap string string).

Section hash.
  Context `{NfcOps, RyuOps}.

(** [serde_json::to_value] of a predicate does not fail, so its [map_err] is
    never taken. *)
(* src: crates/vcli-dsl/src/hash.rs 33-48 compute_predicate_hashes *)
Fixpoint hash_entries (entries : list (string * PredicateKind)) (out : PredicateHashes)
    : result DslError PredicateHashes :=
  match entries with
  | [] => Ok out
  | (name, pred) :: entries =>
      h ← map_err (λ e,
            {| kind := kind (DslError_from_canonical e);
               path := key (key root "predicates") name |})
          (predicate_hash (PredicateKind_to_value pred));
      hash_entries entries (<[name := h]> out)
  end.

(* src: crates/vcli-dsl/src/hash.rs 21-49 compute_predicate_hashes *)
Definition compute_predicate_hashes (predicates : Predicates)
    : result DslError PredicateHashes :=
  hash_entries (btree_entries predicates) ∅.

(** ** The envelope *)

(** [serde_json]: the text parser, whose error is its message, and the message
    for a document that is no program. *)
Class SerdeOps := {
  value_from_str : string → result string Value;
  program_message : Value → string;
}.
Context `{SerdeOps, UuidOps}.

(* src: crates/vcli-dsl/src/parse.rs 75-77 parse_envelope_value *)
Definition from_value_program (v : Value) : result string Program :=
  ok_or (Program_from_value v) (program_message v).

(* src: crates/vcli-dsl/src/parse.rs 13-14 SUPPORTED_DSL_MAJOR *)
Definition SUPPORTED_DSL_MAJOR : string := "0".

(* src: crates/vcli-dsl/src/parse.rs 80-89 type_name *)
Definition type_name (v : Value) : string :=
  match v with
  | Null => "null" | Bool _ => "bool" | Num _ => "number" | Str _ => "string"
  | Arr _ => "array" | Obj _ => "object"
  end.

(* src: crates/vcli-dsl/src/parse.rs 30-78 parse_envelope_value *)
Definition parse_envelope_value (v : Value) : result DslError Program :=
  if negb (value_is_object v) then
    Err {| kind := WrongType "<root>" "object" (type_name v); path := root |}
  else
  ver ← ok_or (value_get "version" v) {| kind := MissingField "version"; path := root |};
  ver_str ← ok_or (value_as_str ver)
              {| kind := WrongType "version" "string" (type_name ver);
                 path := key root "version" |};
  let dsl_version : DslVersion := ver_str in
  if decide (DslVersion_major dsl_version ≠ SUPPORTED_DSL_MAJOR) then
    Err {| kind := UnsupportedDslVersion ver_str SUPPORTED_DSL_MAJOR;
           path := key root "version" |}
  else
  map_err (λ e, {| kind := JsonParse e; path := root |}) (from_value_program v).

(* src: crates/vcli-dsl/src/parse.rs 16-28 parse_envelope_str *)
Definition parse_envelope_str (src : string) : result DslError Program :=
  v ← map_err (λ e, {| kind := JsonParse e; path := root |}) (value_from_str src);
  parse_envelope_value v.

(** ** Entry points *)

(* src: crates/vcli-dsl/src/lib.rs 50-57 Validated *)
Record Validated := mkValidated { v_program : Program; v_hashes : PredicateHashes }.

(* src: crates/vcli-dsl/src/lib.rs 79-90 finish *)
Definition finish (program : Program) : outcome (result DslError Validated) :=
  _ ←? validate_predicate_graph (p_predicates program);
  _ ←? mret (validate_trigger (p_trigger program) (p_predicates program));
  _ ←? validate_watches (p_watches program) (p_predicates program);
  _ ←? mret (validate_body_steps (p_body program) (p_predicates program) (key root "body"));
  hashes ←? mret (compute_predicate_hashes (p_predicates program));
  Ret (Ok {| v_program := program; v_hashes := hashes |}).

(* src: crates/vcli-dsl/src/lib.rs 69-77 validate_value *)
Definition validate_value (v : Value) : outcome (result DslError Validated) :=
  program ←? mret (parse_envelope_value v); finish program.

(* src: crates/vcli-dsl/src/lib.rs 59-67 validate_str *)
Definition validate_str (src : string) : outcome (result DslError Validated) :=
  program ←? mret (parse_envelope_str src); finish program.

End hash.

(** ** What a well-formed program is *)

(** The predicates with a match to refer to. *)
Definition produces_match (p : PredicateKind) : bool :=
  match p with AllOf _ | AnyOf _ | NotP _ | ElapsedMsSinceTrue _ _ => false | _ => true end.

Section spec.
  Variable predicates : Predicates.

Definition defined (name : string) : Prop := is_Some (predicates !! name).

Definition target_ok (t : Target) : Prop :=
  match t with
  | TargetAbsolute p => (0 ≤ px p)%Z ∧ (0 ≤ py p)%Z
  | TargetExpression raw =>
      ∃ e p, raw = expression_to_string e ∧ is_valid_name (expr_name e) = true ∧
        predicates !! expr_name e = Some p ∧ produces_match p = true
  end.

Definition step_ok (in_watch : bool) (s : Step) : Prop :=
  match s with
  | Move t | Click t _ | Scroll t _ _ => target_ok t
  | Type_ _ | Key _ _ => True
  | WaitFor predicate _ _ | Assert predicate _ => in_watch = false ∧ defined predicate
  | SleepMs _ => in_watch = false
  end.

Definition watch_ok (w : Watch) : Prop :=
  match w_when w with
  | ByName name => defined name
  | Inline p => predicates !! synthetic = None ∧ shape_ok predicates p
  end ∧
  Forall (step_ok true) (w_steps w) ∧
  match w_lifetime w with UntilPredicate name => defined name | _ => True end.

Lemma resolve_step_name_Ok name at_ :
  resolve_step_name name predicates at_ = Ok () ↔ defined name.
Proof. unfold resolve_step_name, defined. destruct (predicates !! name); naive_solver. Qed.

Lemma validate_target_Ok t at_ : validate_target t predicates at_ = Ok () ↔ target_ok t.
Proof.
  destruct t as [p|raw]; simpl; [case_decide; naive_solver lia|].
  rewrite bind_Ok. split.
  - intros (e & [-> Hv]%Expression_parse_Ok & Hp).
    destruct (predicates !! expr_name e) as [[]|] eqn:Hn; simplify_eq;
      eexists _, _; split_and!; done.
  - intros (e & p & -> & Hv & Hn & Hm). exists e.
    split; [by apply Expression_parse_Ok|]. rewrite Hn. by destruct p.
Qed.

Lemma validate_step_Ok s in_watch at_ :
  validate_step s predicates in_watch at_ = Ok () ↔ step_ok in_watch s.
Proof.
  destruct s; simpl; rewrite ?validate_target_Ok; try done;
    destruct in_watch; rewrite ?resolve_step_name_Ok; naive_solver.
Qed.

Lemma validate_body_steps_Ok l base :
  validate_body_steps l predicates base = Ok () ↔ Forall (step_ok false) l.
Proof. apply for_each_i_Forall. intros. apply validate_step_Ok. Qed.

Lemma validate_watch_steps_Ok l base :
  validate_watch_steps l predicates base = Ok () ↔ Forall (step_ok true) l.
Proof. apply for_each_i_Forall. intros. apply validate_step_Ok. Qed.

Lemma validate_trigger_Ok t :
  validate_trigger t predicates = Ok () ↔
  match t with OnPredicate name => defined name | _ => True end.
Proof.
  destruct t as [|name|]; simpl; try done. unfold defined.
  destruct (predicates !! name); naive_solver.
Qed.

Lemma validate_lifetime_Ok l at_ :
  validate_lifetime l predicates at_ = Ok () ↔
  match l with UntilPredicate name => defined name | _ => True end.
Proof.
  destruct l as [| |name|]; simpl; try done. unfold defined.
  destruct (predicates !! name); naive_solver.
Qed.

(** *** An inline predicate cannot close a cycle but with itself *)

Lemma edge_merged syn p x y :
  map_Forall (λ _ q, shape_ok predicates q) predicates →
  edge (<[syn:=p]> predicates) x y → defined x → predicates !! syn = None →
  edge predicates x y ∧ defined y.
Proof.
  intros Hs (q & Hq & Hy & _) [q' Hx] Hn.
  assert (x ≠ syn) by congruence. rewrite lookup_insert_ne in Hq by done.
  assert (is_Some (predicates !! y)) as Hd by by apply (Hs x q).
  split; [by exists q|done].
Qed.

Lemma tc_merged syn p x y :
  map_Forall (λ _ q, shape_ok predicates q) predicates → predicates !! syn = None →
  tc (edge (<[syn:=p]> predicates)) x y → defined x →
  tc (edge predicates) x y ∧ defined y.
Proof.
  intros Hs Hn. induction 1 as [x y He|x y z He _ IH]; intros Hx;
    destruct (edge_merged syn p x y Hs He Hx Hn) as [He' Hy].
  - split; [by apply tc_once|done].
  - destruct (IH Hy). split; [by eapply tc_l|done].
Qed.

Lemma graph_ok_inline syn p :
  graph_ok predicates → predicates !! syn = None →
  graph_ok (<[syn:=p]> predicates) ↔ shape_ok predicates p.
Proof.
  intros [Hs Ha] Hn. split.
  - intros [Hs' Ha']. destruct (Hs' syn p) as [Hd Hne]; [by rewrite lookup_insert_eq|].
    split; [|done]. intros n Hin. destruct (decide (n = syn)) as [->|Hns].
    + exfalso. apply (Ha' syn), tc_once. exists p. rewrite lookup_insert_eq. eauto.
    + specialize (Hd n Hin). by rewrite lookup_insert_ne in Hd.
  - intros [Hd Hne]. split.
    + intros k q Hq. assert (shape_ok predicates q) as [Hq1 Hq2].
      { destruct (decide (k = syn)) as [->|].
        - rewrite lookup_insert_eq in Hq. by simplify_eq.
        - rewrite lookup_insert_ne in Hq by done. by eapply Hs. }
      split; [|done]. intros n Hin. rewrite lookup_insert_is_Some'. right. by apply Hq1.
    + intros x Hx.
      assert (∀ y, tc (edge (<[syn:=p]> predicates)) syn y →
        defined y) as Hsyn.
      { intros y Hy. assert (∀ z, edge (<[syn:=p]> predicates) syn z → defined z) as Hz.
        { intros z (q & Hq & Hz & _). rewrite lookup_insert_eq in Hq. simplify_eq. by apply Hd. }
        inversion Hy as [? ? He|? z ? He Ht]; subst; [by apply Hz|].
        eapply (tc_merged syn p z y); eauto. }
      destruct (decide (x = syn)) as [->|Hxs].
      * destruct (Hsyn _ Hx). congruence.
      * assert (defined x) as Hdx.
        { destruct (tc_edge_defined _ _ _ Hx) as [q Hq].
          rewrite lookup_insert_ne in Hq by done. by exists q. }
        apply (Ha x). eapply (tc_merged syn p x x); eauto.
Qed.

Lemma validate_watch_Ok w at_ :
  graph_ok predicates → validate_watch w predicates at_ = Ret (Ok ()) ↔ watch_ok w.
Proof.
  intros Hg. unfold validate_watch, watch_ok. rewrite obind_Ok.
  setoid_rewrite obind_Ok.
  assert (validate_watch_when (w_when w) predicates (key at_ "when") = Ret (Ok ()) ↔
    match w_when w with
    | ByName name => defined name
    | Inline p => predicates !! synthetic = None ∧ shape_ok predicates p
    end) as Hw.
  { unfold validate_watch_when, defined. destruct (w_when w) as [name|p].
    - destruct (predicates !! name); naive_solver.
    - destruct (predicates !! synthetic) as [q|] eqn:Hn; [naive_solver|].
      rewrite <-(graph_ok_inline synthetic p Hg Hn), <-validate_predicate_graph_ok_iff.
      destruct (validate_predicate_graph_total (<[synthetic:=p]> predicates)) as [[[]|e] ->];
        simpl; naive_solver. }
  rewrite <-Hw, <-(validate_watch_steps_Ok _ (key at_ "do")),
    <-(validate_lifetime_Ok _ (key at_ "lifetime")).
  unfold mret, outcome_ret. split.
  - intros ([] & ? & [] & ? & ?). naive_solver.
  - intros (? & ? & ?). exists (). split; [done|]. exists (). split; congruence.
Qed.

Lemma validate_watch_total w at_ : ∃ r, validate_watch w predicates at_ = Ret r.
Proof.
  unfold validate_watch. apply obind_total.
  - unfold validate_watch_when. destruct (w_when w) as [name|p].
    + destruct (predicates !! name); eauto.
    + destruct (predicates !! synthetic); [eauto|].
      destruct (validate_predicate_graph_total (<[synthetic:=p]> predicates)) as [r ->].
      simpl. unfold mret, outcome_ret. eauto.
  - intros _ _. apply obind_total; unfold mret, outcome_ret; eauto.
Qed.

Lemma validate_watches_Ok i ws :
  graph_ok predicates →
  validate_watches_from i ws predicates = Ret (Ok ()) ↔ Forall watch_ok ws.
Proof.
  intros Hg. revert i. induction ws as [|w ws IH]; intros i; simpl; [by rewrite Forall_nil|].
  rewrite obind_Ok, Forall_cons. setoid_rewrite IH.
  rewrite <-(validate_watch_Ok w (index (key root "watches") i) Hg). split.
  - intros ([] & ? & ?). done.
  - intros [? ?]. by exists ().
Qed.

Lemma validate_watches_total i ws : ∃ r, validate_watches_from i ws predicates = Ret r.
Proof.
  revert i. induction ws as [|w ws IH]; intros i; simpl; [eauto|].
  apply obind_total; [apply validate_watch_total|]. intros _ _. apply IH.
Qed.
End spec.

Definition program_ok (p : Program) : Prop :=
  graph_ok (p_predicates p) ∧
  match p_trigger p with OnPredicate name => defined (p_predicates p) name | _ => True end ∧
  Forall (watch_ok (p_predicates p)) (p_watches p) ∧
  Forall (step_ok (p_predicates p) false) (p_body p).

Section finish_spec.
  Context `{NfcOps, RyuOps}.

Lemma hash_entries_Ok entries out :
  Forall (λ e, PredicateKind_wf e.2) entries →
  ∃ hs, hash_entries entries out = Ok hs ∧
    ∀ k, hs !! k = match obj_get k (rev entries) with
                   | Some p => result_ok (predicate_hash (PredicateKind_to_value p))
                   | None => out !! k
                   end.
Proof.
  intros Hwf. revert out. induction Hwf as [|[name p] entries Hp Hwf IH]; intros out; simpl; [eauto|].
  destruct (predicate_hash_total p Hp) as [h Hh]. rewrite Hh. simpl.
  destruct (IH (<[name:=h]> out)) as (hs & -> & Hhs). exists hs. split; [done|].
  intros k. rewrite Hhs. clear -Hh. induction (rev entries) as [|[k' q] l IHl]; simpl.
  - case_decide; subst; [by rewrite lookup_insert_eq, Hh|by rewrite lookup_insert_ne].
  - by case_decide.
Qed.

(** Hashing succeeds and gives every predicate its hash. *)
Lemma compute_predicate_hashes_Ok (predicates : Predicates) :
  map_Forall (λ _ p, PredicateKind_wf p) predicates →
  ∃ hs, compute_predicate_hashes predicates = Ok hs ∧
    ∀ k, hs !! k = (p ← predicates !! k; result_ok (predicate_hash (PredicateKind_to_value p))).
Proof.
  intros Hwf. unfold compute_predicate_hashes.
  destruct (hash_entries_Ok (btree_entries predicates) ∅) as (hs & -> & Hhs).
  { apply Forall_forall. intros [k p] Hk%elem_of_btree_entries. by eapply Hwf. }
  exists hs. split; [done|]. intros k. rewrite Hhs.
  pose proof (NoDup_btree_entries predicates) as Hnd.
  rewrite <-(obj_get_perm k _ _ Hnd (Permutation_rev _)).
  destruct (predicates !! k) as [p|] eqn:Hk; simpl.
  - apply elem_of_btree_entries in Hk. by rewrite (proj2 (obj_get_Some k _ p Hnd) Hk).
  - destruct (obj_get k (btree_entries predicates)) as [p|] eqn:Hg; [|by rewrite lookup_empty].
    apply obj_get_Some, elem_of_btree_entries in Hg; [congruence|done].
Qed.
End finish_spec.

(** ** Correctness of the validator *)

Section correct.
  Context `{NfcOps, RyuOps}.

Lemma finish_total (p : Program) : ∃ r, finish p = Ret r.
Proof.
  unfold finish.
  apply obind_total; [apply validate_predicate_graph_total|intros _ _].
  apply obind_total; [unfold mret, outcome_ret; eauto|intros _ _].
  apply obind_total; [apply validate_watches_total|intros _ _].
  apply obind_total; [unfold mret, outcome_ret; eauto|intros _ _].
  apply obind_total; unfold mret, outcome_ret; eauto.
Qed.

Lemma finish_Ok_iff p hs v :
  compute_predicate_hashes (p_predicates p) = Ok hs →
  finish p = Ret (Ok v) ↔ program_ok p ∧ v = mkValidated p hs.
Proof.
  intros Hhs. unfold finish, program_ok. rewrite Hhs, obind_Ok.
  repeat setoid_rewrite obind_Ok. unfold mret, outcome_ret.
  rewrite <-validate_predicate_graph_ok_iff, <-validate_trigger_Ok, <-(validate_body_steps_Ok _ _ (key root "body")).
  split.
  - intros ([] & Hg & [] & Ht & [] & Hw & [] & Hb & hs' & ? & ?). simplify_eq.
    pose proof Hg as Hg'. apply validate_predicate_graph_ok_iff in Hg'.
    apply (validate_watches_Ok _ 0) in Hw; [|done]. naive_solver.
  - intros [(Hg & Ht & Hw & Hb) ->]. pose proof Hg as Hg'.
    apply validate_predicate_graph_ok_iff in Hg'.
    apply (validate_watches_Ok _ 0) in Hw; [|done].
    exists (). split; [done|]. exists (). split; [by rewrite Ht|].
    exists (). split; [done|]. exists (). split; [by rewrite Hb|]. by exists hs.
Qed.

(** On a program whose integers fit their Rust types [finish] accepts exactly
    the well-formed programs and returns the program unchanged with the
    canonical hash of every predicate. *)
Lemma finish_correct p :
  map_Forall (λ _ q, PredicateKind_wf q) (p_predicates p) →
  (∃ r, finish p = Ret r) ∧
  ((∃ v, finish p = Ret (Ok v)) ↔ program_ok p) ∧
  ∀ v, finish p = Ret (Ok v) →
    v_program v = p ∧
    ∀ k, v_hashes v !! k =
      (q ← p_predicates p !! k; result_ok (predicate_hash (PredicateKind_to_value q))).
Proof.
  intros Hwf. split; [apply finish_total|].
  destruct (compute_predicate_hashes_Ok _ Hwf) as (hs & Hhs & Hk).
  pose proof (λ v, finish_Ok_iff p hs v Hhs) as Hf.
  split; [split|].
  - intros [v Hv]. by apply Hf in Hv as [? _].
  - intros Hp. exists (mkValidated p hs). by apply Hf.
  - intros v [_ ->]%Hf. by split.
Qed.

Context `{UuidOps, SerdeOps}.

(** The documents that pass the envelope. *)
Definition envelope (doc : Value) (p : Program) : Prop :=
  ∃ ver, value_get "version" doc = Some (Str ver) ∧
    DslVersion_major ver = SUPPORTED_DSL_MAJOR ∧ Program_from_value doc = Some p.

Lemma parse_envelope_value_Ok doc p : parse_envelope_value doc = Ok p ↔ envelope doc p.
Proof.
  unfold parse_envelope_value, envelope. split.
  - destruct (value_is_object doc); [|done]. simpl.
    intros (ver & Hver & (s & Hs & Hp)%bind_Ok)%bind_Ok.
    destruct (value_get "version" doc) as [w|] eqn:Hw; [|done]. injection Hver as ->.
    destruct (value_as_str ver) as [s'|] eqn:Hstr; [|done]. injection Hs as ->.
    destruct ver; try done. injection Hstr as ->. case_decide as Hm; [done|].
    unfold from_value_program in Hp. destruct (Program_from_value doc) as [q|]; [|done].
    injection Hp as ->. exists s. by split_and!.
  - intros (ver & Hver & Hm & Hp). destruct doc as [| | | | |m]; try done. simpl in *.
    rewrite Hver. simpl. rewrite decide_False by tauto. unfold from_value_program. by rewrite Hp.
Qed.

Lemma validate_value_Ok doc v :
  validate_value doc = Ret (Ok v) ↔ ∃ p, envelope doc p ∧ finish p = Ret (Ok v).
Proof.
  unfold validate_value. rewrite obind_Ok. setoid_rewrite <-parse_envelope_value_Ok.
  unfold mret, outcome_ret. split; intros (p & Hp & Hf); exists p; split; congruence.
Qed.

(** C18: On any JSON document the validator neither panics nor diverges.  It
    accepts exactly the documents with a supported version that read as a
    program, derived readers included, that is well formed: names defined,
    dependency graph acyclic, expressions on match-producing predicates,
    body-only steps out of watches, targets not negative.  It returns that
    program, whose values are within their types, and the canonical hash of
    every predicate. *)
Theorem validate_value_correct doc :
  doc_ok doc →
  (∃ r, validate_value doc = Ret r) ∧
  ((∃ v, validate_value doc = Ret (Ok v)) ↔ ∃ p, envelope doc p ∧ program_ok p) ∧
  ∀ v, validate_value doc = Ret (Ok v) →
    envelope doc (v_program v) ∧ program_ok (v_program v) ∧ Program_wf (v_program v) ∧
    ∀ k, v_hashes v !! k =
      (q ← p_predicates (v_program v) !! k; result_ok (predicate_hash (PredicateKind_to_value q))).
Proof.
  intros Hdoc.
  assert (∀ p, envelope doc p → Program_wf p) as Hread.
  { intros p (_ & _ & _ & Hp). by apply (typed_Program doc). }
  assert (∀ p, Program_wf p → map_Forall (λ _ q, PredicateKind_wf q) (p_predicates p)) as Hpk.
  { intros p [Hps _ _ _ _] k q Hq. by destruct (Hps k q Hq). }
  split; [|split].
  - unfold validate_value. apply obind_total; [by eexists|]. intros p _. apply finish_total.
  - setoid_rewrite validate_value_Ok. split.
    + intros (v & p & Hp & Hf). exists p. split; [done|].
      destruct (finish_correct p (Hpk p (Hread p Hp))) as (_ & Hiff & _). apply Hiff. by exists v.
    + intros (p & Hp & Hok). destruct (finish_correct p (Hpk p (Hread p Hp))) as (_ & Hiff & _).
      apply Hiff in Hok as [v Hv]. by exists v, p.
  - intros v (p & Hp & Hf)%validate_value_Ok.
    destruct (finish_correct p (Hpk p (Hread p Hp))) as (_ & Hiff & Hres).
    destruct (Hres v Hf) as [-> Hh]. split_and!; [done| |by apply Hread|done].
    apply Hiff. by exists v.
Qed.
End correct.

(** A small program: a template, a watch on its negation, a click. *)
Definition demo_predicates : Predicates :=
  {[ "seen" := ColorAt (mkPoint 1 2) (mkRgb 255 0 0) 10; "gone" := NotP "seen" ]}.
Definition demo_program : Program := {|
  p_version := "0.1"; p_name := "demo"; p_id := None; p_trigger := OnPredicate "seen";
  p_predicates := demo_predicates;
  p_watches := [mkWatch (Inline (ElapsedMsSinceTrue "gone" 500))
                  [Click (TargetAbsolute (mkPoint 10 20)) LeftButton] 0 Persistent];
  p_body := [WaitFor "seen" 1000 TimeoutFail;
             Click (TargetExpression "$seen.match.center") LeftButton];
  p_on_complete := None; p_on_fail := None; p_timeout_ms := None; p_labels := ∅;
  p_priority := 0%Z |}.

(** The demo program as a client writes it. *)
Definition demo_document : Value := Obj [
  ("name", Str "demo"); ("version", Str "0.1");
  ("trigger", Obj [("name", Str "seen"); ("kind", Str "on_predicate")]);
  ("predicates", Obj [
     ("seen", Obj [("kind", Str "color_at"); ("point", Arr [int_value 1; int_value 2]);
                   ("rgb", Arr [int_value 255; int_value 0; int_value 0]);
                   ("tolerance", int_value 10)]);
     ("gone", Obj [("kind", Str "not"); ("of", Str "seen")])]);
  ("watches", Arr [Obj [
     ("when", Obj [("kind", Str "elapsed_ms_since_true"); ("predicate", Str "gone");
                   ("ms", int_value 500)]);
     ("do", Arr [Obj [("kind", Str "click"); ("at", Obj [("x", int_value 10); ("y", int_value 20)])]])]]);
  ("body", Arr [Obj [("kind", Str "wait_for"); ("predicate", Str "seen"); ("timeout_ms", int_value 1000)];
                Obj [("kind", Str "click"); ("at", Str "$seen.match.center")]])].
Definition demo_serde : SerdeOps := {|
  value_from_str s := Err "no text"; program_message _ := "no program" |}.
Definition demo_uuid : UuidOps := {| uuid_display _ := ""; uuid_parse _ := None |}.

Lemma demo_document_ok : doc_ok demo_document.
Proof. apply is_doc_ok_sound. vm_compute. reflexivity. Qed.

Lemma validate_value_correct_witness :
  ∃ v, @validate_value CanonicalInj.nfc_id CanonicalInj.sci_ops demo_serde demo_uuid demo_document
       = Ret (Ok v) ∧ v_program v = demo_program ∧ program_ok demo_program.
Proof.
  assert (match @validate_value CanonicalInj.nfc_id CanonicalInj.sci_ops demo_serde demo_uuid
                  demo_document with Ret (Ok v) => Some (v_program v) | _ => None end
          = Some demo_program) as Hrun.
  { vm_compute. reflexivity. }
  destruct (@validate_value CanonicalInj.nfc_id CanonicalInj.sci_ops demo_serde demo_uuid
              demo_document) as [[v|]| |] eqn:Hv; try discriminate Hrun.
  destruct (@validate_value_correct CanonicalInj.nfc_id CanonicalInj.sci_ops demo_uuid demo_serde
              demo_document demo_document_ok) as (_ & _ & Hok).
  injection Hrun as Hp. destruct (Hok v Hv) as (_ & Hprog & _). rewrite Hp in Hprog.
  exists v. split; [reflexivity|]. split; [exact Hp|exact Hprog].
Defined.
