(* ===== verification/FrameView.v ===== *)
(** * Frames and pixel access

    [vcli-core/src/frame.rs] and [vcli-perception/src/frame_view.rs], with the
    perception error type.  Buffers of the [image] crate are abstract: the
    sources create them, write pixels in range and hand them back to the
    crate. *)

From S2P Require Import Prelude Json CoreTypes.

(** ** Frames *)

(* src: crates/vcli-core/src/frame.rs 8-15 FrameFormat *)
Inductive FrameFormat := Bgra8 | Rgba8.
(* src: crates/vcli-core/src/frame.rs 17-25 FrameFormat::bytes_per_pixel *)
Definition bytes_per_pixel (f : FrameFormat) : Z :=
  match f with Bgra8 | Rgba8 => 4 end.

(* src: crates/vcli-core/src/frame.rs 27-42 Frame *)
Record Frame := mkFrame {
  format : FrameFormat;
  bounds : Rect;
  stride : Z;
  pixels : list Z;
  captured_at_ns : Z;
}.

(** [usize] is 64 bits wide. *)
Definition saturating_mul_usize (a b : Z) : Z := Z.min u64_max (a * b).

(* src: crates/vcli-core/src/frame.rs 45-72 Frame::new *)
Definition Frame_new (format : FrameFormat) (bounds : Rect) (stride : Z) (pixels : list Z)
    (captured_at_ns : Z) : outcome Frame :=
  let h := if decide (0 ≤ rh bounds)%Z then rh bounds else 0%Z in
  let needed := saturating_mul_usize stride h in
  if decide (needed ≤ Z.of_nat (length pixels))%Z then
    Ret {| format := format; bounds := bounds; stride := stride; pixels := pixels;
           captured_at_ns := captured_at_ns |}
  else Panic.

(* src: crates/vcli-core/src/frame.rs 74-78 Frame::width *)
Definition width (f : Frame) : Z := rw (bounds f).
(* src: crates/vcli-core/src/frame.rs 80-84 Frame::height *)
Definition height (f : Frame) : Z := rh (bounds f).

(** ** Errors *)

(* src: crates/vcli-perception/src/error.rs 11-32 PerceptionError *)
Inductive PerceptionError :=
  | UnknownPredicate (name : string)
  | Cycle (name : string)
  | AssetDecode (message : string)
  | RegionOutOfBounds
  | AssetNotMaterialized (reference : string).

(* src: crates/vcli-perception/src/error.rs 14-31 PerceptionError::fmt *)
Definition PerceptionError_to_string (e : PerceptionError) : string :=
  match e with
  | UnknownPredicate n => "unknown predicate reference: " +:+ n
  | Cycle n => "cycle detected at predicate: " +:+ n
  | AssetDecode m => "asset decode: " +:+ m
  | RegionOutOfBounds => "region outside frame bounds"
  | AssetNotMaterialized r => "asset bytes not materialized for reference: " +:+ r
  end.

(** ** Pixels *)

(** [&buf[a..b]]: panics unless [a ≤ b ≤ len]. *)
Definition slice {A} (buf : list A) (a b : Z) : outcome (list A) :=
  if decide (a ≤ b ∧ b ≤ Z.of_nat (length buf))%Z
  then Ret (take (Z.to_nat (b - a)) (drop (Z.to_nat a) buf)) else Panic.

(* src: crates/vcli-perception/src/frame_view.rs 15-38 pixel_rgb *)
Definition pixel_rgb (frame : Frame) (x y : Z) : outcome (result PerceptionError Rgb) :=
  if decide (x < 0 ∨ y < 0 ∨ width frame ≤ x ∨ height frame ≤ y)%Z then
    Ret (Err RegionOutOfBounds)
  else
    let bpp := bytes_per_pixel (format frame) in
    let offset := wrap_u64 (saturating_mul_usize y (stride frame) + saturating_mul_usize x bpp) in
    bytes ← slice (pixels frame) offset (wrap_u64 (offset + bpp));
    match bytes !! 0, bytes !! 1, bytes !! 2 with
    | Some b0, Some b1, Some b2 =>
        Ret (Ok match format frame with
                | Bgra8 => mkRgb b2 b1 b0
                | Rgba8 => mkRgb b0 b1 b2
                end)
    | _, _, _ => Panic
    end.

(** The [image] and [imageproc] crates: buffers, the PNG decoder, grey-scale
    conversion, the 9x8 resampling, and template matching with the location of
    the best response (an [f32] widened to [f64]). *)
Class ImageOps := {
  RgbImage : Type;
  GrayImage : Type;
  rgb_new : Z → Z → RgbImage;
  put_pixel : Z → Z → Rgb → RgbImage → RgbImage;
  grayscale : RgbImage → GrayImage;
  load_luma8 : list Z → result string GrayImage;
  gray_width : GrayImage → Z;
  gray_height : GrayImage → Z;
  resize_9x8 : GrayImage → GrayImage;
  gray_pixel : GrayImage → Z → Z → Z;
  best_match : GrayImage → GrayImage → f64 * (Z * Z);
}.

Section crop.
  Context `{ImageOps}.

(** [for x in 0..w { out.put_pixel(..., pixel_rgb(...)?) }] *)
(* src: crates/vcli-perception/src/frame_view.rs 66-75 crop_rgb *)
Fixpoint copy_row (frame : Frame) (fx0 fy row : Z) (cols : list Z) (out : RgbImage)
    : outcome (result PerceptionError RgbImage) :=
  match cols with
  | [] => Ret (Ok out)
  | col :: cols =>
      obind (pixel_rgb frame (wrap_i32 (fx0 + wrap_i32 col)) fy) (λ rgb,
      copy_row frame fx0 fy row cols (put_pixel col row rgb out))
  end.

(* src: crates/vcli-perception/src/frame_view.rs 65-76 crop_rgb *)
Fixpoint copy_rows (frame : Frame) (fx0 fy0 : Z) (cols rows : list Z) (out : RgbImage)
    : outcome (result PerceptionError RgbImage) :=
  match rows with
  | [] => Ret (Ok out)
  | row :: rows =>
      obind (copy_row frame fx0 (wrap_i32 (fy0 + wrap_i32 row)) row cols out) (λ out,
      copy_rows frame fx0 fy0 cols rows out)
  end.

(* src: crates/vcli-perception/src/frame_view.rs 40-78 crop_rgb *)
Definition crop_rgb (frame : Frame) (region_abs : Rect)
    : outcome (result PerceptionError RgbImage) :=
  let fb := bounds frame in
  let x0 := Z.max (rx region_abs) (rx fb) in
  let y0 := Z.max (ry region_abs) (ry fb) in
  let x1 := Z.min (wrap_i32 (rx region_abs + rw region_abs)) (wrap_i32 (rx fb + rw fb)) in
  let y1 := Z.min (wrap_i32 (ry region_abs + rh region_abs)) (wrap_i32 (ry fb + rh fb)) in
  if decide (x1 ≤ x0 ∨ y1 ≤ y0)%Z then Ret (Err RegionOutOfBounds)
  else
    let w := wrap_u32 (wrap_i32 (x1 - x0)) in
    let h := wrap_u32 (wrap_i32 (y1 - y0)) in
    copy_rows frame (wrap_i32 (x0 - rx fb)) (wrap_i32 (y0 - ry fb))
      (seqZ 0 w) (seqZ 0 h) (rgb_new w h).

(** The loops over [0..frame.width()] are those of [crop_rgb] with a zero
    origin: an [i32] index is its own [u32] conversion and back. *)
(* src: crates/vcli-perception/src/frame_view.rs 80-105 frame_to_rgb *)
Definition frame_to_rgb (frame : Frame) : outcome (result PerceptionError RgbImage) :=
  let w := wrap_u32 (width frame) in
  let h := wrap_u32 (height frame) in
  copy_rows frame 0 0 (seqZ 0 (width frame)) (seqZ 0 (height frame)) (rgb_new w h).

(** ** Frames that pixel access cannot overrun *)

(** What the capture back ends build: a rectangle on the [i32] desktop, rows
    that hold their pixels, a buffer that holds its rows. *)
Record frame_wf (f : Frame) : Prop := {
  wf_w : (0 ≤ rw (bounds f))%Z;
  wf_h : (0 ≤ rh (bounds f))%Z;
  wf_x : in_i32 (rx (bounds f)) ∧ in_i32 (rx (bounds f) + rw (bounds f))%Z;
  wf_y : in_i32 (ry (bounds f)) ∧ in_i32 (ry (bounds f) + rh (bounds f))%Z;
  wf_wi : in_i32 (rw (bounds f)) ∧ in_i32 (rh (bounds f));
  wf_stride : (4 * rw (bounds f) ≤ stride f)%Z;
  wf_len : (stride f * rh (bounds f) ≤ Z.of_nat (length (pixels f)))%Z;
  wf_max : in_i64 (Z.of_nat (length (pixels f)));
  wf_stride_max : in_u64 (stride f);
}.

(** In range, a pixel is read from the four bytes at its offset. *)
Lemma pixel_rgb_in_range f x y :
  frame_wf f → (0 ≤ x < rw (bounds f))%Z → (0 ≤ y < rh (bounds f))%Z →
  ∃ b0 b1 b2,
    pixels f !! Z.to_nat (y * stride f + 4 * x) = Some b0 ∧
    pixels f !! Z.to_nat (y * stride f + 4 * x + 1) = Some b1 ∧
    pixels f !! Z.to_nat (y * stride f + 4 * x + 2) = Some b2 ∧
    pixel_rgb f x y = Ret (Ok match format f with
                              | Bgra8 => mkRgb b2 b1 b0 | Rgba8 => mkRgb b0 b1 b2 end).
Proof.
  intros [? ? ? ? ? Hst Hlen Hmax Hsm] Hx Hy. unfold pixel_rgb, width, height.
  rewrite decide_False by lia.
  assert (0 ≤ y * stride f)%Z by nia.
  assert (y * stride f + 4 * x + 4 ≤ Z.of_nat (length (pixels f)))%Z as Hend by nia.
  assert (bytes_per_pixel (format f) = 4)%Z as -> by by destruct (format f).
  unfold saturating_mul_usize.
  rewrite !Z.min_r by (unfold_ints; lia).
  rewrite !wrap_u64_id by (unfold_ints; lia).
  unfold slice. rewrite decide_True by lia. cbn [mbind outcome_bind].
  replace (y * stride f + x * 4)%Z with (y * stride f + 4 * x)%Z by lia.
  set (o := (y * stride f + 4 * x)%Z) in *.
  assert (∀ i, (0 ≤ i < 4)%Z → ∃ b, pixels f !! Z.to_nat (o + i) = Some b ∧
    take (Z.to_nat (o + 4 - o)) (drop (Z.to_nat o) (pixels f)) !! Z.to_nat i = Some b) as Hb.
  { intros i Hi. destruct (lookup_lt_is_Some_2 (pixels f) (Z.to_nat (o + i))) as [b Hb]; [lia|].
    exists b. split; [done|]. rewrite lookup_take_lt by lia.
    rewrite lookup_drop. rewrite <-Hb. f_equal. lia. }
  destruct (Hb 0%Z) as (b0 & P0 & T0); [lia|].
  destruct (Hb 1%Z) as (b1 & P1 & T1); [lia|].
  destruct (Hb 2%Z) as (b2 & P2 & T2); [lia|].
  rewrite Z.add_0_r in P0. exists b0, b1, b2. split_and!; [done..|].
  change (Z.to_nat 0) with 0 in T0. change (Z.to_nat 1) with 1 in T1.
  change (Z.to_nat 2) with 2 in T2. by rewrite T0, T1, T2.
Qed.

Lemma copy_row_total f fx0 fy row cols out :
  frame_wf f → (0 ≤ fy < rh (bounds f))%Z →
  Forall (λ col, 0 ≤ wrap_i32 (fx0 + wrap_i32 col) < rw (bounds f))%Z cols →
  ∃ img, copy_row f fx0 fy row cols out = Ret (Ok img).
Proof.
  intros Hf Hy Hc. revert out. induction Hc as [|col cols Hcol Hc IH]; intros out; simpl; [eauto|].
  destruct (pixel_rgb_in_range f _ fy Hf Hcol Hy) as (? & ? & ? & _ & _ & _ & ->).
  simpl. apply IH.
Qed.

Lemma copy_rows_total f fx0 fy0 cols rows out :
  frame_wf f →
  Forall (λ col, 0 ≤ wrap_i32 (fx0 + wrap_i32 col) < rw (bounds f))%Z cols →
  Forall (λ row, 0 ≤ wrap_i32 (fy0 + wrap_i32 row) < rh (bounds f))%Z rows →
  ∃ img, copy_rows f fx0 fy0 cols rows out = Ret (Ok img).
Proof.
  intros Hf Hc Hr. revert out. induction Hr as [|row rows Hrow Hr IH]; intros out; simpl; [eauto|].
  destruct (copy_row_total f fx0 _ row cols out Hf Hrow Hc) as [img ->]. simpl. apply IH.
Qed.

(** The region and the frame overlap. *)
Definition overlaps (f : Frame) (r : Rect) : Prop :=
  (Z.max (rx r) (rx (bounds f)) <
     Z.min (wrap_i32 (rx r + rw r)) (rx (bounds f) + rw (bounds f)))%Z ∧
  (Z.max (ry r) (ry (bounds f)) <
     Z.min (wrap_i32 (ry r + rh r)) (ry (bounds f) + rh (bounds f)))%Z.

Lemma crop_offsets a0 a1 b0 n :
  in_i32 b0 → in_i32 (b0 + n) → (b0 ≤ a0)%Z → (a1 ≤ b0 + n)%Z → (a0 < a1)%Z → in_i32 n →
  Forall (λ i, 0 ≤ wrap_i32 (wrap_i32 (a0 - b0) + wrap_i32 i) < n)%Z
    (seqZ 0 (wrap_u32 (wrap_i32 (a1 - a0)))).
Proof.
  intros. rewrite (wrap_i32_id (a1 - a0)), (wrap_u32_id (a1 - a0)) by (unfold_ints; lia).
  apply Forall_forall. intros i Hi%elem_of_seqZ.
  rewrite (wrap_i32_id i), (wrap_i32_id (a0 - b0)), wrap_i32_id by (unfold_ints; lia). lia.
Qed.

Lemma crop_rgb_spec f r :
  frame_wf f →
  (overlaps f r ∧ ∃ img, crop_rgb f r = Ret (Ok img)) ∨
  (¬ overlaps f r ∧ crop_rgb f r = Ret (Err RegionOutOfBounds)).
Proof.
  intros Hf. pose proof Hf as [? ? [? ?] [? ?] [? ?] _ _ _ _]. unfold crop_rgb, overlaps.
  rewrite (wrap_i32_id (rx (bounds f) + rw (bounds f))) by done.
  rewrite (wrap_i32_id (ry (bounds f) + rh (bounds f))) by done.
  case_decide as Ho; [right; split; [lia|done]|left; split; [lia|]].
  apply copy_rows_total; [done| |].
  - apply crop_offsets; done || lia.
  - apply crop_offsets; done || lia.
Qed.

Lemma frame_to_rgb_total f : frame_wf f → ∃ img, frame_to_rgb f = Ret (Ok img).
Proof.
  intros Hf. pose proof Hf as [? ? _ _ [? ?] _ _ _ _]. unfold frame_to_rgb, width, height.
  apply copy_rows_total; [done| |]; apply Forall_forall; intros i Hi%elem_of_seqZ;
    rewrite Z.add_0_l, (wrap_i32_id i), wrap_i32_id by (unfold_ints; lia); lia.
Qed.
End crop.
