(* ===== verification/Perception.v ===== *)
(** * Perception

    The crate vcli-perception: the per-tick result cache, the cross-tick
    state, one evaluator per predicate kind, and the facade.  The evaluators
    of logical and elapsed predicates call back into the named evaluation, so
    they take it as an argument; [evaluate_named_with_depth] ties the knot
    with fuel. *)

From S2P Require Import Prelude Json CoreTypes Sha256 Canonical Serde FrameView.
Local Open Scope vcli_scope.

(** ** Cache and state *)

(* src: crates/vcli-perception/src/state.rs 17-26 PriorSnapshot *)
Record PriorSnapshot := mkPriorSnapshot { dhash_of : Z; taken_at : UnixMs }.

(* src: crates/vcli-perception/src/state.rs 28-35 ProgramPredKey *)
Record ProgramPredKey := mkProgramPredKey { key_program : ProgramId; key_predicate : string }.
#[export] Instance ProgramPredKey_eq_dec : EqDecision ProgramPredKey.
Proof. solve_decision. Defined.
#[export] Instance ProgramPredKey_countable : Countable ProgramPredKey.
Proof.
  by apply (inj_countable' (λ k, (key_program k, key_predicate k))
    (λ '(p, n), mkProgramPredKey p n)); intros [].
Defined.

(** The contents of [Perception]: the entries of the [PredicateCache] and the
    two maps of the [PerceptionState]. *)
(* src: crates/vcli-perception/src/state.rs 37-46 PerceptionState *)
Record PState := mkPState {
  cache : gmap PredicateHash PredicateResult;
  prior_snapshots : gmap PredicateHash PriorSnapshot;
  first_true : gmap ProgramPredKey UnixMs;
}.

(* src: crates/vcli-perception/src/perception.rs 30-38 Perception::new *)
Definition Perception_new : PState :=
  {| cache := ∅; prior_snapshots := ∅; first_true := ∅ |}.
(* src: crates/vcli-perception/src/cache.rs 25-29 PredicateCache::get *)
Definition cache_get (h : PredicateHash) (s : PState) : option PredicateResult := cache s !! h.
(* src: crates/vcli-perception/src/cache.rs 31-36 PredicateCache::insert *)
Definition cache_insert (h : PredicateHash) (r : PredicateResult) (s : PState) : PState :=
  {| cache := <[h := r]> (cache s); prior_snapshots := prior_snapshots s;
     first_true := first_true s |}.
(* src: crates/vcli-perception/src/cache.rs 38-42 PredicateCache::len *)
Definition cache_len (s : PState) : nat := size (cache s).
(* src: crates/vcli-perception/src/cache.rs 44-48 PredicateCache::is_empty *)
Definition cache_is_empty (s : PState) : bool := bool_decide (cache s = ∅).
(* src: crates/vcli-perception/src/perception.rs 62-66 Perception::clear *)
Definition clear (s : PState) : PState :=
  {| cache := ∅; prior_snapshots := prior_snapshots s; first_true := first_true s |}.
(* src: crates/vcli-perception/src/perception.rs 40-48 Perception::with_state *)
Definition with_state (s : PState) : PState := clear s.
(* src: crates/vcli-perception/src/state.rs 55-59 PerceptionState::prior_snapshot *)
Definition prior_snapshot (h : PredicateHash) (s : PState) : option PriorSnapshot :=
  prior_snapshots s !! h.
(* src: crates/vcli-perception/src/state.rs 61-64 PerceptionState::record_snapshot *)
Definition record_snapshot (h : PredicateHash) (p : PriorSnapshot) (s : PState) : PState :=
  {| cache := cache s; prior_snapshots := <[h := p]> (prior_snapshots s);
     first_true := first_true s |}.
(* src: crates/vcli-perception/src/state.rs 66-72 PerceptionState::first_true_at *)
Definition first_true_at (k : ProgramPredKey) (s : PState) : option UnixMs := first_true s !! k.
(** [entry(key).or_insert(at)]: keeps an existing timestamp. *)
(* src: crates/vcli-perception/src/state.rs 74-79 PerceptionState::set_first_true_at *)
Definition set_first_true_at (k : ProgramPredKey) (at_ : UnixMs) (s : PState) : PState :=
  match first_true s !! k with
  | Some _ => s
  | None => {| cache := cache s; prior_snapshots := prior_snapshots s;
               first_true := <[k := at_]> (first_true s) |}
  end.
(* src: crates/vcli-perception/src/state.rs 81-84 PerceptionState::clear_first_true_at *)
Definition clear_first_true_at (k : ProgramPredKey) (s : PState) : PState :=
  {| cache := cache s; prior_snapshots := prior_snapshots s;
     first_true := delete k (first_true s) |}.

(** Asset bytes by content hash: [BTreeMap<String, Vec<u8>>]. *)
Abbreviation Assets := (gmap string (list Z)).

(** The context of one evaluation; the cache and the state it borrows are the
    threaded [PState]. *)
(* src: crates/vcli-perception/src/evaluator.rs 18-41 EvalCtx *)
Record EvalCtx := mkEvalCtx {
  ctx_frame : Frame;
  now_ms : UnixMs;
  ctx_predicates : Predicates;
  assets : Assets;
  ctx_program : option ProgramId;
}.

Definition PM (A : Type) : Type := ST PState (result PerceptionError A).

(** [PredicateResult { truthy, match_data: None, at: ctx.now_ms }] *)
Definition plain (ctx : EvalCtx) (b : bool) : PredicateResult :=
  {| truthy := b; match_data := None; at_ms := now_ms ctx |}.

(** Named evaluation, as the composed evaluators see it: name and depth. *)
Abbreviation named := (string → nat → PM PredicateResult).

(** ** Colours *)

(* src: crates/vcli-perception/src/color_at.rs 16-31 ColorAtEvaluator::sample *)
Definition sample (frame : Frame) (x y : Z) (target : Rgb) (tolerance : Z)
    : outcome (result PerceptionError bool) :=
  obind (pixel_rgb frame x y) (λ c,
    let dr := (red c - red target)%Z in
    let dg := (green c - green target)%Z in
    let db := (blue c - blue target)%Z in
    let dist_sq := wrap_i32 (wrap_i32 (wrap_i32 (dr * dr) + wrap_i32 (dg * dg))
                             + wrap_i32 (db * db)) in
    let tol_sq := wrap_i32 (tolerance * tolerance) in
    Ret (Ok (dist_sq <=? tol_sq)%Z)).

(* src: crates/vcli-perception/src/color_at.rs 34-57 ColorAtEvaluator::evaluate *)
Definition eval_color_at (p : PredicateKind) (ctx : EvalCtx) : PM PredicateResult :=
  match p with
  | ColorAt point rgb tolerance =>
      let fb := bounds (ctx_frame ctx) in
      let fx := wrap_i32 (px point - rx fb) in
      let fy := wrap_i32 (py point - ry fb) in
      t ←! slift (sample (ctx_frame ctx) fx fy rgb tolerance);
      sok (plain ctx t)
  | _ => serr (AssetDecode "color_at evaluator received non-color_at predicate")
  end.

(** ** Pixel differences *)

(** [u64::count_ones] *)
Definition count_ones (z : Z) : Z :=
  Z.of_nat (length (filter (λ i, Z.testbit z i = true) (seqZ 0 64))).
(* src: crates/vcli-perception/src/pixel_diff.rs 48-52 PixelDiffEvaluator::hamming *)
Definition hamming (a b : Z) : Z := count_ones (Z.lxor a b).

Section perception.
  Context `{NfcOps, RyuOps, ImageOps}.

(* src: crates/vcli-perception/src/pixel_diff.rs 28-46 PixelDiffEvaluator::dhash *)
Definition dhash (gray : GrayImage) : Z :=
  let resized := resize_9x8 gray in
  foldl (λ h y,
    foldl (λ h x,
      let l := gray_pixel resized x y in
      let r := gray_pixel resized (x + 1) y in
      let h := wrap_u64 (Z.shiftl h 1) in
      if (r <? l)%Z then Z.lor h 1 else h) h (seqZ 0 8)) 0%Z (seqZ 0 8).

(* src: crates/vcli-perception/src/pixel_diff.rs 88-93 PixelDiffEvaluator::evaluate *)
Definition pixel_diff_key (baseline : string) (rect : Rect) : Value :=
  Obj [("kind", Str "pixel_diff_state"); ("baseline", Str baseline);
       ("rect", Arr [int_value (rx rect); int_value (ry rect);
                     int_value (rw rect); int_value (rh rect)])].

(* src: crates/vcli-perception/src/pixel_diff.rs 60-135 PixelDiffEvaluator::evaluate *)
Definition eval_pixel_diff (p : PredicateKind) (ctx : EvalCtx) : PM PredicateResult :=
  match p with
  | PixelDiff (Absolute rect) baseline threshold =>
      let key_value := pixel_diff_key baseline rect in
      _ ←! mret (map_err (λ e, AssetDecode ("canonicalize pixel_diff key: "
                   +:+ match e with CanonIo m => "io error: " +:+ m end))
                 (canonicalize key_value));
      state_key ←! mret (map_err (λ e, AssetDecode ("hash pixel_diff key: "
                   +:+ match e with CanonIo m => "io error: " +:+ m end))
                 (predicate_hash key_value));
      current_crop ←! slift (crop_rgb (ctx_frame ctx) rect);
      let current_hash := dhash (grayscale current_crop) in
      s ← get;
      let prior := prior_snapshot state_key s in
      _ ← modify (record_snapshot state_key (mkPriorSnapshot current_hash (now_ms ctx)));
      match prior with
      | None => sok (plain ctx false)
      | Some prev =>
          let distance := f64_div (f64_of_Z (hamming current_hash (dhash_of prev)))
                                  (f64_of_Z 64) in
          sok (plain ctx (f64_ge distance threshold))
      end
  | PixelDiff _ _ _ => sok (plain ctx false)
  | _ => serr (AssetDecode "pixel_diff evaluator received wrong predicate kind")
  end.

(** ** Templates *)

(* src: crates/vcli-perception/src/template.rs 28-39 TemplateEvaluator::decode_gray *)
Definition decode_gray (bytes : list Z) : result PerceptionError GrayImage :=
  map_err AssetDecode (load_luma8 bytes).

(* src: crates/vcli-perception/src/template.rs 42-139 TemplateEvaluator::evaluate *)
Definition eval_template (p : PredicateKind) (ctx : EvalCtx) : PM PredicateResult :=
  match p with
  | Template image_ref confidence region _ =>
      let key := default image_ref (strip_prefix "sha256:" image_ref) in
      bytes ←! mret (ok_or (assets ctx !! key) (AssetNotMaterialized image_ref));
      template_gray ←! mret (decode_gray bytes);
      let fb := bounds (ctx_frame ctx) in
      hay ←! match region with
             | Absolute rect =>
                 crop ←! slift (crop_rgb (ctx_frame ctx) rect);
                 sok (crop, (Z.max (rx rect) (rx fb), Z.max (ry rect) (ry fb)))
             | _ =>
                 full ←! slift (frame_to_rgb (ctx_frame ctx));
                 sok (full, (rx fb, ry fb))
             end;
      let '(haystack_rgb, region_origin) := hay in
      let haystack_gray := grayscale haystack_rgb in
      if ((gray_width haystack_gray <? gray_width template_gray)
          || (gray_height haystack_gray <? gray_height template_gray))%Z
      then sok (plain ctx false)
      else
        let '(best_val, best_loc) := best_match haystack_gray template_gray in
        if f64_lt best_val confidence then sok (plain ctx false)
        else
          let bbox := {|
            rx := wrap_i32 (region_origin.1 + wrap_i32 best_loc.1);
            ry := wrap_i32 (region_origin.2 + wrap_i32 best_loc.2);
            rw := wrap_i32 (gray_width template_gray);
            rh := wrap_i32 (gray_height template_gray) |} in
          sok {| truthy := true; match_data := Some (mkMatchData bbox best_val);
                 at_ms := now_ms ctx |}
  | _ => serr (AssetDecode "template evaluator got wrong kind")
  end.

(** ** Logical composition *)

(* src: crates/vcli-perception/src/logical.rs 71-88 eval_all_of *)
Fixpoint eval_all_of (rec : named) (operands : list string) (ctx : EvalCtx) (depth : nat)
    : PM PredicateResult :=
  match operands with
  | [] => sok (plain ctx true)
  | name :: operands =>
      r ←! rec name depth;
      if negb (truthy r) then sok (plain ctx false) else eval_all_of rec operands ctx depth
  end.

(* src: crates/vcli-perception/src/logical.rs 90-106 eval_any_of *)
Fixpoint eval_any_of (rec : named) (operands : list string) (ctx : EvalCtx) (depth : nat)
    : PM PredicateResult :=
  match operands with
  | [] => sok (plain ctx false)
  | name :: operands =>
      r ←! rec name depth;
      if truthy r then sok (plain ctx true) else eval_any_of rec operands ctx depth
  end.

(* src: crates/vcli-perception/src/logical.rs 108-115 eval_not *)
Definition eval_not (rec : named) (name : string) (ctx : EvalCtx) (depth : nat)
    : PM PredicateResult :=
  child ←! rec name depth; sok (plain ctx (negb (truthy child))).

(* src: crates/vcli-perception/src/logical.rs 121-130 AllOfEvaluator::evaluate *)
Definition AllOfEvaluator_evaluate (rec : named) (p : PredicateKind) (ctx : EvalCtx)
    : PM PredicateResult :=
  match p with
  | AllOf operands => eval_all_of rec operands ctx 0
  | _ => serr (AssetDecode "all_of evaluator got wrong kind")
  end.
(* src: crates/vcli-perception/src/logical.rs 136-145 AnyOfEvaluator::evaluate *)
Definition AnyOfEvaluator_evaluate (rec : named) (p : PredicateKind) (ctx : EvalCtx)
    : PM PredicateResult :=
  match p with
  | AnyOf operands => eval_any_of rec operands ctx 0
  | _ => serr (AssetDecode "any_of evaluator got wrong kind")
  end.
(* src: crates/vcli-perception/src/logical.rs 151-160 NotEvaluator::evaluate *)
Definition NotEvaluator_evaluate (rec : named) (p : PredicateKind) (ctx : EvalCtx)
    : PM PredicateResult :=
  match p with
  | NotP operand => eval_not rec operand ctx 0
  | _ => serr (AssetDecode "not evaluator got wrong kind")
  end.

(** ** Elapsed time *)

(* src: crates/vcli-perception/src/elapsed.rs 22-69 ElapsedMsSinceTrueEvaluator::evaluate *)
Definition eval_elapsed (rec : named) (p : PredicateKind) (ctx : EvalCtx)
    : PM PredicateResult :=
  match p with
  | ElapsedMsSinceTrue child_name ms =>
      program ←! mret (ok_or (ctx_program ctx)
                   (AssetDecode "elapsed_ms_since_true evaluated outside program context"));
      child ←! rec child_name 0;
      let key := {| key_program := program; key_predicate := child_name |} in
      if truthy child then
        _ ← modify (set_first_true_at key (now_ms ctx));
        s ← get;
        let first := default (now_ms ctx) (first_true_at key s) in
        let elapsed := saturating_sub_i64 (now_ms ctx) first in
        sok (plain ctx (ms <=? elapsed)%Z)
      else
        _ ← modify (clear_first_true_at key);
        sok (plain ctx false)
  | _ => serr (AssetDecode "elapsed evaluator got wrong kind")
  end.

(** ** Dispatch *)

(* src: crates/vcli-perception/src/perception.rs 117-130 dispatch *)
Definition dispatch (rec : named) (p : PredicateKind) (ctx : EvalCtx)
    : PM PredicateResult :=
  match p with
  | ColorAt _ _ _ => eval_color_at p ctx
  | PixelDiff _ _ _ => eval_pixel_diff p ctx
  | Template _ _ _ _ => eval_template p ctx
  | AllOf _ => AllOfEvaluator_evaluate rec p ctx
  | AnyOf _ => AnyOfEvaluator_evaluate rec p ctx
  | NotP _ => NotEvaluator_evaluate rec p ctx
  | ElapsedMsSinceTrue _ _ => eval_elapsed rec p ctx
  end.

(* src: crates/vcli-perception/src/perception.rs 132-146 dispatch_leaf *)
Definition dispatch_leaf (rec : named) (p : PredicateKind) (ctx : EvalCtx)
    : PM PredicateResult :=
  match p with
  | ColorAt _ _ _ => eval_color_at p ctx
  | PixelDiff _ _ _ => eval_pixel_diff p ctx
  | Template _ _ _ _ => eval_template p ctx
  | ElapsedMsSinceTrue _ _ => eval_elapsed rec p ctx
  | AllOf _ | AnyOf _ | NotP _ => dispatch rec p ctx
  end.

(* src: crates/vcli-perception/src/perception.rs 110-115 hash_predicate *)
Definition hash_predicate (p : PredicateKind) : result PerceptionError PredicateHash :=
  map_err (λ e, AssetDecode ("hash predicate: "
             +:+ match e with CanonIo m => "io error: " +:+ m end))
    (predicate_hash (PredicateKind_to_value p)).

(* src: crates/vcli-perception/src/logical.rs 16-16 MAX_RECURSION_DEPTH *)
Definition MAX_RECURSION_DEPTH : nat := 32.

(* src: crates/vcli-perception/src/logical.rs 18-63 evaluate_named_with_depth *)
Fixpoint evaluate_named_with_depth (fuel : nat) (ctx : EvalCtx) (name : string) (depth : nat)
    : PM PredicateResult :=
  match fuel with
  | 0 => out_of_fuel
  | S fuel =>
      let rec := evaluate_named_with_depth fuel ctx in
      if decide (MAX_RECURSION_DEPTH ≤ depth) then serr (Cycle name)
      else
      pred ←! mret (ok_or (ctx_predicates ctx !! name) (UnknownPredicate name));
      hash ←! mret (hash_predicate pred);
      s ← get;
      match cache_get hash s with
      | Some cached => sok cached
      | None =>
          result ←! match pred with
                    | AllOf operands => eval_all_of rec operands ctx (depth + 1)
                    | AnyOf operands => eval_any_of rec operands ctx (depth + 1)
                    | NotP operand => eval_not rec operand ctx (depth + 1)
                    | _ => dispatch_leaf rec pred ctx
                    end;
          _ ← modify (cache_insert hash result);
          sok result
      end
  end.

(** [Perception::evaluate_named]: the facade takes the parts of the context. *)
(* src: crates/vcli-perception/src/perception.rs 68-101 Perception::evaluate_named *)
Definition evaluate_named (fuel : nat) (ctx : EvalCtx) (name : string) : PM PredicateResult :=
  pred ←! mret (ok_or (ctx_predicates ctx !! name) (UnknownPredicate name));
  hash ←! mret (hash_predicate pred);
  s ← get;
  match cache_get hash s with
  | Some cached => sok cached
  | None =>
      result ←! dispatch (evaluate_named_with_depth fuel ctx) pred ctx;
      _ ← modify (cache_insert hash result);
      sok result
  end.

End perception.
