(* ===== verification/PerceptionSpec.v ===== *)
(** * Correctness of perception

    Termination on the graphs the DSL accepts, the meaning of logical
    predicates, memoisation, colour distance and the elapsed-time timer. *)

From S2P Require Import Prelude Json CoreTypes Sha256 Canonical CanonicalInj Serde DslError.
From S2P Require Import DslPredicates FrameView Perception.
Local Open Scope vcli_scope.

(** ** Colour distance *)

Definition colour_dist_sq (c d : Rgb) : Z :=
  ((red c - red d) * (red c - red d) + (green c - green d) * (green c - green d)
   + (blue c - blue d) * (blue c - blue d))%Z.
Definition rgb_wf (c : Rgb) : Prop := in_u8 (red c) ∧ in_u8 (green c) ∧ in_u8 (blue c).

(** C37: on an in-range pixel [sample] compares the squared Euclidean distance
    with the squared tolerance as long as the tolerance is at most 46340; above
    that the square leaves [i32], wraps to a negative number, and the predicate
    never holds, not even on equal colours. *)
Theorem sample_correct frame x y c target tolerance :
  pixel_rgb frame x y = Ret (Ok c) → rgb_wf c → rgb_wf target → in_u16 tolerance →
  ∃ b, sample frame x y target tolerance = Ret (Ok b) ∧
    (b = true ↔ (tolerance ≤ 46340)%Z ∧ (colour_dist_sq c target ≤ tolerance * tolerance)%Z).
Proof.
  intros Hc (Hr & Hg & Hb) (Htr & Htg & Htb) Ht. unfold sample, colour_dist_sq, obind.
  rewrite Hc. simpl. eexists. split; [done|].
  unfold_ints.
  assert (∀ a b, 0 ≤ a ≤ 255 → 0 ≤ b ≤ 255 → 0 ≤ (a - b) * (a - b) ≤ 65025)%Z as Hsq.
  { intros a b Ha Hb'. assert (-255 ≤ a - b ≤ 255)%Z as Hd by lia. revert Hd.
    generalize (a - b)%Z. intros d Hd. nia. }
  pose proof (Hsq _ _ Hr Htr) as Sr. pose proof (Hsq _ _ Hg Htg) as Sg.
  pose proof (Hsq _ _ Hb Htb) as Sb. revert Sr Sg Sb. clear Hsq.
  generalize ((red c - red target) * (red c - red target))%Z
    ((green c - green target) * (green c - green target))%Z
    ((blue c - blue target) * (blue c - blue target))%Z.
  intros dr dg db Sr Sg Sb.
  rewrite (wrap_i32_id dr), (wrap_i32_id dg), (wrap_i32_id db) by (unfold_ints; lia).
  rewrite (wrap_i32_id (dr + dg)), (wrap_i32_id (dr + dg + db)) by (unfold_ints; lia).
  rewrite Z.leb_le. destruct (decide (tolerance ≤ 46340)%Z) as [Hs|Hs].
  - rewrite wrap_i32_id by (unfold_ints; nia). tauto.
  - split; [|tauto]. intros Hd. exfalso.
    assert (wrap_i32 (tolerance * tolerance) = tolerance * tolerance - 4294967296)%Z as Hw; [|nia].
    unfold wrap_i32. rewrite <-(Z.mod_add _ (-1)) by lia. rewrite Z.mod_small by nia. lia.
Qed.

Definition demo_frame : Frame := {|
  format := Bgra8; bounds := mkRect 0 0 1 1; stride := 4; pixels := [10; 20; 30; 255]%Z;
  captured_at_ns := 0 |}.

Lemma sample_correct_witness :
  sample demo_frame 0 0 (mkRgb 30 20 10) 65535 = Ret (Ok false) ∧
  sample demo_frame 0 0 (mkRgb 30 20 12) 2 = Ret (Ok true).
Proof.
  assert (∀ tol, in_u16 tol → ∀ t, rgb_wf t → ∃ b, sample demo_frame 0 0 t tol = Ret (Ok b) ∧
    (b = true ↔ (tol ≤ 46340)%Z ∧ (colour_dist_sq (mkRgb 30 20 10) t ≤ tol * tol)%Z)) as Hall.
  { intros tol Htol t Ht.
    apply (sample_correct demo_frame 0 0 (mkRgb 30 20 10) t tol); [reflexivity| |exact Ht|exact Htol].
    unfold rgb_wf; simpl. unfold_ints. lia. }
  split.
  - destruct (Hall 65535%Z) with (t := mkRgb 30 20 10) as (b & -> & Hb);
      [unfold_ints; lia|unfold rgb_wf; simpl; unfold_ints; lia|].
    destruct b; [|reflexivity]. destruct Hb as [Hb _]. specialize (Hb eq_refl). lia.
  - reflexivity.
Defined.

(** ** Totality of the parts *)

Definition total {A} (m : PM A) : Prop := ∀ s, ∃ r s', m s = Ret (r, s').

Lemma total_ret {A} (r : result PerceptionError A) : total (mret (M:=ST PState) r).
Proof. intros s. by eexists _, _. Qed.
Lemma total_bind {S A B} (m : ST S A) (f : A → ST S B) :
  (∀ s, ∃ r s', m s = Ret (r, s')) → (∀ a s, ∃ r s', f a s = Ret (r, s')) →
  ∀ s, ∃ r s', (m ≫= f) s = Ret (r, s').
Proof.
  intros Hm Hf s. destruct (Hm s) as (a & s1 & Ha). destruct (Hf a s1) as (b & s2 & Hb).
  exists b, s2. apply ST_bind_Ret. eauto.
Qed.
Lemma total_sbind {A B} (m : PM A) (f : A → PM B) :
  total m → (∀ a, total (f a)) → total (sbind m f).
Proof.
  intros Hm Hf. unfold total, sbind. apply total_bind; [done|].
  intros [a|e] s; [apply Hf|by eexists _, _].
Qed.
Lemma total_sbind_Some {A B} (a : A) e (f : A → PM B) :
  total (f a) → total (sbind (mret (M:=ST PState) (ok_or (Some a) e)) f).
Proof. intros Hf s. apply Hf. Qed.
Lemma total_sbind_None {A B} e (f : A → PM B) :
  total (sbind (mret (M:=ST PState) (ok_or None e)) f).
Proof. intros s. by eexists _, _. Qed.
Lemma total_modify {A} (g : PState → PState) (k : PM A) :
  total k → total (mbind (M:=ST PState) (λ _, k) (modify g)).
Proof. intros Hk. unfold total. apply total_bind; [intros s; by eexists _, _|]. intros _. apply Hk. Qed.
Lemma total_get {A} (k : PState → PM A) : (∀ s, total (k s)) → total (mbind (M:=ST PState) k get).
Proof. intros Hk. unfold total. apply total_bind; [intros s; by eexists _, _|]. intros s. apply Hk. Qed.
Lemma total_slift {A} (m : outcome (result PerceptionError A)) :
  (∃ r, m = Ret r) → total (slift m).
Proof. intros [r ->] s. by eexists _, _. Qed.

Ltac total := cbv zeta; repeat lazymatch goal with
  | |- total (sok _) => apply total_ret
  | |- total (serr _) => apply total_ret
  | |- total (mret _) => apply total_ret
  | |- total (sbind _ _) => apply total_sbind; [|intros ?]
  | |- total (mbind _ (modify _)) => apply total_modify
  | |- total (mbind _ get) => apply total_get; intros ?
  | |- total (slift _) => apply total_slift
  | |- total (match ?x with _ => _ end) => destruct x
  end.

Lemma pixel_rgb_total frame x y : frame_wf frame → ∃ r, pixel_rgb frame x y = Ret r.
Proof.
  intros Hf. destruct (decide (0 ≤ x < rw (bounds frame) ∧ 0 ≤ y < rh (bounds frame))%Z) as [[]|Hn].
  - destruct (pixel_rgb_in_range frame x y) as (? & ? & ? & _ & _ & _ & ->); eauto.
  - exists (Err RegionOutOfBounds). unfold pixel_rgb, width, height.
    by rewrite decide_True by lia.
Qed.

Section spec.
  Context `{NfcOps, RyuOps, ImageOps}.

Lemma crop_rgb_total frame r : frame_wf frame → ∃ x, crop_rgb frame r = Ret x.
Proof. intros Hf. destruct (crop_rgb_spec frame r Hf) as [(_ & img & ->)|(_ & ->)]; eauto. Qed.

Lemma eval_color_at_total p ctx : frame_wf (ctx_frame ctx) → total (eval_color_at p ctx).
Proof.
  intros Hf. unfold eval_color_at. total.
  unfold sample, obind.
  match goal with |- context [pixel_rgb ?f ?a ?b] => destruct (pixel_rgb_total f a b Hf) as [r ->] end.
  simpl. destruct r; eauto.
Qed.

Lemma eval_pixel_diff_total p ctx : frame_wf (ctx_frame ctx) → total (eval_pixel_diff p ctx).
Proof. intros Hf. unfold eval_pixel_diff. total. by apply crop_rgb_total. Qed.

Lemma eval_template_total p ctx : frame_wf (ctx_frame ctx) → total (eval_template p ctx).
Proof.
  intros Hf. unfold eval_template. total; try by apply crop_rgb_total.
  all: destruct (frame_to_rgb_total (ctx_frame ctx) Hf) as [img ->]; eauto.
Qed.

Lemma eval_all_of_total (rec : named) ops ctx d :
  (∀ n, n ∈ ops → total (rec n d)) → total (eval_all_of rec ops ctx d).
Proof.
  intros Hr. induction ops as [|n ops IH]; simpl; total; [apply Hr; by left|].
  apply IH. intros m Hm. apply Hr. by right.
Qed.
Lemma eval_any_of_total (rec : named) ops ctx d :
  (∀ n, n ∈ ops → total (rec n d)) → total (eval_any_of rec ops ctx d).
Proof.
  intros Hr. induction ops as [|n ops IH]; simpl; total; [apply Hr; by left|].
  apply IH. intros m Hm. apply Hr. by right.
Qed.
Lemma eval_not_total (rec : named) n ctx d : total (rec n d) → total (eval_not rec n ctx d).
Proof. intros Hr. unfold eval_not. by total. Qed.
Lemma eval_elapsed_total (rec : named) p ctx :
  (∀ n, n ∈ edges_of p → total (rec n 0)) → total (eval_elapsed rec p ctx).
Proof. intros Hr. unfold eval_elapsed. total. apply Hr. by left. Qed.

Lemma dispatch_total (rec : named) p ctx :
  frame_wf (ctx_frame ctx) → (∀ n, n ∈ edges_of p → total (rec n 0)) →
  total (dispatch rec p ctx).
Proof.
  intros Hf Hr. destruct p;
    unfold dispatch, AllOfEvaluator_evaluate, AnyOfEvaluator_evaluate, NotEvaluator_evaluate;
    auto using eval_color_at_total, eval_pixel_diff_total, eval_template_total,
      eval_all_of_total, eval_any_of_total, eval_elapsed_total.
  apply eval_not_total, Hr. by left.
Qed.

Lemma dispatch_leaf_total (rec : named) p ctx :
  frame_wf (ctx_frame ctx) → (∀ n, n ∈ edges_of p → total (rec n 0)) →
  total (dispatch_leaf rec p ctx).
Proof.
  intros Hf Hr. destruct p; unfold dispatch_leaf;
    auto using eval_color_at_total, eval_pixel_diff_total, eval_template_total,
      eval_elapsed_total, dispatch_total.
Qed.

(** The names on the way down are distinct nodes of an acyclic graph, so there
    are never more of them than predicates. *)
Lemma evaluate_named_with_depth_total fuel ctx l name depth :
  frame_wf (ctx_frame ctx) → acyclic (ctx_predicates ctx) →
  NoDup l → (∀ x, x ∈ l → is_Some (ctx_predicates ctx !! x)) →
  (is_Some (ctx_predicates ctx !! name) →
   ∀ x, x ∈ l → tc (edge (ctx_predicates ctx)) x name) →
  size (ctx_predicates ctx) < length l + fuel →
  total (evaluate_named_with_depth fuel ctx name depth).
Proof.
  intros Hf Ha. revert l name depth. induction fuel as [|fuel IH]; intros l name depth Hnd Hl Hn Hs.
  - exfalso. assert (length l ≤ size (ctx_predicates ctx)); [|lia].
    rewrite <-(length_btree_keys (ctx_predicates ctx)).
    apply submseteq_length, NoDup_submseteq; [done|]. intros x Hx. by apply elem_of_btree_keys, Hl.
  - cbn [evaluate_named_with_depth]. case_decide; [apply total_ret|].
    destruct (ctx_predicates ctx !! name) as [p|] eqn:Hp; [|apply total_sbind_None].
    assert (∀ n d, n ∈ edges_of p → total (evaluate_named_with_depth fuel ctx n d)) as Hch.
    { intros n d Hin. apply (IH (name :: l)).
      - apply NoDup_cons. split; [|done]. intros Hin'. apply (Ha name). by apply Hn.
      - intros x [->|Hx]%elem_of_cons; [by rewrite Hp|by apply Hl].
      - intros Hdef. assert (edge (ctx_predicates ctx) name n) as He by by exists p.
        intros x [->|Hx]%elem_of_cons; [by apply tc_once|].
        trans name; [by apply Hn|by apply tc_once].
      - simpl. lia. }
    apply total_sbind_Some. total; auto using dispatch_leaf_total.
    + apply eval_all_of_total. auto.
    + apply eval_any_of_total. auto.
    + apply eval_not_total, Hch. by left.
Qed.

Lemma evaluate_named_total_acyclic fuel ctx name :
  frame_wf (ctx_frame ctx) → acyclic (ctx_predicates ctx) →
  size (ctx_predicates ctx) ≤ fuel → total (evaluate_named fuel ctx name).
Proof.
  intros Hf Ha Hs. unfold evaluate_named.
  destruct (ctx_predicates ctx !! name) as [p|] eqn:Hp; [|apply total_sbind_None].
  apply total_sbind_Some. total. apply dispatch_total; [done|]. intros n Hn.
  apply (evaluate_named_with_depth_total _ _ [name]); [done..|apply NoDup_singleton| | |simpl; lia].
  - intros x ->%list_elem_of_singleton. by rewrite Hp.
  - intros Hdef x ->%list_elem_of_singleton. apply tc_once. by exists p.
Qed.

(** On a well-formed frame and an acyclic predicate map (what the DSL
    accepts) the facade evaluates any name from any state without panicking
    or diverging: recursion is never deeper than the number of predicates. *)
Theorem evaluate_named_terminates fuel ctx name s :
  frame_wf (ctx_frame ctx) → graph_ok (ctx_predicates ctx) →
  size (ctx_predicates ctx) ≤ fuel →
  ∃ r s', evaluate_named fuel ctx name s = Ret (r, s').
Proof. intros Hf [_ Ha] Hs. by apply evaluate_named_total_acyclic. Qed.

(** *** Evaluation with the cache written out *)

Definition memoised (h : PredicateHash) (m : PM PredicateResult) : PM PredicateResult := λ s,
  match cache s !! h with
  | Some c => Ret (Ok c, s)
  | None =>
      match m s with
      | Ret (Ok r, s1) => Ret (Ok r, cache_insert h r s1)
      | Ret (Err e, s1) => Ret (Err e, s1)
      | Panic => Panic
      | OutOfFuel => OutOfFuel
      end
  end.

Definition lookup_or_run (name : string) (op : option PredicateKind)
    (m : PredicateKind → PM PredicateResult) : PM PredicateResult := λ s,
  match op with
  | None => Ret (Err (UnknownPredicate name), s)
  | Some p =>
      match hash_predicate p with
      | Err e => Ret (Err e, s)
      | Ok h => memoised h (m p) s
      end
  end.

Ltac unfold_run :=
  unfold lookup_or_run, memoised, sbind, sok, serr, mret, ST_ret, mbind, ST_bind, get, modify,
    cache_get, cache_insert; simpl.

Lemma evaluate_named_unfold fuel ctx name s :
  evaluate_named fuel ctx name s =
  lookup_or_run name (ctx_predicates ctx !! name)
    (λ p, dispatch (evaluate_named_with_depth fuel ctx) p ctx) s.
Proof.
  unfold evaluate_named. destruct (ctx_predicates ctx !! name) as [p|]; unfold_run; [|done].
  destruct (hash_predicate p) as [h|e]; unfold_run; [|done].
  destruct (cache s !! h); [done|].
  by destruct (dispatch _ p ctx s) as [[[r|e] s1]| |].
Qed.

Definition eval_at_depth (fuel : nat) (ctx : EvalCtx) (depth : nat) (p : PredicateKind)
    : PM PredicateResult :=
  let rec := evaluate_named_with_depth fuel ctx in
  match p with
  | AllOf operands => eval_all_of rec operands ctx (depth + 1)
  | AnyOf operands => eval_any_of rec operands ctx (depth + 1)
  | NotP operand => eval_not rec operand ctx (depth + 1)
  | _ => dispatch_leaf rec p ctx
  end.

Lemma evaluate_named_with_depth_unfold fuel ctx name depth s :
  depth < MAX_RECURSION_DEPTH →
  evaluate_named_with_depth (S fuel) ctx name depth s =
  lookup_or_run name (ctx_predicates ctx !! name) (eval_at_depth fuel ctx depth) s.
Proof.
  intros Hd. cbn [evaluate_named_with_depth]. rewrite decide_False by lia.
  destruct (ctx_predicates ctx !! name) as [p|]; unfold_run; [|done].
  destruct (hash_predicate p) as [h|e]; unfold_run; [|done].
  destruct (cache s !! h); [done|]. unfold eval_at_depth.
  destruct p; unfold sbind, mbind, ST_bind;
    match goal with |- context [match ?m s with _ => _ end] => by destruct (m s) as [[[r|e] s1]| |] end.
Qed.

(** A successful evaluation is memoised: until the cache is cleared, any
    context (another frame, another time, even another program) in which the
    name is bound to the same predicate gets the same result back and leaves
    the state untouched. *)
Theorem evaluate_named_memo fuel ctx name s r s' fuel' ctx' name' :
  evaluate_named fuel ctx name s = Ret (Ok r, s') →
  ctx_predicates ctx' !! name' = ctx_predicates ctx !! name →
  evaluate_named fuel' ctx' name' s' = Ret (Ok r, s').
Proof.
  rewrite !evaluate_named_unfold. intros He ->.
  destruct (ctx_predicates ctx !! name) as [p|]; [|done]. unfold lookup_or_run in *.
  destruct (hash_predicate p) as [h|e]; [|done]. unfold memoised in *.
  destruct (cache s !! h) as [c|] eqn:Hc; [simplify_eq; by rewrite Hc|].
  destruct (dispatch _ p ctx s) as [[[r'|e] s1]| |]; simplify_eq. simpl.
  by rewrite lookup_insert_eq.
Qed.

(** ** The meaning of logical predicates *)

Section logical.
  Variable ctx : EvalCtx.

(** The truth of a predicate that looks at the frame only. *)
Definition leaf_truth (p : PredicateKind) : option bool :=
  match p with
  | ColorAt _ _ _ =>
      match eval_color_at p ctx Perception_new with Ret (Ok r, _) => Some (truthy r) | _ => None end
  | Template _ _ _ _ =>
      match eval_template p ctx Perception_new with Ret (Ok r, _) => Some (truthy r) | _ => None end
  | _ => None
  end.

(** The reference semantics: every operand is looked at, nothing is cached.
    [n] bounds the nesting. *)
Fixpoint den (n : nat) (name : string) : option bool :=
  match n with
  | 0 => None
  | S n =>
      p ← ctx_predicates ctx !! name;
      match p with
      | AllOf ops => forallb id <$> mapM (den n) ops
      | AnyOf ops => existsb id <$> mapM (den n) ops
      | NotP op => negb <$> den n op
      | _ => leaf_truth p
      end
  end.

(** The denotation of a bound predicate only depends on the predicate. *)
Definition den_pred (n : nat) (p : PredicateKind) : option bool :=
  match p with
  | AllOf ops => forallb id <$> mapM (den n) ops
  | AnyOf ops => existsb id <$> mapM (den n) ops
  | NotP op => negb <$> den n op
  | _ => leaf_truth p
  end.

Lemma den_S n name : den (S n) name = (p ← ctx_predicates ctx !! name; den_pred n p).
Proof. done. Qed.

Lemma mapM_mono {A B} (f g : A → option B) l k :
  (∀ x b, f x = Some b → g x = Some b) → mapM f l = Some k → mapM g l = Some k.
Proof.
  intros Hfg. rewrite !mapM_Some. intros Hl. eapply Forall2_impl; [done|]. simpl. auto.
Qed.

Lemma den_mono n n' name b : n ≤ n' → den n name = Some b → den n' name = Some b.
Proof.
  revert n' name b. induction n as [|n IH]; intros n' name b Hn; [done|].
  destruct n' as [|n']; [lia|]. rewrite !den_S.
  destruct (ctx_predicates ctx !! name) as [p|]; [|done]. simpl.
  assert (∀ x c, den n x = Some c → den n' x = Some c) as Hm by (intros; apply IH; [lia|done]).
  destruct p as [| | |ops|ops|op|]; simpl; try done.
  - intros (k & Hk & ->)%fmap_Some. by rewrite (mapM_mono _ _ _ _ Hm Hk).
  - intros (k & Hk & ->)%fmap_Some. by rewrite (mapM_mono _ _ _ _ Hm Hk).
  - intros (c & Hc & ->)%fmap_Some. by rewrite (Hm _ _ Hc).
Qed.

Lemma den_det n n' name b b' : den n name = Some b → den n' name = Some b' → b = b'.
Proof.
  intros Hb Hb'. apply (den_mono n (n `max` n')) in Hb; [|lia].
  apply (den_mono n' (n `max` n')) in Hb'; [|lia]. congruence.
Qed.

(** What is cached under the hash of a bound predicate is its meaning. *)
Definition coherent (s : PState) : Prop :=
  ∀ name p h r n b,
    ctx_predicates ctx !! name = Some p → hash_predicate p = Ok h → cache s !! h = Some r →
    den n name = Some b → truthy r = b.

(** Different predicates of the program have different hashes. *)
Definition collision_free : Prop :=
  ∀ x y p q, ctx_predicates ctx !! x = Some p → ctx_predicates ctx !! y = Some q →
    hash_predicate p = hash_predicate q → p = q.

Lemma coherent_clear s : coherent (clear s).
Proof. intros name p h r n b _ _ Hc. simpl in Hc. by rewrite lookup_empty in Hc. Qed.

Lemma coherent_insert s name p h r n b :
  collision_free → coherent s → ctx_predicates ctx !! name = Some p →
  hash_predicate p = Ok h → den n name = Some b → truthy r = b →
  coherent (cache_insert h r s).
Proof.
  intros Hcf Hs Hp Hh Hd Hr name' p' h' r' n' b' Hp' Hh' Hc Hd'. simpl in Hc.
  destruct (decide (h' = h)) as [->|].
  - rewrite lookup_insert_eq in Hc. simplify_eq.
    assert (p = p') as <- by (apply (Hcf name name'); congruence).
    apply (den_det (S (n `max` n')) (S (n `max` n')) name).
    + apply (den_mono n); [lia|done].
    + apply (den_mono n' (S (n `max` n'))) in Hd'; [|lia].
      rewrite den_S in *. by rewrite Hp, Hp' in *.
  - rewrite lookup_insert_ne in Hc by done. by eapply Hs.
Qed.

(** Frame-only evaluators do not touch the state. *)
Definition stateless {A} (m : PM A) : Prop :=
  ∀ s, m s = (m Perception_new ≫= λ rs, Ret (rs.1, s)).

Lemma stateless_ret {A} (r : result PerceptionError A) : stateless (mret (M:=ST PState) r).
Proof. done. Qed.
Lemma stateless_slift {A} (m : outcome (result PerceptionError A)) : stateless (slift m).
Proof. intros s. unfold slift. by destruct m. Qed.
Lemma stateless_sbind {A B} (m : PM A) (f : A → PM B) :
  stateless m → (∀ a, stateless (f a)) → stateless (sbind m f).
Proof.
  intros Hm Hf s. pose proof (Hm Perception_new) as Hm0.
  assert (∀ s, sbind m f s = match m s with
    | Ret (Ok a, s1) => f a s1 | Ret (Err e, s1) => Ret (Err e, s1)
    | Panic => Panic | OutOfFuel => OutOfFuel end) as Hsb.
  { intros s'. unfold sbind, mbind, ST_bind. by destruct (m s') as [[[]]| |]. }
  rewrite !Hsb, (Hm s). destruct (m Perception_new) as [[[a|e] s0]| |]; simpl in *; simplify_eq;
    [apply Hf|done..].
Qed.

Ltac stateless := cbv zeta; repeat lazymatch goal with
  | |- stateless (sok _) => apply stateless_ret
  | |- stateless (serr _) => apply stateless_ret
  | |- stateless (mret _) => apply stateless_ret
  | |- stateless (sbind _ _) => apply stateless_sbind; [|intros ?]
  | |- stateless (slift _) => apply stateless_slift
  | |- stateless (match ?x with _ => _ end) => destruct x
  end.

Lemma leaf_eval p s b :
  leaf_truth p = Some b →
  ∃ r, (∀ rec, dispatch rec p ctx s = Ret (Ok r, s)) ∧
       (∀ rec, dispatch_leaf rec p ctx s = Ret (Ok r, s)) ∧ truthy r = b.
Proof.
  assert (∀ (m : PM PredicateResult), stateless m →
    (match m Perception_new with Ret (Ok r, _) => Some (truthy r) | _ => None end) = Some b →
    ∃ r, m s = Ret (Ok r, s) ∧ truthy r = b) as Hpure.
  { intros m Hm Hb. rewrite (Hm s). destruct (m Perception_new) as [[[r|e] s']| |]; simplify_eq.
    simpl. eauto. }
  destruct p; simpl; try done; intros Hb.
  - destruct (Hpure (eval_template (Template image confidence region throttle_ms) ctx))
      as (r & ? & ?); [unfold eval_template; by stateless|done|eauto].
  - destruct (Hpure (eval_color_at (ColorAt point rgb tolerance) ctx))
      as (r & ? & ?); [unfold eval_color_at; by stateless|done|eauto].
Qed.

(** Short-circuit evaluation of the operands agrees with looking at all. *)
Section operands.
  Variables (rec : named) (d n : nat).
  Hypothesis Hrec : ∀ s name b, coherent s → den n name = Some b →
    ∃ r s', rec name d s = Ret (Ok r, s') ∧ truthy r = b ∧ coherent s'.

Lemma all_of_den ops bs s :
  coherent s → mapM (den n) ops = Some bs →
  ∃ r s', eval_all_of rec ops ctx d s = Ret (Ok r, s') ∧ truthy r = forallb id bs ∧ coherent s'.
Proof.
  intros Hs. rewrite mapM_Some. intros Hl. revert s Hs.
  induction Hl as [|x b ops bs Hx Hl IH]; intros s Hs; simpl; [eauto|].
  destruct (Hrec s x b Hs Hx) as (r & s' & Hr & Hb & Hs').
  unfold sbind, mbind, ST_bind. rewrite Hr. simpl. rewrite Hb.
  destruct b; simpl; [by apply IH|eauto].
Qed.

Lemma any_of_den ops bs s :
  coherent s → mapM (den n) ops = Some bs →
  ∃ r s', eval_any_of rec ops ctx d s = Ret (Ok r, s') ∧ truthy r = existsb id bs ∧ coherent s'.
Proof.
  intros Hs. rewrite mapM_Some. intros Hl. revert s Hs.
  induction Hl as [|x b ops bs Hx Hl IH]; intros s Hs; simpl; [eauto|].
  destruct (Hrec s x b Hs Hx) as (r & s' & Hr & Hb & Hs').
  unfold sbind, mbind, ST_bind. rewrite Hr. simpl. rewrite Hb.
  destruct b; simpl; [eauto|by apply IH].
Qed.

Lemma not_den op b s :
  coherent s → den n op = Some b →
  ∃ r s', eval_not rec op ctx d s = Ret (Ok r, s') ∧ truthy r = negb b ∧ coherent s'.
Proof.
  intros Hs Hd. destruct (Hrec s op b Hs Hd) as (r & s' & Hr & <- & Hs').
  unfold eval_not, sbind, mbind, ST_bind. rewrite Hr. simpl. eexists _, _. split; [done|]. done.
Qed.
End operands.

(** A lookup through the cache gives the meaning if running the predicate does. *)
Lemma lookup_or_run_den n name b m s :
  collision_free → map_Forall (λ _ p, PredicateKind_wf p) (ctx_predicates ctx) →
  coherent s → den (S n) name = Some b →
  (∀ p, ctx_predicates ctx !! name = Some p → den_pred n p = Some b →
    ∃ r s', m p s = Ret (Ok r, s') ∧ truthy r = b ∧ coherent s') →
  ∃ r s', lookup_or_run name (ctx_predicates ctx !! name) m s = Ret (Ok r, s') ∧
    truthy r = b ∧ coherent s'.
Proof.
  intros Hcf Hwf Hs Hd Hm. pose proof Hd as Hd'. rewrite den_S in Hd'.
  destruct (ctx_predicates ctx !! name) as [p|] eqn:Hp; [|done]. simpl in Hd'.
  unfold lookup_or_run.
  assert (∃ h, hash_predicate p = Ok h) as [h Hh].
  { unfold hash_predicate. destruct (predicate_hash_total p) as [h ->]; [by eapply Hwf|]. by exists h. }
  rewrite Hh. unfold memoised. destruct (cache s !! h) as [r|] eqn:Hc; [by eauto 6|].
  destruct (Hm p eq_refl Hd') as (r & s' & -> & Hr & Hs').
  eexists _, _. split; [done|]. split; [done|]. by eapply coherent_insert.
Qed.

Lemma evaluate_named_with_depth_den fuel n name depth b s :
  collision_free → map_Forall (λ _ p, PredicateKind_wf p) (ctx_predicates ctx) →
  coherent s → den n name = Some b → n ≤ fuel → n + depth ≤ MAX_RECURSION_DEPTH →
  ∃ r s', evaluate_named_with_depth fuel ctx name depth s = Ret (Ok r, s') ∧
    truthy r = b ∧ coherent s'.
Proof.
  intros Hcf Hwf. revert n name depth b s.
  induction fuel as [|fuel IH]; intros [|n] name depth b s Hs Hd Hf Hdep; [done|lia|done|].
  rewrite evaluate_named_with_depth_unfold by lia.
  apply (lookup_or_run_den n); try done. intros p Hp Hdp.
  assert (∀ s name b, coherent s → den n name = Some b →
    ∃ r s', evaluate_named_with_depth fuel ctx name (depth + 1) s = Ret (Ok r, s') ∧
      truthy r = b ∧ coherent s') as Hrec.
  { intros s' name' b' Hs' Hd'. by apply (IH n); [..|lia|lia]. }
  unfold eval_at_depth.
  destruct p as [| | |ops|ops|op|]; cbn [den_pred] in Hdp;
    try (destruct (leaf_eval _ s b Hdp) as (r & _ & Hr & ?); by eauto).
  - apply fmap_Some in Hdp as (bs & Hbs & ->). by eapply all_of_den.
  - apply fmap_Some in Hdp as (bs & Hbs & ->). by eapply any_of_den.
  - apply fmap_Some in Hdp as (c & Hc & ->). by eapply not_den.
Qed.

Lemma evaluate_named_den fuel n name b s :
  collision_free → map_Forall (λ _ p, PredicateKind_wf p) (ctx_predicates ctx) →
  coherent s → den n name = Some b → n ≤ S fuel → n ≤ S MAX_RECURSION_DEPTH →
  ∃ r s', evaluate_named fuel ctx name s = Ret (Ok r, s') ∧ truthy r = b ∧ coherent s'.
Proof.
  intros Hcf Hwf Hs Hd Hf Hdep. destruct n as [|n]; [done|].
  rewrite evaluate_named_unfold. apply (lookup_or_run_den n); try done. intros p Hp Hdp.
  assert (∀ s name b, coherent s → den n name = Some b →
    ∃ r s', evaluate_named_with_depth fuel ctx name 0 s = Ret (Ok r, s') ∧
      truthy r = b ∧ coherent s') as Hrec.
  { intros s' name' b' Hs' Hd'. by apply (evaluate_named_with_depth_den _ n); [..|lia|lia]. }
  destruct p as [| | |ops|ops|op|]; cbn [den_pred] in Hdp;
    try (destruct (leaf_eval _ s b Hdp) as (r & Hr & _ & ?); by eauto);
    unfold dispatch, AllOfEvaluator_evaluate, AnyOfEvaluator_evaluate, NotEvaluator_evaluate.
  - apply fmap_Some in Hdp as (bs & Hbs & ->). by eapply all_of_den.
  - apply fmap_Some in Hdp as (bs & Hbs & ->). by eapply any_of_den.
  - apply fmap_Some in Hdp as (c & Hc & ->). by eapply not_den.
Qed.

(** Any sequence of evaluations in one tick. *)
Fixpoint evaluate_all (fuel : nat) (names : list string) : PM (list bool) :=
  match names with
  | [] => sok []
  | name :: names =>
      r ←! evaluate_named fuel ctx name; rs ←! evaluate_all fuel names; sok (truthy r :: rs)
  end.

End logical.

(** C22: starting from a cleared cache, any sequence of evaluations of the
    predicates of one program over frame predicates and [all_of], [any_of],
    [not] returns exactly their boolean meaning: short-circuiting, the order of
    evaluation and the shared cache are invisible (nesting up to 33 levels,
    no two predicates of the program sharing a hash). *)
Theorem evaluate_all_den ctx fuel n names bs s :
  collision_free ctx → map_Forall (λ _ p, PredicateKind_wf p) (ctx_predicates ctx) →
  n ≤ S MAX_RECURSION_DEPTH → n ≤ S fuel →
  mapM (den ctx n) names = Some bs →
  ∃ s', evaluate_all ctx fuel names (clear s) = Ret (Ok bs, s').
Proof.
  intros Hcf Hwf Hn Hf Hm. apply mapM_Some in Hm.
  assert (∀ s, coherent ctx s → ∃ s', evaluate_all ctx fuel names s = Ret (Ok bs, s')) as Hall;
    [|apply Hall, coherent_clear].
  clear s. induction Hm as [|x b names bs Hx Hm IH]; intros s Hs; simpl; [by eauto|].
  destruct (evaluate_named_den ctx fuel n x b s) as (r & s1 & Hr & <- & Hs1); [done..|].
  destruct (IH s1 Hs1) as (s2 & H2).
  exists s2. unfold sbind, mbind, ST_bind. rewrite Hr. simpl. rewrite H2. done.
Qed.
End spec.

(** ** The elapsed-time timer *)

Section elapsed.
  Variables (program : ProgramId) (child : string) (ms : Z).

Definition timer_key : ProgramPredKey :=
  {| key_program := program; key_predicate := child |}.

(** One evaluation of the timer at time [t] with a child that answers [b]; the
    evaluation of the child and everything between two evaluations may change
    the state but for this timer. *)
Inductive timer_tick (s : PState) (t : Z) (b : bool) (r : PredicateResult) (s' : PState) : Prop :=
  | timer_tick_intro (rec : named) (ctx : EvalCtx) (c : PredicateResult) (mid : PState) :
      now_ms ctx = t → ctx_program ctx = Some program →
      rec child 0 s = Ret (Ok c, mid) → truthy c = b →
      first_true mid !! timer_key = first_true s !! timer_key →
      eval_elapsed rec (ElapsedMsSinceTrue child ms) ctx s = Ret (Ok r, s') →
      timer_tick s t b r s'.

(** The evaluations so far, newest first, each with its time and the truth of
    the child. *)
Inductive timer_run : list (Z * bool) → PState → Prop :=
  | timer_init s : first_true s !! timer_key = None → timer_run [] s
  | timer_step h s s0 t b r s' :
      timer_run h s → first_true s0 !! timer_key = first_true s !! timer_key →
      timer_tick s0 t b r s' → timer_run ((t, b) :: h) s'.

(** The start of the current run of truthy evaluations. *)
Fixpoint run_start (h : list (Z * bool)) : option Z :=
  match h with
  | (t, true) :: h => Some (default t (run_start h))
  | _ => None
  end.

Lemma timer_tick_spec s t b r s' :
  timer_tick s t b r s' →
  first_true s' !! timer_key =
    (if b then Some (default t (first_true s !! timer_key)) else None) ∧
  (truthy r = true ↔ b = true ∧
    (ms ≤ saturating_sub_i64 t (default t (first_true s !! timer_key)))%Z).
Proof.
  intros [rec ctx c s1 Hnow Hprog Hc Hb Hfr He]. unfold eval_elapsed in He.
  rewrite Hprog in He. unfold sbind, sok, mret, ST_ret, mbind, ST_bind in He. simpl in He.
  rewrite Hc in He. simpl in He. rewrite Hb in He. subst t.
  destruct b; unfold modify, get, set_first_true_at, clear_first_true_at, first_true_at in He;
    simpl in He; fold timer_key in He.
  - rewrite Hfr in He. destruct (first_true s !! timer_key) as [t0|] eqn:Ht0; simpl in He.
    + rewrite Hfr in He. simplify_eq. simpl. split; [by rewrite Hfr|].
      rewrite Z.leb_le. naive_solver.
    + rewrite lookup_insert_eq in He. simplify_eq. simpl. split; [by rewrite lookup_insert_eq|].
      rewrite Z.leb_le. naive_solver.
  - simplify_eq. simpl. split; [by rewrite lookup_delete_eq|naive_solver].
Qed.

Lemma timer_run_start h s : timer_run h s → first_true s !! timer_key = run_start h.
Proof.
  induction 1 as [s Hs|h s s0 t b r s' _ IH Hs0 Ht]; [done|].
  apply timer_tick_spec in Ht as [-> _]. rewrite Hs0, IH. by destruct b.
Qed.

(** Times do not go back: newest first, they decrease. *)
Definition newest_first (h : list (Z * bool)) : Prop :=
  StronglySorted (λ p q, q.1 ≤ p.1)%Z h.

Lemma run_start_le h t0 :
  newest_first h → run_start h = Some t0 →
  ∃ recent old, h = recent ++ (t0, true) :: old ∧ Forall (λ e, e.2 = true) recent ∧
    Forall (λ e, t0 ≤ e.1)%Z recent.
Proof.
  intros Hs. revert t0. induction Hs as [|[t []] h Hs IH Hall]; intros t0; simpl; try done.
  intros [= <-]. destruct (run_start h) as [t1|] eqn:Hr; simpl; [|by exists [], h].
  destruct (IH t1 eq_refl) as (recent & old & -> & Hr1 & Hr2).
  exists ((t, true) :: recent), old. split_and!; [done|by constructor|].
  constructor; [|done]. apply Forall_app in Hall as [_ Hall]. by apply Forall_cons in Hall as [? _].
Qed.

Lemma run_start_min h recent t0 old :
  newest_first h → h = recent ++ (t0, true) :: old → Forall (λ e, e.2 = true) recent →
  ∃ t1, run_start h = Some t1 ∧ (t1 ≤ t0)%Z.
Proof.
  intros Hs -> Hr. induction Hr as [|[t []] recent Ht Hr IH]; simpl in *; try done.
  - eexists. split; [done|]. inversion Hs as [|? ? Hs' Hall]; subst.
    destruct (run_start old) as [t1|] eqn:Ho; simpl; [|done].
    destruct (run_start_le old t1 Hs' Ho) as (rc & o & -> & _ & _).
    apply Forall_app in Hall as [_ Hall]. by apply Forall_cons in Hall as [? _].
  - inversion Hs; subst. destruct IH as (t1 & -> & ?); [done|]. simpl. eauto.
Qed.
End elapsed.

(** After any history of evaluations at non-decreasing times, the timer of
    [elapsed_ms_since_true] answers true at time [t] exactly when the child has
    been true at every evaluation from some [t0] with [t0 + ms <= t] up to now;
    one false answer restarts it. *)
Theorem elapsed_correct program child ms h s s0 t b r s' :
  timer_run program child ms h s →
  first_true s0 !! timer_key program child = first_true s !! timer_key program child →
  timer_tick program child ms s0 t b r s' →
  newest_first ((t, b) :: h) → Forall (λ e, in_i64 e.1) ((t, b) :: h) → in_u32 ms →
  truthy r = true ↔
  ∃ recent t0 old, (t, b) :: h = recent ++ (t0, true) :: old ∧
    Forall (λ e, e.2 = true) recent ∧ (t0 + ms ≤ t)%Z.
Proof.
  intros Hrun Hs0 Ht Hsort Hrange Hms.
  pose proof (timer_run_start _ _ _ _ _ Hrun) as Hst.
  apply timer_tick_spec in Ht as [_ ->]. rewrite Hs0, Hst.
  set (t1 := default t (run_start h)).
  assert (b = true → run_start ((t, b) :: h) = Some t1) as Hrs by by intros ->.
  assert (∀ x, (ms ≤ saturating_sub_i64 t x)%Z ↔ (x + ms ≤ t)%Z) as Hsat.
  { intros x. unfold_ints. lia. }
  rewrite Hsat. split.
  - intros [Hb Hle]. destruct (run_start_le _ _ Hsort (Hrs Hb)) as (recent & old & Heq & Hr & _).
    by exists recent, t1, old.
  - intros (recent & t0 & old & Heq & Hr & Hle).
    assert (b = true) as Hb.
    { destruct recent as [|[? ?] recent]; simplify_eq/=; [done|]. by apply Forall_cons in Hr as [? _]. }
    destruct (run_start_min _ _ _ _ Hsort Heq Hr) as (t2 & Ht2 & Hle2).
    rewrite (Hrs Hb) in Ht2. simplify_eq. split; [done|lia].
Qed.

(** On a frame whose buffer holds its rows, no pixel access can run past
    the buffer: single pixels are read or refused, cropping succeeds exactly
    when the region overlaps the frame and reports [RegionOutOfBounds]
    otherwise, and the whole frame can always be converted. *)
Theorem frame_access_safe `{ImageOps} f r :
  frame_wf f →
  (∀ x y, ∃ res, pixel_rgb f x y = Ret res) ∧
  ((∃ img, crop_rgb f r = Ret (Ok img)) ↔ overlaps f r) ∧
  (¬ overlaps f r → crop_rgb f r = Ret (Err RegionOutOfBounds)) ∧
  ∃ img, frame_to_rgb f = Ret (Ok img).
Proof.
  intros Hf. split_and!.
  - intros. by apply pixel_rgb_total.
  - destruct (crop_rgb_spec f r Hf) as [(? & ?)|(? & ->)]; naive_solver.
  - destruct (crop_rgb_spec f r Hf) as [(? & ?)|(? & ->)]; naive_solver.
  - by apply frame_to_rgb_total.
Qed.

(** ** Concrete instances for the witnesses *)

(** Images as their size and pixels in writing order. *)
Definition demo_image_ops : ImageOps := {|
  RgbImage := Z * Z * list Rgb;
  GrayImage := Z * Z * list Z;
  rgb_new w h := (w, h, []);
  put_pixel _ _ c img := (img.1, img.2 ++ [c]);
  grayscale img := (img.1, map green img.2);
  load_luma8 bytes :=
    match bytes with w :: h :: px => Ok (w, h, px) | _ => Err "truncated" end;
  gray_width img := img.1.1;
  gray_height img := img.1.2;
  resize_9x8 img := img;
  gray_pixel img x y := default 0%Z (img.2 !! Z.to_nat (y * img.1.1 + x));
  best_match _ _ := (f64_of_Z 1, (0, 0)%Z);
|}.
#[local] Existing Instance demo_image_ops.
#[local] Existing Instance nfc_id.
#[local] Existing Instance sci_ops.

Definition demo_preds : Predicates :=
  {[ "seen" := ColorAt (mkPoint 0 0) (mkRgb 30 20 10) 5; "gone" := NotP "seen";
     "both" := AllOf ["seen"; "gone"] ]}.
Definition demo_ctx : EvalCtx := {|
  ctx_frame := demo_frame; now_ms := 1000; ctx_predicates := demo_preds; assets := ∅;
  ctx_program := Some (mkProgramId 7) |}.

(** Reading a result off a run without naming the final state. *)
Definition returns {S E A} `{EqDecision A} (m : outcome (result E A * S)) (r : A) : bool :=
  match m with Ret (Ok r', _) => bool_decide (r' = r) | _ => false end.
Lemma returns_Ok {S E A} `{EqDecision A} (m : outcome (result E A * S)) r :
  returns m r = true → ∃ s', m = Ret (Ok r, s').
Proof.
  destruct m as [[[r'|] s']| |]; simpl; try done. intros ->%bool_decide_eq_true. eauto.
Qed.

Lemma demo_frame_wf : frame_wf demo_frame.
Proof. split; simpl; try lia; repeat split; unfold_ints; simpl; lia. Qed.

Lemma frame_access_safe_witness :
  (∃ img, crop_rgb demo_frame (mkRect (-3) (-3) 4 9) = Ret (Ok img)) ∧
  crop_rgb demo_frame (mkRect 1 0 4 9) = Ret (Err RegionOutOfBounds).
Proof.
  split.
  - apply (proj2 (proj1 (proj2 (frame_access_safe demo_frame (mkRect (-3) (-3) 4 9) demo_frame_wf)))).
    split; vm_compute; reflexivity.
  - apply (frame_access_safe demo_frame (mkRect 1 0 4 9) demo_frame_wf).
    vm_compute. intros [Hlt _]. discriminate Hlt.
Defined.

Lemma demo_preds_cases name p :
  demo_preds !! name = Some p →
  p = ColorAt (mkPoint 0 0) (mkRgb 30 20 10) 5 ∨ p = NotP "seen" ∨ p = AllOf ["seen"; "gone"].
Proof.
  unfold demo_preds. rewrite !lookup_insert_Some, lookup_singleton_Some. naive_solver.
Qed.

Lemma evaluate_named_terminates_witness :
  ∃ r s', evaluate_named 3 demo_ctx "both" Perception_new = Ret (r, s').
Proof.
  apply (evaluate_named_terminates 3 demo_ctx "both" Perception_new).
  - exact demo_frame_wf.
  - apply validate_predicate_graph_ok_iff. vm_compute. reflexivity.
  - vm_compute. lia.
Defined.

Lemma evaluate_named_memo_witness :
  ∃ r s', evaluate_named 3 demo_ctx "gone" Perception_new = Ret (Ok r, s') ∧
    evaluate_named 0 (mkEvalCtx demo_frame 2000 {[ "away" := NotP "seen" ]} ∅ None) "away" s'
    = Ret (Ok r, s').
Proof.
  assert (∃ s', evaluate_named 3 demo_ctx "gone" Perception_new
    = Ret (Ok (plain demo_ctx false), s')) as [s' He]
    by (apply returns_Ok; vm_compute; reflexivity).
  exists (plain demo_ctx false), s'. split; [exact He|].
  apply (evaluate_named_memo _ _ _ _ _ _ _ _ _ He). vm_compute. reflexivity.
Defined.

Lemma demo_collision_free : collision_free demo_ctx.
Proof.
  assert (∃ a b c, NoDup [a; b; c] ∧
    hash_predicate (ColorAt (mkPoint 0 0) (mkRgb 30 20 10) 5) = Ok a ∧
    hash_predicate (NotP "seen") = Ok b ∧ hash_predicate (AllOf ["seen"; "gone"]) = Ok c)
    as (a & b & c & Hnd & Ha & Hb & Hc).
  { eexists _, _, _. split_and!; cycle 1; [vm_compute; reflexivity..|].
    apply (bool_decide_unpack _). vm_compute. exact I. }
  rewrite !NoDup_cons, !not_elem_of_cons in Hnd. destruct Hnd as ((? & ? & _) & (? & _) & _).
  unfold collision_free. revert Ha Hb Hc. generalize (@hash_predicate nfc_id sci_ops).
  intros f Ha Hb Hc x y p q [->|[->| ->]]%demo_preds_cases [->|[->| ->]]%demo_preds_cases;
    rewrite ?Ha, ?Hb, ?Hc; congruence.
Qed.

Lemma evaluate_all_den_witness :
  ∃ s', evaluate_all demo_ctx 9 ["both"; "seen"; "gone"] (clear Perception_new)
    = Ret (Ok [false; true; false], s').
Proof.
  apply (evaluate_all_den demo_ctx 9 4 ["both"; "seen"; "gone"] [false; true; false] Perception_new).
  - exact demo_collision_free.
  - intros name p [->|[->| ->]]%demo_preds_cases; simpl; [|done..].
    unfold Point_wf; simpl. unfold_ints. lia.
  - vm_compute. lia.
  - lia.
  - vm_compute. reflexivity.
Defined.

(** A child that has been true since 100 is noticed at 700 for a 500 ms timer. *)
Definition const_child (b : bool) (t : Z) : named := λ _ _,
  sok {| truthy := b; match_data := None; at_ms := t |}.
Definition timer_ctx (t : Z) : EvalCtx := {|
  ctx_frame := demo_frame; now_ms := t; ctx_predicates := ∅; assets := ∅;
  ctx_program := Some (mkProgramId 7) |}.
Definition timer_state (o : option Z) : PState :=
  {| cache := ∅; prior_snapshots := ∅;
     first_true := from_option (λ t, {[ timer_key (mkProgramId 7) "seen" := t ]}) ∅ o |}.

Lemma timer_demo_tick s t r s' :
  eval_elapsed (const_child true t) (ElapsedMsSinceTrue "seen" 500) (timer_ctx t) s = Ret (Ok r, s') →
  timer_tick (mkProgramId 7) "seen" 500 s t true r s'.
Proof.
  intros He. by apply (timer_tick_intro _ _ _ s t true r s' (const_child true t) (timer_ctx t)
    {| truthy := true; match_data := None; at_ms := t |} s).
Qed.

Lemma elapsed_correct_witness :
  timer_tick (mkProgramId 7) "seen" 500 (timer_state (Some 100%Z)) 700 true
    {| truthy := true; match_data := None; at_ms := 700 |} (timer_state (Some 100%Z)) ∧
  ∃ recent t0 old, [(700, true); (100, true)]%Z = recent ++ (t0, true) :: old ∧
    Forall (λ e, e.2 = true) recent ∧ (t0 + 500 ≤ 700)%Z.
Proof.
  assert (timer_tick (mkProgramId 7) "seen" 500 (timer_state (Some 100%Z)) 700 true
    {| truthy := true; match_data := None; at_ms := 700 |} (timer_state (Some 100%Z))) as Ht.
  { apply timer_demo_tick. vm_compute. reflexivity. }
  split; [exact Ht|].
  refine (proj1 (elapsed_correct (mkProgramId 7) "seen" 500 [(100, true)]%Z (timer_state (Some 100%Z))
    (timer_state (Some 100%Z)) 700 true _ _ _ eq_refl Ht _ _ _) eq_refl).
  - apply (timer_step _ _ _ [] (timer_state None) (timer_state None) 100 true
      {| truthy := false; match_data := None; at_ms := 100 |} (timer_state (Some 100%Z)));
      [by constructor|done|].
    apply timer_demo_tick. vm_compute. reflexivity.
  - repeat constructor; simpl; lia.
  - repeat constructor; simpl; unfold_ints; lia.
  - unfold_ints. lia.
Defined.
