(* ===== verification/Input.v ===== *)
(** * Input

    The crate vcli-input: the [InputSink] interface the runtime drives, the
    kill switch, the recording mock that implements the interface, and the key
    vocabulary with its macOS key codes. *)

From S2P Require Import Prelude Digits CoreTypes DslError.
Local Open Scope vcli_scope.

(** ** Errors *)

(* src: crates/vcli-input/src/error.rs 6-40 InputError *)
Inductive InputError :=
  | Halted
  | InputPermissionDenied (detail : string)
  | InputBackend (detail : string)
  | UnknownKey (name : string)
  | InvalidArgument (message : string)
  | Unimplemented.

#[export] Instance InputError_eq_dec : EqDecision InputError.
Proof. solve_decision. Defined.

(* src: crates/vcli-input/src/error.rs 10-39 InputError::fmt *)
Definition InputError_to_string (e : InputError) : string :=
  match e with
  | Halted => "input halted: kill switch is engaged"
  | InputPermissionDenied d => "input permission denied: " +:+ d
  | InputBackend d => "backend failure: " +:+ d
  | UnknownKey n => "unknown key: " +:+ n
  | InvalidArgument m => "invalid input argument: " +:+ m
  | Unimplemented => "not implemented on this platform"
  end.

(* src: crates/vcli-input/src/error.rs 42-53 InputError::to_error_code *)
Definition InputError_to_error_code (e : InputError) : ErrorCode :=
  match e with
  | Halted | InputBackend _ | Unimplemented => InternalCode
  | InputPermissionDenied _ => PermissionDeniedCode
  | UnknownKey _ | InvalidArgument _ => InvalidProgram
  end.

(** ** The sink interface *)

(** A duration in nanoseconds. *)
(* src: crates/vcli-input/src/sink.rs 17-26 DragSegment *)
Record DragSegment := mkDragSegment { seg_to : Point; seg_duration : Z }.

(* src: crates/vcli-input/src/sink.rs 28-97 InputSink *)
Class InputSink := {
  sink : Type;
  mouse_move : Point → ST sink (result InputError ());
  click : Point → Button → list Modifier → Z → ST sink (result InputError ());
  double_click : Point → Button → ST sink (result InputError ());
  drag : Point → list DragSegment → Button → ST sink (result InputError ());
  type_text : string → ST sink (result InputError ());
  key_combo : list Modifier → string → ST sink (result InputError ());
}.

(** Sinks that always return, with or without an error. *)
Class InputSinkTotal `{InputSink} := {
  mouse_move_total p s : ∃ r s', mouse_move p s = Ret (r, s');
  click_total p b m h s : ∃ r s', click p b m h s = Ret (r, s');
  type_text_total t s : ∃ r s', type_text t s = Ret (r, s');
  key_combo_total m k s : ∃ r s', key_combo m k s = Ret (r, s');
}.

(** ** The kill switch *)

(* src: crates/vcli-input/src/kill_switch.rs 12-17 KillSwitch *)
Record KillSwitch := mkKillSwitch { engaged : bool; engaged_at_ns : Z }.

(* src: crates/vcli-input/src/kill_switch.rs 20-24 KillSwitch::new *)
Definition KillSwitch_new : KillSwitch := {| engaged := false; engaged_at_ns := 0 |}.
(** The compare-exchange keeps the first engagement time. *)
(* src: crates/vcli-input/src/kill_switch.rs 26-35 KillSwitch::engage *)
Definition engage (now_ns : Z) (k : KillSwitch) : KillSwitch := {|
  engaged := true;
  engaged_at_ns := if decide (engaged_at_ns k = 0%Z) then now_ns else engaged_at_ns k |}.
(* src: crates/vcli-input/src/kill_switch.rs 37-41 KillSwitch::disengage *)
Definition disengage (k : KillSwitch) : KillSwitch := {| engaged := false; engaged_at_ns := 0 |}.
(* src: crates/vcli-input/src/kill_switch.rs 43-47 KillSwitch::is_engaged *)
Definition is_engaged (k : KillSwitch) : bool := engaged k.

(** ** The recording mock *)

(* src: crates/vcli-input/src/mock.rs 15-48 MockCall *)
Inductive MockCall :=
  | MockAction (a : InputAction)
  | MockDoubleClick (to : Point) (button : Button)
  | MockDrag (from : Point) (to : list Point) (button : Button)
  | MockClickDetailed (to : Point) (button : Button) (modifiers : list Modifier) (hold_ms : Z).

#[export] Instance InputAction_eq_dec : EqDecision InputAction.
Proof. solve_decision. Defined.
#[export] Instance MockCall_eq_dec : EqDecision MockCall.
Proof. solve_decision. Defined.

(* src: crates/vcli-input/src/mock.rs 50-58 MockInputSink *)
Record MockInputSink := mkMockInputSink {
  log : list MockCall;
  kill : KillSwitch;
  forced_error : option string;
}.

(* src: crates/vcli-input/src/mock.rs 67-75 MockInputSink::with_kill_switch *)
Definition with_kill_switch (k : KillSwitch) : MockInputSink :=
  {| log := []; kill := k; forced_error := None |}.
(* src: crates/vcli-input/src/mock.rs 61-65 MockInputSink::new *)
Definition MockInputSink_new : MockInputSink := with_kill_switch KillSwitch_new.
(* src: crates/vcli-input/src/mock.rs 87-94 MockInputSink::drain *)
Definition drain (s : MockInputSink) : list MockCall * MockInputSink :=
  (log s, {| log := []; kill := kill s; forced_error := forced_error s |}).
(* src: crates/vcli-input/src/mock.rs 102-109 MockInputSink::fail_with *)
Definition fail_with (detail : string) (s : MockInputSink) : MockInputSink :=
  {| log := log s; kill := kill s; forced_error := Some detail |}.

(* src: crates/vcli-input/src/mock.rs 111-119 MockInputSink::check *)
Definition check (s : MockInputSink) : result InputError () :=
  if is_engaged (kill s) then Err Halted
  else match forced_error s with Some d => Err (InputBackend d) | None => Ok () end.

(* src: crates/vcli-input/src/mock.rs 121-123 MockInputSink::push *)
Definition push (c : MockCall) (s : MockInputSink) : MockInputSink :=
  {| log := log s ++ [c]; kill := kill s; forced_error := forced_error s |}.

(** [self.check()?; ...; self.push(call); Ok(())] *)
(* src: crates/vcli-input/src/mock.rs 126-131 MockInputSink::mouse_move *)
Definition checked_call (extra : result InputError ()) (c : MockCall)
    : ST MockInputSink (result InputError ()) := λ s,
  match check s with
  | Err e => Ret (Err e, s)
  | Ok _ =>
      match extra with
      | Err e => Ret (Err e, s)
      | Ok _ => Ret (Ok (), push c s)
      end
  end.

(* src: crates/vcli-input/src/mock.rs 126-192 MockInputSink *)
Definition mock_sink : InputSink := {|
  sink := MockInputSink;
  mouse_move to := checked_call (Ok ()) (MockAction (ActMove to));
  click to button modifiers hold_ms :=
    checked_call (Ok ()) (MockClickDetailed to button modifiers hold_ms);
  double_click to button := checked_call (Ok ()) (MockDoubleClick to button);
  drag from segments button :=
    checked_call
      (match segments with
       | [] => Err (InvalidArgument "drag segments must be non-empty")
       | _ => Ok ()
       end) (MockDrag from (map seg_to segments) button);
  type_text text := checked_call (Ok ()) (MockAction (ActType text));
  key_combo modifiers key := checked_call (Ok ()) (MockAction (ActKey key modifiers));
|}.

Lemma checked_call_cases extra c s :
  (∃ e, checked_call extra c s = Ret (Err e, s)) ∨
  (checked_call extra c s = Ret (Ok (), push c s) ∧ is_engaged (kill s) = false).
Proof.
  unfold checked_call, check. destruct (is_engaged (kill s)); [by left; eauto|].
  destruct (forced_error s); [by left; eauto|]. destruct extra; [by right|by left; eauto].
Qed.

#[export] Instance mock_sink_total : @InputSinkTotal mock_sink.
Proof.
  split; intros; simpl;
    match goal with |- ∃ r s', checked_call ?x ?c ?s = _ =>
      destruct (checked_call_cases x c s) as [[e ->]|[-> _]]; eauto end.
Qed.

(** While the kill switch is engaged every method of the mock refuses
    with [Halted] and records nothing; engaging is idempotent and keeps the
    first engagement time. *)
Theorem kill_switch_halts s :
  is_engaged (kill s) = true →
  (∀ p, @mouse_move mock_sink p s = Ret (Err Halted, s)) ∧
  (∀ p b m h, @click mock_sink p b m h s = Ret (Err Halted, s)) ∧
  (∀ p b, @double_click mock_sink p b s = Ret (Err Halted, s)) ∧
  (∀ p l b, @drag mock_sink p l b s = Ret (Err Halted, s)) ∧
  (∀ t, @type_text mock_sink t s = Ret (Err Halted, s)) ∧
  (∀ m k, @key_combo mock_sink m k s = Ret (Err Halted, s)) ∧
  ∀ t1 t2, t1 ≠ 0%Z → engage t2 (engage t1 (kill s)) = engage t1 (kill s).
Proof.
  intros He. unfold mock_sink; simpl. unfold checked_call, check. rewrite He.
  split_and!; try done. intros t1 t2 Ht. unfold engage; simpl.
  repeat case_decide; congruence.
Qed.

Lemma kill_switch_halts_witness :
  @click mock_sink (mkPoint 1 2) LeftButton [] 0
    (with_kill_switch (engage 5 KillSwitch_new))
  = Ret (Err Halted, with_kill_switch (engage 5 KillSwitch_new)).
Proof. apply (kill_switch_halts (with_kill_switch (engage 5 KillSwitch_new))). reflexivity. Defined.

(** ** Keys *)

(** A character is the list of its UTF-8 bytes. *)
(* src: crates/vcli-input/src/keymap.rs 19-53 NamedKey *)
Inductive NamedKey :=
  | KReturn | KTab | KSpace | KEscape | KBackspace | KDelete | KLeft | KRight | KUp | KDown
  | KHome | KEnd | KPageUp | KPageDown | KFunction (n : Z).
(* src: crates/vcli-input/src/keymap.rs 10-17 CanonicalKey *)
Inductive CanonicalKey := KChar (c : list ascii) | KNamed (k : NamedKey).

#[export] Instance NamedKey_eq_dec : EqDecision NamedKey.
Proof. solve_decision. Defined.
#[export] Instance CanonicalKey_eq_dec : EqDecision CanonicalKey.
Proof. solve_decision. Defined.

(** [char::is_whitespace]: the White_Space property, on UTF-8 bytes. *)
Definition is_whitespace (c : list ascii) : bool :=
  match map Ascii.nat_of_ascii c with
  | [n] => (n =? 32) || ((9 <=? n) && (n <=? 13))
  | [194; n] => (n =? 133) || (n =? 160)
  | [225; 154; 128] => true
  | [226; 128; n] => ((128 <=? n) && (n <=? 138)) || (n =? 168) || (n =? 169) || (n =? 175)
  | [226; 129; 159] => true
  | [227; 128; 128] => true
  | _ => false
  end%nat.

Fixpoint drop_whitespace (l : list (list ascii)) : list (list ascii) :=
  match l with c :: l' => if is_whitespace c then drop_whitespace l' else l | [] => [] end.
(** [str::trim] and [to_ascii_lowercase]. *)
Definition trim_chars (l : list (list ascii)) : list (list ascii) :=
  rev (drop_whitespace (rev (drop_whitespace l))).
Definition to_ascii_lowercase (a : ascii) : ascii :=
  let n := Ascii.nat_of_ascii a in
  if decide (65 ≤ n ∧ n ≤ 90) then Ascii.ascii_of_nat (n + 32) else a.
Definition string_of_chars (l : list (list ascii)) : string :=
  String.string_of_list_ascii (concat l).

(* src: crates/vcli-input/src/keymap.rs 79-100 parse *)
Definition named_key (n : string) : option NamedKey :=
  if decide (n = "return" ∨ n = "enter") then Some KReturn
  else if decide (n = "tab") then Some KTab
  else if decide (n = "space") then Some KSpace
  else if decide (n = "escape" ∨ n = "esc") then Some KEscape
  else if decide (n = "backspace") then Some KBackspace
  else if decide (n = "delete" ∨ n = "forward_delete") then Some KDelete
  else if decide (n = "left") then Some KLeft
  else if decide (n = "right") then Some KRight
  else if decide (n = "up") then Some KUp
  else if decide (n = "down") then Some KDown
  else if decide (n = "home") then Some KHome
  else if decide (n = "end") then Some KEnd
  else if decide (n = "page_up" ∨ n = "pageup") then Some KPageUp
  else if decide (n = "page_down" ∨ n = "pagedown") then Some KPageDown
  else None.

(* src: crates/vcli-input/src/keymap.rs 55-102 parse *)
Definition parse_key (name : string) : result InputError CanonicalKey :=
  let cs := map (map to_ascii_lowercase) (trim_chars (chars name)) in
  let n := string_of_chars cs in
  if string_is_empty n then Err (UnknownKey name)
  else
    let function :=
      rest ← strip_prefix "f" n; num ← parse_u8 rest;
      if decide (1 ≤ num ≤ 12)%Z then Some (KFunction num) else None in
    match function with
    | Some f => Ok (KNamed f)
    | None =>
        match named_key n with
        | Some k => Ok (KNamed k)
        | None => match cs with [c] => Ok (KChar c) | _ => Err (UnknownKey name) end
        end
    end.

(* src: crates/vcli-input/src/keymap.rs 147-200 ascii_to_macos_keycode *)
Definition ascii_keycodes : list (ascii * Z) :=
  [("a", 0x00); ("s", 0x01); ("d", 0x02); ("f", 0x03); ("h", 0x04); ("g", 0x05);
   ("z", 0x06); ("x", 0x07); ("c", 0x08); ("v", 0x09); ("b", 0x0B); ("q", 0x0C);
   ("w", 0x0D); ("e", 0x0E); ("r", 0x0F); ("y", 0x10); ("t", 0x11); ("1", 0x12);
   ("2", 0x13); ("3", 0x14); ("4", 0x15); ("6", 0x16); ("5", 0x17); ("=", 0x18);
   ("9", 0x19); ("7", 0x1A); ("-", 0x1B); ("8", 0x1C); ("0", 0x1D); ("]", 0x1E);
   ("o", 0x1F); ("u", 0x20); ("[", 0x21); ("i", 0x22); ("p", 0x23); ("l", 0x25);
   ("j", 0x26); ("'", 0x27); ("k", 0x28); (";", 0x29); ("\", 0x2A); (",", 0x2B);
   ("/", 0x2C); ("n", 0x2D); ("m", 0x2E); (".", 0x2F); ("`", 0x32)]%char%Z.

(* src: crates/vcli-input/src/keymap.rs 104-145 macos_keycode *)
Definition macos_keycode (k : CanonicalKey) : option Z :=
  match k with
  | KNamed KReturn => Some 0x24
  | KNamed KTab => Some 0x30
  | KNamed KSpace => Some 0x31
  | KNamed KBackspace => Some 0x33
  | KNamed KEscape => Some 0x35
  | KNamed KDelete => Some 0x75
  | KNamed KHome => Some 0x73
  | KNamed KEnd => Some 0x77
  | KNamed KPageUp => Some 0x74
  | KNamed KPageDown => Some 0x79
  | KNamed KLeft => Some 0x7B
  | KNamed KRight => Some 0x7C
  | KNamed KDown => Some 0x7D
  | KNamed KUp => Some 0x7E
  | KNamed (KFunction 1) => Some 0x7A
  | KNamed (KFunction 2) => Some 0x78
  | KNamed (KFunction 3) => Some 0x63
  | KNamed (KFunction 4) => Some 0x76
  | KNamed (KFunction 5) => Some 0x60
  | KNamed (KFunction 6) => Some 0x61
  | KNamed (KFunction 7) => Some 0x62
  | KNamed (KFunction 8) => Some 0x64
  | KNamed (KFunction 9) => Some 0x65
  | KNamed (KFunction 10) => Some 0x6D
  | KNamed (KFunction 11) => Some 0x67
  | KNamed (KFunction 12) => Some 0x6F
  | KNamed (KFunction _) => None
  | KChar [a] => (λ ie, ie.2.2) <$> list_find (λ e, e.1 = a) ascii_keycodes
  | KChar _ => None
  end%Z.

(** The codes in use, with their keys. *)
Definition key_table : list (CanonicalKey * Z) :=
  ((λ e, (KChar [e.1], e.2)) <$> ascii_keycodes)
  ++ omap (λ k, (λ c, (KNamed k, c)) <$> macos_keycode (KNamed k))
      ([KReturn; KTab; KSpace; KEscape; KBackspace; KDelete; KLeft; KRight; KUp; KDown;
        KHome; KEnd; KPageUp; KPageDown] ++ (KFunction <$> seqZ 1 12)).

Lemma macos_keycode_table k c : macos_keycode k = Some c → (k, c) ∈ key_table.
Proof.
  unfold key_table. rewrite elem_of_app. destruct k as [l|k]; intros Hk.
  - left. destruct l as [|a [|b l]]; try done.
    apply fmap_Some in Hk as ([i [a' c']] & Hf & ->).
    apply list_find_Some in Hf as (Hl & Ha & _). simpl in Ha. subst a'.
    apply list_elem_of_lookup_2 in Hl. apply list_elem_of_fmap. by exists (a, c').
  - right. apply list_elem_of_omap. exists k. rewrite Hk. split; [|done].
    apply elem_of_app. destruct k as [| | | | | | | | | | | | | |n]; 
      try (left; solve [repeat (apply elem_of_cons; first [left; reflexivity|right])]).
    right. apply list_elem_of_fmap. exists n. split; [done|]. apply elem_of_seqZ.
    destruct (decide (1 ≤ n < 13)%Z) as [Hn|Hn]; [lia|]. exfalso.
    destruct n as [|n|n]; try done. do 4 (try (destruct n as [n|n|]; [| |exfalso; lia]); try done; try lia).
Qed.

(** The macOS key table is injective: two different keys never share a
    virtual key code, so a combination presses the key it names. *)
Theorem macos_keycode_inj k k' c :
  macos_keycode k = Some c → macos_keycode k' = Some c → k = k'.
Proof.
  intros Hk%macos_keycode_table Hk'%macos_keycode_table.
  assert (Forall (λ e, Forall (λ e', e.2 = e'.2 → e.1 = e'.1) key_table) key_table) as Hall.
  { apply (bool_decide_unpack _). vm_compute. exact I. }
  rewrite Forall_forall in Hall. specialize (Hall _ Hk). rewrite Forall_forall in Hall.
  by apply (Hall _ Hk').
Qed.

Lemma macos_keycode_inj_witness :
  macos_keycode (KNamed (KFunction 4)) = Some 0x76%Z ∧
  ∀ k, macos_keycode k = Some 0x76%Z → k = KNamed (KFunction 4).
Proof.
  split; [reflexivity|]. intros k Hk.
  apply (macos_keycode_inj k (KNamed (KFunction 4)) 0x76 Hk). reflexivity.
Defined.

Example parse_f12 : parse_key " F12 " = Ok (KNamed (KFunction 12)).
Proof. reflexivity. Qed.
Example parse_f_plus_one : parse_key "f+1" = Ok (KNamed (KFunction 1)).
Proof. reflexivity. Qed.
Example parse_unknown : parse_key "f13" = Err (UnknownKey "f13").
Proof. reflexivity. Qed.
