(* ===== verification/CgSink.v ===== *)
(** * CgSink

    The macOS back end of vcli-input: the events it posts through Core
    Graphics, the permission probes, the sink itself and the listener of the
    kill-switch chord.  What the operating system answers is a parameter
    ([MacOs]): the n-th question may succeed or fail. *)

From S2P Require Import Prelude Wp CoreTypes DslError Input.
Local Open Scope vcli_scope.

(** ** Permissions *)

(* src: crates/vcli-input/src/permissions.rs 8-21 PermissionStatus *)
Inductive PermissionStatus := Granted | Denied | NotDetermined | NotApplicable.
#[export] Instance PermissionStatus_eq_dec : EqDecision PermissionStatus.
Proof. solve_decision. Defined.

(* src: crates/vcli-input/src/permissions.rs 23-31 PermissionReport *)
Record PermissionReport := {
  accessibility : PermissionStatus;
  input_monitoring : PermissionStatus;
}.
(* src: crates/vcli-input/src/permissions.rs 33-40 PermissionReport::fully_granted *)
Definition fully_granted (r : PermissionReport) : bool :=
  bool_decide (accessibility r = Granted) && bool_decide (input_monitoring r = Granted).

(** ** What is posted *)

(** The event types and buttons of Core Graphics the source names. *)
Inductive CGEventType :=
  | MouseMoved | LeftMouseDown | LeftMouseUp | RightMouseDown | RightMouseUp
  | OtherMouseDown | OtherMouseUp | LeftMouseDragged | RightMouseDragged | OtherMouseDragged.
#[export] Instance CGEventType_eq_dec : EqDecision CGEventType.
Proof. solve_decision. Defined.
Inductive CGMouseButton := CgLeft | CgRight | CgCenter.

(** An event; flags, click state and text are [None] until they are set.  A
    point keeps its integer coordinates: their conversion to [f64] is exact. *)
Inductive CGEvent :=
  | MouseEvent (ty : CGEventType) (at_ : Point) (button : CGMouseButton)
      (flags : option Z) (click_state : option Z)
  | KeyboardEvent (keycode : Z) (key_down : bool) (flags : option Z) (utf16 : option (list Z))
  | ScrollEvent (dy dx : Z).

(** The operating system: answers to the n-th question, and the bit each
    modifier has in the event flags.  The kill switch is shared with other
    threads, so its value at a question is part of the environment. *)
Class MacOs := {
  source_created : nat → bool;
  event_created : nat → CGEvent → bool;
  ax_trusted : nat → bool;
  iohid_access : nat → Z;
  kill_engaged : nat → bool;
  flag_bit : Modifier → Z;
}.

Record CgState := { posted : list CGEvent; questions : nat; slept_ns : Z }.

Section sink.
Context `{MacOs}.
Local Abbreviation M A := (ST CgState (result InputError A)).

Definition ask {A} (answer : nat → A) : ST CgState A := λ s,
  Ret (answer (questions s),
       {| posted := posted s; questions := S (questions s); slept_ns := slept_ns s |}).

(* src: crates/vcli-input/src/macos/cg_events.rs 22-31 event_source *)
Definition event_source : M () :=
  ok ← ask source_created;
  if ok : bool then sok () else serr (InputBackend "CGEventSource::new failed").

(** [CGEvent::new_*_event(..).map_err(|()| InputError::Backend {..})]. *)
Definition new_event (ev : CGEvent) (detail : string) : M CGEvent :=
  ok ← ask (λ n, event_created n ev);
  if ok : bool then sok ev else serr (InputBackend detail).

Definition post (ev : CGEvent) : ST CgState () :=
  modify (λ s, {| posted := posted s ++ [ev]; questions := questions s; slept_ns := slept_ns s |}).

(** [if !d.is_zero() { thread::sleep(d) }]. *)
Definition sleep_unless_zero (ns : Z) : ST CgState () :=
  modify (λ s, {| posted := posted s; questions := questions s; slept_ns := slept_ns s + ns |}%Z).

(* src: crates/vcli-input/src/macos/cg_events.rs 39-52 flags_from_modifiers *)
Definition flags_from_modifiers (modifiers : list Modifier) : Z :=
  foldl (λ f m, Z.lor f (flag_bit m)) 0%Z modifiers.

(* src: crates/vcli-input/src/macos/cg_events.rs 54-75 button_types *)
Definition button_types (b : Button) : CGMouseButton * CGEventType * CGEventType :=
  match b with
  | LeftButton => (CgLeft, LeftMouseDown, LeftMouseUp)
  | RightButton => (CgRight, RightMouseDown, RightMouseUp)
  | MiddleButton => (CgCenter, OtherMouseDown, OtherMouseUp)
  end.

(* src: crates/vcli-input/src/macos/cg_events.rs 77-95 post_move *)
Definition post_move (to : Point) : M () :=
  _ ←! event_source;
  event ←! new_event (MouseEvent MouseMoved to CgLeft None None)
    "CGEvent::new_mouse_event MouseMoved failed";
  _ ← post event;
  sok ().

(** [set_flags] and [set_integer_value_field(MOUSE_EVENT_CLICK_STATE, _)]. *)
Definition set_click (flags click_state : Z) (ev : CGEvent) : CGEvent :=
  match ev with
  | MouseEvent ty p b _ _ => MouseEvent ty p b (Some flags) (Some click_state)
  | _ => ev
  end.

(* src: crates/vcli-input/src/macos/cg_events.rs 97-139 post_click *)
Definition post_click (at_ : Point) (button : Button) (modifiers : list Modifier)
    (hold_ns click_state : Z) : M () :=
  _ ←! event_source;
  let '(cg_btn, down_ty, up_ty) := button_types button in
  let flags := flags_from_modifiers modifiers in
  down ←! new_event (MouseEvent down_ty at_ cg_btn None None) "mouse_event down failed";
  _ ← post (set_click flags click_state down);
  _ ← sleep_unless_zero hold_ns;
  up ←! new_event (MouseEvent up_ty at_ cg_btn None None) "mouse_event up failed";
  _ ← post (set_click flags click_state up);
  sok ().

(* src: crates/vcli-input/src/macos/cg_events.rs 148-152 post_drag_move *)
Definition dragged (b : Button) : CGEventType :=
  match b with
  | LeftButton => LeftMouseDragged
  | RightButton => RightMouseDragged
  | MiddleButton => OtherMouseDragged
  end.
(* src: crates/vcli-input/src/macos/cg_events.rs 141-161 post_drag_move *)
Definition post_drag_move (to : Point) (button : Button) : M () :=
  _ ←! event_source;
  ev ←! new_event (MouseEvent (dragged button) to (button_types button).1.1 None None)
    "mouse_event drag failed";
  _ ← post ev;
  sok ().

(* src: crates/vcli-input/src/macos/cg_events.rs 163-181 post_key *)
Definition post_key (keycode : Z) (key_down : bool) (modifiers : list Modifier) : M () :=
  _ ←! event_source;
  _ ←! new_event (KeyboardEvent keycode key_down None None)
    "CGEvent::new_keyboard_event failed";
  _ ← post (KeyboardEvent keycode key_down (Some (flags_from_modifiers modifiers)) None);
  sok ().

(* src: crates/vcli-input/src/macos/cg_events.rs 183-200 post_scroll *)
Definition post_scroll (_at : Point) (dx dy : Z) : M () :=
  _ ←! event_source;
  ev ←! new_event (ScrollEvent dy dx) "CGEvent::new_scroll_event failed";
  _ ← post ev;
  sok ().

(** ** Typing *)

(** The code point of a character's UTF-8 bytes, and [encode_utf16]. *)
Definition utf8_value (c : list ascii) : Z :=
  match map (λ a, Z.of_nat (Ascii.nat_of_ascii a)) c with
  | [a] => a
  | [a; b] => Z.land a 31 * 64 + Z.land b 63
  | [a; b; d] => (Z.land a 15 * 64 + Z.land b 63) * 64 + Z.land d 63
  | [a; b; d; e] => ((Z.land a 7 * 64 + Z.land b 63) * 64 + Z.land d 63) * 64 + Z.land e 63
  | _ => 0
  end%Z.
Definition encode_utf16 (c : list ascii) : list Z :=
  let v := utf8_value c in
  if decide (v < 65536)%Z then [v]
  else [55296 + Z.shiftr (v - 65536) 10; 56320 + Z.land (v - 65536) 1023]%Z.

(* src: crates/vcli-input/src/macos/cg_typing.rs 12-37 post_unicode_chunk *)
Definition post_unicode_chunk (chunk : list ascii) : M () :=
  _ ←! event_source;
  let utf16 := encode_utf16 chunk in
  _ ←! new_event (KeyboardEvent 0 true None None) "keyboard_event down failed";
  _ ← post (KeyboardEvent 0 true None (Some utf16));
  _ ←! new_event (KeyboardEvent 0 false None None) "keyboard_event up failed";
  _ ← post (KeyboardEvent 0 false None (Some utf16));
  sok ().

(* src: crates/vcli-input/src/macos/cg_typing.rs 39-58 type_text *)
Definition cg_type_text (text : string) : M () :=
  try_fold (λ _ chunk, post_unicode_chunk chunk) () (chars text).

(** ** Probes *)

(* src: crates/vcli-input/src/macos/tcc.rs 39-52 accessibility_status *)
Definition accessibility_status : ST CgState PermissionStatus :=
  trusted ← ask ax_trusted;
  mret (if trusted : bool then Granted else NotDetermined).
(* src: crates/vcli-input/src/macos/tcc.rs 54-61 input_monitoring_status *)
Definition input_monitoring_status : ST CgState PermissionStatus :=
  status ← ask iohid_access;
  mret (if decide (status = 0%Z) then Granted
        else if decide (status = 1%Z) then Denied else NotDetermined).
(* src: crates/vcli-input/src/macos/tcc.rs 30-37 probe_report *)
Definition probe_report : ST CgState PermissionReport :=
  a ← accessibility_status;
  i ← input_monitoring_status;
  mret {| accessibility := a; input_monitoring := i |}.

(** ** The sink *)

(* src: crates/vcli-input/src/macos/cg_sink.rs 18-20 MAX_DRAG_SEGMENT_MS *)
Definition MAX_DRAG_SEGMENT_MS : Z := 5000.
(* src: crates/vcli-input/src/macos/cg_sink.rs 21-22 DRAG_STEP_PX *)
Definition DRAG_STEP_PX : Z := 8.

(* src: crates/vcli-input/src/macos/cg_sink.rs 39-57 CGEventInputSink::guard *)
Definition guard : M () :=
  halted ← ask kill_engaged;
  if halted : bool then serr Halted
  else
    report ← probe_report;
    match accessibility report with
    | Granted | NotDetermined => sok ()
    | _ => serr (InputPermissionDenied "Accessibility (TCC) not granted")
    end.

(** The release build: [i32] arithmetic wraps; the root of a negative number
    is a NaN, which casts to 0. *)
(* src: crates/vcli-input/src/macos/cg_sink.rs 134-135 CGEventInputSink::drag *)
Definition drag_steps (dx dy : Z) : Z :=
  let dist := Z.sqrt (wrap_i32 (wrap_i32 (dx * dx) + wrap_i32 (dy * dy))) in
  Z.max (Z.quot dist DRAG_STEP_PX) 1.

(* src: crates/vcli-input/src/macos/cg_sink.rs 157-159 CGEventInputSink::drag *)
Definition drag_point (current : Point) (dx dy steps i : Z) : Point :=
  mkPoint (wrap_i32 (px current + Z.quot (wrap_i32 (dx * i)) steps))
          (wrap_i32 (py current + Z.quot (wrap_i32 (dy * i)) steps)).

(* src: crates/vcli-input/src/macos/cg_sink.rs 139-155 CGEventInputSink::drag *)
Definition release_and_halt (current : Point) (button : Button) : M () :=
  let '(cg_btn, _, up_ty) := button_types button in
  _ ← post_drag_move current button;
  src2 ← event_source;
  _ ← match src2 with
      | Ok _ =>
          up ← new_event (MouseEvent up_ty current cg_btn None None) "";
          match up with Ok up => post up | Err _ => mret () end
      | Err _ => mret ()
      end;
  serr Halted.

(* src: crates/vcli-input/src/macos/cg_sink.rs 137-163 CGEventInputSink::drag *)
Definition drag_move (current : Point) (button : Button) (dx dy steps sleep_each i : Z) : M () :=
  halted ← ask kill_engaged;
  if halted : bool then release_and_halt current button
  else
    _ ←! post_drag_move (drag_point current dx dy steps i) button;
    _ ← sleep_unless_zero sleep_each;
    sok ().

(* src: crates/vcli-input/src/macos/cg_sink.rs 125-165 CGEventInputSink::drag *)
Definition drag_segment (button : Button) (current : Point) (seg : DragSegment) : M Point :=
  if decide (MAX_DRAG_SEGMENT_MS < seg_duration seg / 1000000)%Z
  then serr (InvalidArgument "drag segment longer than 5s")
  else
    let dx := wrap_i32 (px (seg_to seg) - px current) in
    let dy := wrap_i32 (py (seg_to seg) - py current) in
    let steps := drag_steps dx dy in
    let sleep_each := (seg_duration seg / steps)%Z in
    _ ←! try_fold (λ _ i, drag_move current button dx dy steps sleep_each i) () (seqZ 1 steps);
    sok (seg_to seg).

(* src: crates/vcli-input/src/macos/cg_sink.rs 90-185 CGEventInputSink::drag *)
Definition cg_drag (from : Point) (segments : list DragSegment) (button : Button) : M () :=
  _ ←! guard;
  match segments with
  | [] => serr (InvalidArgument "drag segments must be non-empty")
  | _ =>
      _ ←! post_move from;
      let '(cg_btn, down_ty, up_ty) := button_types button in
      _ ←! event_source;
      down ←! new_event (MouseEvent down_ty from cg_btn None None) "mouse_event down failed";
      _ ← post down;
      current ←! try_fold (drag_segment button) from segments;
      _ ←! event_source;
      up ←! new_event (MouseEvent up_ty current cg_btn None None) "mouse_event up failed";
      _ ← post up;
      sok ()
  end.

(* src: crates/vcli-input/src/macos/cg_sink.rs 192-205 CGEventInputSink::key_combo *)
Definition cg_key_combo (modifiers : list Modifier) (key : string) : M () :=
  _ ←! guard;
  match parse_key key with
  | Err e => serr e
  | Ok parsed =>
      match macos_keycode parsed with
      | None => serr (UnknownKey key)
      | Some keycode =>
          _ ←! post_key keycode true modifiers;
          post_key keycode false modifiers
      end
  end.

(* src: crates/vcli-input/src/macos/cg_sink.rs 59-190 CGEventInputSink *)
Definition cg_sink : InputSink := {|
  sink := CgState;
  mouse_move to := _ ←! guard; post_move to;
  click at_ button modifiers hold_ms :=
    _ ←! guard;
    _ ←! post_move at_;
    post_click at_ button modifiers (hold_ms * 1000000) 1;
  double_click at_ button :=
    _ ←! guard;
    _ ←! post_move at_;
    _ ←! post_click at_ button [] 0 1;
    post_click at_ button [] 0 2;
  drag := cg_drag;
  type_text text := _ ←! guard; cg_type_text text;
  key_combo := cg_key_combo;
|}.
End sink.

(** ** The kill-switch chord *)

(* src: crates/vcli-input/src/macos/hotkey_tap.rs 29-30 KVK_ESCAPE_KEYCODE *)
Definition KVK_ESCAPE_KEYCODE : Z := 0x35.

(** The tap's callback; [key_down] is the discriminant of [KeyDown]. *)
(* src: crates/vcli-input/src/macos/hotkey_tap.rs 82-100 spawn_kill_switch_listener *)
Definition tap_callback `{MacOs} (key_down event_type keycode flags now_ns : Z) (k : KillSwitch)
    : KillSwitch :=
  let want := Z.lor (flag_bit Cmd) (flag_bit Shift) in
  if decide (event_type = key_down ∧ keycode = KVK_ESCAPE_KEYCODE ∧ Z.land flags want = want)
  then engage now_ns k else k.
