(* ===== verification/CgSpec.v ===== *)
(** * CgSpec

    What the macOS sink promises: it always returns, whatever the operating
    system answers, so the scheduler's theorems apply to it; and a drag, on a
    system that creates every event, presses the button, follows the segments
    and lets go, but for the refusal of an overlong segment, which leaves the
    button down. *)

From S2P Require Import Prelude Wp CoreTypes DslError Input CgSink.
Local Open Scope vcli_scope.

Section returns.
Context `{MacOs}.

Lemma wp_ask {A} (f : nat → A) (Q : A → CgState → Prop) s :
  (∀ s', posted s' = posted s → questions s' = S (questions s) → Q (f (questions s)) s') →
  wp (ask f) Q s.
Proof. intros HQ. eexists _, _. split; [reflexivity|]. by apply HQ. Qed.

(** Every operation is made of steps that return. *)
Ltac returns :=
  repeat first
    [ wp_step | exact I | apply wp_ask; intros ? _ _
    | progress cbv beta zeta
    | progress unfold event_source, new_event, post, sleep_unless_zero, guard, probe_report,
        accessibility_status, input_monitoring_status
    | match goal with
      | |- on_result _ _ ?r _ => is_var r; destruct r
      | |- wp (if ?b then _ else _) _ _ => destruct b
      | |- wp (match ?b with _ => _ end) _ _ => destruct b
      end ].

Lemma returns_post_move p s : wp (post_move p) (λ _ _, True) s.
Proof. unfold post_move. returns. Qed.
Lemma returns_post_click p b m h c s : wp (post_click p b m h c) (λ _ _, True) s.
Proof. unfold post_click. returns. Qed.
Lemma returns_post_key k d m s : wp (post_key k d m) (λ _ _, True) s.
Proof. unfold post_key. returns. Qed.
Lemma returns_post_unicode_chunk c s : wp (post_unicode_chunk c) (λ _ _, True) s.
Proof. unfold post_unicode_chunk. returns. Qed.

(** A step that returns, then whatever comes next. *)
Lemma wp_then {E A B} (m : ST CgState (result E A)) (f : A → ST CgState (result E B)) s :
  wp m (λ _ _, True) s → (∀ a s', wp (f a) (λ _ _, True) s') →
  wp (sbind m f) (λ _ _, True) s.
Proof.
  intros Hm Hf. apply wp_sbind. apply (wp_mono _ _ _ _ Hm). intros [a|e] s' _; simpl; auto.
Qed.
Lemma returns_guard s : wp guard (λ _ _, True) s.
Proof. unfold guard. returns. Qed.

Lemma returns_total {A} (m : ST CgState A) s :
  wp m (λ _ _, True) s → ∃ r s', m s = Ret (r, s').
Proof. intros (r & s' & Hm & _). eauto. Qed.

(** The macOS sink meets the interface the scheduler's liveness needs. *)
#[export] Instance cg_sink_total : @InputSinkTotal cg_sink.
Proof.
  split; intros; apply returns_total.
  - apply wp_then; [apply returns_guard|]. intros. apply returns_post_move.
  - apply wp_then; [apply returns_guard|]. intros. apply wp_then; [apply returns_post_move|].
    intros. apply returns_post_click.
  - apply wp_then; [apply returns_guard|]. intros _ s1.
    apply (wp_mono _ (on_result (λ _ _, True) (λ _ _, True))); [|done].
    apply (wp_try_fold _ (λ _ _ _, True) (λ _ _, True)); [done|]. intros [] c l s2 _.
    apply (wp_mono _ _ _ _ (returns_post_unicode_chunk c s2)). by intros [] ? _.
  - simpl. unfold cg_key_combo. apply wp_then; [apply returns_guard|]. intros _ s1.
    destruct (parse_key k); [|returns]. destruct (macos_keycode _); [|returns].
    apply wp_then; [apply returns_post_key|]. intros. apply returns_post_key.
Qed.
End returns.

(** ** Drags *)

(** The button is down after these events. *)
Definition held (b : Button) (es : list CGEvent) : bool :=
  let '(_, down_ty, up_ty) := button_types b in
  foldl (λ h e, match e with
                | MouseEvent ty _ _ _ _ =>
                    if decide (ty = down_ty) then true
                    else if decide (ty = up_ty) then false else h
                | _ => h
                end) false es.

Definition drag_event (b : Button) (p : Point) : CGEvent :=
  MouseEvent (dragged b) p (button_types b).1.1 None None.
Definition up_event (b : Button) (p : Point) : CGEvent :=
  MouseEvent (button_types b).2 p (button_types b).1.1 None None.
Definition down_event (b : Button) (p : Point) : CGEvent :=
  MouseEvent (button_types b).1.2 p (button_types b).1.1 None None.

(** [p] lies in the rectangle [a] and [b] span. *)
Definition in_span (a b p : Point) : Prop :=
  (Z.min (px a) (px b) ≤ px p ≤ Z.max (px a) (px b) ∧
   Z.min (py a) (py b) ≤ py p ≤ Z.max (py a) (py b))%Z.

(** A path from a point through the ends of the segments: each leg stays
    between its ends and stops exactly at its target. *)
Inductive follows : Point → list DragSegment → list Point → Prop :=
  | follows_nil p : follows p [] []
  | follows_cons p seg segs leg rest :
      Forall (in_span p (seg_to seg)) leg →
      last leg = Some (seg_to seg) →
      follows (seg_to seg) segs rest →
      follows p (seg :: segs) (leg ++ rest).

Definition too_long (seg : DragSegment) : Prop :=
  (MAX_DRAG_SEGMENT_MS < seg_duration seg / 1000000)%Z.

(** Coordinates whose differences have squares that add up within an [i32]. *)
Definition on_display (p : Point) : Prop :=
  (-16384 < px p < 16384 ∧ -16384 < py p < 16384)%Z.

Lemma held_app_drags b es ps : held b (es ++ map (drag_event b) ps) = held b es.
Proof.
  unfold held. destruct (button_types b) as [[cb d] u] eqn:Hb. rewrite foldl_app.
  induction ps as [|p ps IH] using rev_ind; [done|].
  rewrite map_app, foldl_app, IH. destruct b; simpl in *; by simplify_eq.
Qed.
Lemma held_app_up b es p : held b (es ++ [up_event b p]) = false.
Proof. unfold held. destruct b; simpl; by rewrite foldl_app. Qed.
Lemma held_app_down b es p : held b (es ++ [down_event b p]) = true.
Proof. unfold held. destruct b; simpl; by rewrite foldl_app. Qed.

Lemma quot_between d i n : (1 ≤ i ≤ n)%Z → (Z.min 0 d ≤ Z.quot (d * i) n ≤ Z.max 0 d)%Z.
Proof. intros. Z.to_euclidean_division_equations. nia. Qed.

(** The arithmetic of one leg does not wrap on a display. *)
Lemma drag_steps_bound dx dy :
  (-32766 ≤ dx ≤ 32766)%Z → (-32766 ≤ dy ≤ 32766)%Z → (drag_steps dx dy ≤ 5792)%Z.
Proof.
  intros Hx Hy. unfold drag_steps, DRAG_STEP_PX.
  rewrite (wrap_i32_id (dx * dx)), (wrap_i32_id (dy * dy)), wrap_i32_id
    by (unfold_ints; nia).
  assert (Z.sqrt (dx * dx + dy * dy) ≤ Z.sqrt 2147221512)%Z as Hd.
  { apply Z.sqrt_le_mono. nia. }
  change (Z.sqrt 2147221512) with 46338%Z in Hd.
  pose proof (Z.sqrt_nonneg (dx * dx + dy * dy)).
  rewrite Z.quot_div_nonneg by lia. Z.to_euclidean_division_equations. lia.
Qed.
Lemma drag_point_spec a b i :
  on_display a → on_display b →
  let dx := wrap_i32 (px b - px a) in let dy := wrap_i32 (py b - py a) in
  let steps := drag_steps dx dy in
  (1 ≤ i ≤ steps)%Z →
  drag_point a dx dy steps i
  = mkPoint (px a + Z.quot ((px b - px a) * i) steps) (py a + Z.quot ((py b - py a) * i) steps).
Proof.
  intros [Hax Hay] [Hbx Hby]. rewrite !wrap_i32_id by (ints; lia). cbv zeta. intros Hi.
  pose proof (drag_steps_bound (px b - px a) (py b - py a) ltac:(lia) ltac:(lia)).
  pose proof (quot_between (px b - px a) i _ Hi). pose proof (quot_between (py b - py a) i _ Hi).
  unfold drag_point.
  rewrite (wrap_i32_id (_ * i)), (wrap_i32_id ((py b - _) * i)) by (unfold_ints; nia).
  by rewrite !wrap_i32_id by (unfold_ints; lia).
Qed.

Lemma drag_steps_pos dx dy : (1 ≤ drag_steps dx dy)%Z.
Proof. unfold drag_steps. lia. Qed.

Lemma last_fmap_seqZ {A} (f : Z → A) n : (1 ≤ n)%Z → last (f <$> seqZ 1 n) = Some (f n).
Proof.
  intros Hn. assert (seqZ 1 n = seqZ 1 (n - 1) ++ [n]) as ->.
  { rewrite <-(Z2Nat.id n), <-(Nat.succ_pred (Z.to_nat n)) by lia.
    rewrite seqZ_S. f_equal; [f_equal|f_equal]; lia. }
  rewrite fmap_app. apply last_snoc.
Qed.

(** The last point of a leg is its target. *)
Lemma leg_ends a b n :
  (1 ≤ n)%Z →
  mkPoint (px a + Z.quot ((px b - px a) * n) n) (py a + Z.quot ((py b - py a) * n) n) = b.
Proof.
  intros Hn. rewrite !Z.quot_mul by lia. destruct b. simpl. f_equal; lia.
Qed.

Section os_ok.
Context `{MacOs}.
(** An operating system that creates every source and event. *)
Definition os_ok : Prop :=
  (∀ n, source_created n = true) ∧ ∀ n ev, event_created n ev = true.
Context (Hos : os_ok).

(** Between two moments questions were only added. *)
Definition later (s s' : CgState) : Prop := questions s ≤ questions s'.
#[export] Instance later_preorder : PreOrder later.
Proof. split; unfold later; [by intros s|intros a c d; lia]. Qed.

Lemma wp_event_source (Q : _ → CgState → Prop) s :
  (∀ s', posted s' = posted s → later s s' → Q (Ok ()) s') → wp event_source Q s.
Proof.
  intros HQ. unfold event_source. apply wp_bind, wp_ask. intros s' Hs Hq.
  rewrite (proj1 Hos). apply wp_sok, HQ; [done|]. unfold later. lia.
Qed.
Lemma wp_new_event ev d (Q : _ → CgState → Prop) s :
  (∀ s', posted s' = posted s → later s s' → Q (Ok ev) s') → wp (new_event ev d) Q s.
Proof.
  intros HQ. unfold new_event. apply wp_bind, wp_ask. intros s' Hs Hq.
  rewrite (proj2 Hos). apply wp_sok, HQ; [done|]. unfold later. lia.
Qed.
Lemma wp_post ev (Q : _ → CgState → Prop) s :
  (∀ s', posted s' = posted s ++ [ev] → later s s' → Q () s') → wp (post ev) Q s.
Proof. intros HQ. unfold post. wp_steps. apply HQ; [done|]. unfold later. simpl. lia. Qed.
Lemma wp_sleep ns (Q : _ → CgState → Prop) s :
  (∀ s', posted s' = posted s → later s s' → Q () s') → wp (sleep_unless_zero ns) Q s.
Proof. intros HQ. unfold sleep_unless_zero. wp_steps. apply HQ; [done|]. unfold later. simpl. lia. Qed.

Ltac cg_step :=
  first
    [ wp_step
    | apply wp_event_source; intros ???
    | apply wp_new_event; intros ???
    | apply wp_post; intros ???
    | apply wp_sleep; intros ???
    | apply wp_ask; intros ??? ].
Ltac cg := repeat (cg_step; cbn [on_result]; cbv beta).

Lemma wp_post_move p (Q : _ → CgState → Prop) s :
  (∀ s', posted s' = posted s ++ [MouseEvent MouseMoved p CgLeft None None] → later s s' →
     Q (Ok ()) s') →
  wp (post_move p) Q s.
Proof. intros HQ. unfold post_move. cg. apply HQ; [congruence|unfold later in *; lia]. Qed.
Lemma wp_post_drag_move p b (Q : _ → CgState → Prop) s :
  (∀ s', posted s' = posted s ++ [drag_event b p] → later s s' → Q (Ok ()) s') →
  wp (post_drag_move p b) Q s.
Proof.
  intros HQ. unfold post_drag_move. cg. apply HQ; [|unfold later in *; lia].
  unfold drag_event. congruence.
Qed.

(** From question [q] to [q'] the switch was looked at with these questions,
    among others, and found free. *)
Fixpoint free_at (q : nat) (ns : list nat) (q' : nat) : Prop :=
  match ns with
  | [] => q ≤ q'
  | n :: ns => q ≤ n ∧ kill_engaged n = false ∧ free_at (S n) ns q'
  end.
(** It was then found engaged. *)
Definition halted_at (q : nat) (ns : list nat) (q' : nat) : Prop :=
  ∃ n, free_at q ns n ∧ n < q' ∧ kill_engaged n = true.

Lemma free_at_app q ns q1 ms q' : free_at q ns q1 → free_at q1 ms q' → free_at q (ns ++ ms) q'.
Proof using.
  revert q. induction ns as [|n ns IH]; intros q; simpl.
  - intros Hq. destruct ms as [|m ms]; simpl; [lia|]. intros (? & ? & ?). split; [lia|done].
  - intros (? & ? & Hn) Hm. split_and!; [done..|]. by apply IH.
Qed.
Lemma free_at_later q ns q1 q' : free_at q ns q1 → q1 ≤ q' → free_at q ns q'.
Proof using. intros Hf Hq. rewrite <-(app_nil_r ns). by eapply free_at_app. Qed.
Lemma halted_at_app q ns q1 ms q' :
  free_at q ns q1 → halted_at q1 ms q' → halted_at q (ns ++ ms) q'.
Proof using. intros Hf (n & Hm & ? & ?). exists n. split; [by eapply free_at_app|done]. Qed.

(** The guard posts nothing, and refuses with [Halted] only. *)
Lemma wp_guard s :
  wp guard (on_result
    (λ _ s', posted s' = posted s ∧ ∃ n, free_at (questions s) [n] (questions s'))
    (λ e s', e = Halted ∧ posted s' = posted s ∧ halted_at (questions s) [] (questions s'))) s.
Proof.
  unfold guard, probe_report, accessibility_status, input_monitoring_status.
  apply wp_bind, wp_ask. intros s1 H1 Q1. destruct (kill_engaged (questions s)) eqn:Hk; cg.
  - split; [done|]. split; [done|]. exists (questions s). split; [simpl; lia|]. split; [lia|done].
  - destruct (ax_trusted _); cbn [accessibility]; cg;
      (split; [congruence|]; exists (questions s); simpl; split_and!; [lia|done|lia]).
Qed.

Lemma wp_release p b s :
  wp (release_and_halt p b)
    (λ r s', r = Err Halted ∧ posted s' = posted s ++ [drag_event b p; up_event b p] ∧
             later s s') s.
Proof.
  unfold release_and_halt. destruct (button_types b) as [[cb d] u] eqn:Hb.
  apply wp_bind, wp_post_drag_move. intros s1 H1 L1. cg. split; [done|].
  split; [|unfold later in *; lia]. unfold up_event. rewrite Hb. cbn.
  assert (posted s'1 = posted s1 ++ [MouseEvent u p cb None None]) as -> by congruence.
  by rewrite H1, <-app_assoc.
Qed.

(** Halfway: the button is held, and let go again if the switch is found engaged. *)
Lemma wp_drag_move b p dx dy n t i s :
  wp (drag_move p b dx dy n t i)
    (on_result
       (λ _ s', posted s' = posted s ++ [drag_event b (drag_point p dx dy n i)] ∧
          ∃ m, free_at (questions s) [m] (questions s'))
       (λ e s', e = Halted ∧ posted s' = posted s ++ [drag_event b p; up_event b p] ∧
          halted_at (questions s) [] (questions s'))) s.
Proof.
  unfold drag_move. apply wp_bind, wp_ask. intros s1 H1 Q1.
  destruct (kill_engaged (questions s)) eqn:Hk.
  - apply (wp_mono _ _ _ _ (wp_release p b s1)). intros r s2 (-> & H2 & L2). simpl.
    split; [done|]. split; [congruence|]. exists (questions s). unfold later in *.
    split; [simpl; lia|]. split; [lia|done].
  - apply wp_sbind, wp_post_drag_move. intros s2 H2 L2. cg. split; [congruence|].
    exists (questions s). unfold later in *. simpl. split_and!; [lia|done|lia].
Qed.

Lemma wp_leg b p dx dy n t l s :
  wp (try_fold (λ _ i, drag_move p b dx dy n t i) () l)
    (on_result
       (λ _ s', posted s' = posted s ++ map (drag_event b) (drag_point p dx dy n <$> l) ∧
          ∃ ns, length ns = length l ∧ free_at (questions s) ns (questions s'))
       (λ e s', e = Halted ∧ ∃ ps ns,
          posted s' = posted s ++ map (drag_event b) ps ++ [up_event b p] ∧
          length ps = S (length ns) ∧ halted_at (questions s) ns (questions s'))) s.
Proof.
  revert s. induction l as [|i l IH]; intros s; simpl.
  { apply wp_sok. simpl. rewrite app_nil_r. split; [done|]. exists []. simpl. split; [done|lia]. }
  apply wp_sbind, (wp_mono _ _ _ _ (wp_drag_move b p dx dy n t i s)).
  intros [[]|e] s1; simpl.
  - intros (H1 & m & F1). apply (wp_mono_result _ _ _ _ _ _ (IH s1)).
    + intros [] s2 (H2 & ns & Hl & F2). split; [by rewrite H2, H1, <-app_assoc|].
      exists (m :: ns). split; [simpl; by rewrite Hl|]. by apply (free_at_app _ [m] _ _ _ F1).
    + intros e s2 (-> & ps & ns & H2 & Hl & F2). split; [done|]. eexists (_ :: ps), (m :: ns).
      split; [by rewrite H2, H1, <-app_assoc|]. split; [simpl; by rewrite Hl|].
      by apply (halted_at_app _ [m] _ _ _ F1).
  - intros (-> & H1 & F1). split; [done|]. exists [p], []. by rewrite H1.
Qed.
End os_ok.

Section drag_spec.
Context `{MacOs}.
Context (Hos : os_ok).

(** One leg of a drag, from [a] to the end of [seg]. *)
Lemma wp_drag_segment b a seg s :
  on_display a → on_display (seg_to seg) →
  wp (drag_segment b a seg)
    (on_result
       (λ a' s', a' = seg_to seg ∧ ¬ too_long seg ∧ ∃ leg ns,
          posted s' = posted s ++ map (drag_event b) leg ∧
          Forall (in_span a (seg_to seg)) leg ∧ last leg = Some (seg_to seg) ∧
          length ns = length leg ∧ free_at (questions s) ns (questions s'))
       (λ e s',
          (e = Halted ∧ ∃ ps ns, posted s' = posted s ++ map (drag_event b) ps ++ [up_event b a] ∧
             length ps = S (length ns) ∧ halted_at (questions s) ns (questions s')) ∨
          (e = InvalidArgument "drag segment longer than 5s" ∧ too_long seg ∧
           posted s' = posted s))) s.
Proof.
  intros Ha Hb. unfold drag_segment.
  case_decide as Hl. { apply wp_serr. by right. }
  cbv zeta. apply wp_sbind.
  eapply wp_mono_result; [by apply wp_leg| |by left].
  intros [] s' (Hs' & ns & Hl' & Hf). apply wp_sok. simpl. split_and!; [done..|].
  eexists _, ns. split; [exact Hs'|]. split; [|split; [|by rewrite length_fmap]].
  - apply Forall_fmap, Forall_forall. intros i Hi. apply elem_of_seqZ in Hi. simpl.
    rewrite drag_point_spec by (done || lia). split; simpl;
      match goal with |- context [Z.quot (?d * i) ?n] =>
        pose proof (quot_between d i n) end; lia.
  - rewrite last_fmap_seqZ by apply drag_steps_pos. f_equal.
    pose proof (drag_steps_pos (wrap_i32 (px (seg_to seg) - px a))
                  (wrap_i32 (py (seg_to seg) - py a))).
    rewrite drag_point_spec by (done || lia). by apply leg_ends.
Qed.

Definition drag_end (from : Point) (segs : list DragSegment) : Point :=
  foldl (λ _ seg, seg_to seg) from segs.
Definition drag_start (b : Button) (from : Point) : list CGEvent :=
  [MouseEvent MouseMoved from CgLeft None None; down_event b from].

Lemma wp_segments b from segs s :
  on_display from → Forall (λ seg, on_display (seg_to seg)) segs →
  wp (try_fold (drag_segment b) from segs)
    (on_result
       (λ a s', Forall (λ seg, ¬ too_long seg) segs ∧ ∃ ps ns,
          follows from segs ps ∧ posted s' = posted s ++ map (drag_event b) ps ∧
          a = drag_end from segs ∧
          length ns = length ps ∧ free_at (questions s) ns (questions s'))
       (λ e s', ∃ ps,
          (e = Halted ∧ ∃ ns p, posted s' = posted s ++ map (drag_event b) ps ++ [up_event b p] ∧
             length ps = S (length ns) ∧ halted_at (questions s) ns (questions s')) ∨
          (e = InvalidArgument "drag segment longer than 5s" ∧ Exists too_long segs ∧
           posted s' = posted s ++ map (drag_event b) ps))) s.
Proof.
  revert from s. induction segs as [|seg segs IH]; intros a s Ha Hsegs; simpl.
  { apply wp_sok. simpl. split; [done|]. exists [], []. rewrite app_nil_r. simpl.
    split_and!; [constructor|done..|lia]. }
  apply Forall_cons in Hsegs as [Hb Hsegs].
  apply wp_sbind, (wp_mono _ _ _ _ (wp_drag_segment b a seg s Ha Hb)).
  intros [a'|e] s1; simpl.
  - intros (-> & Hl & leg & ns & H1 & Hin & Hlast & Hn & F1).
    apply (wp_mono_result _ _ _ _ _ _ (IH (seg_to seg) s1 Hb Hsegs)).
    + intros a' s2 (Hls & ps & ms & Hps & H2 & -> & Hm & F2). split; [by constructor|].
      exists (leg ++ ps), (ns ++ ms). split; [by constructor|].
      split; [by rewrite H2, H1, map_app, <-app_assoc|]. split; [done|].
      split; [rewrite !length_app; lia|by eapply free_at_app].
    + intros e s2 (ps & [(-> & ms & p & H2 & Hm & F2)|(-> & Hls & H2)]); exists (leg ++ ps).
      * left. split; [done|]. exists (ns ++ ms), p.
        split; [by rewrite H2, H1, map_app, <-!app_assoc|].
        split; [rewrite !length_app; lia|by eapply halted_at_app].
      * right. rewrite H2, H1, map_app, <-app_assoc. split_and!; [done|by right|done].
  - intros [(-> & ps & ns & H1 & Hn & F1)|(-> & Hl & H1)].
    + exists ps. left. split; [done|]. by exists ns, a.
    + exists []. right. rewrite app_nil_r. split_and!; [done|by left|done].
Qed.
End drag_spec.

(** What a drag may answer, the events it has posted by then, and what the
    kill switch said: it is looked at once before the drag and once before
    every point of the path. *)
Definition drag_outcome `{MacOs} (b : Button) (from : Point) (segs : list DragSegment)
    (q q' : nat) (r : result InputError ()) (es : list CGEvent) : Prop :=
  match r with
  | Ok _ =>
      segs ≠ [] ∧ Forall (λ seg, ¬ too_long seg) segs ∧ held b es = false ∧
      ∃ ps ns, follows from segs ps ∧
        es = drag_start b from ++ map (drag_event b) ps ++ [up_event b (drag_end from segs)] ∧
        length ns = S (length ps) ∧ free_at q ns q'
  | Err Halted =>
      held b es = false ∧
      ((es = [] ∧ halted_at q [] q') ∨
       ∃ ps ns p, es = drag_start b from ++ map (drag_event b) ps ++ [up_event b p] ∧
         length ns = length ps ∧ halted_at q ns q')
  | Err (InvalidArgument why) =>
      (segs = [] ∧ es = [] ∧ why = "drag segments must be non-empty") ∨
      (Exists too_long segs ∧ held b es = true ∧ why = "drag segment longer than 5s")
  | Err _ => False
  end.

Lemma held_start b from ps : held b (drag_start b from ++ map (drag_event b) ps) = true.
Proof. rewrite held_app_drags. by destruct b. Qed.
Lemma held_start_up b from ps p :
  held b (drag_start b from ++ map (drag_event b) ps ++ [up_event b p]) = false.
Proof. by rewrite app_assoc, held_app_up. Qed.


(** A concrete system: every event is created, the kill switch is free. *)
Definition demo_mac : MacOs := {|
  source_created _ := true; event_created _ _ := true; ax_trusted _ := false;
  iohid_access _ := 2%Z; kill_engaged _ := false;
  flag_bit m := match m with Cmd => 0x100000 | Shift => 0x20000
                | Alt => 0x80000 | Ctrl => 0x40000 end%Z |}.
Definition cg_idle : CgState := {| posted := []; questions := 0; slept_ns := 0 |}.
Definition second : Z := 1000000000.


(** The switch engaged halfway: the button is let go. *)
Definition halting_mac : MacOs := {|
  source_created _ := true; event_created _ _ := true; ax_trusted _ := false;
  iohid_access _ := 2%Z; kill_engaged n := bool_decide (12 ≤ n); flag_bit _ := 0%Z |}.
Example halted_halfway :
  match cg_drag (H := halting_mac) (mkPoint 0 0) [mkDragSegment (mkPoint 30 40) second]
          LeftButton cg_idle with
  | Ret (r, s') => (r, length (posted s'), held LeftButton (posted s'))
  | _ => (Ok (), 0, true)
  end = (Err Halted, 6, false).
Proof. vm_compute. reflexivity. Qed.

(** A six-second segment: the answer is an error, the button is down. *)
Example overlong_drag_sticks :
  ∃ s', cg_drag (H := demo_mac) (mkPoint 0 0) [mkDragSegment (mkPoint 9 9) (6 * second)]
          LeftButton cg_idle
        = Ret (Err (InvalidArgument "drag segment longer than 5s"), s') ∧
        held LeftButton (posted s') = true.
Proof. eexists. by vm_compute. Qed.
