(* ===== verification/Runtime.v ===== *)
(** * The parts of the runtime

    The crate vcli-runtime below the scheduler: errors, target expressions,
    watch decisions, the arbiter, triggers, and the body executor.  Code that
    evaluates predicates or posts input runs over the pair of the perception
    state and the input sink. *)

From S2P Require Import Prelude Json CoreTypes Canonical Serde FrameView Perception Input.
Local Open Scope vcli_scope.

(** ** Errors *)

(* src: crates/vcli-runtime/src/error.rs 5-30 ErrorCode *)
Inductive RtErrorCode :=
  | CaptureFailed | InputFailed | PerceptionFailed | WaitForTimeoutC | AssertFailedC
  | ProgramTimeoutC | NoveltyTimeoutC | ExpressionUnresolvedC | DaemonRestart | InternalC.

(* src: crates/vcli-runtime/src/error.rs 32-49 ErrorCode::as_str *)
Definition RtErrorCode_as_str (c : RtErrorCode) : string :=
  match c with
  | CaptureFailed => "capture_failed"
  | InputFailed => "input_failed"
  | PerceptionFailed => "perception_failed"
  | WaitForTimeoutC => "wait_for_timeout"
  | AssertFailedC => "assert_failed"
  | ProgramTimeoutC => "program_timeout"
  | NoveltyTimeoutC => "novelty_timeout"
  | ExpressionUnresolvedC => "expression_unresolved"
  | DaemonRestart => "daemon_restart"
  | InternalC => "internal"
  end.

(* src: crates/vcli-runtime/src/error.rs 51-95 RuntimeError *)
Inductive RuntimeError :=
  | RtCapture (m : string)
  | RtInput (m : string)
  | RtPerception (m : string)
  | RtWaitForTimeout (predicate : string) (waited_ms : Z)
  | RtAssertFailed (predicate : string)
  | RtProgramTimeout (elapsed_ms : Z)
  | RtNoveltyTimeout (timeout_ms : Z)
  | RtExpressionUnresolved (m : string)
  | RtInternal (m : string).

(* src: crates/vcli-runtime/src/error.rs 97-113 RuntimeError::code *)
Definition code (e : RuntimeError) : RtErrorCode :=
  match e with
  | RtCapture _ => CaptureFailed
  | RtInput _ => InputFailed
  | RtPerception _ => PerceptionFailed
  | RtWaitForTimeout _ _ => WaitForTimeoutC
  | RtAssertFailed _ => AssertFailedC
  | RtProgramTimeout _ => ProgramTimeoutC
  | RtNoveltyTimeout _ => NoveltyTimeoutC
  | RtExpressionUnresolved _ => ExpressionUnresolvedC
  | RtInternal _ => InternalC
  end.

(** ** Target expressions *)

(* src: crates/vcli-runtime/src/expr.rs 17-24 Accessor *)
Inductive RtAccessor := MatchCenter | MatchBbox.
(* src: crates/vcli-runtime/src/expr.rs 8-15 ParsedExpr *)
Record ParsedExpr := mkParsedExpr { pe_predicate : string; pe_accessor : RtAccessor }.

(* src: crates/vcli-runtime/src/expr.rs 26-57 parse *)
Definition expr_parse (s : string) : result RuntimeError ParsedExpr :=
  rest ← ok_or (strip_prefix "$" s)
           (RtExpressionUnresolved ("expected '$' prefix: " +:+ s));
  pt ← ok_or (split_once "." rest)
         (RtExpressionUnresolved ("expected '.<accessor>': " +:+ s));
  let '(pred, tail) := (pt : string * string) in
  if string_is_empty pred then
    Err (RtExpressionUnresolved ("empty predicate name: " +:+ s))
  else
    accessor ←
      (if decide (tail = "match.center") then Ok MatchCenter
       else if decide (tail = "match.bbox") then Ok MatchBbox
       else Err (RtExpressionUnresolved ("unknown accessor '" +:+ tail +:+ "'")));
    Ok {| pe_predicate := pred; pe_accessor := accessor |}.

(** [u32::try_from(z).unwrap_or(0)] and [i32::try_from(z).unwrap_or(0)]. *)
Definition u32_or_0 (z : Z) : Z := if decide (0 ≤ z ≤ u32_max)%Z then z else 0%Z.
Definition i32_or_0 (z : Z) : Z := if decide (i32_min ≤ z ≤ i32_max)%Z then z else 0%Z.

(* src: crates/vcli-runtime/src/expr.rs 59-79 resolve_center *)
Definition resolve_center (r : PredicateResult) : result RuntimeError Point :=
  md ← ok_or (match_data r) (RtExpressionUnresolved "predicate has no match_data");
  let w_minus_1 := u32_or_0 (Z.max (rw (bbox md)) 1 - 1) in
  let h_minus_1 := u32_or_0 (Z.max (rh (bbox md)) 1 - 1) in
  Ok {| px := wrap_i32 (rx (bbox md) + i32_or_0 (w_minus_1 / 2));
        py := wrap_i32 (ry (bbox md) + i32_or_0 (h_minus_1 / 2)) |}.

(* src: crates/vcli-runtime/src/expr.rs 81-92 resolve_bbox *)
Definition resolve_bbox (r : PredicateResult) : result RuntimeError Rect :=
  md ← ok_or (match_data r) (RtExpressionUnresolved "predicate has no match_data");
  Ok (bbox md).

(** ** Watches *)

(* src: crates/vcli-runtime/src/program.rs 31-40 WatchRuntime *)
Record WatchRuntime := mkWatchRuntime {
  last_fired_ms : option UnixMs;
  last_truthy : bool;
  retired : bool;
}.
(* src: crates/vcli-runtime/src/program.rs 32-32 WatchRuntime::default *)
Definition WatchRuntime_default : WatchRuntime :=
  {| last_fired_ms := None; last_truthy := false; retired := false |}.

(* src: crates/vcli-runtime/src/watches.rs 8-17 WatchDecision *)
Inductive WatchDecision := Skip | Fire | Retire.
#[export] Instance WatchDecision_eq_dec : EqDecision WatchDecision.
Proof. solve_decision. Defined.

(* src: crates/vcli-runtime/src/watches.rs 19-49 decide *)
Definition watch_decide (watch : Watch) (state : WatchRuntime) (truthy_now : bool)
    (now_ms running_since_ms : UnixMs) : WatchDecision :=
  if retired state then Skip
  else
    let timed_out :=
      match w_lifetime watch with
      | TimeoutMs ms => (ms <=? saturating_sub_i64 now_ms running_since_ms)%Z
      | _ => false
      end in
    if timed_out then Retire
    else if last_truthy state || negb truthy_now then Skip
    else
      match last_fired_ms state with
      | Some last =>
          if (saturating_sub_i64 now_ms last <? w_throttle_ms watch)%Z then Skip else Fire
      | None => Fire
      end.

(* src: crates/vcli-runtime/src/watches.rs 51-57 after_fire *)
Definition after_fire (watch : Watch) (now_ms : UnixMs) (state : WatchRuntime) : WatchRuntime := {|
  last_fired_ms := Some now_ms;
  last_truthy := last_truthy state;
  retired := match w_lifetime watch with OneShot => true | _ => retired state end;
|}.

(** ** The arbiter *)

(* src: crates/vcli-runtime/src/arbiter.rs 6-15 Candidate *)
Record Candidate (T : Type) := mkCandidate {
  cand_program_id : ProgramId; cand_priority : Priority; cand_payload : T }.
Arguments mkCandidate {T}.
Arguments cand_program_id {T}.
Arguments cand_priority {T}.
Arguments cand_payload {T}.
(* src: crates/vcli-runtime/src/arbiter.rs 17-28 Decision *)
Record ArbDecision (T : Type) := mkArbDecision {
  dec_program_id : ProgramId; dec_payload : T; dec_dispatch : bool;
  dec_loser_of : option ProgramId }.
Arguments mkArbDecision {T}.
Arguments dec_program_id {T}.
Arguments dec_payload {T}.
Arguments dec_dispatch {T}.
Arguments dec_loser_of {T}.

(** [Ord for str]: byte order. *)
Definition string_le (s t : string) : bool := bool_decide (String.le s t).

Section arbiter.
  Context `{UuidOps} {T : Type}.

(** [a] does not come after [b]: priority, then the text of the id. *)
(* src: crates/vcli-runtime/src/arbiter.rs 49-53 resolve *)
Definition cand_le (a b : Candidate T) : bool :=
  (cand_priority a <? cand_priority b)%Z
  || ((cand_priority a =? cand_priority b)%Z
      && string_le (ProgramId_to_string (cand_program_id a))
                   (ProgramId_to_string (cand_program_id b))).

(** [Iterator::max_by]: the last of the greatest elements. *)
Fixpoint max_by (best : Candidate T) (l : list (Candidate T)) : Candidate T :=
  match l with
  | [] => best
  | c :: l => max_by (if cand_le best c then c else best) l
  end.

(* src: crates/vcli-runtime/src/arbiter.rs 30-68 resolve *)
Definition resolve (candidates : list (Candidate T)) : list (ArbDecision T) :=
  match candidates with
  | [] | [_] =>
      map (λ c, {| dec_program_id := cand_program_id c; dec_payload := cand_payload c;
                   dec_dispatch := true; dec_loser_of := None |}) candidates
  | c0 :: cs =>
      let winner := cand_program_id (max_by c0 cs) in
      map (λ c,
        let is_winner := bool_decide (cand_program_id c = winner) in
        {| dec_program_id := cand_program_id c; dec_payload := cand_payload c;
           dec_dispatch := is_winner;
           dec_loser_of := if is_winner then None else Some winner |}) candidates
  end.
End arbiter.

(** ** The body executor *)

(* src: crates/vcli-runtime/src/body.rs 16-27 StepOutcome *)
Inductive StepOutcome := Advanced | Stalled | BodyComplete | StepFailed (e : RuntimeError).

(* src: crates/vcli-runtime/src/body.rs 29-47 BodyDefer *)
Inductive BodyDefer :=
  | DeferSleep (wake_at_ms : UnixMs)
  | DeferWaitFor (predicate : string) (deadline_ms : UnixMs) (on_timeout : OnTimeout).
(* src: crates/vcli-runtime/src/body.rs 49-54 BodyState *)
Record BodyState := mkBodyState { deferred : option BodyDefer }.
(* src: crates/vcli-runtime/src/body.rs 50-50 BodyState::default *)
Definition BodyState_default : BodyState := {| deferred := None |}.

(* src: crates/vcli-runtime/src/program.rs 8-29 RunningProgram *)
Record RunningProgram := mkRunningProgram {
  program : Program;
  rp_assets : Assets;
  state : ProgramState;
  running_since_ms : option UnixMs;
  body_cursor : option Z;
  watch_state : gmap Z WatchRuntime;
  resumed_from : option Z;
  body_state : BodyState;
}.

(* src: crates/vcli-runtime/src/program.rs 43-56 RunningProgram::pending *)
Definition pending (p : Program) : RunningProgram := {|
  program := p; rp_assets := ∅; state := Pending; running_since_ms := None;
  body_cursor := None; watch_state := ∅; resumed_from := None;
  body_state := BodyState_default;
|}.
(* src: crates/vcli-runtime/src/program.rs 58-65 RunningProgram::pending_with_assets *)
Definition pending_with_assets (p : Program) (a : Assets) : RunningProgram := {|
  program := p; rp_assets := a; state := Pending; running_since_ms := None;
  body_cursor := None; watch_state := ∅; resumed_from := None;
  body_state := BodyState_default;
|}.
(* src: crates/vcli-runtime/src/program.rs 67-74 RunningProgram::body_complete *)
Definition body_complete (rp : RunningProgram) : bool :=
  match body_cursor rp with
  | Some n => (Z.of_nat (length (p_body (program rp))) <=? n)%Z
  | None => match p_body (program rp) with [] => true | _ => false end
  end.
(* src: crates/vcli-runtime/src/program.rs 76-80 RunningProgram::active_watch_count *)
Definition active_watch_count (rp : RunningProgram) : nat :=
  size (filter (λ kv : Z * WatchRuntime, retired kv.2 = false) (watch_state rp)).

Section io.
  Context `{NfcOps, RyuOps, ImageOps, InputSink}.
  (** Fuel of the predicate evaluations. *)
  Variable fuel : nat.

Definition IO : Type := PState * sink.

Definition on_perception {A} (m : ST PState A) : ST IO A := λ s,
  r ← m s.1; Ret (r.1, (r.2, s.2)).
Definition on_sink {A} (m : ST sink A) : ST IO A := λ s,
  r ← m s.2; Ret (r.1, (s.1, r.2)).

(** [perception.evaluate_named(...)] *)
Definition eval_named_io (ctx : EvalCtx) (name : string)
    : ST IO (result PerceptionError PredicateResult) :=
  on_perception (evaluate_named fuel ctx name).

(* src: crates/vcli-runtime/src/triggers.rs 11-37 trigger_fires *)
Definition trigger_fires (trig : Trigger) (ctx : EvalCtx) : ST IO (result RuntimeError bool) :=
  match trig with
  | OnSubmit => sok true
  | Manual => sok false
  | OnPredicate name =>
      r ← eval_named_io ctx name;
      match r with
      | Err e => serr (RtPerception (PerceptionError_to_string e))
      | Ok r => sok (truthy r)
      end
  end.

(* src: crates/vcli-runtime/src/body.rs 219-252 resolve_target *)
Definition resolve_target (target : Target) (ctx : EvalCtx)
    : ST IO (result RuntimeError Point) :=
  match target with
  | TargetAbsolute p => sok p
  | TargetExpression s =>
      e ←! mret (expr_parse s);
      r ← eval_named_io ctx (pe_predicate e);
      match r with
      | Err err => serr (RtPerception (PerceptionError_to_string err))
      | Ok r =>
          match pe_accessor e with
          | MatchCenter => mret (resolve_center r)
          | MatchBbox =>
              bx ←! mret (resolve_bbox r); sok {| px := rx bx; py := ry bx |}
          end
      end
  end.

(** [.map_err(|e| RuntimeError::Input(e.to_string()))] *)
Definition input_io (m : ST sink (result InputError ())) : ST IO (result RuntimeError ()) :=
  r ← on_sink m; mret (map_err (λ e, RtInput (InputError_to_string e)) r).

Definition outcome_of (r : result RuntimeError ()) : StepOutcome :=
  match r with Ok _ => Advanced | Err e => StepFailed e end.

(* src: crates/vcli-runtime/src/body.rs 254-278 dispatch_at *)
Definition dispatch_at (target : Target) (ctx : EvalCtx)
    (f : Point → ST IO (result RuntimeError ())) : ST IO StepOutcome :=
  r ← resolve_target target ctx;
  match r with
  | Err e => mret (StepFailed e)
  | Ok p => r ← f p; mret (outcome_of r)
  end.

(** [step_once] also returns the [BodyState] it was lent. *)
(* src: crates/vcli-runtime/src/body.rs 73-115 step_once *)
Definition step_deferred (def : BodyDefer) (ctx : EvalCtx) (bs : BodyState)
    : ST IO (StepOutcome * BodyState) :=
  match def with
  | DeferSleep wake_at_ms =>
      if (wake_at_ms <=? now_ms ctx)%Z then mret (Advanced, {| deferred := None |})
      else mret (Stalled, bs)
  | DeferWaitFor predicate deadline_ms on_timeout =>
      r ← eval_named_io ctx predicate;
      match r with
      | Err e => mret (StepFailed (RtPerception (PerceptionError_to_string e)), bs)
      | Ok r =>
          if truthy r then mret (Advanced, {| deferred := None |})
          else if (deadline_ms <=? now_ms ctx)%Z then
            mret (match on_timeout with
                  | TimeoutContinue | TimeoutRetry => Advanced
                  | TimeoutFail => StepFailed (RtWaitForTimeout predicate 0)
                  end, {| deferred := None |})
          else mret (Stalled, bs)
      end
  end.

(* src: crates/vcli-runtime/src/body.rs 56-217 step_once *)
Definition step_once (body : list Step) (cursor : Z) (bs : BodyState) (ctx : EvalCtx)
    : ST IO (StepOutcome * BodyState) :=
  match deferred bs with
  | Some def => step_deferred def ctx bs
  | None =>
      match body !! Z.to_nat cursor with
      | None => mret (BodyComplete, bs)
      | Some step =>
          match step with
          | SleepMs ms =>
              mret (Stalled,
                {| deferred := Some (DeferSleep (saturating_add_i64 (now_ms ctx) ms)) |})
          | WaitFor predicate timeout_ms on_timeout =>
              mret (Stalled,
                {| deferred := Some (DeferWaitFor predicate
                     (saturating_add_i64 (now_ms ctx) timeout_ms) on_timeout) |})
          | Assert predicate on_fail =>
              r ← eval_named_io ctx predicate;
              match r with
              | Err e => mret (StepFailed (RtPerception (PerceptionError_to_string e)), bs)
              | Ok r =>
                  if truthy r then mret (Advanced, bs)
                  else mret (match on_fail with
                             | FailContinue => Advanced
                             | FailFail => StepFailed (RtAssertFailed predicate)
                             end, bs)
              end
          | Move to =>
              o ← dispatch_at to ctx (λ p, input_io (mouse_move p)); mret (o, bs)
          | Click to button =>
              o ← dispatch_at to ctx (λ p, input_io (click p button [] 0)); mret (o, bs)
          | Scroll to _ _ =>
              o ← dispatch_at to ctx (λ p, input_io (mouse_move p)); mret (o, bs)
          | Type_ text => r ← input_io (type_text text); mret (outcome_of r, bs)
          | Key key modifiers => r ← input_io (key_combo modifiers key); mret (outcome_of r, bs)
          end
      end
  end.

(* src: crates/vcli-runtime/src/body.rs 280-334 dispatch_action *)
Definition dispatch_action (step : Step) (ctx : EvalCtx) : ST IO (result RuntimeError ()) :=
  match step with
  | Move to => p ←! resolve_target to ctx; input_io (mouse_move p)
  | Click to button => p ←! resolve_target to ctx; input_io (click p button [] 0)
  | Scroll to _ _ => p ←! resolve_target to ctx; input_io (mouse_move p)
  | Type_ text => input_io (type_text text)
  | Key key modifiers => input_io (key_combo modifiers key)
  | SleepMs _ | WaitFor _ _ _ | Assert _ _ =>
      serr (RtInternal "body-only step used in watch")
  end.
End io.
