(* ===== verification/RuntimeSpec.v ===== *)
(** * Laws of the runtime's parts

    The arbiter picks one winner; the body executor's timed steps; the
    runtime's target expressions against the DSL's. *)

From S2P Require Import Prelude Json CoreTypes Canonical CanonicalInj Serde DslError DslExpr.
From S2P Require Import FrameView Perception PerceptionSpec Input Runtime.
Local Open Scope vcli_scope.

(** ** The arbiter *)

Section arbiter.
  Context `{UuidOps} {T : Type}.
  Implicit Types c d : Candidate T.

(** Programs by priority, then by the text of their ids. *)
Definition cand_key c : Z * string :=
  (cand_priority c, ProgramId_to_string (cand_program_id c)).
Definition key_le (k l : Z * string) : Prop :=
  (k.1 < l.1)%Z ∨ (k.1 = l.1 ∧ String.le k.2 l.2).

#[export] Instance key_le_preorder : PreOrder key_le.
Proof.
  split.
  - intros k. right. split; [done|]. reflexivity.
  - intros a b c' [?|[? ?]] [?|[? ?]]; unfold key_le; try (left; lia).
    right. split; [lia|]. by trans b.2.
Qed.
Lemma key_le_total k l : key_le k l ∨ key_le l k.
Proof.
  unfold key_le. destruct (Z.lt_trichotomy k.1 l.1) as [?|[?|?]]; [auto| |auto].
  destruct (base.total String.le k.2 l.2); auto.
Qed.

Lemma cand_le_iff c d : cand_le c d = true ↔ key_le (cand_key c) (cand_key d).
Proof.
  unfold cand_le, key_le, cand_key, string_le; simpl.
  rewrite orb_true_iff, andb_true_iff, Z.ltb_lt, Z.eqb_eq, bool_decide_eq_true. done.
Qed.

(** [max_by] returns an element that nothing in the list exceeds. *)
Lemma max_by_spec best l :
  max_by best l ∈ best :: l ∧
  Forall (λ c, key_le (cand_key c) (cand_key (max_by best l))) (best :: l).
Proof.
  revert best. induction l as [|c l IH]; intros best; simpl.
  { split; [by left|]. constructor; [reflexivity|constructor]. }
  set (b := if cand_le best c then c else best). destruct (IH b) as [Hin Hall].
  rewrite Forall_cons in Hall. destruct Hall as [Hb Hl].
  assert (key_le (cand_key best) (cand_key b) ∧ key_le (cand_key c) (cand_key b)) as [Hb1 Hb2].
  { unfold b. destruct (cand_le best c) eqn:Hle.
    - split; [by apply cand_le_iff|reflexivity].
    - split; [reflexivity|]. destruct (key_le_total (cand_key c) (cand_key best)) as [?|Hc]; [done|].
      apply cand_le_iff in Hc. congruence. }
  split.
  - apply elem_of_cons in Hin as [->|Hin]; [|by do 2 right].
    unfold b. destruct (cand_le best c); [right; by left|by left].
  - constructor; [by trans (cand_key b)|]. constructor; [by trans (cand_key b)|done].
Qed.

(** The decision about [c] when [w] wins. *)
Definition decide_for (w c : Candidate T) : ArbDecision T := {|
  dec_program_id := cand_program_id c; dec_payload := cand_payload c;
  dec_dispatch := bool_decide (cand_program_id c = cand_program_id w);
  dec_loser_of := if bool_decide (cand_program_id c = cand_program_id w) then None
                  else Some (cand_program_id w) |}.

Definition wins (w : Candidate T) : ArbDecision T :=
  mkArbDecision (cand_program_id w) (cand_payload w) true None.
Definition loses_to (w c : Candidate T) : ArbDecision T :=
  mkArbDecision (cand_program_id c) (cand_payload c) false (Some (cand_program_id w)).

Lemma resolve_winner (cs : list (Candidate T)) :
  cs ≠ [] → ∃ w, w ∈ cs ∧ Forall (λ c, key_le (cand_key c) (cand_key w)) cs ∧
    resolve cs = decide_for w <$> cs.
Proof.
  destruct cs as [|c0 cs]; [done|]. intros _.
  destruct (max_by_spec c0 cs) as [Hin Hall]. exists (max_by c0 cs). split; [done|].
  split; [done|]. destruct cs as [|c1 cs]; [|done].
  cbn [resolve map max_by fmap list_fmap]. unfold decide_for. by rewrite bool_decide_true.
Qed.

Lemma resolve_one_dispatch (cs : list (Candidate T)) (d1 d2 : ArbDecision T) :
  d1 ∈ resolve cs → d2 ∈ resolve cs → dec_dispatch d1 = true →
  (dec_dispatch d2 = true → dec_program_id d2 = dec_program_id d1) ∧
  (dec_dispatch d2 = false → dec_loser_of d2 = Some (dec_program_id d1)).
Proof.
  intros H1 H2. destruct (decide (cs = [])) as [->|Hne]; [by apply not_elem_of_nil in H1|].
  destruct (resolve_winner cs Hne) as (w & _ & _ & Hr). rewrite Hr in H1, H2.
  apply list_elem_of_fmap in H1 as (c1 & -> & _). apply list_elem_of_fmap in H2 as (c2 & -> & _).
  simpl. rewrite !bool_decide_eq_true, bool_decide_eq_false.
  intros Hw. split; [congruence|]. intros Hn. by rewrite bool_decide_false, Hw.
Qed.

(** With distinct programs, the winner and those before and after it. *)
Lemma resolve_split (cs : list (Candidate T)) :
  cs ≠ [] → NoDup (cand_program_id <$> cs) →
  ∃ before w after, cs = before ++ w :: after ∧
    Forall (λ c, key_le (cand_key c) (cand_key w)) cs ∧
    resolve cs = (loses_to w <$> before) ++ wins w :: (loses_to w <$> after).
Proof.
  intros Hne Hnd. destruct (resolve_winner cs Hne) as (w & Hw & Hall & Hr).
  apply list_elem_of_split in Hw as (before & after & Hcs). exists before, w, after.
  split; [done|]. split; [done|]. rewrite Hr, Hcs, fmap_app, fmap_cons.
  rewrite Hcs, fmap_app, fmap_cons in Hnd. apply NoDup_app in Hnd as (_ & Hb & Hnd).
  apply NoDup_cons in Hnd as [Ha _].
  assert (∀ l : list (Candidate T), (∀ c, c ∈ l → cand_program_id c ≠ cand_program_id w) →
    decide_for w <$> l = loses_to w <$> l) as Hl.
  { intros l Hne'. apply list_fmap_ext. intros i c Hc%list_elem_of_lookup_2.
    unfold decide_for, loses_to. by rewrite bool_decide_false by auto. }
  f_equal; [|f_equal].
  - apply Hl. intros c Hc Heq. apply (Hb (cand_program_id c)); [by apply list_elem_of_fmap_2|].
    rewrite Heq. by left.
  - unfold decide_for, wins. by rewrite bool_decide_true.
  - apply Hl. intros c Hc Heq. apply Ha. rewrite <-Heq. by apply list_elem_of_fmap_2.
Qed.

(** C32: the arbiter answers every candidate in order with its payload, and
    when programs are distinct exactly one is dispatched: one of greatest
    priority and, among those, of greatest id text; every other decision
    refuses and names the winner. *)
Theorem arbiter_correct (cs : list (Candidate T)) :
  cs ≠ [] → NoDup (cand_program_id <$> cs) →
  ∃ before w after, cs = before ++ w :: after ∧
    Forall (λ c, key_le (cand_key c) (cand_key w)) cs ∧
    resolve cs = (loses_to w <$> before) ++ wins w :: (loses_to w <$> after).
Proof. apply resolve_split. Qed.
End arbiter.

Definition demo_uuid : UuidOps := {| uuid_display n := pretty n; uuid_parse _ := None |}.

Lemma arbiter_correct_witness :
  let c i p x := mkCandidate (mkProgramId i) p x in
  ∃ before w after,
    [c 5%N 1%Z "a"; c 9%N 2%Z "b"; c 7%N 2%Z "c"] = before ++ w :: after ∧
    cand_payload w = "b".
Proof.
  cbv zeta.
  destruct (@arbiter_correct demo_uuid string [mkCandidate (mkProgramId 5) 1%Z "a";
    mkCandidate (mkProgramId 9) 2%Z "b"; mkCandidate (mkProgramId 7) 2%Z "c"])
    as (before & w & after & Hcs & Hall & Hr); [discriminate|apply (bool_decide_unpack _); vm_compute; exact I|].
  exists before, w, after. split; [exact Hcs|].
  assert (w ∈ before ++ w :: after) as Hw by (apply elem_of_app; right; by left).
  rewrite <-Hcs in Hw.
  rewrite !elem_of_cons in Hw. rewrite !Forall_cons in Hall. destruct Hall as (_ & H2 & _).
  destruct Hw as [->|[->|[->|Hw]]]; [| reflexivity| |by apply not_elem_of_nil in Hw];
    exfalso; apply cand_le_iff in H2; vm_compute in H2; discriminate H2.
Defined.

(** ** Target expressions *)

(** Of the expressions the DSL accepts, the runtime resolves exactly the
    [match.center] ones; [top_left], [box] and [confidence] pass validation and
    then fail at run time. *)
Theorem runtime_resolves_center_only e :
  is_valid_name (expr_name e) = true →
  expr_parse (expression_to_string e) =
    match accessor e with
    | Center => Ok (mkParsedExpr (expr_name e) MatchCenter)
    | a => Err (RtExpressionUnresolved
                  ("unknown accessor 'match." +:+ accessor_to_string a +:+ "'"))
    end.
Proof.
  destruct e as [name a]. simpl. intros Hv.
  unfold expr_parse, expression_to_string. cbn [expr_name accessor].
  rewrite (proj2 (strip_prefix_Some "$" _ (name +:+ ".match." +:+ accessor_to_string a)) eq_refl).
  change (".match." +:+ accessor_to_string a) with (String "." ("match." +:+ accessor_to_string a)).
  cbn [ok_or mbind result_bind].
  rewrite split_once_app by by apply valid_name_no_dot. cbn [ok_or mbind result_bind].
  destruct name as [|n name]; [done|]. by destruct a.
Qed.

Lemma runtime_resolves_center_only_witness :
  expr_parse "$skip.match.center" = Ok (mkParsedExpr "skip" MatchCenter) ∧
  is_ok (expr_parse "$skip.match.top_left") = false.
Proof.
  split.
  - exact (runtime_resolves_center_only (mkExpression "skip" Center) eq_refl).
  - pose proof (runtime_resolves_center_only (mkExpression "skip" TopLeft) eq_refl) as He.
    change (expression_to_string (mkExpression "skip" TopLeft)) with "$skip.match.top_left" in He.
    by rewrite He.
Defined.

(** A click on a match lands inside the match: on a non-empty box within
    the [i32] desktop, the resolved centre is a point the box contains. *)
Theorem resolved_center_in_box r md p :
  match_data r = Some md → resolve_center r = Ok p →
  (1 ≤ rw (bbox md))%Z → (1 ≤ rh (bbox md))%Z →
  in_i32 (rx (bbox md)) → in_i32 (rx (bbox md) + rw (bbox md)) → in_i32 (rw (bbox md)) →
  in_i32 (ry (bbox md)) → in_i32 (ry (bbox md) + rh (bbox md)) → in_i32 (rh (bbox md)) →
  Rect_contains (bbox md) p = true.
Proof.
  intros Hmd. unfold resolve_center. rewrite Hmd. cbn [ok_or mbind result_bind].
  intros [= <-] Hw Hh ? ? ? ? ? ?. unfold Rect_contains. simpl.
  assert (∀ a n, in_i32 a → in_i32 (a + n) → in_i32 n → (1 ≤ n)%Z →
    ((a <=? wrap_i32 (a + i32_or_0 (u32_or_0 (Z.max n 1 - 1) / 2))) &&
     (wrap_i32 (a + i32_or_0 (u32_or_0 (Z.max n 1 - 1) / 2)) <? wrap_i32 (a + n)))%Z = true) as Hax.
  { intros a n Ha Han Hn Hn1. rewrite Z.max_l by lia.
    assert (0 ≤ (n - 1) / 2 ≤ n - 1)%Z.
    { split; [apply Z.div_pos; lia|apply Z.div_le_upper_bound; lia]. }
    unfold u32_or_0. rewrite decide_True by ints. unfold i32_or_0. rewrite decide_True by ints.
    rewrite !wrap_i32_id by ints. rewrite andb_true_iff, Z.leb_le, Z.ltb_lt. lia. }
  pose proof (Hax (rx (bbox md)) (rw (bbox md))) as Hx.
  pose proof (Hax (ry (bbox md)) (rh (bbox md))) as Hy.
  rewrite andb_true_iff in Hx, Hy. rewrite !andb_true_iff. naive_solver.
Qed.

Lemma resolved_center_in_box_witness :
  let r := mkPredicateResult true (Some (mkMatchData (mkRect 10 20 4 3) (f64_of_Z 1))) 0 in
  resolve_center r = Ok (mkPoint 11 21) ∧ Rect_contains (mkRect 10 20 4 3) (mkPoint 11 21) = true.
Proof.
  cbv zeta. split; [reflexivity|].
  apply (resolved_center_in_box
    (mkPredicateResult true (Some (mkMatchData (mkRect 10 20 4 3) (f64_of_Z 1))) 0)
    (mkMatchData (mkRect 10 20 4 3) (f64_of_Z 1)) (mkPoint 11 21));
    [reflexivity|reflexivity|simpl; ints..].
Defined.

(** ** Timed steps *)

Section timed.
  Context `{NfcOps, RyuOps, ImageOps, InputSink}.
  Variable fuel : nat.

(** The scheduler's calls of [step_once] on one step, tick after tick: it goes
    on while the step stalls. *)
Fixpoint poll (body : list Step) (cursor : Z) (bs : BodyState) (ctxs : list EvalCtx)
    : ST IO (StepOutcome * BodyState) :=
  match ctxs with
  | [] => mret (Stalled, bs)
  | ctx :: ctxs =>
      r ← step_once fuel body cursor bs ctx;
      match r with
      | (Stalled, bs) => poll body cursor bs ctxs
      | r => mret r
      end
  end.

(** The predicate is evaluated in each context in turn, successfully and
    falsely, before the deadline. *)
Inductive quiet (predicate : string) (deadline : Z) : list EvalCtx → IO → IO → Prop :=
  | quiet_nil io : quiet predicate deadline [] io io
  | quiet_cons ctx ctxs r io io1 io2 :
      eval_named_io fuel ctx predicate io = Ret (Ok r, io1) → truthy r = false →
      (now_ms ctx < deadline)%Z → quiet predicate deadline ctxs io1 io2 →
      quiet predicate deadline (ctx :: ctxs) io io2.

Lemma poll_step body cursor bs ctx ctxs io out bs' io' :
  step_once fuel body cursor bs ctx io = Ret ((out, bs'), io') →
  poll body cursor bs (ctx :: ctxs) io =
    match out with Stalled => poll body cursor bs' ctxs io' | _ => Ret ((out, bs'), io') end.
Proof. intros Hs. simpl. unfold mbind, ST_bind. rewrite Hs. by destruct out. Qed.

Lemma poll_sleep body cursor wake early io ctxs :
  Forall (λ ctx, now_ms ctx < wake)%Z early →
  poll body cursor {| deferred := Some (DeferSleep wake) |} (early ++ ctxs) io =
  poll body cursor {| deferred := Some (DeferSleep wake) |} ctxs io.
Proof.
  induction 1 as [|ctx early Hc _ IH]; [done|]. cbn [app].
  erewrite (poll_step _ _ _ _ _ _ Stalled); [exact IH|]. unfold step_once, step_deferred. simpl.
  by rewrite (proj2 (Z.leb_gt _ _) Hc).
Qed.

Lemma poll_wait body cursor p deadline ot early io io1 ctxs :
  quiet p deadline early io io1 →
  poll body cursor {| deferred := Some (DeferWaitFor p deadline ot) |} (early ++ ctxs) io =
  poll body cursor {| deferred := Some (DeferWaitFor p deadline ot) |} ctxs io1.
Proof.
  induction 1 as [|ctx early r io io1 io2 He Hr Hd _ IH]; [done|]. cbn [app].
  erewrite (poll_step _ _ _ _ _ _ Stalled); [exact IH|]. unfold step_once, step_deferred. simpl.
  unfold mbind, ST_bind. rewrite He. simpl. by rewrite Hr, (proj2 (Z.leb_gt _ _) Hd).
Qed.

(** a [sleep_ms] step holds the body from the tick that reaches it up to
    the first tick at or past its wake time, touching neither perception nor
    input; then it advances and leaves no timer behind. *)
Theorem sleep_step_timing body cursor ms first early last io :
  body !! Z.to_nat cursor = Some (SleepMs ms) →
  Forall (λ ctx, now_ms ctx < saturating_add_i64 (now_ms first) ms)%Z early →
  (saturating_add_i64 (now_ms first) ms ≤ now_ms last)%Z →
  poll body cursor BodyState_default (first :: early ++ [last]) io =
    Ret ((Advanced, BodyState_default), io).
Proof.
  intros Hb He Hl. erewrite poll_step.
  2:{ unfold step_once. simpl. rewrite Hb. reflexivity. }
  cbv beta iota. rewrite poll_sleep by done.
  erewrite (poll_step _ _ _ _ _ _ Advanced); [reflexivity|].
  unfold step_once, step_deferred. simpl. by rewrite (proj2 (Z.leb_le _ _) Hl).
Qed.

(** A [wait_for] step polls its predicate once per tick after the one that
    reaches it; it advances at the first tick where it holds, and at the first
    tick past the deadline where it does not it fails or goes on as its
    [on_timeout] says ([retry] goes on, like [continue]). *)
Theorem wait_for_step_timing body cursor p timeout ot first early last io io1 r io2 :
  body !! Z.to_nat cursor = Some (WaitFor p timeout ot) →
  quiet p (saturating_add_i64 (now_ms first) timeout) early io io1 →
  eval_named_io fuel last p io1 = Ret (Ok r, io2) →
  truthy r = true ∨ (saturating_add_i64 (now_ms first) timeout ≤ now_ms last)%Z →
  poll body cursor BodyState_default (first :: early ++ [last]) io =
    Ret ((if truthy r then Advanced
          else match ot with
               | TimeoutFail => StepFailed (RtWaitForTimeout p 0)
               | TimeoutContinue | TimeoutRetry => Advanced
               end, BodyState_default), io2).
Proof.
  intros Hb Hq He Hl. erewrite poll_step.
  2:{ unfold step_once. simpl. rewrite Hb. reflexivity. }
  cbv beta iota. erewrite poll_wait by done.
  set (out := if truthy r then Advanced else _).
  rewrite (poll_step _ _ _ _ _ _ out BodyState_default io2).
  - unfold out. by destruct (truthy r), ot.
  - unfold step_once, step_deferred, out. simpl. unfold mbind, ST_bind. rewrite He. simpl.
    destruct (truthy r) eqn:Hr; [reflexivity|].
    destruct Hl as [?|Hl]; [done|]. by rewrite (proj2 (Z.leb_le _ _) Hl).
Qed.
End timed.

#[local] Existing Instance demo_image_ops.
#[local] Existing Instance nfc_id.
#[local] Existing Instance sci_ops.
#[local] Existing Instance mock_sink.

Definition ctx_at (t : Z) : EvalCtx := {|
  ctx_frame := demo_frame; now_ms := t; ctx_predicates := demo_preds; assets := ∅;
  ctx_program := Some (mkProgramId 7) |}.
Definition idle_io : IO := (Perception_new, MockInputSink_new).

Lemma sleep_step_timing_witness :
  poll 3 [SleepMs 100] 0 BodyState_default [ctx_at 1000; ctx_at 1099; ctx_at 1100] idle_io =
    Ret ((Advanced, BodyState_default), idle_io).
Proof.
  apply (sleep_step_timing 3 [SleepMs 100] 0 100 (ctx_at 1000) [ctx_at 1099] (ctx_at 1100)).
  - reflexivity.
  - repeat constructor.
  - vm_compute. discriminate.
Defined.

Lemma wait_for_step_timing_witness :
  ∃ io', poll 3 [WaitFor "gone" 100 TimeoutFail] 0 BodyState_default
    [ctx_at 1000; ctx_at 1099; ctx_at 1100] idle_io =
    Ret ((StepFailed (RtWaitForTimeout "gone" 0), BodyState_default), io').
Proof.
  assert (∃ io1, eval_named_io 3 (ctx_at 1099) "gone" idle_io
    = Ret (Ok (plain (ctx_at 1099) false), io1)) as [io1 He]
    by (apply returns_Ok; vm_compute; reflexivity).
  assert (∃ io2, eval_named_io 3 (ctx_at 1100) "gone" io1
    = Ret (Ok (plain (ctx_at 1099) false), io2)) as [io2 He2].
  { assert (returns (r ← eval_named_io 3 (ctx_at 1099) "gone" idle_io;
      eval_named_io 3 (ctx_at 1100) "gone" r.2) (plain (ctx_at 1099) false) = true) as Hb
      by (vm_compute; reflexivity).
    rewrite He in Hb. apply returns_Ok in Hb. exact Hb. }
  exists io2.
  apply (wait_for_step_timing 3 [WaitFor "gone" 100 TimeoutFail] 0 "gone" 100 TimeoutFail
    (ctx_at 1000) [ctx_at 1099] (ctx_at 1100) idle_io io1 (plain (ctx_at 1099) false) io2).
  - reflexivity.
  - apply (quiet_cons _ _ _ _ _ (plain (ctx_at 1099) false) _ io1); [exact He|reflexivity| |constructor].
    vm_compute. reflexivity.
  - exact He2.
  - right. vm_compute. discriminate.
Defined.
