(* ===== verification/Capture.v ===== *)
(** * Capture

    The crate vcli-capture: the [Capture] interface the scheduler drives, the
    canned-frame mock that implements it, and the converter from the physical
    BGRA buffer of a back end to a logical frame.  The back end
    that produces the buffers is in [MacCapture]. *)

From S2P Require Import Prelude Json CoreTypes FrameView.
Local Open Scope vcli_scope.

(** ** Errors *)

(* src: crates/vcli-capture/src/error.rs 8-43 CaptureError *)
Inductive CaptureError :=
  | CapPermissionDenied
  | WindowNotFound (id : Z)
  | MalformedFrame (reason : string)
  | CapBackend (message : string)
  | CapUnsupported (what : string).

#[export] Instance CaptureError_eq_dec : EqDecision CaptureError.
Proof. solve_decision. Defined.

(* src: crates/vcli-capture/src/error.rs 12-42 CaptureError::fmt *)
Definition CaptureError_to_string (e : CaptureError) : string :=
  match e with
  | CapPermissionDenied => "screen recording permission not granted"
  | WindowNotFound id => "window not found: id=" +:+ pretty id
  | MalformedFrame r => "malformed frame from backend: " +:+ r
  | CapBackend m => "backend failure: " +:+ m
  | CapUnsupported w => "capture operation unsupported on this backend: " +:+ w
  end.

(* src: crates/vcli-capture/src/error.rs 45-57 CaptureError::code *)
Definition CaptureError_code (e : CaptureError) : string :=
  match e with
  | CapPermissionDenied => "permission_denied"
  | WindowNotFound _ => "unknown_window"
  | MalformedFrame _ | CapBackend _ => "capture_failed"
  | CapUnsupported _ => "unsupported"
  end.

(** ** The interface *)

(* src: crates/vcli-capture/src/capture.rs 9-18 DisplayId *)
Record DisplayId := mkDisplayId { display_id : Z }.
(* src: crates/vcli-capture/src/capture.rs 17-17 DisplayId::PRIMARY *)
Definition PRIMARY : DisplayId := {| display_id := 0 |}.

(* src: crates/vcli-capture/src/capture.rs 20-41 WindowDescriptor *)
Record WindowDescriptor := mkWindowDescriptor {
  wd_id : Z;
  wd_app : string;
  wd_title : string;
  wd_bounds : Rect;
  wd_window_index : WindowIndex;
  wd_display : DisplayId;
}.

(* src: crates/vcli-capture/src/capture.rs 43-72 Capture *)
Class Capture := {
  capture : Type;
  supported_formats : capture → list FrameFormat;
  enumerate_windows : ST capture (result CaptureError (list WindowDescriptor));
  grab_screen : ST capture (result CaptureError Frame);
  grab_window : WindowDescriptor → ST capture (result CaptureError Frame);
}.

(** What the scheduler relies on: capturing returns, and a frame it delivers
    is one whose pixels can be read, as long as the back end is sound. *)
Class CaptureOk `{Capture} := {
  capture_ok : capture → Prop;
  grab_screen_ok s : capture_ok s →
    ∃ r s', grab_screen s = Ret (r, s') ∧ capture_ok s' ∧ ∀ f, r = Ok f → frame_wf f;
}.

(** ** The mock *)

(* src: crates/vcli-capture/src/mock.rs 21-31 MockInner *)
Record MockCapture := mkMockCapture {
  mc_formats : list FrameFormat;
  mc_windows : list WindowDescriptor;
  screen_frames : list Frame;
  screen_cursor : Z;
  window_frame_map : list (Z * list Frame);
  window_cursors : list Z;
  next_error : option CaptureError;
}.

(* src: crates/vcli-capture/src/mock.rs 41-62 MockCapture::new *)
Definition MockCapture_new (formats : list FrameFormat) (windows : list WindowDescriptor)
    (frames : list Frame) : MockCapture := {|
  mc_formats := formats; mc_windows := windows; screen_frames := frames; screen_cursor := 0;
  window_frame_map := []; window_cursors := replicate (length windows) 0%Z; next_error := None |}.
(* src: crates/vcli-capture/src/mock.rs 34-39 MockCapture::empty *)
Definition MockCapture_empty : MockCapture := MockCapture_new [Bgra8] [] [].

Definition set_window_frame_map (m : list (Z * list Frame)) (s : MockCapture) : MockCapture := {|
  mc_formats := mc_formats s; mc_windows := mc_windows s; screen_frames := screen_frames s;
  screen_cursor := screen_cursor s; window_frame_map := m; window_cursors := window_cursors s;
  next_error := next_error s |}.

(** [iter_mut().find(|(id, _)| id == window_id)], or push. *)
(* src: crates/vcli-capture/src/mock.rs 72-81 MockCapture::set_window_frames *)
Fixpoint upsert_frames (window_id : Z) (frames : list Frame) (m : list (Z * list Frame))
    : list (Z * list Frame) :=
  match m with
  | [] => [(window_id, frames)]
  | (id, old) :: m =>
      if decide (id = window_id) then (id, frames) :: m
      else (id, old) :: upsert_frames window_id frames m
  end.
(* src: crates/vcli-capture/src/mock.rs 64-82 MockCapture::set_window_frames *)
Definition set_window_frames (window_id : Z) (frames : list Frame) (s : MockCapture)
    : MockCapture :=
  set_window_frame_map (upsert_frames window_id frames (window_frame_map s)) s.

(* src: crates/vcli-capture/src/mock.rs 84-92 MockCapture::arm_error *)
Definition arm_error (e : CaptureError) (s : MockCapture) : MockCapture := {|
  mc_formats := mc_formats s; mc_windows := mc_windows s; screen_frames := screen_frames s;
  screen_cursor := screen_cursor s; window_frame_map := window_frame_map s;
  window_cursors := window_cursors s; next_error := Some e |}.

(** [if let Some(e) = take_armed_error(&mut g) { return Err(e); }] *)
(* src: crates/vcli-capture/src/mock.rs 94-96 MockCapture::take_armed_error *)
Definition with_armed_error {A} (k : ST MockCapture (result CaptureError A))
    : ST MockCapture (result CaptureError A) :=
  s ← get;
  match next_error s with
  | Some e =>
      _ ← modify (λ s, {|
        mc_formats := mc_formats s; mc_windows := mc_windows s;
        screen_frames := screen_frames s; screen_cursor := screen_cursor s;
        window_frame_map := window_frame_map s; window_cursors := window_cursors s;
        next_error := None |});
      serr e
  | None => k
  end.

(* src: crates/vcli-capture/src/mock.rs 109-115 MockCapture::enumerate_windows *)
Definition mock_enumerate_windows : ST MockCapture (result CaptureError (list WindowDescriptor)) :=
  with_armed_error (s ← get; sok (mc_windows s)).

(* src: crates/vcli-capture/src/mock.rs 117-130 MockCapture::grab_screen *)
Definition mock_grab_screen : ST MockCapture (result CaptureError Frame) :=
  with_armed_error
    (s ← get;
     match screen_frames s with
     | [] => serr (CapBackend "MockCapture has no screen frames configured")
     | _ =>
         let idx := (screen_cursor s mod Z.of_nat (length (screen_frames s)))%Z in
         _ ← modify (λ s, {|
           mc_formats := mc_formats s; mc_windows := mc_windows s;
           screen_frames := screen_frames s; screen_cursor := wrap_u64 (screen_cursor s + 1);
           window_frame_map := window_frame_map s; window_cursors := window_cursors s;
           next_error := next_error s |});
         f ← unwrap (screen_frames s !! Z.to_nat idx);
         sok f
     end).

(** [while cursors.len() <= pos { cursors.push(0) }] *)
(* src: crates/vcli-capture/src/mock.rs 150-152 MockCapture::grab_window *)
Definition pad_cursors (pos : nat) (cursors : list Z) : list Z :=
  cursors ++ replicate (S pos - length cursors) 0%Z.

(* src: crates/vcli-capture/src/mock.rs 132-157 MockCapture::grab_window *)
Definition mock_grab_window (window : WindowDescriptor)
    : ST MockCapture (result CaptureError Frame) :=
  with_armed_error
    (s ← get;
     match list_find (λ e, e.1 = wd_id window) (window_frame_map s) with
     | None => serr (WindowNotFound (wd_id window))
     | Some (pos, (_, frames)) =>
         match frames with
         | [] => serr (CapBackend ("no frames for window id=" +:+ pretty (wd_id window)))
         | _ =>
             let cursors := pad_cursors pos (window_cursors s) in
             cursor ← unwrap (cursors !! pos);
             let idx := (cursor mod Z.of_nat (length frames))%Z in
             _ ← modify (λ s, {|
               mc_formats := mc_formats s; mc_windows := mc_windows s;
               screen_frames := screen_frames s; screen_cursor := screen_cursor s;
               window_frame_map := window_frame_map s;
               window_cursors := <[pos := wrap_u64 (cursor + 1)]> cursors;
               next_error := next_error s |});
             f ← unwrap (frames !! Z.to_nat idx);
             sok f
         end
     end).

(* src: crates/vcli-capture/src/mock.rs 99-158 impl Capture for MockCapture *)
Definition mock_capture : Capture := {|
  capture := MockCapture;
  supported_formats _ := [Bgra8];
  enumerate_windows := mock_enumerate_windows;
  grab_screen := mock_grab_screen;
  grab_window := mock_grab_window;
|}.

(** ** From physical BGRA to a logical frame *)

(** IEEE binary32: [f32]. *)
Definition f32_sub (a b : spec_float) : spec_float := SFsub 24 128 a b.
Definition f32_of_Z (z : Z) : spec_float := binary_normalize 24 128 z 0 false.
Definition f32_EPSILON : spec_float := binary_normalize 24 128 1 (-23) false.
(** [(a - b).abs() < f32::EPSILON] *)
Definition f32_near (a b : spec_float) : bool := SFltb (SFabs (f32_sub a b)) f32_EPSILON.

(* src: crates/vcli-capture/src/macos/convert.rs 11-30 RawBgra *)
Record RawBgra := mkRawBgra {
  width_px : Z;
  height_px : Z;
  raw_stride : Z;
  raw_pixels : list Z;
  raw_captured_at_ns : Z;
  scale : spec_float;
  logical_origin_x : Z;
  logical_origin_y : Z;
}.

(** [v[i]] and [v[i] = x]: panic out of range. *)
Definition index_vec {A} (v : list A) (i : Z) : outcome A :=
  match v !! Z.to_nat i with Some x => Ret x | None => Panic end.
Definition set_vec {A} (i : Z) (x : A) (v : list A) : outcome (list A) :=
  if decide (0 ≤ i < Z.of_nat (length v))%Z then Ret (<[Z.to_nat i := x]> v) else Panic.

(** [for i in 0..n { body(i) }] over a mutable local. *)
Fixpoint for_range {S} (i n : nat) (body : Z → S → outcome S) (s : S) : outcome S :=
  match n with
  | 0 => Ret s
  | S n => s ← body (Z.of_nat i) s; for_range (Datatypes.S i) n body s
  end.

(** Indices stay below the length of a slice, so [usize] does not wrap. *)
(* src: crates/vcli-capture/src/macos/convert.rs 114-126 downsample_2x *)
Definition downsample_cell (out_stride : Z) (row0 row1 : list Z) (y x c : Z) (out : list Z)
    : outcome (list Z) :=
  let sx := (x * 2 * 4)%Z in
  let idx := (y * out_stride + x * 4)%Z in
  a ← index_vec row0 (sx + c);
  b ← index_vec row0 (sx + 4 + c);
  c0 ← index_vec row1 (sx + c);
  d ← index_vec row1 (sx + 4 + c);
  set_vec (idx + c) (((a + b + c0 + d) / 4) mod 256)%Z out.

(* src: crates/vcli-capture/src/macos/convert.rs 105-128 downsample_2x *)
Definition downsample_row (raw : RawBgra) (out_w out_stride : Z) (y : Z) (out : list Z)
    : outcome (list Z) :=
  let src_y0 := (y * 2)%Z in
  let src_y1 := (src_y0 + 1)%Z in
  row0 ← slice (raw_pixels raw) (src_y0 * raw_stride raw)
           (src_y0 * raw_stride raw + width_px raw * 4);
  row1 ← slice (raw_pixels raw) (src_y1 * raw_stride raw)
           (src_y1 * raw_stride raw + width_px raw * 4);
  for_range 0 (Z.to_nat out_w) (λ x,
    for_range 0 4 (λ c, downsample_cell out_stride row0 row1 y x c)) out.

(* src: crates/vcli-capture/src/macos/convert.rs 96-131 downsample_2x *)
Definition downsample_2x (raw : RawBgra) : outcome (Z * Z * Z * list Z) :=
  let out_w := (width_px raw / 2)%Z in
  let out_h := (height_px raw / 2)%Z in
  let out_stride := (out_w * 4)%Z in
  let out := replicate (Z.to_nat (out_stride * out_h)) 0%Z in
  out ← for_range 0 (Z.to_nat out_h) (downsample_row raw out_w out_stride) out;
  Ret (wrap_i32 out_w, wrap_i32 out_h, out_stride, out).

(** The standard library's shortest decimal of an [f32]. *)
Class F32Display := f32_display : spec_float → string.

(* src: crates/vcli-capture/src/macos/convert.rs 32-94 bgra_to_frame *)
Definition bgra_to_frame `{F32Display} (raw : RawBgra) : outcome (result CaptureError Frame) :=
  let need := (raw_stride raw * height_px raw)%Z in
  if decide (u64_max < need)%Z then Ret (Err (MalformedFrame "stride * height overflow"))
  else if decide (Z.of_nat (length (raw_pixels raw)) < need)%Z then
    Ret (Err (MalformedFrame ("buffer len " +:+ pretty (Z.of_nat (length (raw_pixels raw)))
                +:+ " < stride*height " +:+ pretty need)))
  else if decide (raw_stride raw < width_px raw * 4)%Z then
    Ret (Err (MalformedFrame ("stride " +:+ pretty (raw_stride raw)
                +:+ " less than width*4 " +:+ pretty (wrap_u32 (width_px raw * 4)))))
  else
    out ←? (if f32_near (scale raw) (f32_of_Z 1) then
              Ret (Ok (wrap_i32 (width_px raw), wrap_i32 (height_px raw), raw_stride raw,
                       raw_pixels raw))
            else if f32_near (scale raw) (f32_of_Z 2) then
              r ← downsample_2x raw; Ret (Ok r)
            else Ret (Err (MalformedFrame ("unsupported scale " +:+ f32_display (scale raw)))));
    let '(out_w, out_h, out_stride, out_pixels) := (out : Z * Z * Z * list Z) in
    f ← Frame_new Bgra8 {| rx := logical_origin_x raw; ry := logical_origin_y raw;
                           rw := out_w; rh := out_h |} out_stride out_pixels
          (raw_captured_at_ns raw);
    Ret (Ok f).

(** ** Laws *)

(** The mock meets the contract while its canned frames are well formed. *)
#[export] Program Instance mock_capture_ok : @CaptureOk mock_capture :=
  { capture_ok := λ s : MockCapture, Forall frame_wf (screen_frames s) }.
Next Obligation.
  intros s Hs. simpl in *. unfold mock_grab_screen, with_armed_error, get, modify, mbind, ST_bind.
  simpl. destruct (next_error s) as [e|]; simpl.
  { eexists _, _. split; [done|]. naive_solver. }
  destruct (screen_frames s) as [|f0 fs] eqn:Hf; simpl.
  { eexists _, _. split; [done|]. rewrite Hf. naive_solver. }
  set (i := Z.to_nat _).
  assert (is_Some ((f0 :: fs) !! i)) as [f Hi].
  { apply lookup_lt_is_Some_2. unfold i. simpl length.
    pose proof (Z.mod_pos_bound (screen_cursor s) (Z.of_nat (S (length fs)))). lia. }
  unfold unwrap. rewrite Hi. simpl. eexists _, _. split; [done|].
  cbn [screen_frames]. rewrite Hf. split; [done|]. intros f' [= <-].
  rewrite Forall_lookup in Hs. by eapply Hs.
Qed.

Lemma for_range_ind {S} (P : nat → S → Prop) i n body s :
  P i s →
  (∀ j s, i ≤ j < i + n → P j s →
     ∃ s', body (Z.of_nat j) s = Ret s' ∧ P (Datatypes.S j) s') →
  ∃ s', for_range i n body s = Ret s' ∧ P (i + n) s'.
Proof.
  revert i s. induction n as [|n IH]; intros i s Hi Hb; simpl.
  { exists s. by rewrite Nat.add_0_r. }
  destruct (Hb i s) as (s1 & -> & H1); [lia|done|]. simpl.
  destruct (IH (Datatypes.S i) s1 H1) as (s2 & -> & H2).
  - intros j t Hj. apply Hb. lia.
  - exists s2. by rewrite <-Nat.add_succ_comm.
Qed.

(** A buffer of [n] cells whose first [k] hold their final value. *)
Definition filled (F : nat → Z) (n k : nat) : list Z :=
  (F <$> seq 0 k) ++ replicate (n - k) 0%Z.

Lemma length_filled F n k : k ≤ n → length (filled F n k) = n.
Proof. intros. unfold filled. rewrite length_app, length_fmap, length_seq, length_replicate. lia. Qed.

Lemma set_vec_filled F n k i v :
  k < n → i = Z.of_nat k → v = F k → set_vec i v (filled F n k) = Ret (filled F n (S k)).
Proof.
  intros Hk -> ->. unfold set_vec. rewrite length_filled, decide_True by lia. f_equal.
  rewrite Nat2Z.id. unfold filled.
  replace (n - k) with (S (n - S k)) by lia. rewrite seq_S, fmap_app. simpl.
  rewrite insert_app_r_alt by (rewrite length_fmap, length_seq; lia).
  rewrite length_fmap, length_seq, Nat.sub_diag. simpl. by rewrite <-app_assoc.
Qed.

Lemma filled_lookup F n i : i < n → filled F n n !! i = Some (F i).
Proof.
  intros Hi. unfold filled. rewrite lookup_app_l by (by rewrite length_fmap, length_seq).
  rewrite list_lookup_fmap, lookup_seq_lt by done. done.
Qed.

Lemma index_slice (v w : list Z) a b i :
  slice v a b = Ret w → (0 ≤ a)%Z → (0 ≤ i < b - a)%Z →
  index_vec w i = Ret (default 0%Z (v !! Z.to_nat (a + i))).
Proof.
  unfold slice. case_decide as Hab; [|done]. intros [= <-] Ha Hi. unfold index_vec.
  rewrite lookup_take_lt, lookup_drop by lia.
  replace (Z.to_nat a + Z.to_nat i) with (Z.to_nat (a + i)) by lia.
  destruct (lookup_lt_is_Some_2 v (Z.to_nat (a + i))) as [x ->]; [lia|done].
Qed.

(** The byte of channel [c] of the physical pixel at column [x] of row [y]. *)
Definition raw_byte (raw : RawBgra) (y x c : Z) : Z :=
  default 0%Z (raw_pixels raw !! Z.to_nat (y * raw_stride raw + x * 4 + c)).
(** The mean of the 2x2 block that a logical pixel covers. *)
Definition box_mean (raw : RawBgra) (y x c : Z) : Z :=
  ((raw_byte raw (2 * y) (2 * x) c + raw_byte raw (2 * y) (2 * x + 1) c +
    raw_byte raw (2 * y + 1) (2 * x) c + raw_byte raw (2 * y + 1) (2 * x + 1) c) / 4)%Z.

(** A buffer as a back end hands it over: machine-sized fields, bytes, and a
    rectangle that lies on the [i32] desktop. *)
Record raw_wf (raw : RawBgra) : Prop := {
  raw_w : (0 ≤ width_px raw ≤ i32_max)%Z;
  raw_h : (0 ≤ height_px raw ≤ i32_max)%Z;
  raw_st : in_u64 (raw_stride raw);
  raw_bytes : Forall in_u8 (raw_pixels raw);
  raw_len : in_i64 (Z.of_nat (length (raw_pixels raw)));
  raw_x : in_i32 (logical_origin_x raw) ∧ in_i32 (logical_origin_x raw + width_px raw);
  raw_y : in_i32 (logical_origin_y raw) ∧ in_i32 (logical_origin_y raw + height_px raw);
}.

Lemma raw_byte_u8 raw y x c : raw_wf raw → (0 ≤ raw_byte raw y x c ≤ 255)%Z.
Proof.
  intros Hr. unfold raw_byte. destruct (_ !! _) as [b|] eqn:Hb; simpl; [|lia].
  pose proof (raw_bytes _ Hr) as Hb'. rewrite Forall_lookup in Hb'. by apply Hb' in Hb.
Qed.

(** ** The converter *)

Lemma row_index raw row r k c :
  raw_wf raw → slice (raw_pixels raw) (r * raw_stride raw)
    (r * raw_stride raw + width_px raw * 4) = Ret row →
  (0 ≤ r)%Z → (0 ≤ k < width_px raw)%Z → (0 ≤ c < 4)%Z →
  index_vec row (k * 4 + c) = Ret (raw_byte raw r k c).
Proof.
  intros Hr Hrow ? ? ?. pose proof (raw_st _ Hr) as Hst. unfold_ints.
  rewrite (index_slice _ _ _ _ _ Hrow) by nia. unfold raw_byte. do 3 f_equal. lia.
Qed.

Section downsample.
  Variable raw : RawBgra.
  Hypothesis Hr : raw_wf raw.
  Hypothesis Hneed :
    (raw_stride raw * height_px raw ≤ Z.of_nat (length (raw_pixels raw)))%Z.
  Hypothesis Hstride : (width_px raw * 4 ≤ raw_stride raw)%Z.

Let ow := (width_px raw / 2)%Z.
Let oh := (height_px raw / 2)%Z.
Let n := Z.to_nat (ow * 4 * oh).
(** The byte at index [k] of the output. *)
Definition box_cell (k : nat) : Z :=
  let z := Z.of_nat k in
  box_mean raw (z / (ow * 4)) (z mod (ow * 4) / 4) (z mod 4).

Lemma box_cell_at y x c k :
  (0 ≤ x < ow)%Z → (0 ≤ c < 4)%Z → Z.of_nat k = (y * (ow * 4) + x * 4 + c)%Z →
  box_cell k = box_mean raw y x c.
Proof.
  intros Hx Hc Hk. unfold box_cell. rewrite Hk.
  replace (y * (ow * 4) + x * 4 + c)%Z with (x * 4 + c + y * (ow * 4))%Z by lia.
  rewrite Z.div_add, Z.mod_add by lia.
  rewrite (Z.div_small (x * 4 + c)), (Z.mod_small (x * 4 + c)) by lia.
  replace (x * 4 + c + y * (ow * 4))%Z with (c + (x + y * ow) * 4)%Z by lia.
  rewrite Z.mod_add, (Z.mod_small c) by lia.
  replace (x * 4 + c)%Z with (c + x * 4)%Z by lia.
  rewrite Z.div_add, (Z.div_small c) by lia. done.
Qed.

Lemma downsample_cell_ok row0 row1 y x c k :
  slice (raw_pixels raw) (y * 2 * raw_stride raw)
    (y * 2 * raw_stride raw + width_px raw * 4) = Ret row0 →
  slice (raw_pixels raw) ((y * 2 + 1) * raw_stride raw)
    ((y * 2 + 1) * raw_stride raw + width_px raw * 4) = Ret row1 →
  (0 ≤ y < oh)%Z → (0 ≤ x < ow)%Z → (0 ≤ c < 4)%Z →
  Z.of_nat k = (y * (ow * 4) + x * 4 + c)%Z →
  downsample_cell (ow * 4) row0 row1 y x c (filled box_cell n k)
  = Ret (filled box_cell n (S k)).
Proof.
  intros H0 H1 Hy Hx Hc Hk. unfold downsample_cell.
  assert (x * 2 + 1 < width_px raw)%Z as Hxw.
  { pose proof (Z.mul_div_le (width_px raw) 2). unfold ow in *. lia. }
  replace (x * 2 * 4 + c)%Z with (2 * x * 4 + c)%Z by lia.
  replace (x * 2 * 4 + 4 + c)%Z with ((2 * x + 1) * 4 + c)%Z by lia.
  rewrite !(row_index _ _ _ _ _ Hr H0), !(row_index _ _ _ _ _ Hr H1) by lia.
  cbn [mbind outcome_bind]. apply set_vec_filled; [unfold n; nia|lia|].
  rewrite (box_cell_at y x c) by done. unfold box_mean.
  replace (2 * y)%Z with (y * 2)%Z by lia. apply Z.mod_small.
  pose proof (raw_byte_u8 raw (y * 2) (2 * x) c Hr).
  pose proof (raw_byte_u8 raw (y * 2) (2 * x + 1) c Hr).
  pose proof (raw_byte_u8 raw (y * 2 + 1) (2 * x) c Hr).
  pose proof (raw_byte_u8 raw (y * 2 + 1) (2 * x + 1) c Hr).
  split; [apply Z.div_pos; lia|]. apply Z.div_lt_upper_bound; lia.
Qed.

Lemma slice_row r :
  (0 ≤ r < height_px raw)%Z →
  ∃ row, slice (raw_pixels raw) (r * raw_stride raw)
           (r * raw_stride raw + width_px raw * 4) = Ret row.
Proof.
  intros ?. pose proof (raw_w _ Hr). unfold slice. rewrite decide_True by nia. eauto.
Qed.

Lemma downsample_row_ok y :
  y < Z.to_nat oh →
  downsample_row raw ow (ow * 4) (Z.of_nat y) (filled box_cell n (y * Z.to_nat (ow * 4)))
  = Ret (filled box_cell n (S y * Z.to_nat (ow * 4))).
Proof.
  intros Hy. unfold downsample_row.
  assert (0 ≤ ow)%Z by (unfold ow; pose proof (raw_w _ Hr); apply Z.div_pos; lia).
  assert (Z.of_nat y * 2 + 1 < height_px raw)%Z as Hyh.
  { pose proof (Z.mul_div_le (height_px raw) 2). unfold oh in *. lia. }
  destruct (slice_row (Z.of_nat y * 2)) as [row0 H0]; [lia|].
  destruct (slice_row (Z.of_nat y * 2 + 1)) as [row1 H1]; [lia|].
  rewrite H0, H1. cbn [mbind outcome_bind].
  destruct (for_range_ind (λ x out,
    out = filled box_cell n (y * Z.to_nat (ow * 4) + x * 4)) 0 (Z.to_nat ow)
    (λ x, for_range 0 4 (λ c, downsample_cell (ow * 4) row0 row1 (Z.of_nat y) x c))
    (filled box_cell n (y * Z.to_nat (ow * 4)))) as (out & -> & ->).
  - by rewrite Nat.mul_0_l, Nat.add_0_r.
  - intros x s Hx ->.
    destruct (for_range_ind (λ c out,
      out = filled box_cell n (y * Z.to_nat (ow * 4) + x * 4 + c)) 0 4
      (λ c, downsample_cell (ow * 4) row0 row1 (Z.of_nat y) (Z.of_nat x) c)
      (filled box_cell n (y * Z.to_nat (ow * 4) + x * 4))) as (out & Ho & ->).
    + by rewrite Nat.add_0_r.
    + intros c s Hc ->. eexists. split; [|done].
      rewrite (downsample_cell_ok row0 row1) by (done || lia). do 2 f_equal. lia.
    + rewrite Ho. eexists. split; [done|]. f_equal. lia.
  - do 2 f_equal. lia.
Qed.

Lemma downsample_2x_ok :
  downsample_2x raw = Ret (ow, oh, (ow * 4)%Z, filled box_cell n n).
Proof.
  pose proof (raw_w _ Hr). pose proof (raw_h _ Hr).
  assert (0 ≤ ow ≤ i32_max)%Z as Hw.
  { unfold ow. split; [apply Z.div_pos; lia|apply Z.div_le_upper_bound; lia]. }
  assert (0 ≤ oh ≤ i32_max)%Z as Hh.
  { unfold oh. split; [apply Z.div_pos; lia|apply Z.div_le_upper_bound; lia]. }
  unfold downsample_2x. fold ow oh n.
  destruct (for_range_ind (λ y out, out = filled box_cell n (y * Z.to_nat (ow * 4)))
    0 (Z.to_nat oh) (downsample_row raw ow (ow * 4)) (replicate n 0%Z)) as (out & -> & ->).
  - unfold filled. by rewrite Nat.mul_0_l, Nat.sub_0_r.
  - intros y s Hy ->. eexists. split; [apply downsample_row_ok; lia|done].
  - cbn [mbind outcome_bind]. rewrite !wrap_i32_id by ints.
    do 2 f_equal. unfold n. f_equal. lia.
Qed.
End downsample.

(** The buffer is large enough, its rows hold their pixels, its scale is
    supported. *)
Definition raw_accepted (raw : RawBgra) : bool :=
  bool_decide (raw_stride raw * height_px raw ≤ Z.of_nat (length (raw_pixels raw)))%Z &&
  bool_decide (width_px raw * 4 ≤ raw_stride raw)%Z &&
  (f32_near (scale raw) (f32_of_Z 1) || f32_near (scale raw) (f32_of_Z 2)).

(** The logical size and pixels the converter promises. *)
Definition logical_image (raw : RawBgra) : Z * Z * (Z → Z → Z → Z) :=
  if f32_near (scale raw) (f32_of_Z 1) then (width_px raw, height_px raw, raw_byte raw)
  else ((width_px raw / 2)%Z, (height_px raw / 2)%Z, box_mean raw).

(** A frame shows an image of the given size. *)
Definition shows (f : Frame) (im : Z * Z * (Z → Z → Z → Z)) : Prop :=
  rw (bounds f) = im.1.1 ∧ rh (bounds f) = im.1.2 ∧
  ∀ x y, (0 ≤ x < im.1.1)%Z → (0 ≤ y < im.1.2)%Z →
    pixel_rgb f x y = Ret (Ok (mkRgb (im.2 y x 2%Z) (im.2 y x 1%Z) (im.2 y x 0%Z))).

Lemma shows_intro f w h g :
  frame_wf f → format f = Bgra8 → rw (bounds f) = w → rh (bounds f) = h →
  (∀ x y c, (0 ≤ x < w)%Z → (0 ≤ y < h)%Z → (0 ≤ c < 4)%Z →
     default 0%Z (pixels f !! Z.to_nat (y * stride f + 4 * x + c)) = g y x c) →
  shows f (w, h, g).
Proof.
  intros Hf Hb Hw Hh Hg. split_and!; [done..|]. simpl. intros x y Hx Hy.
  destruct (pixel_rgb_in_range f x y) as (b0 & b1 & b2 & H0 & H1 & H2 & ->); [done|lia..|].
  pose proof (Hg x y 0%Z Hx Hy) as G0. pose proof (Hg x y 1%Z Hx Hy) as G1.
  pose proof (Hg x y 2%Z Hx Hy) as G2. rewrite Z.add_0_r, H0 in G0. rewrite H1 in G1.
  rewrite H2 in G2. simpl in *. rewrite Hb, G0, G1, G2 by lia. done.
Qed.

Section convert.
  Context `{F32Display}.

Lemma Frame_new_ok fmt b st px at_ :
  (0 ≤ rh b)%Z → (st * rh b ≤ Z.of_nat (length px))%Z →
  Frame_new fmt b st px at_ = Ret (mkFrame fmt b st px at_).
Proof.
  intros ? ?. unfold Frame_new, saturating_mul_usize. rewrite (decide_True (P := (0 ≤ rh b)%Z)) by done.
  by rewrite decide_True by lia.
Qed.

Lemma bgra_to_frame_rejects raw :
  raw_wf raw → raw_accepted raw = false →
  ∃ m, bgra_to_frame raw = Ret (Err (MalformedFrame m)).
Proof.
  intros Hr. unfold raw_accepted, bgra_to_frame.
  case_decide; [eauto|]. case_decide; [eauto|]. case_decide; [eauto|].
  rewrite !bool_decide_true by lia. simpl. intros [-> ->]%orb_false_iff. simpl. eauto.
Qed.

Lemma bgra_to_frame_accepts raw :
  raw_wf raw → raw_accepted raw = true →
  ∃ f, bgra_to_frame raw = Ret (Ok f) ∧ frame_wf f ∧ shows f (logical_image raw).
Proof.
  intros Hr Ha. pose proof Hr as [? ? ? Hbs Hlen [? ?] [? ?]]. unfold raw_accepted in Ha.
  rewrite !andb_true_iff, !bool_decide_eq_true in Ha. destruct Ha as [[Hn Hs] Hsc].
  assert (raw_stride raw * height_px raw ≤ u64_max)%Z by ints.
  unfold bgra_to_frame, logical_image. rewrite !decide_False by lia.
  destruct (f32_near (scale raw) (f32_of_Z 1)) eqn:Hs1; cbn [obind mbind outcome_bind].
  - rewrite !wrap_i32_id by ints. rewrite Frame_new_ok by (simpl; lia). simpl.
    assert (frame_wf (mkFrame Bgra8 {| rx := logical_origin_x raw; ry := logical_origin_y raw;
      rw := width_px raw; rh := height_px raw |} (raw_stride raw) (raw_pixels raw)
      (raw_captured_at_ns raw))) as Hf.
    { split; simpl; try done; ints. }
    eexists. split; [done|]. split; [done|]. apply shows_intro; [done..|].
    intros x y c ? ? ?. simpl. unfold raw_byte. do 3 f_equal. lia.
  - rewrite orb_false_l in Hsc. rewrite Hsc, (downsample_2x_ok raw Hr Hn Hs). cbn [obind mbind outcome_bind].
    set (w := (width_px raw / 2)%Z). set (h := (height_px raw / 2)%Z).
    assert (0 ≤ w ∧ w * 2 ≤ width_px raw)%Z as [? ?].
    { unfold w. pose proof (Z.mul_div_le (width_px raw) 2). split; [apply Z.div_pos|]; lia. }
    assert (0 ≤ h ∧ h * 2 ≤ height_px raw)%Z as [? ?].
    { unfold h. pose proof (Z.mul_div_le (height_px raw) 2). split; [apply Z.div_pos|]; lia. }
    pose proof (length_filled (box_cell raw) (Z.to_nat (w * 4 * h)) _ (Nat.le_refl _)) as Hlf.
    rewrite Frame_new_ok by (simpl; lia). simpl.
    assert (w * 4 * h ≤ Z.of_nat (length (raw_pixels raw)))%Z by nia.
    match goal with |- ∃ f', Ret (Ok ?f) = _ ∧ _ => assert (frame_wf f) as Hf end.
    { split; simpl; try done; unfold_ints; lia. }
    eexists. split; [done|]. split; [done|]. apply shows_intro; [done..|].
    intros x y c ? ? ?. simpl. rewrite filled_lookup by nia. simpl.
    apply box_cell_at; try done; fold w h; nia.
Qed.

(** C38: the converter never indexes out of its buffer: a raw capture that is
    too short, has rows narrower than its pixels, or an unsupported scale is
    reported as [MalformedFrame]; any other becomes a frame whose every pixel
    can be read, showing the capture itself at scale 1 and the mean of each
    2x2 block at scale 2. *)
Theorem bgra_to_frame_correct raw :
  raw_wf raw →
  (raw_accepted raw = false ∧ ∃ m, bgra_to_frame raw = Ret (Err (MalformedFrame m))) ∨
  (raw_accepted raw = true ∧ ∃ f, bgra_to_frame raw = Ret (Ok f) ∧ frame_wf f ∧
     shows f (logical_image raw)).
Proof.
  intros Hr. destruct (raw_accepted raw) eqn:Ha; [right|left];
    eauto using bgra_to_frame_accepts, bgra_to_frame_rejects.
Qed.
End convert.

(** A 2x2 Retina capture becomes one pixel, the mean of the four. *)
Definition demo_raw : RawBgra := {|
  width_px := 2; height_px := 2; raw_stride := 8;
  raw_pixels := [0; 40; 8; 255; 4; 40; 8; 255; 8; 40; 8; 255; 16; 40; 8; 255]%Z;
  raw_captured_at_ns := 5; scale := f32_of_Z 2; logical_origin_x := 0; logical_origin_y := 0 |}.
Definition f32_demo : F32Display := λ _, "".

Lemma bgra_to_frame_correct_witness :
  raw_accepted demo_raw = true ∧
  ∃ f, @bgra_to_frame f32_demo demo_raw = Ret (Ok f) ∧ frame_wf f ∧
    pixel_rgb f 0 0 = Ret (Ok (mkRgb 8 40 7)).
Proof.
  split; [vm_compute; reflexivity|].
  destruct (@bgra_to_frame_correct f32_demo demo_raw) as [[Hn _]|(_ & f & Hf & Hwf & Hs)].
  - split; simpl; try ints. repeat constructor; ints.
  - vm_compute in Hn. discriminate Hn.
  - exists f. split; [exact Hf|]. split; [exact Hwf|].
    destruct Hs as (_ & _ & Hp). apply (Hp 0%Z 0%Z); vm_compute; split; congruence.
Defined.
