(* ===== verification/MacCapture.v ===== *)
(** * MacCapture

    The macOS back end of vcli-capture: [permission.rs] and [macos/sck.rs]
    over what ScreenCaptureKit answers, which is a parameter ([ScreenKit]): the
    n-th question may be refused, and windows come and go between questions. *)

From S2P Require Import Prelude Json CoreTypes FrameView Capture.
Local Open Scope vcli_scope.

(** ** The permission probe *)

(** The enumeration of vcli-capture, not the one of vcli-input. *)
(* src: crates/vcli-capture/src/permission.rs 16-29 PermissionStatus *)
Inductive ScreenPermission := ScreenGranted | ScreenDenied | ScreenUnknown.

(** ** What ScreenCaptureKit answers *)

(** [CGRect]: origin and size in logical points. *)
Record CGRect := mkCGRect { cg_x : f64; cg_y : f64; cg_width : f64; cg_height : f64 }.
Record SCDisplay := mkSCDisplay { display_width : Z; display_height : Z }.
Record SCWindow := mkSCWindow {
  window_id : Z;
  owning_application : option string;
  title : option string;
  frame : CGRect;
}.
Record SCShareableContent := mkContent { displays : list SCDisplay; windows : list SCWindow }.
(** The variants the source tells apart, and any other with its text. *)
Inductive SCError := ScPermissionDenied | ScNoShareableContent | ScOther.
(** The filter and the size a screenshot is asked for. *)
Inductive SCContentFilter := WithDisplay (d : SCDisplay) | WithWindow (w : SCWindow).
Record CGImage := mkCGImage {
  image_width : Z;
  image_height : Z;
  rgba_data : result string (list Z);
}.

Class ScreenKit := {
  preflight_access : nat → bool;
  shareable_content : nat → result string SCShareableContent;
  capture_image : nat → SCContentFilter → Z → Z → result (SCError * string) CGImage;
  unix_ns : nat → option Z;
}.

(** [f as i32] and [f as u32]: truncate, saturate, 0 for a NaN. *)
Definition f64_trunc (f : f64) : Z :=
  match f with
  | S754_finite s m e =>
      let n := if (0 <=? e)%Z then (Z.pos m * 2 ^ e)%Z else (Z.pos m / 2 ^ (- e))%Z in
      if s then (- n)%Z else n
  | _ => 0%Z
  end.
Definition f64_cast (lo hi : Z) (f : f64) : Z :=
  match f with
  | S754_infinity s => if s then lo else hi
  | _ => Z.max lo (Z.min hi (f64_trunc f))
  end.
Definition f64_as_i32 : f64 → Z := f64_cast i32_min i32_max.
Definition f64_as_u32 : f64 → Z := f64_cast 0 u32_max.

(** ** Windows *)

(* src: crates/vcli-capture/src/macos/sck.rs 112-124 assign_window_indices *)
Definition assign_window_index
    (acc : gmap (string * string) Z * list WindowDescriptor) (w : Z * string * string * Rect)
    : gmap (string * string) Z * list WindowDescriptor :=
  let '(counters, out) := acc in
  let '(id, app, title, bounds) := w in
  let idx := match counters !! (app, title) with Some n => wrap_u32 (n + 1) | None => 0%Z end in
  (<[(app, title) := idx]> counters,
   out ++ [{| wd_id := id; wd_app := app; wd_title := title; wd_bounds := bounds;
              wd_window_index := idx; wd_display := PRIMARY |}]).
(* src: crates/vcli-capture/src/macos/sck.rs 105-127 assign_window_indices *)
Definition assign_window_indices (raw : list (Z * string * string * Rect))
    : list WindowDescriptor :=
  (foldl assign_window_index (∅, []) raw).2.

(* src: crates/vcli-capture/src/macos/sck.rs 133-148 build_descriptors *)
Definition raw_window (w : SCWindow) : Z * string * string * Rect :=
  let rect := frame w in
  (window_id w, default "" (owning_application w), default "" (title w),
   {| rx := f64_as_i32 (cg_x rect); ry := f64_as_i32 (cg_y rect);
      rw := f64_as_i32 (cg_width rect); rh := f64_as_i32 (cg_height rect) |}).
(* src: crates/vcli-capture/src/macos/sck.rs 129-151 build_descriptors *)
Definition build_descriptors (ws : list SCWindow) : list WindowDescriptor :=
  assign_window_indices (map raw_window ws).

(** [sort_by_key], which is stable. *)
Definition by_id (a b : SCWindow) : Prop := (window_id a ≤ window_id b)%Z.
#[export] Instance by_id_dec : RelDecision by_id.
Proof. intros a b. apply Z_le_dec. Defined.
#[export] Instance by_id_total : Total by_id.
Proof. intros a b. unfold by_id. lia. Qed.
#[export] Instance by_id_trans : Transitive by_id.
Proof. intros a b c. unfold by_id. lia. Qed.

(** ** The back end *)

(* src: crates/vcli-capture/src/macos/sck.rs 47-52 MacCapture *)
Record MacCapture := mkMacCapture {
  last_content : option SCShareableContent;
  kit_asked : nat;
}.

Section mac.
Context `{ScreenKit, F32Display}.
Local Abbreviation M A := (ST MacCapture (result CaptureError A)).

Definition ask_kit {A} (answer : nat → A) : ST MacCapture A := λ s,
  Ret (answer (kit_asked s),
       {| last_content := last_content s; kit_asked := S (kit_asked s) |}).

(* src: crates/vcli-capture/src/permission.rs 45-60 cfg_if_macos *)
Definition check_screen_recording_permission : ST MacCapture ScreenPermission :=
  granted ← ask_kit preflight_access;
  mret (if granted : bool then ScreenGranted else ScreenDenied).

(** The answer is [Self]: the state the back end starts in. *)
(* src: crates/vcli-capture/src/macos/sck.rs 55-72 MacCapture::new *)
Definition MacCapture_new : M () :=
  status ← check_screen_recording_permission;
  match status with
  | ScreenGranted =>
      _ ← modify (λ s, {| last_content := None; kit_asked := kit_asked s |});
      sok ()
  | ScreenDenied | ScreenUnknown => serr CapPermissionDenied
  end.

(* src: crates/vcli-capture/src/macos/sck.rs 74-81 MacCapture::refresh_content *)
Definition refresh_content : M SCShareableContent :=
  r ← ask_kit shareable_content;
  match r with
  | Err e => serr (CapBackend ("SCShareableContent::get: " +:+ e))
  | Ok content =>
      _ ← modify (λ s, {| last_content := Some content; kit_asked := kit_asked s |});
      sok content
  end.

(* src: crates/vcli-capture/src/macos/sck.rs 83-92 MacCapture::primary_display *)
Definition primary_display (content : SCShareableContent) : result CaptureError SCDisplay :=
  match displays content with
  | d :: _ => Ok d
  | [] => Err (CapBackend "no displays reported by SCShareableContent")
  end.

(* src: crates/vcli-capture/src/macos/sck.rs 94-103 MacCapture::locate_window *)
Definition locate_window (id : Z) : M SCWindow :=
  content ←! refresh_content;
  match list_find (λ w, window_id w = id) (windows content) with
  | Some (_, w) => sok w
  | None => serr (WindowNotFound id)
  end.

(* src: crates/vcli-capture/src/macos/sck.rs 153-162 monotonic_ns *)
Definition monotonic_ns : ST MacCapture Z :=
  d ← ask_kit unix_ns;
  mret (from_option wrap_u64 0%Z d).

(* src: crates/vcli-capture/src/macos/sck.rs 164-175 map_sck_error *)
Definition map_sck_error (e : SCError * string) (context : string) : CaptureError :=
  match e.1 with
  | ScPermissionDenied | ScNoShareableContent => CapPermissionDenied
  | ScOther => CapBackend (context +:+ ": " +:+ e.2)
  end.

(** From a screenshot to a frame: what both grabs do with an image. *)
(* src: crates/vcli-capture/src/macos/sck.rs 207-240 MacCapture::grab_screen *)
Definition frame_of_image (filter : SCContentFilter) (w h : Z) (context : string) (x y : Z)
    : M Frame :=
  r ← ask_kit (λ n, capture_image n filter w h);
  match r with
  | Err e => serr (map_sck_error e context)
  | Ok image =>
      let width_px := wrap_u32 (image_width image) in
      let height_px := wrap_u32 (image_height image) in
      match rgba_data image with
      | Err e => serr (MalformedFrame ("CGImage::rgba_data: " +:+ e))
      | Ok pixels =>
          now ← monotonic_ns;
          f ←! slift (bgra_to_frame {|
                 width_px := width_px; height_px := height_px;
                 raw_stride := width_px * 4; raw_pixels := pixels;
                 raw_captured_at_ns := now; scale := f32_of_Z 1;
                 logical_origin_x := x; logical_origin_y := y |});
          sok {| format := Rgba8; bounds := bounds f; stride := stride f;
                 pixels := FrameView.pixels f; captured_at_ns := captured_at_ns f |}
      end
  end.

(* src: crates/vcli-capture/src/macos/sck.rs 193-240 MacCapture::grab_screen *)
Definition mac_grab_screen : M Frame :=
  content ←! refresh_content;
  display ←! mret (primary_display content);
  frame_of_image (WithDisplay display) (display_width display) (display_height display)
    "SCScreenshotManager::capture_image" 0 0.

(* src: crates/vcli-capture/src/macos/sck.rs 242-291 MacCapture::grab_window *)
Definition mac_grab_window (window : WindowDescriptor) : M Frame :=
  sck_window ←! locate_window (wd_id window);
  let frame_rect := frame sck_window in
  frame_of_image (WithWindow sck_window) (f64_as_u32 (cg_width frame_rect))
    (f64_as_u32 (cg_height frame_rect)) "capture_image"
    (f64_as_i32 (cg_x frame_rect)) (f64_as_i32 (cg_y frame_rect)).

(* src: crates/vcli-capture/src/macos/sck.rs 185-191 MacCapture::enumerate_windows *)
Definition mac_enumerate_windows : M (list WindowDescriptor) :=
  content ←! refresh_content;
  sok (build_descriptors (merge_sort by_id (windows content))).

(* src: crates/vcli-capture/src/macos/sck.rs 177-183 MacCapture *)
Definition mac_capture : Capture := {|
  capture := MacCapture;
  supported_formats _ := [Rgba8];
  enumerate_windows := mac_enumerate_windows;
  grab_screen := mac_grab_screen;
  grab_window := mac_grab_window;
|}.
End mac.
