(* ===== verification/MacCaptureSpec.v ===== *)
(** * MacCaptureSpec

    What the macOS capture back end promises: it returns whatever the system
    answers, a frame it delivers shows the pixels the system captured, and the
    windows it lists are told apart by application, title and index. *)

From S2P Require Import Prelude Wp Json CoreTypes FrameView Capture MacCapture.
Local Open Scope vcli_scope.

(** ** Frames *)

(** What is relied on: images of machine size, made of bytes. *)
Class ScreenKitLaws `{ScreenKit} : Prop := {
  image_sound n f w h img : capture_image n f w h = Ok img →
    (0 ≤ image_width img ≤ i32_max)%Z ∧ (0 ≤ image_height img ≤ i32_max)%Z ∧
    ∀ px, rgba_data img = Ok px → Forall in_u8 px ∧ in_i64 (Z.of_nat (length px));
}.

(** A frame shows an image of [w] by [h] packed RGBA pixels. *)
Definition shows_rgba (f : Frame) (w h : Z) (px : list Z) : Prop :=
  format f = Rgba8 ∧ rw (bounds f) = w ∧ rh (bounds f) = h ∧
  ∀ x y, (0 ≤ x < w)%Z → (0 ≤ y < h)%Z →
    let byte c := default 0%Z (px !! Z.to_nat ((y * w + x) * 4 + c)) in
    pixel_rgb f x y = Ret (Ok (mkRgb (byte 0%Z) (byte 1%Z) (byte 2%Z))).

(** At scale 1 the converter hands the buffer through. *)
Lemma bgra_to_frame_scale_one `{F32Display} raw :
  raw_wf raw → scale raw = f32_of_Z 1 → raw_accepted raw = true →
  bgra_to_frame raw
  = Ret (Ok (mkFrame Bgra8 {| rx := logical_origin_x raw; ry := logical_origin_y raw;
                              rw := width_px raw; rh := height_px raw |}
               (raw_stride raw) (raw_pixels raw) (raw_captured_at_ns raw))).
Proof.
  intros [? ? ? _ Hlen _ _] Hsc. unfold raw_accepted.
  rewrite !andb_true_iff, !bool_decide_eq_true. intros [[Hn Hs] _].
  unfold bgra_to_frame. rewrite !decide_False by (unfold_ints; lia).
  assert (f32_near (scale raw) (f32_of_Z 1) = true) as -> by (rewrite Hsc; reflexivity).
  cbn [obind mbind outcome_bind]. rewrite !wrap_i32_id by ints.
  by rewrite Frame_new_ok by (simpl; lia).
Qed.

Section frames.
Context `{ScreenKitLaws, F32Display}.

(** The buffer a screenshot is converted from. *)
Definition image_raw (img : CGImage) (px : list Z) (x y at_ : Z) : RawBgra := {|
  width_px := image_width img; height_px := image_height img;
  raw_stride := image_width img * 4; raw_pixels := px;
  raw_captured_at_ns := at_; scale := f32_of_Z 1;
  logical_origin_x := x; logical_origin_y := y |}.

(** The capture of [filter] at a point of the desktop that has room for it. *)
Definition placed (x y : Z) : Prop :=
  ∀ n f w h img, capture_image n f w h = Ok img →
    in_i32 x ∧ in_i32 (x + image_width img) ∧ in_i32 y ∧ in_i32 (y + image_height img).

Lemma placed_origin : placed 0 0.
Proof.
  intros n f w h img Hc. destruct (image_sound n f w h img Hc) as (? & ? & _). ints.
Qed.

(** A capture is refused, is too short, or is shown. *)
Definition capture_result (filter : SCContentFilter) (w h : Z) (r : result CaptureError Frame)
    : Prop :=
  match r with
  | Ok f =>
      frame_wf f ∧ ∃ n img px, capture_image n filter w h = Ok img ∧ rgba_data img = Ok px ∧
        shows_rgba f (image_width img) (image_height img) px
  | Err (MalformedFrame _) =>
      ∃ n img, capture_image n filter w h = Ok img ∧
        ∀ px, rgba_data img = Ok px →
          (Z.of_nat (length px) < image_width img * 4 * image_height img)%Z
  | Err CapPermissionDenied =>
      ∃ n e, capture_image n filter w h = Err e ∧ e.1 ≠ ScOther
  | Err (CapBackend _) => ∃ n e, capture_image n filter w h = Err e ∧ e.1 = ScOther
  | Err _ => False
  end.

Lemma wp_ask_kit {A} (f : nat → A) (Q : A → MacCapture → Prop) s :
  (∀ n s', Q (f n) s') → wp (ask_kit f) Q s.
Proof. intros HQ. by eexists _, _. Qed.

Lemma image_shown img px x y at_ :
  raw_wf (image_raw img px x y at_) →
  raw_accepted (image_raw img px x y at_) = true →
  let f := mkFrame Rgba8 {| rx := x; ry := y; rw := image_width img; rh := image_height img |}
             (image_width img * 4) px at_ in
  frame_wf f ∧ shows_rgba f (image_width img) (image_height img) px.
Proof.
  intros [Hw Hh Hst _ Hlen Hx Hy] Ha. unfold raw_accepted in Ha. simpl in *.
  rewrite !andb_true_iff, !bool_decide_eq_true in Ha. destruct Ha as [[Hn _] _].
  assert (frame_wf (mkFrame Rgba8 {| rx := x; ry := y; rw := image_width img;
    rh := image_height img |} (image_width img * 4) px at_)) as Hwf.
  { split; simpl; try done; ints. }
  split; [done|]. split_and!; [done..|]. intros a b Ha Hb.
  destruct (pixel_rgb_in_range _ a b Hwf Ha Hb) as (b0 & b1 & b2 & E0 & E1 & E2 & ->).
  simpl in *.
  replace ((b * image_width img + a) * 4)%Z with (b * (image_width img * 4) + 4 * a)%Z by lia.
  by rewrite Z.add_0_r, E0, E1, E2.
Qed.

Lemma wp_frame_of_image filter w h ctx x y s :
  placed x y → wp (frame_of_image filter w h ctx x y) (λ r _, capture_result filter w h r) s.
Proof.
  intros Hpl. unfold frame_of_image. apply wp_bind, wp_ask_kit. intros n s1.
  destruct (capture_image n filter w h) as [img|e] eqn:Hc.
  2: { apply wp_serr. unfold map_sck_error, capture_result. 
       destruct e as [[] m]; exists n; eexists; (split; [exact Hc|done]). }
  destruct (image_sound n filter w h img Hc) as (Hw & Hh & Hpx).
  destruct (rgba_data img) as [px|m] eqn:Hd.
  2: { apply wp_serr. exists n, img. split; [done|]. intros px Hpx'. congruence. }
  destruct (Hpx px eq_refl) as [Hbytes Hlen]. destruct (Hpl n filter w h img Hc) as (?&?&?&?).
  unfold monotonic_ns. repeat (apply wp_bind). apply wp_ask_kit. intros k s2.
  apply wp_ret, wp_sbind.
  rewrite (wrap_u32_id (image_width img)), (wrap_u32_id (image_height img)) by ints.
  set (at_ := from_option wrap_u64 0%Z (unix_ns k)).
  fold (image_raw img px x y at_).
  assert (raw_wf (image_raw img px x y at_)) as Hraw by (split; simpl; try done; ints).
  destruct (raw_accepted (image_raw img px x y at_)) eqn:Ha.
  - eapply wp_slift; [by apply bgra_to_frame_scale_one|]. apply wp_sok.
    destruct (image_shown img px x y at_ Hraw Ha) as [Hwf Hs].
    split; [exact Hwf|]. by exists n, img, px.
  - destruct (bgra_to_frame_rejects _ Hraw Ha) as [m Hm].
    eapply wp_slift; [exact Hm|]. simpl. exists n, img. split; [done|]. rewrite Hd.
    intros px' [= <-].
    unfold raw_accepted in Ha. cbn [image_raw raw_stride height_px raw_pixels width_px] in Ha.
    rewrite (bool_decide_true (_ * 4 ≤ _)%Z) in Ha by lia. rewrite !andb_false_iff in Ha.
    destruct Ha as [[Ha|Ha]|Ha]; [apply bool_decide_eq_false in Ha; lia|done|by vm_compute in Ha].
Qed.
End frames.

(** ** Windows *)

Definition wd_key (d : WindowDescriptor) : string * string := (wd_app d, wd_title d).
(** The windows of a name among those already listed. *)
Definition count_key (k : string * string) (ds : list WindowDescriptor) : nat :=
  length (filter (λ d, wd_key d = k) ds).
(** Every window carries the number of its namesakes before it. *)
Definition indexed (ds : list WindowDescriptor) : Prop :=
  ∀ i d, ds !! i = Some d → wd_window_index d = Z.of_nat (count_key (wd_key d) (take i ds)).

Lemma count_key_snoc k ds d :
  count_key k (ds ++ [d]) = (count_key k ds + if decide (wd_key d = k) then 1 else 0)%nat.
Proof.
  unfold count_key. rewrite filter_app, length_app. f_equal. rewrite filter_cons.
  by case_decide.
Qed.
Lemma count_key_length k ds : (count_key k ds ≤ length ds)%nat.
Proof. apply length_filter. Qed.

Lemma indexed_snoc ds d :
  indexed ds → wd_window_index d = Z.of_nat (count_key (wd_key d) ds) → indexed (ds ++ [d]).
Proof.
  intros Hds Hd i d' Hi. apply lookup_app_Some in Hi as [Hi|[Hlen Hi]].
  - rewrite take_app_le by (apply lookup_lt_Some in Hi; lia). by apply Hds.
  - apply list_lookup_singleton_Some in Hi as [Hi <-].
    rewrite take_app_length' by lia. done.
Qed.

(** The counters hold the last index given out under each name. *)
Definition counted (counters : gmap (string * string) Z) (ds : list WindowDescriptor) : Prop :=
  ∀ k, counters !! k
       = match count_key k ds with O => None | S n => Some (Z.of_nat n) end.

Lemma assign_window_indices_spec raw :
  (Z.of_nat (length raw) ≤ u32_max)%Z →
  indexed (assign_window_indices raw) ∧
  map (λ d, (wd_id d, wd_app d, wd_title d, wd_bounds d)) (assign_window_indices raw) = raw.
Proof.
  unfold assign_window_indices. intros Hlen.
  enough (counted (foldl assign_window_index (∅, []) raw).1
            (foldl assign_window_index (∅, []) raw).2 ∧
          indexed (foldl assign_window_index (∅, []) raw).2 ∧
          map (λ d, (wd_id d, wd_app d, wd_title d, wd_bounds d))
            (foldl assign_window_index (∅, []) raw).2 = raw) by tauto.
  induction raw as [|[[[id app] tt] b] raw IH] using rev_ind.
  { split_and!; [intros k; apply lookup_empty|by intros []|done]. }
  rewrite length_app in Hlen. simpl in Hlen. rewrite foldl_app.
  destruct IH as (Hc & Hi & Hm); [lia|].
  destruct (foldl assign_window_index (∅, []) raw) as [counters out]. simpl in *.
  set (idx := match counters !! (app, tt) with Some n => _ | None => _ end).
  assert (length out = length raw) as Hl by (rewrite <-Hm; by rewrite length_map).
  assert (idx = Z.of_nat (count_key (app, tt) out)) as Hidx.
  { unfold idx. rewrite Hc. pose proof (count_key_length (app, tt) out).
    destruct (count_key (app, tt) out) as [|n]; [done|]. rewrite wrap_u32_id by ints. lia. }
  split_and!.
  - intros k. rewrite count_key_snoc. unfold wd_key at 1. simpl.
    destruct (decide ((app, tt) = k)) as [<-|Hk].
    + rewrite lookup_insert_eq, Nat.add_1_r. by f_equal.
    + rewrite lookup_insert_ne by done. by rewrite Nat.add_0_r.
  - by apply indexed_snoc.
  - by rewrite map_app, Hm.
Qed.

(** Name and index tell the windows of a list apart. *)
Lemma indexed_NoDup ds :
  indexed ds → NoDup (map (λ d, (wd_app d, wd_title d, wd_window_index d)) ds).
Proof.
  intros Hds. apply NoDup_alt. intros i j x Hi Hj.
  apply list_lookup_fmap_Some in Hi as (d & -> & Hi).
  apply list_lookup_fmap_Some in Hj as (d' & [= Ha Ht Hn] & Hj).
  assert (∀ i j d d', ds !! i = Some d → ds !! j = Some d' → wd_key d = wd_key d' →
    i < j → (wd_window_index d < wd_window_index d')%Z) as Hlt.
  { clear -Hds. intros i j d d' Hi Hj Hk Hij. rewrite (Hds _ _ Hi), (Hds _ _ Hj), <-Hk.
    rewrite <-(take_drop (S i) (take j ds)), take_take, Nat.min_l by lia.
    rewrite (take_S_r _ _ _ Hi). unfold count_key. rewrite !filter_app, !length_app.
    rewrite filter_cons, decide_True by done. simpl. lia. }
  destruct (Nat.lt_trichotomy i j) as [Hij|[Hij|Hij]]; [|done|].
  - pose proof (Hlt i j d d' Hi Hj) as Hx. unfold wd_key in Hx. rewrite Ha, Ht in Hx.
    specialize (Hx eq_refl Hij). lia.
  - pose proof (Hlt j i d' d Hj Hi) as Hx. unfold wd_key in Hx. rewrite Ha, Ht in Hx.
    specialize (Hx eq_refl Hij). lia.
Qed.

(** ** The back end *)

Section back_end.
Context `{ScreenKitLaws, F32Display}.

Lemma wp_refresh_content (Q : _ → MacCapture → Prop) s :
  (∀ s', Q (match shareable_content (kit_asked s) with
            | Ok content => Ok content
            | Err e => Err (CapBackend ("SCShareableContent::get: " +:+ e))
            end) s') →
  wp refresh_content Q s.
Proof.
  intros HQ. unfold refresh_content, ask_kit. apply wp_bind. eexists _, _.
  split; [reflexivity|]. destruct (shareable_content (kit_asked s)) as [c|e]; by wp_steps.
Qed.

(** C30: A grab of the screen on macOS always returns.  Without an answer about
    the displays, or without a display, it reports the back end's failure; else
    it reports why the capture of the first display failed, or delivers a frame
    in which every pixel inside the bounds can be read and is the RGBA pixel
    the system captured. *)
Theorem mac_grab_screen_faithful s :
  ∃ r s', @grab_screen mac_capture s = Ret (r, s') ∧
  match shareable_content (kit_asked s) with
  | Err e => r = Err (CapBackend ("SCShareableContent::get: " +:+ e))
  | Ok content =>
      match displays content with
      | [] => r = Err (CapBackend "no displays reported by SCShareableContent")
      | d :: _ => capture_result (WithDisplay d) (display_width d) (display_height d) r
      end
  end.
Proof.
  simpl. unfold mac_grab_screen. apply (wp_sbind (S := MacCapture)), wp_refresh_content.
  intros s1. destruct (shareable_content (kit_asked s)) as [c|e]; cbn [on_result]; [|done].
  apply wp_sbind, wp_ret. unfold primary_display.
  destruct (displays c) as [|d ds]; cbn [on_result]; [done|].
  apply wp_frame_of_image, placed_origin.
Qed.

Lemma capture_result_wf filter w h f : capture_result filter w h (Ok f) → frame_wf f.
Proof. by intros [Hf _]. Qed.

(** The macOS back end meets the interface the scheduler relies on. *)
#[export] Program Instance mac_capture_ok : @CaptureOk mac_capture :=
  { capture_ok _ := True }.
Next Obligation.
  intros s _. simpl. unfold mac_grab_screen.
  enough (wp mac_grab_screen (λ r _, ∀ f, r = Ok f → frame_wf f) s) as (r & s' & Hr & Hf)
    by eauto.
  unfold mac_grab_screen. apply wp_sbind, wp_refresh_content. intros s1.
  destruct (shareable_content (kit_asked s)) as [c|e]; cbn [on_result]; [|done].
  apply wp_sbind, wp_ret. unfold primary_display.
  destruct (displays c) as [|d ds]; cbn [on_result]; [done|].
  eapply wp_mono; [by apply wp_frame_of_image, placed_origin|].
  intros r s2 Hr f ->. by eapply capture_result_wf.
Qed.

(** Enumerating windows lists every window the system reports once, by
    ascending id, and numbers namesakes from 0 in that order: application,
    title and index together name one window. *)
Theorem mac_windows_indexed s content :
  shareable_content (kit_asked s) = Ok content →
  (Z.of_nat (length (windows content)) ≤ u32_max)%Z →
  ∃ ds s', @enumerate_windows mac_capture s = Ret (Ok ds, s') ∧
    map (λ d, (wd_id d, wd_app d, wd_title d, wd_bounds d)) ds
      ≡ₚ map raw_window (windows content) ∧
    StronglySorted Z.le (map wd_id ds) ∧
    (∀ i d, ds !! i = Some d →
       wd_window_index d = Z.of_nat (count_key (wd_key d) (take i ds))) ∧
    NoDup (map (λ d, (wd_app d, wd_title d, wd_window_index d)) ds).
Proof.
  intros Hc Hlen.
  set (sorted := merge_sort by_id (windows content)).
  assert (Z.of_nat (length (map raw_window sorted)) ≤ u32_max)%Z as Hn.
  { rewrite length_map. unfold sorted. by rewrite (merge_sort_Permutation by_id). }
  destruct (assign_window_indices_spec _ Hn) as [Hi Hm].
  enough (wp mac_enumerate_windows (λ r _, r = Ok (build_descriptors sorted)) s)
    as (r & s' & Hr & ->).
  - exists (build_descriptors sorted), s'. split; [exact Hr|]. unfold build_descriptors.
    rewrite Hm. split_and!; [|  |done|by apply indexed_NoDup].
    { apply Permutation_map, merge_sort_Permutation. }
    assert (map wd_id (assign_window_indices (map raw_window sorted)) = map window_id sorted) as ->.
    { transitivity (map (λ t, t.1.1.1) (map raw_window sorted)).
      - rewrite <-Hm at 2. by rewrite map_map.
      - by rewrite map_map. }
    apply (StronglySorted_fmap window_id by_id Z.le); [done|].
    by apply (StronglySorted_merge_sort by_id).
  - unfold mac_enumerate_windows. apply wp_sbind, wp_refresh_content. intros s1.
    rewrite Hc. cbn [on_result]. by apply wp_sok.
Qed.
End back_end.

(** ** Instances *)

(** A screen of 2 by 1 pixels with three windows, two of one name. *)
Definition kit_window (id : Z) (t : string) : SCWindow :=
  mkSCWindow id (Some "Safari") (Some t) (mkCGRect (f64_of_Z 0) (f64_of_Z 0) (f64_of_Z 9) (f64_of_Z 9)).
Definition kit_content : SCShareableContent :=
  mkContent [mkSCDisplay 2 1] [kit_window 7 "Mail"; kit_window 9 "Maps"; kit_window 3 "Mail"].
Definition demo_kit : ScreenKit := {|
  preflight_access _ := true;
  shareable_content _ := Ok kit_content;
  capture_image _ _ _ _ := Ok (mkCGImage 2 1 (Ok [1; 2; 3; 255; 4; 5; 6; 255]%Z));
  unix_ns _ := Some 5%Z |}.
#[export] Instance demo_kit_laws : @ScreenKitLaws demo_kit.
Proof.
  split. intros n f w h img [= <-]. simpl. split_and!; [ints..|].
  intros px [= <-]. split; [|simpl; ints]. by repeat (apply Forall_cons; split; [ints|]).
Qed.
Definition mac_idle : MacCapture := mkMacCapture None 0.

Lemma mac_grab_screen_faithful_witness :
  ∃ r s', @grab_screen (@mac_capture demo_kit f32_demo) mac_idle = Ret (r, s') ∧
    @capture_result demo_kit (WithDisplay (mkSCDisplay 2 1)) 2 1 r.
Proof. exact (@mac_grab_screen_faithful demo_kit _ f32_demo mac_idle). Defined.

Lemma mac_windows_indexed_witness :
  ∃ ds s', @enumerate_windows (@mac_capture demo_kit f32_demo) mac_idle = Ret (Ok ds, s') ∧
    NoDup (map (λ d, (wd_app d, wd_title d, wd_window_index d)) ds).
Proof.
  destruct (@mac_windows_indexed demo_kit _ f32_demo mac_idle kit_content)
    as (ds & s' & Hr & _ & _ & _ & Hd); [reflexivity|vm_compute; congruence|].
  by exists ds, s'.
Defined.

(** The enumeration of the example: by id, the second Mail window has index 1. *)
Example enumerated :
  (λ ds, map (λ d, (wd_id d, wd_title d, wd_window_index d)) ds)
    (build_descriptors (merge_sort by_id (windows kit_content)))
  = [(3, "Mail", 0); (7, "Mail", 1); (9, "Maps", 0)]%Z.
Proof. by vm_compute. Qed.
