(* ===== verification/Clock.v ===== *)
(** * Clocks

    [vcli-core/src/clock.rs] and [vcli-runtime/src/clock.rs]: the production
    clock over the operating system's readings, the deterministic test clocks,
    and the interface the scheduler reads and sleeps through.  A [Duration] is
    its number of nanoseconds. *)

From S2P Require Import Prelude CoreTypes.
Local Open Scope vcli_scope.

(** [Duration::MAX] in nanoseconds: [u64::MAX] seconds and 999,999,999 ns. *)
Definition duration_max : Z := u64_max * 1000000000 + 999999999.
(** [Duration::saturating_add] and [Duration::as_millis]. *)
Definition duration_saturating_add (a b : Z) : Z := Z.min duration_max (a + b).
Definition as_millis (d : Z) : Z := d / 1000000.
(** [i64::try_from(z).unwrap_or(i64::MAX)] on a non-negative [z]. *)
Definition i64_or_max (z : Z) : Z := if decide (in_i64 z) then z else i64_max.

(** [SystemTime::now()] as its signed distance from the epoch; a time before
    the epoch makes [duration_since] fail. *)
(* src: crates/vcli-core/src/clock.rs 55-60 SystemClock::unix_ms *)
Definition SystemClock_unix_ms (system_time : Z) : UnixMs :=
  i64_or_max (as_millis (if decide (system_time < 0)%Z then 0%Z else system_time)).

(* src: crates/vcli-core/src/clock.rs 65-74 TestClock *)
Record TestClock := mkTestClock { tc_now : Z; tc_unix_ms : UnixMs }.
(* src: crates/vcli-core/src/clock.rs 76-86 TestClock::at_unix_ms *)
Definition TestClock_at_unix_ms (baseline : UnixMs) : TestClock :=
  {| tc_now := 0; tc_unix_ms := baseline |}.
(* src: crates/vcli-core/src/clock.rs 88-99 TestClock::advance_by *)
Definition advance_by (d : Z) (c : TestClock) : TestClock := {|
  tc_now := duration_saturating_add (tc_now c) d;
  tc_unix_ms := saturating_add_i64 (tc_unix_ms c) (i64_or_max (as_millis d)) |}.

(** ** The scheduler's clock *)

(* src: crates/vcli-runtime/src/clock.rs 14-21 RuntimeClock *)
Class RuntimeClock := {
  clock : Type;
  unix_ms : ST clock UnixMs;
  sleep_ms : Z → ST clock ();
}.

(** A clock that always answers. *)
Class RuntimeClockTotal `{RuntimeClock} := {
  unix_ms_total c : ∃ t c', unix_ms c = Ret (t, c');
  sleep_ms_total ms c : ∃ c', sleep_ms ms c = Ret ((), c');
}.

(* src: crates/vcli-runtime/src/clock.rs 48-54 ManualClock *)
Record ManualClock := mkManualClock { manual_ms : UnixMs }.
(* src: crates/vcli-runtime/src/clock.rs 57-63 ManualClock::new *)
Definition ManualClock_new (start_ms : UnixMs) : ManualClock := {| manual_ms := start_ms |}.
(* src: crates/vcli-runtime/src/clock.rs 65-74 ManualClock::set_unix_ms *)
Definition set_unix_ms (ms : UnixMs) (c : ManualClock) : ManualClock := {| manual_ms := ms |}.
(* src: crates/vcli-runtime/src/clock.rs 76-86 ManualClock::advance_ms *)
Definition advance_ms (delta_ms : Z) (c : ManualClock) : ManualClock :=
  {| manual_ms := saturating_add_i64 (manual_ms c) delta_ms |}.

(* src: crates/vcli-runtime/src/clock.rs 89-96 impl RuntimeClock for ManualClock *)
Definition manual_clock : RuntimeClock := {|
  clock := ManualClock;
  unix_ms c := Ret (manual_ms c, c);
  sleep_ms ms := modify (advance_ms ms);
|}.
#[export] Instance manual_clock_total : @RuntimeClockTotal manual_clock.
Proof. split; intros; simpl; unfold modify; eauto. Qed.

(** The production clock: the n-th reading of the system's time, and how long
    the thread has slept, in milliseconds. *)
Class SystemTime := { system_time : nat → Z }.
(* src: crates/vcli-runtime/src/clock.rs 23-27 SystemRuntimeClock *)
Record SystemRuntimeClock := mkSystemRuntimeClock { readings : nat; slept_ms : Z }.
(* src: crates/vcli-runtime/src/clock.rs 29-37 SystemRuntimeClock::new *)
Definition SystemRuntimeClock_new : SystemRuntimeClock := mkSystemRuntimeClock 0 0.
(* src: crates/vcli-runtime/src/clock.rs 39-46 impl RuntimeClock for SystemRuntimeClock *)
Definition system_clock `{SystemTime} : RuntimeClock := {|
  clock := SystemRuntimeClock;
  unix_ms c := Ret (SystemClock_unix_ms (system_time (readings c)),
                    mkSystemRuntimeClock (S (readings c)) (slept_ms c));
  sleep_ms ms := modify (λ c, mkSystemRuntimeClock (readings c) (slept_ms c + ms));
|}.
#[export] Instance system_clock_total `{SystemTime} : @RuntimeClockTotal system_clock.
Proof. split; intros; simpl; unfold modify; eauto. Qed.
