(* ===== verification/Scheduler.v ===== *)
(** * The scheduler

    [vcli-runtime/src/scheduler.rs], with the commands it consumes and the
    events it emits.  The scheduler owns the program table, the perception
    state, the capture back end and the clock; commands arrive in a queue and
    events leave in another.  Iteration over the program [HashMap] follows an
    arbitrary order. *)

From S2P Require Import Prelude Json CoreTypes Canonical Serde FrameView Perception Input.
From S2P Require Import Capture Clock Runtime.
Local Open Scope vcli_scope.

(* src: crates/vcli-runtime/src/command.rs 9-55 SchedulerCommand *)
Inductive SchedulerCommand :=
  | SubmitValidated (program_id : ProgramId) (program : Program) (assets : Assets)
  | Cancel (program_id : ProgramId) (reason : string)
  | Start (program_id : ProgramId)
  | ResumeRunning (program_id : ProgramId) (from_step : Z) (program : Program)
      (assets : Assets)
  | Shutdown.

(* src: crates/vcli-runtime/src/scheduler.rs 26-35 SchedulerConfig *)
Record SchedulerConfig := mkSchedulerConfig {
  tick_interval_ms : Z; tick_budget_ms : Z; max_inflight : Z }.
(* src: crates/vcli-runtime/src/scheduler.rs 37-45 SchedulerConfig::default *)
Definition SchedulerConfig_default : SchedulerConfig :=
  {| tick_interval_ms := 100; tick_budget_ms := 90; max_inflight := 256 |}.

(** [HashMap::iter]: every key once, in an order of its own. *)
Class HashOrder := {
  hash_keys : gmap ProgramId RunningProgram → list ProgramId;
  hash_keys_perm m : hash_keys m ≡ₚ elements (dom m);
}.

(** ** Updates of one program *)

Definition set_state (st : ProgramState) (rp : RunningProgram) : RunningProgram := {|
  program := program rp; rp_assets := rp_assets rp; state := st;
  running_since_ms := running_since_ms rp; body_cursor := body_cursor rp;
  watch_state := watch_state rp; resumed_from := resumed_from rp;
  body_state := body_state rp |}.
Definition set_watch_state (ws : gmap Z WatchRuntime) (rp : RunningProgram)
    : RunningProgram := {|
  program := program rp; rp_assets := rp_assets rp; state := state rp;
  running_since_ms := running_since_ms rp; body_cursor := body_cursor rp;
  watch_state := ws; resumed_from := resumed_from rp; body_state := body_state rp |}.
Definition set_body (cursor : option Z) (bs : BodyState) (rp : RunningProgram)
    : RunningProgram := {|
  program := program rp; rp_assets := rp_assets rp; state := state rp;
  running_since_ms := running_since_ms rp; body_cursor := cursor;
  watch_state := watch_state rp; resumed_from := resumed_from rp; body_state := bs |}.

(** [u32::try_from(i).unwrap_or(u32::MAX)] *)
Definition idx_u32 (i : nat) : Z :=
  if decide (Z.of_nat i ≤ u32_max)%Z then Z.of_nat i else u32_max.

(* src: crates/vcli-runtime/src/scheduler.rs 227-232 tick_once *)
Definition default_watch_states (n : nat) (ws : gmap Z WatchRuntime) : gmap Z WatchRuntime :=
  foldl (λ ws i, <[idx_u32 i := WatchRuntime_default]> ws) ws (seq 0 n).

(* src: crates/vcli-runtime/src/scheduler.rs 223-232 tick_once *)
Definition start_running (now : UnixMs) (rp : RunningProgram) : RunningProgram := {|
  program := program rp; rp_assets := rp_assets rp; state := Running;
  running_since_ms := Some now; body_cursor := Some 0%Z;
  watch_state := default_watch_states (length (p_watches (program rp))) (watch_state rp);
  resumed_from := resumed_from rp; body_state := body_state rp |}.

(** [watch_state.entry(idx).or_default()] and an update of the entry. *)
Definition update_watch (idx : Z) (f : WatchRuntime → WatchRuntime)
    (ws : gmap Z WatchRuntime) : gmap Z WatchRuntime :=
  <[idx := f (default WatchRuntime_default (ws !! idx))]> ws.
Definition set_truthy (t : bool) (w : WatchRuntime) : WatchRuntime :=
  {| last_fired_ms := last_fired_ms w; last_truthy := t; retired := retired w |}.
Definition set_retired (w : WatchRuntime) : WatchRuntime :=
  {| last_fired_ms := last_fired_ms w; last_truthy := last_truthy w; retired := true |}.

(* src: crates/vcli-runtime/src/scheduler.rs 440-450 tick_once *)
Definition record_evals (truthies : list (Z * bool)) (retires : list Z)
    (ws : gmap Z WatchRuntime) : gmap Z WatchRuntime :=
  foldl (λ ws idx, update_watch idx set_retired ws)
    (foldl (λ ws e, update_watch e.1 (set_truthy e.2) ws) ws truthies) retires.

(** The payload of an arbiter candidate: watch index, steps, one-shot. *)
Abbreviation WatchFirePayload := (Z * list Step * bool)%type.

(** The dispatched fires and the programs whose dispatch failed. *)
Abbreviation Dispatched := (list (ProgramId * Z * bool) * gset ProgramId)%type.

Section scheduler.
  Context `{NfcOps, RyuOps, UuidOps, ImageOps, InputSink, Capture, RuntimeClock, HashOrder}.
  (** Fuel of the predicate evaluations. *)
  Variable fuel : nat.

(* src: crates/vcli-runtime/src/scheduler.rs 47-63 Scheduler *)
Record Sched := mkSched {
  programs : gmap ProgramId RunningProgram;
  perception : PState;
  input : sink;
  clock_st : clock;
  capture_st : capture;
  cmd_rx : list SchedulerCommand;
  event_tx : list Event;
}.

(* src: crates/vcli-runtime/src/scheduler.rs 66-90 Scheduler::new *)
Definition Scheduler_new (cap : capture) (inp : sink) (perc : PState) (clk : clock)
    (cmds : list SchedulerCommand) : Sched := {|
  programs := ∅; perception := perc; input := inp; clock_st := clk; capture_st := cap;
  cmd_rx := cmds; event_tx := [] |}.

Definition set_programs (f : gmap ProgramId RunningProgram → gmap ProgramId RunningProgram)
    (s : Sched) : Sched := {|
  programs := f (programs s); perception := perception s; input := input s;
  clock_st := clock_st s; capture_st := capture_st s; cmd_rx := cmd_rx s;
  event_tx := event_tx s |}.
Definition set_cmds (q : list SchedulerCommand) (s : Sched) : Sched := {|
  programs := programs s; perception := perception s; input := input s;
  clock_st := clock_st s; capture_st := capture_st s; cmd_rx := q;
  event_tx := event_tx s |}.

Definition on_clock {A} (m : ST clock A) : ST Sched A := λ s,
  r ← m (clock_st s);
  Ret (r.1, {| programs := programs s; perception := perception s; input := input s;
               clock_st := r.2; capture_st := capture_st s; cmd_rx := cmd_rx s;
               event_tx := event_tx s |}).
Definition on_capture {A} (m : ST capture A) : ST Sched A := λ s,
  r ← m (capture_st s);
  Ret (r.1, {| programs := programs s; perception := perception s; input := input s;
               clock_st := clock_st s; capture_st := r.2; cmd_rx := cmd_rx s;
               event_tx := event_tx s |}).
Definition on_io {A} (m : ST IO A) : ST Sched A := λ s,
  r ← m (perception s, input s);
  Ret (r.1, {| programs := programs s; perception := r.2.1; input := r.2.2;
               clock_st := clock_st s; capture_st := capture_st s; cmd_rx := cmd_rx s;
               event_tx := event_tx s |}).
Definition send (e : Event) (s : Sched) : Sched := {|
  programs := programs s; perception := perception s; input := input s;
  clock_st := clock_st s; capture_st := capture_st s; cmd_rx := cmd_rx s;
  event_tx := event_tx s ++ [e] |}.

(* src: crates/vcli-runtime/src/event.rs 28-38 EventEmitter::emit *)
Definition emit (data : EventData) : ST Sched () :=
  at_ ← on_clock unix_ms; modify (send {| ev_at := at_; ev_data := data |}).

(** [self.programs[&id]] and [self.programs.get_mut(&id).unwrap()]. *)
Definition get_program (id : ProgramId) : ST Sched RunningProgram :=
  s ← get; unwrap (programs s !! id).
Definition update_program (id : ProgramId) (f : RunningProgram → RunningProgram) : ST Sched () :=
  rp ← get_program id; modify (set_programs <[id := f rp]>).
Definition insert_program (id : ProgramId) (rp : RunningProgram) : ST Sched () :=
  modify (set_programs <[id := rp]>).

(** ** Commands *)

(** [true] when the command is [Shutdown]. *)
(* src: crates/vcli-runtime/src/scheduler.rs 113-183 Scheduler::drain_commands *)
Definition handle_command (cmd : SchedulerCommand) : ST Sched bool :=
  match cmd with
  | Shutdown => mret true
  | SubmitValidated id p a =>
      let rp := set_state Waiting (pending_with_assets p a) in
      _ ← emit (ProgramSubmitted id (p_name (program rp)));
      _ ← emit (ProgramStateChanged id Pending Waiting "submitted");
      _ ← insert_program id rp;
      mret false
  | Cancel id reason =>
      s ← get;
      match programs s !! id with
      | Some rp =>
          _ ← insert_program id (set_state Cancelled rp);
          _ ← emit (ProgramStateChanged id (state rp) Cancelled reason);
          mret false
      | None => mret false
      end
  | Start id =>
      s ← get;
      match programs s !! id with
      | Some rp =>
          t ← on_clock unix_ms;
          _ ← insert_program id {|
                program := program rp; rp_assets := rp_assets rp; state := Running;
                running_since_ms := Some t; body_cursor := body_cursor rp;
                watch_state := watch_state rp; resumed_from := resumed_from rp;
                body_state := body_state rp |};
          _ ← emit (ProgramStateChanged id (state rp) Running "start");
          mret false
      | None => mret false
      end
  | ResumeRunning id from_step p a =>
      t ← on_clock unix_ms;
      let rp := {|
        program := p; rp_assets := a; state := Running; running_since_ms := Some t;
        body_cursor := Some from_step; watch_state := ∅; resumed_from := Some from_step;
        body_state := BodyState_default |} in
      _ ← emit (ProgramStateChanged id Failed Running "resume");
      _ ← emit (ProgramResumed id from_step);
      _ ← insert_program id rp;
      mret false
  end.

Fixpoint drain_queue (q : list SchedulerCommand) : ST Sched bool :=
  match q with
  | [] => mret false
  | cmd :: q =>
      _ ← modify (set_cmds q);
      stop ← handle_command cmd;
      if stop : bool then mret true else drain_queue q
  end.
(* src: crates/vcli-runtime/src/scheduler.rs 110-186 Scheduler::drain_commands *)
Definition drain_commands : ST Sched bool := s ← get; drain_queue (cmd_rx s).

(** ** One tick *)

(** What the tick evaluates a program's predicates against. *)
Definition tick_ctx (frame : Frame) (now : UnixMs) (id : ProgramId) (rp : RunningProgram)
    : EvalCtx := {|
  ctx_frame := frame; now_ms := now; ctx_predicates := p_predicates (program rp);
  assets := rp_assets rp; ctx_program := Some id |}.

(** [self.programs.iter().filter(|(_, p)| p.state == st).map(|(id, _)| *id)] *)
(* src: crates/vcli-runtime/src/scheduler.rs 202-207 tick_once *)
Definition ids_in_state (st : ProgramState) (m : gmap ProgramId RunningProgram)
    : list ProgramId :=
  filter (λ id, state <$> m !! id = Some st) (hash_keys m).

(* src: crates/vcli-runtime/src/scheduler.rs 208-251 tick_once *)
Definition trigger_step (frame : Frame) (now : UnixMs) (id : ProgramId) : ST Sched () :=
  rp ← get_program id;
  fire ← on_io (trigger_fires fuel (p_trigger (program rp)) (tick_ctx frame now id rp));
  match fire with
  | Ok true =>
      _ ← update_program id (start_running now);
      emit (ProgramStateChanged id Waiting Running "trigger_fired")
  | Ok false => mret ()
  | Err e =>
      _ ← update_program id (set_state Failed);
      emit (ProgramFailed id (RtErrorCode_as_str (code e)) None None)
  end.

(** *** Watches *)

(** What scanning the watches of a program accumulates: the truth of each
    evaluated watch, the watches that fire, and the watches to retire. *)
Record WatchEvals := mkWatchEvals {
  truthies : list (Z * bool);
  fires : list (Z * list Step * bool);
  retires : list Z;
}.

Definition inline_key (idx : nat) : string := "__inline_" +:+ pretty idx.

(** [None] when the evaluation failed: the watch is skipped this tick. *)
(* src: crates/vcli-runtime/src/scheduler.rs 297-331 tick_once *)
Definition eval_watch_when (ctx : EvalCtx) (idx : nat) (when_ : WatchWhen)
    : ST IO (option bool) :=
  r ← match when_ with
      | ByName n => eval_named_io fuel ctx n
      | Inline p =>
          let key := inline_key idx in
          eval_named_io fuel {|
            ctx_frame := ctx_frame ctx; now_ms := now_ms ctx;
            ctx_predicates := <[key := p]> (ctx_predicates ctx);
            assets := assets ctx; ctx_program := ctx_program ctx |} key
      end;
  mret (truthy <$> result_ok r).

(** [true] when the terminator of an [UntilPredicate] watch holds. *)
(* src: crates/vcli-runtime/src/scheduler.rs 279-296 tick_once *)
Definition until_holds (ctx : EvalCtx) (l : Lifetime) : ST IO bool :=
  match l with
  | UntilPredicate name =>
      r ← eval_named_io fuel ctx name;
      mret match r with Ok r => truthy r | Err _ => false end
  | _ => mret false
  end.

Definition is_one_shot (l : Lifetime) : bool := match l with OneShot => true | _ => false end.

(* src: crates/vcli-runtime/src/scheduler.rs 276-341 tick_once *)
Definition scan_watch (ctx : EvalCtx) (running_since : UnixMs) (idx : nat) (w : Watch)
    (st : WatchRuntime) (acc : WatchEvals) : ST IO WatchEvals :=
  if retired st then mret acc
  else
    stop ← until_holds ctx (w_lifetime w);
    if stop : bool then
      mret {| truthies := truthies acc; fires := fires acc;
              retires := retires acc ++ [idx_u32 idx] |}
    else
      t ← eval_watch_when ctx idx (w_when w);
      match t with
      | None => mret acc
      | Some truthy =>
          let decision := watch_decide w st truthy (now_ms ctx) running_since in
          mret {|
            truthies := truthies acc ++ [(idx_u32 idx, truthy)];
            fires := fires acc ++
              (if decide (decision = Fire)
               then [(idx_u32 idx, w_steps w, is_one_shot (w_lifetime w))] else []);
            retires := retires acc ++
              (if decide (decision = Retire) then [idx_u32 idx] else []) |}
      end.

(* src: crates/vcli-runtime/src/scheduler.rs 270-342 tick_once *)
Fixpoint scan_watches (ctx : EvalCtx) (running_since : UnixMs) (states : gmap Z WatchRuntime)
    (idx : nat) (ws : list Watch) (acc : WatchEvals) : ST IO WatchEvals :=
  match ws with
  | [] => mret acc
  | w :: ws =>
      acc ← scan_watch ctx running_since idx w
              (default WatchRuntime_default (states !! idx_u32 idx)) acc;
      scan_watches ctx running_since states (S idx) ws acc
  end.

(** What the scan of all running programs accumulates. *)
Record Scan := mkScan {
  evals : list (ProgramId * list (Z * bool) * list Z);
  candidates : list (Candidate WatchFirePayload);
  direct_fires : list (ProgramId * Z * bool);
}.

(* src: crates/vcli-runtime/src/scheduler.rs 267-355 tick_once *)
Definition scan_program (frame : Frame) (now : UnixMs) (acc : Scan) (id : ProgramId)
    : ST Sched Scan :=
  rp ← get_program id;
  let running_since := default now (running_since_ms rp) in
  ev ← on_io (scan_watches (tick_ctx frame now id rp) running_since (watch_state rp) 0
                (p_watches (program rp)) {| truthies := []; fires := []; retires := [] |});
  mret {|
    evals := evals acc ++ [(id, truthies ev, retires ev)];
    candidates := candidates acc ++
      match fires ev with
      | (idx, (_ :: _) as steps, one_shot) :: _ =>
          [{| cand_program_id := id; cand_priority := p_priority (program rp);
              cand_payload := (idx, steps, one_shot) |}]
      | _ => []
      end;
    direct_fires := direct_fires acc ++
      match fires ev with
      | (idx, [], one_shot) :: _ => [(id, idx, one_shot)]
      | _ => []
      end |}.

(** *** Dispatch *)

(** Dispatch the steps of a watch in order, up to the first error. *)
(* src: crates/vcli-runtime/src/scheduler.rs 379-403 tick_once *)
Fixpoint dispatch_steps (ctx : EvalCtx) (id : ProgramId) (steps : list Step)
    : ST Sched (option RuntimeError) :=
  match steps with
  | [] => mret None
  | s :: steps =>
      _ ← emit (ActionDispatched id (Step_to_value s) None);
      r ← on_io (dispatch_action fuel s ctx);
      match r with Err e => mret (Some e) | Ok _ => dispatch_steps ctx id steps end
  end.

(* src: crates/vcli-runtime/src/scheduler.rs 375-437 tick_once *)
Definition dispatch_decision (frame : Frame) (now : UnixMs) (acc : Dispatched)
    (d : ArbDecision WatchFirePayload) : ST Sched Dispatched :=
  let id := dec_program_id d in
  let '(watch_idx, steps, one_shot) := dec_payload d in
  if dec_dispatch d then
    rp ← get_program id;
    err ← dispatch_steps (tick_ctx frame now id rp) id steps;
    match err with
    | Some e =>
        _ ← update_program id (set_state Failed);
        _ ← emit (ProgramFailed id (RtErrorCode_as_str (code e))
                    (Some ("watch[" +:+ pretty watch_idx +:+ "]")) (p_on_fail (program rp)));
        mret (acc.1, {[ id ]} ∪ acc.2)
    | None =>
        _ ← emit (WatchFired id watch_idx "watch");
        mret (acc.1 ++ [(id, watch_idx, one_shot)], acc.2)
    end
  else
    match dec_loser_of d with
    | Some w =>
        _ ← emit (ActionDeferred id (Arr (map Step_to_value steps))
                    (Obj [("conflict_with", Str (ProgramId_to_string w))]));
        mret acc
    | None => mret acc
    end.

(* src: crates/vcli-runtime/src/scheduler.rs 440-450 tick_once *)
Definition record_program_evals (e : ProgramId * list (Z * bool) * list Z) : ST Sched () :=
  let '(id, truthies, retires) := e in
  update_program id (λ rp,
    set_watch_state (record_evals truthies retires (watch_state rp)) rp).

(* src: crates/vcli-runtime/src/scheduler.rs 451-456 tick_once *)
Definition record_fire (now : UnixMs) (f : ProgramId * Z * bool) : ST Sched () :=
  let '(id, idx, _) := f in
  rp ← get_program id;
  watch ← unwrap (p_watches (program rp) !! Z.to_nat idx);
  update_program id (λ rp,
    set_watch_state (update_watch idx (after_fire watch now) (watch_state rp)) rp).

(** *** Bodies *)

(* src: crates/vcli-runtime/src/scheduler.rs 484-497 tick_once *)
Definition complete (id : ProgramId) (rp : RunningProgram) : ST Sched () :=
  _ ← update_program id (set_state Completed);
  _ ← emit (ProgramStateChanged id Running Completed "body_complete");
  emit (ProgramCompleted id (p_on_complete (program rp))).

(* src: crates/vcli-runtime/src/scheduler.rs 458-527 tick_once *)
Definition body_step (frame : Frame) (now : UnixMs) (failed : gset ProgramId) (id : ProgramId)
    : ST Sched () :=
  if decide (id ∈ failed) then mret ()
  else
    rp ← get_program id;
    if decide (state rp = Running) then
      let cursor := default 0%Z (body_cursor rp) in
      r ← on_io (step_once fuel (p_body (program rp)) cursor (body_state rp)
                   (tick_ctx frame now id rp));
      let '(outcome, bs) := (r : StepOutcome * BodyState) in
      let rp := set_body (body_cursor rp) bs rp in
      _ ← update_program id (λ _, rp);
      match outcome with
      | Advanced =>
          let rp := set_body (Some (wrap_u32 (cursor + 1))) bs rp in
          _ ← update_program id (λ _, rp);
          if body_complete rp && (active_watch_count rp =? 0)%nat then complete id rp
          else mret ()
      | Stalled => mret ()
      | BodyComplete =>
          if (active_watch_count rp =? 0)%nat then complete id rp else mret ()
      | StepFailed err =>
          _ ← update_program id (set_state Failed);
          emit (ProgramFailed id (RtErrorCode_as_str (code err))
                  (Some ("body[" +:+ pretty cursor +:+ "]")) (p_on_fail (program rp)))
      end
    else mret ().

(** *** The tick *)

(* src: crates/vcli-runtime/src/scheduler.rs 260-456 tick_once *)
Definition watch_phase (frame : Frame) (now : UnixMs) (running_ids : list ProgramId)
    : ST Sched (gset ProgramId) :=
  scan ← mfold (scan_program frame now)
           {| evals := []; candidates := []; direct_fires := [] |} running_ids;
  let decisions := resolve (candidates scan) in
  _ ← mfor (λ f : ProgramId * Z * bool, emit (WatchFired f.1.1 f.1.2 "watch"))
        (direct_fires scan);
  d ← mfold (dispatch_decision frame now) (direct_fires scan, ∅) decisions;
  _ ← mfor record_program_evals (evals scan);
  _ ← mfor (record_fire now) d.1;
  mret d.2.

(** The tick once a frame has been captured. *)
(* src: crates/vcli-runtime/src/scheduler.rs 199-527 tick_once *)
Definition tick_frame (frame : Frame) : ST Sched () :=
  _ ← on_io (λ io, Ret ((), (clear io.1, io.2)));
  now ← on_clock unix_ms;
  s ← get;
  _ ← mfor (trigger_step frame now) (ids_in_state Waiting (programs s));
  s ← get;
  let running_ids := ids_in_state Running (programs s) in
  failed ← watch_phase frame now running_ids;
  mfor (body_step frame now failed) running_ids.

(* src: crates/vcli-runtime/src/scheduler.rs 187-527 tick_once *)
Definition tick_once : ST Sched () :=
  r ← on_capture grab_screen;
  match r with
  | Err _ => emit (TickFrameSkipped "capture_failed")
  | Ok frame => tick_frame frame
  end.

(* src: crates/vcli-runtime/src/scheduler.rs 92-97 Scheduler::tick_once_pub *)
Definition tick_once_pub : ST Sched () := _ ← drain_commands; tick_once.

(** Commands the daemon has sent since the last look. *)
Definition receive (batch : list SchedulerCommand) (s : Sched) : Sched :=
  set_cmds (cmd_rx s ++ batch) s.

(** The loop over the batches of commands that arrive between two drains;
    [true] when a [Shutdown] ended it, [false] when it would go on with the
    next batch. *)
(* src: crates/vcli-runtime/src/scheduler.rs 99-110 Scheduler::run_until_shutdown *)
Fixpoint run_until_shutdown (config : SchedulerConfig)
    (arrivals : list (list SchedulerCommand)) : ST Sched bool :=
  match arrivals with
  | [] => mret false
  | batch :: arrivals =>
      _ ← modify (receive batch);
      stop ← drain_commands;
      if stop : bool then mret true
      else
        _ ← tick_once;
        _ ← on_clock (sleep_ms (tick_interval_ms config));
        run_until_shutdown config arrivals
  end.
End scheduler.
