(* ===== verification/SchedulerSpec.v ===== *)
(** * The scheduler refines the program lifecycle

    An abstract machine of program states labelled by the events the daemon
    observes, the simulation of the scheduler by it, and what follows for
    whole runs; then termination of a tick, the arbiter's exclusiveness and
    the watch bookkeeping. *)

From S2P Require Import Prelude Json CoreTypes Canonical Serde DslPredicates FrameView Perception.
From S2P Require Import PerceptionSpec Input Capture Clock Runtime Scheduler.
Local Open Scope vcli_scope.

(** ** The lifecycle machine *)

Abbreviation States := (gmap ProgramId ProgramState).

(** What a tick may do to the states, and the event that tells. *)
Inductive tick_move : States → list EventData → States → Prop :=
  | move_trigger m id r :
      m !! id = Some Waiting →
      tick_move m [ProgramStateChanged id Waiting Running r] (<[id:=Running]> m)
  | move_complete m id r emit :
      m !! id = Some Running →
      tick_move m [ProgramStateChanged id Running Completed r; ProgramCompleted id emit]
        (<[id:=Completed]> m)
  | move_fail m id st r step emit :
      m !! id = Some st → st = Waiting ∨ st = Running →
      tick_move m [ProgramFailed id r step emit] (<[id:=Failed]> m)
  | move_fired m id i p :
      m !! id = Some Running → tick_move m [WatchFired id i p] m
  | move_dispatched m id v t :
      m !! id = Some Running → tick_move m [ActionDispatched id v t] m
  | move_deferred m id v r :
      m !! id = Some Running → tick_move m [ActionDeferred id v r] m
  | move_skipped m r : tick_move m [TickFrameSkipped r] m.

(** What a command may do: submission and resumption install a program,
    cancellation and a forced start need one. *)
Inductive command_move : States → list EventData → States → Prop :=
  | cmd_submit m id name r :
      command_move m [ProgramSubmitted id name; ProgramStateChanged id Pending Waiting r]
        (<[id:=Waiting]> m)
  | cmd_cancel m id st r :
      m !! id = Some st →
      command_move m [ProgramStateChanged id st Cancelled r] (<[id:=Cancelled]> m)
  | cmd_start m id st r :
      m !! id = Some st →
      command_move m [ProgramStateChanged id st Running r] (<[id:=Running]> m)
  | cmd_resume m id r n :
      command_move m [ProgramStateChanged id Failed Running r; ProgramResumed id n]
        (<[id:=Running]> m).

Abbreviation Move := (States → list EventData → States → Prop).

Inductive moves (move : Move) : States → list EventData → States → Prop :=
  | moves_nil m : moves move m [] m
  | moves_cons m d m1 l m2 :
      move m d m1 → moves move m1 l m2 → moves move m (d ++ l) m2.

Lemma moves_app move m l m1 l' m2 :
  moves move m l m1 → moves move m1 l' m2 → moves move m (l ++ l') m2.
Proof.
  induction 1; [done|]. intros. rewrite <-app_assoc. econstructor; eauto.
Qed.
Lemma moves_one (move : Move) m d m' : move m d m' → moves move m d m'.
Proof. intros. rewrite <-(app_nil_r d). econstructor; [done|constructor]. Qed.
Lemma moves_mono (move move' : Move) m l m' :
  (∀ m d m', move m d m' → move' m d m') → moves move m l m' → moves move' m l m'.
Proof. intros Hm. induction 1; econstructor; eauto. Qed.

(** The states an observer of the events alone reconstructs. *)
Definition apply_event (m : States) (d : EventData) : States :=
  match d with
  | ProgramStateChanged id _ to _ => <[id:=to]> m
  | ProgramFailed id _ _ _ => <[id:=Failed]> m
  | _ => m
  end.
Definition replay (l : list EventData) (m : States) : States := foldl apply_event m l.

Definition any_move (m : States) (d : list EventData) (m' : States) : Prop :=
  tick_move m d m' ∨ command_move m d m'.

Lemma any_move_replay m d m' : any_move m d m' → m' = replay d m.
Proof. intros [[]|[]]; done. Qed.
Lemma moves_replay m l m' : moves any_move m l m' → m' = replay l m.
Proof.
  induction 1 as [|m d m1 l m2 Hd _ ->]; [done|]. apply any_move_replay in Hd as ->.
  unfold replay. by rewrite foldl_app.
Qed.

(** In a tick, programs neither appear nor vanish and a state only moves
    forward. *)
Inductive forward : ProgramState → ProgramState → Prop :=
  | forward_refl st : forward st st
  | forward_start : forward Waiting Running
  | forward_done st st' :
      st = Waiting ∨ st = Running → st' = Completed ∨ st' = Failed → forward st st'.

Lemma forward_trans a b c : forward a b → forward b c → forward a c.
Proof.
  destruct 1 as [st| |st st' Hs Hs']; [done| |].
  - inversion 1 as [| |? ? _ Hc]; subst; [constructor|constructor; auto].
  - inversion 1 as [| |? ? Hc _]; subst; [by constructor|naive_solver|].
    exfalso. destruct Hs' as [-> | ->], Hc; done.
Qed.

Lemma tick_move_forward m d m' id :
  tick_move m d m' → option_Forall2 forward (m !! id) (m' !! id).
Proof.
  assert (∀ j st st', m !! j = Some st → forward st st' →
    option_Forall2 forward (m !! id) (<[j:=st']> m !! id)) as Hins.
  { intros j st st' Hj Hf. destruct (decide (id = j)) as [->|].
    - rewrite Hj, lookup_insert_eq. by constructor.
    - rewrite lookup_insert_ne by done. destruct (m !! id); repeat constructor. }
  destruct 1; try (destruct (_ !! id); repeat constructor; fail); (eapply Hins; [done|]);
    auto using forward.
Qed.

Lemma tick_moves_forward m l m' id :
  moves tick_move m l m' → option_Forall2 forward (m !! id) (m' !! id).
Proof.
  induction 1 as [m|m d m1 l m2 Hd _ IH]; [destruct (_ !! id); repeat constructor|].
  pose proof (tick_move_forward _ _ _ id Hd) as Hf.
  destruct Hf; inversion IH; subst; constructor. by eapply forward_trans.
Qed.

(** ** What a tick keeps of each program *)

(** The watch with this index is retired. *)
Definition retired_at (rp : RunningProgram) (idx : Z) : Prop :=
  ∃ w, watch_state rp !! idx = Some w ∧ retired w = true.

(** A running program knows since when. *)
Definition since_ok (rp : RunningProgram) : Prop :=
  state rp = Running → is_Some (running_since_ms rp).

(** The program text and assets never change; the start time is recorded;
    once past [Waiting] a retired watch stays retired. *)
Record keeps (rp rp' : RunningProgram) : Prop := {
  keeps_program : program rp' = program rp;
  keeps_assets : rp_assets rp' = rp_assets rp;
  keeps_since : since_ok rp → since_ok rp';
  keeps_past : state rp ≠ Waiting → state rp' ≠ Waiting;
  keeps_retired idx : state rp ≠ Waiting → retired_at rp idx → retired_at rp' idx;
}.

#[export] Instance keeps_preorder : PreOrder keeps.
Proof.
  split.
  - intros rp. by split.
  - intros a b c [] []. split; [congruence|congruence|auto..].
Qed.

Lemma keeps_record rp ws :
  (∀ idx, retired_at rp idx → retired_at (set_watch_state ws rp) idx) →
  keeps rp (set_watch_state ws rp).
Proof. intros Hr. by split; auto. Qed.

Lemma update_watch_retired f ws idx i w :
  (∀ w, retired w = true → retired (f w) = true) →
  ws !! i = Some w → retired w = true →
  ∃ w', update_watch idx f ws !! i = Some w' ∧ retired w' = true.
Proof.
  intros Hf Hi Hr. unfold update_watch. destruct (decide (idx = i)) as [->|].
  - rewrite lookup_insert_eq, Hi. eauto.
  - rewrite lookup_insert_ne by done. eauto.
Qed.

Lemma record_evals_retired ts rs ws i w :
  ws !! i = Some w → retired w = true →
  ∃ w', record_evals ts rs ws !! i = Some w' ∧ retired w' = true.
Proof.
  unfold record_evals. revert ws w. induction ts as [|t ts IH]; intros ws w Hi Hr; simpl.
  - revert ws w Hi Hr. induction rs as [|r rs IH]; intros ws w Hi Hr; simpl; [eauto|].
    destruct (update_watch_retired set_retired ws r i w) as (w' & Hw' & Hr'); [done..|].
    by apply (IH _ w').
  - destruct (update_watch_retired (set_truthy t.2) ws t.1 i w) as (w' & Hw' & Hr'); [done..|].
    by apply (IH _ w').
Qed.

Section sim.
  Context `{NfcOps, RyuOps, UuidOps, ImageOps, InputSink, Capture, RuntimeClock, HashOrder}.
  Variable fuel : nat.

Definition states (s : Sched) : States := state <$> programs s.
Definition sent (s : Sched) : list EventData := ev_data <$> event_tx s.

(** The scheduler's step relation: the events it sent are moves of the
    machine between the abstract states, and every program is kept. *)
Record evolves (move : Move) (s s' : Sched) : Prop := {
  evolves_moves : ∃ l, sent s' = sent s ++ l ∧ moves move (states s) l (states s');
  evolves_keeps id rp : programs s !! id = Some rp →
    ∃ rp', programs s' !! id = Some rp' ∧ keeps rp rp';
}.

#[export] Instance evolves_preorder move : PreOrder (evolves move).
Proof.
  split.
  - intros s. split; [exists []; rewrite app_nil_r; by repeat constructor|].
    intros id rp Hrp. by exists rp.
  - intros a b c [(l1 & E1 & M1) K1] [(l2 & E2 & M2) K2]. split.
    + exists (l1 ++ l2). rewrite E2, E1, app_assoc. split; [done|]. by eapply moves_app.
    + intros id rp Hrp. destruct (K1 _ _ Hrp) as (rp1 & H1' & ?).
      destruct (K2 _ _ H1') as (rp2 & ? & ?). exists rp2. split; [done|]. by trans rp1.
Qed.

(** Code that neither touches the programs nor sends anything. *)
Record silent (s s' : Sched) : Prop := {
  silent_programs : programs s' = programs s;
  silent_events : event_tx s' = event_tx s;
  silent_cmds : cmd_rx s' = cmd_rx s;
}.
#[export] Instance silent_preorder : PreOrder silent.
Proof. split; [by split|]. intros a b c [] []. split; congruence. Qed.

Lemma on_io_silent {A} (m : ST IO A) s a s' : on_io m s = Ret (a, s') → silent s s'.
Proof. unfold on_io. intros (? & _ & [= <- <-])%outcome_bind_Ret. done. Qed.
Lemma on_clock_silent {A} (m : ST clock A) s a s' : on_clock m s = Ret (a, s') → silent s s'.
Proof. unfold on_clock. intros (? & _ & [= <- <-])%outcome_bind_Ret. done. Qed.
Lemma on_capture_silent {A} (m : ST capture A) s a s' :
  on_capture m s = Ret (a, s') → silent s s'.
Proof. unfold on_capture. intros (? & _ & [= <- <-])%outcome_bind_Ret. done. Qed.

Lemma silent_states s s' : silent s s' → states s' = states s.
Proof. intros [Hp _ _]. unfold states. by rewrite Hp. Qed.

Lemma silent_evolves move s s' : silent s s' → evolves move s s'.
Proof.
  intros Hs. pose proof (silent_states _ _ Hs) as Hst. destruct Hs as [Hp He _]. split.
  - exists []. unfold sent. rewrite He, Hst, app_nil_r. repeat constructor.
  - intros id rp Hrp. exists rp. by rewrite Hp.
Qed.

Lemma emit_inv d s a s' :
  emit d s = Ret (a, s') →
  programs s' = programs s ∧ cmd_rx s' = cmd_rx s ∧
  ∃ t, event_tx s' = event_tx s ++ [{| ev_at := t; ev_data := d |}].
Proof.
  unfold emit. intros He. simplify_ST. simpl.
  match goal with Hc : on_clock _ _ = _ |- _ => destruct (on_clock_silent _ _ _ _ Hc) as [Hp -> ->] end.
  eauto.
Qed.

Lemma emit_evolves (move : Move) d s a s' :
  emit d s = Ret (a, s') → move (states s) [d] (states s) → evolves move s s'.
Proof.
  intros (Hp & _ & t & He)%emit_inv Hm. split.
  - exists [d]. unfold sent, states in *. rewrite He, Hp, fmap_app. split; [done|].
    by apply moves_one.
  - intros id rp Hrp. exists rp. by rewrite Hp.
Qed.

Lemma get_program_inv id s rp s' :
  get_program id s = Ret (rp, s') → s' = s ∧ programs s !! id = Some rp.
Proof.
  unfold get_program. intros Hg. simplify_ST. unfold unwrap in *.
  destruct (programs _ !! id) eqn:Hp; simplify_ST. done.
Qed.

Lemma update_program_inv id f s a s' :
  update_program id f s = Ret (a, s') →
  ∃ rp, programs s !! id = Some rp ∧ s' = set_programs <[id := f rp]> s.
Proof.
  unfold update_program. intros Hu. simplify_ST.
  match goal with Hg : get_program _ _ = _ |- _ => apply get_program_inv in Hg as [-> ?] end.
  eauto.
Qed.

Lemma states_update id rp s :
  states (set_programs <[id := rp]> s) = <[id := state rp]> (states s).
Proof. apply fmap_insert. Qed.

Lemma states_lookup s id st :
  states s !! id = Some st ↔ ∃ rp, programs s !! id = Some rp ∧ state rp = st.
Proof. unfold states. rewrite lookup_fmap, fmap_Some. naive_solver. Qed.

Lemma keeps_update s id rp rp' i r :
  programs s !! id = Some rp → keeps rp rp' → programs s !! i = Some r →
  ∃ r', <[id:=rp']> (programs s) !! i = Some r' ∧ keeps r r'.
Proof.
  intros Hid Hk Hi. destruct (decide (id = i)) as [->|].
  - simplify_eq. exists rp'. by rewrite lookup_insert_eq.
  - exists r. by rewrite lookup_insert_ne.
Qed.

(** Bookkeeping on one program that does not change its state. *)
Lemma update_evolves move id f s a s' :
  update_program id f s = Ret (a, s') →
  (∀ rp, programs s !! id = Some rp → state (f rp) = state rp ∧ keeps rp (f rp)) →
  evolves move s s' ∧ states s' = states s.
Proof.
  intros (rp & Hrp & ->)%update_program_inv Hf. destruct (Hf _ Hrp) as [Hst Hk].
  assert (states (set_programs <[id:=f rp]> s) = states s) as Hs.
  { rewrite states_update, Hst. apply insert_id. apply states_lookup. eauto. }
  split; [|done]. split.
  - exists []. rewrite Hs, app_nil_r. repeat constructor.
  - intros i r. simpl. by apply keeps_update with rp.
Qed.

(** Code that only sends the given events. *)
Definition emits (d : list EventData) (s s' : Sched) : Prop :=
  programs s' = programs s ∧ sent s' = sent s ++ d.
Lemma emits_one d s a s' : emit d s = Ret (a, s') → emits [d] s s'.
Proof.
  intros (Hp & _ & t & He)%emit_inv. split; [done|]. unfold sent. by rewrite He, fmap_app.
Qed.
Lemma emits_app d s s1 d' s' : emits d s s1 → emits d' s1 s' → emits (d ++ d') s s'.
Proof. intros [P E] [P' E']. split; [congruence|]. by rewrite E', E, app_assoc. Qed.

(** A change of state and the events that announce it. *)
Lemma transition_evolves (move : Move) id f d s a s1 s' :
  update_program id f s = Ret (a, s1) → emits d s1 s' →
  (∀ rp, programs s !! id = Some rp →
    move (states s) d (<[id := state (f rp)]> (states s)) ∧ keeps rp (f rp)) →
  evolves move s s' ∧
  ∃ rp, programs s !! id = Some rp ∧ states s' = <[id := state (f rp)]> (states s) ∧
    programs s' !! id = Some (f rp).
Proof.
  intros (rp & Hrp & ->)%update_program_inv (Hp & He) Hf.
  destruct (Hf _ Hrp) as [Hm Hk].
  assert (states s' = <[id := state (f rp)]> (states s)) as Hs.
  { rewrite <-states_update. unfold states. by rewrite Hp. }
  split; [split|].
  - exists d. rewrite He, Hs. split; [done|]. by apply moves_one.
  - intros i r. rewrite Hp. simpl. by apply keeps_update with rp.
  - exists rp. rewrite Hp. simpl. by rewrite lookup_insert_eq.
Qed.

(** ** The phases of a tick *)

(** Nothing happens to the state of any other program. *)
Definition only (id : ProgramId) (s s' : Sched) : Prop :=
  ∀ j, j ≠ id → states s' !! j = states s !! j.

Lemma only_states_eq id s s' : states s' = states s → only id s s'.
Proof. intros Hs j _. by rewrite Hs. Qed.

Lemma mfold_ids {A B} (key : B → ProgramId) st (f : A → B → ST Sched A) acc l s acc' s' :
  (∀ acc x s acc' s', f acc x s = Ret (acc', s') → states s !! key x = Some st →
    evolves tick_move s s' ∧ only (key x) s s') →
  NoDup (key <$> l) → Forall (λ x, states s !! key x = Some st) l →
  mfold f acc l s = Ret (acc', s') → evolves tick_move s s'.
Proof.
  intros Hf. revert acc s. induction l as [|x l IH]; intros acc s Hnd Hst; simpl.
  { intros Hr. by simplify_ST. }
  rewrite fmap_cons, NoDup_cons in Hnd. destruct Hnd as [Hx Hnd]. rewrite Forall_cons in Hst.
  destruct Hst as [Hsx Hst].
  intros (acc1 & s1 & H1' & H2')%ST_bind_Ret. destruct (Hf _ _ _ _ _ H1' Hsx) as [He Ho].
  trans s1; [done|]. eapply IH; [done| |done].
  rewrite Forall_forall in Hst |- *. intros y Hy. rewrite Ho; [by apply Hst|].
  intros Heq. apply Hx. rewrite <-Heq. by apply list_elem_of_fmap_2.
Qed.

Lemma mfor_mfold {A} (f : A → ST Sched ()) l s :
  mfor f l s = mfold (λ _, f) () l s.
Proof.
  revert s. induction l as [|x l IH]; intros s; simpl; [done|].
  unfold mbind, ST_bind. destruct (f x s) as [[[] s1]| |]; simpl; [apply IH|done..].
Qed.

Lemma mfor_ids {B} (key : B → ProgramId) st (f : B → ST Sched ()) l s a s' :
  (∀ x s a s', f x s = Ret (a, s') → states s !! key x = Some st →
    evolves tick_move s s' ∧ only (key x) s s') →
  NoDup (key <$> l) → Forall (λ x, states s !! key x = Some st) l →
  mfor f l s = Ret (a, s') → evolves tick_move s s'.
Proof.
  intros Hf Hnd Hst. rewrite mfor_mfold. apply (mfold_ids key st); [|done..].
  intros _ x s1 acc s2. apply Hf.
Qed.

(** Code whose every part keeps the states. *)
Lemma mfor_states {B} (f : B → ST Sched ()) l s a s' :
  (∀ x s1 a s2, x ∈ l → states s1 = states s → f x s1 = Ret (a, s2) →
    evolves tick_move s1 s2 ∧ states s2 = states s1) →
  mfor f l s = Ret (a, s') → evolves tick_move s s' ∧ states s' = states s.
Proof.
  intros Hf. assert (∀ l' s1, (∀ x, x ∈ l' → x ∈ l) → states s1 = states s →
    mfor f l' s1 = Ret (a, s') → evolves tick_move s1 s' ∧ states s' = states s) as Hall.
  { induction l' as [|x l' IH]; intros s1 Hl Hs1; simpl.
    { intros Hr. simplify_ST. split; [done|congruence]. }
    intros ([] & s2 & H1' & H2')%ST_bind_Ret.
    destruct (Hf x s1 () s2) as [He Hs2]; [apply Hl; by left|done..|].
    destruct (IH s2) as [He' Hs']; [intros y Hy; apply Hl; by right|congruence|done|].
    split; [by trans s2|done]. }
  by apply Hall.
Qed.

Lemma emit_keeps_states d s a s' :
  emit d s = Ret (a, s') → tick_move (states s) [d] (states s) →
  evolves tick_move s s' ∧ states s' = states s.
Proof.
  intros He Hm. split; [by eapply emit_evolves|].
  apply emit_inv in He as (Hp & _). unfold states. by rewrite Hp.
Qed.

Lemma update_states_only id f s a s' :
  update_program id f s = Ret (a, s') → only id s s'.
Proof.
  intros (rp & _ & ->)%update_program_inv j Hj. rewrite states_update.
  by rewrite lookup_insert_ne.
Qed.

Lemma keeps_set_state st rp :
  (state rp = Waiting ∨ state rp = Running) → st = Completed ∨ st = Failed →
  keeps rp (set_state st rp).
Proof.
  intros Hs Hst. split; try done.
  - intros _ Hr. simpl in Hr. naive_solver.
  - simpl. intros _ ->. naive_solver.
Qed.

Lemma keeps_start now rp : state rp = Waiting → keeps rp (start_running now rp).
Proof.
  intros Hw. split; try done.
  - intros _ _. simpl. eauto.
Qed.

(** The failure block shared by triggers, dispatches and bodies. *)
Lemma fail_evolves id r step em s a s1 b s' st :
  update_program id (set_state Failed) s = Ret (a, s1) →
  emit (ProgramFailed id r step em) s1 = Ret (b, s') →
  states s !! id = Some st → st = Waiting ∨ st = Running →
  evolves tick_move s s' ∧ only id s s'.
Proof.
  intros Hu He Hst Hor.
  destruct (transition_evolves tick_move _ _ _ _ _ _ _ Hu (emits_one _ _ _ _ He)) as (Hev & rp & Hrp & Hs & _).
  - intros rp Hrp. apply states_lookup in Hst as (rp' & ? & Hst'). simplify_eq.
    split; [|apply keeps_set_state; naive_solver].
    eapply move_fail; [|done]. by apply states_lookup; eauto.
  - split; [done|]. intros j Hj. by rewrite Hs, lookup_insert_ne.
Qed.

Lemma trigger_step_evolves frame now id s a s' :
  trigger_step fuel frame now id s = Ret (a, s') → states s !! id = Some Waiting →
  evolves tick_move s s' ∧ only id s s'.
Proof.
  unfold trigger_step. intros (rp & s0 & Hg & Hr)%ST_bind_Ret Hw.
  apply get_program_inv in Hg as [-> Hrp].
  apply ST_bind_Ret in Hr as (fire & s1 & Hf & Hr). apply on_io_silent in Hf.
  pose proof (silent_states _ _ Hf) as Hs1. rewrite <-Hs1 in Hw.
  assert (∀ s', evolves tick_move s1 s' ∧ only id s1 s' → evolves tick_move s s' ∧ only id s s') as Hlift.
  { intros t [He Ho]. split; [trans s1; [by apply silent_evolves|done]|].
    intros j Hj. rewrite Ho by done. by rewrite Hs1. }
  apply Hlift. destruct fire as [[]|e].
  - apply ST_bind_Ret in Hr as ([] & s2 & Hu & He).
    destruct (transition_evolves tick_move _ _ _ _ _ _ _ Hu (emits_one _ _ _ _ He)) as (Hev & rp' & Hrp' & Hs & _).
    + intros rp' Hrp'. apply states_lookup in Hw as (rp'' & ? & Hst'). simplify_eq.
      split; [|by apply keeps_start]. constructor. apply states_lookup; eauto.
    + split; [done|]. intros j Hj. by rewrite Hs, lookup_insert_ne.
  - simplify_ST. by split.
  - apply ST_bind_Ret in Hr as ([] & s2 & Hu & He). eapply fail_evolves; eauto.
Qed.

(** Scanning only reads; it proposes at most one fire per running program. *)
Record scanned (l : list ProgramId) (acc acc' : Scan) : Prop := {
  scanned_candidates : ∃ cs, candidates acc' = candidates acc ++ cs ∧
    sublist (cand_program_id <$> cs) l;
  scanned_direct : ∃ ds, direct_fires acc' = direct_fires acc ++ ds ∧
    sublist (ds.*1.*1) l;
}.

Lemma scan_program_inv frame now acc id s acc' s' :
  scan_program fuel frame now acc id s = Ret (acc', s') → silent s s' ∧ scanned [id] acc acc'.
Proof.
  unfold scan_program. intros (rp & s0 & Hg & Hr)%ST_bind_Ret.
  apply get_program_inv in Hg as [-> _].
  apply ST_bind_Ret in Hr as (ev & s1 & Hf & Hr). apply on_io_silent in Hf.
  simplify_ST. split; [done|]. split; simpl.
  - destruct (fires ev) as [|[[i [|st sts]] o] fs]; eexists; (split; [done|]);
      repeat constructor.
  - destruct (fires ev) as [|[[i [|st sts]] o] fs]; eexists; (split; [done|]);
      repeat constructor.
Qed.

Lemma scan_all_inv frame now l acc s acc' s' :
  mfold (scan_program fuel frame now) acc l s = Ret (acc', s') →
  silent s s' ∧ scanned l acc acc'.
Proof.
  revert acc s. induction l as [|id l IH]; intros acc s; simpl.
  { intros Hr. simplify_ST. split; [done|]. split; exists []; by rewrite app_nil_r. }
  intros (acc1 & s1 & H1' & H2')%ST_bind_Ret.
  apply scan_program_inv in H1' as [Hs1 [(cs & Ec & Sc) (ds & Ed & Sd)]].
  apply IH in H2' as [Hs2 [(cs' & Ec' & Sc') (ds' & Ed' & Sd')]].
  split; [by trans s1|]. split.
  - exists (cs ++ cs'). rewrite Ec', Ec, app_assoc. split; [done|].
    rewrite fmap_app. by apply (sublist_app _ [id]).
  - exists (ds ++ ds'). rewrite Ed', Ed, app_assoc. split; [done|].
    rewrite !fmap_app. by apply (sublist_app _ [id]).
Qed.

Lemma dispatch_steps_evolves ctx id steps s err s' :
  dispatch_steps fuel ctx id steps s = Ret (err, s') → states s !! id = Some Running →
  evolves tick_move s s' ∧ states s' = states s.
Proof.
  revert s. induction steps as [|st steps IH]; intros s Hr Hrun; simpl in Hr.
  { simplify_ST. done. }
  apply ST_bind_Ret in Hr as ([] & s1 & He & Hr).
  destruct (emit_keeps_states _ _ _ _ He) as [Hev1 Hs1]; [by constructor|].
  apply ST_bind_Ret in Hr as (r & s2 & Hio & Hr). apply on_io_silent in Hio.
  pose proof (silent_states _ _ Hio) as Hs2.
  assert (evolves tick_move s s2) by (trans s1; [done|by apply silent_evolves]).
  destruct r as [u|e].
  - destruct (IH s2 Hr) as [Hev Hs']; [congruence|]. split; [by trans s2|congruence].
  - simplify_ST. split; [done|congruence].
Qed.

Lemma dispatch_decision_evolves frame now acc d s acc' s' :
  dispatch_decision fuel frame now acc d s = Ret (acc', s') →
  states s !! dec_program_id d = Some Running →
  evolves tick_move s s' ∧ only (dec_program_id d) s s'.
Proof.
  unfold dispatch_decision. destruct (dec_payload d) as [[idx steps] one_shot].
  set (id := dec_program_id d). intros Hr Hrun. destruct (dec_dispatch d).
  - apply ST_bind_Ret in Hr as (rp & s0 & Hg & Hr). apply get_program_inv in Hg as [-> _].
    apply ST_bind_Ret in Hr as (err & s1 & Hd & Hr).
    destruct (dispatch_steps_evolves _ _ _ _ _ _ Hd Hrun) as [Hev Hs1]. rewrite <-Hs1 in Hrun.
    destruct err as [e|].
    + apply ST_bind_Ret in Hr as ([] & s2 & Hu & Hr).
      apply ST_bind_Ret in Hr as ([] & s3 & He & Hr). simplify_ST.
      destruct (fail_evolves _ _ _ _ _ _ _ _ _ Running Hu He Hrun) as [Hev' Ho]; [by right|].
      split; [by trans s1|]. intros j Hj. by rewrite Ho, Hs1.
    + apply ST_bind_Ret in Hr as ([] & s2 & He & Hr). simplify_ST.
      destruct (emit_keeps_states _ _ _ _ He) as [Hev' Hs']; [by constructor|].
      split; [by trans s1|]. apply only_states_eq. congruence.
  - destruct (dec_loser_of d).
    + apply ST_bind_Ret in Hr as ([] & s2 & He & Hr). simplify_ST.
      destruct (emit_keeps_states _ _ _ _ He) as [Hev' Hs']; [by constructor|].
      split; [done|]. by apply only_states_eq.
    + simplify_ST. by split.
Qed.

Lemma resolve_ids {T} (cs : list (Candidate T)) :
  dec_program_id <$> resolve cs = cand_program_id <$> cs.
Proof.
  destruct cs as [|c [|c' cs]]; [done..|]. cbn [resolve].
  change (map ?f ?l) with (f <$> l). rewrite <-list_fmap_compose. done.
Qed.

Lemma record_program_evals_evolves e s a s' :
  record_program_evals e s = Ret (a, s') → evolves tick_move s s' ∧ states s' = states s.
Proof.
  destruct e as [[id ts] rs]. intros Hu. apply (update_evolves _ _ _ _ _ _ Hu).
  intros rp _. split; [done|]. apply keeps_record.
  intros idx (w & Hw & Hr). by eapply record_evals_retired.
Qed.

Lemma record_fire_evolves now f s a s' :
  record_fire now f s = Ret (a, s') → evolves tick_move s s' ∧ states s' = states s.
Proof.
  destruct f as [[id idx] o]. unfold record_fire. intros (rp & s0 & Hg & Hr)%ST_bind_Ret.
  apply get_program_inv in Hg as [-> _]. apply ST_bind_Ret in Hr as (w & s1 & Hw & Hu).
  unfold unwrap in Hw. destruct (p_watches (program rp) !! Z.to_nat idx); simplify_ST.
  apply (update_evolves _ _ _ _ _ _ Hu). intros rp' _. split; [done|]. apply keeps_record.
  intros i (w' & Hw' & Hr'). eapply update_watch_retired; [|done..].
  intros v Hv. simpl. by destruct (w_lifetime w).
Qed.

(** The states the watch phase goes through: after the scan, the direct
    fires, the dispatches and the record of the evaluations. *)
Record watch_course (s s' : Sched) (frame : Frame) (now : UnixMs) (ids : list ProgramId)
    (sc : Scan) (d : Dispatched) (s1 s2 s3 s4 : Sched) : Prop := {
  course_scan : mfold (scan_program fuel frame now)
    {| evals := []; candidates := []; direct_fires := [] |} ids s = Ret (sc, s1);
  course_direct : mfor (λ f : ProgramId * Z * bool, emit (WatchFired f.1.1 f.1.2 "watch"))
    (direct_fires sc) s1 = Ret ((), s2);
  course_dispatch : mfold (dispatch_decision fuel frame now) (direct_fires sc, ∅)
    (resolve (candidates sc)) s2 = Ret (d, s3);
  course_evals : mfor record_program_evals (evals sc) s3 = Ret ((), s4);
  course_fires : mfor (record_fire now) d.1 s4 = Ret ((), s');
  course_before : evolves tick_move s s4;
  course_after : evolves tick_move s4 s';
}.

Lemma watch_phase_course frame now ids s failed s' :
  watch_phase fuel frame now ids s = Ret (failed, s') →
  NoDup ids → Forall (λ id, states s !! id = Some Running) ids →
  ∃ sc d s1 s2 s3 s4, watch_course s s' frame now ids sc d s1 s2 s3 s4.
Proof.
  unfold watch_phase. intros (sc & s1 & Hsc & Hr)%ST_bind_Ret Hnd Hrun.
  pose proof Hsc as [Hsil [(cs & Ec & Sc) (ds & Ed & Sd)]]%scan_all_inv. simpl in Ec, Ed.
  pose proof (silent_states _ _ Hsil) as Hs1. rewrite Forall_forall in Hrun.
  assert (∀ id, id ∈ ids → states s1 !! id = Some Running) as Hrun1.
  { intros id Hid. rewrite Hs1. by apply Hrun. }
  apply ST_bind_Ret in Hr as ([] & s2 & Hfires & Hr).
  assert (evolves tick_move s1 s2 ∧ states s2 = states s1) as [Hev2 Hs2].
  { refine (mfor_states _ _ _ _ _ _ Hfires).
    intros f t a t' Hf Ht He. eapply emit_keeps_states; [done|]. constructor. rewrite Ht.
    apply Hrun1. eapply elem_of_sublist; [|exact Sd]. rewrite <-Ed.
    do 2 apply list_elem_of_fmap_2. done. }
  apply ST_bind_Ret in Hr as (d & s3 & Hd & Hr).
  assert (evolves tick_move s2 s3) as Hev3.
  { refine (mfold_ids (λ x, dec_program_id x) Running _ _ _ _ _ _ _ _ _ Hd).
    - intros acc x t acc' t'. apply dispatch_decision_evolves.
    - rewrite resolve_ids, Ec. by eapply sublist_NoDup.
    - apply Forall_forall. intros x Hx. rewrite Hs2. apply Hrun1.
      eapply elem_of_sublist; [|exact Sc]. rewrite <-Ec, <-resolve_ids.
      by apply list_elem_of_fmap_2. }
  apply ST_bind_Ret in Hr as ([] & s4 & H4' & Hr).
  pose proof H4' as [Hev4 _]%mfor_states; [|intros; by eapply record_program_evals_evolves].
  apply ST_bind_Ret in Hr as ([] & s5 & H5' & Hr).
  pose proof H5' as [Hev5 _]%mfor_states; [|intros; by eapply record_fire_evolves].
  simplify_ST. exists sc, d, s1, s2, s3, s4. split; try done.
  trans s1; [by apply silent_evolves|]. trans s2; [done|]. by trans s3.
Qed.

Lemma watch_phase_evolves frame now ids s failed s' :
  watch_phase fuel frame now ids s = Ret (failed, s') →
  NoDup ids → Forall (λ id, states s !! id = Some Running) ids →
  evolves tick_move s s'.
Proof.
  intros Hr Hnd Hrun.
  destruct (watch_phase_course _ _ _ _ _ _ Hr Hnd Hrun) as (? & ? & ? & ? & ? & s4 & []).
  by trans s4.
Qed.


Lemma keeps_set_body c bs rp : keeps rp (set_body c bs rp).
Proof. by split. Qed.

(** A bookkeeping step that overwrites the program just read. *)
Lemma overwrite_evolves id rp rp' s a s' :
  update_program id (λ _, rp') s = Ret (a, s') → programs s !! id = Some rp →
  state rp' = state rp → keeps rp rp' →
  evolves tick_move s s' ∧ states s' = states s ∧ programs s' !! id = Some rp'.
Proof.
  intros Hu Hrp Hst Hk. destruct (update_evolves tick_move _ _ _ _ _ Hu) as [He Hs].
  { intros r Hr. by simplify_eq. }
  split; [done|]. split; [done|]. apply update_program_inv in Hu as (? & _ & ->).
  simpl. by rewrite lookup_insert_eq.
Qed.

Lemma complete_evolves id rp s a s' :
  complete id rp s = Ret (a, s') → states s !! id = Some Running →
  evolves tick_move s s' ∧ only id s s'.
Proof.
  unfold complete. intros Hr Hrun. apply ST_bind_Ret in Hr as ([] & s1 & Hu & Hr).
  apply ST_bind_Ret in Hr as ([] & s2 & He & Hr).
  pose proof (emits_app _ _ _ _ _ (emits_one _ _ _ _ He) (emits_one _ _ _ _ Hr)) as Hes.
  destruct (transition_evolves tick_move _ _ _ _ _ _ _ Hu Hes) as (Hev & rp' & Hrp' & Hs & _).
  - intros r Hr'. apply states_lookup in Hrun as (r' & ? & Hst). simplify_eq.
    split; [|apply keeps_set_state; naive_solver]. constructor. apply states_lookup; eauto.
  - split; [done|]. intros j Hj. by rewrite Hs, lookup_insert_ne.
Qed.

Lemma when_complete_evolves (b : bool) id rp s a s' :
  (if b then complete id rp else mret ()) s = Ret (a, s') → states s !! id = Some Running →
  evolves tick_move s s' ∧ only id s s'.
Proof.
  destruct b; [apply complete_evolves|]. intros Hr _. simplify_ST. by split.
Qed.

Lemma body_step_evolves frame now failed id s a s' :
  body_step fuel frame now failed id s = Ret (a, s') →
  evolves tick_move s s' ∧ only id s s'.
Proof.
  unfold body_step. case_decide; [intros; simplify_ST; by split|].
  intros (rp & s0 & Hg & Hr)%ST_bind_Ret. apply get_program_inv in Hg as [-> Hrp].
  case_decide as Hst; [|simplify_ST; by split].
  apply ST_bind_Ret in Hr as ([out bs] & s1 & Hio & Hr). apply on_io_silent in Hio.
  pose proof (silent_states _ _ Hio) as Hs1.
  apply ST_bind_Ret in Hr as ([] & s2 & Hu & Hr).
  apply (overwrite_evolves _ rp) in Hu as (Hev2 & Hs2 & Hrp2);
    [|by rewrite (silent_programs _ _ Hio)|done|apply keeps_set_body].
  assert (evolves tick_move s s2) as He2 by (trans s1; [by apply silent_evolves|done]).
  assert (states s2 !! id = Some Running) as Hrun by (apply states_lookup; eauto).
  assert (∀ t, evolves tick_move s2 t ∧ only id s2 t → evolves tick_move s t ∧ only id s t) as Hlift.
  { intros t [He Ho]. split; [by trans s2|]. intros j Hj. rewrite Ho by done. congruence. }
  apply Hlift. destruct out as [| | |err].
  - apply ST_bind_Ret in Hr as ([] & s3 & Hu3 & Hr).
    eapply overwrite_evolves in Hu3 as (Hev3 & Hs3 & Hrp3);
      [|exact Hrp2|done|by split].
    destruct (when_complete_evolves _ _ _ _ _ _ Hr) as [He Ho]; [congruence|].
    split; [by trans s3|]. intros j Hj. rewrite Ho by done. congruence.
  - simplify_ST. by split.
  - by apply when_complete_evolves in Hr.
  - apply ST_bind_Ret in Hr as ([] & s3 & Hu3 & He). eapply fail_evolves; eauto.
Qed.

Lemma ids_in_state_spec st s :
  NoDup (ids_in_state st (programs s)) ∧
  Forall (λ id, states s !! id = Some st) (ids_in_state st (programs s)).
Proof.
  unfold ids_in_state. split.
  - apply NoDup_filter. rewrite hash_keys_perm. apply NoDup_elements.
  - apply Forall_forall. intros id [Hid _]%list_elem_of_filter. unfold states.
    by rewrite lookup_fmap.
Qed.

Lemma tick_once_evolves s a s' : tick_once fuel s = Ret (a, s') → evolves tick_move s s'.
Proof.
  unfold tick_once. intros (r & s1 & Hc & Hr)%ST_bind_Ret. apply on_capture_silent in Hc.
  trans s1; [by apply silent_evolves|]. destruct r as [frame|e].
  2:{ eapply emit_evolves; [done|]. constructor. }
  apply ST_bind_Ret in Hr as ([] & s2 & Hcl & Hr). apply on_io_silent in Hcl.
  apply ST_bind_Ret in Hr as (now & s3 & Hck & Hr). apply on_clock_silent in Hck.
  trans s3; [apply silent_evolves; by trans s2|].
  apply ST_bind_Ret in Hr as (s0 & s4 & Hget & Hr). unfold get in Hget. simplify_eq.
  apply ST_bind_Ret in Hr as ([] & s5 & Htr & Hr).
  destruct (ids_in_state_spec Waiting s4) as [Hnd Hw].
  apply (mfor_ids (λ id, id) Waiting) in Htr; [|apply trigger_step_evolves|by rewrite list_fmap_id|done].
  trans s5; [done|].
  apply ST_bind_Ret in Hr as (s0 & s6 & Hget & Hr). unfold get in Hget. simplify_eq.
  destruct (ids_in_state_spec Running s6) as [Hnd' Hrun].
  apply ST_bind_Ret in Hr as (failed & s7 & Hwp & Hr).
  apply watch_phase_evolves in Hwp; [|done..]. trans s7; [done|].
  clear -Hr. revert s7 Hr. induction (ids_in_state Running (programs s6)) as [|id l IH];
    intros t; simpl; [intros; by simplify_ST|].
  intros ([] & t1 & H1' & H2')%ST_bind_Ret. apply body_step_evolves in H1' as [He _].
  trans t1; [done|]. by apply IH.
Qed.

(** ** Commands and whole runs *)

(** Every program that claims to run knows since when. *)
Definition sched_ok (s : Sched) : Prop := map_Forall (λ _ rp, since_ok rp) (programs s).

(** A run of the scheduler is a run of the machine that says what it does. *)
Record runs (s s' : Sched) : Prop := {
  runs_moves : ∃ l, sent s' = sent s ++ l ∧ moves any_move (states s) l (states s');
  runs_ok : sched_ok s → sched_ok s';
}.
#[export] Instance runs_preorder : PreOrder runs.
Proof.
  split.
  - intros s. split; [exists []; rewrite app_nil_r; by repeat constructor|done].
  - intros a b c [(l1 & E1 & M1) K1] [(l2 & E2 & M2) K2]. split; [|auto].
    exists (l1 ++ l2). rewrite E2, E1, app_assoc. split; [done|]. by eapply moves_app.
Qed.

Lemma silent_runs s s' : silent s s' → runs s s'.
Proof.
  intros Hs. split; [|unfold sched_ok; by rewrite (silent_programs _ _ Hs)].
  exists []. unfold sent. rewrite (silent_events _ _ Hs), (silent_states _ _ Hs), app_nil_r.
  repeat constructor.
Qed.

Lemma tick_runs s a s' : tick_once fuel s = Ret (a, s') → runs s s'.
Proof.
  intros [(l & El & Ml) Hk]%tick_once_evolves. split.
  - exists l. split; [done|]. eapply moves_mono; [|done]. intros. by left.
  - intros Hok id rp' Hrp'.
    assert (option_Forall2 forward (states s !! id) (states s' !! id)) as Hf
      by (by eapply tick_moves_forward).
    unfold states in Hf. rewrite !lookup_fmap, Hrp' in Hf. simpl in Hf.
    destruct (programs s !! id) as [rp|] eqn:Hrp; [|inversion Hf].
    destruct (Hk _ _ Hrp) as (rp'' & ? & Hkeep). simplify_eq.
    apply (keeps_since _ _ Hkeep). by apply (Hok id).
Qed.

(** A command announces a move and installs the program it leads to. *)
Lemma install_runs id rp d s s1 s' :
  emits d s s1 → s' = set_programs <[id:=rp]> s1 → since_ok rp →
  any_move (states s) d (<[id:=state rp]> (states s)) → runs s s'.
Proof.
  intros [Hp He] -> Hs Hm. split.
  - exists d. split; [done|]. rewrite states_update. unfold states at 2. rewrite Hp.
    by apply moves_one.
  - intros Hok. unfold sched_ok. simpl. rewrite Hp. by apply map_Forall_insert_2.
Qed.
Lemma installed_runs id rp d s s1 s' :
  emits d s1 s' → s1 = set_programs <[id:=rp]> s → since_ok rp →
  any_move (states s) d (<[id:=state rp]> (states s)) → runs s s'.
Proof.
  intros [Hp He] -> Hs Hm. split.
  - exists d. split; [done|]. unfold states at 2. rewrite Hp. fold (states (set_programs <[id:=rp]> s)).
    rewrite states_update. by apply moves_one.
  - intros Hok. unfold sched_ok. rewrite Hp. simpl. by apply map_Forall_insert_2.
Qed.

Lemma handle_command_runs cmd s stop s' :
  handle_command cmd s = Ret (stop, s') →
  runs s s' ∧ stop = match cmd with Shutdown => true | _ => false end.
Proof.
  intros Hr. split.
  2:{ destruct cmd; simpl in Hr; try destruct (programs _ !! _); simplify_ST; try done;
      destruct (programs _ !! _); by simplify_ST. }
  destruct cmd as [id p a|id r|id|id n p a|]; simpl in Hr.
  - apply ST_bind_Ret in Hr as ([] & s1 & E1 & Hr). apply ST_bind_Ret in Hr as ([] & s2 & E2 & Hr).
    unfold insert_program in Hr. simplify_ST.
    refine (install_runs _ _ _ _ _ _ (emits_app _ _ _ _ _ (emits_one _ _ _ _ E1)
      (emits_one _ _ _ _ E2)) eq_refl _ _); [done|]. right. apply cmd_submit.
  - apply ST_bind_Ret in Hr as (s0 & s1 & Hg & Hr). unfold get in Hg. simplify_eq.
    destruct (programs s1 !! id) as [rp|] eqn:Hrp; [|simplify_ST; reflexivity].
    apply ST_bind_Ret in Hr as ([] & s2 & Hi & Hr). apply ST_bind_Ret in Hr as ([] & s3 & E1 & Hr).
    unfold insert_program in Hi. simplify_ST.
    refine (installed_runs _ _ _ _ _ _ (emits_one _ _ _ _ E1) eq_refl _ _); [done|].
    right. constructor. apply states_lookup. eauto.
  - apply ST_bind_Ret in Hr as (s0 & s1 & Hg & Hr). unfold get in Hg. simplify_eq.
    destruct (programs s1 !! id) as [rp|] eqn:Hrp; [|simplify_ST; reflexivity].
    apply ST_bind_Ret in Hr as (t & s2 & Hck & Hr). apply on_clock_silent in Hck.
    trans s2; [by apply silent_runs|].
    apply ST_bind_Ret in Hr as ([] & s3 & Hi & Hr). apply ST_bind_Ret in Hr as ([] & s4 & E1 & Hr).
    unfold insert_program in Hi. simplify_ST.
    refine (installed_runs _ _ _ _ _ _ (emits_one _ _ _ _ E1) eq_refl _ _); [intros _; simpl; eauto|].
    right. constructor. apply states_lookup. rewrite (silent_programs _ _ Hck). eauto.
  - apply ST_bind_Ret in Hr as (t & s1 & Hck & Hr). apply on_clock_silent in Hck.
    trans s1; [by apply silent_runs|].
    apply ST_bind_Ret in Hr as ([] & s2 & E1 & Hr). apply ST_bind_Ret in Hr as ([] & s3 & E2 & Hr).
    unfold insert_program in Hr. simplify_ST.
    refine (install_runs _ _ _ _ _ _ (emits_app _ _ _ _ _ (emits_one _ _ _ _ E1)
      (emits_one _ _ _ _ E2)) eq_refl _ _); [intros _; simpl; eauto|]. right. apply cmd_resume.
  - simplify_ST. reflexivity.
Qed.

Lemma set_cmds_silent q s : runs s (set_cmds q s).
Proof.
  split; [|done]. exists []. rewrite app_nil_r. split; [done|]. constructor.
Qed.

Lemma drain_runs q s stop s' : drain_queue q s = Ret (stop, s') → runs s s'.
Proof.
  revert s. induction q as [|cmd q IH]; intros s; simpl; [intros; by simplify_ST|].
  intros ([] & s1 & Hs1 & Hr)%ST_bind_Ret. unfold modify in Hs1. simplify_eq.
  apply ST_bind_Ret in Hr as (b & s2 & Hc & Hr). apply handle_command_runs in Hc as [Hrun _].
  trans (set_cmds q s); [apply set_cmds_silent|]. trans s2; [done|].
  destruct b; [by simplify_ST|by apply IH].
Qed.

Lemma run_until_shutdown_runs config arrivals s stop s' :
  run_until_shutdown fuel config arrivals s = Ret (stop, s') → runs s s'.
Proof.
  revert s. induction arrivals as [|batch arrivals IH]; intros s; simpl; [intros; by simplify_ST|].
  intros ([] & s1 & Hs1 & Hr)%ST_bind_Ret. unfold modify in Hs1. simplify_eq.
  trans (receive batch s); [apply set_cmds_silent|].
  apply ST_bind_Ret in Hr as (b & s2 & Hd & Hr). unfold drain_commands in Hd.
  apply ST_bind_Ret in Hd as (s0 & s1' & Hg & Hd). unfold get in Hg. simplify_eq.
  trans s2; [by eapply drain_runs|]. destruct b; [by simplify_ST|].
  apply ST_bind_Ret in Hr as ([] & s3 & Ht & Hr). trans s3; [by eapply tick_runs|].
  apply ST_bind_Ret in Hr as ([] & s4 & Hsl & Hr). apply on_clock_silent in Hsl.
  trans s4; [by apply silent_runs|]. by apply IH.
Qed.

(** C1: a tick of the scheduler refines the lifecycle machine: the events it
    sends are exactly the labels of moves between the abstract states before
    and after (a trigger starts a waiting program, a running one completes with
    its completion event or fails, watches fire and actions are dispatched for
    running programs only), programs neither appear nor vanish, and each keeps
    its text, its assets and its retired watches. *)
Theorem tick_refines_lifecycle s s' :
  tick_once fuel s = Ret ((), s') →
  (∃ l, sent s' = sent s ++ l ∧ moves tick_move (states s) l (states s')) ∧
  (∀ id, option_Forall2 forward (states s !! id) (states s' !! id)) ∧
  ∀ id rp, programs s !! id = Some rp → ∃ rp', programs s' !! id = Some rp' ∧ keeps rp rp'.
Proof.
  intros [(l & El & Ml) Hk]%tick_once_evolves. split; [by exists l|]. split; [|done].
  intros id. by eapply tick_moves_forward.
Qed.

(** C9: whatever commands arrive, the event log of a run of the scheduler is
    complete and sound: replaying it over the initial states gives the states
    of all programs, every step of it is a move of the lifecycle machine, and
    a running program always knows since when it runs. *)
Theorem run_event_log_replays config arrivals s stop s' :
  run_until_shutdown fuel config arrivals s = Ret (stop, s') → sched_ok s →
  (∃ l, sent s' = sent s ++ l ∧ moves any_move (states s) l (states s') ∧
     states s' = replay l (states s)) ∧
  sched_ok s'.
Proof.
  intros [(l & El & Ml) Hok]%run_until_shutdown_runs Hs. split; [|auto].
  exists l. split; [done|]. split; [done|]. by apply moves_replay.
Qed.
End sim.
