(* ===== verification/SchedulerLive.v ===== *)
(** * Every tick returns

    Total correctness of a tick: with programs the DSL accepted, a back end
    that delivers readable frames and sinks and clocks that answer, no
    evaluation diverges, no lookup of the tick panics, and the tick returns. *)

From S2P Require Import Prelude Json CoreTypes Canonical CanonicalInj Serde DslPredicates DslValidate.
From S2P Require Import FrameView Perception PerceptionSpec Input Capture Clock Runtime Scheduler.
From S2P Require Import SchedulerSpec.
Local Open Scope vcli_scope.

(** ** Total evaluation *)

(** A stateful computation that returns from every state. *)
Definition total_st {S A} (m : ST S A) : Prop := ∀ s, ∃ a s', m s = Ret (a, s').

Lemma total_st_ret {S A} (a : A) : total_st (S:=S) (mret a).
Proof. intros s. by eexists _, _. Qed.
Lemma total_st_bind {S A B} (m : ST S A) (f : A → ST S B) :
  total_st m → (∀ a, total_st (f a)) → total_st (m ≫= f).
Proof. intros Hm Hf. unfold total_st. by apply total_bind. Qed.
Lemma total_st_sbind {S E A B} (m : ST S (result E A)) (f : A → ST S (result E B)) :
  total_st m → (∀ a, total_st (f a)) → total_st (sbind m f).
Proof.
  intros Hm Hf. unfold sbind. apply total_st_bind; [done|]. intros [a|e]; [done|apply total_st_ret].
Qed.

Create HintDb total discriminated.
#[export] Hint Resolve total_st_ret : total.

Ltac total_st := cbv zeta; repeat lazymatch goal with
  | |- total_st (mret _) => apply total_st_ret
  | |- total_st (sok _) => apply total_st_ret
  | |- total_st (serr _) => apply total_st_ret
  | |- total_st (sbind _ _) => apply total_st_sbind; [|intros ?]
  | |- total_st (_ ≫= _) => apply total_st_bind; [|intros ?]
  | |- total_st (match ?x with _ => _ end) => destruct x eqn:?
  | |- total_st _ => solve [auto with total]
  end.

(** The predicates of a program can be evaluated with this much fuel. *)
Definition evaluable (fuel : nat) (ps : Predicates) : Prop := acyclic ps ∧ size ps ≤ fuel.

Definition runnable (fuel : nat) (p : Program) : Prop :=
  evaluable fuel (p_predicates p) ∧
  ∀ idx w q, p_watches p !! idx = Some w → w_when w = Inline q →
    evaluable fuel (<[inline_key idx := q]> (p_predicates p)).

(** No predicate has the name the scheduler gives to the inline predicate of a
    watch. *)
Definition no_shadowing (p : Program) : Prop :=
  ∀ idx w q, p_watches p !! idx = Some w → w_when w = Inline q →
    p_predicates p !! inline_key idx = None.

(** What the DSL accepts can be run, unless a predicate has the name the
    scheduler gives to an inline predicate. *)
Lemma program_ok_runnable p :
  program_ok p → no_shadowing p → runnable (S (size (p_predicates p))) p.
Proof.
  intros (Hg & _ & Hw & _) Hn. split; [split; [apply Hg|lia]|].
  intros idx w q Hidx Hq. rewrite Forall_lookup in Hw. specialize (Hw _ _ Hidx) as (Hsh & _).
  rewrite Hq in Hsh. destruct Hsh as [_ Hsh]. split.
  - exact (proj2 (proj2 (graph_ok_inline _ _ q Hg (Hn _ _ _ Hidx Hq)) Hsh)).
  - by rewrite map_size_insert_None by by eapply Hn.
Qed.

Section io_total.
  Context `{NfcOps, RyuOps, ImageOps, InputSink, !InputSinkTotal}.
  Variable fuel : nat.

Definition ctx_ok (ctx : EvalCtx) : Prop :=
  frame_wf (ctx_frame ctx) ∧ evaluable fuel (ctx_predicates ctx).

Lemma eval_named_io_total ctx name : ctx_ok ctx → total_st (eval_named_io fuel ctx name).
Proof.
  intros [Hf [Ha Hs]] [ps sk]. unfold eval_named_io, on_perception.
  destruct (evaluate_named_total_acyclic fuel ctx name Hf Ha Hs ps) as (r & ps' & He). simpl.
  rewrite He. simpl. eauto.
Qed.
Lemma on_sink_total {A} (m : ST sink A) : total_st m → total_st (on_sink m).
Proof. intros Hm [ps sk]. unfold on_sink. simpl. destruct (Hm sk) as (a & sk' & ->). simpl. eauto. Qed.
Lemma input_io_total (m : ST sink (result InputError ())) : total_st m → total_st (input_io m).
Proof. intros Hm. unfold input_io. total_st. by apply on_sink_total. Qed.
#[local] Hint Resolve eval_named_io_total input_io_total : total.
#[local] Hint Resolve mouse_move_total click_total type_text_total key_combo_total : total.
#[local] Hint Extern 1 (total_st (input_io _)) =>
  apply input_io_total; intros ?; auto with total : total.

Lemma resolve_target_total t ctx : ctx_ok ctx → total_st (resolve_target fuel t ctx).
Proof. intros Hc. destruct t; simpl; total_st. Qed.
#[local] Hint Resolve resolve_target_total : total.

Lemma dispatch_action_total st ctx : ctx_ok ctx → total_st (dispatch_action fuel st ctx).
Proof. intros Hc. destruct st; simpl; total_st. Qed.

Lemma dispatch_at_total t ctx f :
  ctx_ok ctx → (∀ p, total_st (f p)) → total_st (dispatch_at fuel t ctx f).
Proof. intros Hc Hf. unfold dispatch_at. total_st. Qed.

Lemma step_once_total body cursor bs ctx : ctx_ok ctx → total_st (step_once fuel body cursor bs ctx).
Proof.
  intros Hc. unfold step_once, step_deferred. total_st.
  all: apply dispatch_at_total; [done|]; intros p; auto with total.
Qed.

Lemma trigger_fires_total t ctx : ctx_ok ctx → total_st (trigger_fires fuel t ctx).
Proof. intros Hc. unfold trigger_fires. total_st. Qed.

Lemma until_holds_total ctx l : ctx_ok ctx → total_st (until_holds fuel ctx l).
Proof. intros Hc. unfold until_holds. total_st. Qed.

Lemma scan_watches_total ctx since states idx ws acc :
  ctx_ok ctx →
  (∀ i w q, ws !! i = Some w → w_when w = Inline q →
     evaluable fuel (<[inline_key (idx + i) := q]> (ctx_predicates ctx))) →
  total_st (scan_watches fuel ctx since states idx ws acc).
Proof.
  intros Hc. revert idx acc. induction ws as [|w ws IH]; intros idx acc Hi; simpl; [total_st|].
  apply total_st_bind.
  - unfold scan_watch, eval_watch_when. total_st; auto using until_holds_total with total.
    apply eval_named_io_total. split; [apply Hc|]. simpl.
    specialize (Hi 0 w). rewrite Nat.add_0_r in Hi. by apply Hi.
  - intros a. apply IH. intros i v q Hv Hq. rewrite Nat.add_succ_comm. by apply (Hi (S i) v).
Qed.
End io_total.

(** ** Total correctness over the program table *)

Section live.
  Context `{NfcOps, RyuOps, UuidOps, ImageOps, InputSink, !InputSinkTotal}.
  Context `{Capture, !CaptureOk, RuntimeClock, !RuntimeClockTotal, HashOrder}.
  Variable fuel : nat.

(** The program texts of a table; no part of a tick changes them. *)
Definition texts (s : Sched) : gmap ProgramId Program := program <$> programs s.

(** What a tick leaves alone once it has its frame: the program texts, the
    capture back end, the queue of commands. *)
Definition fixed (s : Sched) : gmap ProgramId Program * capture * list SchedulerCommand := (texts s, capture_st s, cmd_rx s).

(** From any state with this fixed part, [m] returns, keeps the fixed part and
    produces a value that satisfies [Q]. *)
Definition runs_to (K : gmap ProgramId Program * capture * list SchedulerCommand) {A} (m : ST Sched A) 
    (Q : A → Prop) : Prop :=
  ∀ s, fixed s = K → ∃ a s', m s = Ret (a, s') ∧ fixed s' = K ∧ Q a.

Variable T : gmap ProgramId Program.
Variable c : capture.
Variable q : list SchedulerCommand.

Lemma runs_to_ret {A} (a : A) (Q : A → Prop) : Q a → runs_to (T, c, q) (mret a) Q.
Proof. intros Ha s Hs. by exists a, s. Qed.
Lemma runs_to_bind {A B} (m : ST Sched A) (f : A → ST Sched B) Q R :
  runs_to (T, c, q) m Q → (∀ a, Q a → runs_to (T, c, q) (f a) R) → runs_to (T, c, q) (m ≫= f) R.
Proof.
  intros Hm Hf s Hs. destruct (Hm s Hs) as (a & s1 & Ha & Hs1 & Hq).
  destruct (Hf a Hq s1 Hs1) as (b & s2 & Hb & Hs2 & Hr).
  exists b, s2. split; [|done]. apply ST_bind_Ret. eauto.
Qed.
Lemma runs_to_get {A} (f : Sched → ST Sched A) Q :
  (∀ s, texts s = T → runs_to (T, c, q) (f s) Q) → runs_to (T, c, q) (get ≫= f) Q.
Proof. intros Hf s Hs. apply (Hf s); [by injection Hs|done]. Qed.
Lemma runs_to_mono {A} (m : ST Sched A) (Q R : A → Prop) :
  runs_to (T, c, q) m Q → (∀ a, Q a → R a) → runs_to (T, c, q) m R.
Proof. intros Hm Hq s Hs. destruct (Hm s Hs) as (a & s' & ? & ? & ?). eauto 6. Qed.

Definition any {A} (_ : A) : Prop := True.

Lemma runs_to_io {A} (m : ST IO A) : total_st m → runs_to (T, c, q) (on_io m) any.
Proof.
  intros Hm s Hs. destruct (Hm (Scheduler.perception s, input s)) as (a & io & Ha).
  unfold on_io. rewrite Ha. simpl. by eexists _, _.
Qed.
Lemma runs_to_unix_ms : runs_to (T, c, q) (on_clock unix_ms) any.
Proof.
  intros s Hs. destruct (unix_ms_total (clock_st s)) as (t & ck & Hc).
  unfold on_clock. rewrite Hc. simpl. by eexists _, _.
Qed.
Lemma runs_to_emit d : runs_to (T, c, q) (emit d) any.
Proof.
  unfold emit. eapply runs_to_bind; [apply runs_to_unix_ms|]. intros t _ s Hs. by eexists _, _.
Qed.
Lemma runs_to_get_program id p :
  T !! id = Some p → runs_to (T, c, q) (get_program id) (λ rp, program rp = p).
Proof.
  intros Hp s Hs. unfold get_program, get, mbind, ST_bind. simpl.
  assert (texts s !! id = Some p) as Ht by (by injection Hs as -> _ _). unfold texts in Ht.
  rewrite lookup_fmap in Ht. destruct (programs s !! id) as [rp|]; [|done].
  simpl in *. simplify_eq. by exists rp, s.
Qed.
Lemma runs_to_update id f :
  is_Some (T !! id) → (∀ rp, T !! id = Some (program rp) → program (f rp) = program rp) →
  runs_to (T, c, q) (update_program id f) any.
Proof.
  intros [p Hp] Hf. unfold update_program. eapply runs_to_bind; [by apply runs_to_get_program|].
  intros rp Hrp s Hs. eexists _, _. split; [done|]. split; [|done].
  injection Hs as Ht Hc Hq. unfold fixed, texts in *. simpl.
  rewrite fmap_insert, Hf, Ht, Hc, Hq by congruence. by rewrite insert_id by congruence.
Qed.
Lemma runs_to_mfor {A} (f : A → ST Sched ()) l :
  (∀ x, x ∈ l → runs_to (T, c, q) (f x) any) → runs_to (T, c, q) (mfor f l) any.
Proof.
  intros Hf. induction l as [|x l IH]; simpl; [by apply runs_to_ret|].
  eapply runs_to_bind; [apply Hf; by left|]. intros _ _. apply IH. intros y Hy. apply Hf. by right.
Qed.
Lemma runs_to_mfold {A B} (Q : A → Prop) (f : A → B → ST Sched A) acc l :
  Q acc → (∀ acc x, x ∈ l → Q acc → runs_to (T, c, q) (f acc x) Q) → runs_to (T, c, q) (mfold f acc l) Q.
Proof.
  intros Ha Hf. revert acc Ha. induction l as [|x l IH]; intros acc Ha; simpl; [by apply runs_to_ret|].
  eapply runs_to_bind; [apply Hf; [by left|done]|]. intros a1 Hq. apply IH; [|done].
  intros acc1 y Hy. apply Hf. by right.
Qed.

#[local] Hint Resolve runs_to_emit : total.
Ltac emit := eapply runs_to_bind; [apply runs_to_emit|intros _ _].

Variable frame : Frame.
Variable now : UnixMs.
Hypothesis Hframe : frame_wf frame.
Hypothesis Hrunnable : map_Forall (λ _ p, runnable fuel p) T.

Lemma tick_ctx_ok id rp p :
  T !! id = Some p → program rp = p → ctx_ok fuel (tick_ctx frame now id rp).
Proof.
  intros Hp <-. split; [done|]. by apply (map_Forall_lookup_1 _ _ _ _ Hrunnable Hp).
Qed.

Lemma trigger_step_live id : is_Some (T !! id) → runs_to (T, c, q) (trigger_step fuel frame now id) any.
Proof.
  intros [p Hp]. unfold trigger_step. eapply runs_to_bind; [by apply runs_to_get_program|].
  intros rp Hrp. eapply runs_to_bind.
  { eapply runs_to_io, trigger_fires_total, tick_ctx_ok; eauto. }
  intros [[]|e] _; [|by apply runs_to_ret|]; (eapply runs_to_bind;
    [apply runs_to_update; [by eexists|done]|intros _ _; apply runs_to_emit]).
Qed.

(** A fire names a watch of its program. *)
Definition fire_ok (f : ProgramId * Z * bool) : Prop :=
  ∃ p, T !! f.1.1 = Some p ∧ is_Some (p_watches p !! Z.to_nat f.1.2).

Lemma idx_u32_le i : (0 ≤ idx_u32 i ≤ Z.of_nat i)%Z.
Proof. unfold idx_u32. case_decide; unfold_ints; lia. Qed.

(** The fires of a scan come from the scanned watches. *)
Definition fires_below (n : nat) (ev : WatchEvals) : Prop :=
  Forall (λ f : Z * list Step * bool, (0 ≤ f.1.1 < Z.of_nat n)%Z) (fires ev).

Lemma scan_watches_fires ctx since states idx ws acc io ev io' :
  scan_watches fuel ctx since states idx ws acc io = Ret (ev, io') →
  fires_below (idx + length ws) acc → fires_below (idx + length ws) ev.
Proof.
  revert idx acc io. induction ws as [|w ws IH]; intros idx acc io; simpl.
  { intros Hr. by simplify_ST. }
  intros (acc1 & io1 & H1' & H2')%ST_bind_Ret Hacc. rewrite <-Nat.add_succ_comm in *.
  eapply IH; [exact H2'|]. clear H2' IH. unfold scan_watch in H1'.
  destruct (retired _); [by simplify_ST|]. apply ST_bind_Ret in H1' as (stop & io2 & _ & Hr).
  destruct stop; [by simplify_ST|]. apply ST_bind_Ret in Hr as (t & io3 & _ & Hr).
  destruct t as [b|]; [|by simplify_ST]. simplify_ST. unfold fires_below in *. simpl.
  apply Forall_app. split; [done|]. case_decide; [|done]. constructor; [|done]. simpl.
  pose proof (idx_u32_le idx). lia.
Qed.

Definition scan_ok (sc : Scan) : Prop :=
  Forall (λ e, is_Some (T !! e.1.1)) (evals sc) ∧ Forall fire_ok (direct_fires sc) ∧
  Forall (λ c, fire_ok (cand_program_id c, (cand_payload c).1.1, (cand_payload c).2))
    (candidates sc).

Lemma scan_program_live sc id :
  is_Some (T !! id) → scan_ok sc → runs_to (T, c, q) (scan_program fuel frame now sc id) scan_ok.
Proof.
  intros [p Hp] (He & Hd & Hc). unfold scan_program.
  eapply runs_to_bind; [by apply runs_to_get_program|]. intros rp Hrp.
  eapply (runs_to_bind _ _ (fires_below (length (p_watches p)))).
  - intros s Hs. rewrite Hrp.
    destruct (runs_to_io (scan_watches fuel (tick_ctx frame now id rp)
      (default now (running_since_ms rp)) (watch_state rp) 0 (p_watches p)
      {| truthies := []; fires := []; retires := [] |})) with (s := s) as (ev & s' & Hr & Hs' & _);
      [|done|].
    + apply scan_watches_total; [by eapply tick_ctx_ok|]. intros i w v Hw Hv. simpl. rewrite Hrp.
      by apply (map_Forall_lookup_1 _ _ _ _ Hrunnable Hp) with (w := w).
    + exists ev, s'. split; [done|]. split; [done|].
      unfold on_io in Hr. apply outcome_bind_Ret in Hr as ([ev' io'] & Hr & ?). simplify_eq.
      eapply (scan_watches_fires _ _ _ 0); [exact Hr|]. constructor.
  - intros ev Hev. apply runs_to_ret. unfold fires_below in Hev.
    assert (∀ i ss o fs, fires ev = (i, ss, o) :: fs → fire_ok (id, i, o)) as Hf.
    { intros i ss o fs Hfs. rewrite Hfs, Forall_cons in Hev. exists p. split; [done|].
      apply lookup_lt_is_Some_2. simpl in *. lia. }
    split_and!; simpl; rewrite Forall_app; (split; [done|]).
    + repeat constructor. simpl. by eexists.
    + destruct (fires ev) as [|[[i [|st sts]] o] fs]; repeat constructor. by eapply Hf.
    + destruct (fires ev) as [|[[i [|st sts]] o] fs]; repeat constructor. by eapply Hf.
Qed.

Lemma dispatch_steps_live ctx id steps :
  ctx_ok fuel ctx → runs_to (T, c, q) (dispatch_steps fuel ctx id steps) any.
Proof.
  intros Hc. induction steps as [|st steps IH]; simpl; [by apply runs_to_ret|]. emit.
  eapply runs_to_bind; [by apply runs_to_io, dispatch_action_total|].
  intros [u|e] _; [done|by apply runs_to_ret].
Qed.

Definition decision_ok (d : ArbDecision WatchFirePayload) : Prop :=
  fire_ok (dec_program_id d, (dec_payload d).1.1, (dec_payload d).2).

Lemma dispatch_decision_live acc d :
  decision_ok d → Forall fire_ok acc.1 →
  runs_to (T, c, q) (dispatch_decision fuel frame now acc d) (λ acc', Forall fire_ok acc'.1).
Proof.
  intros (p & Hp & Hw) Hacc. unfold dispatch_decision, decision_ok in *.
  destruct (dec_payload d) as [[idx steps] o]. simpl in *. destruct (dec_dispatch d).
  - eapply runs_to_bind; [by apply runs_to_get_program|]. intros rp Hrp.
    eapply runs_to_bind; [eapply dispatch_steps_live, tick_ctx_ok; eauto|]. intros [e|] _.
    + eapply runs_to_bind; [apply runs_to_update; [by eexists|done]|]. intros _ _. emit.
      by apply runs_to_ret.
    + emit. apply runs_to_ret. apply Forall_app. split; [done|]. repeat constructor.
      by exists p.
  - destruct (dec_loser_of d); [emit|]; by apply runs_to_ret.
Qed.

Lemma resolve_ok cs :
  Forall (λ c : Candidate WatchFirePayload,
    fire_ok (cand_program_id c, (cand_payload c).1.1, (cand_payload c).2)) cs →
  Forall decision_ok (resolve cs).
Proof.
  intros Hc. destruct cs as [|c1 [|c2 cs]]; [done| |].
  - constructor; [|constructor]. apply Forall_cons in Hc as [Hc _]. exact Hc.
  - cbn [resolve]. change (map ?f ?l) with (f <$> l). apply Forall_fmap.
    eapply Forall_impl; [exact Hc|]. intros x Hx. exact Hx.
Qed.

Lemma record_program_evals_live e :
  is_Some (T !! e.1.1) → runs_to (T, c, q) (record_program_evals e) any.
Proof. destruct e as [[id ts] rs]. intros Hid. by apply runs_to_update. Qed.

Lemma record_fire_live f : fire_ok f → runs_to (T, c, q) (record_fire now f) any.
Proof.
  destruct f as [[id idx] o]. intros (p & Hp & w & Hw). simpl in *. unfold record_fire.
  eapply runs_to_bind; [by apply runs_to_get_program|]. intros rp ->.
  rewrite Hw. eapply (runs_to_bind _ _ any); [by apply (runs_to_ret w)|].
  intros v _. by apply runs_to_update.
Qed.

Lemma watch_phase_live ids :
  (∀ id, id ∈ ids → is_Some (T !! id)) → runs_to (T, c, q) (watch_phase fuel frame now ids) any.
Proof.
  intros Hids. unfold watch_phase. eapply runs_to_bind.
  { apply (runs_to_mfold scan_ok); [by repeat constructor|].
    intros sc id Hid. by apply scan_program_live, Hids. }
  intros sc (He & Hd & Hc). cbv zeta.
  eapply runs_to_bind; [apply runs_to_mfor; intros; apply runs_to_emit|]. intros _ _.
  eapply runs_to_bind.
  { apply (runs_to_mfold (λ acc, Forall fire_ok acc.1)); [done|]. intros acc d Hd' Hacc.
    apply dispatch_decision_live; [|done]. apply resolve_ok in Hc. rewrite Forall_forall in Hc.
    by apply Hc. }
  intros d Hfires. rewrite Forall_forall in He. pose proof (proj1 (Forall_forall _ _) Hfires) as Hf.
  eapply runs_to_bind; [apply runs_to_mfor; intros; by apply record_program_evals_live, He|].
  intros _ _. eapply runs_to_bind; [apply runs_to_mfor; intros; by apply record_fire_live, Hf|].
  intros _ _. by apply runs_to_ret.
Qed.

Lemma complete_live id rp p :
  T !! id = Some p → runs_to (T, c, q) (complete id rp) any.
Proof.
  intros Hp. unfold complete. eapply runs_to_bind; [apply runs_to_update; [by eexists|done]|].
  intros _ _. emit. apply runs_to_emit.
Qed.

Lemma body_step_live failed id :
  is_Some (T !! id) → runs_to (T, c, q) (body_step fuel frame now failed id) any.
Proof.
  intros [p Hp]. unfold body_step. case_decide; [by apply runs_to_ret|].
  eapply runs_to_bind; [by apply runs_to_get_program|]. intros rp Hrp.
  case_decide; [|by apply runs_to_ret].
  eapply runs_to_bind; [eapply runs_to_io, step_once_total, tick_ctx_ok; eauto|].
  intros [out bs] _.
  assert (∀ rp', program rp' = program rp → runs_to (T, c, q) (update_program id (λ _, rp')) any) as Hup.
  { intros rp' Hrp'. apply runs_to_update; [by eexists|]. intros r Hr. congruence. }
  eapply runs_to_bind; [by apply Hup|]. intros _ _.
  assert (∀ (b : bool) rp', runs_to (T, c, q) (if b then complete id rp' else mret ()) any) as Hc.
  { intros [] rp'; [by eapply complete_live|by apply runs_to_ret]. }
  destruct out; [eapply runs_to_bind; [by apply Hup|intros _ _; apply Hc]|by apply runs_to_ret|apply Hc|].
  eapply runs_to_bind; [apply runs_to_update; [by eexists|done]|]. intros _ _. apply runs_to_emit.
Qed.
End live.

Section tick_live.
  Context `{NfcOps, RyuOps, UuidOps, ImageOps, InputSink, !InputSinkTotal}.
  Context `{Capture, !CaptureOk, RuntimeClock, !RuntimeClockTotal, HashOrder}.
  Variable fuel : nat.

(** The scheduler holds runnable programs and a sound capture back end. *)
Definition live (s : Sched) : Prop :=
  map_Forall (λ _ rp, runnable fuel (program rp)) (programs s) ∧ capture_ok (capture_st s).

Lemma ids_in_state_texts st s T :
  texts s = T → ∀ id, id ∈ ids_in_state st (programs s) → is_Some (T !! id).
Proof.
  intros <- id [Hid _]%list_elem_of_filter. unfold texts. rewrite lookup_fmap.
  destruct (programs s !! id); [by eexists|done].
Qed.

Lemma tick_frame_live T c q frame :
  frame_wf frame → map_Forall (λ _ p, runnable fuel p) T →
  runs_to (T, c, q) (tick_frame fuel frame) any.
Proof.
  intros Hwf HT. unfold tick_frame.
  eapply runs_to_bind; [apply runs_to_io; intros io; by eexists _, _|]. intros _ _.
  eapply runs_to_bind; [apply runs_to_unix_ms|]. intros now _.
  apply runs_to_get. intros s Hs. eapply runs_to_bind.
  { apply runs_to_mfor. intros id Hid. apply trigger_step_live; [done..|].
    by eapply ids_in_state_texts. }
  intros _ _. apply runs_to_get. intros s1 Hs1. cbv zeta. eapply runs_to_bind.
  { apply watch_phase_live; [done..|]. by apply ids_in_state_texts. }
  intros failed _. apply runs_to_mfor. intros id Hid. apply body_step_live; [done..|].
  by eapply ids_in_state_texts.
Qed.

Lemma fixed_runnable s :
  map_Forall (λ _ rp, runnable fuel (program rp)) (programs s) ↔
  map_Forall (λ _ p, runnable fuel p) (texts s).
Proof. unfold texts. by rewrite map_Forall_fmap. Qed.

Lemma tick_once_live s :
  live s → ∃ s', tick_once fuel s = Ret ((), s') ∧ live s' ∧ cmd_rx s' = cmd_rx s.
Proof.
  intros [Hrun Hcap]. unfold tick_once, mbind at 1, ST_bind at 1, on_capture.
  destruct (grab_screen_ok (capture_st s) Hcap) as (r & c & -> & Hc & Hwf). simpl.
  assert (∀ m : ST Sched (), runs_to (texts s, c, cmd_rx s) m any →
    ∀ s1, fixed s1 = (texts s, c, cmd_rx s) →
    ∃ s', m s1 = Ret ((), s') ∧ live s' ∧ cmd_rx s' = cmd_rx s) as Hm.
  { intros m Hm s1 Hs1. destruct (Hm s1 Hs1) as ([] & s' & Hm' & Hs' & _). exists s'.
    split; [done|]. injection Hs' as Ht Hc' Hq. split; [|done]. split; [|congruence].
    apply fixed_runnable. rewrite Ht. by apply fixed_runnable. }
  destruct r as [frame|e]; (apply Hm; [|done]).
  - apply tick_frame_live; [by apply Hwf|]. by apply fixed_runnable.
  - apply runs_to_emit.
Qed.

(** ** Whole runs *)

(** The programs a command brings in are runnable. *)
Definition command_runnable (cmd : SchedulerCommand) : Prop :=
  match cmd with
  | SubmitValidated _ p _ | ResumeRunning _ _ p _ => runnable fuel p
  | _ => True
  end.

Definition is_shutdown (cmd : SchedulerCommand) : bool :=
  match cmd with Shutdown => true | _ => false end.

(** [m] returns, stays live, leaves the queue alone and produces [a]. *)
Definition answers {A} (a : A) (m : ST Sched A) : Prop :=
  ∀ s, live s → ∃ s', m s = Ret (a, s') ∧ live s' ∧ cmd_rx s' = cmd_rx s.

Lemma answers_ret {A} (a : A) : answers a (mret a).
Proof. intros s Hs. by exists s. Qed.
Lemma answers_bind {A B} (m : ST Sched A) (f : A → ST Sched B) a b :
  answers a m → answers b (f a) → answers b (m ≫= f).
Proof.
  intros Hm Hf s Hs. destruct (Hm s Hs) as (s1 & H1' & Hs1 & Hq1).
  destruct (Hf s1 Hs1) as (s2 & H2' & Hs2 & Hq2). exists s2. split; [apply ST_bind_Ret; eauto|].
  split; [done|congruence].
Qed.
Lemma answers_emit d : answers () (emit d).
Proof.
  intros s [Hr Hc]. unfold emit, on_clock, mbind, ST_bind.
  destruct (unix_ms_total (clock_st s)) as (t & ck & ->). simpl. by eexists.
Qed.
Lemma answers_insert id rp : runnable fuel (program rp) → answers () (insert_program id rp).
Proof.
  intros Hrp s [Hr Hc]. eexists. split; [done|]. split; [|done]. split; [|done].
  by apply map_Forall_insert_2.
Qed.
Lemma answers_clock (f : UnixMs → ST Sched bool) b :
  (∀ t, answers b (f t)) → answers b (on_clock unix_ms ≫= f).
Proof.
  intros Hf s Hs. unfold on_clock, mbind, ST_bind.
  destruct (unix_ms_total (clock_st s)) as (t & ck & ->). simpl. refine (Hf t _ _). exact Hs.
Qed.

Lemma handle_command_live cmd :
  command_runnable cmd → answers (is_shutdown cmd) (handle_command cmd).
Proof.
  intros Hcmd. destruct cmd as [id p a|id r|id|id n p a|]; simpl in *.
  - do 2 (eapply answers_bind; [apply answers_emit|]).
    eapply answers_bind; [by apply answers_insert|apply answers_ret].
  - intros s Hs. unfold get, mbind at 1, ST_bind at 1. simpl.
    destruct (programs s !! id) as [rp|] eqn:Hrp; [|by apply answers_ret].
    assert (answers false (_ ← insert_program id (set_state Cancelled rp);
      _ ← emit (ProgramStateChanged id (state rp) Cancelled r); mret false)) as Ha; [|exact (Ha s Hs)].
    eapply answers_bind; [apply answers_insert; exact (proj1 Hs id rp Hrp)|].
    eapply answers_bind; [apply answers_emit|apply answers_ret].
  - intros s Hs. unfold get, mbind at 1, ST_bind at 1. simpl.
    destruct (programs s !! id) as [rp|] eqn:Hrp; [|by apply answers_ret].
    revert s Hs Hrp. cut (∀ rp, runnable fuel (program rp) → answers false (t ← on_clock unix_ms;
      _ ← insert_program id {|
                program := program rp; rp_assets := rp_assets rp; state := Running;
                running_since_ms := Some t; body_cursor := body_cursor rp;
                watch_state := watch_state rp; resumed_from := resumed_from rp;
                body_state := body_state rp |};
      _ ← emit (ProgramStateChanged id (state rp) Running "start"); mret false)).
    { intros Ha s Hs Hrp. apply Ha; [exact (proj1 Hs id rp Hrp)|done]. }
    clear rp. intros rp Hrp. apply answers_clock. intros t.
    eapply answers_bind; [by apply answers_insert|].
    eapply answers_bind; [apply answers_emit|apply answers_ret].
  - apply answers_clock. intros t. do 2 (eapply answers_bind; [apply answers_emit|]).
    eapply answers_bind; [by apply answers_insert|apply answers_ret].
  - apply answers_ret.
Qed.

Lemma drain_queue_live q s :
  live s → cmd_rx s = q → Forall command_runnable q →
  ∃ s', drain_queue q s = Ret (existsb is_shutdown q, s') ∧ live s' ∧
    (existsb is_shutdown q = false → cmd_rx s' = []).
Proof.
  revert s. induction q as [|cmd q IH]; intros s Hs Hq Hc; simpl; [by eexists|].
  apply Forall_cons in Hc as [Hcmd Hc].
  destruct (handle_command_live cmd Hcmd (set_cmds q s)) as (s1 & He & Hs1 & Hq1); [done|].
  unfold mbind, ST_bind. simpl. rewrite He. simpl. destruct (is_shutdown cmd); simpl.
  - exists s1. split; [done|]. split; [done|]. done.
  - apply IH; done.
Qed.

Lemma run_live config arrivals s :
  live s → cmd_rx s = [] → Forall (Forall command_runnable) arrivals →
  ∃ s', run_until_shutdown fuel config arrivals s
    = Ret (existsb (existsb is_shutdown) arrivals, s') ∧ live s'.
Proof.
  intros Hs Hq Hc. revert s Hs Hq. induction Hc as [|batch arrivals Hb Hc IH]; intros s Hs Hq; simpl.
  { by exists s. }
  unfold mbind at 1, ST_bind at 1, modify. simpl.
  destruct (drain_queue_live batch (receive batch s)) as (s1 & Hd & Hs1 & Hq1);
    [done|simpl; by rewrite Hq|done|].
  assert (drain_commands (receive batch s) = Ret (existsb is_shutdown batch, s1)) as Hd'.
  { rewrite <-Hd. unfold drain_commands, mbind, ST_bind, get. simpl. by rewrite Hq. }
  unfold mbind at 1, ST_bind at 1. rewrite Hd'. simpl. destruct (existsb is_shutdown batch); simpl; [by exists s1|].
  destruct (tick_once_live s1 Hs1) as (s2 & Ht & Hs2 & Hq2).
  unfold mbind at 1, ST_bind at 1. rewrite Ht. simpl.
  unfold mbind at 1, ST_bind at 1, on_clock.
  destruct (sleep_ms_total (tick_interval_ms config) (clock_st s2)) as (ck & ->). simpl.
  apply IH; [done|]. simpl. rewrite Hq2. by apply Hq1.
Qed.

(** A command whose program the DSL accepted, whose predicates fit the fuel
    and do not use the names of inline predicates. *)
Definition program_accepted (p : Program) : Prop :=
  program_ok p ∧ size (p_predicates p) < fuel ∧ no_shadowing p.
Definition command_accepted (cmd : SchedulerCommand) : Prop :=
  match cmd with
  | SubmitValidated _ p _ | ResumeRunning _ _ p _ => program_accepted p
  | _ => True
  end.

Lemma evaluable_mono n m ps : n ≤ m → evaluable n ps → evaluable m ps.
Proof. intros Hnm [Ha Hs]. split; [done|lia]. Qed.

Lemma accepted_runnable cmd : command_accepted cmd → command_runnable cmd.
Proof.
  assert (∀ p, program_accepted p → runnable fuel p) as Hp.
  { intros p (Hok & Hs & Hn). destruct (program_ok_runnable p Hok Hn) as [He Hi].
    split; [by eapply evaluable_mono|]. intros idx w q Hw Hq. eapply evaluable_mono; [|by eapply Hi].
    lia. }
  destruct cmd; simpl; auto.
Qed.

(** C2: started on a sound capture back end, with sinks and clocks that
    answer, the scheduler neither panics nor diverges: for
    every sequence of command batches whose programs the DSL accepted, none of
    them with a predicate named [__inline_<i>] like the inline predicate of its
    own i-th watch ([no_shadowing]; the DSL lets such names through, and C40
    shows the scheduler diverge on one), its loop runs through all batches and
    stops early exactly when a [Shutdown] arrives.  The fuel of the predicate
    evaluations has to exceed the number of named predicates of each program. *)
Theorem scheduler_never_panics config arrivals cap inp perc clk :
  capture_ok cap → Forall (Forall command_accepted) arrivals →
  ∃ s', run_until_shutdown fuel config arrivals (Scheduler_new cap inp perc clk [])
    = Ret (existsb (existsb is_shutdown) arrivals, s').
Proof.
  intros Hcap Hc. destruct (run_live config arrivals (Scheduler_new cap inp perc clk [])) as (s' & Hr & _).
  - split; [|done]. apply map_Forall_empty.
  - done.
  - eapply Forall_impl; [exact Hc|]. intros batch Hb. eapply Forall_impl; [exact Hb|].
    apply accepted_runnable.
  - eauto.
Qed.
End tick_live.

(** ** The reserved name *)

(** A program that names a predicate like the scheduler's first inline one. *)
Definition shadow_inline : PredicateKind := ElapsedMsSinceTrue "__inline_0" 500.
Definition shadow_program : Program := {|
  p_version := "0.1"; p_name := "shadow"; p_id := None; p_trigger := OnSubmit;
  p_predicates := {[ "__inline_0" := ColorAt (mkPoint 1 2) (mkRgb 255 0 0) 10 ]};
  p_watches := [mkWatch (Inline shadow_inline) [] 0 Persistent];
  p_body := []; p_on_complete := None; p_on_fail := None; p_timeout_ms := None; p_labels := ∅;
  p_priority := 0%Z |}.

Section shadow.
  Context `{NfcOps, RyuOps, ImageOps, InputSink}.

(** One level of the recursion asks for the next one. *)
Lemma elapsed_self rec ctx s :
  rec "__inline_0" 0 s = OutOfFuel → is_Some (ctx_program ctx) →
  eval_elapsed rec shadow_inline ctx s = OutOfFuel.
Proof.
  intros Hr [id Hid]. unfold eval_elapsed, shadow_inline. rewrite Hid.
  unfold sbind, sok, mret, ST_ret, mbind, ST_bind. simpl. by rewrite Hr.
Qed.

Lemma shadow_recursion fuel ctx s h :
  hash_predicate shadow_inline = Ok h → cache s !! h = None →
  ctx_predicates ctx !! "__inline_0" = Some shadow_inline → is_Some (ctx_program ctx) →
  evaluate_named_with_depth fuel ctx "__inline_0" 0 s = OutOfFuel.
Proof.
  intros Hh Hc Hp Hid. induction fuel as [|fuel IH]; [done|].
  rewrite evaluate_named_with_depth_unfold by (unfold MAX_RECURSION_DEPTH; lia).
  unfold lookup_or_run, memoised. rewrite Hp, Hh, Hc.
  change (eval_at_depth fuel ctx 0 shadow_inline s)
    with (eval_elapsed (evaluate_named_with_depth fuel ctx) shadow_inline ctx s).
  by rewrite elapsed_self.
Qed.

(** C40: the name the scheduler gives to inline predicates is not reserved: the
    DSL accepts this program, in which a user predicate is called
    [__inline_0], and evaluating its inline watch then refers to itself for
    ever (no amount of fuel suffices; the recursion guard restarts at every
    [elapsed_ms_since_true]). *)
Theorem inline_name_shadowing_diverges :
  (∃ v, finish shadow_program = Ret (Ok v)) ∧
  ∀ fuel frame now id ps sk,
    eval_watch_when fuel (tick_ctx frame now id (pending shadow_program)) 0 (Inline shadow_inline)
      (clear ps, sk) = OutOfFuel.
Proof.
  split.
  - assert (map_Forall (λ _ q, PredicateKind_wf q) (p_predicates shadow_program)) as Hwf.
    { apply map_Forall_singleton. simpl. unfold Point_wf. simpl. ints. }
    destruct (compute_predicate_hashes_Ok _ Hwf) as (hs & Hhs & _).
    exists (mkValidated shadow_program hs). apply (finish_Ok_iff _ _ _ Hhs). split; [|done].
    split; [apply validate_predicate_graph_ok_iff; vm_compute; reflexivity|].
    split_and!; [done| |by constructor]. repeat constructor; simpl; [|done..].
    intros n ->%list_elem_of_singleton. by eexists.
  - intros fuel frame now id ps sk.
    destruct (predicate_hash_total shadow_inline) as [h Hh]; [simpl; ints|].
    assert (hash_predicate shadow_inline = Ok h) as Hh'.
    { unfold hash_predicate. by rewrite Hh. }
    unfold eval_watch_when, eval_named_io, on_perception.
    set (ctx := {| ctx_frame := _ |}).
    assert (evaluate_named fuel ctx (inline_key 0) (clear ps) = OutOfFuel) as He.
    { rewrite evaluate_named_unfold. unfold lookup_or_run, memoised.
      assert (ctx_predicates ctx !! "__inline_0" = Some shadow_inline) as Hp
        by apply lookup_insert_eq.
      change (inline_key 0) with "__inline_0". rewrite Hp, Hh'.
      change (cache (clear ps)) with (∅ : gmap PredicateHash PredicateResult).
      rewrite lookup_empty.
      change (dispatch ?r shadow_inline ctx (clear ps)) with (eval_elapsed r shadow_inline ctx (clear ps)).
      rewrite elapsed_self; [done| |by eexists]. by apply (shadow_recursion _ _ _ h). }
    unfold mbind, ST_bind. simpl. fold ctx. by rewrite He.
Qed.
End shadow.
