(* ===== verification/SchedulerTrace.v ===== *)
(** * What a tick may do to the world

    A tick seen through a relation on scheduler states: a traversal of its
    phases that holds for every relation its primitive actions satisfy, and
    two uses of it, the kill switch and the exclusiveness of dispatches. *)

From S2P Require Import Prelude Json CoreTypes Canonical CanonicalInj Serde DslPredicates DslValidate.
From S2P Require Import FrameView Perception PerceptionSpec Input Capture Clock Runtime Scheduler.
From S2P Require Import Wp CgSink RuntimeSpec SchedulerSpec SchedulerLive.
Local Open Scope vcli_scope.

(** ** The traversal *)

(** Events that the watch phase does not send. *)
Definition plain_event (d : EventData) : Prop :=
  match d with
  | ActionDispatched _ _ _ | ActionDeferred _ _ _ | WatchFired _ _ _ => False
  | _ => True
  end.

(** Why a decision was deferred, as the event tells it. *)
Definition conflict_with `{UuidOps} (w : ProgramId) : Value :=
  Obj [("conflict_with", Str (ProgramId_to_string w))].

Section closure.
  Context `{NfcOps, RyuOps, UuidOps, ImageOps, InputSink, Capture, RuntimeClock, HashOrder}.
  Variable R : relation Sched.
  Context `{!PreOrder R}.

(** Every return of [m] is related to its start. *)
Definition within {A} (m : ST Sched A) : Prop := ∀ s a s', m s = Ret (a, s') → R s s'.

Lemma within_ret {A} (a : A) : within (mret a).
Proof. intros s b s' [= <- <-]. reflexivity. Qed.
Lemma within_bind {A B} (m : ST Sched A) (f : A → ST Sched B) :
  within m → (∀ a, within (f a)) → within (m ≫= f).
Proof. intros Hm Hf s b s' (a & s1 & H1' & H2')%ST_bind_Ret. trans s1; [by eapply Hm|by eapply Hf]. Qed.
Lemma within_mfor {A} (f : A → ST Sched ()) l : (∀ x, x ∈ l → within (f x)) → within (mfor f l).
Proof.
  intros Hf. induction l as [|x l IH]; simpl; [apply within_ret|].
  apply within_bind; [apply Hf; by left|]. intros _. apply IH. intros y Hy. apply Hf. by right.
Qed.
Lemma within_mfold {A B} (f : A → B → ST Sched A) acc l :
  (∀ acc x, x ∈ l → within (f acc x)) → within (mfold f acc l).
Proof.
  intros Hf. revert acc. induction l as [|x l IH]; intros acc; simpl; [apply within_ret|].
  apply within_bind; [apply Hf; by left|]. intros a. apply IH. intros b y Hy. apply Hf. by right.
Qed.
Lemma within_get_program id : within (get_program id).
Proof. intros s rp s' [-> _]%get_program_inv. reflexivity. Qed.
Lemma within_unwrap {A} (o : option A) : within (unwrap o).
Proof. destruct o; [apply within_ret|]. done. Qed.
End closure.

Section traversal.
  Context `{NfcOps, RyuOps, UuidOps, ImageOps, InputSink, Capture, RuntimeClock, HashOrder}.
  Variable fuel : nat.
  Variable R : relation Sched.
  Context `{!PreOrder R}.
  Variable E : EventData → Prop.
  Variable io_ok : ∀ A : Type, ST IO A → Prop.

(** The primitive actions of a tick stay within [R]: sending an event of [E],
    running the perception and input code, updating a program. *)
Record primitives : Prop := {
  prim_io A (m : ST IO A) : io_ok A m → within R (on_io m);
  prim_emit d : E d → within R (emit d);
  prim_update id f : within R (update_program id f);
  prim_plain d : plain_event d → E d;
  prim_trigger t ctx : io_ok _ (trigger_fires fuel t ctx);
  prim_scan ctx since st idx ws acc : io_ok _ (scan_watches fuel ctx since st idx ws acc);
  prim_action st ctx : io_ok _ (dispatch_action fuel st ctx);
  prim_step body cursor bs ctx : io_ok _ (step_once fuel body cursor bs ctx);
}.
Hypothesis P : primitives.
#[local] Hint Resolve prim_trigger prim_scan prim_action prim_step : core.

Ltac within := cbv zeta; repeat lazymatch goal with
  | |- within _ (mret _) => apply within_ret; apply _
  | |- within _ (emit _) => apply (prim_emit P), (prim_plain P); exact I
  | |- within _ (update_program _ _) => apply (prim_update P)
  | |- within _ (get_program _) => apply within_get_program; apply _
  | |- within _ (unwrap _) => apply within_unwrap; apply _
  | |- within _ (on_io _) => apply (prim_io P); auto
  | |- within _ (_ ≫= _) => apply within_bind; [apply _| |intros ?]
  | |- within _ (match ?x with _ => _ end) => destruct x
  end.

Lemma within_trigger frame now id : within R (trigger_step fuel frame now id).
Proof. unfold trigger_step. within. Qed.
Lemma within_scan frame now acc id : within R (scan_program fuel frame now acc id).
Proof. unfold scan_program. within. Qed.
Lemma within_record_evals e : within R (record_program_evals e).
Proof. unfold record_program_evals. within. Qed.
Lemma within_record_fire now f : within R (record_fire now f).
Proof. unfold record_fire. within. Qed.
Lemma within_body frame now failed id : within R (body_step fuel frame now failed id).
Proof. unfold body_step, complete. within. Qed.

Lemma within_steps ctx id steps :
  (∀ v t, E (ActionDispatched id v t)) → within R (dispatch_steps fuel ctx id steps).
Proof.
  intros Hd. induction steps as [|st steps IH]; simpl; [within|].
  apply within_bind; [done|by apply (prim_emit P)|]. intros _. within. exact IH.
Qed.

Lemma within_decision frame now acc d :
  (∀ id i p, E (WatchFired id i p)) →
  (dec_dispatch d = true → ∀ v t, E (ActionDispatched (dec_program_id d) v t)) →
  (∀ w v, dec_dispatch d = false → dec_loser_of d = Some w →
    E (ActionDeferred (dec_program_id d) v (conflict_with w))) →
  within R (dispatch_decision fuel frame now acc d).
Proof.
  intros Hf Hd Hl. unfold dispatch_decision. destruct (dec_payload d) as [[idx steps] o].
  destruct (dec_dispatch d).
  - apply within_bind; [done|within|]. intros rp.
    apply within_bind; [done|by apply within_steps, Hd|]. intros [e|]; [within|].
    apply within_bind; [done|by apply (prim_emit P)|]. intros _. within.
  - destruct (dec_loser_of d) as [w|]; [|within].
    apply within_bind; [done|by apply (prim_emit P), Hl|]. intros _. within.
Qed.
Lemma within_watch_phase frame now ids :
  (∀ id i p, E (WatchFired id i p)) →
  (∀ acc cs, within R (mfold (dispatch_decision fuel frame now) acc (resolve cs))) →
  within R (watch_phase fuel frame now ids).
Proof.
  intros Hf Hd. unfold watch_phase. apply within_bind; [done| |intros sc].
  { apply within_mfold; [done|]. intros acc id _. apply within_scan. }
  apply within_bind; [done|apply within_mfor; [done|]; intros f _; by apply (prim_emit P)|intros _].
  apply within_bind; [done|apply Hd|intros d].
  apply within_bind; [done|apply within_mfor; [done|]; intros e _; apply within_record_evals|intros _].
  apply within_bind; [done|apply within_mfor; [done|]; intros f _; apply within_record_fire|intros _].
  within.
Qed.
End traversal.

(** ** The course of a tick *)

Section course.
  Context `{NfcOps, RyuOps, UuidOps, ImageOps, InputSink, Capture, RuntimeClock, HashOrder}.
  Variable fuel : nat.

(** The states a tick with a frame goes through: after the capture, after
    clearing the cache, after reading the clock, after the triggers and after
    the watches. *)
Record tick_course (s s' : Sched) (frame : Frame) (now : UnixMs) (s1 s2 s3 s4 s5 : Sched)
    (failed : gset ProgramId) : Prop := {
  course_capture : on_capture grab_screen s = Ret (Ok frame, s1);
  course_clear : on_io (λ io, Ret ((), (clear io.1, io.2))) s1 = Ret ((), s2);
  course_clock : on_clock unix_ms s2 = Ret (now, s3);
  course_triggers :
    mfor (trigger_step fuel frame now) (ids_in_state Waiting (programs s3)) s3 = Ret ((), s4);
  course_watches :
    watch_phase fuel frame now (ids_in_state Running (programs s4)) s4 = Ret (failed, s5);
  course_bodies :
    mfor (body_step fuel frame now failed) (ids_in_state Running (programs s4)) s5
      = Ret ((), s');
}.

Lemma tick_once_inv s s' :
  tick_once fuel s = Ret ((), s') →
  (∃ e s1, on_capture grab_screen s = Ret (Err e, s1) ∧
     emit (TickFrameSkipped "capture_failed") s1 = Ret ((), s')) ∨
  ∃ frame now s1 s2 s3 s4 s5 failed, tick_course s s' frame now s1 s2 s3 s4 s5 failed.
Proof.
  unfold tick_once. intros (r & s1 & Hc & Hr)%ST_bind_Ret. destruct r as [frame|e]; [|eauto].
  right. unfold tick_frame in Hr.
  apply ST_bind_Ret in Hr as ([] & s2 & Hcl & Hr). apply ST_bind_Ret in Hr as (now & s3 & Hck & Hr).
  apply ST_bind_Ret in Hr as (s0 & s3' & Hg & Hr). unfold get in Hg. simplify_eq.
  apply ST_bind_Ret in Hr as ([] & s4 & Ht & Hr).
  apply ST_bind_Ret in Hr as (s0 & s4' & Hg & Hr). unfold get in Hg. simplify_eq.
  apply ST_bind_Ret in Hr as (failed & s5 & Hw & Hr).
  by exists frame, now, s1, s2, s3', s4', s5, failed.
Qed.

(** The actions before the triggers are silent. *)
Lemma course_start s s' frame now s1 s2 s3 s4 s5 failed :
  tick_course s s' frame now s1 s2 s3 s4 s5 failed → silent s s3.
Proof.
  intros []. trans s1; [by eapply on_capture_silent|]. trans s2; [by eapply on_io_silent|].
  by eapply on_clock_silent.
Qed.
End course.

(** ** The kill switch *)

Section stopped.
  Context `{NfcOps, RyuOps, UuidOps, ImageOps, InputSink, Capture, RuntimeClock, HashOrder}.
  Variable fuel : nat.
(** The sinks whose switch is engaged, and what a sink must not lose. *)
  Variable stopped : sink → Prop.
  Variable same : relation sink.
  Context `{!PreOrder same}.

(** A stopped sink stays stopped, and the same, under a call. *)
Definition refuses {A} (m : ST sink A) : Prop :=
  ∀ sk a sk', stopped sk → m sk = Ret (a, sk') → stopped sk' ∧ same sk sk'.
(** The calls the scheduler makes. *)
Record kill_stops : Prop := {
  stops_move p : refuses (mouse_move p);
  stops_click p b m h : refuses (click p b m h);
  stops_type t : refuses (type_text t);
  stops_key m k : refuses (key_combo m k);
}.
Hypothesis K : kill_stops.

(** The computation leaves a stopped sink as it is. *)
Definition inert (A : Type) (m : ST IO A) : Prop :=
  ∀ io a io', m io = Ret (a, io') → stopped io.2 → stopped io'.2 ∧ same io.2 io'.2.

Lemma inert_ret {A} (a : A) : inert A (mret a).
Proof. by intros io b io' [= <- <-]. Qed.
Lemma inert_bind {A B} (m : ST IO A) (f : A → ST IO B) :
  inert A m → (∀ a, inert B (f a)) → inert B (m ≫= f).
Proof.
  intros Hm Hf io b io' (a & io1 & H1' & H2')%ST_bind_Ret Hh.
  destruct (Hm _ _ _ H1' Hh) as [Hh1 E1]. destruct (Hf _ _ _ _ H2' Hh1) as [Hh2 E2].
  split; [done|by trans io1.2].
Qed.
Lemma inert_sbind {A B} (m : ST IO (result RuntimeError A)) (f : A → ST IO (result RuntimeError B)) :
  inert _ m → (∀ a, inert _ (f a)) → inert _ (sbind m f).
Proof. intros Hm Hf. apply inert_bind; [done|]. intros [a|e]; [apply Hf|apply inert_ret]. Qed.
Lemma inert_eval ctx name : inert _ (eval_named_io fuel ctx name).
Proof.
  intros io a io' He Hh. unfold eval_named_io, on_perception in He.
  by apply outcome_bind_Ret in He as ([r ps] & _ & [= <- <-]).
Qed.
Lemma inert_input (m : ST sink (result InputError ())) : refuses m → inert _ (input_io m).
Proof.
  intros Hm io a io' He Hh. unfold input_io, on_sink in He.
  apply ST_bind_Ret in He as (r & io1 & H1' & [= _ <-]).
  apply outcome_bind_Ret in H1' as ([r' sk'] & Hs & [= <- <-]). exact (Hm _ _ _ Hh Hs).
Qed.

Ltac inert := cbv zeta; repeat lazymatch goal with
  | |- inert _ (mret _) => apply inert_ret
  | |- inert _ (sok _) => apply inert_ret
  | |- inert _ (serr _) => apply inert_ret
  | |- inert _ (eval_named_io _ _ _) => apply inert_eval
  | |- inert _ (input_io _) => apply inert_input;
       first [apply (stops_move K) | apply (stops_click K) | apply (stops_type K) | apply (stops_key K)]
  | |- inert _ (sbind _ _) => apply inert_sbind; [|intros ?]
  | |- inert _ (_ ≫= _) => apply inert_bind; [|intros ?]
  | |- inert _ (match ?x with _ => _ end) => destruct x
  end.

Lemma inert_target t ctx : inert _ (resolve_target fuel t ctx).
Proof. unfold resolve_target. inert. Qed.
Lemma inert_action st ctx : inert _ (dispatch_action fuel st ctx).
Proof. unfold dispatch_action. inert; apply inert_target. Qed.
Lemma inert_dispatch_at t ctx f : (∀ p, inert _ (f p)) → inert _ (dispatch_at fuel t ctx f).
Proof. intros Hf. unfold dispatch_at. inert; [apply inert_target|apply Hf]. Qed.
Lemma inert_step body cursor bs ctx : inert _ (step_once fuel body cursor bs ctx).
Proof. unfold step_once, step_deferred. inert; apply inert_dispatch_at; intros p; inert. Qed.
Lemma inert_trigger t ctx : inert _ (trigger_fires fuel t ctx).
Proof. unfold trigger_fires. inert. Qed.
Lemma inert_scan ctx since st idx ws acc : inert _ (scan_watches fuel ctx since st idx ws acc).
Proof.
  revert idx acc. induction ws as [|w ws IH]; intros idx acc; simpl; [inert|].
  apply inert_bind; [|intros a; apply IH].
  unfold scan_watch, until_holds, eval_watch_when. inert.
Qed.

(** Nothing reaches a stopped sink. *)
Definition unmoved (s s' : Sched) : Prop :=
  stopped (input s) → stopped (input s') ∧ same (input s) (input s').
#[export] Instance unmoved_preorder : PreOrder unmoved.
Proof.
  split; [by intros s|]. intros a b c H1' H2' Hh. destruct (H1' Hh) as [Hb E1].
  destruct (H2' Hb) as [Hc E2]. split; [done|by trans (input b)].
Qed.

Lemma unmoved_io A (m : ST IO A) : inert A m → within unmoved (on_io m).
Proof.
  intros Hm s a s' Hs Hh. unfold on_io in Hs.
  apply outcome_bind_Ret in Hs as ([b io'] & Hr & [= _ <-]). exact (Hm _ _ _ Hr Hh).
Qed.
Lemma unmoved_clock {A} (m : ST clock A) : within unmoved (on_clock m).
Proof. intros s a s' Hs Hh. by apply outcome_bind_Ret in Hs as (? & _ & [= _ <-]). Qed.
Lemma unmoved_capture {A} (m : ST capture A) : within unmoved (on_capture m).
Proof. intros s a s' Hs Hh. by apply outcome_bind_Ret in Hs as (? & _ & [= _ <-]). Qed.
Lemma unmoved_emit d : within unmoved (emit d).
Proof.
  unfold emit. apply within_bind; [apply _|apply unmoved_clock|].
  by intros t s a s' [= _ <-] Hh.
Qed.
Lemma unmoved_update id f : within unmoved (update_program id f).
Proof. by intros s a s' (rp & _ & ->)%update_program_inv Hh. Qed.

Lemma unmoved_primitives : primitives fuel unmoved (λ _, True) inert.
Proof.
  split; auto using unmoved_io, unmoved_emit, unmoved_update, inert_trigger, inert_scan,
    inert_action, inert_step.
Qed.

(** A whole tick, whatever the programs, their triggers, watches and bodies. *)
Lemma unmoved_tick : within unmoved (tick_once fuel).
Proof.
  pose proof unmoved_primitives as P. intros s [] s' Ht.
  apply tick_once_inv in Ht as [(e & s1 & Hc & He)|(frame & now & s1 & s2 & s3 & s4 & s5 & failed & [])].
  { trans s1; [by eapply unmoved_capture|by eapply unmoved_emit]. }
  trans s1; [by eapply unmoved_capture|].
  trans s2. { intros Hh. by injection course_clear0 as <-. }
  trans s3; [by eapply unmoved_clock|]. trans s4.
  { revert course_triggers0. apply within_mfor; [apply _|]. intros id _.
    eapply within_trigger; [apply _|exact P]. }
  trans s5; [|revert course_bodies0; apply within_mfor; [apply _|]; intros id _;
    eapply within_body; [apply _|exact P]].
  revert course_watches0. eapply within_watch_phase; [apply _|exact P|done|].
  intros acc ds. apply within_mfold; [apply _|]. intros a d _.
  eapply within_decision; [apply _|exact P|done..].
Qed.

(** Commands do not concern the sink. *)
Lemma unmoved_modify f : (∀ s, input (f s) = input s) → within unmoved (modify f).
Proof. intros Hf s a s' [= _ <-] Hh. by rewrite Hf. Qed.
Lemma unmoved_command cmd : within unmoved (handle_command cmd).
Proof.
  destruct cmd; simpl; unfold insert_program;
    repeat first [ apply within_ret; apply _ | apply unmoved_emit | apply unmoved_clock
                 | by apply unmoved_modify | by intros s a s' [= _ <-]
                 | apply within_bind; [apply _| |intros ?]
                 | case_match ].
Qed.
Lemma unmoved_drain : within unmoved drain_commands.
Proof.
  apply within_bind; [apply _|by intros s a s' [= _ <-]|]. intros s.
  induction (cmd_rx s) as [|cmd q IH]; simpl; [apply within_ret, _|].
  apply within_bind; [apply _|by apply unmoved_modify|intros _].
  apply within_bind; [apply _|apply unmoved_command|]. intros []; [apply within_ret, _|exact IH].
Qed.

Lemma unmoved_run config arrivals : within unmoved (run_until_shutdown fuel config arrivals).
Proof.
  induction arrivals as [|batch arrivals IH]; simpl; [apply within_ret, _|].
  apply within_bind; [apply _|by apply unmoved_modify|intros _].
  apply within_bind; [apply _|apply unmoved_drain|]. intros []; [apply within_ret, _|].
  apply within_bind; [apply _|apply unmoved_tick|intros _].
  apply within_bind; [apply _|apply unmoved_clock|intros _]. exact IH.
Qed.
End stopped.

(** The mock looks at its switch before it records a call. *)
Lemma mock_stops :
  @kill_stops mock_sink (λ sk, is_engaged (kill sk) = true) (λ sk sk', log sk' = log sk).
Proof.
  assert (∀ x c sk a sk', is_engaged (kill sk) = true → checked_call x c sk = Ret (a, sk') →
    is_engaged (kill sk') = true ∧ log sk' = log sk) as Hg.
  { intros x c sk a sk' Hk Hc. destruct (checked_call_cases x c sk) as [[e Hr]|[_ Hr]];
      [rewrite Hr in Hc; by simplify_eq|congruence]. }
  split; intros; intros sk a sk' Hk Hc; by apply (Hg _ _ _ _ _ Hk Hc).
Qed.

(** The macOS sink asks for the switch before anything else, and its guard
    gives up without having posted. *)
Lemma cg_stops `{MacOs} :
  @kill_stops cg_sink (λ sk, ∀ n, questions sk ≤ n → kill_engaged n = true)
    (λ sk sk', posted sk' = posted sk).
Proof.
  assert (∀ (m : ST CgState (result InputError ())) sk a sk',
    (∀ n, questions sk ≤ n → kill_engaged n = true) → sbind guard (λ _, m) sk = Ret (a, sk') →
    (∀ n, questions sk' ≤ n → kill_engaged n = true) ∧ posted sk' = posted sk) as Hg.
  { intros m sk a sk' Hk. unfold sbind, guard, ask, mbind, ST_bind. simpl.
    rewrite (Hk (questions sk)) by done. simpl. intros [= _ <-]. simpl.
    split; [|done]. intros n Hn. apply Hk. lia. }
  split; intros; intros sk a sk' Hk Hc; by apply (Hg _ _ _ _ Hk Hc).
Qed.

(** C12: Once the kill switch is engaged nothing is posted any more.  From any
    state of the scheduler, with any programs, triggers, watches and bodies,
    and under any further commands, the rest of its run adds no call to the
    log of the mock sink whose switch is engaged (and leaves it engaged), and
    no event to what the macOS sink has posted while its switch answers that
    it is engaged. *)
Theorem kill_switch_stops_input
    `{NfcOps, RyuOps, UuidOps, ImageOps, MacOs, Capture, RuntimeClock, HashOrder}
    fuel config arrivals b :
  (∀ s s', run_until_shutdown (H3 := mock_sink) fuel config arrivals s = Ret (b, s') →
     is_engaged (kill (input s)) = true →
     log (input s') = log (input s) ∧ is_engaged (kill (input s')) = true) ∧
  (∀ s s', run_until_shutdown (H3 := cg_sink) fuel config arrivals s = Ret (b, s') →
     (∀ n, questions (input s) ≤ n → kill_engaged n = true) →
     posted (input s') = posted (input s)).
Proof.
  split; intros s s' Hrun Hk.
  - assert (PreOrder (λ sk sk' : MockInputSink, log sk' = log sk)) as Hpre
      by (split; [done|intros a c d E1 E2; congruence]).
    destruct (@unmoved_run _ _ _ _ mock_sink _ _ _ fuel _ _ Hpre mock_stops _ _ _ _ _ Hrun Hk). done.
  - assert (PreOrder (λ sk sk' : CgState, posted sk' = posted sk)) as Hpre
      by (split; [done|intros a c d E1 E2; congruence]).
    by destruct (@unmoved_run _ _ _ _ cg_sink _ _ _ fuel _ _ Hpre cg_stops _ _ _ _ _ Hrun Hk).
Qed.

(** ** One program acts per tick *)

Section exclusive.
  Context `{NfcOps, RyuOps, UuidOps, ImageOps, InputSink, Capture, RuntimeClock, HashOrder}.
  Variable fuel : nat.

(** Only events of [E] are sent. *)
Definition sends (E : EventData → Prop) (s s' : Sched) : Prop :=
  ∃ l, sent s' = sent s ++ l ∧ Forall E l.
#[export] Instance sends_preorder E : PreOrder (sends E).
Proof.
  split.
  - intros s. exists []. by rewrite app_nil_r.
  - intros a b c (l1 & E1 & F1) (l2 & E2 & F2). exists (l1 ++ l2).
    rewrite E2, E1, app_assoc. split; [done|]. by apply Forall_app.
Qed.
Lemma silent_sends E s s' : silent s s' → sends E s s'.
Proof. intros [_ He _]. exists []. unfold sent. by rewrite He, app_nil_r. Qed.
Lemma sends_emit (E : EventData → Prop) d : E d → within (sends E) (emit d).
Proof. intros Hd s a s' [_ He]%emits_one. exists [d]. auto. Qed.

(** The events that tell of actions of watches. *)
Definition acting (d : EventData) : bool :=
  match d with ActionDispatched _ _ _ | ActionDeferred _ _ _ => true | _ => false end.
Definition actions (l : list EventData) : list EventData := List.filter acting l.

Lemma actions_app l k : actions (l ++ k) = actions l ++ actions k.
Proof. apply List.filter_app. Qed.
Lemma actions_none l : Forall (λ d, acting d = false) l → actions l = [].
Proof. induction 1 as [|d l Hd _ IH]; simpl; [done|]. unfold actions in *. simpl. by rewrite Hd. Qed.

(** From [s] to [s'] these actions were announced. *)
Definition acts (s s' : Sched) (k : list EventData) : Prop :=
  ∃ l, sent s' = sent s ++ l ∧ actions l = k.
Lemma acts_app s s1 s' k k' : acts s s1 k → acts s1 s' k' → acts s s' (k ++ k').
Proof.
  intros (l & E & <-) (l' & E' & <-). exists (l ++ l'). by rewrite E', E, app_assoc, actions_app.
Qed.
Lemma acts_emit d s a s' : emit d s = Ret (a, s') → acts s s' (actions [d]).
Proof. intros [_ He]%emits_one. by exists [d]. Qed.

(** Whatever announces no action. *)
Definition quiet : relation Sched := sends (λ d, acting d = false).
Lemma quiet_acts s s' : quiet s s' → acts s s' [].
Proof. intros (l & E & F). exists l. split; [done|]. by apply actions_none. Qed.
Lemma acts_quiet s s1 s' k : acts s s1 k → quiet s1 s' → acts s s' k.
Proof. intros Ha Hq%quiet_acts. rewrite <-(app_nil_r k). by eapply acts_app. Qed.
Lemma quiet_then s s1 s' k : quiet s s1 → acts s1 s' k → acts s s' k.
Proof. intros Hq%quiet_acts. apply (acts_app _ _ _ []), Hq. Qed.
Lemma quiet_primitives : primitives fuel quiet (λ d, acting d = false) (λ _ _, True).
Proof.
  split; try done.
  - intros A m _ s a s' Hs%on_io_silent. by apply silent_sends.
  - intros d Hd. by apply (sends_emit (λ d, acting d = false)).
  - intros id f s a s' (rp & _ & ->)%update_program_inv. exists []. by rewrite app_nil_r.
  - by intros [].
Qed.
#[local] Hint Resolve quiet_primitives : core.
Lemma quiet_emit d : acting d = false → within quiet (emit d).
Proof. intros Hd. by apply (sends_emit (λ d, acting d = false)). Qed.

(** *** What is announced for a candidate *)

Abbreviation Cand := (Candidate WatchFirePayload).
Definition steps_of (c : Cand) : list Step := (cand_payload c).1.2.
Definition dispatched_to (w : ProgramId) (st : Step) : EventData :=
  ActionDispatched w (Step_to_value st) None.
Definition deferred_to (w : ProgramId) (c : Cand) : EventData :=
  ActionDeferred (cand_program_id c) (Arr (map Step_to_value (steps_of c))) (conflict_with w).

(** Steps are announced one by one, up to the first that fails. *)
Lemma dispatch_steps_acts ctx id steps s err s' :
  dispatch_steps fuel ctx id steps s = Ret (err, s') →
  ∃ n, acts s s' (dispatched_to id <$> take n steps) ∧ (steps ≠ [] → 0 < n) ∧
    (err = None → n = length steps).
Proof.
  revert s. induction steps as [|st steps IH]; intros s Hr; simpl in Hr.
  { simplify_ST. exists 0. split; [|done]. by exists []; rewrite app_nil_r. }
  apply ST_bind_Ret in Hr as ([] & s1 & He%acts_emit & Hr).
  apply ST_bind_Ret in Hr as (r & s2 & Hio%on_io_silent & Hr).
  apply silent_sends with (E := λ d, acting d = false) in Hio. destruct r as [u|e].
  - destruct (IH s2 Hr) as (n & Ha & _ & Hn). exists (S n).
    split; [|split; [lia|intros Hnone; simpl; by rewrite Hn]].
    refine (acts_app _ _ _ _ _ He _). by eapply quiet_then.
  - simplify_ST. exists 1. split; [|split; [lia|done]]. by eapply acts_quiet.
Qed.

(** The program is reported as failed. *)
Definition failed_in (id : ProgramId) (l : list EventData) : Prop :=
  ∃ code step on_fail, ProgramFailed id code step on_fail ∈ l.

Lemma wins_acts frame now acc w s acc' s' :
  dispatch_decision fuel frame now acc (wins w) s = Ret (acc', s') →
  ∃ l n, sent s' = sent s ++ l ∧
    actions l = dispatched_to (cand_program_id w) <$> take n (steps_of w) ∧
    (steps_of w ≠ [] → 0 < n) ∧
    (n = length (steps_of w) ∨ failed_in (cand_program_id w) l).
Proof.
  unfold dispatch_decision, wins, steps_of. simpl.
  destruct (cand_payload w) as [[idx steps] o]. simpl.
  intros (rp & s0 & [-> _]%get_program_inv & Hr)%ST_bind_Ret.
  apply ST_bind_Ret in Hr as (err & s1 & (n & (l & El & Al) & Hpos & Hn)%dispatch_steps_acts & Hr).
  destruct err as [e|].
  - apply ST_bind_Ret in Hr as (u & s2 & (rp' & _ & ->)%update_program_inv & Hr).
    apply ST_bind_Ret in Hr as (v & s3 & [_ He]%emits_one & [= _ <-]).
    eexists (l ++ [_]), n. split; [rewrite He; change (sent (set_programs _ s1)) with (sent s1);
      by rewrite El, <-app_assoc|].
    rewrite actions_app, Al, app_nil_r. split; [done|]. split; [done|]. right.
    eexists _, _, _. apply elem_of_app. right. by left.
  - apply ST_bind_Ret in Hr as (v & s3 & [_ He]%emits_one & [= _ <-]).
    eexists (l ++ [_]), n. split; [by rewrite He, El, <-app_assoc|].
    rewrite actions_app, Al, app_nil_r. split; [done|]. split; [done|]. left. by apply Hn.
Qed.

Lemma losers_acts frame now w l acc s acc' s' :
  mfold (dispatch_decision fuel frame now) acc (loses_to w <$> l) s = Ret (acc', s') →
  acts s s' (deferred_to (cand_program_id w) <$> l).
Proof.
  revert acc s. induction l as [|c l IH]; intros acc s; simpl.
  { intros [= <- <-]. by exists []; rewrite app_nil_r. }
  intros (acc1 & s1 & Hd & Hr%IH)%ST_bind_Ret.
  unfold dispatch_decision, loses_to in Hd. simpl in Hd.
  unfold deferred_to at 1, steps_of. destruct (cand_payload c) as [[idx steps] o]. simpl in *.
  apply ST_bind_Ret in Hd as ([] & s2 & He%acts_emit & [= <- <-]).
  by apply (acts_app _ _ _ [_] _ He).
Qed.

(** *** The candidates of a tick *)

(** A tick, up to the arbiter: the running programs of which a watch fires, and
    the first that does has steps. *)
Definition contenders : ST Sched (list Cand) :=
  r ← on_capture grab_screen;
  match r with
  | Err _ => mret []
  | Ok frame =>
      _ ← on_io (λ io, Ret ((), (clear io.1, io.2)));
      now ← on_clock unix_ms;
      s ← get;
      _ ← mfor (trigger_step fuel frame now) (ids_in_state Waiting (programs s));
      s ← get;
      sc ← mfold (scan_program fuel frame now)
             {| evals := []; candidates := []; direct_fires := [] |} (ids_in_state Running (programs s));
      mret (candidates sc)
  end.

Lemma scan_with_steps frame now l acc s acc' s' :
  mfold (scan_program fuel frame now) acc l s = Ret (acc', s') →
  Forall (λ c, steps_of c ≠ []) (candidates acc) → Forall (λ c, steps_of c ≠ []) (candidates acc').
Proof.
  revert acc s. induction l as [|id l IH]; intros acc s; simpl; [by intros [= <- _]|].
  intros (acc1 & s1 & H1' & H2')%ST_bind_Ret Ha. refine (IH _ _ H2' _). clear IH H2'.
  unfold scan_program in H1'. apply ST_bind_Ret in H1' as (rp & s2 & _ & Hr).
  apply ST_bind_Ret in Hr as (ev & s3 & _ & [= <- _]). simpl. apply Forall_app. split; [done|].
  destruct (fires ev) as [|[[i [|st sts]] o] fs]; repeat constructor. done.
Qed.

(** What is announced in a tick with these contenders. *)
Definition announced_by (cs : list Cand) (l : list EventData) : Prop :=
  (cs = [] ∧ actions l = []) ∨
  ∃ before w after n, cs = before ++ w :: after ∧
    Forall (λ c, cand_program_id c ≠ cand_program_id w ∧ key_le (cand_key c) (cand_key w))
      (before ++ after) ∧
    actions l = (deferred_to (cand_program_id w) <$> before)
                ++ (dispatched_to (cand_program_id w) <$> take n (steps_of w))
                ++ (deferred_to (cand_program_id w) <$> after) ∧
    0 < n ∧ (n = length (steps_of w) ∨ failed_in (cand_program_id w) l).

Lemma announced_amid cs a l b :
  announced_by cs l → actions a = [] → actions b = [] → announced_by cs (a ++ l ++ b).
Proof.
  intros Hl Ha Hb. assert (actions (a ++ l ++ b) = actions l) as Hc
    by (by rewrite !actions_app, Ha, Hb, app_nil_r).
  destruct Hl as [[-> Hl]|(before & w & after & n & ? & ? & Hl & ? & Hn)]; [left; by rewrite Hc|].
  right. exists before, w, after, n. rewrite Hc. split_and!; try done.
  destruct Hn as [Hn|(c & st & f & Hin)]; [by left|right]. exists c, st, f. set_solver.
Qed.

Lemma mfold_app {S A B} (f : A → B → ST S A) acc l k s :
  mfold f acc (l ++ k) s = (acc' ← mfold f acc l; mfold f acc' k) s.
Proof.
  revert acc s. induction l as [|x l IH]; intros acc s; [done|]. simpl.
  unfold mbind, ST_bind in *. destruct (f acc x s) as [[a s1]| |]; simpl; [|done..]. apply IH.
Qed.

Lemma decisions_acts frame now cs acc s acc' s' :
  NoDup (cand_program_id <$> cs) → Forall (λ c, steps_of c ≠ []) cs →
  mfold (dispatch_decision fuel frame now) acc (resolve cs) s = Ret (acc', s') →
  ∃ l, sent s' = sent s ++ l ∧ announced_by cs l.
Proof.
  intros Hnd Hst Hr. destruct (decide (cs = [])) as [->|Hne].
  { exists []. injection Hr as <- <-. split; [by rewrite app_nil_r|by left]. }
  destruct (resolve_split cs Hne Hnd) as (before & w & after & -> & Hle & Hres).
  rewrite Hres, mfold_app in Hr. apply ST_bind_Ret in Hr as (acc1 & s1 & Hb & Hr). simpl in Hr.
  apply ST_bind_Ret in Hr as (acc2 & s2 & Hw & Ha).
  apply losers_acts in Hb as (b & Eb & Ab). apply losers_acts in Ha as (a & Ea & Aa).
  destruct (wins_acts _ _ _ _ _ _ _ Hw) as (l & n & El & Al & Hpos & Hend).
  exists (b ++ l ++ a). split; [by rewrite Ea, El, Eb, !app_assoc|].
  right. exists before, w, after, n. split; [done|]. split; [|split; [|split]].
  - rewrite fmap_app, fmap_cons in Hnd. apply NoDup_app in Hnd as (_ & Hd1 & [Hd2 _]%NoDup_cons).
    apply Forall_app in Hle as [Hle1 [_ Hle2]%Forall_cons].
    apply Forall_app. split; apply Forall_and; (split; [|done]); apply Forall_forall; intros c Hc Heq.
    + apply (Hd1 (cand_program_id c)); [by apply list_elem_of_fmap_2|]. rewrite Heq. by left.
    + apply Hd2. rewrite <-Heq. by apply list_elem_of_fmap_2.
  - by rewrite !actions_app, Ab, Al, Aa.
  - apply Hpos. apply Forall_app in Hst as [_ [Hst _]%Forall_cons]. done.
  - destruct Hend as [Hend|(c & st & f & Hin)]; [by left|right]. exists c, st, f. set_solver.
Qed.

Lemma watch_phase_acts frame now ids s failed s' :
  NoDup ids → watch_phase fuel frame now ids s = Ret (failed, s') →
  ∃ sc s1 l, mfold (scan_program fuel frame now)
      {| evals := []; candidates := []; direct_fires := [] |} ids s = Ret (sc, s1) ∧
    sent s' = sent s ++ l ∧ announced_by (candidates sc) l.
Proof.
  intros Hids. unfold watch_phase. intros (sc & s1 & Hsc & Hr)%ST_bind_Ret.
  pose proof Hsc as [Hsil [(cs & Ec & Sc) _]]%scan_all_inv. simpl in Ec.
  assert (NoDup (cand_program_id <$> candidates sc)) as Hnd
    by (rewrite Ec; by eapply sublist_NoDup).
  pose proof (scan_with_steps _ _ _ _ _ _ _ Hsc (List.Forall_nil _)) as Hst.
  pose proof quiet_primitives as P.
  apply ST_bind_Ret in Hr as (u & s2 & Hd & Hr).
  apply ST_bind_Ret in Hr as (d & s3 & (l & El & Al)%decisions_acts & Hr); [|done..].
  apply ST_bind_Ret in Hr as (u' & s4 & He & Hr).
  apply ST_bind_Ret in Hr as (u'' & s5 & Hf & [= <- <-]).
  assert (quiet s s2) as (a & Ea & Aa%actions_none).
  { trans s1; [by apply silent_sends|]. revert Hd. apply within_mfor; [apply _|]. intros f _.
    by apply quiet_emit. }
  assert (quiet s3 s5) as (b & Eb & Ab%actions_none).
  { trans s4.
    - revert He. apply within_mfor; [apply _|]. intros e _.
      eapply within_record_evals; [apply _|exact P].
    - revert Hf. apply within_mfor; [apply _|]. intros f _.
      eapply within_record_fire; [apply _|exact P]. }
  exists sc, s1, (a ++ l ++ b). split; [done|]. split; [by rewrite Eb, El, Ea, !app_assoc|].
  by apply announced_amid.
Qed.

(** C11: The actions that watches take in one tick belong to a single program.
    Take the contenders of the tick: the running programs of which a watch
    fires and has steps.  Without any, no action is announced.  Otherwise one
    of greatest priority (of those, of greatest id text) wins: announced as
    dispatched are its steps, in order, at least the first, and all of them
    unless the program fails at one; and for every other contender, and nobody
    else, there is one deferral with all its steps and the winner's id as the
    reason.  (This is about watches: bodies announce no actions, each running
    program makes one step of its own after the watches.) *)
Theorem one_program_acts_per_tick s s' :
  tick_once fuel s = Ret ((), s') →
  ∃ cs s1 l, contenders s = Ret (cs, s1) ∧ sent s' = sent s ++ l ∧ announced_by cs l.
Proof.
  intros Ht. pose proof quiet_primitives as P. unfold contenders.
  apply tick_once_inv in Ht as [(e & s1 & Hc & He)|(frame & now & s1 & s2 & s3 & s4 & s5 & failed & Hcr)].
  { exists [], s1. rewrite (ST_bind_step _ _ _ _ _ Hc). apply on_capture_silent in Hc.
    apply quiet_emit in He; [|done]. apply silent_sends with (E := λ d, acting d = false) in Hc.
    assert (quiet s s') as (l & El & Al%actions_none) by by trans s1.
    exists l. split; [done|]. split; [done|by left]. }
  pose proof (course_start _ _ _ _ _ _ _ _ _ _ _ Hcr) as Hst. destruct Hcr.
  rewrite (ST_bind_step _ _ _ _ _ course_capture0), (ST_bind_step _ _ _ _ _ course_clear0),
    (ST_bind_step _ _ _ _ _ course_clock0), (ST_bind_step _ _ s3 s3 s3) by done.
  rewrite (ST_bind_step _ _ _ _ _ course_triggers0), (ST_bind_step _ _ s4 s4 s4) by done.
  apply watch_phase_acts in course_watches0 as (sc & s6 & l & Hsc & El & Al);
    [|by apply ids_in_state_spec].
  rewrite (ST_bind_step _ _ _ _ _ Hsc).
  assert (quiet s s4) as (a & Ea & Aa%actions_none).
  { trans s3; [by apply silent_sends|]. revert course_triggers0. apply within_mfor; [apply _|].
    intros id _. eapply within_trigger; [apply _|exact P]. }
  assert (quiet s5 s') as (b & Eb & Ab%actions_none).
  { revert course_bodies0. apply within_mfor; [apply _|]. intros id _.
    eapply within_body; [apply _|exact P]. }
  exists (candidates sc), s6, (a ++ l ++ b). split; [done|].
  split; [by rewrite Eb, El, Ea, !app_assoc|by apply announced_amid].
Qed.
End exclusive.
