(* ===== verification/SchedulerOnce.v ===== *)
(** * A one-shot watch fires once

    The bookkeeping of fired watches across ticks: every fire a tick announces
    was open before and is recorded after, one per program at most; so a
    one-shot watch fires at most once however long the scheduler runs. *)

From S2P Require Import Prelude Json CoreTypes Canonical CanonicalInj Serde DslPredicates.
From S2P Require Import FrameView Perception PerceptionSpec Input Capture Clock Runtime Scheduler.
From S2P Require Import RuntimeSpec SchedulerSpec SchedulerLive SchedulerTrace.
Local Open Scope vcli_scope.

Lemma submseteq_NoDup {A} (l k : list A) : l ⊆+ k → NoDup k → NoDup l.
Proof. intros [x ->]%submseteq_Permutation. by intros (? & _)%NoDup_app. Qed.

(** The watches a list of events says fired. *)
Definition fired_event (d : EventData) : option (ProgramId * Z) :=
  match d with WatchFired id idx _ => Some (id, idx) | _ => None end.
Definition fired (l : list EventData) : list (ProgramId * Z) := omap fired_event l.

Lemma fired_app l l' : fired (l ++ l') = fired l ++ fired l'.
Proof. apply omap_app. Qed.

Section once.
  Context `{NfcOps, RyuOps, UuidOps, ImageOps, InputSink, Capture, RuntimeClock, HashOrder}.
  Variable fuel : nat.

(** A watch that may fire: its program runs and it is not retired. *)
Definition open_watch (s : Sched) (k : ProgramId * Z) : Prop :=
  ∃ rp w, programs s !! k.1 = Some rp ∧ p_watches (program rp) !! Z.to_nat k.2 = Some w ∧
    state rp = Running ∧ ¬ retired_at rp k.2.

(** A watch whose fire is on record: it is retired if it was one-shot. *)
Definition recorded (s : Sched) (k : ProgramId * Z) : Prop :=
  ∃ rp w, programs s !! k.1 = Some rp ∧ p_watches (program rp) !! Z.to_nat k.2 = Some w ∧
    state rp ≠ Waiting ∧ (w_lifetime w = OneShot → retired_at rp k.2).

Lemma recorded_evolves move s s' k : evolves move s s' → recorded s k → recorded s' k.
Proof.
  intros He (rp & w & Hrp & Hw & Hst & Hr).
  destruct (evolves_keeps _ _ _ He _ _ Hrp) as (rp' & Hrp' & []). exists rp', w.
  split; [done|]. split; [congruence|]. auto.
Qed.

(** *** The scan *)

Definition open_fire (states : gmap Z WatchRuntime) (n : nat) (f : Z * list Step * bool) : Prop :=
  (0 ≤ f.1.1 < Z.of_nat n)%Z ∧ retired (default WatchRuntime_default (states !! f.1.1)) = false.

Lemma scan_watches_open ctx since states idx ws acc io ev io' :
  scan_watches fuel ctx since states idx ws acc io = Ret (ev, io') →
  Forall (open_fire states (idx + length ws)) (fires acc) →
  Forall (open_fire states (idx + length ws)) (fires ev).
Proof.
  revert idx acc io. induction ws as [|w ws IH]; intros idx acc io; simpl.
  { intros Hr. by simplify_ST. }
  intros (acc1 & io1 & H1' & H2')%ST_bind_Ret Hacc. rewrite <-Nat.add_succ_comm in *.
  eapply IH; [exact H2'|]. clear H2' IH. unfold scan_watch in H1'.
  destruct (retired _) eqn:Hret; [by simplify_ST|].
  apply ST_bind_Ret in H1' as (stop & io2 & _ & Hr).
  destruct stop; [by simplify_ST|]. apply ST_bind_Ret in Hr as (t & io3 & _ & Hr).
  destruct t as [b|]; [|by simplify_ST]. simplify_ST. simpl.
  apply Forall_app. split; [done|]. case_decide; [|done]. constructor; [|done].
  pose proof (idx_u32_le idx). split; simpl; [lia|done].
Qed.

(** What the fires of a scan are about. *)
Definition fire_keys (sc : Scan) : list (ProgramId * Z) :=
  ((λ c, (cand_program_id c, (cand_payload c).1.1)) <$> candidates sc) ++
  (fst <$> direct_fires sc).

Lemma scan_program_keys frame now acc id s acc' s' :
  scan_program fuel frame now acc id s = Ret (acc', s') →
  (∃ rp, programs s !! id = Some rp ∧ state rp = Running) →
  ∃ ks, fire_keys acc' ≡ₚ ks ++ fire_keys acc ∧ sublist ks.*1 [id] ∧ Forall (open_watch s) ks.
Proof.
  unfold scan_program. intros (rp & s0 & Hg & Hr)%ST_bind_Ret (rp0 & Hrp0 & Hst).
  apply get_program_inv in Hg as [-> Hrp]. simplify_eq.
  apply ST_bind_Ret in Hr as (ev & s1 & Hf & Hr). simplify_ST.
  unfold on_io in Hf. apply outcome_bind_Ret in Hf as ([ev' io'] & Hscan & ?). simplify_eq.
  apply scan_watches_open in Hscan; [|constructor]. simpl in Hscan. simpl.
  assert (∀ k ss o fs, fires ev = (k, ss, o) :: fs → open_watch s (id, k)) as Hopen.
  { intros k ss o fs Hfs. rewrite Hfs, Forall_cons in Hscan. destruct Hscan as [[Hk Hret] _].
    simpl in *. destruct (lookup_lt_is_Some_2 (p_watches (program rp)) (Z.to_nat k)) as [w Hw]; [lia|].
    exists rp, w. split_and!; [done..|]. intros (wr & Hwr & Hret'). simpl in *.
    rewrite Hwr in Hret. simpl in Hret. congruence. }
  unfold fire_keys. simpl. rewrite !fmap_app.
  destruct (fires ev) as [|[[k [|st sts]] o] fs] eqn:Hfs; simpl.
  - exists []. rewrite !app_nil_r. split; [done|]. repeat constructor.
  - exists [(id, k)]. split; [|split; [by repeat constructor|repeat constructor; by eapply Hopen]].
    rewrite app_nil_r, app_assoc. by rewrite Permutation_app_comm.
  - exists [(id, k)]. split; [|split; [by repeat constructor|repeat constructor; by eapply Hopen]].
    rewrite app_nil_r. by rewrite (Permutation_app_comm _ [(id, k)]).
Qed.

Lemma open_watch_silent s s' k : silent s s' → open_watch s k → open_watch s' k.
Proof. intros [Hp _ _]. unfold open_watch. by rewrite Hp. Qed.

Lemma scan_all_keys frame now l acc s acc' s' :
  mfold (scan_program fuel frame now) acc l s = Ret (acc', s') →
  Forall (λ id, states s !! id = Some Running) l →
  ∃ ks, fire_keys acc' ≡ₚ ks ++ fire_keys acc ∧ ks.*1 ⊆+ l ∧ Forall (open_watch s) ks.
Proof.
  revert acc s. induction l as [|id l IH]; intros acc s; simpl.
  { intros Hr _. simplify_ST. exists []. split; [done|]. split; [apply submseteq_nil_l|constructor]. }
  intros (acc1 & s1 & H1' & H2')%ST_bind_Ret [Hid Hl]%Forall_cons.
  pose proof H1' as [Hsil _]%scan_program_inv.
  apply scan_program_keys in H1' as (ks & Hk & Hsub & Ho); [|by apply states_lookup].
  destruct (IH acc1 s1 H2') as (ks' & Hk' & Hsub' & Ho').
  { by rewrite (silent_states _ _ Hsil). }
  exists (ks' ++ ks). split; [|split].
  - rewrite Hk', Hk. by rewrite app_assoc.
  - rewrite fmap_app. rewrite (Permutation_app_comm (ks'.*1)).
    apply (submseteq_app _ [id]); [by apply sublist_submseteq|done].
  - apply Forall_app. split; [|done]. eapply Forall_impl; [exact Ho'|].
    intros k. apply open_watch_silent. by split; symmetry; apply Hsil.
Qed.

(** *** The fires a tick announces *)

(** The events sent say exactly that these watches fired. *)
Definition announces (ks : list (ProgramId * Z)) (s s' : Sched) : Prop :=
  ∃ l, sent s' = sent s ++ l ∧ fired l = ks.

Lemma announces_trans ks1 ks2 a b c :
  announces ks1 a b → announces ks2 b c → announces (ks1 ++ ks2) a c.
Proof.
  intros (l1 & E1 & <-) (l2 & E2 & <-). exists (l1 ++ l2). by rewrite E2, E1, app_assoc, fired_app.
Qed.
Lemma announces_nil s : announces [] s s.
Proof. exists []. by rewrite app_nil_r. Qed.
Definition no_fire (d : EventData) : Prop := fired_event d = None.
Lemma sends_no_fire s s' : sends no_fire s s' → announces [] s s'.
Proof.
  intros (l & El & Hl). exists l. split; [done|]. clear El.
  induction Hl as [|d l Hd _ IH]; [done|]. unfold fired, no_fire in *. simpl. by rewrite Hd.
Qed.
Lemma emit_announces d s a s' :
  emit d s = Ret (a, s') → announces (fired [d]) s s'.
Proof. intros [_ He]%emits_one. exists [d]. by split. Qed.

Lemma direct_announces ds s a s' :
  mfor (λ f : ProgramId * Z * bool, emit (WatchFired f.1.1 f.1.2 "watch")) ds s = Ret (a, s') →
  announces ds.*1 s s'.
Proof.
  revert s. induction ds as [|[[id k] o] ds IH]; intros s; simpl.
  { intros Hr. simplify_ST. apply announces_nil. }
  intros ([] & s1 & H1' & H2')%ST_bind_Ret. apply emit_announces in H1'. apply IH in H2'.
  by apply (announces_trans [(id, k)] _ s s1).
Qed.

Definition decision_key (d : ArbDecision WatchFirePayload) : ProgramId * Z :=
  (dec_program_id d, (dec_payload d).1.1).

Lemma dispatch_steps_no_fire ctx id steps s r s' :
  dispatch_steps fuel ctx id steps s = Ret (r, s') → announces [] s s'.
Proof.
  revert s. induction steps as [|st steps IH]; intros s Hr; simpl in Hr.
  { simplify_ST. apply announces_nil. }
  apply ST_bind_Ret in Hr as ([] & s1 & He & Hr). apply emit_announces in He.
  apply ST_bind_Ret in Hr as (r1 & s2 & Hio & Hr). apply on_io_silent in Hio.
  assert (announces [] s s2) as Ha.
  { apply (announces_trans [] [] s s1); [done|]. by apply sends_no_fire, silent_sends. }
  destruct r1 as [u|e]; [|by simplify_ST].
  apply (announces_trans [] [] s s2); [done|by apply IH].
Qed.

Lemma update_announces id f s a s' : update_program id f s = Ret (a, s') → announces [] s s'.
Proof. intros (rp & _ & ->)%update_program_inv. exists []. by rewrite app_nil_r. Qed.

Lemma dispatch_decision_announces frame now acc d s acc' s' :
  dispatch_decision fuel frame now acc d s = Ret (acc', s') →
  ∃ ks, announces ks s s' ∧ acc'.1.*1 = acc.1.*1 ++ ks ∧ sublist ks [decision_key d].
Proof.
  unfold dispatch_decision, decision_key. destruct (dec_payload d) as [[idx steps] o]. simpl.
  intros Hr. destruct (dec_dispatch d).
  - apply ST_bind_Ret in Hr as (rp & s0 & Hg & Hr). apply get_program_inv in Hg as [-> _].
    apply ST_bind_Ret in Hr as (err & s1 & Hd & Hr). apply dispatch_steps_no_fire in Hd.
    destruct err as [e|].
    + apply ST_bind_Ret in Hr as ([] & s2 & Hu & Hr). apply update_announces in Hu.
      apply ST_bind_Ret in Hr as ([] & s3 & He & Hr). apply emit_announces in He. simplify_ST.
      exists []. rewrite app_nil_r. split; [|split; [done|repeat constructor]].
      apply (announces_trans [] [] s s1); [done|]. by apply (announces_trans [] [] s1 s2).
    + apply ST_bind_Ret in Hr as ([] & s2 & He & Hr). apply emit_announces in He. simplify_ST.
      exists [(dec_program_id d, idx)]. simpl. rewrite fmap_app.
      split; [by apply (announces_trans [] _ s s1)|]. split; [done|repeat constructor].
  - exists []. rewrite app_nil_r. destruct (dec_loser_of d).
    + apply ST_bind_Ret in Hr as ([] & s2 & He & Hr). apply emit_announces in He. simplify_ST.
      split; [done|]. split; [done|repeat constructor].
    + simplify_ST. split; [apply announces_nil|]. split; [done|repeat constructor].
Qed.

Lemma dispatch_all_announces frame now acc ds s acc' s' :
  mfold (dispatch_decision fuel frame now) acc ds s = Ret (acc', s') →
  ∃ ks, announces ks s s' ∧ acc'.1.*1 = acc.1.*1 ++ ks ∧ sublist ks (decision_key <$> ds).
Proof.
  revert acc s. induction ds as [|d ds IH]; intros acc s; simpl.
  { intros Hr. simplify_ST. exists []. rewrite app_nil_r. split; [apply announces_nil|].
    split; [done|constructor]. }
  intros (acc1 & s1 & H1' & H2')%ST_bind_Ret.
  apply dispatch_decision_announces in H1' as (ks & Ha & Hk & Hs).
  apply IH in H2' as (ks' & Ha' & Hk' & Hs'). exists (ks ++ ks').
  split; [by apply (announces_trans _ _ s s1)|]. split; [by rewrite Hk', Hk, app_assoc|].
  by apply (sublist_app _ [decision_key d]).
Qed.

Lemma resolve_keys (cs : list (Candidate WatchFirePayload)) :
  decision_key <$> resolve cs = (λ c, (cand_program_id c, (cand_payload c).1.1)) <$> cs.
Proof.
  destruct cs as [|c [|c' cs]]; [done..|]. cbn [resolve].
  change (map ?f ?l) with (f <$> l). rewrite <-list_fmap_compose. done.
Qed.

(** *** The record of the fires *)

Definition past (s : Sched) (k : ProgramId * Z) : Prop :=
  ∃ rp w, programs s !! k.1 = Some rp ∧ p_watches (program rp) !! Z.to_nat k.2 = Some w ∧
    state rp ≠ Waiting.

Lemma past_evolves move s s' k : evolves move s s' → past s k → past s' k.
Proof.
  intros He (rp & w & Hrp & Hw & Hst).
  destruct (evolves_keeps _ _ _ He _ _ Hrp) as (rp' & Hrp' & []). exists rp', w.
  split; [done|]. split; [congruence|]. auto.
Qed.

Lemma record_fire_recorded now f s a s' :
  record_fire now f s = Ret (a, s') → past s f.1 → recorded s' f.1.
Proof.
  destruct f as [[id idx] o]. intros Hr (rp0 & w0 & Hrp0 & Hw0 & Hst). simpl in *.
  apply ST_bind_Ret in Hr as (rp & s0 & Hg & Hr). apply get_program_inv in Hg as [-> Hrp].
  simplify_eq. rewrite Hw0 in Hr. apply ST_bind_Ret in Hr as (w & s1 & Hw & Hu).
  unfold unwrap in Hw. simplify_ST. apply update_program_inv in Hu as (rp1 & Hrp1 & ->). simplify_eq.
  eexists _, w. simpl. rewrite lookup_insert_eq. split; [done|]. split; [done|]. split; [done|].
  intros Hone. eexists. split; [simpl; unfold update_watch; by rewrite lookup_insert_eq|].
  simpl. by rewrite Hone.
Qed.

Lemma record_all_recorded now fs s a s' :
  mfor (record_fire now) fs s = Ret (a, s') → Forall (past s) fs.*1 → Forall (recorded s') fs.*1.
Proof.
  revert s. induction fs as [|f fs IH]; intros s; simpl; [intros; constructor|].
  intros ([] & s1 & H1' & H2')%ST_bind_Ret [Hf Hfs]%Forall_cons.
  pose proof H1' as [He _]%record_fire_evolves.
  assert (evolves tick_move s1 s') as He'.
  { apply mfor_states in H2' as [? _]; [done|]. intros. by eapply record_fire_evolves. }
  constructor.
  - eapply recorded_evolves; [exact He'|]. by eapply record_fire_recorded.
  - apply (IH s1); [done|]. eapply Forall_impl; [exact Hfs|]. intros k. by apply (past_evolves tick_move).
Qed.

Lemma open_past s k : open_watch s k → past s k.
Proof. intros (rp & w & ? & ? & Hst & _). exists rp, w. by rewrite Hst. Qed.

Lemma no_fire_primitives : primitives fuel (sends no_fire) no_fire (λ _ _, True).
Proof.
  split; try done.
  - intros A m _ s a s' Hs%on_io_silent. by apply silent_sends.
  - intros d. apply sends_emit.
  - intros id f s a s' (rp & _ & ->)%update_program_inv. exists []. by rewrite app_nil_r.
  - by intros [].
Qed.

Lemma watch_phase_fires frame now ids s failed s' :
  watch_phase fuel frame now ids s = Ret (failed, s') →
  NoDup ids → Forall (λ id, states s !! id = Some Running) ids →
  ∃ ks, announces ks s s' ∧ NoDup ks.*1 ∧ Forall (open_watch s) ks ∧ Forall (recorded s') ks.
Proof.
  intros Hr Hnd Hrun. pose proof no_fire_primitives as P.
  destruct (watch_phase_course _ _ _ _ _ _ _ Hr Hnd Hrun) as (sc & d & s1 & s2 & s3 & s4 & []).
  pose proof course_scan as [Hsil _]%scan_all_inv.
  apply scan_all_keys in course_scan as (ks0 & Hk0 & Hsub0 & Hopen0); [|done].
  change (fire_keys {| evals := []; candidates := []; direct_fires := [] |})
    with (@nil (ProgramId * Z)) in Hk0. rewrite app_nil_r in Hk0.
  apply direct_announces in course_direct.
  apply dispatch_all_announces in course_dispatch as (ks & Ha & Hks & Hsub). simpl in Hks.
  rewrite resolve_keys in Hsub.
  assert (d.1.*1 ⊆+ ks0) as Hall.
  { rewrite Hks, <-Hk0. unfold fire_keys. rewrite (Permutation_app_comm (direct_fires sc).*1).
    apply submseteq_app; [by apply sublist_submseteq|done]. }
  assert (Forall (open_watch s) d.1.*1) as Hopen.
  { rewrite Forall_forall in Hopen0 |- *. intros k Hk. apply Hopen0. by eapply elem_of_submseteq. }
  exists d.1.*1. split; [|split; [|split; [done|]]].
  - rewrite Hks, <-(app_nil_r ks). apply (announces_trans _ _ s s2).
    { apply (announces_trans [] _ s s1); [by apply sends_no_fire, silent_sends|done]. }
    apply (announces_trans _ _ s2 s3); [done|]. apply sends_no_fire. trans s4.
    + revert course_evals. apply within_mfor; [apply _|]. intros e _.
      eapply within_record_evals; [apply _|exact P].
    + revert course_fires. apply within_mfor; [apply _|]. intros f _.
      eapply within_record_fire; [apply _|exact P].
  - eapply submseteq_NoDup; [|exact Hnd]. trans ks0.*1; [by apply fmap_submseteq|done].
  - eapply record_all_recorded; [exact course_fires|]. eapply Forall_impl; [exact Hopen|].
    intros k Hk%open_past. by eapply past_evolves.
Qed.

(** What one tick announces: at most one fire per program, of watches that
    were not retired, each on record afterwards. *)
Lemma tick_fires s s' :
  tick_once fuel s = Ret ((), s') →
  ∃ ks, announces ks s s' ∧ NoDup ks.*1 ∧ Forall (recorded s') ks ∧
    Forall (λ k, ∀ rp, programs s !! k.1 = Some rp → state rp ≠ Waiting →
      ¬ retired_at rp k.2) ks.
Proof.
  intros Ht. pose proof no_fire_primitives as P.
  apply tick_once_inv in Ht as [(e & s1 & Hc & He)|(frame & now & s1 & s2 & s3 & s4 & s5 & failed & Hcr)].
  { exists []. split; [|split; [constructor|by split]]. apply sends_no_fire.
    trans s1; [by apply silent_sends; eapply on_capture_silent|]. by refine (sends_emit _ _ _ _ _ _ He). }
  pose proof (course_start _ _ _ _ _ _ _ _ _ _ _ Hcr) as Hst. destruct Hcr.
  destruct (ids_in_state_spec Running s4) as [Hnd Hrun].
  destruct (watch_phase_fires _ _ _ _ _ _ course_watches Hnd Hrun) as (ks & Ha & Hk & Ho & Hrec).
  exists ks. split; [|split; [done|split]].
  - rewrite <-(app_nil_l ks), <-(app_nil_r ks). apply (announces_trans [] _ s s4).
    { apply sends_no_fire. trans s3; [by apply silent_sends|].
      revert course_triggers. apply within_mfor; [apply _|]. intros id _.
      eapply within_trigger; [apply _|exact P]. }
    apply (announces_trans _ [] s4 s5); [done|]. apply sends_no_fire.
    revert course_bodies. apply within_mfor; [apply _|]. intros id _.
    eapply within_body; [apply _|exact P].
  - eapply Forall_impl; [exact Hrec|]. intros k. apply recorded_evolves with (move := tick_move).
    revert course_bodies. apply within_mfor; [apply _|]. intros id _ t a t' Hb.
    by apply body_step_evolves in Hb as [? _].
  - eapply Forall_impl; [exact Ho|]. intros k (rp4 & w & Hrp4 & _ & _ & Hn) rp Hrp Hw Hret.
    apply Hn. assert (evolves tick_move s s4) as He.
    { trans s3; [by apply silent_evolves|]. destruct (ids_in_state_spec Waiting s3) as [Hnd3 Hw3].
      refine (mfor_ids (λ id, id) Waiting _ _ _ _ _ _ _ _ course_triggers);
        [apply trigger_step_evolves|by rewrite list_fmap_id|done]. }
    destruct (evolves_keeps _ _ _ He _ _ Hrp) as (rp' & Hrp' & Hkeep). simplify_eq.
    by apply (keeps_retired _ _ Hkeep).
Qed.

(** ** Many ticks *)

Inductive ticks : Sched → Sched → Prop :=
  | ticks_refl s : ticks s s
  | ticks_step s s1 s2 : tick_once fuel s = Ret ((), s1) → ticks s1 s2 → ticks s s2.

(** How often a watch fired, by the events. *)
Definition fire_count (k : ProgramId * Z) (ks : list (ProgramId * Z)) : nat :=
  length (filter (λ k', k' = k) ks).

Lemma fire_count_app k ks ks' : fire_count k (ks ++ ks') = fire_count k ks + fire_count k ks'.
Proof. unfold fire_count. by rewrite filter_app, length_app. Qed.
Lemma fire_count_0 k ks : k ∉ ks → fire_count k ks = 0.
Proof.
  intros Hk. unfold fire_count. apply length_zero_iff_nil, elem_of_nil_inv.
  intros k' [-> ?]%list_elem_of_filter. done.
Qed.
Lemma fire_count_le k ks : NoDup ks → fire_count k ks ≤ 1.
Proof.
  intros Hnd. unfold fire_count. change 1 with (length [k]). apply submseteq_length.
  apply NoDup_submseteq; [by apply NoDup_filter|]. intros k' [-> ?]%list_elem_of_filter. by left.
Qed.

(** The watch with this key is one-shot in its program. *)
Definition one_shot_at (s : Sched) (k : ProgramId * Z) : Prop :=
  ∃ rp w, programs s !! k.1 = Some rp ∧ p_watches (program rp) !! Z.to_nat k.2 = Some w ∧
    w_lifetime w = OneShot.

Lemma one_shot_evolves move s s' k : evolves move s s' → one_shot_at s k → one_shot_at s' k.
Proof.
  intros He (rp & w & Hrp & Hw & Ho).
  destruct (evolves_keeps _ _ _ He _ _ Hrp) as (rp' & Hrp' & []). exists rp', w.
  split_and!; [done|congruence|done].
Qed.

(** A recorded one-shot watch fires no more. *)
Lemma recorded_no_fire s s' k ks :
  tick_once fuel s = Ret ((), s') → recorded s k → one_shot_at s k →
  Forall (λ k, ∀ rp, programs s !! k.1 = Some rp → state rp ≠ Waiting → ¬ retired_at rp k.2) ks →
  k ∉ ks.
Proof.
  intros Ht (rp & w & Hrp & Hw & Hst & Hret) (rp' & w' & Hrp' & Hw' & Ho) Hks Hin.
  simplify_eq. rewrite Forall_forall in Hks. by apply (Hks k Hin rp Hrp Hst), Hret.
Qed.

Lemma recorded_ticks s s' k :
  ticks s s' → recorded s k → one_shot_at s k →
  ∃ l, sent s' = sent s ++ l ∧ fire_count k (fired l) = 0.
Proof.
  induction 1 as [s|s s1 s2 Ht Hts IH]; intros Hr Ho.
  { exists []. by rewrite app_nil_r. }
  pose proof Ht as He%tick_once_evolves.
  destruct (tick_fires _ _ Ht) as (ks & (l1 & El1 & <-) & _ & _ & Hks).
  destruct IH as (l2 & El2 & Hc); [by eapply recorded_evolves|by eapply one_shot_evolves|].
  exists (l1 ++ l2). rewrite El2, El1, app_assoc. split; [done|].
  rewrite fired_app, fire_count_app, Hc, fire_count_0; [done|]. by eapply recorded_no_fire.
Qed.

(** C10: a one-shot watch fires at most once: over any number of ticks, the
    event log holds at most one [watch.fired] for it, whatever its predicate,
    its throttle, lost arbitrations or failing steps. *)
Theorem one_shot_fires_once s s' id idx rp w :
  ticks s s' → programs s !! id = Some rp →
  p_watches (program rp) !! Z.to_nat idx = Some w → w_lifetime w = OneShot →
  ∃ l, sent s' = sent s ++ l ∧ fire_count (id, idx) (fired l) ≤ 1.
Proof.
  intros Hts Hrp Hw Hone. assert (one_shot_at s (id, idx)) as Ho by (exists rp, w; done).
  clear Hrp Hw Hone. induction Hts as [s|s s1 s2 Ht Hts IH].
  { exists []. rewrite app_nil_r. split; [done|]. unfold fire_count. simpl. lia. }
  pose proof Ht as He%tick_once_evolves. pose proof (one_shot_evolves _ _ _ _ He Ho) as Ho1.
  destruct (tick_fires _ _ Ht) as (ks & (l1 & El1 & <-) & Hnd & Hrec & _).
  apply NoDup_fmap_1 in Hnd. destruct (decide ((id, idx) ∈ fired l1)) as [Hin|Hnin].
  - rewrite Forall_forall in Hrec.
    destruct (recorded_ticks s1 s2 (id, idx) Hts (Hrec _ Hin) Ho1) as (l2 & El2 & Hc).
    exists (l1 ++ l2). rewrite El2, El1, app_assoc. split; [done|].
    rewrite fired_app, fire_count_app, Hc. pose proof (fire_count_le (id, idx) _ Hnd). lia.
  - destruct (IH Ho1) as (l2 & El2 & Hc). exists (l1 ++ l2).
    rewrite El2, El1, app_assoc. split; [done|].
    by rewrite fired_app, fire_count_app, (fire_count_0 _ (fired l1)).
Qed.
End once.
