(* ===== verification/SchedulerDemo.v ===== *)
(** * A scheduler at work

    A concrete scheduler (canned frames, manual clock, recording sink) and two
    programs, on which the theorems about ticks and runs are instantiated. *)

From S2P Require Import Prelude Json CoreTypes Canonical CanonicalInj Serde DslPredicates DslValidate.
From S2P Require Import FrameView Perception PerceptionSpec Input Capture Clock Runtime Scheduler.
From S2P Require Import CgSink RuntimeSpec SchedulerSpec SchedulerLive SchedulerTrace SchedulerOnce.
Local Open Scope vcli_scope.

#[local] Existing Instance demo_image_ops.
#[local] Existing Instance nfc_id.
#[local] Existing Instance sci_ops.
#[local] Existing Instance demo_uuid.
#[local] Existing Instance mock_sink.
#[local] Existing Instance mock_capture.
#[local] Existing Instance manual_clock.

#[local] Program Instance demo_order : HashOrder := { hash_keys m := elements (dom m) }.
Solve Obligations with done.

Definition click_program (priority : Z) (body : list Step) : Program := {|
  p_version := "0.1"; p_name := "click"; p_id := None; p_trigger := OnSubmit;
  p_predicates := {[ "seen" := ColorAt (mkPoint 0 0) (mkRgb 30 20 10) 5 ]};
  p_watches := [mkWatch (ByName "seen") [Click (TargetAbsolute (mkPoint 3 4)) LeftButton] 0 OneShot];
  p_body := body; p_on_complete := Some "done"; p_on_fail := Some "sorry"; p_timeout_ms := None;
  p_labels := ∅; p_priority := priority |}.

Definition demo_cap : MockCapture := MockCapture_new [Bgra8] [] [demo_frame].
Definition empty_sched : Sched :=
  Scheduler_new demo_cap MockInputSink_new Perception_new (ManualClock_new 1000) [].
Definition demo_cmds : list SchedulerCommand :=
  [SubmitValidated (mkProgramId 7) (click_program 1 [SleepMs 10]) ∅;
   SubmitValidated (mkProgramId 8) (click_program 2 [Type_ "x"]) ∅].

(** The state a run ends in. *)
Definition is_ret {A} (m : outcome A) : bool := match m with Ret _ => true | _ => false end.
Definition final {S A} (m : outcome (A * S)) (d : S) : S :=
  match m with Ret (_, s) => s | _ => d end.
Lemma is_ret_final {S} (m : outcome (() * S)) d : is_ret m = true → m = Ret ((), final m d).
Proof. by destruct m as [[[] s]| |]. Qed.

(** The two programs after submission, and after one and two ticks. *)
Definition sched0 : Sched := final (drain_queue demo_cmds empty_sched) empty_sched.
Definition sched1 : Sched := final (tick_once 3 sched0) sched0.
Definition sched2 : Sched := final (tick_once 3 sched1) sched1.

Lemma tick1 : tick_once 3 sched0 = Ret ((), sched1).
Proof. apply is_ret_final. vm_compute. reflexivity. Qed.
Lemma tick2 : tick_once 3 sched1 = Ret ((), sched2).
Proof. apply is_ret_final. vm_compute. reflexivity. Qed.

(** Program 8 wins the arbitration of the first tick; program 7, deferred, has
    lost the edge of its predicate and never clicks. *)
Example demo_log :
  log (input sched2) =
    [MockClickDetailed (mkPoint 3 4) LeftButton [] 0; MockAction (ActType "x")].
Proof. vm_compute. reflexivity. Qed.

Lemma tick_refines_lifecycle_witness :
  states sched0 !! mkProgramId 8 = Some Waiting ∧
  states sched1 !! mkProgramId 8 = Some Completed ∧
  (∃ l, sent sched1 = sent sched0 ++ l ∧ moves tick_move (states sched0) l (states sched1)) ∧
  forward Waiting Completed.
Proof.
  destruct (tick_refines_lifecycle 3 sched0 sched1 tick1) as (Hm & Hf & _).
  assert (states sched0 !! mkProgramId 8 = Some Waiting) as H0 by (vm_compute; reflexivity).
  assert (states sched1 !! mkProgramId 8 = Some Completed) as H1 by (vm_compute; reflexivity).
  split; [exact H0|]. split; [exact H1|]. split; [exact Hm|].
  specialize (Hf (mkProgramId 8)). rewrite H0, H1 in Hf. by inversion Hf.
Defined.

(** A run: the two submissions, two more ticks, a cancellation and the end. *)
Definition demo_arrivals : list (list SchedulerCommand) :=
  [demo_cmds; []; [Cancel (mkProgramId 7) "user"; Shutdown; Cancel (mkProgramId 8) "late"]; []].

Lemma demo_accepted priority body :
  Forall (step_ok {[ "seen" := ColorAt (mkPoint 0 0) (mkRgb 30 20 10) 5 ]} false) body →
  program_accepted 3 (click_program priority body).
Proof.
  intros Hb. split; [split|].
  - apply validate_predicate_graph_ok_iff. vm_compute. reflexivity.
  - split; [done|]. split; [|exact Hb]. repeat constructor; simpl; try lia. by eexists.
  - split; [vm_compute; lia|]. intros idx w q _ _. simpl. by apply lookup_singleton_ne.
Qed.

Lemma scheduler_never_panics_witness :
  ∃ s', run_until_shutdown 3 SchedulerConfig_default demo_arrivals empty_sched = Ret (true, s').
Proof.
  unfold empty_sched. refine (scheduler_never_panics 3 SchedulerConfig_default demo_arrivals _ _ _ _ _ _).
  - constructor; [exact demo_frame_wf|constructor].
  - repeat (apply Forall_cons; split); try apply Forall_nil; try exact I;
      apply demo_accepted; repeat constructor.
Defined.

Lemma run_event_log_replays_witness :
  ∃ s', run_until_shutdown 3 SchedulerConfig_default demo_arrivals empty_sched = Ret (true, s') ∧
    states s' = replay (sent s') ∅.
Proof.
  assert (∃ s', run_until_shutdown 3 SchedulerConfig_default demo_arrivals empty_sched
    = Ret (true, s')) as [s' Hr].
  { assert (match run_until_shutdown 3 SchedulerConfig_default demo_arrivals empty_sched with
            | Ret (b, _) => b | _ => false end = true) as Hb by (vm_compute; reflexivity).
    destruct (run_until_shutdown 3 _ demo_arrivals empty_sched) as [[[] s']| |]; try discriminate Hb.
    by exists s'. }
  exists s'. split; [exact Hr|].
  destruct (run_event_log_replays 3 _ _ _ _ _ Hr) as [(l & El & _ & Hs) _].
  - apply map_Forall_empty.
  - change (sent empty_sched) with (@nil EventData) in El. simpl in El. by rewrite El, Hs.
Defined.

(** With the switch engaged the same run clicks nothing: on the mock, and on a
    macOS whose switch is engaged. *)
Definition halted_sink : MockInputSink := with_kill_switch (engage 5 KillSwitch_new).
Definition halted_sched : Sched :=
  Scheduler_new demo_cap halted_sink Perception_new (ManualClock_new 1000) [].
#[local] Instance halted_mac : MacOs := {|
  source_created _ := true; event_created _ _ := true; ax_trusted _ := true;
  iohid_access _ := 0%Z; kill_engaged n := bool_decide (3 ≤ n); flag_bit _ := 0%Z |}.
Definition halted_mac_sched : Sched (H3 := cg_sink) :=
  Scheduler_new (H3 := cg_sink) demo_cap {| posted := []; questions := 3; slept_ns := 0 |}
    Perception_new (ManualClock_new 1000) [].

Lemma returns_true {S} (m : outcome (bool * S)) :
  match m with Ret (b, _) => b | _ => false end = true → ∃ s, m = Ret (true, s).
Proof. destruct m as [[[] s]| |]; intros Hm; try discriminate Hm. by exists s. Qed.

Lemma kill_switch_stops_input_witness :
  (∃ s', run_until_shutdown 3 SchedulerConfig_default demo_arrivals halted_sched = Ret (true, s') ∧
     log (input s') = []) ∧
  ∃ s', run_until_shutdown (H3 := cg_sink) 3 SchedulerConfig_default demo_arrivals halted_mac_sched
        = Ret (true, s') ∧ posted (input s') = [].
Proof.
  destruct (kill_switch_stops_input 3 SchedulerConfig_default demo_arrivals true) as [Hmock Hmac].
  split.
  - destruct (returns_true (run_until_shutdown 3 SchedulerConfig_default demo_arrivals halted_sched))
      as [s' Hr]; [vm_compute; reflexivity|].
    exists s'. split; [exact Hr|]. apply (Hmock _ _ Hr). reflexivity.
  - destruct (returns_true (run_until_shutdown (H3 := cg_sink) 3 SchedulerConfig_default demo_arrivals
      halted_mac_sched)) as [s' Hr]; [vm_compute; reflexivity|].
    exists s'. split; [exact Hr|]. apply (Hmac _ _ Hr). intros n Hn. by apply bool_decide_eq_true.
Defined.

(** Programs 7 and 8 both want to click: 8, of higher priority, does. *)
Lemma one_program_acts_per_tick_witness :
  ∃ cs s1 l, contenders 3 sched0 = Ret (cs, s1) ∧ sent sched1 = sent sched0 ++ l ∧
    announced_by cs l ∧
    cand_program_id <$> cs = [mkProgramId 8; mkProgramId 7].
Proof.
  destruct (one_program_acts_per_tick 3 sched0 sched1 tick1) as (cs & s1 & l & Hcs & El & Hl).
  exists cs, s1, l. split; [exact Hcs|]. split; [exact El|]. split; [exact Hl|].
  assert (match contenders 3 sched0 with Ret (cs, _) => cand_program_id <$> cs | _ => [] end
          = [mkProgramId 8; mkProgramId 7]) as Hids by (vm_compute; reflexivity).
  by rewrite Hcs in Hids.
Defined.

(** The announcements themselves. *)
Example announced_in_tick1 :
  actions (drop (length (sent sched0)) (sent sched1)) =
  [ActionDispatched (mkProgramId 8)
     (Step_to_value (Click (TargetAbsolute (mkPoint 3 4)) LeftButton)) None;
   ActionDeferred (mkProgramId 7)
     (Arr [Step_to_value (Click (TargetAbsolute (mkPoint 3 4)) LeftButton)])
     (conflict_with (mkProgramId 8))].
Proof. vm_compute. reflexivity. Qed.

Lemma one_shot_fires_once_witness :
  ∃ l, sent sched2 = sent sched0 ++ l ∧ fire_count (mkProgramId 8, 0%Z) (fired l) ≤ 1.
Proof.
  assert (∃ rp, programs sched0 !! mkProgramId 8 = Some rp ∧
    program rp = click_program 2 [Type_ "x"]) as (rp & Hrp & Hp).
  { assert (program <$> programs sched0 !! mkProgramId 8 = Some (click_program 2 [Type_ "x"])) as Hl
      by (vm_compute; reflexivity).
    apply fmap_Some in Hl as (rp & Hrp & Hp). by exists rp. }
  apply (one_shot_fires_once 3 sched0 sched2 (mkProgramId 8) 0 rp
    (mkWatch (ByName "seen") [Click (TargetAbsolute (mkPoint 3 4)) LeftButton] 0 OneShot)).
  - apply (ticks_step _ _ sched1 _ tick1), (ticks_step _ _ sched2 _ tick2), ticks_refl.
  - exact Hrp.
  - rewrite Hp. reflexivity.
  - reflexivity.
Defined.
