(* ===== verification/Host.v ===== *)
(** * The host: paths, files and faults

    What the store and the daemon use of [std::path] and [std::fs].  A path is
    its components, as [Path] compares them; the file system is the regular
    files with their bytes and the directories.  Every call that reaches the
    operating system may fail: a [Host] answers, for the n-th call, whether it
    fails and with what, so a theorem that does not restrict the [Host] holds
    whatever goes wrong, and [reliable] names the host on which nothing does. *)

From S2P Require Import Prelude.

(** ** [std::path] *)

Record Path := mkPath { absolute : bool; comps : list string }.

#[export] Instance Path_eq_dec : EqDecision Path.
Proof. solve_decision. Defined.
#[export] Instance Path_countable : Countable Path.
Proof.
  by apply (inj_countable' (λ p, (absolute p, comps p)) (λ '(a, c), mkPath a c)); intros [].
Defined.

Definition starts_with_slash (s : string) : bool :=
  match s with String "/" _ => true | _ => false end.

(** [Path::new(s)]: repeated separators and inner [.] components vanish. *)
Definition path_of_string (s : string) : Path :=
  let parts := filter (λ c, c ≠ "") (split_on "/" s) in
  let inner := filter (λ c, c ≠ ".") in
  if starts_with_slash s then mkPath true (inner parts)
  else mkPath false match parts with
                    | c :: parts => c :: inner parts   (* a leading [.] stays *)
                    | [] => []
                    end.

(** [Path::join]: an absolute operand replaces the path. *)
Definition path_join (p q : Path) : Path :=
  if absolute q then q
  else match absolute p, comps p with
       | false, [] => q
       | _, _ => mkPath (absolute p)
                   (comps p ++ filter (λ c, c ≠ ".") (comps q))
       end.
(** [path.join(s)] for a [&str]. *)
Definition path_push (p : Path) (s : string) : Path := path_join p (path_of_string s).

(** [Path::parent]. *)
Definition path_parent (p : Path) : option Path :=
  match comps p with
  | [] => None
  | _ => Some (mkPath (absolute p) (removelast (comps p)))
  end.

(** [Path::file_name]: the last component, unless it is [.] or [..]. *)
Definition file_name (p : Path) : option string :=
  c ← last (comps p); if decide (c = "." ∨ c = "..") then None else Some c.

(** The name split at its last dot; a leading dot does not count. *)
Definition rsplit_file_at_dot (name : string) : string * option string :=
  match rev (split_on "." name) with
  | ext :: ((_ :: _) as before) =>
      let stem := String.concat "." (rev before) in
      if decide (stem = "") then (name, None) else (stem, Some ext)
  | _ => (name, None)
  end.
Definition file_stem (p : Path) : option string := fst ∘ rsplit_file_at_dot <$> file_name p.
Definition extension (p : Path) : option string :=
  n ← file_name p; (rsplit_file_at_dot n).2.
Definition with_extension (p : Path) (ext : string) : Path :=
  match file_stem p with
  | Some stem => mkPath (absolute p) (removelast (comps p) ++ [stem +:+ "." +:+ ext])
  | None => p
  end.

(** All directories on the way to [p], [p] included, root first. *)
Definition path_prefixes (p : Path) : list Path :=
  map (λ n, mkPath (absolute p) (take n (comps p))) (seq 0 (S (length (comps p)))).

(** ** [std::fs] *)

Abbreviation bytes := (list Z).

Inductive IoError :=
  | NotFound
  | ConnectionRefused
  | OtherIo (message : string).

#[export] Instance IoError_eq_dec : EqDecision IoError.
Proof. solve_decision. Defined.

Record Fs := mkFs { files : gmap Path bytes; dirs : gset Path }.

Definition fs_empty : Fs := mkFs ∅ {[ mkPath true [] ]}.

Definition fs_exists (fs : Fs) (p : Path) : bool :=
  bool_decide (is_Some (files fs !! p)) || bool_decide (p ∈ dirs fs).

(** One call: the file system it leaves and its answer. *)
Definition fs_call (A : Type) : Type := Fs → Fs * result IoError A.

(** [fs::create_dir_all]: fails on the first component that is a file. *)
Definition create_dir_all (p : Path) : fs_call () := λ fs,
  if existsb (λ q, bool_decide (is_Some (files fs !! q))) (path_prefixes p)
  then (fs, Err (OtherIo "not a directory"))
  else (mkFs (files fs) (list_to_set (path_prefixes p) ∪ dirs fs), Ok ()).

(** [File::create]: truncates or creates; the directory must be there. *)
Definition create_file (p : Path) : fs_call () := λ fs,
  if bool_decide (p ∈ dirs fs) then (fs, Err (OtherIo "is a directory"))
  else match path_parent p with
       | Some d =>
           if bool_decide (d ∈ dirs fs)
           then (mkFs (<[p := []]> (files fs)) (dirs fs), Ok ())
           else (fs, Err NotFound)
       | None => (fs, Err NotFound)
       end.

(** [Write::write_all] on a file just created. *)
Definition write_all (p : Path) (b : bytes) : fs_call () := λ fs,
  (mkFs (<[p := b]> (files fs)) (dirs fs), Ok ()).

(** [fs::rename] of a regular file. *)
Definition rename (p q : Path) : fs_call () := λ fs,
  match files fs !! p with
  | None => (fs, Err NotFound)
  | Some b =>
      if bool_decide (q ∈ dirs fs) then (fs, Err (OtherIo "is a directory"))
      else (mkFs (<[q := b]> (delete p (files fs))) (dirs fs), Ok ())
  end.

(** [fs::remove_file]. *)
Definition remove_file (p : Path) : fs_call () := λ fs,
  match files fs !! p with
  | None => (fs, Err NotFound)
  | Some _ => (mkFs (delete p (files fs)) (dirs fs), Ok ())
  end.

(** [fs::read], and [File::open] with [read_to_end]. *)
Definition read_file (p : Path) : fs_call bytes := λ fs,
  (fs, match files fs !! p with
       | Some b => Ok b
       | None => if bool_decide (p ∈ dirs fs) then Err (OtherIo "is a directory")
                 else Err NotFound
       end).

(** One entry of a directory: a file or a directory. *)
Inductive DirEntry := FileEntry (p : Path) | SubDir (p : Path).

(** [fs::read_dir], in an order the caller knows nothing about. *)
Definition dir_entries (fs : Fs) (d : Path) : list DirEntry :=
  map FileEntry (filter (λ p, path_parent p = Some d) (elements (dom (files fs))))
  ++ map SubDir (filter (λ p, path_parent p = Some d) (elements (dirs fs))).

(** ** Faults *)

(** What [rusqlite] reports that the sources tell apart, and the rest. *)
Inductive SqlError :=
  | QueryReturnedNoRows
  | ConstraintViolation
  | NoSuchTable
  | DatabaseFull
  | OtherSql (message : string).

#[export] Instance SqlError_eq_dec : EqDecision SqlError.
Proof. solve_decision. Defined.

(** The n-th call to the system: a statement or a file operation may fail, a
    write that fails may leave a prefix behind, and what a query without
    [ORDER BY] or a directory listing returns comes in any order.  The texts of
    the errors, and [Debug] of a path or an optional string, are the library's. *)
Class Host := {
  sql_fault : N → option SqlError;
  io_fault : N → option IoError;
  torn_write : N → nat;
  arrange : ∀ {A}, N → list A → list A;
  sql_message : SqlError → string;
  io_message : IoError → string;
  path_debug : Path → string;
  option_str_debug : option string → string;
  arrange_perm : ∀ A n (l : list A), arrange n l ≡ₚ l;
}.

(** Nothing fails. *)
Class Reliable `{Host} : Prop := {
  no_sql_fault n : sql_fault n = None;
  no_io_fault n : io_fault n = None;
}.

(** A host to run the model on: it fails where it is told to. *)
Definition host_failing (sql io : N → bool) : Host := {|
  sql_fault n := if sql n then Some (OtherSql "fault") else None;
  io_fault n := if io n then Some (OtherIo "fault") else None;
  torn_write n := 0;
  arrange A n l := l;
  sql_message e := match e with OtherSql m => m | _ => "sqlite" end;
  io_message e := match e with OtherIo m => m | NotFound => "not found"
                  | ConnectionRefused => "connection refused" end;
  path_debug p := String.concat "/" (comps p);
  option_str_debug o := match o with Some s => "Some(" +:+ s +:+ ")" | None => "None" end;
  arrange_perm A n l := Permutation_refl l;
|}.
Definition reliable_host : Host := host_failing (λ _, false) (λ _, false).

Lemma reliable_host_reliable : @Reliable reliable_host.
Proof. by split. Qed.

(** ** Lemmas on paths *)

Definition plain_component (c : string) : bool :=
  string_forallb (λ a, bool_decide (a ≠ "/"%char)) c
  && negb (bool_decide (c = "")) && negb (bool_decide (c = ".")).

Lemma path_push_plain p c :
  plain_component c = true → path_push p c = mkPath (absolute p) (comps p ++ [c]).
Proof.
  unfold plain_component. rewrite !andb_true_iff, !negb_true_iff, !bool_decide_eq_false.
  intros [[Hs Hne] Hdot].
  assert (not_in_string "/" c) as Hnot by exact Hs.
  assert (starts_with_slash c = false) as Hslash.
  { destruct c as [|a c]; [done|]. apply not_in_string_cons in Hnot as [Ha _].
    by destruct a as [[] [] [] [] [] [] [] []]. }
  unfold path_push, path_join, path_of_string.
  rewrite (split_on_not_in _ _ Hnot), Hslash, filter_cons_True, filter_nil by done.
  simpl. rewrite filter_nil, filter_cons_True, filter_nil by done.
  by destruct p as [[] [|]].
Qed.
