(* ===== verification/Store.v ===== *)
(** * vcli-store: the durable state

    The SQLite database and the content-addressed asset store
    ([vcli-store/src]).  The tables are lists of rows with the columns of
    [migrations.rs], in rowid order; each SQL statement of the sources is the
    function on the tables that its text denotes, with the uniqueness, foreign
    key and cascade rules the schema declares.  A statement or file operation
    may fail ([Host]); a statement that fails changes nothing, and a
    transaction that is not committed is rolled back.  The state is what the
    handle reaches: the database, the file system, and the count of calls made
    to the host.

    Ids and states are text in the tables, and reading them back parses them;
    [unwrap] on a value that does not parse panics. *)

From S2P Require Import Prelude Json CoreTypes EventWire Host.
From S2P Require Import Wp Serde.

Local Open Scope vcli_scope.

(** ** Errors *)

(* src: crates/vcli-store/src/error.rs 8-60 StoreError *)
Inductive StoreError :=
  | StoreSqlite (e : SqlError)
  | StoreIo (path : Path) (source : IoError)
  | StoreUnknownProgram (id : string)
  | StoreBadStateTransition (from to reason : string)
  | StoreNotResumable (message : string)
  | StoreUnknownAsset (hash : string)
  | StoreSchemaNewer (found supported : Z)
  | StoreJson (message : string).

Section store_error.
  Context `{Host}.

(* src: crates/vcli-store/src/error.rs 8-60 StoreError::fmt *)
Definition StoreError_display (e : StoreError) : string :=
  match e with
  | StoreSqlite e => "sqlite: " +:+ sql_message e
  | StoreIo path source => "io at " +:+ path_debug path +:+ ": " +:+ io_message source
  | StoreUnknownProgram id => "unknown program: " +:+ id
  | StoreBadStateTransition from to reason =>
      "bad state transition: " +:+ from +:+ " -> " +:+ to +:+ " (" +:+ reason +:+ ")"
  | StoreNotResumable m => "not resumable: " +:+ m
  | StoreUnknownAsset h => "unknown asset: " +:+ h
  | StoreSchemaNewer found supported =>
      "schema version " +:+ pretty found +:+ " is newer than supported version "
      +:+ pretty supported
  | StoreJson m => "json deserialize: " +:+ m
  end.
End store_error.

(** ** The schema *)

(* src: crates/vcli-store/src/migrations.rs 29-42 MIGRATIONS *)
Record ProgramRec := mkProgramRec {
  c_id : string;
  c_name : string;
  c_source_json : string;
  c_state : string;
  c_submitted_at : Z;
  c_started_at : option Z;
  c_finished_at : option Z;
  c_last_error_code : option string;
  c_last_error_msg : option string;
  c_labels_json : string;
  c_body_cursor : Z;
  c_body_entered_at : option Z;
}.

(* src: crates/vcli-store/src/migrations.rs 52-58 MIGRATIONS *)
Record EventRec := mkEventRec {
  e_id : Z; e_program_id : string; e_type : string; e_data_json : string; e_at : Z;
}.

(* src: crates/vcli-store/src/migrations.rs 62-67 MIGRATIONS *)
Record AssetRec := mkAssetRec {
  a_hash : string; a_byte_len : Z; a_extension : option string; a_added_at : Z;
}.

(* src: crates/vcli-store/src/migrations.rs 69-77 MIGRATIONS *)
Record TraceRec := mkTraceRec {
  tr_id : Z; tr_program_id : option string; tr_tick : Z; tr_at : Z; tr_kind : string;
  tr_payload_json : string;
}.

(** The tables, with the counters of the two [AUTOINCREMENT] columns. *)
(* src: crates/vcli-store/src/migrations.rs 22-78 MIGRATIONS *)
Record Tables := mkTables {
  t_programs : list ProgramRec;
  t_program_assets : list (string * string);
  t_events : list EventRec;
  t_events_seq : Z;
  t_assets : list AssetRec;
  t_traces : list TraceRec;
  t_traces_seq : Z;
}.

Definition empty_tables : Tables := mkTables [] [] [] 0 [] [] 0.

(** [schema_version] appears before the other tables do. *)
Record Db := mkDb { schema_version : option (list Z); tables : option Tables }.
Definition empty_db : Db := mkDb None None.

(* src: crates/vcli-store/src/store.rs 31-36 Store *)
Record Store := mkStore { data_root : Path; conn : Db; fs : Fs; calls : N }.

Definition set_conn (db : Db) (s : Store) : Store :=
  mkStore (data_root s) db (fs s) (calls s).
Definition set_fs (f : Fs) (s : Store) : Store :=
  mkStore (data_root s) (conn s) f (calls s).
Definition bump (s : Store) : Store :=
  mkStore (data_root s) (conn s) (fs s) (calls s + 1).

(** [ORDER BY key ASC, rowid ASC]: a stable sort. *)
Fixpoint insert_by {A} (key : A → Z) (x : A) (l : list A) : list A :=
  match l with
  | [] => [x]
  | y :: l' => if (key x <=? key y)%Z then x :: l else y :: insert_by key x l'
  end.
Definition order_by {A} (key : A → Z) (l : list A) : list A := foldr (insert_by key) [] l.

(** [UPDATE .. SET f WHERE c]: the rows after, and how many were touched. *)
Definition update_where {A} (c : A → bool) (f : A → A) (l : list A) : list A :=
  map (λ r, if c r then f r else r) l.
Definition count_where {A} (c : A → bool) (l : list A) : N :=
  N.of_nat (length (List.filter c l)).

(** Setters for the columns the statements write. *)
Definition set_programs (ps : list ProgramRec) (t : Tables) : Tables :=
  mkTables ps (t_program_assets t) (t_events t) (t_events_seq t) (t_assets t) (t_traces t)
    (t_traces_seq t).
Definition set_assets (l : list AssetRec) (t : Tables) : Tables :=
  mkTables (t_programs t) (t_program_assets t) (t_events t) (t_events_seq t) l (t_traces t)
    (t_traces_seq t).
Definition set_program_assets (l : list (string * string)) (t : Tables) : Tables :=
  mkTables (t_programs t) l (t_events t) (t_events_seq t) (t_assets t) (t_traces t)
    (t_traces_seq t).

(** The [sha2] and [hex] crates: the lower-case hexadecimal digest. *)
Class Sha2 := { sha2_hex : bytes → string }.

Section store.
  Context `{UuidOps, JsonText, Host, Sha2}.

(** ** Calls to the host *)

(** A statement runs on the database or fails and changes nothing. *)
Definition sql_call {A} (f : Db → result SqlError (A * Db)) : ST Store (result SqlError A) :=
  λ s, match sql_fault (calls s) with
       | Some e => Ret (Err e, bump s)
       | None => match f (conn s) with
                 | Ok (a, db) => Ret (Ok a, set_conn db (bump s))
                 | Err e => Ret (Err e, bump s)
                 end
       end.

(** [conn.execute(..)?] and [conn.query(..)?] on the tables. *)
Definition on_tables {A} (f : Tables → result SqlError (A * Tables)) (db : Db)
    : result SqlError (A * Db) :=
  match tables db with
  | None => Err NoSuchTable
  | Some t => '(a, t') ← f t; Ok (a, mkDb (schema_version db) (Some t'))
  end.
Definition sql {A} (f : Tables → result SqlError (A * Tables)) : ST Store (result StoreError A) :=
  r ← sql_call (on_tables f); mret (map_err StoreSqlite r).

(** A statement that only reads; [n] is the number of the call. *)
Definition query {A} (f : N → Tables → result SqlError A) : ST Store (result StoreError A) :=
  s ← get; sql (λ t, a ← f (calls s) t; Ok (a, t)).

(** [conn.transaction()?; ..; tx.commit()?]: an early return rolls back. *)
Definition transaction {A} (m : ST Store (result StoreError A)) : ST Store (result StoreError A) :=
  s ← get;
  _ ←! (r ← sql_call (λ db, Ok ((), db)); mret (map_err StoreSqlite r));
  r ← (a ←! m;
       _ ←! (r ← sql_call (λ db, Ok ((), db)); mret (map_err StoreSqlite r));
       sok a);
  match r with
  | Ok a => sok a
  | Err e => _ ← modify (set_conn (conn s)); serr e
  end.

Definition io_call {A} (f : fs_call A) : ST Store (result IoError A) :=
  λ s, match io_fault (calls s) with
       | Some e => Ret (Err e, bump s)
       | None => let '(f', r) := f (fs s) in Ret (r, set_fs f' (bump s))
       end.
(** [op(path).map_err(|e| StoreError::Io { path, source: e })?] *)
Definition io {A} (p : Path) (f : fs_call A) : ST Store (result StoreError A) :=
  r ← io_call f; mret (map_err (StoreIo p) r).

(** [Path::exists]: any error is [false]. *)
Definition exists_ (p : Path) : ST Store bool :=
  λ s, Ret (match io_fault (calls s) with Some _ => false | None => fs_exists (fs s) p end,
            bump s).

(** A failed [write_all] may have written a prefix. *)
Definition write_call (p : Path) (b : bytes) : ST Store (result IoError ()) :=
  λ s, match io_fault (calls s) with
       | Some e =>
           Ret (Err e, set_fs (write_all p (take (torn_write (calls s)) b) (fs s)).1 (bump s))
       | None => io_call (write_all p b) s
       end.

(** [fs::read_dir] followed by its entries. *)
Definition read_dir (d : Path) : ST Store (result StoreError (list DirEntry)) :=
  s ← get;
  io d (λ f, (f, if bool_decide (d ∈ dirs f)
                 then Ok (arrange (calls s) (dir_entries f d)) else Err NotFound)).

(** ** Paths ([paths.rs]) *)

(* src: crates/vcli-store/src/paths.rs 13-17 db_path *)
Definition db_path (root : Path) : Path := path_push root "vcli.db".
(* src: crates/vcli-store/src/paths.rs 19-23 assets_root *)
Definition assets_root (root : Path) : Path :=
  path_push (path_push root "assets") "sha256".

(** The slices panic off a character boundary; on the bytes of an ASCII name,
    which is all the [Rust] type would let a caller count on, they do not. *)
(** A [&str] is cut only between characters: not before a continuation byte. *)
Definition char_boundary (s : string) (i : nat) : bool :=
  match String.get i s with
  | Some a => let n := Ascii.nat_of_ascii a in (n <? 128)%nat || (192 <=? n)%nat
  | None => (i =? String.length s)%nat
  end.
(** The [assert] and the slices [[..2]] and [[2..4]] go through. *)
Definition shardable (hex_hash : string) : bool :=
  negb (String.length hex_hash <? 4)%nat && char_boundary hex_hash 2 && char_boundary hex_hash 4.

(* src: crates/vcli-store/src/paths.rs 25-48 asset_blob_path *)
Definition asset_blob_path (root : Path) (hex_hash : string) (ext : option string)
    : outcome Path :=
  if negb (shardable hex_hash) then Panic
  else
    let xx := String.substring 0 2 hex_hash in
    let yy := String.substring 2 2 hex_hash in
    let file_name := match ext with
                     | Some e => if string_is_empty e then hex_hash
                                 else hex_hash +:+ "." +:+ e
                     | None => hex_hash
                     end in
    Ret (path_push (path_push (path_push (assets_root root) xx) yy) file_name).

(** ** Opening ([store.rs], [pragmas.rs], [migrations.rs]) *)

(* src: crates/vcli-store/src/migrations.rs 19-20 LATEST_SCHEMA_VERSION *)
Definition LATEST_SCHEMA_VERSION : Z := 1.

(** The one migration: [CREATE TABLE IF NOT EXISTS] for every table. *)
(* src: crates/vcli-store/src/migrations.rs 22-78 MIGRATIONS *)
Definition MIGRATIONS : list (Db → Db) :=
  [λ db, mkDb (Some (default [] (schema_version db)))
              (Some (default empty_tables (tables db)))].

Definition to_u32 (z : Z) : option Z := if bool_decide (in_u32 z) then Some z else None.

(* src: crates/vcli-store/src/migrations.rs 80-92 current_version *)
Definition current_version : ST Store (result StoreError Z) :=
  _ ←! (r ← sql_call (λ db, Ok ((), mkDb (Some (default [] (schema_version db))) (tables db)));
        mret (map_err StoreSqlite r));
  v ← sql_call (λ db, match schema_version db with
                      | None => Err NoSuchTable
                      | Some [] => Err (OtherSql "null")
                      | Some (x :: l) => Ok (foldr Z.max x l, db)
                      end);
  sok (default 0%Z (to_u32 (default 0%Z (result_ok v)))).

(* src: crates/vcli-store/src/migrations.rs 94-119 run_migrations *)
Definition run_migrations : ST Store (result StoreError ()) :=
  cur ←! current_version;
  if (Z.of_nat (length MIGRATIONS) <? cur)%Z
  then serr (StoreSchemaNewer cur LATEST_SCHEMA_VERSION)
  else try_fold (λ _ '(i, migrate),
         let target := Z.of_nat (S i) in
         if (target <=? cur)%Z then sok ()
         else transaction
           (_ ←! (r ← sql_call (λ db, Ok ((), migrate db)); mret (map_err StoreSqlite r));
            r ← sql_call (λ db, match schema_version db with
                                | None => Err NoSuchTable
                                | Some vs => Ok ((), mkDb (Some (vs ++ [target])) (tables db))
                                end);
            mret (map_err StoreSqlite r)))
       () (imap pair MIGRATIONS).

(* src: crates/vcli-store/src/pragmas.rs 8-25 apply_pragmas *)
Definition apply_pragmas : ST Store (result StoreError ()) :=
  _ ←! (r ← sql_call (λ db, Ok ((), db)); mret (map_err StoreSqlite r));
  r ← sql_call (λ db, Ok ((), db)); mret (map_err StoreSqlite r).

(* src: crates/vcli-store/src/store.rs 20-29 RecoveredProgram *)
Record RecoveredProgram := mkRecovered { rec_id : ProgramId; rec_body_cursor : Z }.

Definition is_running (r : ProgramRec) : bool := bool_decide (c_state r = "running").

(** [UPDATE programs SET state = 'failed', last_error_code = .., ..] *)
(* src: crates/vcli-store/src/store.rs 316-324 recover_running_programs *)
Definition fail_running (r : ProgramRec) : ProgramRec :=
  mkProgramRec (c_id r) (c_name r) (c_source_json r) (ProgramState_as_str Failed)
    (c_submitted_at r) (c_started_at r) (c_finished_at r) (Some "daemon_restart")
    (Some "daemon restarted during execution") (c_labels_json r) (c_body_cursor r)
    (c_body_entered_at r).

(* src: crates/vcli-store/src/store.rs 291-328 recover_running_programs *)
Definition recover_running_programs : ST Store (result StoreError (list RecoveredProgram)) :=
  transaction
    (rows ←! query (λ n t, Ok (arrange n (map (λ r, (c_id r, c_body_cursor r))
                                            (List.filter is_running (t_programs t)))));
     recovered ←! try_fold (λ acc '(id_str, cursor),
         match ProgramId_from_str id_str with
         | None => serr (StoreUnknownProgram id_str)
         | Some id => sok (acc ++ [mkRecovered id (default 0%Z (to_u32 cursor))])
         end) [] rows;
     match recovered with
     | [] => sok recovered
     | _ =>
         _ ←! sql (λ t, Ok (count_where is_running (t_programs t),
                     set_programs (update_where is_running fail_running (t_programs t)) t));
         sok recovered
     end).

(** [Store::open]: the handle over [root] and the programs found running. *)
(* src: crates/vcli-store/src/store.rs 39-67 Store::open *)
Definition open (root : Path) : ST Store (result StoreError (list RecoveredProgram)) :=
  _ ← modify (λ s, mkStore root (conn s) (fs s) (calls s));
  _ ←! io root (create_dir_all root);
  let assets := assets_root root in
  _ ←! io assets (create_dir_all assets);
  _ ←! (r ← sql_call (λ db, Ok ((), db)); mret (map_err StoreSqlite r));
  _ ←! apply_pragmas;
  _ ←! run_migrations;
  recover_running_programs.

(** ** Programs ([store.rs], [resume.rs]) *)

(* src: crates/vcli-store/src/store.rs 246-261 NewProgram *)
Record NewProgram := mkNewProgram {
  np_id : ProgramId;
  np_name : string;
  np_source_json : string;
  np_state : ProgramState;
  np_submitted_at : Z;
  np_labels_json : string;
}.

(* src: crates/vcli-store/src/store.rs 262-289 ProgramRow *)
Record ProgramRow := mkProgramRow {
  pr_id : ProgramId;
  pr_name : string;
  pr_source_json : string;
  pr_state : ProgramState;
  pr_submitted_at : Z;
  pr_started_at : option Z;
  pr_finished_at : option Z;
  pr_last_error_code : option string;
  pr_last_error_msg : option string;
  pr_labels_json : string;
  pr_body_cursor : Z;
  pr_body_entered_at : option Z;
}.

(** [WHERE id = ?] *)
Definition has_id (id : ProgramId) (r : ProgramRec) : bool :=
  bool_decide (c_id r = ProgramId_to_string id).
Definition program_exists (id : string) (t : Tables) : bool :=
  existsb (λ r, bool_decide (c_id r = id)) (t_programs t).

(* src: crates/vcli-store/src/store.rs 84-105 Store::insert_program *)
Definition insert_program (row : NewProgram) : ST Store (result StoreError ()) :=
  sql (λ t,
    let id := ProgramId_to_string (np_id row) in
    if program_exists id t then Err ConstraintViolation
    else Ok ((), set_programs (t_programs t ++
           [mkProgramRec id (np_name row) (np_source_json row)
              (ProgramState_as_str (np_state row)) (np_submitted_at row) None None None None
              (np_labels_json row) 0 None]) t)).

(** The closure that decodes a row: the id must parse; [state] is decoded by
    the caller. *)
(* src: crates/vcli-store/src/store.rs 123-142 Store::get_program *)
Definition decode_row (state : string → option ProgramState) (r : ProgramRec)
    : option ProgramRow :=
  id ← ProgramId_from_str (c_id r); st ← state (c_state r);
  Some (mkProgramRow id (c_name r) (c_source_json r) st (c_submitted_at r) (c_started_at r)
          (c_finished_at r) (c_last_error_code r) (c_last_error_msg r) (c_labels_json r)
          (default 0%Z (to_u32 (c_body_cursor r))) (c_body_entered_at r)).

(** [query_row]: the first row, or [QueryReturnedNoRows]; the lookup that
    several operations share, with that error turned into [UnknownProgram]. *)
(* src: crates/vcli-store/src/store.rs 115-122 Store::get_program *)
Definition query_program (id : ProgramId) : ST Store (result StoreError ProgramRec) :=
  s ← get;
  r ← sql_call (on_tables (λ t, match List.filter (has_id id) (t_programs t) with
                                | [] => Err QueryReturnedNoRows
                                | r :: _ => Ok (r, t)
                                end));
  mret (map_err (λ e, match e with
                      | QueryReturnedNoRows => StoreUnknownProgram (ProgramId_to_string id)
                      | e => StoreSqlite e
                      end) r).

(* src: crates/vcli-store/src/store.rs 107-147 Store::get_program *)
Definition get_program (id : ProgramId) : ST Store (result StoreError ProgramRow) :=
  r ←! query_program id;
  row ← unwrap (decode_row (λ s, Some (default Pending (ProgramState_from_str s))) r);
  sok row.

(** [UPDATE programs SET .. WHERE id = ?] and its [n == 0] check. *)
(* src: crates/vcli-store/src/store.rs 161-173 Store::update_state *)
Definition update_program (id : ProgramId) (f : ProgramRec → ProgramRec)
    : ST Store (result StoreError ()) :=
  n ←! sql (λ t, Ok (count_where (has_id id) (t_programs t),
                     set_programs (update_where (has_id id) f (t_programs t)) t));
  if bool_decide (n = 0%N) then serr (StoreUnknownProgram (ProgramId_to_string id)) else sok ().

Definition or_else {A} (o p : option A) : option A := match o with Some _ => o | None => p end.

(** The [SET] clause: [COALESCE(started_at, CASE ..)] and the three terminal states. *)
(* src: crates/vcli-store/src/store.rs 161-167 Store::update_state *)
Definition with_state (new_state : ProgramState) (now_ms : Z) (r : ProgramRec) : ProgramRec :=
  let s := ProgramState_as_str new_state in
  mkProgramRec (c_id r) (c_name r) (c_source_json r) s (c_submitted_at r)
    (or_else (c_started_at r) (if bool_decide (s = "running") then Some now_ms else None))
    (if bool_decide (s ∈ ["completed"; "failed"; "cancelled"]) then Some now_ms
     else c_finished_at r)
    (c_last_error_code r) (c_last_error_msg r) (c_labels_json r) (c_body_cursor r)
    (c_body_entered_at r).

(* src: crates/vcli-store/src/store.rs 148-173 Store::update_state *)
Definition update_state (id : ProgramId) (new_state : ProgramState) (now_ms : Z)
    : ST Store (result StoreError ()) :=
  update_program id (with_state new_state now_ms).

Definition with_cursor (cursor : Z) (r : ProgramRec) : ProgramRec :=
  mkProgramRec (c_id r) (c_name r) (c_source_json r) (c_state r) (c_submitted_at r)
    (c_started_at r) (c_finished_at r) (c_last_error_code r) (c_last_error_msg r)
    (c_labels_json r) cursor (c_body_entered_at r).

(* src: crates/vcli-store/src/store.rs 174-187 Store::set_body_cursor *)
Definition set_body_cursor (id : ProgramId) (cursor : Z) : ST Store (result StoreError ()) :=
  update_program id (with_cursor cursor).

Definition with_error (code msg : string) (r : ProgramRec) : ProgramRec :=
  mkProgramRec (c_id r) (c_name r) (c_source_json r) (c_state r) (c_submitted_at r)
    (c_started_at r) (c_finished_at r) (Some code) (Some msg) (c_labels_json r)
    (c_body_cursor r) (c_body_entered_at r).

(** No check that a row was there. *)
(* src: crates/vcli-store/src/store.rs 189-200 Store::set_last_error *)
Definition set_last_error (id : ProgramId) (code msg : string) : ST Store (result StoreError ()) :=
  _ ←! sql (λ t, Ok (count_where (has_id id) (t_programs t),
                     set_programs (update_where (has_id id) (with_error code msg)
                                     (t_programs t)) t));
  sok ().

(** [rows.collect()] over a closure that unwraps. *)
Fixpoint unwrap_all {S A B} (f : A → option B) (l : list A) : ST S (list B) :=
  match l with
  | [] => mret []
  | x :: l => y ← unwrap (f x); ys ← unwrap_all f l; mret (y :: ys)
  end.

(* src: crates/vcli-store/src/store.rs 202-243 Store::list_programs *)
Definition list_programs (state_filter : option ProgramState)
    : ST Store (result StoreError (list ProgramRow)) :=
  let state_str := ProgramState_as_str <$> state_filter in
  rows ←! query (λ _ t, Ok (order_by c_submitted_at
            (List.filter (λ r, match state_str with
                               | None => true
                               | Some s => bool_decide (c_state r = s)
                               end) (t_programs t))));
  rows ← unwrap_all (decode_row ProgramState_from_str) rows;
  sok rows.

(** The two [UPDATE]s of [resume_program]. *)
(* src: crates/vcli-store/src/resume.rs 58-71 Store::resume_program *)
Definition resumed (new_cursor : Z) (r : ProgramRec) : ProgramRec :=
  mkProgramRec (c_id r) (c_name r) (c_source_json r) (ProgramState_as_str Running)
    (c_submitted_at r) (c_started_at r) None None None (c_labels_json r) new_cursor
    (c_body_entered_at r).
(* src: crates/vcli-store/src/resume.rs 72-76 Store::resume_program *)
Definition started (now_ms : Z) (r : ProgramRec) : ProgramRec :=
  mkProgramRec (c_id r) (c_name r) (c_source_json r) (c_state r)
    (c_submitted_at r) (or_else (c_started_at r) (Some now_ms)) (c_finished_at r)
    (c_last_error_code r) (c_last_error_msg r) (c_labels_json r) (c_body_cursor r)
    (c_body_entered_at r).

(** [ResumeOutcome] is its one field [from_step]. *)
(* src: crates/vcli-store/src/resume.rs 13-81 Store::resume_program *)
Definition resume_program (id : ProgramId) (from_start : bool) (now_ms : Z)
    : ST Store (result StoreError Z) :=
  transaction
    (r ←! query_program id;
     if bool_decide (c_state r ≠ ProgramState_as_str Failed)
        || bool_decide (c_last_error_code r ≠ Some "daemon_restart")
     then serr (StoreNotResumable
            ("program " +:+ ProgramId_to_string id +:+ " state=" +:+ c_state r +:+ " code="
             +:+ option_str_debug (c_last_error_code r)))
     else
       let new_cursor := if from_start then 0%Z else default 0%Z (to_u32 (c_body_cursor r)) in
       _ ←! sql (λ t, Ok (count_where (has_id id) (t_programs t),
                   set_programs (update_where (has_id id) (resumed new_cursor) (t_programs t)) t));
       _ ←! sql (λ t, Ok (count_where (has_id id) (t_programs t),
                   set_programs (update_where (has_id id) (started now_ms) (t_programs t)) t));
       sok new_cursor).

(** ** Events ([events.rs]) *)

(* src: crates/vcli-store/src/events.rs 10-23 StoredEvent *)
Record StoredEvent := mkStoredEvent {
  se_id : Z; se_program_id : ProgramId; se_type_tag : string; se_data_json : string; se_at : Z;
}.

(** The foreign key; the next id of the [AUTOINCREMENT] column. *)
(* src: crates/vcli-store/src/events.rs 26-42 Store::append_event *)
Definition append_event (program_id : ProgramId) (ev : Event) : ST Store (result StoreError Z) :=
  let type_tag := event_type_tag (ev_data ev) in
  let data_json := json_to_string (Event_to_value ev) in
  sql (λ t,
    let pid := ProgramId_to_string program_id in
    if negb (program_exists pid t) then Err ConstraintViolation
    else if (i64_max <=? t_events_seq t)%Z then Err DatabaseFull
    else
      let id := (t_events_seq t + 1)%Z in
      Ok (id, mkTables (t_programs t) (t_program_assets t)
                (t_events t ++ [mkEventRec id pid type_tag data_json (ev_at ev)]) id
                (t_assets t) (t_traces t) (t_traces_seq t))).

(* src: crates/vcli-store/src/events.rs 60-70 Store::stream_events *)
Definition decode_event (e : EventRec) : option StoredEvent :=
  pid ← ProgramId_from_str (e_program_id e);
  Some (mkStoredEvent (e_id e) pid (e_type e) (e_data_json e) (e_at e)).

(* src: crates/vcli-store/src/events.rs 44-72 Store::stream_events *)
Definition stream_events (since : Z) (limit : Z) : ST Store (result StoreError (list StoredEvent)) :=
  rows ←! query (λ _ t, Ok (take (Z.to_nat limit)
            (order_by e_id (List.filter (λ e, (since <? e_id e)%Z) (t_events t)))));
  rows ← unwrap_all decode_event rows;
  sok rows.

(** ** Assets ([assets.rs]) *)

(** An [AssetHash] is its hexadecimal text. *)
Abbreviation AssetHash := string.

(* src: crates/vcli-store/src/assets.rs 35-42 AssetHash::of_bytes *)
Definition of_bytes (b : bytes) : AssetHash := sha2_hex b.

(* src: crates/vcli-store/src/assets.rs 51-58 PutAssetOutcome *)
Record PutAssetOutcome := mkPutAsset { pa_hash : AssetHash; pa_created : bool }.

(** The file is written beside its destination and renamed; [sync_all]'s
    result is ignored. *)
(* src: crates/vcli-store/src/assets.rs 169-187 atomic_write *)
Definition atomic_write (path : Path) (b : bytes) : ST Store (result StoreError ()) :=
  let tmp_path := with_extension path "tmp" in
  _ ←! io tmp_path (create_file tmp_path);
  _ ←! (r ← write_call tmp_path b; mret (map_err (StoreIo tmp_path) r));
  _ ← modify bump;
  io path (rename tmp_path path).

(* src: crates/vcli-store/src/assets.rs 60-108 Store::put_asset *)
Definition put_asset (b : bytes) (ext : option string) (now_ms : Z)
    : ST Store (result StoreError PutAssetOutcome) :=
  let hash := of_bytes b in
  s ← get;
  path ← slift (asset_blob_path (data_root s) hash ext);
  found ← exists_ path;
  created ←! ((if (found : bool) then sok false
               else parent ← unwrap (path_parent path);
                    _ ←! io parent (create_dir_all parent);
                    _ ←! atomic_write path b;
                    sok true) : ST Store (result StoreError bool));
  _ ←! sql (λ t, Ok ((),
      if existsb (λ a, bool_decide (a_hash a = hash)) (t_assets t) then t
      else set_assets (t_assets t ++
             [mkAssetRec hash (Z.min i64_max (Z.of_nat (length b))) ext now_ms]) t));
  sok (mkPutAsset hash created).

(* src: crates/vcli-store/src/assets.rs 110-137 Store::get_asset *)
Definition get_asset (hash : AssetHash) : ST Store (result StoreError (option bytes)) :=
  r ← sql_call (on_tables (λ t,
        match List.filter (λ a, bool_decide (a_hash a = hash)) (t_assets t) with
        | [] => Err QueryReturnedNoRows
        | a :: _ => Ok (a_extension a, t)
        end));
  let ext := match r with Ok e => e | Err _ => None end in
  s ← get;
  path ← slift (asset_blob_path (data_root s) hash ext);
  f ← io_call (read_file path);
  match f with
  | Ok _ =>
      buf ←! io path (read_file path);
      sok (Some buf)
  | Err NotFound => sok None
  | Err e => serr (StoreIo path e)
  end.

(* src: crates/vcli-store/src/assets.rs 139-154 Store::link_program_asset *)
Definition link_program_asset (program_id : ProgramId) (hash : AssetHash)
    : ST Store (result StoreError ()) :=
  sql (λ t,
    let pid := ProgramId_to_string program_id in
    if existsb (λ l, bool_decide (l = (pid, hash))) (t_program_assets t) then Ok ((), t)
    else if negb (program_exists pid t) then Err ConstraintViolation
    else Ok ((), set_program_assets (t_program_assets t ++ [(pid, hash)]) t)).

(* src: crates/vcli-store/src/assets.rs 156-166 Store::referenced_asset_hashes *)
Definition referenced_asset_hashes : ST Store (result StoreError (list AssetHash)) :=
  query (λ n t, Ok (arrange n (remove_dups (snd <$> t_program_assets t)))).

(** ** Traces ([traces.rs]) *)

(* src: crates/vcli-store/src/traces.rs 12-28 TraceKind *)
Inductive TraceKind :=
  | TracePredicateEval | TraceStateChange | TraceActionDispatched | TraceActionDeferred
  | TraceWatchFired | TraceTickSkipped.

(* src: crates/vcli-store/src/traces.rs 30-43 TraceKind::as_str *)
Definition TraceKind_as_str (k : TraceKind) : string :=
  match k with
  | TracePredicateEval => "predicate_eval"
  | TraceStateChange => "state_change"
  | TraceActionDispatched => "action_dispatched"
  | TraceActionDeferred => "action_deferred"
  | TraceWatchFired => "watch_fired"
  | TraceTickSkipped => "tick_skipped"
  end.

(* src: crates/vcli-store/src/traces.rs 112-119 Store::read_traces *)
Definition TraceKind_of_column (s : string) : TraceKind :=
  if decide (s = "state_change") then TraceStateChange
  else if decide (s = "action_dispatched") then TraceActionDispatched
  else if decide (s = "action_deferred") then TraceActionDeferred
  else if decide (s = "watch_fired") then TraceWatchFired
  else if decide (s = "tick_skipped") then TraceTickSkipped
  else TracePredicateEval.

(* src: crates/vcli-store/src/traces.rs 45-58 TraceRecord *)
Record TraceRecord := mkTraceRecord {
  trace_tick : Z; trace_at : Z; trace_program_id : option ProgramId; trace_kind : TraceKind;
  trace_payload : Value;
}.

(** One [INSERT]; [program_id] may be null, otherwise it must exist. *)
(* src: crates/vcli-store/src/traces.rs 73-86 Store::flush_traces *)
Definition insert_trace (r : TraceRecord) : ST Store (result StoreError ()) :=
  sql (λ t,
    let pid := ProgramId_to_string <$> trace_program_id r in
    if match pid with Some p => negb (program_exists p t) | None => false end
    then Err ConstraintViolation
    else if (i64_max <=? t_traces_seq t)%Z then Err DatabaseFull
    else
      let id := (t_traces_seq t + 1)%Z in
      Ok ((), mkTables (t_programs t) (t_program_assets t) (t_events t) (t_events_seq t)
                (t_assets t)
                (t_traces t ++
                 [mkTraceRec id pid (Z.min i64_max (trace_tick r)) (trace_at r)
                    (TraceKind_as_str (trace_kind r)) (json_to_string (trace_payload r))]) id)).

(* src: crates/vcli-store/src/traces.rs 60-90 Store::flush_traces *)
Definition flush_traces (records : list TraceRecord) : ST Store (result StoreError ()) :=
  match records with
  | [] => sok ()
  | _ => transaction (try_fold (λ _ r, insert_trace r) () records)
  end.

(* src: crates/vcli-store/src/traces.rs 102-122 Store::read_traces *)
Definition decode_trace (r : TraceRec) : TraceRecord :=
  mkTraceRecord (if (0 <=? tr_tick r)%Z then tr_tick r else 0) (tr_at r)
    (p ← tr_program_id r; ProgramId_from_str p)
    (TraceKind_of_column (tr_kind r))
    (match json_from_str (tr_payload_json r) with Ok v => v | Err _ => Null end).

(* src: crates/vcli-store/src/traces.rs 92-124 Store::read_traces *)
Definition read_traces (program_id : ProgramId) : ST Store (result StoreError (list TraceRecord)) :=
  query (λ _ t, Ok (map decode_trace (order_by tr_id
    (List.filter (λ r, bool_decide (tr_program_id r = Some (ProgramId_to_string program_id)))
       (t_traces t))))).

(** ** Garbage collection ([gc.rs]) *)

(* src: crates/vcli-store/src/gc.rs 12-13 RETENTION_DAYS *)
Definition RETENTION_DAYS : Z := 7.

(* src: crates/vcli-store/src/gc.rs 15-27 GcReport *)
Record GcReport := mkGcReport {
  programs_deleted : Z; assets_deleted : Z; blobs_deleted : Z; orphan_blobs_deleted : Z;
}.

(** The [WHERE] clause of the [DELETE]. *)
(* src: crates/vcli-store/src/gc.rs 37-43 Store::gc_programs *)
Definition collectable (older_than : Z) (r : ProgramRec) : bool :=
  bool_decide (c_state r ∈ ["completed"; "failed"; "cancelled"])
  && match c_finished_at r with Some f => (f <? older_than)%Z | None => false end.

(** [DELETE FROM programs WHERE ..] with [ON DELETE CASCADE]. *)
(* src: crates/vcli-store/src/migrations.rs 45-74 MIGRATIONS *)
Definition delete_programs (c : ProgramRec → bool) (t : Tables) : Tables :=
  let gone (pid : string) := existsb (λ r, c r && bool_decide (c_id r = pid)) (t_programs t) in
  mkTables
    (List.filter (λ r, negb (c r)) (t_programs t))
    (List.filter (λ l : string * string, negb (gone l.1)) (t_program_assets t))
    (List.filter (λ e, negb (gone (e_program_id e))) (t_events t))
    (t_events_seq t)
    (t_assets t)
    (List.filter (λ r, match tr_program_id r with Some p => negb (gone p) | None => true end)
       (t_traces t))
    (t_traces_seq t).

(* src: crates/vcli-store/src/gc.rs 29-45 Store::gc_programs *)
Definition gc_programs (older_than : Z) : ST Store (result StoreError Z) :=
  n ←! sql (λ t, Ok (count_where (collectable older_than) (t_programs t),
                     delete_programs (collectable older_than) t));
  sok (default 0%Z (to_u32 (Z.of_N n))).

(** [hash NOT IN (SELECT DISTINCT asset_hash FROM program_assets)] *)
(* src: crates/vcli-store/src/gc.rs 54-66 Store::gc_assets *)
Definition unreferenced (t : Tables) (a : AssetRec) : bool :=
  bool_decide (a_hash a ∉ (snd <$> t_program_assets t)).

(* src: crates/vcli-store/src/gc.rs 67-78 Store::gc_assets *)
Definition delete_blob (n : Z) (a : string * option string) : ST Store (result StoreError Z) :=
  s ← get;
  path ← slift (asset_blob_path (data_root s) a.1 a.2);
  found ← exists_ path;
  if (found : bool) then _ ←! io path (remove_file path); sok (wrap_u32 (n + 1))
  else sok n.

(* src: crates/vcli-store/src/gc.rs 84-87 Store::gc_assets *)
Definition delete_asset_row (n : Z) (a : string * option string)
    : ST Store (result StoreError Z) :=
  k ←! sql (λ t, Ok (count_where (λ r, bool_decide (a_hash r = a.1)) (t_assets t),
                     set_assets (List.filter (λ r, negb (bool_decide (a_hash r = a.1)))
                                   (t_assets t)) t));
  sok (wrap_u32 (n + default 0%Z (to_u32 (Z.of_N k)))).

(* src: crates/vcli-store/src/gc.rs 47-93 Store::gc_assets *)
Definition gc_assets : ST Store (result StoreError (Z * Z)) :=
  unreferenced ←! query (λ n t, Ok (arrange n (map (λ a, (a_hash a, a_extension a))
                                    (List.filter (unreferenced t) (t_assets t)))));
  blobs_deleted ←! try_fold delete_blob 0%Z unreferenced;
  assets_deleted ←! transaction (try_fold delete_asset_row 0%Z unreferenced);
  sok (assets_deleted, blobs_deleted).

(** [walk_files]: [fuel] bounds the depth of the directories. *)
(* src: crates/vcli-store/src/gc.rs 173-197 walk_files *)
Fixpoint walk_files {A} (fuel : nat) (cb : A → Path → ST Store (result StoreError A)) (acc : A)
    (dir : Path) : ST Store (result StoreError A) :=
  match fuel with
  | O => out_of_fuel
  | S fuel =>
      entries ←! read_dir dir;
      try_fold (λ acc entry,
        _ ←! io dir (λ f, (f, Ok ()));
        match entry with
        | SubDir p => _ ←! io p (λ f, (f, Ok ())); walk_files fuel cb acc p
        | FileEntry p => _ ←! io p (λ f, (f, Ok ())); cb acc p
        end) acc entries
  end.

(** [s.ends_with(t)] *)
Definition ends_with (t s : string) : bool :=
  let n := String.length t in let m := String.length s in
  (n <=? m)%nat && bool_decide (String.substring (m - n) n s = t).

(** An orphan: a file whose stem is no known hash. *)
(* src: crates/vcli-store/src/gc.rs 115-117 Store::gc_orphan_blobs *)
Definition orphan_stem (known : list string) (p : Path) : option string :=
  stem ← file_stem p;
  if bool_decide (stem ∉ known) && negb (ends_with "tmp" stem) then Some stem else None.

Definition known_hashes : ST Store (result StoreError (list string)) :=
  query (λ _ t, Ok (map a_hash (t_assets t))).

(** The walk over the assets directory the two orphan operations share. *)
Definition walk_assets {A} (cb : list string → A → Path → ST Store (result StoreError A)) (acc : A)
    : ST Store (result StoreError A) :=
  known ←! known_hashes;
  s ← get;
  let root := assets_root (data_root s) in
  found ← exists_ root;
  if (found : bool) then s ← get; walk_files (S (size (dirs (fs s)))) (cb known) acc root
  else sok acc.

(** The count goes up whether or not the file could be removed. *)
(* src: crates/vcli-store/src/gc.rs 95-125 Store::gc_orphan_blobs *)
Definition gc_orphan_blobs : ST Store (result StoreError Z) :=
  walk_assets (λ known deleted path,
    match orphan_stem known path with
    | Some _ => _ ← io_call (remove_file path); sok (wrap_u32 (deleted + 1))
    | None => sok deleted
    end) 0%Z.

(* src: crates/vcli-store/src/gc.rs 127-141 Store::gc_all *)
Definition gc_all (older_than : Z) : ST Store (result StoreError GcReport) :=
  programs_deleted ←! gc_programs older_than;
  counts ←! gc_assets;
  let '(assets_deleted, blobs_deleted) := counts in
  orphan_blobs_deleted ←! gc_orphan_blobs;
  sok (mkGcReport programs_deleted assets_deleted blobs_deleted orphan_blobs_deleted).

(* src: crates/vcli-store/src/gc.rs 143-170 Store::list_orphan_blob_names *)
Definition list_orphan_blob_names : ST Store (result StoreError (list string)) :=
  walk_assets (λ known orphans path,
    sok match orphan_stem known path with Some stem => orphans ++ [stem] | None => orphans end) [].

End store.
