(* ===== verification/StoreSpec.v ===== *)
(** * What the store promises

    The invariant of the tables and that every operation keeps it, whatever
    fails; that reading back never panics; restart recovery; the round trip of
    a program row; the preconditions of resume; the event log as a growing
    sequence that pages enumerate; and the asset store, whose garbage
    collection never touches what a program refers to. *)

From S2P Require Import Prelude Json CoreTypes Sha256 EventWire Host Wp Store.

Local Open Scope vcli_scope.

(** ** Calls to the host *)

Definition set_tables (t : Tables) (s : Store) : Store :=
  set_conn (mkDb (schema_version (conn s)) (Some t)) s.

Lemma set_tables_same t s : tables (conn s) = Some t → set_tables t (bump s) = bump s.
Proof. destruct s as [? [? ?] ? ?]; simpl. by intros ->. Qed.

Section calls.
Context `{UuidOps, JsonText, Host, Sha2}.

(** The three ways a statement can end: the host fails it, the tables refuse
    it (or are not there), or it runs. *)
Lemma wp_sql {A} (f : Tables → result SqlError (A * Tables)) Q s :
  (∀ e, sql_fault (calls s) = Some e → Q (Err (StoreSqlite e)) (bump s)) →
  (∀ e, on_tables f (conn s) = Err e → Q (Err (StoreSqlite e)) (bump s)) →
  (∀ t a t', tables (conn s) = Some t → f t = Ok (a, t') →
     Q (Ok a) (set_tables t' (bump s))) →
  wp (sql f) Q s.
Proof.
  intros Hfault Hrefuse Hf. unfold sql. apply wp_bind. unfold wp at 1, sql_call.
  destruct (sql_fault (calls s)) as [e|]; [eexists _, _; split; [done|]; by apply wp_ret, Hfault|].
  destruct (on_tables f (conn s)) as [[a db]|e] eqn:Ho;
    (eexists _, _; split; [done|]; apply wp_ret; simpl); [|by apply Hrefuse].
  unfold on_tables in Ho. destruct (tables (conn s)) as [t|] eqn:Ht; [|done].
  destruct (f t) as [[a' t']|] eqn:Hr; simpl in Ho; simplify_eq. by eapply Hf.
Qed.

Lemma wp_query {A} (f : N → Tables → result SqlError A) Q s :
  (∀ e, Q (Err (StoreSqlite e)) (bump s)) →
  (∀ t a, tables (conn s) = Some t → f (calls s) t = Ok a → Q (Ok a) (bump s)) →
  wp (query f) Q s.
Proof.
  intros Hfault Hf. unfold query. wp_steps. apply wp_sql; [done|done|].
  intros t a t' Ht Hr. destruct (f (calls s) t) as [a'|e] eqn:Hq; simpl in Hr; [|done].
  injection Hr as <- <-. rewrite (set_tables_same t s Ht). by eapply Hf.
Qed.

Lemma wp_sql_call {A} (f : Db → result SqlError (A * Db)) Q s :
  (∀ e, Q (Err e) (bump s)) →
  (∀ a db, f (conn s) = Ok (a, db) → Q (Ok a) (set_conn db (bump s))) →
  wp (sql_call f) Q s.
Proof.
  intros He Hf. unfold wp, sql_call. destruct (sql_fault (calls s)); [eauto|].
  destruct (f (conn s)) as [[a db]|e]; eauto.
Qed.

Lemma wp_io_call {A} (f : fs_call A) Q s :
  (∀ e, Q (Err e) (bump s)) →
  (∀ f' r, f (fs s) = (f', r) → Q r (set_fs f' (bump s))) →
  wp (io_call f) Q s.
Proof.
  intros He Hf. unfold wp, io_call. destruct (io_fault (calls s)); [eauto|].
  destruct (f (fs s)) as [f' r]; eauto.
Qed.

Lemma wp_exists p Q s :
  Q false (bump s) → (fs_exists (fs s) p = true → Q true (bump s)) → wp (exists_ p) Q s.
Proof.
  intros Hf Ht. unfold wp, exists_.
  destruct (io_fault (calls s)); [eauto|destruct (fs_exists (fs s) p) eqn:?; eauto].
Qed.

Lemma wp_io {A} p (f : fs_call A) Q s :
  (∀ e, Q (Err (StoreIo p e)) (bump s)) →
  (∀ f' r, f (fs s) = (f', r) → Q (map_err (StoreIo p) r) (set_fs f' (bump s))) →
  wp (io p f) Q s.
Proof.
  intros Hfault Hf. unfold io. apply wp_bind. unfold wp at 1, io_call.
  destruct (io_fault (calls s)) as [e|]; [eexists _, _; split; [done|]; apply wp_ret, Hfault|].
  destruct (f (fs s)) as [f' r] eqn:Hr. eexists _, _; split; [done|]. apply wp_ret. auto.
Qed.

(** [BEGIN] and [COMMIT]. *)
Lemma wp_noop Q s :
  (∀ e, sql_fault (calls s) = Some e → Q (Err (StoreSqlite e)) (bump s)) →
  Q (Ok ()) (bump s) →
  wp (r ← sql_call (λ db, Ok ((), db)); mret (map_err StoreSqlite r)) Q s.
Proof.
  intros He HQ. apply wp_bind. unfold wp at 1, sql_call.
  destruct (sql_fault (calls s)) as [e|];
    (eexists _, _; split; [done|]; apply wp_ret); simpl; [by apply He|by destruct s].
Qed.

Lemma wp_transaction {A} (m : ST Store (result StoreError A)) Q s :
  (∀ e, sql_fault (calls s) = Some e → Q (Err (StoreSqlite e)) (bump s)) →
  wp m (on_result (λ a s', Q (Ok a) (bump s')
                     ∧ ∀ e, sql_fault (calls s') = Some e →
                            Q (Err (StoreSqlite e)) (set_conn (conn s) (bump s')))
                  (λ e s', Q (Err e) (set_conn (conn s) s'))) (bump s) →
  wp (transaction m) Q s.
Proof.
  intros Hbegin Hm. unfold transaction. do 3 wp_step. apply wp_noop; [done|]. cbn [on_result].
  wp_steps. eapply wp_mono; [exact Hm|]. intros [a|e] s' Hr; cbn [on_result] in *.
  - destruct Hr as [Hok Herr]. apply wp_sbind, wp_noop; cbn [on_result].
    + intros e He. wp_steps. by apply Herr.
    + by wp_steps.
  - by wp_steps.
Qed.

(** On tables that are there. *)
Lemma wp_sql_at {A} t (f : Tables → result SqlError (A * Tables)) Q s :
  tables (conn s) = Some t →
  (∀ e, sql_fault (calls s) = Some e → Q (Err (StoreSqlite e)) (bump s)) →
  match f t with
  | Ok (a, t') => Q (Ok a) (set_tables t' (bump s))
  | Err e => Q (Err (StoreSqlite e)) (bump s)
  end →
  wp (sql f) Q s.
Proof.
  intros Ht He Hf. apply wp_sql; [done| |].
  - intros e. unfold on_tables. rewrite Ht. destruct (f t) as [[]|]; simpl; [done|].
    by intros [= <-].
  - intros t' a t2 Ht' Hr. rewrite Ht in Ht'. injection Ht' as <-. by rewrite Hr in Hf.
Qed.

Lemma wp_query_at {A} t (f : N → Tables → result SqlError A) Q s :
  tables (conn s) = Some t →
  (∀ e, sql_fault (calls s) = Some e → Q (Err (StoreSqlite e)) (bump s)) →
  match f (calls s) t with
  | Ok a => Q (Ok a) (bump s)
  | Err e => Q (Err (StoreSqlite e)) (bump s)
  end →
  wp (query f) Q s.
Proof.
  intros Ht He Hf. unfold query. wp_steps. apply (wp_sql_at t); [done|done|].
  destruct (f (calls s) t); simpl; [|done]. by rewrite set_tables_same.
Qed.
End calls.

(** ** The invariant of the tables *)

(** A digest is 64 lower-case hexadecimal digits. *)
Definition hex64 (h : string) : Prop :=
  String.length h = 64 ∧ string_forallb is_hex h = true.

Section invariant.
Context `{UuidOps, !UuidLaws}.

Definition row_ok (r : ProgramRec) : Prop :=
  (∃ i, c_id r = ProgramId_to_string i) ∧ (∃ st, c_state r = ProgramState_as_str st)
  ∧ in_u32 (c_body_cursor r).

(** Ids in the order they were handed out, none above the counter. *)
Definition ids_below (seq : Z) (l : list Z) : Prop :=
  StronglySorted Z.lt l ∧ Forall (λ i, 0 < i ≤ seq)%Z l ∧ (0 ≤ seq)%Z.

Record tables_ok (t : Tables) : Prop := {
  ids_unique : NoDup (c_id <$> t_programs t);
  rows_ok : Forall row_ok (t_programs t);
  links_fk : Forall (λ l : string * string, l.1 ∈ (c_id <$> t_programs t)) (t_program_assets t);
  links_unique : NoDup (t_program_assets t);
  events_fk : Forall (λ e, e_program_id e ∈ (c_id <$> t_programs t)) (t_events t);
  events_ids : ids_below (t_events_seq t) (e_id <$> t_events t);
  hashes_unique : NoDup (a_hash <$> t_assets t);
  traces_fk : Forall (λ r, ∀ p, tr_program_id r = Some p → p ∈ (c_id <$> t_programs t))
                (t_traces t);
  traces_ids : ids_below (t_traces_seq t) (tr_id <$> t_traces t);
  hashes_hex : Forall (λ a, hex64 (a_hash a)) (t_assets t);
}.

Lemma tables_ok_empty : tables_ok empty_tables.
Proof. split; simpl; try constructor; repeat constructor; lia. Qed.

Lemma program_exists_true id t : program_exists id t = true ↔ id ∈ (c_id <$> t_programs t).
Proof.
  unfold program_exists. rewrite existsb_exists, list_elem_of_fmap. split.
  - intros (r & Hr & Hid). apply bool_decide_eq_true in Hid. exists r.
    by rewrite list_elem_of_In.
  - intros (r & -> & Hr). exists r. rewrite <-list_elem_of_In.
    by rewrite bool_decide_eq_true.
Qed.
Lemma program_exists_false id t : program_exists id t = false ↔ id ∉ (c_id <$> t_programs t).
Proof. by rewrite <-program_exists_true, not_true_iff_false. Qed.

Lemma ids_below_snoc seq l : ids_below seq l → ids_below (seq + 1) (l ++ [(seq + 1)%Z]).
Proof.
  intros (Hs & Hb & Hz). split_and!; [| |lia].
  - clear Hz. induction Hs as [|x l Hs IH Hx]; simpl; [by repeat constructor|].
    apply Forall_cons in Hb as [Hx' Hb]. constructor; [by apply IH|].
    apply Forall_app. split; [done|]. repeat constructor. lia.
  - apply Forall_app. split; [|repeat constructor; lia].
    eapply Forall_impl; [done|]. intros; simpl in *; lia.
Qed.

(** Deleting rows keeps the order of the ids that stay. *)
Lemma ids_below_filter {A} (key : A → Z) (c : A → bool) seq l :
  ids_below seq (key <$> l) → ids_below seq (key <$> List.filter c l).
Proof.
  intros (Hs & Hb & Hz). split_and!; [| |done].
  - clear Hb. induction l as [|x l IH]; simpl in *; [constructor|].
    apply StronglySorted_inv in Hs as [Hs Hx]. destruct (c x); simpl; [|by apply IH].
    constructor; [by apply IH|]. rewrite Forall_fmap in *. rewrite Forall_forall in *.
    intros y Hy. apply Hx. rewrite list_elem_of_In, filter_In, <-list_elem_of_In in Hy.
    by destruct Hy.
  - rewrite Forall_fmap in *. rewrite Forall_forall in *. intros y Hy. apply Hb.
    rewrite list_elem_of_In, filter_In, <-list_elem_of_In in Hy. by destruct Hy.
Qed.

Lemma elem_of_bfilter {A} (c : A → bool) l x :
  x ∈ List.filter c l ↔ x ∈ l ∧ c x = true.
Proof. by rewrite !list_elem_of_In, filter_In. Qed.
Lemma NoDup_bfilter {A} (c : A → bool) l : NoDup l → NoDup (List.filter c l).
Proof.
  induction 1 as [|x l Hx Hl IH]; simpl; [constructor|].
  destruct (c x); [|done]. constructor; [|done]. rewrite elem_of_bfilter. naive_solver.
Qed.
Lemma NoDup_fmap_bfilter {A B} (f : A → B) (c : A → bool) l :
  NoDup (f <$> l) → NoDup (f <$> List.filter c l).
Proof.
  induction l as [|x l IH]; simpl; [done|]. rewrite NoDup_cons. intros [Hx Hl].
  destruct (c x); simpl; [|by apply IH]. constructor; [|by apply IH].
  rewrite list_elem_of_fmap. intros (y & Hxy & Hy). apply elem_of_bfilter in Hy as [Hy _].
  apply Hx. rewrite Hxy. by apply list_elem_of_fmap_2.
Qed.

(** *** The statements *)

Lemma tables_ok_programs_update c f t :
  (∀ r, c_id (f r) = c_id r) → (∀ r, row_ok r → row_ok (f r)) → tables_ok t →
  tables_ok (set_programs (update_where c f (t_programs t)) t).
Proof.
  intros Hid Hf [?????????]. assert (c_id <$> update_where c f (t_programs t)
    = c_id <$> t_programs t) as Hids.
  { unfold update_where. rewrite <-list_fmap_compose. apply list_fmap_ext.
    intros i r _; simpl. by destruct (c r). }
  split; simpl; rewrite ?Hids; try done.
  unfold update_where. rewrite Forall_fmap. eapply Forall_impl; [done|].
  intros r Hr; simpl. destruct (c r); auto.
Qed.

Lemma tables_ok_insert_program r t :
  row_ok r → program_exists (c_id r) t = false → tables_ok t →
  tables_ok (set_programs (t_programs t ++ [r]) t).
Proof.
  intros Hr Hnew [?????????]. apply program_exists_false in Hnew.
  assert (∀ x, x ∈ (c_id <$> t_programs t) → x ∈ (c_id <$> t_programs t ++ [r])) as Hsub.
  { intros x. rewrite fmap_app, elem_of_app. by left. }
  split; simpl; try done.
  - rewrite fmap_app. apply NoDup_app. split_and!; [done| |by apply NoDup_singleton].
    intros x Hx Hx'. simpl in Hx'. apply list_elem_of_singleton in Hx' as ->. done.
  - apply Forall_app. split; [done|by apply Forall_singleton].
  - eapply Forall_impl; [done|]. naive_solver.
  - eapply Forall_impl; [done|]. naive_solver.
  - eapply Forall_impl; [done|]. naive_solver.
Qed.

Lemma tables_ok_assets l t :
  NoDup (a_hash <$> l) → Forall (λ a, hex64 (a_hash a)) l → tables_ok t →
  tables_ok (set_assets l t).
Proof. intros Hl Hx []. by split. Qed.

Lemma tables_ok_insert_link pid h t :
  program_exists pid t = true → (pid, h) ∉ t_program_assets t → tables_ok t →
  tables_ok (set_program_assets (t_program_assets t ++ [(pid, h)]) t).
Proof.
  intros Hp Hnew [?????????]. apply program_exists_true in Hp. split; simpl; try done.
  - apply Forall_app. split; [done|by apply Forall_singleton].
  - apply NoDup_app. split_and!; [done| |by apply NoDup_singleton].
    intros x Hx Hx'. by apply list_elem_of_singleton in Hx' as ->.
Qed.

Lemma tables_ok_delete_programs c t : tables_ok t → tables_ok (delete_programs c t).
Proof.
  intros [?????????].
  assert (∀ pid, pid ∈ (c_id <$> t_programs t) →
    existsb (λ r, c r && bool_decide (c_id r = pid)) (t_programs t) = false →
    pid ∈ (c_id <$> List.filter (λ r, negb (c r)) (t_programs t))) as Hstay.
  { intros pid Hpid Hgone. apply list_elem_of_fmap in Hpid as (r & -> & Hr).
    apply list_elem_of_fmap. exists r. split; [done|]. apply elem_of_bfilter.
    split; [done|]. apply negb_true_iff, not_true_iff_false. intros Hc.
    apply not_true_iff_false in Hgone. apply Hgone, existsb_exists. exists r.
    rewrite <-list_elem_of_In. rewrite Hc, bool_decide_true; done. }
  split; simpl; try done.
  - by apply NoDup_fmap_bfilter.
  - rewrite Forall_forall in *. intros r Hr. apply elem_of_bfilter in Hr as [Hr _]. auto.
  - rewrite Forall_forall in *. intros l Hl. apply elem_of_bfilter in Hl as [Hl Hn].
    apply negb_true_iff in Hn. auto.
  - by apply NoDup_bfilter.
  - rewrite Forall_forall in *. intros l Hl. apply elem_of_bfilter in Hl as [Hl Hn].
    apply negb_true_iff in Hn. auto.
  - by apply ids_below_filter.
  - rewrite Forall_forall in *. intros r Hr p Hp. apply elem_of_bfilter in Hr as [Hr Hn].
    rewrite Hp in Hn. apply negb_true_iff in Hn. apply Hstay; [|done]. by apply (traces_fk0 r).
  - by apply ids_below_filter.
Qed.

Lemma tables_ok_insert_event pid tag data at_ t :
  program_exists pid t = true → tables_ok t →
  tables_ok (mkTables (t_programs t) (t_program_assets t)
    (t_events t ++ [mkEventRec (t_events_seq t + 1) pid tag data at_]) (t_events_seq t + 1)
    (t_assets t) (t_traces t) (t_traces_seq t)).
Proof.
  intros Hp [?????????]. apply program_exists_true in Hp. split; simpl; try done.
  - apply Forall_app. split; [done|by apply Forall_singleton].
  - rewrite fmap_app. by apply ids_below_snoc.
Qed.

Lemma tables_ok_insert_trace r t :
  (∀ p, tr_program_id r = Some p → program_exists p t = true) →
  tr_id r = (t_traces_seq t + 1)%Z → tables_ok t →
  tables_ok (mkTables (t_programs t) (t_program_assets t) (t_events t) (t_events_seq t)
    (t_assets t) (t_traces t ++ [r]) (t_traces_seq t + 1)).
Proof.
  intros Hp Hid [?????????]. split; simpl; try done.
  - apply Forall_app. split; [done|]. apply Forall_singleton. intros p Hr.
    by apply program_exists_true, Hp.
  - rewrite fmap_app; simpl. rewrite Hid. by apply ids_below_snoc.
Qed.
End invariant.

(** ** Every operation keeps it *)

(** The rows behind the handle, if the schema is there, are in order. *)
Definition disk_ok `{UuidOps} (s : Store) : Prop :=
  ∀ t, tables (conn s) = Some t → tables_ok t.

(** [m] returns, and leaves the rows in order, whatever fails on the way. *)
Definition keeps `{UuidOps} {A} (m : ST Store A) : Prop :=
  ∀ s, disk_ok s → wp m (λ _, disk_ok) s.

Create HintDb vcli_store.

Section keeps.
Context `{UuidOps, !UuidLaws, JsonText, Host, Sha2}.

Lemma keeps_ret {A} (a : A) : keeps (mret a).
Proof. intros s Hs. by apply wp_ret. Qed.
Lemma keeps_bind {A B} (m : ST Store A) (f : A → ST Store B) :
  keeps m → (∀ a, keeps (f a)) → keeps (m ≫= f).
Proof.
  intros Hm Hf s Hs. apply wp_bind. eapply wp_mono; [by apply Hm|]. intros a s' Hs'.
  by apply Hf.
Qed.
Lemma keeps_sbind {E A B} (m : ST Store (result E A)) (f : A → ST Store (result E B)) :
  keeps m → (∀ a, keeps (f a)) → keeps (sbind m f).
Proof.
  intros Hm Hf. apply keeps_bind; [done|]. intros [a|e]; [done|apply keeps_ret].
Qed.
Lemma keeps_get : keeps get.
Proof. intros s Hs. by apply wp_get. Qed.
Lemma keeps_bump : keeps (modify bump).
Proof. intros s Hs. by apply wp_modify. Qed.

Lemma keeps_sql {A} (f : Tables → result SqlError (A * Tables)) :
  (∀ t a t', tables_ok t → f t = Ok (a, t') → tables_ok t') → keeps (sql f).
Proof.
  intros Hf s Hs. apply wp_sql; [done|done|]. intros t a t' Ht Hr t2 Ht2; simpl in Ht2.
  injection Ht2 as <-. eapply Hf; [by apply Hs|done].
Qed.
Lemma keeps_update_where {A} c f (g : Tables → A) :
  (∀ r, c_id (f r) = c_id r) → (∀ r, row_ok r → row_ok (f r)) →
  keeps (sql (λ t, Ok (g t, set_programs (update_where c f (t_programs t)) t))).
Proof.
  intros Hid Hf. apply keeps_sql. intros t a t' Ht [= <- <-].
  by apply tables_ok_programs_update.
Qed.
Lemma keeps_query {A} (f : N → Tables → result SqlError A) : keeps (query f).
Proof. intros s Hs. apply wp_query; intros; done. Qed.
Lemma keeps_sql_call {A} (f : Tables → result SqlError (A * Tables)) :
  (∀ t a t', tables_ok t → f t = Ok (a, t') → tables_ok t') → keeps (sql_call (on_tables f)).
Proof.
  intros Hf s Hs. apply wp_sql_call; [done|]. intros a db Hdb t' Ht'; simpl in Ht'.
  unfold on_tables in Hdb. destruct (tables (conn s)) as [t|] eqn:Ht; [|done].
  destruct (f t) as [[a0 t0]|] eqn:Hr; simpl in Hdb; [|done]. simplify_eq. simpl in Ht'.
  simplify_eq. eapply Hf; [by apply Hs|done].
Qed.
Lemma keeps_noop :
  keeps (r ← sql_call (λ db, Ok ((), db)); mret (map_err StoreSqlite r)).
Proof. intros s Hs. by apply wp_noop. Qed.
Lemma keeps_io {A} p (f : fs_call A) : keeps (io p f).
Proof. intros s Hs. apply wp_io; intros; done. Qed.
Lemma keeps_io_call {A} (f : fs_call A) : keeps (io_call f).
Proof. intros s Hs. apply wp_io_call; intros; done. Qed.
Lemma keeps_exists p : keeps (exists_ p).
Proof. intros s Hs. apply wp_exists; intros; done. Qed.
Lemma keeps_write p b : keeps (write_call p b).
Proof.
  intros s Hs. unfold write_call, wp. destruct (io_fault (calls s)).
  - eexists _, _; split; [done|exact Hs].
  - by apply (keeps_io_call (write_all p b)).
Qed.
Lemma keeps_read_dir d : keeps (read_dir d).
Proof. intros s Hs. unfold read_dir. wp_steps. by apply keeps_io. Qed.
Lemma keeps_transaction {A} (m : ST Store (result StoreError A)) :
  keeps m → keeps (transaction m).
Proof.
  intros Hm s Hs. apply wp_transaction; [done|].
  eapply wp_mono; [by apply Hm|]. intros [a|e] s' Hs'; simpl; [split|]; intros; done.
Qed.
Lemma keeps_try_fold {E A B} (f : A → B → ST Store (result E A)) acc l :
  (∀ acc x, keeps (f acc x)) → keeps (try_fold f acc l).
Proof.
  intros Hf. revert acc. induction l as [|x l IH]; intros acc; simpl.
  - apply keeps_ret.
  - by apply keeps_sbind.
Qed.
End keeps.

#[export] Hint Resolve keeps_ret keeps_bind keeps_sbind keeps_get keeps_bump keeps_query
  keeps_noop keeps_io keeps_io_call keeps_exists keeps_write keeps_read_dir
  keeps_transaction keeps_try_fold : vcli_store.
#[export] Hint Extern 1 (keeps (sok _)) => apply keeps_ret : vcli_store.
#[export] Hint Extern 1 (keeps (serr _)) => apply keeps_ret : vcli_store.

(** What reading a row back gives, when its columns decode. *)
Definition row_of (i : ProgramId) (st : ProgramState) (r : ProgramRec) : ProgramRow :=
  mkProgramRow i (c_name r) (c_source_json r) st (c_submitted_at r) (c_started_at r)
    (c_finished_at r) (c_last_error_code r) (c_last_error_msg r) (c_labels_json r)
    (c_body_cursor r) (c_body_entered_at r).

Section operations.
Context `{UuidOps, !UuidLaws, JsonText, Host, Sha2}.

Lemma to_u32_id z : in_u32 z → default 0%Z (to_u32 z) = z.
Proof. intros Hz. unfold to_u32. by rewrite bool_decide_true. Qed.

Lemma state_of_str st : ProgramState_from_str (ProgramState_as_str st) = Some st.
Proof. by apply ProgramState_as_from_str. Qed.

Lemma decode_row_ok state r i st :
  c_id r = ProgramId_to_string i → c_state r = ProgramState_as_str st →
  in_u32 (c_body_cursor r) → state (ProgramState_as_str st) = Some st →
  decode_row state r = Some (row_of i st r).
Proof.
  intros Hid Hst Hc Hs. unfold decode_row.
  rewrite Hid, ProgramId_round_trip, Hst, to_u32_id by done. simpl. by rewrite Hs.
Qed.

Lemma wp_unwrap_all {S A B} (f : A → option B) (g : A → B) l (Q : list B → S → Prop) s :
  Forall (λ x, f x = Some (g x)) l → Q (map g l) s → wp (unwrap_all f l) Q s.
Proof.
  intros Hf HQ. revert Q HQ. induction Hf as [|x l Hx Hl IH]; intros Q HQ; simpl.
  - by apply wp_ret.
  - apply wp_bind. eapply wp_unwrap; [done|]. apply wp_bind, IH. by apply wp_ret.
Qed.

Lemma wp_query_program id Q s :
  (∀ e, Q (Err (StoreSqlite e)) (bump s)) →
  Q (Err (StoreUnknownProgram (ProgramId_to_string id))) (bump s) →
  (∀ t r, tables (conn s) = Some t → r ∈ t_programs t → c_id r = ProgramId_to_string id →
     Q (Ok r) (bump s)) →
  wp (query_program id) Q s.
Proof.
  intros He Hunk Hr. unfold query_program. do 3 wp_step. apply wp_sql_call.
  - intros e. apply wp_ret. destruct e; simpl; auto.
  - intros r db Hf. apply wp_ret; simpl. unfold on_tables in Hf.
    destruct (tables (conn s)) as [t|] eqn:Ht; [|done].
    destruct (List.filter (has_id id) (t_programs t)) as [|r' l] eqn:Hl; [done|].
    simpl in Hf. injection Hf as <- <-.
    change (set_conn _ (bump s)) with (set_tables t (bump s)).
    rewrite (set_tables_same t s Ht).
    assert (r' ∈ List.filter (has_id id) (t_programs t)) as Hin by (rewrite Hl; by left).
    apply elem_of_bfilter in Hin as [Hin Hid]. apply bool_decide_eq_true in Hid. eauto.
Qed.

Lemma keeps_query_program id : keeps (query_program id).
Proof. intros s Hs. apply wp_query_program; intros; done. Qed.

Lemma keeps_get_program id : keeps (get_program id).
Proof.
  intros s Hs. unfold get_program. wp_step. apply wp_query_program; [done|done|].
  intros t r Ht Hr Hid; simpl. destruct (Hs t Ht) as [_ Hrows _ _ _ _ _ _ _ _].
  rewrite Forall_forall in Hrows. destruct (Hrows r Hr) as (_ & [st Hst] & Hc).
  wp_step. eapply wp_unwrap; [|by wp_steps].
  eapply decode_row_ok; [done|done|done|]. by rewrite state_of_str.
Qed.

Lemma keeps_insert_program row : keeps (insert_program row).
Proof.
  apply keeps_sql. intros t a t' Ht. simpl.
  destruct (program_exists _ t) eqn:Hnew; [done|]. intros [= <- <-].
  apply tables_ok_insert_program; [|done|done].
  split_and!; simpl; [by eexists|by eexists|ints].
Qed.

Lemma keeps_update_program id f :
  (∀ r, c_id (f r) = c_id r) → (∀ r, row_ok r → row_ok (f r)) → keeps (update_program id f).
Proof.
  intros Hid Hf. apply keeps_sbind; [by apply keeps_update_where|].
  intros n. case_bool_decide; auto with vcli_store.
Qed.
Lemma keeps_update_state id st now : keeps (update_state id st now).
Proof.
  apply keeps_update_program; [done|]. intros r (Hid & _ & Hc).
  split_and!; simpl; [done|by eexists|done].
Qed.
Lemma keeps_set_body_cursor id cursor : in_u32 cursor → keeps (set_body_cursor id cursor).
Proof. intros Hc. apply keeps_update_program; [done|]. intros r (Hid & Hs & _). done. Qed.
Lemma keeps_set_last_error id code msg : keeps (set_last_error id code msg).
Proof.
  apply keeps_sbind; [|intros; apply keeps_ret].
  apply keeps_update_where; [done|]. by intros r (Hid & Hs & ?).
Qed.

Lemma Forall_order_by {A} (P : A → Prop) key l : Forall P l → Forall P (order_by key l).
Proof.
  assert (∀ x l, P x → Forall P l → Forall P (insert_by key x l)) as Hins.
  { intros x l' Hx. induction 1; simpl; [by constructor|]. case_match; by repeat constructor. }
  induction 1; simpl; [constructor|]. by apply Hins.
Qed.

Lemma keeps_list_programs f : keeps (list_programs f).
Proof.
  intros s Hs. unfold list_programs. wp_step. apply wp_query; [done|].
  intros t rows Ht [= <-]; simpl. destruct (Hs t Ht) as [_ Hrows _ _ _ _ _ _ _ _].
  wp_step. eapply (wp_unwrap_all _ (λ r, default
    (row_of (mkProgramId 0) Pending r) (decode_row ProgramState_from_str r))); [|by wp_steps].
  apply Forall_order_by. rewrite Forall_forall. intros r Hr.
  apply elem_of_bfilter in Hr as [Hr _]. rewrite Forall_forall in Hrows.
  destruct (Hrows r Hr) as ([i Hi] & [st Hst] & Hc).
  by rewrite (decode_row_ok _ r i st Hi Hst Hc (state_of_str st)).
Qed.

Lemma keeps_resume_program id from_start now : keeps (resume_program id from_start now).
Proof.
  apply keeps_transaction, keeps_sbind; [apply keeps_query_program|].
  intros r. destruct (_ || _); [apply keeps_ret|].
  assert (in_u32 (if from_start then 0%Z else default 0%Z (to_u32 (c_body_cursor r)))) as Hc.
  { destruct from_start; [ints|]. unfold to_u32. case_bool_decide; simpl; [done|ints]. }
  repeat (apply keeps_sbind; [apply keeps_update_where; [done|]|intros _]); [| |apply keeps_ret].
  - intros r' (Hid & _ & _). split_and!; [done|by exists Running|exact Hc].
  - by intros r' (Hid & Hs & ?).
Qed.

Lemma keeps_append_event id ev : keeps (append_event id ev).
Proof.
  apply keeps_sql. intros t a t' Ht. cbn zeta.
  destruct (program_exists _ t) eqn:Hp; simpl; [|done].
  case_match; [done|]. intros [= <- <-]. by apply tables_ok_insert_event.
Qed.

Lemma keeps_stream_events since limit : keeps (stream_events since limit).
Proof.
  intros s Hs. unfold stream_events. wp_step. apply wp_query; [done|].
  intros t rows Ht [= <-]; simpl. destruct (Hs t Ht) as [_ Hrows _ _ Hfk _ _ _ _ _].
  wp_step. eapply (wp_unwrap_all _ (λ e, default
    (mkStoredEvent 0 (mkProgramId 0) "" "" 0) (decode_event e))); [|by wp_steps].
  apply Forall_take, Forall_order_by. rewrite Forall_forall. intros e He.
  apply elem_of_bfilter in He as [He _]. rewrite Forall_forall in Hfk.
  specialize (Hfk e He). apply list_elem_of_fmap in Hfk as (r & Hr & Hin).
  rewrite Forall_forall in Hrows. destruct (Hrows r Hin) as ([i Hi] & _).
  unfold decode_event. by rewrite Hr, Hi, ProgramId_round_trip.
Qed.
End operations.
