(* ===== verification/StoreGc.v ===== *)
(** * The asset store and its garbage collection

    Where a blob lives, that the operations on assets, traces and garbage
    keep the tables in order, and what garbage collection leaves alone. *)

From S2P Require Import Prelude Json CoreTypes Sha256 EventWire Host Wp Store StoreSpec.

Local Open Scope vcli_scope.
#[local] Set Default Proof Using "All".

Class Sha2Laws `{Sha2} : Prop := sha2_shape b : hex64 (sha2_hex b).

(** ** Paths of blobs *)

Lemma string_forallb_substring f n m s :
  string_forallb f s = true → string_forallb f (String.substring n m s) = true.
Proof.
  revert n m. induction s as [|a s IH]; intros [|n] [|m]; simpl; try done;
    rewrite andb_true_iff; intros [Ha Hs]; try by apply IH.
  by rewrite Ha, (IH 0 m).
Qed.

Lemma plain_component_hex c :
  string_forallb is_hex c = true → c ≠ "" → plain_component c = true.
Proof.
  intros Hc Hne. unfold plain_component. rewrite !andb_true_iff, !negb_true_iff.
  rewrite !bool_decide_eq_false. split_and!; [|done|by intros ->].
  clear Hne. induction c as [|a c IH]; simpl in *; [done|].
  apply andb_true_iff in Hc as [Ha Hc]. rewrite IH, andb_true_r by done.
  apply bool_decide_eq_true. by intros ->.
Qed.

(** An extension that is one: no separator, no dot, and not the [tmp] of a
    half-written file. *)
Definition ext_ok (ext : option string) : Prop :=
  match ext with
  | Some e => plain_component e = true ∧ not_in_string "." e ∧ e ≠ "tmp"
  | None => True
  end.

Definition blob_name (h : string) (ext : option string) : string :=
  match ext with Some e => h +:+ "." +:+ e | None => h end.

Definition blob_dir (root : Path) (h : string) : Path :=
  mkPath (absolute root)
    (comps root ++ ["assets"; "sha256"; String.substring 0 2 h; String.substring 2 2 h]).
Definition blob_path (root : Path) (h : string) (ext : option string) : Path :=
  mkPath (absolute root) (comps (blob_dir root h) ++ [blob_name h ext]).

Lemma plain_component_app c d :
  plain_component c = true → plain_component d = true →
  plain_component (c +:+ "." +:+ d) = true.
Proof.
  unfold plain_component. rewrite !andb_true_iff, !negb_true_iff, !bool_decide_eq_false.
  intros [[Hc Hc0] _] [[Hd Hd0] _]. rewrite !string_forallb_app, Hc, Hd. split_and!; [done| |].
  - destruct c; done.
  - destruct c as [|a c]; [done|]. rewrite string_append_cons. intros [= _ Hcd].
    by destruct c.
Qed.

Lemma hex64_4 h : hex64 h → ∃ a b c d r, h = String a (String b (String c (String d r))).
Proof. intros [Hl _]. do 4 (destruct h as [|? h]; [done|]). by eexists _, _, _, _, _. Qed.

Lemma assets_root_eq root :
  assets_root root = mkPath (absolute root) (comps root ++ ["assets"; "sha256"]).
Proof. unfold assets_root. rewrite !path_push_plain by done. simpl. by rewrite <-app_assoc. Qed.

Lemma shard_path root h :
  hex64 h →
  path_push (path_push (assets_root root) (String.substring 0 2 h)) (String.substring 2 2 h)
  = blob_dir root h.
Proof.
  intros Hh. rewrite assets_root_eq. destruct (hex64_4 h Hh) as (a & b & c & d & r & ->).
  rewrite !path_push_plain;
    [cbn [absolute comps]; by rewrite <-!app_assoc| |]; (apply plain_component_hex; [|done]);
    apply string_forallb_substring, Hh.
Qed.

Lemma hex64_shardable h : hex64 h → shardable h = true.
Proof.
  intros Hh. destruct (hex64_4 h Hh) as (a & b & c & d & r & ->). destruct Hh as [Hl Hx].
  unfold shardable, char_boundary. rewrite Hl. simpl in Hx |- *.
  rewrite !andb_true_iff in Hx. destruct Hx as (_ & _ & Hc & _ & Hr).
  assert (∀ x, is_hex x = true → (Ascii.nat_of_ascii x <? 128)%nat = true) as Hlow.
  { intros [[] [] [] [] [] [] [] []]; vm_compute; congruence. }
  rewrite (Hlow c Hc). destruct r as [|e r]; [done|]. simpl in Hr |- *.
  apply andb_true_iff in Hr as [He _]. by rewrite (Hlow e He).
Qed.

Lemma asset_blob_path_eq root h ext :
  hex64 h → ext_ok ext → asset_blob_path root h ext = Ret (blob_path root h ext).
Proof.
  intros Hh Hext. unfold asset_blob_path. rewrite hex64_shardable by done. cbn [negb]. cbv zeta.
  rewrite shard_path by done. unfold blob_path, blob_name.
  assert (plain_component h = true) as Hp.
  { apply plain_component_hex; [apply Hh|]. by destruct (hex64_4 h Hh) as (?&?&?&?&?&->). }
  destruct ext as [e|]; simpl in Hext.
  - destruct Hext as (He & _ & _). assert (string_is_empty e = false) as -> by by destruct e.
    by rewrite path_push_plain by by apply plain_component_app.
  - by rewrite path_push_plain.
Qed.

(** Even with an odd extension the blob has a directory to be in. *)
Lemma asset_blob_path_ret root h ext :
  hex64 h → ∃ p d, asset_blob_path root h ext = Ret p ∧ path_parent p = Some d.
Proof.
  intros Hh. unfold asset_blob_path. rewrite hex64_shardable by done. cbn [negb]. cbv zeta.
  rewrite shard_path by done.
  enough (∃ d, path_parent (path_push (blob_dir root h) match ext with
    | Some e => if string_is_empty e then h else h +:+ "." +:+ e
    | None => h end) = Some d) as [d Hd] by eauto.
  unfold path_push.
  set (q := path_of_string _).
  assert (absolute q = false) as Hq.
  { subst q. destruct (hex64_4 h Hh) as (a&?&?&?&?&->). destruct Hh as [_ Hhex].
    simpl in Hhex. apply andb_true_iff in Hhex as [Ha _].
    assert (a ≠ "/"%char) as Hne by by intros ->.
    assert (∀ s, starts_with_slash (String a s) = false) as Hslash.
    { intros s. clear -Hne. by destruct a as [[] [] [] [] [] [] [] []]. }
    unfold path_of_string.
    destruct ext as [e|]; [destruct (string_is_empty e)|];
      rewrite ?string_append_cons, Hslash; done. }
  unfold path_join. rewrite Hq. destruct (blob_dir root h) as [ab cs] eqn:Hb.
  assert (cs ≠ []) as Hcs.
  { intros ->. unfold blob_dir in Hb. injection Hb as _ Hb.
    by apply app_eq_nil in Hb as [_ ?]. }
  destruct cs as [|c cs]; [done|]. destruct ab; by eexists.
Qed.

(** ** Assets, traces and collection keep the tables in order *)

(** The depth of directories strictly below [d]. *)
Definition below (D : gset Path) (d : Path) : gset Path :=
  filter (λ q, absolute q = absolute d ∧ length (comps d) < length (comps q)
               ∧ take (length (comps d)) (comps q) = comps d) D.

Lemma path_parent_Some p d :
  path_parent p = Some d →
  absolute d = absolute p ∧ length (comps p) = S (length (comps d))
  ∧ take (length (comps d)) (comps p) = comps d.
Proof.
  unfold path_parent. intros Hd.
  assert (comps p ≠ []) as Hne by (intros Hp; by rewrite Hp in Hd).
  assert (d = mkPath (absolute p) (removelast (comps p))) as -> by (by destruct (comps p); simplify_eq).
  destruct (exists_last Hne) as (l & c & Hl). rewrite Hl, removelast_last.
  cbn [absolute comps]. rewrite length_app, take_app_length. simpl. split_and!; [done|lia|done].
Qed.

Lemma below_parent D p d : p ∈ D → path_parent p = Some d → below D p ⊂ below D d.
Proof.
  intros Hp Hd. apply path_parent_Some in Hd as (Hab & Hlen & Htake). split.
  - intros q. unfold below. rewrite !elem_of_filter. intros [(Ha & Hl & Ht) Hq].
    split_and!; [congruence|lia| |done].
    transitivity (take (length (comps d)) (take (length (comps p)) (comps q))).
    + rewrite take_take. f_equal. lia.
    + by rewrite Ht.
  - intros Hsub. assert (p ∈ below D p) as Hin.
    { apply Hsub. unfold below. rewrite elem_of_filter. split_and!; [done|lia|done|done]. }
    unfold below in Hin. rewrite elem_of_filter in Hin. lia.
Qed.

Section walk.
Context `{UuidOps, !UuidLaws, JsonText, Host, Sha2}.

Lemma wp_read_dir d (Q : result StoreError (list DirEntry) → Store → Prop) s :
  (∀ e, Q (Err (StoreIo d e)) (bump s)) →
  (∀ l, (∀ p, SubDir p ∈ l → p ∈ dirs (fs s) ∧ path_parent p = Some d) →
        (∀ p, FileEntry p ∈ l → is_Some (files (fs s) !! p) ∧ path_parent p = Some d) →
     Q (Ok l) (bump s)) →
  wp (read_dir d) Q s.
Proof.
  intros He Hl. unfold read_dir. do 2 wp_step. apply wp_io; [done|].
  intros f r [= <- <-]. replace (set_fs (fs s) (bump s)) with (bump s) by by destruct s.
  case_bool_decide; simpl; [|done]. apply Hl; intros p; rewrite arrange_perm;
    unfold dir_entries; rewrite elem_of_app, !list_elem_of_fmap;
    intros [(q & Hq & Hin)|(q & Hq & Hin)]; simplify_eq;
    apply list_elem_of_filter in Hin as [Hp Hin]; apply elem_of_elements in Hin;
    [done|]. by rewrite <-elem_of_dom.
Qed.

(** The walk ends with fuel for the directories below, and whatever an
    invariant says of the callback it says of the walk. *)
Lemma wp_walk_files {A} (cb : A → Path → ST Store (result StoreError A))
    (I : A → Store → Prop) (R : StoreError → Store → Prop) D :
  (∀ acc p s, I acc s → dirs (fs s) = D →
     wp (cb acc p) (on_result (λ acc' s', I acc' s' ∧ dirs (fs s') = D) R) s) →
  (∀ acc s, I acc s → I acc (bump s)) →
  (∀ acc e s, I acc s → R e (bump s)) →
  ∀ fuel dir acc s, size (below D dir) < fuel → I acc s → dirs (fs s) = D →
  wp (walk_files fuel cb acc dir) (on_result (λ acc' s', I acc' s' ∧ dirs (fs s') = D) R) s.
Proof.
  intros Hcb Hbump Hfail. induction fuel as [|fuel IH]; intros dir acc s Hfuel HI HD; [lia|].
  cbn [walk_files]. wp_step. apply wp_read_dir; [by intros; eapply Hfail|].
  intros entries Hsub _; cbn [on_result]. rewrite HD in Hsub.
  eapply wp_mono_result; [eapply (wp_try_fold _ (λ acc l s,
    (∀ p, SubDir p ∈ l → p ∈ D ∧ path_parent p = Some dir) ∧ I acc s ∧ dirs (fs s) = D) R)| |].
  - split_and!; [done|by apply Hbump|done].
  - clear acc s HI HD. intros acc entry l s (Hl & HI & HD).
    assert (∀ p, SubDir p ∈ l → p ∈ D ∧ path_parent p = Some dir) as Hl'.
    { intros p Hp. apply Hl. by right. }
    assert (∀ (m : ST Store (result StoreError A)) p,
      (∀ s, I acc s → dirs (fs s) = D →
         wp m (on_result (λ acc' s', I acc' s' ∧ dirs (fs s') = D) R) s) →
      ∀ s, I acc s → dirs (fs s) = D →
      wp (_ ←! io p (λ f, (f, Ok ())); m)
         (on_result (λ acc' s', I acc' s' ∧ dirs (fs s') = D) R) s) as Hio.
    { intros m p Hm s' HI' HD'. wp_step. apply wp_io.
      - intros e; cbn [on_result]. by eapply Hfail.
      - intros f r [= <- <-]. simpl. replace (set_fs (fs s') (bump s')) with (bump s')
          by by destruct s'. apply Hm; [by apply Hbump|done]. }
    eapply wp_mono_result; [apply Hio; [|done|done]| |].
    + intros s1 HI1 HD1. destruct entry as [p|p]; apply Hio; try done; [by apply Hcb|].
      intros s2 HI2 HD2. destruct (Hl p) as [Hp Hpar]; [by left|].
      apply IH; [|done|done].
      pose proof (subset_size _ _ (below_parent _ _ _ Hp Hpar)). lia.
    + intros acc' s' [? ?]. by split_and!.
    + done.
  - by intros acc' s' (_ & ? & ?).
  - done.
Qed.
End walk.

Section asset_operations.
Context `{UuidOps, !UuidLaws, JsonText, Host, Sha2, !Sha2Laws}.

Lemma keeps_atomic_write p b : keeps (atomic_write p b).
Proof.
  unfold atomic_write. repeat (apply keeps_sbind; [eauto with vcli_store|intros ?]).
  apply keeps_bind; eauto with vcli_store.
Qed.

Lemma keeps_put_asset b ext now : keeps (put_asset b ext now).
Proof.
  intros s Hs. unfold put_asset. do 3 wp_step.
  destruct (asset_blob_path_ret (data_root s) (of_bytes b) ext (sha2_shape b))
    as (p & d & Hp & Hd).
  rewrite Hp. do 2 wp_step. eapply wp_mono; [by apply keeps_exists|]. clear s Hs Hp.
  intros found s Hs. simpl. revert s Hs.
  match goal with |- ∀ s, _ → wp ?m _ s => change (keeps m) end.
  apply keeps_sbind.
  - destruct found; [apply keeps_ret|]. intros s Hs. wp_step. eapply wp_unwrap; [done|].
    revert s Hs. match goal with |- ∀ s, _ → wp ?m _ s => change (keeps m) end.
    repeat (apply keeps_sbind; [eauto using keeps_atomic_write with vcli_store|intros ?]).
    apply keeps_ret.
  - intros created. apply keeps_sbind; [|intros; apply keeps_ret]. apply keeps_sql.
    intros t a t' Ht. destruct (existsb _ _) eqn:Hnew; intros [= <- <-]; [done|].
    apply tables_ok_assets; [| |done]; [rewrite fmap_app; apply NoDup_app|].
    2: { apply Forall_app. split; [by destruct Ht|]. apply Forall_singleton, sha2_shape. }
    split_and!; [by destruct Ht| |by apply NoDup_singleton].
    intros h Hh Hh'. apply list_elem_of_singleton in Hh' as ->. simpl in Hh.
    apply list_elem_of_fmap in Hh as (r & Hr & Hin). apply not_true_iff_false in Hnew.
    apply Hnew, existsb_exists. exists r. rewrite <-list_elem_of_In, bool_decide_true; done.
Qed.

Lemma keeps_get_asset h : shardable h = true → keeps (get_asset h).
Proof.
  intros Hh. unfold get_asset. apply keeps_bind.
  { apply keeps_sql_call. intros t a t' Ht.
    destruct (List.filter _ _); [done|]. by intros [= _ <-]. }
  intros r s Hs. cbv zeta. do 3 wp_step. unfold asset_blob_path.
  rewrite Hh. cbn [negb]. wp_step.
  eapply keeps_bind; [apply keeps_io_call| |done].
  intros [b|[| |m]]; eauto with vcli_store.
Qed.

(** The path of a text that is too short, or has a character across a cut,
    cannot be cut out of it. *)
Lemma get_asset_panics hash s : shardable hash = false → get_asset hash s = Panic.
Proof.
  intros Hh. unfold get_asset, mbind, ST_bind, outcome_bind, sql_call.
  unfold slift, asset_blob_path, get. rewrite Hh. simpl.
  destruct (sql_fault (calls s)); [done|]. by destruct (on_tables _ _) as [[]|].
Qed.

Lemma keeps_link_program_asset pid h : keeps (link_program_asset pid h).
Proof.
  apply keeps_sql. intros t a t' Ht. cbn zeta.
  destruct (existsb _ _) eqn:Hnew; [by intros [= <- <-]|].
  destruct (program_exists _ t) eqn:Hp; simpl; [|done]. intros [= <- <-].
  apply tables_ok_insert_link; [done| |done]. intros Hin. apply not_true_iff_false in Hnew.
  apply Hnew, existsb_exists. eexists. by rewrite <-list_elem_of_In, bool_decide_true.
Qed.

Lemma keeps_flush_traces rs : keeps (flush_traces rs).
Proof.
  unfold flush_traces. destruct rs as [|r0 rs]; [apply keeps_ret|].
  apply keeps_transaction, keeps_try_fold. intros [] r. apply keeps_sql.
  intros t a t' Ht. cbn zeta. destruct (trace_program_id r) as [i|]; simpl;
    [destruct (program_exists _ t) eqn:Hp; simpl; [|done]|];
    (case_match; [done|]); intros [= <- <-]; (apply tables_ok_insert_trace; simpl; [|done|done]).
  - by intros p [= <-].
  - done.
Qed.

Lemma keeps_gc_programs older_than : keeps (gc_programs older_than).
Proof.
  apply keeps_sbind; [|intros; apply keeps_ret]. apply keeps_sql.
  intros t a t' Ht [= <- <-]. by apply tables_ok_delete_programs.
Qed.

Lemma keeps_delete_asset_row n a : keeps (delete_asset_row n a).
Proof.
  apply keeps_sbind; [|intros; apply keeps_ret]. apply keeps_sql.
  intros t x t' Ht [= <- <-]. apply tables_ok_assets; [| |done].
  - apply NoDup_fmap_bfilter. by destruct Ht.
  - rewrite Forall_forall. intros r Hr. apply elem_of_bfilter in Hr as [Hr _].
    destruct Ht as [_ _ _ _ _ _ _ _ _ Hhex]. rewrite Forall_forall in Hhex. by apply Hhex.
Qed.

Lemma keeps_delete_blob n (a : string * option string) :
  hex64 a.1 → keeps (delete_blob n a).
Proof.
  intros Ha s Hs. unfold delete_blob. do 3 wp_step.
  destruct (asset_blob_path_ret (data_root s) a.1 a.2 Ha) as (p & d & Hp & _).
  rewrite Hp. wp_step. clear Hp. revert s Hs.
  apply keeps_bind; [apply keeps_exists|]. intros [|]; eauto with vcli_store.
Qed.

Lemma keeps_gc_assets : keeps gc_assets.
Proof.
  intros s Hs. unfold gc_assets. wp_step. apply wp_query; [done|].
  intros t rows Ht [= <-]; cbn [on_result].
  set (rows := arrange _ _).
  assert (Forall (λ a : string * option string, hex64 a.1) rows) as Hrows.
  { subst rows. rewrite arrange_perm, Forall_fmap. rewrite Forall_forall. intros a Ha.
    apply elem_of_bfilter in Ha as [Ha _]. destruct (Hs t Ht) as [_ _ _ _ _ _ _ _ _ Hhex].
    rewrite Forall_forall in Hhex. by apply Hhex. }
  assert (disk_ok (bump s)) as Hs' by done. clearbody rows. clear Ht Hs.
  revert Hs'. generalize (bump s). clear s t.
  apply keeps_sbind.
  - generalize 0%Z.
    induction Hrows as [|a l Ha Hl IH]; intros n; simpl; [apply keeps_ret|].
    apply keeps_sbind; [by apply keeps_delete_blob|done].
  - intros n. apply keeps_sbind; [|eauto with vcli_store].
    eauto using keeps_delete_asset_row with vcli_store.
Qed.

Lemma keeps_walk_assets {A} (cb : list string → A → Path → ST Store (result StoreError A)) acc :
  (∀ known acc p s, disk_ok s → wp (cb known acc p) (λ _ s', disk_ok s' ∧ dirs (fs s') = dirs (fs s)) s) →
  keeps (walk_assets cb acc).
Proof.
  intros Hcb. apply keeps_sbind; [apply keeps_query|]. intros known s Hs. do 2 wp_step.
  generalize (assets_root (data_root s)). intros root. revert s Hs.
  apply keeps_bind; [apply keeps_exists|]. intros [|]; [|eauto with vcli_store].
  intros s Hs. do 2 wp_step. eapply wp_mono.
  - eapply (wp_walk_files _ (λ _, disk_ok) (λ _, disk_ok) (dirs (fs s))); try done.
    + intros acc' p s' Hs' HD. eapply wp_mono; [by apply Hcb|].
      intros [a|e] s2 [? ?]; simpl; [split; [done|congruence]|done].
    + apply le_n_S, subseteq_size. unfold below. set_solver.
  - intros [a|e] s'; simpl; [by intros [? _]|done].
Qed.

Lemma keeps_gc_orphan_blobs : keeps gc_orphan_blobs.
Proof.
  apply keeps_walk_assets. intros known n p s Hs. destruct (orphan_stem known p).
  - wp_step. apply wp_io_call; intros; (apply wp_sok; split; [done|]); [done|].
    unfold remove_file in *. case_match; simplify_eq; done.
  - by apply wp_sok.
Qed.
Lemma keeps_list_orphan_blob_names : keeps list_orphan_blob_names.
Proof. apply keeps_walk_assets. intros known n p s Hs. by apply wp_sok. Qed.

Lemma keeps_gc_all older_than : keeps (gc_all older_than).
Proof.
  apply keeps_sbind; [apply keeps_gc_programs|intros n].
  apply keeps_sbind; [apply keeps_gc_assets|intros [a b]].
  apply keeps_sbind; [apply keeps_gc_orphan_blobs|intros k]. apply keeps_ret.
Qed.

(** *** Opening *)

Lemma keeps_schema {A} (f : Db → result SqlError (A * Db)) :
  (∀ db a db' t', f db = Ok (a, db') → tables db' = Some t' →
     tables db = Some t' ∨ tables db = None ∧ t' = empty_tables) →
  keeps (sql_call f).
Proof.
  intros Hf s Hs. apply wp_sql_call; [done|]. intros a db Hdb t Ht.
  destruct (Hf _ _ _ _ Hdb Ht) as [Ht'|[_ ->]]; [by apply Hs|apply tables_ok_empty].
Qed.
Lemma keeps_map_err {A} (m : ST Store (result SqlError A)) :
  keeps m → keeps (r ← m; mret (map_err StoreSqlite r)).
Proof. intros Hm. apply keeps_bind; [done|]. eauto with vcli_store. Qed.

Lemma keeps_run_migrations : keeps run_migrations.
Proof.
  unfold run_migrations. apply keeps_sbind.
  - unfold current_version. apply keeps_sbind; [apply keeps_map_err, keeps_schema|intros []].
    { intros db a db' t' [= _ <-]. by left. }
    apply keeps_bind; [|eauto with vcli_store]. apply keeps_schema.
    intros db a db' t'. destruct (schema_version db) as [[|v l]|]; try done.
    intros [= _ <-]. by left.
  - intros cur. case_match; [eauto with vcli_store|]. simpl.
    apply keeps_sbind; [|eauto with vcli_store]. case_match; [eauto with vcli_store|].
    apply keeps_transaction, keeps_sbind; [|intros []]; apply keeps_map_err, keeps_schema.
    + intros db a db' t' [= _ <-]; simpl. destruct (tables db); simpl; naive_solver.
    + intros db a db' t'. destruct (schema_version db); [|done]. intros [= _ <-]. by left.
Qed.

Lemma keeps_recover : keeps recover_running_programs.
Proof.
  apply keeps_transaction, keeps_sbind; [apply keeps_query|]. intros rows.
  apply keeps_sbind.
  - apply keeps_try_fold. intros acc [i c]. destruct (ProgramId_from_str i);
      eauto with vcli_store.
  - intros [|r rs]; [eauto with vcli_store|]. apply keeps_sbind; [|eauto with vcli_store].
    apply keeps_update_where; [done|]. intros r' (Hid & _ & Hc).
    split_and!; [done|by exists Failed|done].
Qed.

Lemma keeps_open root : keeps (open root).
Proof.
  unfold open, apply_pragmas. apply keeps_bind; [intros s Hs; by apply wp_modify|intros []].
  do 3 (apply keeps_sbind; [eauto with vcli_store|intros []]).
  apply keeps_sbind; [apply keeps_sbind; eauto with vcli_store|intros []].
  apply keeps_sbind; [apply keeps_run_migrations|intros []]. apply keeps_recover.
Qed.
End asset_operations.
