(* ===== verification/StoreMap.v ===== *)
(** * The store as a map of programs

    What the daemon relies on: a finite map from program ids to rows.  Each
    operation on programs either changes the map the way [spec] says, is
    refused and changes nothing, or was failed by the host and changed
    nothing; a listing is the rows of the map in the order of submission. *)

From S2P Require Import Prelude Json CoreTypes Sha256 EventWire Host Wp Store StoreSpec StoreGc.

Local Open Scope vcli_scope.
#[local] Set Default Proof Using "All".

(** ** The abstract map *)

Abbreviation Rows := (gmap ProgramId ProgramRow).

Section view.
Context `{UuidOps, !UuidLaws}.

(** A row under its id, decoded as [list_programs] does. *)
Definition entry (r : ProgramRec) : option (ProgramId * ProgramRow) :=
  row ← decode_row ProgramState_from_str r; Some (pr_id row, row).
Definition view_of (l : list ProgramRec) : Rows := list_to_map (omap entry l).
Definition view (s : Store) : Rows :=
  view_of (from_option t_programs [] (tables (conn s))).

(** A row that decodes. *)
Definition decodes (r : ProgramRec) (row : ProgramRow) : Prop :=
  decode_row ProgramState_from_str r = Some row.

Lemma row_ok_decodes r : row_ok r → ∃ i st, c_id r = ProgramId_to_string i
  ∧ c_state r = ProgramState_as_str st ∧ in_u32 (c_body_cursor r) ∧ decodes r (row_of i st r).
Proof.
  intros ([i Hi] & [st Hst] & Hc). exists i, st. split_and!; [done..|].
  by apply decode_row_ok; [..|apply state_of_str].
Qed.

Lemma view_of_lookup l i row :
  NoDup (c_id <$> l) → Forall row_ok l →
  view_of l !! i = Some row ↔ ∃ r, r ∈ l ∧ decodes r row ∧ c_id r = ProgramId_to_string i.
Proof.
  intros Hnd Hok. unfold view_of. induction Hok as [|r l Hr Hl IH]; simpl.
  { rewrite lookup_empty. set_solver. }
  apply NoDup_cons in Hnd as [Hnew Hnd]. specialize (IH Hnd).
  destruct (row_ok_decodes r Hr) as (j & st & Hj & Hst & Hc & Hd).
  unfold entry at 1. rewrite Hd; simpl. destruct (decide (i = j)) as [->|Hij].
  - rewrite lookup_insert_eq. split.
    + intros [= <-]. exists r. split_and!; [by left|done|done].
    + intros (r' & Hin & Hd' & Hid). apply elem_of_cons in Hin as [->|Hin].
      * unfold decodes in Hd, Hd'. congruence.
      * destruct Hnew. rewrite Hj, <-Hid. by apply list_elem_of_fmap_2.
  - rewrite lookup_insert_ne by done. rewrite IH. split.
    + intros (r' & ? & ? & ?). exists r'. split_and!; [by right|done|done].
    + intros (r' & Hin & Hd' & Hid). apply elem_of_cons in Hin as [->|Hin]; [|by exists r'].
      rewrite Hj in Hid. by apply (inj _) in Hid.
Qed.

Lemma view_of_None l i :
  NoDup (c_id <$> l) → Forall row_ok l →
  view_of l !! i = None ↔ ProgramId_to_string i ∉ (c_id <$> l).
Proof.
  intros Hnd Hok. split.
  - intros Hi Hin. apply list_elem_of_fmap in Hin as (r & Hr & Hin).
    rewrite Forall_forall in Hok. destruct (row_ok_decodes r (Hok r Hin)) as (j & st & _ & _ & _ & Hd).
    rewrite (proj2 (view_of_lookup l i (row_of j st r) Hnd
      ltac:(by rewrite Forall_forall))) in Hi; [done|]. by exists r.
  - intros Hin. destruct (view_of l !! i) eqn:Hi; [|done].
    apply view_of_lookup in Hi as (r & Hr & _ & Hid); [|done|done].
    destruct Hin. rewrite <-Hid. by apply list_elem_of_fmap_2.
Qed.

Lemma view_of_cons r l i st :
  decodes r (row_of i st r) → view_of (r :: l) = <[i := row_of i st r]> (view_of l).
Proof.
  intros Hd. unfold view_of, entry; simpl. unfold decodes in Hd. by rewrite Hd.
Qed.

Lemma view_of_cons' r l row :
  decodes r row → view_of (r :: l) = <[pr_id row := row]> (view_of l).
Proof.
  intros Hd. unfold view_of, entry; simpl. unfold decodes in Hd. by rewrite Hd.
Qed.

Lemma size_view_of l :
  NoDup (c_id <$> l) → Forall row_ok l → size (view_of l) = length l.
Proof.
  intros Hnd Hok. induction Hok as [|r l Hr Hl IH]; [done|].
  pose proof Hnd as [Hnew Hnd']%NoDup_cons.
  destruct (row_ok_decodes r Hr) as (i & st & Hi & _ & _ & Hd).
  rewrite (view_of_cons _ _ _ _ Hd), map_size_insert_None; simpl; [by rewrite IH|].
  apply view_of_None; [done|done|]. by rewrite <-Hi.
Qed.

(** An update of one row is an update of one entry. *)
Lemma view_of_update i f g l :
  NoDup (c_id <$> l) → Forall row_ok l →
  (∀ r row, decodes r row → c_id r = ProgramId_to_string i →
     decodes (f r) (g row) ∧ c_id (f r) = c_id r) →
  view_of (update_where (has_id i) f l) = alter g i (view_of l).
Proof.
  intros Hnd Hok Hf. induction Hok as [|r l Hr Hl IH].
  { simpl. apply map_eq. intros j. rewrite lookup_alter. by case_decide. }
  apply NoDup_cons in Hnd as [Hnew Hnd]. specialize (IH Hnd).
  destruct (row_ok_decodes r Hr) as (j & st & Hj & _ & _ & Hd).
  change (update_where (has_id i) f (r :: l)) with
    ((if has_id i r then f r else r) :: update_where (has_id i) f l).
  rewrite (view_of_cons _ _ _ _ Hd). unfold has_id at 1. case_bool_decide as Hi.
  - destruct (Hf r _ Hd Hi) as [Hfd Hfid]. rewrite (view_of_cons' _ _ _ Hfd).
    rewrite Hj in Hi. apply (inj _) in Hi as <-.
    assert (pr_id (g (row_of j st r)) = j) as ->.
    { unfold decodes, decode_row in Hfd. rewrite Hfid, Hj, ProgramId_round_trip in Hfd.
      simpl in Hfd. destruct (ProgramState_from_str _); simplify_eq/=. by rewrite <-Hfd. }
    apply map_eq. intros k. destruct (decide (k = j)) as [->|Hk].
    + by rewrite lookup_alter_eq, !lookup_insert_eq.
    + rewrite lookup_alter_ne, !lookup_insert_ne by done.
      rewrite IH. by rewrite lookup_alter_ne.
  - rewrite (view_of_cons _ _ _ _ Hd), IH. rewrite Hj in Hi.
    assert (i ≠ j) by (by intros ->). apply map_eq. intros k.
    destruct (decide (k = j)) as [->|Hk].
    + by rewrite lookup_alter_ne, !lookup_insert_eq by done.
    + rewrite lookup_insert_ne by done. destruct (decide (k = i)) as [->|Hki].
      * by rewrite !lookup_alter_eq, lookup_insert_ne.
      * by rewrite !lookup_alter_ne, lookup_insert_ne by done.
Qed.

Lemma view_of_absent i f l :
  ProgramId_to_string i ∉ (c_id <$> l) → update_where (has_id i) f l = l.
Proof.
  intros Hi. unfold update_where. rewrite <-(list_fmap_id l) at 2.
  apply list_fmap_ext. intros k r Hr; simpl. unfold has_id.
  rewrite bool_decide_false; [done|]. intros Hr'. destruct Hi. rewrite <-Hr'.
  apply list_elem_of_fmap_2. by eapply list_elem_of_lookup_2.
Qed.

Lemma view_of_snoc l r i row :
  NoDup (c_id <$> l ++ [r]) → Forall row_ok (l ++ [r]) →
  decodes r row → c_id r = ProgramId_to_string i →
  view_of (l ++ [r]) = <[i := row]> (view_of l).
Proof.
  intros Hnd Hok Hd Hi. pose proof Hnd as Hnd'. pose proof Hok as Hok'.
  rewrite fmap_app in Hnd'. apply NoDup_app in Hnd' as (Hndl & Hnew & _).
  apply Forall_app in Hok' as [Hokl _].
  apply map_eq. intros k. apply option_eq. intros row'.
  rewrite view_of_lookup by done. destruct (decide (k = i)) as [->|Hk].
  - rewrite lookup_insert_eq. split.
    + intros (r' & Hin & Hd' & Hid). apply elem_of_app in Hin as [Hin|Hin].
      * destruct (Hnew (c_id r')); [by apply list_elem_of_fmap_2|].
        rewrite Hid, <-Hi. by apply list_elem_of_singleton.
      * apply list_elem_of_singleton in Hin as ->. unfold decodes in *. congruence.
    + intros [= <-]. exists r. split_and!; [|done|done].
      apply elem_of_app. right. by apply list_elem_of_singleton.
  - rewrite lookup_insert_ne by done. rewrite view_of_lookup by done. split.
    + intros (r' & Hin & Hd' & Hid). apply elem_of_app in Hin as [Hin|Hin]; [by exists r'|].
      apply list_elem_of_singleton in Hin as ->. rewrite Hi in Hid. by apply (inj _) in Hid.
    + intros (r' & Hin & Hd' & Hid). exists r'. split_and!; [|done|done].
      apply elem_of_app. by left.
Qed.

Lemma view_of_filter c l :
  NoDup (c_id <$> l) → Forall row_ok l →
  ∀ (P : ProgramRow → bool), (∀ r row, r ∈ l → decodes r row → P row = c r) →
  view_of (List.filter c l) = filter (λ kv, P kv.2 = true) (view_of l).
Proof.
  intros Hnd Hok P HP. apply map_eq. intros i. apply option_eq. intros row.
  rewrite map_lookup_filter_Some; simpl.
  rewrite !view_of_lookup; [|done|done| |].
  - split.
    + intros (r & Hr & Hd & Hi). apply elem_of_bfilter in Hr as [Hr Hc].
      split; [by exists r|]. by rewrite (HP r).
    + intros ((r & Hr & Hd & Hi) & Hrow). exists r. split_and!; [|done|done].
      apply elem_of_bfilter. split; [done|]. by rewrite <-(HP r row).
  - by apply NoDup_fmap_bfilter.
  - rewrite Forall_forall in *. intros r Hr. apply elem_of_bfilter in Hr as [Hr _]. auto.
Qed.
End view.

(** ** The operations, and what they mean on the map *)

Inductive ProgramOp : Type → Type :=
  | InsertProgram (row : NewProgram) : ProgramOp ()
  | GetProgram (id : ProgramId) : ProgramOp ProgramRow
  | UpdateState (id : ProgramId) (st : ProgramState) (now : Z) : ProgramOp ()
  | SetBodyCursor (id : ProgramId) (cursor : Z) : ProgramOp ()
  | SetLastError (id : ProgramId) (code msg : string) : ProgramOp ()
  | ResumeProgram (id : ProgramId) (from_start : bool) (now : Z) : ProgramOp Z
  | GcPrograms (older_than : Z) : ProgramOp Z.

Inductive Refusal := Duplicate | Missing | NotResumable.

(** *** Rows *)

Definition fresh_row (p : NewProgram) : ProgramRow :=
  mkProgramRow (np_id p) (np_name p) (np_source_json p) (np_state p) (np_submitted_at p)
    None None None None (np_labels_json p) 0 None.

(** [started_at] is set once, on the first [Running]; [finished_at] by every
    terminal state. *)
Definition row_with_state (st : ProgramState) (now : Z) (r : ProgramRow) : ProgramRow :=
  mkProgramRow (pr_id r) (pr_name r) (pr_source_json r) st (pr_submitted_at r)
    (or_else (pr_started_at r) (if decide (st = Running) then Some now else None))
    (if is_terminal st then Some now else pr_finished_at r)
    (pr_last_error_code r) (pr_last_error_msg r) (pr_labels_json r) (pr_body_cursor r)
    (pr_body_entered_at r).
Definition row_with_cursor (c : Z) (r : ProgramRow) : ProgramRow :=
  mkProgramRow (pr_id r) (pr_name r) (pr_source_json r) (pr_state r) (pr_submitted_at r)
    (pr_started_at r) (pr_finished_at r) (pr_last_error_code r) (pr_last_error_msg r)
    (pr_labels_json r) c (pr_body_entered_at r).
Definition row_with_error (code msg : string) (r : ProgramRow) : ProgramRow :=
  mkProgramRow (pr_id r) (pr_name r) (pr_source_json r) (pr_state r) (pr_submitted_at r)
    (pr_started_at r) (pr_finished_at r) (Some code) (Some msg) (pr_labels_json r)
    (pr_body_cursor r) (pr_body_entered_at r).
(** Running again: the error and [finished_at] are gone. *)
Definition row_resumed (c now : Z) (r : ProgramRow) : ProgramRow :=
  mkProgramRow (pr_id r) (pr_name r) (pr_source_json r) Running (pr_submitted_at r)
    (or_else (pr_started_at r) (Some now)) None None None (pr_labels_json r) c
    (pr_body_entered_at r).
Definition row_collectable (older_than : Z) (r : ProgramRow) : bool :=
  is_terminal (pr_state r)
  && match pr_finished_at r with Some f => (f <? older_than)%Z | None => false end.

Definition on_row {A} (id : ProgramId) (f : ProgramRow → result Refusal (A * ProgramRow)) (m : Rows)
    : result Refusal A * Rows :=
  match m !! id with
  | None => (Err Missing, m)
  | Some r => match f r with
              | Ok (a, r') => (Ok a, <[id := r']> m)
              | Err e => (Err e, m)
              end
  end.

Definition spec {A} (op : ProgramOp A) (m : Rows) : result Refusal A * Rows :=
  match op with
  | InsertProgram p =>
      match m !! np_id p with
      | Some _ => (Err Duplicate, m)
      | None => (Ok (), <[np_id p := fresh_row p]> m)
      end
  | GetProgram id => (ok_or (m !! id) Missing, m)
  | UpdateState id st now => on_row id (λ r, Ok ((), row_with_state st now r)) m
  | SetBodyCursor id c => on_row id (λ r, Ok ((), row_with_cursor c r)) m
  | SetLastError id code msg => (Ok (), alter (row_with_error code msg) id m)
  | ResumeProgram id from_start now =>
      on_row id (λ r,
        if decide (pr_state r = Failed ∧ pr_last_error_code r = Some "daemon_restart")
        then let c := if from_start then 0%Z else pr_body_cursor r in
             Ok (c, row_resumed c now r)
        else Err NotResumable) m
  | GcPrograms older_than =>
      let gone := filter (λ kv, row_collectable older_than kv.2 = true) m in
      (Ok (default 0%Z (to_u32 (Z.of_nat (size gone)))),
       filter (λ kv, negb (row_collectable older_than kv.2) = true) m)
  end.

Section refinement.
Context `{UuidOps, !UuidLaws, JsonText, Host, Sha2, !Sha2Laws}.

Definition run {A} (op : ProgramOp A) : ST Store (result StoreError A) :=
  match op with
  | InsertProgram p => insert_program p
  | GetProgram id => get_program id
  | UpdateState id st now => update_state id st now
  | SetBodyCursor id c => set_body_cursor id c
  | SetLastError id code msg => set_last_error id code msg
  | ResumeProgram id from_start now => resume_program id from_start now
  | GcPrograms older_than => gc_programs older_than
  end.

(** A cursor is a [u32]. *)
Definition op_wf {A} (op : ProgramOp A) : Prop :=
  match op with SetBodyCursor _ c => in_u32 c | _ => True end.

(** The error a refusal is reported with. *)
Definition refused {A} (op : ProgramOp A) (x : Refusal) (e : StoreError) : Prop :=
  match x with
  | Duplicate => e = StoreSqlite ConstraintViolation
  | Missing => ∃ id, e = StoreUnknownProgram (ProgramId_to_string id)
                     ∧ match op with
                       | GetProgram i | UpdateState i _ _ | SetBodyCursor i _
                       | ResumeProgram i _ _ => i = id
                       | _ => False
                       end
  | NotResumable => ∃ m, e = StoreNotResumable m
  end.

(** The host failed a statement between the two states. *)
Definition faulted (s s' : Store) : Prop :=
  ∃ n e, (calls s ≤ n < calls s')%N ∧ sql_fault n = Some e.

(** The outcome of an operation, against the map before it. *)
Definition agrees {A} (op : ProgramOp A) (s : Store) (r : result StoreError A) (s' : Store)
    : Prop :=
  match r with
  | Ok a => spec op (view s) = (Ok a, view s')
  | Err e => view s' = view s
             ∧ (faulted s s' ∨ ∃ x, spec op (view s) = (Err x, view s) ∧ refused op x e)
  end.
(** The schema stays in place. *)
Definition meets {A} (op : ProgramOp A) (s : Store) (r : result StoreError A) (s' : Store)
    : Prop :=
  is_Some (tables (conn s')) ∧ agrees op s r s'.

Lemma view_at t s : tables (conn s) = Some t → view s = view_of (t_programs t).
Proof. intros Ht. unfold view. by rewrite Ht. Qed.
Lemma view_bump s : view (bump s) = view s.
Proof. done. Qed.
Lemma view_set_programs l t s :
  view (set_tables (set_programs l t) s) = view_of l.
Proof. done. Qed.

Lemma faulted_bump s e : sql_fault (calls s) = Some e → faulted s (bump s).
Proof. intros He. exists (calls s), e. split; [simpl; lia|done]. Qed.
Lemma faulted_mono s s1 s2 s3 :
  faulted s1 s2 → (calls s ≤ calls s1)%N → (calls s2 ≤ calls s3)%N → faulted s s3.
Proof. intros (n & e & ? & ?) ??. exists n, e. split; [lia|done]. Qed.

Lemma meets_fault {A} (op : ProgramOp A) s e e' :
  is_Some (tables (conn s)) → sql_fault (calls s) = Some e → meets op s (Err e') (bump s).
Proof. intros Ht He. split; [done|]. split; [done|]. left. by eapply faulted_bump. Qed.

Lemma decodes_with_state st now r row :
  decodes r row → decodes (with_state st now r) (row_with_state st now row).
Proof.
  unfold decodes, decode_row. simpl. destruct (ProgramId_from_str (c_id r)) as [i|]; [|done].
  simpl. rewrite state_of_str. destruct (ProgramState_from_str (c_state r)); [|done].
  intros [= <-]. simpl. unfold row_with_state; simpl. by destruct st.
Qed.
Lemma decodes_with_cursor c r row :
  in_u32 c → decodes r row → decodes (with_cursor c r) (row_with_cursor c row).
Proof.
  intros Hc. unfold decodes, decode_row. simpl.
  destruct (ProgramId_from_str (c_id r)) as [i|]; [|done].
  simpl. destruct (ProgramState_from_str (c_state r)); [|done].
  intros [= <-]. simpl. unfold row_with_cursor; simpl. by rewrite to_u32_id.
Qed.
Lemma decodes_with_error code msg r row :
  decodes r row → decodes (with_error code msg r) (row_with_error code msg row).
Proof.
  unfold decodes, decode_row. simpl. destruct (ProgramId_from_str (c_id r)) as [i|]; [|done].
  simpl. destruct (ProgramState_from_str (c_state r)); [|done]. by intros [= <-].
Qed.
Lemma decodes_resumed c now r row :
  in_u32 c → decodes r row → decodes (started now (resumed c r)) (row_resumed c now row).
Proof.
  intros Hc. unfold decodes, decode_row. simpl.
  destruct (ProgramId_from_str (c_id r)) as [i|]; [|done].
  simpl. destruct (ProgramState_from_str (c_state r)); [|done].
  intros [= <-]. simpl. unfold row_resumed; simpl. by rewrite to_u32_id.
Qed.

(** *** One operation at a time *)

Lemma meets_update {A} (op : ProgramOp A) id (f : ProgramRec → ProgramRec) g s t a :
  tables (conn s) = Some t → tables_ok t →
  (∀ r row, decodes r row → decodes (f r) (g row) ∧ c_id (f r) = c_id r) →
  (∀ row, view s !! id = Some row → spec op (view s) = (Ok a, <[id := g row]> (view s))) →
  is_Some (view s !! id) →
  ∀ s', is_Some (tables (conn s')) →
    view s' = view_of (update_where (has_id id) f (t_programs t)) → meets op s (Ok a) s'.
Proof.
  intros Ht Hok Hf Hspec [row Hrow] s' Htabs Hs'. split; [done|]. unfold agrees. rewrite (Hspec row Hrow). f_equal. rewrite Hs', (view_of_update id f g); [|by destruct Hok..|].
  - rewrite <-(view_at t s) by done. apply map_eq. intros j.
    destruct (decide (j = id)) as [->|Hj].
    + by rewrite lookup_insert_eq, lookup_alter_eq, Hrow.
    + by rewrite lookup_insert_ne, lookup_alter_ne.
  - intros r row' Hd _. by apply Hf.
Qed.

(** [n == 0] exactly when the id is not there. *)
Lemma count_has_id id t :
  tables_ok t →
  count_where (has_id id) (t_programs t) = 0%N ↔ view_of (t_programs t) !! id = None.
Proof.
  intros Hok. rewrite view_of_None by by destruct Hok. unfold count_where. split.
  - intros Hn Hin. apply list_elem_of_fmap in Hin as (r & Hr & Hin).
    assert (r ∈ List.filter (has_id id) (t_programs t)) as Hr'.
    { apply elem_of_bfilter. split; [done|]. by apply bool_decide_eq_true. }
    destruct (List.filter _ _); [by apply not_elem_of_nil in Hr'|done].
  - intros Hin. destruct (List.filter _ _) as [|r l] eqn:Hl; [done|]. destruct Hin.
    assert (r ∈ List.filter (has_id id) (t_programs t)) as Hr by (rewrite Hl; by left).
    apply elem_of_bfilter in Hr as [Hr Hid]. apply bool_decide_eq_true in Hid.
    rewrite <-Hid. by apply list_elem_of_fmap_2.
Qed.

Lemma update_program_meets (op : ProgramOp ()) id f g s :
  disk_ok s → is_Some (tables (conn s)) →
  (∀ r row, decodes r row → decodes (f r) (g row) ∧ c_id (f r) = c_id r) →
  (∀ m, spec op m = on_row id (λ row, Ok ((), g row)) m) →
  refused op Missing (StoreUnknownProgram (ProgramId_to_string id)) →
  wp (update_program id f) (meets op s) s.
Proof.
  intros Hs [t Ht] Hf Hspec Href. pose proof (Hs t Ht) as Hok.
  unfold update_program. wp_step. apply (wp_sql_at t); [done|by intros; eapply meets_fault; eauto|].
  cbn [on_result]. case_bool_decide as Hn.
  - apply wp_serr. apply count_has_id in Hn; [|done]. rewrite <-(view_at t s) in Hn by done.
    assert (view (set_tables (set_programs (update_where (has_id id) f (t_programs t)) t)
              (bump s)) = view s) as Hsame.
    { rewrite view_set_programs, view_of_absent; [by rewrite (view_at t)|].
      rewrite (view_at t s Ht) in Hn. apply view_of_None; by destruct Hok. }
    split; [by eexists|]. split; [done|]. right. exists Missing. split; [|done]. rewrite Hspec. unfold on_row.
    by rewrite Hn.
  - apply wp_sok. eapply (meets_update op id f g); try done.
    { intros row Hrow. rewrite Hspec. unfold on_row. by rewrite Hrow. }
    destruct (view s !! id) eqn:Hv; [by eexists|]. destruct Hn.
    apply count_has_id; [done|]. by rewrite <-(view_at t s).
Qed.

Lemma insert_program_meets p s :
  disk_ok s → is_Some (tables (conn s)) →
  wp (insert_program p) (meets (InsertProgram p) s) s.
Proof.
  intros Hs [t Ht]. pose proof (Hs t Ht) as Hok.
  unfold insert_program. apply (wp_sql_at t); [done|by intros; eapply meets_fault; eauto|].
  destruct (program_exists _ t) eqn:Hp.
  - split; [by eexists|]. split; [done|]. right. exists Duplicate. split; [|done]. cbn [spec].
    destruct (view s !! np_id p) eqn:Hv; [done|]. apply program_exists_true in Hp.
    rewrite (view_at t s Ht) in Hv. apply view_of_None in Hv; [done|by destruct Hok..].
  - split; [by eexists|]. unfold agrees. cbn [spec].
    pose proof (proj1 (program_exists_false _ _) Hp) as Hnew.
    assert (view s !! np_id p = None) as ->.
    { rewrite (view_at t s Ht). apply view_of_None; by destruct Hok. }
    f_equal. rewrite view_set_programs, (view_at t s Ht). symmetry.
    set (r := mkProgramRec _ _ _ _ _ _ _ _ _ _ _ _).
    assert (row_ok r) as Hr.
    { split_and!; [by exists (np_id p)|by exists (np_state p)|unfold r; simpl; ints]. }
    pose proof (tables_ok_insert_program r t Hr Hp Hok) as Hok'.
    destruct Hok'. apply view_of_snoc; [done|done| |done].
    unfold decodes, decode_row, r; simpl. rewrite ProgramId_round_trip; simpl.
    by rewrite state_of_str.
Qed.

(** Finding a row. *)
Lemma wp_find t id Q s :
  tables (conn s) = Some t → tables_ok t →
  (∀ e e', sql_fault (calls s) = Some e → Q (Err e') (bump s)) →
  match view s !! id with
  | None => Q (Err (StoreUnknownProgram (ProgramId_to_string id))) (bump s)
  | Some row => ∀ r, r ∈ t_programs t → c_id r = ProgramId_to_string id → decodes r row →
                     Q (Ok r) (bump s)
  end →
  wp (query_program id) Q s.
Proof.
  intros Ht Hok He Hv. unfold query_program. do 3 wp_step. unfold wp at 1, sql_call.
  destruct (sql_fault (calls s)) as [e|] eqn:Hf.
  { eexists _, _; split; [done|]. apply wp_ret. by eapply He. }
  unfold on_tables. rewrite Ht. rewrite (view_at t s Ht) in Hv.
  destruct (List.filter (has_id id) (t_programs t)) as [|r l] eqn:Hl; simpl.
  - eexists _, _; split; [done|]. apply wp_ret; simpl.
    assert (view_of (t_programs t) !! id = None) as Hn.
    { apply count_has_id; [done|]. unfold count_where. by rewrite Hl. }
    by rewrite Hn in Hv.
  - eexists _, _; split; [done|]. apply wp_ret; simpl.
    change (set_conn _ (bump s)) with (set_tables t (bump s)). rewrite set_tables_same by done.
    assert (r ∈ List.filter (has_id id) (t_programs t)) as Hr by (rewrite Hl; by left).
    apply elem_of_bfilter in Hr as [Hr Hid]. apply bool_decide_eq_true in Hid.
    pose proof (rows_ok t Hok) as Hrows. rewrite Forall_forall in Hrows.
    destruct (row_ok_decodes r (Hrows r Hr)) as (i & st & Hi & _ & _ & Hd).
    rewrite Hid in Hi. apply (inj _) in Hi as <-.
    rewrite (proj2 (view_of_lookup (t_programs t) id (row_of id st r)
      (ids_unique t Hok) (rows_ok t Hok))) in Hv; [by apply Hv|]. by exists r.
Qed.

Lemma get_program_meets id s :
  disk_ok s → is_Some (tables (conn s)) → wp (get_program id) (meets (GetProgram id) s) s.
Proof.
  intros Hs [t Ht]. pose proof (Hs t Ht) as Hok. unfold get_program. wp_step.
  apply (wp_find t); [done|done| |].
  { intros e e' He. cbn [on_result]. eapply meets_fault; eauto. }
  destruct (view s !! id) as [row|] eqn:Hv; cbn [on_result].
  - intros r Hr Hid Hd. wp_step. eapply wp_unwrap.
    + unfold decodes, decode_row in *. destruct (ProgramId_from_str (c_id r)); [|done].
      simpl in *. destruct (ProgramState_from_str (c_state r)); [|done]. exact Hd.
    + apply wp_sok. split; [by eexists|]. unfold agrees. cbn [spec]. by rewrite view_bump, Hv.
  - split; [by eexists|]. split; [done|]. right. exists Missing. cbn [spec]. rewrite Hv. split; [done|].
    by eexists.
Qed.

Lemma set_last_error_meets id code msg s :
  disk_ok s → is_Some (tables (conn s)) →
  wp (set_last_error id code msg) (meets (SetLastError id code msg) s) s.
Proof.
  intros Hs [t Ht]. pose proof (Hs t Ht) as Hok. unfold set_last_error. wp_step.
  apply (wp_sql_at t); [done|by intros; eapply meets_fault; eauto|]. cbn [on_result]. apply wp_sok.
  split; [by eexists|]. unfold agrees. cbn [spec]. rewrite view_set_programs, (view_at t s Ht). f_equal.
  symmetry. apply view_of_update; [by destruct Hok..|].
  intros r row Hd _. split; [by apply decodes_with_error|done].
Qed.

Lemma gc_programs_meets older_than s :
  disk_ok s → is_Some (tables (conn s)) →
  wp (gc_programs older_than) (meets (GcPrograms older_than) s) s.
Proof.
  intros Hs [t Ht]. pose proof (Hs t Ht) as Hok. unfold gc_programs. wp_step.
  apply (wp_sql_at t); [done|by intros; eapply meets_fault; eauto|]. cbn [on_result]. apply wp_sok.
  split; [by eexists|]. unfold agrees. cbn [spec].
  assert (∀ r row, r ∈ t_programs t → decodes r row →
    row_collectable older_than row = collectable older_than r) as Hcoll.
  { intros r row Hr Hd. pose proof (rows_ok t Hok) as Hrows. rewrite Forall_forall in Hrows.
    destruct (row_ok_decodes r (Hrows r Hr)) as (i & st & _ & Hst & _ & Hd').
    unfold decodes in *. rewrite Hd' in Hd. injection Hd as <-.
    unfold row_collectable, collectable; simpl. rewrite Hst. f_equal. by destruct st. }
  assert (view (set_tables (delete_programs (collectable older_than) t) (bump s))
    = view_of (List.filter (λ r, negb (collectable older_than r)) (t_programs t))) as -> by done.
  rewrite (view_at t s Ht).
  assert (filter (λ kv, row_collectable older_than kv.2 = true) (view_of (t_programs t))
    = view_of (List.filter (collectable older_than) (t_programs t))) as ->.
  { symmetry. apply view_of_filter; [by destruct Hok..|]. apply Hcoll. }
  assert (view_of (List.filter (λ r, negb (collectable older_than r)) (t_programs t))
    = filter (λ kv, negb (row_collectable older_than kv.2) = true) (view_of (t_programs t)))
    as ->.
  { apply (view_of_filter (λ r, negb (collectable older_than r)) _ (ids_unique t Hok)
      (rows_ok t Hok) (λ row, negb (row_collectable older_than row))).
    intros r row Hr Hd. by rewrite (Hcoll r). }
  rewrite size_view_of; [unfold count_where; by rewrite nat_N_Z| |].
  - apply NoDup_fmap_bfilter. by destruct Hok.
  - pose proof (rows_ok t Hok) as Hrows. rewrite Forall_forall in *. intros r Hr.
    apply elem_of_bfilter in Hr as [Hr _]. auto.
Qed.

(** An error inside the transaction: the rows are those before it. *)
Lemma meets_rollback {A} (op : ProgramOp A) s s' e :
  is_Some (tables (conn s)) → faulted s s' → meets op s (Err e) (set_conn (conn s) s').
Proof. intros Ht Hf. split; [done|]. split; [done|by left]. Qed.

Lemma resume_program_meets id from_start now s :
  disk_ok s → is_Some (tables (conn s)) →
  wp (resume_program id from_start now) (meets (ResumeProgram id from_start now) s) s.
Proof.
  intros Hs [t Ht]. pose proof (Hs t Ht) as Hok. unfold resume_program.
  apply wp_transaction; [by intros; eapply meets_fault; eauto|]. wp_step.
  apply (wp_find t); [done|done| |].
  { intros e e' He. cbn [on_result]. apply meets_rollback; [by eexists|].
    eapply faulted_mono; [by eapply faulted_bump|simpl; lia|simpl; lia]. }
  rewrite view_bump. destruct (view s !! id) as [row|] eqn:Hv; cbn [on_result].
  2: { split; [by eexists|]. split; [done|]. right. exists Missing. cbn [spec]. unfold on_row. rewrite Hv.
       split; [done|by eexists]. }
  intros r Hr Hid Hd.
  assert (row = row_of id (pr_state row) r ∧ c_state r = ProgramState_as_str (pr_state row)
    ∧ in_u32 (c_body_cursor r)) as (Hrow & Hst & Hcur).
  { pose proof (rows_ok t Hok) as Hrows. rewrite Forall_forall in Hrows.
    destruct (row_ok_decodes r (Hrows r Hr)) as (i & st & Hi & Hst & Hc & Hd').
    rewrite Hid in Hi. apply (inj _) in Hi as <-. unfold decodes in *. rewrite Hd' in Hd.
    by injection Hd as <-. }
  assert (bool_decide (c_state r ≠ ProgramState_as_str Failed)
    = bool_decide (pr_state row ≠ Failed)) as ->.
  { apply bool_decide_ext. rewrite Hst. destruct (pr_state row); done. }
  assert (c_last_error_code r = pr_last_error_code row) as Hcode by by rewrite Hrow.
  rewrite Hcode. case_bool_decide as Hs1; [|case_bool_decide as Hs2]; cbn [orb].
  1-2: apply wp_serr; cbn [on_result]; (split; [by eexists|]); (split; [done|]); right; exists NotResumable;
    cbn [spec]; unfold on_row; rewrite Hv; (rewrite decide_False by tauto);
    split; [done|by eexists].
  set (c := if from_start then 0%Z else default 0%Z (to_u32 (c_body_cursor r))).
  assert (c = if from_start then 0%Z else pr_body_cursor row) as Hc.
  { subst c. destruct from_start; [done|]. rewrite to_u32_id by done. by rewrite Hrow. }
  assert (in_u32 c) as Hcr.
  { subst c. destruct from_start; [ints|]. by rewrite to_u32_id. }
  wp_step. apply (wp_sql_at t); [done| |]; cbn [on_result].
  { intros e He. apply meets_rollback; [by eexists|].
    eapply faulted_mono; [by eapply faulted_bump|simpl; lia|simpl; lia]. }
  wp_step. eapply wp_sql_at; [done| |]; cbn [on_result].
  { intros e He. apply meets_rollback; [by eexists|].
    eapply faulted_mono; [by eapply faulted_bump|simpl; lia|simpl; lia]. }
  apply wp_sok; cbn [on_result]. split.
  - apply (meets_update (ResumeProgram id from_start now) id (started now ∘ resumed c)
      (row_resumed c now) s t c Ht Hok).
    + intros r' row' Hd'. split; [by apply decodes_resumed|done].
    + intros row' Hrow'. rewrite Hv in Hrow'. injection Hrow' as <-. cbn [spec].
      unfold on_row. rewrite Hv, decide_True, <-Hc by done. done.
    + by eexists.
    + by eexists.
    + rewrite view_bump, view_set_programs. cbn [t_programs set_programs]. f_equal.
      unfold update_where. rewrite <-list_fmap_compose. apply list_fmap_ext.
      intros k r' _. unfold compose, has_id.
      destruct (bool_decide (c_id r' = ProgramId_to_string id)) eqn:Hh; cbn [c_id resumed];
        by rewrite Hh.
  - intros e He. apply meets_rollback; [by eexists|].
    eapply faulted_mono; [by eapply faulted_bump|simpl; lia|simpl; lia].
Qed.

(** ** The listing *)

Lemma insert_by_perm {A} (key : A → Z) x l : insert_by key x l ≡ₚ x :: l.
Proof.
  induction l as [|y l IH]; simpl; [done|]. case_match; [done|]. rewrite IH. constructor.
Qed.
Lemma order_by_perm {A} (key : A → Z) l : order_by key l ≡ₚ l.
Proof. induction l as [|x l IH]; simpl; [done|]. by rewrite insert_by_perm, IH. Qed.
Lemma order_by_keys {A} (key : A → Z) l : StronglySorted (λ x y, key x ≤ key y)%Z (order_by key l).
Proof.
  induction l as [|x l IH]; simpl; [constructor|]. induction IH as [|y l' Hl IH Hy]; simpl.
  { repeat constructor. }
  destruct (Z.leb_spec (key x) (key y)).
  - constructor; [by constructor|]. constructor; [done|].
    eapply Forall_impl; [exact Hy|]. simpl. lia.
  - constructor; [done|]. rewrite insert_by_perm. constructor; [lia|done].
Qed.

(** What [list_programs] promises of the map: the rows in the state asked for,
    each once, the oldest submission first. *)
Definition listing (state_filter : option ProgramState) (m : Rows) (l : list ProgramRow) : Prop :=
  StronglySorted (λ a b, pr_submitted_at a ≤ pr_submitted_at b)%Z l ∧ NoDup (pr_id <$> l) ∧
  ∀ row, row ∈ l ↔
    m !! pr_id row = Some row ∧ ∀ st, state_filter = Some st → pr_state row = st.

(** The rows the statement selects, decoded. *)
Lemma listing_of f t g (sel := λ r, match ProgramState_as_str <$> f with
                                  | None => true
                                  | Some s => bool_decide (c_state r = s)
                                  end) :
  tables_ok t → Forall (λ r, decodes r (g r)) (t_programs t) →
  listing f (view_of (t_programs t)) (g <$> order_by c_submitted_at (List.filter sel (t_programs t))).
Proof.
  intros Hok Hg. rewrite Forall_forall in Hg. pose proof (rows_ok t Hok) as Hrows.
  pose proof (ids_unique t Hok) as Hnd. set (l := order_by _ _).
  assert (∀ r, r ∈ l ↔ r ∈ t_programs t ∧ sel r = true) as Hl.
  { intros r. unfold l. rewrite order_by_perm. apply elem_of_bfilter. }
  assert (∀ r, r ∈ t_programs t → c_id r = ProgramId_to_string (pr_id (g r)) ∧
    c_state r = ProgramState_as_str (pr_state (g r)) ∧ c_submitted_at r = pr_submitted_at (g r)) as Hr.
  { intros r Hin. pose proof (Hg r Hin) as Hd. rewrite Forall_forall in Hrows.
    destruct (row_ok_decodes r (Hrows r Hin)) as (i & st & Hi & Hst & _ & Hd').
    unfold decodes in Hd, Hd'. rewrite Hd in Hd'. injection Hd' as ->. done. }
  split_and!.
  - pose proof (order_by_keys c_submitted_at (List.filter sel (t_programs t))) as Hs. fold l in Hs.
    assert (Forall (λ r, r ∈ t_programs t) l) as Hin by (apply Forall_forall; naive_solver).
    clear Hl. clearbody l. induction Hs as [|r l Hs IH Hle]; simpl; [constructor|].
    apply Forall_cons in Hin as [Hr0 Hin]. constructor; [by apply IH|].
    apply Forall_fmap. rewrite Forall_forall in Hle, Hin |- *. intros r' Hr'. simpl.
    destruct (Hr r Hr0) as (_ & _ & <-). destruct (Hr r' (Hin r' Hr')) as (_ & _ & <-). auto.
  - assert (NoDup (c_id <$> l)) as Hu.
    { unfold l. rewrite order_by_perm. by apply NoDup_fmap_bfilter. }
    assert (c_id <$> l = ProgramId_to_string <$> (pr_id <$> (g <$> l))) as Heq.
    { rewrite <-!list_fmap_compose. apply list_fmap_ext. intros i r Hi%list_elem_of_lookup_2. simpl.
      apply Hl in Hi as [Hi _]. apply (Hr r Hi). }
    rewrite Heq in Hu. by apply NoDup_fmap_1 in Hu.
  - intros row. rewrite list_elem_of_fmap. rewrite view_of_lookup by done. split.
    + intros (r & -> & [Hin Hsel]%Hl). destruct (Hr r Hin) as (Hi & Hst & _). split; [exists r; auto|].
      intros st ->. unfold sel in Hsel. simpl in Hsel. apply bool_decide_eq_true in Hsel.
      rewrite Hst in Hsel. by destruct (pr_state (g r)), st.
    + intros [(r & Hin & Hd & Hi) Hst]. exists r.
      assert (row = g r) as -> by (pose proof (Hg r Hin); unfold decodes in *; congruence).
      split; [done|]. apply Hl. split; [done|]. unfold sel. destruct f as [st|]; [|done]. simpl.
      apply bool_decide_eq_true. destruct (Hr r Hin) as (_ & -> & _). by rewrite (Hst st).
Qed.

Lemma list_programs_lists f s :
  disk_ok s → is_Some (tables (conn s)) →
  wp (list_programs f) (λ r s', is_Some (tables (conn s')) ∧ view s' = view s ∧
    match r with Ok l => listing f (view s) l | Err _ => faulted s s' end) s.
Proof.
  intros Hs [t Ht]. pose proof (Hs t Ht) as Hok. unfold list_programs, query. wp_step. wp_step.
  wp_step. apply (wp_sql_at t); [done| |]; cbn [on_result].
  { intros e He. split; [by eexists|]. split; [done|]. by eapply faulted_bump. }
  set (g := λ r, default (row_of (mkProgramId 0) Pending r) (decode_row ProgramState_from_str r)).
  assert (Forall (λ r, decodes r (g r)) (t_programs t)) as Hg.
  { eapply Forall_impl; [exact (rows_ok t Hok)|]. intros r Hr.
    destruct (row_ok_decodes r Hr) as (i & st & _ & _ & _ & Hd). unfold decodes, g in *.
    by rewrite Hd. }
  change (Ok ?x ≫= ?k) with (k x). cbv beta iota. wp_step. eapply (wp_unwrap_all _ g).
  { apply Forall_order_by, Forall_forall. intros r [Hr _]%elem_of_bfilter.
    rewrite Forall_forall in Hg. by apply Hg. }
  apply wp_sok. split; [by eexists|]. split; [by rewrite (view_at t s Ht)|].
  rewrite (view_at t s Ht). by apply listing_of.
Qed.

(** C6: the store implements a map of programs: run on a store whose schema is
    in place, each operation on a program returns; when it answers [Ok] the map
    has changed exactly as [spec] says and the answer is [spec]'s (so a row
    read back is the row that was written, [started_at] is set once,
    [finished_at] by terminal states, resume needs [failed] with
    [daemon_restart], and only old terminal programs are collected); when it
    answers an error the map is unchanged, and either [spec] refuses the
    operation for the reason reported or the host failed a statement.  And
    [list_programs] returns, leaves the map as it is, and, unless the host
    failed the statement, answers the map's rows in the state asked for (all
    of them without a filter), each once, by time of submission. *)
Theorem store_refines_map s :
  disk_ok s → is_Some (tables (conn s)) →
  (∀ A (op : ProgramOp A), op_wf op → wp (run op) (λ r s', disk_ok s' ∧ meets op s r s') s) ∧
  ∀ f, wp (list_programs f) (λ r s', disk_ok s' ∧ is_Some (tables (conn s')) ∧ view s' = view s ∧
    match r with Ok l => listing f (view s) l | Err _ => faulted s s' end) s.
Proof.
  intros Hs Ht. split; [intros A op Hwf|intros f]; apply wp_and.
  - destruct op; simpl in *; [apply keeps_insert_program|apply keeps_get_program
      |apply keeps_update_state|by apply keeps_set_body_cursor|apply keeps_set_last_error
      |apply keeps_resume_program|apply keeps_gc_programs]; done.
  - destruct op; cbn [run].
    + by apply insert_program_meets.
    + by apply get_program_meets.
    + eapply update_program_meets; [done|done| |done|by eexists].
      intros r row Hd. split; [by apply decodes_with_state|done].
    + eapply update_program_meets; [done|done| |done|by eexists].
      intros r row Hd. split; [by apply decodes_with_cursor|done].
    + by apply set_last_error_meets.
    + by apply resume_program_meets.
    + by apply gc_programs_meets.
  - by apply keeps_list_programs.
  - by apply list_programs_lists.
Qed.
End refinement.
