(* ===== verification/StoreOpen.v ===== *)
(** * Opening the store: migrations and restart recovery

    [Store::open] on a disk left by an earlier process: it returns whatever
    fails; when it succeeds the schema is in place, every program found running
    is failed with [daemon_restart] at its cursor and reported exactly once,
    and every other row is as it was; when it does not succeed no row has
    changed. *)

From S2P Require Import Prelude Json CoreTypes Sha256 EventWire Host Wp Store StoreSpec StoreGc StoreMap.

Local Open Scope vcli_scope.
#[local] Set Default Proof Using "All".

(** The rows behind the handle, before and after the schema is there. *)
Definition rows (s : Store) : Tables := default empty_tables (tables (conn s)).

(** What recovery does to a row. *)
Definition row_failed (r : ProgramRow) : ProgramRow :=
  mkProgramRow (pr_id r) (pr_name r) (pr_source_json r) Failed (pr_submitted_at r)
    (pr_started_at r) (pr_finished_at r) (Some "daemon_restart")
    (Some "daemon restarted during execution") (pr_labels_json r) (pr_body_cursor r)
    (pr_body_entered_at r).
Definition recover_row (r : ProgramRow) : ProgramRow :=
  if decide (pr_state r = Running) then row_failed r else r.

Section opening.
Context `{UuidOps, !UuidLaws, JsonText, Host, Sha2, !Sha2Laws}.

Lemma view_rows s : view s = view_of (t_programs (rows s)).
Proof. unfold view, rows. by destruct (tables (conn s)). Qed.

Lemma view_of_map F G l :
  NoDup (c_id <$> l) → Forall row_ok l →
  (∀ r row, r ∈ l → decodes r row → decodes (F r) (G row) ∧ c_id (F r) = c_id r) →
  view_of (map F l) = G <$> view_of l.
Proof.
  intros Hnd Hok HF. induction Hok as [|r l Hr Hl IH]; [unfold view_of; simpl; by rewrite fmap_empty|].
  apply NoDup_cons in Hnd as [_ Hnd].
  destruct (row_ok_decodes r Hr) as (j & st & Hj & _ & _ & Hd).
  destruct (HF r _ ltac:(by left) Hd) as [HFd HFid]. simpl.
  rewrite (view_of_cons _ _ _ _ Hd), fmap_insert, (view_of_cons' _ _ _ HFd), IH;
    [|done|by intros; apply HF; [right|]].
  f_equal. unfold decodes, decode_row in HFd. rewrite HFid, Hj, ProgramId_round_trip in HFd.
  simpl in HFd. destruct (ProgramState_from_str _); simplify_eq/=. by rewrite <-HFd.
Qed.

(** *** Migrations *)

(** A call that leaves the rows alone. *)
Definition quiet {A} (m : ST Store A) : Prop :=
  ∀ s, wp m (λ _ s', rows s' = rows s ∧ (is_Some (tables (conn s)) → is_Some (tables (conn s')))) s.

Lemma quiet_bind {A B} (m : ST Store A) (f : A → ST Store B) :
  quiet m → (∀ a, quiet (f a)) → quiet (m ≫= f).
Proof.
  intros Hm Hf s. apply wp_bind. eapply wp_mono; [apply Hm|]. intros a s1 [H1' H2'].
  eapply wp_mono; [apply Hf|]. intros b s2 [H3' H4']. split; [congruence|auto].
Qed.
Lemma quiet_ret {A} (a : A) : quiet (mret a).
Proof. intros s. by apply wp_ret. Qed.
Lemma quiet_sbind {E A B} (m : ST Store (result E A)) (f : A → ST Store (result E B)) :
  quiet m → (∀ a, quiet (f a)) → quiet (sbind m f).
Proof. intros Hm Hf. apply quiet_bind; [done|]. intros [a|e]; [done|apply quiet_ret]. Qed.
Lemma quiet_sql_call {A} (f : Db → result SqlError (A * Db)) :
  (∀ db a db', f db = Ok (a, db') →
     default empty_tables (tables db') = default empty_tables (tables db)
     ∧ (is_Some (tables db) → is_Some (tables db'))) →
  quiet (r ← sql_call f; mret (map_err StoreSqlite r)).
Proof.
  intros Hf s. apply wp_bind, wp_sql_call; intros; apply wp_ret; [done|].
  unfold rows; simpl. eauto.
Qed.
Lemma quiet_noop : quiet (r ← sql_call (λ db, Ok ((), db)); mret (map_err StoreSqlite r)).
Proof. apply quiet_sql_call. by intros db a db' [= _ <-]. Qed.
Lemma quiet_io {A} p (f : fs_call A) : quiet (io p f).
Proof. intros s. apply wp_io; intros; done. Qed.
Lemma quiet_transaction {A} (m : ST Store (result StoreError A)) :
  quiet m → quiet (transaction m).
Proof.
  intros Hm s. apply wp_transaction; [done|]. eapply wp_mono; [apply Hm|].
  intros [a|e] s' [Hr Ht]; simpl; [split|]; intros; done.
Qed.

Lemma migrate_rows db a db' :
  (λ db, Ok ((), mkDb (Some (default [] (schema_version db)))
     (Some (default empty_tables (tables db)))) : result SqlError _) db = Ok (a, db') →
  default empty_tables (tables db') = default empty_tables (tables db)
  ∧ (is_Some (tables db) → is_Some (tables db')).
Proof. intros [= _ <-]. by destruct (tables db). Qed.

Lemma quiet_current_version : quiet current_version.
Proof.
  unfold current_version. apply quiet_sbind; [apply quiet_sql_call|intros []].
  { by intros db a db' [= _ <-]. }
  intros s. apply wp_bind, wp_sql_call; intros; apply wp_sok; [done|].
  unfold rows; simpl. destruct (schema_version (conn s)) as [[|v l]|]; simplify_eq. done.
Qed.

Lemma quiet_run_migrations : quiet run_migrations.
Proof.
  unfold run_migrations. apply quiet_sbind; [apply quiet_current_version|]. intros cur.
  case_match; [apply quiet_ret|]. simpl. apply quiet_sbind; [|intros; apply quiet_ret].
  case_match; [apply quiet_ret|].
  apply quiet_transaction, quiet_sbind; [apply quiet_sql_call, migrate_rows|intros []].
  apply quiet_sql_call. intros db a db'. destruct (schema_version db); [|done].
  by intros [= _ <-].
Qed.

(** *** Recovery *)

Lemma decodes_failed r row :
  decodes r row → decodes (fail_running r) (row_failed row).
Proof.
  unfold decodes, decode_row. simpl. destruct (ProgramId_from_str (c_id r)) as [i|]; [|done].
  simpl. destruct (ProgramState_from_str (c_state r)); [|done]. by intros [= <-].
Qed.

Lemma is_running_row r row :
  row_ok r → decodes r row → is_running r = bool_decide (pr_state row = Running).
Proof.
  intros Hr Hd. destruct (row_ok_decodes r Hr) as (i & st & _ & Hst & _ & Hd').
  unfold decodes in *. rewrite Hd' in Hd. injection Hd as <-. simpl.
  unfold is_running. rewrite Hst. by destruct st.
Qed.

(** The rows reported are those that were running, each once. *)
Definition reports (m : Rows) (l : list RecoveredProgram) : Prop :=
  NoDup (rec_id <$> l) ∧
  ∀ i c, mkRecovered i c ∈ l ↔
    ∃ row, m !! i = Some row ∧ pr_state row = Running ∧ pr_body_cursor row = c.

Definition recovered_of (r : ProgramRec) : RecoveredProgram :=
  mkRecovered (default (mkProgramId 0) (ProgramId_from_str (c_id r))) (c_body_cursor r).

Lemma recovered_of_ok r i st :
  c_id r = ProgramId_to_string i → decodes r (row_of i st r) →
  recovered_of r = mkRecovered i (c_body_cursor r).
Proof. intros Hi _. unfold recovered_of. by rewrite Hi, ProgramId_round_trip. Qed.

Lemma reports_rows t l :
  tables_ok t → l ≡ₚ map recovered_of (List.filter is_running (t_programs t)) →
  reports (view_of (t_programs t)) l.
Proof.
  intros Hok Hl. pose proof (rows_ok t Hok) as Hrows. rewrite Forall_forall in Hrows. split.
  - rewrite Hl. rewrite <-list_fmap_compose.
    pose proof (NoDup_fmap_bfilter c_id is_running _ (ids_unique t Hok)) as Hnd.
    assert (∀ r, r ∈ List.filter is_running (t_programs t) → row_ok r) as Hf.
    { intros r Hr. apply elem_of_bfilter in Hr as [Hr _]. auto. }
    clear Hl l. revert Hnd Hf. generalize (List.filter is_running (t_programs t)).
    intros l. induction l as [|r l IH]; simpl; [constructor|]. rewrite !NoDup_cons.
    intros [Hnew Hnd] Hf. split; [|apply IH; [done|]; intros; apply Hf; by right].
    intros Hin. apply list_elem_of_fmap in Hin as (r' & Heq & Hin). apply Hnew.
    apply list_elem_of_fmap. exists r'. split; [|done].
    destruct (row_ok_decodes r (Hf r ltac:(by left))) as (i & ? & Hi & _).
    destruct (row_ok_decodes r' (Hf r' ltac:(by right))) as (j & ? & Hj & _).
    unfold compose, recovered_of in Heq; simpl in Heq.
    rewrite Hi, Hj, !ProgramId_round_trip in Heq. simpl in Heq. congruence.
  - intros i c. rewrite Hl. rewrite list_elem_of_fmap. split.
    + intros (r & Heq & Hr). apply elem_of_bfilter in Hr as [Hr Hrun].
      destruct (row_ok_decodes r (Hrows r Hr)) as (j & st & Hj & _ & _ & Hd).
      rewrite (recovered_of_ok r j st Hj Hd) in Heq. injection Heq as -> ->.
      exists (row_of j st r). split_and!; [|..|done].
      * apply view_of_lookup; [by destruct Hok..|]. by exists r.
      * rewrite (is_running_row r (row_of j st r)) in Hrun by auto.
        by apply bool_decide_eq_true in Hrun.
    + intros (row & Hrow & Hst & Hc).
      apply view_of_lookup in Hrow as (r & Hr & Hd & Hi); [|by destruct Hok..].
      destruct (row_ok_decodes r (Hrows r Hr)) as (j & st & Hj & _ & _ & Hd').
      assert (row = row_of j st r) as -> by (unfold decodes in *; congruence).
      rewrite Hj in Hi. apply (inj _) in Hi as ->. exists r. split.
      * rewrite (recovered_of_ok r i st Hj Hd'). by rewrite <-Hc.
      * apply elem_of_bfilter. split; [done|].
        rewrite (is_running_row r (row_of i st r)) by auto. by apply bool_decide_eq_true.
Qed.

Lemma wp_decode_recovered l (Q : list RecoveredProgram → Store → Prop) R acc s :
  Forall row_ok l → Q (acc ++ map recovered_of l) s →
  wp (try_fold (λ acc '(id_str, cursor),
       match ProgramId_from_str id_str with
       | None => serr (StoreUnknownProgram id_str)
       | Some id => sok (acc ++ [mkRecovered id (default 0%Z (to_u32 cursor))])
       end) acc (map (λ r, (c_id r, c_body_cursor r)) l)) (on_result Q R) s.
Proof.
  intros Hl. revert acc. induction Hl as [|r l Hr Hl IH]; intros acc HQ; simpl.
  { apply wp_sok. simpl. by rewrite app_nil_r in HQ. }
  apply wp_sbind. destruct (row_ok_decodes r Hr) as (i & st & Hi & _ & Hc & Hd).
  rewrite Hi, ProgramId_round_trip. apply wp_sok. cbn [on_result]. apply IH.
  rewrite to_u32_id by done. rewrite <-app_assoc. simpl in *.
  by rewrite <-(recovered_of_ok r i st Hi Hd).
Qed.

(** After recovery. *)
Definition recovery_done (s : Store) (l : list RecoveredProgram) (s' : Store) : Prop :=
  is_Some (tables (conn s')) ∧ view s' = recover_row <$> view s ∧ reports (view s) l
  ∧ rows s' = set_programs (t_programs (rows s')) (rows s).

Lemma recover_meets s :
  disk_ok s →
  wp recover_running_programs
     (on_result (recovery_done s) (λ _ s', rows s' = rows s)) s.
Proof.
  intros Hs. unfold recover_running_programs.
  apply wp_transaction; [done|]. wp_step. apply wp_query; [done|].
  intros t l Ht [= <-]. cbn [on_result]. pose proof (Hs t Ht) as Hok.
  assert (rows s = t) as Hrows by (unfold rows; by simpl in Ht; rewrite Ht).
  set (run := List.filter is_running (t_programs t)).
  set (perm := arrange _ _).
  assert (∃ l, perm = map (λ r, (c_id r, c_body_cursor r)) l ∧ l ≡ₚ run) as (l & Hl & Hperm).
  { pose proof (arrange_perm _ (calls (bump s)) (map (λ r, (c_id r, c_body_cursor r)) run))
      as Hp. apply Permutation_map_inv in Hp as (l & Hl & Hp).
    exists l. by split; [|symmetry]. }
  assert (Forall row_ok l) as Hlok.
  { rewrite Hperm. pose proof (rows_ok t Hok) as Hr. rewrite Forall_forall in *.
    intros r Hin. apply elem_of_bfilter in Hin as [Hin _]. auto. }
  rewrite Hl. wp_step. apply wp_decode_recovered; [done|]. cbn [app].
  assert (reports (view s) (map recovered_of l)) as Hrep.
  { rewrite view_rows, Hrows. apply reports_rows; [done|]. by rewrite Hperm. }
  assert (recover_row <$> view s = view_of (update_where is_running fail_running (t_programs t)))
    as Hview.
  { rewrite view_rows, Hrows. unfold update_where. symmetry. apply view_of_map;
      [by destruct Hok..|]. intros r row Hr Hd. pose proof (rows_ok t Hok) as Hall.
    rewrite Forall_forall in Hall. rewrite (is_running_row r row) by auto.
    unfold recover_row. destruct (decide (pr_state row = Running)) as [Hrun|Hrun].
    - rewrite bool_decide_true by done. by split; [apply decodes_failed|].
    - by rewrite bool_decide_false by done. }
  destruct l as [|r l]; cbn [map].
  - assert (run = []) as Hrun by (by apply Permutation_nil_l in Hperm).
    assert (recovery_done s [] (bump (bump (bump s)))) as Hdone.
    { split_and!; [by eexists| |done|].
      2: { change (rows (bump (bump (bump s)))) with (rows s). by destruct (rows s). }
      rewrite Hview. rewrite !view_bump, view_rows, Hrows.
      f_equal. clear -Hrun. unfold run, update_where in *. clear run.
      induction (t_programs t) as [|r l IH]; simpl in *; [done|].
      destruct (is_running r); [done|]. f_equal. by apply IH. }
    apply wp_sok. cbn [on_result]. split; [done|]. intros e _. by destruct s.
  - wp_step. apply (wp_sql_at t); [done|by intros; cbn [on_result]|]. cbn [on_result].
    apply wp_sok. cbn [on_result]. split; [|intros; by destruct s].
    split_and!; [by eexists| |done|].
    + by rewrite Hview.
    + by rewrite Hrows.
Qed.

Lemma open_meets root s :
  disk_ok s → wp (open root) (on_result (recovery_done s) (λ _ s', rows s' = rows s)) s.
Proof.
  intros Hs.
  assert (∀ (m : ST Store (result StoreError ())) k,
    quiet m → keeps m →
    (∀ s', disk_ok s' → rows s' = rows s →
       wp k (on_result (recovery_done s) (λ _ s', rows s' = rows s)) s') →
    ∀ s', disk_ok s' → rows s' = rows s →
       wp (_ ←! m; k) (on_result (recovery_done s) (λ _ s', rows s' = rows s)) s') as Hstep.
  { intros m k Hq Hk Hrest s' Hs' Hr'. apply wp_sbind.
    eapply wp_mono; [apply wp_and; [apply (Hk s' Hs')|apply Hq]|].
    intros [[]|e] s1 (Hs1 & Hr1 & _); cbn [on_result]; [apply Hrest; [done|congruence]|congruence]. }
  assert (∀ s', disk_ok s' → rows s' = rows s →
    wp recover_running_programs (on_result (recovery_done s) (λ _ s', rows s' = rows s)) s')
    as Hlast.
  { intros s' Hs' Hr'. eapply wp_mono_result; [by apply recover_meets| |].
    - intros l s1. unfold recovery_done. by rewrite !(view_rows s'), !(view_rows s), Hr'.
    - intros e s1 ?. congruence. }
  unfold open, apply_pragmas. apply wp_bind, wp_modify.
  do 5 (apply Hstep; [eauto using quiet_io, quiet_noop, quiet_sbind, quiet_run_migrations
    |eauto using keeps_run_migrations with vcli_store|intros ?? ?
    |first [exact Hs|assumption]|first [assumption|done]]).
  by apply Hlast.
Qed.

(** C15: opening the store on any disk whose rows are in order returns,
    whatever fails.  If it succeeds, the schema is there and the map of
    programs is the one left behind with every running program turned to
    [failed] with code [daemon_restart], its cursor and its times kept;
    exactly the running programs are reported, once each, with their
    cursors; events, assets, links and traces are untouched.  If it fails,
    no row has changed. *)
Theorem open_recovers root s :
  disk_ok s →
  wp (open root) (λ r s', disk_ok s' ∧
    match r with
    | Ok l => recovery_done s l s'
              ∧ ∀ i row, view s' !! i = Some row → pr_state row ≠ Running
    | Err _ => view s' = view s ∧ rows s' = rows s
    end) s.
Proof.
  intros Hs. apply wp_and; [by apply keeps_open|]. eapply wp_mono; [by apply open_meets|].
  intros [l|e] s'; cbn [on_result].
  - intros Hd. split; [done|]. destruct Hd as (_ & Hv & _ & _). intros i row.
    rewrite Hv, lookup_fmap_Some. intros (r & <- & _). unfold recover_row. by case_decide.
  - intros Hr. split; [|done]. by rewrite !view_rows, Hr.
Qed.
End opening.
