(* ===== verification/StoreLog.v ===== *)
(** * The event log and the traces

    Events are appended with growing ids and read back in pages; what is read
    back is the event that was appended.  A batch of traces is written whole
    or not at all. *)

From S2P Require Import Prelude Json CoreTypes Sha256 Serde EventWire Host Wp Store StoreSpec.
From S2P Require Import StoreGc StoreMap StoreOpen.

Local Open Scope vcli_scope.
#[local] Set Default Proof Using "All".

Section log.
Context `{UuidOps, !UuidLaws, JsonText, !JsonTextLaws, Host, Sha2, !Sha2Laws}.

(** The log, oldest first. *)
Definition log_of (l : list EventRec) : list StoredEvent := omap decode_event l.
Definition log (s : Store) : list StoredEvent := log_of (t_events (rows s)).

(** A page: what comes after [since], cut at [n]. *)
Definition page (since : Z) (n : nat) (l : list StoredEvent) : list StoredEvent :=
  take n (filter (λ e, since < se_id e)%Z l).

Lemma order_by_sorted {A} (key : A → Z) l :
  StronglySorted Z.lt (key <$> l) → order_by key l = l.
Proof.
  induction l as [|x l IH]; simpl; [done|]. intros Hs.
  apply StronglySorted_inv in Hs as [Hs Hx]. rewrite IH by done.
  destruct l as [|y l]; simpl; [done|]. inversion Hx; subst.
  rewrite (proj2 (Z.leb_le _ _)) by lia. done.
Qed.

(** Under the foreign key every event decodes. *)
Definition event_ok (e : EventRec) : Prop := ∃ i, e_program_id e = ProgramId_to_string i.
Lemma tables_ok_events t : tables_ok t → Forall event_ok (t_events t).
Proof.
  intros Hok. pose proof (events_fk t Hok) as Hfk. pose proof (rows_ok t Hok) as Hrows.
  rewrite Forall_forall in Hrows. apply Forall_forall. intros e He.
  pose proof (proj1 (Forall_forall _ _) Hfk e He) as Hfk'. clear Hfk. rename Hfk' into Hfk.
  apply list_elem_of_fmap in Hfk as (r & Hr & Hin). destruct (Hrows r Hin) as ([i Hi] & _).
  exists i. congruence.
Qed.
Definition stored (i : ProgramId) (e : EventRec) : StoredEvent :=
  mkStoredEvent (e_id e) i (e_type e) (e_data_json e) (e_at e).
Lemma decode_event_ok e i :
  e_program_id e = ProgramId_to_string i → decode_event e = Some (stored i e).
Proof. intros Hi. unfold decode_event. by rewrite Hi, ProgramId_round_trip. Qed.

Lemma log_of_cons i e l :
  e_program_id e = ProgramId_to_string i → log_of (e :: l) = stored i e :: log_of l.
Proof. intros Hi. unfold log_of; simpl. by rewrite (decode_event_ok e i Hi). Qed.
Lemma log_of_app l k : log_of (l ++ k) = log_of l ++ log_of k.
Proof. apply omap_app. Qed.

Lemma log_ids l : Forall event_ok l → se_id <$> log_of l = e_id <$> l.
Proof.
  induction 1 as [|e l [i Hi] Hl IH]; [done|]. rewrite (log_of_cons i) by done.
  rewrite !fmap_cons. by rewrite IH.
Qed.

Lemma page_rows since n l :
  Forall event_ok l →
  page since n (log_of l)
  = take n (log_of (List.filter (λ e, (since <? e_id e)%Z) l)).
Proof.
  intros Hl. unfold page. f_equal. induction Hl as [|e l [i Hi] Hl IH]; [done|].
  rewrite (log_of_cons i) by done. simpl.
  destruct (since <? e_id e)%Z eqn:He.
  - apply Z.ltb_lt in He. rewrite filter_cons_True by done. rewrite (log_of_cons i) by done.
    by rewrite IH.
  - apply Z.ltb_ge in He. rewrite filter_cons_False by (simpl; lia). done.
Qed.

(** Consecutive pages of a log whose ids grow. *)
Lemma page_skip since n e l : (se_id e ≤ since)%Z → page since n (e :: l) = page since n l.
Proof. intros He. unfold page. by rewrite filter_cons_False by lia. Qed.
Lemma page_take since n e l :
  (since < se_id e)%Z → Forall (λ i, se_id e < i)%Z (se_id <$> l) →
  page since (S n) (e :: l) = e :: page (se_id e) n l.
Proof.
  intros He Hl. unfold page. rewrite filter_cons_True by done. rewrite firstn_cons. do 2 f_equal.
  induction l as [|e' l IH]; [done|]. apply Forall_cons in Hl as [He' Hl].
  rewrite !filter_cons_True by (simpl in *; lia). by rewrite IH.
Qed.
Lemma page_last since n l :
  (since ≤ default since (se_id <$> last (page since n l)))%Z.
Proof.
  destruct (last (page since n l)) as [e|] eqn:He; simpl; [|lia].
  apply last_Some_elem_of in He. unfold page in He. apply elem_of_take in He.
  destruct He as (i & He & _). apply list_elem_of_lookup_2, list_elem_of_filter in He. lia.
Qed.

Lemma page_app since n k l :
  StronglySorted Z.lt (se_id <$> l) →
  page since (length (page since n l) + k) l
  = page since n l ++ page (default since (se_id <$> last (page since n l))) k l.
Proof.
  intros Hs. revert since n. induction l as [|e l IH]; intros since n.
  { unfold page. rewrite filter_nil, !take_nil. simpl. by rewrite filter_nil, take_nil. }
  rewrite fmap_cons in Hs. apply StronglySorted_inv in Hs as [Hs Hx]. specialize (IH Hs).
  destruct (decide (since < se_id e)%Z) as [He|He].
  - destruct n as [|n]; [done|]. rewrite page_take by done. cbn [length Nat.add app].
    rewrite page_take, IH by done. f_equal. f_equal. pose proof (page_last (se_id e) n l) as Hl.
    rewrite last_cons. destruct (last (page (se_id e) n l)) as [e'|]; simpl in *;
      by rewrite page_skip by lia.
  - rewrite !(page_skip since) by lia. rewrite IH. f_equal.
    pose proof (page_last since n l). by rewrite page_skip by lia.
Qed.

(** The event a row was written from. *)
Definition event_of (e : StoredEvent) : option Event :=
  match json_from_str (se_data_json e) with Ok v => Event_from_value v | Err _ => None end.

(** Appending an event either fails and leaves the log as it was (the host
    failed, the program is unknown, or the ids ran out), or adds one entry at
    its end, with an id above every earlier one, the program, the type tag
    and the time of the event, and a text that reads back as that event. *)
Theorem append_event_round_trip i ev s :
  disk_ok s → is_Some (tables (conn s)) → Event_wf ev →
  wp (append_event i ev) (λ r s', disk_ok s' ∧ view s' = view s ∧
    match r with
    | Ok id => ∃ e, log s' = log s ++ [e] ∧ se_id e = id ∧ Forall (λ e', se_id e' < id)%Z (log s)
                    ∧ se_program_id e = i ∧ se_at e = ev_at ev
                    ∧ se_type_tag e = event_type_tag (ev_data ev) ∧ event_of e = Some ev
    | Err e => log s' = log s
               ∧ (faulted s s' ∨ (view s !! i = None ∧ e = StoreSqlite ConstraintViolation)
                  ∨ e = StoreSqlite DatabaseFull)
    end) s.
Proof.
  intros Hs [t Ht] Hev. apply wp_and; [by apply keeps_append_event|].
  pose proof (Hs t Ht) as Hok. assert (rows s = t) as Hrows by (unfold rows; by rewrite Ht).
  unfold append_event. cbv zeta. apply (wp_sql_at t); [done| |].
  { intros e He. split; [done|]. split; [done|]. left. by eapply faulted_bump. }
  destruct (program_exists _ t) eqn:Hp; simpl.
  2: { split; [done|]. split; [done|]. right; left. split; [|done].
       apply program_exists_false in Hp. rewrite (view_at t s Ht).
       apply view_of_None; by destruct Hok. }
  destruct (i64_max <=? t_events_seq t)%Z; [by auto|].
  split; [by rewrite (view_at t s Ht)|].
  set (rec := mkEventRec _ _ _ _ _).
  exists (stored i rec). split_and!; try done.
  - unfold log. rewrite Hrows. unfold rows; simpl. rewrite log_of_app. f_equal.
    by rewrite (log_of_cons i).
  - unfold log. rewrite Hrows. apply Forall_forall. intros e He.
    assert (se_id e ∈ (e_id <$> t_events t)) as Hin.
    { rewrite <-log_ids by by apply tables_ok_events. by apply list_elem_of_fmap_2. }
    destruct (events_ids t Hok) as (_ & Hb & _). rewrite Forall_forall in Hb.
    specialize (Hb _ Hin). lia.
  - unfold event_of; simpl. rewrite json_round_trip by by apply exact_Event.
    by apply Event_value.
Qed.

(** Reading the stream after [since] answers the next [limit] entries of
    the log in the order they were appended (unless the host fails), and a
    reader that asks again from the last id it saw misses and repeats
    nothing: two consecutive pages are one longer page. *)
Theorem stream_events_pages since limit s :
  disk_ok s → is_Some (tables (conn s)) →
  wp (stream_events since limit) (λ r s', rows s' = rows s ∧
    match r with
    | Ok l => l = page since (Z.to_nat limit) (log s)
              ∧ ∀ k, page since (length l + k) (log s)
                     = l ++ page (default since (se_id <$> last l)) k (log s)
    | Err _ => faulted s s'
    end) s.
Proof.
  intros Hs [t Ht]. pose proof (Hs t Ht) as Hok.
  assert (rows s = t) as Hrows by (unfold rows; by rewrite Ht).
  pose proof (tables_ok_events t Hok) as Hev. destruct (events_ids t Hok) as (Hsorted & _ & _).
  unfold stream_events. wp_step. apply (wp_query_at t); [done| |].
  { intros e He. split; [done|]. by eapply faulted_bump. }
  cbn [on_result]. wp_step.
  set (kept := List.filter _ _).
  assert (order_by e_id kept = kept) as ->.
  { apply order_by_sorted. subst kept. revert Hsorted. clear.
    induction (t_events t) as [|e l IH]; simpl; [constructor|].
    intros [Hs Hx]%StronglySorted_inv. destruct (_ <? _)%Z; simpl; [|by apply IH].
    constructor; [by apply IH|]. apply Forall_forall. intros y Hy.
    apply list_elem_of_fmap in Hy as (e' & -> & Hy). apply elem_of_bfilter in Hy as [Hy _].
    rewrite Forall_forall in Hx. apply Hx. by apply list_elem_of_fmap_2. }
  eapply (wp_unwrap_all _ (λ e, default (mkStoredEvent 0 (mkProgramId 0) "" "" 0)
    (decode_event e))).
  { apply Forall_take. apply Forall_forall. intros e He. apply elem_of_bfilter in He as [He _].
    rewrite Forall_forall in Hev. destruct (Hev e He) as [i Hi].
    by rewrite (decode_event_ok e i Hi). }
  apply wp_sok. split; [done|]. unfold log. rewrite Hrows.
  assert (∀ l, Forall event_ok l → map (λ e, default (mkStoredEvent 0 (mkProgramId 0) "" "" 0)
    (decode_event e)) l = log_of l) as Hmap.
  { induction 1 as [|e l [i Hi] Hl IH]; [done|]. cbn [map].
    rewrite (log_of_cons i) by done. by rewrite (decode_event_ok e i Hi), IH. }
  assert (Forall event_ok kept) as Hkept.
  { apply Forall_forall. intros e He. apply elem_of_bfilter in He as [He _].
    rewrite Forall_forall in Hev. by apply Hev. }
  rewrite Hmap by by apply Forall_take.
  assert (∀ n, log_of (take n kept) = take n (log_of kept)) as Htake.
  { clearbody kept. clear Hsorted. induction Hkept as [|e l [i Hi] Hl IH]; intros [|n]; try done.
    rewrite !firstn_cons, !(log_of_cons i) by done. by rewrite firstn_cons, IH. }
  subst kept. rewrite Htake, <-(page_rows since (Z.to_nat limit)) by done. split; [done|]. intros k.
  apply page_app. by rewrite log_ids.
Qed.

(** ** Traces *)

(** The record a row was written from: a tick above [i64::MAX] is cut. *)
Definition stored_trace (r : TraceRecord) : TraceRecord :=
  mkTraceRecord (Z.min i64_max (trace_tick r)) (trace_at r) (trace_program_id r)
    (trace_kind r) (trace_payload r).
Definition trace_wf (r : TraceRecord) : Prop :=
  (0 ≤ trace_tick r)%Z ∧ exact (trace_payload r).

(** The traces of a program, oldest first. *)
Definition traces (i : ProgramId) (s : Store) : list TraceRecord :=
  map decode_trace (List.filter
    (λ r, bool_decide (tr_program_id r = Some (ProgramId_to_string i))) (t_traces (rows s))).

Definition of_program (i : ProgramId) (r : TraceRecord) : bool :=
  bool_decide (trace_program_id r = Some i).

Lemma decode_trace_row id r :
  trace_wf r →
  decode_trace (mkTraceRec id (ProgramId_to_string <$> trace_program_id r)
    (Z.min i64_max (trace_tick r)) (trace_at r) (TraceKind_as_str (trace_kind r))
    (json_to_string (trace_payload r))) = stored_trace r.
Proof.
  intros [Htick Hp]. unfold decode_trace, stored_trace; simpl.
  rewrite json_round_trip by done.
  rewrite (proj2 (Z.leb_le _ _)) by ints.
  f_equal; [|by destruct (trace_kind r)].
  destruct (trace_program_id r) as [p|]; simpl; [apply ProgramId_round_trip|done].
Qed.

Lemma insert_trace_appends r s :
  trace_wf r → is_Some (tables (conn s)) →
  wp (insert_trace r) (on_result (λ _ s', is_Some (tables (conn s')) ∧ ∀ i,
     traces i s' = traces i s ++ map stored_trace (List.filter (of_program i) [r]))
     (λ _ _, True)) s.
Proof.
  intros Hr [t Ht]. unfold insert_trace. cbv zeta. apply (wp_sql_at t); [done|done|].
  destruct (match ProgramId_to_string <$> trace_program_id r with
            | Some p => negb (program_exists p t) | None => false end); [done|].
  destruct (i64_max <=? t_traces_seq t)%Z; [done|]. split; [by eexists|]. intros i.
  unfold traces. assert (rows s = t) as -> by (unfold rows; by rewrite Ht).
  unfold rows; simpl. rewrite List.filter_app, map_app. f_equal. simpl.
  assert (bool_decide (ProgramId_to_string <$> trace_program_id r
    = Some (ProgramId_to_string i)) = of_program i r) as ->.
  { apply bool_decide_ext. destruct (trace_program_id r) as [p|]; simpl; [|done].
    split; [intros [= Hp]; f_equal; by apply (inj ProgramId_to_string)|congruence]. }
  destruct (of_program i r); [|done]. simpl. by rewrite decode_trace_row.
Qed.

(** Flushing a batch of traces is all or nothing: if it succeeds, reading
    the traces of any program gives the old ones followed by the new ones of
    that program in the order of the batch, unchanged but for ticks beyond
    [i64::MAX]; if any row fails, no trace was added. *)
Theorem flush_traces_atomic batch s :
  disk_ok s → is_Some (tables (conn s)) → Forall trace_wf batch →
  wp (flush_traces batch) (λ r s', disk_ok s' ∧
    match r with
    | Ok _ => ∀ i, wp (read_traces i) (λ a s2,
                a = Ok (traces i s ++ map stored_trace (List.filter (of_program i) batch))
                ∨ faulted s' s2) s'
    | Err _ => rows s' = rows s
    end) s.
Proof.
  intros Hs Ht Hwf.
  assert (∀ s', disk_ok s' → is_Some (tables (conn s')) → ∀ i,
    wp (read_traces i) (λ a s2, a = Ok (traces i s') ∨ faulted s' s2) s') as Hread.
  { intros s' Hs' [t Ht'] i. apply (wp_query_at t); [done| |].
    - intros e He. right. by eapply faulted_bump.
    - left. unfold traces. assert (rows s' = t) as -> by (unfold rows; by rewrite Ht').
      do 2 f_equal. apply order_by_sorted. destruct (traces_ids t (Hs' t Ht')) as (Hsort & _ & _).
      revert Hsort. clear. induction (t_traces t) as [|e l IH]; simpl; [constructor|].
      intros [Hs Hx]%StronglySorted_inv. destruct (bool_decide _); simpl; [|by apply IH].
      constructor; [by apply IH|]. apply Forall_forall. intros y Hy.
      apply list_elem_of_fmap in Hy as (e' & -> & Hy). apply elem_of_bfilter in Hy as [Hy _].
      rewrite Forall_forall in Hx. apply Hx. by apply list_elem_of_fmap_2. }
  assert (wp (flush_traces batch) (on_result (λ _ s', is_Some (tables (conn s')) ∧ ∀ i,
    traces i s' = traces i s ++ map stored_trace (List.filter (of_program i) batch))
    (λ _ s', rows s' = rows s)) s) as Hflush.
  { unfold flush_traces. destruct batch as [|r0 batch']; [apply wp_sok; split; [done|]|].
    { intros i. by rewrite app_nil_r. }
    set (batch := r0 :: batch') in *. apply wp_transaction; [done|].
    eapply wp_mono_result; [apply (wp_try_fold _ (λ _ todo s', is_Some (tables (conn s')) ∧
      ∃ sent, batch = sent ++ todo ∧ ∀ i,
      traces i s' = traces i s ++ map stored_trace (List.filter (of_program i) sent))
      (λ _ _, True))| |].
    - split; [done|]. exists []. split; [done|]. intros i. by rewrite app_nil_r.
    - intros [] r todo s1 (Ht1 & sent & Hb & Htr).
      eapply wp_mono_result; [apply insert_trace_appends; [|done]| |done].
      + rewrite Hb in Hwf. apply Forall_app in Hwf as [_ Hwf]. by apply Forall_cons in Hwf as [? _].
      + intros [] s2 [Ht2 Hr]. split; [done|]. exists (sent ++ [r]).
        rewrite <-app_assoc. split; [done|]. intros i.
        by rewrite Hr, Htr, List.filter_app, map_app, app_assoc.
    - intros [] s1 (Ht1 & sent & Hb & Htr). rewrite app_nil_r in Hb. subst sent.
      by split; [split|].
    - done. }
  eapply wp_mono; [exact (wp_and _ _ _ _ (keeps_flush_traces batch s Hs) Hflush)|].
  intros [[]|e] s'; cbn [on_result]; [|by intros [? ?]].
  intros (Hs' & Ht' & Htr). split; [done|]. intros i. rewrite <-Htr. by apply Hread.
Qed.
End log.
