(* ===== verification/StoreAssets.v ===== *)
(** * The asset store: what is put can be got, and collection is safe

    Blobs are content-addressed: a blob under a hash has that hash.  Putting
    bytes makes them readable under their hash; garbage collection, whatever
    fails in it, keeps the blob of every asset a program still refers to.  The
    last part is about the store as a whole: no sequence of operations breaks
    its invariant. *)

From S2P Require Import Prelude Json CoreTypes Sha256 EventWire Host Wp Store StoreSpec StoreGc.
From S2P Require Import StoreMap StoreOpen StoreLog.

Local Open Scope vcli_scope.
#[local] Set Default Proof Using "All".

(** ** Names of blobs *)

Lemma string_app_inj_l a b c d :
  String.length a = String.length b → a +:+ c = b +:+ d → a = b ∧ c = d.
Proof.
  revert b. induction a as [|x a IH]; intros [|y b]; simpl; try done.
  intros [= Hl]. rewrite !string_append_cons. intros [= -> Heq].
  destruct (IH b Hl Heq) as [-> ->]. done.
Qed.

Lemma blob_name_inj h h' e e' :
  hex64 h → hex64 h' → blob_name h e = blob_name h' e' → h = h' ∧ e = e'.
Proof.
  intros [Hl _] [Hl' _] Heq.
  assert (∀ h e, blob_name h e = h +:+ match e with Some e => "." +:+ e | None => "" end) as Hn.
  { intros k [e0|]; [done|]. simpl. symmetry. apply Prelude.string_append_nil_r. }
  rewrite !Hn in Heq. apply string_app_inj_l in Heq as [-> Heq]; [|congruence].
  split; [done|]. destruct e as [e|], e' as [e'|]; try done. injection Heq as Heq. f_equal. exact Heq.
Qed.

Lemma blob_path_inj root h h' e e' :
  hex64 h → hex64 h' → blob_path root h e = blob_path root h' e' → h = h' ∧ e = e'.
Proof.
  intros Hh Hh' Heq. injection Heq as Heq. apply app_inj_tail in Heq as [_ Heq]. by apply blob_name_inj.
Qed.

Lemma hex_no_dot h : string_forallb is_hex h = true → not_in_string "." h.
Proof.
  induction h as [|a h IH]; simpl; [done|]. rewrite andb_true_iff, not_in_string_cons.
  intros [Ha Hh]. split; [by intros ->|by apply IH].
Qed.

Lemma rsplit_blob_name h e :
  hex64 h → (∀ x, e = Some x → not_in_string "." x) → rsplit_file_at_dot (blob_name h e) = (h, e).
Proof.
  intros Hh He. pose proof (hex_no_dot h (proj2 Hh)) as Hdot.
  assert (h ≠ "") as Hne by (destruct (hex64_4 h Hh) as (?&?&?&?&?&->); done).
  unfold rsplit_file_at_dot, blob_name. destruct e as [x|].
  - assert (split_on "." (h +:+ "." +:+ x) = [h; x]) as ->.
    { change ("." +:+ x) with (String "." x). rewrite split_on_app by done.
      by rewrite split_on_not_in by by apply He. }
    cbn [rev app tail String.concat]. by case_decide.
  - by rewrite split_on_not_in.
Qed.

Lemma blob_file_name root h e :
  hex64 h → file_name (blob_path root h e) = Some (blob_name h e).
Proof.
  intros Hh. unfold file_name, blob_path; cbn [comps]. rewrite last_snoc. cbn.
  rewrite decide_False; [done|]. destruct (hex64_4 h Hh) as (a&b&c&d&r&->).
  unfold blob_name. destruct e; rewrite ?string_append_cons; by intros [|].
Qed.

Lemma blob_file_stem root h e :
  hex64 h → (∀ x, e = Some x → not_in_string "." x) → file_stem (blob_path root h e) = Some h.
Proof.
  intros Hh He. unfold file_stem. rewrite blob_file_name by done. simpl.
  by rewrite rsplit_blob_name.
Qed.

Lemma tmp_path_eq root h e :
  hex64 h → ext_ok e → with_extension (blob_path root h e) "tmp" = blob_path root h (Some "tmp").
Proof.
  intros Hh He. unfold with_extension. rewrite blob_file_stem; [|done|].
  - unfold blob_path; cbn [comps absolute]. by rewrite removelast_last.
  - intros x ->. by destruct He as (_ & ? & _).
Qed.

(** ** The invariant of the files *)

(** The bytes stored under a hash, with an extension. *)
Definition blob (s : Store) (h : string) (ext : option string) : option bytes :=
  files (fs s) !! blob_path (data_root s) h ext.
Definition blob_of (s : Store) (a : AssetRec) : option bytes :=
  blob s (a_hash a) (a_extension a).

Section assets.
Context `{UuidOps, !UuidLaws, JsonText, Host, Sha2, !Sha2Laws}.

Record assets_ok (s : Store) : Prop := {
  assets_disk : disk_ok s;
  rows_ext : Forall (λ a, ext_ok (a_extension a)) (t_assets (rows s));
  addressed h ext b : hex64 h → ext_ok ext → blob s h ext = Some b → of_bytes b = h;
  not_dirs h ext : hex64 h → ext_ok ext → blob_path (data_root s) h ext ∉ dirs (fs s);
}.

(** Every row has its blob. *)
Definition whole (s : Store) : Prop :=
  Forall (λ a, is_Some (blob_of s a)) (t_assets (rows s)).

Lemma disk_ok_rows s : disk_ok s → tables_ok (rows s).
Proof.
  intros Hs. unfold rows. destruct (tables (conn s)) eqn:Ht; simpl; [by apply Hs|].
  apply tables_ok_empty.
Qed.

Lemma assets_row s a :
  assets_ok s → a ∈ t_assets (rows s) → hex64 (a_hash a) ∧ ext_ok (a_extension a).
Proof.
  intros Hs Ha. pose proof (hashes_hex _ (disk_ok_rows s (assets_disk s Hs))) as Hhex.
  pose proof (rows_ext s Hs) as Hext. rewrite Forall_forall in Hhex, Hext. auto.
Qed.

(** An asset whose row has its blob is read back: [get_asset] answers
    bytes with that very hash, unless a call to the host fails. *)
Lemma wp_get_asset s a b :
  assets_ok s → a ∈ t_assets (rows s) → blob_of s a = Some b → Reliable →
  wp (get_asset (a_hash a))
    (λ r s', r = Ok (Some b) ∧ fs s' = fs s ∧ conn s' = conn s ∧ data_root s' = data_root s) s.
Proof.
  intros Hs Ha Hb Hrel. destruct (assets_row s a Hs Ha) as [Hh He].
  unfold get_asset. wp_step.
  destruct (tables (conn s)) as [t|] eqn:Ht.
  2: { unfold rows in Ha. rewrite Ht in Ha. simpl in Ha. by apply not_elem_of_nil in Ha. }
  assert (rows s = t) as Hrows by (unfold rows; by rewrite Ht). rewrite Hrows in Ha.
  assert (∃ l, List.filter (λ a', bool_decide (a_hash a' = a_hash a)) (t_assets t) = a :: l)
    as [l Hl].
  { pose proof (hashes_unique t (assets_disk s Hs t Ht)) as Hnd. clear -Ha Hnd.
    induction (t_assets t) as [|a' l IH]; [by apply not_elem_of_nil in Ha|]. simpl.
    apply NoDup_cons in Hnd as [Hnew Hnd]. apply elem_of_cons in Ha as [->|Ha].
    - rewrite bool_decide_true by done. by eexists.
    - rewrite bool_decide_false; [by apply IH|]. intros Heq. destruct Hnew. rewrite Heq.
      by apply list_elem_of_fmap_2. }
  unfold wp at 1, sql_call. rewrite no_sql_fault. unfold on_tables. rewrite Ht, Hl. simpl.
  eexists _, _; split; [done|]. change (set_conn _ (bump s)) with (set_tables t (bump s)).
  rewrite set_tables_same by done. do 3 wp_step. rewrite asset_blob_path_eq by done.
  do 2 wp_step. unfold wp at 1, io_call. rewrite no_io_fault. unfold read_file. simpl.
  change (data_root (bump s)) with (data_root s).
  change (files (fs s) !! blob_path (data_root s) (a_hash a) (a_extension a)) with (blob_of s a).
  rewrite Hb. eexists _, _; split; [done|]. unfold io. do 2 wp_step.
  unfold wp at 1, io_call. rewrite no_io_fault. simpl.
  change (files (fs s) !! blob_path (data_root s) (a_hash a) (a_extension a)) with (blob_of s a).
  rewrite Hb. eexists _, _; split; [done|]. apply wp_ret. cbn [map_err on_result]. by apply wp_sok.
Qed.

(** ** Putting *)

(** The files may have grown; the blobs are still addressed by their hash. *)
Record grown (s s' : Store) : Prop := {
  grown_conn : conn s' = conn s;
  grown_root : data_root s' = data_root s;
  grown_addressed h ext b : hex64 h → ext_ok ext → blob s' h ext = Some b → of_bytes b = h;
  grown_dirs h ext : hex64 h → ext_ok ext → blob_path (data_root s') h ext ∉ dirs (fs s');
  grown_blobs h ext : hex64 h → ext_ok ext → is_Some (blob s h ext) → is_Some (blob s' h ext);
}.

Lemma grown_refl s : assets_ok s → grown s s.
Proof. intros []. by split. Qed.
Lemma grown_bump s s' : grown s s' → grown s (bump s').
Proof. intros []. by split. Qed.
Lemma grown_fs s s' f :
  grown s s' → dirs f = dirs (fs s') →
  (∀ h ext, hex64 h → ext_ok ext →
     files f !! blob_path (data_root s') h ext = files (fs s') !! blob_path (data_root s') h ext) →
  grown s (set_fs f (bump s')).
Proof.
  intros [Hc Hr Ha Hd Hb] Hdirs Hf. split; try done; simpl.
  - intros h ext b Hh He. unfold blob; simpl. rewrite Hf by done. by apply Ha.
  - intros h ext Hh He. rewrite Hdirs. by apply Hd.
  - intros h ext Hh He Hs. unfold blob; simpl. rewrite Hf by done. by apply Hb.
Qed.

(** The temporary file is nobody's blob. *)
Lemma tmp_not_blob root h h' ext :
  hex64 h → hex64 h' → ext_ok ext → blob_path root h (Some "tmp") ≠ blob_path root h' ext.
Proof.
  intros Hh Hh' He Heq. apply blob_path_inj in Heq as [_ <-]; [|done|done].
  by destruct He as (_ & _ & ?).
Qed.

Lemma wp_atomic_write s0 b ext s :
  grown s0 s → ext_ok ext →
  let h := of_bytes b in let p := blob_path (data_root s) h ext in
  wp (atomic_write p b)
     (on_result (λ _ s', grown s0 s' ∧ is_Some (blob s' h ext)) (λ _ s', grown s0 s')) s.
Proof.
  intros Hg He h p. assert (hex64 h) as Hh by apply sha2_shape. unfold atomic_write.
  subst p. rewrite tmp_path_eq by done. set (tmp := blob_path _ _ (Some "tmp")).
  wp_step. apply wp_io; [by intros; apply grown_bump|].
  intros f r Hf. assert (grown s0 (set_fs f (bump s))) as Hg1.
  { unfold create_file in Hf. repeat case_match; simplify_eq; try (by apply grown_fs).
    apply grown_fs; [done|done|]. intros h' e' Hh' He'. simpl.
    rewrite lookup_insert_ne; [done|]. by apply tmp_not_blob. }
  destruct r as [[]|e]; cbn [map_err on_result]; [|done].
  assert (data_root (set_fs f (bump s)) = data_root s) as Hroot by done.
  set (s1 := set_fs f (bump s)) in *. clearbody s1. clear Hg Hf f.
  assert (∀ c, grown s0 (set_fs (write_all tmp c (fs s1)).1 (bump s1))) as Hwrite.
  { intros c. apply grown_fs; [done|done|]. intros h' e' Hh' He'. simpl.
    rewrite lookup_insert_ne; [done|]. rewrite Hroot. by apply tmp_not_blob. }
  wp_step. wp_step. unfold wp at 1, write_call.
  destruct (io_fault (calls s1)) as [e|] eqn:Hfault.
  { eexists _, _; split; [done|]. apply wp_ret. cbn [map_err on_result]. apply Hwrite. }
  unfold io_call. rewrite Hfault. simpl. eexists _, _; split; [done|]. apply wp_ret.
  cbn [map_err on_result]. specialize (Hwrite b). simpl in Hwrite.
  set (s2 := set_fs _ (bump s1)) in *.
  assert (files (fs s2) !! tmp = Some b ∧ data_root s2 = data_root s) as [Htmp Hroot2].
  { subst s2; simpl. by rewrite lookup_insert_eq. }
  clearbody s2. do 2 wp_step. apply wp_io; [by intros; do 2 apply grown_bump|].
  intros f r Hf. unfold rename in Hf; simpl in Hf. rewrite Htmp in Hf.
  rewrite bool_decide_false in Hf.
  2: { rewrite <-Hroot2. by apply (grown_dirs _ _ Hwrite). }
  injection Hf as <- <-. cbn [map_err on_result].
  assert (tmp ≠ blob_path (data_root s) h ext) as Hne by by apply tmp_not_blob.
  split.
  - destruct (grown_bump _ _ Hwrite) as [Hc Hr Ha Hd Hb]. split; try done; simpl.
    + intros h' e' b' Hh' He'. unfold blob; simpl. rewrite Hroot2.
      destruct (decide (blob_path (data_root s) h ext = blob_path (data_root s) h' e')) as [Heq|Hneq].
      * rewrite <-Heq, lookup_insert_eq. apply blob_path_inj in Heq as [<- <-]; [|done|done].
        by intros [= <-].
      * rewrite lookup_insert_ne, lookup_delete_ne by (done || by apply tmp_not_blob).
        rewrite <-Hroot2. by apply Ha.
    + intros h' e' Hh' He' Hs. unfold blob; simpl. rewrite Hroot2.
      destruct (decide (blob_path (data_root s) h ext = blob_path (data_root s) h' e')) as [Heq|Hneq].
      * rewrite <-Heq, lookup_insert_eq. by eexists.
      * rewrite lookup_insert_ne, lookup_delete_ne by (done || by apply tmp_not_blob).
        rewrite <-Hroot2. by apply Hb.
  - unfold blob; simpl. rewrite Hroot2, lookup_insert_eq. by eexists.
Qed.

Lemma blob_parent root h ext : path_parent (blob_path root h ext) = Some (blob_dir root h).
Proof.
  unfold path_parent, blob_path. cbn [comps absolute]. rewrite removelast_last.
  destruct (comps (blob_dir root h) ++ [blob_name h ext]) eqn:Hc; [|done].
  by apply app_eq_nil in Hc as [_ ?].
Qed.

Lemma blob_not_prefix root h h' ext :
  blob_path root h ext ∉ path_prefixes (blob_dir root h').
Proof.
  unfold path_prefixes. rewrite list_elem_of_fmap. intros (n & Heq & _).
  apply (f_equal (length ∘ comps)) in Heq. unfold blob_path, blob_dir in Heq.
  cbn in Heq. rewrite length_take, !length_app in Heq. cbn in Heq. lia.
Qed.

Lemma grown_create_dir s0 s h f r :
  grown s0 s → create_dir_all (blob_dir (data_root s) h) (fs s) = (f, r) →
  grown s0 (set_fs f (bump s)).
Proof.
  intros Hg Hf. unfold create_dir_all in Hf. case_match; simplify_eq; [by apply grown_fs|].
  destruct (grown_bump _ _ Hg) as [Hc Hr Ha Hd Hb]. split; try done.
  intros h' e' Hh' He'. cbn [set_fs fs dirs data_root bump].
  rewrite elem_of_union, elem_of_list_to_set. intros [Hin|Hin].
  - by apply blob_not_prefix in Hin.
  - by apply (Hd h' e').
Qed.

(** A state with more files, and with rows that only gained assets that have
    their blob. *)
Lemma grown_assets_ok s s' : assets_ok s → grown s s' → assets_ok s'.
Proof.
  intros [Hd Hx _ _] [Hc Hr Ha Hdirs _]. split; try done.
  - unfold disk_ok. by rewrite Hc.
  - unfold rows. by rewrite Hc.
Qed.
Lemma grown_whole s s' : assets_ok s → grown s s' → whole s → whole s'.
Proof.
  intros Hs [Hc Hr Ha Hdirs Hb] Hw. unfold whole, rows in *. rewrite Hc.
  rewrite Forall_forall in *. intros a Hin. specialize (Hw a Hin). unfold blob_of in *.
  destruct (assets_row s a Hs Hin). by apply Hb.
Qed.

Definition has_asset (s : Store) (h : string) : Prop :=
  ∃ a, a ∈ t_assets (rows s) ∧ a_hash a = h.
(** No asset is forgotten. *)
Definition knows_more (s s' : Store) : Prop := ∀ h, has_asset s h → has_asset s' h.

Lemma grown_knows s s' : grown s s' → knows_more s s'.
Proof. intros [Hc _ _ _ _] h (a & Ha & Hh). exists a. split; [|done]. unfold rows in *. by rewrite Hc. Qed.

(** The file is there, or is written. *)
Lemma wp_put_file b ext found s0 s :
  grown s0 s → ext_ok ext → (found = true → is_Some (blob s (of_bytes b) ext)) →
  let p := blob_path (data_root s) (of_bytes b) ext in
  wp ((if (found : bool) then sok false
       else parent ← unwrap (path_parent p);
            _ ←! io parent (create_dir_all parent);
            _ ←! atomic_write p b;
            sok true) : ST Store (result StoreError bool))
     (on_result (λ _ s', grown s0 s' ∧ is_Some (blob s' (of_bytes b) ext)) (λ _ s', grown s0 s'))
     s.
Proof.
  intros Hg He Hfound p. destruct found; [apply wp_sok; split; [done|by apply Hfound]|].
  subst p. rewrite blob_parent. do 3 wp_step. apply wp_io; [by intros; apply grown_bump|].
  intros f r Hf. pose proof (grown_create_dir s0 s _ f r Hg Hf) as Hg1.
  destruct r as [[]|e]; cbn [map_err on_result]; [|done].
  wp_step. eapply wp_mono_result; [apply (wp_atomic_write s0 b ext _ Hg1 He)| |done].
  intros [] s1 Hg2. by apply wp_sok.
Qed.

(** The row is there, or is inserted. *)
Lemma wp_put_row b ext n now s :
  assets_ok s → whole s → ext_ok ext → is_Some (blob s (of_bytes b) ext) →
  wp (sql (λ t, Ok ((),
        if existsb (λ a, bool_decide (a_hash a = of_bytes b)) (t_assets t) then t
        else set_assets (t_assets t ++ [mkAssetRec (of_bytes b) n ext now]) t)))
    (on_result (λ _ s', (disk_ok s' → assets_ok s') ∧ whole s' ∧ has_asset s' (of_bytes b) ∧
                        knows_more s s')
               (λ _ s', (disk_ok s' → assets_ok s') ∧ whole s' ∧ knows_more s s')) s.
Proof.
  intros Hs Hw He Hblob.
  assert ((disk_ok (bump s) → assets_ok (bump s)) ∧ whole (bump s) ∧ knows_more s (bump s)) as Hsame.
  { split_and!; [|done|by intros h]. intros _. by destruct Hs. }
  apply wp_sql; [done|done|]. intros t a t' Ht [= <- <-]. cbn [on_result].
  assert (rows s = t) as Hrows by (unfold rows; by rewrite Ht).
  destruct (existsb _ _) eqn:Hex.
  - rewrite set_tables_same by done. destruct Hsame as (Hs1 & Hs2 & Hs3).
    split; [exact Hs1|]. split; [exact Hs2|]. split; [|exact Hs3].
    apply existsb_exists in Hex as (a & Ha & Heq). apply bool_decide_eq_true in Heq.
    exists a. rewrite list_elem_of_In. split; [|done].
    change (rows (bump s)) with (rows s). by rewrite Hrows.
  - destruct Hs as [Hd Hx Hadd Hdirs]. split; [|split; [|split]].
    + intros Hd'. split; try done. unfold rows; simpl. apply Forall_app.
      split; [by rewrite <-Hrows|]. by apply Forall_singleton.
    + unfold whole, rows; simpl. apply Forall_app. rewrite <-Hrows. split; [done|].
      by apply Forall_singleton.
    + eexists. unfold rows; simpl. rewrite elem_of_app. split; [right; by left|done].
    + intros h (a & Ha & Hh). exists a. unfold rows; simpl. rewrite elem_of_app, <-Hrows. by auto.
Qed.

Lemma wp_put_asset b ext now s :
  assets_ok s → whole s → ext_ok ext →
  wp (put_asset b ext now)
    (on_result
      (λ out s', assets_ok s' ∧ whole s' ∧ pa_hash out = of_bytes b ∧ has_asset s' (of_bytes b) ∧
                 knows_more s s')
      (λ _ s', assets_ok s' ∧ whole s' ∧ knows_more s s')) s.
Proof.
  intros Hs Hw He. assert (hex64 (of_bytes b)) as Hh by apply sha2_shape.
  enough (wp (put_asset b ext now) (on_result
      (λ out s', (disk_ok s' → assets_ok s') ∧ whole s' ∧ pa_hash out = of_bytes b
                 ∧ has_asset s' (of_bytes b) ∧ knows_more s s')
      (λ _ s', (disk_ok s' → assets_ok s') ∧ whole s' ∧ knows_more s s')) s) as Hput.
  { eapply wp_mono; [exact (wp_and _ _ _ _ (keeps_put_asset b ext now s (assets_disk s Hs)) Hput)|].
    intros [out|e] s'; cbn [on_result]; naive_solver. }
  pose proof (grown_bump _ _ (grown_refl s Hs)) as Hg.
  unfold put_asset. do 3 wp_step. rewrite asset_blob_path_eq by done. do 2 wp_step.
  eapply wp_mono; [apply (wp_exists _ (λ found s', s' = bump s ∧ (found = true →
    fs_exists (fs s) (blob_path (data_root s) (of_bytes b) ext) = true)));
    [by split|by intros ?; split]|].
  intros found ? [-> Hfound]. cbv beta. wp_step.
  eapply wp_mono_result; [apply (wp_put_file b ext found s (bump s) Hg He)| |].
  - intros Hf. specialize (Hfound Hf). unfold fs_exists in Hfound.
    apply orb_true_iff in Hfound as [Hfound|Hfound]; apply bool_decide_eq_true in Hfound; [done|].
    by apply (not_dirs s Hs) in Hfound.
  - intros created s1 [Hg1 Hblob]. cbv beta. wp_step.
    eapply wp_mono_result; [apply wp_put_row; [by eapply grown_assets_ok|by eapply grown_whole
      |done|done]| |].
    + intros [] s2 (? & ? & ? & Hk). apply wp_sok. cbn [on_result].
      split_and!; [done..|]. intros k Hhas. apply Hk. by apply (grown_knows s s1).
    + intros e s2 (? & ? & Hk). split_and!; [done..|]. intros k Hk'. apply Hk.
      by apply (grown_knows s s1).
  - intros e s1 Hg1. split_and!; [intros _; by eapply grown_assets_ok|by eapply grown_whole|].
    by apply grown_knows.
Qed.

(** ** Collecting *)

Definition linked (s : Store) (a : AssetRec) : Prop :=
  a_hash a ∈ (snd <$> t_program_assets (rows s)).

#[local] Instance linked_dec s a : Decision (linked s a).
Proof. unfold linked. apply _. Defined.

(** Files and rows may have gone, but not those of the assets in [T]. *)
Record spared (T : AssetRec → Prop) (s s' : Store) : Prop := {
  spared_root : data_root s' = data_root s;
  spared_dirs : dirs (fs s') = dirs (fs s);
  spared_files p b : files (fs s') !! p = Some b → files (fs s) !! p = Some b;
  spared_rows a : a ∈ t_assets (rows s') → a ∈ t_assets (rows s);
  spared_kept a b : T a → a ∈ t_assets (rows s) → blob_of s a = Some b →
                    a ∈ t_assets (rows s') ∧ blob_of s' a = Some b;
}.

Lemma spared_same T s s' :
  data_root s' = data_root s → fs s' = fs s → t_assets (rows s') = t_assets (rows s) →
  spared T s s'.
Proof.
  intros Hr Hf Ha. split; [done|by rewrite Hf|by rewrite Hf|by rewrite Ha|].
  intros a b _ Hin Hb. rewrite Ha. split; [done|]. unfold blob_of, blob. by rewrite Hf, Hr.
Qed.
Lemma spared_trans T s1 s2 s3 : spared T s1 s2 → spared T s2 s3 → spared T s1 s3.
Proof.
  intros [Hr Hd Hf Ha Hk] [Hr' Hd' Hf' Ha' Hk']. split; [congruence|congruence|auto|auto|].
  intros a b HT Hin Hb. destruct (Hk a b HT Hin Hb). by apply Hk'.
Qed.
Lemma spared_mono (T T' : AssetRec → Prop) s s' :
  (∀ a, T' a → T a) → spared T s s' → spared T' s s'.
Proof. intros HT [Hr Hd Hf Ha Hk]. split; auto. Qed.
Lemma spared_all T s s' : spared (λ _, True) s s' → spared T s s'.
Proof. by apply spared_mono. Qed.
Lemma spared_assets_ok T s s' : assets_ok s → disk_ok s' → spared T s s' → assets_ok s'.
Proof.
  intros [_ Hx Ha Hd] Hs' [Hr Hdirs Hf Hrows _]. split; [done| | |].
  - rewrite Forall_forall in *. auto.
  - intros h ext b Hh He Hb. unfold blob in *. rewrite Hr in Hb. eauto.
  - intros h ext Hh He. rewrite Hr, Hdirs. auto.
Qed.

Lemma gc_programs_spares T older_than s :
  wp (gc_programs older_than) (λ _ s', spared T s s') s.
Proof.
  unfold gc_programs. wp_step. apply wp_sql; cbn [on_result]; [by intros; apply spared_same
    |by intros; apply spared_same|].
  intros t a t' Ht [= <- <-]. apply wp_sok. apply spared_same; [done|done|].
  unfold rows at 2. rewrite Ht. done.
Qed.

(** Removing the blob of another asset. *)
Lemma spared_remove T s p :
  (∀ a, T a → a ∈ t_assets (rows s) → p ≠ blob_path (data_root s) (a_hash a) (a_extension a)) →
  spared T s (set_fs (remove_file p (fs s)).1 (bump s)).
Proof.
  intros Hp. unfold remove_file. destruct (files (fs s) !! p) eqn:Hf; [|by apply spared_same].
  split; try done; simpl.
  - intros q b. by rewrite lookup_delete_Some; intros [_ ?].
  - intros a b HT Hin Hb. split; [done|]. unfold blob_of, blob; simpl.
    rewrite lookup_delete_ne; [done|]. by apply Hp.
Qed.

Lemma delete_blob_spares n a T s :
  hex64 (a_hash a) → ext_ok (a_extension a) → assets_ok s →
  (∀ a', T a' → a_hash a' ≠ a_hash a) →
  wp (delete_blob n (a_hash a, a_extension a))
     (λ _ s', spared T s s' ∧ conn s' = conn s) s.
Proof.
  intros Hh He Hs HT. unfold delete_blob. do 3 wp_step. cbn [fst snd].
  rewrite asset_blob_path_eq by done. do 2 wp_step.
  apply wp_exists; [apply wp_sok; split; [by apply spared_same|done]|]. intros _.
  wp_step. apply wp_io; [by intros; split; [apply spared_same|]|].
  intros f r Hf. 
  assert (spared T s (set_fs f (bump (bump s)))) as Hsp.
  { pose proof (spared_remove T (bump s) (blob_path (data_root s) (a_hash a) (a_extension a)))
      as Hrem. change (fs (bump s)) with (fs s) in *. rewrite Hf in Hrem.
    eapply (spared_trans _ _ (bump s)); [by apply spared_same|]. apply Hrem.
    intros a' Ha' Hin Heq. change (data_root (bump s)) with (data_root s) in Heq.
    destruct (assets_row s a' Hs Hin) as [Hh' _]. apply blob_path_inj in Heq as [Heq _]; [|done|done].
    by apply (HT a' Ha'). }
  destruct r as [[]|e]; cbn [map_err on_result]; [apply wp_sok|]; done.
Qed.

Definition same_links (s s' : Store) : Prop :=
  t_program_assets (rows s') = t_program_assets (rows s).

(** What the deletion loop of [gc_assets] has done, with [todo] to go. *)
Definition deleting (s : Store) (U todo : list (string * option string)) (s' : Store) : Prop :=
  fs s' = fs s ∧ data_root s' = data_root s ∧ same_links s s' ∧
  ∃ gone, U = gone ++ todo ∧
    t_assets (rows s') = List.filter (λ a, bool_decide (a_hash a ∉ gone.*1)) (t_assets (rows s)).

Lemma delete_asset_row_step s U x todo n s' :
  deleting s U (x :: todo) s' →
  wp (delete_asset_row n x) (on_result (λ _ s2, deleting s U todo s2)
    (λ _ s2, fs s2 = fs s ∧ data_root s2 = data_root s)) s'.
Proof.
  intros (Hf & Hr & Hl & gone & HU & Ha). unfold delete_asset_row. wp_step.
  apply wp_sql; cbn [on_result]; [done|done|].
  intros t k t' Ht [= <- <-]. apply wp_sok. cbn [on_result].
  assert (rows s' = t) as Hrows by (unfold rows; by rewrite Ht).
  split_and!; [done|done|by unfold same_links, rows in *; rewrite Ht in *|].
  exists (gone ++ [x]). rewrite <-app_assoc. split; [done|]. unfold rows at 1; simpl.
  rewrite <-Hrows, Ha. clear. induction (t_assets (rows s)) as [|a l IH]; [done|]. simpl.
  rewrite fmap_app. destruct (decide (a_hash a ∈ gone.*1)) as [Hin|Hin].
  - rewrite (bool_decide_false (a_hash a ∉ gone.*1)) by tauto.
    rewrite bool_decide_false by (rewrite elem_of_app; tauto). rewrite fmap_app in IH. exact IH.
  - rewrite (bool_decide_true (a_hash a ∉ gone.*1)) by done. simpl.
    rewrite fmap_app in IH. destruct (decide (a_hash a = x.1)) as [Heq|Hne].
    + rewrite (bool_decide_true (a_hash a = x.1)) by done.
      rewrite bool_decide_false; [exact IH|]. rewrite elem_of_app, list_elem_of_singleton. tauto.
    + rewrite (bool_decide_false (a_hash a = x.1)) by done. simpl.
      rewrite bool_decide_true; [by f_equal|]. rewrite elem_of_app, list_elem_of_singleton. tauto.
Qed.

Lemma gc_assets_spares s :
  assets_ok s →
  wp gc_assets (λ r s', spared (linked s) s s' ∧ same_links s s'
    ∧ (is_ok r = true → Forall (linked s') (t_assets (rows s')))) s.
Proof.
  intros Hs. unfold gc_assets. wp_step.
  apply wp_query; cbn [on_result]; [by intros; split_and!; [apply spared_same|..]|].
  intros t l Ht [= <-]. assert (rows s = t) as Hrows by (unfold rows; by rewrite Ht).
  set (U := arrange _ _).
  assert (∀ x, x ∈ U ↔ ∃ a, x = (a_hash a, a_extension a) ∧ a ∈ t_assets (rows s) ∧ ¬ linked s a)
    as HU.
  { intros x. subst U. rewrite arrange_perm, list_elem_of_fmap. f_equiv. intros a.
    rewrite elem_of_bfilter. unfold unreferenced. rewrite bool_decide_eq_true.
    unfold linked. by rewrite Hrows. }
  clearbody U. wp_step.
  eapply wp_mono_result; [apply (wp_try_fold _ (λ _ todo s', spared (linked s) s s'
    ∧ conn s' = conn s ∧ (∀ x, x ∈ todo → x ∈ U))
    (λ _ s', spared (linked s) s s' ∧ conn s' = conn s))| |].
  - split; [by apply spared_same|]. split; [done|]. auto.
  - intros n x todo s1 (Hsp & Hc & Htodo).
    destruct (proj1 (HU x) (Htodo x ltac:(by left))) as (a & -> & Ha & Hun).
    destruct (assets_row s a Hs Ha) as [Hh He].
    eapply wp_mono; [apply (delete_blob_spares n a (linked s)); [done|done| |]|].
    + eapply spared_assets_ok; [done| |done]. unfold disk_ok. rewrite Hc. apply Hs.
    + intros a' Ha' Heq. apply Hun. unfold linked in *. by rewrite <-Heq.
    + intros [n'|e] s2 [Hsp' Hc']; cbn [on_result].
      * split; [by eapply spared_trans|]. split; [congruence|]. intros; apply Htodo; by right.
      * split; [by eapply spared_trans|congruence].
  - intros blobs s1 (Hsp & Hc & _). wp_step.
    assert (rows s1 = rows s) as Hrows1 by (unfold rows; by rewrite Hc).
    assert (∀ s2, fs s2 = fs s1 → data_root s2 = data_root s1 →
      t_assets (rows s2) = t_assets (rows s1) → spared (linked s) s s2) as Hsame.
    { intros s2 Hf Hr Ha. eapply spared_trans; [exact Hsp|]. by apply spared_same. }
    apply wp_transaction; cbn [on_result]; [by intros; split_and!; [apply Hsame|..];
      [..|unfold same_links, rows; simpl; by rewrite Hc|]|].
    eapply wp_mono_result; [apply (wp_try_fold _ (λ _ todo s', deleting s1 U todo s')
      (λ _ s', fs s' = fs s1 ∧ data_root s' = data_root s1))| |].
    + split_and!; [done|done|done|]. exists []. split; [done|].
      change (rows (bump s1)) with (rows s1). clear. 
      induction (t_assets (rows s1)) as [|a l IH]; [done|]. cbn [List.filter].
      rewrite bool_decide_true by apply not_elem_of_nil. by f_equal.
    + intros n x todo s2 Hdel. by apply delete_asset_row_step.
    + intros n s2 (Hf & Hr & Hl & gone & HUg & Ha). rewrite app_nil_r in HUg. subst gone.
      split.
      * apply wp_sok. split_and!; [|by unfold same_links in *; rewrite <-Hrows1|].
        { eapply spared_trans; [exact Hsp|]. split; try done; simpl.
          - by rewrite Hf.
          - by rewrite Hf.
          - intros a Hin. change (rows (bump s2)) with (rows s2) in Hin. rewrite Ha in Hin.
            by apply elem_of_bfilter in Hin as [? _].
          - intros a b HT Hin Hb. change (rows (bump s2)) with (rows s2). rewrite Ha.
            split; [|by unfold blob_of, blob in *; simpl; rewrite Hf, Hr].
            apply elem_of_bfilter. split; [done|]. apply bool_decide_eq_true.
            intros Hgone. apply list_elem_of_fmap in Hgone as (x & Hx & HxU).
            apply HU in HxU as (a' & -> & _ & Hun). apply Hun. unfold linked in *.
            simpl in Hx. by rewrite <-Hx. }
        intros _. change (rows (bump s2)) with (rows s2). rewrite Ha.
        apply Forall_forall. intros a Hin. apply elem_of_bfilter in Hin as [Hin Hkeep].
        apply bool_decide_eq_true in Hkeep.
        assert (linked (bump s2) a ↔ linked s a) as ->.
        { unfold linked. change (rows (bump s2)) with (rows s2).
          unfold same_links in Hl. by rewrite Hl, Hrows1. }
        apply dec_stable. intros Hun. apply Hkeep. apply list_elem_of_fmap.
        exists (a_hash a, a_extension a). split; [done|]. apply HU. exists a.
        rewrite <-Hrows1. done.
      * intros e _. split_and!; [apply Hsame|unfold same_links|done]; try done.
        unfold rows; simpl. by rewrite Hc.
    + intros e s2 [Hf Hr]. split_and!; [apply Hsame|unfold same_links|done]; try done.
      unfold rows; simpl. by rewrite Hc.
  - intros e s1 [Hsp Hc]. split; [done|]. split; [unfold same_links, rows; by rewrite Hc|done].
Qed.

(** No asset with a row is an orphan. *)
Lemma orphan_not_blob s known p a :
  assets_ok s → a ∈ t_assets (rows s) → a_hash a ∈ known → is_Some (orphan_stem known p) →
  p ≠ blob_path (data_root s) (a_hash a) (a_extension a).
Proof.
  intros Hs Ha Hk [stem Hstem] ->. destruct (assets_row s a Hs Ha) as [Hh He].
  unfold orphan_stem in Hstem. rewrite blob_file_stem in Hstem; [|done|].
  - simpl in Hstem. rewrite bool_decide_false in Hstem by tauto. done.
  - intros x Hx. rewrite Hx in He. by destruct He as (_ & ? & _).
Qed.

Lemma gc_orphan_blobs_spares s :
  assets_ok s →
  wp gc_orphan_blobs (λ _ s', spared (λ _, True) s s' ∧ rows s' = rows s) s.
Proof.
  intros Hs. unfold gc_orphan_blobs, walk_assets. wp_step.
  assert (spared (λ _, True) s (bump s)) as Hsp1 by by apply spared_same.
  apply wp_query; cbn [on_result]; [done|].
  intros t known Ht [= <-]. assert (rows s = t) as Hrows by (unfold rows; by rewrite Ht).
  do 3 wp_step.
  apply wp_exists; [apply wp_sok; split; [by apply spared_same|done]|]. intros _.
  do 2 wp_step.
  eapply wp_mono.
  - eapply (wp_walk_files _ (λ _ s', spared (λ _, True) s s' ∧ rows s' = rows s)
      (λ _ s', spared (λ _, True) s s' ∧ rows s' = rows s) (dirs (fs s))); [| | |
      |by split; [apply spared_same|]|done].
    + intros n p s' [Hsp Hr] HD. destruct (orphan_stem _ p) as [stem|] eqn:Horphan.
      2: { apply wp_sok. done. }
      assert (spared (λ _, True) s (bump s') ∧ rows (bump s') = rows s) as Hfail.
      { split; [|done]. eapply spared_trans; [done|]. by apply spared_same. }
      wp_step. apply wp_io_call; [by intros; apply wp_sok; split|].
      intros f r Hf. apply wp_sok. cbn [on_result].
      assert (f = (remove_file p (fs s')).1) as -> by by rewrite Hf.
      assert (spared (λ _, True) s' (set_fs (remove_file p (fs s')).1 (bump s'))) as Hrem.
      { apply spared_remove. intros a _ Ha.
        rewrite (spared_root _ _ _ Hsp). rewrite Hr in Ha.
        apply (orphan_not_blob s (map a_hash (t_assets t)) p a Hs Ha); [|by eexists].
        rewrite <-Hrows. by apply list_elem_of_fmap_2. }
      split; [|by rewrite <-HD; apply (spared_dirs _ _ _ Hrem)].
      split; [|done]. by eapply spared_trans.
    + intros n s' [Hsp Hr]. split; [|done]. eapply spared_trans; [done|]. by apply spared_same.
    + intros n e s' [Hsp Hr]. split; [|done]. eapply spared_trans; [done|]. by apply spared_same.
    + apply le_n_S, subseteq_size. unfold below. set_solver.
  - intros [n|e] s'; cbn [on_result]; [by intros [[? ?] _]|done].
Qed.

(** C36: bytes that are put are got.  On a sound store ([assets_ok]: its rows
    are in order, a file under a digest has that digest, no asset has an
    extension with a dot or a separator, or [tmp]) all of whose asset rows have
    their blobs ([whole]), putting bytes with such an extension, or with none,
    keeps it so, whatever the host fails; and if the put succeeds it answers
    the digest of the bytes, under which a host that fails no call reads back
    bytes with that digest.  (With [tmp] the half-written file would be the
    blob: [torn_tmp_blob] is what happens then.) *)
Theorem put_asset_get_asset b ext now s :
  assets_ok s → whole s → ext_ok ext →
  wp (put_asset b ext now) (λ r s', assets_ok s' ∧ whole s' ∧
    match r with
    | Ok out => pa_hash out = of_bytes b ∧
        (Reliable → wp (get_asset (pa_hash out))
           (λ r' s2, fs s2 = fs s' ∧ conn s2 = conn s' ∧
              ∃ b', r' = Ok (Some b') ∧ of_bytes b' = of_bytes b) s')
    | Err _ => True
    end) s.
Proof.
  intros Hs Hw He. eapply wp_mono; [by apply wp_put_asset|].
  intros [out|e] s'; cbn [on_result]; [|by intros (? & ? & ?)].
  intros (Hs' & Hw' & Hout & (a & Ha & Hh) & _). split_and!; [done..|]. intros Hrel.
  rewrite Hout, <-Hh. pose proof Hw' as Hw2. unfold whole in Hw2. rewrite Forall_forall in Hw2.
  destruct (Hw2 a Ha) as [b' Hb'].
  eapply wp_mono; [by apply (wp_get_asset s' a b')|].
  intros r s2 (-> & ? & ? & _). split; [done|]. split; [done|]. exists b'. split; [done|].
  destruct (assets_row s' a Hs' Ha) as [Hhex Hext]. by apply (addressed s' Hs' _ (a_extension a)).
Qed.

(** C13: garbage collection is safe and complete.  On a sound store
    ([assets_ok]: its rows are in order, a file under a digest has that digest,
    no asset has an extension with a dot or a separator, or [tmp]), whatever
    fails on the way, the store stays sound, an asset that a program still
    refers to keeps its row and its blob, and collection never makes a file or
    a row appear; when all of it succeeds, every asset row left is one a
    program refers to. *)
Theorem gc_all_spares_linked older_than s :
  assets_ok s →
  wp (gc_all older_than) (λ r s', assets_ok s' ∧ spared (linked s') s s'
    ∧ (is_ok r = true → Forall (linked s') (t_assets (rows s')))) s.
Proof.
  intros Hs.
  assert (∀ {A} (m : ST Store A) (Q : A → Store → Prop) s, assets_ok s → keeps m →
    wp m Q s → wp m (λ a s', disk_ok s' ∧ Q a s') s) as Hwith.
  { intros A m Q s0 Hs0 Hk Hm. apply wp_and; [|done]. by apply Hk, assets_disk. }
  unfold gc_all. wp_step. eapply wp_mono;
    [apply Hwith; [done|apply keeps_gc_programs|apply (gc_programs_spares (λ _, True))]|].
  intros r1 s1 [Hd1 Hsp1]. pose proof (spared_assets_ok _ _ _ Hs Hd1 Hsp1) as Hs1.
  destruct r1 as [n1|e1]; cbn [on_result].
  2: { split_and!; [done|by apply spared_all|done]. }
  wp_step. eapply wp_mono;
    [apply Hwith; [done|apply keeps_gc_assets|by apply gc_assets_spares]|].
  intros r2 s2 (Hd2 & Hsp2 & Hl2 & Hall2). pose proof (spared_assets_ok _ _ _ Hs1 Hd2 Hsp2) as Hs2.
  assert (∀ s', same_links s1 s' → spared (linked s1) s s' → spared (linked s') s s') as Hlinks.
  { intros s' Hl. apply spared_mono. intros a. unfold linked. by rewrite Hl. }
  assert (spared (linked s1) s s2) as Hsp12.
  { eapply spared_trans; [|done]. by apply spared_all. }
  destruct r2 as [[n2 n3]|e2]; cbn [on_result].
  2: { split_and!; [done|by apply Hlinks|done]. }
  wp_step. eapply wp_mono;
    [apply Hwith; [done|apply keeps_gc_orphan_blobs|by apply gc_orphan_blobs_spares]|].
  intros r3 s3 (Hd3 & Hsp3 & Hr3). pose proof (spared_assets_ok _ _ _ Hs2 Hd3 Hsp3) as Hs3.
  assert (spared (linked s3) s s3) as Hsp.
  { apply Hlinks; [unfold same_links; by rewrite Hr3|].
    eapply spared_trans; [done|]. by apply spared_all. }
  destruct r3 as [n4|e3]; cbn [on_result]; [apply wp_sok|]; split_and!; try done.
  intros _. rewrite Hr3. eapply Forall_impl; [by apply Hall2|]. intros a. unfold linked.
  by rewrite Hr3.
Qed.

(** ** A digest that is a path

    [AssetHash::from_hex] leaves it to the caller to check that the text is 64
    hexadecimal digits, and no caller does.  With an absolute path in its
    place the joins of [asset_blob_path] end at that path, and the asset is
    whatever file is there. *)
Lemma asset_blob_path_absolute root f :
  shardable f = true → starts_with_slash f = true →
  asset_blob_path root f None = Ret (path_of_string f).
Proof using.
  intros Hf Habs. unfold asset_blob_path. rewrite Hf. cbn [negb]. cbv zeta. f_equal.
  assert (absolute (path_of_string f) = true) as Ha by (unfold path_of_string; by rewrite Habs).
  unfold path_push at 1, path_join. by rewrite Ha.
Qed.

Theorem foreign_file_is_asset f b s :
  Reliable → is_Some (tables (conn s)) → ¬ has_asset s f →
  shardable f = true → starts_with_slash f = true →
  files (fs s) !! path_of_string f = Some b →
  wp (get_asset f) (λ r _, r = Ok (Some b)) s.
Proof.
  intros Hrel [t Ht] Hnone Hf Habs Hb. unfold get_asset. wp_step.
  assert (List.filter (λ a, bool_decide (a_hash a = f)) (t_assets t) = []) as Hl.
  { destruct (List.filter _ (t_assets t)) as [|a l] eqn:Hl; [done|]. destruct Hnone.
    assert (a ∈ a :: l) as Hin by by left. rewrite <-Hl in Hin.
    apply elem_of_bfilter in Hin as [Hin Ha%bool_decide_eq_true]. exists a.
    unfold rows. by rewrite Ht. }
  unfold wp at 1, sql_call. rewrite no_sql_fault. unfold on_tables. rewrite Ht, Hl.
  eexists _, _; split; [done|]. do 3 wp_step. rewrite asset_blob_path_absolute by done.
  do 2 wp_step. unfold wp at 1, io_call. rewrite no_io_fault. unfold read_file. simpl. rewrite Hb.
  eexists _, _; split; [done|]. unfold io. do 2 wp_step.
  unfold wp at 1, io_call. rewrite no_io_fault. simpl. rewrite Hb.
  eexists _, _; split; [done|]. apply wp_ret. cbn [map_err on_result]. by apply wp_sok.
Qed.
End assets.

(** ** All operations *)

#[local] Set Default Proof Using "All".

(** A call with its arguments. *)
Inductive StoreOp : Type :=
  | OpenAt (root : Path)
  | OnProgram (A : Type) (op : ProgramOp A)
  | ListPrograms (filter : option ProgramState)
  | AppendEvent (id : ProgramId) (ev : Event)
  | StreamEvents (since limit : Z)
  | PutAsset (b : bytes) (ext : option string) (now : Z)
  | GetAsset (hash : string)
  | LinkAsset (id : ProgramId) (hash : string)
  | ReferencedHashes
  | FlushTraces (batch : list TraceRecord)
  | ReadTraces (id : ProgramId)
  | GcAll (older_than : Z)
  | OrphanNames.

Section ops.
Context `{UuidOps, !UuidLaws, JsonText, Host, Sha2, !Sha2Laws}.

(** The answer does not matter here. *)
Definition void {A} (m : ST Store A) : ST Store () := _ ← m; mret ().

Definition run_op (op : StoreOp) : ST Store () :=
  match op with
  | OpenAt root => void (open root)
  | OnProgram _ op => void (run op)
  | ListPrograms f => void (list_programs f)
  | AppendEvent id ev => void (append_event id ev)
  | StreamEvents since limit => void (stream_events since limit)
  | PutAsset b ext now => void (put_asset b ext now)
  | GetAsset hash => void (get_asset hash)
  | LinkAsset id hash => void (link_program_asset id hash)
  | ReferencedHashes => void referenced_asset_hashes
  | FlushTraces batch => void (flush_traces batch)
  | ReadTraces id => void (read_traces id)
  | GcAll older_than => void (gc_all older_than)
  | OrphanNames => void list_orphan_blob_names
  end.

(** A cursor is a [u32]. *)
Definition call_typed (op : StoreOp) : Prop :=
  match op with OnProgram _ op => op_wf op | _ => True end.
(** The call does not look up a text that has no shard directory. *)
Definition call_shards (op : StoreOp) : bool :=
  match op with GetAsset hash => shardable hash | _ => true end.

Lemma keeps_void {A} (m : ST Store A) : keeps m → keeps (void m).
Proof. intros Hm. apply keeps_bind; [done|]. intros _. apply keeps_ret. Qed.

Lemma keeps_op op : call_typed op → call_shards op = true → keeps (run_op op).
Proof.
  destruct op as [| ? []| | | | | | | | | | |]; simpl; intros Hwf Hsh; apply keeps_void.
  - apply keeps_open.
  - apply keeps_insert_program.
  - apply keeps_get_program.
  - apply keeps_update_state.
  - by apply keeps_set_body_cursor.
  - apply keeps_set_last_error.
  - apply keeps_resume_program.
  - apply keeps_gc_programs.
  - apply keeps_list_programs.
  - apply keeps_append_event.
  - apply keeps_stream_events.
  - apply keeps_put_asset.
  - by apply keeps_get_asset.
  - apply keeps_link_program_asset.
  - apply keeps_query.
  - apply keeps_flush_traces.
  - apply keeps_query.
  - apply keeps_gc_all.
  - apply keeps_list_orphan_blob_names.
Qed.

(** C14: what can break the store, and what cannot.  Run any sequence of calls
    from any disk whose rows are in order (an empty one, say), with any
    statements and file operations failed by the host in between.  If none of
    the calls looks up an asset under a text that cannot be cut after its second
    and fourth byte, the sequence returns, with no panic and no endless walk,
    and the rows are in order again; if one does, the sequence panics.  (The
    cursors passed in are numbers of their type, [u32].) *)
Theorem store_never_breaks ops s :
  disk_ok s → Forall call_typed ops →
  if forallb call_shards ops then ∃ s', mfor run_op ops s = Ret ((), s') ∧ disk_ok s'
  else mfor run_op ops s = Panic.
Proof.
  intros Hs Hops. revert s Hs. induction Hops as [|op ops Hop Hops IH]; intros s Hs; simpl.
  { by exists s. }
  destruct (call_shards op) eqn:Hsh; simpl.
  - destruct (keeps_op op Hop Hsh s Hs) as ([] & s1 & H1' & Hs1). specialize (IH s1 Hs1).
    unfold mbind, ST_bind. rewrite H1'. exact IH.
  - destruct op; try discriminate Hsh. unfold run_op, void, mbind, ST_bind. simpl.
    by rewrite get_asset_panics.
Qed.

(** The one call that can panic: a hash of fewer than four bytes, or with a
    character across one of the cuts, has no shard directory, and looking it up
    panics.  A client chooses that text:
    it is what follows [sha256:] in a program it submits. *)
Theorem get_asset_short_hash_panics hash s :
  shardable hash = false → get_asset hash s = Panic.
Proof.
  apply get_asset_panics.
Qed.
End ops.
