(* ===== verification/Demo.v ===== *)
(** * Concrete instances

    Functions that satisfy what the development asks of the libraries vcli
    calls, so that its theorems can be run on concrete inputs: a textual form
    of UUIDs that parses back, vcli-core's SHA-256 as the digest of the asset
    store, and hosts. *)

From S2P Require Import Prelude Json CoreTypes Sha256 Serde EventWire Host Store StoreSpec StoreGc.

(** ** UUIDs: the bits, least significant first *)

Fixpoint pos_bits (p : positive) : string :=
  match p with
  | xH => "1"
  | xO p => String "0" (pos_bits p)
  | xI p => String "1" (pos_bits p)
  end.
Fixpoint bits_pos (s : string) : option positive :=
  match s with
  | EmptyString => None
  | String "0" s => xO <$> bits_pos s
  | String "1" EmptyString => Some xH
  | String "1" s => xI <$> bits_pos s
  | _ => None
  end.

Lemma bits_pos_bits p : bits_pos (pos_bits p) = Some p.
Proof.
  induction p as [p IH|p IH|]; simpl; [|by rewrite IH|done].
  destruct (pos_bits p) eqn:Hp; [by destruct p|]. by rewrite IH.
Qed.

Definition bits_uuid : UuidOps := {|
  uuid_display n := match n with N0 => "" | Npos p => pos_bits p end;
  uuid_parse s := match s with "" => Some 0%N | _ => Npos <$> bits_pos s end;
|}.
Lemma bits_uuid_laws : @UuidLaws bits_uuid.
Proof.
  intros [|p]; [done|]. simpl. pose proof (bits_pos_bits p) as Hp.
  destruct (pos_bits p) eqn:Hs; [done|]. by rewrite Hp.
Qed.

(** ** Digests *)

Definition core_sha2 : Sha2 := {| sha2_hex := sha256_hex |}.
Lemma core_sha2_laws : @Sha2Laws core_sha2.
Proof. intros b. apply sha256_hex_hex. Qed.
