(* ===== verification/StoreDemo.v ===== *)
(** * The store at work

    The theorems about the store on a concrete disk: one program that was
    running when its daemon died, on a host where nothing fails. *)

From S2P Require Import Prelude Json CoreTypes Sha256 Serde EventWire Host Wp Store StoreSpec.
From S2P Require Import StoreGc StoreMap StoreOpen StoreLog StoreAssets JsonDemo Demo.

#[local] Existing Instances bits_uuid bits_uuid_laws text_json text_json_laws core_sha2
  core_sha2_laws reliable_host reliable_host_reliable.

Definition demo_id : ProgramId := mkProgramId 5.
Definition other_id : ProgramId := mkProgramId 6.

(** A program caught at step 3. *)
Definition running_rec : ProgramRec :=
  mkProgramRec (ProgramId_to_string demo_id) "demo" "{}" "running" 10 (Some 11%Z) None None None
    "{}" 3 None.
Definition demo_tables : Tables := mkTables [running_rec] [] [] 0 [] [] 0.
Definition demo_store : Store :=
  mkStore (path_of_string "/vcli") (mkDb (Some [1%Z]) (Some demo_tables)) fs_empty 0.

Lemma demo_disk_ok : disk_ok demo_store.
Proof.
  intros t [= <-]. split; simpl; try (by repeat constructor); try (by apply NoDup_singleton).
  apply Forall_singleton. split_and!; [by exists demo_id|by exists Running|simpl; ints].
Qed.
Lemma demo_tables_there : is_Some (tables (conn demo_store)).
Proof. by eexists. Qed.
Lemma demo_assets_ok : assets_ok demo_store.
Proof.
  split; [apply demo_disk_ok|by constructor| |].
  - intros h ext b _ _. unfold blob; simpl. by rewrite lookup_empty.
  - intros h ext _ _. simpl. rewrite elem_of_singleton. unfold blob_path, blob_dir; simpl.
    intros [=].
Qed.

Definition new_program : NewProgram := mkNewProgram other_id "second" "{}" Pending 20 "{}".
Definition demo_event : Event := mkEvent 12 (ProgramResumed demo_id 3).
Lemma demo_event_wf : Event_wf demo_event.
Proof. split; simpl; ints. Qed.

Lemma store_refines_map_witness :
  wp (run (InsertProgram new_program)) (λ r s', disk_ok s' ∧ meets (InsertProgram new_program)
    demo_store r s') demo_store
  ∧ wp (run (ResumeProgram demo_id false 30)) (λ r s', disk_ok s' ∧
      meets (ResumeProgram demo_id false 30) demo_store r s') demo_store
  ∧ ∃ l s', list_programs (Some Running) demo_store = Ret (Ok l, s') ∧
      listing (Some Running) (view demo_store) l ∧ pr_id <$> l = [demo_id].
Proof.
  destruct (store_refines_map demo_store demo_disk_ok demo_tables_there) as [Hop Hlist].
  split_and!; [by apply Hop..|].
  destruct (Hlist (Some Running)) as (r & s' & Hr & _ & _ & _ & Hl).
  assert (match list_programs (Some Running) demo_store with
          | Ret (Ok l, _) => pr_id <$> l | _ => [] end = [demo_id]) as Hids
    by (vm_compute; reflexivity).
  rewrite Hr in Hids. destruct r as [l|e]; [|discriminate Hids]. exists l, s'. done.
Defined.

Lemma open_recovers_witness :
  wp (open (path_of_string "/vcli")) (λ r s', disk_ok s' ∧
      match r with
      | Ok l => recovery_done demo_store l s'
                ∧ ∀ i row, view s' !! i = Some row → pr_state row ≠ Running
      | Err _ => view s' = view demo_store ∧ rows s' = rows demo_store
      end) demo_store.
Proof. apply open_recovers, demo_disk_ok. Defined.

(** On this disk it succeeds, and reports the program at its cursor. *)
Example open_reports :
  (λ r, match r with Ret (Ok l, _) => l | _ => [] end) (open (path_of_string "/vcli") demo_store)
  = [mkRecovered demo_id 3].
Proof. vm_compute. done. Qed.

Lemma store_never_breaks_witness :
  (∃ s', mfor run_op [OpenAt (path_of_string "/vcli"); AppendEvent demo_id demo_event;
                      GetAsset "abcd"; GcAll 100; StreamEvents 0 10] demo_store = Ret ((), s') ∧
     disk_ok s') ∧
  mfor run_op [AppendEvent demo_id demo_event; GetAsset "abc"; GcAll 100] demo_store = Panic.
Proof.
  split.
  - apply (store_never_breaks [OpenAt (path_of_string "/vcli"); AppendEvent demo_id demo_event;
      GetAsset "abcd"; GcAll 100; StreamEvents 0 10] demo_store demo_disk_ok). by repeat constructor.
  - apply (store_never_breaks [AppendEvent demo_id demo_event; GetAsset "abc"; GcAll 100]
      demo_store demo_disk_ok). by repeat constructor.
Defined.

Lemma get_asset_short_hash_panics_witness : get_asset "abc" demo_store = Panic.
Proof. apply get_asset_short_hash_panics. reflexivity. Defined.

Lemma append_event_round_trip_witness :
  wp (append_event demo_id demo_event) (λ r s', disk_ok s' ∧ view s' = view demo_store ∧
      match r with
      | Ok id => ∃ e, log s' = log demo_store ++ [e] ∧ se_id e = id
                      ∧ Forall (λ e', se_id e' < id)%Z (log demo_store)
                      ∧ se_program_id e = demo_id ∧ se_at e = ev_at demo_event
                      ∧ se_type_tag e = event_type_tag (ev_data demo_event)
                      ∧ event_of e = Some demo_event
      | Err e => log s' = log demo_store
                 ∧ (faulted demo_store s'
                    ∨ (view demo_store !! demo_id = None ∧ e = StoreSqlite ConstraintViolation)
                    ∨ e = StoreSqlite DatabaseFull)
      end) demo_store.
Proof.
  apply append_event_round_trip; [apply demo_disk_ok|apply demo_tables_there|apply demo_event_wf].
Defined.

Lemma stream_events_pages_witness :
  wp (stream_events 0 10) (λ r s', rows s' = rows demo_store ∧
      match r with
      | Ok l => l = page 0 (Z.to_nat 10) (log demo_store)
                ∧ ∀ k, page 0 (length l + k) (log demo_store)
                       = l ++ page (default 0%Z (se_id <$> last l)) k (log demo_store)
      | Err _ => faulted demo_store s'
      end) demo_store.
Proof. apply stream_events_pages; [apply demo_disk_ok|apply demo_tables_there]. Defined.

Definition demo_batch : list TraceRecord :=
  [mkTraceRecord 1 12 (Some demo_id) TraceStateChange Null;
   mkTraceRecord 2 13 None TraceTickSkipped (Str "busy")].

Lemma flush_traces_atomic_witness :
  wp (flush_traces demo_batch) (λ r s', disk_ok s' ∧
      match r with
      | Ok _ => ∀ i, wp (read_traces i) (λ a s2,
                  a = Ok (traces i demo_store
                          ++ map stored_trace (List.filter (of_program i) demo_batch))
                  ∨ faulted s' s2) s'
      | Err _ => rows s' = rows demo_store
      end) demo_store.
Proof.
  apply flush_traces_atomic; [apply demo_disk_ok|apply demo_tables_there|].
  repeat constructor; simpl; lia.
Defined.

Lemma put_asset_get_asset_witness :
  wp (put_asset [1; 2; 3]%Z (Some "png") 40) (λ r s', assets_ok s' ∧ whole s' ∧
      match r with
      | Ok out => pa_hash out = of_bytes [1; 2; 3]%Z ∧
          (Reliable → wp (get_asset (pa_hash out))
             (λ r' s2, fs s2 = fs s' ∧ conn s2 = conn s' ∧
                ∃ b', r' = Ok (Some b') ∧ of_bytes b' = of_bytes [1; 2; 3]%Z) s')
      | Err _ => True
      end) demo_store.
Proof.
  apply put_asset_get_asset; [apply demo_assets_ok|by constructor|].
  split; [done|]. split; [vm_compute; done|done].
Defined.

(** *** A disk with three blobs

    One is of an asset the running program refers to, one of an asset nobody
    refers to, and one of no asset at all. *)

Definition root : Path := path_of_string "/vcli".
Definition kept_bytes : bytes := [1; 2; 3]%Z.
Definition idle_bytes : bytes := [4]%Z.
Definition stray_bytes : bytes := [5; 6]%Z.
Definition blob_at (b : bytes) : Path := blob_path root (of_bytes b) None.
Definition asset_row (b : bytes) : AssetRec := mkAssetRec (of_bytes b) (Z.of_nat (length b)) None 12.

Definition three_blobs : gmap Path bytes :=
  {[ blob_at kept_bytes := kept_bytes; blob_at idle_bytes := idle_bytes;
     blob_at stray_bytes := stray_bytes ]}.
Definition three_dirs : list Path :=
  path_prefixes (blob_dir root (of_bytes kept_bytes))
  ++ path_prefixes (blob_dir root (of_bytes idle_bytes))
  ++ path_prefixes (blob_dir root (of_bytes stray_bytes)).
Definition asset_store : Store :=
  mkStore root
    (mkDb (Some [1%Z])
       (Some (mkTables [running_rec] [(ProgramId_to_string demo_id, of_bytes kept_bytes)] [] 0
                [asset_row kept_bytes; asset_row idle_bytes] [] 0)))
    (mkFs three_blobs (list_to_set three_dirs)) 0.

Lemma disk_ok_holds s t : tables (conn s) = Some t → tables_ok t → disk_ok s.
Proof. intros Ht Hok t' Ht'. by simplify_eq. Qed.

Lemma two_assets_ok h h' n n' :
  hex64 h → hex64 h' → h ≠ h' →
  tables_ok (mkTables [running_rec] [(ProgramId_to_string demo_id, h)] [] 0
    [mkAssetRec h n None 12; mkAssetRec h' n' None 12] [] 0).
Proof.
  intros Hh Hh' Hne. destruct (demo_disk_ok demo_tables eq_refl) as [].
  split; cbn [t_programs t_program_assets t_events t_events_seq t_assets t_traces t_traces_seq];
    try done.
  - by apply Forall_singleton, list_elem_of_singleton.
  - apply NoDup_singleton.
  - cbn. apply NoDup_cons. rewrite list_elem_of_singleton. split; [done|apply NoDup_singleton].
  - by apply Forall_cons; split; [|apply Forall_singleton].
Qed.

Lemma asset_store_ok : assets_ok asset_store.
Proof.
  assert (∀ b, hex64 (of_bytes b)) as Hhex by apply sha2_shape.
  assert (of_bytes kept_bytes ≠ of_bytes idle_bytes) as Hne
    by (apply (bool_decide_unpack _); vm_compute; exact I).
  split.
  - eapply disk_ok_holds; [reflexivity|]. exact (two_assets_ok _ _ _ _ (Hhex _) (Hhex _) Hne).
  - cbn [rows tables conn asset_store t_assets default]. apply Forall_cons; split; [exact I|].
    apply Forall_singleton. exact I.
  - intros h ext b Hh _ Hb. unfold blob in Hb. cbn [fs asset_store files data_root] in Hb.
    unfold three_blobs in Hb.
    repeat (apply lookup_insert_Some in Hb as [[Hp <-]|[_ Hb]];
      [unfold blob_at in Hp; by apply blob_path_inj in Hp as [<- _]|]).
    apply lookup_singleton_Some in Hb as [Hp <-]. unfold blob_at in Hp.
    by apply blob_path_inj in Hp as [<- _].
  - intros h ext _ _. cbn [fs asset_store dirs data_root]. rewrite elem_of_list_to_set.
    unfold three_dirs. rewrite !elem_of_app.
    by intros [Hin|[Hin|Hin]]; apply blob_not_prefix in Hin.
Qed.

#[local] Instance GcReport_eq_dec : EqDecision GcReport.
Proof. solve_decision. Defined.
#[local] Instance AssetRec_eq_dec : EqDecision AssetRec.
Proof. solve_decision. Defined.

(** Collection keeps the first, and removes the row and the blob of the second
    and the blob of the third. *)
Lemma gc_all_spares_linked_witness :
  ∃ s', gc_all 100 asset_store = Ret (Ok (mkGcReport 0 1 1 1), s') ∧ assets_ok s' ∧
    spared (linked s') asset_store s' ∧ Forall (linked s') (t_assets (rows s')) ∧
    t_assets (rows s') = [asset_row kept_bytes] ∧
    files (fs s') = {[ blob_at kept_bytes := kept_bytes ]}.
Proof.
  destruct (gc_all_spares_linked 100 asset_store asset_store_ok)
    as (r & s' & Hr & Hok & Hsp & Hall).
  assert (match gc_all 100 asset_store with
          | Ret (Ok r, s') => bool_decide (r = mkGcReport 0 1 1 1) &&
              bool_decide (t_assets (rows s') = [asset_row kept_bytes]) &&
              bool_decide (files (fs s') = {[ blob_at kept_bytes := kept_bytes ]})
          | _ => false end = true) as Hgot by (vm_compute; reflexivity).
  rewrite Hr in Hgot. destruct r as [r|e]; [|discriminate Hgot].
  apply andb_prop in Hgot as [[Hrep%bool_decide_eq_true Hrow%bool_decide_eq_true]%andb_prop
    Hfile%bool_decide_eq_true].
  exists s'. rewrite <-Hrep. split; [exact Hr|]. split; [exact Hok|]. split; [exact Hsp|].
  split; [by apply Hall|]. split; [exact Hrow|exact Hfile].
Defined.

(** *** An asset named [.tmp]

    The temporary file of such a blob is the blob itself.  When writing it
    fails halfway, what was written stays under the digest; the next [put]
    finds it there and reports success, and [get] reads the torn bytes. *)

#[local] Instance torn_host : Host := {|
  sql_fault _ := None; io_fault n := if decide (n = 3%N) then Some (OtherIo "disk full") else None;
  torn_write _ := 1; arrange _ _ l := l; sql_message _ := ""; io_message _ := "";
  path_debug _ := ""; option_str_debug _ := ""; arrange_perm _ _ _ := reflexivity _ |}.

Example torn_tmp_blob :
  match (_ ← put_asset kept_bytes (Some "tmp") 40;
         again ← put_asset kept_bytes (Some "tmp") 41;
         got ← get_asset (of_bytes kept_bytes);
         mret (again, got)) demo_store with
  | Ret (Ok again, Ok (Some got), _) => (pa_hash again, got) = (of_bytes kept_bytes, [1%Z])
  | _ => False
  end.
Proof. vm_compute. reflexivity. Qed.
