(* ===== verification/IpcWire.v ===== *)
(** * Messages of vcli-ipc

    The envelopes that cross the socket ([vcli-ipc/src/wire]): requests with
    their operation, responses, stream frames, and their derived
    serialisation.  A class [Wire] states what the transport needs of a
    message type, and every envelope is an instance whose documents are read
    back as they were written. *)

From S2P Require Import Prelude Json CoreTypes Sha256 Serde EventWire.

(** ** Requests ([wire/request.rs]) *)

(** A UUID; not a [ProgramId]. *)
(* src: crates/vcli-ipc/src/wire/request.rs 18-29 RequestId *)
Record RequestId := mkRequestId { request_uuid : N }.
#[export] Instance RequestId_eq_dec : EqDecision RequestId.
Proof. solve_decision. Defined.

(* src: crates/vcli-ipc/src/wire/request.rs 60-131 RequestOp *)
Inductive RequestOp :=
  | Submit (program : Value) (base_dir : option string)
  | List_ (state : option string)
  | Status (program_id : ProgramId)
  | Cancel (program_id : ProgramId)
  | Start (program_id : ProgramId)
  | Resume (program_id : ProgramId) (from_start : bool)
  | Logs (program_id : ProgramId) (follow : bool)
  | Events (follow : bool)
  | TraceOp (program_id : ProgramId)
  | Health
  | Gc
  | Shutdown.

(* src: crates/vcli-ipc/src/wire/request.rs 50-58 Request *)
Record Request := mkRequest { req_id : RequestId; req_op : RequestOp }.

(** ** Responses ([wire/response.rs]) *)

(** [OkFlag] and [ErrFlag] carry nothing. *)
(* src: crates/vcli-ipc/src/wire/response.rs 19-37 ResponseBody *)
Inductive ResponseBody :=
  | BodyOk (result : Value)
  | BodyErr (error : ErrorPayload).

(* src: crates/vcli-ipc/src/wire/response.rs 9-17 Response *)
Record Response := mkResponse { resp_id : RequestId; resp_body : ResponseBody }.

(* src: crates/vcli-ipc/src/wire/response.rs 82-89 Response::ok *)
Definition Response_ok (id : RequestId) (result : Value) : Response :=
  mkResponse id (BodyOk result).
(* src: crates/vcli-ipc/src/wire/response.rs 91-98 Response::err *)
Definition Response_err (id : RequestId) (error : ErrorPayload) : Response :=
  mkResponse id (BodyErr error).

(** ** Stream frames ([wire/stream.rs]) *)

(* src: crates/vcli-ipc/src/wire/stream.rs 10-18 StreamKind *)
Inductive StreamKind := KindEvents | KindTrace.

(* src: crates/vcli-ipc/src/wire/stream.rs 20-36 StreamFrame *)
Record StreamFrame := mkStreamFrame {
  sf_id : RequestId;
  sf_stream : StreamKind;
  sf_end : bool;
  sf_event : option Event;
  sf_trace : option Value;
}.

(* src: crates/vcli-ipc/src/wire/stream.rs 38-41 is_false *)
Definition is_false (b : bool) : bool := negb b.

(* src: crates/vcli-ipc/src/wire/stream.rs 44-54 StreamFrame::event *)
Definition StreamFrame_event (id : RequestId) (event : Event) : StreamFrame :=
  mkStreamFrame id KindEvents false (Some event) None.
(* src: crates/vcli-ipc/src/wire/stream.rs 56-66 StreamFrame::trace *)
Definition StreamFrame_trace (id : RequestId) (record : Value) : StreamFrame :=
  mkStreamFrame id KindTrace false None (Some record).
(* src: crates/vcli-ipc/src/wire/stream.rs 68-78 StreamFrame::end_of_stream *)
Definition StreamFrame_end_of_stream (id : RequestId) (kind : StreamKind) : StreamFrame :=
  mkStreamFrame id kind true None None.

(** ** Serialisation *)

Section serde.
  Context `{UuidOps}.

(* src: crates/vcli-ipc/src/wire/request.rs 18-21 RequestId::serialize *)
Definition RequestId_to_value (i : RequestId) : Value := Str (uuid_display (request_uuid i)).
(* src: crates/vcli-ipc/src/wire/request.rs 18-21 RequestId::deserialize *)
Definition RequestId_from_value (v : Value) : option RequestId :=
  s ← read_str v; mkRequestId <$> uuid_parse s.

(** Adjacently tagged: the operation's name, then its parameters; an
    operation without parameters has no [params]. *)
(* src: crates/vcli-ipc/src/wire/request.rs 60-131 RequestOp::serialize *)
Definition RequestOp_fields (op : RequestOp) : list (string * Value) :=
  let pid (p : ProgramId) := ("program_id", ProgramId_to_value p) in
  match op with
  | Submit program base_dir =>
      [("op", Str "submit");
       ("params", Obj (("program", program) :: opt_field "base_dir" Str base_dir))]
  | List_ state => [("op", Str "list"); ("params", Obj (opt_field "state" Str state))]
  | Status p => [("op", Str "status"); ("params", Obj [pid p])]
  | Cancel p => [("op", Str "cancel"); ("params", Obj [pid p])]
  | Start p => [("op", Str "start"); ("params", Obj [pid p])]
  | Resume p from_start =>
      [("op", Str "resume"); ("params", Obj [pid p; ("from_start", Bool from_start)])]
  | Logs p follow => [("op", Str "logs"); ("params", Obj [pid p; ("follow", Bool follow)])]
  | Events follow => [("op", Str "events"); ("params", Obj [("follow", Bool follow)])]
  | TraceOp p => [("op", Str "trace"); ("params", Obj [pid p])]
  | Health => [("op", Str "health")]
  | Gc => [("op", Str "gc")]
  | Shutdown => [("op", Str "shutdown")]
  end.

(** A variant without parameters accepts a missing or a [null] [params]. *)
Definition no_params {A} (a : A) (v : Value) : option A :=
  match value_get "params" v with None | Some Null => Some a | _ => None end.

(* src: crates/vcli-ipc/src/wire/request.rs 60-131 RequestOp::deserialize *)
Definition RequestOp_from_value (v : Value) : option RequestOp :=
  tag ← req "op" read_str v;
  let params {A} (f : Value → option A) := req "params" f v in
  let with_pid (f : ProgramId → RequestOp) :=
    params (λ v, p ← req "program_id" ProgramId_from_value v; Some (f p)) in
  if decide (tag = "submit") then
    params (λ v, program ← req "program" read_any v; b ← opt "base_dir" read_str v;
                 Some (Submit program b))
  else if decide (tag = "list") then params (λ v, s ← opt "state" read_str v; Some (List_ s))
  else if decide (tag = "status") then with_pid Status
  else if decide (tag = "cancel") then with_pid Cancel
  else if decide (tag = "start") then with_pid Start
  else if decide (tag = "resume") then
    params (λ v, p ← req "program_id" ProgramId_from_value v;
                 f ← dflt "from_start" false read_bool v; Some (Resume p f))
  else if decide (tag = "logs") then
    params (λ v, p ← req "program_id" ProgramId_from_value v;
                 f ← dflt "follow" false read_bool v; Some (Logs p f))
  else if decide (tag = "events") then
    params (λ v, f ← dflt "follow" false read_bool v; Some (Events f))
  else if decide (tag = "trace") then with_pid TraceOp
  else if decide (tag = "health") then no_params Health v
  else if decide (tag = "gc") then no_params Gc v
  else if decide (tag = "shutdown") then no_params Shutdown v
  else None.

(* src: crates/vcli-ipc/src/wire/request.rs 50-58 Request::serialize *)
Definition Request_to_value (r : Request) : Value :=
  Obj (("id", RequestId_to_value (req_id r)) :: RequestOp_fields (req_op r)).
(* src: crates/vcli-ipc/src/wire/request.rs 50-58 Request::deserialize *)
Definition Request_from_value (v : Value) : option Request :=
  id ← req "id" RequestId_from_value v; op ← RequestOp_from_value v; Some (mkRequest id op).

(* src: crates/vcli-core/src/error.rs 8-32 ErrorCode::serialize *)
Definition ErrorCode_to_value (c : ErrorCode) : Value := Str (ErrorCode_as_str c).
(* src: crates/vcli-core/src/error.rs 8-32 ErrorCode::deserialize *)
Definition ErrorCode_from_value (v : Value) : option ErrorCode :=
  s ← read_str v;
  if decide (s = "invalid_program") then Some InvalidProgram
  else if decide (s = "unknown_program") then Some UnknownProgramCode
  else if decide (s = "bad_state_transition") then Some BadStateTransitionCode
  else if decide (s = "permission_denied") then Some PermissionDeniedCode
  else if decide (s = "capture_failed") then Some CaptureFailedCode
  else if decide (s = "daemon_busy") then Some DaemonBusy
  else if decide (s = "not_resumable") then Some NotResumableCode
  else if decide (s = "resume_precondition_failed") then Some ResumePreconditionFailed
  else if decide (s = "internal") then Some InternalCode
  else None.

(* src: crates/vcli-core/src/error.rs 58-81 ErrorPayload::serialize *)
Definition ErrorPayload_to_value (e : ErrorPayload) : Value :=
  Obj ([("code", ErrorCode_to_value (ep_code e)); ("message", Str (ep_message e))]
       ++ opt_field "path" Str (ep_path e) ++ opt_field "line" int_value (ep_line e)
       ++ opt_field "column" int_value (ep_column e)
       ++ opt_field "span_len" int_value (ep_span_len e) ++ opt_field "hint" Str (ep_hint e)).
(* src: crates/vcli-core/src/error.rs 58-81 ErrorPayload::deserialize *)
Definition ErrorPayload_from_value (v : Value) : option ErrorPayload :=
  code ← req "code" ErrorCode_from_value v; message ← req "message" read_str v;
  path ← opt "path" read_str v; line ← opt "line" read_u32 v;
  column ← opt "column" read_u32 v; span_len ← opt "span_len" read_u32 v;
  hint ← opt "hint" read_str v;
  Some (mkErrorPayload code message path line column span_len hint).

(** [OkFlag] is [true] on the wire, [ErrFlag] is [false]. *)
(* src: crates/vcli-ipc/src/wire/response.rs 43-58 OkFlag::deserialize *)
Definition OkFlag_from_value (v : Value) : option () :=
  b ← read_bool v; if (b : bool) then Some () else None.
(* src: crates/vcli-ipc/src/wire/response.rs 64-79 ErrFlag::deserialize *)
Definition ErrFlag_from_value (v : Value) : option () :=
  b ← read_bool v; if (b : bool) then None else Some ().

(* src: crates/vcli-ipc/src/wire/response.rs 9-37 Response::serialize *)
Definition Response_to_value (r : Response) : Value :=
  Obj (("id", RequestId_to_value (resp_id r)) ::
       match resp_body r with
       | BodyOk result => [("ok", Bool true); ("result", result)]
       | BodyErr error => [("ok", Bool false); ("error", ErrorPayload_to_value error)]
       end).
(** Untagged: the first variant that fits. *)
(* src: crates/vcli-ipc/src/wire/response.rs 9-37 Response::deserialize *)
Definition Response_from_value (v : Value) : option Response :=
  id ← req "id" RequestId_from_value v;
  match (_ ← req "ok" OkFlag_from_value v; result ← req "result" read_any v;
         Some (BodyOk result)) with
  | Some b => Some (mkResponse id b)
  | None =>
      _ ← req "ok" ErrFlag_from_value v; error ← req "error" ErrorPayload_from_value v;
      Some (mkResponse id (BodyErr error))
  end.

(* src: crates/vcli-ipc/src/wire/stream.rs 10-18 StreamKind::serialize *)
Definition StreamKind_to_value (k : StreamKind) : Value :=
  Str match k with KindEvents => "events" | KindTrace => "trace" end.
(* src: crates/vcli-ipc/src/wire/stream.rs 10-18 StreamKind::deserialize *)
Definition StreamKind_from_value (v : Value) : option StreamKind :=
  s ← read_str v;
  if decide (s = "events") then Some KindEvents
  else if decide (s = "trace") then Some KindTrace else None.

(* src: crates/vcli-ipc/src/wire/stream.rs 20-36 StreamFrame::serialize *)
Definition StreamFrame_to_value (f : StreamFrame) : Value :=
  Obj ([("id", RequestId_to_value (sf_id f)); ("stream", StreamKind_to_value (sf_stream f))]
       ++ (if is_false (sf_end f) then [] else [("end", Bool (sf_end f))])
       ++ opt_field "event" Event_to_value (sf_event f)
       ++ opt_field "trace" (λ v, v) (sf_trace f)).
(* src: crates/vcli-ipc/src/wire/stream.rs 20-36 StreamFrame::deserialize *)
Definition StreamFrame_from_value (v : Value) : option StreamFrame :=
  id ← req "id" RequestId_from_value v; stream ← req "stream" StreamKind_from_value v;
  e ← dflt "end" false read_bool v; event ← opt "event" Event_from_value v;
  trace ← opt "trace" read_any v;
  Some (mkStreamFrame id stream e event trace).

End serde.

(** ** What the transport needs of a message *)

(** A message type with its documents; [wire_wf] are the messages the Rust
    type holds whose documents have an exact text. *)
Class Wire (T : Type) := {
  to_value : T → Value;
  from_value : Value → option T;
  wire_wf : T → Prop;
}.
Class WireLaws (T : Type) `{Wire T} : Prop := {
  wire_round_trip (x : T) : wire_wf x → from_value (to_value x) = Some x;
  wire_exact (x : T) : wire_wf x → exact (to_value x);
}.

Definition RequestOp_wf (op : RequestOp) : Prop :=
  match op with Submit program _ => exact program | _ => True end.
Definition opt_u32 (o : option Z) : Prop := from_option in_u32 True o.
Definition ErrorPayload_wf (e : ErrorPayload) : Prop :=
  opt_u32 (ep_line e) ∧ opt_u32 (ep_column e) ∧ opt_u32 (ep_span_len e).
Definition Response_wf (r : Response) : Prop :=
  match resp_body r with BodyOk v => exact v | BodyErr e => ErrorPayload_wf e end.
(** A trace record is an object, never [null]. *)
Definition StreamFrame_wf (f : StreamFrame) : Prop :=
  from_option Event_wf True (sf_event f)
  ∧ from_option (λ v, exact v ∧ v ≠ Null) True (sf_trace f).

#[export] Instance Request_wire `{UuidOps} : Wire Request := {|
  to_value := Request_to_value; from_value := Request_from_value;
  wire_wf r := RequestOp_wf (req_op r);
|}.
#[export] Instance Response_wire `{UuidOps} : Wire Response := {|
  to_value := Response_to_value; from_value := Response_from_value; wire_wf := Response_wf;
|}.
#[export] Instance StreamFrame_wire `{UuidOps} : Wire StreamFrame := {|
  to_value := StreamFrame_to_value; from_value := StreamFrame_from_value;
  wire_wf := StreamFrame_wf;
|}.

(** ** The envelopes are read back as they were written *)

Lemma dflt_absent {A} k d (f : Value → option A) m :
  k ∉ m.*1 → dflt k d f (Obj m) = Some d.
Proof.
  intros Hk. unfold dflt; simpl. destruct (obj_get k m) eqn:Hm; [|done].
  destruct Hk. apply obj_get_is_Some. by rewrite Hm.
Qed.
Lemma opt_absent {A} k (f : Value → option A) m : k ∉ m.*1 → opt k f (Obj m) = Some None.
Proof.
  intros Hk. unfold opt; simpl. destruct (obj_get k m) eqn:Hm; [|done].
  destruct Hk. apply obj_get_is_Some. by rewrite Hm.
Qed.

(** Discharges [NoDup] of the concrete names of a document. *)
Ltac distinct_names := apply (bool_decide_unpack _); vm_compute; exact I.

Section laws.
Context `{UuidOps, !UuidLaws}.

Lemma RequestId_value i : RequestId_from_value (RequestId_to_value i) = Some i.
Proof.
  unfold RequestId_from_value, RequestId_to_value. simpl. rewrite uuid_round_trip.
  by destruct i.
Qed.
Lemma ErrorCode_value c : ErrorCode_from_value (ErrorCode_to_value c) = Some c.
Proof.
  unfold ErrorCode_from_value, ErrorCode_to_value. cbn [read_str value_as_str mbind option_bind].
  destruct c; cbn [ErrorCode_as_str]; repeat rewrite decide_False by discriminate;
    by rewrite decide_True.
Qed.
Lemma StreamKind_value k : StreamKind_from_value (StreamKind_to_value k) = Some k.
Proof. by destruct k. Qed.
Hint Rewrite RequestId_value ErrorCode_value StreamKind_value : vcli_wire.
Hint Rewrite (@ProgramId_value _ _) : vcli_wire.

Lemma RequestOp_value id op :
  RequestOp_from_value (Obj (("id", id) :: RequestOp_fields op)) = Some op.
Proof.
  unfold RequestOp_from_value.
  destruct op; repeat match goal with o : option _ |- _ => destruct o end;
    unfold RequestOp_fields; cbn [app opt_field]; wire_tag "op"; wire; try done;
    unfold no_params; simpl; done.
Qed.

#[export] Instance Request_laws : WireLaws Request.
Proof.
  split; intros [id op] Hwf; simpl in *.
  - unfold Request_from_value, Request_to_value; simpl req_id; simpl req_op. wire.
    by rewrite RequestOp_value.
  - constructor.
    + destruct op; repeat match goal with o : option _ |- _ => destruct o end; distinct_names.
    + apply Forall_cons. split; [constructor|].
      destruct op; repeat match goal with o : option _ |- _ => destruct o end; simpl in *;
        repeat (apply Forall_cons; split; simpl); try apply Forall_nil_2;
        try (by constructor); (constructor; [distinct_names|]);
        repeat (apply Forall_cons; split; simpl); try apply Forall_nil_2; try done;
        by constructor.
Qed.

Lemma ErrorPayload_value e :
  ErrorPayload_wf e → ErrorPayload_from_value (ErrorPayload_to_value e) = Some e.
Proof.
  destruct e as [code msg path line column span hint]. intros (Hl & Hc & Hs); simpl in *.
  unfold ErrorPayload_from_value, ErrorPayload_to_value; simpl ep_code; simpl ep_message;
    simpl ep_path; simpl ep_line; simpl ep_column; simpl ep_span_len; simpl ep_hint.
  destruct path, line, column, span, hint; simpl in Hl, Hc, Hs; wire; done.
Qed.
Lemma exact_ErrorPayload e : ErrorPayload_wf e → exact (ErrorPayload_to_value e).
Proof.
  destruct e as [code msg path line column span hint]. intros (Hl & Hc & Hs); simpl in *.
  constructor.
  - destruct path, line, column, span, hint; distinct_names.
  - destruct path, line, column, span, hint; simpl in *;
      repeat (apply Forall_cons; split; simpl); try apply Forall_nil_2;
      auto using exact_in_u32; by constructor.
Qed.

#[export] Instance Response_laws : WireLaws Response.
Proof.
  split; intros [id [v|e]]; simpl; intros Hwf; simpl in Hwf.
  - unfold Response_from_value, Response_to_value; simpl resp_id; simpl resp_body. wire. done.
  - unfold Response_from_value, Response_to_value; simpl resp_id; simpl resp_body. wire.
    cbn [OkFlag_from_value ErrFlag_from_value read_bool mbind option_bind].
    wire. by rewrite ErrorPayload_value.
  - constructor; [distinct_names|].
    repeat (apply Forall_cons; split; simpl); try apply Forall_nil_2; try done; by constructor.
  - constructor; [distinct_names|].
    repeat (apply Forall_cons; split; simpl); try apply Forall_nil_2; try (by constructor).
    by apply exact_ErrorPayload.
Qed.

Lemma Event_to_value_not_null e : Event_to_value e ≠ Null.
Proof. done. Qed.

#[export] Instance StreamFrame_laws : WireLaws StreamFrame.
Proof.
  split; intros [id k e ev tr] [Hev Htr]; simpl in *.
  - unfold StreamFrame_from_value, StreamFrame_to_value;
      simpl sf_id; simpl sf_stream; simpl sf_end; simpl sf_event; simpl sf_trace.
    destruct e, ev as [ev|], tr as [tr|]; simpl is_false; cbn [app opt_field];
      cbn [from_option] in Hev, Htr; wire;
      rewrite ?(opt_hd "event") by apply Event_to_value_not_null;
      rewrite ?(opt_hd "trace") by apply Htr;
      rewrite ?Event_value by exact Hev; wire;
      rewrite ?(opt_hd "trace") by apply Htr; wire; rewrite ?Event_value by exact Hev; done.
  - constructor.
    + destruct e, ev, tr; distinct_names.
    + destruct e, ev, tr; simpl in *; repeat (apply Forall_cons; split; simpl);
        try apply Forall_nil_2; destruct_and?; auto using exact_Event; by constructor.
Qed.
End laws.
