(* ===== verification/Ipc.v ===== *)
(** * Transport of vcli-ipc

    Framing, the server's connection loop, the client, and the choice of the
    socket's path ([vcli-ipc/src]).  A connection is what its reader still has
    to deliver, in the pieces in which it arrives, and what its writer has
    handed to the peer.  The handler is an interface: a class of operations on
    a state of its own, as the trait is. *)

From S2P Require Import Prelude Json CoreTypes Sha256 Serde EventWire IpcWire Host.
From S2P Require Import Wp.

Local Open Scope vcli_scope.

(** ** Errors ([error.rs]) *)

(* src: crates/vcli-ipc/src/error.rs 8-48 IpcError *)
Inductive IpcError :=
  | IpcIo (e : IoError)
  | UnexpectedEof (got expected : Z)
  | FrameTooLarge (len max : Z)
  | InvalidJson (message : string)
  | SocketSetup (message : string)
  | SocketPathError (message : string)
  | StreamClosed.

#[export] Instance IpcError_eq_dec : EqDecision IpcError.
Proof. solve_decision. Defined.

(** The text of a [serde] error on a document of the wrong shape. *)
Class SerdeMessage := { serde_message : Value → string }.

(* src: crates/vcli-ipc/src/error.rs 10-48 IpcError::fmt *)
Definition IpcError_display `{Host} (e : IpcError) : string :=
  match e with
  | IpcIo e => "io: " +:+ io_message e
  | UnexpectedEof got expected =>
      "peer disconnected mid-frame (got " +:+ pretty got +:+ " of " +:+ pretty expected
      +:+ " bytes)"
  | FrameTooLarge len max =>
      "frame too large: " +:+ pretty len +:+ " bytes (max " +:+ pretty max +:+ ")"
  | InvalidJson m => "invalid json frame: " +:+ m
  | SocketSetup m => "socket setup: " +:+ m
  | SocketPathError m => "could not resolve socket path: " +:+ m
  | StreamClosed => "stream closed by server"
  end.

(** ** A connection *)

(** What one [read] finds: at least one byte, or an error.  When nothing is
    left the peer has closed its side. *)
Inductive Arrival :=
  | Data (b : Z) (bs : bytes)
  | Broken (e : IoError).

(** [write_faults] tells of each coming [write] or [flush] whether it fails,
    and then how much of what is pending still leaves. *)
Record Conn := mkConn {
  incoming : list Arrival;
  pending : bytes;
  outgoing : bytes;
  write_faults : list (option (IoError * nat));
}.

Definition set_incoming (a : list Arrival) (c : Conn) : Conn :=
  mkConn a (pending c) (outgoing c) (write_faults c).

Definition blen (b : bytes) : Z := Z.of_nat (length b).

(** [r.read(buf)] with room for [n] bytes: at most one piece, and what does
    not fit stays for the next call. *)
Definition read_call (n : Z) : ST Conn (result IoError bytes) := λ c,
  match incoming c with
  | [] => Ret (Ok [], c)
  | Broken e :: a => Ret (Err e, set_incoming a c)
  | Data b bs :: a =>
      let rest := match drop (Z.to_nat n) (b :: bs) with
                  | [] => a
                  | b' :: bs' => Data b' bs' :: a
                  end in
      Ret (Ok (take (Z.to_nat n) (b :: bs)), set_incoming rest c)
  end.

(** One call on the writer, [f] when it succeeds. *)
Definition write_call (b : bytes) (flushes : bool) : ST Conn (result IpcError ()) := λ c,
  match write_faults c with
  | Some (e, n) :: faults =>
      Ret (Err (IpcIo e),
           mkConn (incoming c) [] (outgoing c ++ take n (pending c ++ b)) faults)
  | _ =>
      let faults := tail (write_faults c) in
      Ret (Ok (),
           if flushes then mkConn (incoming c) [] (outgoing c ++ pending c ++ b) faults
           else mkConn (incoming c) (pending c ++ b) (outgoing c) faults)
  end.
Definition write_all (b : bytes) : ST Conn (result IpcError ()) := write_call b false.
Definition flush : ST Conn (result IpcError ()) := write_call [] true.

(** ** Frames ([frame.rs]) *)

(* src: crates/vcli-ipc/src/frame.rs 13-14 MAX_FRAME_LEN *)
Definition MAX_FRAME_LEN : Z := 4 * 1024 * 1024.

(** [u32::to_be_bytes]; [be_word] reads them back. *)
Definition be_bytes32 (z : Z) : bytes :=
  map (λ k, (z / 2 ^ (8 * k)) mod 256)%Z [3; 2; 1; 0]%Z.

(** The string with the given bytes. *)
Definition string_of_bytes (b : bytes) : string :=
  foldr (λ z s, String (Ascii.ascii_of_nat (Z.to_nat z)) s) "" b.

Section ipc.
  Context `{UuidOps, JsonText, Host, SerdeMessage}.

(** The text of a message. *)
Definition encode {T} `{Wire T} (x : T) : bytes := bytes_of_string (json_to_string (to_value x)).

(** [serde_json::to_vec] does not fail on these types. *)
(* src: crates/vcli-ipc/src/frame.rs 16-42 write_frame *)
Definition write_frame {T} `{Wire T} (x : T) : ST Conn (result IpcError ()) :=
  let bytes := encode x in
  if (u32_max <? blen bytes)%Z then serr (FrameTooLarge u32_max MAX_FRAME_LEN)
  else
    let len := blen bytes in
    if (MAX_FRAME_LEN <? len)%Z then serr (FrameTooLarge len MAX_FRAME_LEN)
    else
      _ ←! write_all (be_bytes32 len);
      _ ←! write_all bytes;
      flush.

(** [while filled < expected { n = r.read(&mut buf[filled..])?; .. }]: every
    turn that goes on has used up a piece or filled the buffer. *)
(* src: crates/vcli-ipc/src/frame.rs 57-68 read_frame *)
Fixpoint fill (fuel : nat) (expected : Z) (buf : bytes) : ST Conn (result IpcError bytes) :=
  match fuel with
  | O => out_of_fuel
  | S fuel =>
      if (blen buf <? expected)%Z then
        r ← read_call (expected - blen buf);
        match r with
        | Err e => serr (IpcIo e)
        | Ok [] => serr (UnexpectedEof (blen buf) expected)
        | Ok b => fill fuel expected (buf ++ b)
        end
      else sok buf
  end.
Definition fill_exact (expected : Z) : ST Conn (result IpcError bytes) :=
  c ← get; fill (S (length (incoming c))) expected [].

(** [serde_json::from_slice]. *)
Definition from_slice {T} `{Wire T} (b : bytes) : result IpcError T :=
  v ← map_err InvalidJson (json_from_str (string_of_bytes b));
  ok_or (from_value v) (InvalidJson (serde_message v)).

(* src: crates/vcli-ipc/src/frame.rs 44-91 read_frame *)
Definition read_frame {T} `{Wire T} : ST Conn (result IpcError T) :=
  hdr ←! fill_exact 4;
  let len := be_word hdr in
  if (MAX_FRAME_LEN <? len)%Z then serr (FrameTooLarge len MAX_FRAME_LEN)
  else
    buf ←! fill_exact len;
    mret (from_slice buf).

(** ** The handler ([handler.rs]) *)

(** [handle_stream] gives the frames it pushes, in order: the channel they go
    through keeps the order and loses none while the connection lasts. *)
(* src: crates/vcli-ipc/src/handler.rs 30-50 Handler *)
Class Handler (S : Type) := {
  handle : RequestId → RequestOp → ST S (result IpcError Response);
  handle_stream : RequestId → RequestOp → ST S (list StreamFrame);
  is_streaming : RequestOp → bool;
}.
(** The default body of [Handler::is_streaming]. *)
(* src: crates/vcli-ipc/src/handler.rs 42-50 Handler::is_streaming *)
Definition is_streaming_default (op : RequestOp) : bool :=
  match op with Logs _ _ | Events _ | TraceOp _ => true | _ => false end.

(** ** The server ([server.rs]) *)

Section server.
  Context {S : Type} `{Handler S}.

Definition on_conn {A} (m : ST Conn A) : ST (Conn * S) A := λ s,
  r ← m s.1; Ret (r.1, (r.2, s.2)).
Definition on_handler {A} (m : ST S A) : ST (Conn * S) A := λ s,
  r ← m s.2; Ret (r.1, (s.1, r.2)).

(* src: crates/vcli-ipc/src/server.rs 143-160 dispatch_oneshot *)
Definition dispatch_oneshot (req : Request) : ST (Conn * S) (result IpcError ()) :=
  let id := req_id req in
  r ← on_handler (handle id (req_op req));
  let resp := match r with
              | Ok r => r
              | Err e => Response_err id (ErrorPayload_simple InternalCode (IpcError_display e))
              end in
  on_conn (write_frame resp).

(* src: crates/vcli-ipc/src/server.rs 171-174 dispatch_stream *)
Definition stream_kind (op : RequestOp) : StreamKind :=
  match op with TraceOp _ => KindTrace | _ => KindEvents end.

(** The frames the handler task sends, as the channel delivers them. *)
(* src: crates/vcli-ipc/src/server.rs 162-190 dispatch_stream *)
Definition dispatch_stream (req : Request) : ST (Conn * S) (result IpcError ()) :=
  let id := req_id req in
  frames ← on_handler (handle_stream id (req_op req));
  _ ←! try_fold (λ _ frame, on_conn (write_frame frame)) () frames;
  on_conn (write_frame (StreamFrame_end_of_stream id (stream_kind (req_op req)))).

(** [fresh] is the id the error report is sent under. *)
(* src: crates/vcli-ipc/src/server.rs 105-141 handle_connection *)
Fixpoint handle_connection (fuel : nat) (fresh : RequestId)
    : ST (Conn * S) (result IpcError ()) :=
  match fuel with
  | O => out_of_fuel
  | Datatypes.S fuel =>
      r ← on_conn (read_frame (T := Request));
      match r with
      | Ok req =>
          _ ←! (if is_streaming (req_op req) then dispatch_stream req else dispatch_oneshot req);
          handle_connection fuel fresh
      | Err e =>
          if bool_decide (e = UnexpectedEof 0 4) then sok ()
          else match e with
               | InvalidJson _ | FrameTooLarge _ _ =>
                   let resp := Response_err fresh
                                 (ErrorPayload_simple InternalCode (IpcError_display e)) in
                   _ ← on_conn (write_frame resp);
                   serr e
               | _ => serr e
               end
      end
  end.
End server.

(** ** The client ([client.rs]) *)

(** [id] is the answer of [RequestId::new()]; sending leaves the connection
    waiting for [resp]. *)
(* src: crates/vcli-ipc/src/client.rs 47-54 IpcClient::request *)
Definition send_request (id : RequestId) (op : RequestOp) : ST Conn (result IpcError ()) :=
  _ ←! write_frame (mkRequest id op);
  flush.

(* src: crates/vcli-ipc/src/client.rs 55-62 IpcClient::request *)
Definition check_response (id : RequestId) (resp : Response) : result IpcError Response :=
  if bool_decide (resp_id resp = id) then Ok resp
  else Err (SocketSetup ("response id mismatch: req=" +:+ uuid_display (request_uuid id)
                         +:+ " resp=" +:+ uuid_display (request_uuid (resp_id resp)))).

(** The peer answers between the two halves.  It sends nothing after the
    response, so nothing is lost with the reader of this call. *)
(* src: crates/vcli-ipc/src/client.rs 42-63 IpcClient::request *)
Definition request (peer : Conn → list Arrival) (id : RequestId) (op : RequestOp)
    : ST Conn (result IpcError Response) :=
  _ ←! send_request id op;
  _ ← modify (λ c, set_incoming (incoming c ++ peer c) c);
  resp ←! read_frame;
  mret (check_response id resp).

(* src: crates/vcli-ipc/src/client.rs 90-98 ResponseStream *)
Record ResponseStream := mkResponseStream {
  rs_reader : Conn; rs_id : RequestId; rs_done : bool;
}.

(* src: crates/vcli-ipc/src/client.rs 65-87 IpcClient::request_stream *)
Definition request_stream (peer : Conn → list Arrival) (id : RequestId) (op : RequestOp)
    (c : Conn) : outcome (result IpcError ResponseStream) :=
  '(r, c) ← send_request id op c;
  Ret (_ ← r; Ok (mkResponseStream (set_incoming (incoming c ++ peer c) c) id false)).

(* src: crates/vcli-ipc/src/client.rs 100-123 ResponseStream::next_frame *)
Definition next_frame : ST ResponseStream (result IpcError (option StreamFrame)) := λ s,
  if rs_done s then Ret (Ok None, s)
  else
    '(r, c) ← read_frame (T := StreamFrame) (rs_reader s);
    let s := mkResponseStream c (rs_id s) false in
    Ret match r with
        | Err e => (Err e, s)
        | Ok frame =>
            if bool_decide (sf_id frame = rs_id s) then
              if sf_end frame then (Ok None, mkResponseStream c (rs_id s) true)
              else (Ok (Some frame), s)
            else (Err (SocketSetup ("stream frame id mismatch: req="
                    +:+ uuid_display (request_uuid (rs_id s)) +:+ " got="
                    +:+ uuid_display (request_uuid (sf_id frame)))), s)
        end.
End ipc.

(** ** The socket's path ([socket_path.rs]) *)

(* src: crates/vcli-ipc/src/socket_path.rs 23-36 SocketPathOrigin *)
Inductive SocketPathOrigin := Override | MacTmpdir | XdgRuntimeDir | RunUser | TmpFallback.
(* src: crates/vcli-ipc/src/socket_path.rs 14-21 SocketPath *)
Record SocketPath := mkSocketPath { sp_path : Path; sp_origin : SocketPathOrigin }.

Inductive TargetOs := Macos | Linux.

(** The process environment: its variables, the [uid] that [id -u] printed
    (0 when it could not be read), and which directories exist. *)
Record Env := mkEnv {
  target_os : TargetOs;
  var_os : string → option string;
  uid : Z;
  is_dir : Path → bool;
}.

(* src: crates/vcli-ipc/src/socket_path.rs 38-39 OVERRIDE_ENV *)
Definition OVERRIDE_ENV : string := "VCLI_SOCKET".

(* src: crates/vcli-ipc/src/socket_path.rs 130-136 sock_in_dir *)
Definition sock_in_dir (env : Env) (dir : string) : option Path :=
  if string_is_empty dir then None
  else Some (path_push (path_of_string dir) ("vcli-" +:+ pretty (uid env) +:+ ".sock")).
(* src: crates/vcli-ipc/src/socket_path.rs 100-104 try_mac_tmpdir *)
Definition try_mac_tmpdir (env : Env) : option Path := d ← var_os env "TMPDIR"; sock_in_dir env d.
(* src: crates/vcli-ipc/src/socket_path.rs 106-114 try_xdg_runtime_dir *)
Definition try_xdg_runtime_dir (env : Env) : option Path :=
  d ← var_os env "XDG_RUNTIME_DIR";
  if string_is_empty d then None else Some (path_push (path_of_string d) "vcli.sock").
(* src: crates/vcli-ipc/src/socket_path.rs 116-124 try_run_user *)
Definition try_run_user (env : Env) : option Path :=
  let p := path_of_string ("/run/user/" +:+ pretty (uid env)) in
  if is_dir env p then Some (path_push p "vcli.sock") else None.
(* src: crates/vcli-ipc/src/socket_path.rs 126-128 try_tmp_fallback *)
Definition try_tmp_fallback (env : Env) : Path :=
  path_of_string ("/tmp/vcli-" +:+ pretty (uid env) +:+ ".sock").

(* src: crates/vcli-ipc/src/socket_path.rs 41-80 default_socket_path *)
Definition default_socket_path (env : Env) : result IpcError SocketPath :=
  match var_os env OVERRIDE_ENV with
  | Some p => Ok (mkSocketPath (path_of_string p) Override)
  | None =>
      let fallback := mkSocketPath (try_tmp_fallback env) TmpFallback in
      match target_os env with
      | Macos => match try_mac_tmpdir env with
                 | Some p => Ok (mkSocketPath p MacTmpdir)
                 | None => Ok fallback
                 end
      | Linux => match try_xdg_runtime_dir env with
                 | Some p => Ok (mkSocketPath p XdgRuntimeDir)
                 | None => match try_run_user env with
                           | Some p => Ok (mkSocketPath p RunUser)
                           | None => Ok fallback
                           end
                 end
      end
  end.
