(* ===== verification/IpcSpec.v ===== *)
(** * Properties of the transport

    A frame is what its bytes say, however they arrive: [read_frame] answers
    for a stream cut into pieces what the pure [parse_frame] answers for the
    bytes as a whole, and leaves the reader at the byte after the frame.  From
    this follow the round trip, the server's loop over a connection and an
    exchange between client and server. *)

From S2P Require Import Prelude Json CoreTypes Sha256 Serde EventWire IpcWire Host Ipc.
From S2P Require Import Wp.

Local Open Scope vcli_scope.

(** ** Bytes *)

Definition is_byte (z : Z) : Prop := (0 ≤ z < 256)%Z.

Lemma string_of_bytes_of_string s : string_of_bytes (bytes_of_string s) = s.
Proof.
  induction s as [|a s IH]; [done|]. cbn [bytes_of_string string_of_bytes foldr].
  rewrite Nat2Z.id, Ascii.ascii_nat_embedding. f_equal. exact IH.
Qed.

Lemma be_word_cons b bs :
  be_word (b :: bs) = (b * 256 ^ Z.of_nat (length bs) + be_word bs)%Z.
Proof.
  unfold be_word. cbn [foldl]. rewrite Z.mul_0_l, Z.add_0_l.
  enough (∀ acc, foldl (λ acc b, acc * 256 + b)%Z acc bs
                 = (acc * 256 ^ Z.of_nat (length bs)
                    + foldl (λ acc b, acc * 256 + b)%Z 0 bs)%Z) as Hgen by apply Hgen.
  induction bs as [|c bs IH]; intros acc; cbn [foldl length].
  { rewrite Z.pow_0_r. lia. }
  rewrite IH, (IH (0 * 256 + c)%Z), Nat2Z.inj_succ, Z.pow_succ_r by lia. lia.
Qed.

Lemma be_word_bytes32 z : in_u32 z → be_word (be_bytes32 z) = z.
Proof.
  intros Hz. unfold be_bytes32. cbn [map].
  rewrite !be_word_cons. cbn [length be_word foldl Z.of_nat Pos.of_succ_nat Pos.succ].
  unfold_ints. change (8 * 3)%Z with 24%Z. change (8 * 2)%Z with 16%Z.
  change (8 * 1)%Z with 8%Z. change (8 * 0)%Z with 0%Z.
  change (be_word []) with 0%Z.
  Z.to_euclidean_division_equations. lia.
Qed.

(** ** What a reader has left *)

(** No read fails. *)
Definition clean (a : list Arrival) : Prop :=
  Forall (λ x, match x with Data _ _ => True | Broken _ => False end) a.
Definition arrival_bytes (x : Arrival) : bytes :=
  match x with Data b bs => b :: bs | Broken _ => [] end.
Definition content (a : list Arrival) : bytes := a ≫= arrival_bytes.

Lemma set_incoming_twice a a' c : set_incoming a' (set_incoming a c) = set_incoming a' c.
Proof. done. Qed.
Lemma set_incoming_id c : set_incoming (incoming c) c = c.
Proof. by destruct c. Qed.

(** The first [n] bytes and the rest, or how many there are. *)
Definition cut (n : Z) (b : bytes) : result IpcError (bytes * bytes) :=
  if (n <=? blen b)%Z then Ok (take (Z.to_nat n) b, drop (Z.to_nat n) b)
  else Err (UnexpectedEof (blen b) n).

(** The payload of the frame [b] starts with, and what follows it. *)
Definition parse_frame (b : bytes) : result IpcError (bytes * bytes) :=
  '(hdr, b) ← cut 4 b;
  let len := be_word hdr in
  if (MAX_FRAME_LEN <? len)%Z then Err (FrameTooLarge len MAX_FRAME_LEN) else cut len b.

(** A read returns a piece of what is there; it is short of [n] only when it
    has used up a piece. *)
Lemma read_call_clean (n : Z) c :
  clean (incoming c) → (0 < n)%Z →
  ∃ b a', read_call n c = Ret (Ok b, set_incoming a' c) ∧ clean a' ∧
    content (incoming c) = b ++ content a' ∧ (blen b ≤ n)%Z ∧
    (b = [] → incoming c = []) ∧
    ((blen b < n)%Z → b ≠ [] → S (length a') = length (incoming c)).
Proof.
  unfold read_call, blen. destruct (incoming c) as [|[b bs|e] a] eqn:Hc; intros Hclean Hn.
  - exists [], []. destruct c; simpl in Hc; subst. split_and!; try done. simpl. lia.
  - apply Forall_cons in Hclean as [_ Hclean]. exists (take (Z.to_nat n) (b :: bs)).
    pose proof (take_drop (Z.to_nat n) (b :: bs)) as Hsplit.
    destruct (Z.to_nat n) as [|m] eqn:Hm; [lia|]. cbn [take drop] in Hsplit |- *.
    eexists. split; [reflexivity|]. injection Hsplit as Hsplit.
    assert (length (take m bs) ≤ m) as Hlen by (rewrite length_take; lia).
    destruct (drop m bs) as [|b' bs'] eqn:Hdrop; split_and!; simpl; try done; try lia.
    + unfold content; simpl. by rewrite <-Hsplit, app_nil_r at 1.
    + by constructor.
    + unfold content; simpl. rewrite <-Hsplit at 1. by rewrite <-app_assoc.
    + apply (f_equal length) in Hdrop. rewrite length_drop in Hdrop. simpl in Hdrop.
      rewrite length_take. lia.
  - by apply Forall_cons in Hclean as [[] _].
Qed.

Lemma fill_clean fuel expected buf c :
  clean (incoming c) → (blen buf ≤ Z.max 0 expected)%Z →
  length (incoming c) < fuel ∨ 0 < fuel ∧ (expected ≤ blen buf)%Z →
  ∃ a', fill fuel expected buf c
        = Ret (fst <$> cut expected (buf ++ content (incoming c)), set_incoming a' c) ∧
    clean a' ∧
    ∀ b rest, cut expected (buf ++ content (incoming c)) = Ok (b, rest) → content a' = rest.
Proof.
  unfold cut, blen. revert buf c. induction fuel as [|fuel IH]; intros buf c Hclean Hbuf Hfuel;
    [lia|].
  cbn [fill]. unfold blen. destruct (Z.ltb_spec (Z.of_nat (length buf)) expected) as [Hlt|Hge].
  - destruct (read_call_clean (expected - Z.of_nat (length buf)) c Hclean)
      as (b & a & Hread & Ha & Hcontent & Hle & Hempty & Hshort); [lia|].
    unfold mbind at 1, ST_bind. rewrite Hread. cbn [mbind outcome_bind].
    rewrite Hcontent. destruct b as [|x b].
    + rewrite Hempty in Hcontent by done. cbn [content mbind list_bind] in Hcontent.
      simpl in Hcontent. rewrite <-Hcontent, app_nil_r. exists a.
      destruct (Z.leb_spec expected (Z.of_nat (length buf))); [lia|]. done.
    + unfold blen in Hle, Hshort.
      destruct (IH (buf ++ x :: b) (set_incoming a c)) as (a' & Hfill & Ha' & Hrest).
      * done.
      * rewrite length_app. lia.
      * cbn [incoming set_incoming]. rewrite length_app.
        destruct (decide (Z.of_nat (length (x :: b)) < expected - Z.of_nat (length buf))%Z)
          as [Hs|Hs]; [left; specialize (Hshort Hs ltac:(done)); lia|right].
        destruct (incoming c); [done|]. simpl in *. lia.
      * exists a'. cbn [incoming set_incoming] in *. rewrite <-app_assoc in Hfill, Hrest.
        done.
  - exists (incoming c). rewrite set_incoming_id, length_app.
    rewrite (proj2 (Z.leb_le _ _)) by lia. cbn.
    rewrite take_app_length'; [|lia]. rewrite drop_app_length' by lia.
    split; [done|]. split; [done|]. by intros ?? [= _ <-].
Qed.

Lemma fill_exact_clean expected c :
  clean (incoming c) →
  ∃ a', fill_exact expected c
        = Ret (fst <$> cut expected (content (incoming c)), set_incoming a' c) ∧
    clean a' ∧
    ∀ b rest, cut expected (content (incoming c)) = Ok (b, rest) → content a' = rest.
Proof.
  intros Hclean. unfold fill_exact. cbn [mbind ST_bind get outcome_bind].
  apply (fill_clean _ _ []); [done|unfold blen; simpl; lia|left; lia].
Qed.

Section frames.
Context `{UuidOps, JsonText, SerdeMessage}.
#[local] Set Default Proof Using "Type".

(** Whatever pieces the bytes of a stream arrive in, as long as no read
    fails, reading a frame never blocks or panics, and its answer is that of
    parsing the bytes as a whole: the length and the payload, an
    [UnexpectedEof] that counts what was there, or [FrameTooLarge] on the
    header alone; what it leaves to read is what follows the frame. *)
Theorem read_frame_any_chunking {T} `{!Wire T} c :
  clean (incoming c) →
  ∃ a', read_frame (T := T) c
        = Ret ('(payload, _) ← parse_frame (content (incoming c)); from_slice payload,
               set_incoming a' c) ∧
    clean a' ∧
    ∀ payload rest, parse_frame (content (incoming c)) = Ok (payload, rest) →
      content a' = rest.
Proof.
  intros Hclean. unfold read_frame, parse_frame, sbind.
  destruct (fill_exact_clean 4 c Hclean) as (a & Hhdr & Ha & Hrest).
  unfold mbind at 1, ST_bind. rewrite Hhdr. cbn [mbind outcome_bind].
  destruct (cut 4 (content (incoming c))) as [[hdr b]|e] eqn:Hcut; cbn [fst fmap result_fmap];
    cbn [mbind result_bind].
  2: { by exists a. }
  specialize (Hrest _ _ eq_refl). destruct (MAX_FRAME_LEN <? be_word hdr)%Z.
  { by exists a. }
  destruct (fill_exact_clean (be_word hdr) (set_incoming a c)) as (a' & Hbuf & Ha' & Hrest');
    [done|]. cbn [incoming set_incoming] in Hbuf, Hrest'. rewrite Hrest in Hbuf, Hrest'.
  unfold mbind, ST_bind. rewrite Hbuf. cbn [mbind outcome_bind].
  exists a'. destruct (cut (be_word hdr) b) as [[payload rest]|e]; cbn.
  - split; [done|]. split; [done|]. intros ?? [= <- <-]. by eapply Hrest'.
  - done.
Qed.

(** The bytes of a frame. *)
Definition frame_bytes {T} `{!Wire T} (x : T) : bytes :=
  be_bytes32 (blen (encode x)) ++ encode x.
Definition fits {T} `{!Wire T} (x : T) : Prop := (blen (encode x) ≤ MAX_FRAME_LEN)%Z.

#[export] Instance fits_dec {T} `{!Wire T} (x : T) : Decision (fits x).
Proof. unfold fits. apply _. Defined.

Lemma parse_frame_bytes {T} `{!Wire T} (x : T) rest :
  fits x → parse_frame (frame_bytes x ++ rest) = Ok (encode x, rest).
Proof.
  intros Hfits. unfold fits, MAX_FRAME_LEN in Hfits. unfold parse_frame, frame_bytes, cut.
  set (hdr := be_bytes32 _). assert (length hdr = 4) as Hlen by done.
  assert (be_word hdr = blen (encode x)) as Hword.
  { apply be_word_bytes32. unfold blen in *. ints. }
  rewrite (proj2 (Z.leb_le 4 (blen ((hdr ++ encode x) ++ rest))))
    by (unfold blen; rewrite !length_app; lia).
  change (Z.to_nat 4) with 4. cbn [mbind result_bind].
  rewrite <-app_assoc, take_app_length', drop_app_length' by done.
  rewrite Hword, (proj2 (Z.ltb_ge _ _)) by (unfold MAX_FRAME_LEN; lia).
  rewrite (proj2 (Z.leb_le (blen (encode x)) (blen (encode x ++ rest))))
    by (unfold blen; rewrite length_app; lia).
  unfold blen. by rewrite Nat2Z.id, take_app_length, drop_app_length.
Qed.

Lemma from_slice_encode {T} `{!Wire T, !WireLaws T, !JsonTextLaws} (x : T) :
  wire_wf x → from_slice (encode x) = Ok x.
Proof.
  intros Hwf. unfold from_slice, encode.
  rewrite string_of_bytes_of_string, json_round_trip by by apply wire_exact.
  simpl. by rewrite wire_round_trip.
Qed.

(** What the text of a value reads as: the value itself when its integers are
    in range and it holds no number with a fraction; a fraction may come back
    as its neighbour. *)
Definition arrives {T} `{!Wire T} (x y : T) : Prop := from_slice (encode x) = Ok y.

Lemma arrives_wf {T} `{!Wire T, !WireLaws T, !JsonTextLaws} (x : T) : wire_wf x → arrives x x.
Proof. apply from_slice_encode. Qed.

Lemma read_frame_arrives {T} `{!Wire T} (x y : T) rest c :
  clean (incoming c) → content (incoming c) = frame_bytes x ++ rest →
  arrives x y → fits x →
  ∃ a', read_frame (T := T) c = Ret (Ok y, set_incoming a' c) ∧ clean a' ∧ content a' = rest.
Proof.
  intros Hclean Hcontent Hxy Hfits.
  destruct (read_frame_any_chunking (T := T) c Hclean) as (a' & Hread & Ha' & Hrest).
  rewrite Hcontent, parse_frame_bytes in Hread, Hrest by done.
  cbn [mbind result_bind] in Hread. rewrite Hxy in Hread. eauto.
Qed.

(** Nothing fails and nothing is pending: writing a frame sends its bytes. *)
Definition good_writer (c : Conn) : Prop := pending c = [] ∧ write_faults c = [].
Definition sent (b : bytes) (c : Conn) : Conn :=
  mkConn (incoming c) [] (outgoing c ++ b) [].

Lemma write_frame_fits {T} `{!Wire T} (x : T) c :
  good_writer c → fits x → write_frame x c = Ret (Ok (), sent (frame_bytes x) c).
Proof.
  intros [Hp Hf] Hfits. unfold fits, MAX_FRAME_LEN in Hfits. unfold write_frame.
  rewrite (proj2 (Z.ltb_ge _ _)) by ints.
  rewrite (proj2 (Z.ltb_ge _ _)) by (unfold MAX_FRAME_LEN; lia).
  destruct c as [inc p out faults]; simpl in Hp, Hf; subst.
  unfold sbind, mbind, ST_bind, write_all, flush, write_call, sent, frame_bytes.
  cbn -[be_bytes32 encode app]. by rewrite !app_nil_l, app_nil_r.
Qed.

Lemma write_frame_too_large {T} `{!Wire T} (x : T) c :
  ¬ fits x →
  write_frame x c = Ret (Err (FrameTooLarge (Z.min u32_max (blen (encode x))) MAX_FRAME_LEN), c).
Proof.
  intros Hfits. unfold fits in Hfits. unfold write_frame.
  destruct (Z.ltb_spec u32_max (blen (encode x))); [by rewrite Z.min_l by lia|].
  rewrite (proj2 (Z.ltb_lt _ _)), Z.min_r by lia. done.
Qed.
End frames.

(** ** The server's side of a connection *)

Section server.
Context `{UuidOps, JsonText, Host, SerdeMessage, Handler St}.
Context `{!UuidLaws, !JsonTextLaws}.
#[local] Set Default Proof Using "Type*".

(** What the handler answers, errors turned into a response. *)
Definition answer (id : RequestId) (r : result IpcError Response) : Response :=
  match r with
  | Ok r => r
  | Err e => Response_err id (ErrorPayload_simple InternalCode (IpcError_display e))
  end.
Definition error_report (fresh : RequestId) (e : IpcError) : Response :=
  Response_err fresh (ErrorPayload_simple InternalCode (IpcError_display e)).

(** How a connection ends on bytes that are no request: quietly when there are
    none, with a report when there was a frame that could not be read. *)
Definition farewell (fresh : RequestId) (e : IpcError) (out : bytes) (r : result IpcError ())
    : Prop :=
  match e with
  | UnexpectedEof 0 4 => out = [] ∧ r = Ok ()
  | InvalidJson _ | FrameTooLarge _ _ =>
      out = (if decide (fits (error_report fresh e)) then frame_bytes (error_report fresh e)
             else []) ∧ r = Err e
  | _ => out = [] ∧ r = Err e
  end.

(** The frames a stream ends up as. *)
Definition streamed (req : Request) (fs : list StreamFrame) : list StreamFrame :=
  fs ++ [StreamFrame_end_of_stream (req_id req) (stream_kind (req_op req))].

(** [exchange fresh reqs tail h out h' r]: the peer sends [reqs] and then the
    bytes [tail]; the handler goes from [h] to [h']; the server sends [out]
    and ends with [r]. *)
Inductive exchange (fresh : RequestId)
    : list Request → bytes → St → bytes → St → result IpcError () → Prop :=
  | exchange_end tail h out e r :
      ('(payload, _) ← parse_frame tail; from_slice (T := Request) payload) = Err e →
      farewell fresh e out r →
      exchange fresh [] tail h out h r
  | exchange_oneshot req reqs tail h a h1 out h2 r :
      is_streaming (req_op req) = false →
      handle (req_id req) (req_op req) h = Ret (a, h1) →
      fits (answer (req_id req) a) →
      exchange fresh reqs tail h1 out h2 r →
      exchange fresh (req :: reqs) tail h (frame_bytes (answer (req_id req) a) ++ out) h2 r
  | exchange_too_large req reqs tail h a h1 :
      is_streaming (req_op req) = false →
      handle (req_id req) (req_op req) h = Ret (a, h1) →
      ¬ fits (answer (req_id req) a) →
      exchange fresh (req :: reqs) tail h [] h1
        (Err (FrameTooLarge (Z.min u32_max (blen (encode (answer (req_id req) a)))) MAX_FRAME_LEN))
  | exchange_stream req reqs tail h fs h1 out h2 r :
      is_streaming (req_op req) = true →
      handle_stream (req_id req) (req_op req) h = Ret (fs, h1) →
      Forall fits (streamed req fs) →
      exchange fresh reqs tail h1 out h2 r →
      exchange fresh (req :: reqs) tail h ((streamed req fs ≫= frame_bytes) ++ out) h2 r.

Lemma on_conn_Ret {A} (m : ST Conn A) c (h : St) a c' :
  m c = Ret (a, c') → on_conn m (c, h) = Ret (a, (c', h)).
Proof. intros Hm. unfold on_conn. cbn [fst snd]. by rewrite Hm. Qed.
Lemma on_handler_Ret {A} (m : ST St A) (c : Conn) h a h' :
  m h = Ret (a, h') → on_handler m (c, h) = Ret (a, (c, h')).
Proof. intros Hm. unfold on_handler. cbn [fst snd]. by rewrite Hm. Qed.

Lemma dispatch_oneshot_fits req c h a h1 :
  handle (req_id req) (req_op req) h = Ret (a, h1) → good_writer c →
  fits (answer (req_id req) a) →
  dispatch_oneshot req (c, h)
  = Ret (Ok (), (sent (frame_bytes (answer (req_id req) a)) c, h1)).
Proof.
  intros Hh Hw Hfits. unfold dispatch_oneshot.
  erewrite ST_bind_step by (by apply on_handler_Ret). fold (answer (req_id req) a).
  by apply on_conn_Ret, write_frame_fits.
Qed.

Lemma write_frames_fit (fs : list StreamFrame) c h :
  good_writer c → Forall fits fs →
  try_fold (λ _ frame, on_conn (S := St) (write_frame frame)) () fs (c, h)
  = Ret (Ok (), (match fs with [] => c | _ => sent (fs ≫= frame_bytes) c end, h)).
Proof.
  intros Hw Hfits. revert c Hw. induction Hfits as [|f fs Hf Hfs IH]; intros c Hw; [done|].
  cbn [try_fold]. erewrite sbind_step by (by apply on_conn_Ret, write_frame_fits).
  rewrite IH by done. destruct fs; [by rewrite bind_cons, app_nil_r|].
  rewrite (bind_cons _ f). unfold sent. cbn [outgoing incoming]. by rewrite <-app_assoc.
Qed.

Lemma dispatch_stream_fits req c h fs h1 :
  good_writer c →
  handle_stream (req_id req) (req_op req) h = Ret (fs, h1) → Forall fits (streamed req fs) →
  dispatch_stream req (c, h) = Ret (Ok (), (sent (streamed req fs ≫= frame_bytes) c, h1)).
Proof.
  intros Hw Hh [Hfs [Hend _]%Forall_cons]%Forall_app. unfold dispatch_stream, streamed.
  erewrite ST_bind_step by (by apply on_handler_Ret).
  erewrite sbind_step by (by apply write_frames_fit).
  set (c' := match fs with [] => _ | _ => _ end).
  assert (good_writer c') as Hw' by (subst c'; by destruct fs).
  erewrite on_conn_Ret by (by apply write_frame_fits). subst c'.
  rewrite bind_app. cbn [mbind list_bind]. rewrite app_nil_r. unfold sent.
  destruct fs as [|f l]; [done|]. cbn [outgoing incoming]. by rewrite <-app_assoc.
Qed.

Lemma handle_connection_end fresh fuel c h e out r :
  clean (incoming c) → good_writer c →
  ('(payload, _) ← parse_frame (content (incoming c)); from_slice (T := Request) payload) = Err e →
  farewell fresh e out r →
  ∃ c', handle_connection (S fuel) fresh (c, h) = Ret (r, (c', h)) ∧
    outgoing c' = outgoing c ++ out.
Proof.
  intros Hclean Hw He Hbye. cbn [handle_connection].
  destruct (read_frame_any_chunking (T := Request) c Hclean) as (a & Hread & _ & _).
  rewrite He in Hread. erewrite ST_bind_step by (by apply on_conn_Ret). cbv beta iota.
  destruct (decide (e = UnexpectedEof 0 4)) as [->|Hne].
  { rewrite bool_decide_true by done. destruct Hbye as [-> ->]. eexists. split; [reflexivity|].
    by rewrite app_nil_r. }
  rewrite bool_decide_false by done.
  assert (∀ e', out = [] ∧ r = Err e' → ∃ c',
    serr (S := Conn * St) (A := ()) e' (set_incoming a c, h) = Ret (r, (c', h)) ∧
    outgoing c' = outgoing c ++ out) as Hquiet.
  { intros e' [-> ->]. eexists. split; [reflexivity|]. by rewrite app_nil_r. }
  assert (out = (if decide (fits (error_report fresh e)) then frame_bytes (error_report fresh e)
             else []) ∧ r = Err e → ∃ c',
    (_ ← on_conn (S := St) (write_frame (error_report fresh e));
     serr (S := Conn * St) (A := ()) e)
      (set_incoming a c, h) = Ret (r, (c', h)) ∧
    outgoing c' = outgoing c ++ out) as Hreport.
  { intros [-> ->]. case_decide.
    - erewrite ST_bind_step by (by apply on_conn_Ret, write_frame_fits). by eexists.
    - erewrite ST_bind_step by (by apply on_conn_Ret, write_frame_too_large).
      eexists. split; [reflexivity|]. by rewrite app_nil_r. }
  destruct e; try by apply Hquiet.
  - apply Hquiet. destruct got as [|p|p]; try done. destruct expected as [|p|p]; try done.
    by destruct p as [[]|[[]|[]|]|].
  - by apply Hreport.
  - by apply Hreport.
Qed.

(** The peer sends [sent], which reads as the requests [reqs]. *)
Lemma connection_serves fresh sent_reqs reqs tail c h out h' r fuel :
  clean (incoming c) → good_writer c →
  content (incoming c) = (sent_reqs ≫= frame_bytes) ++ tail →
  Forall2 (λ req req', arrives req req' ∧ fits req) sent_reqs reqs →
  exchange fresh reqs tail h out h' r →
  length reqs < fuel →
  ∃ c', handle_connection fuel fresh (c, h) = Ret (r, (c', h')) ∧
    outgoing c' = outgoing c ++ out.
Proof.
  intros Hclean Hw Hcontent Hreqs Hex. revert sent_reqs c fuel Hclean Hw Hcontent Hreqs.
  induction Hex as [tail h out e r He Hbye|req reqs tail h a h1 out h2 r Hs Hh Hfits Hex IH
    |req reqs tail h a h1 Hs Hh Hfits|req reqs tail h fs h1 out h2 r Hs Hh Hfits Hex IH];
    intros sent_reqs c [|fuel] Hclean Hw Hcontent Hreqs Hfuel; try (simpl in Hfuel; lia).
  { apply Forall2_nil_inv_r in Hreqs as ->.
    eapply handle_connection_end; [done..| |done]. by rewrite Hcontent. }
  all: apply Forall2_cons_inv_r in Hreqs as (req0 & sent' & [Hwf Hfit] & Hreqs & ->);
    simpl in Hfuel; rewrite bind_cons, <-app_assoc in Hcontent;
    destruct (read_frame_arrives req0 req _ c Hclean Hcontent Hwf Hfit) as (a' & Hread & Ha' & Hrest);
    cbn [handle_connection]; erewrite ST_bind_step by (by apply on_conn_Ret);
    cbv beta iota; rewrite Hs.
  - erewrite sbind_step by (by apply (dispatch_oneshot_fits _ _ _ _ _ Hh)).
    destruct (IH sent' (sent (frame_bytes (answer (req_id req) a)) (set_incoming a' c)) fuel)
      as (c' & Hrun & Hout); [done..|lia|].
    exists c'. split; [done|]. rewrite Hout. unfold sent. cbn [outgoing]. by rewrite <-app_assoc.
  - erewrite sbind_stop by (unfold dispatch_oneshot;
      erewrite ST_bind_step by (by apply on_handler_Ret);
      fold (answer (req_id req) a); by apply on_conn_Ret, write_frame_too_large).
    eexists. split; [reflexivity|]. by rewrite app_nil_r.
  - erewrite sbind_step by (by apply (dispatch_stream_fits req (set_incoming a' c) _ _ _ Hw Hh)).
    destruct (IH sent' (sent (streamed req fs ≫= frame_bytes) (set_incoming a' c)) fuel)
      as (c' & Hrun & Hout); [done..|lia|].
    exists c'. split; [done|]. rewrite Hout. unfold sent. cbn [outgoing]. by rewrite <-app_assoc.
Qed.

(** C16: A peer sends requests, in whatever pieces, and then something that is
    no request (or nothing).  Each request is answered before the next is
    looked at, in the order they came, a streaming one by its frames and the
    end of its stream; a response over the frame limit ends the connection; at
    the end an unreadable frame is reported and a clean close is not an error. *)
Theorem connection_serves_in_order fresh reqs tail c h out h' r fuel :
  clean (incoming c) → good_writer c →
  content (incoming c) = (reqs ≫= frame_bytes) ++ tail →
  Forall (λ req, wire_wf req ∧ fits req) reqs →
  exchange fresh reqs tail h out h' r →
  length reqs < fuel →
  ∃ c', handle_connection fuel fresh (c, h) = Ret (r, (c', h')) ∧
    outgoing c' = outgoing c ++ out.
Proof.
  intros Hclean Hw Hcontent Hreqs Hex Hfuel.
  apply (connection_serves fresh reqs reqs tail c h out h' r fuel); try done.
  apply Forall_Forall2_diag. eapply Forall_impl; [exact Hreqs|]. intros req [Hwf Hfit].
  split; [by apply arrives_wf|done].
Qed.
End server.

(** ** Client and server together *)

Section end_to_end.
Context `{UuidOps, JsonText, Host, SerdeMessage, Handler St}.
Context `{!UuidLaws, !JsonTextLaws}.
#[local] Set Default Proof Using "Type*".

(** A network that loses nothing and cuts as it likes. *)
Variable deliver : bytes → list Arrival.
Hypothesis deliver_clean : ∀ b, clean (deliver b).
Hypothesis deliver_content : ∀ b, content (deliver b) = b.

(** A connection on which nothing has been said. *)
Definition new_conn (a : list Arrival) : Conn := mkConn a [] [] [].

(** The server reads what the client has sent, and what it sends arrives. *)
Definition answering_server (fresh : RequestId) (h : St) (client : Conn) : list Arrival :=
  match handle_connection (S (length (outgoing client))) fresh
          (new_conn (deliver (outgoing client)), h) with
  | Ret (_, (server, _)) => deliver (outgoing server)
  | _ => []
  end.

(** [next_frame] until it answers that the stream is over. *)
Fixpoint collect (fuel : nat) : ST ResponseStream (result IpcError (list StreamFrame)) :=
  match fuel with
  | O => out_of_fuel
  | S fuel =>
      f ←! next_frame;
      match f with
      | None => sok []
      | Some f => fs ←! collect fuel; sok (f :: fs)
      end
  end.

Lemma frame_bytes_length {T} `{!Wire T} (x : T) : 4 ≤ length (frame_bytes x).
Proof. unfold frame_bytes. rewrite length_app. simpl. lia. Qed.

Lemma farewell_quiet fresh :
  ('(payload, _) ← parse_frame []; from_slice (T := Request) payload) = Err (UnexpectedEof 0 4) ∧
  farewell fresh (UnexpectedEof 0 4) [] (Ok ()).
Proof. done. Qed.

(** What comes back to a client whose one request was read as [req']. *)
Lemma answering_server_one fresh h req req' out h' r client :
  arrives req req' → fits req → outgoing client = frame_bytes req →
  exchange fresh [req'] [] h out h' r →
  answering_server fresh h client = deliver out.
Proof.
  intros Hwf Hfit Hout Hex. unfold answering_server. rewrite Hout.
  destruct (connection_serves fresh [req] [req'] [] (new_conn (deliver (frame_bytes req))) h
              out h' r (S (length (frame_bytes req)))) as (c' & -> & Hsent); try done.
  - apply deliver_clean.
  - cbn [incoming new_conn]. rewrite deliver_content. simpl. by rewrite !app_nil_r.
  - by repeat constructor.
  - pose proof (frame_bytes_length req). simpl. lia.
  - by rewrite Hsent.
Qed.

Lemma send_request_good id op c :
  good_writer c → fits (mkRequest id op) →
  send_request id op c = Ret (Ok (), sent (frame_bytes (mkRequest id op)) c).
Proof.
  intros Hw Hfit. unfold send_request. erewrite sbind_step by (by apply write_frame_fits).
  unfold flush, write_call, sent. simpl. by rewrite app_nil_r.
Qed.

Lemma request_oneshot fresh id op req' h a h1 resp :
  let req := mkRequest id op in
  arrives req req' → fits req → is_streaming (req_op req') = false →
  handle (req_id req') (req_op req') h = Ret (a, h1) →
  arrives (answer (req_id req') a) resp → fits (answer (req_id req') a) →
  ∃ c', request (answering_server fresh h) id op (new_conn []) = Ret (check_response id resp, c').
Proof.
  intros req Hwf Hfit Hs Hh Hawf Hafit. unfold request.
  erewrite sbind_step by (by apply send_request_good). fold req.
  set (c1 := sent (frame_bytes req) (new_conn [])).
  assert (answering_server fresh h c1 = deliver (frame_bytes (answer (req_id req') a))) as Hpeer.
  { apply (answering_server_one _ _ req req' _ h1 (Ok ())); [done..|].
    rewrite <-(app_nil_r (frame_bytes (answer (req_id req') a))).
    eapply (exchange_oneshot _ req'); [done..|]. by eapply exchange_end; apply farewell_quiet. }
  erewrite ST_bind_step by done. rewrite Hpeer.
  destruct (read_frame_arrives (answer (req_id req') a) resp []
              (set_incoming (incoming c1 ++ deliver (frame_bytes (answer (req_id req') a))) c1))
    as (a' & Hread & _); [apply deliver_clean|simpl; by rewrite deliver_content, app_nil_r|done..|].
  erewrite sbind_step by exact Hread. by eexists.
Qed.

(** An answer over the limit is not sent, and the connection is closed. *)
Lemma request_too_large fresh id op req' h a h1 :
  let req := mkRequest id op in
  arrives req req' → fits req → is_streaming (req_op req') = false →
  handle (req_id req') (req_op req') h = Ret (a, h1) → ¬ fits (answer (req_id req') a) →
  ∃ c', request (answering_server fresh h) id op (new_conn []) = Ret (Err (UnexpectedEof 0 4), c').
Proof.
  intros req Hwf Hfit Hs Hh Hafit. unfold request.
  erewrite sbind_step by (by apply send_request_good). fold req.
  set (c1 := sent (frame_bytes req) (new_conn [])).
  assert (answering_server fresh h c1 = deliver []) as Hpeer.
  { by eapply (answering_server_one _ _ req req' _ h1), exchange_too_large. }
  erewrite ST_bind_step by done. rewrite Hpeer.
  destruct (read_frame_any_chunking (T := Response) (set_incoming (incoming c1 ++ deliver []) c1))
    as (a' & Hread & _); [apply deliver_clean|].
  simpl in Hread. rewrite deliver_content in Hread.
  erewrite sbind_stop by exact Hread. by eexists.
Qed.

(** A frame that arrives as [g]. *)
Definition frame_arrives (id : RequestId) (f g : StreamFrame) : Prop :=
  arrives f g ∧ fits f ∧ sf_id g = id ∧ sf_end g = false.

Lemma collect_frames id c fs gs last fuel :
  clean (incoming c) →
  content (incoming c) = (fs ≫= frame_bytes) ++ frame_bytes last →
  Forall2 (frame_arrives id) fs gs →
  wire_wf last → fits last → sf_id last = id → sf_end last = true →
  length fs < fuel →
  ∃ s', collect fuel (mkResponseStream c id false) = Ret (Ok gs, s') ∧ rs_done s' = true.
Proof.
  intros Hclean Hcontent Hfs Hlwf Hlfit Hlid Hlend. revert c fuel Hclean Hcontent.
  induction Hfs as [|f g fs gs (Hwf & Hfit & Hid & Hend) Hfs IH];
    intros c [|fuel] Hclean Hcontent Hfuel; try (simpl in Hfuel; lia); cbn [collect].
  - destruct (read_frame_arrives last last [] c) as (a & Hread & _);
      [done|by rewrite app_nil_r|by apply arrives_wf|done|].
    exists (mkResponseStream (set_incoming a c) id true). split; [|done].
    rewrite (sbind_step _ _ _ None (mkResponseStream (set_incoming a c) id true)); [done|].
    unfold next_frame. cbn [rs_done rs_reader rs_id].
    rewrite Hread. cbn [mbind outcome_bind rs_id]. by rewrite bool_decide_true, Hlend.
  - rewrite bind_cons, <-app_assoc in Hcontent.
    destruct (read_frame_arrives f g _ c Hclean Hcontent Hwf Hfit) as (a & Hread & Ha & Hrest).
    destruct (IH (set_incoming a c) fuel) as (s' & Hrun & Hdone);
      [done|done|simpl in Hfuel; lia|].
    exists s'. split; [|done].
    rewrite (sbind_step _ _ _ (Some g) (mkResponseStream (set_incoming a c) id false)).
    2: { unfold next_frame. cbn [rs_done rs_reader rs_id]. rewrite Hread.
         cbn [mbind outcome_bind rs_id]. by rewrite bool_decide_true, Hend. }
    cbv beta iota. by erewrite sbind_step by exact Hrun.
Qed.

Lemma request_streaming fresh id op req' h fs gs h1 fuel :
  let req := mkRequest id op in
  arrives req req' → fits req → is_streaming (req_op req') = true →
  handle_stream (req_id req') (req_op req') h = Ret (fs, h1) → req_id req' = id →
  Forall2 (frame_arrives id) fs gs →
  fits (StreamFrame_end_of_stream id (stream_kind (req_op req'))) → length fs < fuel →
  ∃ s s', request_stream (answering_server fresh h) id op (new_conn []) = Ret (Ok s) ∧
    collect fuel s = Ret (Ok gs, s') ∧ rs_done s' = true.
Proof.
  intros req Hwf Hfit Hs Hh Hid Hfs Hend Hfuel. unfold request_stream.
  rewrite send_request_good by done. fold req. cbn [mbind outcome_bind result_bind].
  set (c1 := sent (frame_bytes req) (new_conn [])).
  assert (answering_server fresh h c1 = deliver (streamed req' fs ≫= frame_bytes)) as Hpeer.
  { apply (answering_server_one _ _ req req' _ h1 (Ok ())); [done..|].
    rewrite <-(app_nil_r (streamed req' fs ≫= frame_bytes)).
    eapply (exchange_stream _ req'); [done|done| |by eapply exchange_end; apply farewell_quiet].
    apply Forall_app. split; [|constructor; [by rewrite Hid|constructor]].
    eapply Forall2_Forall_l; [exact Hfs|]. apply Forall_true. intros g f Hf. apply Hf. }
  rewrite Hpeer. eexists.
  destruct (collect_frames id (set_incoming (incoming c1 ++
              deliver (streamed req' fs ≫= frame_bytes)) c1) fs gs
              (StreamFrame_end_of_stream id (stream_kind (req_op req'))) fuel) as (s' & Hrun & Hdone);
    [simpl; apply deliver_clean| |done..|].
  - simpl. rewrite deliver_content. unfold streamed. rewrite bind_app, Hid. cbn [mbind list_bind].
    by rewrite app_nil_r.
  - by exists s'.
Qed.

(** C8: Client and server, over a network that cuts the bytes as it likes.
    The handler is given the request as its text reads ([arrives]: the very
    request, unless it holds a number with a fraction, which may come back as
    a neighbour).  A one-shot request comes back with the response the handler
    gave, as the text of that reads (or is refused when the handler answered
    under another id); when the response is over the frame limit the client
    gets nothing but the end of the stream.  A streaming request yields exactly
    the frames the handler pushed, as their texts read, in order, and then the
    end of the stream.  The request, and the frames, are within the limit of
    4 MiB. *)
Theorem request_end_to_end fresh id op req h :
  fits (mkRequest id op) → arrives (mkRequest id op) req →
  (wire_wf (mkRequest id op) → req = mkRequest id op) ∧
  (is_streaming (req_op req) = false → ∀ a h1,
     handle (req_id req) (req_op req) h = Ret (a, h1) →
     (fits (answer (req_id req) a) → ∀ resp, arrives (answer (req_id req) a) resp →
        (wire_wf (answer (req_id req) a) → resp = answer (req_id req) a) ∧
        ∃ c', request (answering_server fresh h) id op (new_conn [])
              = Ret (check_response id resp, c')) ∧
     (¬ fits (answer (req_id req) a) →
        ∃ c', request (answering_server fresh h) id op (new_conn [])
              = Ret (Err (UnexpectedEof 0 4), c'))) ∧
  (is_streaming (req_op req) = true → req_id req = id → ∀ fs gs h1,
     handle_stream id (req_op req) h = Ret (fs, h1) →
     Forall2 (frame_arrives id) fs gs →
     fits (StreamFrame_end_of_stream id (stream_kind (req_op req))) →
     ∃ s s', request_stream (answering_server fresh h) id op (new_conn []) = Ret (Ok s) ∧
       collect (S (length fs)) s = Ret (Ok gs, s') ∧ rs_done s' = true).
Proof.
  assert (∀ T (HW : Wire T) (HL : WireLaws T) (x y : T), arrives x y → wire_wf x → y = x) as Hsame.
  { intros T HW HL x y Hxy Hwf. apply arrives_wf in Hwf. unfold arrives in *. congruence. }
  intros Hfit Harr. split; [exact (Hsame _ _ _ _ _ Harr)|]. split.
  - intros Hs a h1 Hh. split.
    + intros Hafit resp Hresp. split; [exact (Hsame _ _ _ _ _ Hresp)|]. by eapply request_oneshot.
    + intros Hafit. by eapply request_too_large.
  - intros Hs Hid fs gs h1 Hh Hfs Hend. eapply request_streaming; try done; [by rewrite Hid|lia].
Qed.
End end_to_end.
