(* ===== verification/IpcDemo.v ===== *)
(** * The transport at work

    The theorems about the transport on concrete connections: bytes that
    arrive one at a time, and a handler that counts its calls. *)

From S2P Require Import Prelude Json CoreTypes Sha256 Serde EventWire IpcWire Host Ipc IpcSpec.
From S2P Require Import Wp Store StoreSpec StoreGc JsonDemo Demo.

#[local] Existing Instances bits_uuid bits_uuid_laws text_json text_json_laws reliable_host.
#[local] Instance short_message : SerdeMessage := {| serde_message _ := "shape" |}.

(** One byte at a time. *)
Definition drip (b : bytes) : list Arrival := map (λ z, Data z []) b.
Lemma drip_clean b : clean (drip b).
Proof. induction b; by constructor. Qed.
Lemma drip_content b : content (drip b) = b.
Proof.
  induction b as [|z b IH]; [done|]. change (z :: content (drip b) = z :: b). by rewrite IH.
Qed.

(** Answers a submission with its document and any other request with [null],
    and counts them; streams one event. *)
#[local] Instance counting_handler : Handler nat := {|
  handle id op n :=
    Ret (Ok (Response_ok id (match op with Submit doc _ => doc | _ => Null end)), S n);
  handle_stream id _ n := Ret ([StreamFrame_event id (mkEvent 0 DaemonStopped)], n);
  is_streaming := is_streaming_default;
|}.

Definition demo_req_id : RequestId := mkRequestId 5.
Definition health : Request := mkRequest demo_req_id Health.
Definition tail_events : Request := mkRequest demo_req_id (Events false).

Lemma health_fits : fits health.
Proof. apply (bool_decide_unpack _). vm_compute. exact I. Qed.
Lemma tail_events_fits : fits tail_events.
Proof. apply (bool_decide_unpack _). vm_compute. exact I. Qed.

Definition two_requests : Conn :=
  mkConn (drip (([health; tail_events] ≫= frame_bytes) ++ [0%Z])) [] [] [].

Lemma read_frame_any_chunking_witness :
  ∃ a', read_frame (T := Request) two_requests
        = Ret ('(payload, _) ← parse_frame (content (incoming two_requests));
               from_slice payload, set_incoming a' two_requests) ∧
    clean a' ∧
    ∀ payload rest, parse_frame (content (incoming two_requests)) = Ok (payload, rest) →
      content a' = rest.
Proof. apply read_frame_any_chunking, drip_clean. Defined.

(** Two requests, and then one byte of a third. *)
Lemma demo_exchange :
  exchange demo_req_id [health; tail_events] [0%Z] 0
    (frame_bytes (Response_ok demo_req_id Null) ++
     ((streamed tail_events [StreamFrame_event demo_req_id (mkEvent 0 DaemonStopped)]
         ≫= frame_bytes) ++ []))
    1 (Err (UnexpectedEof 1 4)).
Proof.
  eapply (exchange_oneshot _ health _ _ _ (Ok (Response_ok demo_req_id Null))); [done|done| |].
  { apply (bool_decide_unpack _). vm_compute. exact I. }
  eapply (exchange_stream _ tail_events); [done|done| |].
  { repeat constructor; apply (bool_decide_unpack _); vm_compute; exact I. }
  by eapply (exchange_end _ _ _ _ (UnexpectedEof 1 4)).
Qed.

Lemma connection_serves_in_order_witness :
  ∃ c' out, handle_connection 3 demo_req_id (two_requests, 0)
            = Ret (Err (UnexpectedEof 1 4), (c', 1)) ∧
    outgoing c' = [] ++ out.
Proof.
  edestruct (connection_serves_in_order demo_req_id [health; tail_events] [0%Z] two_requests 0)
    with (fuel := 3) as (c' & Hrun & Hout).
  - apply drip_clean.
  - done.
  - apply drip_content.
  - apply Forall_cons; split; [split; [exact I|exact health_fits]|].
    apply Forall_singleton. split; [exact I|exact tail_events_fits].
  - apply demo_exchange.
  - simpl. lia.
  - exists c'. eexists. split; [exact Hrun|exact Hout].
Defined.

(** A document with the number nine tenths in it. *)
Definition nine_tenths : f64 := S754_finite false 8106479329266893 (-53).
Definition float_document : Value := Obj [("confidence", Num (number_of_f64 nine_tenths))].
Definition float_submit : RequestOp := Submit float_document None.

Lemma request_end_to_end_witness :
  (∃ c', request (answering_server drip demo_req_id 0) demo_req_id Health (new_conn [])
         = Ret (Ok (Response_ok demo_req_id Null), c')) ∧
  (∃ c', request (answering_server drip demo_req_id 0) demo_req_id float_submit (new_conn [])
         = Ret (Ok (Response_ok demo_req_id float_document), c')) ∧
  (∃ s s', request_stream (answering_server drip demo_req_id 0) demo_req_id (Events false)
             (new_conn []) = Ret (Ok s) ∧
     collect 2 s = Ret (Ok [StreamFrame_event demo_req_id (mkEvent 0 DaemonStopped)], s') ∧
     rs_done s' = true).
Proof.
  split; [|split].
  - destruct (request_end_to_end drip drip_clean drip_content demo_req_id demo_req_id Health health 0
                health_fits ltac:(vm_compute; reflexivity)) as (_ & Honce & _).
    destruct (Honce eq_refl (Ok (Response_ok demo_req_id Null)) 1 eq_refl) as [Hfit _].
    apply (Hfit ltac:(apply (bool_decide_unpack _); vm_compute; exact I)
             (Response_ok demo_req_id Null)). vm_compute. reflexivity.
  - destruct (request_end_to_end drip drip_clean drip_content demo_req_id demo_req_id float_submit
                (mkRequest demo_req_id float_submit) 0
                ltac:(apply (bool_decide_unpack _); vm_compute; exact I)
                ltac:(vm_compute; reflexivity)) as (_ & Honce & _).
    destruct (Honce eq_refl (Ok (Response_ok demo_req_id float_document)) 1 eq_refl) as [Hfit _].
    apply (Hfit ltac:(apply (bool_decide_unpack _); vm_compute; exact I)
             (Response_ok demo_req_id float_document)). vm_compute. reflexivity.
  - destruct (request_end_to_end drip drip_clean drip_content demo_req_id demo_req_id (Events false)
                tail_events 0 tail_events_fits ltac:(vm_compute; reflexivity)) as (_ & _ & Hstream).
    apply (Hstream eq_refl eq_refl [StreamFrame_event demo_req_id (mkEvent 0 DaemonStopped)]
             [StreamFrame_event demo_req_id (mkEvent 0 DaemonStopped)] 0 eq_refl).
    + apply Forall2_cons; split; [|by apply Forall2_nil]. split; [vm_compute; reflexivity|].
      split; [apply (bool_decide_unpack _); vm_compute; exact I|]. split; reflexivity.
    + apply (bool_decide_unpack _). vm_compute. exact I.
Defined.
