(* ===== verification/Materialize.v ===== *)
(** * Template assets of a submitted program

    [vcli-daemon/src/assets.rs]: every template image of a program is put into
    the asset store and the program's reference is replaced by the digest.  A
    reference that already is a digest must be in the store.  The operations
    run on the store of [Store]; a file outside the asset tree is read through
    the same host. *)

From S2P Require Import Prelude Json CoreTypes Canonical Serde EventWire Host Input Perception.
From S2P Require Import Wp Store.

Local Open Scope vcli_scope.

(** [Debug] of a string, and the text of the error a [spawn_blocking] task
    that panicked is joined with. *)
Class DaemonHost := {
  str_debug : string → string;
  join_error : string;
}.

Abbreviation AssetHash := string.

(* src: crates/vcli-daemon/src/assets.rs 12-20 MaterializedAssets *)
Record MaterializedAssets := mkMaterialized { ma_bytes : Assets; ma_hashes : list AssetHash }.

(* src: crates/vcli-daemon/src/assets.rs 23-28 MaterializedAssets::empty *)
Definition materialized_empty : MaterializedAssets := mkMaterialized ∅ [].

(** The first bytes kept under a digest stay. *)
(* src: crates/vcli-daemon/src/assets.rs 30-36 MaterializedAssets::insert *)
Definition materialized_insert (hash : AssetHash) (b : bytes) (m : MaterializedAssets)
    : MaterializedAssets :=
  mkMaterialized
    (match ma_bytes m !! hash with Some _ => ma_bytes m | None => <[hash := b]> (ma_bytes m) end)
    (if bool_decide (hash ∈ ma_hashes m) then ma_hashes m else ma_hashes m ++ [hash]).

(* src: crates/vcli-daemon/src/assets.rs 38-65 AssetMaterializeError *)
Inductive AssetMaterializeError :=
  | MissingBaseDir (asset : string)
  | MaterializeIo (path : Path) (source : IoError)
  | UnknownAsset (hash : string)
  | MaterializeStore (e : StoreError).

Section materialize.
  Context `{UuidOps, JsonText, Host, Sha2, DaemonHost}.

(* src: crates/vcli-daemon/src/assets.rs 39-65 AssetMaterializeError::fmt *)
Definition AssetMaterializeError_display (e : AssetMaterializeError) : string :=
  match e with
  | MissingBaseDir asset =>
      "relative template asset " +:+ str_debug asset +:+ " requires submit base_dir"
  | MaterializeIo path source =>
      "read template asset " +:+ path_debug path +:+ ": " +:+ io_message source
  | UnknownAsset hash => "template asset sha256:" +:+ hash +:+ " is not materialized"
  | MaterializeStore e => "store: " +:+ StoreError_display e
  end.

(* src: crates/vcli-daemon/src/assets.rs 68-77 AssetMaterializeError::code *)
Definition AssetMaterializeError_code (e : AssetMaterializeError) : ErrorCode :=
  match e with
  | MissingBaseDir _ | MaterializeIo _ _ | UnknownAsset _ => InvalidProgram
  | MaterializeStore _ => InternalCode
  end.
(* src: crates/vcli-daemon/src/assets.rs 79-83 AssetMaterializeError::to_payload *)
Definition AssetMaterializeError_payload (e : AssetMaterializeError) : ErrorPayload :=
  ErrorPayload_simple (AssetMaterializeError_code e) (AssetMaterializeError_display e).

Definition lowercase (s : string) : string :=
  String.string_of_list_ascii (map to_ascii_lowercase (String.list_ascii_of_string s)).

(** The store's errors pass through [?]. *)
Definition on_store {A} (m : ST Store (result StoreError A))
    : ST Store (result AssetMaterializeError A) :=
  r ← m; mret (map_err MaterializeStore r).

(** The reference as rewritten, and what has been materialized so far. *)
(* src: crates/vcli-daemon/src/assets.rs 124-165 materialize_image_ref *)
Definition materialize_image_ref (image : string) (base_dir : option Path) (now_ms : Z)
    (out : MaterializedAssets)
    : ST Store (result AssetMaterializeError (string * MaterializedAssets)) :=
  match strip_prefix "sha256:" image with
  | Some hash =>
      found ←! on_store (get_asset hash);
      match found with
      | None => serr (UnknownAsset hash)
      | Some b => sok (image, materialized_insert hash b out)
      end
  | None =>
      let raw_path := path_of_string image in
      resolved ←! (if absolute raw_path then sok raw_path
                   else match base_dir with
                        | None => serr (MissingBaseDir image)
                        | Some d => sok (path_join d raw_path)
                        end);
      b ←! (r ← io_call (read_file resolved); mret (map_err (MaterializeIo resolved) r));
      let ext := lowercase <$> extension resolved in
      stored ←! on_store (put_asset b ext now_ms);
      sok ("sha256:" +:+ pa_hash stored, materialized_insert (pa_hash stored) b out)
  end.

(* src: crates/vcli-daemon/src/assets.rs 111-122 materialize_predicate *)
Definition materialize_predicate (predicate : PredicateKind) (base_dir : option Path)
    (now_ms : Z) (out : MaterializedAssets)
    : ST Store (result AssetMaterializeError (PredicateKind * MaterializedAssets)) :=
  match predicate with
  | Template image confidence region throttle_ms =>
      r ←! materialize_image_ref image base_dir now_ms out;
      sok (Template r.1 confidence region throttle_ms, r.2)
  | p => sok (p, out)
  end.

(** [program.predicates.values_mut()]: in the order of the names. *)
(* src: crates/vcli-daemon/src/assets.rs 100-102 materialize_template_assets *)
Definition materialize_named (base_dir : option Path) (now_ms : Z)
    (acc : Predicates * MaterializedAssets) (kv : string * PredicateKind)
    : ST Store (result AssetMaterializeError (Predicates * MaterializedAssets)) :=
  r ←! materialize_predicate kv.2 base_dir now_ms acc.2;
  sok (<[kv.1 := r.1]> acc.1, r.2).
(* src: crates/vcli-daemon/src/assets.rs 103-107 materialize_template_assets *)
Definition materialize_watch (base_dir : option Path) (now_ms : Z)
    (acc : list Watch * MaterializedAssets) (w : Watch)
    : ST Store (result AssetMaterializeError (list Watch * MaterializedAssets)) :=
  match w_when w with
  | ByName _ => sok (acc.1 ++ [w], acc.2)
  | Inline p =>
      r ←! materialize_predicate p base_dir now_ms acc.2;
      sok (acc.1 ++ [mkWatch (Inline r.1) (w_steps w) (w_throttle_ms w) (w_lifetime w)], r.2)
  end.

Definition with_predicates (ps : Predicates) (ws : list Watch) (p : Program) : Program :=
  mkProgram (p_version p) (p_name p) (p_id p) (p_trigger p) ps ws (p_body p) (p_on_complete p)
    (p_on_fail p) (p_timeout_ms p) (p_labels p) (p_priority p).

(** The program as rewritten in place, and the assets it needs. *)
(* src: crates/vcli-daemon/src/assets.rs 86-109 materialize_template_assets *)
Definition materialize_template_assets (program : Program) (base_dir : option Path) (now_ms : Z)
    : ST Store (result AssetMaterializeError (Program * MaterializedAssets)) :=
  r ←! try_fold (materialize_named base_dir now_ms) (p_predicates program, materialized_empty)
         (btree_entries (p_predicates program));
  let '(ps, out) := r in
  r ←! try_fold (materialize_watch base_dir now_ms) ([], out) (p_watches program);
  let '(ws, out) := r in
  sok (with_predicates ps ws program, out).

End materialize.
