(* ===== verification/Daemon.v ===== *)
(** * The daemon: bridge, event pump and request handler

    What happens between the socket and the scheduler
    ([vcli-daemon/src/bridge.rs], [persist.rs], [handler.rs]).  The state is
    what the daemon's tasks share: the store behind its mutex, the bounded
    queue of commands to the scheduler, the queue of events from it, and what
    has been broadcast to subscribers.

    The mutex is [std]'s: a task that panics while it holds the lock poisons
    it, and every later [lock().unwrap()] panics in turn.  A store nobody can
    lock again is [None]. *)

From S2P Require Import Prelude Json CoreTypes Canonical Serde DslError DslValidate EventWire.
From S2P Require Import IpcWire Host Perception Wp Store Materialize Ipc.
From S2P Require Scheduler.

Local Open Scope vcli_scope.

Abbreviation SchedulerCommand := Scheduler.SchedulerCommand.

(** ** The bridge ([bridge.rs]) *)

(* src: crates/vcli-daemon/src/bridge.rs 25-26 EVENT_BROADCAST_CAPACITY *)
Definition EVENT_BROADCAST_CAPACITY : Z := 1024.
(* src: crates/vcli-daemon/src/bridge.rs 28-29 CMD_CAPACITY *)
Definition CMD_CAPACITY : nat := 256.

(** Whether somebody takes commands off the queue: not before the scheduler's
    thread runs, and never again once it is gone. *)
Inductive Receiver := NotStarted | Receiving | Gone.

Record Commands := mkCommands {
  queued : list SchedulerCommand;
  taken : list SchedulerCommand;
  receiver : Receiver;
}.

Record Daemon := mkDaemon {
  d_store : option Store;
  d_cmds : Commands;
  d_events : list Event;
  d_broadcast : list Event;
  d_shutdown_armed : bool;
  d_shutdown_fired : bool;
  d_reads : N;
}.

(* src: crates/vcli-daemon/src/bridge.rs 42-64 new_channels *)
Definition new_channels (store : Store) : Daemon :=
  mkDaemon (Some store) (mkCommands [] [] NotStarted) [] [] true false 0.

Definition set_store (s : option Store) (d : Daemon) : Daemon :=
  mkDaemon s (d_cmds d) (d_events d) (d_broadcast d) (d_shutdown_armed d) (d_shutdown_fired d)
    (d_reads d).
Definition set_commands (c : Commands) (d : Daemon) : Daemon :=
  mkDaemon (d_store d) c (d_events d) (d_broadcast d) (d_shutdown_armed d) (d_shutdown_fired d)
    (d_reads d).
Definition set_events (l : list Event) (d : Daemon) : Daemon :=
  mkDaemon (d_store d) (d_cmds d) l (d_broadcast d) (d_shutdown_armed d) (d_shutdown_fired d)
    (d_reads d).
Definition push_broadcast (e : Event) (d : Daemon) : Daemon :=
  mkDaemon (d_store d) (d_cmds d) (d_events d) (d_broadcast d ++ [e]) (d_shutdown_armed d)
    (d_shutdown_fired d) (d_reads d).

(** What the process asks of its surroundings: the wall clock, fresh UUIDs
    and the uptime, for the n-th question. *)
Class Surroundings := {
  clock_ms : N → Z;
  new_uuid : N → N;
  uptime_ms : N → Z;
}.

(** What the receiver of a broadcast subscription yields from the moment it
    subscribes until the client leaves or the channel closes. *)
Inductive Received := Got (e : Event) | Lagged (n : Z).
Class Subscriptions := { received : RequestId → list Received }.

(** [Debug] of an operation. *)
Class OpDebug := { op_debug : RequestOp → string }.

Definition ask {A} `{Surroundings} (f : N → A) : ST Daemon A := λ d,
  Ret (f (d_reads d),
       mkDaemon (d_store d) (d_cmds d) (d_events d) (d_broadcast d) (d_shutdown_armed d)
         (d_shutdown_fired d) (d_reads d + 1)).

(** [cmd_tx.send(cmd)]: fails when the receiver is gone; when the queue is
    full it waits until the scheduler takes a command, for ever if there is no
    scheduler. *)
Definition cmd_send (cmd : SchedulerCommand) : ST Daemon (result () ()) := λ d,
  let c := d_cmds d in
  match receiver c with
  | Gone => Ret (Err (), d)
  | _ =>
      if (length (queued c) <? CMD_CAPACITY)%nat
      then Ret (Ok (), set_commands (mkCommands (queued c ++ [cmd]) (taken c) (receiver c)) d)
      else match receiver c with
           | NotStarted => OutOfFuel
           | _ => Ret (Ok (), set_commands
                    (mkCommands (drop 1 (queued c) ++ [cmd]) (taken c ++ take 1 (queued c))
                       (receiver c)) d)
           end
  end.

(** [sched_event_tx.send(ev)]; the channel is unbounded. *)
Definition event_send (e : Event) : ST Daemon () :=
  modify (λ d, set_events (d_events d ++ [e]) d).

(** [store.lock().unwrap()] in a task of its own: [None] when the task
    panicked, on the lock or while holding it. *)
Definition locked_task {A} (m : ST Store A) : ST Daemon (option A) := λ d,
  match d_store d with
  | None => Ret (None, d)
  | Some s => match m s with
              | Ret (a, s') => Ret (Some a, set_store (Some s') d)
              | Panic => Ret (None, set_store None d)
              | OutOfFuel => OutOfFuel
              end
  end.
(** The same in the running task, which the panic unwinds. *)
Definition locked {A} (m : ST Store A) : ST Daemon A := λ d,
  match d_store d with
  | None => Panic
  | Some s => '(a, s') ← m s; Ret (a, set_store (Some s') d)
  end.

(** ** The event pump ([persist.rs]) *)

(* src: crates/vcli-daemon/src/persist.rs 87-107 program_id_of *)
Definition program_id_of (d : EventData) : option ProgramId :=
  match d with
  | ProgramSubmitted p _ | ProgramStateChanged p _ _ _ | ProgramCompleted p _
  | ProgramFailed p _ _ _ | ProgramResumed p _ | WatchFired p _ _ | ActionDispatched p _ _
  | ActionDeferred p _ _ => Some p
  | DaemonStarted _ | DaemonStopped | DaemonPressure _ | StreamDropped _ _ | TickFrameSkipped _
  | CapturePermissionMissing _ => None
  end.

Section daemon.
  Context `{NfcOps, RyuOps, UuidOps, JsonText, Host, Sha2, DaemonHost, SerdeOps, SerdeMessage}.
  Context `{Surroundings, Subscriptions, OpDebug}.

(** An error is logged and dropped. *)
Definition ignore {A} (m : ST Store (result StoreError A)) : ST Store () := _ ← m; mret ().

(* src: crates/vcli-daemon/src/persist.rs 41-85 persist_program_event *)
Definition persist_program_event (pid : ProgramId) (ev : Event) : ST Store () :=
  _ ← ignore (append_event pid ev);
  match ev_data ev with
  | ProgramStateChanged _ _ to _ => ignore (update_state pid to (ev_at ev))
  | ProgramCompleted _ _ => ignore (update_state pid Completed (ev_at ev))
  | ProgramFailed _ reason step _ =>
      _ ← ignore (update_state pid Failed (ev_at ev));
      ignore (set_last_error pid reason (default reason step))
  | ProgramResumed _ from_step =>
      _ ← ignore (update_state pid Running (ev_at ev));
      ignore (set_body_cursor pid from_step)
  | _ => mret ()
  end.

(** One turn of the pump: the row first, the subscribers after. *)
(* src: crates/vcli-daemon/src/persist.rs 30-37 spawn_event_pump *)
Definition pump_event (ev : Event) : ST Daemon () :=
  _ ← match program_id_of (ev_data ev) with
      | Some pid => locked (persist_program_event pid ev)
      | None => mret ()
      end;
  modify (push_broadcast ev).

(** The pump until the channel is empty. *)
(* src: crates/vcli-daemon/src/persist.rs 18-39 spawn_event_pump *)
Definition pump : ST Daemon () :=
  d ← get;
  _ ← modify (set_events []);
  mfor pump_event (d_events d).

(** ** Requests ([handler.rs]) *)

Definition simple_err (id : RequestId) (code : ErrorCode) (message : string) : Response :=
  Response_err id (ErrorPayload_simple code message).
(** [Err(e)] of the join handle. *)
Definition task_panicked (id : RequestId) : Response := simple_err id InternalCode join_error.

(* src: crates/vcli-daemon/src/handler.rs 388-396 store_error_payload *)
Definition store_error_payload (e : StoreError) : ErrorPayload :=
  match e with
  | StoreNotResumable m => ErrorPayload_simple NotResumableCode m
  | StoreUnknownProgram _ => ErrorPayload_simple UnknownProgramCode "not found"
  | other => ErrorPayload_simple InternalCode (StoreError_display other)
  end.
(** [.map_err(|e| ErrorPayload::simple(ErrorCode::Internal, format!("{e}")))] *)
Definition internal_payload (e : StoreError) : ErrorPayload :=
  ErrorPayload_simple InternalCode (StoreError_display e).

(** [m.map_err(f)?] inside a closure that answers with a payload. *)
Definition on_error {E A} (f : E → ErrorPayload) (m : ST Store (result E A))
    : ST Store (result ErrorPayload A) :=
  r ← m; mret (map_err f r).

(** The closure that runs under the lock.  [to_value] does not fail and the
    canonical bytes are UTF-8. *)
(* src: crates/vcli-daemon/src/handler.rs 67-101 DaemonHandler::handle_submit *)
Definition submit_locked (pid : ProgramId) (name : string) (program : Program)
    (base_dir : option Path) (submitted_at : Z)
    : ST Store (result ErrorPayload (Program * Assets)) :=
  m ←! on_error AssetMaterializeError_payload
         (materialize_template_assets program base_dir submitted_at);
  let '(program, materialized) := m in
  canonical ←! mret (map_err (λ e, ErrorPayload_simple InternalCode
                                 ("canonicalize: " +:+ CanonicalError_to_string e))
                       (canonicalize (Program_to_value program)));
  _ ←! on_error internal_payload
         (Store.insert_program (mkNewProgram pid name canonical Pending submitted_at "{}"));
  _ ←! try_fold (λ _ hash, on_error internal_payload (link_program_asset pid hash)) ()
         (ma_hashes materialized);
  sok (program, ma_bytes materialized).

(* src: crates/vcli-daemon/src/handler.rs 46-132 DaemonHandler::handle_submit *)
Definition handle_submit (id : RequestId) (program_json : Value) (base_dir : option string)
    : ST Daemon Response :=
  v ← slift (validate_value program_json);
  match v with
  | Err e => mret (Response_err id (DslError.to_payload e))
  | Ok v =>
      let program := v_program v in
      pid ← match p_id program with
            | Some pid => mret pid
            | None => u ← ask new_uuid; mret (mkProgramId u)
            end;
      let name := p_name program in
      submitted_at ← ask clock_ms;
      let base_dir := path_of_string <$> base_dir in
      r ← locked_task (submit_locked pid name program base_dir submitted_at);
      match r with
      | None => mret (task_panicked id)
      | Some (Err payload) => mret (Response_err id payload)
      | Some (Ok (program, assets)) =>
          sent ← cmd_send (Scheduler.SubmitValidated pid program assets);
          mret match sent with
               | Err _ => simple_err id DaemonBusy "scheduler command queue full"
               | Ok _ => Response_ok id (Obj [("program_id", Str (ProgramId_to_string pid));
                                              ("name", Str name)])
               end
      end
  end.

(** [serde_json::from_str::<Event>(..)] *)
Definition event_from_str (s : string) : option Event :=
  v ← result_ok (json_from_str s); Event_from_value v.

(* src: crates/vcli-daemon/src/handler.rs 152-162 DaemonHandler::stream_events *)
Definition history_frame (id : RequestId) (filter_program : option ProgramId) (row : StoredEvent)
    : option StreamFrame :=
  if match filter_program with
     | Some p => bool_decide (p ≠ se_program_id row)
     | None => false
     end
  then None
  else StreamFrame_event id <$> event_from_str (se_data_json row).

(** A notice of lost events carries the time of its sending. *)
(* src: crates/vcli-daemon/src/handler.rs 166-195 DaemonHandler::stream_events *)
Definition live_frame (id : RequestId) (filter_program : option ProgramId) (r : Received)
    : ST Daemon (list StreamFrame) :=
  match r with
  | Got ev =>
      mret (if match filter_program with
               | Some p => bool_decide (program_id_of (ev_data ev) ≠ Some p)
               | None => false
               end
            then [] else [StreamFrame_event id ev])
  | Lagged n =>
      now ← ask clock_ms;
      mret [StreamFrame_event id {|
              ev_at := now;
              ev_data := StreamDropped (if decide (n ≤ u32_max)%Z then n else u32_max) now |}]
  end.

(* src: crates/vcli-daemon/src/handler.rs 134-196 DaemonHandler::stream_events *)
Definition handle_stream_events (id : RequestId) (filter_program : option ProgramId)
    (follow : bool) : ST Daemon (list StreamFrame) :=
  if negb follow then
    history ← locked_task (stream_events 0 10000);
    mret (omap (history_frame id filter_program)
            match history with Some (Ok rows) => rows | _ => [] end)
  else mfold (λ frames r, f ← live_frame id filter_program r; mret (frames ++ f)) []
         (received id).

(* src: crates/vcli-daemon/src/handler.rs 198-226 DaemonHandler::handle_gc *)
Definition handle_gc (id : RequestId) : ST Daemon Response :=
  now ← ask clock_ms;
  let cutoff := wrap_i64 (now - RETENTION_DAYS * 24 * 60 * 60 * 1000) in
  report ← locked_task (gc_all cutoff);
  mret match report with
       | Some (Ok r) =>
           Response_ok id (Obj [("programs_deleted", int_value (programs_deleted r));
                                ("assets_deleted", int_value (assets_deleted r));
                                ("blobs_deleted", int_value (blobs_deleted r));
                                ("orphan_blobs_deleted", int_value (orphan_blobs_deleted r))])
       | Some (Err e) => Response_err id (internal_payload e)
       | None => task_panicked id
       end.

(* src: crates/vcli-daemon/src/handler.rs 231-248 DaemonHandler::handle_resume *)
Definition resume_locked (pid : ProgramId) (from_start : bool) (now_ms : Z)
    : ST Store (result ErrorPayload (Z * Program * Assets)) :=
  from_step ←! on_error store_error_payload (resume_program pid from_start now_ms);
  row ←! on_error store_error_payload (Store.get_program pid);
  value ←! mret (map_err (λ e, ErrorPayload_simple InternalCode ("stored program json: " +:+ e))
                   (json_from_str (pr_source_json row)));
  program ←! on_error DslError.to_payload
               (r ← slift (validate_value value); mret (v_program <$> r));
  m ←! on_error AssetMaterializeError_payload (materialize_template_assets program None now_ms);
  sok (from_step, m.1, ma_bytes m.2).

(* src: crates/vcli-daemon/src/handler.rs 228-269 DaemonHandler::handle_resume *)
Definition handle_resume (id : RequestId) (pid : ProgramId) (from_start : bool)
    : ST Daemon Response :=
  now_ms ← ask clock_ms;
  r ← locked_task (resume_locked pid from_start now_ms);
  match r with
  | Some (Ok (from_step, program, assets)) =>
      _ ← cmd_send (Scheduler.ResumeRunning pid from_step program assets);
      mret (Response_ok id (Obj [("program_id", Str (ProgramId_to_string pid));
                                 ("from_step", int_value from_step)]))
  | Some (Err payload) => mret (Response_err id payload)
  | None => mret (task_panicked id)
  end.

Definition send_for (id : RequestId) (pid : ProgramId) (cmd : SchedulerCommand)
    : ST Daemon Response :=
  sent ← cmd_send cmd;
  mret match sent with
       | Ok _ => Response_ok id (Obj [("program_id", Str (ProgramId_to_string pid))])
       | Err _ => simple_err id DaemonBusy "cmd queue full"
       end.
(* src: crates/vcli-daemon/src/handler.rs 271-282 DaemonHandler::handle_cancel *)
Definition handle_cancel (id : RequestId) (pid : ProgramId) : ST Daemon Response :=
  send_for id pid (Scheduler.Cancel pid "user").
(* src: crates/vcli-daemon/src/handler.rs 284-296 DaemonHandler::handle_start *)
Definition handle_start (id : RequestId) (pid : ProgramId) : ST Daemon Response :=
  send_for id pid (Scheduler.Start pid).

(** A state that does not parse is no filter. *)
(* src: crates/vcli-daemon/src/handler.rs 298-332 DaemonHandler::handle_list *)
Definition handle_list (id : RequestId) (state : option string) : ST Daemon Response :=
  let filter := s ← state; ProgramState_from_str s in
  rows ← locked_task (list_programs filter);
  mret match rows with
       | Some (Ok rows) =>
           Response_ok id (Obj [("items", Arr (map (λ r,
             Obj [("program_id", Str (ProgramId_to_string (pr_id r))); ("name", Str (pr_name r));
                  ("state", Str (ProgramState_as_str (pr_state r)));
                  ("submitted_at", int_value (pr_submitted_at r))]) rows))])
       | Some (Err e) => Response_err id (internal_payload e)
       | None => Response_err id (internal_payload (StoreIo (path_of_string "<join>")
                                                     (OtherIo join_error)))
       end.

Definition opt_int (o : option Z) : Value := match o with Some z => int_value z | None => Null end.
(* src: crates/vcli-daemon/src/handler.rs 334-367 DaemonHandler::handle_status *)
Definition handle_status (id : RequestId) (program_id : ProgramId) : ST Daemon Response :=
  row ← locked_task (Store.get_program program_id);
  mret match row with
       | Some (Ok r) =>
           Response_ok id (Obj [("id", Str (ProgramId_to_string (pr_id r)));
             ("name", Str (pr_name r)); ("state", Str (ProgramState_as_str (pr_state r)));
             ("body_cursor", int_value (pr_body_cursor r));
             ("submitted_at", int_value (pr_submitted_at r));
             ("started_at", opt_int (pr_started_at r));
             ("finished_at", opt_int (pr_finished_at r))])
       | Some (Err (StoreUnknownProgram _)) => simple_err id UnknownProgramCode "not found"
       | Some (Err e) => Response_err id (internal_payload e)
       | None => task_panicked id
       end.

(* src: Cargo.toml 16-19 workspace.package *)
Definition CARGO_PKG_VERSION : string := "0.0.1".

(* src: crates/vcli-daemon/src/handler.rs 369-379 DaemonHandler::handle_health *)
Definition handle_health (id : RequestId) : ST Daemon Response :=
  uptime ← ask uptime_ms;
  mret (Response_ok id (Obj [("version", Str CARGO_PKG_VERSION);
    ("uptime_ms", int_value (if decide (uptime ≤ u64_max)%Z then uptime else u64_max));
    ("socket_origin", Str "resolved")])).

(** Fires the oneshot the first time. *)
(* src: crates/vcli-daemon/src/handler.rs 36-44 DaemonHandler::trigger_shutdown *)
Definition trigger_shutdown : ST Daemon () :=
  modify (λ d, mkDaemon (d_store d) (d_cmds d) (d_events d) (d_broadcast d) false
                 (d_shutdown_fired d || d_shutdown_armed d) (d_reads d)).
(* src: crates/vcli-daemon/src/handler.rs 381-385 DaemonHandler::handle_shutdown *)
Definition handle_shutdown (id : RequestId) : ST Daemon Response :=
  _ ← trigger_shutdown;
  _ ← cmd_send Scheduler.Shutdown;
  mret (Response_ok id (Obj [("bye", Bool true)])).

(* src: crates/vcli-daemon/src/handler.rs 398-422 DaemonHandler::handle *)
Definition handle_op (id : RequestId) (op : RequestOp) : ST Daemon (result IpcError Response) :=
  resp ← match op with
         | Health => handle_health id
         | IpcWire.Shutdown => handle_shutdown id
         | Submit program base_dir => handle_submit id program base_dir
         | List_ state => handle_list id state
         | Status program_id => handle_status id program_id
         | IpcWire.Cancel program_id => handle_cancel id program_id
         | IpcWire.Start program_id => handle_start id program_id
         | Resume program_id from_start => handle_resume id program_id from_start
         | Gc => handle_gc id
         | other => mret (simple_err id InternalCode ("op not yet wired: " +:+ op_debug other))
         end;
  mret (Ok resp).

(* src: crates/vcli-daemon/src/handler.rs 424-443 DaemonHandler::handle_stream *)
Definition handle_stream_op (id : RequestId) (op : RequestOp) : ST Daemon (list StreamFrame) :=
  match op with
  | Events follow => handle_stream_events id None follow
  | Logs program_id follow => handle_stream_events id (Some program_id) follow
  | TraceOp _ => mret []
  | _ => mret [StreamFrame_end_of_stream id KindEvents]
  end.

(* src: crates/vcli-daemon/src/handler.rs 398-444 DaemonHandler *)
#[export] Instance daemon_handler : Handler Daemon := {|
  handle := handle_op;
  handle_stream := handle_stream_op;
  is_streaming := is_streaming_default;
|}.

End daemon.
