(* ===== verification/Boot.v ===== *)
(** * The start of the daemon

    [vcli-daemon/src/run.rs] with [config.rs], [pidfile.rs], [startup.rs],
    [shutdown.rs], [error.rs], and [IpcServer::bind].  Before the store is
    opened the machine is the file system and the database file of [Store];
    from then on it is inside the daemon's state.  Logging, the permission
    probe, the construction of the back ends, the creation of a thread and the
    installation of signal handlers are given by what they answer. *)

From S2P Require Import Prelude Digits Json CoreTypes Sha256 Canonical Serde DslError DslValidate EventWire.
From S2P Require Import IpcWire Host Perception Input Wp Store Materialize Ipc Daemon.
From S2P Require Scheduler.

Local Open Scope vcli_scope.

(** ** Errors ([error.rs]) *)

(* src: crates/vcli-daemon/src/error.rs 12-69 DaemonError *)
Inductive DaemonError :=
  | AlreadyRunning (pid : Z) (path : Path)
  | PidfileError (path : Path) (source : IoError)
  | Paths (message : string)
  | Logging (message : string)
  | DaemonStore (e : StoreError)
  | DaemonIpc (e : IpcError)
  | DaemonIo (e : IoError)
  | InvalidProgramError (message : string)
  | BackendInit (backend reason : string).

(* src: crates/vcli-daemon/src/error.rs 71-87 DaemonError::code *)
Definition DaemonError_code (e : DaemonError) : ErrorCode :=
  match e with InvalidProgramError _ => InvalidProgram | _ => InternalCode end.

(** ** Paths ([config.rs]) *)

(* src: crates/vcli-daemon/src/config.rs 20-30 Config *)
Record Config := mkConfig { cfg_data_root : Path; cfg_socket : SocketPath; cfg_log_dir : Path }.

(** The [dirs] crate. *)
Record Dirs := mkDirs {
  home_dir : option Path; data_local_dir : option Path; cache_dir : option Path;
}.

Definition path_pushes (p : Path) (l : list string) : Path := foldl path_push p l.

(* src: crates/vcli-daemon/src/config.rs 77-94 platform_data_root *)
Definition platform_data_root (os : TargetOs) (d : Dirs) : result DaemonError Path :=
  match os with
  | Macos => home ← ok_or (home_dir d) (Paths "no home dir");
             Ok (path_pushes home ["Library"; "Application Support"; "vcli"])
  | Linux => d ← ok_or (data_local_dir d) (Paths "no XDG_DATA_HOME"); Ok (path_push d "vcli")
  end.
(* src: crates/vcli-daemon/src/config.rs 86-102 platform_log_dir *)
Definition platform_log_dir (os : TargetOs) (d : Dirs) : result DaemonError Path :=
  match os with
  | Macos => home ← ok_or (home_dir d) (Paths "no home dir");
             Ok (path_pushes home ["Library"; "Logs"; "vcli"])
  | Linux => d ← ok_or (cache_dir d) (Paths "no XDG_CACHE_HOME");
             Ok (path_pushes d ["vcli"; "logs"])
  end.
(* src: crates/vcli-daemon/src/config.rs 33-47 Config::from_platform_defaults *)
Definition from_platform_defaults `{Host} (env : Env) (d : Dirs) : result DaemonError Config :=
  data_root ← platform_data_root (target_os env) d;
  log_dir ← platform_log_dir (target_os env) d;
  socket ← map_err (λ e, Paths ("socket path: " +:+ IpcError_display e)) (default_socket_path env);
  Ok (mkConfig data_root socket log_dir).
(* src: crates/vcli-daemon/src/config.rs 49-62 Config::with_roots *)
Definition with_roots (data_root log_dir : Path) (socket : SocketPath) : Config :=
  mkConfig data_root socket log_dir.
(* src: crates/vcli-daemon/src/config.rs 64-68 Config::pidfile_path *)
Definition pidfile_path (cfg : Config) : Path := path_push (cfg_data_root cfg) "daemon.pid".
(* src: crates/vcli-daemon/src/config.rs 70-74 Config::log_file_path *)
Definition log_file_path (cfg : Config) : Path := path_push (cfg_log_dir cfg) "daemon.log".

(** What the rest of the process and of the system answer: the process id,
    whether another process holds the lock on the pidfile, and the outcomes of
    the steps that are not modelled. *)
Record Process := mkProcess {
  own_pid : Z;
  lock_held : bool;
  logging_init : result DaemonError ();
  backends : result DaemonError ();
  spawn_scheduler : result IoError ();
  signal_handlers : result IoError ();
}.

Section boot.
  Context `{NfcOps, RyuOps, UuidOps, JsonText, Host, Sha2, DaemonHost, SerdeOps, SerdeMessage}.
  Context `{Surroundings}.

(** One file operation, its error under the name the caller gives it. *)
Definition machine_io {E A} (wrap : IoError → E) (f : fs_call A) : ST Store (result E A) :=
  r ← io_call f; mret (map_err wrap r).

(* src: crates/vcli-daemon/src/config.rs 114-116 mkdir_p *)
Definition mkdir_p (p : Path) : ST Store (result DaemonError ()) :=
  machine_io DaemonIo (create_dir_all p).
(* src: crates/vcli-daemon/src/config.rs 104-112 ensure_dirs *)
Definition ensure_dirs (cfg : Config) : ST Store (result DaemonError ()) :=
  _ ←! mkdir_p (cfg_data_root cfg);
  mkdir_p (cfg_log_dir cfg).

(** ** The pidfile ([pidfile.rs]) *)

(** [OpenOptions::new().read(true).write(true).create(true).truncate(false)] *)
Definition open_or_create (p : Path) : fs_call () := λ f,
  match files f !! p with Some _ => (f, Ok ()) | None => create_file p f end.

(** [s.trim().parse::<u32>().unwrap_or(0)] *)
Definition pid_in (b : bytes) : Z :=
  default 0%Z (parse_u32 (string_of_chars (trim_chars (chars (string_of_bytes b))))).

(** The pidfile's handle is its path. *)
(* src: crates/vcli-daemon/src/pidfile.rs 37-90 PidFile::acquire *)
Definition pidfile_acquire (proc : Process) (path : Path) : ST Store (result DaemonError Path) :=
  let wrap := PidfileError path in
  _ ←! match path_parent path with
       | Some parent => machine_io wrap (create_dir_all parent)
       | None => sok ()
       end;
  _ ←! machine_io wrap (open_or_create path);
  if lock_held proc then
    s ← io_call (read_file path);
    serr (AlreadyRunning (match s with Ok b => pid_in b | Err _ => 0%Z end) path)
  else
    _ ←! machine_io wrap (Host.write_all path []);
    _ ←! machine_io wrap (λ f, (f, Ok ()));
    _ ←! machine_io wrap (Host.write_all path
           (bytes_of_string (pretty (own_pid proc) +:+ String (Ascii.ascii_of_nat 10) "")));
    _ ←! machine_io wrap (λ f, (f, Ok ()));
    sok path.

(* src: crates/vcli-daemon/src/pidfile.rs 104-124 PidFile::release *)
Definition pidfile_release (path : Path) : ST Store (result DaemonError ()) :=
  r ← io_call (remove_file path);
  match r with
  | Ok _ | Err NotFound => sok ()
  | Err e => serr (PidfileError path e)
  end.
(* src: crates/vcli-daemon/src/pidfile.rs 127-134 PidFile::drop *)
Definition pidfile_drop (path : Path) : ST Store () := _ ← io_call (remove_file path); mret ().

(** ** Binding the socket ([vcli-ipc/src/server.rs]) *)

(** [UnixListener::bind]: the path must be free. *)
Definition bind_socket (p : Path) : fs_call () := λ f,
  if fs_exists f p then (f, Err (OtherIo "address in use")) else create_file p f.

(* src: crates/vcli-ipc/src/server.rs 36-61 IpcServer::bind *)
Definition ipc_bind (path : Path) : ST Store (result IpcError ()) :=
  found ← exists_ path;
  _ ←! (if (found : bool)
        then machine_io (λ e, SocketSetup ("unlink stale socket: " +:+ io_message e))
               (remove_file path)
        else sok ());
  _ ←! machine_io (λ e, SocketSetup ("bind " +:+ path_debug path +:+ ": " +:+ io_message e))
         (bind_socket path);
  machine_io (λ e, SocketSetup ("chmod 0600: " +:+ io_message e)) (λ f, (f, Ok ())).

(** ** Startup ([startup.rs]) *)

(* src: crates/vcli-daemon/src/startup.rs 17-40 emit_recovery_events *)
Definition recovery_events (now : Z) (r : RecoveredProgram) : list Event :=
  [{| ev_at := now;
      ev_data := ProgramStateChanged (rec_id r) Running Failed "daemon_restart" |};
   {| ev_at := now;
      ev_data := ProgramFailed (rec_id r) "daemon restarted during execution"
                   (Some ("body[" +:+ pretty (rec_body_cursor r) +:+ "]")) None |}].
(* src: crates/vcli-daemon/src/startup.rs 13-42 emit_recovery_events *)
Definition emit_recovery_events (recovered : list RecoveredProgram) : ST Daemon () :=
  now ← ask clock_ms;
  mfor event_send (recovered ≫= recovery_events now).

(* src: crates/vcli-daemon/src/startup.rs 44-53 emit_daemon_started *)
Definition emit_daemon_started : ST Daemon () :=
  now ← ask clock_ms;
  event_send {| ev_at := now; ev_data := DaemonStarted CARGO_PKG_VERSION |}.

(** A row that cannot be read back is left out. *)
(* src: crates/vcli-daemon/src/startup.rs 72-89 reload_waiting_programs *)
Definition reload_row (now_ms : Z) (row : ProgramRow)
    : ST Store (option (ProgramId * Program * Assets)) :=
  match json_from_str (pr_source_json row) with
  | Err _ => mret None
  | Ok value =>
      v ← slift (validate_value value);
      match v with
      | Err _ => mret None
      | Ok v =>
          m ← materialize_template_assets (v_program v) None now_ms;
          mret match m with
               | Err _ => None
               | Ok (program, materialized) => Some (pr_id row, program, ma_bytes materialized)
               end
      end
  end.

(* src: crates/vcli-daemon/src/startup.rs 66-91 reload_waiting_programs *)
Definition reload_rows (now_ms : Z) : ST Store (list (ProgramId * Program * Assets)) :=
  rows ← list_programs (Some Waiting);
  mfold (λ acc row, r ← reload_row now_ms row;
                    mret match r with Some x => acc ++ [x] | None => acc end) []
    (default [] (result_ok rows)).

(* src: crates/vcli-daemon/src/startup.rs 92-104 reload_waiting_programs *)
Fixpoint submit_all (l : list (ProgramId * Program * Assets)) (sent : nat) : ST Daemon nat :=
  match l with
  | [] => mret sent
  | (program_id, program, assets) :: l =>
      r ← cmd_send (Scheduler.SubmitValidated program_id program assets);
      submit_all l (match r with Ok _ => S sent | Err _ => sent end)
  end.

(* src: crates/vcli-daemon/src/startup.rs 55-107 reload_waiting_programs *)
Definition reload_waiting_programs : ST Daemon nat :=
  now_ms ← ask clock_ms;
  reloaded ← locked (reload_rows now_ms);
  submit_all reloaded 0.

(** ** Shutdown ([shutdown.rs]) *)

(* src: crates/vcli-daemon/src/shutdown.rs 41-49 emit_daemon_stopped *)
Definition emit_daemon_stopped : ST Daemon () :=
  now ← ask clock_ms;
  event_send {| ev_at := now; ev_data := DaemonStopped |}.

(** ** Assembly ([run.rs]) *)

(** The scheduler's thread takes commands from now on. *)
Definition scheduler_started (d : Daemon) : Daemon :=
  set_commands (mkCommands (queued (d_cmds d)) (taken (d_cmds d)) Receiving) d.

(** From the open store to the bound socket; the pump runs beside it. *)
(* src: crates/vcli-daemon/src/run.rs 81-128 run_foreground *)
Definition boot_daemon (proc : Process) (cfg : Config) (recovered : list RecoveredProgram)
    : ST Daemon (result DaemonError ()) :=
  _ ← emit_recovery_events recovered;
  _ ← emit_daemon_started;
  _ ← reload_waiting_programs;
  _ ←! mret (backends proc);
  _ ←! mret (map_err DaemonIo (spawn_scheduler proc));
  _ ← modify scheduler_started;
  _ ←! mret (map_err DaemonIo (signal_handlers proc));
  locked (r ← ipc_bind (sp_path (cfg_socket cfg)); mret (map_err DaemonIpc r)).

(** Up to the call of [serve]; an early return drops the pidfile. *)
(* src: crates/vcli-daemon/src/run.rs 60-128 run_foreground *)
Definition boot (proc : Process) (cfg : Config) : ST Store (result DaemonError Daemon) :=
  _ ←! ensure_dirs cfg;
  _ ←! mret (logging_init proc);
  pid ←! pidfile_acquire proc (pidfile_path cfg);
  r ← (recovered ←! (r ← Store.open (cfg_data_root cfg); mret (map_err DaemonStore r));
       s ← get;
       '(r, d) ← slift (boot_daemon proc cfg recovered (new_channels s));
       _ ← modify (λ s, default s (d_store d));
       mret (_ ← r; Ok d));
  match r with
  | Ok d => sok d
  | Err e => _ ← pidfile_drop pid; serr e
  end.

End boot.

(** ** The process

    [vcli-daemon/src/bin/vcli-daemon.rs]: what is printed and the exit code,
    over the answers of the runtime's builder, of the platform's directories
    and of [run_foreground]. *)

Module Entry.
Record Exit := mkExit { printed : list string; complained : list string; status : Z }.
Definition SUCCESS : Z := 0.

Section main.
(** The texts [thiserror] derives. *)
Context (display : DaemonError → string).

Definition complain (line : string) : Exit := mkExit [] ["vcli-daemon: " +:+ line] 1.

(* src: crates/vcli-daemon/src/bin/vcli-daemon.rs 11-56 main *)
Definition main (args : list string) (runtime : result string ()) (cfg : result DaemonError Config)
    (run_foreground : Config → result DaemonError ()) : Exit :=
  if existsb (λ a, bool_decide (a = "--version" ∨ a = "-V")) args then
    mkExit ["vcli-daemon " +:+ CARGO_PKG_VERSION] [] SUCCESS
  else if existsb (λ a, bool_decide (a = "--help" ∨ a = "-h")) args then
    mkExit ["usage: vcli-daemon"; "  no flags — runs in the foreground until SIGTERM/SIGINT"] []
      SUCCESS
  else
    match runtime with
    | Err e => complain ("failed to build tokio runtime: " +:+ e)
    | Ok _ =>
        match cfg with
        | Err e => complain (display e)
        | Ok c =>
            match run_foreground c with
            | Ok _ => mkExit [] [] SUCCESS
            | Err (AlreadyRunning pid _) => complain ("already running (pid " +:+ pretty pid +:+ ")")
            | Err e => complain (display e)
            end
        end
    end.

(** A failed start says so in one line and exits with 1; nothing else does. *)
Lemma main_status args runtime cfg run :
  let e := main args runtime cfg run in
  (status e = SUCCESS ∧ complained e = []) ∨ (status e = 1%Z ∧ printed e = [] ∧ length (complained e) = 1).
Proof. unfold main, complain. repeat case_match; simpl; auto. Qed.
End main.
End Entry.
