(* ===== verification/Live.v ===== *)
(** * The daemon in service

    From the bound socket to the exit of the process: the accept loop of
    [vcli-ipc/src/server.rs], the signal task of [vcli-daemon/src/shutdown.rs],
    the scheduler's thread, the event pump and the last lines of
    [run_foreground], sharing one daemon.

    The tasks are interleaved: a run is a list of turns, in each of which one
    task goes from one point where it waits to the next (the main task to its
    next [await], a connection through one request, the scheduler through one
    round of its loop, the pump through one event).  Where several tasks could
    go on, any may; a theorem about all lists of turns is one about all
    interleavings. *)

From S2P Require Import Prelude Json CoreTypes Sha256 Canonical Serde DslError DslValidate EventWire.
From S2P Require Import IpcWire Host FrameView Perception Input Capture Clock Runtime.
From S2P Require Import Wp Store Materialize Ipc Daemon Boot.
From S2P Require Import Scheduler.

Local Open Scope vcli_scope.

(** Where [run_foreground] is: in [serve], behind it, waiting for the
    scheduler and the pump to end, or gone. *)
Inductive Phase :=
  | Serving
  | Served (r : result IpcError ())
  | Stopping
  | Exited (r : result DaemonError ()).

(** ** One request of a connection *)

Section connection.
Context `{UuidOps, JsonText, Host, SerdeMessage} {S : Type} `{!Handler S}.

(** One round of the loop of [handle_connection]; [Some] ends it. *)
(* src: crates/vcli-ipc/src/server.rs 116-140 handle_connection *)
Definition connection_turn (fresh : RequestId) : ST (Conn * S) (option (result IpcError ())) :=
  r ← on_conn (read_frame (T := Request));
  match r with
  | Ok req =>
      r ← (if is_streaming (req_op req) then dispatch_stream req else dispatch_oneshot req);
      mret match r with Ok _ => None | Err e => Some (Err e) end
  | Err e =>
      if bool_decide (e = UnexpectedEof 0 4) then mret (Some (Ok ()))
      else match e with
           | InvalidJson _ | FrameTooLarge _ _ =>
               let resp := Response_err fresh
                             (ErrorPayload_simple InternalCode (IpcError_display e)) in
               _ ← on_conn (write_frame resp);
               mret (Some (Err e))
           | _ => mret (Some (Err e))
           end
  end.

(** The operation it would answer. *)
Definition next_op (c : Conn) : option RequestOp :=
  match read_frame (T := Request) c with Ret (Ok req, _) => Some (req_op req) | _ => None end.
End connection.

Section live.
Context `{NfcOps, RyuOps, UuidOps, JsonText, Host, Sha2, DaemonHost, SerdeOps, SerdeMessage}.
Context `{Surroundings, Subscriptions, OpDebug}.
Context `{ImageOps, InputSink, Capture, RuntimeClock, HashOrder}.
(** Fuel of the predicate evaluations, the scheduler's and the daemon's
    configuration. *)
Variable fuel : nat.
Variable sched_config : SchedulerConfig.
Variable cfg : Config.

(** The daemon, its scheduler, how many of the commands sent the scheduler has
    received, where the main task is, the task of every connection accepted
    (with its result once it has ended), and whether the pump is alive. *)
Record Live := mkLive {
  lv_daemon : Daemon;
  lv_sched : Sched;
  lv_seen : nat;
  lv_phase : Phase;
  lv_tasks : list (Conn * option (result IpcError ()));
  lv_pump : bool;
}.

Definition set_daemon (d : Daemon) (L : Live) : Live :=
  mkLive d (lv_sched L) (lv_seen L) (lv_phase L) (lv_tasks L) (lv_pump L).
Definition set_phase (p : Phase) (L : Live) : Live :=
  mkLive (lv_daemon L) (lv_sched L) (lv_seen L) p (lv_tasks L) (lv_pump L).
Definition set_tasks (l : list (Conn * option (result IpcError ()))) (L : Live) : Live :=
  mkLive (lv_daemon L) (lv_sched L) (lv_seen L) (lv_phase L) l (lv_pump L).
Definition pump_died (L : Live) : Live :=
  mkLive (set_store None (lv_daemon L)) (lv_sched L) (lv_seen L) (lv_phase L) (lv_tasks L) false.

Definition on_daemon {A} (m : ST Daemon A) : ST Live A := λ L,
  '(a, d) ← m (lv_daemon L); Ret (a, set_daemon d L).

(** All commands ever sent, and those the scheduler has not received. *)
Definition all_commands (d : Daemon) : list SchedulerCommand :=
  taken (d_cmds d) ++ queued (d_cmds d).
Definition unseen (L : Live) : list SchedulerCommand :=
  drop (lv_seen L) (all_commands (lv_daemon L)).

(** ** The main task *)

(** A turn of [select!], which looks at the shutdown first; [accept] is what
    the listener has, if anything. *)
(* src: crates/vcli-ipc/src/server.rs 75-94 IpcServer::serve *)
Definition serve_turn (accept : option (result IoError Conn))
    : ST Live (option (result IpcError ())) := λ L,
  if d_shutdown_fired (lv_daemon L) then Ret (Some (Ok ()), L)
  else match accept with
       | None => Ret (None, L)
       | Some (Err e) => Ret (Some (Err (IpcIo e)), L)
       | Some (Ok c) => Ret (None, set_tasks (lv_tasks L ++ [(c, None)]) L)
       end.

(** The disk is the store's: once nobody can have the store, what becomes of
    the files is not followed any further. *)
Definition on_disk {A} (unknown : A) (m : ST Store A) : ST Daemon A := λ d,
  match d_store d with
  | None => Ret (unknown, d)
  | Some s => '(a, s') ← m s; Ret (a, set_store (Some s') d)
  end.
(* src: crates/vcli-ipc/src/server.rs 98-103 IpcServer::drop *)
Definition ipc_drop : ST Daemon () :=
  on_disk () (_ ← io_call (remove_file (sp_path (cfg_socket cfg))); mret ()).

(** The scheduler's thread has ended, and so has the pump: it is dead, or the
    channel is closed and empty. *)
Definition joined (L : Live) : bool :=
  match receiver (d_cmds (lv_daemon L)) with
  | Gone => negb (lv_pump L) || bool_decide (d_events (lv_daemon L) = [])
  | _ => false
  end.

(** The error of [serve] is logged and no more. *)
(* src: crates/vcli-daemon/src/run.rs 130-145 run_foreground *)
Definition main_turn (accept : option (result IoError Conn)) : ST Live () :=
  L ← get;
  match lv_phase L with
  | Serving =>
      r ← serve_turn accept;
      match r with
      | None => mret ()
      | Some r => _ ← on_daemon ipc_drop; modify (set_phase (Served r))
      end
  | Served _ =>
      _ ← on_daemon (cmd_send Shutdown);
      _ ← on_daemon emit_daemon_stopped;
      modify (set_phase Stopping)
  | Stopping =>
      if (joined L : bool) then
        r ← on_daemon (on_disk (Ok ()) (pidfile_release (pidfile_path cfg)));
        modify (set_phase (Exited r))
      else mret ()
  | Exited _ => mret ()
  end.

(** ** The other tasks *)

(** The task of the [i]-th connection; it runs on after [serve] returned. *)
(* src: crates/vcli-ipc/src/server.rs 85-91 IpcServer::serve *)
Definition task_turn (i : nat) (fresh : RequestId) : ST Live () := λ L,
  match lv_tasks L !! i with
  | Some (c, None) =>
      '(r, (c, d)) ← connection_turn fresh (c, lv_daemon L);
      Ret ((), set_tasks (<[i := (c, r)]> (lv_tasks L)) (set_daemon d L))
  | _ => Ret ((), L)
  end.

(** SIGTERM or SIGINT.  The task takes one signal; further ones change
    nothing, and neither does one after the shutdown was triggered. *)
(* src: crates/vcli-daemon/src/shutdown.rs 21-37 install_signal_handlers *)
Definition signal_turn : ST Live () := on_daemon trigger_shutdown.

(** What the scheduler sends goes to the pump's channel. *)
Definition on_sched {A} (m : ST Sched A) : ST Live A := λ L,
  '(a, s) ← m (lv_sched L);
  let d := lv_daemon L in
  Ret (a, mkLive (set_events (d_events d ++ drop (length (event_tx (lv_sched L))) (event_tx s)) d)
            s (lv_seen L) (lv_phase L) (lv_tasks L) (lv_pump L)).

(** The scheduler takes all commands there are; it goes away on [Shutdown]. *)
Definition received (stop : bool) (L : Live) : Live :=
  let d := lv_daemon L in
  mkLive (set_commands (mkCommands [] (all_commands d) (if stop then Gone else Receiving)) d)
    (lv_sched L) (length (all_commands d)) (lv_phase L) (lv_tasks L) (lv_pump L).

(** A round of the scheduler's loop, in its thread. *)
(* src: crates/vcli-runtime/src/scheduler.rs 100-108 Scheduler::run_until_shutdown *)
Definition sched_turn : ST Live () :=
  L ← get;
  match receiver (d_cmds (lv_daemon L)) with
  | Receiving =>
      _ ← on_sched (modify (set_cmds (unseen L)));
      stop ← on_sched drain_commands;
      _ ← modify (received stop);
      if (stop : bool) then mret ()
      else
        _ ← on_sched (tick_once fuel);
        on_sched (on_clock (sleep_ms (tick_interval_ms sched_config)))
  | _ => mret ()
  end.

(** The pump takes one event; without the store it panics, and is gone. *)
(* src: crates/vcli-daemon/src/persist.rs 29-38 spawn_event_pump *)
Definition pump_turn : ST Live () := λ L,
  match lv_pump L, d_events (lv_daemon L) with
  | true, ev :: evs =>
      match pump_event ev (set_events evs (lv_daemon L)) with
      | Ret (_, d) => Ret ((), set_daemon d L)
      | Panic => Ret ((), pump_died L)
      | OutOfFuel => OutOfFuel
      end
  | _, _ => Ret ((), L)
  end.

(** ** Runs *)

Inductive Turn :=
  | MainTurn (accept : option (result IoError Conn))
  | TaskTurn (i : nat) (fresh : RequestId)
  | SignalTurn
  | SchedTurn
  | PumpTurn.

Definition turn (t : Turn) : ST Live () :=
  match t with
  | MainTurn accept => main_turn accept
  | TaskTurn i fresh => task_turn i fresh
  | SignalTurn => signal_turn
  | SchedTurn => sched_turn
  | PumpTurn => pump_turn
  end.
Definition run_turns (l : list Turn) : ST Live () := mfor turn l.

(** The operation a client asks for in a turn. *)
Definition asked (t : Turn) (L : Live) : option RequestOp :=
  match t with
  | TaskTurn i _ =>
      match lv_tasks L !! i with Some (c, None) => next_op c | _ => None end
  | _ => None
  end.

(** What [boot] leaves, with the scheduler it starts. *)
Definition in_service (d : Daemon) (sch : Sched) : Live := mkLive d sch 0 Serving [] true.
End live.
