(* ===== verification/PumpSpec.v ===== *)
(** * The event pump keeps the store in step

    What the scheduler announces is what the store says.  One turn of the pump
    appends the event to the log and moves the program's row; over a run of
    the scheduler the rows end up in the states the scheduler is in. *)

From S2P Require Import Prelude Json CoreTypes Sha256 Canonical Serde DslValidate EventWire Host.
From S2P Require Import Wp Store StoreSpec StoreGc StoreMap StoreOpen StoreLog Ipc Materialize.
From S2P Require Import Daemon.

Local Open Scope vcli_scope.
#[local] Set Default Proof Using "All".

(** ** What an event does to a row *)

Definition row_event (ev : Event) (r : ProgramRow) : ProgramRow :=
  match ev_data ev with
  | ProgramStateChanged _ _ to _ => row_with_state to (ev_at ev) r
  | ProgramCompleted _ _ => row_with_state Completed (ev_at ev) r
  | ProgramFailed _ reason step _ =>
      row_with_error reason (default reason step) (row_with_state Failed (ev_at ev) r)
  | ProgramResumed _ from_step => row_with_cursor from_step (row_with_state Running (ev_at ev) r)
  | _ => r
  end.
(** The rows after an event. *)
Definition apply_row (m : Rows) (ev : Event) : Rows :=
  match program_id_of (ev_data ev) with
  | Some i => alter (row_event ev) i m
  | None => m
  end.

(** Cursors are [u32]. *)
Definition cursor_ok (ev : Event) : Prop :=
  match ev_data ev with ProgramResumed _ n => in_u32 n | _ => True end.

Definition scoped (ev : Event) : bool :=
  match program_id_of (ev_data ev) with Some _ => true | None => false end.

(** ** One turn *)

Section pump.
Context `{UuidOps, !UuidLaws, JsonText, !JsonTextLaws, Host, !Reliable, Sha2, !Sha2Laws}.

(** A disk with its schema, and the ids the log has left. *)
Definition store_ready (room : Z) (s : Store) : Prop :=
  disk_ok s ∧ is_Some (tables (conn s)) ∧ (t_events_seq (rows s) + room < i64_max)%Z.

(** The row at [i] becomes [g row], the log stays. *)
Definition row_moved (i : ProgramId) (g : ProgramRow → ProgramRow) (s s' : Store) : Prop :=
  disk_ok s' ∧ is_Some (tables (conn s')) ∧ t_events_seq (rows s') = t_events_seq (rows s) ∧
  log s' = log s ∧ view s' = alter g i (view s).

(** An [UPDATE] touches only its rows. *)
Lemma wp_sql_programs {A} (a : Tables → A) (l : Tables → list ProgramRec) s Q :
  is_Some (tables (conn s)) →
  (∀ t, tables (conn s) = Some t → Q (Ok (a t)) (set_tables (set_programs (l t) t) (bump s))) →
  wp (sql (λ t, Ok (a t, set_programs (l t) t))) Q s.
Proof.
  intros [t Ht] HQ. apply (wp_sql_at t); [done|by intros e; rewrite no_sql_fault|]. by apply HQ.
Qed.

Lemma update_moves i f g s :
  disk_ok s → is_Some (tables (conn s)) → is_Some (view s !! i) →
  (∀ r row, decodes r row → decodes (f r) (g row) ∧ c_id (f r) = c_id r) →
  keeps (update_program i f) →
  wp (ignore (update_program i f)) (λ _, row_moved i g s) s.
Proof.
  intros Hs Htabs [row Hrow] Hf Hkeeps. unfold ignore. wp_step.
  destruct (Htabs) as [t Ht]. pose proof (Hs t Ht) as Hok.
  eapply wp_mono; [apply wp_and; [by apply Hkeeps|]|].
  - instantiate (1 := λ _ s', is_Some (tables (conn s')) ∧
      t_events_seq (rows s') = t_events_seq (rows s) ∧ log s' = log s ∧
      view s' = alter g i (view s)).
    unfold update_program. wp_step. apply wp_sql_programs; [done|].
    intros t' Ht'. rewrite Ht in Ht'. injection Ht' as <-. cbn [on_result].
    assert (view_of (update_where (has_id i) f (t_programs t)) = alter g i (view s)) as Hview.
    { rewrite (view_at t s Ht). apply view_of_update; [by destruct Hok..|].
      intros r row' Hd _. by apply Hf. }
    assert (rows s = t) as Hrows by (unfold rows; by rewrite Ht).
    case_bool_decide as Hn.
    + apply count_has_id in Hn; [|done]. by rewrite <-(view_at t s Ht), Hrow in Hn.
    + apply wp_sok. split_and!; [by eexists| | |exact Hview].
      * rewrite Hrows. done.
      * unfold log. rewrite Hrows. done.
  - intros r s' [Hd (Ht' & Hseq & Hlog & Hview)]. apply wp_ret. done.
Qed.

Lemma last_error_moves i code msg s :
  disk_ok s → is_Some (tables (conn s)) →
  wp (ignore (set_last_error i code msg)) (λ _, row_moved i (row_with_error code msg) s) s.
Proof.
  intros Hs [t Ht]. pose proof (Hs t Ht) as Hok. unfold ignore. wp_step.
  eapply wp_mono; [apply wp_and; [by apply keeps_set_last_error|]|].
  - instantiate (1 := λ _ s', is_Some (tables (conn s')) ∧
      t_events_seq (rows s') = t_events_seq (rows s) ∧ log s' = log s ∧
      view s' = alter (row_with_error code msg) i (view s)).
    unfold set_last_error. wp_step. apply wp_sql_programs; [by eexists|].
    intros t' Ht'. rewrite Ht in Ht'. injection Ht' as <-. cbn [on_result]. apply wp_sok.
    assert (rows s = t) as Hrows by (unfold rows; by rewrite Ht).
    split_and!; [by eexists| | |].
    + by rewrite Hrows.
    + unfold log. by rewrite Hrows.
    + rewrite view_set_programs, (view_at t s Ht). apply view_of_update; [by destruct Hok..|].
      intros r row Hd _. split; [by apply decodes_with_error|done].
  - intros r s' [Hd (Ht' & Hseq & Hlog & Hview)]. by apply wp_ret.
Qed.

(** The entry an event is logged as. *)
Definition entry_for (i : ProgramId) (ev : Event) (e : StoredEvent) : Prop :=
  se_program_id e = i ∧ se_at e = ev_at ev ∧ se_type_tag e = event_type_tag (ev_data ev) ∧
  (Event_wf ev → event_of e = Some ev).

Lemma append_logs i ev room s :
  store_ready room s → (0 < room)%Z → is_Some (view s !! i) →
  wp (ignore (append_event i ev))
    (λ _ s', store_ready (room - 1) s' ∧ view s' = view s ∧
       ∃ e, log s' = log s ++ [e] ∧ entry_for i ev e) s.
Proof.
  intros (Hs & [t Ht] & Hroom) Hpos [row Hrow]. pose proof (Hs t Ht) as Hok.
  assert (rows s = t) as Hrows by (unfold rows; by rewrite Ht). rewrite Hrows in Hroom.
  unfold ignore. wp_step. eapply wp_mono; [apply wp_and; [by apply keeps_append_event|]|].
  - instantiate (1 := λ _ s', is_Some (tables (conn s')) ∧
      (t_events_seq (rows s') + (room - 1) < i64_max)%Z ∧ view s' = view s ∧
      ∃ e, log s' = log s ++ [e] ∧ entry_for i ev e).
    unfold append_event. cbv zeta. apply (wp_sql_at t); [done|by intros e; rewrite no_sql_fault|].
    destruct (program_exists _ t) eqn:Hp; simpl.
    2: { apply program_exists_false in Hp. rewrite (view_at t s Ht) in Hrow.
         apply view_of_None in Hp; [|by destruct Hok..]. by rewrite Hp in Hrow. }
    rewrite (proj2 (Z.leb_gt _ _)) by lia. split; [by eexists|]. split; [unfold rows; simpl; lia|].
    split; [by rewrite (view_at t s Ht)|]. set (rec := mkEventRec _ _ _ _ _).
    exists (stored i rec). split_and!; try done.
    + unfold log. rewrite Hrows. unfold rows; simpl. rewrite log_of_app. f_equal.
      by rewrite (log_of_cons i).
    + split_and!; try done. intros Hev. unfold event_of; simpl. rewrite json_round_trip by by apply exact_Event.
      by apply Event_value.
  - intros r s' [Hd (Ht' & Hseq & Hview & e & Hlog & He)]. apply wp_ret.
    split; [done|]. split; [done|]. by exists e.
Qed.

(** What one turn leaves behind. *)
Definition persisted (room : Z) (i : ProgramId) (ev : Event) (s s' : Store) : Prop :=
  store_ready room s' ∧ view s' = alter (row_event ev) i (view s) ∧
  ∃ e, log s' = log s ++ [e] ∧ entry_for i ev e.

Lemma row_moved_persisted room i ev g s s1 s' :
  store_ready room s1 → view s1 = view s →
  (∃ e, log s1 = log s ++ [e] ∧ entry_for i ev e) →
  row_moved i g s1 s' → (∀ row, g row = row_event ev row) → persisted room i ev s s'.
Proof.
  intros (Hs & Htabs & Hroom) Hview He (Hs' & Htabs' & Hseq & Hlog & Hview') Hg.
  split; [|split].
  - split; [done|]. split; [done|]. by rewrite Hseq.
  - rewrite Hview', Hview. apply map_eq. intros j. destruct (decide (j = i)) as [->|].
    + rewrite !lookup_alter_eq. destruct (view s !! i); simpl; [by rewrite Hg|done].
    + by rewrite !lookup_alter_ne.
  - rewrite Hlog. done.
Qed.

Lemma row_moved_trans i g g' s s1 s2 :
  row_moved i g s s1 → row_moved i g' s1 s2 → row_moved i (g' ∘ g) s s2.
Proof.
  intros (_ & _ & Hseq & Hlog & Hview) (Hs & Ht & Hseq' & Hlog' & Hview').
  split_and!; [done|done|by rewrite Hseq'|by rewrite Hlog'|].
  rewrite Hview', Hview. by rewrite alter_alter_eq.
Qed.

Lemma row_moved_there i g s s' : row_moved i g s s' → is_Some (view s !! i) → is_Some (view s' !! i).
Proof.
  intros (_ & _ & _ & _ & Hview) [row Hrow]. rewrite Hview, lookup_alter_eq, Hrow. by eexists.
Qed.

Lemma state_moves i st now s :
  disk_ok s → is_Some (tables (conn s)) → is_Some (view s !! i) →
  wp (ignore (update_state i st now)) (λ _, row_moved i (row_with_state st now) s) s.
Proof.
  intros. apply update_moves; [done..| |apply keeps_update_state].
  intros r row Hd. split; [by apply decodes_with_state|done].
Qed.
Lemma cursor_moves i c s :
  in_u32 c → disk_ok s → is_Some (tables (conn s)) → is_Some (view s !! i) →
  wp (ignore (set_body_cursor i c)) (λ _, row_moved i (row_with_cursor c) s) s.
Proof.
  intros. apply update_moves; [done..| |by apply keeps_set_body_cursor].
  intros r row Hd. split; [by apply decodes_with_cursor|done].
Qed.

Lemma persist_event i ev room s :
  store_ready room s → (0 < room)%Z → is_Some (view s !! i) → cursor_ok ev →
  wp (persist_program_event i ev) (λ _, persisted (room - 1) i ev s) s.
Proof.
  intros Hready Hpos Hrow Hcur. unfold persist_program_event. wp_step.
  eapply wp_mono; [by apply append_logs|]. intros [] s1 (Hs1 & Hview1 & Hlog1).
  assert (is_Some (view s1 !! i)) as Hrow1 by by rewrite Hview1.
  destruct Hs1 as (Hd1 & Ht1 & Hroom1) eqn:Heq. clear Heq.
  assert (∀ g, (∀ row, g row = row_event ev row) → ∀ s', row_moved i g s1 s' →
    persisted (room - 1) i ev s s') as Hfinish.
  { intros g Hg s' Hm. by eapply (row_moved_persisted _ _ _ g). }
  unfold cursor_ok, row_event in *. destruct (ev_data ev) eqn:Hdata.
  2: { eapply wp_mono; [by apply state_moves|]. intros []. by apply Hfinish. }
  2: { eapply wp_mono; [by apply state_moves|]. intros []. by apply Hfinish. }
  2: { wp_step. eapply wp_mono; [by apply state_moves|]. intros [] s2 Hm2.
       eapply wp_mono; [apply last_error_moves; by destruct Hm2 as (? & ? & _)|].
       intros [] s3 Hm3. eapply Hfinish; [|by eapply row_moved_trans]. done. }
  2: { wp_step. eapply wp_mono; [by apply state_moves|]. intros [] s2 Hm2.
       eapply wp_mono; [apply cursor_moves; [done|by destruct Hm2 as (? & ? & _)..|]|].
       { by eapply row_moved_there. }
       intros [] s3 Hm3. eapply Hfinish; [|by eapply row_moved_trans]. done. }
  all: apply wp_ret; split; [done|]; split; [|done]; rewrite Hview1; symmetry; apply alter_id;
    intros row _; unfold row_event; by rewrite Hdata.
Qed.

(** ** The whole queue *)

(** Every program spoken of has a row. *)
Definition known (m : Rows) (ev : Event) : Prop :=
  match program_id_of (ev_data ev) with Some i => is_Some (m !! i) | None => True end.

Lemma known_apply m ev ev' : known m ev' → known (apply_row m ev) ev'.
Proof using.
  unfold known, apply_row. destruct (program_id_of (ev_data ev')) as [i|]; [|done].
  destruct (program_id_of (ev_data ev)) as [j|]; [|done].
  destruct (decide (j = i)) as [->|].
  - intros [row Hrow]. rewrite lookup_alter_eq, Hrow. by eexists.
  - by rewrite lookup_alter_ne.
Qed.

(** The entries [l] are those of the events [evs], in order. *)
Inductive logged : list Event → list StoredEvent → Prop :=
  | logged_nil : logged [] []
  | logged_scoped i ev evs e l :
      program_id_of (ev_data ev) = Some i → entry_for i ev e → logged evs l →
      logged (ev :: evs) (e :: l)
  | logged_unscoped ev evs l :
      program_id_of (ev_data ev) = None → logged evs l → logged (ev :: evs) l.

Lemma pump_event_turn ev room d s :
  d_store d = Some s → store_ready (room + 1) s → (0 ≤ room)%Z → known (view s) ev →
  cursor_ok ev →
  ∃ s' l, pump_event ev d = Ret ((), push_broadcast ev (set_store (Some s') d)) ∧
    store_ready room s' ∧ view s' = apply_row (view s) ev ∧ log s' = log s ++ l ∧
    logged [ev] l.
Proof.
  intros Hd Hready Hpos Hknown Hcur. unfold pump_event, known, apply_row in *.
  destruct (program_id_of (ev_data ev)) as [i|] eqn:Hi.
  - destruct (persist_event i ev (room + 1) s) as (u & s' & Hrun & Hready' & Hview & e & Hlog & He);
      [done|lia|done..|]. destruct u.
    exists s', [e]. split; [|split_and!].
    + erewrite ST_bind_step; [reflexivity|]. unfold locked. by rewrite Hd, Hrun.
    + by rewrite Z.add_simpl_r in Hready'.
    + done.
    + done.
    + eapply logged_scoped; [done..|constructor].
  - exists s, []. split_and!.
    + erewrite ST_bind_step by done. unfold modify. do 2 f_equal.
      destruct d; simpl in *. unfold push_broadcast, set_store; simpl. by rewrite Hd.
    + destruct Hready as (? & ? & ?). split; [done|]. split; [done|]. lia.
    + done.
    + by rewrite app_nil_r.
    + by repeat constructor.
Qed.

Lemma logged_app evs evs' l l' : logged evs l → logged evs' l' → logged (evs ++ evs') (l ++ l').
Proof. induction 1; [done|..]; intros; simpl; econstructor; eauto. Qed.

Lemma pump_list evs d s :
  d_store d = Some s → store_ready (Z.of_nat (length evs)) s → Forall (known (view s)) evs →
  Forall cursor_ok evs →
  ∃ s' l d', mfor pump_event evs d = Ret ((), d') ∧ d_store d' = Some s' ∧
    store_ready 0 s' ∧ view s' = foldl apply_row (view s) evs ∧ log s' = log s ++ l ∧
    logged evs l ∧ d_broadcast d' = d_broadcast d ++ evs ∧ d_events d' = d_events d ∧
    d_cmds d' = d_cmds d.
Proof.
  revert d s. induction evs as [|ev evs IH]; intros d s Hd Hready Hknown Hcur; simpl.
  { exists s, [], d. split_and!; try done; [by rewrite app_nil_r|constructor|by rewrite app_nil_r]. }
  apply Forall_cons in Hknown as [Hk Hknown]. apply Forall_cons in Hcur as [Hc Hcur].
  destruct (pump_event_turn ev (Z.of_nat (length evs)) d s)
    as (s1 & l1 & Hrun1 & Hready1 & Hview1 & Hlog1 & Hl1); [done| |lia|done..|].
  { by replace (Z.of_nat (length evs) + 1)%Z with (Z.of_nat (length (ev :: evs))) by (simpl; lia). }
  destruct (IH (push_broadcast ev (set_store (Some s1) d)) s1)
    as (s' & l & d' & Hrun & Hst & Hready' & Hview & Hlog & Hl & Hb & He & Hq);
    [done|done| |done|].
  { rewrite Hview1. eapply Forall_impl; [exact Hknown|]. intros ev'. apply known_apply. }
  exists s', (l1 ++ l), d'. split; [|split_and!].
  - by erewrite ST_bind_step by exact Hrun1.
  - done.
  - done.
  - by rewrite Hview, Hview1.
  - by rewrite Hlog, Hlog1, app_assoc.
  - by apply (logged_app [ev]).
  - rewrite Hb. simpl. by rewrite <-app_assoc.
  - done.
  - done.
Qed.

Lemma Forall_take {A} (P : A → Prop) n l : Forall P l → Forall P (take n l).
Proof. intros Hl. rewrite <-(take_drop n l) in Hl. by apply Forall_app in Hl as [? _]. Qed.

Lemma sends_all evs d : mfor event_send evs d = Ret ((), set_events (d_events d ++ evs) d).
Proof using.
  revert d. induction evs as [|ev evs IH]; intros d; simpl; [rewrite app_nil_r; by destruct d|].
  erewrite ST_bind_step by reflexivity. rewrite IH. unfold set_events; simpl. by rewrite <-app_assoc.
Qed.

(** C7: On a host that does not fail, draining the pump over events about
    known programs returns, and after any number [n] of its turns the first
    [n] events are what subscribers have been sent, every one of them that is
    about a program is in the log, in order, and reads back as it was sent,
    and every row has moved the way those events say. *)
Theorem pump_persists_and_broadcasts d s :
  d_store d = Some s → store_ready (Z.of_nat (length (d_events d))) s →
  Forall (known (view s)) (d_events d) → Forall cursor_ok (d_events d) →
  (∃ d', pump d = Ret ((), d') ∧ d_events d' = []) ∧
  ∀ n, let evs := take n (d_events d) in
    ∃ s' l d', mfor pump_event evs (set_events [] d) = Ret ((), d') ∧ d_store d' = Some s' ∧
      disk_ok s' ∧ view s' = foldl apply_row (view s) evs ∧
      log s' = log s ++ l ∧ logged evs l ∧ d_broadcast d' = d_broadcast d ++ evs.
Proof.
  intros Hd Hready Hknown Hcur. split.
  - destruct (pump_list (d_events d) (set_events [] d) s)
      as (s' & l & d' & Hrun & _ & _ & _ & _ & _ & _ & He & _); [done..|]. by exists d'.
  - intros n evs. destruct (pump_list evs (set_events [] d) s)
      as (s' & l & d' & Hrun & Hst & (Hdisk & _ & _) & Hview & Hlog & Hl & Hb & _);
      [done| |by apply Forall_take..|by exists s', l, d'].
    destruct Hready as (? & ? & ?). split_and!; [done..|].
    subst evs. rewrite length_take. lia.
Qed.
End pump.
