(* ===== verification/SystemSpec.v ===== *)
(** * Scheduler and store, end to end

    The scheduler keeps programs in memory and announces every change; the
    pump turns the announcements into rows.  Together: after a run of the
    scheduler and of the pump, the store says of every program the scheduler
    holds what the scheduler says. *)

From S2P Require Import Prelude Json CoreTypes Sha256 Canonical Serde EventWire Host FrameView.
From S2P Require Import Perception Input Capture Clock Runtime.
From S2P Require Import Wp Store StoreSpec StoreGc StoreMap StoreOpen StoreLog Daemon PumpSpec.
From S2P Require Import Scheduler SchedulerSpec.

Local Open Scope vcli_scope.
#[local] Set Default Proof Using "Type*".

(** Every program the scheduler holds has a row in the same state. *)
Definition agree (m : States) (V : Rows) : Prop :=
  ∀ id st, m !! id = Some st → pr_state <$> V !! id = Some st.

Lemma pr_state_row_event ev row :
  pr_state (row_event ev row) =
    match ev_data ev with
    | ProgramStateChanged _ _ to _ => to
    | ProgramCompleted _ _ => Completed
    | ProgramFailed _ _ _ _ => Failed
    | ProgramResumed _ _ => Running
    | _ => pr_state row
    end.
Proof. unfold row_event. by destruct (ev_data ev). Qed.

(** An event moves the row of its own program only. *)
Lemma state_apply_row V ev id :
  pr_state <$> apply_row V ev !! id =
    if decide (program_id_of (ev_data ev) = Some id)
    then pr_state ∘ row_event ev <$> V !! id else pr_state <$> V !! id.
Proof.
  unfold apply_row. destruct (program_id_of (ev_data ev)) as [i|]; case_decide; simplify_eq; try done.
  - rewrite lookup_alter_eq. by destruct (V !! id).
  - by rewrite lookup_alter_ne by congruence.
Qed.

(** An event that leaves its program where the table has it. *)
Lemma agree_same m V ev :
  agree m V →
  (∀ i row, program_id_of (ev_data ev) = Some i → V !! i = Some row →
     m !! i = None ∨ m !! i = Some (pr_state (row_event ev row))) →
  agree m (apply_row V ev).
Proof.
  intros Hm Hev id st Hid. rewrite state_apply_row. case_decide as Hi; [|by apply Hm].
  specialize (Hm id st Hid). destruct (V !! id) as [row|] eqn:Hrow; [|done]. simpl in *.
  destruct (Hev id row Hi Hrow) as [Hn|Hs]; congruence.
Qed.

(** An event that moves its program along with the table. *)
Lemma agree_moved m V ev id st :
  agree m V → program_id_of (ev_data ev) = Some id → is_Some (V !! id) →
  (∀ row, pr_state (row_event ev row) = st) →
  agree (<[id := st]> m) (apply_row V ev).
Proof.
  intros Hm Hi [row Hrow] Hst j st' Hj. rewrite state_apply_row. case_decide as Hd.
  - rewrite Hi in Hd. simplify_eq. rewrite lookup_insert_eq in Hj. simplify_eq.
    rewrite Hrow; simpl. by rewrite Hst.
  - rewrite lookup_insert_ne in Hj by congruence. by apply Hm.
Qed.

Lemma known_row V ev i : known V ev → program_id_of (ev_data ev) = Some i → is_Some (V !! i).
Proof. unfold known. intros Hk Hi. by rewrite Hi in Hk. Qed.

Lemma agree_still m V ev :
  agree m V → (∀ row, pr_state (row_event ev row) = pr_state row) → agree m (apply_row V ev).
Proof.
  intros Hm Hev id st Hid. rewrite state_apply_row. specialize (Hm id st Hid).
  case_decide; [|done]. destruct (V !! id); simpl in *; [by rewrite Hev|done].
Qed.

Lemma agree_again m V ev id st :
  agree m V → program_id_of (ev_data ev) = Some id → m !! id = Some st →
  (∀ row, pr_state (row_event ev row) = st) → agree m (apply_row V ev).
Proof.
  intros Hm Hi Hid Hst. apply agree_same; [done|]. intros j row Hj _. right.
  rewrite Hi in Hj. simplify_eq. by rewrite Hst.
Qed.

(** [state_of] evaluates the state an event leads to. *)
Ltac state_of := intros; rewrite pr_state_row_event;
  match goal with H : ev_data _ = _ |- _ => by rewrite H end.
Ltac about := match goal with H : ev_data _ = _ |- _ => by rewrite H end.

Lemma agree_move m evs m' V :
  any_move m (ev_data <$> evs) m' → agree m V → Forall (known V) evs →
  agree m' (foldl apply_row V evs).
Proof.
  intros Hmove Hm Hk. remember (ev_data <$> evs) as d eqn:Hd.
  destruct Hmove as [Hmove|Hmove]; destruct Hmove;
    (destruct evs as [|e1 [|e2 [|e3 evs]]]; try done); injection Hd; intros;
    repeat match goal with H : _ = ev_data _ |- _ => symmetry in H end; simpl foldl;
    repeat (apply Forall_cons in Hk as [? Hk]).
  all: match goal with
       | |- agree _ (apply_row (apply_row _ _) _) => idtac
       | _ => try (by apply agree_still; [done|state_of])
       end.
  all: try (by eapply agree_moved; [done|about|eapply known_row; [done|about]|state_of]).
  - eapply agree_again; [|about|by rewrite lookup_insert_eq|state_of].
    eapply agree_moved; [done|about|eapply known_row; [done|about]|state_of].
  - eapply agree_moved; [apply agree_still; [done|state_of]|about| |state_of].
    eapply known_row; [by apply known_apply|about].
  - eapply agree_again; [|about|by rewrite lookup_insert_eq|state_of].
    eapply agree_moved; [done|about|eapply known_row; [done|about]|state_of].
Qed.

Lemma agree_moves m l m' evs V :
  moves any_move m l m' → l = ev_data <$> evs → agree m V → Forall (known V) evs →
  agree m' (foldl apply_row V evs).
Proof.
  intros Hmoves. revert evs V. induction Hmoves as [m|m d m1 l m2 Hd Hl IH]; intros evs V Hevs Hm Hk.
  { symmetry in Hevs. apply fmap_nil_inv in Hevs as ->. done. }
  symmetry in Hevs. apply fmap_app_inv in Hevs as (evs1 & evs2 & -> & -> & ->).
  apply Forall_app in Hk as [Hk1 Hk2]. rewrite foldl_app. apply IH; [done|by eapply agree_move|].
  clear -Hk2. revert V Hk2. induction evs1 as [|e evs1 IH1]; intros V Hk2; [done|].
  simpl. apply IH1. eapply Forall_impl; [exact Hk2|]. intros ev. apply known_apply.
Qed.

Section system.
Context `{NfcOps, RyuOps, UuidOps, !UuidLaws, JsonText, !JsonTextLaws, Host, !Reliable}.
Context `{Sha2, !Sha2Laws, ImageOps, InputSink, Capture, RuntimeClock, HashOrder}.
#[local] Set Default Proof Using "All".

(** From a moment at which every program in the scheduler's table has a
    row in the same state: whatever commands arrive and however the scheduler
    runs, once the pump has drained the events of that run it is so again, of
    every program then in the table (on a host that does not fail, for
    programs that have a row, which submission writes before it tells the
    scheduler). *)
Theorem store_mirrors_scheduler fuel config arrivals sch stop sch' d s :
  run_until_shutdown fuel config arrivals sch = Ret (stop, sch') →
  let evs := drop (length (event_tx sch)) (event_tx sch') in
  d_store d = Some s → d_events d = evs → store_ready (Z.of_nat (length evs)) s →
  Forall (known (view s)) evs → Forall cursor_ok evs →
  agree (states sch) (view s) →
  ∃ s' d', pump d = Ret ((), d') ∧ d_store d' = Some s' ∧ agree (states sch') (view s').
Proof.
  intros [(l & Hsent & Hmoves) _]%run_until_shutdown_runs evs Hd Hevs Hready Hknown Hcur Hagree.
  unfold pump. erewrite ST_bind_step by done. erewrite ST_bind_step by done. rewrite Hevs.
  destruct (pump_list evs (set_events [] d) s)
    as (s' & l' & d' & Hrun & Hst & _ & Hview & _); [done..|].
  exists s', d'. split; [done|]. split; [done|]. rewrite Hview.
  eapply agree_moves; [exact Hmoves| |done|done].
  subst evs. rewrite fmap_drop. unfold sent in Hsent. rewrite Hsent.
  by rewrite drop_app_length' by by rewrite length_fmap.
Qed.
End system.
