(* ===== verification/SubmitSpec.v ===== *)
(** * Submission

    What [submit] does to the store and to the scheduler's queue, on every
    outcome: a refused program leaves the table of programs as it was and the
    scheduler unaware; an accepted one is in the table, pending, with its
    canonical text, and on its way to the scheduler. *)

From S2P Require Import Prelude Json CoreTypes Sha256 Canonical Serde DslError DslValidate EventWire.
From S2P Require Import IpcWire Host Perception Wp Store StoreSpec StoreGc StoreMap StoreOpen.
From S2P Require Import StoreLog Ipc Materialize Daemon PumpSpec.
From S2P Require Scheduler.

Local Open Scope vcli_scope.
#[local] Set Default Proof Using "All".

(** ** Code that leaves the table of programs alone *)

Section calm.
Context `{UuidOps, !UuidLaws, JsonText, Host, Sha2, !Sha2Laws, DaemonHost}.

(** The ids the log has given out. *)
Definition same_log_ids (s s' : Store) : Prop := t_events_seq (rows s') = t_events_seq (rows s).
(** The table of programs is there and is what it was. *)
Definition same_table (s s' : Store) : Prop :=
  is_Some (tables (conn s')) ∧ t_programs (rows s') = t_programs (rows s) ∧ same_log_ids s s'.
Definition same_programs (s s' : Store) : Prop :=
  disk_ok s' ∧ is_Some (tables (conn s')) ∧ view s' = view s ∧ same_log_ids s s'.

(** [m] returns and leaves it so. *)
Definition steady {A} (m : ST Store A) : Prop :=
  ∀ s, is_Some (tables (conn s)) → wp m (λ _, same_table s) s.
(** [m] does so or panics. *)
Definition calm {A} (m : ST Store A) : Prop :=
  ∀ s, disk_ok s → is_Some (tables (conn s)) →
    m s = Panic ∨ ∃ r s', m s = Ret (r, s') ∧ same_programs s s'.

Lemma steady_ret {A} (a : A) : steady (mret a).
Proof. intros s Hs. by apply wp_ret. Qed.
Lemma steady_bind {A B} (m : ST Store A) (f : A → ST Store B) :
  steady m → (∀ a, steady (f a)) → steady (m ≫= f).
Proof.
  intros Hm Hf s Hs. apply wp_bind. eapply wp_mono; [by apply Hm|]. intros a s1 (Ht & Hp & Hq).
  eapply wp_mono; [by apply Hf|]. intros b s2 (Ht' & Hp' & Hq').
  unfold same_table, same_log_ids in *. split_and!; [done|congruence..].
Qed.
Lemma steady_sbind {E A B} (m : ST Store (result E A)) (f : A → ST Store (result E B)) :
  steady m → (∀ a, steady (f a)) → steady (sbind m f).
Proof. intros Hm Hf. apply steady_bind; [done|]. intros [a|e]; [done|apply steady_ret]. Qed.
Lemma steady_quiet {A} (m : ST Store A) : quiet m → steady m.
Proof.
  intros Hm s Hs. eapply wp_mono; [apply Hm|]. intros _ s' [Hr Ht].
  unfold same_table, same_log_ids. rewrite Hr. by auto.
Qed.
Lemma steady_io_call {A} (f : fs_call A) : steady (io_call f).
Proof. intros s Hs. by apply wp_io_call. Qed.
Lemma steady_io {A} p (f : fs_call A) : steady (io p f).
Proof. apply steady_bind; [apply steady_io_call|intros; apply steady_ret]. Qed.
Lemma steady_exists p : steady (exists_ p).
Proof. intros s Hs. by apply wp_exists. Qed.
Lemma steady_write p b : steady (Store.write_call p b).
Proof.
  intros s Hs. unfold wp, Store.write_call. destruct (io_fault (calls s)); [by eexists _, _|].
  by apply steady_io_call.
Qed.
Lemma steady_sql {A} (f : Tables → result SqlError (A * Tables)) :
  (∀ t a t', f t = Ok (a, t') → t_programs t' = t_programs t ∧ t_events_seq t' = t_events_seq t) →
  steady (sql f).
Proof.
  intros Hf s Hs. apply wp_sql; [done|done|]. intros t a t' Ht Hr. split; [by eexists|].
  unfold same_log_ids, rows. rewrite Ht. simpl. by eapply Hf.
Qed.

Lemma steady_atomic_write p b : steady (atomic_write p b).
Proof.
  unfold atomic_write. apply steady_sbind; [apply steady_io|intros _].
  apply steady_sbind.
  { apply steady_bind; [apply steady_write|intros r; apply steady_ret]. }
  intros _. apply steady_bind; [intros s Hs; by apply wp_modify|intros _; apply steady_io].
Qed.

Lemma steady_put_asset b ext now : steady (put_asset b ext now).
Proof.
  intros s Hs. unfold put_asset. do 3 wp_step.
  destruct (asset_blob_path_ret (data_root s) (of_bytes b) ext (sha2_shape b))
    as (p & d & Hp & Hd).
  rewrite Hp. do 2 wp_step.
  apply (wp_mono _ (λ _, same_table s) _ s); [by apply steady_exists|].
  intros found s1 (Ht1 & Hp1 & Hq1).
  apply (wp_mono _ (λ _, same_table s1)).
  2: { intros r s2 (Ht2 & Hp2 & Hq2). unfold same_table, same_log_ids in *.
       by rewrite <-Hp1, <-Hq1. }
  revert Ht1. generalize s1. match goal with |- ∀ s, _ → wp ?m _ s => change (steady m) end.
  apply steady_sbind.
  - destruct found; [apply steady_ret|]. intros s2 Hs2. wp_step. eapply wp_unwrap; [done|].
    revert Hs2. generalize s2. match goal with |- ∀ s, _ → wp ?m _ s => change (steady m) end.
    apply steady_sbind; [apply steady_io|intros _].
    apply steady_sbind; [apply steady_atomic_write|intros _]. apply steady_ret.
  - intros created. apply steady_sbind; [|intros; apply steady_ret]. apply steady_sql.
    intros t a t'. destruct (existsb _ _); by intros [= <- <-].
Qed.

Lemma steady_read_blob p :
  steady (f ← io_call (read_file p);
          match f with
          | Ok _ => buf ←! io p (read_file p); sok (Some buf)
          | Err NotFound => sok None
          | Err e => serr (StoreIo p e)
          end).
Proof.
  apply steady_bind; [apply steady_io_call|].
  intros [b|[| |m]]; [apply steady_sbind; [apply steady_io|]|..]; intros; apply steady_ret.
Qed.

Lemma steady_get_asset h : shardable h = true → steady (get_asset h).
Proof.
  intros Hh s Hs. unfold get_asset. wp_step.
  assert (∀ root e, ∃ p, asset_blob_path root h e = Ret p) as Hpath.
  { intros root e. unfold asset_blob_path. rewrite Hh. by eexists. }
  apply wp_sql_call; [intros e|intros e db Hdb]; cbv zeta; do 3 wp_step;
    match goal with |- context [asset_blob_path ?r ?h ?e] =>
      destruct (Hpath r e) as [p ->] end; wp_step.
  - apply (wp_mono _ (λ _, same_table (bump s))); [by apply steady_read_blob|done].
  - destruct Hs as [t Ht]. unfold on_tables in Hdb. rewrite Ht in Hdb.
    apply (wp_mono _ (λ _, same_table (set_conn db (bump s)))).
    + apply steady_read_blob. destruct (List.filter _ _); simpl in Hdb; simplify_eq. by eexists.
    + intros r s' (Ht' & Hp & Hq). unfold same_table, same_log_ids in *. rewrite Hp, Hq.
      unfold rows. rewrite Ht. simpl. destruct (List.filter _ _); simpl in Hdb; by simplify_eq.
Qed.

Lemma calm_steady {A} (m : ST Store A) : keeps m → steady m → calm m.
Proof.
  intros Hk Hm s Hs Ht. right. destruct (wp_and _ _ _ _ (Hk s Hs) (Hm s Ht))
    as (r & s' & Hr & Hs' & Ht' & Hp & Hq).
  exists r, s'. split_and!; [done..|]. split_and!; [done|done| |done].
  rewrite !view_rows. by rewrite Hp.
Qed.
Lemma calm_ret {A} (a : A) : calm (mret a).
Proof. intros s Hs Ht. right. by exists a, s. Qed.
Lemma calm_bind {A B} (m : ST Store A) (f : A → ST Store B) :
  calm m → (∀ a, calm (f a)) → calm (m ≫= f).
Proof.
  intros Hm Hf s Hs Ht. destruct (Hm s Hs Ht) as [Hp|(a & s1 & H1' & Hs1 & Ht1 & Hv1 & Hq1)].
  { left. unfold mbind, ST_bind. by rewrite Hp. }
  rewrite (ST_bind_step _ _ _ _ _ H1').
  destruct (Hf a s1 Hs1 Ht1) as [Hp|(b & s2 & H2' & Hs2 & Ht2 & Hv2 & Hq2)]; [by left|].
  right. exists b, s2. unfold same_programs, same_log_ids in *. split_and!; [done..|congruence|congruence].
Qed.
Lemma calm_sbind {E A B} (m : ST Store (result E A)) (f : A → ST Store (result E B)) :
  calm m → (∀ a, calm (f a)) → calm (sbind m f).
Proof. intros Hm Hf. apply calm_bind; [done|]. intros [a|e]; [done|apply calm_ret]. Qed.
Lemma calm_try_fold {E A B} (f : A → B → ST Store (result E A)) acc l :
  (∀ acc x, calm (f acc x)) → calm (try_fold f acc l).
Proof.
  intros Hf. revert acc. induction l as [|x l IH]; intros acc; simpl; [apply calm_ret|].
  apply calm_sbind; [done|]. intros a. apply IH.
Qed.

(** *** Materialization *)

Lemma calm_get_asset h : calm (get_asset h).
Proof.
  destruct (shardable h) eqn:Hh; [|by intros s _ _; left; apply get_asset_panics].
  apply calm_steady; [by apply keeps_get_asset|by apply steady_get_asset].
Qed.
Lemma calm_put_asset b ext now : calm (put_asset b ext now).
Proof. apply calm_steady; [apply keeps_put_asset|apply steady_put_asset]. Qed.
Lemma calm_io_call {A} (f : fs_call A) : calm (io_call f).
Proof. apply calm_steady; [apply keeps_io_call|apply steady_io_call]. Qed.

Lemma calm_image_ref image base now out : calm (materialize_image_ref image base now out).
Proof.
  unfold materialize_image_ref. destruct (strip_prefix _ _) as [h|].
  - apply calm_sbind.
    { apply calm_bind; [apply calm_get_asset|intros r; apply calm_ret]. }
    intros [b|]; apply calm_ret.
  - apply calm_sbind; [destruct (absolute _), base; apply calm_ret|]. intros p.
    apply calm_sbind; [apply calm_bind; [apply calm_io_call|intros r; apply calm_ret]|].
    intros b. apply calm_sbind; [|intros; apply calm_ret].
    apply calm_bind; [apply calm_put_asset|intros r; apply calm_ret].
Qed.
Lemma calm_predicate p base now out : calm (materialize_predicate p base now out).
Proof.
  destruct p; try apply calm_ret. apply calm_sbind; [apply calm_image_ref|].
  intros r. apply calm_ret.
Qed.
Lemma calm_materialize p base now : calm (materialize_template_assets p base now).
Proof.
  unfold materialize_template_assets. apply calm_sbind.
  { apply calm_try_fold. intros acc kv. unfold materialize_named.
    apply calm_sbind; [apply calm_predicate|intros r; apply calm_ret]. }
  intros [ps out]. apply calm_sbind; [|intros [ws out']; apply calm_ret].
  apply calm_try_fold. intros acc w. unfold materialize_watch. destruct (w_when w).
  - apply calm_ret.
  - apply calm_sbind; [apply calm_predicate|intros r; apply calm_ret].
Qed.

(** *** What the materialized program refers to *)

(** A template's image is a digest whose bytes are at hand. *)
Definition materialized (out : MaterializedAssets) (q : PredicateKind) : Prop :=
  match q with
  | Template image _ _ _ =>
      ∃ h, image = "sha256:" +:+ h ∧ is_Some (ma_bytes out !! h) ∧ h ∈ ma_hashes out
  | _ => True
  end.
(** Nothing but images is rewritten. *)
Definition same_but_image (q q' : PredicateKind) : Prop :=
  match q, q' with
  | Template _ c r t, Template _ c' r' t' => c = c' ∧ r = r' ∧ t = t'
  | _, _ => q = q'
  end.
Definition grows (out out' : MaterializedAssets) : Prop :=
  dom (ma_bytes out) ⊆ dom (ma_bytes out') ∧ ma_hashes out ⊆ ma_hashes out'.

Lemma grows_refl out : grows out out.
Proof. by split. Qed.
Lemma grows_insert h b out : grows out (materialized_insert h b out).
Proof.
  unfold materialized_insert. split; simpl.
  - destruct (ma_bytes out !! h); [done|]. rewrite dom_insert. set_solver.
  - case_bool_decide; [done|]. set_solver.
Qed.
Lemma materialized_insert_in h b out :
  is_Some (ma_bytes (materialized_insert h b out) !! h) ∧ h ∈ ma_hashes (materialized_insert h b out).
Proof.
  unfold materialized_insert. split; simpl.
  - destruct (ma_bytes out !! h) eqn:Hh; [by rewrite Hh|]. rewrite lookup_insert_eq. by eexists.
  - case_bool_decide; [done|]. set_solver.
Qed.
Lemma materialized_mono out out' q : grows out out' → materialized out q → materialized out' q.
Proof.
  intros [Hb Hh]. destruct q; try done. intros (h & -> & Hin & Hl). exists h.
  split_and!; [done| |by apply Hh]. apply elem_of_dom. apply Hb. by apply elem_of_dom.
Qed.

Lemma predicate_materialized q base now out s q' out' s' :
  materialize_predicate q base now out s = Ret (Ok (q', out'), s') →
  materialized out' q' ∧ same_but_image q q' ∧ grows out out'.
Proof.
  destruct q; try (by intros [= <- <- _]; split; [done|split; [done|apply grows_refl]]).
  cbn [materialize_predicate]. intros ([i o] & s1 & Hr & Hd)%sbind_Ok.
  injection Hd as <- <- _. simpl. unfold materialize_image_ref in Hr.
  destruct (strip_prefix "sha256:" image) as [h|] eqn:Hi.
  - apply sbind_Ok in Hr as (found & s2 & _ & Hr). destruct found as [b|]; [|done].
    injection Hr as <- <- _. split; [|split; [done|apply grows_insert]].
    apply strip_prefix_Some in Hi as ->. exists h. split; [done|]. apply materialized_insert_in.
  - do 3 (apply sbind_Ok in Hr as (? & ? & _ & Hr)). injection Hr as <- <- _.
    split; [|split; [done|apply grows_insert]]. eexists. split; [done|].
    apply materialized_insert_in.
Qed.

(** An invariant of a fold that came to its end. *)
Lemma try_fold_Ok {E A B} (f : A → B → ST Store (result E A)) (I : A → list B → Prop) acc l s r s' :
  I acc l →
  (∀ acc x l s acc' s', I acc (x :: l) → f acc x s = Ret (Ok acc', s') → I acc' l) →
  try_fold f acc l s = Ret (Ok r, s') → I r [].
Proof.
  intros HI Hf. revert acc s HI. induction l as [|x l IH]; intros acc s HI; simpl.
  { by intros [= -> _]. }
  intros (acc' & s1 & H1' & H2')%sbind_Ok. eauto.
Qed.

(** What [p'] has in common with the program [p] it was made from. *)
Record rewritten (p p' : Program) (out : MaterializedAssets) : Prop := {
  rw_rest : p' = with_predicates (p_predicates p') (p_watches p') p;
  rw_predicates : ∀ k q', p_predicates p' !! k = Some q' →
    materialized out q' ∧ ∃ q, p_predicates p !! k = Some q ∧ same_but_image q q';
  rw_names : dom (p_predicates p') = dom (p_predicates p);
  rw_watches : Forall2 (λ w w',
    w_steps w = w_steps w' ∧ w_throttle_ms w = w_throttle_ms w' ∧ w_lifetime w = w_lifetime w' ∧
    match w_when w, w_when w' with
    | Inline q, Inline q' => materialized out q' ∧ same_but_image q q'
    | a, b => a = b
    end) (p_watches p) (p_watches p');
}.

Lemma materialize_rewrites p base now s p' out s' :
  materialize_template_assets p base now s = Ret (Ok (p', out), s') → rewritten p p' out.
Proof.
  unfold materialize_template_assets.
  intros ([ps out1] & s1 & Hps & Hws)%sbind_Ok. apply sbind_Ok in Hws as ([ws out2] & s2 & Hws & Hd).
  injection Hd as <- <- _.
  set (I1 := λ (acc : Predicates * MaterializedAssets) (l : list (string * PredicateKind)),
    dom acc.1 = dom (p_predicates p) ∧ (∀ k q, (k, q) ∈ l → p_predicates p !! k = Some q) ∧
    ∀ k q', acc.1 !! k = Some q' → k ∉ l.*1 →
      materialized acc.2 q' ∧ ∃ q, p_predicates p !! k = Some q ∧ same_but_image q q').
  assert (I1 (ps, out1) []) as (Hdom & _ & Hgood).
  { eapply (try_fold_Ok (materialize_named base now) I1); [| |exact Hps].
    - split_and!; [done|intros k q; by rewrite elem_of_btree_entries|].
      intros k q' Hk Hnot. destruct Hnot. apply list_elem_of_fmap. exists (k, q').
      split; [done|]. by apply elem_of_btree_entries.
    - clear Hps Hws. intros [qs o0] [k q] l s0 [qs' o'] s0' (Hdom & Hl & Hgood).
      unfold materialize_named. intros ([q' o] & s3 & Hq & Hd)%sbind_Ok.
      injection Hd as <- <- _. simpl in *.
      apply predicate_materialized in Hq as (Hm & Hsame & Hgrow).
      assert (p_predicates p !! k = Some q) as Hk by (apply Hl; by left).
      split_and!; simpl.
      + rewrite dom_insert_L, Hdom. apply elem_of_dom_2 in Hk. set_solver.
      + intros. apply Hl. by right.
      + intros j qj Hj Hnot. destruct (decide (j = k)) as [->|Hjk].
        * rewrite lookup_insert_eq in Hj. simplify_eq. eauto.
        * rewrite lookup_insert_ne in Hj by done. destruct (Hgood j qj Hj) as [Hmj Hqj]; [set_solver|].
          split; [by eapply materialized_mono|done]. }
  set (R := λ out (w w' : Watch),
    w_steps w = w_steps w' ∧ w_throttle_ms w = w_throttle_ms w' ∧ w_lifetime w = w_lifetime w' ∧
    match w_when w, w_when w' with
    | Inline q, Inline q' => materialized out q' ∧ same_but_image q q'
    | a, b => a = b
    end).
  set (I2 := λ (acc : list Watch * MaterializedAssets) (l : list Watch),
    grows out1 acc.2 ∧ ∃ done, p_watches p = done ++ l ∧ Forall2 (R acc.2) done acc.1).
  assert (I2 (ws, out2) []) as (Hgrow & done & Hdone & Hwatch).
  { eapply (try_fold_Ok (materialize_watch base now) I2); [| |exact Hws].
    - split; [apply grows_refl|]. exists []. by split; [|constructor].
    - clear Hws. intros [vs o0] w l s0 [vs' o'] s0' (Hgrow & done & Hdone & Hfa).
      assert (∀ o, grows o0 o → Forall2 (R o) done vs) as Hmono.
      { intros o Ho. eapply Forall2_impl; [exact Hfa|]. intros w1 w2 (? & ? & ? & Hw).
        split_and!; [done..|]. destruct (w_when w1), (w_when w2); try done.
        destruct Hw as [Hm ?]. split; [by eapply materialized_mono|done]. }
      unfold materialize_watch. destruct (w_when w) as [n|q] eqn:Hwhen.
      + intros [= <- <- _]. split; [done|]. exists (done ++ [w]). split; [by rewrite <-app_assoc|].
        apply Forall2_app; [done|]. constructor; [|constructor]. unfold R. by rewrite Hwhen.
      + intros ([q' o] & s3 & Hq & Hd)%sbind_Ok. injection Hd as <- <- _. simpl in *.
        apply predicate_materialized in Hq as (Hm & Hsame & Hgo). split; simpl.
        { destruct Hgrow, Hgo. split; set_solver. }
        exists (done ++ [w]). split; [by rewrite <-app_assoc|].
        apply Forall2_app; [by apply Hmono|]. constructor; [|constructor]. unfold R. by rewrite Hwhen. }
  rewrite app_nil_r in Hdone. split; simpl.
  - done.
  - intros k q' Hk. destruct (Hgood k q' Hk) as [Hm Hq]; [simpl; set_solver|].
    split; [by eapply materialized_mono|done].
  - done.
  - by rewrite Hdone.
Qed.
End calm.

(** ** The closure under the lock *)

Section submit.
Context `{NfcOps, RyuOps, UuidOps, !UuidLaws, JsonText, Host, !Reliable, Sha2, !Sha2Laws}.
Context `{DaemonHost, SerdeOps, SerdeMessage, Surroundings, Subscriptions, OpDebug}.

(** A statement that gives out no ids. *)
Lemma wp_sql_ids {A} (f : Tables → result SqlError (A * Tables)) s :
  is_Some (tables (conn s)) →
  (∀ t a t', f t = Ok (a, t') → t_events_seq t' = t_events_seq t) →
  wp (sql f) (λ _, same_log_ids s) s.
Proof.
  intros Hs Hf. apply wp_sql; [done|done|]. intros t a t' Ht Hr.
  unfold same_log_ids, rows. rewrite Ht. simpl. by eapply Hf.
Qed.
Lemma insert_program_ids p s :
  is_Some (tables (conn s)) → wp (Store.insert_program p) (λ _, same_log_ids s) s.
Proof.
  intros Hs. apply wp_sql_ids; [done|]. intros t a t'. cbv beta zeta.
  destruct (Store.program_exists _ _); by intros [= <- <-].
Qed.

Lemma link_all pid l s :
  disk_ok s → is_Some (tables (conn s)) → is_Some (view s !! pid) →
  wp (try_fold (λ _ hash, on_error internal_payload (link_program_asset pid hash)) () l)
    (on_result (λ _, same_programs s) (λ _ _, False)) s.
Proof.
  intros Hs Ht [row Hrow].
  apply (wp_try_fold _ (λ _ _ s', same_programs s s')).
  { done. }
  intros [] h l' s1 (Hs1 & [t Ht1] & Hv1 & Hq1). unfold on_error. wp_step.
  eapply wp_mono; [apply wp_and; [by apply keeps_link_program_asset|]|].
  - instantiate (1 := λ r s', is_ok r = true ∧ is_Some (tables (conn s')) ∧ view s' = view s ∧
      same_log_ids s s').
    unfold link_program_asset. apply (wp_sql_at t); [done|by intros e; rewrite no_sql_fault|].
    unfold same_log_ids, rows in *. rewrite Ht1 in Hq1. rewrite <-Hq1, <-Hv1, (view_at t s1 Ht1).
    cbv zeta. destruct (existsb _ _).
    { split_and!; [done|by eexists|done|done]. }
    destruct (program_exists _ t) eqn:Hp; simpl.
    + split_and!; [done|by eexists|done|done].
    + apply program_exists_false in Hp. rewrite <-Hv1, (view_at t s1 Ht1) in Hrow.
      pose proof (Hs1 t Ht1) as Hok.
      apply view_of_None in Hp; [|by destruct Hok..]. by rewrite Hp in Hrow.
  - intros r s' [Hs' (Hr & Ht' & Hv' & Hq')]. destruct r as [[]|e]; [|done]. apply wp_ret. simpl.
    by split_and!.
Qed.

(** Under the lock: panics, or refuses and the programs are as before, or
    inserts the one row. *)
Lemma submit_locked_cases pid name p base now s :
  disk_ok s → is_Some (tables (conn s)) →
  submit_locked pid name p base now s = Panic ∨
  (∃ payload s', submit_locked pid name p base now s = Ret (Err payload, s') ∧
     same_programs s s') ∨
  (∃ p' out text s', submit_locked pid name p base now s = Ret (Ok (p', ma_bytes out), s') ∧
     rewritten p p' out ∧ canonicalize (Program_to_value p') = Ok text ∧
     view s !! pid = None ∧ disk_ok s' ∧ is_Some (tables (conn s')) ∧ same_log_ids s s' ∧
     view s' = <[pid := fresh_row (mkNewProgram pid name text Pending now "{}")]> (view s)).
Proof.
  intros Hs Ht. unfold submit_locked, on_error.
  destruct (calm_materialize p base now s Hs Ht) as [Hp|(m & s1 & Hm & Hs1 & Ht1 & Hv1 & Hq1)].
  { left. unfold sbind, mbind, ST_bind. by rewrite Hp. }
  right. destruct m as [[p' out]|e].
  2: { left. exists (AssetMaterializeError_payload e), s1. split; [|done].
       erewrite sbind_stop; [reflexivity|]. by rewrite (ST_bind_step _ _ _ _ _ Hm). }
  erewrite sbind_step by (by rewrite (ST_bind_step _ _ _ _ _ Hm)). cbn [map_err].
  pose proof (materialize_rewrites _ _ _ _ _ _ _ Hm) as Hrw.
  destruct (canonicalize (Program_to_value p')) as [text|e] eqn:Htext.
  2: { left. eexists _, s1. split; [by erewrite sbind_stop by done|done]. }
  erewrite sbind_step by done.
  set (row := mkNewProgram pid name text Pending now "{}").
  destruct (wp_and _ _ _ _ (keeps_insert_program row s1 Hs1)
    (wp_and _ _ _ _ (insert_program_ids row s1 Ht1) (insert_program_meets row s1 Hs1 Ht1)))
    as (r & s2 & Hins & Hs2 & Hq2 & Ht2 & Hagree).
  destruct r as [[]|e]; unfold agrees in Hagree.
  2: { left. exists (internal_payload e), s2. destruct Hagree as [Hv _].
       split; [|split_and!; [done|done|by rewrite Hv|by unfold same_log_ids in *; congruence]].
       by erewrite sbind_stop by (by rewrite (ST_bind_step _ _ _ _ _ Hins)). }
  erewrite sbind_step by (by rewrite (ST_bind_step _ _ _ _ _ Hins)). cbn [map_err].
  cbn [spec row np_id] in Hagree. rewrite Hv1 in Hagree.
  destruct (view s !! pid) eqn:Hpid; [done|]. injection Hagree as Hv2.
  destruct (link_all pid (ma_hashes out) s2 Hs2 Ht2) as ([[]|e] & s3 & Hlink & Hl);
    [rewrite <-Hv2, lookup_insert_eq; by eexists| |done].
  right. destruct Hl as (Hs3 & Ht3 & Hv3 & Hq3). exists p', out, text, s3.
  erewrite sbind_step by exact Hlink. unfold same_log_ids in *.
  split_and!; [done..|congruence|by rewrite Hv3].
Qed.

(** All commands ever sent to the scheduler. *)
Definition commands (d : Daemon) : list SchedulerCommand :=
  taken (d_cmds d) ++ queued (d_cmds d).

(** With the scheduler running a send succeeds, at once or after a wait. *)
Lemma cmd_send_receiving cmd d :
  receiver (d_cmds d) = Receiving →
  ∃ d', cmd_send cmd d = Ret (Ok (), d') ∧ commands d' = commands d ++ [cmd] ∧
    d_store d' = d_store d ∧ receiver (d_cmds d') = Receiving.
Proof using.
  intros Hr. unfold cmd_send. rewrite Hr. destruct (Nat.ltb_spec (length (queued (d_cmds d))) CMD_CAPACITY).
  - eexists. split; [reflexivity|]. unfold commands. simpl. by rewrite app_assoc.
  - eexists. split; [reflexivity|]. unfold commands. simpl. split; [|done].
    rewrite !app_assoc. f_equal. rewrite <-app_assoc. by rewrite take_drop.
Qed.

Lemma locked_task_Ret {A} (m : ST Store A) d s a s' :
  d_store d = Some s → m s = Ret (a, s') →
  locked_task m d = Ret (Some a, set_store (Some s') d).
Proof using. intros Hd Hm. unfold locked_task. by rewrite Hd, Hm. Qed.
Lemma locked_task_Panic {A} (m : ST Store A) d s :
  d_store d = Some s → m s = Panic → locked_task m d = Ret (None, set_store None d).
Proof using. intros Hd Hm. unfold locked_task. by rewrite Hd, Hm. Qed.

(** The id of the program: its own, or a fresh one. *)
Lemma program_id_chosen (p : Program) d :
  ∃ pid d', match p_id p with
            | Some pid => mret pid
            | None => u ← ask new_uuid; mret (mkProgramId u)
            end d = Ret (pid, d') ∧
    (∀ i, p_id p = Some i → pid = i) ∧ d_store d' = d_store d ∧ d_cmds d' = d_cmds d.
Proof.
  destruct (p_id p) as [i|].
  - exists i, d. split_and!; [done|by intros ? [= <-]|done|done].
  - eexists _, _. split; [reflexivity|]. done.
Qed.

Lemma validate_value_total v : ∃ r, validate_value v = Ret r.
Proof.
  unfold validate_value. apply obind_total; [by eexists|]. intros p _. apply finish_total.
Qed.

(** C5: With the scheduler running and a host that does not fail, [submit]
    always answers, and either the document is no valid program and nothing
    at all has changed; or it is refused later (an image that cannot be had,
    an id that is taken) and the scheduler is told nothing while the programs
    in the store are as before, unless the store was poisoned; or the answer
    is the id, the store has exactly one more row, pending, with the canonical
    text, and the scheduler is sent the program with every template image
    replaced by a digest whose bytes travel with it. *)
Theorem submit_all_or_nothing id json base d s :
  d_store d = Some s → disk_ok s → is_Some (tables (conn s)) →
  receiver (d_cmds d) = Receiving →
  ∃ resp d', handle_submit id json base d = Ret (resp, d') ∧
    ((∃ e, validate_value json = Ret (Err e) ∧
        resp = Response_err id (DslError.to_payload e) ∧ d' = d) ∨
     (∃ v payload, validate_value json = Ret (Ok v) ∧ resp = Response_err id payload ∧
        commands d' = commands d ∧
        (d_store d' = None ∨ ∃ s', d_store d' = Some s' ∧ same_programs s s')) ∨
     (∃ v pid p' out text now s', validate_value json = Ret (Ok v) ∧
        (∀ i, p_id (v_program v) = Some i → pid = i) ∧
        resp = Response_ok id (Obj [("program_id", Str (ProgramId_to_string pid));
                                    ("name", Str (p_name (v_program v)))]) ∧
        rewritten (v_program v) p' out ∧ canonicalize (Program_to_value p') = Ok text ∧
        d_store d' = Some s' ∧ disk_ok s' ∧ view s !! pid = None ∧
        view s' = <[pid := fresh_row (mkNewProgram pid (p_name (v_program v)) text Pending now
                                        "{}")]> (view s) ∧
        commands d' = commands d ++ [Scheduler.SubmitValidated pid p' (ma_bytes out)])).
Proof.
  intros Hd Hs Ht Hrec. unfold handle_submit.
  destruct (validate_value_total json) as [[v|e] Hv].
  2: { erewrite ST_bind_step by (unfold slift; by rewrite Hv). eexists _, _. split; [reflexivity|].
       left. by exists e. }
  erewrite ST_bind_step by (unfold slift; by rewrite Hv). cbv beta iota zeta.
  destruct (program_id_chosen (v_program v) d) as (pid & d1 & Hpid & Hid & Hst & Hq).
  erewrite ST_bind_step by exact Hpid. set (now := clock_ms (d_reads d1)).
  set (d2 := mkDaemon (d_store d1) (d_cmds d1) (d_events d1) (d_broadcast d1)
               (d_shutdown_armed d1) (d_shutdown_fired d1) (d_reads d1 + 1)).
  rewrite (ST_bind_step _ _ d1 now d2) by done.
  assert (d_store d2 = Some s) as Hd2 by by simpl; rewrite Hst.
  assert (commands d2 = commands d) as Hc2 by by unfold commands; simpl; rewrite Hq.
  destruct (submit_locked_cases pid (p_name (v_program v)) (v_program v) (path_of_string <$> base)
    now s Hs Ht) as [Hp|[(payload & s' & Hrun & Hsame)|(p' & out & text & s' & Hrun & Hrw & Htext &
      Hnew & Hs' & Ht' & _ & Hview)]].
  - rewrite (ST_bind_step _ _ _ _ _ (locked_task_Panic _ _ _ Hd2 Hp)). eexists _, _.
    split; [reflexivity|]. right; left. eexists v, _. split_and!; [done|reflexivity|done|by left].
  - rewrite (ST_bind_step _ _ _ _ _ (locked_task_Ret _ _ _ _ _ Hd2 Hrun)). eexists _, _.
    split; [reflexivity|]. right; left. exists v, payload. split_and!; [done|done|done|].
    right. by exists s'.
  - rewrite (ST_bind_step _ _ _ _ _ (locked_task_Ret _ _ _ _ _ Hd2 Hrun)). cbv beta iota.
    destruct (cmd_send_receiving (Scheduler.SubmitValidated pid p' (ma_bytes out))
      (set_store (Some s') d2)) as (d3 & Hsend & Hc3 & Hst3 & _); [by simpl; rewrite Hq|].
    rewrite (ST_bind_step _ _ _ _ _ Hsend). eexists _, _. split; [reflexivity|]. right; right.
    exists v, pid, p', out, text, now, s'. split_and!; try done.
    by rewrite Hc3, <-Hc2.
Qed.

(** The images of a program, in the order they are materialized: those of the
    predicates in the order of their names, then those written in watches. *)
Definition image_of (p : PredicateKind) : option string :=
  match p with Template image _ _ _ => Some image | _ => None end.
Definition watch_image (w : Watch) : option string :=
  match w_when w with Inline p => image_of p | ByName _ => None end.
Definition template_images (p : Program) : list string :=
  omap (λ kv, image_of kv.2) (btree_entries (p_predicates p)) ++ omap watch_image (p_watches p).

(** A loop that comes to its first image, if it has one. *)
Lemma try_fold_images {E A B} (f : A → B → ST Store (result E A)) (image : B → option string)
    bad l a s :
  (∀ a b s, image b = None → ∃ a', f a b s = Ret (Ok a', s)) →
  (∀ a b s, image b = Some bad → f a b s = Panic) →
  (omap image l = [] → ∃ a', try_fold f a l s = Ret (Ok a', s)) ∧
  (head (omap image l) = Some bad → try_fold f a l s = Panic).
Proof using.
  intros Hskip Hbad. revert a. induction l as [|b l IH]; intros a; simpl.
  { split; [by eexists|done]. }
  destruct (image b) as [x|] eqn:Hb; simpl.
  - split; [done|]. intros [= ->]. unfold sbind, mbind, ST_bind. by rewrite Hbad.
  - destruct (Hskip a b s Hb) as [a' Ha']. unfold sbind, mbind, ST_bind. rewrite Ha'. apply IH.
Qed.

Lemma materialize_predicate_first hex p base now out s :
  shardable hex = false →
  (image_of p = None → materialize_predicate p base now out s = Ret (Ok (p, out), s)) ∧
  (image_of p = Some ("sha256:" +:+ hex) → materialize_predicate p base now out s = Panic).
Proof.
  intros Hhex. destruct p; simpl; (split; [done|]); try done. intros [= ->].
  unfold sbind, mbind, ST_bind, materialize_image_ref.
  rewrite (proj2 (strip_prefix_Some "sha256:" _ hex) eq_refl).
  unfold sbind, on_store, mbind, ST_bind. by rewrite get_asset_panics.
Qed.

Lemma materialize_panics hex p base now s :
  shardable hex = false → head (template_images p) = Some ("sha256:" +:+ hex) →
  materialize_template_assets p base now s = Panic.
Proof.
  intros Hhex. unfold template_images, materialize_template_assets.
  destruct (try_fold_images (materialize_named base now) (λ kv, image_of kv.2) ("sha256:" +:+ hex)
    (btree_entries (p_predicates p)) (p_predicates p, materialized_empty) s) as [Hnone Hsome].
  { intros a b s' Hb. unfold materialize_named, sbind, mbind, ST_bind.
    rewrite (proj1 (materialize_predicate_first hex b.2 base now a.2 s' Hhex) Hb). by eexists. }
  { intros a b s' Hb. unfold materialize_named, sbind, mbind, ST_bind.
    by rewrite (proj2 (materialize_predicate_first hex b.2 base now a.2 s' Hhex) Hb). }
  destruct (omap (λ kv, image_of kv.2) _) as [|x l]; simpl.
  - intros Hw. destruct (Hnone eq_refl) as [[ps out] Hrun].
    unfold sbind at 1, mbind, ST_bind. rewrite Hrun. cbv beta iota.
    destruct (try_fold_images (materialize_watch base now) watch_image ("sha256:" +:+ hex)
      (p_watches p) ([], out) s) as [_ Hbad].
    { intros a w s' Hw'. unfold watch_image in Hw'. unfold materialize_watch.
      destruct (w_when w); [by eexists|]. unfold sbind, mbind, ST_bind.
      rewrite (proj1 (materialize_predicate_first hex _ base now a.2 s' Hhex) Hw'). by eexists. }
    { intros a w s' Hw'. unfold watch_image in Hw'. unfold materialize_watch.
      destruct (w_when w); [done|]. unfold sbind, mbind, ST_bind.
      by rewrite (proj2 (materialize_predicate_first hex _ base now a.2 s' Hhex) Hw'). }
    unfold sbind, mbind, ST_bind. cbn [outcome_bind]. by rewrite Hbad.
  - intros [= ->]. unfold sbind at 1, mbind, ST_bind. by rewrite Hsome.
Qed.

(** C35: A submission can take the store away from everybody.  A program that
    validates and whose first image (of its predicates in the order of their
    names, then of its watches) is [sha256:] followed by fewer than four
    bytes, or by text with a character across the second or fourth byte, panics
    the task that holds the store's lock: the client gets an internal error,
    and from then on the store is out of reach for good, every status request
    is answered with an internal error, and the pump dies on the next event
    about a program. *)
Theorem short_digest_poisons_store id json base d s v hex :
  d_store d = Some s → validate_value json = Ret (Ok v) →
  head (template_images (v_program v)) = Some ("sha256:" +:+ hex) →
  shardable hex = false →
  ∃ d', handle_submit id json base d = Ret (task_panicked id, d') ∧ d_store d' = None ∧
    (∀ rid pid, ∃ d'', handle_status rid pid d' = Ret (task_panicked rid, d'') ∧
       d_store d'' = None) ∧
    (∀ ev, is_Some (program_id_of (ev_data ev)) → pump_event ev d' = Panic).
Proof.
  intros Hd Hv Hps Hhex. unfold handle_submit.
  erewrite ST_bind_step by (unfold slift; by rewrite Hv). cbv beta iota zeta.
  destruct (program_id_chosen (v_program v) d) as (pid & d1 & Hpid & _ & Hst & _).
  erewrite ST_bind_step by exact Hpid. set (now := clock_ms (d_reads d1)).
  set (d2 := mkDaemon (d_store d1) (d_cmds d1) (d_events d1) (d_broadcast d1)
               (d_shutdown_armed d1) (d_shutdown_fired d1) (d_reads d1 + 1)).
  rewrite (ST_bind_step _ _ d1 now d2) by done.
  assert (d_store d2 = Some s) as Hd2 by by simpl; rewrite Hst.
  assert (submit_locked pid (p_name (v_program v)) (v_program v) (path_of_string <$> base) now s
          = Panic) as Hpanic.
  { unfold submit_locked, on_error. unfold sbind, mbind, ST_bind.
    by rewrite (materialize_panics hex). }
  rewrite (ST_bind_step _ _ _ _ _ (locked_task_Panic _ _ _ Hd2 Hpanic)). eexists.
  split; [reflexivity|]. split; [done|]. split.
  - intros rid p. by eexists.
  - intros ev [i Hi]. unfold pump_event. rewrite Hi. done.
Qed.
End submit.
