(* ===== verification/LiveSpec.v ===== *)
(** * The daemon under any interleaving

    Requests, scheduler and pump share one daemon.  What is in the rows of the
    store, moved on by the events that are still on their way, is at every
    moment what the scheduler holds; and a shutdown, once triggered, runs to
    the exit of the process. *)

From S2P Require Import Prelude Json CoreTypes Sha256 Canonical Serde DslError DslValidate EventWire.
From S2P Require Import IpcWire Host FrameView Perception Input Capture Clock Runtime.
From S2P Require Import Wp Store StoreSpec StoreGc StoreMap StoreOpen StoreLog Materialize Ipc.
From S2P Require Import Daemon Boot PumpSpec SubmitSpec.
From S2P Require Import Scheduler SchedulerSpec SystemSpec Live.

Local Open Scope vcli_scope.
#[local] Set Default Proof Using "Type*".

(** ** Relations between the states before and after *)

(** Whenever [m] returns, [R] holds between the states. *)
Definition does {S A} (R : relation S) (m : ST S A) : Prop :=
  ∀ s a s', m s = Ret (a, s') → R s s'.

Section does.
Context {S : Type} {R : relation S} `{!PreOrder R}.

Lemma does_ret {A} (a : A) : does R (mret a).
Proof. intros s b s' [= <- <-]. done. Qed.
Lemma does_bind {A B} (m : ST S A) (f : A → ST S B) :
  does R m → (∀ a, does R (f a)) → does R (m ≫= f).
Proof.
  intros Hm Hf s b s' (a & s1 & Hs & Hr)%ST_bind_Ret. trans s1; [by eapply Hm|by eapply Hf].
Qed.
Lemma does_get : does R get.
Proof. intros s a s' [= <- <-]. done. Qed.
Lemma does_slift {A} (o : outcome A) : does R (slift o).
Proof. intros s a s'. unfold slift. destruct o; by intros [= <- <-]. Qed.
Lemma does_unwrap {A} (o : option A) : does R (unwrap o).
Proof. destruct o; [apply does_ret|done]. Qed.
Lemma does_unwrap_all {A B} (f : A → option B) l : does R (unwrap_all f l).
Proof.
  induction l as [|x l IH]; simpl; [apply does_ret|].
  apply does_bind; [apply does_unwrap|]. intros y. apply does_bind; [done|]. intros; apply does_ret.
Qed.
Lemma does_sbind {E A B} (m : ST S (result E A)) (f : A → ST S (result E B)) :
  does R m → (∀ a, does R (f a)) → does R (sbind m f).
Proof. intros Hm Hf. apply does_bind; [done|]. intros [a|e]; [done|apply does_ret]. Qed.
Lemma does_mfold {A B} (f : A → B → ST S A) acc l :
  (∀ acc x, does R (f acc x)) → does R (mfold f acc l).
Proof.
  intros Hf. revert acc. induction l as [|x l IH]; intros acc; simpl; [apply does_ret|].
  apply does_bind; [done|]. intros; apply IH.
Qed.
Lemma does_try_fold {E A B} (f : A → B → ST S (result E A)) acc l :
  (∀ acc x, does R (f acc x)) → does R (try_fold f acc l).
Proof.
  intros Hf. revert acc. induction l as [|x l IH]; intros acc; simpl; [apply does_ret|].
  apply does_sbind; [done|]. intros; apply IH.
Qed.
End does.

(** ** Reading the store *)

Section reads.
Context `{NfcOps, RyuOps, UuidOps, !UuidLaws, JsonText, Host, !Reliable, Sha2, !Sha2Laws}.
Context `{DaemonHost, SerdeOps, SerdeMessage, Surroundings, Subscriptions, OpDebug}.

#[local] Set Default Proof Using "All".
(** Nothing but the count of calls changes. *)
Definition looked (s s' : Store) : Prop := conn s' = conn s.
#[export] Instance looked_preorder : PreOrder looked.
Proof. unfold looked. split; [done|]. intros a b c ??. congruence. Qed.

Lemma looked_io {A} (f : fs_call A) : does looked (io_call f).
Proof.
  intros s r s'. unfold io_call. destruct (io_fault (calls s)); [by intros [= <- <-]|].
  destruct (f (fs s)). by intros [= <- <-].
Qed.
Lemma looked_query {A} (f : N → Tables → result SqlError A) : does looked (query f).
Proof.
  intros s r s' Hr. assert (wp (query f) (λ _, looked s) s) as (r' & s1 & Hr' & ?).
  { unfold looked. by apply wp_query. }
  rewrite Hr in Hr'. by injection Hr' as -> ->.
Qed.
Lemma looked_query_program id : does looked (query_program id).
Proof.
  intros s r s' Hr. assert (wp (query_program id) (λ _, looked s) s) as (r' & s1 & Hr' & ?).
  { unfold looked. by apply wp_query_program. }
  rewrite Hr in Hr'. by injection Hr' as -> ->.
Qed.
Lemma looked_list f : does looked (list_programs f).
Proof.
  apply does_sbind; [apply looked_query|intros l]. apply does_bind; [apply does_unwrap_all|].
  intros; apply does_ret.
Qed.
Lemma looked_stream since limit : does looked (stream_events since limit).
Proof.
  apply does_sbind; [apply looked_query|intros l]. apply does_bind; [apply does_unwrap_all|].
  intros; apply does_ret.
Qed.
Lemma looked_get id : does looked (Store.get_program id).
Proof.
  apply does_sbind; [apply looked_query_program|intros l]. apply does_bind; [apply does_unwrap|].
  intros; apply does_ret.
Qed.

(** ** What a request does to the daemon *)

(** The store is in order. *)
Definition ready (s : Store) : Prop := disk_ok s ∧ is_Some (tables (conn s)).

(** Commands the scheduler may be sent while nothing is resumed: a submission
    is of a program that has a row. *)
Definition cmd_known (V : Rows) (c : SchedulerCommand) : Prop :=
  match c with
  | SubmitValidated id _ _ => is_Some (V !! id)
  | ResumeRunning _ _ _ _ => False
  | _ => True
  end.
Lemma cmd_known_mono V V' c : V ⊆ V' → cmd_known V c → cmd_known V' c.
Proof. intros HV. destruct c; simpl; try done. intros [row Hrow]. eexists. by eapply lookup_weaken. Qed.

(** No row is removed or changed, no event sent, commands only added. *)
Definition rows_grow (s s' : Store) : Prop :=
  ready s' ∧ same_log_ids s s' ∧ view s ⊆ view s'.
Record grows (d d' : Daemon) : Prop := {
  grows_events : d_events d' = d_events d;
  grows_receiver : receiver (d_cmds d') = receiver (d_cmds d);
  grows_lost : d_store d = None → d_store d' = None;
  grows_store s s' : d_store d = Some s → d_store d' = Some s' → ready s → rows_grow s s';
  grows_cmds : ∃ cs, all_commands d' = all_commands d ++ cs ∧
    ∀ s s', d_store d = Some s → d_store d' = Some s' → ready s → Forall (cmd_known (view s')) cs;
}.

Lemma rows_grow_refl s : ready s → rows_grow s s.
Proof. by intros Hs; split_and!. Qed.

#[export] Instance grows_preorder : PreOrder grows.
Proof.
  split.
  - intros d. split; try done.
    + intros s s' ? ? Hs. simplify_eq. by apply rows_grow_refl.
    + exists []. rewrite app_nil_r. done.
  - intros a b c [E1 R1 L1 S1 (cs1 & C1 & K1)] [E2 R2 L2 S2 (cs2 & C2 & K2)].
    assert (∀ s s', d_store a = Some s → d_store c = Some s' → ready s →
      ∃ s1, d_store b = Some s1 ∧ rows_grow s s1 ∧ rows_grow s1 s') as Hmid.
    { intros s s' Ha Hc Hs. destruct (d_store b) as [s1|] eqn:Hb; [|by rewrite L2 in Hc].
      exists s1. assert (rows_grow s s1) as Hs1 by by apply S1. destruct Hs1 as (? & ? & ?).
      split; [done|]. split; [done|]. by apply S2. }
    split; [congruence..|auto| |].
    + intros s s' Ha Hc Hs. destruct (Hmid _ _ Ha Hc Hs) as (s1 & _ & (_ & ? & ?) & (? & ? & ?)).
      split; [done|]. unfold same_log_ids in *. split; [congruence|by etrans].
    + exists (cs1 ++ cs2). split; [by rewrite C2, C1, app_assoc|]. intros s s' Ha Hc Hs.
      destruct (Hmid _ _ Ha Hc Hs) as (s1 & Hb & Hg & (? & _ & HV)).
      apply Forall_app. split; [|by eapply K2; [| |destruct Hg]].
      eapply Forall_impl; [by apply (K1 s s1)|]. intros x. by apply cmd_known_mono.
Qed.

(** Code that does not touch the store. *)
Lemma grows_ask {A} (f : N → A) : does grows (ask f).
Proof.
  intros d a d' [= <- <-]. split; simpl; try done.
  - intros s s' ? ? Hs. simplify_eq. by apply rows_grow_refl.
  - exists []. by rewrite app_nil_r.
Qed.
Lemma grows_trigger : does grows trigger_shutdown.
Proof.
  intros d a d' [= <- <-]. split; simpl; try done.
  - intros s s' ? ? Hs. simplify_eq. by apply rows_grow_refl.
  - exists []. by rewrite app_nil_r.
Qed.

(** A command sent, at once or after a wait, or refused. *)
Lemma cmd_send_adds cmd d r d' :
  cmd_send cmd d = Ret (r, d') →
  d_store d' = d_store d ∧ d_events d' = d_events d ∧
  receiver (d_cmds d') = receiver (d_cmds d) ∧
  all_commands d' = all_commands d ++ match r with Ok _ => [cmd] | Err _ => [] end.
Proof using.
  assert (∀ l (x : list SchedulerCommand) n y, (l ++ take n x) ++ drop n x ++ y = (l ++ x) ++ y)
    as Hmove.
  { intros. by rewrite <-!app_assoc, (app_assoc (take _ _)), take_drop. }
  unfold cmd_send, all_commands. destruct (receiver (d_cmds d)) eqn:Hr.
  - case_match; intros [=]; subst; simpl. by rewrite app_assoc.
  - case_match; intros [=]; subst; simpl; by rewrite ?Hmove, ?app_assoc.
  - intros [=]; subst. by rewrite app_nil_r.
Qed.
Lemma grows_send cmd : (∀ V, cmd_known V cmd) → does grows (cmd_send cmd).
Proof.
  intros Hk d r d' (Hs & He & Hr & Hc)%cmd_send_adds. split; try done.
  - congruence.
  - intros s s' ? ? Hok. rewrite Hs in *. simplify_eq. by apply rows_grow_refl.
  - eexists. split; [exact Hc|]. intros. destruct r; by repeat constructor.
Qed.

(** A look at the store, under the lock. *)
Lemma grows_locked {A} (m : ST Store A) :
  (∀ s r s', m s = Ret (r, s') → ready s → rows_grow s s') → does grows (locked_task m).
Proof.
  intros Hm d r d'. unfold locked_task. destruct (d_store d) as [s|] eqn:Hs.
  - destruct (m s) as [[a s']| |] eqn:Hr; [|..|done]; intros [= <- <-]; split; simpl; rewrite ?Hs; try done.
    + intros ?? [=] [=] ?; subst. by eapply Hm.
    + exists []. by rewrite app_nil_r.
    + exists []. by rewrite app_nil_r.
  - intros [= <- <-]. split; try done.
    + by rewrite Hs.
    + exists []. by rewrite app_nil_r.
Qed.
Lemma grows_look {A} (m : ST Store A) : does looked m → does grows (locked_task m).
Proof.
  intros Hm. apply grows_locked. intros s r s' Hr [Hd Ht]. apply Hm in Hr. unfold looked in Hr.
  unfold rows_grow, ready, disk_ok, same_log_ids, view, rows. by rewrite Hr.
Qed.

(** ** The requests *)

Definition tame (op : RequestOp) : Prop :=
  match op with Resume _ _ | Gc => False | _ => True end.

Lemma grows_submit id json base : does grows (handle_submit id json base).
Proof.
  apply does_bind; [apply does_slift|]. intros [v|e]; [|apply does_ret].
  apply does_bind.
  { destruct (p_id _); [apply does_ret|]. apply does_bind; [apply grows_ask|intros; apply does_ret]. }
  intros pid. apply does_bind; [apply grows_ask|]. intros now.
  intros d resp d' (r & d1 & Hl & Hr)%ST_bind_Ret.
  unfold locked_task in Hl. destruct (d_store d) as [s|] eqn:Hs.
  2: { injection Hl as <- <-. injection Hr as <- <-. done. }
  destruct (submit_locked pid _ _ _ now s) as [[x s1]| |] eqn:Hx; [|..|done]; injection Hl as <- <-.
  2: { injection Hr as <- <-. split; simpl; rewrite ?Hs; try done. exists []. by rewrite app_nil_r. }
  assert (ready s → (∀ p, x = Ok p → is_Some (view s1 !! pid)) ∧ rows_grow s s1) as Hgrow.
  { intros [Hd Ht]. destruct (submit_locked_cases pid (p_name (v_program v)) (v_program v)
      (path_of_string <$> base) now s Hd Ht)
      as [Hp|[(e & s' & Hp & ? & ? & Hv & ?)|(p' & out & text & s' & Hp & _ & _ & Hn & ? & ? & ? & Hv)]];
      rewrite Hp in Hx; simplify_eq.
    - split; [done|]. unfold rows_grow, ready. by rewrite Hv.
    - split; [intros _ _; rewrite Hv, lookup_insert_eq; by eexists|].
      unfold rows_grow, ready. rewrite Hv. split_and!; try done. by apply insert_subseteq. }
  destruct x as [[p' assets]|e].
  - apply ST_bind_Ret in Hr as (sent & d2 & (Hs2 & He2 & Hr2 & Hc2)%cmd_send_adds & [= <- <-]).
    simpl in *. split; rewrite ?Hs; try done.
    + intros ?? [=] ? ?; subst. rewrite Hs2 in *. simplify_eq. by apply Hgrow.
    + eexists. split; [exact Hc2|]. intros ?? [=] ? Hok; subst. rewrite Hs2 in *. simplify_eq.
      destruct sent; constructor; [|done]. by eapply Hgrow.
  - injection Hr as <- <-. split; simpl; rewrite ?Hs; try done.
    + intros ?? [=] [=] ?; subst. by apply Hgrow.
    + exists []. by rewrite app_nil_r.
Qed.

Lemma grows_stream_events id filter follow : does grows (handle_stream_events id filter follow).
Proof.
  unfold handle_stream_events. destruct (negb follow).
  - apply does_bind; [apply grows_look, looked_stream|intros; apply does_ret].
  - apply does_mfold. intros frames r. apply does_bind; [|intros; apply does_ret].
    destruct r; simpl; [apply does_ret|]. apply does_bind; [apply grows_ask|intros; apply does_ret].
Qed.

Lemma grows_handle id op : tame op → does grows (handle_op id op).
Proof.
  intros Hop. apply does_bind; [|intros; apply does_ret].
  destruct op; try done; simpl; try apply does_ret; try apply grows_submit.
  all: repeat (apply does_bind; [|intros]); try apply does_ret.
  all: first [apply grows_ask|apply grows_trigger|by apply grows_send
             |apply grows_look; apply looked_list|apply grows_look; apply looked_get].
Qed.
Lemma grows_handle_stream id op : does grows (handle_stream_op id op).
Proof. destruct op; simpl; first [apply does_ret|apply grows_stream_events]. Qed.

(** ** A turn of a connection *)

Definition grows_behind (p p' : Conn * Daemon) : Prop := grows p.2 p'.2.
#[local] Instance grows_behind_preorder : PreOrder grows_behind.
Proof. unfold grows_behind. split; [by intros p|]. intros a b c ??. by etrans. Qed.

Lemma grows_on_conn {A} (m : ST Conn A) : does grows_behind (on_conn m).
Proof. intros p a p'. unfold on_conn, grows_behind. by intros (r & _ & [= <- <-])%outcome_bind_Ret. Qed.
Lemma grows_on_handler {A} (m : ST Daemon A) : does grows m → does grows_behind (on_handler m).
Proof.
  intros Hm p a p'. unfold on_handler. intros ([b d] & Hr & [= <- <-])%outcome_bind_Ret.
  unfold grows_behind. simpl. by eapply Hm.
Qed.

Lemma grows_oneshot req : tame (req_op req) → does grows_behind (dispatch_oneshot req).
Proof.
  intros Hop. apply does_bind; [by apply grows_on_handler, grows_handle|]. intros. apply grows_on_conn.
Qed.
Lemma grows_streaming req : does grows_behind (dispatch_stream req).
Proof.
  apply does_bind; [apply grows_on_handler, grows_handle_stream|]. intros fs.
  apply does_sbind; [apply does_try_fold; intros; apply grows_on_conn|intros; apply grows_on_conn].
Qed.

Lemma connection_turn_grows fresh c d r c' d' :
  connection_turn fresh (c, d) = Ret (r, (c', d')) → (∀ op, next_op c = Some op → tame op) →
  grows d d'.
Proof.
  intros (x & p & Hx & Hr)%ST_bind_Ret Hop. unfold next_op in Hop.
  unfold on_conn in Hx. apply outcome_bind_Ret in Hx as ([y c1] & Hread & [= <- <-]). simpl in *.
  rewrite Hread in Hop. destruct y as [req|e].
  - specialize (Hop _ eq_refl). apply ST_bind_Ret in Hr as (z & [c2 d2] & Hr & [= <- <- <-]).
    change (grows_behind (c1, d) (c2, d2)). revert Hr. case is_streaming_default; intros Hr.
    + exact (grows_streaming _ _ _ _ Hr).
    + exact (grows_oneshot _ Hop _ _ _ Hr).
  - change (grows_behind (c1, d) (c', d')). revert Hr. destruct (bool_decide _); [by intros [= <- <- <-]|].
    destruct e; try by intros [= <- <- <-].
    all: intros (y & [c2 d2] & Hw & [= <- <- <-])%ST_bind_Ret; by eapply grows_on_conn.
Qed.
End reads.

(** A connection, turn by turn, is [handle_connection]. *)
Lemma handle_connection_turns `{UuidOps, JsonText, Host, SerdeMessage} {St} `{!Handler St} fuel fresh p :
  handle_connection (S fuel) fresh p =
    (r ← connection_turn fresh;
     match r with Some r => mret r | None => handle_connection fuel fresh end) p.
Proof.
  cbn [handle_connection]. unfold connection_turn, sbind, mbind, ST_bind, mret, ST_ret.
  destruct (on_conn _ p) as [[[req|e] p1]| |]; cbn; try done.
  - destruct (is_streaming (req_op req)).
    + destruct (dispatch_stream req p1) as [[[[]|e] p2]| |]; done.
    + destruct (dispatch_oneshot req p1) as [[[[]|e] p2]| |]; done.
  - destruct (bool_decide _); [done|]. destruct e; try done; by destruct (on_conn _ p1) as [[? ?]| |].
Qed.

(** ** What the scheduler says *)

Section says.
Context `{NfcOps, RyuOps, UuidOps, ImageOps, InputSink, Capture, RuntimeClock, HashOrder}.
Variable fuel : nat.
(** The programs there are rows of. *)
Variable D : ProgramId → Prop.

Definition dom_in (m : States) : Prop := ∀ id, is_Some (m !! id) → D id.
(** It speaks of these programs only, and of no resumption. *)
Definition data_ok (d : EventData) : Prop :=
  (∀ i, program_id_of d = Some i → D i) ∧ match d with ProgramResumed _ _ => False | _ => True end.

Lemma data_ok_about d i :
  program_id_of d = Some i → D i → match d with ProgramResumed _ _ => False | _ => True end →
  data_ok d.
Proof. intros Hi HD Hr. split; [|done]. intros j. rewrite Hi. by intros [= <-]. Qed.

Record tells (s s' : Sched) : Prop := {
  tells_dom : dom_in (states s) → dom_in (states s');
  tells_events : dom_in (states s) → ∃ l, sent s' = sent s ++ l ∧ Forall data_ok l;
}.
#[export] Instance tells_preorder : PreOrder tells.
Proof.
  split.
  - intros s. split; [done|]. exists []. by rewrite app_nil_r.
  - intros a b c [D1 E1] [D2 E2]. split; [auto|]. intros Ha.
    destruct (E1 Ha) as (l1 & S1 & F1). destruct (E2 (D1 Ha)) as (l2 & S2 & F2).
    exists (l1 ++ l2). split; [by rewrite S2, S1, app_assoc|by apply Forall_app].
Qed.

Lemma tells_same s s' : programs s' = programs s → event_tx s' = event_tx s → tells s s'.
Proof.
  intros Hp He. split; intros Hd; [by unfold states; rewrite Hp|]. exists [].
  unfold sent. by rewrite He, app_nil_r.
Qed.
Lemma tells_silent s s' : silent s s' → tells s s'.
Proof. intros [Hp He _]. by apply tells_same. Qed.
Lemma tells_emit d s a s' : emit d s = Ret (a, s') → data_ok d → tells s s'.
Proof.
  intros (Hp & _ & t & He)%emit_inv Hd. split; intros Hs; [by unfold states; rewrite Hp|].
  exists [d]. split; [unfold sent; by rewrite He, fmap_app|]. by constructor.
Qed.
Lemma tells_insert id rp s a s' : insert_program id rp s = Ret (a, s') → D id → tells s s'.
Proof.
  intros [= _ <-] Hid. split; intros Hs.
  - rewrite states_update. intros i. destruct (decide (i = id)) as [->|]; [done|].
    rewrite lookup_insert_ne by done. apply Hs.
  - exists []. by rewrite app_nil_r.
Qed.

(** Commands about rows there are; nothing is resumed. *)
Definition cmd_in (c : SchedulerCommand) : Prop :=
  match c with SubmitValidated id _ _ => D id | ResumeRunning _ _ _ _ => False | _ => True end.

Lemma tells_command cmd s stop s' :
  handle_command cmd s = Ret (stop, s') → cmd_in cmd → dom_in (states s) → tells s s'.
Proof.
  intros Hr Hc Hd.
  assert (∀ id rp, programs s !! id = Some rp → D id) as HD.
  { intros id rp Hrp. apply Hd. unfold states. rewrite lookup_fmap, Hrp. by eexists. }
  destruct cmd as [id p a|id r|id|id n p a|]; simpl in Hr, Hc; [..|done|].
  - apply ST_bind_Ret in Hr as ([] & s1 & E1 & Hr). apply ST_bind_Ret in Hr as ([] & s2 & E2 & Hr).
    apply ST_bind_Ret in Hr as ([] & s3 & E3 & [= <- <-]).
    trans s1; [by eapply tells_emit, data_ok_about|].
    trans s2; [by eapply tells_emit, data_ok_about|by eapply tells_insert].
  - apply ST_bind_Ret in Hr as (s0 & s1 & [= <- <-] & Hr).
    destruct (programs s !! id) as [rp|] eqn:Hrp; [|injection Hr as <- <-; reflexivity].
    apply ST_bind_Ret in Hr as ([] & s2 & E2 & Hr). apply ST_bind_Ret in Hr as ([] & s3 & E3 & [= <- <-]).
    trans s2; [by eapply tells_insert, HD|]. eapply tells_emit, data_ok_about; [done|done|by eapply HD|done].
  - apply ST_bind_Ret in Hr as (s0 & s1 & [= <- <-] & Hr).
    destruct (programs s !! id) as [rp|] eqn:Hrp; [|injection Hr as <- <-; reflexivity].
    apply ST_bind_Ret in Hr as (t & s2 & Hck & Hr). apply on_clock_silent, tells_silent in Hck.
    apply ST_bind_Ret in Hr as ([] & s3 & E2 & Hr). apply ST_bind_Ret in Hr as ([] & s4 & E3 & [= <- <-]).
    trans s2; [done|]. trans s3; [by eapply tells_insert, HD|].
    eapply tells_emit, data_ok_about; [done|done|by eapply HD|done].
  - injection Hr as <- <-. reflexivity.
Qed.

Lemma tells_drain q s stop s' :
  drain_queue q s = Ret (stop, s') → Forall cmd_in q → dom_in (states s) → tells s s'.
Proof.
  revert s. induction q as [|cmd q IH]; intros s; simpl; [intros [= <- <-]; reflexivity|].
  intros ([] & s1 & [= <-] & Hr)%ST_bind_Ret [Hc Hq]%Forall_cons Hd.
  apply ST_bind_Ret in Hr as (b & s2 & Hrun & Hr). apply tells_command in Hrun; [|done..].
  trans (set_cmds q s); [by apply tells_same|]. trans s2; [done|].
  destruct b; [injection Hr as <- <-; reflexivity|]. apply IH; [done..|]. by apply Hrun.
Qed.

(** A tick speaks of the programs it has. *)
Lemma tick_move_data m d m' : tick_move m d m' → dom_in m → Forall data_ok d ∧ dom_in m'.
Proof.
  intros Hm Hd.
  assert (∀ id st, m !! id = Some st → D id) as HD by (intros; apply Hd; by eexists).
  assert (∀ id st st', m !! id = Some st → dom_in (<[id:=st']> m)) as Hins.
  { intros id st st' Hid i. destruct (decide (i = id)) as [->|]; [intros _; by eapply HD|].
    rewrite lookup_insert_ne by done. apply Hd. }
  destruct Hm; (split; [|by eauto]); repeat constructor; simpl;
    try (intros ? [= <-]); try done; by eapply HD.
Qed.
Lemma tick_moves_data m l m' : moves tick_move m l m' → dom_in m → Forall data_ok l ∧ dom_in m'.
Proof.
  induction 1 as [|m d m1 l m2 Hm _ IH]; intros Hd; [by split|].
  destruct (tick_move_data _ _ _ Hm Hd) as [Hl Hd1]. destruct (IH Hd1) as [Hl' Hd2].
  split; [by apply Forall_app|done].
Qed.
Lemma tells_tick s a s' : tick_once fuel s = Ret (a, s') → tells s s'.
Proof.
  intros [(l & El & Ml) _]%tick_once_evolves. split; intros Hd.
  - by eapply tick_moves_data.
  - exists l. split; [done|]. by eapply tick_moves_data.
Qed.
End says.

(** ** The rows follow the scheduler, whatever the interleaving

    The invariant that ties rows, events on their way, commands on their way
    and the scheduler's table together, kept by every turn of every task. *)

#[local] Set Default Proof Using "Type*".

(** ** Rows under events *)

Lemma known_mono V V' ev : V ⊆ V' → known V ev → known V' ev.
Proof.
  intros HV. unfold known. destruct (program_id_of _); [|done]. intros [r Hr].
  eexists. by eapply lookup_weaken.
Qed.
Lemma apply_row_at V V' ev i : V !! i = V' !! i → apply_row V ev !! i = apply_row V' ev !! i.
Proof.
  intros Hi. unfold apply_row. destruct (program_id_of _) as [j|]; [|done].
  destruct (decide (j = i)) as [->|]; [by rewrite !lookup_alter_eq, Hi|by rewrite !lookup_alter_ne].
Qed.
Lemma apply_rows_at V V' evs i :
  V !! i = V' !! i → foldl apply_row V evs !! i = foldl apply_row V' evs !! i.
Proof.
  revert V V'. induction evs as [|ev evs IH]; intros V V' Hi; [done|]. by apply IH, apply_row_at.
Qed.
Lemma apply_row_there V ev i : is_Some (apply_row V ev !! i) ↔ is_Some (V !! i).
Proof.
  unfold apply_row. destruct (program_id_of _) as [j|]; [|done].
  destruct (decide (j = i)) as [->|]; [|by rewrite lookup_alter_ne].
  rewrite lookup_alter_eq, fmap_is_Some. done.
Qed.
Lemma apply_rows_there V evs i : is_Some (foldl apply_row V evs !! i) ↔ is_Some (V !! i).
Proof.
  revert V. induction evs as [|ev evs IH]; intros V; [done|]. simpl. by rewrite IH, apply_row_there.
Qed.

(** Rows added elsewhere change nothing for the programs of [m]. *)
Lemma agree_grows m V V' evs :
  V ⊆ V' → agree m (foldl apply_row V evs) → agree m (foldl apply_row V' evs).
Proof.
  intros HV Hm id st Hid. specialize (Hm id st Hid).
  assert (is_Some (foldl apply_row V evs !! id)) as Hs.
  { apply fmap_is_Some with pr_state. rewrite Hm. by eexists. }
  apply apply_rows_there in Hs as [row Hrow]. rewrite <-Hm. f_equal. apply apply_rows_at.
  rewrite Hrow. by eapply lookup_weaken.
Qed.
Lemma agree_dom m V evs id : agree m (foldl apply_row V evs) → is_Some (m !! id) → is_Some (V !! id).
Proof.
  intros Hm [st Hid]. specialize (Hm id st Hid). apply (apply_rows_there V evs).
  apply fmap_is_Some with pr_state. rewrite Hm. by eexists.
Qed.

Section run.
Context `{NfcOps, RyuOps, UuidOps, !UuidLaws, JsonText, !JsonTextLaws, Host, !Reliable}.
Context `{Sha2, !Sha2Laws, DaemonHost, SerdeOps, SerdeMessage, Surroundings, Subscriptions, OpDebug}.
Context `{ImageOps, InputSink, Capture, RuntimeClock, HashOrder}.
#[local] Set Default Proof Using "All".

(** The store is in order and has ids left for [room] more events; the events
    on their way are about programs with rows; the rows, moved on by them, are
    in the states of the scheduler's table; the commands it has not seen are
    about programs with rows. *)
Record in_step (room : Z) (seen : nat) (sch : Sched) (d : Daemon) (s : Store) : Prop := {
  in_ready : ready s;
  in_room : (t_events_seq (rows s) + Z.of_nat (length (d_events d)) + room < i64_max)%Z;
  in_known : Forall (known (view s)) (d_events d);
  in_cursors : Forall cursor_ok (d_events d);
  in_agree : agree (states sch) (foldl apply_row (view s) (d_events d));
  in_cmds : Forall (cmd_known (view s)) (drop seen (all_commands d));
}.

Lemma in_step_grows room seen sch d d' s s' :
  grows d d' → d_store d = Some s → d_store d' = Some s' →
  in_step room seen sch d s → in_step room seen sch d' s'.
Proof.
  intros [He Hr _ Hs (cs & Hc & Hk)] Hd Hd' [Hok Hroom Hkn Hcu Ha Hcm].
  destruct (Hs _ _ Hd Hd' Hok) as (Hok' & Hid & HV). specialize (Hk _ _ Hd Hd' Hok).
  split; rewrite ?He; try done.
  - by rewrite Hid.
  - eapply Forall_impl; [exact Hkn|]. intros ev. by apply known_mono.
  - by eapply agree_grows.
  - rewrite Hc, drop_app. apply Forall_app. split; [|by apply Forall_drop].
    eapply Forall_impl; [exact Hcm|]. intros c. by apply cmd_known_mono.
Qed.

(** Work on the files only. *)
Lemma in_step_looked room seen sch d s s' :
  looked s s' → in_step room seen sch d s → in_step room seen sch (set_store (Some s') d) s'.
Proof.
  unfold looked. intros Hc [Hok Hroom Hkn Hcu Ha Hcm].
  assert (view s' = view s) as Hv by by unfold view; rewrite Hc.
  split; rewrite ?Hv; try done.
  - unfold ready, disk_ok in *. by rewrite Hc.
  - unfold rows. rewrite Hc. exact Hroom.
Qed.

(** The scheduler works, and its events are on their way. *)
Definition announced (sch sch' : Sched) (d : Daemon) : Daemon :=
  set_events (d_events d ++ drop (length (event_tx sch)) (event_tx sch')) d.

Lemma in_step_sched room n seen sch sch' d s :
  runs sch sch' → (dom_in (λ i, is_Some (view s !! i)) (states sch) →
                   tells (λ i, is_Some (view s !! i)) sch sch') →
  length (event_tx sch') = length (event_tx sch) + n →
  in_step (Z.of_nat n + room) seen sch d s → in_step room seen sch' (announced sch sch' d) s.
Proof.
  intros [(l & Hl & Hm) _] Ht Hn [Hok Hroom Hkn Hcu Ha Hcm].
  assert (dom_in (λ i, is_Some (view s !! i)) (states sch)) as Hd.
  { intros i. by apply agree_dom with (d_events d). }
  destruct (Ht Hd) as [_ (l' & Hl' & Hdata)]; [done|].
  rewrite Hl in Hl'. apply app_inv_head in Hl' as <-.
  set (evs := drop (length (event_tx sch)) (event_tx sch')).
  assert (ev_data <$> evs = l) as Hevs.
  { unfold evs. rewrite fmap_drop. unfold sent in Hl. rewrite Hl.
    by rewrite drop_app_length' by by rewrite length_fmap. }
  assert (length evs = n) as Hlen by by unfold evs; rewrite length_drop; lia.
  assert (Forall (known (view s)) evs ∧ Forall cursor_ok evs) as [Hk Hc].
  { rewrite <-Hevs, Forall_fmap in Hdata. split; (eapply Forall_impl; [exact Hdata|]);
      intros ev [Hi Hr]; unfold known, cursor_ok.
    - destruct (program_id_of (ev_data ev)) eqn:E; [by apply Hi|done].
    - by destruct (ev_data ev). }
  split; simpl; fold evs; try done.
  - rewrite length_app. lia.
  - by apply Forall_app.
  - by apply Forall_app.
  - rewrite foldl_app. eapply agree_moves; [exact Hm|done|done|].
    eapply Forall_impl; [exact Hk|]. intros ev. unfold known.
    destruct (program_id_of _); [|done]. intros Hi. by apply apply_rows_there.
Qed.

(** The pump's turn. *)
Lemma in_step_pump room seen sch d s ev evs d' s' :
  (0 ≤ room)%Z → d_events d = ev :: evs → d_store d = Some s → in_step room seen sch d s →
  pump_event ev (set_events evs d) = Ret ((), d') → d_store d' = Some s' →
  in_step room seen sch d' s'.
Proof.
  intros Hpos Hevs Hd [[Hdisk Htab] Hroom Hkn Hcu Ha Hcm] Hrun Hd'.
  rewrite Hevs in *. apply Forall_cons in Hkn as [Hk Hkn]. apply Forall_cons in Hcu as [Hc Hcu].
  cbn [length] in Hroom.
  destruct (pump_event_turn ev (Z.of_nat (length evs) + room) (set_events evs d) s)
    as (s1 & l & Hrun' & (Hdisk1 & Htab1 & Hroom1) & Hview & _); try done.
  { split_and!; [done..|]. lia. }
  { lia. }
  rewrite Hrun' in Hrun. injection Hrun as <-. simpl in Hd'. simplify_eq. split; simpl; try done.
  - lia.
  - rewrite Hview. eapply Forall_impl; [exact Hkn|]. intros e. by apply known_apply.
  - by rewrite Hview.
  - rewrite Hview. eapply Forall_impl; [exact Hcm|]. intros c. destruct c; simpl; try done.
    by rewrite apply_row_there.
Qed.

(** ** Turns *)

(** The events the scheduler has sent since the start. *)
Definition emitted (L : Live) : nat := length (event_tx (lv_sched L)).
(** The main task still has [DaemonStopped] to send. *)
Definition slack (p : Phase) : Z := match p with Serving | Served _ => 1 | _ => 0 end.
(** The invariant, while the scheduler sends [budget] events at most. *)
Definition live_ok (budget : nat) (L : Live) (s : Store) : Prop :=
  in_step (Z.of_nat (budget - emitted L) + slack (lv_phase L)) (lv_seen L) (lv_sched L)
    (lv_daemon L) s.

Record keeps_step (L L' : Live) : Prop := {
  keeps_emitted : emitted L ≤ emitted L';
  keeps_store s' : d_store (lv_daemon L') = Some s' →
    ∃ s, d_store (lv_daemon L) = Some s ∧
      ∀ budget, emitted L' ≤ budget → live_ok budget L s → live_ok budget L' s';
}.
#[export] Instance keeps_step_preorder : PreOrder keeps_step.
Proof.
  split.
  - intros L. split; [done|]. intros s' Hs. by exists s'.
  - intros L L1 L' [E1 S1] [E2 S2]. split; [lia|]. intros s' Hs'.
    destruct (S2 s' Hs') as (s1 & Hs1 & K2). destruct (S1 s1 Hs1) as (s & Hs & K1).
    exists s. split; [done|]. intros b Hb Hok. apply K2; [done|]. apply K1; [lia|done].
Qed.

(** Work on the daemon that adds rows and commands only. *)
Lemma keeps_grows d' L L' :
  grows (lv_daemon L) d' → lv_daemon L' = d' → lv_sched L' = lv_sched L → lv_seen L' = lv_seen L →
  lv_phase L' = lv_phase L → keeps_step L L'.
Proof.
  intros Hg <- Hsch Hseen Hph. split; [unfold emitted; by rewrite Hsch|]. intros s' Hs'.
  destruct (d_store (lv_daemon L)) as [s|] eqn:Hs; [|by rewrite (grows_lost _ _ Hg Hs) in Hs'].
  exists s. split; [done|]. intros b _. unfold live_ok, emitted. rewrite Hsch, Hseen, Hph.
  by apply in_step_grows.
Qed.

(** Work on the files only. *)
Lemma keeps_disk {A} (a : A) (m : ST Store A) L b L' :
  does looked m → on_daemon (on_disk a m) L = Ret (b, L') → keeps_step L L'.
Proof.
  intros Hm Hr. unfold on_daemon, on_disk in Hr. destruct (d_store (lv_daemon L)) as [s|] eqn:Hs.
  - apply outcome_bind_Ret in Hr as ([x d'] & Hr & [= <- <-]).
    apply outcome_bind_Ret in Hr as ([y s1] & Hr & [= <- <-]). apply Hm in Hr.
    split; [done|]. intros s' [= <-]. exists s. split; [done|]. intros ? _.
    by apply in_step_looked.
  - injection Hr as <- <-. split; [done|]. intros s' Hs'. simpl in Hs'. congruence.
Qed.

(** A step of the main task; leaving the service makes no room. *)
Lemma keeps_phase p L : (slack p ≤ slack (lv_phase L))%Z → keeps_step L (set_phase p L).
Proof.
  intros Hp. split; [done|]. intros s Hs. exists s. split; [done|]. intros b _ []. split; try done.
  simpl. change (emitted (set_phase p L)) with (emitted L). lia.
Qed.

(** The scheduler's work. *)
Lemma sent_length (s : Sched) : length (sent s) = length (event_tx s).
Proof. apply length_fmap. Qed.
Lemma keeps_sched {A} (m : ST Sched A) L a L' :
  on_sched m L = Ret (a, L') →
  (∀ sch', m (lv_sched L) = Ret (a, sch') →
     runs (lv_sched L) sch' ∧
     ∀ b s, live_ok b L s → dom_in (λ i, is_Some (view s !! i)) (states (lv_sched L)) →
       tells (λ i, is_Some (view s !! i)) (lv_sched L) sch') →
  keeps_step L L'.
Proof.
  intros Hr Hm. unfold on_sched in Hr.
  apply outcome_bind_Ret in Hr as ([x sch'] & Hr & [= <- <-]).
  destruct (Hm _ Hr) as [Hrun Ht]. pose proof (runs_moves _ _ Hrun) as (l & Hl & _).
  assert (length (event_tx sch') = length (event_tx (lv_sched L)) + length l) as Hlen.
  { rewrite <-!sent_length, Hl. apply length_app. }
  split; [unfold emitted; simpl; lia|]. intros s Hs. exists s. split; [done|].
  intros b Hb Hok. unfold emitted in Hb. simpl in Hb. unfold live_ok, emitted. simpl.
  apply (in_step_sched _ (length l)); [done|by eapply Ht|done|].
  unfold live_ok, emitted in Hok. replace (Z.of_nat (length l) + _)%Z with
    (Z.of_nat (b - length (event_tx (lv_sched L))) + slack (lv_phase L))%Z by lia. done.
Qed.

Variable fuel : nat.
Variable sched_config : SchedulerConfig.
Variable cfg : Config.

Lemma keeps_main accept L L' : main_turn cfg accept L = Ret ((), L') → keeps_step L L'.
Proof.
  intros (L0 & L1 & [= <- <-] & Hr)%ST_bind_Ret. destruct (lv_phase L) as [|r| |] eqn:Hph.
  - apply ST_bind_Ret in Hr as (r & L1 & Hr & Hr').
    trans L1.
    { unfold serve_turn in Hr. destruct (d_shutdown_fired _); [by injection Hr as <- <-|].
      destruct accept as [[c|e]|]; injection Hr as <- <-; [|done..].
      eapply keeps_grows; [|done..]. reflexivity. }
    assert (lv_phase L1 = Serving) as Hph1.
    { unfold serve_turn in Hr. destruct (d_shutdown_fired _); [by injection Hr as <- <-|].
      by destruct accept as [[c|e]|]; injection Hr as <- <-. }
    destruct r as [r|]; [|by injection Hr' as <-].
    apply ST_bind_Ret in Hr' as (u & L2 & Hd & [= <-]). trans L2.
    { eapply keeps_disk; [|exact Hd]. apply does_bind; [apply looked_io|intros; apply does_ret]. }
    apply keeps_phase. unfold on_daemon in Hd.
    apply outcome_bind_Ret in Hd as ([u' d] & _ & [= _ <-]). simpl. by rewrite Hph1.
  - apply ST_bind_Ret in Hr as (u & L1 & Hc & Hr). apply ST_bind_Ret in Hr as (u' & L2 & He & [= <-]).
    unfold on_daemon in Hc. apply outcome_bind_Ret in Hc as ([a d] & Hc & [= <- <-]).
    trans (set_daemon d L).
    { eapply keeps_grows; [exact (grows_send Shutdown (λ V, I) _ _ _ Hc)|done..]. }
    destruct (cmd_send_adds _ _ _ _ Hc) as (Hst & _). injection He as <- <-.
    split; [done|]. simpl. intros s' Hs'. exists s'. split; [done|]. intros b _ [Hok Hroom Hkn Hcu Ha Hcm].
    split; simpl in *; try done.
    + rewrite length_app. rewrite Hph in Hroom. simpl in Hroom. unfold emitted in *. simpl in *. lia.
    + apply Forall_app. split; [done|]. by repeat constructor.
    + apply Forall_app. split; [done|]. by repeat constructor.
    + by rewrite foldl_app.
  - destruct (joined L); [|by injection Hr as <-].
    apply ST_bind_Ret in Hr as (r & L1 & Hd & [= <-]). trans L1.
    { eapply keeps_disk; [|exact Hd]. apply does_bind; [apply looked_io|]. intros [?|[]]; apply does_ret. }
    apply keeps_phase. unfold on_daemon in Hd.
    apply outcome_bind_Ret in Hd as ([u' d] & _ & [= _ <-]). simpl. by rewrite Hph.
  - by injection Hr as <-.
Qed.

Lemma keeps_task i fresh L L' :
  task_turn i fresh L = Ret ((), L') →
  (∀ op, asked (TaskTurn i fresh) L = Some op → tame op) → keeps_step L L'.
Proof.
  unfold task_turn, asked. destruct (lv_tasks L !! i) as [[c [r|]]|]; [by intros [= <-]| |by intros [= <-]].
  intros ([r [c' d]] & Hr & [= <-])%outcome_bind_Ret Hop. apply connection_turn_grows in Hr; [|done].
  by eapply keeps_grows.
Qed.

Lemma keeps_signal L L' : signal_turn L = Ret ((), L') → keeps_step L L'.
Proof.
  intros ([[] d] & Hr & [= <-])%outcome_bind_Ret. apply grows_trigger in Hr. by eapply keeps_grows.
Qed.

Lemma keeps_pump L L' : pump_turn L = Ret ((), L') → keeps_step L L'.
Proof.
  unfold pump_turn. destruct (lv_pump L); [|by intros [= <-]].
  destruct (d_events (lv_daemon L)) as [|ev evs] eqn:Hevs; [by intros [= <-]|].
  destruct (pump_event ev _) as [[[] d]| |] eqn:Hr; [|by intros [= <-]|done].
  intros [= <-]. split; [done|]. simpl. intros s' Hs'.
  destruct (d_store (lv_daemon L)) as [s|] eqn:Hs.
  - exists s. split; [done|]. intros b _ Hok. eapply in_step_pump; [|done..]. unfold slack; case_match; lia.
  - exfalso. unfold pump_event in Hr. apply ST_bind_Ret in Hr as (u & d1 & H1' & [= <-]).
    destruct (program_id_of _); simpl in *; [|injection H1' as <- <-; simpl in *; congruence].
    unfold locked in H1'. simpl in H1'. rewrite Hs in H1'. done.
Qed.

(** A silent step of the scheduler. *)
Lemma keeps_sched_silent {A} (m : ST Sched A) L a L' :
  on_sched m L = Ret (a, L') →
  (∀ sch', m (lv_sched L) = Ret (a, sch') →
     programs sch' = programs (lv_sched L) ∧ event_tx sch' = event_tx (lv_sched L)) →
  keeps_step L L'.
Proof.
  intros Hr Hm. eapply keeps_sched; [done|]. intros sch' Hs. destruct (Hm _ Hs) as [Hp He]. split.
  - split; [|by unfold sched_ok; rewrite Hp]. exists []. unfold sent, states. rewrite He, Hp, app_nil_r.
    repeat constructor.
  - intros. by apply tells_same.
Qed.

Lemma keeps_scheduler L L' : sched_turn fuel sched_config L = Ret ((), L') → keeps_step L L'.
Proof.
  intros (L0 & L00 & [= <- <-] & Hr)%ST_bind_Ret.
  destruct (receiver _); [by injection Hr as <-| |by injection Hr as <-].
  apply ST_bind_Ret in Hr as ([] & L1 & Hset & Hr). trans L1.
  { eapply keeps_sched_silent; [exact Hset|]. by intros sch' [= <-]. }
  unfold on_sched in Hset. simpl in Hset. injection Hset as <-.
  apply ST_bind_Ret in Hr as (stop & L2 & Hdrain & Hr). trans L2.
  { eapply keeps_sched; [exact Hdrain|]. simpl. intros sch' Hd. unfold drain_commands in Hd.
    apply ST_bind_Ret in Hd as (s0 & s1 & [= <- <-] & Hd). split; [by eapply drain_runs|].
    intros b s [] Hdom. eapply tells_drain; [exact Hd| |exact Hdom]. simpl.
    unfold unseen. eapply Forall_impl; [exact in_cmds0|]. by intros []. }
  apply ST_bind_Ret in Hr as ([] & L3 & [= <-] & Hr). trans (received stop L2).
  { split; [done|]. simpl. intros s' Hs'. exists s'. split; [done|]. intros b _ []. split; simpl in *; try done.
    unfold all_commands. simpl. rewrite app_nil_r, drop_ge by done. constructor. }
  destruct stop; [by injection Hr as <-|].
  apply ST_bind_Ret in Hr as ([] & L4 & Ht & Hr). trans L4.
  { eapply keeps_sched; [exact Ht|]. intros sch' Hs. split; [by eapply tick_runs|].
    intros. by eapply tells_tick. }
  eapply keeps_sched_silent; [exact Hr|]. intros sch' Hs. apply on_clock_silent in Hs. by destruct Hs.
Qed.

Lemma keeps_turn t L L' :
  turn fuel sched_config cfg t L = Ret ((), L') → (∀ op, asked t L = Some op → tame op) →
  keeps_step L L'.
Proof.
  intros Hr Hop. destruct t; simpl in Hr; [by eapply keeps_main|by eapply keeps_task|
    by apply keeps_signal|by apply keeps_scheduler|by apply keeps_pump].
Qed.
End run.
