(* ===== verification/LiveStop.v ===== *)
(** * A shutdown, once triggered, runs to the exit

    After a signal, or a [shutdown] request, no connection is accepted any
    more, and the main task gets to the end of [run_foreground]: the scheduler
    is told to stop and does, the pump empties its channel, the socket and the
    pidfile are gone. *)

From S2P Require Import Prelude Json CoreTypes Sha256 Canonical Serde DslError DslValidate EventWire.
From S2P Require Import IpcWire Host FrameView Perception Input Capture Clock Runtime.
From S2P Require Import Wp Store StoreSpec StoreOpen Materialize Ipc Daemon Boot.
From S2P Require Import Scheduler SchedulerSpec Live LiveSpec.

Local Open Scope vcli_scope.
#[local] Set Default Proof Using "Type*".

(** ** Code that only runs statements *)

Section statements.
Context `{UuidOps, JsonText, Host}.

(** It returns, and no file has changed. *)
Definition only_sql {A} (m : ST Store A) : Prop := ∀ s, wp m (λ _ s', fs s' = fs s) s.

Lemma only_sql_ret {A} (a : A) : only_sql (mret a).
Proof. intros s. by apply wp_ret. Qed.
Lemma only_sql_bind {A B} (m : ST Store A) (f : A → ST Store B) :
  only_sql m → (∀ a, only_sql (f a)) → only_sql (m ≫= f).
Proof.
  intros Hm Hf s. apply wp_bind. eapply wp_mono; [apply Hm|]. intros a s1 E1.
  eapply wp_mono; [apply Hf|]. intros b s2 E2. congruence.
Qed.
Lemma only_sql_sbind {E A B} (m : ST Store (result E A)) (f : A → ST Store (result E B)) :
  only_sql m → (∀ a, only_sql (f a)) → only_sql (sbind m f).
Proof. intros Hm Hf. apply only_sql_bind; [done|]. intros [a|e]; [done|apply only_sql_ret]. Qed.
Lemma only_sql_call {A} (f : Db → result SqlError (A * Db)) : only_sql (sql_call f).
Proof.
  intros s. unfold wp, sql_call. destruct (sql_fault (calls s)); [by eexists _, _|].
  destruct (f (conn s)) as [[a db]|e]; by eexists _, _.
Qed.
Lemma only_sql_sql {A} (f : Tables → result SqlError (A * Tables)) : only_sql (sql f).
Proof. apply only_sql_bind; [apply only_sql_call|intros; apply only_sql_ret]. Qed.
Lemma only_sql_update id f : only_sql (Store.update_program id f).
Proof. apply only_sql_sbind; [apply only_sql_sql|]. intros n. case_bool_decide; apply only_sql_ret. Qed.
Lemma only_sql_ignore {A} (m : ST Store (result StoreError A)) : only_sql m → only_sql (ignore m).
Proof. intros Hm. apply only_sql_bind; [done|intros; apply only_sql_ret]. Qed.

Lemma only_sql_persist pid ev : only_sql (persist_program_event pid ev).
Proof.
  apply only_sql_bind; [apply only_sql_ignore, only_sql_sql|intros _].
  assert (∀ i c m, only_sql (ignore (set_last_error i c m))) as He.
  { intros. apply only_sql_ignore, only_sql_sbind; [apply only_sql_sql|intros; apply only_sql_ret]. }
  assert (∀ i f, only_sql (ignore (Store.update_program i f))) as Hu.
  { intros. apply only_sql_ignore, only_sql_update. }
  destruct (ev_data ev); try apply only_sql_ret; try apply Hu.
  all: apply only_sql_bind; [apply Hu|intros _]; first [apply He|apply Hu].
Qed.
End statements.

Section stop.
Context `{NfcOps, RyuOps, UuidOps, JsonText, Host, Sha2, DaemonHost, SerdeOps, SerdeMessage}.
Context `{Surroundings, Subscriptions, OpDebug}.
#[local] Set Default Proof Using "All".

(** ** The links between the tasks *)

(** Commands are only added, the scheduler stays as present as it was, and the
    shutdown is armed until it is fired, and fired for good. *)
Record links (d d' : Daemon) : Prop := {
  links_receiver : receiver (d_cmds d') = receiver (d_cmds d);
  links_cmds : ∃ cs, all_commands d' = all_commands d ++ cs;
  links_armed : d_shutdown_armed d || d_shutdown_fired d = true →
                d_shutdown_armed d' || d_shutdown_fired d' = true;
  links_fired : d_shutdown_fired d = true → d_shutdown_fired d' = true;
}.
#[export] Instance links_preorder : PreOrder links.
Proof.
  split; [split; try done; exists []; by rewrite app_nil_r|].
  intros a b c [R1 (c1 & C1) A1 F1] [R2 (c2 & C2) A2 F2]. split; [congruence| |auto|auto].
  exists (c1 ++ c2). by rewrite C2, C1, app_assoc.
Qed.

(** Code that touches none of this. *)
Lemma links_same d d' :
  d_cmds d' = d_cmds d → d_shutdown_armed d' = d_shutdown_armed d →
  d_shutdown_fired d' = d_shutdown_fired d → links d d'.
Proof.
  intros Hc Ha Hf. split; unfold all_commands; rewrite ?Hc, ?Ha, ?Hf; try done.
  exists []. by rewrite app_nil_r.
Qed.
Lemma links_ask {A} (f : N → A) : does links (ask f).
Proof. intros d a d' [= <- <-]. by apply links_same. Qed.
Lemma links_trigger : does links trigger_shutdown.
Proof.
  intros d a d' [= <- <-]. split; simpl; try done.
  - exists []. by rewrite app_nil_r.
  - by rewrite orb_comm.
  - by intros ->.
Qed.
Lemma links_event_send e : does links (event_send e).
Proof. intros d a d' [= <- <-]. by apply links_same. Qed.
Lemma links_locked_task {A} (m : ST Store A) : does links (locked_task m).
Proof.
  intros d a d'. unfold locked_task. destruct (d_store d); [|by intros [= <- <-]].
  destruct (m s) as [[x s']| |]; intros [= <- <-]; by apply links_same.
Qed.
Lemma links_locked {A} (m : ST Store A) : does links (locked m).
Proof.
  intros d a d'. unfold locked. destruct (d_store d); [|done].
  intros ([x s'] & _ & [= <- <-])%outcome_bind_Ret. by apply links_same.
Qed.
Lemma links_cmd_send cmd : does links (cmd_send cmd).
Proof.
  intros d r d' Hr. pose proof (cmd_send_adds cmd d r d' Hr) as (_ & _ & Hrc & Hc).
  assert (d_shutdown_armed d' = d_shutdown_armed d ∧ d_shutdown_fired d' = d_shutdown_fired d) as [Ha Hf].
  { unfold cmd_send in Hr. by repeat (case_match; simplify_eq). }
  split; rewrite ?Ha, ?Hf; try done. by eexists.
Qed.

Lemma links_handle id op : does links (handle_op id op).
Proof.
  apply does_bind; [|intros; apply does_ret]. destruct op; simpl; try apply does_ret.
  all: repeat first
    [ apply does_bind; [|intros]
    | apply does_ret | apply does_slift | apply links_ask | apply links_trigger
    | apply links_cmd_send | apply links_locked_task | case_match ].
Qed.
Lemma links_handle_stream id op : does links (handle_stream_op id op).
Proof.
  destruct op; simpl; try apply does_ret; unfold handle_stream_events; case_match.
  all: repeat first
    [ apply does_mfold; intros ? [] | apply does_bind; [|intros]
    | apply does_ret | apply links_ask | apply links_locked_task ].
Qed.
Lemma links_pump_event ev : does links (pump_event ev).
Proof.
  apply does_bind; [case_match; [apply links_locked|apply does_ret]|intros _].
  intros d a d' [= <- <-]. by apply links_same.
Qed.

Definition links_behind (p p' : Conn * Daemon) : Prop := links p.2 p'.2.
#[local] Instance links_behind_preorder : PreOrder links_behind.
Proof. unfold links_behind. split; [by intros p|]. intros a b c ??. by etrans. Qed.
Lemma links_on_conn {A} (m : ST Conn A) : does links_behind (on_conn m).
Proof. intros p a p'. unfold on_conn, links_behind. by intros (r & _ & [= <- <-])%outcome_bind_Ret. Qed.
Lemma links_on_handler {A} (m : ST Daemon A) : does links m → does links_behind (on_handler m).
Proof.
  intros Hm p a p'. unfold on_handler. intros ([b d] & Hr & [= <- <-])%outcome_bind_Ret.
  unfold links_behind. simpl. by eapply Hm.
Qed.
Lemma links_connection fresh : does links_behind (connection_turn fresh).
Proof.
  apply does_bind; [apply links_on_conn|]. intros [req|e].
  - apply does_bind; [|intros; apply does_ret]. destruct (is_streaming (req_op req)).
    + apply does_bind; [apply links_on_handler, links_handle_stream|]. intros fs.
      apply does_sbind; [apply does_try_fold; intros; apply links_on_conn|intros; apply links_on_conn].
    + apply does_bind; [apply links_on_handler, links_handle|]. intros; apply links_on_conn.
  - destruct (bool_decide _); [apply does_ret|]. destruct e; try apply does_ret.
    all: apply does_bind; [apply links_on_conn|intros; apply does_ret].
Qed.
End stop.

(** ** Turns *)

Section turns.
Context `{NfcOps, RyuOps, UuidOps, JsonText, Host, Sha2, DaemonHost, SerdeOps, SerdeMessage}.
Context `{Surroundings, Subscriptions, OpDebug}.
Context `{ImageOps, InputSink, Capture, RuntimeClock, HashOrder}.
Variable fuel : nat.
Variable sched_config : SchedulerConfig.
Variable cfg : Config.
#[local] Set Default Proof Using "All".

(** The scheduler has been started, has not received more than was sent, and
    the shutdown can be or has been fired. *)
Record linked (L : Live) : Prop := {
  linked_receiver : receiver (d_cmds (lv_daemon L)) ≠ NotStarted;
  linked_seen : lv_seen L ≤ length (all_commands (lv_daemon L));
  linked_armed : d_shutdown_armed (lv_daemon L) || d_shutdown_fired (lv_daemon L) = true;
}.
(** Once the shutdown is fired it stays so, and no connection is accepted. *)
Record onward (L L' : Live) : Prop := {
  onward_linked : linked L → linked L';
  onward_fired : d_shutdown_fired (lv_daemon L) = true → d_shutdown_fired (lv_daemon L') = true;
  onward_tasks : d_shutdown_fired (lv_daemon L) = true → length (lv_tasks L') = length (lv_tasks L);
}.
#[export] Instance onward_preorder : PreOrder onward.
Proof using Type.
  split; [by split|]. intros a b c [L1 F1 T1] [L2 F2 T2]. split; [auto..|].
  intros Hf. rewrite T2 by auto. auto.
Qed.

Lemma onward_links d L L' :
  links (lv_daemon L) d → lv_daemon L' = d → lv_seen L' = lv_seen L →
  length (lv_tasks L') = length (lv_tasks L) → onward L L'.
Proof.
  intros [Hr (cs & Hc) Ha Hf] <- Hs Ht. split; [|done..].
  intros [Hr0 Hs0 Ha0]. split; [congruence| |auto]. rewrite Hs, Hc, length_app. lia.
Qed.
Lemma onward_on_daemon {A} (m : ST Daemon A) L a L' :
  does links m → on_daemon m L = Ret (a, L') → onward L L'.
Proof.
  intros Hm ([b d] & Hr & [= <- <-])%outcome_bind_Ret. by eapply onward_links; [eapply Hm|..].
Qed.
Lemma onward_on_sched {A} (m : ST Sched A) L a L' : on_sched m L = Ret (a, L') → onward L L'.
Proof.
  intros ([b d] & Hr & [= <- <-])%outcome_bind_Ret.
  eapply onward_links; [|reflexivity|done|done]. by apply links_same.
Qed.
Lemma links_on_disk {A} (a : A) (m : ST Store A) : does links (on_disk a m).
Proof.
  intros d b d'. unfold on_disk. destruct (d_store d); [|by intros [= <- <-]].
  intros ([x s'] & _ & [= <- <-])%outcome_bind_Ret. by apply links_same.
Qed.

Lemma onward_main accept L L' : main_turn cfg accept L = Ret ((), L') → onward L L'.
Proof.
  assert (∀ p L, onward L (set_phase p L)) as Hphase.
  { intros p L0. by eapply onward_links. }
  intros (L0 & L1 & [= <- <-] & Hr)%ST_bind_Ret. destruct (lv_phase L).
  - apply ST_bind_Ret in Hr as (r & L1 & Hr & Hr'). trans L1.
    { unfold serve_turn in Hr. destruct (d_shutdown_fired _) eqn:Hf; [by injection Hr as <- <-|].
      destruct accept as [[c|e]|]; injection Hr as <- <-; [|done..].
      split; simpl; [|done|congruence]. intros []. by split. }
    destruct r as [r|]; [|by injection Hr' as <-].
    apply ST_bind_Ret in Hr' as (u & L2 & Hd & [= <-]). trans L2; [|apply Hphase].
    eapply onward_on_daemon; [|exact Hd]. apply links_on_disk.
  - apply ST_bind_Ret in Hr as (u & L1 & Hc & Hr). apply ST_bind_Ret in Hr as (u' & L2 & He & [= <-]).
    trans L1; [by eapply onward_on_daemon; [apply links_cmd_send|]|].
    trans L2; [|apply Hphase]. eapply onward_on_daemon; [|exact He].
    apply does_bind; [apply links_ask|intros; apply links_event_send].
  - destruct (joined L); [|by injection Hr as <-].
    apply ST_bind_Ret in Hr as (r & L1 & Hd & [= <-]). trans L1; [|apply Hphase].
    eapply onward_on_daemon; [|exact Hd]. apply links_on_disk.
  - by injection Hr as <-.
Qed.

Lemma onward_scheduler L L' : sched_turn fuel sched_config L = Ret ((), L') → onward L L'.
Proof.
  intros (L0 & L00 & [= <- <-] & Hr)%ST_bind_Ret.
  destruct (receiver _); [by injection Hr as <-| |by injection Hr as <-].
  apply ST_bind_Ret in Hr as ([] & L1 & H1'%onward_on_sched & Hr). trans L1; [done|].
  apply ST_bind_Ret in Hr as (stop & L2 & H2'%onward_on_sched & Hr). trans L2; [done|].
  apply ST_bind_Ret in Hr as ([] & L3 & [= <-] & Hr). trans (received stop L2).
  { split; [|done..]. intros [Hr0 Hs0 Ha0]. split; simpl; [by destruct stop| |done].
    unfold all_commands. simpl. rewrite app_nil_r. done. }
  destruct stop; [by injection Hr as <-|].
  apply ST_bind_Ret in Hr as ([] & L4 & H4'%onward_on_sched & H5'%onward_on_sched). by trans L4.
Qed.

Lemma onward_turn t L L' : turn fuel sched_config cfg t L = Ret ((), L') → onward L L'.
Proof.
  destruct t as [accept|i fresh| | |]; simpl.
  - apply onward_main.
  - unfold task_turn. destruct (lv_tasks L !! i) as [[c [r|]]|]; [by intros [= <-]| |by intros [= <-]].
    intros ([r [c' d]] & Hr & [= <-])%outcome_bind_Ret. apply links_connection in Hr.
    eapply onward_links; [exact Hr|done|done|]. simpl. apply length_insert.
  - apply onward_on_daemon, links_trigger.
  - apply onward_scheduler.
  - unfold pump_turn. destruct (lv_pump L); [|by intros [= <-]].
    destruct (d_events (lv_daemon L)) as [|ev evs]; [by intros [= <-]|].
    destruct (pump_event ev _) as [[[] d]| |] eqn:Hr; [|intros [= <-]|done].
    + intros [= <-]. apply links_pump_event in Hr. eapply onward_links; [|done..].
      etrans; [|exact Hr]. by apply links_same.
    + eapply onward_links; [|reflexivity|done|done]. by apply links_same.
Qed.

(** ** The way out *)

Context `{!RuntimeClockTotal, !Reliable}.

Lemma wp_emit d (s : Sched) Q : (∀ s', Q () s') → wp (emit d) Q s.
Proof.
  intros HQ. unfold emit. apply wp_bind. unfold wp at 1, on_clock.
  destruct (unix_ms_total (clock_st s)) as (t & c & ->). simpl. eexists _, _. split; [done|]. by eexists _, _.
Qed.
Lemma wp_clock (s : Sched) Q : (∀ t s', Q t s') → wp (on_clock unix_ms) Q s.
Proof.
  intros HQ. unfold wp, on_clock. destruct (unix_ms_total (clock_st s)) as (t & c & ->).
  simpl. by eexists _, _.
Qed.

(** Every command is handled; [Shutdown] ends the draining. *)
Lemma wp_command cmd (s : Sched) :
  wp (handle_command cmd) (λ stop _, stop = match cmd with Shutdown => true | _ => false end) s.
Proof.
  destruct cmd as [id p a|id r|id|id n p a|]; simpl.
  - repeat (apply wp_bind, wp_emit; intros ?). by apply wp_bind, wp_modify, wp_ret.
  - apply wp_bind, wp_get. destruct (programs s !! id); [|by apply wp_ret].
    apply wp_bind, wp_modify, wp_bind, wp_emit. intros ?. by apply wp_ret.
  - apply wp_bind, wp_get. destruct (programs s !! id); [|by apply wp_ret].
    apply wp_bind, wp_clock. intros t s1. apply wp_bind, wp_modify, wp_bind, wp_emit. intros ?.
    by apply wp_ret.
  - apply wp_bind, wp_clock. intros t s1. repeat (apply wp_bind, wp_emit; intros ?).
    by apply wp_bind, wp_modify, wp_ret.
  - by apply wp_ret.
Qed.
Lemma wp_drain q (s : Sched) : Shutdown ∈ q → wp (drain_queue q) (λ stop _, stop = true) s.
Proof.
  revert s. induction q as [|cmd q IH]; intros s Hq; [by apply not_elem_of_nil in Hq|]. simpl.
  apply wp_bind, wp_modify, wp_bind. eapply wp_mono; [apply wp_command|]. intros stop s1 ->.
  apply elem_of_cons in Hq as [<-|Hq]; [by apply wp_ret|]. destruct cmd; try by apply IH.
  by apply wp_ret.
Qed.

(** Where the main task is, what the connections are, and that these files are
    gone, of a store that is still there. *)
Record stage (p : Phase) (tasks : list (Conn * option (result IpcError ()))) (gone : list Path)
    (L : Live) : Prop := {
  stage_phase : lv_phase L = p;
  stage_tasks : lv_tasks L = tasks;
  stage_linked : linked L;
  stage_gone s : d_store (lv_daemon L) = Some s → Forall (λ f, files (fs s) !! f = None) gone;
}.

Lemma wp_on_daemon {A} (m : ST Daemon A) (Q : A → Live → Prop) L :
  wp m (λ a d, Q a (set_daemon d L)) (lv_daemon L) → wp (on_daemon m) Q L.
Proof. intros (a & d & Hr & HQ). exists a, (set_daemon d L). unfold on_daemon. by rewrite Hr. Qed.
Lemma wp_on_disk {A} (a : A) (m : ST Store A) (Q : A → Daemon → Prop) d :
  (d_store d = None → Q a d) →
  (∀ s, d_store d = Some s → wp m (λ b s', Q b (set_store (Some s') d)) s) →
  wp (on_disk a m) Q d.
Proof.
  intros Hn Hs. unfold wp, on_disk. destruct (d_store d) as [s|]; [|eauto].
  destruct (Hs s eq_refl) as (b & s' & -> & HQ). simpl. eauto.
Qed.

(** Removing a file, on a host that does not fail. *)
Lemma wp_remove p s :
  wp (io_call (remove_file p))
    (λ r s', (r = Ok () ∨ r = Err NotFound) ∧ files (fs s') = delete p (files (fs s))) s.
Proof.
  unfold wp, io_call. rewrite no_io_fault. unfold remove_file.
  destruct (files (fs s) !! p) eqn:Hp; eexists _, _; (split; [reflexivity|]); simpl.
  - split; [by left|done].
  - split; [by right|]. by rewrite delete_id.
Qed.
Lemma gone_more p gone (m : gmap Path bytes) :
  Forall (λ f, m !! f = None) gone → Forall (λ f, delete p m !! f = None) (p :: gone).
Proof.
  intros Hg. constructor; [apply lookup_delete_eq|]. eapply Forall_impl; [exact Hg|]. intros f Hf.
  apply lookup_delete_None. by right.
Qed.

Lemma linked_same L L' :
  receiver (d_cmds (lv_daemon L')) = receiver (d_cmds (lv_daemon L)) →
  all_commands (lv_daemon L') = all_commands (lv_daemon L) → lv_seen L' = lv_seen L →
  d_shutdown_armed (lv_daemon L') || d_shutdown_fired (lv_daemon L') =
    d_shutdown_armed (lv_daemon L) || d_shutdown_fired (lv_daemon L) → linked L → linked L'.
Proof. intros Hr Hc Hs Hf []. split; congruence. Qed.

(** [select!] sees the shutdown before it looks at the listener. *)
Lemma stop_serving accept tasks L :
  stage Serving tasks [] L → d_shutdown_fired (lv_daemon L) = true →
  wp (main_turn cfg accept) (λ _, stage (Served (Ok ())) tasks [sp_path (cfg_socket cfg)]) L.
Proof.
  intros [Hp Ht Hl _] Hf. apply wp_bind, wp_get. rewrite Hp. apply wp_bind. unfold wp at 1, serve_turn.
  rewrite Hf. eexists _, _. split; [reflexivity|]. cbv beta iota. apply wp_bind, wp_on_daemon, wp_on_disk.
  - intros Hs. apply wp_modify. split; simpl; [done|done|by apply (linked_same L)|]. by rewrite Hs.
  - intros s Hs. apply wp_bind. eapply wp_mono; [apply wp_remove|]. intros r s1 [_ Hfs].
    apply wp_ret, wp_modify. split; simpl; [done|done|by apply (linked_same L)|].
    intros s2 [= <-]. rewrite Hfs. by apply gone_more.
Qed.

(** The scheduler is told, unless it has gone already. *)
Lemma stop_announcing accept r tasks gone L :
  stage (Served r) tasks gone L →
  wp (main_turn cfg accept) (λ _ L', stage Stopping tasks gone L' ∧
    (receiver (d_cmds (lv_daemon L')) = Receiving → Shutdown ∈ unseen L')) L.
Proof.
  intros [Hp Ht Hl Hg]. apply wp_bind, wp_get. rewrite Hp. apply wp_bind, wp_on_daemon.
  assert (∃ x d', cmd_send Shutdown (lv_daemon L) = Ret (x, d') ∧
    (receiver (d_cmds d') = Receiving → x = Ok ())) as (x & d' & Hc & Hx).
  { destruct Hl as [Hn _ _]. unfold cmd_send. destruct (receiver _) eqn:Hr; [done|..].
    - case_match; eauto.
    - exists (Err ()), (lv_daemon L). split; [done|]. congruence. }
  exists x, d'. split; [done|]. cbv beta. apply wp_bind, wp_on_daemon.
  unfold emit_daemon_stopped. apply wp_bind. unfold wp at 1, ask. eexists _, _. split; [reflexivity|].
  apply wp_modify, wp_modify. simpl. pose proof (links_cmd_send _ _ _ _ Hc) as [Hr _ Ha _].
  destruct (cmd_send_adds _ _ _ _ Hc) as (Hst & _ & _ & Hcs).
  destruct Hl as [Hl1 Hl2 Hl3]. split.
  - split; simpl; [done|done| |by rewrite Hst].
    split; simpl; [congruence| |auto]. unfold all_commands in *. simpl. rewrite Hcs, length_app. lia.
  - simpl. intros Hrec. rewrite (Hx Hrec) in Hcs. unfold unseen, all_commands in *. simpl. rewrite Hcs.
    rewrite drop_app_le by done. apply elem_of_app. right. by left.
Qed.

Lemma stop_scheduler tasks gone L :
  stage Stopping tasks gone L → (receiver (d_cmds (lv_daemon L)) = Receiving → Shutdown ∈ unseen L) →
  wp (sched_turn fuel sched_config) (λ _ L', stage Stopping tasks gone L' ∧
    receiver (d_cmds (lv_daemon L')) = Gone) L.
Proof.
  intros [Hp Ht Hl Hg] Hq. apply wp_bind, wp_get.
  destruct (receiver (d_cmds (lv_daemon L))) eqn:Hr.
  - by destruct (linked_receiver L Hl).
  - destruct (wp_drain (unseen L) (set_cmds (unseen L) (lv_sched L)) (Hq eq_refl)) as (b & sch & Hd & ->).
    apply wp_bind. unfold wp at 1, on_sched, modify. simpl. eexists _, _. split; [reflexivity|]. cbv beta.
    apply wp_bind. unfold wp at 1, on_sched, drain_commands, mbind at 2, ST_bind, get. simpl.
    rewrite Hd. simpl. eexists _, _. split; [reflexivity|]. cbv beta.
    apply wp_bind, wp_modify. simpl. apply wp_ret. split; [|done]. destruct Hl as [_ _ Hl3].
    split; simpl; [done|done| |done]. split; simpl; [done| |done]. unfold all_commands. simpl.
    by rewrite app_nil_r.
  - apply wp_ret. split; [by split|done].
Qed.

(** A turn of the pump: one event less, or no pump. *)
Lemma pump_on tasks gone L :
  stage Stopping tasks gone L → receiver (d_cmds (lv_daemon L)) = Gone →
  wp pump_turn (λ _ L', stage Stopping tasks gone L' ∧ receiver (d_cmds (lv_daemon L')) = Gone ∧
    (lv_pump L' = false ∨ lv_pump L = true ∧
                          d_events (lv_daemon L') = tail (d_events (lv_daemon L)))) L.
Proof.
  intros [Hp Ht Hl Hg] Hr. unfold wp, pump_turn. destruct (lv_pump L) eqn:Hpump.
  2: { eexists _, _. split; [reflexivity|]. split_and!; [by split|done|by left]. }
  destruct (d_events (lv_daemon L)) as [|ev evs] eqn:Hev.
  { eexists _, _. split; [reflexivity|]. split_and!; [by split|done|right; by rewrite Hev]. }
  destruct (pump_event ev (set_events evs (lv_daemon L))) as [[[] d]| |] eqn:Hrun.
  - eexists _, _. split; [reflexivity|]. pose proof (links_pump_event _ _ _ _ Hrun) as Hlinks.
    assert (d_events d = evs ∧ ∀ s, d_store d = Some s → ∃ s0, d_store (lv_daemon L) = Some s0 ∧ fs s = fs s0)
      as [He Hs].
    { unfold pump_event in Hrun. apply ST_bind_Ret in Hrun as (u & d1 & H1' & [= <-]). simpl.
      destruct (program_id_of _); [|injection H1' as <- <-; simpl; eauto].
      unfold locked in H1'. simpl in H1'. destruct (d_store (lv_daemon L)) as [s0|]; [|done].
      destruct (only_sql_persist p ev s0) as (u' & s1 & Hpe & Hfs). rewrite Hpe in H1'.
      injection H1' as <- <-. simpl. split; [done|]. intros s [= <-]. eauto. }
    split_and!; simpl.
    + split; simpl; [done|done| |].
      * destruct Hl as [Hl1 Hl2 Hl3]. destruct Hlinks as [Hlr (cs & Hlc) Hla _]. simpl in *.
        split; simpl; [congruence| |auto]. rewrite Hlc, length_app. unfold all_commands in *. simpl in *. lia.
      * intros s Hst. destruct (Hs s Hst) as (s0 & Hs0 & ->). by apply Hg.
    + destruct Hlinks as [Hlr _ _ _]. by rewrite Hlr.
    + by right.
  - eexists _, _. split; [reflexivity|]. split_and!; simpl; [|done|by left].
    split; simpl; [done|done|by apply (linked_same L)|done].
  - exfalso. unfold pump_event, mbind, ST_bind in Hrun. destruct (program_id_of _); [|done].
    unfold locked in Hrun. simpl in Hrun. destruct (d_store (lv_daemon L)) as [s0|]; [|done].
    destruct (only_sql_persist p ev s0) as (u' & s1 & Hpe & _). by rewrite Hpe in Hrun.
Qed.

Lemma pump_empties n tasks gone L :
  stage Stopping tasks gone L → receiver (d_cmds (lv_daemon L)) = Gone →
  lv_pump L = false ∨ length (d_events (lv_daemon L)) ≤ n →
  wp (run_turns fuel sched_config cfg (replicate n PumpTurn))
    (λ _ L', stage Stopping tasks gone L' ∧ joined L' = true) L.
Proof.
  revert L. induction n as [|n IH]; intros L Hs Hr Hn.
  - apply wp_ret. split; [done|]. unfold joined. rewrite Hr.
    destruct Hn as [->|Hn]; [done|]. rewrite (bool_decide_true _); [by destruct (lv_pump L)|].
    apply nil_length_inv. lia.
  - apply wp_bind. simpl. eapply wp_mono; [by apply pump_on|]. intros [] L1 (Hs1 & Hr1 & Hp).
    apply IH; [done..|]. destruct Hp as [Hp|[Hp He]]; [by left|right]. rewrite He.
    destruct Hn as [Hn|Hn]; [congruence|]. destruct (d_events (lv_daemon L)); simpl in *; lia.
Qed.

(** The scheduler has ended, and the pump has died or has nothing left to
    send. *)
Definition ended (L : Live) : Prop :=
  receiver (d_cmds (lv_daemon L)) = Gone ∧ (lv_pump L = false ∨ d_events (lv_daemon L) = []).
Lemma joined_ended L : joined L = true ↔ ended L.
Proof.
  unfold joined, ended. destruct (receiver _); [naive_solver..|].
  rewrite orb_true_iff, negb_true_iff, bool_decide_eq_true. naive_solver.
Qed.
Lemma ended_same d L :
  d_cmds d = d_cmds (lv_daemon L) → d_events d = d_events (lv_daemon L) → ended L →
  ended (set_daemon d L).
Proof. intros Hc He [Hr Hp]. split; simpl; [by rewrite Hc|by rewrite He]. Qed.

(** Everybody has gone: the pidfile goes too. *)
Lemma stop_leaving accept tasks gone L :
  stage Stopping tasks gone L → joined L = true →
  wp (main_turn cfg accept)
    (λ _ L', stage (Exited (Ok ())) tasks (pidfile_path cfg :: gone) L' ∧ ended L') L.
Proof.
  intros [Hp Ht Hl Hg] Hj. apply wp_bind, wp_get. rewrite Hp, Hj.
  apply wp_bind, wp_on_daemon, wp_on_disk.
  - intros Hs. apply wp_modify. split; [|by apply ended_same, joined_ended]. split; simpl; [done|done|by apply (linked_same L)|]. by rewrite Hs.
  - intros s Hs. apply wp_bind. eapply wp_mono; [apply wp_remove|]. intros r s1 [Hr Hfs].
    assert (match r with Ok _ | Err NotFound => sok () | Err e => serr (PidfileError (pidfile_path cfg) e) end
      = (sok () : ST Store (result DaemonError ()))) as -> by by destruct Hr as [->| ->].
    apply wp_ret, wp_modify. split; [|by apply ended_same, joined_ended]. split; simpl; [done|done|by apply (linked_same L)|].
    intros s2 [= <-]. rewrite Hfs. by apply gone_more, Hg.
Qed.

(** The schedule that gets there soonest. *)
Lemma way_out a b c L :
  linked L → lv_phase L = Serving →
  ∃ n, wp (run_turns fuel sched_config cfg
             (SignalTurn :: MainTurn a :: MainTurn b :: SchedTurn :: replicate n PumpTurn ++ [MainTurn c]))
    (λ _ L', stage (Exited (Ok ())) (lv_tasks L) [pidfile_path cfg; sp_path (cfg_socket cfg)] L' ∧
      ended L') L.
Proof.
  intros Hl Hp.
  assert (wp (run_turns fuel sched_config cfg [SignalTurn; MainTurn a; MainTurn b; SchedTurn])
    (λ _ L', stage Stopping (lv_tasks L) [sp_path (cfg_socket cfg)] L' ∧
      receiver (d_cmds (lv_daemon L')) = Gone) L) as (u & L1 & Hrun & Hs & Hr).
  { apply wp_bind, wp_on_daemon, wp_modify.
    destruct Hl as [Hl1 Hl2 Hl3].
    apply wp_bind. eapply wp_mono; [apply (stop_serving a (lv_tasks L))|].
    - split; simpl; [done|done| |done]. split; simpl; [done|done|by rewrite orb_comm].
    - simpl. by rewrite orb_comm.
    - intros [] L1 Hs1. apply wp_bind. eapply wp_mono; [by eapply stop_announcing|].
      intros [] L2 [Hs2 Hq2]. apply wp_bind. eapply wp_mono; [by apply stop_scheduler|].
      intros [] L3 H3'. by apply wp_ret. }
  destruct u. exists (length (d_events (lv_daemon L1))).
  change (SignalTurn :: MainTurn a :: MainTurn b :: SchedTurn :: ?l) with
    ([SignalTurn; MainTurn a; MainTurn b; SchedTurn] ++ l).
  assert (∀ l1 l2 Q L L1, run_turns fuel sched_config cfg l1 L = Ret ((), L1) →
    wp (run_turns fuel sched_config cfg l2) Q L1 → wp (run_turns fuel sched_config cfg (l1 ++ l2)) Q L)
    as Happ.
  { clear. induction l1 as [|t l1 IH]; intros l2 Q L L1; simpl; [by intros [= ->]|].
    intros ([] & L0 & Ht & Hr)%ST_bind_Ret HQ. apply wp_bind. exists (), L0. split; [done|].
    by eapply IH. }
  eapply Happ; [exact Hrun|].
  destruct (pump_empties (length (d_events (lv_daemon L1))) _ _ L1 Hs Hr) as (u & L2 & Hrun2 & Hs2 & Hj);
    [by right|]. destruct u. eapply Happ; [exact Hrun2|].
  apply wp_bind. eapply wp_mono; [by apply stop_leaving|]. intros [] L3 Hs3. by apply wp_ret.
Qed.

(** And no other turn leads out of [run_foreground]. *)
Lemma exit_ended t L L' r :
  turn fuel sched_config cfg t L = Ret ((), L') →
  (∀ r', lv_phase L ≠ Exited r') → lv_phase L' = Exited r → ended L'.
Proof.
  intros Hrun Hbefore Hafter.
  assert (lv_phase L' ≠ lv_phase L) as Hmoved by (rewrite Hafter; intros Heq; by eapply Hbefore).
  assert (∀ A (m : ST Daemon A) a L0 L1, on_daemon m L0 = Ret (a, L1) → lv_phase L1 = lv_phase L0) as Hd.
  { intros A m a0 L0 L1 ([x d] & _ & [= <- <-])%outcome_bind_Ret. done. }
  assert (∀ A (m : ST Sched A) a L0 L1, on_sched m L0 = Ret (a, L1) → lv_phase L1 = lv_phase L0) as Hs.
  { intros A m a0 L0 L1 ([x d] & _ & [= <- <-])%outcome_bind_Ret. done. }
  destruct t as [accept|i fresh| | |]; simpl in Hrun.
  - apply ST_bind_Ret in Hrun as (L0 & L1 & [= <- <-] & Hr).
    destruct (lv_phase L) as [|r0| |r0] eqn:Hp.
    + apply ST_bind_Ret in Hr as (x & L1 & Hsv & Hr). destruct x as [x|].
      * apply ST_bind_Ret in Hr as (u & L2 & _ & [= <-]). done.
      * injection Hr as <-. unfold serve_turn in Hsv. by repeat (case_match; simplify_eq/=).
    + apply ST_bind_Ret in Hr as (u & L1 & _ & Hr). apply ST_bind_Ret in Hr as (u' & L2 & _ & [= <-]).
      done.
    + destruct (joined L) eqn:Hj; [|injection Hr as <-; congruence].
      apply ST_bind_Ret in Hr as (x & L1 & Hr & [= <-]).
      assert (ended L1) as [He1 He2]; [|by split].
      apply outcome_bind_Ret in Hr as ([y d] & Hr & [= <- <-]). apply joined_ended in Hj.
      unfold on_disk in Hr. destruct (d_store (lv_daemon L)).
      * apply outcome_bind_Ret in Hr as ([z s1] & _ & [= <- <-]). by apply ended_same.
      * injection Hr as <- <-. by apply ended_same.
    + by destruct (Hbefore r0).
  - unfold task_turn in Hrun. destruct (lv_tasks L !! i) as [[c [x|]]|];
      [injection Hrun as <-; done| |injection Hrun as <-; done].
    apply outcome_bind_Ret in Hrun as ([x [c' d]] & _ & [= <-]). done.
  - by apply Hd in Hrun.
  - apply ST_bind_Ret in Hrun as (L0 & L1 & [= <- <-] & Hr).
    destruct (receiver _); [injection Hr as <-; done| |injection Hr as <-; done].
    apply ST_bind_Ret in Hr as ([] & L1 & H1'%Hs & Hr).
    apply ST_bind_Ret in Hr as (stop & L2 & H2'%Hs & Hr).
    apply ST_bind_Ret in Hr as ([] & L3 & [= <-] & Hr).
    assert (lv_phase (received stop L2) = lv_phase L) as Hrec by (simpl; congruence).
    destruct stop; [injection Hr as <-; done|].
    apply ST_bind_Ret in Hr as ([] & L4 & H4'%Hs & H5'%Hs). congruence.
  - unfold pump_turn in Hrun. repeat (case_match; simplify_eq/=); done.
Qed.
End turns.
