(* ===== verification/LiveBoot.v ===== *)
(** * From the start of the daemon to any later moment

    What [boot] leaves is in step with the scheduler it starts, so that the
    rows follow the scheduler from the start on. *)

From S2P Require Import Prelude Json CoreTypes Sha256 Canonical Serde DslError DslValidate EventWire.
From S2P Require Import IpcWire Host FrameView Perception Input Capture Clock Runtime.
From S2P Require Import Wp Store StoreSpec StoreGc StoreMap StoreOpen StoreLog Materialize Ipc.
From S2P Require Import Daemon Boot PumpSpec SubmitSpec.
From S2P Require Import Scheduler SchedulerSpec SystemSpec Live LiveSpec LiveStop.

Local Open Scope vcli_scope.
#[local] Set Default Proof Using "Type*".

Section boot.
Context `{NfcOps, RyuOps, UuidOps, !UuidLaws, JsonText, !JsonTextLaws, Host, !Reliable}.
Context `{Sha2, !Sha2Laws, DaemonHost, SerdeOps, SerdeMessage, Surroundings, Subscriptions, OpDebug}.
#[local] Set Default Proof Using "All".

(** ** The rows that are read back *)

Lemma unwrap_all_inv {A B} (f : A → option B) l (s : Store) ys s' :
  unwrap_all f l s = Ret (ys, s') → s' = s ∧ Forall2 (λ x y, f x = Some y) l ys.
Proof using.
  revert ys. induction l as [|x l IH]; intros ys; simpl; [intros [= <- <-]; by repeat constructor|].
  intros (y & s1 & Hy & Hr)%ST_bind_Ret. apply ST_bind_Ret in Hr as (ys' & s2 & Hl & [= <- <-]).
  destruct (f x) eqn:Hx; [|done]. injection Hy as <- <-. apply IH in Hl as [-> Hl].
  split; [done|]. by constructor.
Qed.

Lemma listed_known f s l s' :
  list_programs f s = Ret (Ok l, s') → ready s → Forall (λ r, is_Some (view s !! pr_id r)) l.
Proof.
  intros Hr [Hd [t Ht]]. unfold list_programs in Hr.
  apply sbind_Ok in Hr as (rows & s1 & Hq & Hr).
  apply ST_bind_Ret in Hr as (ys & s2 & Hu & [= <- _]). apply unwrap_all_inv in Hu as [_ Hu].
  assert (∀ r, r ∈ rows → r ∈ t_programs t) as Hin.
  { assert (wp (query (λ (_ : N) (t : Tables), Ok (order_by c_submitted_at (List.filter (λ r,
        match ProgramState_as_str <$> f with None => true | Some x => bool_decide (c_state r = x) end)
        (t_programs t))))) (λ r _, ∀ l, r = Ok l → ∀ x, x ∈ l → x ∈ t_programs t) s)
      as (r' & s1' & Hq' & Hin).
    { apply (wp_query_at t); [done|by intros ? ?|]. intros l [= <-] x Hx.
      assert (Forall (λ x, x ∈ t_programs t) (order_by c_submitted_at (List.filter (λ r,
        match ProgramState_as_str <$> f with None => true | Some x => bool_decide (c_state r = x) end)
        (t_programs t)))) as Hall.
      { apply Forall_order_by, Forall_forall. intros y Hy. by apply elem_of_bfilter in Hy as [? _]. }
      rewrite Forall_forall in Hall. by apply Hall. }
    rewrite Hq in Hq'. injection Hq' as <- _. by apply Hin. }
  pose proof (Hd t Ht) as Hok. rewrite (view_at t s Ht).
  clear Hq. induction Hu as [|r row rows ys Hdec _ IH]; [constructor|]. constructor.
  2: { apply IH. intros; apply Hin; by right. }
  assert (r ∈ t_programs t) as Hr by (apply Hin; by left).
  pose proof (rows_ok t Hok) as Hall. rewrite Forall_forall in Hall.
  destruct (row_ok_decodes r (Hall r Hr)) as (i & st & Hi & _ & _ & Hd').
  unfold decodes in Hd'. rewrite Hdec in Hd'. injection Hd' as ->. simpl. exists (row_of i st r).
  apply view_of_lookup; [by destruct Hok| by rewrite Forall_forall|].
  by exists r.
Qed.

(** Work that leaves rows and ids as they are. *)
Definition stays (s s' : Store) : Prop := ready s → same_programs s s'.
#[export] Instance stays_preorder : PreOrder stays.
Proof.
  split; [by intros s [??]|]. intros a b c Hab Hbc Ha. destruct (Hab Ha) as (? & ? & Hv & Hq).
  destruct Hbc as (? & ? & Hv' & Hq'); [by split|]. unfold same_programs, same_log_ids in *.
  split_and!; [done..|congruence|congruence].
Qed.
Lemma stays_ready s s' : stays s s' → ready s → ready s'.
Proof. intros Hs Hr. by destruct (Hs Hr) as (? & ? & _). Qed.
Lemma stays_calm {A} (m : ST Store A) : calm m → does stays m.
Proof.
  intros Hm s a s' Hr [Hd Ht]. destruct (Hm s Hd Ht) as [Hp|(b & s1 & Hb & Hs)]; [congruence|].
  rewrite Hb in Hr. by injection Hr as <- <-.
Qed.
Lemma stays_looked {A} (m : ST Store A) : does looked m → does stays m.
Proof.
  intros Hm s a s' Hr%Hm [Hd Ht]. unfold looked in Hr.
  unfold same_programs, same_log_ids, disk_ok, view, rows in *. by rewrite Hr.
Qed.

Lemma reload_row_stays now row s r s' :
  reload_row now row s = Ret (r, s') →
  stays s s' ∧ ∀ x, r = Some x → x.1.1 = pr_id row.
Proof.
  unfold reload_row. destruct (json_from_str _) as [value|e]; [|by intros [= <- <-]].
  intros (v & s1 & Hv & Hr)%ST_bind_Ret. apply (does_slift (R := stays)) in Hv.
  destruct v as [v|e]; [|by injection Hr as <- <-].
  apply ST_bind_Ret in Hr as (m & s2 & Hm & [= <- <-]).
  pose proof (stays_calm _ (calm_materialize _ _ _) _ _ _ Hm) as Hs. split; [by trans s1|].
  by destruct m as [[p out]|e]; intros x; [intros [= <-]|].
Qed.

Lemma reload_fold (V : Rows) now rs acc s l s' :
  mfold (λ acc row, r ← reload_row now row;
                    mret match r with Some x => acc ++ [x] | None => acc end) acc rs s
    = Ret (l, s') →
  Forall (λ r, is_Some (V !! pr_id r)) rs → Forall (λ x : ProgramId * Program * Assets, is_Some (V !! x.1.1)) acc →
  stays s s' ∧ Forall (λ x, is_Some (V !! x.1.1)) l.
Proof.
  intros Hr Hrs. revert acc s Hr. induction Hrs as [|row rs Hrow _ IH]; intros acc s Hr Hacc.
  { by injection Hr as <- <-. }
  apply ST_bind_Ret in Hr as (acc' & s2 & Hb & Hr).
  apply ST_bind_Ret in Hb as (x & s3 & Hx & [= <- <-]). apply reload_row_stays in Hx as [Hx Hid].
  apply IH in Hr as [Hs' Hl]; [by split; [trans s3|]|].
  destruct x as [x|]; [|done]. apply Forall_app. split; [done|]. constructor; [|done].
  by rewrite (Hid x).
Qed.

Lemma reload_rows_stays now s l s' :
  reload_rows now s = Ret (l, s') → ready s →
  stays s s' ∧ Forall (λ x, is_Some (view s !! x.1.1)) l.
Proof.
  intros (rs & s1 & Hl & Hr)%ST_bind_Ret Hs.
  pose proof (stays_looked _ (looked_list _) _ _ _ Hl) as Hst.
  apply (reload_fold (view s)) in Hr as [Hst' Hk]; [by split; [trans s1|]| |constructor].
  destruct rs as [rs|e]; simpl; [by eapply listed_known|constructor].
Qed.

(** ** What is sent before anybody listens *)

Lemma submit_all_sends l n d k d' (V : Rows) :
  submit_all l n d = Ret (k, d') → Forall (λ x, is_Some (V !! x.1.1)) l →
  d_store d' = d_store d ∧ d_events d' = d_events d ∧
  ∃ cs, all_commands d' = all_commands d ++ cs ∧ Forall (cmd_known V) cs.
Proof using.
  revert n d. induction l as [|[[i p] a] l IH]; intros n d; simpl.
  { intros [= <- <-] _. split_and!; [done..|]. exists []. by rewrite app_nil_r. }
  intros (r & d1 & Hc & Hr)%ST_bind_Ret [Hi Hl]%Forall_cons.
  apply cmd_send_adds in Hc as (Hs & He & _ & Hc). destruct (IH _ _ Hr Hl) as (Hs' & He' & cs & Hcs & Hk).
  split_and!; [congruence..|]. eexists. split; [by rewrite Hcs, Hc, <-app_assoc|].
  apply Forall_app. split; [|done]. destruct r; by repeat constructor.
Qed.

Lemma links_submit_all l n : does links (submit_all l n).
Proof.
  revert n. induction l as [|[[i p] a] l IH]; intros n; simpl; [apply does_ret|].
  apply does_bind; [apply links_cmd_send|]. intros; apply IH.
Qed.

Lemma recovery_known (V : Rows) now recovered :
  Forall (λ r, is_Some (V !! rec_id r)) recovered →
  Forall (known V) (recovered ≫= recovery_events now) ∧
  Forall cursor_ok (recovered ≫= recovery_events now).
Proof using.
  induction 1 as [|r l Hr _ [IH1 IH2]]; [by split|]. rewrite bind_cons.
  split; apply Forall_app; (split; [|done]); unfold recovery_events; by repeat constructor.
Qed.

(** The daemon when the service begins. *)
Record ready_daemon (s : Store) (d : Daemon) (s' : Store) : Prop := {
  rd_store : d_store d = Some s';
  rd_rows : same_programs s s';
  rd_known : Forall (known (view s)) (d_events d);
  rd_cursors : Forall cursor_ok (d_events d);
  rd_cmds : Forall (cmd_known (view s)) (all_commands d);
  rd_receiver : receiver (d_cmds d) = Receiving;
  rd_armed : d_shutdown_armed d || d_shutdown_fired d = true;
}.

Lemma boot_daemon_ready proc cfg recovered s d :
  boot_daemon proc cfg recovered (new_channels s) = Ret (Ok (), d) → ready s →
  Forall (λ r, is_Some (view s !! rec_id r)) recovered → ∃ s', ready_daemon s d s'.
Proof.
  intros Hr Hs Hrec. unfold boot_daemon in Hr.
  apply ST_bind_Ret in Hr as ([] & d1 & He & Hr).
  apply ST_bind_Ret in He as (now & d0 & [= <- <-] & He). rewrite sends_all in He. injection He as <-.
  apply ST_bind_Ret in Hr as ([] & d2 & [= <-] & Hr). simpl in Hr.
  destruct (recovery_known (view s) (clock_ms 0) recovered Hrec) as [Hk Hc].
  apply ST_bind_Ret in Hr as (n & d3 & Hl & Hr).
  apply ST_bind_Ret in Hl as (now2 & d4 & [= <- <-] & Hl).
  apply ST_bind_Ret in Hl as (l & d5 & Hl & Hsub). unfold locked in Hl. simpl in Hl.
  apply outcome_bind_Ret in Hl as ([l' s1] & Hl & [= <- <-]).
  apply reload_rows_stays in Hl as [Hst Hids]; [|done].
  pose proof (links_armed _ _ (links_submit_all _ _ _ _ _ Hsub) eq_refl) as Harm.
  apply (submit_all_sends _ _ _ _ _ (view s)) in Hsub as (Hst3 & Hev3 & cs & Hcs & Hkn); [|done].
  simpl in Hst3, Hev3.
  apply sbind_Ok in Hr as ([] & d6 & [= _ <-] & Hr). apply sbind_Ok in Hr as ([] & d7 & [= _ <-] & Hr).
  apply ST_bind_Ret in Hr as ([] & d8 & [= <-] & Hr). apply sbind_Ok in Hr as ([] & d9 & [= _ <-] & Hr).
  unfold locked in Hr. simpl in Hr. rewrite Hst3 in Hr.
  apply outcome_bind_Ret in Hr as ([r s2] & Hb & [= -> <-]).
  assert (looked s1 s2) as Hlook.
  { assert (∀ A (wrap : IoError → IpcError) (f : fs_call A), does looked (machine_io wrap f)) as Hio.
    { intros. apply does_bind; [apply looked_io|intros; apply does_ret]. }
    eapply (does_bind (R := looked)); [| |exact Hb]; [|intros; apply does_ret].
    apply does_bind; [unfold looked; by intros ? ? ? [= <- <-]|]. intros found.
    apply does_sbind; [by destruct found; [apply Hio|apply does_ret]|intros _].
    apply does_sbind; [apply Hio|intros _; apply Hio]. }
  assert (stays s1 s2) as Hst2.
  { unfold looked in Hlook. intros [Hd Ht].
    unfold same_programs, same_log_ids, disk_ok, view, rows in *. by rewrite Hlook. }
  exists s2. split; simpl; try done.
  - assert (stays s s2) as Hss by by trans s1. by apply Hss.
  - rewrite Hev3. apply Forall_app. split; [done|]. by repeat constructor.
  - rewrite Hev3. apply Forall_app. split; [done|]. by repeat constructor.
  - unfold all_commands in *. simpl in *. by rewrite Hcs.
Qed.

(** ** The whole start *)

Lemma looked_machine_io {E A} (wrap : IoError → E) (f : fs_call A) : does looked (machine_io wrap f).
Proof. intros. apply does_bind; [apply looked_io|intros; apply does_ret]. Qed.
Lemma looked_ensure cfg : does looked (ensure_dirs cfg).
Proof. apply does_sbind; [apply looked_machine_io|intros _; apply looked_machine_io]. Qed.
Lemma looked_acquire proc p : does looked (pidfile_acquire proc p).
Proof.
  apply does_sbind; [by destruct (path_parent p); [apply looked_machine_io|apply does_ret]|intros _].
  apply does_sbind; [apply looked_machine_io|intros _]. destruct (lock_held proc).
  - apply does_bind; [apply looked_io|intros; apply does_ret].
  - repeat (apply does_sbind; [apply looked_machine_io|intros _]). apply does_ret.
Qed.

Lemma boot_ready proc cfg s0 d s1 :
  boot proc cfg s0 = Ret (Ok d, s1) → disk_ok s0 →
  ∃ s s', ready_daemon s d s' ∧ view s = recover_row <$> view s0 ∧
    t_events_seq (rows s) = t_events_seq (rows s0).
Proof.
  intros Hr Hs0. apply sbind_Ok in Hr as ([] & sa & Ha & Hr).
  apply looked_ensure in Ha.
  apply sbind_Ok in Hr as ([] & sb & [= _ <-] & Hr).
  apply sbind_Ok in Hr as (pid & sb & Hb & Hr). apply looked_acquire in Hb.
  assert (conn sb = conn s0) as Hconn by by unfold looked in *; congruence.
  apply ST_bind_Ret in Hr as (r & sc & Hc & Hr). destruct r as [d'|e].
  2: { by apply ST_bind_Ret in Hr as (? & ? & _ & [=]). }
  injection Hr as Hd Hsc. subst d' sc. apply sbind_Ok in Hc as (recovered & s & Ho & Hc).
  apply ST_bind_Ret in Ho as (r & s2 & Ho & [= Hr <-]).
  destruct r as [rec|e]; [|done]. injection Hr as <-.
  assert (disk_ok sb) as Hsb by by unfold disk_ok in *; rewrite Hconn.
  destruct (wp_and _ _ _ _ (keeps_open (cfg_data_root cfg) sb Hsb) (open_meets (cfg_data_root cfg) sb Hsb))
    as (r & s2' & Ho' & Hd2 & Hmeets).
  rewrite Ho in Ho'. injection Ho' as <- <-. destruct Hmeets as (Ht & Hview & [_ Hrep] & Hrows).
  apply ST_bind_Ret in Hc as (x & s3 & [= <- <-] & Hc).
  apply ST_bind_Ret in Hc as ([r d2] & s4 & Hbd & Hc). unfold slift in Hbd.
  destruct (boot_daemon proc cfg rec (new_channels s2)) as [[r' d2']| |] eqn:Hboot; try done.
  injection Hbd as <- <- <-.
  apply ST_bind_Ret in Hc as (u & s5 & _ & [= Hr _]). destruct r' as [[]|e]; [|done].
  injection Hr as <-. destruct (boot_daemon_ready _ _ _ _ _ Hboot) as [s' Hready]; [by split| |].
  { apply Forall_forall. intros [i c] Hin. apply Hrep in Hin as (row & Hrow & _).
    simpl. rewrite Hview, lookup_fmap, Hrow. by eexists. }
  exists s2, s'. split; [done|]. rewrite Hview, Hrows. unfold view, rows. rewrite Hconn. done.
Qed.
End boot.

(** ** From the start to any moment *)

Section follow.
Context `{NfcOps, RyuOps, UuidOps, !UuidLaws, JsonText, !JsonTextLaws, Host, !Reliable}.
Context `{Sha2, !Sha2Laws, DaemonHost, SerdeOps, SerdeMessage, Surroundings, Subscriptions, OpDebug}.
Context `{ImageOps, InputSink, Capture, RuntimeClock, HashOrder}.
Variable fuel : nat.
Variable sched_config : SchedulerConfig.
Variable cfg : Config.
#[local] Set Default Proof Using "All".

(** Turns of the tasks, in any order, in which clients ask for [allowed]
    operations only. *)
Inductive live_run (allowed : RequestOp → Prop) : Live → Live → Prop :=
  | run_done L : live_run allowed L L
  | run_turn t L L1 L2 :
      turn fuel sched_config cfg t L = Ret ((), L1) →
      (∀ op, asked t L = Some op → allowed op) →
      live_run allowed L1 L2 → live_run allowed L L2.

Lemma live_run_keeps L L' : live_run tame L L' → keeps_step L L'.
Proof.
  induction 1 as [|t L L1 L2 Hr Hop _ IH]; [done|]. trans L1; [|done].
  by apply (keeps_turn fuel sched_config cfg t).
Qed.

(** C3: The rows follow the scheduler, whatever the interleaving.  Start the
    daemon on a disk in order (and on a host that does not fail), and let its
    tasks take turns in any order: connections are accepted, requests served
    (any but [resume] and [gc]), signals arrive, the scheduler goes round its
    loop, the pump takes events.  At every later moment, as long as the store
    is not poisoned and the log has ids left, moving the rows on by the events
    still on their way gives every program in the scheduler's table the state
    the scheduler has it in; when nothing is on its way the rows are in those
    states. *)
Theorem rows_follow_scheduler proc s0 d s1 cap inp perc clk L s' :
  disk_ok s0 → boot proc cfg s0 = Ret (Ok d, s1) →
  live_run tame (in_service d (Scheduler_new cap inp perc clk [])) L →
  d_store (lv_daemon L) = Some s' →
  (t_events_seq (rows s0) + Z.of_nat (length (d_events d)) +
   Z.of_nat (length (event_tx (lv_sched L))) + 1 < i64_max)%Z →
  agree (states (lv_sched L)) (foldl apply_row (view s') (d_events (lv_daemon L))) ∧
  (d_events (lv_daemon L) = [] → agree (states (lv_sched L)) (view s')).
Proof.
  intros Hs0 Hboot Hrun Hs' Hroom.
  destruct (boot_ready _ _ _ _ _ Hboot Hs0) as (s & s2 & [Hst (Hd & Ht & Hv & Hq) Hk Hc Hcm _ _] & _ & Hseq).
  destruct (keeps_store _ _ (live_run_keeps _ _ Hrun) s' Hs') as (s3 & Hs3 & Hkeep).
  simpl in Hs3. rewrite Hst in Hs3. injection Hs3 as <-.
  destruct (Hkeep (emitted L)) as [_ _ _ _ Ha _]; [done| |].
  - split; simpl.
    + by split.
    + unfold same_log_ids in Hq. rewrite Hq, Hseq. unfold emitted. simpl. lia.
    + by rewrite Hv.
    + done.
    + intros id st Hid. unfold states in Hid. simpl in Hid. by rewrite fmap_empty, lookup_empty in Hid.
    + rewrite drop_0, Hv. exact Hcm.
  - split; [done|]. intros He. by rewrite He in Ha.
Qed.

Lemma live_run_onward allowed L L' : live_run allowed L L' → onward L L'.
Proof.
  induction 1 as [|t L L1 L2 Hr _ _ IH]; [done|]. trans L1; [|done]. by eapply onward_turn.
Qed.

Context `{!RuntimeClockTotal}.

(** C4: A signal ends the service.  Take any moment of the service of a
    daemon, whatever its clients asked for and however its tasks took turns,
    and send it SIGTERM.  No connection is accepted from then on, whatever the
    order of the turns; and the way out is open: two turns of the main task,
    one of the scheduler, as many of the pump as there are events, and one of
    the main task, and [run_foreground] has returned [Ok]: every connection is
    as it was, the scheduler has ended, the pump has nothing left to send (or
    has died), and socket and pidfile are gone (of a store that is not
    poisoned).  No other turn, of any task, gets out of [run_foreground] before
    the scheduler and the pump have ended.  The host and its clock do not
    fail. *)
Theorem signal_ends_service proc s0 d s1 cap inp perc clk L a b c :
  disk_ok s0 → boot proc cfg s0 = Ret (Ok d, s1) →
  live_run (λ _, True) (in_service d (Scheduler_new cap inp perc clk [])) L →
  lv_phase L = Serving →
  (∃ n L', run_turns fuel sched_config cfg
      (SignalTurn :: MainTurn a :: MainTurn b :: SchedTurn :: replicate n PumpTurn ++ [MainTurn c]) L
      = Ret ((), L') ∧
    lv_phase L' = Exited (Ok ()) ∧ lv_tasks L' = lv_tasks L ∧
    receiver (d_cmds (lv_daemon L')) = Gone ∧
    (lv_pump L' = false ∨ d_events (lv_daemon L') = []) ∧
    ∀ s, d_store (lv_daemon L') = Some s →
      files (fs s) !! sp_path (cfg_socket cfg) = None ∧ files (fs s) !! pidfile_path cfg = None) ∧
  (∀ L1 L2, signal_turn L = Ret ((), L1) → live_run (λ _, True) L1 L2 →
    length (lv_tasks L2) = length (lv_tasks L)) ∧
  ∀ t L1 L2 r, turn fuel sched_config cfg t L1 = Ret ((), L2) →
    (∀ r', lv_phase L1 ≠ Exited r') → lv_phase L2 = Exited r →
    receiver (d_cmds (lv_daemon L2)) = Gone ∧ (lv_pump L2 = false ∨ d_events (lv_daemon L2) = []).
Proof.
  intros Hs0 Hboot Hrun Hp.
  destruct (boot_ready _ _ _ _ _ Hboot Hs0) as (s & s2 & Hready & _ & _).
  assert (linked L) as Hl.
  { apply (onward_linked _ _ (live_run_onward _ _ _ Hrun)). destruct Hready as [_ _ _ _ _ Hr Ha].
    split; simpl; [congruence|lia|done]. }
  split; [|split].
  - destruct (way_out fuel sched_config cfg a b c L Hl Hp)
      as (n & [] & L' & Hr & [Hph Ht _ Hg] & Hgone & Hpump).
    exists n, L'. split; [exact Hr|]. split; [done|]. split; [done|]. split; [done|].
    split; [done|]. intros s3 Hs3.
    specialize (Hg s3 Hs3). apply Forall_cons in Hg as [Hpid Hg].
    apply Forall_cons in Hg as [Hsock _]. done.
  - intros L1 L2 [= <-] Hlater. apply live_run_onward in Hlater as [_ _ Ht]. apply Ht. simpl.
    destruct Hl as [_ _ Ha]. by rewrite orb_comm.
  - intros t L1 L2 r Ht Hb Ha. exact (exit_ended _ _ _ t L1 L2 r Ht Hb Ha).
Qed.
End follow.
