(* ===== verification/RestartSpec.v ===== *)
(** * Restart

    What a daemon that starts again does with the programs its predecessor
    left: those found running, and those found waiting. *)

From S2P Require Import Prelude Json CoreTypes Sha256 Canonical Serde DslError DslValidate EventWire.
From S2P Require Import IpcWire Host Perception Wp Store StoreSpec StoreGc StoreMap StoreOpen.
From S2P Require Import StoreLog Ipc Materialize Daemon Boot PumpSpec SubmitSpec.
From S2P Require Scheduler.

Local Open Scope vcli_scope.
#[local] Set Default Proof Using "All".

(** ** Programs found running *)

Section recovered.
Context `{NfcOps, RyuOps, UuidOps, !UuidLaws, JsonText, !JsonTextLaws, Host, !Reliable}.
Context `{Sha2, !Sha2Laws, DaemonHost, SerdeOps, SerdeMessage, Surroundings, Subscriptions, OpDebug}.

Definition restart_reason : string := "daemon restarted during execution".

(** Both recovery events leave the code once the second has set it. *)
Definition code_set (V : Rows) (i : ProgramId) : Prop :=
  ∃ row, V !! i = Some row ∧ pr_last_error_code row = Some restart_reason.

Lemma code_set_stays now r V i ev :
  code_set V i → ev ∈ recovery_events now r → code_set (apply_row V ev) i.
Proof using.
  intros (row & Hrow & Hcode) Hev. unfold recovery_events in Hev.
  apply elem_of_cons in Hev as [->|Hev]; [|apply list_elem_of_singleton in Hev as ->];
    unfold apply_row; cbn [ev_data program_id_of]; unfold code_set;
    (destruct (decide (i = rec_id r)) as [->|Hi];
     [rewrite lookup_alter_eq, Hrow; eexists; split; [reflexivity|done]
     |rewrite lookup_alter_ne by done; eauto]).
Qed.

Lemma code_set_by now r V :
  is_Some (V !! rec_id r) → code_set (foldl apply_row V (recovery_events now r)) (rec_id r).
Proof using.
  intros [row Hrow]. unfold code_set, apply_row; simpl. rewrite !lookup_alter_eq, Hrow; simpl.
  eexists. split; [reflexivity|done].
Qed.

Lemma code_set_after now r recovered V i :
  code_set V i → code_set (foldl apply_row V (recovery_events now r)) i ∧
  code_set (foldl apply_row V (recovered ≫= recovery_events now)) i.
Proof using.
  intros HV. assert (∀ r V, code_set V i → code_set (foldl apply_row V (recovery_events now r)) i)
    as Hone.
  { intros q W HW. simpl. eapply (code_set_stays now q); [|by right; left].
    eapply (code_set_stays now q); [done|by left]. }
  split; [by apply Hone|]. revert V HV. induction recovered as [|q l IH]; intros V HV; [done|].
  rewrite bind_cons, foldl_app. by apply IH, Hone.
Qed.

Lemma recovery_events_known now q (V : Rows) :
  is_Some (V !! rec_id q) → Forall (known V) (recovery_events now q).
Proof using. intros Hq. unfold recovery_events. by repeat constructor. Qed.

Lemma not_faulted s s' : ¬ faulted s s'.
Proof. intros (n & e & _ & He). by rewrite no_sql_fault in He. Qed.

Lemma all_codes_set now recovered V :
  Forall (λ r, is_Some (V !! rec_id r)) recovered →
  Forall (λ r, code_set (foldl apply_row V (recovered ≫= recovery_events now)) (rec_id r)) recovered.
Proof using.
  revert V. induction recovered as [|q l IH]; intros V Hrows; [constructor|].
  apply Forall_cons in Hrows as [Hq Hl]. rewrite bind_cons, foldl_app. constructor.
  - by apply code_set_after, code_set_by.
  - apply IH. eapply Forall_impl; [exact Hl|]. intros r [row Hrow]. simpl. unfold apply_row; simpl.
    destruct (decide (rec_id r = rec_id q)) as [Hi|Hi].
    + rewrite Hi in Hrow |- *. rewrite !lookup_alter_eq, Hrow. by eexists.
    + rewrite !lookup_alter_ne by done. by eexists.
Qed.

(** A program whose code is the sentence is not resumed. *)
Lemma resume_refused rid i from_start d s :
  d_store d = Some s → disk_ok s → is_Some (tables (conn s)) → code_set (view s) i →
  ∃ payload d', handle_resume rid i from_start d = Ret (Response_err rid payload, d') ∧
    ep_code payload = NotResumableCode.
Proof.
  intros Hst Hs Ht (row & Hrow & Hcode).
  unfold handle_resume. set (t := clock_ms (d_reads d)).
  set (d2 := mkDaemon (d_store d) (d_cmds d) (d_events d) (d_broadcast d)
               (d_shutdown_armed d) (d_shutdown_fired d) (d_reads d + 1)).
  rewrite (ST_bind_step _ _ d t d2) by done.
  destruct (resume_program_meets i from_start t s Hs Ht)
    as (a & s2 & Hres & _ & Hagree).
  assert (∃ m, a = Err (StoreNotResumable m)) as [m ->].
  { destruct a as [a|e]; unfold agrees in Hagree.
    - cbn [spec] in Hagree. unfold on_row in Hagree. rewrite Hrow in Hagree.
      rewrite decide_False in Hagree; [done|]. intros [_ Hc]. by rewrite Hc in Hcode.
    - destruct Hagree as [_ [Hf|(x & Hspec & Href)]]; [by apply not_faulted in Hf|].
      cbn [spec] in Hspec. unfold on_row in Hspec. rewrite Hrow in Hspec.
      rewrite decide_False in Hspec by (intros [_ Hc]; by rewrite Hc in Hcode).
      injection Hspec as <-. destruct Href as [m ->]. by exists m. }
  assert (resume_locked i from_start t s = Ret (Err (store_error_payload (StoreNotResumable m)), s2))
    as Hlock.
  { unfold resume_locked, on_error.
    by erewrite sbind_stop by (by rewrite (ST_bind_step _ _ _ _ _ Hres)). }
  rewrite (ST_bind_step _ _ _ _ _ (locked_task_Ret _ d2 s _ _ Hst Hlock)).
  eexists _, _. split; [reflexivity|done].
Qed.

(** The daemon announces the recovery. *)
Lemma recovery_announced recovered d :
  emit_recovery_events recovered d =
    Ret ((), mkDaemon (d_store d) (d_cmds d)
               (d_events d ++ (recovered ≫= recovery_events (clock_ms (d_reads d))))
               (d_broadcast d) (d_shutdown_armed d) (d_shutdown_fired d) (d_reads d + 1)).
Proof using.
  unfold emit_recovery_events. erewrite ST_bind_step by reflexivity. by rewrite sends_all.
Qed.

(** The pump files it: every program recovered has the sentence for its code. *)
Lemma recovery_filed recovered d s :
  d_store d = Some s → d_events d = [] → store_ready (2 * Z.of_nat (length recovered)) s →
  Forall (λ r, is_Some (view s !! rec_id r)) recovered →
  ∃ d1 d2 s', emit_recovery_events recovered d = Ret ((), d1) ∧ pump d1 = Ret ((), d2) ∧
    d_events d2 = [] ∧ d_store d2 = Some s' ∧ store_ready 0 s' ∧
    Forall (λ r, code_set (view s') (rec_id r)) recovered.
Proof.
  intros Hd He Hready Hthere. set (now := clock_ms (d_reads d)).
  assert (length (recovered ≫= recovery_events now) = 2 * length recovered) as Hlen.
  { clear. induction recovered as [|r l IH]; [done|]. rewrite bind_cons, length_app, IH. simpl. lia. }
  pose proof (recovery_announced recovered d) as Hemit. fold now in Hemit. rewrite He in Hemit.
  cbn [app] in Hemit. set (d1 := mkDaemon _ _ _ _ _ _ _) in Hemit.
  destruct (pump_list (d_events d1) (set_events [] d1) s)
    as (s' & l & d2 & Hrun & Hst & Hready' & Hview & _ & _ & _ & Hnone & _).
  - done.
  - simpl. rewrite Hlen. by rewrite Nat2Z.inj_mul.
  - simpl. clear -Hthere. induction Hthere; [constructor|]. rewrite bind_cons.
    apply Forall_app. split; [by eapply recovery_events_known|done].
  - simpl. clear. induction recovered; [constructor|]. rewrite bind_cons.
    apply Forall_app. split; [by repeat constructor|done].
  - exists d1, d2, s'. split; [done|]. split.
    { unfold pump. by do 2 (erewrite ST_bind_step by done). }
    split; [done|]. split; [done|]. split; [done|]. rewrite Hview. by apply all_codes_set.
Qed.

(** Opening leaves a disk with rows in order, with room for as many events. *)
Lemma opened_ready room root s0 recovered s :
  disk_ok s0 → open root s0 = Ret (Ok recovered, s) →
  (t_events_seq (rows s0) + room < i64_max)%Z →
  store_ready room s ∧ view s = recover_row <$> view s0 ∧ reports (view s0) recovered.
Proof.
  intros Hs0 Hopen Hroom. pose proof (wp_Ret _ _ _ _ _ (keeps_open root s0 Hs0) Hopen) as Hs.
  pose proof (wp_Ret _ _ _ _ _ (open_meets root s0 Hs0) Hopen) as (Ht & Hv & Hrep & Hrows).
  split; [|by split]. split; [exact Hs|]. split; [exact Ht|]. by rewrite Hrows.
Qed.

(** C33: After a restart nothing can be resumed.  The store, as it is opened,
    would resume every program it found running.  But the daemon announces the
    recovery ([emit_recovery_events]) with the sentence [daemon restarted
    during execution] where the code belongs, the pump files it as the
    program's error code, and from then on every [resume] of such a program is
    refused as not resumable.  (The host does not fail, and the log has ids
    left for the announcement.) *)
Theorem recovery_defeats_resume root s0 recovered s d :
  disk_ok s0 → open root s0 = Ret (Ok recovered, s) →
  (t_events_seq (rows s0) + 2 * Z.of_nat (length recovered) < i64_max)%Z →
  d_store d = Some s → d_events d = [] →
  (∀ i row, view s0 !! i = Some row → pr_state row = Running →
     ∀ from_start t, wp (resume_program i from_start t) (λ a _, is_ok a = true) s) ∧
  ∃ d1 d2, emit_recovery_events recovered d = Ret ((), d1) ∧ pump d1 = Ret ((), d2) ∧
    d_events d2 = [] ∧
    ∀ i row, view s0 !! i = Some row → pr_state row = Running →
      ∀ rid from_start, ∃ payload d3,
        handle_resume rid i from_start d2 = Ret (Response_err rid payload, d3) ∧
        ep_code payload = NotResumableCode.
Proof.
  intros Hs0 Hopen Hroom Hd He.
  destruct (opened_ready _ _ _ _ _ Hs0 Hopen Hroom) as (Hready & Hview & _ & Hrep). split.
  - intros i row Hrow Hrun from_start t. destruct Hready as (Hs & Ht & _).
    assert (view s !! i = Some (row_failed row)) as Hfailed.
    { rewrite Hview, lookup_fmap, Hrow. simpl. unfold recover_row. by rewrite decide_True. }
    eapply wp_mono; [by apply resume_program_meets|]. intros [a|e] s' [_ Hagree]; [done|].
    destruct Hagree as [_ [Hf|(x & Hspec & _)]]; [by apply not_faulted in Hf|].
    cbn [spec] in Hspec. unfold on_row in Hspec. rewrite Hfailed, decide_True in Hspec by done. done.
  - destruct (recovery_filed recovered d s Hd He Hready)
      as (d1 & d2 & s' & Hemit & Hpump & Hnone & Hst & (Hs & Ht & _) & Hcodes).
    { apply Forall_forall. intros [i c] Hin. apply Hrep in Hin as (row & Hrow & _).
      rewrite Hview, lookup_fmap. simpl. rewrite Hrow. by eexists. }
    exists d1, d2. split; [done|]. split; [done|]. split; [done|]. intros i row Hrow Hrun rid from_start.
    eapply resume_refused; [done..|]. rewrite Forall_forall in Hcodes.
    apply (Hcodes (mkRecovered i (pr_body_cursor row))), Hrep. by exists row.
Qed.

(** ** Programs found waiting *)

Definition submission (x : ProgramId * Program * Assets) : SchedulerCommand :=
  let '(pid, program, assets) := x in Scheduler.SubmitValidated pid program assets.

(** While nobody takes commands, a send goes through if there is room. *)
Lemma cmd_send_room q cmd d :
  d_cmds d = mkCommands q [] NotStarted → length q < CMD_CAPACITY →
  cmd_send cmd d = Ret (Ok (), set_commands (mkCommands (q ++ [cmd]) [] NotStarted) d).
Proof using. intros Hd Hq. unfold cmd_send. rewrite Hd. simpl. by rewrite (proj2 (Nat.ltb_lt _ _)). Qed.
Lemma cmd_send_full q cmd d :
  d_cmds d = mkCommands q [] NotStarted → CMD_CAPACITY ≤ length q → cmd_send cmd d = OutOfFuel.
Proof using. intros Hd Hq. unfold cmd_send. rewrite Hd. simpl. by rewrite (proj2 (Nat.ltb_ge _ _)). Qed.

Lemma submit_all_room l q n d :
  d_cmds d = mkCommands q [] NotStarted → length q + length l ≤ CMD_CAPACITY →
  submit_all l n d
  = Ret (n + length l, set_commands (mkCommands (q ++ map submission l) [] NotStarted) d).
Proof using.
  revert q n d. induction l as [|[[i p] a] l IH]; intros q n d Hd Hl; simpl in *.
  - rewrite Nat.add_0_r, app_nil_r. destruct d; simpl in *. by subst.
  - erewrite ST_bind_step by (apply (cmd_send_room q); [done|lia]).
    rewrite (IH (q ++ [Scheduler.SubmitValidated i p a])); [|done|rewrite length_app; simpl; lia].
    unfold set_commands; simpl. rewrite <-app_assoc. do 2 f_equal. lia.
Qed.
Lemma submit_all_full l q n d :
  d_cmds d = mkCommands q [] NotStarted → length q ≤ CMD_CAPACITY →
  CMD_CAPACITY < length q + length l → submit_all l n d = OutOfFuel.
Proof using.
  revert q n d. induction l as [|[[i p] a] l IH]; intros q n d Hd Hq Hl; cbn [length submit_all] in *; [lia|].
  destruct (decide (length q = CMD_CAPACITY)) as [He|He].
  - unfold mbind, ST_bind. by rewrite (cmd_send_full q) by (done || lia).
  - erewrite ST_bind_step by (apply (cmd_send_room q); [done|lia]).
    apply (IH (q ++ [Scheduler.SubmitValidated i p a])); [done|rewrite length_app; simpl; lia..].
Qed.

(** Announcements touch neither the store nor the commands. *)
Lemma announced recovered d :
  ∃ l, (_ ← emit_recovery_events recovered; emit_daemon_started) d
       = Ret ((), set_events l (mkDaemon (d_store d) (d_cmds d) (d_events d) (d_broadcast d)
                                  (d_shutdown_armed d) (d_shutdown_fired d) (d_reads d + 2))).
Proof.
  eexists. erewrite ST_bind_step by apply recovery_announced. unfold emit_daemon_started.
  erewrite ST_bind_step by reflexivity. unfold event_send, modify, set_events; simpl.
  do 3 f_equal. lia.
Qed.

(** C34: At start-up the scheduler's queue is filled before its thread exists.
    If at most [CMD_CAPACITY] waiting programs can be read back, all of them
    are queued, in the order they were read in, and the count is reported; with one more the daemon blocks in [send] for ever, and start-up
    as a whole never ends. *)
Theorem reload_fills_queue proc cfg recovered d s l s' :
  d_store d = Some s → d_cmds d = mkCommands [] [] NotStarted →
  reload_rows (clock_ms (d_reads d + 2)) s = Ret (l, s') →
  ∃ d1, (_ ← emit_recovery_events recovered; emit_daemon_started) d = Ret ((), d1) ∧
    (length l ≤ CMD_CAPACITY →
       ∃ d', reload_waiting_programs d1 = Ret (length l, d') ∧ d_store d' = Some s' ∧
         d_cmds d' = mkCommands (map submission l) [] NotStarted) ∧
    (CMD_CAPACITY < length l → boot_daemon proc cfg recovered d = OutOfFuel).
Proof.
  intros Hd Hq Hl. destruct (announced recovered d) as [evs Hrun]. eexists. split; [exact Hrun|].
  unfold reload_waiting_programs.
  match type of Hrun with _ = Ret (_, ?d1) => set (D := d1) in * end.
  set (D' := set_store (Some s') (mkDaemon (d_store D) (d_cmds D) (d_events D) (d_broadcast D)
    (d_shutdown_armed D) (d_shutdown_fired D) (d_reads D + 1))).
  assert (reload_waiting_programs D = submit_all l 0 D') as Hreload.
  { unfold reload_waiting_programs. erewrite ST_bind_step by reflexivity.
    erewrite ST_bind_step; [reflexivity|]. unfold locked, D'; simpl. rewrite Hd.
    by rewrite Hl. }
  change (_ ≫= _) with reload_waiting_programs. rewrite Hreload. split.
  - intros Hlen. eexists. split; [rewrite (submit_all_room l []); [reflexivity|done|simpl; lia]|].
    done.
  - intros Hlen. unfold boot_daemon.
    revert Hrun. unfold mbind at 1 2, ST_bind at 1 2.
    destruct (emit_recovery_events recovered d) as [[[] d0]| |]; [|done..]. simpl. intros Hrun.
    rewrite (ST_bind_step _ _ _ _ _ Hrun). unfold mbind, ST_bind at 1. rewrite Hreload.
    by rewrite (submit_all_full l []) by (done || simpl; lia).
Qed.
End recovered.
