(* ===== verification/ReloadSpec.v ===== *)
(** * A stored program is the program that was accepted

    Between the submission of a program and its reload after a restart lie the
    rewriting of its images, the canonical text, the row in the store, the JSON
    parser, the derived reader, the validator and the asset store.  For plain
    programs (see [CanonicalText]) all of them together change nothing: the
    scheduler gets back what it was sent. *)

From S2P Require Import Prelude Json CoreTypes Sha256 Canonical CanonicalInj Serde EventWire.
From S2P Require Import ProgramWire ProgramRead CanonicalText DslError DslExpr DslPredicates DslValidate.
From S2P Require Import IpcWire Host Perception Wp Store StoreSpec StoreGc StoreMap StoreOpen.
From S2P Require Import StoreLog StoreAssets Ipc Materialize Daemon Boot PumpSpec SubmitSpec.

Local Open Scope vcli_scope.
#[local] Set Default Proof Using "All".

(** ** Rewriting the images keeps a program well formed *)

Section similar.
Context {ps ps' : Predicates}.
Hypothesis similar : ∀ k, option_Forall2 same_but_image (ps !! k) (ps' !! k).

Lemma same_edges q q' : same_but_image q q' → edges_of q' = edges_of q.
Proof using. destruct q, q'; simpl; intros; simplify_eq; try done. by destruct_and?; subst. Qed.
Lemma same_match q q' : same_but_image q q' → produces_match q' = produces_match q.
Proof using. destruct q, q'; simpl; intros; by simplify_eq. Qed.
Lemma same_wf q q' : same_but_image q q' → predicate_wf q → predicate_wf q'.
Proof using.
  destruct q, q'; try (simpl; intros; simplify_eq; done).
  intros (-> & -> & ->). done.
Qed.

Lemma similar_get k q' : ps' !! k = Some q' → ∃ q, ps !! k = Some q ∧ same_but_image q q'.
Proof. intros Hk. destruct (similar k) as [q q1 Hq|]; [|done]. injection Hk as ->. eauto. Qed.
Lemma similar_get' k q : ps !! k = Some q → ∃ q', ps' !! k = Some q' ∧ same_but_image q q'.
Proof. intros Hk. destruct (similar k) as [q1 q' Hq|]; [|done]. injection Hk as ->. eauto. Qed.
Lemma similar_defined k : defined ps k ↔ defined ps' k.
Proof. unfold defined. destruct (similar k); naive_solver. Qed.

Lemma similar_shape q q' : same_but_image q q' → shape_ok ps q → shape_ok ps' q'.
Proof.
  intros Hq [He Hn]. split.
  - intros n. rewrite (same_edges _ _ Hq). intros Hin. apply similar_defined. by apply He.
  - destruct q, q'; simpl in Hq; by simplify_eq.
Qed.
Lemma similar_edge x y : edge ps' x y → edge ps x y.
Proof.
  intros (q' & Hx & Hy & Hd). destruct (similar_get x q' Hx) as (q & Hq & Hs).
  exists q. split_and!; [done|by rewrite <-(same_edges _ _ Hs)|by apply similar_defined].
Qed.
Lemma similar_graph : graph_ok ps → graph_ok ps'.
Proof.
  intros [Hs Ha]. split.
  - intros k q' Hk. destruct (similar_get k q' Hk) as (q & Hq & Hsame).
    apply (similar_shape _ _ Hsame). by apply (Hs k).
  - assert (∀ x y, tc (edge ps') x y → tc (edge ps) x y) as Htc; [|intros x Hx; by apply (Ha x), Htc].
    induction 1; [by apply tc_once, similar_edge|]. eapply tc_l; [by apply similar_edge|done].
Qed.
Lemma similar_target t : target_ok ps t → target_ok ps' t.
Proof.
  destruct t as [p|raw]; [done|]. intros (e & q & Hraw & Hname & Hq & Hm).
  destruct (similar_get' _ _ Hq) as (q' & Hq' & Hs). exists e, q'.
  split_and!; [done..|]. by rewrite (same_match _ _ Hs).
Qed.
Lemma similar_step b s : step_ok ps b s → step_ok ps' b s.
Proof. destruct s; simpl; rewrite <-?similar_defined; auto using similar_target. Qed.
End similar.

Section rewritten.
Context {p p' : Program} {out : MaterializedAssets}.
Hypothesis Hrw : rewritten p p' out.

Lemma rewritten_similar k :
  option_Forall2 same_but_image (p_predicates p !! k) (p_predicates p' !! k).
Proof.
  destruct Hrw as [_ Hps Hn _]. destruct (p_predicates p' !! k) as [q'|] eqn:Hk.
  - destruct (Hps k q' Hk) as (_ & q & -> & Hq). by constructor.
  - apply not_elem_of_dom in Hk. rewrite Hn in Hk. apply not_elem_of_dom in Hk.
    rewrite Hk. constructor.
Qed.

Lemma rewritten_ok : program_ok p → program_ok p'.
Proof.
  intros (Hg & Ht & Hw & Hb). pose proof rewritten_similar as Hsim.
  pose proof (rw_rest _ _ _ Hrw) as Hp.
  assert (p_trigger p' = p_trigger p ∧ p_body p' = p_body p) as [Htr Hbody] by by rewrite Hp.
  split; [by apply (similar_graph Hsim)|]. rewrite Htr, Hbody. split_and!.
  - destruct (p_trigger p); try done. by apply (similar_defined Hsim).
  - pose proof (rw_watches _ _ _ Hrw) as Hws. clear -Hws Hw Hsim.
    induction Hws as [|w w' ws ws' (Hst & _ & Hl & Hwhen) Hws IH]; [constructor|].
    apply Forall_cons in Hw as [(Hok & Hsteps & Hlife) Hw]. constructor; [|by apply IH].
    unfold watch_ok. rewrite <-Hst, <-Hl. split_and!.
    + destruct (w_when w) as [n|q], (w_when w') as [n'|q']; simplify_eq; try done.
      * by apply (similar_defined Hsim).
      * destruct Hwhen as [_ Hq], Hok as [Hsyn Hshape].
        split; [|by apply (similar_shape Hsim _ _ Hq)].
        pose proof (Hsim synthetic) as Hs. rewrite Hsyn in Hs. by inversion Hs.
    + eapply Forall_impl; [exact Hsteps|]. intros s. apply (similar_step Hsim).
    + destruct (w_lifetime w); try done. by apply (similar_defined Hsim).
  - eapply Forall_impl; [exact Hb|]. intros s. apply (similar_step Hsim).
Qed.

Lemma rewritten_wf : Program_wf p → Program_wf p'.
Proof.
  intros [Hps Hws Hb Ht Hpr]. pose proof (rw_rest _ _ _ Hrw) as Hp.
  assert (p_body p' = p_body p ∧ p_timeout_ms p' = p_timeout_ms p ∧ p_priority p' = p_priority p)
    as (Hbody & Htime & Hprio) by by rewrite Hp.
  split; rewrite ?Hbody, ?Htime, ?Hprio; try done.
  - intros k q' Hk. destruct (similar_get rewritten_similar k q' Hk) as (q & Hq & Hs).
    apply (same_wf _ _ Hs). by apply (Hps k).
  - pose proof (rw_watches _ _ _ Hrw) as Hw. clear -Hw Hws.
    induction Hw as [|w w' ws ws' (Hst & Hth & Hl & Hwhen) Hw IH]; [constructor|].
    apply Forall_cons in Hws as [(Hok & Hsteps & Hthr & Hlife) Hws]. constructor; [|by apply IH].
    unfold Watch_wf. rewrite <-Hst, <-Hl, <-Hth. split_and!; [|done..].
    destruct (w_when w), (w_when w'); simplify_eq; try done. destruct Hwhen as [_ Hq].
    by apply (same_wf _ _ Hq).
Qed.
End rewritten.

(** ** From the text to the program *)

Section text.
Context `{NfcOps, RyuOps, UuidOps, !UuidLaws, JsonText, SerdeOps, FloatText}.
Context `{!RyuLaws, !FloatLaws, !JsonReads}.

Lemma envelope_version doc p : envelope doc p → DslVersion_major (p_version p) = SUPPORTED_DSL_MAJOR.
Proof using.
  intros (ver & Hver & Hm & Hp). destruct doc as [| | | | |m]; try done.
  unfold Program_from_value, fields in Hp. cbn [struct_of mbind option_bind] in Hp.
  assert (req "version" read_str (Obj m) = Some ver) as Hr by (unfold req; by rewrite Hver).
  rewrite Hr in Hp. cbn [mbind option_bind] in Hp.
  repeat match type of Hp with mbind _ ?o = Some _ =>
    destruct o; [cbn [mbind option_bind] in Hp|discriminate Hp] end.
  by injection Hp as <-.
Qed.

(** The text the store keeps validates, and to the program itself. *)
Lemma stored_text_validates p text :
  Program_wf p → program_ok p → DslVersion_major (p_version p) = SUPPORTED_DSL_MAJOR →
  plain_doc (Program_to_value p) → canonicalize (Program_to_value p) = Ok text →
  ∃ doc v, json_from_str text = Ok doc ∧ validate_value doc = Ret (Ok v) ∧ v_program v = p.
Proof.
  intros Hwf Hok Hver Hplain Htext.
  destruct (canonical_program_read p text Hwf Hplain Htext) as (doc & Hdoc & Hsame & Hread).
  assert (envelope doc p) as Henv.
  { exists (p_version p). split_and!; [|done|done].
    pose proof (value_get_proper "version" _ _ Hsame) as Hget.
    simpl in Hget. inversion Hget as [x y Hxy Hx Hy|]; subst. inversion Hxy; by subst. }
  destruct (finish_correct p) as (_ & Hiff & Hres).
  { intros k q Hq. by destruct (wf_predicates p Hwf k q Hq). }
  destruct (proj2 Hiff Hok) as [v Hv]. exists doc, v. split; [done|].
  split; [|by apply Hres]. apply validate_value_Ok. by exists p.
Qed.
End text.

(** ** Assets that are there *)

Section settled.
Context `{UuidOps, !UuidLaws, JsonText, Host, !Reliable, Sha2, !Sha2Laws, DaemonHost}.

(** A template's image is the digest of an asset of the store. *)
Definition settled (s : Store) (q : PredicateKind) : Prop :=
  match q with
  | Template image _ _ _ => ∃ h, image = "sha256:" +:+ h ∧ has_asset s h
  | _ => True
  end.
Definition settled_watch (s : Store) (w : Watch) : Prop :=
  match w_when w with ByName _ => True | Inline q => settled s q end.
Definition settled_program (s : Store) (p : Program) : Prop :=
  map_Forall (λ _, settled s) (p_predicates p) ∧ Forall (settled_watch s) (p_watches p).

Lemma settled_mono s s' q : knows_more s s' → settled s q → settled s' q.
Proof using. intros Hk. destruct q; try done. intros (h & -> & Hh). exists h. auto. Qed.
Lemma settled_program_mono s s' p : knows_more s s' → settled_program s p → settled_program s' p.
Proof using.
  intros Hk [Hps Hws]. split.
  - intros k q Hq. by apply (settled_mono s), (Hps k).
  - eapply Forall_impl; [exact Hws|]. intros w. unfold settled_watch. destruct (w_when w); [done|].
    by apply settled_mono.
Qed.

(** Every bytes of the answer has the digest it is filed under. *)
Definition addressed_by (out : MaterializedAssets) : Prop :=
  map_Forall (λ h b, of_bytes b = h) (ma_bytes out).
Definition sound (s : Store) : Prop := assets_ok s ∧ whole s.

Lemma addressed_insert h b out :
  of_bytes b = h → addressed_by out → addressed_by (materialized_insert h b out).
Proof using.
  intros Hb Ho. unfold addressed_by, materialized_insert. simpl.
  destruct (ma_bytes out !! h); [done|]. by apply map_Forall_insert_2.
Qed.

(** Nothing has changed but the count of calls. *)
Definition same_machine (s s' : Store) : Prop :=
  fs s' = fs s ∧ conn s' = conn s ∧ data_root s' = data_root s.
Lemma same_machine_rows s s' : same_machine s s' → rows s' = rows s.
Proof using. intros (_ & Hc & _). unfold rows. by rewrite Hc. Qed.
Lemma same_machine_knows s s' : same_machine s s' → knows_more s s'.
Proof using. intros Hm h. unfold has_asset. by rewrite (same_machine_rows s s'). Qed.
Lemma same_machine_sound s s' : same_machine s s' → sound s → sound s'.
Proof using.
  intros Hm [[Hd Hx Ha Hdirs] Hw]. pose proof (same_machine_rows _ _ Hm) as Hr.
  destruct Hm as (Hf & Hc & Hroot). split.
  - split; [unfold disk_ok; by rewrite Hc|by rewrite Hr| |].
    + intros h ext b. unfold blob. rewrite Hf, Hroot. apply Ha.
    + intros h ext. rewrite Hf, Hroot. apply Hdirs.
  - unfold whole, blob_of, blob in *. by rewrite Hr, Hf, Hroot.
Qed.
Lemma same_machine_trans s s1 s2 : same_machine s s1 → same_machine s1 s2 → same_machine s s2.
Proof using. intros (?&?&?) (?&?&?). unfold same_machine. split_and!; congruence. Qed.

(** An asset of the store is read, and nothing else happens. *)
Lemma wp_known_asset h s :
  sound s → has_asset s h →
  wp (get_asset h) (λ r s', same_machine s s' ∧ ∃ b, r = Ok (Some b) ∧ of_bytes b = h) s.
Proof.
  intros [Hs Hw] (a & Ha & <-). pose proof Hw as Hw'. unfold whole in Hw'.
  rewrite Forall_forall in Hw'. destruct (Hw' a Ha) as [b Hb].
  destruct (assets_row s a Hs Ha) as [Hhex Hext].
  eapply wp_mono; [by apply (wp_get_asset s a b)|].
  intros r s' (-> & ? & ? & ?). split; [by split_and!|]. exists b. split; [done|].
  by apply (addressed s Hs _ (a_extension a)).
Qed.

Lemma wp_materialize_settled q base now out s :
  sound s → settled s q → addressed_by out →
  wp (materialize_predicate q base now out)
    (λ r s', same_machine s s' ∧ ∃ out', r = Ok (q, out') ∧ addressed_by out') s.
Proof.
  intros Hs Hq Ho. destruct q as [image c r t| | | | | |];
    try (apply wp_ret; split; [by split_and!|by exists out]).
  destruct Hq as (h & -> & Hh). cbn [materialize_predicate]. wp_step. unfold materialize_image_ref.
  rewrite (proj2 (strip_prefix_Some "sha256:" _ h) eq_refl). wp_step. unfold on_store. wp_step.
  eapply wp_mono; [by apply wp_known_asset|]. intros r' s' (Hm & b & -> & Hb).
  apply wp_ret. cbn [map_err on_result]. apply wp_sok. cbn [on_result]. apply wp_sok.
  split; [done|]. eexists. split; [reflexivity|]. by apply addressed_insert.
Qed.

(** Materializing a settled program changes neither it nor the store. *)
Lemma wp_rematerialize p base now s :
  sound s → settled_program s p →
  wp (materialize_template_assets p base now)
    (λ r s', same_machine s s' ∧ ∃ out, r = Ok (p, out) ∧ addressed_by out) s.
Proof.
  intros Hs [Hps Hws]. unfold materialize_template_assets. wp_step.
  eapply wp_mono; [apply (wp_try_fold _
    (λ acc l s', same_machine s s' ∧ acc.1 = p_predicates p ∧ addressed_by acc.2 ∧
       ∀ k q, (k, q) ∈ l → p_predicates p !! k = Some q) (λ _ _, False))|].
  - split_and!; [done..|apply map_Forall_empty|]. intros k q. by rewrite elem_of_btree_entries.
  - intros [ps out] [k q] l s1 (Hm & Hp & Ho & Hl); simpl in Hp, Ho. subst ps.
    assert (p_predicates p !! k = Some q) as Hk by (apply Hl; by left).
    unfold materialize_named; cbn [fst snd]. wp_step.
    eapply wp_mono; [apply wp_materialize_settled; [by eapply same_machine_sound| |done]|].
    { eapply settled_mono; [by apply same_machine_knows|]. by apply (Hps k). }
    intros r s2 (Hm2 & out' & -> & Ho'). cbn [on_result]. apply wp_sok. cbn [on_result fst snd].
    split_and!; [by apply (same_machine_trans s s1 s2)..|by apply insert_id|done|].
    intros k' q' Hin. apply Hl. by right.
  - intros [[ps out]|e] s1; [|done]. cbn [on_result fst snd].
    intros (Hm & -> & Ho & _). wp_step.
    eapply wp_mono; [apply (wp_try_fold _
      (λ acc l s', same_machine s s' ∧ acc.1 ++ l = p_watches p ∧ addressed_by acc.2)
      (λ _ _, False))|].
    + by split_and!.
    + intros [ws out1] w l s2 (Hm2 & Hl & Ho1); simpl in Hl, Ho1.
      assert (settled_watch s w) as Hw.
      { rewrite Forall_forall in Hws. apply Hws. rewrite <-Hl. set_solver. }
      unfold materialize_watch; cbn [fst snd]. unfold settled_watch in Hw.
      destruct (w_when w) as [n|q] eqn:Hwhen.
      * apply wp_sok. split_and!; [by destruct Hm2 as (?&?&?)..| |done]. simpl. by rewrite <-app_assoc.
      * wp_step. eapply wp_mono; [apply wp_materialize_settled; [by eapply same_machine_sound| |done]|].
        { eapply settled_mono; [by apply same_machine_knows|done]. }
        intros r s3 (Hm3 & out' & -> & Ho'). cbn [on_result]. apply wp_sok. cbn [on_result fst snd].
        split_and!; [by apply (same_machine_trans s s2 s3)..| |done].
        rewrite <-Hwhen. rewrite <-app_assoc. by destruct w.
    + intros [[ws out1]|e] s2; [|done]. cbn [on_result fst snd].
      intros (Hm2 & Hl & Ho1). rewrite app_nil_r in Hl. subst ws. apply wp_sok.
      split; [done|]. exists out1. split; [|done]. by destruct p.
Qed.

(** *** The first time *)

(** Where an image that is no digest is looked for. *)
Definition image_path (image : string) (base : option Path) : option Path :=
  let raw := path_of_string image in
  if absolute raw then Some raw else (λ d, path_join d raw) <$> base.
(** A digest is of an asset of the store; a file has an ordinary extension. *)
Definition image_known (s : Store) (base : option Path) (q : PredicateKind) : Prop :=
  match q with
  | Template image _ _ _ =>
      match strip_prefix "sha256:" image with
      | Some h => has_asset s h
      | None => ∀ p, image_path image base = Some p → ext_ok (lowercase <$> extension p)
      end
  | _ => True
  end.
Definition images_known (s : Store) (base : option Path) (p : Program) : Prop :=
  map_Forall (λ _, image_known s base) (p_predicates p) ∧
  Forall (λ w, match w_when w with ByName _ => True | Inline q => image_known s base q end)
    (p_watches p).

Lemma image_known_mono s s' base q : knows_more s s' → image_known s base q → image_known s' base q.
Proof using. intros Hk. destruct q; cbn [image_known]; try done. destruct (strip_prefix "sha256:" image); [apply Hk|done]. Qed.

(** What has been collected is in the store. *)
Definition collected (s : Store) (out : MaterializedAssets) (s' : Store) : Prop :=
  sound s' ∧ knows_more s s' ∧ addressed_by out ∧ Forall (has_asset s') (ma_hashes out).

Lemma collected_insert s out s1 s2 h b :
  collected s out s1 → sound s2 → knows_more s1 s2 → has_asset s2 h → of_bytes b = h →
  collected s (materialized_insert h b out) s2.
Proof using.
  intros (_ & Hk & Ho & Hl) Hs Hk2 Hh Hb. split_and!; [apply Hs..|by intros x ?%Hk%Hk2| |].
  - by apply addressed_insert.
  - assert (Forall (has_asset s2) (ma_hashes out)) as Hl2.
    { eapply Forall_impl; [exact Hl|]. auto. }
    unfold materialized_insert; simpl. case_bool_decide; [done|].
    apply Forall_app. split; [done|]. by apply Forall_singleton.
Qed.

Lemma wp_materialize_image image base now out s0 s :
  collected s0 out s →
  match strip_prefix "sha256:" image with
  | Some h => has_asset s h
  | None => ∀ p, image_path image base = Some p → ext_ok (lowercase <$> extension p)
  end →
  wp (materialize_image_ref image base now out)
    (on_result (λ r s', knows_more s s' ∧ collected s0 r.2 s') (λ _ _, True)) s.
Proof.
  intros Hc Hq. pose proof Hc as (Hs & _). unfold materialize_image_ref.
  destruct (strip_prefix "sha256:" image) as [h|].
  - wp_step. unfold on_store. wp_step. eapply wp_mono; [by apply wp_known_asset|].
    intros r' s1 (Hm & b & -> & Hb). apply wp_ret. cbn [map_err on_result]. apply wp_sok.
    cbn [on_result snd]. pose proof (same_machine_knows _ _ Hm) as Hk. split; [done|].
    apply (collected_insert s0 out s s1); [done|by eapply same_machine_sound|done|by apply Hk|done].
  - wp_step.
    assert (∀ p, (if absolute (path_of_string image) then Some (path_of_string image)
                  else (λ d, path_join d (path_of_string image)) <$> base) = Some p →
                 ext_ok (lowercase <$> extension p)) as Hext by done.
    assert (wp (if absolute (path_of_string image) then sok (path_of_string image)
                else match base with
                     | Some d => sok (path_join d (path_of_string image))
                     | None => serr (MissingBaseDir image)
                     end)
              (on_result (λ p s', s' = s ∧ ext_ok (lowercase <$> extension p)) (λ _ _, True)) s)
      as Hres.
    { destruct (absolute _); [apply wp_sok; split; [done|by apply Hext]|].
      destruct base; [apply wp_sok; split; [done|by apply Hext]|by apply wp_serr]. }
    eapply wp_mono; [exact Hres|]. intros [p|e] s1; [|done]. cbn [on_result]. intros [-> He].
    do 2 wp_step. unfold wp at 1, io_call. rewrite no_io_fault. unfold read_file.
    assert (same_machine s (set_fs (fs s) (bump s))) as Hm by by split_and!.
    destruct (files (fs s) !! p) as [b|]; [|destruct (bool_decide _)];
      (eexists _, _; split; [reflexivity|]); apply wp_ret; cbn [map_err on_result]; [|done..].
    set (s1 := set_fs (fs s) (bump s)) in *. clearbody s1.
    pose proof (same_machine_sound _ _ Hm Hs) as [Hs1 Hw1].
    unfold on_store. do 2 wp_step. eapply wp_mono; [by apply wp_put_asset|].
    intros [o|e] s2; cbn [on_result]; [|by intros; apply wp_ret].
    intros (Hs2 & Hw2 & Hhash & Hhas & Hk). apply wp_ret. cbn [map_err on_result]. apply wp_sok.
    cbn [on_result snd]. rewrite Hhash.
    assert (knows_more s s2) as Hk2 by (intros x Hx; by apply Hk, (same_machine_knows s s1)).
    split; [done|]. apply (collected_insert s0 out s s2); done.
Qed.

Lemma wp_materialize_known q base now out s0 s :
  collected s0 out s → image_known s base q →
  wp (materialize_predicate q base now out)
    (on_result (λ r s', knows_more s s' ∧ collected s0 r.2 s') (λ _ _, True)) s.
Proof.
  intros Hc Hq. destruct q as [image c r t| | | | | |];
    try (apply wp_sok; split; [by intros h|exact Hc]).
  cbn [materialize_predicate]. wp_step. eapply wp_mono; [by apply wp_materialize_image|].
  intros [[i o]|e] s1; [|done]. intros Hr. apply wp_sok. exact Hr.
Qed.

(** What was materialized is in the store. *)
Lemma wp_materialize p base now s :
  sound s → images_known s base p →
  wp (materialize_template_assets p base now)
    (on_result (λ r s', collected s r.2 s') (λ _ _, True)) s.
Proof.
  intros Hs [Hps Hws]. unfold materialize_template_assets. wp_step.
  eapply wp_mono; [apply (wp_try_fold _
    (λ acc l s', collected s acc.2 s' ∧ ∀ k q, (k, q) ∈ l → p_predicates p !! k = Some q)
    (λ _ _, True))|].
  - split; [|intros k q; by rewrite elem_of_btree_entries].
    split_and!; [done|by intros h|apply map_Forall_empty|constructor].
  - intros [ps out] [k q] l s1 (Hc & Hl); simpl in Hc. unfold materialize_named; cbn [fst snd].
    wp_step. assert (p_predicates p !! k = Some q) as Hk by (apply Hl; by left).
    eapply wp_mono; [apply wp_materialize_known; [exact Hc|]|].
    { apply (image_known_mono s); [by apply Hc|]. by apply (Hps k). }
    intros [[q' o]|e] s2; [|done]. intros [_ Hc2]. apply wp_sok. cbn [on_result fst snd] in *.
    split; [done|]. intros k' q2 Hin. apply Hl. by right.
  - intros [[ps out]|e] s1; [|done]. cbn [on_result fst snd]. intros [Hc _]. wp_step.
    eapply wp_mono; [apply (wp_try_fold _
      (λ acc l s', collected s acc.2 s' ∧ ∃ l0, p_watches p = l0 ++ l) (λ _ _, True))|].
    + split; [exact Hc|by exists []].
    + intros [ws out1] w l s2 (Hc2 & l0 & Hl); simpl in Hc2.
      assert (∃ l1, p_watches p = l1 ++ l) as Hl1 by (exists (l0 ++ [w]); by rewrite <-app_assoc).
      rewrite Forall_forall in Hws. specialize (Hws w ltac:(rewrite Hl; set_solver)).
      unfold materialize_watch; cbn [fst snd]. destruct (w_when w) as [n|q]; [by apply wp_sok|].
      wp_step. eapply wp_mono; [apply wp_materialize_known; [exact Hc2|]|].
      { apply (image_known_mono s); [by apply Hc2|done]. }
      intros [[q' o]|e] s3; [|done]. intros [_ Hc3]. by apply wp_sok.
    + intros [[ws out1]|e] s2; [|done]. cbn [on_result fst snd]. intros [Hc2 _]. by apply wp_sok.
Qed.
End settled.

(** ** Submission, then reload *)

Section reload.
Context `{NfcOps, RyuOps, UuidOps, !UuidLaws, JsonText, Host, !Reliable, Sha2, !Sha2Laws}.
Context `{DaemonHost, SerdeOps, SerdeMessage, Surroundings, Subscriptions, OpDebug}.
Context `{FloatText, !RyuLaws, !FloatLaws, !JsonReads}.

(** Files and assets are untouched. *)
Definition same_assets (s s' : Store) : Prop :=
  fs s' = fs s ∧ data_root s' = data_root s ∧ t_assets (rows s') = t_assets (rows s).
Lemma same_assets_trans s s1 s2 : same_assets s s1 → same_assets s1 s2 → same_assets s s2.
Proof using. intros (?&?&?) (?&?&?). unfold same_assets. split_and!; congruence. Qed.
Lemma same_assets_collected s0 out s s' :
  disk_ok s' → same_assets s s' → collected s0 out s → collected s0 out s'.
Proof using.
  intros Hd (Hf & Hr & Ha) ([[_ Hx Hadd Hdirs] Hw] & Hk & Ho & Hl).
  assert (∀ h, has_asset s h → has_asset s' h) as Hsame by (intros h; unfold has_asset; by rewrite Ha).
  split_and!; [|by intros h Hh; apply Hsame, Hk|done|by eapply Forall_impl].
  split.
  - split; [done|by rewrite Ha| |].
    + intros h ext b. unfold blob. rewrite Hf, Hr. apply Hadd.
    + intros h ext. rewrite Hf, Hr. apply Hdirs.
  - unfold whole, blob_of, blob in *. by rewrite Ha, Hf, Hr.
Qed.

Lemma wp_sql_same {A} (f : Tables → result SqlError (A * Tables)) s :
  (∀ t a t', f t = Ok (a, t') → t_assets t' = t_assets t) →
  wp (sql f) (λ _ s', same_assets s s') s.
Proof using.
  intros Hf. apply wp_sql; [by intros; split_and!..|]. intros t a t' Ht Hr. split_and!; [done|done|].
  unfold rows. rewrite Ht. simpl. by eapply Hf.
Qed.
Lemma wp_insert_same row s : wp (Store.insert_program row) (λ _ s', same_assets s s') s.
Proof using. apply wp_sql_same. intros t a t'. cbv zeta. by case_match; [|intros [= <- <-]]. Qed.
Lemma wp_link_same pid h s : wp (link_program_asset pid h) (λ _ s', same_assets s s') s.
Proof using.
  apply wp_sql_same. intros t a t'. cbv zeta. destruct (existsb _ _); [by intros [= <- <-]|].
  destruct (negb _); [done|]. by intros [= <- <-].
Qed.

(** What an accepted submission leaves of the images. *)
Lemma wp_submit_collects pid name p base now s :
  sound s → images_known s base p →
  wp (submit_locked pid name p base now)
    (on_result (λ r s', ∃ out, r.2 = ma_bytes out ∧ rewritten p r.1 out ∧
                  (disk_ok s' → collected s out s')) (λ _ _, True)) s.
Proof.
  intros Hs Hp. unfold submit_locked, on_error. wp_step. wp_step.
  destruct (wp_materialize p base now s Hs Hp) as (r & s1 & Hrun & Hr).
  exists r, s1. split; [done|]. apply wp_ret. destruct r as [[p' out]|e]; [|done].
  cbn [map_err on_result] in *. apply materialize_rewrites in Hrun. cbn [snd] in Hr.
  wp_step. apply wp_ret. destruct (canonicalize _) as [text|e]; [|done]. cbn [map_err on_result].
  wp_step. wp_step. eapply wp_mono; [apply wp_insert_same|]. intros [[]|e] s2 Hs2; [|by apply wp_ret].
  apply wp_ret. cbn [map_err on_result]. wp_step.
  eapply wp_mono; [apply (wp_try_fold _ (λ _ _ s', same_assets s1 s') (λ _ _, True))|].
  - done.
  - intros [] h l s3 Hs3. wp_step. eapply wp_mono; [apply wp_link_same|].
    intros [[]|e] s4 Hs4; apply wp_ret; [|done]. cbn [map_err on_result].
    by apply (same_assets_trans s1 s3).
  - intros [[]|e] s3 Hs3; [|done]. cbn [on_result] in Hs3. apply wp_sok. cbn [on_result fst snd].
    exists out. split_and!; [done|done|]. intros Hd. by apply (same_assets_collected _ _ s1).
Qed.

(** Every image of a program is a digest, with bytes of that digest at hand. *)
Definition has_bytes (assets : Assets) (q : PredicateKind) : Prop :=
  match q with
  | Template image _ _ _ =>
      ∃ h b, image = "sha256:" +:+ h ∧ assets !! h = Some b ∧ of_bytes b = h
  | _ => True
  end.
Definition supplied (assets : Assets) (p : Program) : Prop :=
  map_Forall (λ _, has_bytes assets) (p_predicates p) ∧
  Forall (λ w, match w_when w with ByName _ => True | Inline q => has_bytes assets q end)
    (p_watches p).

Lemma rewritten_each (P : PredicateKind → Prop) p p' out :
  rewritten p p' out → (∀ q, materialized out q → P q) →
  map_Forall (λ _, P) (p_predicates p') ∧
  Forall (λ w, match w_when w with ByName _ => True | Inline q => P q end) (p_watches p').
Proof using.
  intros [_ Hps _ Hws] HP. split.
  - intros k q Hq. apply HP. by apply (Hps k).
  - induction Hws as [|w w' ws ws' (_ & _ & _ & Hwhen) _ IH]; constructor; [|done].
    destruct (w_when w), (w_when w'); simplify_eq; try done. by apply HP; destruct Hwhen.
Qed.
Lemma rewritten_supplied p p' out :
  rewritten p p' out → addressed_by out → supplied (ma_bytes out) p'.
Proof using.
  intros Hrw Ho. apply (rewritten_each _ _ _ _ Hrw). intros q Hq. destruct q; try done.
  destruct Hq as (h & -> & [b Hb] & _). exists h, b. split_and!; [done..|]. by apply (Ho h).
Qed.
Lemma rewritten_settled s p p' out :
  rewritten p p' out → Forall (has_asset s) (ma_hashes out) → settled_program s p'.
Proof using.
  intros Hrw Hl. apply (rewritten_each _ _ _ _ Hrw). intros q Hq. destruct q; try done.
  destruct Hq as (h & -> & _ & Hin). exists h. split; [done|].
  rewrite Forall_forall in Hl. by apply Hl.
Qed.

(** C17: What was accepted survives a restart.  The store is sound ([sound]:
    rows in order, every blob under its own hash, every asset row with its
    blob), and every image of the program is known ([images_known]: a digest is
    that of an asset of the store, a file has an extension other than [tmp] and
    without a dot or a slash).  The numbers of the document are in range and
    finite, and the program as it is stored is one the canonical form keeps as
    it is ([plain_doc]: strings in normal form C, no negative zero, floats
    whose literal reads back exactly).  Then, when [submit] has accepted the
    program, its row holds a text from which start-up, in that store or in any
    later sound one that still has the assets, reads, validates and
    materializes the very program the scheduler was sent, every image with
    bytes of its digest.  The host does not fail. *)
Theorem accepted_program_survives_restart pid name base now json v s p' assets s' :
  sound s → is_Some (tables (conn s)) → doc_ok json → validate_value json = Ret (Ok v) →
  images_known s base (v_program v) →
  submit_locked pid name (v_program v) base now s = Ret (Ok (p', assets), s') →
  plain_doc (Program_to_value p') →
  ∃ row, view s' !! pid = Some row ∧ pr_id row = pid ∧ sound s' ∧ supplied assets p' ∧
    ∀ s2 row2 now2, sound s2 → knows_more s' s2 → pr_source_json row2 = pr_source_json row →
      wp (reload_row now2 row2)
        (λ r _, ∃ assets2, r = Some (pr_id row2, p', assets2) ∧ supplied assets2 p') s2.
Proof.
  intros Hs Ht Hdoc Hv Hknown Hrun Hplain.
  assert (disk_ok s) as Hdisk by by destruct Hs as [[]].
  destruct (submit_locked_cases pid name (v_program v) base now s Hdisk Ht)
    as [Hp|[(payload & s1 & Hr & _)|(p1 & out & text & s1 & Hr & Hrw & Htext & _ & Hd1 & _ & _ & Hview)]];
    rewrite Hrun in *; simplify_eq.
  pose proof (wp_Ret _ _ _ _ _ (wp_submit_collects pid name _ base now s Hs Hknown) Hrun)
    as (out1 & Hout & Hrw1 & Hcol). cbn [fst snd] in Hout, Hrw1. specialize (Hcol Hd1).
  destruct Hcol as (Hs' & _ & Ho & Hl).
  apply validate_value_Ok in Hv as (q & Henv & Hfin).
  assert (Program_wf q) as Hwf.
  { destruct Henv as (_ & _ & _ & Hread). by apply (typed_Program json). }
  destruct (finish_correct q) as (_ & Hiff & Hres).
  { intros k r Hr. by destruct (wf_predicates q Hwf k r Hr). }
  destruct (Hres v Hfin) as [Hq _]. rewrite Hq in *.
  assert (program_ok q) as Hok by (apply Hiff; by exists v).
  assert (p_version p1 = p_version q) as Hver by by rewrite (rw_rest _ _ _ Hrw).
  destruct (stored_text_validates p1 text (rewritten_wf Hrw Hwf) (rewritten_ok Hrw Hok))
    as (doc & v2 & Hparse & Hvalid & Hv2); [|done|done|].
  { rewrite Hver. by apply (envelope_version json). }
  eexists. rewrite Hview, lookup_insert_eq. split; [reflexivity|]. split; [reflexivity|].
  split; [exact Hs'|]. split; [rewrite Hout; by apply (rewritten_supplied q)|].
  intros s2 row2 now2 Hs2 Hk2 Hsrc. unfold reload_row. rewrite Hsrc. cbn [fresh_row pr_source_json np_source_json].
  rewrite Hparse. wp_step. eapply wp_slift; [exact Hvalid|]. cbv beta iota. wp_step. rewrite Hv2.
  assert (settled_program s2 p1) as Hset.
  { apply (settled_program_mono s1); [done|]. by apply (rewritten_settled s1 q p1 out1). }
  destruct (wp_rematerialize p1 None now2 s2 Hs2 Hset) as (r & s3 & Hm & _ & out2 & -> & Ho2).
  exists (Ok (p1, out2)), s3. split; [done|]. apply wp_ret. exists (ma_bytes out2).
  split; [done|]. apply materialize_rewrites in Hm. by apply (rewritten_supplied p1).
Qed.
End reload.
