(* ===== verification/DaemonDemo.v ===== *)
(** * The daemon at work

    The theorems about the daemon on a concrete one: a disk with two programs,
    a scheduler with canned frames, and a host where nothing fails; then on the
    service with all its tasks. *)

From S2P Require Import Prelude Json CoreTypes Canonical CanonicalInj Serde DslPredicates DslValidate.
From S2P Require Import EventWire IpcWire Host FrameView Perception PerceptionSpec Input Capture Clock.
From S2P Require Import Runtime RuntimeSpec Wp Store StoreSpec StoreGc StoreMap StoreOpen StoreLog.
From S2P Require Import Ipc Materialize Daemon Boot PumpSpec.
From S2P Require Import Scheduler SchedulerSpec SystemSpec SubmitSpec RestartSpec ReloadSpec.
From S2P Require Import CanonicalText ProgramWire ProgramRead StoreAssets JsonDemo Demo SchedulerDemo.
From S2P Require StoreDemo.

Local Open Scope vcli_scope.

#[local] Existing Instances bits_uuid bits_uuid_laws text_json text_json_laws core_sha2
  core_sha2_laws reliable_host reliable_host_reliable nfc_id sci_ops demo_image_ops mock_sink
  mock_capture manual_clock demo_order.

#[local] Instance plain_daemon : DaemonHost := {| str_debug s := s; join_error := "panicked" |}.
#[local] Instance short_message : SerdeMessage := {| serde_message _ := "shape" |}.
#[local] Instance ticking : Surroundings := {|
  clock_ms n := Z.of_N n; new_uuid n := n; uptime_ms n := Z.of_N n |}.
#[local] Instance nobody_listens : Subscriptions := {| received _ := [] |}.
#[local] Instance plain_op : OpDebug := {| op_debug _ := "op" |}.

(** A program that looks at a colour, and waits for an image nobody has. *)
Definition poison_program : Program := {|
  p_version := "0.1"; p_name := "poison"; p_id := None; p_trigger := OnSubmit;
  p_predicates := {[ "dark" := ColorAt (mkPoint 0 0) (mkRgb 30 20 10) 5;
                     "icon" := Template "sha256:ab" (S754_finite false 1 (-1)) (Absolute
                                 (mkRect 0 0 1 1)) 0 ]};
  p_watches := []; p_body := [SleepMs 1]; p_on_complete := None; p_on_fail := None;
  p_timeout_ms := None; p_labels := ∅; p_priority := 0 |}.

(** The documents a client submits. *)
Definition click_document : Value := Program_to_value (click_program 1 [SleepMs 10]).
Definition poison_document : Value := Program_to_value poison_program.
#[local] Instance text_documents : SerdeOps := {|
  value_from_str := json_from_str;
  program_message _ := "no such program";
|}.

(** Two pending programs, and one that was caught running. *)
Definition row_of (n : N) (state : ProgramState) (code : option string) : ProgramRec :=
  mkProgramRec (ProgramId_to_string (mkProgramId n)) "demo" (json_to_string click_document)
    (ProgramState_as_str state) 10 None None code None "{}" 0 None.
Definition daemon_tables : Tables :=
  mkTables [row_of 7 Pending None; row_of 8 Pending None;
            row_of 9 Failed (Some "daemon_restart"); row_of 10 Waiting None] [] [] 0 [] [] 0.
Definition daemon_store : Store :=
  mkStore (path_of_string "/vcli") (mkDb (Some [1%Z]) (Some daemon_tables)) fs_empty 0.

(** A daemon whose scheduler runs, with these events on their way. *)
Definition daemon_with (evs : list Event) : Daemon :=
  mkDaemon (Some daemon_store) (mkCommands [] [] Receiving) evs [] true false 0.

Lemma row_of_ok n state code : row_ok (row_of n state code).
Proof. split_and!; [by exists (mkProgramId n)|by exists state|simpl; ints]. Qed.
Lemma daemon_disk_ok : disk_ok daemon_store.
Proof.
  intros t [= <-]. split; simpl; try (by repeat constructor).
  - apply (bool_decide_unpack _). vm_compute. exact I.
  - repeat (apply Forall_cons; split); try apply Forall_nil_2;
      apply row_of_ok.
Qed.
Lemma daemon_tables_there : is_Some (tables (conn daemon_store)).
Proof. by eexists. Qed.
Lemma daemon_ready room : (room < i64_max)%Z → store_ready room daemon_store.
Proof.
  intros Hr. split; [apply daemon_disk_ok|]. split; [apply daemon_tables_there|]. done.
Qed.

(** [known] and [cursor_ok], decided. *)
Definition fine (V : Rows) (ev : Event) : bool :=
  match program_id_of (ev_data ev) with
  | Some i => match V !! i with Some _ => true | None => false end
  | None => true
  end &&
  match ev_data ev with ProgramResumed _ n => (0 <=? n)%Z && (n <=? u32_max)%Z | _ => true end.
Lemma fine_all V evs : forallb (fine V) evs = true → Forall (known V) evs ∧ Forall cursor_ok evs.
Proof.
  induction evs as [|ev evs IH]; [done|]. simpl. intros [[H1 H2]%andb_prop Hall]%andb_prop.
  destruct (IH Hall). split; constructor; try done.
  - unfold known. destruct (program_id_of _) as [i|]; [|done]. by destruct (V !! i).
  - unfold cursor_ok. destruct (ev_data ev); try done. unfold in_u32. lia.
Qed.

(** ** The pump and the scheduler *)

Definition demo_evs : list Event :=
  [mkEvent 12 (ProgramResumed (mkProgramId 7) 3); mkEvent 13 (DaemonPressure 3);
   mkEvent 14 (ProgramCompleted (mkProgramId 7) None)].

Lemma pump_persists_and_broadcasts_witness :
  (∃ d', pump (daemon_with demo_evs) = Ret ((), d') ∧ d_events d' = []) ∧
  ∃ s' l d', mfor pump_event (take 2 demo_evs) (daemon_with []) = Ret ((), d') ∧
    d_store d' = Some s' ∧ disk_ok s' ∧
    view s' = foldl apply_row (view daemon_store) (take 2 demo_evs) ∧
    log s' = log daemon_store ++ l ∧ logged (take 2 demo_evs) l ∧ d_broadcast d' = take 2 demo_evs.
Proof.
  assert (forallb (fine (view daemon_store)) demo_evs = true) as Hf by (vm_compute; reflexivity).
  apply fine_all in Hf as [Hk Hc].
  destruct (pump_persists_and_broadcasts (daemon_with demo_evs) daemon_store eq_refl
    (daemon_ready 3 ltac:(done)) Hk Hc) as [Hall Hn].
  split; [exact Hall|]. exact (Hn 2).
Defined.

(** The two programs click and type; then the store has them completed. *)
Definition run_evs (sch' : Sched) : list Event :=
  drop (length (event_tx empty_sched)) (event_tx sch').
Definition good_run (m : outcome (bool * Sched)) : bool :=
  match m with
  | Ret (_, sch') =>
      forallb (fine (view daemon_store)) (run_evs sch') && (length (run_evs sch') <? 1000)
      && bool_decide (states sch' !! mkProgramId 8 = Some Completed)
  | _ => false
  end.

Lemma store_mirrors_scheduler_witness :
  ∃ sch' s' d', pump (daemon_with (run_evs sch')) = Ret ((), d') ∧ d_store d' = Some s' ∧
    agree (states sch') (view s') ∧ states sch' !! mkProgramId 8 = Some Completed.
Proof.
  assert (good_run (run_until_shutdown 3 SchedulerConfig_default demo_arrivals empty_sched) = true)
    as Hgood by (vm_compute; reflexivity).
  destruct (run_until_shutdown 3 SchedulerConfig_default demo_arrivals empty_sched)
    as [[stop sch']| |] eqn:Hrun; try discriminate Hgood.
  apply andb_prop in Hgood as [[Hf Hlen]%andb_prop Hdone].
  apply bool_decide_eq_true in Hdone. apply Nat.ltb_lt in Hlen.
  apply fine_all in Hf as [Hk Hc]. pose proof (store_mirrors_scheduler 3 _ _ _ stop sch'
    (daemon_with (run_evs sch')) daemon_store Hrun eq_refl eq_refl) as Hall.
  destruct Hall as (s' & d' & Hp & Hd & Ha).
  - apply daemon_ready. change (Z.of_nat (length (run_evs sch')) < i64_max)%Z. ints.
  - exact Hk.
  - exact Hc.
  - intros id st Hid. change (states empty_sched) with (∅ : States) in Hid.
    by rewrite lookup_empty in Hid.
  - exists sch', s', d'. split; [exact Hp|]. split; [exact Hd|]. split; [exact Ha|exact Hdone].
Defined.

(** ** Submission *)

Lemma click_validates : ∃ v, validate_value click_document = Ret (Ok v).
Proof. eexists. vm_compute. reflexivity. Qed.
Lemma poison_validates : ∃ v, validate_value poison_document = Ret (Ok v) ∧
  v_program v = poison_program.
Proof. eexists. split; vm_compute; reflexivity. Qed.

(** On this daemon the submission is accepted. *)
Lemma submit_all_or_nothing_witness :
  ∃ resp d' v pid p' out, handle_submit (mkRequestId 1) click_document None (daemon_with [])
                          = Ret (resp, d') ∧
    resp = Response_ok (mkRequestId 1) (Obj [("program_id", Str (ProgramId_to_string pid));
                                             ("name", Str (p_name (v_program v)))]) ∧
    rewritten (v_program v) p' out ∧
    commands d' = [Scheduler.SubmitValidated pid p' (ma_bytes out)].
Proof.
  destruct (submit_all_or_nothing (mkRequestId 1) click_document None (daemon_with [])
    daemon_store eq_refl daemon_disk_ok daemon_tables_there eq_refl) as (resp & d' & Hrun & Hcase).
  assert (match handle_submit (mkRequestId 1) click_document None (daemon_with []) with
          | Ret (_, d') => length (commands d') | _ => 0 end = 1) as Hone by (vm_compute; reflexivity).
  rewrite Hrun in Hone.
  destruct Hcase as [(e & _ & _ & ->)|[(v & payload & _ & _ & Hc & _)|
    (v & pid & p' & out & text & now & s' & _ & _ & Hresp & Hrw & _ & _ & _ & _ & _ & Hc)]].
  - discriminate Hone.
  - rewrite Hc in Hone. discriminate Hone.
  - exists resp, d', v, pid, p', out. split; [exact Hrun|]. split; [exact Hresp|].
    split; [exact Hrw|exact Hc].
Defined.

Lemma short_digest_poisons_store_witness :
  ∃ d', handle_submit (mkRequestId 1) poison_document None (daemon_with [])
        = Ret (task_panicked (mkRequestId 1), d') ∧ d_store d' = None ∧
    pump_event (mkEvent 0 (ProgramCompleted (mkProgramId 7) None)) d' = Panic.
Proof.
  destruct poison_validates as (v & Hv & Hp).
  destruct (short_digest_poisons_store (mkRequestId 1) poison_document None (daemon_with [])
    daemon_store v "ab" eq_refl Hv) as (d' & Hrun & Hst & _ & Hpump).
  - rewrite Hp. vm_compute. reflexivity.
  - reflexivity.
  - exists d'. split; [exact Hrun|]. split; [exact Hst|]. apply Hpump. by eexists.
Defined.

(** ** Restart *)

(** The program of [StoreDemo], caught at step 3. *)
Definition opened : Store :=
  match open (path_of_string "/vcli") StoreDemo.demo_store with Ret (_, s) => s | _ => daemon_store end.
Definition found : list RecoveredProgram := [mkRecovered StoreDemo.demo_id 3].

Lemma recovery_defeats_resume_witness :
  open (path_of_string "/vcli") StoreDemo.demo_store = Ret (Ok found, opened) ∧
  (∃ s', resume_program StoreDemo.demo_id false 30 opened = Ret (Ok 3%Z, s')) ∧
  ∃ d1 d2, emit_recovery_events found (new_channels opened) = Ret ((), d1) ∧
    pump d1 = Ret ((), d2) ∧
    ∃ payload d3, handle_resume (mkRequestId 1) StoreDemo.demo_id false d2
                  = Ret (Response_err (mkRequestId 1) payload, d3) ∧
      ep_code payload = NotResumableCode.
Proof.
  assert (open (path_of_string "/vcli") StoreDemo.demo_store = Ret (Ok found, opened)) as Hopen
    by (vm_compute; reflexivity).
  assert (∃ row, view StoreDemo.demo_store !! StoreDemo.demo_id = Some row ∧ pr_state row = Running)
    as (row & Hrow & Hrunning) by (eexists; split; vm_compute; reflexivity).
  destruct (recovery_defeats_resume _ _ _ _ (new_channels opened) StoreDemo.demo_disk_ok Hopen
    ltac:(vm_compute; reflexivity) eq_refl eq_refl) as [_ (d1 & d2 & Hemit & Hpump & _ & Hall)].
  split; [exact Hopen|]. split; [eexists; vm_compute; reflexivity|].
  exists d1, d2. split; [exact Hemit|]. split; [exact Hpump|].
  exact (Hall _ row Hrow Hrunning (mkRequestId 1) false).
Defined.

(** The machine that starts a daemon. *)
Definition demo_process : Process := mkProcess 77 false (Ok ()) (Ok ()) (Ok ()) (Ok ()).
Definition demo_config : Config :=
  with_roots (path_of_string "/vcli") (path_of_string "/log")
    (mkSocketPath (path_of_string "/vcli.sock") Override).

Lemma reload_fills_queue_witness :
  ∃ d1, (_ ← emit_recovery_events []; emit_daemon_started) (new_channels daemon_store)
        = Ret ((), d1) ∧
    ∃ d', reload_waiting_programs d1 = Ret (1, d') ∧ length (queued (d_cmds d')) = 1.
Proof.
  assert (∃ s' x, reload_rows (clock_ms (d_reads (new_channels daemon_store) + 2)) daemon_store
                = Ret ([x], s')) as (s' & x & Hl) by (eexists _, _; vm_compute; reflexivity).
  destruct (reload_fills_queue demo_process demo_config [] (new_channels daemon_store) daemon_store
    [x] s' eq_refl eq_refl Hl) as (d1 & Hrun & Hfits & _).
  exists d1. split; [exact Hrun|].
  destruct Hfits as (d' & Hload & _ & Hc); [apply Nat.leb_le; vm_compute; reflexivity|].
  exists d'. split; [exact Hload|]. rewrite Hc. reflexivity.
Defined.

(** ** A program with an image, through the store and back *)

#[local] Existing Instances sci_text sci_text_laws sci_laws text_json_reads.

Definition icon_path : Path := path_of_string "/img/icon.png".
(** The store of before, on a disk that also holds an image. *)
Definition icon_store : Store :=
  mkStore (data_root daemon_store) (conn daemon_store)
    (mkFs {[ icon_path := [137; 80; 78; 71]%Z ]} (dirs fs_empty)) 0.
Definition half : f64 := S754_finite false 4503599627370496 (-53).
Definition icon_program : Program := {|
  p_version := "0.1"; p_name := "icon"; p_id := Some (mkProgramId 40); p_trigger := OnSubmit;
  p_predicates := {[ "icon" := Template "/img/icon.png" half (Absolute (mkRect 0 0 64 48)) 200 ]};
  p_watches := [mkWatch (ByName "icon") [Click (TargetExpression "$icon.match.center") LeftButton] 0
                  OneShot];
  p_body := []; p_on_complete := None; p_on_fail := None; p_timeout_ms := Some 60000%Z;
  p_labels := {[ "team" := "qa" ]}; p_priority := 3 |}.
Definition icon_document : Value := Program_to_value icon_program.

Lemma icon_not_blob h ext : icon_path ≠ blob_path (data_root icon_store) h ext.
Proof. intros Heq. apply (f_equal (length ∘ comps)) in Heq. discriminate Heq. Qed.
Lemma icon_sound : sound icon_store.
Proof.
  split; [split|].
  - exact daemon_disk_ok.
  - constructor.
  - intros h ext b _ _. unfold blob. cbn [icon_store fs files].
    rewrite lookup_singleton_ne by apply icon_not_blob. done.
  - intros h ext _ _. cbn [icon_store fs dirs fs_empty]. rewrite elem_of_singleton. intros Heq.
    apply (f_equal (length ∘ comps)) in Heq. discriminate Heq.
  - constructor.
Qed.
Lemma icon_images : images_known icon_store None icon_program.
Proof.
  split.
  - apply map_Forall_singleton. intros p Hp. vm_compute in Hp. injection Hp as <-.
    vm_compute. intuition discriminate.
  - repeat constructor.
Qed.
Lemma icon_validates : ∃ v, validate_value icon_document = Ret (Ok v) ∧ v_program v = icon_program.
Proof. eexists. split; vm_compute; reflexivity. Qed.

Lemma accepted_program_survives_restart_witness :
  ∃ p' assets s' row, submit_locked (mkProgramId 40) "icon" icon_program None 5 icon_store
                      = Ret (Ok (p', assets), s') ∧
    view s' !! mkProgramId 40 = Some row ∧ supplied assets p' ∧
    wp (reload_row 9 row)
      (λ r _, ∃ assets2, r = Some (mkProgramId 40, p', assets2) ∧ supplied assets2 p') s'.
Proof.
  destruct icon_validates as (v & Hv & Hp).
  assert (match submit_locked (mkProgramId 40) "icon" icon_program None 5 icon_store with
          | Ret (Ok (p', _), _) => is_plain (Program_to_value p')
          | _ => false
          end = true) as Hplain by (vm_compute; reflexivity).
  destruct (submit_locked (mkProgramId 40) "icon" icon_program None 5 icon_store)
    as [[[[p' assets]|e] s']| |] eqn:Hrun; try discriminate Hplain.
  pose proof Hrun as Hrun'. rewrite <-Hp in Hrun'.
  destruct (accepted_program_survives_restart (mkProgramId 40) "icon" None 5 icon_document v
    icon_store p' assets s' icon_sound ltac:(by eexists) ltac:(apply is_doc_ok_sound; vm_compute; reflexivity)
    Hv ltac:(rewrite Hp; exact icon_images) Hrun' ltac:(by apply is_plain_doc))
    as (row & Hrow & Hid & Hsound & Hsup & Hreload).
  exists p', assets, s', row. split; [reflexivity|]. split; [exact Hrow|]. split; [exact Hsup|].
  rewrite <-Hid. apply Hreload; [exact Hsound|by intros h|reflexivity].
Defined.

Lemma icon_wf : Program_wf icon_program.
Proof.
  split; simpl.
  - apply map_Forall_singleton. split; [|reflexivity]. vm_compute. intuition discriminate.
  - repeat constructor; vm_compute; intuition discriminate.
  - constructor.
  - ints.
  - ints.
Qed.
(** The same document with its first two entries exchanged. *)
Definition icon_document' : Value :=
  match icon_document with Obj (a :: b :: m) => Obj (b :: a :: m) | v => v end.

Lemma Program_reads_back_witness : Program_from_value icon_document' = Some icon_program.
Proof.
  apply Program_reads_back; [exact icon_wf|].
  assert (plain_doc icon_document') as Hp by (apply is_plain_doc; vm_compute; reflexivity).
  apply plain_same in Hp. unfold icon_document', icon_document, Program_to_value in *. cbn [app] in *.
  inversion Hp as [| | | | |m m1 m' Hnd Hperm Hm]; subst.
  eapply same_obj; [apply (bool_decide_unpack _); vm_compute; exact I| |exact Hm].
  rewrite <-Hperm. constructor.
Defined.

Lemma Program_read_wf_witness : ∃ p, Program_from_value icon_document' = Some p ∧ Program_wf p.
Proof.
  exists icon_program. assert (Program_from_value icon_document' = Some icon_program) as Hp.
  { vm_compute. reflexivity. }
  split; [exact Hp|]. apply (Program_read_wf icon_document'); [|exact Hp].
  apply is_doc_ok_sound. vm_compute. reflexivity.
Defined.

Lemma canonical_is_json_witness :
  ∃ s v', canonicalize icon_document' = Ok s ∧ json_text s v' ∧ stored_as icon_document' v'.
Proof.
  apply canonical_is_json, plain_json_ok, is_plain_doc. vm_compute. reflexivity.
Defined.

(** ** From start to exit

    The daemon started on its disk, a client that submits a program and asks
    for its status, the scheduler and the pump at work, and a signal. *)

From S2P Require Import IpcSpec Live LiveSpec LiveStop LiveBoot.

#[local] Existing Instances bits_uuid bits_uuid_laws text_json text_json_laws core_sha2
  core_sha2_laws reliable_host reliable_host_reliable nfc_id sci_ops demo_image_ops mock_sink
  mock_capture manual_clock demo_order plain_daemon short_message ticking nobody_listens plain_op
  text_documents.

(** What the start leaves. *)
Definition started : Daemon :=
  match boot demo_process demo_config daemon_store with
  | Ret (Ok d, _) => d
  | _ => daemon_with []
  end.
Definition booted_store : Store := final (boot demo_process demo_config daemon_store) daemon_store.
Lemma started_boot : boot demo_process demo_config daemon_store = Ret (Ok started, booted_store).
Proof.
  assert (match boot demo_process demo_config daemon_store with
          | Ret (Ok _, _) => true | _ => false end = true) as Hb by (vm_compute; reflexivity).
  unfold started, booted_store, final.
  destruct (boot demo_process demo_config daemon_store) as [[[d|e] s]| |]; done.
Qed.

(** A client that submits a program and hangs up. *)
Definition client : Conn :=
  new_conn (match frame_bytes (mkRequest (mkRequestId 1) (Submit click_document None)) with
            | b :: bs => [Data b bs]
            | [] => []
            end).
Definition demo_turns : list Turn :=
  [MainTurn (Some (Ok client)); TaskTurn 0 (mkRequestId 9); SchedTurn; MainTurn None;
   PumpTurn; PumpTurn; PumpTurn; TaskTurn 0 (mkRequestId 9)].

Definition live0 : Live := in_service started empty_sched.
Definition take_turns (l : list Turn) : outcome (() * Live) :=
  run_turns 3 SchedulerConfig_default demo_config l live0.
Definition live1 : Live := final (take_turns demo_turns) live0.

(** A run that can be computed. *)
Definition tame_b (op : RequestOp) : bool := match op with Resume _ _ | Gc => false | _ => true end.
Fixpoint tame_along (l : list Turn) (L : Live) : bool :=
  match l with
  | [] => true
  | t :: l =>
      match asked t L with Some op => tame_b op | None => true end &&
      match turn 3 SchedulerConfig_default demo_config t L with
      | Ret (_, L) => tame_along l L
      | _ => false
      end
  end.
Lemma turns_run l L L' :
  run_turns 3 SchedulerConfig_default demo_config l L = Ret ((), L') → tame_along l L = true →
  live_run 3 SchedulerConfig_default demo_config tame L L'.
Proof.
  revert L. induction l as [|t l IH]; intros L; simpl; [intros [= <-] _; constructor|].
  intros ([] & L1 & Ht & Hl)%ST_bind_Ret [Hop Hrest]%andb_prop. rewrite Ht in Hrest.
  eapply run_turn; [exact Ht| |by apply IH].
  intros op Ho. rewrite Ho in Hop. by destruct op.
Qed.
Lemma live1_run : live_run 3 SchedulerConfig_default demo_config tame live0 live1.
Proof.
  apply (turns_run demo_turns).
  - apply is_ret_final. vm_compute. reflexivity.
  - vm_compute. reflexivity.
Qed.

(** The submitted program runs, seven events are on their way, its row is still
    pending. *)
Definition live1_store : Store := default daemon_store (d_store (lv_daemon live1)).
Example live1_shape :
  states (lv_sched live1) !! mkProgramId 3 = Some Running ∧
  length (d_events (lv_daemon live1)) = 7 ∧
  pr_state <$> view live1_store !! mkProgramId 3 = Some Pending.
Proof. split_and!; vm_compute; reflexivity. Qed.

Lemma rows_follow_scheduler_witness :
  d_store (lv_daemon live1) = Some live1_store ∧
  pr_state <$> foldl apply_row (view live1_store) (d_events (lv_daemon live1)) !! mkProgramId 3
    = Some Running.
Proof.
  assert (d_store (lv_daemon live1) = Some live1_store) as Hs.
  { assert (match d_store (lv_daemon live1) with Some _ => true | None => false end = true) as Hb
      by (vm_compute; reflexivity).
    unfold live1_store. by destruct (d_store (lv_daemon live1)). }
  split; [exact Hs|].
  destruct (rows_follow_scheduler _ _ _ _ _ _ _ _ _ _ _ _ _ daemon_disk_ok started_boot live1_run Hs)
    as [Ha _].
  - vm_compute. reflexivity.
  - apply Ha. vm_compute. reflexivity.
Defined.

(** The same moment, and a signal. *)
Lemma live1_serving : lv_phase live1 = Serving.
Proof. vm_compute. reflexivity. Qed.
Lemma live1_any : live_run 3 SchedulerConfig_default demo_config (λ _, True) live0 live1.
Proof. induction live1_run; econstructor; [eassumption|done|done]. Qed.

Lemma signal_ends_service_witness :
  ∃ n L', run_turns 3 SchedulerConfig_default demo_config
      (SignalTurn :: MainTurn None :: MainTurn (Some (Ok client)) :: SchedTurn
         :: replicate n PumpTurn ++ [MainTurn None]) live1 = Ret ((), L') ∧
    lv_phase L' = Exited (Ok ()) ∧ lv_tasks L' = lv_tasks live1 ∧
    receiver (d_cmds (lv_daemon L')) = Gone ∧
    (lv_pump L' = false ∨ d_events (lv_daemon L') = []).
Proof.
  destruct (signal_ends_service _ _ _ _ _ _ _ _ _ _ _ _ None (Some (Ok client)) None
    daemon_disk_ok started_boot live1_any live1_serving)
    as [(n & L' & Hr & Hp & Ht & Hgone & Hpump & _) _].
  exists n, L'. split; [exact Hr|]. split; [exact Hp|]. split; [exact Ht|].
  split; [exact Hgone|exact Hpump].
Defined.
