(* ===== verification/Timestamp.v ===== *)
(** * Timestamps of the command line

    [vcli-cli] prints times with its own calendar ([util.rs]) and reads the
    argument of [logs --since] with the inverse ([commands/logs.rs]).  The
    model follows both, at the widths of the source; the specification is the
    Gregorian calendar, one day after the other. *)

From S2P Require Import Prelude.
From S2P Require Import Digits.

Local Open Scope vcli_scope.
Local Open Scope Z_scope.

(** ** Printing ([util.rs]) *)

(* src: crates/vcli-cli/src/util.rs 71-90 civil_from_days *)
Definition civil_from_days (z : Z) : Z * Z * Z :=
  let z := wrap_i64 (z + 719468) in
  let era := Z.quot (if z >=? 0 then z else wrap_i64 (z - 146096)) 146097 in
  let doe := wrap_u64 (z - era * 146097) in
  let yoe := (doe - doe / 1460 + doe / 36524 - doe / 146096) / 365 in
  let y := wrap_i64 (wrap_i64 yoe + era * 400) in
  let doy := doe - (365 * yoe + yoe / 4 - yoe / 100) in
  let mp := (5 * doy + 2) / 153 in
  let d := doy - (153 * mp + 2) / 5 + 1 in
  let m := if mp <? 10 then mp + 3 else mp - 9 in
  let y := if m <=? 2 then wrap_i64 (y + 1) else y in
  (wrap_i32 y, m mod 256, d mod 256).

(* src: crates/vcli-cli/src/util.rs 52-69 format_unix_ms *)
Definition format_unix_ms (ms : Z) : string :=
  let total_secs := ms / 1000 in
  let sub_ms := ms mod 1000 in
  let days := total_secs / 86400 in
  let secs_of_day := total_secs mod 86400 in
  let hour := Z.quot secs_of_day 3600 in
  let minute := Z.quot (Z.rem secs_of_day 3600) 60 in
  let second := Z.rem secs_of_day 60 in
  let '(year, month, day) := civil_from_days days in
  zero_padded 4 year +:+ "-" +:+ zero_padded 2 month +:+ "-" +:+ zero_padded 2 day +:+ "T"
  +:+ zero_padded 2 hour +:+ ":" +:+ zero_padded 2 minute +:+ ":" +:+ zero_padded 2 second +:+ "."
  +:+ zero_padded 3 sub_ms +:+ "Z".

(** ** Reading ([commands/logs.rs]) *)

(* src: crates/vcli-cli/src/commands/logs.rs 111-122 days_from_civil *)
Definition days_from_civil (year month day : Z) : option Z :=
  if negb ((1 <=? month) && (month <=? 12)) || negb ((1 <=? day) && (day <=? 31)) then None
  else
    let year := if month <=? 2 then wrap_i32 (year - 1) else year in
    let era := Z.quot (if year >=? 0 then year else wrap_i32 (year - 399)) 400 in
    let yoe := wrap_i32 (year - wrap_i32 (era * 400)) in
    if yoe <? 0 then None
    else
      let doy := (153 * (if 2 <? month then month - 3 else month + 9) + 2) / 5 + day - 1 in
      let doe := wrap_u32 (wrap_u32 (wrap_u32 (yoe * 365) + yoe / 4 - yoe / 100) + doy) in
      Some (era * 146097 + doe - 719468).

(** [s.ends_with('Z')] and the rest. *)
Fixpoint strip_final (c : ascii) (s : string) : option string :=
  match s with
  | EmptyString => None
  | String a EmptyString => if decide (a = c) then Some EmptyString else None
  | String a s' => String a <$> strip_final c s'
  end.

(** The sum of [i64]s. *)
Definition instant (days hour minute sec millis : Z) : Z :=
  wrap_i64 (wrap_i64 (wrap_i64 (wrap_i64 (wrap_i64 (days * 86400000) + hour * 3600000)
    + minute * 60000) + sec * 1000) + millis).

(** Further parts of the date or of the time are not looked at. *)
(* src: crates/vcli-cli/src/commands/logs.rs 81-109 parse_rfc3339_utc *)
Definition parse_rfc3339_utc (s : string) : option Z :=
  core ← strip_final "Z" s;
  '(date, time) ← split_once "T" core;
  let dparts := split_on "-" date in
  year ← dparts !! 0%nat ≫= parse_i32;
  month ← dparts !! 1%nat ≫= parse_u32;
  day ← dparts !! 2%nat ≫= parse_u32;
  let '(time, frac) := match split_once "." time with
                       | Some (t, f) => (t, f)
                       | None => (time, "0")
                       end in
  let tparts := split_on ":" time in
  hour ← tparts !! 0%nat ≫= parse_u32;
  minute ← tparts !! 1%nat ≫= parse_u32;
  sec ← tparts !! 2%nat ≫= parse_u32;
  millis ← parse_u32 frac;
  days ← days_from_civil year month day;
  Some (instant days hour minute sec millis).

(** ** The Gregorian calendar *)

Definition leap (y : Z) : bool := (y mod 4 =? 0) && (negb (y mod 100 =? 0) || (y mod 400 =? 0)).
Definition month_length (y m : Z) : Z :=
  if m =? 2 then if leap y then 29 else 28
  else if (m =? 4) || (m =? 6) || (m =? 9) || (m =? 11) then 30 else 31.
Definition next_date (date : Z * Z * Z) : Z * Z * Z :=
  let '(y, m, d) := date in
  if d <? month_length y m then (y, m, d + 1)
  else if m <? 12 then (y, m + 1, 1) else (y + 1, 1, 1).
Definition date_ok (date : Z * Z * Z) : Prop :=
  let '(y, m, d) := date in 1 ≤ m ≤ 12 ∧ 1 ≤ d ≤ month_length y m.
