(* ===== verification/TimestampSpec.v ===== *)
(** * The calendar of the command line is the Gregorian one

    [civil_from_days] counts in eras of 400 years and in years that begin in
    March.  Day by day it walks through the Gregorian calendar, and reading a
    printed timestamp gives the instant back. *)

From S2P Require Import Prelude Digits Sha256 Timestamp.

Local Open Scope vcli_scope.
Local Open Scope Z_scope.

(** Linear arithmetic with division by constants. *)
Ltac calendar := Z.to_euclidean_division_equations; lia.
(** The same, on whether a year is a leap year. *)
Ltac leap_cases :=
  repeat case_match;
  rewrite ?andb_true_iff, ?andb_false_iff, ?orb_true_iff, ?orb_false_iff, ?negb_true_iff,
    ?negb_false_iff, ?Z.eqb_eq, ?Z.eqb_neq in *;
  calendar.

(** ** Years of an era *)

Definition year_start (y : Z) : Z := 365 * y + y / 4 - y / 100.
Definition year_of (doe : Z) : Z := (doe - doe / 1460 + doe / 36524 - doe / 146096) / 365.
Definition year_length (y : Z) : Z := if leap (y + 1) then 366 else 365.

Lemma year_length_bound y : 365 ≤ year_length y ≤ 366.
Proof. unfold year_length. case_match; lia. Qed.
Lemma year_of_bounds doe : 0 ≤ doe < 146097 → 0 ≤ year_of doe < 400.
Proof. intros. unfold year_of. calendar. Qed.
Lemma year_of_start doe : 0 ≤ doe < 146097 → 0 ≤ doe - year_start (year_of doe).
Proof.
  intros Hd. pose proof (year_of_bounds doe Hd) as Hy. unfold year_start.
  revert Hy. unfold year_of. calendar.
Qed.
Lemma doy_bound doe : 0 ≤ doe < 146097 → doe - year_start (year_of doe) < year_length (year_of doe).
Proof.
  intros Hd. pose proof (year_of_bounds doe Hd) as Hy. unfold year_start, year_length, leap.
  revert Hy. unfold year_of. leap_cases.
Qed.
Lemma year_length_start y : 0 ≤ y < 399 → year_start (y + 1) = year_start y + year_length y.
Proof. intros. unfold year_start, year_length, leap. leap_cases. Qed.
Lemma year_of_unique y doy :
  0 ≤ y < 400 → 0 ≤ doy < year_length y → year_of (year_start y + doy) = y.
Proof.
  intros Hy Hd. unfold year_length, leap in Hd. unfold year_of, year_start.
  revert Hd. leap_cases.
Qed.
Lemma leap_era era y : leap (era * 400 + y) = leap y.
Proof.
  unfold leap. replace ((era * 400 + y) mod 4) with (y mod 4) by calendar.
  replace ((era * 400 + y) mod 100) with (y mod 100) by calendar.
  by replace ((era * 400 + y) mod 400) with (y mod 400) by calendar.
Qed.

(** ** Months of a year that begins in March *)

Definition month_start (mp : Z) : Z := (153 * mp + 2) / 5.
Definition month_of (doy : Z) : Z := (5 * doy + 2) / 153.
Definition month_number (mp : Z) : Z := if mp <? 10 then mp + 3 else mp - 9.

Lemma month_of_iff doy mp : month_of doy = mp ↔ month_start mp ≤ doy < month_start (mp + 1).
Proof. unfold month_of, month_start. split; intros; calendar. Qed.
Lemma month_range doy : 0 ≤ doy < 366 → 0 ≤ month_of doy ≤ 11.
Proof. unfold month_of. intros. calendar. Qed.

(** One goal per month. *)
Ltac months mp :=
  assert (mp = 0 ∨ mp = 1 ∨ mp = 2 ∨ mp = 3 ∨ mp = 4 ∨ mp = 5 ∨ mp = 6 ∨ mp = 7 ∨ mp = 8
          ∨ mp = 9 ∨ mp = 10 ∨ mp = 11) as Hmonths by lia;
  destruct_or! Hmonths; subst mp.

(** The year the calendar gives a month of the year [y] of an era. *)
Definition year_number (era y mp : Z) : Z :=
  era * 400 + y + (if month_number mp <=? 2 then 1 else 0).
(** A day as its era, its year in the era and its place in that year. *)
Definition date_of (era y doy : Z) : Z * Z * Z :=
  let mp := month_of doy in
  (year_number era y mp, month_number mp, doy - month_start mp + 1).

Lemma month_length_number era y mp :
  0 ≤ mp ≤ 11 →
  month_length (year_number era y mp) (month_number mp)
  = Z.min (month_start (mp + 1)) (year_length y) - month_start mp.
Proof.
  intros H. unfold year_length, year_number. rewrite <-(leap_era era (y + 1)).
  months mp; unfold month_length, month_number; simpl; rewrite ?Z.add_0_r, ?Z.add_assoc;
    try (by destruct (leap _)).
Qed.
Lemma month_number_range mp : 0 ≤ mp ≤ 11 → 1 ≤ month_number mp ≤ 12.
Proof. unfold month_number. case_match; lia. Qed.
Lemma date_of_ok era y doy : 0 ≤ doy < year_length y → date_ok (date_of era y doy).
Proof.
  intros H. pose proof (year_length_bound y). unfold date_of, date_ok. cbv zeta.
  pose proof (month_range doy ltac:(lia)) as Hm. rewrite month_length_number by done.
  destruct (proj1 (month_of_iff doy _) eq_refl). split; [by apply month_number_range|lia].
Qed.

(** ** The day after *)

Lemma date_of_next era y doy :
  0 ≤ doy → doy + 1 < year_length y → date_of era y (doy + 1) = next_date (date_of era y doy).
Proof.
  intros H0 H. pose proof (year_length_bound y) as H1. unfold date_of. cbv zeta. unfold next_date.
  pose proof (month_range doy ltac:(lia)) as Hm. rewrite month_length_number by done.
  destruct (proj1 (month_of_iff doy _) eq_refl) as [Hlo Hhi].
  destruct (decide (doy + 1 < month_start (month_of doy + 1))) as [Hin|Hout].
  - assert (month_of (doy + 1) = month_of doy) as -> by (apply month_of_iff; lia).
    rewrite (proj2 (Z.ltb_lt _ _)) by lia. do 2 f_equal; lia.
  - assert (doy + 1 = month_start (month_of doy + 1)) as Heq by lia.
    rewrite (proj2 (Z.ltb_ge _ _)) by lia.
    revert Heq. generalize dependent (month_of doy). intros mp Hm Hlo Hhi Hout Heq.
    assert (month_of (doy + 1) = mp + 1) as ->.
    { apply month_of_iff. rewrite Heq. split; [lia|]. unfold month_start. calendar. }
    rewrite Heq, Z.sub_diag. unfold month_start in Heq. clear - Hm Heq H H0 H1.
    unfold year_number. months mp; unfold month_number; simpl;
      try (apply (f_equal2 pair); [apply (f_equal2 pair)|]; lia).
    exfalso. clear -Heq H H1. calendar.
Qed.
Lemma date_of_new_year era y : date_of era y 0 = (era * 400 + y, 3, 1).
Proof. unfold date_of, year_number. simpl. by rewrite Z.add_0_r. Qed.
Lemma date_of_year_end era y doy :
  doy + 1 = year_length y → next_date (date_of era y doy) = (era * 400 + y + 1, 3, 1).
Proof.
  intros H. pose proof (year_length_bound y). unfold date_of. cbv zeta. unfold next_date.
  assert (month_of doy = 11) as Hm by (apply month_of_iff; unfold month_start; calendar).
  rewrite month_length_number, Hm by lia.
  replace (month_start (11 + 1)) with 367 by done. replace (month_start 11) with 337 by done.
  rewrite (proj2 (Z.ltb_ge _ _)) by lia. done.
Qed.

(** ** Days since 1970 *)

(** The date [z] days after 1970-01-01, without the widths. *)
Definition civil_date (z : Z) : Z * Z * Z :=
  let doe := (z + 719468) mod 146097 in
  date_of ((z + 719468) / 146097) (year_of doe) (doe - year_start (year_of doe)).

(** [split_day z] names the era, the day in it, its year and the day in that
    year, with their ranges. *)
Ltac split_day z era doe y doy :=
  let w := fresh "w" in
  remember (z + 719468) as w eqn:Hw;
  pose proof (Z.div_mod w 146097 ltac:(lia)) as Hdm;
  pose proof (Z.mod_pos_bound w 146097 ltac:(lia)) as Hdoe;
  remember (w / 146097) as era eqn:Hera; remember (w mod 146097) as doe eqn:Hedoe;
  pose proof (year_of_bounds doe Hdoe) as Hy; pose proof (doy_bound doe Hdoe) as Hb;
  pose proof (year_of_start doe Hdoe) as Hs;
  pose proof (year_length_bound (year_of doe)) as Hlen;
  remember (year_of doe) as y eqn:Hyear; remember (doe - year_start y) as doy eqn:Hdoy.

Lemma civil_date_ok z : date_ok (civil_date z).
Proof. unfold civil_date. cbv zeta. split_day z era doe y doy. by apply date_of_ok. Qed.

Lemma civil_date_next z : civil_date (z + 1) = next_date (civil_date z).
Proof.
  unfold civil_date. cbv zeta. replace (z + 1 + 719468) with (z + 719468 + 1) by lia.
  split_day z era doe y doy.
  destruct (decide (doe + 1 < 146097)) as [Hin|Hout].
  - replace ((w + 1) / 146097) with era by (subst era doe; clear -Hin; calendar).
    replace ((w + 1) mod 146097) with (doe + 1) by (subst era doe; clear -Hin; calendar).
    destruct (decide (doy + 1 < year_length y)) as [Hday|Hlast].
    + assert (year_of (doe + 1) = y) as ->.
      { replace (doe + 1) with (year_start y + (doy + 1)) by lia. apply year_of_unique; lia. }
      replace (doe + 1 - year_start y) with (doy + 1) by lia. apply date_of_next; lia.
    + rewrite date_of_year_end by lia. assert (y < 399) as Hy'.
      { destruct (decide (y = 399)) as [E|]; [|lia]. clear Hyear. subst y.
        replace (year_start 399) with 145731 in * by done.
        replace (year_length 399) with 366 in * by done. lia. }
      assert (year_start (y + 1) = doe + 1) as Hstart by (rewrite year_length_start; lia).
      assert (year_of (doe + 1) = y + 1) as ->.
      { replace (doe + 1) with (year_start (y + 1) + 0) by lia.
        pose proof (year_length_bound (y + 1)). apply year_of_unique; lia. }
      rewrite Hstart, Z.sub_diag, date_of_new_year. by rewrite Z.add_assoc.
  - replace ((w + 1) / 146097) with (era + 1) by (subst era doe; clear -Hout; calendar).
    replace ((w + 1) mod 146097) with 0 by (subst era doe; clear -Hout; calendar).
    assert (doe = 146096) as Hd by lia. clear Hedoe. subst doe.
    rewrite date_of_year_end by by subst.
    subst y. change (year_of 0) with 0. change (0 - year_start 0) with 0.
    rewrite date_of_new_year. change (year_of 146096) with 399. do 2 f_equal. lia.
Qed.

(** ** At the widths of the source *)

(** Enough days for every instant of an [i64] of milliseconds. *)
Definition days_ok (z : Z) : Prop := -200000000000 ≤ z ≤ 200000000000.

Lemma days_of_ms ms : in_i64 ms → days_ok (ms / 1000 / 86400).
Proof. unfold days_ok. unfold_ints. intros. calendar. Qed.

Lemma floor_by_quot w n c :
  0 < n → c = n - 1 → Z.quot (if w >=? 0 then w else w - c) n = w / n.
Proof.
  intros Hn ->. rewrite Z.geb_leb. destruct (Z.leb_spec 0 w).
  - apply Z.quot_div_nonneg; lia.
  - replace (w - (n - 1)) with (- (n - 1 - w)) by lia.
    rewrite Z.quot_opp_l, Z.quot_div_nonneg by lia.
    pose proof (Z.div_mod w n ltac:(lia)). pose proof (Z.mod_pos_bound w n ltac:(lia)).
    replace (n - 1 - w) with (- (w / n) * n + (n - 1 - w mod n)) by lia.
    rewrite Z.div_add_l by lia. rewrite (Z.div_small (n - 1 - w mod n)) by lia. lia.
Qed.

Lemma civil_from_days_eq z : days_ok z → civil_from_days z = civil_date z.
Proof.
  unfold days_ok. intros Hz. unfold civil_from_days, civil_date. cbv zeta.
  rewrite (wrap_i64_id (z + 719468)) by ints. split_day z era doe y doy.
  rewrite (wrap_i64_id (w - 146096)) by ints.
  rewrite (floor_by_quot w 146097), <-Hera by done.
  replace (w - era * 146097) with doe by lia.
  rewrite (wrap_u64_id doe) by ints. fold (year_of doe). rewrite <-Hyear.
  change (365 * y + y / 4 - y / 100) with (year_start y). rewrite <-Hdoy.
  unfold date_of. cbv zeta. change ((5 * doy + 2) / 153) with (month_of doy).
  pose proof (month_range doy ltac:(lia)) as Hm.
  change ((153 * month_of doy + 2) / 5) with (month_start (month_of doy)).
  fold (month_number (month_of doy)). unfold year_number.
  destruct (proj1 (month_of_iff doy _) eq_refl) as [Hlo Hhi].
  pose proof (month_number_range _ Hm) as Hn.
  rewrite (wrap_i64_id y) by ints. rewrite (wrap_i64_id (y + era * 400)) by ints.
  rewrite (wrap_i64_id (y + era * 400 + 1)) by ints.
  apply (f_equal2 pair); [apply (f_equal2 pair)|].
  - rewrite wrap_i32_id by (destruct (_ <=? 2); ints). destruct (_ <=? 2); lia.
  - apply Z.mod_small. lia.
  - apply Z.mod_small. revert Hlo Hhi. unfold month_start. clear -Hm. intros. calendar.
Qed.

Lemma days_from_civil_date z :
  days_ok z → let '(y, m, d) := civil_date z in days_from_civil y m d = Some z.
Proof.
  unfold days_ok. intros Hz. pose proof (civil_date_ok z) as Hok. revert Hok. unfold civil_date.
  cbv zeta. split_day z era doe y doy. unfold date_of. cbv zeta. intros [Hm Hd].
  pose proof (month_range doy ltac:(lia)) as Hmr. set (mp := month_of doy) in *.
  assert (month_length (year_number era y mp) (month_number mp) ≤ 31) as H31.
  { unfold month_length. repeat case_match; lia. }
  unfold days_from_civil. rewrite !(proj2 (Z.leb_le _ _)) by lia. simpl (_ || _). cbv iota.
  assert ((if month_number mp <=? 2 then wrap_i32 (year_number era y mp - 1)
           else year_number era y mp) = era * 400 + y) as ->.
  { unfold year_number. destruct (_ <=? 2); [rewrite wrap_i32_id by ints|]; lia. }
  rewrite (wrap_i32_id (era * 400 + y - 399)) by ints.
  rewrite (floor_by_quot (era * 400 + y) 400) by done.
  replace ((era * 400 + y) / 400) with era by (clear -Hy; calendar).
  rewrite (wrap_i32_id (era * 400)) by ints. replace (era * 400 + y - era * 400) with y by lia.
  rewrite (wrap_i32_id y) by ints. rewrite (proj2 (Z.ltb_ge _ _)) by lia.
  assert ((153 * (if 2 <? month_number mp then month_number mp - 3 else month_number mp + 9) + 2)
          / 5 = month_start mp) as ->.
  { unfold month_start, month_number. clear -Hmr. do 2 f_equal.
    destruct (Z.ltb_spec mp 10); [destruct (Z.ltb_spec 2 (mp + 3))
                                 |destruct (Z.ltb_spec 2 (mp - 9))]; lia. }
  replace (month_start mp + (doy - month_start mp + 1) - 1) with doy by lia.
  rewrite (wrap_u32_id (y * 365)) by ints.
  assert (y * 365 + y / 4 - y / 100 = year_start y) as -> by (unfold year_start; lia).
  assert (0 ≤ year_start y ≤ 150000) by (unfold year_start; calendar).
  rewrite (wrap_u32_id (year_start y)), wrap_u32_id by ints. f_equal. lia.
Qed.

(** C27: The dates the command line prints are those of the Gregorian calendar:
    day 0 is 1970-01-01, one day later is the next date, across months, leap
    years and centuries, over the whole range of an [i64] of milliseconds;
    and [days_from_civil] finds the day of a printed date again. *)
Theorem civil_from_days_gregorian :
  civil_from_days 0 = (1970, 1, 1) ∧
  (∀ ms, in_i64 ms → days_ok (ms / 1000 / 86400)) ∧
  ∀ z, days_ok z →
    date_ok (civil_from_days z) ∧
    (days_ok (z + 1) → civil_from_days (z + 1) = next_date (civil_from_days z)) ∧
    let '(y, m, d) := civil_from_days z in days_from_civil y m d = Some z.
Proof.
  split; [done|]. split; [apply days_of_ms|]. intros z Hz. rewrite civil_from_days_eq by done.
  split; [apply civil_date_ok|]. split; [|by apply days_from_civil_date].
  intros Hz'. rewrite civil_from_days_eq by done. apply civil_date_next.
Qed.

(** ** Texts *)

Lemma civil_year_bound z : days_ok z → in_i32 (civil_date z).1.1.
Proof.
  unfold days_ok, civil_date. intros Hz. cbv zeta. split_day z era doe y doy.
  unfold date_of, year_number. simpl. destruct (_ <=? 2); ints.
Qed.

(** The year is negative before the first day of year 0. *)
Lemma civil_year_negative z : (civil_date z).1.1 < 0 ↔ z < -719528.
Proof.
  unfold civil_date. cbv zeta. split_day z era doe y doy. unfold date_of, year_number. simpl.
  pose proof (month_range doy ltac:(lia)) as Hm.
  assert ((month_number (month_of doy) <=? 2) = (306 <=? doy)) as ->.
  { destruct (proj1 (month_of_iff doy _) eq_refl) as [Hlo Hhi].
    unfold month_number. revert Hm Hlo Hhi. generalize (month_of doy). unfold month_start.
    intros mp Hm Hlo Hhi. apply eq_true_iff_eq. rewrite !Z.leb_le.
    destruct (Z.ltb_spec mp 10); calendar. }
  assert (y = 399 ↔ 145731 ≤ doe) as Hlast.
  { subst y. unfold year_of. clear -Hdoe. split; intros; calendar. }
  assert (year_start 399 = 145731) as H399 by done.
  destruct (decide (y = 399)) as [E|E].
  - rewrite E in Hdoy. rewrite H399 in Hdoy. destruct (Z.leb_spec 306 doy); lia.
  - assert (y ≤ 398) by lia. destruct (_ <=? _); lia.
Qed.

Lemma strip_final_app c l : strip_final c (l +:+ String c "") = Some l.
Proof.
  induction l as [|a l IH]; [by simpl; rewrite decide_True|].
  rewrite string_append_cons. simpl. rewrite IH. by destruct l.
Qed.

(** A text of the right form is read field by field. *)
Lemma parse_fields Y M D h mi sec f :
  Forall (λ s, not_in_string "T" s ∧ not_in_string "-" s) [Y; M; D] →
  Forall (λ s, not_in_string ":" s ∧ not_in_string "." s) [h; mi; sec] →
  parse_rfc3339_utc (Y +:+ "-" +:+ M +:+ "-" +:+ D +:+ "T" +:+ h +:+ ":" +:+ mi +:+ ":" +:+ sec
                     +:+ "." +:+ f +:+ "Z")
  = year ← parse_i32 Y; month ← parse_u32 M; day ← parse_u32 D; hour ← parse_u32 h;
    minute ← parse_u32 mi; sec ← parse_u32 sec; millis ← parse_u32 f;
    days ← days_from_civil year month day; Some (instant days hour minute sec millis).
Proof.
  intros [[HY HY'] [[HM HM'] [[HD HD'] _]%Forall_cons]%Forall_cons]%Forall_cons.
  intros [[Hh Hh'] [[Hmi Hmi'] [[Hsec Hsec'] _]%Forall_cons]%Forall_cons]%Forall_cons.
  unfold parse_rfc3339_utc.
  set (date := Y +:+ "-" +:+ M +:+ "-" +:+ D). set (clock := h +:+ ":" +:+ mi +:+ ":" +:+ sec).
  match goal with |- context [strip_final _ ?s] => assert (s =
    (date +:+ String "T" (clock +:+ String "." f)) +:+ String "Z" "") as -> end.
  { unfold date, clock. by repeat (rewrite <-string_append_assoc || rewrite string_append_cons). }
  rewrite strip_final_app. cbn [mbind option_bind].
  assert (not_in_string "T" date) as Hdate.
  { unfold date, not_in_string in *. rewrite !string_forallb_app. by rewrite HY, HM, HD. }
  assert (not_in_string "." clock) as Hclock.
  { unfold clock, not_in_string in *. rewrite !string_forallb_app. by rewrite Hh', Hmi', Hsec'. }
  rewrite split_once_app by done. cbn [mbind option_bind]. rewrite split_once_app by done.
  unfold date, clock.
  change ("-" +:+ D) with (String "-" D).
  change ("-" +:+ M +:+ String "-" D) with (String "-" (M +:+ String "-" D)).
  change (":" +:+ sec) with (String ":" sec).
  change (":" +:+ mi +:+ String ":" sec) with (String ":" (mi +:+ String ":" sec)).
  by rewrite !split_on_app, !split_on_not_in by done.
Qed.

(** A text that begins with a minus sign is refused. *)
Lemma parse_minus r : parse_rfc3339_utc (String "-" r) = None.
Proof.
  unfold parse_rfc3339_utc. destruct r as [|a r]; [done|].
  change (strip_final "Z" (String "-" (String a r)))
    with (String "-" <$> strip_final "Z" (String a r)).
  destruct (strip_final "Z" (String a r)) as [core|]; [|done].
  cbn [fmap option_fmap option_map mbind option_bind].
  change (split_once "T" (String "-" core))
    with (match split_once "T" core with Some (l, r) => Some (String "-" l, r) | None => None end).
  by destruct (split_once "T" core) as [[l r']|].
Qed.

(** The parts of an instant make the instant. *)
Lemma instant_parts ms :
  -62167219200000 ≤ ms → in_i64 ms →
  let sod := (ms / 1000) mod 86400 in
  instant (ms / 1000 / 86400) (Z.quot sod 3600) (Z.quot (Z.rem sod 3600) 60) (Z.rem sod 60)
    (ms mod 1000) = ms.
Proof.
  intros Hlo Hms sod.
  assert (0 ≤ sod < 86400) as Hsod by (apply Z.mod_pos_bound; lia).
  assert (ms = ms / 1000 / 86400 * 86400000 + sod * 1000 + ms mod 1000) as Hsum
    by (subst sod; calendar).
  assert (sod = Z.quot sod 3600 * 3600 + Z.quot (Z.rem sod 3600) 60 * 60 + Z.rem sod 60
    ∧ 0 ≤ Z.quot sod 3600 ∧ 0 ≤ Z.quot (Z.rem sod 3600) 60 ∧ 0 ≤ Z.rem sod 60)
    as (Hparts & ? & ? & ?) by (clear -Hsod; calendar).
  assert (0 ≤ ms mod 1000) as Hsub by (apply Z.mod_pos_bound; lia).
  assert (-62167219200000 ≤ ms / 1000 / 86400 * 86400000) by (clear -Hlo; calendar).
  unfold instant. revert Hsum Hparts Hsub. generalize dependent (ms / 1000 / 86400).
  generalize dependent (ms mod 1000). generalize dependent (Z.quot sod 3600).
  generalize dependent (Z.quot (Z.rem sod 3600) 60). generalize dependent (Z.rem sod 60).
  intros s Hs mi Hmi h Hh sub days Hdays Hsum Hparts Hsub.
  rewrite (wrap_i64_id (days * 86400000)) by ints.
  rewrite (wrap_i64_id (days * 86400000 + h * 3600000)) by ints.
  rewrite (wrap_i64_id (_ + mi * 60000)) by ints.
  rewrite (wrap_i64_id (_ + s * 1000)) by ints. rewrite wrap_i64_id by ints. lia.
Qed.

(** [logs --since] reads back every timestamp the command line prints, to
    the millisecond, from the first day of the year 0 on; earlier ones, whose
    year is printed with a minus sign, are refused. *)
Theorem timestamp_round_trip ms :
  in_i64 ms →
  parse_rfc3339_utc (format_unix_ms ms) = if ms <? -62167219200000 then None else Some ms.
Proof.
  intros Hms. pose proof (instant_parts ms) as Hparts. cbv zeta in Hparts.
  pose proof (days_of_ms ms Hms) as Hdays. unfold format_unix_ms. cbv zeta.
  set (days := ms / 1000 / 86400) in *.
  assert (days < -719528 ↔ ms < -62167219200000) as Hday0
    by (subst days; clear; split; intros; calendar).
  rewrite civil_from_days_eq by done.
  pose proof (days_from_civil_date days Hdays) as Hinv. pose proof (civil_date_ok days) as Hok.
  pose proof (civil_year_negative days) as Hneg. pose proof (civil_year_bound days Hdays) as Hy32.
  destruct (civil_date days) as [[y m] d]. simpl in Hneg, Hy32.
  destruct (Z.ltb_spec ms (-62167219200000)) as [Hlt|Hge].
  { unfold zero_padded at 1. rewrite (proj2 (Z.ltb_lt y 0)) by lia. apply parse_minus. }
  destruct Hok as [Hm Hd].
  assert (month_length y m ≤ 31) by (unfold month_length; repeat case_match; lia).
  set (sod := (ms / 1000) mod 86400) in *.
  assert (0 ≤ sod < 86400) as Hsod by (apply Z.mod_pos_bound; lia).
  assert (0 ≤ Z.quot sod 3600 ≤ 23 ∧ 0 ≤ Z.quot (Z.rem sod 3600) 60 ≤ 59
          ∧ 0 ≤ Z.rem sod 60 ≤ 59) as (Hh & Hmi & Hs) by (clear -Hsod; calendar).
  assert (0 ≤ ms mod 1000 < 1000) as Hsub by (apply Z.mod_pos_bound; lia).
  rewrite parse_fields; [|repeat constructor;
    (eapply decimal_avoids; [done|]; apply zero_padded_decimal; lia)..].
  rewrite parse_i32_padded, !parse_u32_padded by ints. cbn [mbind option_bind].
  rewrite Hinv. cbn [mbind option_bind]. by rewrite Hparts.
Qed.

Lemma timestamp_round_trip_witness :
  parse_rfc3339_utc "2024-04-17T10:33:20.123Z" = Some 1713350000123.
Proof. exact (timestamp_round_trip 1713350000123 ltac:(ints)). Defined.

(** The fraction of a second is read as a count of milliseconds. *)
Example half_a_second : parse_rfc3339_utc "2024-04-17T10:33:20.5Z" = Some 1713350000005.
Proof. reflexivity. Qed.
