(* ===== verification/Cli.v ===== *)
(** * The command line

    [vcli-cli]: exit codes, output, and one function per subcommand.  A
    command is code over what it has printed and over the questions it has put
    to its surroundings; the daemon is at the other end of a connection of
    [Ipc].  Parsing the arguments is [clap]'s: the model starts from what it
    answers. *)

From S2P Require Import Prelude Digits Json CoreTypes Canonical Serde DslError DslValidate EventWire.
From S2P Require Import Sha256 IpcWire Host Wp Ipc Timestamp.

Local Open Scope vcli_scope.

(** ** Exit codes and errors ([error.rs]) *)

(* src: crates/vcli-cli/src/error.rs 13-27 ExitCode *)
Inductive ExitCode := Success | GenericCode | ValidationCode | NotFoundCode | DaemonDownCode.
(* src: crates/vcli-cli/src/error.rs 29-33 ExitCode::into *)
Definition exit_status (c : ExitCode) : Z :=
  match c with
  | Success => 0 | GenericCode => 1 | ValidationCode => 2 | NotFoundCode => 3 | DaemonDownCode => 4
  end.

(* src: crates/vcli-cli/src/error.rs 35-55 CliError *)
Inductive CliError :=
  | CliValidation (m : string)
  | CliNotFound (m : string)
  | CliDaemonDown (m : string)
  | CliGeneric (m : string).

(* src: crates/vcli-cli/src/error.rs 37-55 CliError::fmt *)
Definition CliError_display (e : CliError) : string :=
  match e with
  | CliValidation m => "validation error: " +:+ m
  | CliNotFound m => "not found: " +:+ m
  | CliDaemonDown m => "daemon not running (socket: " +:+ m +:+ ")"
  | CliGeneric m => m
  end.
(* src: crates/vcli-cli/src/error.rs 57-67 CliError::exit_code *)
Definition exit_code (e : CliError) : ExitCode :=
  match e with
  | CliValidation _ => ValidationCode
  | CliNotFound _ => NotFoundCode
  | CliDaemonDown _ => DaemonDownCode
  | CliGeneric _ => GenericCode
  end.

(* src: crates/vcli-cli/src/error.rs 87-100 format_payload *)
Definition format_payload (p : ErrorPayload) : string :=
  ep_message p
  +:+ match ep_path p with Some path => " (at " +:+ path +:+ ")" | None => "" end
  +:+ match ep_line p, ep_column p with
      | Some line, Some col => " [line " +:+ pretty line +:+ ", col " +:+ pretty col +:+ "]"
      | _, _ => ""
      end
  +:+ match ep_hint p with
      | Some hint => " — did you mean `" +:+ hint +:+ "`?"
      | None => ""
      end.
(* src: crates/vcli-cli/src/error.rs 69-84 CliError::from_payload *)
Definition from_payload (p : ErrorPayload) : CliError :=
  let text := format_payload p in
  match ep_code p with
  | InvalidProgram => CliValidation text
  | UnknownProgramCode => CliNotFound text
  | _ => CliGeneric text
  end.
(* src: crates/vcli-cli/src/error.rs 102-116 CliError::from *)
Definition from_ipc `{Host} (e : IpcError) : CliError :=
  match e with
  | IpcIo NotFound => CliDaemonDown (io_message NotFound)
  | IpcIo ConnectionRefused => CliDaemonDown (io_message ConnectionRefused)
  | other => CliGeneric (IpcError_display other)
  end.
(* src: crates/vcli-cli/src/error.rs 118-122 CliError::from *)
Definition from_io `{Host} (e : IoError) : CliError := CliGeneric (io_message e).
(* src: crates/vcli-cli/src/error.rs 124-128 CliError::from *)
Definition from_json (m : string) : CliError := CliGeneric ("json: " +:+ m).

(** ** Arguments ([cli.rs]) *)

(* src: crates/vcli-cli/src/cli.rs 45-52 OutputMode *)
Inductive OutputMode := Pretty_ | Json_.
(* src: crates/vcli-cli/src/cli.rs 94-108 StateFilter *)
Inductive StateFilter := FWaiting | FRunning | FCompleted | FFailed | FCancelled.
(* src: crates/vcli-cli/src/cli.rs 110-122 StateFilter::as_wire *)
Definition as_wire (f : StateFilter) : string :=
  match f with
  | FWaiting => "waiting" | FRunning => "running" | FCompleted => "completed"
  | FFailed => "failed" | FCancelled => "cancelled"
  end.
(* src: crates/vcli-cli/src/cli.rs 169-180 DaemonCommand *)
Inductive DaemonCommand := DStart | DRun | DStop | DStatus.
(** The subcommands with their arguments ([SubmitArgs] and the rest). *)
(* src: crates/vcli-cli/src/cli.rs 54-167 Command *)
Inductive Command :=
  | CSubmit (file : Path) (watch : bool)
  | CList (state : option StateFilter)
  | CCancel (program_id : ProgramId) (reason : option string)
  | CLogs (program_id : ProgramId) (follow : bool) (since : option string)
  | CResume (program_id : ProgramId) (from_start : bool)
  | CDaemon (cmd : DaemonCommand)
  | CHealth
  | CGc.
(* src: crates/vcli-cli/src/cli.rs 10-31 Cli *)
Record Cli := mkCli { cli_socket : option Path; cli_json : bool; cli_command : Command }.
(* src: crates/vcli-cli/src/cli.rs 33-43 Cli::output_mode *)
Definition output_mode (c : Cli) : OutputMode := if cli_json c then Json_ else Pretty_.

(** ** Tables ([format.rs]) *)

Abbreviation Row := (list string).
(* src: crates/vcli-cli/src/format.rs 11-21 Table *)
Record Table := mkTable { headers : list string; table_rows : list Row }.
(* src: crates/vcli-cli/src/format.rs 24-35 Table::new *)
Definition Table_new (headers : list string) : Table := mkTable headers [].
(* src: crates/vcli-cli/src/format.rs 37-43 Table::push *)
Definition push_row (cells : Row) (t : Table) : Table :=
  mkTable (headers t) (table_rows t ++ [resize (length (headers t)) "" cells]).

(** [s.chars().count()] and [{s:<w$}]. *)
Definition width (s : string) : nat := length (chars s).
Definition spaces (n : nat) : string := String.string_of_list_ascii (repeat " "%char n).
Definition pad_right (s : string) (w : nat) : string := s +:+ spaces (w - width s).

(** Every row has as many cells as there are headers. *)
Definition column_widths (t : Table) : list nat :=
  foldl (λ ws cells, zip_with Nat.max ws (map width cells)) (map width (headers t)) (table_rows t).
Definition render_line (ws : list nat) (cells : Row) : string :=
  String.concat "  " (zip_with pad_right cells ws).
Definition newline : string := String (Ascii.ascii_of_nat 10) "".
(* src: crates/vcli-cli/src/format.rs 45-76 Table::render_pretty *)
Definition render_pretty (t : Table) : string :=
  let ws := column_widths t in
  String.concat "" (map (λ cells, render_line ws cells +:+ newline) (headers t :: table_rows t)).

(** ** What a command asks of its surroundings *)

(** The connection a dial gives, and how its other end answers. *)
Record Peer := mkPeer { peer_conn : Conn; peer_reply : Conn → list Arrival }.

Class Terminal := {
  dial : N → Path → result IoError Peer;
  fresh_request : N → RequestId;
  path_there : N → Path → bool;
  instant_ms : N → Z;
  spawn_daemon : N → result IoError ();
  exec_error : IoError;
  file_len : Path → result IoError Z;
  file_bytes : Path → result IoError bytes;
  real_path : Path → option Path;
  path_display : Path → string;
  process_env : Env;
  stdout_fault : N → option IoError;
  stderr_fault : N → option IoError;
  to_string_pretty : Value → string;
  uuid_error : string → string;
}.

(** What has been printed to standard output and to standard error, and how
    many questions have been asked. *)
Record Shell := mkShell { out : string; err_out : string; asked : N }.
Definition asking (n : N) (s : Shell) : Shell := mkShell (out s) (err_out s) (asked s + n).
Definition printing (text : string) (s : Shell) : Shell :=
  mkShell (out s +:+ text) (err_out s) (asked s).
Definition complaining (text : string) (s : Shell) : Shell :=
  mkShell (out s) (err_out s +:+ text) (asked s).

Section cli.
  Context `{NfcOps, RyuOps, UuidOps, JsonText, Host, SerdeOps, SerdeMessage, Terminal}.

Definition consult {A} (f : N → A) : ST Shell A := λ s,
  Ret (f (asked s), asking 1 s).
Definition cfail {A} (e : CliError) : ST Shell (result CliError A) := serr e.
(** [m.map_err(f)?] *)
Definition or_err {E A} (f : E → CliError) (r : result E A) : ST Shell (result CliError A) :=
  mret (map_err f r).

(** [out.write_all(text)], with the error under the name given. *)
Definition print_with (f : IoError → CliError) (text : string) : ST Shell (result CliError ()) :=
  fault ← consult stdout_fault;
  match fault with
  | Some e => cfail (f e)
  | None => _ ← modify (printing text); sok ()
  end.
Definition print (text : string) : ST Shell (result CliError ()) := print_with from_io text.
(** [serde_json::to_writer(out, v)], then the end of the line. *)
Definition print_json_line (v : Value) : ST Shell (result CliError ()) :=
  _ ←! print_with (λ e, from_json (io_message e)) (json_to_string v);
  print newline.

(** [eprintln!(text)], which panics when standard error cannot be written. *)
Definition eprintln (text : string) : ST Shell () :=
  fault ← consult stderr_fault;
  match fault with
  | Some _ => panic
  | None => modify (complaining (text +:+ newline))
  end.

(* src: crates/vcli-cli/src/format.rs 79-94 render_value *)
Definition render_value (mode : OutputMode) (pretty : string) (json : Value) : string :=
  match mode with Pretty_ => pretty | Json_ => to_string_pretty json end.

(** ** The daemon's socket ([util.rs], [client.rs]) *)

(* src: crates/vcli-cli/src/util.rs 17-29 resolve_socket *)
Definition resolve_socket (explicit : option Path) : result CliError Path :=
  match explicit with
  | Some p => Ok p
  | None => map_err (λ e, CliGeneric ("resolve socket: " +:+ IpcError_display e))
              (sp_path <$> default_socket_path process_env)
  end.

(* src: crates/vcli-ipc/src/client.rs 33-40 IpcClient::connect *)
Definition ipc_connect (socket : Path) : ST Shell (result IpcError Peer) :=
  r ← consult dial; mret (map_err IpcIo (r socket)).
(* src: crates/vcli-cli/src/client.rs 11-29 connect *)
Definition connect (socket : Path) : ST Shell (result CliError Peer) :=
  r ← ipc_connect socket;
  match r with
  | Ok c => sok c
  | Err (IpcIo NotFound) | Err (IpcIo ConnectionRefused) =>
      cfail (CliDaemonDown (path_display socket))
  | Err e => cfail (CliGeneric (IpcError_display e))
  end.

(** [client.request(op).await], with a fresh request id. *)
Definition client_request (p : Peer) (op : RequestOp) : ST Shell (result IpcError Response) :=
  id ← consult fresh_request;
  '(r, _) ← slift (request (peer_reply p) id op (peer_conn p));
  mret r.
(** [client.request_stream(op).await?] *)
Definition client_stream (p : Peer) (op : RequestOp) : ST Shell (result CliError ResponseStream) :=
  id ← consult fresh_request;
  r ← slift (request_stream (peer_reply p) id op (peer_conn p));
  or_err from_ipc r.

(** The one-shot commands up to the response. *)
Definition one_shot (socket : Path) (op : RequestOp) : ST Shell (result CliError ResponseBody) :=
  client ←! connect socket;
  resp ←! (r ← client_request client op; or_err from_ipc r);
  sok (resp_body resp).
End cli.
