(* ===== verification/CliCommands.v ===== *)
(** * The subcommands

    [vcli-cli/src/commands] and the entry point of [lib.rs], over the parts of
    [Cli]. *)

From S2P Require Import Prelude Digits Json CoreTypes Canonical Serde DslError DslValidate EventWire.
From S2P Require Import Sha256 IpcWire Host Wp Ipc Timestamp Cli.

Local Open Scope vcli_scope.

(** [v.get(key).and_then(Value::as_str)] and its kin. *)
Definition get_str (key : string) (v : Value) : option string := value_get key v ≫= value_as_str.
Definition get_u64 (key : string) (v : Value) : option Z := value_get key v ≫= value_as_u64.
Definition value_as_array (v : Value) : option (list Value) :=
  match v with Arr a => Some a | _ => None end.

Section commands.
  Context `{NfcOps, RyuOps, UuidOps, JsonText, Host, SerdeOps, SerdeMessage, Terminal}.

(** A one-shot command: a rendering of the result, or an error. *)
Definition reported (mode : OutputMode) (pretty : Value → string) (fail : ErrorPayload → CliError)
    (socket : Path) (op : RequestOp) : ST Shell (result CliError string) :=
  body ←! one_shot socket op;
  match body with
  | BodyOk result => sok (render_value mode (pretty result) result)
  | BodyErr error => cfail (fail error)
  end.

(** ** cancel, gc, health, list, resume *)

(* src: crates/vcli-cli/src/commands/cancel.rs 37-46 summary *)
Definition cancel_summary (id : string) (reason : option string) (result : Value) : string :=
  let state := default "cancelled" (get_str "state" result) in
  match reason with
  | Some r => "cancelled " +:+ id +:+ " → " +:+ state +:+ " (reason: " +:+ r +:+ ")" +:+ newline
  | None => "cancelled " +:+ id +:+ " → " +:+ state +:+ newline
  end.
(* src: crates/vcli-cli/src/commands/cancel.rs 13-35 run *)
Definition cancel_run (socket : Path) (mode : OutputMode) (program_id : ProgramId)
    (reason : option string) : ST Shell (result CliError string) :=
  reported mode (cancel_summary (ProgramId_to_string program_id) reason) from_payload socket
    (Cancel program_id).

(* src: crates/vcli-cli/src/commands/gc.rs 28-38 summary *)
Definition gc_summary (v : Value) : string :=
  "gc: ok (removed " +:+ pretty (default 0%Z (get_u64 "removed" v)) +:+ ", freed "
  +:+ pretty (default 0%Z (get_u64 "bytes_freed" v)) +:+ " bytes)" +:+ newline.
(* src: crates/vcli-cli/src/commands/gc.rs 12-26 run *)
Definition gc_run (socket : Path) (mode : OutputMode) : ST Shell (result CliError string) :=
  reported mode gc_summary from_payload socket Gc.

(* src: crates/vcli-cli/src/commands/health.rs 25-44 pretty *)
Definition health_pretty (v : Value) : string :=
  "daemon: ok" +:+ newline
  +:+ match get_str "version" v with
      | Some version => "version: " +:+ version +:+ newline
      | None => ""
      end
  +:+ match get_u64 "uptime_ms" v with
      | Some uptime => "uptime_ms: " +:+ pretty uptime +:+ newline
      | None => ""
      end
  +:+ match value_get "programs" v with
      | Some progs => "programs: " +:+ json_to_string progs +:+ newline
      | None => ""
      end
  +:+ match value_get "last_error" v with
      | Some Null | None => ""
      | Some last_err => "last_error: " +:+ json_to_string last_err +:+ newline
      end.
(* src: crates/vcli-cli/src/commands/health.rs 12-23 run *)
Definition health_run (socket : Path) (mode : OutputMode) : ST Shell (result CliError string) :=
  reported mode health_pretty from_payload socket Health.

(* src: crates/vcli-cli/src/commands/list.rs 31-51 format_table *)
Definition list_row (item : Value) : Row :=
  [default "?" (get_str "program_id" item); default "" (get_str "name" item);
   default "?" (get_str "state" item); default "" (get_str "submitted_at" item)].
(* src: crates/vcli-cli/src/commands/list.rs 28-54 format_table *)
Definition format_table (v : Value) : string :=
  let items := default [] (value_get "items" v ≫= value_as_array) in
  render_pretty (foldl (λ t item, push_row (list_row item) t)
                   (Table_new ["id"; "name"; "state"; "submitted_at"]) items).
(* src: crates/vcli-cli/src/commands/list.rs 12-26 run *)
Definition list_run (socket : Path) (mode : OutputMode) (state : option StateFilter)
    : ST Shell (result CliError string) :=
  reported mode format_table from_payload socket (List_ (as_wire <$> state)).

(* src: crates/vcli-cli/src/commands/resume.rs 41-47 summary *)
Definition resume_summary (id : string) (result : Value) : string :=
  "resumed " +:+ id +:+ " from step " +:+ pretty (default 0%Z (get_u64 "from_step" result))
  +:+ newline.
(* src: crates/vcli-cli/src/commands/resume.rs 58-63 format_msg *)
Definition format_msg (p : ErrorPayload) : string :=
  match ep_path p with
  | Some path => ep_message p +:+ " (at " +:+ path +:+ ")"
  | None => ep_message p
  end.
(* src: crates/vcli-cli/src/commands/resume.rs 49-56 map_resume_error *)
Definition map_resume_error (p : ErrorPayload) : CliError :=
  match ep_code p with
  | BadStateTransitionCode | NotResumableCode | ResumePreconditionFailed =>
      CliValidation (format_msg p)
  | _ => from_payload p
  end.
(* src: crates/vcli-cli/src/commands/resume.rs 19-39 run *)
Definition resume_run (socket : Path) (mode : OutputMode) (program_id : ProgramId)
    (from_start : bool) : ST Shell (result CliError string) :=
  reported mode (resume_summary (ProgramId_to_string program_id)) map_resume_error socket
    (Resume program_id from_start).

(** ** logs *)

(* src: crates/vcli-cli/src/commands/logs.rs 63-71 format_event_line *)
Definition format_event_line (ev : Event) : string :=
  let raw := Obj (EventData_fields (ev_data ev)) in
  format_unix_ms (ev_at ev) +:+ "  " +:+ default "event" (get_str "type" raw) +:+ "  "
  +:+ json_to_string raw +:+ newline.
(* src: crates/vcli-cli/src/commands/logs.rs 44-61 write_event *)
Definition write_event (mode : OutputMode) (frame : StreamFrame) (ev : Event)
    : ST Shell (result CliError ()) :=
  match mode with
  | Json_ => print_json_line (to_value frame)
  | Pretty_ => print (format_event_line ev)
  end.
(* src: crates/vcli-cli/src/commands/logs.rs 73-80 parse_since *)
Definition parse_since (s : option string) : result CliError (option Z) :=
  match s with
  | None => Ok None
  | Some s => match parse_rfc3339_utc s with
              | Some t => Ok (Some t)
              | None => Err (CliGeneric ("--since: unrecognized timestamp: " +:+ s))
              end
  end.

(** [while let Some(frame) = stream.next_frame().await?]: [body] says whether
    to go on. *)
Fixpoint each_frame (fuel : nat) (body : StreamFrame → ST Shell (result CliError bool))
    (stream : ResponseStream) : ST Shell (result CliError ()) :=
  match fuel with
  | O => out_of_fuel
  | S fuel =>
      '(r, stream) ← slift (next_frame stream);
      frame ←! or_err from_ipc r;
      match frame with
      | None => sok ()
      | Some frame => more ←! body frame;
                      if (more : bool) then each_frame fuel body stream else sok ()
      end
  end.

Definition older_than (since_ms : option Z) (ev : Event) : bool :=
  match since_ms with Some t => (ev_at ev <? t)%Z | None => false end.
(** One turn of the loop. *)
(* src: crates/vcli-cli/src/commands/logs.rs 34-39 run *)
Definition log_frame (mode : OutputMode) (since_ms : option Z) (frame : StreamFrame)
    : ST Shell (result CliError bool) :=
  match sf_event frame with
  | Some ev => if older_than since_ms ev then sok true
               else _ ←! write_event mode frame ev; sok true
  | None => sok true
  end.
(* src: crates/vcli-cli/src/commands/logs.rs 15-42 run *)
Definition logs_run (fuel : nat) (socket : Path) (mode : OutputMode) (program_id : ProgramId)
    (follow : bool) (since : option string) : ST Shell (result CliError ()) :=
  client ←! connect socket;
  stream ←! client_stream client (Logs program_id follow);
  since_ms ←! mret (parse_since since);
  each_frame fuel (log_frame mode since_ms) stream.

(** ** submit *)

(* src: crates/vcli-cli/src/util.rs 13-15 MAX_PROGRAM_BYTES *)
Definition MAX_PROGRAM_BYTES : Z := 2 * 1024 * 1024.
(* src: crates/vcli-cli/src/util.rs 31-50 read_program_file *)
Definition read_program_file (path : Path) : result CliError Value :=
  len ← map_err (λ e, CliGeneric ("stat " +:+ path_display path +:+ ": " +:+ io_message e))
          (file_len path);
  if (MAX_PROGRAM_BYTES <? len)%Z then
    Err (CliGeneric ("program file too large: " +:+ pretty len +:+ " bytes (max "
                     +:+ pretty MAX_PROGRAM_BYTES +:+ ")"))
  else
    b ← map_err (λ e, CliGeneric ("read " +:+ path_display path +:+ ": " +:+ io_message e))
          (file_bytes path);
    map_err (λ e, CliValidation ("invalid JSON in " +:+ path_display path +:+ ": " +:+ e))
      (json_from_str (string_of_bytes b)).

(* src: crates/vcli-cli/src/commands/submit.rs 129-131 format_dsl_error *)
Definition format_dsl_error (e : DslError) : string :=
  "local preflight: " +:+ DslErrorKind_to_string (kind e) +:+ " at " +:+ path_to_string (path e).
(* src: crates/vcli-cli/src/commands/submit.rs 69-76 extract_program_id *)
Definition extract_program_id (v : Value) : result CliError ProgramId :=
  s ← ok_or (get_str "program_id" v)
        (CliGeneric ("daemon response missing program_id: " +:+ json_to_string v));
  ok_or (ProgramId_from_str s)
    (CliGeneric ("daemon returned malformed program_id: " +:+ uuid_error s)).
(* src: crates/vcli-cli/src/commands/submit.rs 121-127 is_terminal *)
Definition is_terminal (ev : Event) : bool :=
  match ev_data ev with
  | ProgramCompleted _ _ | ProgramFailed _ _ _ _ => true
  | ProgramStateChanged _ _ to _ => bool_decide (to = Cancelled)
  | _ => false
  end.
(* src: crates/vcli-cli/src/commands/submit.rs 102-119 emit *)
Definition emit_event (mode : OutputMode) (ev : Event) : ST Shell (result CliError ()) :=
  match mode with
  | Json_ => print_json_line (Event_to_value ev)
  | Pretty_ => print (format_event_line ev)
  end.
(* src: crates/vcli-cli/src/commands/submit.rs 91-98 watch_until_terminal *)
Definition watch_frame (mode : OutputMode) (frame : StreamFrame)
    : ST Shell (result CliError bool) :=
  match sf_event frame with
  | Some ev => _ ←! emit_event mode ev; sok (negb (is_terminal ev))
  | None => sok true
  end.
(* src: crates/vcli-cli/src/commands/submit.rs 78-100 watch_until_terminal *)
Definition watch_until_terminal (fuel : nat) (socket : Path) (mode : OutputMode) (id : ProgramId)
    : ST Shell (result CliError ()) :=
  client ←! connect socket;
  stream ←! client_stream client (Logs id true);
  each_frame fuel (watch_frame mode) stream.

Definition ends_line (s : string) : bool :=
  match strip_final (Ascii.ascii_of_nat 10) s with Some _ => true | None => false end.
(** What is printed, and a newline if there is none at its end. *)
(* src: crates/vcli-cli/src/commands/submit.rs 53-57 run *)
Definition print_lines (rendered : string) : ST Shell (result CliError ()) :=
  _ ←! print rendered;
  if ends_line rendered then sok () else print newline.

(* src: crates/vcli-cli/src/commands/submit.rs 27-67 run *)
Definition submit_run (fuel : nat) (socket : Path) (mode : OutputMode) (file : Path)
    (watch : bool) : ST Shell (result CliError ()) :=
  program ←! mret (read_program_file file);
  v ← slift (validate_value program);
  match v with
  | Err e => cfail (CliValidation (format_dsl_error e))
  | Ok _ =>
      let base_dir := p ← real_path file; path_display <$> path_parent p in
      body ←! one_shot socket (Submit program base_dir);
      match body with
      | BodyErr error => cfail (from_payload error)
      | BodyOk result =>
          id ←! mret (extract_program_id result);
          _ ←! print_lines (render_value mode (ProgramId_to_string id +:+ newline) result);
          if watch then watch_until_terminal fuel socket mode id else sok ()
      end
  end.

(** ** daemon *)

(* src: crates/vcli-cli/src/commands/daemon.rs 16-16 DAEMON_BINARY *)
Definition DAEMON_BINARY : string := "vcli-daemon".

(** [path.exists()] *)
Definition exists_at (path : Path) : ST Shell bool := consult (λ n, path_there n path).

(** [while Instant::now() < deadline]: poll every 50 ms whether the socket is
    ([want]) or is no longer there. *)
(* src: crates/vcli-cli/src/commands/daemon.rs 70-79 wait_for_socket *)
Fixpoint poll_socket (fuel : nat) (want : bool) (path : Path) (deadline : Z) (late : CliError)
    : ST Shell (result CliError ()) :=
  match fuel with
  | O => out_of_fuel
  | S fuel =>
      now ← consult instant_ms;
      if (now <? deadline)%Z then
        there ← exists_at path;
        if Bool.eqb there want then sok () else poll_socket fuel want path deadline late
      else cfail late
  end.
(* src: crates/vcli-cli/src/commands/daemon.rs 68-80 wait_for_socket *)
Definition wait_for_socket (fuel : nat) (path : Path) (timeout : Z)
    : ST Shell (result CliError ()) :=
  now ← consult instant_ms;
  poll_socket fuel true path (now + timeout)
    (CliGeneric ("timed out waiting for " +:+ path_display path +:+ " to appear")).
(* src: crates/vcli-cli/src/commands/daemon.rs 135-147 wait_for_socket_gone *)
Definition wait_for_socket_gone (fuel : nat) (path : Path) (timeout : Z)
    : ST Shell (result CliError ()) :=
  now ← consult instant_ms;
  poll_socket fuel false path (now + timeout)
    (CliGeneric ("timed out waiting for " +:+ path_display path +:+ " to disappear")).

(* src: crates/vcli-cli/src/commands/daemon.rs 36-49 start *)
Definition daemon_start (fuel : nat) (socket : Path) (mode : OutputMode)
    : ST Shell (result CliError ()) :=
  there ← exists_at socket;
  if (there : bool) then
    print (render_value mode ("daemon already running" +:+ newline)
             (Obj [("started", Bool false); ("reason", Str "already_running")]))
  else
    _ ←! (r ← consult spawn_daemon;
          or_err (λ e, CliGeneric ("spawn daemon: " +:+ io_message e)) r);
    _ ←! wait_for_socket fuel socket 5000;
    print (render_value mode ("daemon started" +:+ newline)
             (Obj [("started", Bool true); ("socket", Str (path_display socket))])).
(** [exec] returns only to report an error. *)
(* src: crates/vcli-cli/src/commands/daemon.rs 51-55 run_foreground *)
Definition run_foreground : ST Shell (result CliError ()) :=
  cfail (CliGeneric ("exec " +:+ DAEMON_BINARY +:+ ": " +:+ io_message exec_error)).

(** Whether it runs, and the details. *)
(* src: crates/vcli-cli/src/commands/daemon.rs 83-100 status *)
Definition daemon_probe (socket : Path) : ST Shell (result CliError (bool * Value)) :=
  there ← exists_at socket;
  if (there : bool) then
    c ← connect socket;
    match c with
    | Ok c =>
        r ← client_request c Health;
        sok match r with
            | Ok resp => match resp_body resp with
                         | BodyOk result => (true, result)
                         | BodyErr error => (true, Obj [("error", Str (ep_message error))])
                         end
            | Err e => (false, Obj [("error", Str (IpcError_display e))])
            end
    | Err (CliDaemonDown _) => sok (false, Null)
    | Err e => cfail e
    end
  else sok (false, Null).
(* src: crates/vcli-cli/src/commands/daemon.rs 82-117 status *)
Definition daemon_status (socket : Path) (mode : OutputMode) : ST Shell (result CliError ()) :=
  found ←! daemon_probe socket;
  let '(running, detail) := found in
  let json := Obj [("running", Bool running); ("socket", Str (path_display socket));
                   ("detail", detail)] in
  let pretty := (if (running : bool) then "running" else "not running") +:+ newline
                +:+ "socket: " +:+ path_display socket +:+ newline in
  print_lines (render_value mode pretty json).

(* src: crates/vcli-cli/src/commands/daemon.rs 119-133 stop *)
Definition daemon_stop (fuel : nat) (socket : Path) (mode : OutputMode)
    : ST Shell (result CliError ()) :=
  there ← exists_at socket;
  if negb there then
    print (render_value mode ("daemon not running" +:+ newline)
             (Obj [("stopped", Bool false); ("reason", Str "not_running")]))
  else
    client ←! connect socket;
    _ ← client_request client Shutdown;
    _ ←! wait_for_socket_gone fuel socket 5000;
    print (render_value mode ("stopped" +:+ newline) (Obj [("stopped", Bool true)])).

(* src: crates/vcli-cli/src/commands/daemon.rs 18-34 run *)
Definition daemon_run (fuel : nat) (socket : Path) (mode : OutputMode) (cmd : DaemonCommand)
    : ST Shell (result CliError ()) :=
  match cmd with
  | DStatus => daemon_status socket mode
  | DStop => daemon_stop fuel socket mode
  | DStart => daemon_start fuel socket mode
  | DRun => run_foreground
  end.

(** ** The entry point ([lib.rs]) *)

(* src: crates/vcli-cli/src/lib.rs 67-105 run_async *)
Definition run_async (fuel : nat) (cli : Cli) : ST Shell (result CliError ()) :=
  socket ←! mret (resolve_socket (cli_socket cli));
  let mode := output_mode cli in
  match cli_command cli with
  | CSubmit file watch => submit_run fuel socket mode file watch
  | CList state => s ←! list_run socket mode state; print s
  | CCancel id reason => s ←! cancel_run socket mode id reason; print s
  | CLogs id follow since => logs_run fuel socket mode id follow since
  | CResume id from_start => s ←! resume_run socket mode id from_start; print s
  | CDaemon sub => daemon_run fuel socket mode sub
  | CHealth => s ←! health_run socket mode; print s
  | CGc => s ←! gc_run socket mode; print s
  end.

(** [clap]'s error: whether it is one, or help or the version was asked for,
    and its text as [clap] renders it. *)
Record ClapError := mkClapError { asks_help : bool; clap_text : string }.
(** [let _ = e.print()]: help and the version go to standard output, errors to
    standard error; a stream that cannot be written is ignored. *)
(* src: crates/vcli-cli/src/lib.rs 41-41 run *)
Definition clap_print (e : ClapError) : ST Shell () :=
  fault ← consult (if asks_help e then stdout_fault else stderr_fault);
  match fault with
  | Some _ => mret ()
  | None => modify ((if asks_help e then printing else complaining) (clap_text e))
  end.

(** [parsed] is what [clap] makes of the arguments, [runtime] the outcome of
    building the executor. *)
(* src: crates/vcli-cli/src/lib.rs 27-65 run *)
Definition run (fuel : nat) (parsed : result ClapError Cli) (runtime : result string ())
    : ST Shell Z :=
  match parsed with
  | Err e =>
      let code := if asks_help e then Success else GenericCode in
      _ ← clap_print e;
      mret (exit_status code)
  | Ok cli =>
      match runtime with
      | Err e =>
          _ ← eprintln ("vcli: tokio runtime init failed: " +:+ e);
          mret (exit_status GenericCode)
      | Ok _ =>
          result ← run_async fuel cli;
          match result with
          | Ok _ => mret (exit_status Success)
          | Err e =>
              _ ← eprintln ("vcli: " +:+ CliError_display e);
              mret (exit_status (exit_code e))
          end
      end
  end.
End commands.
