(* ===== verification/CliSpec.v ===== *)
(** * What the command line reports

    The contract of the one-shot commands, from the arguments to the exit code
    and both output streams, through the transport and a handler; and what
    [logs] prints of a stream of frames. *)

From S2P Require Import Prelude Digits Json CoreTypes Canonical Serde DslError DslValidate EventWire.
From S2P Require Import Sha256 IpcWire Host Wp Ipc IpcSpec Timestamp Cli CliCommands.

Local Open Scope vcli_scope.

(** ** Running code that only asks and prints *)

Section shell.
Context `{NfcOps, RyuOps, UuidOps, JsonText, Host, SerdeOps, SerdeMessage, Terminal}.

(** Nothing is wrong with standard output, or with standard error. *)
Definition stdout_works : Prop := ∀ n, stdout_fault n = None.
Definition stderr_works : Prop := ∀ n, stderr_fault n = None.

Lemma print_with_works f text s :
  stdout_works → print_with f text s = Ret (Ok (), printing text (asking 1 s)).
Proof. intros Hout. unfold print_with, consult, mbind, ST_bind. simpl. by rewrite Hout. Qed.
Lemma print_json_line_works v s :
  stdout_works →
  print_json_line v s = Ret (Ok (), printing (json_to_string v +:+ newline) (asking 2 s)).
Proof.
  intros Hout. unfold print_json_line. erewrite sbind_step by by apply print_with_works.
  unfold print. rewrite print_with_works by done. unfold printing, asking. simpl.
  by rewrite string_append_assoc, <-N.add_assoc.
Qed.

(** How a run ends: nothing on standard error, or the message of the error on
    a line of its own, for which one question is asked. *)
Lemma run_ok fuel cli s s' :
  run_async fuel cli s = Ret (Ok (), s') → run fuel (Ok cli) (Ok ()) s = Ret (0%Z, s').
Proof. intros Hrun. unfold run. by rewrite (ST_bind_step _ _ _ _ _ Hrun). Qed.
Lemma run_err fuel cli s e s' :
  stderr_works → run_async fuel cli s = Ret (Err e, s') →
  run fuel (Ok cli) (Ok ()) s
  = Ret (exit_status (exit_code e),
         complaining ("vcli: " +:+ CliError_display e +:+ newline) (asking 1 s')).
Proof.
  intros Herr Hrun. unfold run. rewrite (ST_bind_step _ _ _ _ _ Hrun).
  unfold eprintln, consult, mbind, ST_bind. simpl. rewrite Herr. simpl.
  by rewrite string_append_assoc.
Qed.

(** ** One-shot commands *)

(** What a one-shot command sends, how it shows the result, and which error
    it makes of a refusal. *)
Definition one_shot_of (c : Command)
    : option (RequestOp * (Value → string) * (ErrorPayload → CliError)) :=
  match c with
  | CCancel id reason =>
      Some (Cancel id, cancel_summary (ProgramId_to_string id) reason, from_payload)
  | CGc => Some (Gc, gc_summary, from_payload)
  | CHealth => Some (Health, health_pretty, from_payload)
  | CList state => Some (List_ (as_wire <$> state), format_table, from_payload)
  | CResume id from_start =>
      Some (Resume id from_start, resume_summary (ProgramId_to_string id), map_resume_error)
  | CSubmit _ _ | CLogs _ _ _ | CDaemon _ => None
  end.

Lemma run_one_shot fuel cli socket op pretty fail :
  one_shot_of (cli_command cli) = Some (op, pretty, fail) →
  resolve_socket (cli_socket cli) = Ok socket →
  run_async fuel cli
  = s ←! reported (output_mode cli) pretty fail socket op; print s.
Proof.
  intros Hop Hsock. unfold run_async. rewrite Hsock.
  destruct cli as [sock json c]; destruct c; simplify_eq/=; done.
Qed.

Lemma connect_down socket e s :
  dial (asked s) socket = Err e → e = NotFound ∨ e = ConnectionRefused →
  connect socket s = Ret (Err (CliDaemonDown (path_display socket)), asking 1 s).
Proof.
  intros Hdial He. unfold connect, ipc_connect, consult, mbind, ST_bind. simpl. rewrite Hdial.
  by destruct He as [-> | ->].
Qed.
Lemma connect_up socket p s :
  dial (asked s) socket = Ok p → connect socket s = Ret (Ok p, asking 1 s).
Proof.
  intros Hdial. unfold connect, ipc_connect, consult, mbind, ST_bind. simpl. by rewrite Hdial.
Qed.

(** What a one-shot command makes of an error, and of an answer. *)
Lemma one_shot_fails fuel cli socket op pretty fail e s s' :
  one_shot_of (cli_command cli) = Some (op, pretty, fail) →
  resolve_socket (cli_socket cli) = Ok socket →
  one_shot socket op s = Ret (Err e, s') → run_async fuel cli s = Ret (Err e, s').
Proof.
  intros Hop Hsock Hone. rewrite (run_one_shot _ _ _ _ _ _ Hop Hsock).
  apply sbind_stop. unfold reported. by apply sbind_stop.
Qed.
Lemma one_shot_reports fuel cli socket op pretty fail body s s' :
  one_shot_of (cli_command cli) = Some (op, pretty, fail) →
  resolve_socket (cli_socket cli) = Ok socket → stdout_works →
  one_shot socket op s = Ret (Ok body, s') →
  run_async fuel cli s
  = match body with
    | BodyOk v => Ret (Ok (), printing (render_value (output_mode cli) (pretty v) v) (asking 1 s'))
    | BodyErr p => Ret (Err (fail p), s')
    end.
Proof.
  intros Hop Hsock Hout Hone. rewrite (run_one_shot _ _ _ _ _ _ Hop Hsock). destruct body as [v|p].
  - rewrite (sbind_step _ _ s (render_value (output_mode cli) (pretty v) v) s').
    + by apply print_with_works.
    + unfold reported. by rewrite (sbind_step _ _ _ _ _ Hone).
  - apply sbind_stop. unfold reported. by rewrite (sbind_step _ _ _ _ _ Hone).
Qed.
End shell.

Section contract.
Context `{NfcOps, RyuOps, UuidOps, JsonText, Host, SerdeOps, SerdeMessage, Terminal}.
Context `{Handler St, !UuidLaws, !JsonTextLaws}.
Variable deliver : bytes → list Arrival.
Hypothesis deliver_clean : ∀ b, clean (deliver b).
Hypothesis deliver_content : ∀ b, content (deliver b) = b.
#[local] Set Default Proof Using "All".

(** The daemon [h] behind the socket. *)
Definition listening (fresh : RequestId) (h : St) : Peer :=
  mkPeer (new_conn []) (answering_server deliver fresh h).

Lemma one_shot_request s socket op fresh h r :
  let id := fresh_request (asked s + 1) in
  dial (asked s) socket = Ok (listening fresh h) →
  (∃ c', request (answering_server deliver fresh h) id op (new_conn []) = Ret (r, c')) →
  one_shot socket op s
  = Ret (match r with Ok resp => Ok (resp_body resp) | Err e => Err (from_ipc e) end, asking 2 s).
Proof.
  intros id Hdial [c' Hreq]. unfold one_shot.
  rewrite (sbind_step _ _ _ (listening fresh h) (asking 1 s)) by by apply connect_up.
  assert (client_request (listening fresh h) op (asking 1 s) = Ret (r, asking 2 s)) as Hask.
  { unfold client_request, consult, slift, mbind, ST_bind. simpl. fold id. rewrite Hreq. simpl.
    unfold asking. simpl. by rewrite <-N.add_assoc. }
  destruct r as [resp|e].
  - rewrite (sbind_step _ _ _ resp (asking 2 s)); [done|]. by rewrite (ST_bind_step _ _ _ _ _ Hask).
  - rewrite (sbind_stop _ _ _ (from_ipc e) (asking 2 s)); [done|].
    by rewrite (ST_bind_step _ _ _ _ _ Hask).
Qed.

(** The requests of the one-shot commands hold nothing that would not arrive. *)
Lemma one_shot_arrives c op pretty fail id :
  one_shot_of c = Some (op, pretty, fail) → arrives (mkRequest id op) (mkRequest id op).
Proof. intros Hop. apply arrives_wf. by destruct c; simplify_eq/=. Qed.

(** C24: The contract of [cancel], [gc], [health], [list] and [resume].  When
    no daemon listens the exit code is 4, nothing is printed to standard
    output, and standard error has one line that names the socket.  When one
    does, whatever pieces the network delivers, it handles the command's
    request, and its response comes back as the text of it reads ([arrives]):
    a result is printed (as JSON, or the command's own rendering) and the code
    is 0; a refusal prints nothing to standard output and its message to
    standard error, and the code is the one of the error the command makes of
    the daemon's: 2 for an invalid program, 3 for an unknown one, 2 also where
    [resume] is refused by state, 1 otherwise.  A response over the frame limit
    is lost: the code is 1.  Standard output and standard error can be
    written, the request is within the limit, and the daemon answers under the
    request's id. *)
Theorem one_shot_contract fuel cli socket op pretty fail s :
  one_shot_of (cli_command cli) = Some (op, pretty, fail) →
  resolve_socket (cli_socket cli) = Ok socket → stdout_works → stderr_works →
  (∀ e, dial (asked s) socket = Err e → e = NotFound ∨ e = ConnectionRefused →
     ∃ s', run fuel (Ok cli) (Ok ()) s = Ret (4%Z, s') ∧ out s' = out s ∧
       err_out s' = err_out s +:+ "vcli: daemon not running (socket: " +:+ path_display socket
                    +:+ ")" +:+ newline) ∧
  (∀ fresh h a h1,
     let id := fresh_request (asked s + 1) in
     dial (asked s) socket = Ok (listening fresh h) →
     fits (mkRequest id op) → is_streaming op = false → handle id op h = Ret (a, h1) →
     (fits (answer id a) → ∀ resp, arrives (answer id a) resp → resp_id resp = id →
        ∃ s', run fuel (Ok cli) (Ok ()) s
              = Ret (match resp_body resp with
                     | BodyOk _ => 0%Z
                     | BodyErr p => exit_status (exit_code (fail p))
                     end, s') ∧
          out s' = out s +:+ match resp_body resp with
                             | BodyOk v => render_value (output_mode cli) (pretty v) v
                             | BodyErr _ => ""
                             end ∧
          err_out s' = err_out s +:+ match resp_body resp with
                                     | BodyOk _ => ""
                                     | BodyErr p => "vcli: " +:+ CliError_display (fail p) +:+ newline
                                     end) ∧
     (¬ fits (answer id a) →
        ∃ s', run fuel (Ok cli) (Ok ()) s = Ret (1%Z, s') ∧ out s' = out s ∧
          err_out s' = err_out s +:+ "vcli: " +:+ IpcError_display (UnexpectedEof 0 4)
                       +:+ newline)) ∧
  (∀ p, exit_status (exit_code (fail p)) =
     match ep_code p with
     | InvalidProgram => 2
     | UnknownProgramCode => 3
     | BadStateTransitionCode | NotResumableCode | ResumePreconditionFailed =>
         match op with Resume _ _ => 2 | _ => 1 end
     | _ => 1
     end%Z).
Proof.
  intros Hop Hsock Hout Herr. split; [|split].
  - intros e Hdial He.
    assert (one_shot socket op s = Ret (Err (CliDaemonDown (path_display socket)), asking 1 s)) as Hone.
    { unfold one_shot. erewrite sbind_stop; [reflexivity|]. by eapply connect_down. }
    apply (one_shot_fails fuel cli _ _ _ _ _ _ _ Hop Hsock) in Hone.
    eexists. split; [exact (run_err _ _ _ _ _ Herr Hone)|]. split; [done|].
    simpl. by rewrite <-?string_append_assoc.
  - intros fresh h a h1 id Hdial Hfit Hs Hh.
    pose proof (one_shot_arrives _ _ _ _ id Hop) as Harr. split.
    + intros Hafit resp Hresp Hid.
      assert (one_shot socket op s = Ret (Ok (resp_body resp), asking 2 s)) as Hone.
      { apply (one_shot_request s socket op fresh h (Ok resp) Hdial). fold id.
        destruct (request_oneshot deliver deliver_clean deliver_content fresh id op
          (mkRequest id op) h a h1 resp Harr Hfit Hs Hh Hresp Hafit) as [c' Hreq].
        exists c'. rewrite Hreq. unfold check_response. by rewrite bool_decide_true. }
      pose proof (one_shot_reports fuel cli _ _ _ _ _ _ _ Hop Hsock Hout Hone) as Hrun.
      destruct (resp_body resp) as [v|p]; eexists;
        (split; [first [exact (run_ok _ _ _ _ Hrun)|exact (run_err _ _ _ _ _ Herr Hrun)]|]);
        simpl; by rewrite string_append_nil_r.
    + intros Hafit.
      assert (one_shot socket op s = Ret (Err (from_ipc (UnexpectedEof 0 4)), asking 2 s)) as Hone.
      { apply (one_shot_request s socket op fresh h (Err (UnexpectedEof 0 4)) Hdial). fold id.
        by eapply (request_too_large deliver deliver_clean deliver_content fresh id op
          (mkRequest id op) h a h1). }
      apply (one_shot_fails fuel cli _ _ _ _ _ _ _ Hop Hsock) in Hone.
      eexists. split; [exact (run_err _ _ _ _ _ Herr Hone)|done].
  - intros p. destruct (cli_command cli); simplify_eq/=; unfold map_resume_error, from_payload;
      by destruct (ep_code p).
Qed.
End contract.

(** ** Streams *)

Section streams.
Context `{NfcOps, RyuOps, UuidOps, JsonText, Host, SerdeOps, SerdeMessage, Terminal}.

(** The loop over a list of frames. *)
Fixpoint visit (body : StreamFrame → ST Shell (result CliError bool)) (fs : list StreamFrame)
    : ST Shell (result CliError ()) :=
  match fs with
  | [] => sok ()
  | f :: fs => more ←! body f; if (more : bool) then visit body fs else sok ()
  end.

(** On a stream that yields [fs] and ends, the loop visits [fs]. *)
Lemma each_frame_visits body fuel stream fs stream' s :
  collect fuel stream = Ret (Ok fs, stream') → each_frame fuel body stream s = visit body fs s.
Proof.
  revert stream fs s. induction fuel as [|fuel IH]; intros stream fs s Hc; [done|].
  cbn [collect] in Hc. apply sbind_Ok in Hc as (o & st & Hnext & Hc).
  cbn [each_frame]. rewrite (ST_bind_step _ _ s (Ok o, st) s) by (unfold slift; by rewrite Hnext).
  cbv beta iota. rewrite (sbind_step _ _ s o s) by done. destruct o as [f|].
  - apply sbind_Ok in Hc as (fs' & st' & Hc & Hret). injection Hret as <- <-. cbn [visit].
    unfold sbind, mbind, ST_bind. destruct (body f s) as [[[[]|e] s1]| |]; simpl; try done.
    by apply IH.
  - by injection Hc as <- <-.
Qed.

(** The events that are not older than the time given; the line a frame is
    printed as, and the lines of those with such an event. *)
Definition recent (since : option Z) (ev : Event) : bool :=
  match since with Some t => (t <=? ev_at ev)%Z | None => true end.
Definition log_line (mode : OutputMode) (f : StreamFrame) (ev : Event) : string :=
  match mode with
  | Json_ => json_to_string (to_value f) +:+ newline
  | Pretty_ => format_event_line ev
  end.
Definition log_lines (mode : OutputMode) (since : option Z) (fs : list StreamFrame) : list string :=
  omap (λ f, ev ← sf_event f; if recent since ev then Some (log_line mode f ev) else None) fs.

Lemma concat_cons (x : string) l : String.concat "" (x :: l) = x +:+ String.concat "" l.
Proof. destruct l; [|done]. simpl. by rewrite string_append_nil_r. Qed.

Lemma write_event_works mode f ev s :
  stdout_works → ∃ n, write_event mode f ev s = Ret (Ok (), printing (log_line mode f ev) (asking n s)).
Proof.
  intros Hout. destruct mode; [exists 1%N; by apply print_with_works|].
  exists 2%N. by apply print_json_line_works.
Qed.
Lemma older_recent since ev : older_than since ev = negb (recent since ev).
Proof. destruct since; [|done]. simpl. apply Z.ltb_antisym. Qed.

Lemma visit_logs mode since fs s :
  stdout_works →
  ∃ n, visit (log_frame mode since) fs s
       = Ret (Ok (), printing (String.concat "" (log_lines mode since fs)) (asking n s)).
Proof.
  intros Hout. revert s. induction fs as [|f fs IH]; intros s; cbn [visit].
  { exists 0%N. unfold sok, mret, ST_ret, printing, asking. simpl.
    rewrite string_append_nil_r, N.add_0_r. by destruct s. }
  unfold log_lines. cbn [omap list_omap]. fold (log_lines mode since fs).
  unfold log_frame at 1. destruct (sf_event f) as [ev|]; cbn [mbind option_bind].
  2: { destruct (IH s) as [n Hn]. exists n. by rewrite (sbind_step _ _ _ true s). }
  rewrite older_recent. destruct (recent since ev); cbn [negb].
  2: { destruct (IH s) as [n Hn]. exists n. by rewrite (sbind_step _ _ _ true s). }
  destruct (write_event_works mode f ev s Hout) as [k Hk].
  destruct (IH (printing (log_line mode f ev) (asking k s))) as [n Hn]. exists (k + n)%N.
  rewrite (sbind_step _ _ s true (printing (log_line mode f ev) (asking k s))).
  - cbv iota. rewrite Hn, concat_cons. unfold printing, asking. simpl.
    by rewrite string_append_assoc, N.add_assoc.
  - by rewrite (sbind_step _ _ _ _ _ Hk).
Qed.
End streams.

Section stream_commands.
Context `{NfcOps, RyuOps, UuidOps, JsonText, Host, SerdeOps, SerdeMessage, Terminal}.
Context `{Handler St, !UuidLaws, !JsonTextLaws}.
Variable deliver : bytes → list Arrival.
Hypothesis deliver_clean : ∀ b, clean (deliver b).
Hypothesis deliver_content : ∀ b, content (deliver b) = b.
#[local] Set Default Proof Using "All".

(** The handler's answer to a streaming request, all of it fit to be sent; the
    frames arrive as [gs]. *)
Record pushes (id : RequestId) (op : RequestOp) (h : St) (gs : list StreamFrame) : Prop := {
  push_wf : wire_wf (mkRequest id op);
  push_fits : fits (mkRequest id op);
  push_streams : is_streaming op = true;
  push_frames : ∃ fs h1, handle_stream id op h = Ret (fs, h1) ∧ Forall2 (frame_arrives id) fs gs;
  push_end : fits (StreamFrame_end_of_stream id (stream_kind op));
}.

(** Connecting and asking for a stream gives one that yields those frames. *)
Lemma stream_opens s socket op fresh h gs fuel :
  dial (asked s) socket = Ok (listening deliver fresh h) →
  pushes (fresh_request (asked s + 1)) op h gs → length gs < fuel →
  ∃ stream stream',
    (client ←! connect socket; client_stream client op) s = Ret (Ok stream, asking 2 s) ∧
    collect fuel stream = Ret (Ok gs, stream').
Proof.
  intros Hdial [Hwf Hfit Hs (fs & h1 & Hh & Hgood) Hend] Hfuel.
  rewrite <-(Forall2_length _ _ _ Hgood) in Hfuel.
  destruct (request_streaming deliver deliver_clean deliver_content fresh _ op _ h fs gs h1 fuel
    (arrives_wf _ Hwf) Hfit Hs Hh eq_refl Hgood Hend Hfuel) as (stream & stream' & Hreq & Hcollect & _).
  exists stream, stream'. split; [|done].
  rewrite (sbind_step _ _ _ (listening deliver fresh h) (asking 1 s)) by by apply connect_up.
  unfold client_stream, consult, slift, or_err, mbind, ST_bind. simpl. rewrite Hreq. simpl.
  unfold asking. simpl. by rewrite <-N.add_assoc.
Qed.

(** C28: [logs] prints, in order, exactly those of the frames the daemon pushes
    whose event is not older than [--since], each on a line: with [--json] the
    frame as JSON, else the event's own line; then it exits with code 0.  A
    timestamp it cannot read is an error: nothing is printed to standard
    output, its message to standard error, and the code is 1.  The daemon
    answers ([pushes]: the frames as their texts read, under the request's id,
    within the frame limit), standard output and standard error can be
    written, and the stream has fewer frames than [fuel]. *)
Theorem logs_prints_since fuel cli socket program_id follow since fresh h fs s :
  cli_command cli = CLogs program_id follow since →
  resolve_socket (cli_socket cli) = Ok socket → stdout_works → stderr_works →
  dial (asked s) socket = Ok (listening deliver fresh h) →
  pushes (fresh_request (asked s + 1)) (Logs program_id follow) h fs → length fs < fuel →
  ∃ code s', run fuel (Ok cli) (Ok ()) s = Ret (code, s') ∧
    match parse_since since with
    | Ok t => code = 0%Z ∧ err_out s' = err_out s ∧
        out s' = out s +:+ String.concat "" (log_lines (output_mode cli) t fs)
    | Err _ => code = 1%Z ∧ out s' = out s ∧
        err_out s' = err_out s +:+ "vcli: --since: unrecognized timestamp: "
                     +:+ default "" since +:+ newline
    end.
Proof.
  intros Hcmd Hsock Hout Herr Hdial Hpush Hfuel.
  destruct (stream_opens s socket _ fresh h fs fuel Hdial Hpush Hfuel)
    as (stream & stream' & Hopen & Hcollect).
  assert (run_async fuel cli s =
    sbind (mret (parse_since since))
      (λ t, each_frame fuel (log_frame (output_mode cli) t) stream) (asking 2 s)) as Hrun.
  { unfold run_async. rewrite Hsock, Hcmd. unfold logs_run.
    revert Hopen. unfold sbind at 1 2 3 4. unfold mbind, ST_bind. simpl.
    destruct (connect socket s) as [[[client|e] s0]| |]; try done. simpl. intros Hopen.
    by rewrite Hopen. }
  destruct (parse_since since) as [t|e] eqn:Ht.
  - rewrite (sbind_step _ _ _ t (asking 2 s)) in Hrun by done.
    rewrite (each_frame_visits _ _ _ _ _ _ Hcollect) in Hrun.
    destruct (visit_logs (output_mode cli) t fs (asking 2 s) Hout) as [n Hn]. rewrite Hn in Hrun.
    eexists _, _. split; [by apply run_ok|]. done.
  - rewrite (sbind_stop _ _ _ e (asking 2 s)) in Hrun by done.
    eexists _, _. split; [exact (run_err _ _ _ _ _ Herr Hrun)|].
    unfold parse_since in Ht. destruct since as [t|]; [|done].
    destruct (parse_rfc3339_utc t); [done|]. injection Ht as <-. split; [done|]. split; [done|].
    simpl. by rewrite <-?string_append_assoc.
Qed.
End stream_commands.
