(* ===== verification/CliDaemon.v ===== *)
(** * The command line against the daemon

    What [vcli] makes of the daemon's own answers, how long its daemon
    commands wait, what a failed preflight asks of the daemon, and the shape of
    the tables. *)

From S2P Require Import Prelude Digits Json CoreTypes Canonical Serde DslError DslValidate EventWire.
From S2P Require Import Sha256 IpcWire Host Wp Store Ipc IpcSpec Materialize Daemon.
From S2P Require Import Timestamp Cli CliCommands CliSpec.

Local Open Scope vcli_scope.

(** ** Fields the two sides do not agree on *)

Section fields.
Context `{NfcOps, RyuOps, UuidOps, JsonText, Host, Sha2, DaemonHost, SerdeOps, SerdeMessage}.
Context `{Surroundings, Subscriptions, OpDebug}.

(** The rows of the table [list] shows. *)
Definition listed (v : Value) : list Row :=
  map list_row (default [] (value_get "items" v ≫= value_as_array)).

Lemma locked_task_Some {A} (m : ST Store A) d a d' :
  locked_task m d = Ret (Some a, d') → ∃ s s', d_store d = Some s ∧ m s = Ret (a, s').
Proof using.
  unfold locked_task. destruct (d_store d) as [s|]; [|done].
  destruct (m s) as [[a' s']| |] eqn:Hm; [|done..]. intros [= -> _]. by exists s, s'.
Qed.

(** The command line does not understand two of the daemon's answers.
    Whatever a collection deleted, [gc] reports [removed 0, freed 0 bytes],
    because it looks for fields the daemon does not send; and [list] leaves
    the column of submission times empty in every row, because it expects a
    text where the daemon sends a number.  The other columns are those of the
    rows of the store, in its order. *)
Theorem gc_and_list_misread id d resp d' v :
  resp_body resp = BodyOk v →
  (handle_gc id d = Ret (resp, d') →
     gc_summary v = "gc: ok (removed 0, freed 0 bytes)" +:+ newline ∧
     ∃ s s' r cutoff, d_store d = Some s ∧ gc_all cutoff s = Ret (Ok r, s')) ∧
  (∀ state, handle_list id state d = Ret (resp, d') →
     ∃ s s' rows, d_store d = Some s ∧
       list_programs (s ← state; ProgramState_from_str s) s = Ret (Ok rows, s') ∧
       listed v = map (λ r, [ProgramId_to_string (pr_id r); pr_name r;
                             ProgramState_as_str (pr_state r); ""]) rows).
Proof.
  intros Hbody. split.
  - unfold handle_gc. intros (now & d1 & Hnow & Hrun)%ST_bind_Ret. cbv zeta in Hrun.
    apply ST_bind_Ret in Hrun as (report & d2 & Hgc & Hret). injection Hret as <- _.
    destruct report as [[r|e]|]; [|done..]. injection Hbody as <-. split; [done|].
    apply locked_task_Some in Hgc as (s & s' & Hs & Hgc). injection Hnow as _ <-.
    eexists s, s', r, _. by split.
  - unfold handle_list. intros state (rows & d1 & Hrows & Hret)%ST_bind_Ret.
    injection Hret as <- _. destruct rows as [[rows|e]|]; [|done..]. injection Hbody as <-.
    apply locked_task_Some in Hrows as (s & s' & Hs & Hrows). exists s, s', rows.
    split; [done|]. split; [done|]. unfold listed. simpl. by rewrite map_map.
Qed.

(** Following a program's log shows nothing of its past: the frames are those
    of the subscription, whatever is in the store, so what happened before it,
    the program's end included, is never sent. *)
Lemma following_skips_history id pid d d' :
  d_reads d = d_reads d' →
  ∃ fs d1 d1', handle_stream_op id (Logs pid true) d = Ret (fs, d1) ∧
               handle_stream_op id (Logs pid true) d' = Ret (fs, d1').
Proof using.
  unfold handle_stream_op, handle_stream_events. cbn [negb].
  assert (∀ l acc d d', d_reads d = d_reads d' → ∃ fs d1 d1',
    mfold (λ frames r, f ← live_frame id (Some pid) r; mret (frames ++ f)) acc l d = Ret (fs, d1) ∧
    mfold (λ frames r, f ← live_frame id (Some pid) r; mret (frames ++ f)) acc l d' = Ret (fs, d1'))
    as Hall; [|by apply Hall].
  clear d d'. induction l as [|r l IH]; intros acc d d' Hd; cbn [mfold].
  { by eexists _, _, _. }
  assert (∃ f d1 d1', live_frame id (Some pid) r d = Ret (f, d1) ∧
    live_frame id (Some pid) r d' = Ret (f, d1') ∧ d_reads d1 = d_reads d1')
    as (f & d1 & d1' & Hf & Hf' & Hd1).
  { destruct r as [ev|n]; [by eexists _, _, _|]. unfold live_frame, ask, mbind, ST_bind; simpl.
    rewrite Hd. by eexists _, _, _. }
  destruct (IH (acc ++ f) d1 d1' Hd1) as (fs & d2 & d2' & Hfs & Hfs'). exists fs, d2, d2'.
  rewrite (ST_bind_step _ _ d (acc ++ f) d1), (ST_bind_step _ _ d' (acc ++ f) d1'); [done|..].
  - by rewrite (ST_bind_step _ _ _ _ _ Hf').
  - by rewrite (ST_bind_step _ _ _ _ _ Hf).
Qed.
End fields.

(** ** Waiting for the socket *)

Section waiting.
Context `{Terminal}.

(** The clock does not go back; a turn of the loop asks for the time and for
    the socket, and sleeps. *)
Record sleeps_50_ms : Prop := {
  clock_forward n : (instant_ms n ≤ instant_ms (n + 1))%Z;
  turn_takes n : (instant_ms n + 50 ≤ instant_ms (n + 2))%Z;
}.

Lemma poll_socket_ends fuel want path deadline late s :
  sleeps_50_ms → (deadline ≤ instant_ms (asked s) + 50 * Z.of_nat fuel)%Z →
  ∃ r s', poll_socket (S fuel) want path deadline late s = Ret (r, s') ∧ out s' = out s ∧
    ((r = Ok () ∧ ∃ n, (asked s ≤ n)%N ∧ path_there n path = want) ∨
     (r = Err late ∧ ∃ n, (asked s ≤ n)%N ∧ (deadline ≤ instant_ms n)%Z)).
Proof.
  intros Hsleep. revert s. induction fuel as [|fuel IH]; intros s Hfuel; cbn [poll_socket];
    rewrite (ST_bind_step _ _ s (instant_ms (asked s)) (asking 1 s)) by done;
    cbv beta; destruct (Z.ltb_spec (instant_ms (asked s)) deadline) as [Hlt|Hge]; [lia| | |];
    try (eexists _, _; split; [reflexivity|]; split; [done|]; right; split; [done|];
         exists (asked s); split; [lia|done]).
  rewrite (ST_bind_step _ _ _ (path_there (asked s + 1) path) (asking 1 (asking 1 s)))
    by done.
  destruct (Bool.eqb _ want) eqn:Hw.
  { eexists _, _. split; [reflexivity|]. split; [done|]. left. split; [done|].
    exists (asked s + 1)%N. split; [lia|]. by apply eqb_prop. }
  destruct (IH (asking 1 (asking 1 s))) as (r & s' & Hrun & Hout & Hr).
  { cbn [asked asking]. pose proof (turn_takes Hsleep (asked s)).
    replace (asked s + 1 + 1)%N with (asked s + 2)%N by lia. lia. }
  exists r, s'. split; [exact Hrun|]. split; [done|]. cbn [asked asking] in Hr.
  destruct Hr as [(-> & n & Hn & Hp)|(-> & n & Hn & Hp)]; [left|right]; (split; [done|]);
    exists n; (split; [lia|done]).
Qed.

(** How a wait that started at [s] ends: the socket was there ([want]) or not,
    or the time is over. *)
Definition wait_over (path : Path) (want : bool) (timeout : Z) (s : Shell)
    (r : result CliError ()) : Prop :=
  (r = Ok () ∧ ∃ n, (asked s < n)%N ∧ path_there n path = want) ∨
  (is_ok r = false ∧ ∃ n, (asked s < n)%N ∧ (instant_ms (asked s) + timeout ≤ instant_ms n)%Z).

Lemma wait_ends path want late s :
  sleeps_50_ms →
  ∃ r s', (now ← consult instant_ms; poll_socket 101 want path (now + 5000) late) s
          = Ret (r, s') ∧ out s' = out s ∧ wait_over path want 5000 s r.
Proof.
  intros Hsleep.
  rewrite (ST_bind_step _ _ s (instant_ms (asked s)) (asking 1 s)) by done.
  destruct (poll_socket_ends 100 want path (instant_ms (asked s) + 5000) late
    (asking 1 s)) as (r & s' & Hrun & Hout & Hr); [done| |].
  { cbn [asked asking]. pose proof (clock_forward Hsleep (asked s)). lia. }
  exists r, s'. split; [exact Hrun|]. split; [done|]. cbn [asked asking] in Hr.
  destruct Hr as [(-> & n & Hn & Hp)|(-> & n & Hn & Hp)]; [left|right]; (split; [done|]);
    exists n; (split; [lia|done]).
Qed.

(** [daemon start] and [daemon stop] do not wait for ever: as long as a
    sleep of 50 ms takes 50 ms, each wait for the socket ends within 101 turns
    of its loop, because the socket was seen (or seen gone), or with an error,
    and then five seconds have passed. *)
Theorem socket_wait_ends path s :
  sleeps_50_ms →
  (∃ r s', wait_for_socket 101 path 5000 s = Ret (r, s') ∧ out s' = out s ∧
     wait_over path true 5000 s r) ∧
  (∃ r s', wait_for_socket_gone 101 path 5000 s = Ret (r, s') ∧ out s' = out s ∧
     wait_over path false 5000 s r).
Proof. intros Hsleep. split; by apply wait_ends. Qed.
End waiting.

(** ** Preflight *)

Section preflight.
Context `{NfcOps, RyuOps, UuidOps, JsonText, Host, SerdeOps, SerdeMessage, Terminal}.

(** C25: [submit] does not touch the daemon for a document that is not a valid
    program.  A file whose size cannot be found out, that is over the limit, or
    that cannot be read exits with 1; text that is not JSON and a program that
    does not validate exit with 2.  In every case standard output stays as it
    was, standard error has one line that says what is wrong, and the only
    question asked is whether standard error can be written (it can): no
    connection is opened. *)
Theorem submit_preflight fuel cli socket file watch s :
  cli_command cli = CSubmit file watch → resolve_socket (cli_socket cli) = Ok socket →
  stderr_works →
  let ends code message :=
    run fuel (Ok cli) (Ok ()) s
    = Ret (code, mkShell (out s) (err_out s +:+ ("vcli: " +:+ message +:+ newline)) (asked s + 1)) in
  (∀ e, file_len file = Err e →
     ends 1%Z ("stat " +:+ path_display file +:+ ": " +:+ io_message e)) ∧
  (∀ n, file_len file = Ok n → (2097152 < n)%Z →
     ends 1%Z ("program file too large: " +:+ pretty n +:+ " bytes (max 2097152)")) ∧
  (∀ n e, file_len file = Ok n → (n ≤ 2097152)%Z → file_bytes file = Err e →
     ends 1%Z ("read " +:+ path_display file +:+ ": " +:+ io_message e)) ∧
  (∀ n b m, file_len file = Ok n → (n ≤ 2097152)%Z → file_bytes file = Ok b →
     json_from_str (string_of_bytes b) = Err m →
     ends 2%Z ("validation error: invalid JSON in " +:+ path_display file +:+ ": " +:+ m)) ∧
  (∀ n b v e, file_len file = Ok n → (n ≤ 2097152)%Z → file_bytes file = Ok b →
     json_from_str (string_of_bytes b) = Ok v → validate_value v = Ret (Err e) →
     ends 2%Z ("validation error: local preflight: " +:+ DslErrorKind_to_string (kind e)
               +:+ " at " +:+ path_to_string (path e))).
Proof.
  intros Hcmd Hsock Herr ends.
  assert (∀ r, submit_run fuel socket (output_mode cli) file watch s = Ret (Err r, s) →
    ends (exit_status (exit_code r)) (CliError_display r)) as Hrun.
  { intros r Hr. assert (run_async fuel cli s = Ret (Err r, s)) as Hasync.
    { unfold run_async. rewrite Hsock, Hcmd. by rewrite (sbind_step _ _ _ socket s) by done. }
    exact (run_err _ _ _ _ _ Herr Hasync). }
  assert (∀ r, read_program_file file = Err r →
    ends (exit_status (exit_code r)) (CliError_display r)) as Hread.
  { intros r Hr. apply Hrun. unfold submit_run. rewrite Hr. by erewrite sbind_stop by done. }
  clearbody ends. unfold read_program_file, MAX_PROGRAM_BYTES in Hread. split_and!.
  - intros e He. refine (Hread (CliGeneric _) _). by rewrite He.
  - intros n Hn Hbig. refine (Hread (CliGeneric _) _). rewrite Hn. cbn [map_err mbind result_bind].
    by rewrite (proj2 (Z.ltb_lt _ _)).
  - intros n e Hn Hsmall He. refine (Hread (CliGeneric _) _). rewrite Hn, He.
    cbn [map_err mbind result_bind]. by rewrite (proj2 (Z.ltb_ge _ _)).
  - intros n b m Hn Hsmall Hb Hm. refine (Hread (CliValidation _) _). rewrite Hn, Hb.
    cbn [map_err mbind result_bind]. rewrite (proj2 (Z.ltb_ge _ _)), Hm by done. done.
  - intros n b v e Hn Hsmall Hb Hm Hv. refine (Hrun (CliValidation _) _).
    unfold submit_run, read_program_file, MAX_PROGRAM_BYTES. rewrite Hn, Hb.
    cbn [map_err mbind result_bind]. rewrite (proj2 (Z.ltb_ge _ _)), Hm by done.
    rewrite (sbind_step _ _ _ v s) by done.
    by rewrite (ST_bind_step _ _ s (Err e) s) by by unfold slift; rewrite Hv.
Qed.
End preflight.

(** ** Tables *)

(** Text that begins at a character boundary, as every [str] does. *)
Definition char_start (s : string) : Prop :=
  match s with String b _ => is_continuation b = false | EmptyString => True end.

Lemma chars_nonempty a s : chars (String a s) ≠ [].
Proof. 
  destruct s as [|b s]; [done|]. cbn [chars].
  destruct (is_continuation b); [|done]. by case_match.
Qed.
Lemma chars_app s t : char_start t → chars (s +:+ t) = chars s ++ chars t.
Proof.
  intros Ht. induction s as [|a s IH]; [done|]. rewrite string_append_cons.
  destruct s as [|b s].
  - rewrite string_append_nil_l. destruct t as [|b t]; [done|]. simpl in Ht. cbn [chars].
    by rewrite Ht.
  - rewrite string_append_cons in *.
    change (chars (String a (String b (s +:+ t)))) with
      (if is_continuation b
       then match chars (String b (s +:+ t)) with c :: cs => (a :: c) :: cs | [] => [[a]] end
       else [a] :: chars (String b (s +:+ t))).
    change (chars (String a (String b s))) with
      (if is_continuation b
       then match chars (String b s) with c :: cs => (a :: c) :: cs | [] => [[a]] end
       else [a] :: chars (String b s)).
    rewrite IH. destruct (is_continuation b); [|done].
    pose proof (chars_nonempty b s). by destruct (chars (String b s)).
Qed.
Lemma width_app s t : char_start t → width (s +:+ t) = width s + width t.
Proof. intros Ht. unfold width. by rewrite chars_app, length_app by done. Qed.
Lemma char_start_app s t : char_start s → char_start t → char_start (s +:+ t).
Proof. by destruct s. Qed.
Lemma spaces_start n : char_start (spaces n).
Proof. by destruct n. Qed.
Lemma width_spaces n : width (spaces n) = n.
Proof.
  induction n as [|n IH]; [done|]. change (spaces (S n)) with (" " +:+ spaces n).
  rewrite width_app by apply spaces_start. by rewrite IH.
Qed.
Lemma width_pad s w : width s ≤ w → width (pad_right s w) = w.
Proof.
  intros Hw. unfold pad_right. rewrite width_app by apply spaces_start. rewrite width_spaces. lia.
Qed.

(** The width of a line with columns of the widths [ws]. *)
Definition line_width (ws : list nat) : nat := sum_list ws + 2 * pred (length ws).

Lemma render_line_width ws cells :
  Forall2 (λ cell w, char_start cell ∧ width cell ≤ w) cells ws →
  width (render_line ws cells) = line_width ws ∧ char_start (render_line ws cells).
Proof.
  unfold render_line, line_width.
  induction 1 as [|cell w cells ws [Hs Hw] Hall IH]; [done|]. cbn [zip_with sum_list length pred].
  assert (char_start (pad_right cell w)) as Hpad by (apply char_start_app; [done|apply spaces_start]).
  destruct Hall as [|cell' w' cells ws [Hs' Hw'] Hall].
  { simpl. rewrite width_pad by done. split; [lia|done]. }
  cbn [zip_with] in *. destruct IH as [IHw IHs].
  set (rest := String.concat "  " (pad_right cell' w' :: zip_with pad_right cells ws)) in *.
  change (width (pad_right cell w +:+ "  " +:+ rest) = w + (w' + sum_list ws) + 2 * S (length ws) ∧
          char_start (pad_right cell w +:+ "  " +:+ rest)).
  rewrite !width_app, width_pad, IHw by (done || by apply char_start_app).
  split; [|apply char_start_app; [done|by apply char_start_app]].
  unfold line_width. cbn [sum_list length pred]. change (width "  ") with 2. unfold id. lia.
Qed.

(** A table made of rows pushed one by one. *)
Definition pushed (hs : list string) (rows : list Row) : Table :=
  foldl (λ t r, push_row r t) (Table_new hs) rows.
Lemma pushed_rows hs rows :
  headers (pushed hs rows) = hs ∧
  table_rows (pushed hs rows) = map (resize (length hs) "") rows.
Proof.
  induction rows as [|r rows [IHh IHr]] using rev_ind; [done|].
  unfold pushed in *. rewrite foldl_app. simpl. rewrite IHh, IHr, map_app. done.
Qed.

Lemma widen_covers ws cells :
  length cells = length ws →
  Forall2 (λ w w', w ≤ w') ws (zip_with Nat.max ws (map width cells)) ∧
  Forall2 (λ cell w', width cell ≤ w') cells (zip_with Nat.max ws (map width cells)).
Proof.
  revert cells. induction ws as [|w ws IH]; intros [|c cells] Hlen; try done.
  injection Hlen as Hlen. destruct (IH cells Hlen). split; constructor; (done || lia).
Qed.
Lemma Forall2_chain {A B C} (P : A → B → Prop) (Q : B → C → Prop) (R : A → C → Prop) l k m :
  (∀ a b c, P a b → Q b c → R a c) → Forall2 P l k → Forall2 Q k m → Forall2 R l m.
Proof.
  intros HR Hlk. revert m. induction Hlk; intros m Hkm; inversion Hkm; subst; constructor; eauto.
Qed.
Lemma column_widths_cover (rows : list Row) ws0 :
  Forall (λ r : Row, length r = length ws0) rows →
  let ws := foldl (λ ws (cells : Row), zip_with Nat.max ws (map width cells)) ws0 rows in
  Forall2 (λ w w', w ≤ w') ws0 ws ∧
  Forall (λ r : Row, Forall2 (λ cell w, width cell ≤ w) r ws) rows.
Proof.
  revert ws0. induction rows as [|r rows IH]; intros ws0 Hlen; simpl.
  { split; [|constructor]. clear Hlen. by induction ws0; constructor. }
  apply Forall_cons in Hlen as [Hr Hrows].
  destruct (widen_covers ws0 r Hr) as [Hle Hcov].
  destruct (IH (zip_with Nat.max ws0 (map width r))) as [Hle' Hcov'].
  { rewrite length_zip_with, length_map, Hr, Nat.min_id. done. }
  split.
  - refine (Forall2_chain _ _ _ _ _ _ _ Hle Hle'). simpl. intros; lia.
  - constructor; [|done]. refine (Forall2_chain _ _ _ _ _ _ _ Hcov Hle'). simpl. intros; lia.
Qed.

Lemma fits_both (cells : Row) ws :
  Forall char_start cells → Forall2 (λ cell w, width cell ≤ w) cells ws →
  Forall2 (λ cell w, char_start cell ∧ width cell ≤ w) cells ws.
Proof.
  intros Hs Hw. induction Hw as [|c w cells ws Hc Hw IH]; [constructor|].
  apply Forall_cons in Hs as [? ?]. constructor; [done|by apply IH].
Qed.

(** The tables are rectangular.  Whatever rows are pushed, too short or
    too long ones included, the rendering is one line for the header and one
    per row, each ended by a newline, and every line has the same number of
    characters: the sum of the columns' widths and two spaces between
    columns. *)
Theorem table_rectangular hs rows :
  Forall char_start hs → Forall (Forall char_start) rows →
  ∃ lines, render_pretty (pushed hs rows) = String.concat "" (map (λ l, l +:+ newline) lines) ∧
    length lines = S (length rows) ∧
    Forall (λ l, width l = line_width (column_widths (pushed hs rows))) lines.
Proof.
  intros Hhs Hrows. destruct (pushed_rows hs rows) as [Eh Er].
  unfold render_pretty. rewrite Eh, Er. set (ws := column_widths _).
  exists (map (render_line ws) (hs :: map (resize (length hs) "") rows)).
  split; [by rewrite map_map|]. split; [by rewrite length_map; simpl; rewrite length_map|].
  destruct (column_widths_cover (map (resize (length hs) "") rows) (map width hs)) as [Hh Hr].
  { apply Forall_fmap. apply Forall_true. intros r. simpl. by rewrite length_resize, length_map. }
  assert (ws = foldl (λ ws (cells : Row), zip_with Nat.max ws (map width cells)) (map width hs)
                 (map (resize (length hs) "") rows)) as Hws
    by (unfold ws, column_widths; by rewrite Eh, Er).
  rewrite <-Hws in *. apply Forall_map. constructor.
  - apply render_line_width, fits_both; [done|]. by apply (Forall2_fmap_l width) in Hh.
  - apply Forall_map. apply Forall_map in Hr. eapply Forall_impl.
    { apply Forall_and. split; [exact Hrows|exact Hr]. }
    intros r [Hs Hcov]. apply render_line_width, fits_both; [|exact Hcov].
    apply Forall_resize; [exact I|exact Hs].
Qed.

Lemma table_rectangular_witness :
  ∃ lines, render_pretty (pushed ["id"; "state"] [["é"]; ["a"; "running"; "extra"]])
           = String.concat "" (map (λ l, l +:+ newline) lines) ∧
    length lines = 3 ∧ Forall (λ l, width l = 11) lines.
Proof.
  apply (table_rectangular ["id"; "state"] [["é"]; ["a"; "running"; "extra"]]);
    by repeat constructor.
Defined.
