(* ===== verification/CliDemo.v ===== *)
(** * The command line at work

    The theorems about the command line on a terminal whose daemon answers
    byte by byte, and on the daemon of [DaemonDemo]. *)

From S2P Require Import Prelude Json CoreTypes Canonical CanonicalInj Serde DslError DslValidate.
From S2P Require Import EventWire Sha256 IpcWire Host Wp Store StoreSpec StoreGc StoreLog.
From S2P Require Import Ipc IpcSpec Materialize Daemon Timestamp TimestampSpec.
From S2P Require Import Cli CliCommands CliSpec CliDaemon JsonDemo Demo IpcDemo DaemonDemo.

Local Open Scope vcli_scope.

#[local] Existing Instances bits_uuid bits_uuid_laws text_json text_json_laws core_sha2
  reliable_host nfc_id sci_ops counting_handler plain_daemon IpcDemo.short_message ticking
  nobody_listens plain_op text_documents.

Definition demo_socket : Path := path_of_string "/vcli.sock".

(** A terminal: the n-th dial of the socket reaches the counting handler after
    as many calls, any other path nobody; the clock gains 25 ms a question. *)
#[local] Instance demo_terminal : Terminal := {|
  dial n p := if decide (p = demo_socket) then Ok (listening drip demo_req_id (N.to_nat n))
              else Err ConnectionRefused;
  fresh_request _ := demo_req_id;
  path_there n _ := N.ltb 40 n;
  instant_ms n := (25 * Z.of_N n)%Z;
  spawn_daemon _ := Ok ();
  exec_error := NotFound;
  file_len p := Ok (if decide (p = path_of_string "/large.json") then 2097153 else 3)%Z;
  file_bytes _ := Ok (bytes_of_string "{,}");
  real_path p := Some p;
  path_display _ := "path";
  process_env := mkEnv Linux (λ _, None) 1000 (λ _, false);
  stdout_fault _ := None;
  stderr_fault _ := None;
  to_string_pretty _ := "{}";
  uuid_error s := s;
|}.

Lemma demo_stdout : stdout_works.
Proof. done. Qed.
Lemma demo_stderr : stderr_works.
Proof. done. Qed.

Definition new_shell : Shell := mkShell "" "" 0.
Definition health_cli : Cli := mkCli (Some demo_socket) false CHealth.

Definition no_daemon_cli : Cli := mkCli (Some (path_of_string "/gone.sock")) false CHealth.

(** A result, and nobody there. *)
Lemma one_shot_contract_witness :
  (∃ s', run 0 (Ok health_cli) (Ok ()) new_shell = Ret (0%Z, s') ∧
     out s' = "daemon: ok" +:+ newline ∧ err_out s' = "") ∧
  (∃ s', run 0 (Ok no_daemon_cli) (Ok ()) new_shell = Ret (4%Z, s') ∧ out s' = "" ∧
     err_out s' = "vcli: daemon not running (socket: path)" +:+ newline).
Proof.
  split.
  - destruct (one_shot_contract drip drip_clean drip_content 0 health_cli demo_socket Health
      health_pretty from_payload new_shell eq_refl eq_refl demo_stdout demo_stderr) as (_ & Hok & _).
    destruct (Hok demo_req_id 0 (Ok (Response_ok demo_req_id Null)) 1 eq_refl health_fits eq_refl
      eq_refl) as [Hfit _].
    apply (Hfit ltac:(apply (bool_decide_unpack _); vm_compute; exact I)
             (Response_ok demo_req_id Null)); [vm_compute; reflexivity|reflexivity].
  - destruct (one_shot_contract drip drip_clean drip_content 0 no_daemon_cli
      (path_of_string "/gone.sock") Health health_pretty from_payload new_shell eq_refl eq_refl
      demo_stdout demo_stderr) as (Hdown & _).
    apply (Hdown ConnectionRefused); [reflexivity|by right].
Defined.

Definition logs_cli (json : bool) (since : string) : Cli :=
  mkCli (Some demo_socket) json (CLogs (mkProgramId 5) false (Some since)).
Definition stopped_frame : StreamFrame := StreamFrame_event demo_req_id (mkEvent 0 DaemonStopped).
Lemma logs_push :
  pushes demo_req_id (Logs (mkProgramId 5) false) 0 [stopped_frame].
Proof.
  split.
  - exact I.
  - apply (bool_decide_unpack _). vm_compute. exact I.
  - reflexivity.
  - exists [stopped_frame], 0. split; [reflexivity|]. apply Forall2_cons; split; [|by apply Forall2_nil].
    split; [vm_compute; reflexivity|].
    split; [apply (bool_decide_unpack _); vm_compute; exact I|]. split; reflexivity.
  - apply (bool_decide_unpack _). vm_compute. exact I.
Qed.

(** Printed either way, too old, and with a time that is none. *)
Lemma logs_prints_since_witness :
  (∃ s', run 2 (Ok (logs_cli false "1970-01-01T00:00:00.000Z")) (Ok ()) new_shell = Ret (0%Z, s') ∧
     err_out s' = "" ∧
     out s' = "1970-01-01T00:00:00.000Z  daemon.stopped  "
              +:+ json_to_string (Obj [("type", Str "daemon.stopped")]) +:+ newline) ∧
  (∃ s', run 2 (Ok (logs_cli true "1970-01-01T00:00:00.000Z")) (Ok ()) new_shell = Ret (0%Z, s') ∧
     err_out s' = "" ∧ out s' = json_to_string (to_value stopped_frame) +:+ newline) ∧
  (∃ s', run 2 (Ok (logs_cli true "1970-01-01T00:00:00.001Z")) (Ok ()) new_shell = Ret (0%Z, s') ∧
     err_out s' = "" ∧ out s' = "") ∧
  (∃ s', run 2 (Ok (logs_cli false "noon")) (Ok ()) new_shell = Ret (1%Z, s') ∧ out s' = "" ∧
     err_out s' = "vcli: --since: unrecognized timestamp: noon" +:+ newline).
Proof.
  assert (∀ json since, ∃ code s', run 2 (Ok (logs_cli json since)) (Ok ()) new_shell = Ret (code, s') ∧
    match parse_since (Some since) with
    | Ok t => code = 0%Z ∧ err_out s' = "" ∧
        out s' = String.concat "" (log_lines (if json then Json_ else Pretty_) t [stopped_frame])
    | Err _ => code = 1%Z ∧ out s' = "" ∧
        err_out s' = "vcli: --since: unrecognized timestamp: " +:+ since +:+ newline
    end) as Hall.
  { intros json since.
    destruct (logs_prints_since drip drip_clean drip_content 2 (logs_cli json since) demo_socket
      (mkProgramId 5) false (Some since) demo_req_id 0 _ new_shell eq_refl eq_refl demo_stdout
      demo_stderr eq_refl logs_push) as (code & s' & Hrun & Hend); [simpl; lia|].
    exists code, s'. split; [exact Hrun|]. destruct (parse_since (Some since)); exact Hend. }
  split; [|split; [|split]].
  - destruct (Hall false "1970-01-01T00:00:00.000Z") as (code & s' & Hrun & -> & He & Ho).
    exists s'. split; [exact Hrun|]. split; [exact He|]. rewrite Ho. vm_compute. reflexivity.
  - destruct (Hall true "1970-01-01T00:00:00.000Z") as (code & s' & Hrun & -> & He & Ho).
    exists s'. split; [exact Hrun|]. split; [exact He|]. rewrite Ho. vm_compute. reflexivity.
  - destruct (Hall true "1970-01-01T00:00:00.001Z") as (code & s' & Hrun & -> & He & Ho).
    exists s'. split; [exact Hrun|]. split; [exact He|]. rewrite Ho. vm_compute. reflexivity.
  - destruct (Hall false "noon") as (code & s' & Hrun & -> & Ho & He).
    exists s'. split; [exact Hrun|]. split; [exact Ho|]. rewrite He. reflexivity.
Defined.

Lemma socket_wait_ends_witness :
  ∃ r s', wait_for_socket 101 demo_socket 5000 new_shell = Ret (r, s') ∧ out s' = "" ∧
    wait_over demo_socket true 5000 new_shell r.
Proof.
  assert sleeps_50_ms as Hsleep by (split; intros n; simpl; lia).
  destruct (socket_wait_ends demo_socket new_shell Hsleep) as [(r & s' & Hrun & Hout & Hover) _].
  exists r, s'. split; [exact Hrun|]. split; [exact Hout|exact Hover].
Defined.

Definition submit_cli (file : string) : Cli :=
  mkCli (Some demo_socket) false (CSubmit (path_of_string file) false).
(** A file that is no JSON, and one that is too large. *)
Lemma submit_preflight_witness :
  run 0 (Ok (submit_cli "/p.json")) (Ok ()) new_shell
  = Ret (2%Z, mkShell "" ("vcli: validation error: invalid JSON in path: expected value"
                          +:+ newline) 1) ∧
  run 0 (Ok (submit_cli "/large.json")) (Ok ()) new_shell
  = Ret (1%Z, mkShell "" ("vcli: program file too large: 2097153 bytes (max 2097152)"
                          +:+ newline) 1).
Proof.
  split.
  - destruct (submit_preflight 0 (submit_cli "/p.json") demo_socket (path_of_string "/p.json") false
      new_shell eq_refl eq_refl demo_stderr) as (_ & _ & _ & Hbad & _).
    apply (Hbad 3%Z (bytes_of_string "{,}") "expected value");
      [reflexivity|lia|reflexivity|vm_compute; reflexivity].
  - destruct (submit_preflight 0 (submit_cli "/large.json") demo_socket
      (path_of_string "/large.json") false new_shell eq_refl eq_refl demo_stderr) as (_ & Hbig & _).
    apply (Hbig 2097153%Z); [reflexivity|lia].
Defined.

Lemma gc_and_list_misread_witness :
  (∃ v d', handle_gc demo_req_id (daemon_with []) = Ret (Response_ok demo_req_id v, d') ∧
     gc_summary v = "gc: ok (removed 0, freed 0 bytes)" +:+ newline) ∧
  ∃ v d' rows, handle_list demo_req_id (Some "waiting") (daemon_with [])
               = Ret (Response_ok demo_req_id v, d') ∧
     listed v = map (λ r, [ProgramId_to_string (pr_id r); pr_name r;
                           ProgramState_as_str (pr_state r); ""]) rows.
Proof.
  split.
  - assert (∃ v d', handle_gc demo_req_id (daemon_with []) = Ret (Response_ok demo_req_id v, d'))
      as (v & d' & Hrun) by (eexists _, _; vm_compute; reflexivity).
    destruct (gc_and_list_misread demo_req_id (daemon_with []) (Response_ok demo_req_id v) d' v eq_refl)
      as [Hgc _].
    exists v, d'. split; [exact Hrun|]. apply (Hgc Hrun).
  - assert (∃ v d', handle_list demo_req_id (Some "waiting") (daemon_with [])
                    = Ret (Response_ok demo_req_id v, d')) as (v & d' & Hrun)
      by (eexists _, _; vm_compute; reflexivity).
    destruct (gc_and_list_misread demo_req_id (daemon_with []) (Response_ok demo_req_id v) d' v eq_refl)
      as [_ Hlist].
    destruct (Hlist (Some "waiting") Hrun) as (_ & _ & rows & _ & _ & Hrows).
    exists v, d', rows. split; [exact Hrun|exact Hrows].
Defined.

Lemma civil_from_days_gregorian_witness :
  civil_from_days (19782 + 1) = next_date (civil_from_days 19782) ∧
  civil_from_days 19782 = (2024, 2, 29)%Z.
Proof.
  split; [|reflexivity]. destruct civil_from_days_gregorian as (_ & _ & Hday).
  destruct (Hday 19782%Z) as (_ & Hnext & _); [unfold days_ok; lia|].
  apply Hnext. unfold days_ok. lia.
Defined.
