(* ===== verification/Backends.v ===== *)
(** * Backends

    What the daemon drives the machine with: [factory_mock.rs] and
    [factory_macos.rs], and the scheduler over the macOS back ends, the
    system's clock and whatever the system answers to each of them. *)

From S2P Require Import Prelude CoreTypes Serde Canonical Perception FrameView.
From S2P Require Import Input CgSink CgSpec Runtime Capture MacCapture MacCaptureSpec.
From S2P Require Import Clock Scheduler SchedulerLive SchedulerDemo Ipc Store Boot.
From S2P Require Import CanonicalInj PerceptionSpec RuntimeSpec.
Local Open Scope vcli_scope.

(** The bundle, by its sink's kill switch; the perception façade is fresh. *)
(* src: crates/vcli-daemon/src/run.rs 26-48 RuntimeBackends *)
Record RuntimeBackends (C I : Type) := mkBackends {
  rb_capture : C;
  rb_input : I;
  rb_clock : SystemRuntimeClock;
  shutdown_guard : bool;
}.
Arguments mkBackends {C I}.
Arguments rb_capture {C I}.
Arguments rb_input {C I}.
Arguments rb_clock {C I}.
Arguments shutdown_guard {C I}.

(* src: crates/vcli-daemon/src/factory_mock.rs 12-26 build *)
Definition factory_mock : result DaemonError (RuntimeBackends MockCapture MockInputSink) :=
  Ok (mkBackends MockCapture_empty MockInputSink_new SystemRuntimeClock_new false).

(** [CGRequestScreenCaptureAccess], whose answer is ignored. *)
(* src: crates/vcli-capture/src/permission.rs 74-92 request_screen_recording_permission *)
Definition request_screen_recording_permission : ST MacCapture () := ask_kit (λ _, ()).

(** [listener]: what spawning the thread of the kill-switch listener answers. *)
(* src: crates/vcli-daemon/src/factory_macos.rs 20-72 build *)
Definition factory_macos `{ScreenKit} (listener : result InputError ())
    : ST MacCapture (result DaemonError (RuntimeBackends MacCapture KillSwitch)) :=
  _ ← request_screen_recording_permission;
  r ← MacCapture_new;
  match r with
  | Err e =>
      serr (BackendInit "capture" (CaptureError_to_string e
        +:+ " — grant access in System Settings → Privacy & Security → Screen Recording, "
        +:+ "then restart the daemon"))
  | Ok _ =>
      match listener with
      | Err e =>
          serr (BackendInit "input" ("kill-switch listener: " +:+ InputError_to_string e
            +:+ " — grant access in System Settings → Privacy & Security → Input Monitoring, "
            +:+ "then restart the daemon"))
      | Ok _ =>
          s ← get;
          sok (mkBackends s KillSwitch_new SystemRuntimeClock_new true)
      end
  end.

(** ** The scheduler over the macOS back ends *)

Section mac.
Context `{NfcOps, RyuOps, UuidOps, ImageOps, HashOrder, MacOs, ScreenKit, F32Display, SystemTime}.
Context `{!ScreenKitLaws}.

(** The scheduler's thread over a bundle; [inp] is what the sink has posted. *)
(* src: crates/vcli-daemon/src/run.rs 97-112 run_foreground *)
Definition scheduler_thread (fuel : nat) (arrivals : list (list SchedulerCommand))
    (b : RuntimeBackends MacCapture KillSwitch) (inp : CgState) (perc : PState) :=
  run_until_shutdown (H3 := cg_sink) (H4 := mac_capture) (H5 := system_clock) fuel
    SchedulerConfig_default arrivals
    (Scheduler_new (H3 := cg_sink) (H4 := mac_capture) (H5 := system_clock)
       (rb_capture b) inp perc (rb_clock b) []).

Lemma scheduler_thread_runs fuel arrivals b inp perc :
  Forall (Forall (command_accepted fuel)) arrivals →
  ∃ t, scheduler_thread fuel arrivals b inp perc
       = Ret (existsb (existsb is_shutdown) arrivals, t).
Proof.
  intros Hc.
  destruct (run_live (H3 := cg_sink) (H5 := mac_capture) (H7 := system_clock) fuel
    SchedulerConfig_default arrivals
    (Scheduler_new (H3 := cg_sink) (H4 := mac_capture) (H5 := system_clock)
       (rb_capture b) inp perc (rb_clock b) [])) as (t & Ht & _).
  - split; [apply map_Forall_empty|exact I].
  - done.
  - eapply Forall_impl; [exact Hc|]. intros l Hl. eapply Forall_impl; [exact Hl|].
    apply accepted_runnable.
  - by exists t.
Qed.

(** C29: The daemon on macOS.  The factory succeeds exactly when screen
    recording is granted and the listener's thread was spawned, and names the
    back end that failed otherwise; the scheduler over what it built then runs
    through every sequence of commands without a panic and without diverging,
    whatever the display, the input system and the clock answer, as long as
    each program brought in was accepted by the DSL, has fewer named predicates
    than the fuel, and names none of them [__inline_<i>] like the inline
    predicate of its own i-th watch (which the DSL does not forbid; C40 is what
    happens then). *)
Theorem mac_daemon_schedules fuel arrivals listener perc s :
  Forall (Forall (command_accepted fuel)) arrivals →
  ∃ r s', factory_macos listener s = Ret (r, s') ∧
  match r with
  | Err (BackendInit backend _) =>
      (backend = "capture" ∧ preflight_access (S (kit_asked s)) = false) ∨
      (backend = "input" ∧ preflight_access (S (kit_asked s)) = true ∧ is_ok listener = false)
  | Err _ => False
  | Ok b =>
      preflight_access (S (kit_asked s)) = true ∧ is_ok listener = true ∧
      ∀ inp, ∃ t, scheduler_thread fuel arrivals b inp perc
                  = Ret (existsb (existsb is_shutdown) arrivals, t)
  end.
Proof.
  intros Hc. unfold factory_macos, MacCapture_new, check_screen_recording_permission.
  unfold request_screen_recording_permission, ask_kit.
  destruct (preflight_access (S (kit_asked s))) eqn:Hp; [destruct listener as [[]|e]|];
    eexists _, _; (split; [unfold mbind, ST_bind; simpl; rewrite Hp; reflexivity|]); simpl; auto.
  split_and!; [done..|]. intros inp. by apply scheduler_thread_runs.
Qed.
End mac.

(** ** A Mac at work *)

(** The first pixel has the colour the demonstration programs wait for. *)
Definition lit_kit : ScreenKit := {|
  preflight_access _ := true;
  shareable_content _ := Ok kit_content;
  capture_image _ _ _ _ := Ok (mkCGImage 2 1 (Ok [30; 20; 10; 255; 4; 5; 6; 255]%Z));
  unix_ns _ := Some 5%Z |}.
#[export] Instance lit_kit_laws : @ScreenKitLaws lit_kit.
Proof.
  split. intros n f w h img [= <-]. simpl. split_and!; [ints..|].
  intros px [= <-]. split; [|simpl; ints]. by repeat (apply Forall_cons; split; [ints|]).
Qed.
Definition demo_time : SystemTime := {| system_time n := (1000000000 * Z.of_nat n)%Z |}.

Lemma demo_arrivals_accepted : Forall (Forall (command_accepted 3)) demo_arrivals.
Proof.
  repeat (apply Forall_cons; split); try apply Forall_nil; try exact I;
    apply demo_accepted; repeat constructor.
Qed.

#[local] Existing Instance nfc_id.
#[local] Existing Instance sci_ops.
#[local] Existing Instance demo_uuid.
#[local] Existing Instance demo_image_ops.
#[local] Existing Instance demo_order.
#[local] Existing Instance demo_mac.
#[local] Existing Instance lit_kit.
#[local] Existing Instance f32_demo.
#[local] Existing Instance demo_time.

Lemma mac_daemon_schedules_witness :
  ∃ b s', factory_macos (Ok ()) mac_idle = Ret (Ok b, s') ∧
    ∃ t, scheduler_thread 3 demo_arrivals b cg_idle Perception_new = Ret (true, t).
Proof.
  destruct (mac_daemon_schedules 3 demo_arrivals (Ok ()) Perception_new mac_idle)
    as ([b|[]] & s' & Hb & Hr); try exact demo_arrivals_accepted; try (by destruct Hr).
  exists b, s'. split; [exact Hb|]. destruct Hr as (_ & _ & Hr). apply Hr.
Defined.

(** What the first tick of the two programs posts: the pointer goes to the
    target, the button is pressed and released, and program 8's text is typed. *)
Example posted_by_the_run :
  match factory_macos (Ok ()) mac_idle with
  | Ret (Ok b, _) =>
      match scheduler_thread 3 demo_arrivals b cg_idle Perception_new with
      | Ret (_, t) => posted (input t)
      | _ => []
      end
  | _ => []
  end
  = [MouseEvent MouseMoved (mkPoint 3 4) CgLeft None None;
     MouseEvent LeftMouseDown (mkPoint 3 4) CgLeft (Some 0%Z) (Some 1%Z);
     MouseEvent LeftMouseUp (mkPoint 3 4) CgLeft (Some 0%Z) (Some 1%Z);
     KeyboardEvent 0 true None (Some [120%Z]);
     KeyboardEvent 0 false None (Some [120%Z])].
Proof. vm_compute. reflexivity. Qed.
