(* ===== verification/Platform.v ===== *)
(** * The Windows back ends and the build scripts

    [vcli-input/src/windows/mod.rs] and [vcli-capture/src/windows/mod.rs]:
    stubs.  The sink panics on every call; the capture returns an error.  The build scripts say which Swift runtime
    directories a binary is linked with. *)

From S2P Require Import Prelude CoreTypes FrameView Input Capture.
Local Open Scope vcli_scope.

(* src: crates/vcli-input/src/windows/mod.rs 22-41 impl InputSink for WindowsInputSink *)
Definition windows_sink : InputSink := {|
  sink := ();
  mouse_move _ := panic;
  click _ _ _ _ := panic;
  double_click _ _ := panic;
  drag _ _ _ := panic;
  type_text _ := panic;
  key_combo _ _ := panic;
|}.

(* src: crates/vcli-capture/src/windows/mod.rs 21-45 impl Capture for WindowsCapture *)
Definition windows_capture : Capture := {|
  capture := ();
  supported_formats _ := [Bgra8];
  enumerate_windows := serr (CapUnsupported "WindowsCapture::enumerate_windows (v0.4)");
  grab_screen := serr (CapUnsupported "WindowsCapture::grab_screen (v0.4)");
  grab_window _ := serr (CapUnsupported "WindowsCapture::grab_window (v0.4)");
|}.

(** The capture is one the scheduler can run on: it never delivers a frame. *)
#[export] Instance windows_capture_ok : @CaptureOk windows_capture.
Proof.
  refine {| capture_ok := λ _ : @capture windows_capture, True |}.
  intros s _. eexists _, _. split; [reflexivity|]. by split.
Defined.
Lemma windows_sink_not_total : @InputSinkTotal windows_sink → False.
Proof. intros Ht. by destruct (type_text_total (InputSinkTotal := Ht) "" ()) as (? & ? & ?). Qed.

(** ** The build scripts

    [vcli-capture/build_support.rs], which the build scripts of three crates
    share: the directories of the Swift runtime a linked binary is told to look
    in.  The answer of [xcode-select] and the files there are are arguments. *)

From S2P Require Import Prelude DslError Host Input.

(** What [xcode-select -p] leaves: nothing when it could not be run, else
    whether it succeeded, and its output if that is UTF-8. *)
Abbreviation Selected := (option (bool * option string)).

(** [str::trim] *)
Definition trim (s : string) : string := string_of_chars (trim_chars (chars s)).

(* src: crates/vcli-capture/build_support.rs 4-17 selected_developer_dir *)
Definition selected_developer_dir (answer : Selected) : option Path :=
  '(success, stdout) ← answer;
  if negb success then None
  else
    raw ← stdout;
    let trimmed := trim raw in
    if string_is_empty trimmed then None else Some (path_of_string trimmed).

(* src: crates/vcli-capture/build_support.rs 57-61 push_unique *)
Definition push_unique (paths : list Path) (path : Path) : list Path :=
  if existsb (λ p, bool_decide (p = path)) paths then paths else paths ++ [path].

(** [Path::ends_with] a single component. *)
Definition path_ends_with (p : Path) (c : string) : bool := bool_decide (last (comps p) = Some c).

(* src: crates/vcli-capture/build_support.rs 19-46 swift55_macosx_rpath_candidates *)
Definition swift55_macosx_rpath_candidates (selected : option Path) : list Path :=
  let out := push_unique [] (path_of_string "/usr/lib/swift") in
  let out :=
    match selected with
    | Some dir =>
        if path_ends_with dir "CommandLineTools"
        then push_unique out (path_push dir "usr/lib/swift-5.5/macosx")
        else push_unique
               (push_unique out
                  (path_push dir "Toolchains/XcodeDefault.xctoolchain/usr/lib/swift-5.5/macosx"))
               (path_push dir "usr/lib/swift-5.5/macosx")
    | None => out
    end in
  let out := push_unique out
    (path_of_string "/Library/Developer/CommandLineTools/usr/lib/swift-5.5/macosx") in
  push_unique out
    (path_of_string "/Applications/Xcode.app/Contents/Developer/Toolchains/XcodeDefault.xctoolchain/usr/lib/swift-5.5/macosx").

(* src: crates/vcli-capture/build_support.rs 48-56 swift_runtime_rpaths_to_emit *)
Definition swift_runtime_rpaths_to_emit (answer : Selected) (there : Path → bool) : list Path :=
  List.filter (λ p, bool_decide (p = path_of_string "/usr/lib/swift")
                    || there (path_push p "libswift_Concurrency.dylib"))
    (swift55_macosx_rpath_candidates (selected_developer_dir answer)).

Definition rpath_args (l : list Path) : list string :=
  map (λ p, "cargo:rustc-link-arg=-Wl,-rpath,/" +:+ String.concat "/" (comps p)) l.
(* src: crates/vcli-runtime/build.rs 5-15 main *)
Definition runtime_build_main (macos : bool) (answer : Selected) (there : Path → bool) : list string :=
  if macos then rpath_args (swift_runtime_rpaths_to_emit answer there) else [].
(* src: crates/vcli-daemon/build.rs 5-15 main *)
Definition daemon_build_main (macos : bool) (answer : Selected) (there : Path → bool) : list string :=
  if macos then rpath_args (swift_runtime_rpaths_to_emit answer there) else [].
(* src: crates/vcli-capture/build.rs 4-19 main *)
Definition capture_build_main (macos : bool) (answer : Selected) (there : Path → bool) : list string :=
  if macos then "cargo:rustc-link-lib=framework=CoreGraphics" ::
                rpath_args (swift_runtime_rpaths_to_emit answer there)
  else [].

(** No directory twice, whatever is selected, and the system's always. *)
Lemma push_unique_NoDup l p : NoDup l → NoDup (push_unique l p).
Proof.
  intros Hl. unfold push_unique. destruct (existsb _ l) eqn:Hp; [done|].
  apply NoDup_app. split; [done|]. split; [|apply NoDup_singleton].
  intros x Hx ->%list_elem_of_singleton. apply not_true_iff_false in Hp. apply Hp, existsb_exists.
  exists p. split; [by apply list_elem_of_In|]. by apply bool_decide_eq_true.
Qed.
Lemma push_unique_head l p q : head l = Some q → head (push_unique l p) = Some q.
Proof. unfold push_unique. destruct (existsb _ l); [done|]. by destruct l. Qed.
Lemma rpaths_distinct answer there :
  NoDup (swift_runtime_rpaths_to_emit answer there) ∧
  head (swift_runtime_rpaths_to_emit answer there) = Some (path_of_string "/usr/lib/swift").
Proof.
  unfold swift_runtime_rpaths_to_emit.
  assert (NoDup (swift55_macosx_rpath_candidates (selected_developer_dir answer)) ∧
    head (swift55_macosx_rpath_candidates (selected_developer_dir answer))
      = Some (path_of_string "/usr/lib/swift")) as [Hn Hh].
  { unfold swift55_macosx_rpath_candidates. destruct (selected_developer_dir answer) as [d|];
      [destruct (path_ends_with d _)|]; (split;
      [repeat apply push_unique_NoDup; apply NoDup_nil_2|repeat match goal with |- head (push_unique (push_unique _ _) _) = _ => apply push_unique_head end;
       vm_compute; reflexivity]). }
  split.
  - apply NoDup_ListNoDup, List.NoDup_filter, NoDup_ListNoDup, Hn.
  - destruct (swift55_macosx_rpath_candidates _) as [|p l]; [done|]. injection Hh as ->.
    cbn [List.filter]. by rewrite bool_decide_eq_true_2.
Qed.

(** ** The tests of the script *)

Definition rpaths (dir : string) : list Path :=
  swift55_macosx_rpath_candidates (Some (path_of_string dir)).
Example command_line_tools_developer_dir_yields_swift55_rpath :
  take 2 (rpaths "/Library/Developer/CommandLineTools") =
    [path_of_string "/usr/lib/swift";
     path_of_string "/Library/Developer/CommandLineTools/usr/lib/swift-5.5/macosx"].
Proof. vm_compute. reflexivity. Qed.
Example xcode_developer_dir_yields_toolchain_swift55_rpath :
  take 2 (rpaths "/Applications/Xcode.app/Contents/Developer") =
    [path_of_string "/usr/lib/swift";
     path_of_string "/Applications/Xcode.app/Contents/Developer/Toolchains/XcodeDefault.xctoolchain/usr/lib/swift-5.5/macosx"].
Proof. vm_compute. reflexivity. Qed.
Example selection_is_trimmed :
  selected_developer_dir (Some (true, Some ("/a" +:+ String (Ascii.ascii_of_nat 10) "")))
    = Some (path_of_string "/a") ∧
  selected_developer_dir (Some (true, Some " ")) = None ∧
  selected_developer_dir (Some (false, Some "/a")) = None.
Proof. split_and!; vm_compute; reflexivity. Qed.
