(* ===== verification/Listener.v ===== *)
(** * The kill-switch listener

    [vcli-input/src/macos/hotkey_tap.rs] and the observers of
    [vcli-input/src/kill_switch.rs]: the thread that owns the event tap and its
    run loop, the handle whose [Drop] stops it, interleaved move by move, and
    the polling wait for the switch. *)

From S2P Require Import Prelude CoreTypes Input CgSink CgSpec.
Local Open Scope vcli_scope.

(** ** The thread, its run loop and the handle *)

(** Where the thread is: spawned, with a tap, with its run loop in the shared
    slot, inside [run_current], returned. *)
Inductive TapThread := Spawned | Tapped | Published | Looping | Ended.
(** Where the owner of the handle is: holding it, in [join], past [drop]. *)
Inductive Owner := Holding | Joining | Dropped.
#[export] Instance TapThread_eq_dec : EqDecision TapThread.
Proof. solve_decision. Defined.
#[export] Instance Owner_eq_dec : EqDecision Owner.
Proof. solve_decision. Defined.

(** [stop] says whether the shared slot holds the run loop, [stopped] whether
    that loop has been told to stop. *)
(* src: crates/vcli-input/src/macos/hotkey_tap.rs 34-38 KillSwitchListenerHandle *)
Record Listener := mkListener {
  thread : TapThread;
  owner : Owner;
  stop : bool;
  stopped : bool;
  switch : KillSwitch;
}.

(** A key as the tap reports it: event type, key code, flags, and the time. *)
Record KeyEvent := mkKeyEvent { ke_type : Z; ke_code : Z; ke_flags : Z; ke_ns : Z }.

Inductive ListenerMove := ThreadMoves | KeyPressed (k : KeyEvent) | HandleDropped | ThreadJoined.

(* src: crates/vcli-input/src/macos/hotkey_tap.rs 64-69 spawn_kill_switch_listener *)
Definition spawn_kill_switch_listener (k : KillSwitch) : Listener :=
  {| thread := Spawned; owner := Holding; stop := false; stopped := false; switch := k |}.

Section listener.
Context `{MacOs} (key_down : Z).
(** What the system answers: whether Input Monitoring is granted, whether the
    tap's port yields a source, and whether a loop that is stopped before it
    runs remembers that. *)
Context (granted sourced early_stop : bool).

(** A refused tap and a missing source end the thread, the latter by a panic
    that [join] hands over and [drop] ignores. *)
(* src: crates/vcli-input/src/macos/hotkey_tap.rs 70-126 spawn_kill_switch_listener *)
Definition thread_moves (l : Listener) : option Listener :=
  let at_ t stop := Some {| thread := t; owner := owner l; stop := stop; stopped := stopped l;
                            switch := switch l |} in
  match thread l with
  | Spawned => at_ (if granted then Tapped else Ended) (stop l)
  | Tapped => if sourced then at_ Published true else at_ Ended (stop l)
  | Published => at_ Looping (stop l)
  | Looping => if stopped l then at_ Ended (stop l) else None
  | Ended => None
  end.

Definition key_pressed (k : KeyEvent) (l : Listener) : option Listener :=
  match thread l with
  | Looping => Some {| thread := Looping; owner := owner l; stop := stop l; stopped := stopped l;
      switch := tap_callback key_down (ke_type k) (ke_code k) (ke_flags k) (ke_ns k) (switch l) |}
  | _ => None
  end.

(** [self.stop.lock().unwrap().take()], and [rl.stop()] on what was there. *)
(* src: crates/vcli-input/src/macos/hotkey_tap.rs 41-44 KillSwitchListenerHandle::drop *)
Definition handle_dropped (l : Listener) : option Listener :=
  match owner l with
  | Holding =>
      let heard := match thread l with Looping => true | _ => early_stop end in
      Some {| thread := thread l; owner := Joining; stop := false;
              stopped := stopped l || (stop l && heard); switch := switch l |}
  | _ => None
  end.

(* src: crates/vcli-input/src/macos/hotkey_tap.rs 45-47 KillSwitchListenerHandle::drop *)
Definition thread_joined (l : Listener) : option Listener :=
  match owner l, thread l with
  | Joining, Ended => Some {| thread := Ended; owner := Dropped; stop := stop l;
                              stopped := stopped l; switch := switch l |}
  | _, _ => None
  end.

Definition listener_move (m : ListenerMove) : Listener → option Listener :=
  match m with
  | ThreadMoves => thread_moves
  | KeyPressed k => key_pressed k
  | HandleDropped => handle_dropped
  | ThreadJoined => thread_joined
  end.
Fixpoint listener_moves (ms : list ListenerMove) (l : Listener) : option Listener :=
  match ms with [] => Some l | m :: ms => l ← listener_move m l; listener_moves ms l end.

Lemma listener_moves_app ms ms' l :
  listener_moves (ms ++ ms') l = (l ← listener_moves ms l; listener_moves ms' l).
Proof.
  revert l. induction ms as [|m ms IH]; intros l; simpl; [done|].
  destruct (listener_move m l); simpl; auto.
Qed.

(** The slot is full exactly while the run loop is published and unclaimed. *)
Definition listener_inv (l : Listener) : Prop :=
  (stop l = true → thread l = Published ∨ thread l = Looping) ∧
  (stopped l = true → stop l = false ∧ thread l ≠ Spawned ∧ thread l ≠ Tapped) ∧
  (owner l = Holding → stopped l = false ∧
     (thread l = Published ∨ thread l = Looping → stop l = true)).

Lemma listener_inv_move m l l' : listener_inv l → listener_move m l = Some l' → listener_inv l'.
Proof.
  intros Hi Hm. unfold listener_inv, listener_move, thread_moves, key_pressed, handle_dropped,
    thread_joined in *.
  destruct l as [[] [] [] [] k], m; simpl in *; try discriminate Hm;
    repeat case_match; simplify_eq/=; intuition congruence.
Qed.
Lemma listener_inv_moves ms l l' :
  listener_inv l → listener_moves ms l = Some l' → listener_inv l'.
Proof.
  revert l. induction ms as [|m ms IH]; intros l Hl Hm; simplify_eq/=; [done|].
  destruct (listener_move m l) as [l1|] eqn:H1; simplify_eq/=.
  eapply IH; [|done]. by eapply listener_inv_move.
Qed.

(** A joining owner whose loop was never told to stop, under a thread that
    the system lets run. *)
Definition waits_forever (l : Listener) : Prop :=
  owner l = Joining ∧ stopped l = false ∧ thread l ≠ Ended ∧
  (thread l = Spawned → granted = true ∧ sourced = true) ∧
  (thread l = Tapped → sourced = true).
Lemma waits_forever_moves ms l l' :
  waits_forever l → listener_moves ms l = Some l' → waits_forever l'.
Proof.
  revert l. induction ms as [|m ms IH]; intros l Hl Hm; simplify_eq/=; [done|].
  destruct (listener_move m l) as [l1|] eqn:H1; simplify_eq/=.
  eapply IH; [|done]. 
  unfold waits_forever, listener_move, thread_moves, key_pressed, handle_dropped,
    thread_joined in *.
  destruct l as [[] [] [] [] k], m; simpl in *; try discriminate H1; try discriminate (proj1 Hl);
    repeat case_match; simplify_eq/=; intuition congruence.
Qed.

(** What it takes for [drop] to come back, by where the thread was. *)
Definition drop_returns (t : TapThread) : bool :=
  match t with
  | Spawned => negb (granted && sourced)
  | Tapped => negb sourced
  | Published => early_stop
  | Looping | Ended => true
  end.
(** A joining owner whose thread has ended, is bound to, or has been told to
    stop. *)
Definition will_return (l : Listener) : Prop :=
  owner l = Dropped ∨
  owner l = Joining ∧
    (thread l = Ended ∨ (thread l = Published ∨ thread l = Looping) ∧ stopped l = true ∨
     thread l = Spawned ∧ granted && sourced = false ∨ thread l = Tapped ∧ sourced = false).
Lemma will_return_moves ms l l' :
  will_return l → listener_moves ms l = Some l' → will_return l'.
Proof.
  revert l. induction ms as [|m ms IH]; intros l Hl Hm; simplify_eq/=; [done|].
  destruct (listener_move m l) as [l1|] eqn:H1; simplify_eq/=.
  eapply IH; [|done].
  unfold will_return, listener_move, thread_moves, key_pressed, handle_dropped,
    thread_joined in *.
  destruct l as [[] [] st sd k], m; simpl in *; try discriminate H1;
    repeat case_match; simplify_eq/=; intuition congruence.
Qed.
Lemma will_return_reaches l :
  will_return l → ∃ ms l', listener_moves ms l = Some l' ∧ owner l' = Dropped.
Proof.
  intros [Hd|[Hj Ht]]; [by exists [], l|].
  exists match thread l with
         | Spawned => if granted then [ThreadMoves; ThreadMoves; ThreadJoined]
                      else [ThreadMoves; ThreadJoined]
         | Tapped | Looping => [ThreadMoves; ThreadJoined]
         | Published => [ThreadMoves; ThreadMoves; ThreadJoined]
         | Ended => [ThreadJoined]
         end.
  destruct l as [t o st sd k]; simpl in *; subst o.
  destruct t; [destruct granted eqn:Hg|..]; simpl; unfold thread_moves; simpl; rewrite ?Hg; simpl;
    try (assert (sourced = false) as -> by (simpl in *; intuition congruence));
    try (assert (sd = true) as -> by intuition congruence);
    eexists; split; reflexivity.
Qed.

Lemma dropped_there l l1 :
  listener_inv l → owner l = Holding → listener_move HandleDropped l = Some l1 →
  if drop_returns (thread l) then will_return l1 else waits_forever l1.
Proof.
  unfold listener_inv, waits_forever, will_return, listener_move, handle_dropped.
  destruct l as [[] [] [] [] k]; simpl; intros Hi Ho Hd; try (exfalso; intuition congruence);
    simplify_eq/=; destruct granted, sourced, early_stop; simpl in *; intuition congruence.
Qed.

Definition keys_of : list ListenerMove → list KeyEvent :=
  omap (λ m, match m with KeyPressed k => Some k | _ => None end).
Definition hear (k : KillSwitch) (e : KeyEvent) : KillSwitch :=
  tap_callback key_down (ke_type e) (ke_code e) (ke_flags e) (ke_ns e) k.
Lemma switch_hears ms l l' :
  listener_moves ms l = Some l' → switch l' = foldl hear (switch l) (keys_of ms).
Proof.
  revert l. induction ms as [|m ms IH]; intros l Hm; simplify_eq/=; [done|].
  destruct (listener_move m l) as [l1|] eqn:H1; simplify_eq/=. rewrite (IH _ Hm).
  destruct m; simpl in *; unfold thread_moves, key_pressed, handle_dropped, thread_joined in H1;
    repeat case_match; by simplify_eq/=.
Qed.
End listener.

(** Cmd+Shift+Esc going down: 53 is the key code of Escape, and the flags have
    the bits of both modifiers. *)
Definition is_chord `{MacOs} (key_down : Z) (e : KeyEvent) : Prop :=
  ke_type e = key_down ∧ ke_code e = 53%Z ∧
  ∀ i, Z.testbit (flag_bit Cmd) i || Z.testbit (flag_bit Shift) i = true →
       Z.testbit (ke_flags e) i = true.

Lemma land_covers f w : Z.land f w = w ↔ ∀ i, Z.testbit w i = true → Z.testbit f i = true.
Proof.
  split.
  - intros Hw i Hi. rewrite <-Hw, Z.land_spec in Hi. by apply andb_true_iff in Hi as [? _].
  - intros Hw. apply Z.bits_inj. intros i. rewrite Z.land_spec.
    destruct (Z.testbit w i) eqn:Hi; [by rewrite Hw|apply andb_false_r].
Qed.
Lemma chord_flags `{MacOs} e :
  Z.land (ke_flags e) (Z.lor (flag_bit Cmd) (flag_bit Shift)) = Z.lor (flag_bit Cmd) (flag_bit Shift) ↔
  ∀ i, Z.testbit (flag_bit Cmd) i || Z.testbit (flag_bit Shift) i = true →
       Z.testbit (ke_flags e) i = true.
Proof. rewrite land_covers. by setoid_rewrite Z.lor_spec. Qed.

Lemma hear_engaged `{MacOs} key_down ks k :
  is_engaged (foldl (hear key_down) k ks) = true ↔
  is_engaged k = true ∨ Exists (is_chord key_down) ks.
Proof.
  revert k. induction ks as [|e ks IH]; intros k; simpl; [rewrite Exists_nil; tauto|].
  rewrite IH, Exists_cons. unfold hear, tap_callback, is_chord, KVK_ESCAPE_KEYCODE.
  rewrite <-chord_flags. case_decide as Hc; [|tauto].
  split; [intros _; right; by left|]. by left.
Qed.

(** C31: the kill-switch listener.  The switch, as the handle is dropped, is
    engaged exactly when it was to begin with or the tap has reported
    Cmd+Shift+Esc going down (other modifiers may be held as well).  Dropping
    the handle comes back, whatever happens in between, if the system refuses
    the tap or its source or the thread was already in its run loop; dropped
    before the thread has published its run loop, there is nothing to stop and
    the owner never gets past [join].  Dropped between the two, it depends on
    whether a loop stopped before it runs remembers that ([early_stop]). *)
Theorem listener_drop `{MacOs} key_down granted sourced early_stop k ms l l1 :
  listener_moves key_down granted sourced early_stop ms (spawn_kill_switch_listener k) = Some l →
  listener_move key_down granted sourced early_stop HandleDropped l = Some l1 →
  (is_engaged (switch l1) = true ↔
     is_engaged k = true ∨ Exists (is_chord key_down) (keys_of ms)) ∧
  ∀ ms' l2, listener_moves key_down granted sourced early_stop ms' l1 = Some l2 →
    if drop_returns granted sourced early_stop (thread l)
    then ∃ ms'' l3, listener_moves key_down granted sourced early_stop ms'' l2 = Some l3 ∧
                    owner l3 = Dropped
    else owner l2 = Joining.
Proof.
  intros Hm Hd.
  assert (owner l = Holding) as Ho.
  { simpl in Hd. unfold handle_dropped in Hd. by destruct (owner l). }
  split.
  - rewrite <-(hear_engaged key_down). change k with (switch (spawn_kill_switch_listener k)).
    rewrite <-(switch_hears _ _ _ _ _ _ _ Hm).
    simpl in Hd. unfold handle_dropped in Hd. rewrite Ho in Hd. by simplify_eq/=.
  - intros ms' l2 Hm'.
    assert (listener_inv l) as Hi.
    { eapply listener_inv_moves; [|exact Hm]. split_and!; simpl; naive_solver. }
    pose proof (dropped_there _ _ _ _ _ _ Hi Ho Hd) as Hr.
    destruct (drop_returns granted sourced early_stop (thread l)).
    + eapply will_return_reaches, will_return_moves; [exact Hr|exact Hm'].
    + by destruct (waits_forever_moves _ _ _ _ _ _ _ Hr Hm') as [? _].
Qed.

(** ** Waiting for the switch

    [engaged_at] and [now_at] are what the n-th look at the switch and at the
    clock find; the clock is read once for the deadline before the loop. *)

Section wait.
Context (engaged_at : nat → bool) (now_at : nat → Z) (deadline : Z).

(* src: crates/vcli-input/src/kill_switch.rs 69-81 KillSwitchObserver::wait_until_engaged *)
Fixpoint wait_loop (fuel n : nat) : option bool :=
  match fuel with
  | O => None
  | S fuel =>
      if engaged_at n then Some true
      else if (deadline <=? now_at n)%Z then Some false
      else wait_loop fuel (S n)
  end.

Lemma wait_loop_spec fuel n b :
  wait_loop fuel n = Some b →
  ∃ m, n ≤ m ∧ (∀ i, n ≤ i < m → engaged_at i = false ∧ (now_at i < deadline)%Z) ∧
    engaged_at m = b ∧ (b = false → (deadline <= now_at m)%Z).
Proof.
  revert n. induction fuel as [|fuel IH]; intros n Hw; simplify_eq/=.
  destruct (engaged_at n) eqn:He; [|destruct (deadline <=? now_at n)%Z eqn:Hd]; simplify_eq.
  - exists n. split_and!; [done|lia|done|done].
  - exists n. apply Z.leb_le in Hd. split_and!; [done|lia|done|done].
  - destruct (IH (S n) Hw) as (m & Hm & Hb & ? & ?). exists m. split_and!; [lia| |done|done].
    apply Z.leb_gt in Hd. intros i Hi. destruct (decide (i = n)) as [->|]; [done|]. apply Hb. lia.
Qed.

(** A clock that gets to the deadline at its [k]-th look ends the wait. *)
Lemma wait_loop_ends k n :
  (deadline <= now_at (n + k))%Z → ∀ fuel, k < fuel → ∃ b, wait_loop fuel n = Some b.
Proof.
  revert n. induction k as [|k IH]; intros n Hk [|fuel] Hf; try lia; simpl.
  - rewrite Nat.add_0_r in Hk. apply Z.leb_le in Hk as ->. by destruct (engaged_at n); eauto.
  - destruct (engaged_at n); [by eauto|]. destruct (deadline <=? now_at n)%Z; [by eauto|].
    apply IH; [|lia]. by replace (S n + k) with (n + S k) by lia.
Qed.
End wait.

(** [SystemTime::now()] in nanoseconds, its low 64 bits. *)
(* src: crates/vcli-input/src/kill_switch.rs 84-92 duration_since_boot_ns *)
Definition duration_since_boot_ns (system_time : Z) : Z :=
  if decide (system_time < 0)%Z then 0 else Z.land system_time u64_max.
Lemma duration_since_boot_ns_u64 t : in_u64 (duration_since_boot_ns t).
Proof.
  unfold duration_since_boot_ns. case_decide; [unfold_ints; lia|].
  change u64_max with (Z.ones 64). rewrite Z.land_ones by lia.
  pose proof (Z.mod_pos_bound t (2 ^ 64)). unfold_ints. lia.
Qed.

(** ** A handle dropped in time, and one dropped too early *)

#[local] Existing Instance demo_mac.

Definition chord : KeyEvent :=
  mkKeyEvent 10 KVK_ESCAPE_KEYCODE (Z.lor (flag_bit Cmd) (flag_bit Shift)) 7.
Definition demo_moves : list ListenerMove := [ThreadMoves; ThreadMoves; ThreadMoves; KeyPressed chord].
Lemma listener_drop_witness :
  (∃ l l1, listener_moves 10 true true false demo_moves (spawn_kill_switch_listener KillSwitch_new)
             = Some l ∧
     listener_move 10 true true false HandleDropped l = Some l1 ∧ is_engaged (switch l1) = true ∧
     ∃ ms l3, listener_moves 10 true true false ms l1 = Some l3 ∧ owner l3 = Dropped) ∧
  ∃ l1, listener_move 10 true true false HandleDropped (spawn_kill_switch_listener KillSwitch_new)
          = Some l1 ∧ is_engaged (switch l1) = false ∧
    ∀ ms l2, listener_moves 10 true true false ms l1 = Some l2 → owner l2 = Joining.
Proof.
  split.
  - assert (listener_moves 10 true true false demo_moves (spawn_kill_switch_listener KillSwitch_new)
            = Some (mkListener Looping Holding true false (mkKillSwitch true 7))) as Hm
      by (vm_compute; reflexivity).
    destruct (listener_drop 10 true true false KillSwitch_new demo_moves _ _ Hm eq_refl)
      as [Hsw Hdrop].
    eexists _, _. split; [exact Hm|]. split; [reflexivity|]. split; [|exact (Hdrop [] _ eq_refl)].
    apply Hsw. right. repeat constructor. intros i Hi. unfold chord. cbn [ke_flags].
    by rewrite Z.lor_spec.
  - destruct (listener_drop 10 true true false KillSwitch_new [] _ _ eq_refl eq_refl) as [_ Hdrop].
    eexists. split; [reflexivity|]. split; [reflexivity|]. exact Hdrop.
Defined.
