(* ===== verification/Conform.v ===== *)
(** * The repository's own tests, run on the model

    What the files named [Conform...] share.  Each of them restates the unit
    tests of a crate as definitions, test by test under the names of the
    source, and runs them on the model: a test is the conjunction of its
    assertions, and [passes] says that it holds.  A helper of the test modules
    is a definition too.

    The crates behind the model's parameters are given here by functions that
    do on the tests' inputs what those crates do: a JSON reader and writer,
    decimal floats, hyphenated UUIDs.  A test that exercises only such a crate,
    a thread, a real clock or a real file system is left out. *)

From S2P Require Import Prelude Digits Json CoreTypes Sha256 Canonical Serde EventWire ProgramWire.

Local Open Scope vcli_scope.

(** ** Assertions *)

Abbreviation test := bool (only parsing).

Definition assert_eq {A} `{EqDecision A} (x y : A) : test := bool_decide (x = y).
Definition assert_ne {A} `{EqDecision A} (x y : A) : test := bool_decide (x ≠ y).
Definition is_err {E A} (r : result E A) : test := match r with Err _ => true | Ok _ => false end.
Definition should_panic {A} (m : outcome A) : test := match m with Panic => true | _ => false end.

(** JSON values are compared member by member, in their order. *)
Fixpoint value_eq_dec (v w : Value) : Decision (v = w).
Proof.
  assert (∀ k k' : string * Value, Decision (k = k')) as Hm.
  { intros [k x] [k' y].
    refine (cast_if_and (decide (k = k')) (value_eq_dec x y)); congruence. }
  refine (match v, w with
  | Null, Null => left eq_refl
  | Bool b, Bool b' => cast_if (decide (b = b'))
  | Num n, Num n' => cast_if (decide (n = n'))
  | Str s, Str s' => cast_if (decide (s = s'))
  | Arr a, Arr b => cast_if (@list_eq_dec Value value_eq_dec a b)
  | Obj l, Obj m => cast_if (@list_eq_dec (string * Value) Hm l m)
  | _, _ => right _
  end); congruence.
Defined.
#[export] Instance Value_eq_dec : EqDecision Value := value_eq_dec.

#[export] Instance outcome_eq_dec A `{EqDecision A} : EqDecision (outcome A).
Proof. solve_decision. Defined.

(** What [unwrap], [expect] and [?] get at; without a value the test fails. *)
Class Unwrap (M : Type → Type) := unwrapped : ∀ {A}, M A → option A.
#[export] Instance unwrap_option : Unwrap option := λ A o, o.
#[export] Instance unwrap_result E : Unwrap (result E) := λ A r, result_ok r.
#[export] Instance unwrap_outcome : Unwrap outcome :=
  λ A m, match m with Ret a => Some a | _ => None end.

Notation "'let_ok' p ':=' m 'in' t" := (match unwrapped m with Some p => t | _ => false end)
  (at level 200, p pattern at level 0, m at level 100, t at level 200,
   format "'let_ok'  p  ':='  m  'in' '//' t") : vcli_scope.

Fixpoint contains (needle hay : string) : bool :=
  match strip_prefix needle hay with
  | Some _ => true
  | None => match hay with String _ hay => contains needle hay | EmptyString => false end
  end.

(** A text with single quotes for double ones. *)
Definition double_quote : ascii := Ascii.ascii_of_nat 34.
Fixpoint js (s : string) : string :=
  match s with
  | String a s => String (if decide (a = "'"%char) then double_quote else a) (js s)
  | EmptyString => ""
  end.

(** ** Decimal floats

    Exact on decimals of at most 15 digits with at most 22 of them after the
    point: both parts of the quotient are exact then, and it is rounded once. *)

Definition f64_dec (m : Z) (k : nat) : f64 := f64_div (f64_of_Z m) (f64_of_Z (10 ^ Z.of_nat k)).

(** [f] times [10^k], to the nearest integer. *)
Definition scaled (f : f64) (k : nat) : Z :=
  match f with
  | S754_finite b p e =>
      let n := (Z.pos p * 10 ^ Z.of_nat k)%Z in
      let q := if (0 <=? e)%Z then (n * 2 ^ e)%Z
               else ((2 * n + 2 ^ (- e)) / 2 ^ (- e + 1))%Z in
      if b then (- q)%Z else q
  | _ => 0%Z
  end.

Definition zeros (n : nat) : string := String.concat "" (replicate n "0").
Definition point (z : Z) (k : nat) : string :=
  let s := pretty (Z.abs z) in
  let s := zeros (S k - String.length s) +:+ s in
  let i := String.length s - k in
  (if (z <? 0)%Z then "-" else "") +:+ String.substring 0 i s +:+ "." +:+ String.substring i k s.

(** The fewest decimals that read back. *)
Fixpoint shortest (fuel k : nat) (f : f64) : string :=
  match fuel with
  | O => ""
  | S fuel => if decide (f64_dec (scaled f k) k = f) then point (scaled f k) k
              else shortest fuel (S k) f
  end.
Definition dec_format (f : f64) : string :=
  match f with S754_zero b => if b then "-0.0" else "0.0" | _ => shortest 20 1 f end.
Definition dec_ops : RyuOps := {| ryu_format := dec_format |}.

(** ** A JSON reader and writer *)

Definition space (a : ascii) : bool := bool_decide (Ascii.nat_of_ascii a ∈ [32; 9; 10; 13]).
Fixpoint skip (s : string) : string :=
  match s with String a t => if space a then skip t else s | EmptyString => "" end.

Definition num_char (a : ascii) : bool :=
  digit_char a || bool_decide (a = "-"%char) || bool_decide (a = "."%char).
Fixpoint span (p : ascii → bool) (s : string) : string * string :=
  match s with
  | String a t => if p a then let '(x, r) := span p t in (String a x, r) else ("", s)
  | EmptyString => ("", "")
  end.

Definition number_of_token (s : string) : option Number :=
  let '(neg, t) := match s with String "-" t => (true, t) | _ => (false, s) end in
  let '(a, b) := span digit_char t in
  let sign := (if neg then -1 else 1)%Z in
  match a, b with
  | EmptyString, _ => None
  | _, EmptyString => z ← digits_value 0 a; Some (number_of_int (sign * z))
  | _, String "." b =>
      if decide (b = "") then None
      else z ← digits_value 0 (a +:+ b);
           Some (number_of_f64 (f64_dec (sign * z) (String.length b)))
  | _, _ => None
  end.

Definition unescape (a : ascii) : option ascii :=
  if decide (a = "n"%char) then Some (Ascii.ascii_of_nat 10)
  else if decide (a = "t"%char) then Some (Ascii.ascii_of_nat 9)
  else if decide (a = "r"%char) then Some (Ascii.ascii_of_nat 13)
  else if decide (a = double_quote ∨ a = "\"%char ∨ a = "/"%char) then Some a
  else None.
Fixpoint read_string (s : string) : option (string * string) :=
  match s with
  | String a t =>
      if decide (a = double_quote) then Some ("", t)
      else if decide (a = "\"%char) then
        match t with
        | String b t => b ← unescape b; '(x, r) ← read_string t; Some (String b x, r)
        | EmptyString => None
        end
      else '(x, r) ← read_string t; Some (String a x, r)
  | EmptyString => None
  end.

Section reading.
Context {A : Type} (item : string → option (A * string)) (close : ascii).
Fixpoint read_items (n : nat) (s : string) : option (list A * string) :=
  match n with
  | O => None
  | S n =>
      '(x, r) ← item (skip s);
      match skip r with
      | String c r =>
          if decide (c = close) then Some ([x], r)
          else if decide (c = ","%char) then '(l, r) ← read_items n r; Some (x :: l, r)
          else None
      | EmptyString => None
      end
  end.
Definition read_list (s : string) : option (list A * string) :=
  match skip s with
  | String c r => if decide (c = close) then Some ([], r)
                  else read_items (String.length s) s
  | EmptyString => None
  end.
End reading.

Definition read_entry (item : string → option (Value * string)) (s : string)
    : option ((string * Value) * string) :=
  match s with
  | String a t =>
      if decide (a = double_quote) then
        '(k, r) ← read_string t;
        match skip r with
        | String ":" r => '(v, r) ← item (skip r); Some ((k, v), r)
        | _ => None
        end
      else None
  | EmptyString => None
  end.

Fixpoint read_value (n : nat) (s : string) : option (Value * string) :=
  match n, s with
  | S n, String c t =>
      if decide (c = double_quote) then '(x, r) ← read_string t; Some (Str x, r)
      else if decide (c = "["%char) then '(l, r) ← read_list (read_value n) "]" t; Some (Arr l, r)
      else if decide (c = "{"%char) then
        '(m, r) ← read_list (read_entry (read_value n)) "}" t;
        (* a later entry replaces an earlier one in its place *)
        Some (Obj (foldl (λ m kv, match list_find (λ e, e.1 = kv.1) m with
                                  | Some (i, _) => <[i := kv]> m
                                  | None => m ++ [kv]
                                  end) [] m), r)
      else match strip_prefix "null" s, strip_prefix "true" s, strip_prefix "false" s with
           | Some r, _, _ => Some (Null, r)
           | _, Some r, _ => Some (Bool true, r)
           | _, _, Some r => Some (Bool false, r)
           | _, _, _ => let '(x, r) := span num_char s in v ← number_of_token x; Some (Num v, r)
           end
  | _, _ => None
  end.
Definition parse_json (s : string) : result string Value :=
  match read_value (S (String.length s)) (skip s) with
  | Some (v, r) => if decide (skip r = "") then Ok v else Err "trailing characters"
  | None => Err "expected value"
  end.

Definition escape (a : ascii) : string :=
  if decide (a = double_quote ∨ a = "\"%char) then String "\" (String a "")
  else if decide (a = Ascii.ascii_of_nat 10) then "\n"
  else if decide (a = Ascii.ascii_of_nat 9) then "\t"
  else String a "".
Definition string_json (s : string) : string :=
  String double_quote (String.concat "" (map escape (String.list_ascii_of_string s)) +:+ String double_quote "").
Fixpoint value_json (v : Value) : string :=
  match v with
  | Null => "null"
  | Bool b => if b then "true" else "false"
  | Num n => match as_i64 n, as_u64 n, as_f64 n with
             | Some z, _, _ | None, Some z, _ => pretty z
             | None, None, Some f => dec_format f
             | None, None, None => ""
             end
  | Str s => string_json s
  | Arr a => "[" +:+ String.concat "," (map value_json a) +:+ "]"
  | Obj m => "{" +:+ String.concat "," (map (λ kv, string_json kv.1 +:+ ":" +:+ value_json kv.2) m) +:+ "}"
  end.
Definition std_json : JsonText := {| json_to_string := value_json; json_from_str := parse_json |}.

(** [json!(..)] *)
Definition json (s : string) : Value := match parse_json (js s) with Ok v => v | Err _ => Null end.
Definition num (z : Z) : Value := Num (number_of_int z).

(** ** UUIDs *)

Definition hex_digit (n : Z) : ascii :=
  Ascii.ascii_of_nat (Z.to_nat (if (n <? 10)%Z then 48 + n else 87 + n)).
Fixpoint hex_digits (k : nat) (n : Z) : string :=
  match k with O => "" | S k => hex_digits k (n / 16) +:+ String (hex_digit (n mod 16)) "" end.
Definition hyphenated (n : N) : string :=
  let s := hex_digits 32 (Z.of_N n) in
  String.concat "-" [String.substring 0 8 s; String.substring 8 4 s; String.substring 12 4 s;
                     String.substring 16 4 s; String.substring 20 12 s].
Definition hex_value (a : ascii) : option Z :=
  let n := Z.of_nat (Ascii.nat_of_ascii a) in
  if decide (48 ≤ n ≤ 57)%Z then Some (n - 48)%Z
  else if decide (97 ≤ n ≤ 102)%Z then Some (n - 87)%Z
  else if decide (65 ≤ n ≤ 70)%Z then Some (n - 55)%Z else None.
Definition parse_hyphenated (s : string) : option N :=
  let cs := String.list_ascii_of_string s in
  if decide (length cs = 36 ∧ Forall (λ i, cs !! i = Some "-"%char) [8; 13; 18; 23])
  then Z.to_N <$> foldl (λ acc a, n ← acc; if decide (a = "-"%char) then Some n
                                  else d ← hex_value a; Some (16 * n + d)%Z) (Some 0%Z) cs
  else None.
Definition hex_uuid : UuidOps := {| uuid_display := hyphenated; uuid_parse := parse_hyphenated |}.

#[export] Instance conform_uuid : UuidOps := hex_uuid.
#[export] Instance conform_json : JsonText := std_json.
#[export] Instance conform_ryu : RyuOps := dec_ops.
#[export] Instance conform_nfc : NfcOps := {| nfc s := s |}.

(** [serde_json::to_string] and [serde_json::from_str] of a type. *)
Definition to_text {A} (w : A → Value) (x : A) : string := json_to_string (w x).
Definition from_text {A} (r : Value → option A) (s : string) : option A :=
  v ← result_ok (json_from_str s); r v.
Definition roundtrips {A} `{EqDecision A} (w : A → Value) (r : Value → option A) (x : A) : test :=
  let_ok back := from_text r (to_text w x) in assert_eq back x.

Example conform_json_demo :
  json_to_string (json "{'a': [1, -2, 0.1, 25.0, -0.125], 'b': null, 'a': {'x': true}}")
    = js "{'a':{'x':true},'b':null}" ∧
  json_to_string (json "[1, -2, 0.1, 25.0, -0.125, 'x\ny']") = js "[1,-2,0.1,25.0,-0.125,'x\ny']".
Proof. split; vm_compute; reflexivity. Qed.
Example conform_uuid_demo :
  uuid_display <$> uuid_parse "12345678-1234-4567-8910-111213141516"
    = Some "12345678-1234-4567-8910-111213141516".
Proof. vm_compute. reflexivity. Qed.
