(* ===== verification/ConformCore.v ===== *)
(** * Conformance: vcli-core

    The unit tests of [vcli-core/src], run on the model. *)

From S2P Require Import Prelude Digits Json CoreTypes Sha256 Canonical Serde EventWire ProgramWire.
From S2P Require Import IpcWire FrameView Input Clock Conform.

Local Open Scope vcli_scope.

#[export] Instance ErrorPayload_eq_dec : EqDecision ErrorPayload.
Proof. solve_decision. Defined.
#[export] Instance EventData_eq_dec : EqDecision EventData.
Proof. solve_decision. Defined.
#[export] Instance Event_eq_dec : EqDecision Event.
Proof. solve_decision. Defined.
#[export] Instance FrameFormat_eq_dec : EqDecision FrameFormat.
Proof. solve_decision. Defined.
#[export] Instance Trigger_eq_dec : EqDecision Trigger.
Proof. solve_decision. Defined.
#[export] Instance WatchWhen_eq_dec : EqDecision WatchWhen.
Proof. solve_decision. Defined.
#[export] Instance Lifetime_eq_dec : EqDecision Lifetime.
Proof. solve_decision. Defined.
#[export] Instance Watch_eq_dec : EqDecision Watch.
Proof. solve_decision. Defined.
#[export] Instance Program_eq_dec : EqDecision Program.
Proof. solve_decision. Defined.

(** ** action.rs *)

(* src: crates/vcli-core/src/action.rs 83-94 click_roundtrip *)
Definition click_roundtrip : test :=
  let a := ActClick (mkPoint 10 20) LeftButton in
  let j := to_text InputAction_to_value a in
  contains (js "'kind':'click'") j && contains (js "'button':'left'") j &&
  let_ok back := from_text InputAction_from_value j in assert_eq back a.
(* src: crates/vcli-core/src/action.rs 96-103 type_roundtrip *)
Definition type_roundtrip : test :=
  roundtrips InputAction_to_value InputAction_from_value (ActType "hello").
(* src: crates/vcli-core/src/action.rs 105-114 key_chord_roundtrip *)
Definition key_chord_roundtrip : test :=
  let a := ActKey "s" [Cmd; Shift] in
  let j := to_text InputAction_to_value a in
  let_ok back := from_text InputAction_from_value j in assert_eq back a.
(* src: crates/vcli-core/src/action.rs 116-124 key_without_modifiers_omits_field *)
Definition key_without_modifiers_omits_field : test :=
  negb (contains "modifiers" (to_text InputAction_to_value (ActKey "return" []))).
(* src: crates/vcli-core/src/action.rs 126-137 scroll_uses_default_zero_axes *)
Definition scroll_uses_default_zero_axes : test :=
  let j := js "{'kind':'scroll','at':{'x':0,'y':0},'dy':-40}" in
  let_ok a := from_text InputAction_from_value j in
  match a with
  | ActScroll _ dx dy => assert_eq dx 0%Z && assert_eq dy (-40)%Z
  | _ => false
  end.
(* src: crates/vcli-core/src/action.rs 139-146 move_roundtrip *)
Definition move_roundtrip : test :=
  roundtrips InputAction_to_value InputAction_from_value (ActMove (mkPoint 5 5)).

Example action_tests :
  [click_roundtrip; type_roundtrip; key_chord_roundtrip; key_without_modifiers_omits_field;
   scroll_uses_default_zero_axes; move_roundtrip] = replicate 6 true.
Proof. vm_compute. reflexivity. Qed.

(** ** canonical.rs *)

(** [canonicalize(&v).unwrap()] *)
Definition canon (v : Value) : option string := result_ok (canonicalize v).

(* src: crates/vcli-core/src/canonical.rs 314-319 keys_sorted_lexicographically *)
Definition keys_sorted_lexicographically : test :=
  assert_eq (canon (json "{'b': 1, 'a': 2, 'c': {'z': 1, 'a': 2}}"))
    (Some (js "{'a':2,'b':1,'c':{'a':2,'z':1}}")).
(* src: crates/vcli-core/src/canonical.rs 321-326 integers_as_plain_decimal *)
Definition integers_as_plain_decimal : test :=
  assert_eq (canon (json "{'n': 42, 'z': 0, 'neg': -7}")) (Some (js "{'n':42,'neg':-7,'z':0}")).
(* src: crates/vcli-core/src/canonical.rs 328-334 floats_via_ryu *)
Definition floats_via_ryu : test :=
  assert_eq (canon (json "{'x': 0.1}")) (Some (js "{'x':0.1}")).
(* src: crates/vcli-core/src/canonical.rs 336-341 empty_containers_emit_correctly *)
Definition empty_containers_emit_correctly : test :=
  assert_eq (canon (json "[]")) (Some "[]") && assert_eq (canon (json "{}")) (Some "{}") &&
  assert_eq (canon (json "null")) (Some "null").
(** The text between the quotes is [hello], a newline, [world], a tab and
    [yes] in quotes. *)
(* src: crates/vcli-core/src/canonical.rs 343-347 strings_escape_minimally *)
Definition strings_escape_minimally : test :=
  let nl := Ascii.ascii_of_nat 10 in let tab := Ascii.ascii_of_nat 9 in
  assert_eq (canon (Str ("hello" +:+ String nl ("world" +:+ String tab (js "'yes'")))))
    (Some (js "'hello\nworld\t\'yes\''")).
(* src: crates/vcli-core/src/canonical.rs 359-364 same_semantic_value_same_hash *)
Definition same_semantic_value_same_hash : test :=
  let_ok a := predicate_hash (json "{'b': 1, 'a': 2}") in
  let_ok b := predicate_hash (json "{'a': 2, 'b': 1}") in
  assert_eq a b.
(* src: crates/vcli-core/src/canonical.rs 366-371 different_values_different_hash *)
Definition different_values_different_hash : test :=
  let_ok a := predicate_hash (json "{'a': 1}") in
  let_ok b := predicate_hash (json "{'a': 2}") in
  assert_ne a b.
(* src: crates/vcli-core/src/canonical.rs 373-381 sha256_matches_known_vector_empty *)
Definition sha256_matches_known_vector_empty : test :=
  assert_eq (sha256_hex [])
    "e3b0c44298fc1c149afbf4c8996fb92427ae41e4649b934ca495991b7852b855".
(* src: crates/vcli-core/src/canonical.rs 383-391 sha256_matches_known_vector_abc *)
Definition sha256_matches_known_vector_abc : test :=
  assert_eq (sha256_hex [97; 98; 99]%Z)
    "ba7816bf8f01cfea414140de5dae2223b00361a396177a9cb410ff61f20015ad".
(* src: crates/vcli-core/src/canonical.rs 393-398 predicate_hash_hex_is_64_chars *)
Definition predicate_hash_hex_is_64_chars : test :=
  let_ok h := predicate_hash (json "{'x': 1}") in
  assert_eq (String.length h) 64 &&
  forallb (λ c, bool_decide (is_Some (hex_value c))) (String.list_ascii_of_string h).

Example canonical_tests :
  [keys_sorted_lexicographically; integers_as_plain_decimal; floats_via_ryu;
   empty_containers_emit_correctly; strings_escape_minimally; same_semantic_value_same_hash;
   different_values_different_hash; sha256_matches_known_vector_empty;
   sha256_matches_known_vector_abc; predicate_hash_hex_is_64_chars] = replicate 10 true.
Proof. vm_compute. reflexivity. Qed.

(** ** clock.rs

    [Duration]s are nanoseconds. *)

Definition from_millis (ms : Z) : Z := (ms * 1000000)%Z.

(* src: crates/vcli-core/src/clock.rs 144-149 test_clock_starts_at_zero_monotonic *)
Definition test_clock_starts_at_zero_monotonic : test :=
  let c := TestClock_at_unix_ms 1700000000000 in
  assert_eq (tc_now c) 0%Z && assert_eq (tc_unix_ms c) 1700000000000%Z.
(* src: crates/vcli-core/src/clock.rs 151-160 test_clock_advance_moves_both_readings *)
Definition test_clock_advance_moves_both_readings : test :=
  let c := TestClock_at_unix_ms 0 in
  let c := advance_by (from_millis 1000) c in
  assert_eq (tc_now c) (from_millis 1000) && assert_eq (tc_unix_ms c) 1000%Z &&
  let c := advance_by (from_millis 250) c in
  assert_eq (tc_now c) (from_millis 1250) && assert_eq (tc_unix_ms c) 1250%Z.

Example clock_tests :
  [test_clock_starts_at_zero_monotonic; test_clock_advance_moves_both_readings] = replicate 2 true.
Proof. vm_compute. reflexivity. Qed.

(** ** error.rs *)

(* src: crates/vcli-core/src/error.rs 103-125 code_serializes_snake_case *)
Definition code_serializes_snake_case : test :=
  forallb (λ '(c, s),
    assert_eq (ErrorCode_as_str c) s &&
    let j := to_text ErrorCode_to_value c in
    assert_eq j (js ("'" +:+ s +:+ "'")) &&
    let_ok back := from_text ErrorCode_from_value j in assert_eq back c)
  [(InvalidProgram, "invalid_program"); (UnknownProgramCode, "unknown_program");
   (BadStateTransitionCode, "bad_state_transition"); (PermissionDeniedCode, "permission_denied");
   (CaptureFailedCode, "capture_failed"); (DaemonBusy, "daemon_busy");
   (NotResumableCode, "not_resumable"); (ResumePreconditionFailed, "resume_precondition_failed");
   (InternalCode, "internal")].
(* src: crates/vcli-core/src/error.rs 127-137 simple_payload_omits_optional_fields *)
Definition simple_payload_omits_optional_fields : test :=
  let j := to_text ErrorPayload_to_value (ErrorPayload_simple UnknownProgramCode "not found") in
  contains (js "'code':'unknown_program'") j &&
  negb (contains "path" j) && negb (contains "line" j) && negb (contains "column" j) &&
  negb (contains "span_len" j) && negb (contains "hint" j).
(* src: crates/vcli-core/src/error.rs 139-152 full_payload_roundtrip *)
Definition full_payload_roundtrip : test :=
  roundtrips ErrorPayload_to_value ErrorPayload_from_value
    {| ep_code := InvalidProgram; ep_message := "unknown predicate 'skp_visible'";
       ep_path := Some "watches[0].when"; ep_line := Some 12%Z; ep_column := Some 18%Z;
       ep_span_len := Some 12%Z; ep_hint := Some "skip_visible" |}.

Example core_error_tests :
  [code_serializes_snake_case; simple_payload_omits_optional_fields; full_payload_roundtrip]
  = replicate 3 true.
Proof. vm_compute. reflexivity. Qed.

(** ** events.rs *)

(* src: crates/vcli-core/src/events.rs 150-152 sample_program_id *)
Definition sample_program_id : ProgramId :=
  default (mkProgramId 0) (ProgramId_from_str "12345678-1234-4567-8910-111213141516").
Definition event_roundtrips : Event → test := roundtrips Event_to_value Event_from_value.

(* src: crates/vcli-core/src/events.rs 154-168 program_submitted_serializes_with_typed_tag *)
Definition program_submitted_serializes_with_typed_tag : test :=
  let e := mkEvent 1700000000000 (ProgramSubmitted sample_program_id "yt") in
  let j := to_text Event_to_value e in
  contains (js "'type':'program.submitted'") j && contains (js "'name':'yt'") j &&
  let_ok back := from_text Event_from_value j in assert_eq back e.
(* src: crates/vcli-core/src/events.rs 170-181 program_completed_omits_emit_when_none *)
Definition program_completed_omits_emit_when_none : test :=
  negb (contains (js "'emit'")
          (to_text Event_to_value (mkEvent 0 (ProgramCompleted sample_program_id None)))).
(* src: crates/vcli-core/src/events.rs 183-196 program_failed_carries_optional_step_and_emit *)
Definition program_failed_carries_optional_step_and_emit : test :=
  event_roundtrips (mkEvent 0 (ProgramFailed sample_program_id "wait_for timed out" (Some "body[2]")
                                 (Some "buy_failed"))).
(* src: crates/vcli-core/src/events.rs 198-210 watch_fired_roundtrip *)
Definition watch_fired_roundtrip : test :=
  event_roundtrips (mkEvent 1 (WatchFired sample_program_id 0 "skip_visible")).
(* src: crates/vcli-core/src/events.rs 212-225 stream_dropped_roundtrip *)
Definition stream_dropped_roundtrip : test :=
  let e := mkEvent 2 (StreamDropped 5 100) in
  let j := to_text Event_to_value e in
  contains (js "'type':'stream.dropped'") j &&
  let_ok back := from_text Event_from_value j in assert_eq back e.
(* src: crates/vcli-core/src/events.rs 227-244 daemon_pressure_and_frame_skipped_roundtrip *)
Definition daemon_pressure_and_frame_skipped_roundtrip : test :=
  forallb event_roundtrips [mkEvent 0 (DaemonPressure 90); mkEvent 0 (TickFrameSkipped "capture_overrun")].
(* src: crates/vcli-core/src/events.rs 246-263 daemon_started_stopped_roundtrip *)
Definition daemon_started_stopped_roundtrip : test :=
  forallb event_roundtrips [mkEvent 1 (DaemonStarted "0.0.1"); mkEvent 2 DaemonStopped].

Example events_tests :
  [program_submitted_serializes_with_typed_tag; program_completed_omits_emit_when_none;
   program_failed_carries_optional_step_and_emit; watch_fired_roundtrip; stream_dropped_roundtrip;
   daemon_pressure_and_frame_skipped_roundtrip; daemon_started_stopped_roundtrip] = replicate 7 true.
Proof. vm_compute. reflexivity. Qed.

(** ** frame.rs *)

(* src: crates/vcli-core/src/frame.rs 91-104 sample *)
Definition sample : outcome Frame :=
  Frame_new Bgra8 (mkRect 0 0 4 2) (4 * 4) (replicate (4 * 4 * 2) 0%Z) 123.
(* src: crates/vcli-core/src/frame.rs 106-110 bytes_per_pixel_matches_format *)
Definition bytes_per_pixel_matches_format : test :=
  assert_eq (bytes_per_pixel Bgra8) 4%Z && assert_eq (bytes_per_pixel Rgba8) 4%Z.
(* src: crates/vcli-core/src/frame.rs 112-120 new_stores_inputs_verbatim *)
Definition new_stores_inputs_verbatim : test :=
  let_ok f := sample in
  assert_eq (width f) 4%Z && assert_eq (height f) 2%Z && assert_eq (stride f) 16%Z &&
  assert_eq (format f) Bgra8 && assert_eq (captured_at_ns f) 123%Z.
(* src: crates/vcli-core/src/frame.rs 122-137 new_panics_on_too_small_buffer *)
Definition new_panics_on_too_small_buffer : test :=
  should_panic (Frame_new Bgra8 (mkRect 0 0 100 100) 400 (replicate 10 0%Z) 0).

Example frame_tests :
  [bytes_per_pixel_matches_format; new_stores_inputs_verbatim; new_panics_on_too_small_buffer]
  = replicate 3 true.
Proof. vm_compute. reflexivity. Qed.

(** ** geom.rs *)

(* src: crates/vcli-core/src/geom.rs 61-70 rect_center_is_correct_for_even_dims *)
Definition rect_center_is_correct_for_even_dims : test :=
  assert_eq (Rect_center (mkRect 0 0 100 40)) (mkPoint 50 20).
(* src: crates/vcli-core/src/geom.rs 72-81 rect_center_rounds_toward_zero_for_odd_dims *)
Definition rect_center_rounds_toward_zero_for_odd_dims : test :=
  assert_eq (Rect_center (mkRect 10 20 5 7)) (mkPoint 12 23).
(* src: crates/vcli-core/src/geom.rs 83-92 rect_top_left_reports_origin *)
Definition rect_top_left_reports_origin : test :=
  assert_eq (Rect_top_left (mkRect 3 4 10 10)) (mkPoint 3 4).
(* src: crates/vcli-core/src/geom.rs 94-106 rect_contains_is_inclusive_top_left_exclusive_bottom_right *)
Definition rect_contains_is_inclusive_top_left_exclusive_bottom_right : test :=
  let r := mkRect 0 0 10 10 in
  Rect_contains r (mkPoint 0 0) && Rect_contains r (mkPoint 9 9) &&
  negb (Rect_contains r (mkPoint 10 5)) && negb (Rect_contains r (mkPoint 5 10)).
(* src: crates/vcli-core/src/geom.rs 108-115 point_serde_roundtrip *)
Definition point_serde_roundtrip : test :=
  let p := mkPoint (-5) 7 in
  let j := to_text Point_to_value p in
  assert_eq j (js "{'x':-5,'y':7}") &&
  let_ok back := from_text Point_from_value j in assert_eq back p.
(* src: crates/vcli-core/src/geom.rs 117-128 rect_serde_roundtrip *)
Definition rect_serde_roundtrip : test :=
  roundtrips Rect_to_value Rect_from_value (mkRect 1 2 3 4).

Example geom_tests :
  [rect_center_is_correct_for_even_dims; rect_center_rounds_toward_zero_for_odd_dims;
   rect_top_left_reports_origin; rect_contains_is_inclusive_top_left_exclusive_bottom_right;
   point_serde_roundtrip; rect_serde_roundtrip] = replicate 6 true.
Proof. vm_compute. reflexivity. Qed.

(** ** ids.rs

    Without [fresh_ids_are_unique], which is about the UUIDs drawn. *)

(* src: crates/vcli-core/src/ids.rs 67-73 display_parse_roundtrip *)
Definition display_parse_roundtrip : test :=
  let_ok b := ProgramId_from_str (ProgramId_to_string sample_program_id) in
  assert_eq sample_program_id b.
(* src: crates/vcli-core/src/ids.rs 75-79 parse_rejects_garbage *)
Definition parse_rejects_garbage : test :=
  match ProgramId_from_str "not a uuid" with None => true | Some _ => false end.
(* src: crates/vcli-core/src/ids.rs 81-89 serde_transparent_wraps_uuid *)
Definition serde_transparent_wraps_uuid : test :=
  let j := to_text ProgramId_to_value sample_program_id in
  assert_eq (strip_prefix (js "'") j) (Some (ProgramId_to_string sample_program_id +:+ js "'")) &&
  let_ok back := from_text ProgramId_from_value j in assert_eq back sample_program_id.

Example ids_tests :
  [display_parse_roundtrip; parse_rejects_garbage; serde_transparent_wraps_uuid] = replicate 3 true.
Proof. vm_compute. reflexivity. Qed.

(** ** predicate.rs *)

Definition predicate_roundtrips : PredicateKind → test :=
  roundtrips PredicateKind_to_value (PredicateKind_from_value false).

(* src: crates/vcli-core/src/predicate.rs 141-150 template_kind_roundtrip_with_default_throttle *)
Definition template_kind_roundtrip_with_default_throttle : test :=
  let j := js "{'kind':'template','image':'assets/x.png','confidence':0.9,
                'region':{'kind':'absolute','box':{'x':0,'y':0,'w':10,'h':10}}}" in
  let_ok p := from_text (PredicateKind_from_value false) j in
  match p with Template _ _ _ throttle_ms => assert_eq throttle_ms 200%Z | _ => false end.
(* src: crates/vcli-core/src/predicate.rs 152-162 color_at_roundtrip *)
Definition color_at_roundtrip : test :=
  predicate_roundtrips (ColorAt (mkPoint 10 20) (mkRgb 255 0 128) 15).
(* src: crates/vcli-core/src/predicate.rs 164-181 pixel_diff_roundtrip *)
Definition pixel_diff_roundtrip : test :=
  predicate_roundtrips (PixelDiff (Absolute (mkRect 0 0 50 50)) "sha256:abcd" (f64_dec 5 2)).
(* src: crates/vcli-core/src/predicate.rs 183-198 all_of_and_any_of_and_not_roundtrips *)
Definition all_of_and_any_of_and_not_roundtrips : test :=
  forallb predicate_roundtrips [AllOf ["a"; "b"]; AnyOf ["a"]; NotP "a"].
(* src: crates/vcli-core/src/predicate.rs 200-209 elapsed_ms_since_true_roundtrip *)
Definition elapsed_ms_since_true_roundtrip : test :=
  predicate_roundtrips (ElapsedMsSinceTrue "visible" 500).
(* src: crates/vcli-core/src/predicate.rs 211-224 match_data_center_and_top_left *)
Definition match_data_center_and_top_left : test :=
  let m := mkMatchData (mkRect 10 10 40 20) (f64_dec 95 2) in
  assert_eq (MatchData_center m) (mkPoint 30 20) && assert_eq (MatchData_top_left m) (mkPoint 10 10).
(* src: crates/vcli-core/src/predicate.rs 226-235 predicate_result_no_match_serializes_without_match_field *)
Definition predicate_result_no_match_serializes_without_match_field : test :=
  negb (contains "match" (to_text PredicateResult_to_value (mkPredicateResult false None 1))).

Example predicate_tests :
  [template_kind_roundtrip_with_default_throttle; color_at_roundtrip; pixel_diff_roundtrip;
   all_of_and_any_of_and_not_roundtrips; elapsed_ms_since_true_roundtrip;
   match_data_center_and_top_left; predicate_result_no_match_serializes_without_match_field]
  = replicate 7 true.
Proof. vm_compute. reflexivity. Qed.

(** ** program.rs *)

Definition program_from : string → option Program := from_text Program_from_value.

(* src: crates/vcli-core/src/program.rs 99-99 YT_FIXTURE *)
Definition YT_FIXTURE : string := js "{
  'version': '0.1',
  'name': 'yt-ad-skipper',
  'trigger': { 'kind': 'on_submit' },
  'predicates': {
    'skip_visible': {
      'kind': 'template',
      'image': 'assets/yt_skip.png',
      'confidence': 0.9,
      'region': { 'kind': 'window', 'app': 'Safari', 'title_contains': 'YouTube' },
      'throttle_ms': 200
    }
  },
  'watches': [
    {
      'when': 'skip_visible',
      'do': [{ 'kind': 'click', 'at': '$skip_visible.match.center' }],
      'throttle_ms': 500,
      'lifetime': { 'kind': 'persistent' }
    }
  ],
  'body': [],
  'on_complete': { 'emit': 'ad_skipped' }
}".

(** The program of the last two tests, up to its priority. *)
Definition bare_program (priority : Priority) : Program := {|
  p_version := "0.1"; p_name := "x"; p_id := None; p_trigger := OnSubmit; p_predicates := ∅;
  p_watches := []; p_body := []; p_on_complete := None; p_on_fail := None; p_timeout_ms := None;
  p_labels := ∅; p_priority := priority;
|}.

(* src: crates/vcli-core/src/program.rs 101-105 dsl_version_major *)
Definition dsl_version_major : test :=
  assert_eq (DslVersion_major "0.1") "0" && assert_eq (DslVersion_major "1.2.3") "1".
(* src: crates/vcli-core/src/program.rs 107-118 yt_ad_skipper_fixture_parses *)
Definition yt_ad_skipper_fixture_parses : test :=
  let_ok p := program_from YT_FIXTURE in
  assert_eq (p_name p) "yt-ad-skipper" && assert_eq (p_version p) "0.1" &&
  assert_eq (size (p_predicates p)) 1 &&
  bool_decide (is_Some (p_predicates p !! "skip_visible")) &&
  assert_eq (length (p_watches p)) 1 && assert_eq (p_body p) [] &&
  assert_eq (p_on_complete p) (Some "ad_skipped") && assert_eq (p_priority p) 0%Z.
(* src: crates/vcli-core/src/program.rs 120-126 yt_ad_skipper_fixture_roundtrips *)
Definition yt_ad_skipper_fixture_roundtrips : test :=
  let_ok p := program_from YT_FIXTURE in roundtrips Program_to_value Program_from_value p.
(* src: crates/vcli-core/src/program.rs 128-149 priority_default_is_omitted_from_serialization *)
Definition priority_default_is_omitted_from_serialization : test :=
  negb (contains "priority" (to_text Program_to_value (bare_program 0))).
(* src: crates/vcli-core/src/program.rs 151-169 priority_nonzero_serializes *)
Definition priority_nonzero_serializes : test :=
  contains (js "'priority':5") (to_text Program_to_value (bare_program 5)).

Example program_tests :
  [dsl_version_major; yt_ad_skipper_fixture_parses; yt_ad_skipper_fixture_roundtrips;
   priority_default_is_omitted_from_serialization; priority_nonzero_serializes] = replicate 5 true.
Proof. vm_compute. reflexivity. Qed.

(** ** region.rs *)

(* src: crates/vcli-core/src/region.rs 83-100 absolute_roundtrip *)
Definition absolute_roundtrip : test :=
  let r := Absolute (mkRect 0 0 100 50) in
  let j := to_text Region_to_value r in
  assert_eq j (js "{'kind':'absolute','box':{'x':0,'y':0,'w':100,'h':50}}") &&
  let_ok back := from_text Region_from_value j in assert_eq back r.
(* src: crates/vcli-core/src/region.rs 102-112 window_minimal_roundtrip *)
Definition window_minimal_roundtrip : test :=
  roundtrips Region_to_value Region_from_value (Window "Safari" (Some "YouTube") None).
(* src: crates/vcli-core/src/region.rs 114-123 window_omits_none_fields *)
Definition window_omits_none_fields : test :=
  assert_eq (to_text Region_to_value (Window "Finder" None None))
    (js "{'kind':'window','app':'Finder'}").
(* src: crates/vcli-core/src/region.rs 125-136 window_index_roundtrip *)
Definition window_index_roundtrip : test :=
  let r := Window "Terminal" None (Some 2%Z) in
  let j := to_text Region_to_value r in
  (let_ok back := from_text Region_from_value j in assert_eq back r) &&
  contains (js "'window_index':2") j.
(* src: crates/vcli-core/src/region.rs 138-156 relative_to_with_defaults *)
Definition relative_to_with_defaults : test :=
  let_ok r := from_text Region_from_value (js "{'kind':'relative_to','predicate':'x'}") in
  match r with
  | RelativeTo predicate anchor offset size =>
      assert_eq predicate "x" && assert_eq anchor AnchorMatch &&
      assert_eq offset (mkPoint 0 0) && assert_eq size None
  | _ => false
  end.
(* src: crates/vcli-core/src/region.rs 158-169 relative_to_full_form_roundtrip *)
Definition relative_to_full_form_roundtrip : test :=
  roundtrips Region_to_value Region_from_value
    (RelativeTo "on_cart" AnchorMatch (mkPoint 0 40) (Some (mkSize 300 120))).
(* src: crates/vcli-core/src/region.rs 171-176 unknown_kind_fails_to_parse *)
Definition unknown_kind_fails_to_parse : test :=
  assert_eq (from_text Region_from_value (js "{'kind':'monitor_index','index':0}")) None.

Example region_tests :
  [absolute_roundtrip; window_minimal_roundtrip; window_omits_none_fields; window_index_roundtrip;
   relative_to_with_defaults; relative_to_full_form_roundtrip; unknown_kind_fails_to_parse]
  = replicate 7 true.
Proof. vm_compute. reflexivity. Qed.

(** ** state.rs *)

(* src: crates/vcli-core/src/state.rs 89-96 terminal_classification *)
Definition terminal_classification : test :=
  is_terminal Completed && is_terminal Failed && is_terminal Cancelled &&
  negb (is_terminal Running) && negb (is_terminal Waiting).
(* src: crates/vcli-core/src/state.rs 98-105 active_classification *)
Definition active_classification : test :=
  is_active Waiting && is_active Running && is_active Blocked &&
  negb (is_active Pending) && negb (is_active Completed).
(* src: crates/vcli-core/src/state.rs 107-121 display_parse_roundtrip *)
Definition state_display_parse_roundtrip : test :=
  forallb (λ s, let_ok back := ProgramState_from_str (ProgramState_as_str s) in assert_eq back s)
    [Pending; Waiting; Running; Blocked; Completed; Failed; Cancelled].
(* src: crates/vcli-core/src/state.rs 123-127 serde_snake_case_matches_as_str *)
Definition serde_snake_case_matches_as_str : test :=
  assert_eq (to_text ProgramState_to_value Running) (js "'running'").
(* src: crates/vcli-core/src/state.rs 129-133 parse_rejects_unknown *)
Definition parse_rejects_unknown : test := assert_eq (ProgramState_from_str "invalid") None.

Example state_tests :
  [terminal_classification; active_classification; state_display_parse_roundtrip;
   serde_snake_case_matches_as_str; parse_rejects_unknown] = replicate 5 true.
Proof. vm_compute. reflexivity. Qed.

(** ** step.rs *)

Definition step_from (s : string) : option Step := from_text Step_from_value (js s).
Definition step_roundtrips : Step → test := roundtrips Step_to_value Step_from_value.

(* src: crates/vcli-core/src/step.rs 133-144 click_with_expression_target *)
Definition click_with_expression_target : test :=
  let_ok s := step_from "{'kind':'click','at':'$skip.match.center'}" in
  assert_eq s (Click (TargetExpression "$skip.match.center") LeftButton).
(* src: crates/vcli-core/src/step.rs 146-157 click_with_absolute_target *)
Definition click_with_absolute_target : test :=
  let_ok s := step_from "{'kind':'click','at':{'x':10,'y':20}}" in
  assert_eq s (Click (TargetAbsolute (mkPoint 10 20)) LeftButton).
(* src: crates/vcli-core/src/step.rs 159-168 click_button_roundtrip *)
Definition click_button_roundtrip : test :=
  step_roundtrips (Click (TargetExpression "$p.match.center") RightButton).
(* src: crates/vcli-core/src/step.rs 170-178 wait_for_defaults_to_fail_on_timeout *)
Definition wait_for_defaults_to_fail_on_timeout : test :=
  let_ok s := step_from "{'kind':'wait_for','predicate':'p','timeout_ms':1000}" in
  match s with WaitFor _ _ on_timeout => assert_eq on_timeout TimeoutFail | _ => false end.
(* src: crates/vcli-core/src/step.rs 180-188 assert_defaults_to_fail_on_fail *)
Definition assert_defaults_to_fail_on_fail : test :=
  let_ok s := step_from "{'kind':'assert','predicate':'p'}" in
  match s with Assert _ on_fail => assert_eq on_fail FailFail | _ => false end.
(* src: crates/vcli-core/src/step.rs 190-196 sleep_ms_roundtrip *)
Definition sleep_ms_roundtrip : test := step_roundtrips (SleepMs 250).
(* src: crates/vcli-core/src/step.rs 198-215 type_and_key_and_scroll_roundtrips *)
Definition type_and_key_and_scroll_roundtrips : test :=
  forallb step_roundtrips
    [Type_ "hi"; Key "s" [Cmd]; Scroll (TargetExpression "$p.match.center") 0 (-40)].

Example step_tests :
  [click_with_expression_target; click_with_absolute_target; click_button_roundtrip;
   wait_for_defaults_to_fail_on_timeout; assert_defaults_to_fail_on_fail; sleep_ms_roundtrip;
   type_and_key_and_scroll_roundtrips] = replicate 7 true.
Proof. vm_compute. reflexivity. Qed.

(** ** trigger.rs *)

(* src: crates/vcli-core/src/trigger.rs 25-32 on_submit_roundtrip *)
Definition on_submit_roundtrip : test :=
  let j := to_text Trigger_to_value OnSubmit in
  assert_eq j (js "{'kind':'on_submit'}") &&
  let_ok back := from_text Trigger_from_value j in assert_eq back OnSubmit.
(* src: crates/vcli-core/src/trigger.rs 34-42 on_predicate_roundtrip *)
Definition on_predicate_roundtrip : test :=
  roundtrips Trigger_to_value Trigger_from_value (OnPredicate "ready").
(* src: crates/vcli-core/src/trigger.rs 44-49 manual_roundtrip *)
Definition manual_roundtrip : test := roundtrips Trigger_to_value Trigger_from_value Manual.
(* src: crates/vcli-core/src/trigger.rs 51-57 on_schedule_is_rejected *)
Definition on_schedule_is_rejected : test :=
  assert_eq (from_text Trigger_from_value (js "{'kind':'on_schedule','cron':'0 21 * * *'}")) None.

Example trigger_tests :
  [on_submit_roundtrip; on_predicate_roundtrip; manual_roundtrip; on_schedule_is_rejected]
  = replicate 4 true.
Proof. vm_compute. reflexivity. Qed.

(** ** watch.rs *)

(* src: crates/vcli-core/src/watch.rs 71-85 by_name_watch_roundtrip *)
Definition by_name_watch_roundtrip : test :=
  roundtrips Watch_to_value Watch_from_value
    {| w_when := ByName "skip_visible";
       w_steps := [Click (TargetExpression "$skip_visible.match.center") LeftButton];
       w_throttle_ms := 500; w_lifetime := Persistent |}.
(** Its [matches!] drops the verdict. *)
(* src: crates/vcli-core/src/watch.rs 87-97 inline_predicate_watch_parses *)
Definition inline_predicate_watch_parses : test :=
  let j := js "{
            'when': {'kind':'color_at','point':{'x':0,'y':0},'rgb':[0,0,0],'tolerance':10},
            'do': [{'kind':'move','at':{'x':0,'y':0}}]
        }" in
  let_ok w := from_text Watch_from_value j in
  assert_eq (w_throttle_ms w) 0%Z && assert_eq (w_lifetime w) Persistent.
(* src: crates/vcli-core/src/watch.rs 99-113 lifetime_variants_roundtrip *)
Definition lifetime_variants_roundtrip : test :=
  forallb (roundtrips Lifetime_to_value Lifetime_from_value)
    [OneShot; Persistent; UntilPredicate "done"; TimeoutMs 30000].

Example watch_tests :
  [by_name_watch_roundtrip; inline_predicate_watch_parses; lifetime_variants_roundtrip]
  = replicate 3 true.
Proof. vm_compute. reflexivity. Qed.
