(* ===== verification/ConformPerception.v ===== *)
(** * Conformance: vcli-perception

    The unit tests of [vcli-perception/src], run on the model.  The image
    crates are stood in for by small functions: images as rows, the decoder of
    a format that lists the size and the pixels, resampling by nearest
    neighbours.  Left out: the tests whose subject is the correlation of
    [imageproc], and those of threads. *)

From S2P Require Import Prelude Json CoreTypes Sha256 Canonical Serde FrameView Perception Conform.

Local Open Scope vcli_scope.

#[export] Instance PerceptionError_eq_dec : EqDecision PerceptionError.
Proof. solve_decision. Defined.
#[export] Instance PriorSnapshot_eq_dec : EqDecision PriorSnapshot.
Proof. solve_decision. Defined.

(** ** Images

    The pixels of an image are listed row by row, in the order in which the
    sources write them. *)

Record Image (A : Type) := mkImage { im_w : Z; im_h : Z; im_pixels : list A }.
Arguments mkImage {A}. Arguments im_w {A}. Arguments im_h {A}. Arguments im_pixels {A}.

Definition from_pixel {A} (w h : Z) (a : A) : Image A :=
  mkImage w h (replicate (Z.to_nat (w * h)) a).
Definition write_pixel {A} (a : A) (i : Image A) : Image A :=
  mkImage (im_w i) (im_h i) (im_pixels i ++ [a]).
Definition get_pixel {A} (i : Image A) (x y : Z) : option A :=
  im_pixels i !! Z.to_nat (y * im_w i + x).

Definition luma (c : Rgb) : Z := (2126 * red c + 7152 * green c + 722 * blue c) / 10000.
Definition gray (i : Image Rgb) : Image Z := mkImage (im_w i) (im_h i) (map luma (im_pixels i)).

(** A file is its width, its height and its grey values. *)
Definition encode (i : Image Z) : list Z := im_w i :: im_h i :: im_pixels i.
Definition decode (bytes : list Z) : result string (Image Z) :=
  match bytes with
  | w :: h :: l =>
      if decide (Z.of_nat (length l) = w * h)%Z then Ok (mkImage w h l)
      else Err "unexpected end of file"
  | _ => Err "unexpected end of file"
  end.

Definition nearest_9x8 (i : Image Z) : Image Z :=
  mkImage 9 8 (concat (map (λ y, map (λ x,
    default 0%Z (get_pixel i (x * (im_w i / 9)) (y * (im_h i / 8)))) (seqZ 0 9)) (seqZ 0 8))).

#[export] Instance conform_image : ImageOps := {|
  RgbImage := Image Rgb; GrayImage := Image Z;
  rgb_new w h := mkImage w h []; put_pixel _ _ := write_pixel;
  grayscale := gray; load_luma8 := decode;
  gray_width := im_w; gray_height := im_h;
  resize_9x8 := nearest_9x8;
  gray_pixel i x y := default 0%Z (get_pixel i x y);
  (* no test here gets as far as matching *)
  best_match _ _ := (S754_nan, (0, 0)%Z);
|}.

(** ** Frames

    [Frame::new(FrameFormat::Rgba8, 0 0 w h, 4 * w, pixels, 0)], its pixels
    opaque ones of the given colours. *)

Definition rgba_bytes (px : list Rgb) : list Z :=
  concat (map (λ c, [red c; green c; blue c; 255%Z]) px).
Definition rgba (w h : Z) (px : list Rgb) : outcome Frame :=
  Frame_new Rgba8 (mkRect 0 0 w h) (4 * w) (rgba_bytes px) 0.
Definition rgba_frame (w h : Z) (px : list Rgb) : Frame :=
  mkFrame Rgba8 (mkRect 0 0 w h) (4 * w) (rgba_bytes px) 0.

Lemma length_rgba_bytes px : length (rgba_bytes px) = 4 * length px.
Proof.
  unfold rgba_bytes. induction px as [|c px IH]; simpl in *; [done|]. rewrite IH. lia.
Qed.
Lemma rgba_bytes_lookup px i c k : px !! i = Some c → k < 3 →
  rgba_bytes px !! (4 * i + k) = [red c; green c; blue c] !! k.
Proof.
  unfold rgba_bytes. revert i. induction px as [|c' px IH]; [done|]. intros [|i] Hi Hk; simpl in Hi; cbn [map concat].
  - simplify_eq/=. destruct k as [|[|[|]]]; [done..|lia].
  - rewrite lookup_app_r by (cbn [length]; lia). cbn [length].
    replace (4 * S i + k - 4) with (4 * i + k) by lia. by apply IH.
Qed.

Section whole.
Context (w h : Z) (px : list Rgb).
Hypotheses (Hw : (0 < w < 32768)%Z) (Hh : (0 < h < 32768)%Z)
  (Hlen : Z.of_nat (length px) = (w * h)%Z).

Lemma rgba_frame_wf : frame_wf (rgba_frame w h px).
Proof.
  split; cbn [rgba_frame bounds rx ry rw rh stride pixels]; rewrite ?length_rgba_bytes;
    unfold_ints; nia.
Qed.

Lemma rgba_ok : rgba w h px = Ret (rgba_frame w h px).
Proof.
  unfold rgba, Frame_new. cbn [rh]. rewrite length_rgba_bytes.
  rewrite (decide_True (P := (0 ≤ h)%Z)) by lia.
  rewrite decide_True; [done|]. unfold saturating_mul_usize. nia.
Qed.

Lemma rgba_pixel x y c : (0 ≤ x < w)%Z → (0 ≤ y < h)%Z →
  px !! Z.to_nat (y * w + x) = Some c → pixel_rgb (rgba_frame w h px) x y = Ret (Ok c).
Proof.
  intros Hx Hy Hc.
  destruct (pixel_rgb_in_range _ x y rgba_frame_wf Hx Hy) as (b0 & b1 & b2 & H0 & H1 & H2 & ->).
  cbn [rgba_frame pixels stride format] in *.
  assert (∀ k, k < 3 → rgba_bytes px !! Z.to_nat (y * (4 * w) + 4 * x + Z.of_nat k)
    = [red c; green c; blue c] !! k) as Hb.
  { intros k Hk. rewrite <-(rgba_bytes_lookup px _ c k Hc Hk). f_equal. nia. }
  pose proof (Hb 0 ltac:(lia)) as B0. pose proof (Hb 1 ltac:(lia)) as B1.
  pose proof (Hb 2 ltac:(lia)) as B2.
  change (Z.of_nat 0) with 0%Z in B0. rewrite Z.add_0_r, H0 in B0.
  change (Z.of_nat 1) with 1%Z in B1. rewrite H1 in B1.
  change (Z.of_nat 2) with 2%Z in B2. rewrite H2 in B2.
  simpl in B0, B1, B2. destruct c. by simplify_eq/=.
Qed.

(** The pixels of a row, and of all rows. *)
Definition row_of (y : Z) (cols : list Z) : list Rgb :=
  omap (λ x, px !! Z.to_nat (y * w + x)) cols.

Lemma row_of_take y n : (0 ≤ y)%Z →
  row_of y (seqZ 0 (Z.of_nat n)) = take n (drop (Z.to_nat (y * w)) px).
Proof.
  intros Hy. unfold row_of. induction n as [|n IH]; [done|].
  rewrite seqZ_S, omap_app, IH by lia. simpl.
  replace (Z.to_nat (y * w + (0 + Z.of_nat n))) with (Z.to_nat (y * w) + n) by nia.
  rewrite <-lookup_drop. destruct (drop _ px !! n) as [c|] eqn:Hc.
  - by rewrite (take_S_r _ _ c).
  - rewrite app_nil_r, !take_ge; [done|..]; apply lookup_ge_None in Hc; lia.
Qed.
Lemma rows_of_take n :
  concat (map (λ y, row_of y (seqZ 0 w)) (seqZ 0 (Z.of_nat n))) = take (n * Z.to_nat w) px.
Proof.
  induction n as [|n IH]; [done|].
  rewrite seqZ_S, map_app, concat_app, IH by lia. cbn [map concat].
  pose proof (row_of_take (0 + Z.of_nat n) (Z.to_nat w) ltac:(lia)) as Hr.
  rewrite Z2Nat.id in Hr by lia. rewrite Hr, app_nil_r.
  replace (Z.to_nat ((0 + Z.of_nat n) * w)) with (n * Z.to_nat w) by nia.
  rewrite take_take_drop. f_equal. lia.
Qed.

Lemma copy_row_rgba y cols (out : Image Rgb) :
  (0 ≤ y < h)%Z → Forall (λ x, 0 ≤ x < w)%Z cols →
  copy_row (rgba_frame w h px) 0 y y cols out
  = Ret (Ok (mkImage (im_w out) (im_h out) (im_pixels out ++ row_of y cols))).
Proof.
  intros Hy Hc. revert out. induction Hc as [|x cols Hx Hc IH]; intros out; cbn [copy_row].
  - rewrite app_nil_r. by destruct out.
  - rewrite (wrap_i32_id x), Z.add_0_l, wrap_i32_id by (unfold_ints; lia).
    destruct (lookup_lt_is_Some_2 px (Z.to_nat (y * w + x))) as [c Hpx]; [nia|].
    rewrite (rgba_pixel x y c Hx Hy Hpx). simpl. rewrite IH. simpl. unfold row_of. simpl.
    rewrite Hpx. by rewrite <-app_assoc.
Qed.
Lemma copy_rows_rgba rows (out : Image Rgb) :
  Forall (λ y, 0 ≤ y < h)%Z rows →
  copy_rows (rgba_frame w h px) 0 0 (seqZ 0 w) rows out
  = Ret (Ok (mkImage (im_w out) (im_h out)
               (im_pixels out ++ concat (map (λ y, row_of y (seqZ 0 w)) rows)))).
Proof.
  intros Hr. revert out. induction Hr as [|y rows Hy Hr IH]; intros out; cbn [copy_rows].
  - simpl. rewrite app_nil_r. by destruct out.
  - rewrite (wrap_i32_id y), Z.add_0_l, wrap_i32_id by (unfold_ints; lia).
    rewrite copy_row_rgba; [|done|by apply Forall_seqZ; lia].
    simpl. rewrite IH. simpl. by rewrite <-app_assoc.
Qed.

(** Cropping the whole frame gives back the pixels. *)
Lemma crop_whole : crop_rgb (rgba_frame w h px) (mkRect 0 0 w h) = Ret (Ok (mkImage w h px)).
Proof.
  unfold crop_rgb. cbn [rgba_frame bounds rx ry rw rh].
  rewrite !Z.max_id, !Z.min_id, !Z.add_0_l, !wrap_i32_id by (unfold_ints; lia).
  rewrite decide_False by lia. rewrite ?Z.sub_0_r, ?wrap_u32_id by (unfold_ints; lia).
  rewrite copy_rows_rgba by (apply Forall_seqZ; lia). simpl.
  pose proof (rows_of_take (Z.to_nat h)) as Hr. rewrite Z2Nat.id in Hr by lia.
  rewrite Hr, take_ge; [done|nia].
Qed.
End whole.

(** ** Runs *)

Definition fuel : nat := 40.
(** The value of a run that must succeed, with the state after it. *)
Definition ran {A} (m : PM A) (s : PState) : option (A * PState) :=
  match m s with Ret (Ok a, s) => Some (a, s) | _ => None end.
(** [matches!(r, Err(..))] *)
Definition fails {A} (m : PM A) (s : PState) (p : PerceptionError → bool) : test :=
  match m s with Ret (Err e, _) => p e | _ => false end.
Definition ops_fails {A} (m : outcome (result PerceptionError A)) (p : PerceptionError → bool)
    : test :=
  match m with Ret (Err e) => p e | _ => false end.
Definition out_of_bounds (e : PerceptionError) : bool :=
  match e with RegionOutOfBounds => true | _ => false end.
Definition unknown_predicate (e : PerceptionError) : bool :=
  match e with UnknownPredicate _ => true | _ => false end.
Definition asset_decode (e : PerceptionError) : bool :=
  match e with AssetDecode _ => true | _ => false end.

Definition red_pixel : Rgb := mkRgb 255 0 0.
Definition green_pixel : Rgb := mkRgb 0 255 0.

(** ** cache.rs *)

(* src: crates/vcli-perception/src/cache.rs 62-68 fake_result *)
Definition fake_result (b : bool) : PredicateResult := mkPredicateResult b None 1000.
(* src: crates/vcli-perception/src/cache.rs 70-72 some_hash *)
Definition some_hash (tag : string) : option PredicateHash :=
  result_ok (predicate_hash (Obj [("kind", Str "color_at"); ("tag", Str tag)])).

(* src: crates/vcli-perception/src/cache.rs 74-79 get_miss_returns_none *)
Definition get_miss_returns_none : test :=
  let c := Perception_new in
  let_ok h := some_hash "a" in assert_eq (cache_get h c) None && cache_is_empty c.
(* src: crates/vcli-perception/src/cache.rs 81-88 insert_then_get_returns_result *)
Definition insert_then_get_returns_result : test :=
  let_ok h := some_hash "a" in
  let c := cache_insert h (fake_result true) Perception_new in
  assert_eq (cache_get h c) (Some (fake_result true)) && assert_eq (cache_len c) 1.
(* src: crates/vcli-perception/src/cache.rs 90-98 insert_overwrites_existing_entry *)
Definition insert_overwrites_existing_entry : test :=
  let_ok h := some_hash "a" in
  let c := cache_insert h (fake_result true) (cache_insert h (fake_result false) Perception_new) in
  assert_eq (cache_get h c) (Some (fake_result true)) && assert_eq (cache_len c) 1.
(* src: crates/vcli-perception/src/cache.rs 100-108 clear_wipes_all_entries *)
Definition clear_wipes_all_entries : test :=
  let_ok a := some_hash "a" in let_ok b := some_hash "b" in
  let c := cache_insert b (fake_result false) (cache_insert a (fake_result true) Perception_new) in
  assert_eq (cache_len c) 2 && cache_is_empty (clear c).

Example cache_tests :
  [get_miss_returns_none; insert_then_get_returns_result; insert_overwrites_existing_entry;
   clear_wipes_all_entries] = replicate 4 true.
Proof. vm_compute. reflexivity. Qed.

(** ** state.rs *)

(* src: crates/vcli-perception/src/state.rs 99-101 hash *)
Definition hash (tag : string) : option PredicateHash :=
  result_ok (predicate_hash (Obj [("tag", Str tag)])).
(* src: crates/vcli-perception/src/state.rs 103-108 ppk *)
Definition ppk (program_id_str name : string) : option ProgramPredKey :=
  p ← ProgramId_from_str program_id_str; Some (mkProgramPredKey p name).

(* src: crates/vcli-perception/src/state.rs 110-129 prior_snapshot_round_trip *)
Definition prior_snapshot_round_trip : test :=
  let s := Perception_new in
  let_ok h := hash "a" in
  assert_eq (prior_snapshot h s) None &&
  let s := record_snapshot h (mkPriorSnapshot 3735928559 1000) s in
  assert_eq (prior_snapshot h s) (Some (mkPriorSnapshot 3735928559 1000)).
(* src: crates/vcli-perception/src/state.rs 131-150 record_snapshot_overwrites *)
Definition record_snapshot_overwrites : test :=
  let_ok h := hash "a" in
  let s := record_snapshot h (mkPriorSnapshot 1 100) Perception_new in
  let s := record_snapshot h (mkPriorSnapshot 2 200) s in
  let_ok p := prior_snapshot h s in assert_eq (dhash_of p) 2%Z.
(* src: crates/vcli-perception/src/state.rs 152-159 first_true_set_then_read *)
Definition first_true_set_then_read : test :=
  let s := Perception_new in
  let_ok k := ppk "00000000-0000-4000-8000-000000000001" "p" in
  assert_eq (first_true_at k s) None &&
  assert_eq (first_true_at k (set_first_true_at k 5000 s)) (Some 5000%Z).
(* src: crates/vcli-perception/src/state.rs 161-168 first_true_set_preserves_earliest *)
Definition first_true_set_preserves_earliest : test :=
  let_ok k := ppk "00000000-0000-4000-8000-000000000001" "p" in
  let s := set_first_true_at k 9000 (set_first_true_at k 5000 Perception_new) in
  assert_eq (first_true_at k s) (Some 5000%Z).
(* src: crates/vcli-perception/src/state.rs 170-177 first_true_cleared_on_falling_edge *)
Definition first_true_cleared_on_falling_edge : test :=
  let_ok k := ppk "00000000-0000-4000-8000-000000000001" "p" in
  let s := clear_first_true_at k (set_first_true_at k 5000 Perception_new) in
  assert_eq (first_true_at k s) None.
(* src: crates/vcli-perception/src/state.rs 179-186 different_programs_do_not_share_first_true_timestamps *)
Definition different_programs_do_not_share_first_true_timestamps : test :=
  let_ok a := ppk "00000000-0000-4000-8000-000000000001" "p" in
  let_ok b := ppk "00000000-0000-4000-8000-000000000002" "p" in
  assert_eq (first_true_at b (set_first_true_at a 1000 Perception_new)) None.

Example perception_state_tests :
  [prior_snapshot_round_trip; record_snapshot_overwrites; first_true_set_then_read;
   first_true_set_preserves_earliest; first_true_cleared_on_falling_edge;
   different_programs_do_not_share_first_true_timestamps] = replicate 6 true.
Proof. vm_compute. reflexivity. Qed.

(** ** error.rs *)

(* src: crates/vcli-perception/src/error.rs 38-42 display_unknown_predicate *)
Definition display_unknown_predicate : test :=
  assert_eq (PerceptionError_to_string (UnknownPredicate "foo")) "unknown predicate reference: foo".
(* src: crates/vcli-perception/src/error.rs 44-48 display_cycle *)
Definition display_cycle : test :=
  assert_eq (PerceptionError_to_string (Cycle "a")) "cycle detected at predicate: a".
(* src: crates/vcli-perception/src/error.rs 50-54 display_asset_decode *)
Definition display_asset_decode : test :=
  contains "bad PNG" (PerceptionError_to_string (AssetDecode "bad PNG")).

Example perception_error_tests :
  [display_unknown_predicate; display_cycle; display_asset_decode] = replicate 3 true.
Proof. vm_compute. reflexivity. Qed.

(** ** frame_view.rs *)

(* src: crates/vcli-perception/src/frame_view.rs 113-144 bgra_test_frame *)
Definition bgra_test_frame : outcome Frame :=
  Frame_new Bgra8 (mkRect 0 0 4 2) 16
    (concat (map (λ y, concat (map (λ x, [(x + y); (20 * y); (10 * x); 255])%Z (seqZ 0 4)))
               (seqZ 0 2))) 0.

(* src: crates/vcli-perception/src/frame_view.rs 146-151 pixel_rgb_bgra_swizzles_to_rgb *)
Definition pixel_rgb_bgra_swizzles_to_rgb : test :=
  let_ok f := bgra_test_frame in
  assert_eq (pixel_rgb f 0 0) (Ret (Ok (mkRgb 0 0 0))) &&
  assert_eq (pixel_rgb f 3 1) (Ret (Ok (mkRgb 30 20 4))).
(* src: crates/vcli-perception/src/frame_view.rs 153-164 pixel_rgb_out_of_bounds_errors *)
Definition pixel_rgb_out_of_bounds_errors : test :=
  let_ok f := bgra_test_frame in
  ops_fails (pixel_rgb f (-1) 0) out_of_bounds && ops_fails (pixel_rgb f 0 10) out_of_bounds.
(** [crop_rgb(&f, r).unwrap()] *)
Definition cropped (f : Frame) (r : Rect) : option (Image Rgb) :=
  match crop_rgb f r with Ret (Ok i) => Some i | _ => None end.
(* src: crates/vcli-perception/src/frame_view.rs 166-183 crop_rgb_returns_correct_dimensions *)
Definition crop_rgb_returns_correct_dimensions : test :=
  let_ok f := bgra_test_frame in
  let_ok crop := cropped f (mkRect 1 0 2 2) in
  assert_eq (im_w crop) 2%Z && assert_eq (im_h crop) 2%Z &&
  assert_eq (get_pixel crop 0 0) (Some (mkRgb 10 0 1)).
(* src: crates/vcli-perception/src/frame_view.rs 185-200 crop_rgb_clips_to_frame_bounds *)
Definition crop_rgb_clips_to_frame_bounds : test :=
  let_ok f := bgra_test_frame in
  let_ok crop := cropped f (mkRect 3 1 10 10) in
  assert_eq (im_w crop) 1%Z && assert_eq (im_h crop) 1%Z.
(* src: crates/vcli-perception/src/frame_view.rs 202-215 crop_rgb_zero_overlap_errors *)
Definition crop_rgb_zero_overlap_errors : test :=
  let_ok f := bgra_test_frame in ops_fails (crop_rgb f (mkRect 100 100 10 10)) out_of_bounds.
(* src: crates/vcli-perception/src/frame_view.rs 217-223 frame_to_rgb_has_correct_dimensions *)
Definition frame_to_rgb_has_correct_dimensions : test :=
  let_ok f := bgra_test_frame in
  match frame_to_rgb f with
  | Ret (Ok img) => assert_eq (im_w (img : Image Rgb)) 4%Z && assert_eq (im_h (img : Image Rgb)) 2%Z
  | _ => false
  end.

Example frame_view_tests :
  [pixel_rgb_bgra_swizzles_to_rgb; pixel_rgb_out_of_bounds_errors;
   crop_rgb_returns_correct_dimensions; crop_rgb_clips_to_frame_bounds;
   crop_rgb_zero_overlap_errors; frame_to_rgb_has_correct_dimensions] = replicate 6 true.
Proof. vm_compute. reflexivity. Qed.

(** ** color_at.rs *)

(* src: crates/vcli-perception/src/color_at.rs 73-92 rgba_checker *)
Definition rgba_checker : outcome Frame :=
  rgba 2 2 [red_pixel; green_pixel; mkRgb 0 0 255; mkRgb 255 255 255].
(* src: crates/vcli-perception/src/color_at.rs 94-110 ctx *)
Definition ctx (frame : Frame) : EvalCtx := mkEvalCtx frame 42 ∅ ∅ None.

(* src: crates/vcli-perception/src/color_at.rs 112-130 exact_color_match_is_truthy *)
Definition exact_color_match_is_truthy : test :=
  let_ok f := rgba_checker in
  let_ok (r, _) := ran (eval_color_at (ColorAt (mkPoint 0 0) red_pixel 0) (ctx f)) Perception_new in
  truthy r && assert_eq (at_ms r) 42%Z && assert_eq (match_data r) None.
(* src: crates/vcli-perception/src/color_at.rs 132-148 off_by_one_within_tolerance_is_truthy *)
Definition off_by_one_within_tolerance_is_truthy : test :=
  let_ok f := rgba_checker in
  let_ok (r, _) := ran (eval_color_at (ColorAt (mkPoint 1 0) (mkRgb 1 254 1) 5) (ctx f))
                     Perception_new in
  truthy r.
(* src: crates/vcli-perception/src/color_at.rs 150-166 beyond_tolerance_is_falsy *)
Definition beyond_tolerance_is_falsy : test :=
  let_ok f := rgba_checker in
  let_ok (r, _) := ran (eval_color_at (ColorAt (mkPoint 0 1) red_pixel 10) (ctx f)) Perception_new in
  negb (truthy r).
(* src: crates/vcli-perception/src/color_at.rs 168-182 out_of_bounds_errors *)
Definition out_of_bounds_errors : test :=
  let_ok f := rgba_checker in
  fails (eval_color_at (ColorAt (mkPoint 100 100) (mkRgb 0 0 0) 0) (ctx f)) Perception_new
    out_of_bounds.

Example color_at_tests :
  [exact_color_match_is_truthy; off_by_one_within_tolerance_is_truthy; beyond_tolerance_is_falsy;
   out_of_bounds_errors] = replicate 4 true.
Proof. vm_compute. reflexivity. Qed.

(** ** elapsed.rs *)

(* src: crates/vcli-perception/src/elapsed.rs 84-97 red_pixel_frame *)
Definition red_pixel_frame : outcome Frame := rgba 1 1 [red_pixel].
(* src: crates/vcli-perception/src/elapsed.rs 99-110 make_preds *)
Definition make_preds (child_truthy_color : Rgb) : Predicates :=
  {[ "red_here" := ColorAt (mkPoint 0 0) child_truthy_color 0 ]}.

Definition pid : ProgramId := mkProgramId 1.
(** [ElapsedMsSinceTrueEvaluator.evaluate(&p, &ctx)], where [p] is 500 ms of
    [red_here]. *)
Definition elapsed_at (frame : Frame) (now : Z) (preds : Predicates) (program : option ProgramId)
    : PM PredicateResult :=
  let ctx := mkEvalCtx frame now preds ∅ program in
  eval_elapsed (evaluate_named_with_depth fuel ctx) (ElapsedMsSinceTrue "red_here" 500) ctx.

(* src: crates/vcli-perception/src/elapsed.rs 112-135 first_tick_truthy_child_not_elapsed_yet *)
Definition first_tick_truthy_child_not_elapsed_yet : test :=
  let_ok frame := red_pixel_frame in
  let_ok (r, _) := ran (elapsed_at frame 1000 (make_preds red_pixel) (Some pid)) Perception_new in
  negb (truthy r).
(* src: crates/vcli-perception/src/elapsed.rs 137-171 after_threshold_elapses_returns_truthy *)
Definition after_threshold_elapses_returns_truthy : test :=
  let_ok frame := red_pixel_frame in
  let preds := make_preds red_pixel in
  let_ok (_, s) := ran (elapsed_at frame 1000 preds (Some pid)) Perception_new in
  let s := clear s in
  let_ok (r, _) := ran (elapsed_at frame 1500 preds (Some pid)) s in
  truthy r.
(* src: crates/vcli-perception/src/elapsed.rs 173-227 falling_edge_clears_timer *)
Definition falling_edge_clears_timer : test :=
  let_ok frame := red_pixel_frame in
  let preds_red := make_preds red_pixel in
  let preds_green := make_preds green_pixel in
  let_ok (_, s) := ran (elapsed_at frame 1000 preds_red (Some pid)) Perception_new in
  let_ok (r2, s) := ran (elapsed_at frame 1200 preds_green (Some pid)) (clear s) in
  let_ok (r3, _) := ran (elapsed_at frame 2000 preds_red (Some pid)) (clear s) in
  negb (truthy r2) && negb (truthy r3).
(* src: crates/vcli-perception/src/elapsed.rs 229-251 no_program_id_errors *)
Definition no_program_id_errors : test :=
  let_ok frame := red_pixel_frame in
  fails (elapsed_at frame 1000 (make_preds red_pixel) None) Perception_new asset_decode.

Example elapsed_tests :
  [first_tick_truthy_child_not_elapsed_yet; after_threshold_elapses_returns_truthy;
   falling_edge_clears_timer; no_program_id_errors] = replicate 4 true.
Proof. vm_compute. reflexivity. Qed.

(** ** logical.rs *)

(* src: crates/vcli-perception/src/logical.rs 195-214 build_preds *)
Definition build_preds : Predicates :=
  {[ "red_here" := ColorAt (mkPoint 0 0) red_pixel 0;
     "green_here" := ColorAt (mkPoint 0 0) green_pixel 0 ]}.
(* src: crates/vcli-perception/src/logical.rs 216-232 make_ctx *)
Definition make_ctx (frame : Frame) : EvalCtx := mkEvalCtx frame 10 build_preds ∅ None.

(** What an evaluator is handed to call back. *)
Definition named_in (f : Frame) : named := evaluate_named_with_depth fuel (make_ctx f).

(* src: crates/vcli-perception/src/logical.rs 234-248 not_red_when_actually_red_is_false *)
Definition not_red_when_actually_red_is_false : test :=
  let_ok f := red_pixel_frame in
  let_ok (r, _) := ran (NotEvaluator_evaluate (named_in f) (NotP "red_here") (make_ctx f))
                     Perception_new in
  negb (truthy r).
(* src: crates/vcli-perception/src/logical.rs 250-264 all_of_true_when_all_children_true *)
Definition all_of_true_when_all_children_true : test :=
  let_ok f := red_pixel_frame in
  let_ok (r, _) := ran (AllOfEvaluator_evaluate (named_in f) (AllOf ["red_here"; "red_here"])
                          (make_ctx f)) Perception_new in
  truthy r.
(* src: crates/vcli-perception/src/logical.rs 266-280 all_of_false_if_any_child_false *)
Definition all_of_false_if_any_child_false : test :=
  let_ok f := red_pixel_frame in
  let_ok (r, _) := ran (AllOfEvaluator_evaluate (named_in f) (AllOf ["red_here"; "green_here"])
                          (make_ctx f)) Perception_new in
  negb (truthy r).
(* src: crates/vcli-perception/src/logical.rs 282-296 any_of_true_if_any_child_true *)
Definition any_of_true_if_any_child_true : test :=
  let_ok f := red_pixel_frame in
  let_ok (r, _) := ran (AnyOfEvaluator_evaluate (named_in f) (AnyOf ["green_here"; "red_here"])
                          (make_ctx f)) Perception_new in
  truthy r.
(* src: crates/vcli-perception/src/logical.rs 298-310 any_of_empty_list_is_false *)
Definition any_of_empty_list_is_false : test :=
  let_ok f := red_pixel_frame in
  let_ok (r, _) := ran (AnyOfEvaluator_evaluate (named_in f) (AnyOf []) (make_ctx f))
                     Perception_new in
  negb (truthy r).
(* src: crates/vcli-perception/src/logical.rs 312-324 unknown_named_predicate_errors *)
Definition unknown_named_predicate_errors : test :=
  let_ok f := red_pixel_frame in
  fails (NotEvaluator_evaluate (named_in f) (NotP "does_not_exist") (make_ctx f)) Perception_new
    unknown_predicate.
(* src: crates/vcli-perception/src/logical.rs 326-347 logical_shares_cache_across_siblings *)
Definition logical_shares_cache_across_siblings : test :=
  let_ok f := red_pixel_frame in
  let_ok (_, s) := ran (AllOfEvaluator_evaluate (named_in f) (AllOf ["red_here"; "red_here"])
                          (make_ctx f)) Perception_new in
  assert_eq (cache_len s) 1.

Example logical_tests :
  [not_red_when_actually_red_is_false; all_of_true_when_all_children_true;
   all_of_false_if_any_child_false; any_of_true_if_any_child_true; any_of_empty_list_is_false;
   unknown_named_predicate_errors; logical_shares_cache_across_siblings] = replicate 7 true.
Proof. vm_compute. reflexivity. Qed.

(** ** perception.rs *)

(* src: crates/vcli-perception/src/perception.rs 157-170 red_frame *)
Definition red_frame : outcome Frame := rgba 1 1 [red_pixel].
Definition at_origin (c : Rgb) : PredicateKind := ColorAt (mkPoint 0 0) c 0.
(** [p.evaluate_named(name, &preds, &frame, now, &assets, None)] *)
Definition evaluate_at (name : string) (preds : Predicates) (frame : Frame) (now : Z)
    : PM PredicateResult :=
  evaluate_named fuel (mkEvalCtx frame now preds ∅ None) name.

(* src: crates/vcli-perception/src/perception.rs 172-191 evaluate_named_returns_truthy_for_matching_color *)
Definition evaluate_named_returns_truthy_for_matching_color : test :=
  let_ok frame := red_frame in
  let preds := {[ "red_here" := at_origin red_pixel ]} in
  let_ok (r, _) := ran (evaluate_at "red_here" preds frame 123) Perception_new in
  truthy r && assert_eq (at_ms r) 123%Z.
(* src: crates/vcli-perception/src/perception.rs 193-201 evaluate_named_unknown_errors *)
Definition evaluate_named_unknown_errors : test :=
  let_ok frame := red_frame in
  fails (evaluate_at "nope" ∅ frame 0) Perception_new unknown_predicate.
(* src: crates/vcli-perception/src/perception.rs 203-227 second_call_for_same_name_is_a_cache_hit *)
Definition second_call_for_same_name_is_a_cache_hit : test :=
  let_ok frame := red_frame in
  let preds := {[ "red_here" := at_origin red_pixel ]} in
  let_ok (r1, s) := ran (evaluate_at "red_here" preds frame 100) Perception_new in
  let_ok (r2, _) := ran (evaluate_at "red_here" preds frame 200) s in
  assert_eq (at_ms r1) 100%Z && assert_eq (at_ms r2) 100%Z.
(* src: crates/vcli-perception/src/perception.rs 229-266 clear_wipes_cache_but_not_state *)
Definition clear_wipes_cache_but_not_state : test :=
  let_ok frame := red_frame in
  let preds := {[ "red_here" := at_origin red_pixel ]} in
  let_ok (_, s) := ran (evaluate_at "red_here" preds frame 100) Perception_new in
  assert_eq (cache_len s) 1 &&
  let s := clear s in
  assert_eq (cache_len s) 0 &&
  let_ok h := hash_predicate (at_origin red_pixel) in
  let s := clear (record_snapshot h (mkPriorSnapshot 42 1000) s) in
  bool_decide (is_Some (prior_snapshot h s)).
(* src: crates/vcli-perception/src/perception.rs 268-301 two_programs_with_same_predicate_share_cache *)
Definition two_programs_with_same_predicate_share_cache : test :=
  let_ok frame := red_frame in
  let preds := {[ "a" := at_origin red_pixel; "b_also_red" := at_origin red_pixel ]} in
  let_ok (_, s) := ran (evaluate_at "a" preds frame 100) Perception_new in
  let_ok (_, s) := ran (evaluate_at "b_also_red" preds frame 200) s in
  assert_eq (cache_len s) 1.

Example perception_tests :
  [evaluate_named_returns_truthy_for_matching_color; evaluate_named_unknown_errors;
   second_call_for_same_name_is_a_cache_hit; clear_wipes_cache_but_not_state;
   two_programs_with_same_predicate_share_cache] = replicate 5 true.
Proof. vm_compute. reflexivity. Qed.

(** ** pixel_diff.rs *)

(* src: crates/vcli-perception/src/pixel_diff.rs 152-181 solid_frame *)
Definition solid_frame (color : Rgb) : outcome Frame := rgba 32 32 (replicate (32 * 32) color).

Definition level (v : Z) : Rgb := mkRgb v v v.
(** 32 by 32 pixels of 0 or 255. *)
Definition pattern (white : Z → Z → bool) : list Rgb :=
  concat (map (λ y, map (λ x, if white x y then level 255 else level 0) (seqZ 0 32)) (seqZ 0 32)).
(** [PixelDiffEvaluator.evaluate(&p, &ctx)] at a time: a tenth of the whole
    frame. *)
Definition diff_at (frame : Frame) (now : Z) : PM PredicateResult :=
  eval_pixel_diff (PixelDiff (Absolute (mkRect 0 0 32 32)) "sha256:unused" (f64_dec 1 1))
    (mkEvalCtx frame now ∅ ∅ None).

Definition diff_key : PredicateHash := Eval vm_compute in
  match predicate_hash (pixel_diff_key "sha256:unused" (mkRect 0 0 32 32)) with
  | Ok h => h | Err _ => ""
  end.
Lemma ran_diff_at px now s : length px = 32 * 32 →
  let h := dhash (gray (mkImage 32 32 px) : GrayImage) in
  ran (diff_at (rgba_frame 32 32 px) now) s =
    Some (mkPredicateResult
            match prior_snapshot diff_key s with
            | None => false
            | Some prev => f64_ge (f64_div (f64_of_Z (hamming h (dhash_of prev))) (f64_of_Z 64))
                             (f64_dec 1 1)
            end None now,
          record_snapshot diff_key (mkPriorSnapshot h now) s).
Proof.
  intros Hlen h. unfold ran, diff_at, eval_pixel_diff. cbn [ctx_frame].
  destruct (canonicalize (pixel_diff_key "sha256:unused" (mkRect 0 0 32 32))) as [t|e] eqn:Ht;
    [clear Ht|vm_compute in Ht; discriminate Ht].
  assert (predicate_hash (pixel_diff_key "sha256:unused" (mkRect 0 0 32 32)) = Ok diff_key) as ->
    by (vm_compute; reflexivity).
  rewrite (crop_whole 32 32 px); [|lia|lia|by rewrite Hlen].
  cbv beta iota delta [sbind slift mret mbind ST_ret ST_bind outcome_bind get modify sok map_err].
  cbn [now_ms plain grayscale conform_image]. fold h.
  by destruct (prior_snapshot diff_key s).
Qed.

(* src: crates/vcli-perception/src/pixel_diff.rs 183-190 dhash_and_hamming_on_identical_images_is_zero *)
Definition dhash_and_hamming_on_identical_images_is_zero : test :=
  let g := gray (from_pixel 32 32 (level 128)) in
  assert_eq (hamming (dhash (g : GrayImage)) (dhash (g : GrayImage))) 0%Z.
(* src: crates/vcli-perception/src/pixel_diff.rs 192-205 dhash_differs_for_contrasting_images *)
Definition dhash_differs_for_contrasting_images : test :=
  let uniform := from_pixel 32 32 (level 128) in
  let striped := mkImage 32 32 (pattern (λ x _, Z.even x)) in
  (16 <? hamming (dhash (gray uniform : GrayImage)) (dhash (gray striped : GrayImage)))%Z.
(* src: crates/vcli-perception/src/pixel_diff.rs 207-237 first_tick_not_truthy_but_records_snapshot *)
Definition first_tick_not_truthy_but_records_snapshot : test :=
  let_ok frame := solid_frame (mkRgb 200 50 50) in
  let_ok (r, _) := ran (diff_at frame 1000) Perception_new in
  negb (truthy r).
(* src: crates/vcli-perception/src/pixel_diff.rs 239-281 same_scene_on_second_tick_is_not_truthy *)
Definition same_scene_on_second_tick_is_not_truthy : test :=
  let_ok frame := solid_frame (mkRgb 200 50 50) in
  let_ok (_, s) := ran (diff_at frame 1000) Perception_new in
  let_ok (r, _) := ran (diff_at frame 1100) s in
  negb (truthy r).
(* src: crates/vcli-perception/src/pixel_diff.rs 283-350 changed_scene_on_second_tick_is_truthy *)
Definition changed_scene_on_second_tick_is_truthy : test :=
  let_ok frame_a := solid_frame (mkRgb 10 10 10) in
  let_ok frame_b := rgba 32 32 (pattern (λ x y, negb (Z.even (x + y)))) in
  let_ok (_, s) := ran (diff_at frame_a 1000) Perception_new in
  let_ok (r, _) := ran (diff_at frame_b 1100) s in
  truthy r.

(** Two ticks over whole frames, which are cropped by the lemma above and not
    pixel by pixel. *)
Ltac see := rewrite rgba_ok; [cbn [unwrapped unwrap_outcome]|lia|lia|lia].
Ltac tick := rewrite ran_diff_at by done; cbn [unwrapped unwrap_option].

Definition tick_distance (px1 px2 : list Rgb) : f64 :=
  f64_div (f64_of_Z (hamming (dhash (gray (mkImage 32 32 px2) : GrayImage))
                       (dhash (gray (mkImage 32 32 px1) : GrayImage)))) (f64_of_Z 64).

Lemma first_tick px : length px = 32 * 32 →
  (let_ok frame := rgba 32 32 px in
   let_ok (r, _) := ran (diff_at frame 1000) Perception_new in
   negb (truthy r)) = true.
Proof. intros Hlen. see. tick. done. Qed.
Lemma second_tick px1 px2 (p : PredicateResult → bool) :
  length px1 = 32 * 32 → length px2 = 32 * 32 →
  (let_ok frame_a := rgba 32 32 px1 in
   let_ok frame_b := rgba 32 32 px2 in
   let_ok (_, s) := ran (diff_at frame_a 1000) Perception_new in
   let_ok (r, _) := ran (diff_at frame_b 1100) s in
   p r) = p (mkPredicateResult (f64_ge (tick_distance px1 px2) (f64_dec 1 1)) None 1100).
Proof.
  intros H1 H2. do 2 see. do 2 tick. unfold prior_snapshot, record_snapshot.
  cbn [prior_snapshots]. rewrite lookup_insert_eq. unfold tick_distance. reflexivity.
Qed.
Lemma same_tick px (p : PredicateResult → bool) : length px = 32 * 32 →
  (let_ok frame := rgba 32 32 px in
   let_ok (_, s) := ran (diff_at frame 1000) Perception_new in
   let_ok (r, _) := ran (diff_at frame 1100) s in
   p r) = p (mkPredicateResult (f64_ge (tick_distance px px) (f64_dec 1 1)) None 1100).
Proof. intros H. rewrite <-(second_tick px px) by done. see. reflexivity. Qed.

Example pixel_diff_tests :
  [dhash_and_hamming_on_identical_images_is_zero; dhash_differs_for_contrasting_images;
   first_tick_not_truthy_but_records_snapshot; same_scene_on_second_tick_is_not_truthy;
   changed_scene_on_second_tick_is_truthy] = replicate 5 true.
Proof.
  repeat apply (f_equal2 cons).
  - vm_compute. reflexivity.
  - vm_compute. reflexivity.
  - unfold first_tick_not_truthy_but_records_snapshot, solid_frame.
    exact (first_tick (replicate (32 * 32) (mkRgb 200 50 50)) eq_refl).
  - unfold same_scene_on_second_tick_is_not_truthy, solid_frame.
    rewrite (same_tick (replicate (32 * 32) (mkRgb 200 50 50)) (λ r, negb (truthy r)) eq_refl).
    vm_compute. reflexivity.
  - unfold changed_scene_on_second_tick_is_truthy, solid_frame.
    rewrite (second_tick (replicate (32 * 32) (mkRgb 10 10 10))
      (pattern (λ x y, negb (Z.even (x + y)))) (λ r, truthy r) eq_refl eq_refl).
    vm_compute. reflexivity.
  - reflexivity.
Qed.

(** ** template.rs

    Without the two tests that match: what they find is up to [imageproc]. *)

(** A white field with a black block. *)
Definition black_block (w h x0 x1 y0 y1 : Z) : list Z :=
  concat (map (λ y, map (λ x,
    if ((x0 <=? x) && (x <? x1) && (y0 <=? y) && (y <? y1))%Z then 0%Z else 255%Z)
    (seqZ 0 w)) (seqZ 0 h)).

(* src: crates/vcli-perception/src/template.rs 159-190 scene_with_box *)
Definition scene_with_box : outcome Frame := rgba 64 64 (map level (black_block 64 64 24 32 22 26)).
(* src: crates/vcli-perception/src/template.rs 197-213 template_png_varied_16x8 *)
Definition template_png_varied_16x8 : list Z := encode (mkImage 16 8 (black_block 16 8 4 12 2 6)).

(** [TemplateEvaluator.evaluate(&p, &ctx)] over the whole scene. *)
Definition find_template (frame : Frame) (image : string) (confidence : f64) (assets : Assets)
    : PM PredicateResult :=
  eval_template (Template image confidence (Absolute (mkRect 0 0 64 64)) 200)
    (mkEvalCtx frame 42 ∅ assets None).

(* src: crates/vcli-perception/src/template.rs 227-233 decode_gray_parses_valid_png *)
Definition decode_gray_parses_valid_png : test :=
  let_ok g := decode_gray template_png_varied_16x8 in
  assert_eq (im_w (g : Image Z)) 16%Z && assert_eq (im_h (g : Image Z)) 8%Z.
(* src: crates/vcli-perception/src/template.rs 235-239 decode_gray_errors_on_garbage *)
Definition decode_gray_errors_on_garbage : test :=
  match decode_gray (bytes_of_string "not a png") with Err e => asset_decode e | Ok _ => false end.
(* src: crates/vcli-perception/src/template.rs 349-389 template_larger_than_haystack_is_falsy *)
Definition template_larger_than_haystack_is_falsy : test :=
  let_ok frame := scene_with_box in
  let assets := {[ "big" := encode (from_pixel 200 200 0%Z) ]} in
  let_ok (r, _) := ran (find_template frame "sha256:big" (f64_dec 5 1) assets) Perception_new in
  negb (truthy r).
(* src: crates/vcli-perception/src/template.rs 391-422 missing_asset_errors *)
Definition missing_asset_errors : test :=
  let_ok frame := scene_with_box in
  fails (find_template frame "sha256:blackbox" (f64_dec 9 1) ∅) Perception_new
    (λ e, match e with AssetNotMaterialized _ => true | _ => false end).

Lemma no_room px : length px = 64 * 64 →
  (let_ok frame := rgba 64 64 px in
   let assets := {[ "big" := encode (from_pixel 200 200 0%Z) ]} in
   let_ok (r, _) := ran (find_template frame "sha256:big" (f64_dec 5 1) assets) Perception_new in
   negb (truthy r)) = true.
Proof.
  intros Hlen. see. unfold ran, find_template, eval_template. cbn [ctx_frame].
  rewrite (crop_whole 64 64 px); [|lia|lia|by rewrite Hlen]. vm_compute. reflexivity.
Qed.

Example template_tests :
  [decode_gray_parses_valid_png; decode_gray_errors_on_garbage;
   template_larger_than_haystack_is_falsy; missing_asset_errors] = replicate 4 true.
Proof.
  repeat apply (f_equal2 cons).
  - vm_compute. reflexivity.
  - vm_compute. reflexivity.
  - unfold template_larger_than_haystack_is_falsy, scene_with_box.
    exact (no_room (map level (black_block 64 64 24 32 22 26)) eq_refl).
  - vm_compute. reflexivity.
  - reflexivity.
Qed.
