(* ===== verification/ConformWire.v ===== *)
(** * Conformance: vcli-dsl and vcli-ipc

    The unit tests of [vcli-dsl/src] and [vcli-ipc/src], run on the model. *)

From S2P Require Import Prelude Json CoreTypes Canonical Serde ProgramWire DslError DslExpr.
From S2P Require Import DslPredicates DslValidate EventWire IpcWire Conform.

Local Open Scope vcli_scope.

#[export] Instance conform_serde : SerdeOps :=
  {| value_from_str := parse_json; program_message _ := "data did not match" |}.

(** [serde_json::from_value(json!(..)).unwrap()] *)
Definition predicates_of (s : string) : Predicates :=
  default ∅ (read_map (PredicateKind_from_value false) (json s)).

(** [unwrap_err], and the success of a check. *)
Definition err_of {A} (r : result DslError A) : option DslError :=
  match r with Err e => Some e | Ok _ => None end.
Definition graph_err {A} (m : outcome (result DslError A)) : option DslError :=
  match m with Ret r => err_of r | _ => None end.
Definition passes {A} (r : result DslError A) : test := negb (is_err r).
Definition graph_passes {A} (m : outcome (result DslError A)) : test :=
  match m with Ret r => passes r | _ => false end.
Definition at_path (e : DslError) (s : string) : test := assert_eq (path_to_string (path e)) s.

Definition is_unknown_predicate (k : DslErrorKind) : bool :=
  match k with UnknownPredicateName _ _ => true | _ => false end.
Definition is_cycle (k : DslErrorKind) : bool :=
  match k with PredicateCycle _ => true | _ => false end.
Definition is_json_parse (k : DslErrorKind) : bool :=
  match k with JsonParse _ => true | _ => false end.
Definition is_body_only (what : string) (k : DslErrorKind) : bool :=
  match k with BodyOnlyStepInWatch w => assert_eq w what | _ => false end.

(** ** predicates.rs *)

(* src: crates/vcli-dsl/src/predicates.rs 225-229 empty_map_is_valid *)
Definition empty_map_is_valid : test := passes (validate_predicate_shape ∅).
(* src: crates/vcli-dsl/src/predicates.rs 231-239 all_of_with_known_names_ok *)
Definition all_of_with_known_names_ok : test :=
  passes (validate_predicate_shape (predicates_of
    "{'a': {'kind':'color_at','point':{'x':0,'y':0},'rgb':[0,0,0],'tolerance':1},
      'b': {'kind':'color_at','point':{'x':1,'y':1},'rgb':[0,0,0],'tolerance':1},
      'c': {'kind':'all_of','of':['a','b']}}")).
(* src: crates/vcli-dsl/src/predicates.rs 241-253 all_of_with_unknown_reports_path *)
Definition all_of_with_unknown_reports_path : test :=
  let p := predicates_of
    "{'a': {'kind':'color_at','point':{'x':0,'y':0},'rgb':[0,0,0],'tolerance':1},
      'c': {'kind':'all_of','of':['a','zzz']}}" in
  let_ok e := err_of (validate_predicate_shape p) in
  match kind e with UnknownPredicateName name _ => assert_eq name "zzz" | _ => false end &&
  at_path e "/predicates/c/of/1".
(* src: crates/vcli-dsl/src/predicates.rs 255-265 any_of_empty_rejected *)
Definition any_of_empty_rejected : test :=
  let_ok e := err_of (validate_predicate_shape (predicates_of "{'c': {'kind':'any_of','of':[]}}")) in
  match kind e with EmptyLogicalOp op => assert_eq op "any_of" | _ => false end.
(* src: crates/vcli-dsl/src/predicates.rs 267-275 not_with_unknown_reports_at_of *)
Definition not_with_unknown_reports_at_of : test :=
  let_ok e := err_of (validate_predicate_shape (predicates_of "{'c': {'kind':'not','of':'nope'}}")) in
  at_path e "/predicates/c/of" && is_unknown_predicate (kind e).
(* src: crates/vcli-dsl/src/predicates.rs 277-288 elapsed_with_unknown_reports_distinct_error *)
Definition elapsed_with_unknown_reports_distinct_error : test :=
  let p := predicates_of "{'c': {'kind':'elapsed_ms_since_true','predicate':'nope','ms':100}}" in
  let_ok e := err_of (validate_predicate_shape p) in
  match kind e with ElapsedReferenceMissing _ => true | _ => false end &&
  at_path e "/predicates/c/predicate".
(* src: crates/vcli-dsl/src/predicates.rs 290-298 template_with_relative_region_resolved *)
Definition template_with_relative_region_resolved : test :=
  passes (validate_predicate_shape (predicates_of
    "{'anchor': {'kind':'color_at','point':{'x':0,'y':0},'rgb':[0,0,0],'tolerance':1},
      't': {'kind':'template','image':'x.png','confidence':0.9,
            'region':{'kind':'relative_to','predicate':'anchor'}}}")).
(* src: crates/vcli-dsl/src/predicates.rs 300-308 template_with_unknown_relative_ref_reports *)
Definition template_with_unknown_relative_ref_reports : test :=
  let p := predicates_of
    "{'t': {'kind':'template','image':'x.png','confidence':0.9,
            'region':{'kind':'relative_to','predicate':'absent'}}}" in
  let_ok e := err_of (validate_predicate_shape p) in at_path e "/predicates/t/region/predicate".
(* src: crates/vcli-dsl/src/predicates.rs 310-323 did_you_mean_hint_fires_on_single_edit *)
Definition did_you_mean_hint_fires_on_single_edit : test :=
  let p := predicates_of
    "{'skip_visible': {'kind':'color_at','point':{'x':0,'y':0},'rgb':[0,0,0],'tolerance':1},
      'c': {'kind':'not','of':'skp_visible'}}" in
  let_ok e := err_of (validate_predicate_shape p) in
  match kind e with UnknownPredicateName _ hint => assert_eq hint (Some "skip_visible") | _ => false end.
(* src: crates/vcli-dsl/src/predicates.rs 327-340 self_cycle_via_not_is_rejected *)
Definition self_cycle_via_not_is_rejected : test :=
  let_ok e := graph_err (validate_predicate_graph (predicates_of "{'x': {'kind':'not','of':'x'}}")) in
  match kind e with
  | PredicateCycle cycle => assert_eq (head cycle) (Some "x") && assert_eq (last cycle) (Some "x")
  | _ => false
  end.
(* src: crates/vcli-dsl/src/predicates.rs 342-350 two_node_cycle_all_of_not *)
Definition two_node_cycle_all_of_not : test :=
  let p := predicates_of "{'a': {'kind':'not','of':'b'}, 'b': {'kind':'all_of','of':['a']}}" in
  let_ok e := graph_err (validate_predicate_graph p) in is_cycle (kind e).
(* src: crates/vcli-dsl/src/predicates.rs 352-362 cycle_through_relative_to_region_detected *)
Definition cycle_through_relative_to_region_detected : test :=
  let p := predicates_of
    "{'a': {'kind':'template','image':'x.png','confidence':0.9,
            'region':{'kind':'relative_to','predicate':'b'}},
      'b': {'kind':'template','image':'y.png','confidence':0.9,
            'region':{'kind':'relative_to','predicate':'a'}}}" in
  let_ok e := graph_err (validate_predicate_graph p) in is_cycle (kind e).
(* src: crates/vcli-dsl/src/predicates.rs 364-372 cycle_through_elapsed_ms_since_true_detected *)
Definition cycle_through_elapsed_ms_since_true_detected : test :=
  let p := predicates_of
    "{'a': {'kind':'elapsed_ms_since_true','predicate':'b','ms':100},
      'b': {'kind':'not','of':'a'}}" in
  let_ok e := graph_err (validate_predicate_graph p) in is_cycle (kind e).
(* src: crates/vcli-dsl/src/predicates.rs 374-382 acyclic_dag_passes_graph_check *)
Definition acyclic_dag_passes_graph_check : test :=
  graph_passes (validate_predicate_graph (predicates_of
    "{'leaf': {'kind':'color_at','point':{'x':0,'y':0},'rgb':[0,0,0],'tolerance':1},
      'mid':  {'kind':'not','of':'leaf'},
      'root': {'kind':'all_of','of':['leaf','mid']}}")).

Example dsl_predicates_tests :
  [empty_map_is_valid; all_of_with_known_names_ok; all_of_with_unknown_reports_path;
   any_of_empty_rejected; not_with_unknown_reports_at_of; elapsed_with_unknown_reports_distinct_error;
   template_with_relative_region_resolved; template_with_unknown_relative_ref_reports;
   did_you_mean_hint_fires_on_single_edit; self_cycle_via_not_is_rejected;
   two_node_cycle_all_of_not; cycle_through_relative_to_region_detected;
   cycle_through_elapsed_ms_since_true_detected; acyclic_dag_passes_graph_check]
  = replicate 14 true.
Proof. vm_compute. reflexivity. Qed.

(** ** steps.rs *)

(* src: crates/vcli-dsl/src/steps.rs 158-165 preds *)
Definition preds : Predicates := predicates_of
  "{'skip_visible': {'kind':'template','image':'x.png','confidence':0.9,
                     'region':{'kind':'absolute','box':{'x':0,'y':0,'w':10,'h':10}}},
    'logic':        {'kind':'not','of':'skip_visible'}}".
(* src: crates/vcli-dsl/src/steps.rs 167-169 steps_of *)
Definition steps_of (s : string) : list Step := default [] (read_vec Step_from_value (json s)).

Definition in_body (s : string) : result DslError () :=
  validate_body_steps (steps_of s) preds (key root "body").
Definition in_do (s : string) : result DslError () :=
  validate_watch_steps (steps_of s) preds (key (index (key root "watches") 0) "do").

(* src: crates/vcli-dsl/src/steps.rs 171-178 valid_click_expression_target_ok *)
Definition valid_click_expression_target_ok : test :=
  passes (in_body "[{'kind':'click','at':'$skip_visible.match.center'}]").
(* src: crates/vcli-dsl/src/steps.rs 180-189 click_with_unknown_predicate_reports_path *)
Definition click_with_unknown_predicate_reports_path : test :=
  let_ok e := err_of (in_body "[{'kind':'click','at':'$nope.match.center'}]") in
  at_path e "/body/0/at" && is_unknown_predicate (kind e).
(* src: crates/vcli-dsl/src/steps.rs 191-205 negative_absolute_target_rejected *)
Definition negative_absolute_target_rejected : test :=
  let_ok e := err_of (in_body "[{'kind':'click','at':{'x':-1,'y':5}}]") in
  match kind e with
  | NegativeAbsoluteTarget x y => assert_eq x (-1)%Z && assert_eq y 5%Z
  | _ => false
  end.
(* src: crates/vcli-dsl/src/steps.rs 207-218 expression_on_logical_predicate_rejected *)
Definition expression_on_logical_predicate_rejected : test :=
  let_ok e := err_of (in_body "[{'kind':'click','at':'$logic.match.center'}]") in
  match kind e with ExpressionOnLogicalPredicate _ => true | _ => false end.
(* src: crates/vcli-dsl/src/steps.rs 220-227 wait_for_in_body_ok *)
Definition wait_for_in_body_ok : test :=
  passes (in_body "[{'kind':'wait_for','predicate':'skip_visible','timeout_ms':1000}]").
(* src: crates/vcli-dsl/src/steps.rs 229-241 wait_for_in_watch_rejected *)
Definition wait_for_in_watch_rejected : test :=
  let_ok e := err_of (in_do "[{'kind':'wait_for','predicate':'skip_visible','timeout_ms':1000}]") in
  is_body_only "wait_for" (kind e).
(* src: crates/vcli-dsl/src/steps.rs 243-255 assert_in_watch_rejected *)
Definition assert_in_watch_rejected : test :=
  let_ok e := err_of (in_do "[{'kind':'assert','predicate':'skip_visible'}]") in
  is_body_only "assert" (kind e).
(* src: crates/vcli-dsl/src/steps.rs 257-269 sleep_ms_in_watch_rejected *)
Definition sleep_ms_in_watch_rejected : test :=
  let_ok e := err_of (in_do "[{'kind':'sleep_ms','ms':100}]") in is_body_only "sleep_ms" (kind e).
(* src: crates/vcli-dsl/src/steps.rs 271-279 assert_with_unknown_predicate_rejected *)
Definition assert_with_unknown_predicate_rejected : test :=
  let_ok e := err_of (in_body "[{'kind':'assert','predicate':'nope'}]") in
  at_path e "/body/0/predicate".
(* src: crates/vcli-dsl/src/steps.rs 281-289 type_and_key_never_reference_predicates *)
Definition type_and_key_never_reference_predicates : test :=
  passes (in_body "[{'kind':'type','text':'hello'}, {'kind':'key','key':'s','modifiers':['cmd']}]").

Example dsl_steps_tests :
  [valid_click_expression_target_ok; click_with_unknown_predicate_reports_path;
   negative_absolute_target_rejected; expression_on_logical_predicate_rejected; wait_for_in_body_ok;
   wait_for_in_watch_rejected; assert_in_watch_rejected; sleep_ms_in_watch_rejected;
   assert_with_unknown_predicate_rejected; type_and_key_never_reference_predicates]
  = replicate 10 true.
Proof. vm_compute. reflexivity. Qed.

(** ** watches.rs *)

(* src: crates/vcli-dsl/src/watches.rs 116-122 preds *)
Definition watches_preds : Predicates := predicates_of
  "{'skip_visible': {'kind':'template','image':'x.png','confidence':0.9,
                     'region':{'kind':'absolute','box':{'x':0,'y':0,'w':10,'h':10}}}}".
(* src: crates/vcli-dsl/src/watches.rs 124-126 watches_of *)
Definition watches_of (s : string) : list Watch := default [] (read_vec Watch_from_value (json s)).
Definition watched (s : string) : outcome (result DslError ()) :=
  validate_watches (watches_of s) watches_preds.

(* src: crates/vcli-dsl/src/watches.rs 128-136 valid_by_name_watch_ok *)
Definition valid_by_name_watch_ok : test :=
  graph_passes (watched
    "[{'when':'skip_visible','do':[{'kind':'click','at':'$skip_visible.match.center'}],
       'lifetime':{'kind':'persistent'}}]").
(* src: crates/vcli-dsl/src/watches.rs 138-153 unknown_when_name_reports_path_and_hint *)
Definition unknown_when_name_reports_path_and_hint : test :=
  let_ok e := graph_err (watched "[{'when':'skp_visible','do':[],'lifetime':{'kind':'persistent'}}]") in
  at_path e "/watches/0/when" &&
  match kind e with
  | UnknownWatchName name hint => assert_eq name "skp_visible" && assert_eq hint (Some "skip_visible")
  | _ => false
  end.
(* src: crates/vcli-dsl/src/watches.rs 155-167 inline_predicate_with_bad_ref_reports_rewritten_path *)
Definition inline_predicate_with_bad_ref_reports_rewritten_path : test :=
  let_ok e := graph_err (watched
    "[{'when': {'kind':'not','of':'nope'}, 'do': [], 'lifetime':{'kind':'persistent'}}]") in
  at_path e "/watches/0/when/of".
(* src: crates/vcli-dsl/src/watches.rs 169-181 inline_template_with_relative_to_named_predicate_ok *)
Definition inline_template_with_relative_to_named_predicate_ok : test :=
  graph_passes (watched
    "[{'when': {'kind':'template','image':'y.png','confidence':0.9,
                'region':{'kind':'relative_to','predicate':'skip_visible'}},
       'do': [], 'lifetime':{'kind':'persistent'}}]").
(* src: crates/vcli-dsl/src/watches.rs 183-194 body_only_step_in_watch_reports_under_do *)
Definition body_only_step_in_watch_reports_under_do : test :=
  let_ok e := graph_err (watched
    "[{'when':'skip_visible', 'do':[{'kind':'sleep_ms','ms':100}],
       'lifetime':{'kind':'persistent'}}]") in
  at_path e "/watches/0/do/0" && match kind e with BodyOnlyStepInWatch _ => true | _ => false end.
(* src: crates/vcli-dsl/src/watches.rs 196-206 lifetime_until_predicate_unknown_rejected *)
Definition lifetime_until_predicate_unknown_rejected : test :=
  let_ok e := graph_err (watched
    "[{'when':'skip_visible','do':[], 'lifetime':{'kind':'until_predicate','name':'missing'}}]") in
  at_path e "/watches/0/lifetime/name" && is_unknown_predicate (kind e).
(* src: crates/vcli-dsl/src/watches.rs 208-216 lifetime_timeout_ms_ignores_predicates *)
Definition lifetime_timeout_ms_ignores_predicates : test :=
  graph_passes (watched
    "[{'when':'skip_visible','do':[], 'lifetime':{'kind':'timeout_ms','ms':5000}}]").

Example dsl_watches_tests :
  [valid_by_name_watch_ok; unknown_when_name_reports_path_and_hint;
   inline_predicate_with_bad_ref_reports_rewritten_path;
   inline_template_with_relative_to_named_predicate_ok; body_only_step_in_watch_reports_under_do;
   lifetime_until_predicate_unknown_rejected; lifetime_timeout_ms_ignores_predicates]
  = replicate 7 true.
Proof. vm_compute. reflexivity. Qed.

(** ** triggers.rs *)

(* src: crates/vcli-dsl/src/triggers.rs 43-48 preds *)
Definition trigger_preds : Predicates := predicates_of
  "{'ready': {'kind':'color_at','point':{'x':0,'y':0},'rgb':[0,0,0],'tolerance':1}}".
(* src: crates/vcli-dsl/src/triggers.rs 50-53 on_submit_always_ok *)
Definition on_submit_always_ok : test := passes (validate_trigger OnSubmit ∅).
(* src: crates/vcli-dsl/src/triggers.rs 55-58 manual_always_ok *)
Definition manual_always_ok : test := passes (validate_trigger Manual ∅).
(* src: crates/vcli-dsl/src/triggers.rs 60-69 on_predicate_with_known_name_ok *)
Definition on_predicate_with_known_name_ok : test :=
  passes (validate_trigger (OnPredicate "ready") trigger_preds).
(* src: crates/vcli-dsl/src/triggers.rs 71-85 on_predicate_with_unknown_reports_path *)
Definition on_predicate_with_unknown_reports_path : test :=
  let_ok e := err_of (validate_trigger (OnPredicate "nope") trigger_preds) in
  at_path e "/trigger/name" &&
  match kind e with UnknownTriggerName name _ => assert_eq name "nope" | _ => false end.
(* src: crates/vcli-dsl/src/triggers.rs 87-102 on_predicate_hint_fires_on_typo *)
Definition on_predicate_hint_fires_on_typo : test :=
  let_ok e := err_of (validate_trigger (OnPredicate "rady") trigger_preds) in
  match kind e with UnknownTriggerName _ hint => assert_eq hint (Some "ready") | _ => false end.

Example dsl_triggers_tests :
  [on_submit_always_ok; manual_always_ok; on_predicate_with_known_name_ok;
   on_predicate_with_unknown_reports_path; on_predicate_hint_fires_on_typo] = replicate 5 true.
Proof. vm_compute. reflexivity. Qed.

(** ** parse.rs *)

(* src: crates/vcli-dsl/src/parse.rs 96-109 minimal_valid_envelope_parses *)
Definition minimal_valid_envelope_parses : test :=
  let src := js "{
            'version': '0.1',
            'name': 'x',
            'trigger': { 'kind': 'on_submit' },
            'predicates': {},
            'watches': [],
            'body': []
        }" in
  let_ok p := parse_envelope_str src in
  assert_eq (p_name p) "x" && assert_eq (p_version p) "0.1".
(* src: crates/vcli-dsl/src/parse.rs 111-117 missing_version_reports_missing_field *)
Definition missing_version_reports_missing_field : test :=
  let_ok e := err_of (parse_envelope_str (js "{ 'name': 'x', 'trigger': {'kind':'on_submit'} }")) in
  match kind e with MissingField f => assert_eq f "version" | _ => false end && is_root (path e).
(* src: crates/vcli-dsl/src/parse.rs 119-136 wrong_version_type_reports_wrong_type *)
Definition wrong_version_type_reports_wrong_type : test :=
  let_ok e := err_of (parse_envelope_str (js "{ 'version': 1 }")) in
  match kind e with
  | WrongType field expected got =>
      assert_eq field "version" && assert_eq expected "string" && assert_eq got "number"
  | _ => false
  end && at_path e "/version".
(* src: crates/vcli-dsl/src/parse.rs 138-152 unsupported_major_rejected *)
Definition unsupported_major_rejected : test :=
  let src := js "{ 'version': '1.0', 'name': 'x', 'trigger': {'kind':'on_submit'} }" in
  let_ok e := err_of (parse_envelope_str src) in
  match kind e with
  | UnsupportedDslVersion found expected_major =>
      assert_eq found "1.0" && assert_eq expected_major "0"
  | _ => false
  end.
(* src: crates/vcli-dsl/src/parse.rs 154-161 non_object_root_rejected *)
Definition non_object_root_rejected : test :=
  let_ok e := err_of (parse_envelope_str "[]") in
  match kind e with WrongType _ _ got => assert_eq got "array" | _ => false end.
(* src: crates/vcli-dsl/src/parse.rs 163-176 serde_shape_error_surfaces_as_json_parse *)
Definition serde_shape_error_surfaces_as_json_parse : test :=
  let src := js "{
            'version': '0.1',
            'name': 'x',
            'trigger': { 'kind': 'explode' },
            'predicates': {},
            'watches': [],
            'body': []
        }" in
  let_ok e := err_of (parse_envelope_str src) in is_json_parse (kind e).
(* src: crates/vcli-dsl/src/parse.rs 178-182 bad_json_reports_parse_error *)
Definition bad_json_reports_parse_error : test :=
  let_ok e := err_of (parse_envelope_str "{ not json") in is_json_parse (kind e).

Example dsl_parse_tests :
  [minimal_valid_envelope_parses; missing_version_reports_missing_field;
   wrong_version_type_reports_wrong_type; unsupported_major_rejected; non_object_root_rejected;
   serde_shape_error_surfaces_as_json_parse; bad_json_reports_parse_error] = replicate 7 true.
Proof. vm_compute. reflexivity. Qed.

(** ** lib.rs *)

(* src: crates/vcli-dsl/src/lib.rs 97-113 good_program *)
Definition good_program : string := json_to_string (json "{
            'version': '0.1',
            'name': 'p',
            'trigger': {'kind':'on_submit'},
            'predicates': {
                'skip': {'kind':'template','image':'x.png','confidence':0.9,
                         'region':{'kind':'absolute','box':{'x':0,'y':0,'w':10,'h':10}}}
            },
            'watches': [
                {'when':'skip','do':[{'kind':'click','at':'$skip.match.center'}],
                 'lifetime':{'kind':'persistent'}}
            ],
            'body': []
        }").
(** [validate_str(..).unwrap()] *)
Definition validated {A} (m : outcome (result DslError A)) : option A :=
  match m with Ret (Ok v) => Some v | _ => None end.

(* src: crates/vcli-dsl/src/lib.rs 115-121 validate_str_happy_path_returns_program_and_hashes *)
Definition validate_str_happy_path_returns_program_and_hashes : test :=
  let_ok out := validated (validate_str good_program) in
  assert_eq (p_name (v_program out)) "p" && assert_eq (size (v_hashes out)) 1 &&
  bool_decide (is_Some (v_hashes out !! "skip")).
(* src: crates/vcli-dsl/src/lib.rs 123-139 validate_str_rejects_cycle *)
Definition validate_str_rejects_cycle : test :=
  let src := json_to_string (json "{
            'version': '0.1',
            'name': 'p',
            'trigger': {'kind':'on_submit'},
            'predicates': {
                'a': {'kind':'not','of':'b'},
                'b': {'kind':'not','of':'a'}
            },
            'watches': [],
            'body': []
        }") in
  let_ok e := graph_err (validate_str src) in is_cycle (kind e).
(* src: crates/vcli-dsl/src/lib.rs 141-157 validate_str_rejects_unknown_trigger_name *)
Definition validate_str_rejects_unknown_trigger_name : test :=
  let src := json_to_string (json "{
            'version': '0.1',
            'name': 'p',
            'trigger': {'kind':'on_predicate','name':'nope'},
            'predicates': {},
            'watches': [],
            'body': []
        }") in
  let_ok e := graph_err (validate_str src) in
  match kind e with UnknownTriggerName _ _ => true | _ => false end.
(* src: crates/vcli-dsl/src/lib.rs 159-166 validate_value_and_validate_str_agree *)
Definition validate_value_and_validate_str_agree : test :=
  let_ok v := json_from_str good_program in
  let_ok a := validated (validate_value v) in
  let_ok b := validated (validate_str good_program) in
  assert_eq (p_name (v_program a)) (p_name (v_program b)) && assert_eq (v_hashes a) (v_hashes b).

Example dsl_lib_tests :
  [validate_str_happy_path_returns_program_and_hashes; validate_str_rejects_cycle;
   validate_str_rejects_unknown_trigger_name; validate_value_and_validate_str_agree]
  = replicate 4 true.
Proof. vm_compute. reflexivity. Qed.

(** ** expression.rs *)

(* src: crates/vcli-dsl/src/expression.rs 107-109 p *)
Definition p (s : string) : result DslError Expression :=
  Expression_parse s (key (index (key root "body") 0) "at").
(** The accessor a text parses to. *)
Definition accessor_of (s : string) : option Accessor := accessor <$> result_ok (p s).
Definition malformed (s reason : string) : test :=
  let_ok e := err_of (p s) in
  match kind e with MalformedExpression r _ => contains reason r | _ => false end.

(* src: crates/vcli-dsl/src/expression.rs 111-116 parses_center *)
Definition parses_center : test :=
  let_ok e := p "$skip_visible.match.center" in
  assert_eq (expr_name e) "skip_visible" && assert_eq (accessor e) Center.
(* src: crates/vcli-dsl/src/expression.rs 118-127 parses_all_accessors *)
Definition parses_all_accessors : test :=
  assert_eq (accessor_of "$x.match.center") (Some Center) &&
  assert_eq (accessor_of "$x.match.top_left") (Some TopLeft) &&
  assert_eq (accessor_of "$x.match.box") (Some Box) &&
  assert_eq (accessor_of "$x.match.confidence") (Some ConfidenceAcc).
(* src: crates/vcli-dsl/src/expression.rs 129-138 rejects_missing_dollar *)
Definition rejects_missing_dollar : test := malformed "x.match.center" "'$'".
(* src: crates/vcli-dsl/src/expression.rs 140-149 rejects_unknown_accessor *)
Definition rejects_unknown_accessor : test := malformed "$x.match.area" "accessor".
(* src: crates/vcli-dsl/src/expression.rs 151-154 rejects_missing_match_keyword *)
Definition rejects_missing_match_keyword : test := is_err (p "$x.mtach.center").
(* src: crates/vcli-dsl/src/expression.rs 156-159 rejects_trailing_segments *)
Definition rejects_trailing_segments : test := is_err (p "$x.match.center.extra").
(* src: crates/vcli-dsl/src/expression.rs 161-164 rejects_empty_name *)
Definition rejects_empty_name : test := is_err (p "$.match.center").
(* src: crates/vcli-dsl/src/expression.rs 166-170 rejects_non_identifier_name *)
Definition rejects_non_identifier_name : test :=
  is_err (p "$1bad.match.center") && is_err (p "$bad-name.match.center").
(* src: crates/vcli-dsl/src/expression.rs 172-176 path_in_error_is_preserved *)
Definition path_in_error_is_preserved : test :=
  let_ok e := err_of (p "nope") in at_path e "/body/0/at".

Example dsl_expression_tests :
  [parses_center; parses_all_accessors; rejects_missing_dollar; rejects_unknown_accessor;
   rejects_missing_match_keyword; rejects_trailing_segments; rejects_empty_name;
   rejects_non_identifier_name; path_in_error_is_preserved] = replicate 9 true.
Proof. vm_compute. reflexivity. Qed.

(** ** error.rs *)

(* src: crates/vcli-dsl/src/error.rs 192-202 to_payload_sets_invalid_program_code_and_path *)
Definition to_payload_sets_invalid_program_code_and_path : test :=
  let p := to_payload {| kind := MissingField "version"; path := key root "version" |} in
  assert_eq (ep_code p) InvalidProgram && assert_eq (ep_path p) (Some "/version") &&
  contains "missing required field" (ep_message p).
(* src: crates/vcli-dsl/src/error.rs 204-216 hint_surfaces_for_name_errors *)
Definition hint_surfaces_for_name_errors : test :=
  let e := {| kind := UnknownPredicateName "skp_visible" (Some "skip_visible");
              path := key (index (key root "watches") 0) "when" |} in
  assert_eq (DslError_hint e) (Some "skip_visible") &&
  assert_eq (ep_hint (to_payload e)) (Some "skip_visible").
(* src: crates/vcli-dsl/src/error.rs 218-222 hint_absent_for_non_name_errors *)
Definition hint_absent_for_non_name_errors : test :=
  assert_eq (DslError_hint {| kind := MissingField "version"; path := root |}) None.
(* src: crates/vcli-dsl/src/error.rs 224-236 payload_serializes_to_wire_shape *)
Definition payload_serializes_to_wire_shape : test :=
  let e := {| kind := UnknownPredicateName "foo" None;
              path := key (key (key root "predicates") "bar") "of" |} in
  let j := ErrorPayload_to_value (to_payload e) in
  assert_eq (value_get "code" j) (Some (Str "invalid_program")) &&
  assert_eq (value_get "path" j) (Some (Str "/predicates/bar/of")).
(* src: crates/vcli-dsl/src/error.rs 238-249 canonical_error_conversion_preserves_kind *)
Definition canonical_error_conversion_preserves_kind : test :=
  contains "canonicalization failed" (DslErrorKind_to_string (CanonicalizationFailed "simulated")).

Example dsl_error_tests :
  [to_payload_sets_invalid_program_code_and_path; hint_surfaces_for_name_errors;
   hint_absent_for_non_name_errors; payload_serializes_to_wire_shape;
   canonical_error_conversion_preserves_kind] = replicate 5 true.
Proof. vm_compute. reflexivity. Qed.

(** ** hash.rs *)

(* src: crates/vcli-dsl/src/hash.rs 60-64 empty_in_empty_out *)
Definition empty_in_empty_out : test :=
  let_ok h := compute_predicate_hashes ∅ in assert_eq h ∅.
(* src: crates/vcli-dsl/src/hash.rs 66-76 one_hash_per_name *)
Definition one_hash_per_name : test :=
  let p := predicates_of
    "{'a': {'kind':'color_at','point':{'x':0,'y':0},'rgb':[0,0,0],'tolerance':1},
      'b': {'kind':'color_at','point':{'x':0,'y':0},'rgb':[255,255,255],'tolerance':1}}" in
  let_ok h := compute_predicate_hashes p in
  assert_eq (size h) 2 && assert_ne (h !! "a") (h !! "b") &&
  assert_eq (String.length <$> h !! "a") (Some 64).
(* src: crates/vcli-dsl/src/hash.rs 78-86 structurally_equal_predicates_share_hash *)
Definition structurally_equal_predicates_share_hash : test :=
  let p := predicates_of "{'a': {'kind':'not','of':'ref'}, 'b': {'kind':'not','of':'ref'}}" in
  let_ok h := compute_predicate_hashes p in
  let_ok a := h !! "a" in let_ok b := h !! "b" in assert_eq a b.
(* src: crates/vcli-dsl/src/hash.rs 88-106 hash_stable_under_key_order_within_predicate *)
Definition hash_stable_under_key_order_within_predicate : test :=
  let p1 := predicates_of
    "{'t': {'kind':'template','image':'x.png','confidence':0.9,
            'region':{'kind':'absolute','box':{'x':0,'y':0,'w':10,'h':10}},
            'throttle_ms':200}}" in
  let p2 := predicates_of
    "{'t': {'image':'x.png','kind':'template','confidence':0.9,
            'throttle_ms':200,
            'region':{'box':{'w':10,'y':0,'x':0,'h':10},'kind':'absolute'}}}" in
  let_ok h1 := compute_predicate_hashes p1 in
  let_ok h2 := compute_predicate_hashes p2 in
  let_ok a := h1 !! "t" in let_ok b := h2 !! "t" in assert_eq a b.

Example dsl_hash_tests :
  [empty_in_empty_out; one_hash_per_name; structurally_equal_predicates_share_hash;
   hash_stable_under_key_order_within_predicate] = replicate 4 true.
Proof. vm_compute. reflexivity. Qed.

(** ** hint.rs *)

(* src: crates/vcli-dsl/src/hint.rs 71-74 exact_match_returns_none *)
Definition exact_match_returns_none : test := assert_eq (did_you_mean "skip" ["skip"; "nope"]) None.
(* src: crates/vcli-dsl/src/hint.rs 76-82 one_substitution_detected *)
Definition one_substitution_detected : test :=
  assert_eq (did_you_mean "skp_visible" ["skip_visible"; "other"]) (Some "skip_visible").
(* src: crates/vcli-dsl/src/hint.rs 84-90 one_insertion_detected *)
Definition one_insertion_detected : test := assert_eq (did_you_mean "sip" ["skip"]) (Some "skip").
(* src: crates/vcli-dsl/src/hint.rs 92-98 one_deletion_detected *)
Definition one_deletion_detected : test := assert_eq (did_you_mean "skipp" ["skip"]) (Some "skip").
(* src: crates/vcli-dsl/src/hint.rs 100-103 two_edits_rejected *)
Definition two_edits_rejected : test := assert_eq (did_you_mean "skap" ["skip_visible"]) None.
(* src: crates/vcli-dsl/src/hint.rs 105-111 first_match_wins *)
Definition first_match_wins : test := assert_eq (did_you_mean "ab" ["ax"; "ay"]) (Some "ax").

Example dsl_hint_tests :
  [exact_match_returns_none; one_substitution_detected; one_insertion_detected;
   one_deletion_detected; two_edits_rejected; first_match_wins] = replicate 6 true.
Proof. vm_compute. reflexivity. Qed.

(** ** path.rs *)

(* src: crates/vcli-dsl/src/path.rs 77-81 root_is_empty_string *)
Definition root_is_empty_string : test := assert_eq (path_to_string root) "" && is_root root.
(* src: crates/vcli-dsl/src/path.rs 83-87 key_then_index_then_key_roundtrip *)
Definition key_then_index_then_key_roundtrip : test :=
  assert_eq (path_to_string (key (index (key root "watches") 1) "when")) "/watches/1/when".
(* src: crates/vcli-dsl/src/path.rs 89-93 special_chars_in_keys_are_escaped *)
Definition special_chars_in_keys_are_escaped : test :=
  assert_eq (path_to_string (key (key root "a/b") "c~d")) "/a~1b/c~0d".
(* src: crates/vcli-dsl/src/path.rs 95-103 cloning_keeps_segments_independent *)
Definition cloning_keeps_segments_independent : test :=
  let base := key root "predicates" in
  let a := key base "foo" in
  let b := key base "bar" in
  assert_eq (path_to_string a) "/predicates/foo" && assert_eq (path_to_string b) "/predicates/bar" &&
  assert_eq (path_to_string base) "/predicates".

Example dsl_path_tests :
  [root_is_empty_string; key_then_index_then_key_roundtrip; special_chars_in_keys_are_escaped;
   cloning_keeps_segments_independent] = replicate 4 true.
Proof. vm_compute. reflexivity. Qed.

(** * vcli-ipc

    Its unit tests, with the handler the crate's integration tests use. *)

From S2P Require Import Prelude Digits Json CoreTypes Serde EventWire ProgramWire IpcWire Host Ipc.
From S2P Require Import Conform ConformCore.

#[export] Instance conform_message : SerdeMessage := {| serde_message _ := "wrong shape" |}.
#[local] Existing Instance reliable_host.

#[export] Instance RequestOp_eq_dec : EqDecision RequestOp.
Proof. solve_decision. Defined.
#[export] Instance Request_eq_dec : EqDecision Request.
Proof. solve_decision. Defined.
#[export] Instance ResponseBody_eq_dec : EqDecision ResponseBody.
Proof. solve_decision. Defined.
#[export] Instance Response_eq_dec : EqDecision Response.
Proof. solve_decision. Defined.
#[export] Instance StreamKind_eq_dec : EqDecision StreamKind.
Proof. solve_decision. Defined.
#[export] Instance StreamFrame_eq_dec : EqDecision StreamFrame.
Proof. solve_decision. Defined.
#[export] Instance SocketPathOrigin_eq_dec : EqDecision SocketPathOrigin.
Proof. solve_decision. Defined.

(** ** handler.rs

    Records every op; [fresh] is the program id it draws. *)

(* src: crates/vcli-ipc/src/handler.rs 66-143 FakeHandler *)
Definition fake_handler (fresh : ProgramId) : Handler (list RequestOp) := {|
  handle id op received :=
    let field k v := Obj [(k, v)] in
    let pid i := ("program_id", ProgramId_to_value i) in
    let resp :=
      match op with
      | Submit _ _ => Response_ok id (Obj [pid fresh])
      | Cancel p => Response_ok id (Obj [pid p; ("state", Str "cancelled")])
      | Status p | Start p => Response_ok id (Obj [pid p])
      | Resume p from_start => Response_ok id (Obj [pid p; ("from_start", Bool from_start)])
      | List_ state =>
          Response_ok id (Obj [("state_filter", from_option Str Null state);
                               ("items", Arr [])])
      | Health => Response_ok id (field "ok" (Bool true))
      | Gc => Response_ok id (field "gc" (Str "ok"))
      | Shutdown => Response_ok id (field "bye" (Bool true))
      | Logs _ _ | Events _ | TraceOp _ =>
          Response_err id (ErrorPayload_simple InternalCode "streaming op on one-shot")
      end in
    Ret (Ok resp, received ++ [op]);
  handle_stream id op received :=
    Ret ([StreamFrame_event id (mkEvent 1 (DaemonStarted "0.0.1"));
          StreamFrame_event id (mkEvent 2 DaemonStopped)], received ++ [op]);
  is_streaming := is_streaming_default;
|}.

Definition rid : RequestId :=
  mkRequestId (default 0%N (parse_hyphenated "12345678-1234-4567-8910-111213141516")).

(* src: crates/vcli-ipc/src/handler.rs 155-184 is_streaming_classifies_v0_ops *)
Definition is_streaming_classifies_v0_ops : test :=
  let streams := @is_streaming _ (fake_handler sample_program_id) in
  streams (Events true) && streams (TraceOp sample_program_id) &&
  streams (Logs sample_program_id false) && negb (streams Health) && negb (streams (List_ None)).

(** A request and a stream over one connection. *)
Example fake_handler_serves :
  let reqs := [mkRequest rid Health; mkRequest rid (Events true)] in
  let frames := concat (map (λ r, be_bytes32 (blen (encode r)) ++ encode r) reqs) in
  let H := fake_handler sample_program_id in
  match handle_connection 10 rid (mkConn (map (λ b, Data b []) frames) [] [] [], []) with
  | Ret (_, (c, received)) =>
      received = [Health; Events true] ∧
      contains (js "'result':{'ok':true}") (string_of_bytes (outgoing c)) = true ∧
      contains "daemon.stopped" (string_of_bytes (outgoing c)) = true
  | _ => False
  end.
Proof. vm_compute. auto. Qed.

(** ** frame.rs

    Without [write_rejects_oversize_payload], whose payload is of 4 MiB. *)

Record Msg := mkMsg { msg_id : Z; msg_text : string }.
#[export] Instance Msg_eq_dec : EqDecision Msg.
Proof. solve_decision. Defined.
#[export] Instance Msg_wire : Wire Msg := {|
  to_value m := Obj [("id", num (msg_id m)); ("text", Str (msg_text m))];
  from_value v := i ← req "id" read_u32 v; t ← req "text" read_str v; Some (mkMsg i t);
  wire_wf m := in_u32 (msg_id m);
|}.

(** Two ends of [duplex(n)]: what is written arrives in pieces of at most [n]
    bytes; with the writer gone nothing more does. *)
Definition quiet : Conn := mkConn [] [] [] [].
Fixpoint pieces (fuel n : nat) (b : bytes) : list Arrival :=
  match fuel, b with
  | S fuel, z :: bs => Data z (take (pred n) bs) :: pieces fuel n (drop (pred n) bs)
  | _, _ => []
  end.
Definition delivered (n : nat) (b : bytes) : Conn := mkConn (pieces (length b) n b) [] [] [].
Definition written {A} (m : ST Conn (result IpcError A)) : option bytes :=
  match m quiet with Ret (Ok _, c) => Some (outgoing c) | _ => None end.
Definition read_ok {A} (m : ST Conn (result IpcError A)) (c : Conn) : option (A * Conn) :=
  match m c with Ret (Ok a, c) => Some (a, c) | _ => None end.
Definition read_err {A} (m : ST Conn (result IpcError A)) (c : Conn) : option IpcError :=
  match m c with Ret (Err e, _) => Some e | _ => None end.

(* src: crates/vcli-ipc/src/frame.rs 105-115 roundtrip_simple_value *)
Definition roundtrip_simple_value : test :=
  let sent := mkMsg 7 "hi" in
  let_ok b := written (write_frame sent) in
  let_ok (got, _) := read_ok (read_frame (T := Msg)) (delivered 256 b) in assert_eq got sent.
(* src: crates/vcli-ipc/src/frame.rs 117-134 roundtrip_two_frames_back_to_back *)
Definition roundtrip_two_frames_back_to_back : test :=
  let m1 := mkMsg 1 "one" in
  let m2 := mkMsg 2 "two" in
  let_ok b := written (_ ←! write_frame m1; write_frame m2) in
  let_ok (got1, c) := read_ok (read_frame (T := Msg)) (delivered 256 b) in
  let_ok (got2, _) := read_ok (read_frame (T := Msg)) c in
  assert_eq got1 m1 && assert_eq got2 m2.
(* src: crates/vcli-ipc/src/frame.rs 145-161 read_reassembles_across_partial_writes *)
Definition read_reassembles_across_partial_writes : test :=
  let_ok b := written (write_frame (mkMsg 42 "partial")) in
  let_ok (got, _) := read_ok (read_frame (T := Msg)) (delivered 1 b) in
  assert_eq (msg_id got) 42%Z && assert_eq (msg_text got) "partial".
(* src: crates/vcli-ipc/src/frame.rs 163-171 read_rejects_oversize_header *)
Definition read_rejects_oversize_header : test :=
  let huge := (MAX_FRAME_LEN + 1)%Z in
  let_ok err := read_err (read_frame (T := Msg)) (delivered 64 (be_bytes32 huge)) in
  match err with FrameTooLarge len _ => assert_eq len huge | _ => false end.
(* src: crates/vcli-ipc/src/frame.rs 173-185 read_reports_clean_eof_between_frames *)
Definition read_reports_clean_eof_between_frames : test :=
  let_ok err := read_err (read_frame (T := Msg)) (delivered 64 []) in
  assert_eq err (UnexpectedEof 0 4).
(* src: crates/vcli-ipc/src/frame.rs 187-202 read_reports_mid_frame_eof *)
Definition read_reports_mid_frame_eof : test :=
  let_ok err := read_err (read_frame (T := Msg))
                  (delivered 64 (be_bytes32 100 ++ replicate 10 0%Z)) in
  assert_eq err (UnexpectedEof 10 100).
(* src: crates/vcli-ipc/src/frame.rs 204-213 read_rejects_invalid_json_body *)
Definition read_rejects_invalid_json_body : test :=
  let bad := Sha256.bytes_of_string "not json" in
  let_ok err := read_err (read_frame (T := Msg)) (delivered 64 (be_bytes32 (blen bad) ++ bad)) in
  match err with InvalidJson _ => true | _ => false end.

Example ipc_frame_tests :
  [is_streaming_classifies_v0_ops; roundtrip_simple_value; roundtrip_two_frames_back_to_back;
   read_reassembles_across_partial_writes; read_rejects_oversize_header;
   read_reports_clean_eof_between_frames; read_reports_mid_frame_eof;
   read_rejects_invalid_json_body] = replicate 8 true.
Proof. vm_compute. reflexivity. Qed.

(** ** error.rs *)

(* src: crates/vcli-ipc/src/error.rs 71-77 display_includes_context *)
Definition display_includes_context : test :=
  let s := IpcError_display (FrameTooLarge 99 10) in contains "99" s && contains "10" s.
(* src: crates/vcli-ipc/src/error.rs 79-88 unexpected_eof_reports_progress *)
Definition unexpected_eof_reports_progress : test :=
  let s := IpcError_display (UnexpectedEof 3 8) in contains "3" s && contains "8" s.

(** ** socket_path.rs

    The guard that sets the variables is an environment with them. *)

Definition env_with (os : TargetOs) (vars : list (string * string)) : Env := {|
  target_os := os; uid := 501; is_dir _ := false;
  var_os k := snd <$> (snd <$> list_find (λ kv, kv.1 = k) vars);
|}.
(* src: crates/vcli-ipc/src/socket_path.rs 174-180 override_env_wins_over_all_other_branches *)
Definition override_env_wins_over_all_other_branches : test :=
  forallb (λ os,
    let_ok p := default_socket_path (env_with os [(OVERRIDE_ENV, "/custom/vcli.sock")]) in
    assert_eq (sp_path p) (path_of_string "/custom/vcli.sock") && assert_eq (sp_origin p) Override)
  [Macos; Linux].
(* src: crates/vcli-ipc/src/socket_path.rs 182-194 mac_uses_tmpdir_branch *)
Definition mac_uses_tmpdir_branch : test :=
  let_ok p := default_socket_path (env_with Macos [("TMPDIR", "/tmp")]) in
  assert_eq (sp_origin p) MacTmpdir && assert_eq (head (comps (sp_path p))) (Some "tmp") &&
  contains "vcli-" (String.concat "/" (comps (sp_path p))) &&
  assert_eq (extension (sp_path p)) (Some "sock").
(* src: crates/vcli-ipc/src/socket_path.rs 196-202 tmp_fallback_produces_uid_scoped_name *)
Definition tmp_fallback_produces_uid_scoped_name : test :=
  match comps (try_tmp_fallback (env_with Linux [])) with
  | ["tmp"; name] => bool_decide (is_Some (strip_prefix "vcli-" name)) &&
                     assert_eq (extension (mkPath false [name])) (Some "sock")
  | _ => false
  end.

Example ipc_error_and_path_tests :
  [display_includes_context; unexpected_eof_reports_progress;
   override_env_wins_over_all_other_branches; mac_uses_tmpdir_branch;
   tmp_fallback_produces_uid_scoped_name] = replicate 5 true.
Proof. vm_compute. reflexivity. Qed.

(** ** wire/request.rs *)

(* src: crates/vcli-ipc/src/wire/request.rs 137-139 pid *)
Definition pid : ProgramId :=
  default (mkProgramId 0) (ProgramId_from_str "12345678-1234-4567-8910-111213141516").
(** The text of a request, and its reading back. *)
Definition request_text (op : RequestOp) : string := to_text Request_to_value (mkRequest rid op).
Definition request_back (op : RequestOp) : test :=
  roundtrips Request_to_value Request_from_value (mkRequest rid op).

(* src: crates/vcli-ipc/src/wire/request.rs 141-155 submit_roundtrips_with_program_payload *)
Definition submit_roundtrips_with_program_payload : test :=
  let op := Submit (json "{ 'version': '0.1', 'name': 'x' }") (Some "/tmp/vcli-assets") in
  contains (js "'op':'submit'") (request_text op) &&
  contains (js "'base_dir':'/tmp/vcli-assets'") (request_text op) && request_back op.
(* src: crates/vcli-ipc/src/wire/request.rs 157-171 submit_base_dir_defaults_to_none *)
Definition submit_base_dir_defaults_to_none : test :=
  let raw := Obj [("id", RequestId_to_value rid); ("op", Str "submit");
                  ("params", json "{'program': { 'version': '0.1', 'name': 'x' }}")] in
  let_ok back := Request_from_value raw in
  match req_op back with Submit _ base_dir => assert_eq base_dir None | _ => false end.
(* src: crates/vcli-ipc/src/wire/request.rs 173-183 list_with_no_filter_omits_params_field *)
Definition list_with_no_filter_omits_params_field : test :=
  contains (js "'op':'list'") (request_text (List_ None)) && request_back (List_ None).
(* src: crates/vcli-ipc/src/wire/request.rs 185-195 cancel_requires_program_id *)
Definition cancel_requires_program_id : test :=
  contains (js "'op':'cancel'") (request_text (Cancel pid)) && request_back (Cancel pid).
(* src: crates/vcli-ipc/src/wire/request.rs 197-210 resume_from_start_flag_roundtrips *)
Definition resume_from_start_flag_roundtrips : test :=
  contains (js "'from_start':true") (request_text (Resume pid true)) && request_back (Resume pid true).
(* src: crates/vcli-ipc/src/wire/request.rs 212-223 health_gc_shutdown_have_no_params *)
Definition health_gc_shutdown_have_no_params : test := forallb request_back [Health; Gc; Shutdown].
(* src: crates/vcli-ipc/src/wire/request.rs 225-230 unknown_op_rejected *)
Definition unknown_op_rejected : test :=
  assert_eq (from_text Request_from_value
    (js "{'id':'12345678-1234-4567-8910-111213141516','op':'teleport'}")) None.

Example ipc_request_tests :
  [submit_roundtrips_with_program_payload; submit_base_dir_defaults_to_none;
   list_with_no_filter_omits_params_field; cancel_requires_program_id;
   resume_from_start_flag_roundtrips; health_gc_shutdown_have_no_params; unknown_op_rejected]
  = replicate 7 true.
Proof. vm_compute. reflexivity. Qed.

(** ** wire/response.rs *)

Definition response_text (r : Response) : string := to_text Response_to_value r.
Definition response_back : Response → test := roundtrips Response_to_value Response_from_value.

(* src: crates/vcli-ipc/src/wire/response.rs 110-119 ok_response_serializes_with_ok_true *)
Definition ok_response_serializes_with_ok_true : test :=
  let r := Response_ok rid (json "{ 'program_id': 'abc' }") in
  contains (js "'ok':true") (response_text r) &&
  contains (js "'program_id':'abc'") (response_text r) &&
  negb (contains "error" (response_text r)) && response_back r.
(* src: crates/vcli-ipc/src/wire/response.rs 121-133 err_response_serializes_with_ok_false_and_typed_error *)
Definition err_response_serializes_with_ok_false_and_typed_error : test :=
  let r := Response_err rid (ErrorPayload_simple UnknownProgramCode "not found") in
  contains (js "'ok':false") (response_text r) &&
  contains (js "'code':'unknown_program'") (response_text r) &&
  negb (contains (js "'result'") (response_text r)) && response_back r.
(* src: crates/vcli-ipc/src/wire/response.rs 135-141 ok_response_with_null_result_is_valid *)
Definition ok_response_with_null_result_is_valid : test := response_back (Response_ok rid Null).
(* src: crates/vcli-ipc/src/wire/response.rs 143-148 response_with_ok_flag_mismatch_rejected *)
Definition response_with_ok_flag_mismatch_rejected : test :=
  assert_eq (from_text Response_from_value
    (js "{'id':'12345678-1234-4567-8910-111213141516','ok':true,'error':{'code':'internal','message':'x'}}"))
    None.

Example ipc_response_tests :
  [ok_response_serializes_with_ok_true; err_response_serializes_with_ok_false_and_typed_error;
   ok_response_with_null_result_is_valid; response_with_ok_flag_mismatch_rejected]
  = replicate 4 true.
Proof. vm_compute. reflexivity. Qed.

(** ** wire/stream.rs *)

Definition stream_text (f : StreamFrame) : string := to_text StreamFrame_to_value f.
Definition stream_back : StreamFrame → test := roundtrips StreamFrame_to_value StreamFrame_from_value.

(* src: crates/vcli-ipc/src/wire/stream.rs 90-107 event_frame_serializes_with_kind_events *)
Definition event_frame_serializes_with_kind_events : test :=
  let f := StreamFrame_event rid (mkEvent 1 (DaemonStarted "0.0.1")) in
  contains (js "'stream':'events'") (stream_text f) &&
  contains (js "'type':'daemon.started'") (stream_text f) &&
  negb (contains (js "'end':") (stream_text f)) && stream_back f.
(* src: crates/vcli-ipc/src/wire/stream.rs 109-116 trace_frame_carries_opaque_json *)
Definition trace_frame_carries_opaque_json : test :=
  let f := StreamFrame_trace rid (json "{ 'tick': 12 }") in
  contains (js "'stream':'trace'") (stream_text f) && stream_back f.
(* src: crates/vcli-ipc/src/wire/stream.rs 118-127 end_of_stream_flag_is_emitted_and_parsed *)
Definition end_of_stream_flag_is_emitted_and_parsed : test :=
  let f := StreamFrame_end_of_stream rid KindEvents in
  contains (js "'end':true") (stream_text f) &&
  let_ok back := from_text StreamFrame_from_value (stream_text f) in
  sf_end back && assert_eq (sf_event back) None && assert_eq (sf_trace back) None.

Example ipc_stream_tests :
  [event_frame_serializes_with_kind_events; trace_frame_carries_opaque_json;
   end_of_stream_flag_is_emitted_and_parsed] = replicate 3 true.
Proof. vm_compute. reflexivity. Qed.
