(* ===== verification/ConformMachine.v ===== *)
(** * Conformance: vcli-input, vcli-capture and vcli-runtime

    The unit tests of [vcli-input/src], [vcli-capture/src] and
    [vcli-runtime/src], and the scenarios of the repository, run on the
    model. *)

From Stdlib Require Import SpecFloat.
From S2P Require Import Prelude CoreTypes FrameView Input Capture MacCapture Listener Platform.
From S2P Require CgSink.
From S2P Require Import Conform ConformCore.

Local Open Scope vcli_scope.

#[export] Instance DisplayId_eq_dec : EqDecision DisplayId.
Proof. solve_decision. Defined.
#[export] Instance WindowDescriptor_eq_dec : EqDecision WindowDescriptor.
Proof. solve_decision. Defined.

(** The value and the state of a call that must succeed, and the error of one
    that must not. *)
Definition succeeded {S E A} (m : ST S (result E A)) (s : S) : option (A * S) :=
  match m s with Ret (Ok a, s) => Some (a, s) | _ => None end.
Definition failed {S E A} (m : ST S (result E A)) (s : S) : option (E * S) :=
  match m s with Ret (Err e, s) => Some (e, s) | _ => None end.

(** ** vcli-input: mock.rs *)

#[local] Existing Instance mock_sink.
Definition accepts (m : ST sink (result InputError ())) : MockInputSink → option (() * MockInputSink) :=
  succeeded m.
Definition refuses (m : ST sink (result InputError ())) : MockInputSink → option (InputError * MockInputSink) :=
  failed m.
Definition calls (s : MockInputSink) : list MockCall := log s.

(* src: crates/vcli-input/src/mock.rs 202-212 mock_records_move *)
Definition mock_records_move : test :=
  let_ok (_, m) := accepts (mouse_move (mkPoint 3 4)) MockInputSink_new in
  assert_eq (calls m) [MockAction (ActMove (mkPoint 3 4))].
(* src: crates/vcli-input/src/mock.rs 214-228 mock_records_click_with_modifiers *)
Definition mock_records_click_with_modifiers : test :=
  let_ok (_, m) := accepts (click (mkPoint 1 1) LeftButton [Cmd] 120) MockInputSink_new in
  assert_eq (calls m) [MockClickDetailed (mkPoint 1 1) LeftButton [Cmd] 120].
(* src: crates/vcli-input/src/mock.rs 230-247 mock_records_double_click_and_drag *)
Definition mock_records_double_click_and_drag : test :=
  let_ok (_, m) := accepts (double_click (mkPoint 0 0) LeftButton) MockInputSink_new in
  let_ok (_, m) := accepts (drag (mkPoint 0 0) [mkDragSegment (mkPoint 10 10) (from_millis 50)]
                           LeftButton) m in
  match calls m with [MockDoubleClick _ _; MockDrag _ _ _] => true | _ => false end.
(* src: crates/vcli-input/src/mock.rs 249-264 mock_records_type_and_key *)
Definition mock_records_type_and_key : test :=
  let_ok (_, m) := accepts (type_text "hi") MockInputSink_new in
  let_ok (_, m) := accepts (key_combo [Cmd; Shift] "s") m in
  assert_eq (calls m) [MockAction (ActType "hi"); MockAction (ActKey "s" [Cmd; Shift])].
(** Its [matches!] drops the verdict. *)
(* src: crates/vcli-input/src/mock.rs 266-271 mock_rejects_empty_drag *)
Definition mock_rejects_empty_drag : test :=
  let_ok _ := refuses (drag (mkPoint 0 0) [] LeftButton) MockInputSink_new in true.
(* src: crates/vcli-input/src/mock.rs 273-280 drain_empties_the_log *)
Definition drain_empties_the_log : test :=
  let_ok (_, m) := accepts (mouse_move (mkPoint 0 0)) MockInputSink_new in
  let '(first, m) := drain m in
  assert_eq (length first) 1 && assert_eq (calls m) [].
(* src: crates/vcli-input/src/mock.rs 282-289 forced_error_produces_backend_failure *)
Definition forced_error_produces_backend_failure : test :=
  let m := fail_with "flaky" MockInputSink_new in
  let_ok (e, m) := refuses (mouse_move (mkPoint 0 0)) m in
  match e with InputBackend _ => true | _ => false end && assert_eq (calls m) [].

Example input_mock_tests :
  [mock_records_move; mock_records_click_with_modifiers; mock_records_double_click_and_drag;
   mock_records_type_and_key; mock_rejects_empty_drag; drain_empties_the_log;
   forced_error_produces_backend_failure] = replicate 7 true.
Proof. vm_compute. reflexivity. Qed.

(** ** kill_switch.rs

    A clone is the same switch. *)

(* src: crates/vcli-input/src/kill_switch.rs 99-103 fresh_switch_is_not_engaged *)
Definition fresh_switch_is_not_engaged : test := negb (is_engaged KillSwitch_new).
(* src: crates/vcli-input/src/kill_switch.rs 105-112 engage_is_observable_from_clone *)
Definition engage_is_observable_from_clone : test :=
  let k := KillSwitch_new in
  negb (is_engaged k) && is_engaged (engage 1000 k).
(* src: crates/vcli-input/src/kill_switch.rs 114-122 engage_is_idempotent *)
Definition engage_is_idempotent : test :=
  let k := engage 1000 KillSwitch_new in
  assert_eq (engaged_at_ns k) (engaged_at_ns (engage 2000 k)).
(* src: crates/vcli-input/src/kill_switch.rs 124-130 disengage_resets_flag *)
Definition disengage_resets_flag : test :=
  negb (is_engaged (disengage (engage 1000 KillSwitch_new))).
(** The other thread engages before the third look; a look takes 5 ms. *)
(* src: crates/vcli-input/src/kill_switch.rs 132-143 observer_returns_true_on_engage_before_timeout *)
Definition observer_returns_true_on_engage_before_timeout : test :=
  assert_eq (wait_loop (λ n, 2 <=? n) (λ n, Z.of_nat n * from_millis 5)%Z (from_millis 500) 200 0)
    (Some true).
(* src: crates/vcli-input/src/kill_switch.rs 145-150 observer_returns_false_on_timeout *)
Definition observer_returns_false_on_timeout : test :=
  assert_eq (wait_loop (λ _, false) (λ n, Z.of_nat n * from_millis 5)%Z (from_millis 20) 200 0)
    (Some false).

Example kill_switch_tests :
  [fresh_switch_is_not_engaged; engage_is_observable_from_clone; engage_is_idempotent;
   disengage_resets_flag; observer_returns_true_on_engage_before_timeout;
   observer_returns_false_on_timeout] = replicate 6 true.
Proof. vm_compute. reflexivity. Qed.

(** ** keymap.rs *)

Definition unknown_key (s : string) : test :=
  match parse_key s with Err (UnknownKey _) => true | _ => false end.
Definition keycode (s : string) : option Z := k ← result_ok (parse_key s); macos_keycode k.

(* src: crates/vcli-input/src/keymap.rs 213-228 named_keys_parse *)
Definition named_keys_parse : test :=
  assert_eq (parse_key "return") (Ok (KNamed KReturn)) &&
  assert_eq (parse_key "Enter") (Ok (KNamed KReturn)) &&
  assert_eq (parse_key "esc") (Ok (KNamed KEscape)) &&
  assert_eq (parse_key "page_up") (Ok (KNamed KPageUp)).
(* src: crates/vcli-input/src/keymap.rs 230-242 function_keys_parse_in_range *)
Definition function_keys_parse_in_range : test :=
  assert_eq (parse_key "f1") (Ok (KNamed (KFunction 1))) &&
  assert_eq (parse_key "F12") (Ok (KNamed (KFunction 12))) &&
  unknown_key "f0" && unknown_key "f13".
(* src: crates/vcli-input/src/keymap.rs 244-248 single_chars_parse *)
Definition single_chars_parse : test :=
  assert_eq (parse_key "s") (Ok (KChar ["s"%char])) && assert_eq (parse_key "1") (Ok (KChar ["1"%char])).
(* src: crates/vcli-input/src/keymap.rs 250-254 empty_and_garbage_reject *)
Definition empty_and_garbage_reject : test := unknown_key "" && unknown_key "blargh".
(* src: crates/vcli-input/src/keymap.rs 256-262 macos_keycode_known_keys *)
Definition macos_keycode_known_keys : test :=
  assert_eq (keycode "return") (Some 0x24%Z) && assert_eq (keycode "a") (Some 0x00%Z) &&
  assert_eq (keycode "f1") (Some 0x7A%Z).

Example keymap_tests :
  [named_keys_parse; function_keys_parse_in_range; single_chars_parse; empty_and_garbage_reject;
   macos_keycode_known_keys] = replicate 5 true.
Proof. vm_compute. reflexivity. Qed.

(** ** error.rs and permissions.rs *)

(* src: crates/vcli-input/src/error.rs 59-65 halted_display_is_stable *)
Definition halted_display_is_stable : test :=
  assert_eq (InputError_to_string Halted) "input halted: kill switch is engaged".
(* src: crates/vcli-input/src/error.rs 67-73 permission_maps_to_permission_denied *)
Definition permission_maps_to_permission_denied : test :=
  assert_eq (InputError_to_error_code (InputPermissionDenied "Accessibility")) PermissionDeniedCode.
(* src: crates/vcli-input/src/error.rs 75-80 unknown_key_maps_to_invalid_program *)
Definition unknown_key_maps_to_invalid_program : test :=
  let e := UnknownKey "blargh" in
  assert_eq (InputError_to_error_code e) InvalidProgram && contains "blargh" (InputError_to_string e).
(* src: crates/vcli-input/src/error.rs 82-85 halted_maps_to_internal *)
Definition halted_maps_to_internal : test :=
  assert_eq (InputError_to_error_code Halted) InternalCode.
(* src: crates/vcli-input/src/permissions.rs 76-88 fully_granted_requires_both *)
Definition fully_granted_requires_both : test :=
  CgSink.fully_granted {| CgSink.accessibility := CgSink.Granted;
                          CgSink.input_monitoring := CgSink.Granted |} &&
  negb (CgSink.fully_granted {| CgSink.accessibility := CgSink.Granted;
                                CgSink.input_monitoring := CgSink.Denied |}).

Example input_error_tests :
  [halted_display_is_stable; permission_maps_to_permission_denied;
   unknown_key_maps_to_invalid_program; halted_maps_to_internal; fully_granted_requires_both]
  = replicate 5 true.
Proof. vm_compute. reflexivity. Qed.

(** ** vcli-capture: mock.rs *)

#[local] Existing Instance mock_capture.
Definition captured {A} (m : ST capture (result CaptureError A))
    : MockCapture → option (A * MockCapture) := succeeded m.
Definition rejected {A} (m : ST capture (result CaptureError A))
    : MockCapture → option (CaptureError * MockCapture) := failed m.

(* src: crates/vcli-capture/src/mock.rs 168-182 tiny *)
Definition tiny (format : FrameFormat) (value : Z) : outcome Frame :=
  Frame_new format (mkRect 0 0 4 2) (4 * 4) (replicate (4 * 4 * 2) value) 0.
Definition first_byte (f : Frame) : option Z := head (pixels f).
Definition code (m : option (CaptureError * MockCapture)) : option string :=
  (λ e, CaptureError_code e.1) <$> m.

(* src: crates/vcli-capture/src/mock.rs 184-188 empty_mock_returns_empty_windows *)
Definition empty_mock_returns_empty_windows : test :=
  let_ok (l, _) := captured enumerate_windows MockCapture_empty in assert_eq l [].
(* src: crates/vcli-capture/src/mock.rs 190-195 empty_mock_screen_grab_errors *)
Definition empty_mock_screen_grab_errors : test :=
  assert_eq (code (rejected grab_screen MockCapture_empty)) (Some "capture_failed").
(* src: crates/vcli-capture/src/mock.rs 197-207 screen_frames_cycle_in_order *)
Definition screen_frames_cycle_in_order : test :=
  let_ok f1 := tiny Bgra8 1 in
  let_ok f2 := tiny Bgra8 2 in
  let m := MockCapture_new [Bgra8] [] [f1; f2] in
  let_ok (a, m) := captured grab_screen m in
  let_ok (b, m) := captured grab_screen m in
  let_ok (c, _) := captured grab_screen m in
  assert_eq (first_byte a) (Some 1%Z) && assert_eq (first_byte b) (Some 2%Z) &&
  assert_eq (first_byte c) (Some 1%Z).
(* src: crates/vcli-capture/src/mock.rs 209-227 enumerate_returns_configured_windows *)
Definition enumerate_returns_configured_windows : test :=
  let w := mkWindowDescriptor 9 "Finder" "Downloads" (mkRect 0 0 1000 600) 0 PRIMARY in
  let_ok (got, _) := captured enumerate_windows (MockCapture_new [Bgra8] [w] []) in
  assert_eq got [w].
(* src: crates/vcli-capture/src/mock.rs 229-249 grab_window_uses_configured_frames *)
Definition grab_window_uses_configured_frames : test :=
  let w := mkWindowDescriptor 7 "Safari" "YT" (mkRect 0 0 4 2) 0 PRIMARY in
  let_ok f := tiny Bgra8 42 in
  let m := set_window_frames 7 [f] (MockCapture_new [Bgra8] [w] []) in
  let_ok (f, _) := captured (grab_window w) m in assert_eq (first_byte f) (Some 42%Z).
(* src: crates/vcli-capture/src/mock.rs 251-269 grab_window_unknown_id_errors *)
Definition grab_window_unknown_id_errors : test :=
  let w := mkWindowDescriptor 100 "X" "Y" (mkRect 0 0 4 2) 0 PRIMARY in
  assert_eq (code (rejected (grab_window w) (MockCapture_new [Bgra8] [] []))) (Some "unknown_window").
(* src: crates/vcli-capture/src/mock.rs 271-282 armed_error_is_returned_once *)
Definition armed_error_is_returned_once : test :=
  let_ok f := tiny Bgra8 0 in
  let m := arm_error CapPermissionDenied (MockCapture_new [Bgra8] [] [f]) in
  let_ok (e, m) := rejected grab_screen m in
  assert_eq (CaptureError_code e) "permission_denied" &&
  let_ok _ := captured grab_screen m in true.
(* src: crates/vcli-capture/src/mock.rs 290-301 mock_works_through_dyn_capture *)
Definition mock_works_through_dyn_capture : test :=
  let_ok f := tiny Bgra8 9 in
  let_ok (f, _) := captured grab_screen (MockCapture_new [Bgra8] [] [f]) in
  assert_eq (first_byte f) (Some 9%Z).

Example capture_mock_tests :
  [empty_mock_returns_empty_windows; empty_mock_screen_grab_errors; screen_frames_cycle_in_order;
   enumerate_returns_configured_windows; grab_window_uses_configured_frames;
   grab_window_unknown_id_errors; armed_error_is_returned_once; mock_works_through_dyn_capture]
  = replicate 8 true.
Proof. vm_compute. reflexivity. Qed.

(** ** capture.rs and error.rs *)

(* src: crates/vcli-capture/src/capture.rs 77-80 display_id_primary_is_zero *)
Definition display_id_primary_is_zero : test := assert_eq (display_id PRIMARY) 0%Z.
(* src: crates/vcli-capture/src/error.rs 64-74 display_messages_are_informative *)
Definition display_messages_are_informative : test :=
  assert_eq (CaptureError_to_string CapPermissionDenied) "screen recording permission not granted" &&
  assert_eq (CaptureError_to_string (WindowNotFound 77)) "window not found: id=77" &&
  contains "bad stride" (CaptureError_to_string (MalformedFrame "bad stride")).
(* src: crates/vcli-capture/src/error.rs 76-98 codes_are_stable *)
Definition codes_are_stable : test :=
  assert_eq (map CaptureError_code [CapPermissionDenied; WindowNotFound 1; CapBackend "x";
                                    MalformedFrame "x"; CapUnsupported "x"])
    ["permission_denied"; "unknown_window"; "capture_failed"; "capture_failed"; "unsupported"].

(** ** windows/mod.rs *)

(* src: crates/vcli-capture/src/windows/mod.rs 50-54 enumerate_reports_unsupported *)
Definition enumerate_reports_unsupported : test :=
  let_ok (e, _) := failed (S:=unit) (@enumerate_windows windows_capture) () in
  assert_eq (CaptureError_code e) "unsupported".
(* src: crates/vcli-capture/src/windows/mod.rs 56-60 grab_screen_reports_unsupported *)
Definition grab_screen_reports_unsupported : test :=
  let_ok (e, _) := failed (S:=unit) (@grab_screen windows_capture) () in
  assert_eq (CaptureError_code e) "unsupported".
(* src: crates/vcli-capture/src/windows/mod.rs 62-66 formats_always_includes_bgra *)
Definition formats_always_includes_bgra : test :=
  bool_decide (Bgra8 ∈ @supported_formats windows_capture ()).

(** ** macos/convert.rs and macos/sck.rs *)

#[local] Instance any_f32 : F32Display := λ _, "f32".
Definition f32_three_halves : spec_float := S754_finite false 12582912 (-23).

(* src: crates/vcli-capture/src/macos/convert.rs 138-149 raw *)
Definition raw (width height stride fill : Z) (scale : spec_float) : RawBgra := {|
  width_px := width; height_px := height; raw_stride := stride;
  raw_pixels := replicate (Z.to_nat (stride * height)) fill; raw_captured_at_ns := 1;
  scale := scale; logical_origin_x := 0; logical_origin_y := 0;
|}.
(** [bgra_to_frame(r).unwrap()] and the code of [unwrap_err]. *)
Definition converted (r : RawBgra) : option Frame :=
  match bgra_to_frame r with Ret (Ok f) => Some f | _ => None end.
Definition refused (r : RawBgra) : option string :=
  match bgra_to_frame r with Ret (Err e) => Some (CaptureError_code e) | _ => None end.

(* src: crates/vcli-capture/src/macos/convert.rs 151-160 scale_1_passes_through_dims *)
Definition scale_1_passes_through_dims : test :=
  let_ok f := converted (raw 8 4 32 0xAB (f32_of_Z 1)) in
  assert_eq (width f) 8%Z && assert_eq (height f) 4%Z && assert_eq (stride f) 32%Z &&
  assert_eq (format f) Bgra8 && assert_eq (first_byte f) (Some 0xAB%Z).
(* src: crates/vcli-capture/src/macos/convert.rs 162-173 scale_2_halves_dims_and_preserves_uniform_color *)
Definition scale_2_halves_dims_and_preserves_uniform_color : test :=
  let_ok f := converted (raw 8 4 32 0x7F (f32_of_Z 2)) in
  assert_eq (width f) 4%Z && assert_eq (height f) 2%Z && assert_eq (stride f) 16%Z &&
  forallb (λ b, assert_eq b 0x7F%Z) (pixels f).
(* src: crates/vcli-capture/src/macos/convert.rs 175-204 scale_2_averages_two_different_pixels *)
Definition scale_2_averages_two_different_pixels : test :=
  let row := replicate (2 * 4) 100%Z ++ replicate (2 * 4) 200%Z in
  let_ok f := converted {|
    width_px := 4; height_px := 2; raw_stride := 16; raw_pixels := row ++ row;
    raw_captured_at_ns := 0; scale := f32_of_Z 2; logical_origin_x := 0; logical_origin_y := 0 |} in
  assert_eq (width f) 2%Z && assert_eq (height f) 1%Z &&
  assert_eq (pixels f !! 0) (Some 100%Z) && assert_eq (pixels f !! 4) (Some 200%Z).
(* src: crates/vcli-capture/src/macos/convert.rs 206-212 too_small_buffer_errors *)
Definition too_small_buffer_errors : test :=
  let r := raw 100 100 400 0 (f32_of_Z 1) in
  let r := {| width_px := width_px r; height_px := height_px r; raw_stride := raw_stride r;
              raw_pixels := take 50 (raw_pixels r); raw_captured_at_ns := raw_captured_at_ns r;
              scale := scale r; logical_origin_x := 0; logical_origin_y := 0 |} in
  assert_eq (refused r) (Some "capture_failed").
(* src: crates/vcli-capture/src/macos/convert.rs 214-219 stride_less_than_width_times_4_errors *)
Definition stride_less_than_width_times_4_errors : test :=
  assert_eq (refused (raw 10 2 20 0 (f32_of_Z 1))) (Some "capture_failed").
(* src: crates/vcli-capture/src/macos/convert.rs 221-226 fractional_scale_unsupported *)
Definition fractional_scale_unsupported : test :=
  assert_eq (refused (raw 10 10 40 0 f32_three_halves)) (Some "capture_failed").

(* src: crates/vcli-capture/src/macos/sck.rs 314-367 indices_are_sequential_per_app_title *)
Definition indices_are_sequential_per_app_title : test :=
  let d := assign_window_indices
    [(1%Z, "Safari", "YouTube", mkRect 0 0 10 10); (2%Z, "Safari", "YouTube", mkRect 10 0 10 10);
     (3%Z, "Safari", "Mail", mkRect 20 0 10 10); (4%Z, "Finder", "YouTube", mkRect 30 0 10 10)] in
  assert_eq (map wd_window_index d) [0; 1; 0; 0]%Z.

Example capture_tests :
  [display_id_primary_is_zero; display_messages_are_informative; codes_are_stable;
   enumerate_reports_unsupported; grab_screen_reports_unsupported; formats_always_includes_bgra;
   scale_1_passes_through_dims; scale_2_halves_dims_and_preserves_uniform_color;
   scale_2_averages_two_different_pixels; too_small_buffer_errors;
   stride_less_than_width_times_4_errors; fractional_scale_unsupported;
   indices_are_sequential_per_app_title] = replicate 13 true.
Proof. vm_compute. reflexivity. Qed.

(** * vcli-runtime *)

From S2P Require Import Prelude Digits Json CoreTypes Canonical Serde EventWire ProgramWire FrameView.
From S2P Require Import Perception Input Capture Clock Runtime Scheduler Conform ConformCore ConformPerception.

#[local] Existing Instance mock_sink.
#[local] Existing Instance manual_clock.

#[export] Instance RtAccessor_eq_dec : EqDecision RtAccessor.
Proof. solve_decision. Defined.
#[export] Instance RuntimeError_eq_dec : EqDecision RuntimeError.
Proof. solve_decision. Defined.
#[export] Instance StepOutcome_eq_dec : EqDecision StepOutcome.
Proof. solve_decision. Defined.
#[local] Program Instance conform_order : HashOrder := { hash_keys m := elements (dom m) }.
Solve Obligations with done.

(** ** body.rs

    The sink of the tests accepts everything; the recording one does too. *)

(* src: crates/vcli-runtime/src/body.rs 344-357 blank_frame *)
Definition blank_frame : Frame := mkFrame Rgba8 (mkRect 0 0 1 1) 4 [0; 0; 0; 0]%Z 0.
(* src: crates/vcli-runtime/src/body.rs 359-361 id *)
Definition id_body : ProgramId := sample_program_id.

Definition body_ctx (preds : Predicates) (now : UnixMs) : EvalCtx := {|
  ctx_frame := blank_frame; now_ms := now; ctx_predicates := preds; assets := ∅;
  ctx_program := Some id_body |}.
(** [step_once(id(), &body, 0, &mut st, &preds, &blank_frame(), now, ..)] *)
Definition stepped (body : list Step) (preds : Predicates) (now : UnixMs)
    (st : BodyState) : option (StepOutcome * BodyState) :=
  match step_once 3 body 0 st (body_ctx preds now) (Perception_new, MockInputSink_new) with
  | Ret (r, _) => Some r
  | _ => None
  end.

(* src: crates/vcli-runtime/src/body.rs 396-420 absolute_click_advances *)
Definition absolute_click_advances : test :=
  let_ok (out, _) := stepped [Click (TargetAbsolute (mkPoint 1 2)) LeftButton] ∅ 0 BodyState_default in
  assert_eq out Advanced.
(* src: crates/vcli-runtime/src/body.rs 422-456 sleep_ms_stalls_then_advances *)
Definition sleep_ms_stalls_then_advances : test :=
  let body := [SleepMs 100] in
  let_ok (out, st) := stepped body ∅ 0 BodyState_default in
  let_ok (out2, _) := stepped body ∅ 200 st in
  assert_eq out Stalled && assert_eq out2 Advanced.
(* src: crates/vcli-runtime/src/body.rs 458-494 assert_fail_propagates_error *)
Definition assert_fail_propagates_error : test :=
  let preds := {[ "blue" := ColorAt (mkPoint 0 0) (mkRgb 0 0 255) 0 ]} in
  let_ok (out, _) := stepped [Assert "blue" FailFail] preds 0 BodyState_default in
  match out with StepFailed (RtAssertFailed _) => true | _ => false end.
(* src: crates/vcli-runtime/src/body.rs 496-517 cursor_past_end_is_body_complete *)
Definition cursor_past_end_is_body_complete : test :=
  let_ok (out, _) := stepped [] ∅ 0 BodyState_default in assert_eq out BodyComplete.

Example body_tests :
  [absolute_click_advances; sleep_ms_stalls_then_advances; assert_fail_propagates_error;
   cursor_past_end_is_body_complete] = replicate 4 true.
Proof. vm_compute. reflexivity. Qed.

(** ** clock.rs *)

(* src: crates/vcli-runtime/src/clock.rs 102-107 manual_clock_advance_adds_time *)
Definition manual_clock_advance_adds_time : test :=
  assert_eq (manual_ms (advance_ms 250 (ManualClock_new 1000))) 1250%Z.
(* src: crates/vcli-runtime/src/clock.rs 109-119 manual_clock_sleep_advances_instead_of_blocks *)
Definition manual_clock_sleep_advances_instead_of_blocks : test :=
  match sleep_ms 10000 (ManualClock_new 0) with
  | Ret (_, c) => match unix_ms c with Ret (t, _) => assert_eq t 10000%Z | _ => false end
  | _ => false
  end.

(** ** expr.rs *)

(* src: crates/vcli-runtime/src/expr.rs 99-104 parse_match_center *)
Definition parse_match_center : test :=
  let_ok p := expr_parse "$skip.match.center" in
  assert_eq (pe_predicate p) "skip" && assert_eq (pe_accessor p) MatchCenter.
(* src: crates/vcli-runtime/src/expr.rs 106-110 parse_match_bbox *)
Definition parse_match_bbox : test :=
  let_ok p := expr_parse "$x.match.bbox" in assert_eq (pe_accessor p) MatchBbox.
(* src: crates/vcli-runtime/src/expr.rs 112-118 parse_rejects_missing_dollar *)
Definition parse_rejects_missing_dollar : test :=
  match expr_parse "skip.match.center" with Err (RtExpressionUnresolved _) => true | _ => false end.
(* src: crates/vcli-runtime/src/expr.rs 120-126 parse_rejects_unknown_accessor *)
Definition parse_rejects_unknown_accessor : test :=
  match expr_parse "$skip.match.topleft" with Err (RtExpressionUnresolved _) => true | _ => false end.
(* src: crates/vcli-runtime/src/expr.rs 128-144 resolve_center_averages_bbox *)
Definition resolve_center_averages_bbox : test :=
  let r := mkPredicateResult true (Some (mkMatchData (mkRect 10 20 40 20) (f64_dec 9 1))) 0 in
  assert_eq (resolve_center r) (Ok (mkPoint 29 29)).
(* src: crates/vcli-runtime/src/expr.rs 146-154 resolve_without_match_data_errors *)
Definition resolve_without_match_data_errors : test :=
  is_err (resolve_center (mkPredicateResult true None 0)).

Example clock_expr_tests :
  [manual_clock_advance_adds_time; manual_clock_sleep_advances_instead_of_blocks;
   parse_match_center; parse_match_bbox; parse_rejects_missing_dollar;
   parse_rejects_unknown_accessor; resolve_center_averages_bbox;
   resolve_without_match_data_errors] = replicate 8 true.
Proof. vm_compute. reflexivity. Qed.

(** ** program.rs and command.rs *)

(* src: crates/vcli-runtime/src/program.rs 89-104 sample_program *)
Definition sample_program_program : Program := {|
  p_version := "0.1"; p_name := "t"; p_id := None; p_trigger := OnSubmit; p_predicates := ∅;
  p_watches := []; p_body := []; p_on_complete := None; p_on_fail := None; p_timeout_ms := None;
  p_labels := ∅; p_priority := 0 |}.
Definition with_body (body : list Step) (p : Program) : Program := {|
  p_version := p_version p; p_name := p_name p; p_id := p_id p; p_trigger := p_trigger p;
  p_predicates := p_predicates p; p_watches := p_watches p; p_body := body;
  p_on_complete := p_on_complete p; p_on_fail := p_on_fail p; p_timeout_ms := p_timeout_ms p;
  p_labels := p_labels p; p_priority := p_priority p |}.
(* src: crates/vcli-runtime/src/program.rs 106-112 pending_is_initial_state *)
Definition pending_is_initial_state : test :=
  let rp := pending sample_program_program in
  assert_eq (state rp) Pending && body_complete rp && assert_eq (active_watch_count rp) 0.
(* src: crates/vcli-runtime/src/program.rs 114-123 body_complete_detects_exhausted_cursor *)
Definition body_complete_detects_exhausted_cursor : test :=
  let rp := pending (with_body [SleepMs 10] sample_program_program) in
  let at_ n := set_body (Some n) BodyState_default rp in
  negb (body_complete (at_ 0%Z)) && body_complete (at_ 1%Z).

(* src: crates/vcli-runtime/src/command.rs 57-72 sample_program *)
Definition sample_program_command : Program := {|
  p_version := "0.1"; p_name := "x"; p_id := None; p_trigger := OnSubmit; p_predicates := ∅;
  p_watches := []; p_body := []; p_on_complete := None; p_on_fail := None; p_timeout_ms := None;
  p_labels := ∅; p_priority := 0 |}.
(* src: crates/vcli-runtime/src/command.rs 74-86 submit_variant_roundtrips_basic_shape *)
Definition submit_variant_roundtrips_basic_shape : test :=
  match SubmitValidated sample_program_id sample_program_command ∅ with
  | SubmitValidated i _ _ => assert_eq i sample_program_id
  | _ => false
  end.
(* src: crates/vcli-runtime/src/command.rs 88-99 cancel_keeps_reason_untouched *)
Definition cancel_keeps_reason_untouched : test :=
  match Cancel sample_program_id "user" with
  | Cancel _ reason => assert_eq reason "user"
  | _ => false
  end.

Example program_command_tests :
  [pending_is_initial_state; body_complete_detects_exhausted_cursor;
   submit_variant_roundtrips_basic_shape; cancel_keeps_reason_untouched] = replicate 4 true.
Proof. vm_compute. reflexivity. Qed.

(** ** triggers.rs *)

(* src: crates/vcli-runtime/src/triggers.rs 47-60 red_frame *)
Definition red_frame : Frame := mkFrame Rgba8 (mkRect 0 0 1 1) 4 [255; 0; 0; 255]%Z 0.
(* src: crates/vcli-runtime/src/triggers.rs 62-64 some_id *)
Definition some_id : ProgramId := sample_program_id.
(** [trigger_fires(&trig, &preds, &red_frame(), now, &assets, &p, some_id())] *)
Definition fires_with (trig : Trigger) (preds : Predicates) (now : UnixMs)
    : option (result RuntimeError bool) :=
  match trigger_fires 3 trig {| ctx_frame := red_frame; now_ms := now; ctx_predicates := preds;
                                assets := ∅; ctx_program := Some some_id |}
          (Perception_new, MockInputSink_new) with
  | Ret (r, _) => Some r
  | _ => None
  end.
Definition is_red : Predicates :=
  {[ "is_red" := ColorAt (mkPoint 0 0) (mkRgb 255 0 0) 0 ]}.
(* src: crates/vcli-runtime/src/triggers.rs 66-82 on_submit_always_fires *)
Definition on_submit_always_fires : test := assert_eq (fires_with OnSubmit ∅ 0) (Some (Ok true)).
(* src: crates/vcli-runtime/src/triggers.rs 84-100 manual_never_auto_fires *)
Definition manual_never_auto_fires : test := assert_eq (fires_with Manual ∅ 0) (Some (Ok false)).
(* src: crates/vcli-runtime/src/triggers.rs 102-128 on_predicate_defers_to_perception *)
Definition on_predicate_defers_to_perception : test :=
  assert_eq (fires_with (OnPredicate "is_red") is_red 100) (Some (Ok true)).
(* src: crates/vcli-runtime/src/triggers.rs 130-147 on_predicate_unknown_name_errors *)
Definition on_predicate_unknown_name_errors : test :=
  match fires_with (OnPredicate "nope") ∅ 0 with
  | Some (Err (RtPerception _)) => true
  | _ => false
  end.

(** ** arbiter.rs *)

(* src: crates/vcli-runtime/src/arbiter.rs 74-77 id *)
Definition id_arbiter (n : Z) : ProgramId :=
  mkProgramId (default 0%N
    (uuid_parse (hex_digits 2 n +:+ "345678-1234-4567-8910-111213141516"))).
Definition dispatched {T} (l : list (ArbDecision T)) : list ProgramId :=
  map dec_program_id (filter (λ d, dec_dispatch d = true) l).
(* src: crates/vcli-runtime/src/arbiter.rs 79-89 single_candidate_always_dispatches *)
Definition single_candidate_always_dispatches : test :=
  match resolve [mkCandidate (id_arbiter 1) 0 "a"] with
  | [d] => dec_dispatch d && assert_eq (dec_loser_of d) None
  | _ => false
  end.
(* src: crates/vcli-runtime/src/arbiter.rs 91-112 higher_priority_wins *)
Definition higher_priority_wins : test :=
  let out := resolve [mkCandidate (id_arbiter 1) 0 "a"; mkCandidate (id_arbiter 2) 5 "b"] in
  assert_eq (dispatched out) [id_arbiter 2] &&
  let_ok d := head (filter (λ d, dec_dispatch d = false) out) in
  assert_eq (dec_loser_of d) (Some (id_arbiter 2)).
(* src: crates/vcli-runtime/src/arbiter.rs 114-130 tie_breaks_by_program_id_lex_desc *)
Definition tie_breaks_by_program_id_lex_desc : test :=
  let out := resolve [mkCandidate (id_arbiter 1) 0 "a"; mkCandidate (id_arbiter 2) 0 "b"] in
  assert_eq (head (dispatched out)) (Some (id_arbiter 2)).
(* src: crates/vcli-runtime/src/arbiter.rs 132-154 three_way_drops_two_losers *)
Definition three_way_drops_two_losers : test :=
  let out := resolve [mkCandidate (id_arbiter 1) 3 "a"; mkCandidate (id_arbiter 2) 3 "b";
                      mkCandidate (id_arbiter 3) 3 "c"] in
  assert_eq (dispatched out) [id_arbiter 3].

Example trigger_arbiter_tests :
  [on_submit_always_fires; manual_never_auto_fires; on_predicate_defers_to_perception;
   on_predicate_unknown_name_errors; single_candidate_always_dispatches; higher_priority_wins;
   tie_breaks_by_program_id_lex_desc; three_way_drops_two_losers] = replicate 8 true.
Proof. vm_compute. reflexivity. Qed.

(** ** watches.rs *)

(* src: crates/vcli-runtime/src/watches.rs 64-71 mk_watch *)
Definition mk_watch (lifetime : Lifetime) (throttle_ms : Z) : Watch :=
  mkWatch (ByName "p") [] throttle_ms lifetime.
(* src: crates/vcli-runtime/src/watches.rs 73-78 fires_on_false_to_true_edge *)
Definition fires_on_false_to_true_edge : test :=
  assert_eq (watch_decide (mk_watch Persistent 0) WatchRuntime_default true 100 0) Fire.
(* src: crates/vcli-runtime/src/watches.rs 80-88 skips_on_level_high *)
Definition skips_on_level_high : test :=
  assert_eq (watch_decide (mk_watch Persistent 0) (mkWatchRuntime None true false) true 100 0) Skip.
(* src: crates/vcli-runtime/src/watches.rs 90-100 throttle_suppresses_rapid_refires *)
Definition throttle_suppresses_rapid_refires : test :=
  let w := mk_watch Persistent 500 in
  let st := mkWatchRuntime (Some 100%Z) false false in
  assert_eq (watch_decide w st true 400 0) Skip && assert_eq (watch_decide w st true 700 0) Fire.
(* src: crates/vcli-runtime/src/watches.rs 102-108 one_shot_retires_after_fire *)
Definition one_shot_retires_after_fire : test :=
  retired (after_fire (mk_watch OneShot 0) 50 WatchRuntime_default).
(* src: crates/vcli-runtime/src/watches.rs 110-117 persistent_does_not_retire_after_fire *)
Definition persistent_does_not_retire_after_fire : test :=
  let st := after_fire (mk_watch Persistent 0) 50 WatchRuntime_default in
  negb (retired st) && assert_eq (last_fired_ms st) (Some 50%Z).
(* src: crates/vcli-runtime/src/watches.rs 119-124 timeout_ms_retires_when_window_elapsed *)
Definition timeout_ms_retires_when_window_elapsed : test :=
  assert_eq (watch_decide (mk_watch (TimeoutMs 1000) 0) WatchRuntime_default true 2001 1000) Retire.
(* src: crates/vcli-runtime/src/watches.rs 126-134 retired_watch_is_inert *)
Definition retired_watch_is_inert : test :=
  assert_eq (watch_decide (mk_watch Persistent 0) (mkWatchRuntime None false true) true 100 0) Skip.

Example runtime_watch_tests :
  [fires_on_false_to_true_edge; skips_on_level_high; throttle_suppresses_rapid_refires;
   one_shot_retires_after_fire; persistent_does_not_retire_after_fire;
   timeout_ms_retires_when_window_elapsed; retired_watch_is_inert] = replicate 7 true.
Proof. vm_compute. reflexivity. Qed.

(** ** error.rs *)

(* src: crates/vcli-runtime/src/error.rs 119-124 code_strings_are_spec_stable *)
Definition code_strings_are_spec_stable : test :=
  assert_eq (map RtErrorCode_as_str [CaptureFailed; WaitForTimeoutC; NoveltyTimeoutC])
    ["capture_failed"; "wait_for_timeout"; "novelty_timeout"].
(* src: crates/vcli-runtime/src/error.rs 126-134 runtime_error_maps_to_code *)
Definition runtime_error_maps_to_code : test :=
  match code (RtWaitForTimeout "p" 1000) with
  | WaitForTimeoutC as c => assert_eq (RtErrorCode_as_str c) "wait_for_timeout"
  | _ => false
  end.

(** ** event.rs *)

#[local] Existing Instance mock_capture.

(* src: crates/vcli-runtime/src/event.rs 49-60 emit_stamps_with_clock_now *)
Definition emit_stamps_with_clock_now : test :=
  let s : Sched := Scheduler_new MockCapture_empty MockInputSink_new Perception_new
                     (ManualClock_new 12345) [] in
  match emit (ProgramSubmitted sample_program_id "x") s with
  | Ret (_, s) => assert_eq (map ev_at (event_tx s)) [12345%Z]
  | _ => false
  end.

(** ** A scripted screen

    The frames in their order, the last one again and again. *)

Record ScriptedCapture := mkScripted { script : list Frame; cursor : nat }.
Definition scripted_grab : ST ScriptedCapture (result CaptureError Frame) := λ c,
  match script c with
  | [] => Ret (Ok blank_frame, c)
  | frames =>
      let i := Nat.min (cursor c) (length frames - 1) in
      Ret (Ok (default blank_frame (frames !! i)),
           mkScripted frames (Nat.min (S i) (length frames - 1)))
  end.
#[local] Instance scripted : Capture := {|
  capture := ScriptedCapture; supported_formats _ := [Rgba8];
  enumerate_windows c := Ret (Ok [], c); grab_screen := scripted_grab;
  grab_window _ := scripted_grab;
|}.

Definition solid (r g b a : Z) : Frame := mkFrame Rgba8 (mkRect 0 0 1 1) 4 [r; g; b; a] 0.
Definition red_ : Frame := solid 255 0 0 255.
Definition green_ : Frame := solid 0 255 0 255.
Definition blue_ : Frame := solid 0 0 255 255.

(** These frames are what [Frame::new] builds. *)
Example frames_are_new :
  Forall (λ f, Frame_new (format f) (bounds f) (stride f) (pixels f) (captured_at_ns f) = Ret f)
    [blank_frame; red_frame; red_; green_; blue_].
Proof. repeat constructor. Qed.

(** A run: the commands before the first drain, then [n] iterations without
    any, then [Shutdown]; the events sent and the sink afterwards. *)
Definition run (n : nat) (frames : list Frame) (start_ms : UnixMs)
    (cmds : list SchedulerCommand) : option (list Event * MockInputSink) :=
  let s := Scheduler_new (mkScripted frames 0) MockInputSink_new Perception_new
             (ManualClock_new start_ms) [] in
  match run_until_shutdown 3 SchedulerConfig_default
          (cmds :: replicate n [] ++ [[Shutdown]]) s with
  | Ret (true, s) => Some (event_tx s, input s)
  | _ => None
  end.
Definition event_type (e : Event) : option string :=
  match value_get "type" (Event_to_value e) with Some (Str s) => Some s | _ => None end.
Definition count (k : string) (l : list Event) : nat :=
  length (filter (λ e, event_type e = Some k) l).
Definition clicks (m : MockInputSink) : nat :=
  length (filter (λ c, Is_true match c with MockClickDetailed _ _ _ _ => true | _ => false end) (log m)).

(* src: crates/vcli-runtime/src/scheduler.rs 594-609 empty_program *)
Definition empty_program : Program := {|
  p_version := "0.1"; p_name := "x"; p_id := None; p_trigger := OnSubmit; p_predicates := ∅;
  p_watches := []; p_body := []; p_on_complete := None; p_on_fail := None; p_timeout_ms := None;
  p_labels := ∅; p_priority := 0 |}.
(* src: crates/vcli-runtime/src/scheduler.rs 611-648 shutdown_exits_cleanly *)
Definition shutdown_exits_cleanly : test :=
  let s := Scheduler_new (mkScripted [] 0) MockInputSink_new Perception_new (ManualClock_new 0)
             [SubmitValidated sample_program_id empty_program ∅; Shutdown] in
  match run_until_shutdown 3 SchedulerConfig_default [[]] s with
  | Ret (true, s) =>
      let kinds := omap event_type (event_tx s) in
      bool_decide ("program.submitted" ∈ kinds) && bool_decide ("program.state_changed" ∈ kinds)
  | _ => false
  end.

Example error_event_scheduler_tests :
  [code_strings_are_spec_stable; runtime_error_maps_to_code; emit_stamps_with_clock_now;
   shutdown_exits_cleanly] = replicate 4 true.
Proof. vm_compute. reflexivity. Qed.

(** ** tests/scenarios

    Whatever the number of ticks the scheduler gets to, once it has had enough
    of them for the scenario.  The sink records a call as the crate's mock. *)

Definition color (r g b : Z) : PredicateKind := ColorAt (mkPoint 0 0) (mkRgb r g b) 0.
Definition click_at (x y : Z) : Step := Click (TargetAbsolute (mkPoint x y)) LeftButton.
Definition scenario (name : string) (preds : Predicates) (watches : list Watch) (body : list Step)
    (pri : Priority) : Program := {|
  p_version := "0.1"; p_name := name; p_id := None; p_trigger := OnSubmit;
  p_predicates := preds; p_watches := watches; p_body := body; p_on_complete := None;
  p_on_fail := None; p_timeout_ms := None; p_labels := ∅; p_priority := pri |}.
Definition submit (p : Program) : list SchedulerCommand := [SubmitValidated sample_program_id p ∅].
(** Numbers of ticks to try. *)
Definition ticks : list nat := [8; 11].
Definition always (frames : list Frame) (start_ms : UnixMs) (cmds : list SchedulerCommand)
    (t : list Event → MockInputSink → test) : test :=
  forallb (λ n, match run n frames start_ms cmds with Some (l, m) => t l m | None => false end) ticks.

(* src: crates/vcli-runtime/tests/scenarios/until_predicate.rs 20-110 until_predicate_retires_watch *)
Definition until_predicate_retires_watch : test :=
  let p := scenario "until" {[ "is_red" := color 255 0 0; "done" := color 0 255 0 ]}
    [mkWatch (ByName "is_red") [click_at 0 0] 0 (UntilPredicate "done")] [] 0 in
  always [red_; green_; green_] 0 (submit p) (λ l _,
    bool_decide (1 ≤ count "watch.fired" l ≤ 2) && assert_eq (count "program.completed" l) 1).
(* src: crates/vcli-runtime/tests/scenarios/watch_timeout.rs 19-94 watch_timeout_retires_after_budget *)
Definition watch_timeout_retires_after_budget : test :=
  let p := scenario "timeout" {[ "red" := color 255 0 0 ]} [mkWatch (ByName "red") [] 0 (TimeoutMs 200)] [] 0 in
  always [blue_] 0 (submit p) (λ l _,
    assert_eq (count "watch.fired" l) 0 && assert_eq (count "program.completed" l) 1).
(* src: crates/vcli-runtime/tests/scenarios/assert_failure.rs 18-84 assert_fail_on_fail_fails_program *)
Definition assert_fail_on_fail_fails_program : test :=
  let p := scenario "assert" {[ "red" := color 255 0 0 ]} [] [Assert "red" FailFail] 0 in
  always [blue_] 0 (submit p) (λ l _, assert_eq (count "program.failed" l) 1).
(* src: crates/vcli-runtime/tests/scenarios/wait_for_timeout.rs 19-84 wait_for_fails_on_timeout_when_on_timeout_fail *)
Definition wait_for_fails_on_timeout_when_on_timeout_fail : test :=
  let p := scenario "wait" {[ "red" := color 255 0 0 ]} [] [WaitFor "red" 150 TimeoutFail] 0 in
  always [blue_] 0 (submit p) (λ l _, assert_eq (count "program.failed" l) 1).
(* src: crates/vcli-runtime/tests/scenarios/while_true_retry.rs 20-103 throttled_persistent_fires_at_most_once_per_window *)
Definition throttled_persistent_fires_at_most_once_per_window : test :=
  let p := scenario "throttle" {[ "red" := color 255 0 0 ]}
    [mkWatch (ByName "red") [click_at 0 0] 10000 Persistent] [] 0 in
  always [red_; blue_; red_; blue_; red_] 0 (submit p) (λ _ m, assert_eq (clicks m) 1).
(* src: crates/vcli-runtime/tests/scenarios/input_postcondition.rs 20-102 click_then_wait_for_new_state_succeeds *)
Definition click_then_wait_for_new_state_succeeds : test :=
  let p := scenario "postcond" {[ "green" := color 0 255 0 ]} []
    [click_at 0 0; WaitFor "green" 300 TimeoutFail] 0 in
  always [red_; green_] 0 (submit p) (λ l m,
    assert_eq (count "program.completed" l) 1 && assert_eq (clicks m) 1).
(* src: crates/vcli-runtime/tests/scenarios/novelty_timeout.rs 20-93 wait_for_postcondition_fails_when_never_truthy *)
Definition wait_for_postcondition_fails_when_never_truthy : test :=
  let p := scenario "novelty" {[ "green" := color 0 255 0 ]} []
    [click_at 0 0; WaitFor "green" 200 TimeoutFail] 0 in
  always [red_; red_; red_] 0 (submit p) (λ l _, assert_eq (count "program.failed" l) 1).
(* src: crates/vcli-runtime/tests/scenarios/elapsed_ms_since_true.rs 21-99 elapsed_ms_since_true_fires_after_delay *)
Definition elapsed_ms_since_true_fires_after_delay : test :=
  let p := scenario "delay" {[ "red" := color 255 0 0; "delayed_red" := ElapsedMsSinceTrue "red" 200 ]}
    [mkWatch (ByName "delayed_red") [click_at 0 0] 0 OneShot] [] 0 in
  always [red_] 0 (submit p) (λ l _, assert_eq (count "watch.fired" l) 1).
(* src: crates/vcli-runtime/tests/scenarios/one_shot_watch.rs 20-109 one_shot_watch_fires_once_and_completes *)
Definition one_shot_watch_fires_once_and_completes : test :=
  let p := scenario "one_shot" {[ "red" := color 255 0 0 ]}
    [mkWatch (ByName "red") [click_at 10 20] 0 OneShot] [] 0 in
  always [red_] 1000 (submit p) (λ l m,
    forallb (λ k, bool_decide (0 < count k l)) ["program.submitted"; "watch.fired"; "program.completed"]
    && assert_eq (clicks m) 1).
(* src: crates/vcli-runtime/tests/scenarios/persistent_watch.rs 20-101 persistent_watch_fires_on_each_edge *)
Definition persistent_watch_fires_on_each_edge : test :=
  let p := scenario "persistent" {[ "red" := color 255 0 0 ]}
    [mkWatch (ByName "red") [click_at 0 0] 0 Persistent] [] 0 in
  always [red_; blue_; red_; blue_; red_] 0 (submit p) (λ l _, bool_decide (2 ≤ count "watch.fired" l)).
(* src: crates/vcli-runtime/tests/scenarios/action_conflict.rs 20-52 build_program *)
Definition build_program_conflict (name : string) : Program :=
  scenario name {[ "red" := color 255 0 0 ]} [mkWatch (ByName "red") [click_at 0 0] 0 OneShot] [] 0.
Definition id1 : ProgramId :=
  mkProgramId (default 0%N (uuid_parse "11111111-1111-4567-8910-111213141516")).
Definition id2 : ProgramId :=
  mkProgramId (default 0%N (uuid_parse "22222222-2222-4567-8910-111213141516")).
(* src: crates/vcli-runtime/tests/scenarios/action_conflict.rs 54-105 two_programs_same_frame_arbitrate_to_one_winner *)
Definition two_programs_same_frame_arbitrate_to_one_winner : test :=
  always [red_] 0 [SubmitValidated id1 (build_program_conflict "p1") ∅;
                   SubmitValidated id2 (build_program_conflict "p2") ∅] (λ l _,
    assert_eq (count "action.dispatched" l) 1 && assert_eq (count "action.deferred" l) 1).
(* src: crates/vcli-runtime/tests/scenarios/predicate_dedup.rs 20-49 build_program *)
Definition build_program_dedup (name : string) (pri : Priority) : Program :=
  scenario name {[ "red" := color 255 0 0 ]} [mkWatch (ByName "red") [] 0 OneShot] [] pri.
(* src: crates/vcli-runtime/tests/scenarios/predicate_dedup.rs 51-100 two_programs_same_predicate_both_fire *)
Definition two_programs_same_predicate_both_fire : test :=
  always [red_] 0 [SubmitValidated id1 (build_program_dedup "p1" 1) ∅;
                   SubmitValidated id2 (build_program_dedup "p2" 2) ∅]
    (λ l _, assert_eq (count "watch.fired" l) 2).
(* src: crates/vcli-runtime/tests/scenarios/daemon_restart_marker.rs 17-78 resume_running_starts_body_at_cursor_and_emits_resumed *)
Definition resume_running_starts_body_at_cursor_and_emits_resumed : test :=
  let p := scenario "resumable" ∅ [] [SleepMs 1; SleepMs 1; SleepMs 1] 0 in
  always [solid 0 0 0 0] 0 [ResumeRunning sample_program_id 2 p ∅] (λ l _,
    bool_decide (0 < count "program.resumed" l) && assert_eq (count "program.completed" l) 1).

Example scenario_tests :
  [until_predicate_retires_watch; watch_timeout_retires_after_budget;
   assert_fail_on_fail_fails_program; wait_for_fails_on_timeout_when_on_timeout_fail;
   throttled_persistent_fires_at_most_once_per_window; click_then_wait_for_new_state_succeeds;
   wait_for_postcondition_fails_when_never_truthy; elapsed_ms_since_true_fires_after_delay;
   one_shot_watch_fires_once_and_completes; persistent_watch_fires_on_each_edge;
   two_programs_same_frame_arbitrate_to_one_winner; two_programs_same_predicate_both_fire;
   resume_running_starts_body_at_cursor_and_emits_resumed] = replicate 13 true.
Proof. vm_compute. reflexivity. Qed.
