(* ===== verification/ConformDaemon.v ===== *)
(** * Conformance: vcli-store and vcli-daemon

    The tests of [vcli-store] and [vcli-daemon], run on the model over an
    empty disk on which nothing fails.  Left out: what the tests ask of SQLite
    itself (the pragmas in force, the names in [sqlite_master]). *)

From S2P Require Import Prelude Wp Digits Json CoreTypes Sha256 Serde EventWire Host Store Demo.
From S2P Require Import Conform ConformCore.

Local Open Scope vcli_scope.

#[local] Existing Instances reliable_host core_sha2.

#[export] Instance StoreError_eq_dec : EqDecision StoreError.
Proof. solve_decision. Defined.
#[export] Instance TraceKind_eq_dec : EqDecision TraceKind.
Proof. solve_decision. Defined.

(** ** Running a test

    A test is a run over the store; [?] and [unwrap] fail it.  [attempt] is the
    result of a call that may fail. *)

Abbreviation store_test := (ST Store (result StoreError test)).

Definition scratch_root : Path := path_of_string "/tmp/d".
Definition blank : Store := mkStore scratch_root empty_db fs_empty 0.
Definition holds (t : store_test) : test :=
  match t blank with Ret (Ok b, _) => b | _ => false end.
(** [let (mut s, _) = Store::open(d.path()).unwrap()] and what follows. *)
Definition opened (t : store_test) : test := holds (_ ←! open scratch_root; t).
Definition attempt {A} (m : ST Store (result StoreError A)) : ST Store (result StoreError (result StoreError A)) :=
  r ← m; sok r.
(** [path.exists()] *)
Definition on_disk (p : Path) : ST Store (result StoreError bool) := s ← get; sok (fs_exists (fs s) p).

(** Two ids that [ProgramId::new] may draw, and one it does not draw again. *)
Definition fresh1 : ProgramId := mkProgramId 1.
Definition fresh2 : ProgramId := mkProgramId 2.
Definition fresh3 : ProgramId := mkProgramId 3.
Definition utf8 (s : string) : bytes := map (λ a, Z.of_nat (Ascii.nat_of_ascii a)) (String.list_ascii_of_string s).

Definition row_at (id : ProgramId) (name : string) (submitted_at : Z) : NewProgram :=
  mkNewProgram id name "{}" Pending submitted_at "{}".

(** ** store.rs *)

(* src: crates/vcli-store/src/store.rs 332-341 open_creates_data_root_and_assets_dir *)
Definition open_creates_data_root_and_assets_dir : test :=
  let nested := path_push (path_push scratch_root "nested") "vcli" in
  holds (recovered ←! open nested;
         a ←! on_disk nested;
         b ←! on_disk (path_push (path_push nested "assets") "sha256");
         s ← get;
         sok (a && b && match recovered with [] => true | _ => false end
              && assert_eq (data_root s) nested)).
(* src: crates/vcli-store/src/store.rs 343-349 open_is_idempotent *)
Definition open_is_idempotent : test := holds (_ ←! open scratch_root; _ ←! open scratch_root; sok true).
(* src: crates/vcli-store/src/store.rs 351-360 new_program_row *)
Definition new_program_row (id : ProgramId) (name : string) : NewProgram := row_at id name 1000.
(* src: crates/vcli-store/src/store.rs 362-373 insert_and_get_program_roundtrip *)
Definition insert_and_get_program_roundtrip : test :=
  opened (_ ←! insert_program (new_program_row fresh1 "yt");
          row ←! get_program fresh1;
          sok (assert_eq (pr_id row) fresh1 && assert_eq (pr_name row) "yt"
               && assert_eq (pr_state row) Pending && assert_eq (pr_body_cursor row) 0%Z)).
(* src: crates/vcli-store/src/store.rs 375-382 get_program_unknown_id_errors *)
Definition get_program_unknown_id_errors : test :=
  opened (r ←! attempt (get_program fresh1);
          sok match r with Err (StoreUnknownProgram _) => true | _ => false end).
(* src: crates/vcli-store/src/store.rs 384-401 update_state_writes_started_and_finished_at *)
Definition update_state_writes_started_and_finished_at : test :=
  opened (_ ←! insert_program (new_program_row fresh1 "x");
          _ ←! update_state fresh1 Running 5000;
          r1 ←! get_program fresh1;
          _ ←! update_state fresh1 Completed 9000;
          r2 ←! get_program fresh1;
          sok (assert_eq (pr_state r1) Running && assert_eq (pr_started_at r1) (Some 5000%Z)
               && assert_eq (pr_finished_at r1) None
               && assert_eq (pr_state r2) Completed && assert_eq (pr_started_at r2) (Some 5000%Z)
               && assert_eq (pr_finished_at r2) (Some 9000%Z))).
(* src: crates/vcli-store/src/store.rs 403-411 set_body_cursor_persists *)
Definition set_body_cursor_persists : test :=
  opened (_ ←! insert_program (new_program_row fresh1 "x");
          _ ←! set_body_cursor fresh1 7;
          r ←! get_program fresh1; sok (assert_eq (pr_body_cursor r) 7%Z)).
(* src: crates/vcli-store/src/store.rs 413-431 list_programs_returns_all_when_no_filter *)
Definition list_programs_returns_all_when_no_filter : test :=
  opened (_ ←! insert_program (row_at fresh1 "a" 0);
          _ ←! insert_program (row_at fresh2 "b" 1);
          _ ←! insert_program (row_at fresh3 "c" 2);
          all ←! list_programs None;
          sok (assert_eq (length all) 3 && assert_eq (pr_name <$> head all) (Some "a"))).
(* src: crates/vcli-store/src/store.rs 433-454 list_programs_filters_by_state *)
Definition list_programs_filters_by_state : test :=
  opened (_ ←! insert_program (row_at fresh1 "r" 0);
          _ ←! insert_program (row_at fresh2 "p" 0);
          _ ←! update_state fresh1 Running 100;
          runs ←! list_programs (Some Running);
          sok (assert_eq (map pr_name runs) ["r"])).
(* src: crates/vcli-store/src/store.rs 456-466 reopen_preserves_rows *)
Definition reopen_preserves_rows : test :=
  opened (_ ←! insert_program (new_program_row fresh1 "x");
          _ ←! open scratch_root;
          r ←! get_program fresh1; sok (assert_eq (pr_name r) "x")).

Example store_tests :
  [open_creates_data_root_and_assets_dir; open_is_idempotent; insert_and_get_program_roundtrip;
   get_program_unknown_id_errors; update_state_writes_started_and_finished_at;
   set_body_cursor_persists; list_programs_returns_all_when_no_filter;
   list_programs_filters_by_state; reopen_preserves_rows] = replicate 9 true.
Proof. vm_compute. reflexivity. Qed.

(** ** gc.rs *)

Definition put_png (b : string) : ST Store (result StoreError PutAssetOutcome) :=
  put_asset (utf8 b) (Some "png") 0.

(* src: crates/vcli-store/src/gc.rs 208-222 seed_terminal *)
Definition seed_terminal (id : ProgramId) (finished_at : Z) : ST Store (result StoreError ()) :=
  _ ←! insert_program (row_at id "x" 0);
  update_state id Completed finished_at.
(* src: crates/vcli-store/src/gc.rs 224-234 gc_programs_keeps_recent_and_prunes_old *)
Definition gc_programs_keeps_recent_and_prunes_old : test :=
  opened (_ ←! seed_terminal fresh1 1000;
          _ ←! seed_terminal fresh2 10000;
          n ←! gc_programs 5000;
          old ←! attempt (get_program fresh1);
          recent ←! attempt (get_program fresh2);
          sok (assert_eq n 1%Z && is_err old && negb (is_err recent))).
(* src: crates/vcli-store/src/gc.rs 236-253 gc_programs_does_not_touch_active_rows *)
Definition gc_programs_does_not_touch_active_rows : test :=
  opened (_ ←! insert_program (row_at fresh1 "x" 0);
          _ ←! update_state fresh1 Running 100;
          n ←! gc_programs i64_max; sok (assert_eq n 0%Z)).
(* src: crates/vcli-store/src/gc.rs 255-277 gc_assets_removes_unreferenced_only *)
Definition gc_assets_removes_unreferenced_only : test :=
  opened (_ ←! insert_program (row_at fresh1 "x" 0);
          keep ←! put_png "A";
          drop ←! put_png "B";
          _ ←! link_program_asset fresh1 (pa_hash keep);
          counts ←! gc_assets;
          k ←! get_asset (pa_hash keep);
          d ←! get_asset (pa_hash drop);
          sok (assert_eq counts (1, 1)%Z && bool_decide (is_Some k) && assert_eq d None)).
(* src: crates/vcli-store/src/gc.rs 279-289 gc_all_reports_all_counts *)
Definition gc_all_reports_all_counts : test :=
  opened (_ ←! seed_terminal fresh1 1000;
          _ ←! put_png "X";
          report ←! gc_all 5000;
          sok (assert_eq (programs_deleted report) 1%Z && assert_eq (assets_deleted report) 1%Z
               && assert_eq (blobs_deleted report) 1%Z)).
(* src: crates/vcli-store/src/gc.rs 291-307 gc_orphan_blobs_removes_files_without_rows *)
Definition gc_orphan_blobs_removes_files_without_rows : test :=
  opened (orphan ← slift (asset_blob_path scratch_root
            "ab12deadbeefbabecafefeedface0000000000000000000000000000000000aa" (Some "png"));
          parent ← unwrap (path_parent orphan);
          _ ←! io parent (create_dir_all parent);
          _ ←! io orphan (create_file orphan);
          _ ←! io orphan (write_all orphan (utf8 "orphan"));
          before ←! on_disk orphan;
          n ←! gc_orphan_blobs;
          after ←! on_disk orphan;
          sok (before && assert_eq n 1%Z && negb after)).

(* src: crates/vcli-store/tests/gc.rs 11-38 seven_day_retention_boundary *)
Definition seven_day_retention_boundary : test :=
  let cutoff := (1700000000000 - RETENTION_DAYS * 86400000)%Z in
  opened (_ ←! seed_terminal fresh1 (cutoff - 1);
          _ ←! seed_terminal fresh2 (cutoff + 1);
          n ←! gc_programs cutoff;
          a ←! attempt (get_program fresh1);
          b ←! attempt (get_program fresh2);
          sok (assert_eq n 1%Z && is_err a && negb (is_err b))).

Example gc_tests :
  [gc_programs_keeps_recent_and_prunes_old; gc_programs_does_not_touch_active_rows;
   gc_assets_removes_unreferenced_only; gc_all_reports_all_counts;
   gc_orphan_blobs_removes_files_without_rows; seven_day_retention_boundary] = replicate 6 true.
Proof. vm_compute. reflexivity. Qed.

(** ** events.rs *)

Definition completed (at_ : Z) (id : ProgramId) : Event := mkEvent at_ (ProgramCompleted id None).

(* src: crates/vcli-store/src/events.rs 103-115 seed *)
Definition seed : ST Store (result StoreError ProgramId) :=
  _ ←! insert_program (row_at fresh1 "x" 0); sok fresh1.
(* src: crates/vcli-store/src/events.rs 117-132 append_event_returns_monotonic_ids *)
Definition append_event_returns_monotonic_ids : test :=
  opened (id ←! seed;
          a ←! append_event id (completed 10 id);
          b ←! append_event id (completed 10 id);
          sok (a <? b)%Z).
(* src: crates/vcli-store/src/events.rs 134-159 stream_events_returns_since_cursor *)
Definition stream_events_returns_since_cursor : test :=
  opened (id ←! seed;
          _ ←! try_fold (λ _ i, _ ←! append_event id (mkEvent i
                           (ProgramStateChanged id Waiting Running ("t" +:+ pretty i))); sok tt)
                 tt [0; 1; 2; 3; 4]%Z;
          first ←! stream_events 0 10;
          third ← unwrap (first !! 2);
          tail ←! stream_events (se_id third) 10;
          sok (assert_eq (length first) 5 && assert_eq (length tail) 2
               && assert_eq (se_id <$> head tail) (se_id <$> first !! 3))).
(* src: crates/vcli-store/src/events.rs 161-181 stream_events_respects_limit *)
Definition stream_events_respects_limit : test :=
  opened (id ←! seed;
          _ ←! try_fold (λ _ _, _ ←! append_event id (completed 0 id); sok tt) tt (seq 0 10);
          rows ←! stream_events 0 3; sok (assert_eq (length rows) 3)).
(** [DELETE FROM programs WHERE id = ?1] *)
(* src: crates/vcli-store/src/events.rs 183-204 cascade_delete_removes_events *)
Definition cascade_delete_removes_events : test :=
  opened (id ←! seed;
          _ ←! append_event id (completed 0 id);
          _ ←! sql (λ t, Ok ((), delete_programs (has_id id) t));
          rows ←! stream_events 0 10; sok (assert_eq (length rows) 0)).

Example event_tests :
  [append_event_returns_monotonic_ids; stream_events_returns_since_cursor;
   stream_events_respects_limit; cascade_delete_removes_events] = replicate 4 true.
Proof. vm_compute. reflexivity. Qed.

(** ** resume.rs *)

(* src: crates/vcli-store/src/resume.rs 91-105 seed_failed_daemon_restart *)
Definition seed_failed_daemon_restart (id : ProgramId) (cursor : Z)
    : ST Store (result StoreError (list RecoveredProgram)) :=
  _ ←! insert_program (row_at id "x" 0);
  _ ←! update_state id Running 100;
  _ ←! set_body_cursor id cursor;
  s ← get; open (data_root s).
(* src: crates/vcli-store/src/resume.rs 107-120 resume_preserves_cursor_by_default *)
Definition resume_preserves_cursor_by_default : test :=
  opened (_ ←! seed_failed_daemon_restart fresh1 4;
          _ ←! open scratch_root;
          from_step ←! resume_program fresh1 false 200;
          r ←! get_program fresh1;
          sok (assert_eq from_step 4%Z && assert_eq (pr_state r) Running
               && assert_eq (pr_body_cursor r) 4%Z && assert_eq (pr_last_error_code r) None)).
(* src: crates/vcli-store/src/resume.rs 122-132 resume_from_start_resets_cursor *)
Definition resume_from_start_resets_cursor : test :=
  opened (_ ←! seed_failed_daemon_restart fresh1 9;
          _ ←! open scratch_root;
          from_step ←! resume_program fresh1 true 200;
          r ←! get_program fresh1;
          sok (assert_eq from_step 0%Z && assert_eq (pr_body_cursor r) 0%Z)).
(* src: crates/vcli-store/src/resume.rs 134-153 resume_rejects_non_daemon_restart_failure *)
Definition resume_rejects_non_daemon_restart_failure : test :=
  opened (_ ←! insert_program (row_at fresh1 "x" 0);
          _ ←! update_state fresh1 Failed 10;
          _ ←! set_last_error fresh1 "wait_for_timeout" "timed out";
          r ←! attempt (resume_program fresh1 false 11);
          sok match r with Err (StoreNotResumable _) => true | _ => false end).
(* src: crates/vcli-store/src/resume.rs 155-161 resume_unknown_program_errors *)
Definition resume_unknown_program_errors : test :=
  opened (r ←! attempt (resume_program fresh1 false 0);
          sok match r with Err (StoreUnknownProgram _) => true | _ => false end).

(* src: crates/vcli-store/tests/restart_recovery.rs 11-24 insert_running *)
Definition insert_running (id : ProgramId) (cursor : Z) : ST Store (result StoreError ()) :=
  _ ←! insert_program (row_at id "x" 0);
  _ ←! update_state id Running 100;
  set_body_cursor id cursor.
(* src: crates/vcli-store/tests/restart_recovery.rs 26-50 running_programs_transition_to_failed_on_reopen *)
Definition running_programs_transition_to_failed_on_reopen : test :=
  opened (_ ←! insert_running fresh1 3;
          _ ←! insert_running fresh2 0;
          recovered ←! open scratch_root;
          r1 ←! get_program fresh1;
          r2 ←! get_program fresh2;
          sok (assert_eq (length recovered) 2
               && assert_eq (pr_state r1) Failed
               && assert_eq (pr_last_error_code r1) (Some "daemon_restart")
               && assert_eq (pr_body_cursor r1) 3%Z
               && assert_eq (pr_state r2) Failed && assert_eq (pr_body_cursor r2) 0%Z)).
(* src: crates/vcli-store/tests/restart_recovery.rs 52-65 second_reopen_after_recovery_is_a_no_op *)
Definition second_reopen_after_recovery_is_a_no_op : test :=
  opened (_ ←! insert_running fresh1 5;
          first ←! open scratch_root;
          second ←! open scratch_root;
          sok (assert_eq (length first) 1 && assert_eq (length second) 0)).

Example resume_tests :
  [resume_preserves_cursor_by_default; resume_from_start_resets_cursor;
   resume_rejects_non_daemon_restart_failure; resume_unknown_program_errors;
   running_programs_transition_to_failed_on_reopen; second_reopen_after_recovery_is_a_no_op]
  = replicate 6 true.
Proof. vm_compute. reflexivity. Qed.

(** ** assets.rs *)

(* src: crates/vcli-store/src/assets.rs 196-204 put_then_get_roundtrips_bytes *)
Definition put_then_get_roundtrips_bytes : test :=
  opened (out ←! put_asset (utf8 "hello") (Some "txt") 0;
          b ←! get_asset (pa_hash out);
          sok (pa_created out && assert_eq b (Some (utf8 "hello")))).
(* src: crates/vcli-store/src/assets.rs 206-212 asset_hash_of_bytes_is_deterministic *)
Definition asset_hash_of_bytes_is_deterministic : test :=
  let a := of_bytes (utf8 "x") in
  assert_eq a (of_bytes (utf8 "x")) && assert_ne a (of_bytes (utf8 "y")).
(* src: crates/vcli-store/src/assets.rs 214-223 put_asset_dedupes_same_bytes *)
Definition put_asset_dedupes_same_bytes : test :=
  opened (a ←! put_asset (utf8 "png-bytes-here") (Some "png") 0;
          b ←! put_asset (utf8 "png-bytes-here") (Some "png") 10;
          sok (assert_eq (pa_hash a) (pa_hash b) && pa_created a && negb (pa_created b))).
(* src: crates/vcli-store/src/assets.rs 225-231 get_asset_missing_returns_none *)
Definition get_asset_missing_returns_none : test :=
  opened (b ←! get_asset (of_bytes (utf8 "never-stored")); sok (assert_eq b None)).
(* src: crates/vcli-store/src/assets.rs 233-252 link_program_asset_and_list *)
Definition link_program_asset_and_list : test :=
  opened (_ ←! insert_program (row_at fresh1 "p" 0);
          out ←! put_png "bytes";
          _ ←! link_program_asset fresh1 (pa_hash out);
          _ ←! link_program_asset fresh1 (pa_hash out);
          listed ←! referenced_asset_hashes;
          sok (assert_eq listed [pa_hash out])).
(* src: crates/vcli-store/src/assets.rs 254-261 blob_lands_under_expected_sharded_path *)
Definition blob_lands_under_expected_sharded_path : test :=
  opened (out ←! put_png "abc";
          expected ← slift (asset_blob_path scratch_root (pa_hash out) (Some "png"));
          on_disk expected).

(* src: crates/vcli-store/tests/assets_dedup.rs 7-17 two_programs_sharing_an_asset_keep_one_blob *)
Definition two_programs_sharing_an_asset_keep_one_blob : test :=
  opened (a ←! put_png "IMAGE-BYTES";
          b ←! put_png "IMAGE-BYTES";
          path ← slift (asset_blob_path scratch_root (pa_hash a) (Some "png"));
          there ←! on_disk path;
          sok (assert_eq (pa_hash a) (pa_hash b) && there)).

Example asset_tests :
  [put_then_get_roundtrips_bytes; asset_hash_of_bytes_is_deterministic;
   put_asset_dedupes_same_bytes; get_asset_missing_returns_none; link_program_asset_and_list;
   blob_lands_under_expected_sharded_path; two_programs_sharing_an_asset_keep_one_blob]
  = replicate 7 true.
Proof. vm_compute. reflexivity. Qed.

(** ** migrations.rs and pragmas.rs *)

(* src: crates/vcli-store/src/migrations.rs 126-128 memory *)
Definition memory : Store := blank.
Definition in_memory (t : store_test) : test :=
  match t memory with Ret (Ok b, _) => b | _ => false end.
(* src: crates/vcli-store/src/migrations.rs 130-134 fresh_db_starts_at_version_zero *)
Definition fresh_db_starts_at_version_zero : test :=
  in_memory (v ←! current_version; sok (assert_eq v 0%Z)).
(* src: crates/vcli-store/src/migrations.rs 136-141 run_migrations_goes_to_latest *)
Definition run_migrations_goes_to_latest : test :=
  in_memory (_ ←! run_migrations; v ←! current_version; sok (assert_eq v LATEST_SCHEMA_VERSION)).
(** The number of rows of [schema_version]. *)
Definition versions : ST Store (result StoreError nat) :=
  s ← get; sok (length (default [] (schema_version (conn s)))).
(* src: crates/vcli-store/src/migrations.rs 143-155 run_migrations_is_idempotent *)
Definition run_migrations_is_idempotent : test :=
  in_memory (_ ←! run_migrations; _ ←! run_migrations; _ ←! run_migrations;
             v ←! current_version;
             n ←! versions;
             sok (assert_eq v LATEST_SCHEMA_VERSION
                  && assert_eq (Z.of_nat n) LATEST_SCHEMA_VERSION)).
(* src: crates/vcli-store/src/migrations.rs 157-178 all_v0_tables_exist_after_migration *)
Definition all_v0_tables_exist_after_migration : test :=
  in_memory (_ ←! run_migrations; s ← get;
             sok (bool_decide (is_Some (tables (conn s)))
                  && bool_decide (is_Some (schema_version (conn s))))).
(* src: crates/vcli-store/src/migrations.rs 180-192 schema_newer_error_on_db_ahead_of_binary *)
Definition schema_newer_error_on_db_ahead_of_binary : test :=
  in_memory (_ ←! run_migrations;
             _ ← modify (λ s, set_conn (mkDb
                   ((λ l, l ++ [LATEST_SCHEMA_VERSION + 5]%Z) <$> schema_version (conn s))
                   (tables (conn s))) s);
             r ←! attempt run_migrations;
             sok match r with Err (StoreSchemaNewer _ _) => true | _ => false end).

Example migration_tests :
  [fresh_db_starts_at_version_zero; run_migrations_goes_to_latest; run_migrations_is_idempotent;
   all_v0_tables_exist_after_migration; schema_newer_error_on_db_ahead_of_binary]
  = replicate 5 true.
Proof. vm_compute. reflexivity. Qed.

(** ** paths.rs *)

(* src: crates/vcli-store/src/paths.rs 55-59 db_path_is_data_root_joined_vcli_db *)
Definition db_path_is_data_root_joined_vcli_db : test :=
  assert_eq (db_path (path_of_string "/root")) (path_of_string "/root/vcli.db").
(* src: crates/vcli-store/src/paths.rs 61-65 assets_root_is_sharded_by_sha256 *)
Definition assets_root_is_sharded_by_sha256 : test :=
  assert_eq (assets_root (path_of_string "/root")) (path_of_string "/root/assets/sha256").
(* src: crates/vcli-store/src/paths.rs 67-80 blob_path_uses_first_four_chars_as_two_shards *)
Definition blob_path_uses_first_four_chars_as_two_shards : test :=
  let h := "abcdef0123456789abcdef0123456789abcdef0123456789abcdef0123456789" in
  let_ok p := asset_blob_path (path_of_string "/root") h (Some "png") in
  assert_eq p (path_of_string ("/root/assets/sha256/ab/cd/" +:+ h +:+ ".png")).
(* src: crates/vcli-store/src/paths.rs 82-86 blob_path_without_extension *)
Definition blob_path_without_extension : test :=
  let_ok p := asset_blob_path (path_of_string "/r") "deadbeef" None in
  assert_eq p (path_of_string "/r/assets/sha256/de/ad/deadbeef").
(* src: crates/vcli-store/src/paths.rs 88-92 blob_path_panics_on_short_hash *)
Definition blob_path_panics_on_short_hash : test :=
  should_panic (asset_blob_path (path_of_string "/r") "ab" None).

(** ** traces.rs *)

(* src: crates/vcli-store/src/traces.rs 134-139 empty_flush_is_noop *)
Definition empty_flush_is_noop : test := opened (_ ←! flush_traces []; sok true).
(* src: crates/vcli-store/src/traces.rs 141-168 flush_and_read_roundtrip *)
Definition flush_and_read_roundtrip : test :=
  opened (_ ←! insert_program (row_at fresh1 "x" 0);
          _ ←! flush_traces [mkTraceRecord 7 999 (Some fresh1) TraceStateChange
                               (json "{'from':'waiting','to':'running'}")];
          back ←! read_traces fresh1;
          r ← unwrap (head back);
          sok (assert_eq (length back) 1 && assert_eq (trace_tick r) 7%Z
               && assert_eq (trace_kind r) TraceStateChange
               && assert_eq (value_get "to" (trace_payload r)) (Some (Str "running")))).

(** ** error.rs *)

(* src: crates/vcli-store/src/error.rs 69-73 unknown_program_display *)
Definition unknown_program_display : test :=
  assert_eq (StoreError_display (StoreUnknownProgram "abc")) "unknown program: abc".
(* src: crates/vcli-store/src/error.rs 75-83 bad_state_transition_carries_fields *)
Definition bad_state_transition_carries_fields : test :=
  contains "completed -> running"
    (StoreError_display (StoreBadStateTransition "completed" "running" "terminal")).
(* src: crates/vcli-store/src/error.rs 85-93 schema_newer_display *)
Definition schema_newer_display : test :=
  let s := StoreError_display (StoreSchemaNewer 5 3) in contains "5" s && contains "3" s.

Example path_trace_error_tests :
  [db_path_is_data_root_joined_vcli_db; assets_root_is_sharded_by_sha256;
   blob_path_uses_first_four_chars_as_two_shards; blob_path_without_extension;
   blob_path_panics_on_short_hash; empty_flush_is_noop; flush_and_read_roundtrip;
   unknown_program_display; bad_state_transition_carries_fields; schema_newer_display]
  = replicate 10 true.
Proof. vm_compute. reflexivity. Qed.

(** * vcli-daemon

    A daemon over a disk on which nothing fails, its clock at 7 and the ids it
    draws counted from 100.  Left out: the texts of [DaemonError], the drop of a
    boxed guard and the installation of the signal handlers. *)

From S2P Require Import Canonical ProgramWire DslError DslValidate IpcWire Perception.
From S2P Require Import Materialize Ipc Daemon Boot ConformWire.
From S2P Require Scheduler.

#[local] Existing Instances reliable_host core_sha2.

#[local] Instance conform_daemon : DaemonHost := {| str_debug := string_json; join_error := "panicked" |}.
#[local] Instance conform_surroundings : Surroundings := {|
  clock_ms _ := 7%Z; new_uuid n := (100 + n)%N; uptime_ms _ := 1%Z |}.
#[local] Instance conform_silence : Subscriptions := {| received _ := [] |}.
#[local] Instance conform_op : OpDebug := {| op_debug _ := "op" |}.

(** ** Running a test

    A test is a run of the daemon; [unwrap] fails it. *)

Abbreviation daemon_test := (ST Daemon (result () test)).

(** [store.lock().unwrap()] and a call that must succeed. *)
Definition with_store {E A} (m : ST Store (result E A)) : ST Daemon (result () A) :=
  r ← locked m; mret (map_err (λ _, ()) r).
Definition data (v : Value) (ks : list string) : option Value :=
  foldl (λ v k, v ← v; value_get k v) (Some v) ks.
(** The first command in the queue. *)
Definition try_recv : ST Daemon (option SchedulerCommand) := d ← get; mret (head (queued (d_cmds d))).
Definition is_str (v : option Value) : test := match v with Some (Str _) => true | _ => false end.
Definition is_u64 (v : option Value) : test :=
  match v with Some (Num n) => bool_decide (is_Some (as_u64 n)) | _ => false end.

(* src: crates/vcli-daemon/src/handler.rs 464-481 fresh_handler *)
Definition fresh_handler : option Daemon :=
  match open scratch_root blank with
  | Ret (Ok _, store) => Some (new_channels store)
  | _ => None
  end.
Definition on_fixture (t : daemon_test) : test :=
  match fresh_handler with
  | Some d => match t d with Ret (Ok b, _) => b | _ => false end
  | None => false
  end.
(** [serde_json::to_value(&handler.handle(RequestId::new(), op).await.unwrap())] *)
Definition ask_for (op : RequestOp) : ST Daemon (result () Value) :=
  r ← handle_op rid op;
  mret (map_err (λ _, ()) (Response_to_value <$> r)).

(** ** handler.rs *)

(* src: crates/vcli-daemon/src/handler.rs 489-499 health_returns_version_and_uptime *)
Definition health_returns_version_and_uptime : test :=
  on_fixture (body ←! ask_for Health;
    sok (assert_eq (data body ["id"]) (Some (RequestId_to_value rid))
         && assert_eq (data body ["ok"]) (Some (Bool true))
         && is_str (data body ["result"; "version"]) && is_u64 (data body ["result"; "uptime_ms"]))).
(* src: crates/vcli-daemon/src/handler.rs 501-513 gc_returns_report_shape *)
Definition gc_returns_report_shape : test :=
  on_fixture (body ←! ask_for Gc;
    sok (assert_eq (data body ["ok"]) (Some (Bool true))
         && is_u64 (data body ["result"; "programs_deleted"])
         && is_u64 (data body ["result"; "assets_deleted"]))).
(* src: crates/vcli-daemon/src/handler.rs 515-563 events_stream_drains_history_then_closes_when_not_following *)
Definition events_stream_drains_history_then_closes_when_not_following : test :=
  on_fixture (_ ←! with_store (insert_program (row_at fresh1 "x" 0));
    _ ←! with_store (append_event fresh1 (completed 7 fresh1));
    frames ← handle_stream_op rid (Events false);
    sok match frames with [f] => bool_decide (is_Some (sf_event f)) | _ => false end).
(* src: crates/vcli-daemon/src/handler.rs 565-575 minimal_valid_program_json *)
Definition minimal_valid_program_json : string :=
  js "{'version':'0.1','name':'r','trigger':{'kind':'on_submit'},'predicates':{},'watches':[],'body':[]}".
Definition template_json (name image : string) : string :=
  js ("{'version':'0.1','name':'" +:+ name +:+ "','trigger':{'kind':'on_submit'},'predicates':{'skip':
       {'kind':'template','image':'" +:+ image +:+ "','confidence':0.9,
        'region':{'kind':'absolute','box':{'x':0,'y':0,'w':10,'h':10}}}},'watches':[],'body':[]}").
(* src: crates/vcli-daemon/src/handler.rs 577-597 template_program_json *)
Definition template_program_json (hash : string) : string := template_json "r" ("sha256:" +:+ hash).
(** Insert a running row with the program and the cursor, and reopen. *)
Definition interrupted (src : string) (cursor : Z) : ST Daemon (result () ()) :=
  _ ←! with_store (insert_program (mkNewProgram fresh1 "r" src Pending 0 "{}"));
  _ ←! with_store (update_state fresh1 Running 1);
  _ ←! with_store (set_body_cursor fresh1 cursor);
  _ ←! with_store (open scratch_root);
  sok ().
(* src: crates/vcli-daemon/src/handler.rs 599-648 resume_transitions_store_and_sends_command *)
Definition resume_transitions_store_and_sends_command : test :=
  on_fixture (_ ←! interrupted minimal_valid_program_json 3;
    body ←! ask_for (Resume fresh1 false);
    cmd ← try_recv;
    sok (assert_eq (data body ["ok"]) (Some (Bool true))
         && assert_eq (data body ["result"; "from_step"]) (Some (num 3))
         && match cmd with
            | Some (Scheduler.ResumeRunning p from_step _ _) =>
                assert_eq p fresh1 && assert_eq from_step 3%Z
            | _ => false
            end)).
(* src: crates/vcli-daemon/src/handler.rs 650-702 resume_loads_template_assets_for_scheduler *)
Definition resume_loads_template_assets_for_scheduler : test :=
  on_fixture (stored ←! with_store (put_png "PNG-BYTES");
    let hash := pa_hash stored in
    _ ←! interrupted (template_program_json hash) 2;
    body ←! ask_for (Resume fresh1 false);
    cmd ← try_recv;
    sok (assert_eq (data body ["ok"]) (Some (Bool true))
         && match cmd with
            | Some (Scheduler.ResumeRunning p _ _ assets) =>
                assert_eq p fresh1 && assert_eq (assets !! hash) (Some (utf8 "PNG-BYTES"))
            | _ => false
            end)).
(* src: crates/vcli-daemon/src/handler.rs 704-735 resume_rejects_non_resumable_program *)
Definition resume_rejects_non_resumable_program : test :=
  on_fixture (_ ←! with_store (insert_program (row_at fresh1 "r" 0));
    body ←! ask_for (Resume fresh1 false);
    sok (assert_eq (data body ["ok"]) (Some (Bool false))
         && assert_eq (data body ["error"; "code"]) (Some (Str "not_resumable")))).
(* src: crates/vcli-daemon/src/handler.rs 737-752 cancel_sends_command_and_returns_ok *)
Definition cancel_sends_command_and_returns_ok : test :=
  on_fixture (body ←! ask_for (IpcWire.Cancel fresh1);
    cmd ← try_recv;
    sok (assert_eq (data body ["ok"]) (Some (Bool true))
         && match cmd with Some (Scheduler.Cancel p _) => assert_eq p fresh1 | _ => false end)).
(* src: crates/vcli-daemon/src/handler.rs 754-769 start_sends_command_and_returns_ok *)
Definition start_sends_command_and_returns_ok : test :=
  on_fixture (body ←! ask_for (IpcWire.Start fresh1);
    cmd ← try_recv;
    sok (assert_eq (data body ["ok"]) (Some (Bool true))
         && match cmd with Some (Scheduler.Start p) => assert_eq p fresh1 | _ => false end)).
(* src: crates/vcli-daemon/src/handler.rs 771-802 list_returns_all_programs_when_no_filter *)
Definition list_returns_all_programs_when_no_filter : test :=
  on_fixture (_ ←! with_store (insert_program (row_at fresh1 "a" 0));
    _ ←! with_store (insert_program (row_at fresh2 "b" 0));
    body ←! ask_for (List_ None);
    sok match data body ["result"; "items"] with
        | Some (Arr ((a :: _) as items)) =>
            assert_eq (length items) 2
            && assert_eq (value_get "program_id" a) (Some (Str (ProgramId_to_string fresh1)))
            && assert_eq (value_get "id" a) None
        | _ => false
        end).
(* src: crates/vcli-daemon/src/handler.rs 804-829 status_returns_row_for_known_id *)
Definition status_returns_row_for_known_id : test :=
  on_fixture (_ ←! with_store (insert_program (row_at fresh1 "s" 0));
    body ←! ask_for (Status fresh1);
    sok (assert_eq (data body ["result"; "name"]) (Some (Str "s"))
         && assert_eq (data body ["result"; "state"]) (Some (Str "pending")))).
(* src: crates/vcli-daemon/src/handler.rs 831-847 status_returns_unknown_program_for_missing_id *)
Definition status_returns_unknown_program_for_missing_id : test :=
  on_fixture (body ←! ask_for (Status fresh1);
    sok (assert_eq (data body ["ok"]) (Some (Bool false))
         && assert_eq (data body ["error"; "code"]) (Some (Str "unknown_program")))).
Definition reply_id (body : Value) : option ProgramId :=
  match data body ["result"; "program_id"] with Some (Str s) => ProgramId_from_str s | _ => None end.
(* src: crates/vcli-daemon/src/handler.rs 849-885 submit_validates_and_enqueues *)
Definition submit_validates_and_enqueues : test :=
  on_fixture (body ←! ask_for (Submit (json
      "{'version':'0.1','name':'noop','trigger':{'kind':'on_submit'},'predicates':{},'watches':[],'body':[]}")
      None);
    pid ← unwrap (reply_id body);
    row ←! with_store (Store.get_program pid);
    cmd ← try_recv;
    sok (assert_eq (data body ["ok"]) (Some (Bool true)) && assert_eq (pr_name row) "noop"
         && match cmd with
            | Some (Scheduler.SubmitValidated p _ _) => assert_eq p pid
            | _ => false
            end)).
(** [std::fs::create_dir(dir)] and [std::fs::write(dir.join(name), b)]. *)
Definition place (dir : Path) (name b : string) : ST Store (result StoreError ()) :=
  let p := path_push dir name in
  _ ←! io dir (create_dir_all dir); _ ←! io p (create_file p); io p (Host.write_all p (utf8 b)).
(* src: crates/vcli-daemon/src/handler.rs 887-951 submit_rewrites_and_links_template_assets *)
Definition submit_rewrites_and_links_template_assets : test :=
  on_fixture (_ ←! with_store (place (path_push scratch_root "program-assets") "skip.png" "PNG-BYTES");
    body ←! ask_for (Submit (json (template_json "template" "skip.png")) (Some "/tmp/d/program-assets"));
    pid ← unwrap (reply_id body);
    row ←! with_store (Store.get_program pid);
    linked ←! with_store referenced_asset_hashes;
    cmd ← try_recv;
    sok (assert_eq (data body ["ok"]) (Some (Bool true))
         && contains "sha256:" (pr_source_json row) && negb (contains "skip.png" (pr_source_json row))
         && assert_eq (length linked) 1
         && match cmd with
            | Some (Scheduler.SubmitValidated _ program assets) =>
                match p_predicates program !! "skip" with
                | Some (Template image _ _ _) =>
                    let_ok hash := strip_prefix "sha256:" image in
                    assert_eq (assets !! hash) (Some (utf8 "PNG-BYTES"))
                | _ => false
                end
            | _ => false
            end)).
(* src: crates/vcli-daemon/src/handler.rs 953-959 shutdown_triggers_oneshot_and_cmd *)
Definition shutdown_triggers_oneshot_and_cmd : test :=
  on_fixture (_ ←! ask_for IpcWire.Shutdown;
    d ← get;
    cmd ← try_recv;
    sok (d_shutdown_fired d && match cmd with Some Scheduler.Shutdown => true | _ => false end)).

Example handler_tests :
  [health_returns_version_and_uptime; gc_returns_report_shape;
   events_stream_drains_history_then_closes_when_not_following;
   resume_transitions_store_and_sends_command; resume_loads_template_assets_for_scheduler;
   resume_rejects_non_resumable_program; cancel_sends_command_and_returns_ok;
   start_sends_command_and_returns_ok; list_returns_all_programs_when_no_filter;
   status_returns_row_for_known_id; status_returns_unknown_program_for_missing_id;
   submit_validates_and_enqueues; submit_rewrites_and_links_template_assets;
   shutdown_triggers_oneshot_and_cmd] = replicate 14 true.
Proof. vm_compute. reflexivity. Qed.

(** ** error.rs and bridge.rs *)

(* src: crates/vcli-daemon/src/error.rs 93-97 invalid_program_maps_to_invalid_program_code *)
Definition invalid_program_maps_to_invalid_program_code : test :=
  assert_eq (DaemonError_code (InvalidProgramError "bad path")) InvalidProgram.
(* src: crates/vcli-daemon/src/error.rs 99-103 paths_maps_to_internal *)
Definition paths_maps_to_internal : test :=
  assert_eq (DaemonError_code (Paths "no home")) InternalCode.

(* src: crates/vcli-daemon/src/bridge.rs 67-82 command_channel_is_cloneable_and_reaches_scheduler *)
Definition command_channel_is_cloneable_and_reaches_scheduler : test :=
  on_fixture (_ ← cmd_send (Scheduler.Cancel fresh1 "test");
    cmd ← try_recv;
    sok match cmd with Some (Scheduler.Cancel _ _) => true | _ => false end).

(** ** persist.rs *)

(** A row in the state, the event through the pump, and what to look at. *)
Definition pumped (state : ProgramState) (ev : Event) (t : ST Daemon (result () test)) : test :=
  on_fixture (_ ←! with_store (insert_program (mkNewProgram fresh1 "x" "{}" state 0 "{}"));
    _ ← event_send ev; _ ← pump; t).
(* src: crates/vcli-daemon/src/persist.rs 117-154 program_event_is_appended_before_broadcast *)
Definition program_event_is_appended_before_broadcast : test :=
  pumped Pending (completed 7 fresh1)
    (d ← get;
     rows ←! with_store (stream_events 0 10);
     sok (assert_eq (d_broadcast d) [completed 7 fresh1]
          && assert_eq (map se_type_tag rows) ["program.completed"])).
(* src: crates/vcli-daemon/src/persist.rs 156-162 daemon_started_has_no_program_id *)
Definition daemon_started_has_no_program_id : test :=
  assert_eq (program_id_of (DaemonStarted "0.0.1")) None.
(* src: crates/vcli-daemon/src/persist.rs 164-174 state_changed_has_program_id *)
Definition state_changed_has_program_id : test :=
  assert_eq (program_id_of (ProgramStateChanged fresh1 Waiting Running "trigger")) (Some fresh1).
(* src: crates/vcli-daemon/src/persist.rs 176-214 event_pump_persists_state_changed_before_broadcast *)
Definition event_pump_persists_state_changed_before_broadcast : test :=
  pumped Pending (mkEvent 11 (ProgramStateChanged fresh1 Pending Waiting "submitted"))
    (row ←! with_store (Store.get_program fresh1); sok (assert_eq (pr_state row) Waiting)).
(* src: crates/vcli-daemon/src/persist.rs 216-256 event_pump_persists_failed_state_and_last_error_before_broadcast *)
Definition event_pump_persists_failed_state_and_last_error_before_broadcast : test :=
  pumped Running (mkEvent 12 (ProgramFailed fresh1 "assert_failed" (Some "body[0]") None))
    (row ←! with_store (Store.get_program fresh1);
     sok (assert_eq (pr_state row) Failed
          && assert_eq (pr_last_error_code row) (Some "assert_failed")
          && assert_eq (pr_last_error_msg row) (Some "body[0]"))).

Example bridge_pump_tests :
  [invalid_program_maps_to_invalid_program_code; paths_maps_to_internal;
   command_channel_is_cloneable_and_reaches_scheduler; program_event_is_appended_before_broadcast;
   daemon_started_has_no_program_id; state_changed_has_program_id;
   event_pump_persists_state_changed_before_broadcast;
   event_pump_persists_failed_state_and_last_error_before_broadcast] = replicate 8 true.
Proof. vm_compute. reflexivity. Qed.

(** ** startup.rs and shutdown.rs *)

(* src: crates/vcli-daemon/src/startup.rs 115-127 emits_two_events_per_recovered_program *)
Definition emits_two_events_per_recovered_program : test :=
  on_fixture (_ ← emit_recovery_events [mkRecovered fresh1 2];
    d ← get;
    sok match map ev_data (d_events d) with
        | ProgramStateChanged _ _ _ _ :: ProgramFailed _ _ _ _ :: _ => true
        | _ => false
        end).
(* src: crates/vcli-daemon/src/startup.rs 129-137 emit_daemon_started_sends_one_event *)
Definition emit_daemon_started_sends_one_event : test :=
  on_fixture (_ ← emit_daemon_started;
    d ← get; sok match map ev_data (d_events d) with DaemonStarted _ :: _ => true | _ => false end).
(* src: crates/vcli-daemon/src/startup.rs 139-147 reload_waiting_does_nothing_when_none_exist *)
Definition reload_waiting_does_nothing_when_none_exist : test :=
  on_fixture (n ← reload_waiting_programs; sok (assert_eq n 0)).
(* src: crates/vcli-daemon/src/startup.rs 149-203 reload_waiting_sends_template_assets *)
Definition reload_waiting_sends_template_assets : test :=
  on_fixture (stored ←! with_store (put_png "PNG-BYTES");
    let hash := pa_hash stored in
    _ ←! with_store (insert_program (mkNewProgram fresh1 "waiting-template"
            (template_json "waiting-template" ("sha256:" +:+ hash)) Waiting 0 "{}"));
    n ← reload_waiting_programs;
    cmd ← try_recv;
    sok (assert_eq n 1
         && match cmd with
            | Some (Scheduler.SubmitValidated p _ assets) =>
                assert_eq p fresh1 && assert_eq (assets !! hash) (Some (utf8 "PNG-BYTES"))
            | _ => false
            end)).

(* src: crates/vcli-daemon/src/shutdown.rs 54-62 emit_daemon_stopped_sends_one_event *)
Definition emit_daemon_stopped_sends_one_event : test :=
  on_fixture (_ ← emit_daemon_stopped;
    d ← get; sok match map ev_data (d_events d) with DaemonStopped :: _ => true | _ => false end).

(** ** assets.rs *)

(* src: crates/vcli-daemon/src/assets.rs 181-213 template_program *)
Definition template_program (image : string) : Program := {|
  p_version := "0.1"; p_name := "p"; p_id := None; p_trigger := OnSubmit;
  p_predicates := {[ "skip" := Template image (f64_dec 9 1) (Absolute (mkRect 0 0 10 10)) 200 ]};
  p_watches := []; p_body := []; p_on_complete := None; p_on_fail := None; p_timeout_ms := None;
  p_labels := ∅; p_priority := 0 |}.
(* src: crates/vcli-daemon/src/assets.rs 215-239 relative_template_is_ingested_and_rewritten *)
Definition relative_template_is_ingested_and_rewritten : test :=
  let asset_dir := path_push scratch_root "program" in
  on_fixture (_ ←! with_store (place asset_dir "skip.png" "PNG-BYTES");
    _ ←! with_store (open (path_push scratch_root "data"));
    out ←! with_store (materialize_template_assets (template_program "skip.png") (Some asset_dir) 7);
    sok match p_predicates out.1 !! "skip" with
        | Some (Template image _ _ _) =>
            let_ok hash := strip_prefix "sha256:" image in
            assert_eq (ma_bytes out.2 !! hash) (Some (utf8 "PNG-BYTES"))
            && assert_eq (ma_hashes out.2) [hash]
        | _ => false
        end).
(* src: crates/vcli-daemon/src/assets.rs 241-252 missing_relative_base_dir_is_invalid_program *)
Definition missing_relative_base_dir_is_invalid_program : test :=
  on_fixture (r ← locked (materialize_template_assets (template_program "skip.png") None 7);
    sok match r with
        | Err e => assert_eq (AssetMaterializeError_code e) InvalidProgram
                   && contains "base_dir" (AssetMaterializeError_display e)
        | Ok _ => false
        end).

Example startup_asset_tests :
  [emits_two_events_per_recovered_program; emit_daemon_started_sends_one_event;
   reload_waiting_does_nothing_when_none_exist; reload_waiting_sends_template_assets;
   emit_daemon_stopped_sends_one_event; relative_template_is_ingested_and_rewritten;
   missing_relative_base_dir_is_invalid_program] = replicate 7 true.
Proof. vm_compute. reflexivity. Qed.

(** ** config.rs and pidfile.rs *)

(* src: crates/vcli-daemon/src/config.rs 124-129 fake_sock *)
Definition fake_sock (p : Path) : SocketPath := mkSocketPath p Override.
(* src: crates/vcli-daemon/src/config.rs 131-144 with_roots_builds_a_usable_config *)
Definition with_roots_builds_a_usable_config : test :=
  let cfg := with_roots (path_push scratch_root "data") (path_push scratch_root "logs")
               (fake_sock (path_push scratch_root "vcli.sock")) in
  assert_eq (pidfile_path cfg) (path_push (path_push scratch_root "data") "daemon.pid")
  && assert_eq (log_file_path cfg) (path_push (path_push scratch_root "logs") "daemon.log").
(* src: crates/vcli-daemon/src/config.rs 146-157 ensure_dirs_creates_nested_paths *)
Definition ensure_dirs_creates_nested_paths : test :=
  let cfg := with_roots (path_pushes scratch_root ["a"; "b"]) (path_pushes scratch_root ["c"; "d"])
               (fake_sock (path_push scratch_root "vcli.sock")) in
  on_fixture (_ ←! with_store (ensure_dirs cfg);
    s ← locked get;
    sok (bool_decide (cfg_data_root cfg ∈ dirs (fs s)) && bool_decide (cfg_log_dir cfg ∈ dirs (fs s)))).
(* src: crates/vcli-daemon/src/config.rs 159-164 platform_defaults_use_library_on_macos *)
Definition platform_defaults_use_library_on_macos : test :=
  let home := path_of_string "/Users/u" in
  let_ok got := platform_data_root Macos (mkDirs (Some home) None None) in
  assert_eq got (path_pushes home ["Library"; "Application Support"; "vcli"]).

(** The process with this id, the lock on the pidfile held or free. *)
Definition process (held : bool) : Process := {|
  own_pid := 42; lock_held := held; logging_init := Ok (); backends := Ok ();
  spawn_scheduler := Ok (); signal_handlers := Ok () |}.
Definition pid_path : Path := path_push scratch_root "daemon.pid".
Definition there (p : Path) : ST Daemon (result () bool) := with_store (on_disk p).
(* src: crates/vcli-daemon/src/pidfile.rs 141-150 acquire_creates_pidfile_with_current_pid *)
Definition acquire_creates_pidfile_with_current_pid : test :=
  on_fixture (_ ←! with_store (pidfile_acquire (process false) pid_path);
    b ←! with_store (io_call (read_file pid_path));
    sok (assert_eq (pid_in b) 42%Z)).
(* src: crates/vcli-daemon/src/pidfile.rs 152-162 second_acquire_in_same_process_returns_already_running *)
Definition second_acquire_in_same_process_returns_already_running : test :=
  on_fixture (_ ←! with_store (pidfile_acquire (process false) pid_path);
    r ← locked (pidfile_acquire (process true) pid_path);
    sok match r with Err (AlreadyRunning pid _) => assert_eq pid 42%Z | _ => false end).
(* src: crates/vcli-daemon/src/pidfile.rs 164-171 release_unlinks_pidfile *)
Definition release_unlinks_pidfile : test :=
  on_fixture (p ←! with_store (pidfile_acquire (process false) pid_path);
    _ ←! with_store (pidfile_release p);
    e ←! there p; sok (negb e)).
(* src: crates/vcli-daemon/src/pidfile.rs 173-182 drop_unlinks_pidfile *)
Definition drop_unlinks_pidfile : test :=
  on_fixture (p ←! with_store (pidfile_acquire (process false) pid_path);
    before ←! there p;
    _ ← locked (pidfile_drop p);
    after ←! there p; sok (before && negb after)).
(* src: crates/vcli-daemon/src/pidfile.rs 184-190 parent_dir_is_created_on_acquire *)
Definition parent_dir_is_created_on_acquire : test :=
  on_fixture (p ←! with_store (pidfile_acquire (process false)
                 (path_pushes scratch_root ["nested"; "dir"; "daemon.pid"]));
    there p).

Example config_pidfile_tests :
  [with_roots_builds_a_usable_config; ensure_dirs_creates_nested_paths;
   platform_defaults_use_library_on_macos; acquire_creates_pidfile_with_current_pid;
   second_acquire_in_same_process_returns_already_running; release_unlinks_pidfile;
   drop_unlinks_pidfile; parent_dir_is_created_on_acquire] = replicate 8 true.
Proof. vm_compute. reflexivity. Qed.
