(* ===== verification/ConformCli.v ===== *)
(** * Conformance: vcli-cli

    The unit tests of [vcli-cli/src], run on the model, on terminals whose
    clock gains 25 ms a question.  Left out: the tests of [clap]'s parser. *)

From S2P Require Import Prelude Wp Digits Json CoreTypes Canonical Serde EventWire DslError DslValidate.
From S2P Require Import Sha256 IpcWire Host Ipc Timestamp Cli CliCommands.
From S2P Require Import Conform ConformCore ConformWire.

Local Open Scope vcli_scope.

#[local] Existing Instance reliable_host.

#[export] Instance ExitCode_eq_dec : EqDecision ExitCode.
Proof. solve_decision. Defined.
#[export] Instance CliError_eq_dec : EqDecision CliError.
Proof. solve_decision. Defined.
#[export] Instance OutputMode_eq_dec : EqDecision OutputMode.
Proof. solve_decision. Defined.

Definition is_validation (e : CliError) : test := match e with CliValidation _ => true | _ => false end.
Definition is_not_found (e : CliError) : test := match e with CliNotFound _ => true | _ => false end.
Definition is_down (e : CliError) : test := match e with CliDaemonDown _ => true | _ => false end.
Definition is_generic (e : CliError) : test := match e with CliGeneric _ => true | _ => false end.
(** [matches!(r.unwrap_err(), ..)] *)
Definition fails_with {A} (p : CliError → test) (r : result CliError A) : test :=
  match r with Err e => p e | Ok _ => false end.

(** ** error.rs *)

(* src: crates/vcli-cli/src/error.rs 137-144 exit_code_integers_match_spec *)
Definition exit_code_integers_match_spec : test :=
  assert_eq (map exit_status [Success; GenericCode; ValidationCode; NotFoundCode; DaemonDownCode])
    [0; 1; 2; 3; 4]%Z.
(* src: crates/vcli-cli/src/error.rs 146-150 validation_error_maps_to_exit_2 *)
Definition validation_error_maps_to_exit_2 : test :=
  assert_eq (exit_code (CliValidation "bad")) ValidationCode.
(* src: crates/vcli-cli/src/error.rs 152-156 not_found_error_maps_to_exit_3 *)
Definition not_found_error_maps_to_exit_3 : test :=
  assert_eq (exit_code (CliNotFound "abc")) NotFoundCode.
(* src: crates/vcli-cli/src/error.rs 158-162 daemon_down_maps_to_exit_4 *)
Definition daemon_down_maps_to_exit_4 : test :=
  assert_eq (exit_code (CliDaemonDown "/tmp/x")) DaemonDownCode.
(* src: crates/vcli-cli/src/error.rs 164-168 generic_falls_through_to_exit_1 *)
Definition generic_falls_through_to_exit_1 : test :=
  assert_eq (exit_code (CliGeneric "oops")) GenericCode.
(* src: crates/vcli-cli/src/error.rs 170-175 from_payload_invalid_program_is_validation *)
Definition from_payload_invalid_program_is_validation : test :=
  is_validation (from_payload (ErrorPayload_simple InvalidProgram "unknown predicate")).
(* src: crates/vcli-cli/src/error.rs 177-182 from_payload_unknown_program_is_not_found *)
Definition from_payload_unknown_program_is_not_found : test :=
  is_not_found (from_payload (ErrorPayload_simple UnknownProgramCode "no such id")).
(* src: crates/vcli-cli/src/error.rs 184-189 from_payload_internal_is_generic *)
Definition from_payload_internal_is_generic : test :=
  is_generic (from_payload (ErrorPayload_simple InternalCode "boom")).
(* src: crates/vcli-cli/src/error.rs 191-208 from_payload_includes_path_line_col_hint *)
Definition from_payload_includes_path_line_col_hint : test :=
  let s := CliError_display (from_payload (mkErrorPayload InvalidProgram "unknown predicate 'skp'"
             (Some "watches[0].when") (Some 12%Z) (Some 18%Z) (Some 3%Z) (Some "skip"))) in
  forallb (λ x, contains x s) ["watches[0].when"; "line 12"; "col 18"; "skip"].
(* src: crates/vcli-cli/src/error.rs 210-216 ipc_not_found_maps_to_daemon_down *)
Definition ipc_not_found_maps_to_daemon_down : test :=
  let e := from_ipc (IpcIo NotFound) in is_down e && assert_eq (exit_code e) DaemonDownCode.
(* src: crates/vcli-cli/src/error.rs 218-223 ipc_connection_refused_maps_to_daemon_down *)
Definition ipc_connection_refused_maps_to_daemon_down : test :=
  is_down (from_ipc (IpcIo ConnectionRefused)).
(* src: crates/vcli-cli/src/error.rs 225-230 ipc_other_io_maps_to_generic *)
Definition ipc_other_io_maps_to_generic : test := is_generic (from_ipc (IpcIo (OtherIo "denied"))).

Example cli_error_tests :
  [exit_code_integers_match_spec; validation_error_maps_to_exit_2; not_found_error_maps_to_exit_3;
   daemon_down_maps_to_exit_4; generic_falls_through_to_exit_1;
   from_payload_invalid_program_is_validation; from_payload_unknown_program_is_not_found;
   from_payload_internal_is_generic; from_payload_includes_path_line_col_hint;
   ipc_not_found_maps_to_daemon_down; ipc_connection_refused_maps_to_daemon_down;
   ipc_other_io_maps_to_generic] = replicate 12 true.
Proof. vm_compute. reflexivity. Qed.

(** ** A terminal

    [serde_json::to_string_pretty]; the sockets that can be seen at the n-th
    question, nobody behind them; the files there are. *)

Definition indent (n : nat) : string := newline +:+ spaces (2 * n).
Definition bracket (n : nat) (l r : string) (items : list string) : string :=
  match items with
  | [] => l +:+ r
  | _ => l +:+ indent (S n) +:+ String.concat ("," +:+ indent (S n)) items +:+ indent n +:+ r
  end.
Fixpoint pretty_json (n : nat) (v : Value) : string :=
  match v with
  | Arr a => bracket n "[" "]" (map (pretty_json (S n)) a)
  | Obj m => bracket n "{" "}" (map (λ kv, string_json kv.1 +:+ ": " +:+ pretty_json (S n) kv.2) m)
  | v => value_json v
  end.

Definition terminal (there : N → bool) (files : list (Path * string)) : Terminal := {|
  dial _ _ := Err NotFound;
  fresh_request n := mkRequestId n;
  path_there n _ := there n;
  instant_ms n := (25 * Z.of_N n)%Z;
  spawn_daemon _ := Err NotFound;
  exec_error := NotFound;
  file_len p := match list_find (λ e, e.1 = p) files with
                | Some (_, e) => Ok (Z.of_nat (String.length e.2))
                | None => Err NotFound
                end;
  file_bytes p := match list_find (λ e, e.1 = p) files with
                  | Some (_, e) => Ok (bytes_of_string e.2)
                  | None => Err NotFound
                  end;
  real_path p := Some p;
  path_display p := "/" +:+ String.concat "/" (comps p);
  process_env := mkEnv Linux (λ _, None) 1000 (λ _, false);
  stdout_fault _ := None;
  stderr_fault _ := None;
  to_string_pretty := pretty_json 0;
  uuid_error s := "invalid character";
|}.
Definition no_socket : Terminal := terminal (λ _, false) [].
Definition a_socket : Terminal := terminal (λ _, true) [].
Definition sock : Path := path_of_string "/tmp/d/vcli.sock".

(** What a command that must succeed prints, and how one ends. *)
Definition printed (m : ST Shell (result CliError ())) : option string :=
  match m (mkShell "" "" 0) with Ret (Ok _, s) => Some (out s) | _ => None end.
Definition ends_in (m : ST Shell (result CliError ())) : option (result CliError ()) :=
  match m (mkShell "" "" 0) with Ret (r, _) => Some r | _ => None end.

(** ** util.rs, format.rs and client.rs *)

(* src: crates/vcli-cli/src/util.rs 97-102 resolve_socket_honours_explicit_override *)
Definition resolve_socket_honours_explicit_override : test :=
  let p := path_of_string "/tmp/explicit.sock" in
  let_ok got := @resolve_socket _ no_socket (Some p) in assert_eq got p.
Definition json_file : Path := path_of_string "/tmp/d/p.json".
(* src: crates/vcli-cli/src/util.rs 104-111 read_program_file_roundtrips_small_json *)
Definition read_program_file_roundtrips_small_json : test :=
  let T := terminal (λ _, false) [(json_file, js "{'name':'x'}")] in
  let_ok v := read_program_file json_file in assert_eq (value_get "name" v) (Some (Str "x")).
(* src: crates/vcli-cli/src/util.rs 113-119 read_program_file_reports_missing_as_generic *)
Definition read_program_file_reports_missing_as_generic : test :=
  let T := no_socket in fails_with is_generic (read_program_file (path_of_string "/tmp/d/nope.json")).
(* src: crates/vcli-cli/src/util.rs 121-128 read_program_file_reports_bad_json_as_validation *)
Definition read_program_file_reports_bad_json_as_validation : test :=
  let T := terminal (λ _, false) [(json_file, "{not json")] in
  fails_with is_validation (read_program_file json_file).
(* src: crates/vcli-cli/src/util.rs 130-134 format_unix_ms_epoch_is_1970_01_01 *)
Definition format_unix_ms_epoch_is_1970_01_01 : test :=
  assert_eq (format_unix_ms 0) "1970-01-01T00:00:00.000Z".
(* src: crates/vcli-cli/src/util.rs 136-142 format_unix_ms_known_instant *)
Definition format_unix_ms_known_instant : test :=
  assert_eq (format_unix_ms (20559 * 86400000 + (19 * 3600 + 42 * 60 + 11) * 1000 + 123))
    "2026-04-16T19:42:11.123Z".

(** [s.lines()] of text that ends in a newline. *)
Definition lines (s : string) : list string :=
  removelast (split_on (Ascii.ascii_of_nat 10) s).
(* src: crates/vcli-cli/src/format.rs 100-107 empty_table_renders_just_header *)
Definition empty_table_renders_just_header : test :=
  let s := render_pretty (Table_new ["id"; "kind"; "state"]) in
  assert_eq (length (lines s)) 1 && contains "id" s && contains "state" s.
(* src: crates/vcli-cli/src/format.rs 109-120 table_columns_align_to_widest_cell *)
Definition table_columns_align_to_widest_cell : test :=
  let t := push_row ["xy"; "completed"] (push_row ["abcdef"; "running"] (Table_new ["id"; "state"])) in
  match map width (lines (render_pretty t)) with
  | [a; b; c] => assert_eq a b && assert_eq b c
  | _ => false
  end.
(* src: crates/vcli-cli/src/format.rs 122-128 short_rows_get_padded *)
Definition short_rows_get_padded : test :=
  assert_eq (length (lines (render_pretty (push_row ["1"] (Table_new ["a"; "b"; "c"]))))) 2.
(* src: crates/vcli-cli/src/format.rs 130-135 render_value_pretty_returns_pretty_arg *)
Definition render_value_pretty_returns_pretty_arg : test :=
  let T := no_socket in assert_eq (render_value Pretty_ "human readable" (json "{'x':1}")) "human readable".
(* src: crates/vcli-cli/src/format.rs 137-142 render_value_json_serializes_value *)
Definition render_value_json_serializes_value : test :=
  let T := no_socket in contains (js "'x': 1") (render_value Json_ "ignored" (json "{'x':1}")).

(* src: crates/vcli-cli/src/client.rs 36-42 connect_to_missing_socket_returns_daemon_down *)
Definition connect_to_missing_socket_returns_daemon_down : test :=
  let T := no_socket in
  match connect (path_of_string "/tmp/vcli-definitely-does-not-exist.sock") (mkShell "" "" 0) with
  | Ret (Err e, _) => is_down e && assert_eq (exit_code e) DaemonDownCode
  | _ => false
  end.

(* src: crates/vcli-cli/src/cli.rs 360-364 default_output_mode_is_pretty *)
Definition default_output_mode_is_pretty : test :=
  assert_eq (output_mode (mkCli None false CHealth)) Pretty_.

Example util_format_tests :
  [resolve_socket_honours_explicit_override; read_program_file_roundtrips_small_json;
   read_program_file_reports_missing_as_generic; read_program_file_reports_bad_json_as_validation;
   format_unix_ms_epoch_is_1970_01_01; format_unix_ms_known_instant;
   empty_table_renders_just_header; table_columns_align_to_widest_cell; short_rows_get_padded;
   render_value_pretty_returns_pretty_arg; render_value_json_serializes_value;
   connect_to_missing_socket_returns_daemon_down; default_output_mode_is_pretty]
  = replicate 13 true.
Proof. vm_compute. reflexivity. Qed.

(** ** commands/cancel.rs, gc.rs, health.rs and list.rs *)

(* src: crates/vcli-cli/src/commands/cancel.rs 53-57 summary_without_reason *)
Definition summary_without_reason : test :=
  assert_eq (cancel_summary "aaa" None (json "{'state':'cancelled'}"))
    ("cancelled aaa → cancelled" +:+ newline).
(* src: crates/vcli-cli/src/commands/cancel.rs 59-67 summary_with_reason *)
Definition summary_with_reason : test :=
  contains "user abort" (cancel_summary "aaa" (Some "user abort") (json "{'state':'cancelled'}")).
(* src: crates/vcli-cli/src/commands/cancel.rs 69-75 unknown_program_payload_maps_to_not_found *)
Definition unknown_program_payload_maps_to_not_found : test :=
  let e := from_payload (ErrorPayload_simple UnknownProgramCode "no such program") in
  is_not_found e && assert_eq (exit_code e) NotFoundCode.
(* src: crates/vcli-cli/src/commands/gc.rs 44-49 summary_with_counts *)
Definition summary_with_counts : test :=
  let s := gc_summary (json "{'removed':5,'bytes_freed':1024}") in
  contains "removed 5" s && contains "1024" s.
(* src: crates/vcli-cli/src/commands/gc.rs 51-55 summary_with_no_fields_is_still_ok *)
Definition summary_with_no_fields_is_still_ok : test :=
  bool_decide (is_Some (strip_prefix "gc: ok" (gc_summary (json "{}")))).
(* src: crates/vcli-cli/src/commands/health.rs 50-64 pretty_includes_known_fields *)
Definition pretty_includes_known_fields : test :=
  let s := health_pretty (json "{'version':'0.0.1','uptime_ms':12345,
             'programs':{'running':2,'waiting':0},'last_error':null}") in
  forallb (λ x, contains x s) ["daemon: ok"; "version: 0.0.1"; "uptime_ms: 12345"; "running"]
  && negb (contains "last_error:" s).
(* src: crates/vcli-cli/src/commands/health.rs 66-71 pretty_shows_last_error_when_present *)
Definition pretty_shows_last_error_when_present : test :=
  contains "last_error" (health_pretty (json "{'last_error':'capture_failed'}")).
(* src: crates/vcli-cli/src/commands/list.rs 60-66 empty_list_shows_header_only *)
Definition empty_list_shows_header_only : test :=
  let s := format_table (json "{'items':[]}") in
  assert_eq (length (lines s)) 1 && contains "id" s && contains "state" s.
(* src: crates/vcli-cli/src/commands/list.rs 68-84 list_with_two_items_prints_both_rows *)
Definition list_with_two_items_prints_both_rows : test :=
  let s := format_table (json "{'items':[
    {'program_id':'aaa','name':'yt','state':'running','submitted_at':'2026-04-16T19:42:11.123Z'},
    {'program_id':'bbb','name':'buy','state':'completed','submitted_at':'2026-04-16T19:42:12.000Z'}]}") in
  assert_eq (length (lines s)) 3
  && forallb (λ x, contains x s) ["aaa"; "buy"; "running"; "completed"].
(* src: crates/vcli-cli/src/commands/list.rs 86-91 missing_fields_do_not_panic *)
Definition missing_fields_do_not_panic : test :=
  contains "x" (format_table (json "{'items':[{'program_id':'x'}]}")).

(** ** commands/logs.rs, resume.rs and submit.rs *)

(* src: crates/vcli-cli/src/commands/logs.rs 129-140 format_event_line_has_timestamp_and_kind *)
Definition format_event_line_has_timestamp_and_kind : test :=
  let s := format_event_line (mkEvent 0 (DaemonStarted "0.0.1")) in
  contains "1970-01-01T00:00:00.000Z" s && contains "daemon.started" s.
(* src: crates/vcli-cli/src/commands/logs.rs 142-148 parse_since_accepts_our_own_iso_format *)
Definition parse_since_accepts_our_own_iso_format : test :=
  assert_eq (parse_since (Some "1970-01-01T00:00:00.000Z")) (Ok (Some 0%Z)).
(* src: crates/vcli-cli/src/commands/logs.rs 150-154 parse_since_without_millis_also_works *)
Definition parse_since_without_millis_also_works : test :=
  assert_eq (parse_since (Some "1970-01-01T00:00:00Z")) (Ok (Some 0%Z)).
(* src: crates/vcli-cli/src/commands/logs.rs 156-160 parse_since_rejects_missing_z *)
Definition parse_since_rejects_missing_z : test :=
  fails_with is_generic (parse_since (Some "1970-01-01T00:00:00")).
(* src: crates/vcli-cli/src/commands/logs.rs 162-166 parse_since_rejects_garbage *)
Definition parse_since_rejects_garbage : test :=
  fails_with is_generic (parse_since (Some "not a timestamp")).
(* src: crates/vcli-cli/src/commands/logs.rs 168-171 parse_since_none_is_ok_none *)
Definition parse_since_none_is_ok_none : test := assert_eq (parse_since None) (Ok None).
(* src: crates/vcli-cli/src/commands/resume.rs 70-74 summary_reports_step *)
Definition summary_reports_step : test :=
  assert_eq (resume_summary "abc" (json "{'from_step':3}")) ("resumed abc from step 3" +:+ newline).
(* src: crates/vcli-cli/src/commands/resume.rs 76-80 summary_missing_step_defaults_to_zero *)
Definition summary_missing_step_defaults_to_zero : test :=
  contains "step 0" (resume_summary "abc" (json "{}")).
(* src: crates/vcli-cli/src/commands/resume.rs 82-88 bad_state_transition_becomes_validation_exit_2 *)
Definition bad_state_transition_becomes_validation_exit_2 : test :=
  let e := map_resume_error (ErrorPayload_simple BadStateTransitionCode "program is running") in
  is_validation e && assert_eq (exit_code e) ValidationCode.
(* src: crates/vcli-cli/src/commands/resume.rs 90-94 not_resumable_becomes_validation_exit_2 *)
Definition not_resumable_becomes_validation_exit_2 : test :=
  is_validation (map_resume_error (ErrorPayload_simple NotResumableCode "has unresumable watches")).
(* src: crates/vcli-cli/src/commands/resume.rs 96-103 resume_precondition_failed_becomes_validation_exit_2 *)
Definition resume_precondition_failed_becomes_validation_exit_2 : test :=
  is_validation (map_resume_error
    (ErrorPayload_simple ResumePreconditionFailed "step N-1 no longer true")).
(* src: crates/vcli-cli/src/commands/resume.rs 105-109 unknown_program_still_maps_to_not_found *)
Definition unknown_program_still_maps_to_not_found : test :=
  is_not_found (map_resume_error (ErrorPayload_simple UnknownProgramCode "no such id")).
(* src: crates/vcli-cli/src/commands/submit.rs 137-142 extract_program_id_happy_path *)
Definition extract_program_id_happy_path : test :=
  let T := no_socket in
  let_ok id := extract_program_id (json "{'program_id':'12345678-1234-4567-8910-111213141516'}") in
  assert_eq (ProgramId_to_string id) "12345678-1234-4567-8910-111213141516".
(* src: crates/vcli-cli/src/commands/submit.rs 144-149 extract_program_id_missing_field_is_generic_error *)
Definition extract_program_id_missing_field_is_generic_error : test :=
  let T := no_socket in fails_with is_generic (extract_program_id (json "{}")).
(* src: crates/vcli-cli/src/commands/submit.rs 151-156 extract_program_id_malformed_is_generic_error *)
Definition extract_program_id_malformed_is_generic_error : test :=
  let T := no_socket in
  fails_with is_generic (extract_program_id (json "{'program_id':'not-a-uuid'}")).
(* src: crates/vcli-cli/src/commands/submit.rs 158-168 completed_event_is_terminal *)
Definition completed_event_is_terminal : test :=
  is_terminal (mkEvent 0 (ProgramCompleted sample_program_id None)).
(* src: crates/vcli-cli/src/commands/submit.rs 170-182 failed_event_is_terminal *)
Definition failed_event_is_terminal : test :=
  is_terminal (mkEvent 0 (ProgramFailed sample_program_id "boom" None None)).
(* src: crates/vcli-cli/src/commands/submit.rs 184-196 state_changed_to_cancelled_is_terminal *)
Definition state_changed_to_cancelled_is_terminal : test :=
  is_terminal (mkEvent 0 (ProgramStateChanged sample_program_id Running Cancelled "user")).
(* src: crates/vcli-cli/src/commands/submit.rs 198-210 state_changed_to_running_is_not_terminal *)
Definition state_changed_to_running_is_not_terminal : test :=
  negb (is_terminal (mkEvent 0 (ProgramStateChanged sample_program_id Waiting Running "trigger"))).
(* src: crates/vcli-cli/src/commands/submit.rs 212-223 watch_fired_is_not_terminal *)
Definition watch_fired_is_not_terminal : test :=
  negb (is_terminal (mkEvent 0 (WatchFired sample_program_id 0 "inline"))).

Example command_tests :
  [summary_without_reason; summary_with_reason; unknown_program_payload_maps_to_not_found;
   summary_with_counts; summary_with_no_fields_is_still_ok; pretty_includes_known_fields;
   pretty_shows_last_error_when_present; empty_list_shows_header_only;
   list_with_two_items_prints_both_rows; missing_fields_do_not_panic;
   format_event_line_has_timestamp_and_kind; parse_since_accepts_our_own_iso_format;
   parse_since_without_millis_also_works; parse_since_rejects_missing_z; parse_since_rejects_garbage;
   parse_since_none_is_ok_none; summary_reports_step; summary_missing_step_defaults_to_zero;
   bad_state_transition_becomes_validation_exit_2; not_resumable_becomes_validation_exit_2;
   resume_precondition_failed_becomes_validation_exit_2; unknown_program_still_maps_to_not_found;
   extract_program_id_happy_path; extract_program_id_missing_field_is_generic_error;
   extract_program_id_malformed_is_generic_error; completed_event_is_terminal;
   failed_event_is_terminal; state_changed_to_cancelled_is_terminal;
   state_changed_to_running_is_not_terminal; watch_fired_is_not_terminal] = replicate 30 true.
Proof. vm_compute. reflexivity. Qed.

(** ** commands/daemon.rs *)

(* src: crates/vcli-cli/src/commands/daemon.rs 160-168 status_reports_not_running_when_socket_missing *)
Definition status_reports_not_running_when_socket_missing : test :=
  let T := no_socket in
  let_ok s := printed (daemon_status sock Pretty_) in contains "not running" s.
(* src: crates/vcli-cli/src/commands/daemon.rs 170-179 status_json_mode_emits_running_field *)
Definition status_json_mode_emits_running_field : test :=
  let T := no_socket in
  let_ok s := printed (daemon_status sock Json_) in
  let_ok v := json_from_str s in assert_eq (value_get "running" v) (Some (Bool false)).
(* src: crates/vcli-cli/src/commands/daemon.rs 181-189 stop_with_no_socket_is_not_running *)
Definition stop_with_no_socket_is_not_running : test :=
  let T := no_socket in
  let_ok s := printed (daemon_stop 200 sock Pretty_) in contains "not running" s.
(* src: crates/vcli-cli/src/commands/daemon.rs 191-200 wait_for_socket_gone_times_out_when_file_stays *)
Definition wait_for_socket_gone_times_out_when_file_stays : test :=
  let T := a_socket in
  let_ok r := ends_in (wait_for_socket_gone 200 sock 120) in fails_with is_generic r.
(* src: crates/vcli-cli/src/commands/daemon.rs 208-217 start_is_idempotent_when_socket_already_exists *)
Definition start_is_idempotent_when_socket_already_exists : test :=
  let T := a_socket in
  let_ok s := printed (daemon_start 200 sock Pretty_) in contains "already running" s.
(* src: crates/vcli-cli/src/commands/daemon.rs 219-231 start_reports_timeout_when_daemon_binary_absent *)
Definition start_reports_timeout_when_daemon_binary_absent : test :=
  let T := no_socket in
  let_ok r := ends_in (daemon_start 200 sock Pretty_) in fails_with is_generic r.
(* src: crates/vcli-cli/src/commands/daemon.rs 233-246 wait_for_socket_returns_ok_when_file_appears *)
Definition wait_for_socket_returns_ok_when_file_appears : test :=
  let T := terminal (N.leb 4) [] in
  let_ok r := ends_in (wait_for_socket 200 sock 500) in assert_eq r (Ok ()).

Example daemon_tests :
  [status_reports_not_running_when_socket_missing; status_json_mode_emits_running_field;
   stop_with_no_socket_is_not_running; wait_for_socket_gone_times_out_when_file_stays;
   start_is_idempotent_when_socket_already_exists; start_reports_timeout_when_daemon_binary_absent;
   wait_for_socket_returns_ok_when_file_appears] = replicate 7 true.
Proof. vm_compute. reflexivity. Qed.
